(* ===== verification/_CoqProject ===== *)
-Q . S2P
Prelude.v
RfcFcs.v
Osi.v
RfcDefs.v
RfcState.v
RfcRun.v
RfcFrames.v
RfcUtils.v
PortRfc.v
RfcMxFsm.v
RfcPortFsm.v
RfcL2capIf.v
PortApi.v
RfcFramesProps.v
RfcInv.v
RfcInvBase.v
RfcMxMsgs.v
RfcInvUtils.v
RfcTables.v
RfcReject.v
RfcInvPort.v
RfcInvFsm.v
RfcInvMx.v
PortData.v
RfcInvApi.v
PortWrite.v
PortRead.v
PortDeliver.v
PortStream.v
RfcSafety.v
RfcRuns.v
RfcFindings.v
RfcWitness.v
Aes.v
AesSpec.v
AesProps.v
AesKeys.v
AesFly.v
AesCmac.v
CryptoToolbox.v
CmacProps.v
CryptoThms.v
P256.v
P256Words.v
P256Mod.v
P256Inv.v
P256Naf.v
P256Ecc.v
P256Group.v
P256Mult.v
P256Thms.v
L2cDefs.v
L2cFcr.v
L2cSig.v
L2cCsm.v
L2cCmd.v
L2cCrc.v
L2cRun.v
L2cOptions.v
L2cInv.v
L2cTx.v
L2cLink.v
L2cDrain.v
L2cAck.v
L2cSar.v
L2cRx.v
L2cPdu.v
L2cEvents.v
L2cSetup.v
L2cSetupCsm.v
L2cSetupMachine.v
L2cSetupCmd.v
L2cNet.v
L2cSetupEvents.v
L2cFlow.v
L2cThms.v
L2cSetupThms.v
