(* ===== verification/Prelude.v ===== *)
(** * Verification of parts of the Fluoride Bluetooth stack

    ** The program

    RFCOMM (src/system/stack/rfcomm) carries serial ports over one L2CAP channel
    per device.  It has these parts:
    - frames (rfc_ts_frames.cc, and the checksum in rfc_utils.cc): building and
      parsing of SABME, UA, DM, DISC and UIH frames and of the messages of the
      control channel (PN, MSC, RPN, RLS, TEST, FCON, FCOFF, NSC);
    - the multiplexer (rfc_mx_fsm.cc): one state machine per device, from the
      L2CAP channel to the open control channel;
    - the data links (rfc_port_fsm.cc, rfc_port_if.cc): one state machine per
      port, with the access request to the security manager;
    - the port layer (port_rfc.cc, port_utils.cc, rfc_utils.cc): tables of ports
      and multiplexers, negotiation, queues, credits and flow control;
    - the interface to L2CAP (rfc_l2cap_if.cc) and to applications (port_api.cc).
    The two state machines call each other through the port layer.

    The cryptographic toolbox (src/system/stack/crypto_toolbox) has the AES cipher
    on bytes (aes.cc), the authentication code AES-CMAC (aes_cmac.cc) and the
    functions of the Security Manager built on it (crypto_toolbox.cc).

    The elliptic curve P-256 of the Security Manager (src/system/stack/smp): numbers of
    eight 32-bit words and arithmetic modulo the prime (p_256_multprecision.cc), points,
    scalar multiplication and the test of the peer's public key (p_256_ecc_pp.cc).

    L2CAP (src/system/stack/l2cap) carries the channels of a link.  In enhanced retransmission mode
    (l2c_fcr.cc) it cuts the SDUs of the application into numbered frames with a check sequence, keeps
    them until they are acknowledged, sends them again when the peer asks for them or a timer runs out,
    puts what arrives out of order back into order and together again, and stops at the window of
    the peer.  The link (l2c_link.cc) hands packets to the controller within its window and the share of
    the link; l2c_main.cc and l2c_csm.cc lead packets of the controller and data of the application
    to the channel, l2c_utils.cc closes it and tells of congestion.  Before that the channel is set up: the
    commands of the signalling channel are taken apart by [process_l2cap_cmd] (l2c_main.cc) and built in
    l2c_utils.cc, which also negotiates the options, and lead the channel through the nine states of l2c_csm.cc,
    together with the requests of the application (l2c_api.cc), the answers of the manager of security and the
    timers.  RFCOMM uses such a channel through callbacks; the two models are independent of each other.

    ** The model

    A function of the code is a function [rfc_cb -> outcome (A * rfc_cb)], the
    monad [M] of RfcState.v.  The state [rfc_cb] holds the two tables, the frame
    being decoded, the map from channels to multiplexers and the list of calls to
    the outside, newest first.  An [outcome] is a result or the reason why the
    process stops: an access outside an allocation, a null pointer, a failed
    [CHECK], a division by zero, or an exhausted bound.  Integers are [Z], cut to
    8, 16 or 32 bits where the code stores them.  A buffer is its bytes with
    offset and length ([BT_HDR]), and every access through a pointer into it is
    checked against the allocation.  The union in the decoded frame is kept as
    bytes, because the code reads members it did not write.

    Files, with the source they model:
    - Prelude.v: outcomes, machine integers, byte lists, record update, tactics;
    - Osi.v: buffers, queues and alarms (osi/src/fixed_queue.cc, alarm.cc,
      allocator.cc);
    - RfcDefs.v, RfcState.v: constants, control blocks, the monad, the services
      RFCOMM asks for (class [RfcEnv]) and the calls between the state machines
      (class [SmCalls]);
    - RfcFcs.v: the frame check sequence; RfcFrames.v: frames and messages;
    - RfcUtils.v: tables, timers, MTU selection; PortRfc.v: the port layer and
      rfc_port_if.cc;
    - RfcMxFsm.v, RfcPortFsm.v: the state machines; RfcPortFsm.v also has the
      handlers of the control messages;
    - RfcL2capIf.v: callbacks from L2CAP, and [sm_execute], which runs a call of
      either state machine; PortApi.v: the calls of applications;
    - Aes.v, AesCmac.v, CryptoToolbox.v: the three files of the toolbox, as
      functions on byte lists; uninitialised storage is a parameter [garbage];
    - P256.v: the curve, as functions on lists of 32-bit words; the arrays that a
      function writes, the scalar and the point it changes included, are its results;
    - L2cDefs.v: the control blocks of a channel, its link and the controller's shares, and a
      monad [L] like [M]; L2cFcr.v: the functions of l2c_fcr.cc and those of the other files
      that they call or are called by; L2cEvents.v: what happens to an open channel, as [event] and [handle];
    - L2cSig.v: the commands of the signalling channel as they are built, the negotiation of options, and the
      allocation of a channel (l2c_utils.cc, l2c_fcr.cc); the rest of the stack is the class [SigEnv];
      L2cCsm.v: the state machine (l2c_csm.cc), one function per state, with the function for the events it raises
      itself as a variable of the section and [csm_execute] tying the knot; L2cCmd.v: [process_l2cap_cmd], one
      function per command, the requests of the application and the timers, as [setup_event].

    ** The theorems

    - RfcFcs.v: the table-driven checksum is the CRC-8 of TS 07.10, the check
      accepts exactly the checksum that is sent, and which errors it detects.
    - RfcFramesProps.v, RfcMxMsgs.v: what one side builds the other decodes, for
      every frame and for the PN, MSC, RPN and RLS messages; decoding stays inside
      the packet.  RfcReject.v: corrupt frames and closed handles have no effect.
    - RfcInv.v to RfcInvApi.v: the invariant [inv] of the state and its
      preservation by every function, by a small Hoare logic ([pres]); the
      state machines enter through the class [SmOk], proved against the interface
      and discharged in RfcInvMx.v by induction on the nesting of calls.
    - RfcSafety.v: the events of the outside world, the states they lead to
      ([reachable]), those they lead to without a stale collision retry
      ([orderly], see the assumptions), and what holds in all of the latter: memory
      safety, bounded queues, ranges, and that no port opens without a grant of
      the security manager.
    - PortData.v to PortStream.v: the data path.  Writes, sends, deliveries and
      reads are characterised exactly, what is written on one side arrives on the
      other, and the receive side refines a byte pipe.  The conditions on a port
      are the records [writable] (open, credit flow control, modem signals
      exchanged, nothing queued unless the peer closed the flow) and [rx_open]
      (open, no data callback, no line error, not held back by its own peer); a
      frame has to fit into the receive queue ([rx_room]), as it does when the
      sender keeps to its credits.
    - RfcTables.v: allocation finds a free entry when there is one; the receive
      window.
    - RfcRuns.v, RfcFindings.v, RfcWitness.v: two connected instances run to an
      open session; defects as concrete runs, one of them a write past the handle
      table; the theorems at concrete states.
    - AesSpec.v: AES as FIPS 197 defines it, CMAC as RFC 4493 and the functions
      of the Core specification.  AesProps.v (rounds, chaining), AesKeys.v (key
      schedule), AesFly.v (round keys computed on the way) and CmacProps.v relate
      the code to it; CryptoThms.v states the results: the code computes the
      specified functions on every input.
    - P256Words.v, P256Mod.v, P256Inv.v, P256Naf.v: the words of a number and its
      value, the reduction, inversion, and the digits of the scalar.  P256Ecc.v,
      P256Group.v, P256Mult.v: points in Jacobian coordinates simulate the chord and
      tangent law on affine points.  P256Thms.v states the results.  The reduction
      loses a borrow on some products: [reducible] says on which it is exact, and the
      theorems about points ask it of the products of their run ([safe_mult], which
      can be evaluated; it holds for the generator and scalars of full length); two
      theorems show what happens otherwise.
    - L2cCrc.v: the check sequence and the errors it detects.  L2cRun.v, L2cInv.v: what it means that an
      operation returns, and the invariant of a channel: an abstract sender (frames sent, acknowledged,
      seen) and receiver (frames accepted, held back) related to the queues.  L2cTx.v, L2cLink.v, L2cAck.v
      (sending, the link, acknowledgement and retransmission), L2cSar.v, L2cRx.v, L2cPdu.v (reassembly,
      received frames) and L2cEvents.v show that every event keeps it or closes the channel.
      L2cDrain.v: what leaves the link while the channel has nothing to send.
      L2cNet.v: two hosts and a network that loses, damages and mixes packets; an invariant of both and of the
      packets under way.  L2cFlow.v: the shares of the controller.  L2cThms.v states the results: safety against any
      peer, delivery in order, nothing acknowledged that is not delivered, flow control, and the read past the pool of links
      after a round robin.
    - L2cOptions.v: the options of a configuration, written and read.  L2cSetup.v: the invariant [setup_inv] of a channel that is
      being set up or closed, or is not in use: what each state has agreed on ([agreed]).  L2cSetupCsm.v (negotiation,
      opening, closing), L2cSetupMachine.v (the states, and the machine by induction on the events in a row),
      L2cSetupCmd.v (the parser and the commands) and L2cSetupEvents.v (all events) show that it is kept.
      L2cSetupThms.v states the results: safety of the set-up against any bytes of the peer, the composition with L2cNet.v
      from the first packet to the delivery of data, the round trip of the options, the refusal of unknown ones, and, for
      every open channel, two things that a peer can bring about and should not: a request that is refused sets the window, and
      a request that is accepted calls a callback that may be missing.

    ** Bounds

    [sm_depth] bounds how deep the state machines call each other; 3 is enough for
    every event of every orderly state, because exhausting it is an outcome that
    the safety theorem excludes.  The loops over queues run with the length of the
    queue as fuel, and the write loops with the number of bytes, each round
    consuming one element; running out is excluded by the same theorem.  The loops
    of the toolbox have fuel above their largest count (64 words of key schedule,
    255 rounds, the number of blocks); the theorems state that they return.  So do
    those of the curve: 257 halvings of a number in a row, 514 turns of the inversion
    (each removes a bit of one of two numbers), 9 words for a carry, 258 digits.
    The loops of the link in L2CAP run with the length of its queue and the window of
    the controller as fuel; [link_serves] shows that they end because of their conditions.  The loops over commands and over
    options have the number of bytes as fuel, of which each turn takes two at least; [CSM_DEPTH], three events of the
    state machine in a row, is enough for every event; [setup_safe] excludes that either runs out.

    ** Assumptions

    The answers of L2CAP, the security manager, the clock and the application are
    fields of [RfcEnv], each a function of all calls made so far; the only laws
    used are those named in [env_wf] (the application's byte source gives bytes)
    and [no_sync_grant].  The theorems of RfcSafety.v stop at an event that retries a
    connection as acceptor after a collision while an even entry of the
    multiplexer's handle table names a port that is not on that DLCI
    ([stale_retry], which can be evaluated): the code then moves the port to a
    DLCI that is not its own, and [retry_overruns_handles] shows a peer that makes
    it leave the table.

    In L2CAP the class [LinkEnv] holds what the channel is given: properties of the controller, registrations
    of applications, the power mode, where the round robin over the links breaks off and the transports of the other links; no law
    is asked of it.  After the round robin the code reads the control block where it stopped, which lies behind the pool when it
    started at the first block (for a link of high priority, or a single write of the link that has the first block) or behind
    the last one ([round_robin_reads_past_pool]).  The theorems therefore ask, by [rr_ok], for a link of normal priority that has a share of
    its own or a control block in between, and that changes of the shares keep to it ([valid_event]).  The theorems about channels start from a channel open in enhanced retransmission mode on BR/EDR
    with empty queues ([fresh]): a dynamic channel whose application takes data, windows of 1 to 63 frames, segments of 1 to 4087 bytes.
    Packets of the controller have the bytes of their header ([acl_buf]), those of the application the room for headers that L2CAP
    asks for ([sdu_ok]).  The theorems about two hosts ask for windows of at most 62 frames, because with 63 the oldest frame sent again and the
    next new one have the same number for a receiver that has accepted all; the stack itself asks for 10.

    The theorems about the set-up start from a link without the channel ([idle_link]) and ask of [SigEnv], by [env_ok], that
    packets of the controller have room for the 27 bytes that HCI prescribes, and that registrations have their callbacks, prefer basic or
    enhanced retransmission mode and have an MTU of 16 bits ([rcb_ok]).  The manager of security answers only a channel that has
    asked it ([security_answers]), the link raises only its own events and keeps a share of its own and normal priority, and there is no data
    on the channel yet ([valid_setup]); when data comes the theorems about open channels take over.  The preferred mode of a registration is shared by
    its channels: another channel that gives up enhanced retransmission mode is the event [SModeOff], which [valid_setup] excludes
    because it leads to a crash ([shared_mode_crashes]).

    ** Not modelled

    Applications that call RFCOMM from inside a callback; a congestion callback of
    L2CAP before [L2CA_DataWrite] returns; the order of iteration of the
    unordered map in [RFCOMM_ConfigInd], which looks for one entry; registration with
    L2CAP; mutexes (all calls run on one thread); tracing, metrics, the snoop
    logger and result strings.  In L2CAP: LE links and the credit based
    channels in signalling and state machine (their data path is in L2cFcr.v), the creation of links and what waits for it,
    registrations (parameters of the model), fixed channels and their data, the pools of control blocks (which block is the first free one is a
    parameter), the other channels of the link, for which commands are outputs, the scheduling among the channels of a link (a channel is
    served when its turn comes), the other links in the round robin (their use of the controller is the event [EShare]), data on a channel that is being configured, and applications that call L2CAP from inside a callback (so [is_cong_cback_context] is never set when it is tested).  The other protocols and layers of the repository
    are listed with the reasons in the manifest. *)

From Stdlib Require Import ZArith Lia.
From stdpp Require Export base list numbers.

Declare Scope rfc_scope.
Delimit Scope rfc_scope with rfc.
Global Open Scope Z_scope.
Global Open Scope rfc_scope.

(** ** Machine integers

    The C code computes in [int] and stores into [uint8_t], [uint16_t] and
    [uint32_t] fields; a store truncates.  Values are kept as [Z] and every
    truncating store is written out. *)

Definition u8 (x : Z) : Z := x mod 2 ^ 8.
Definition u16 (x : Z) : Z := x mod 2 ^ 16.
Definition u32 (x : Z) : Z := x mod 2 ^ 32.

(** C truthiness of an integer, and the integer value of a C boolean. *)
Definition nz (x : Z) : bool := negb (x =? 0).
Definition b2z (b : bool) : Z := if b then 1 else 0.

(** [a & b], [a | b], [a << n], [a >> n], [a & ~b]. *)
Notation "a .& b" := (Z.land a b) (at level 40, left associativity) : rfc_scope.
Notation "a .| b" := (Z.lor a b) (at level 44, left associativity) : rfc_scope.
Notation "a .<< n" := (Z.shiftl a n) (at level 38, left associativity) : rfc_scope.
Notation "a .>> n" := (Z.shiftr a n) (at level 38, left associativity) : rfc_scope.
Notation "a .&~ b" := (Z.ldiff a b) (at level 40, left associativity) : rfc_scope.

Definition is_u8 (x : Z) : Prop := 0 <= x < 256.
Definition is_u16 (x : Z) : Prop := 0 <= x < 65536.
Definition is_byteb (x : Z) : bool := (0 <=? x) && (x <? 256).

(** ** Abnormal termination

    A modelled operation either returns a value or stops the process:
    a null pointer is dereferenced, memory is accessed outside its
    allocation, a [CHECK] fails, or the call depth given to the mutually
    recursive state machines is exhausted (shown never to happen). *)
Inductive crash : Type :=
  | NullDeref
  | OutOfBounds
  | CheckFailed
  | DivByZero
  | OutOfFuel.

Inductive outcome (A : Type) : Type :=
  | Ok (a : A)
  | Crash (c : crash).
Arguments Ok {A} _.
Arguments Crash {A} _.

Global Instance outcome_ret : MRet outcome := fun A a => Ok a.
Global Instance outcome_bind : MBind outcome := fun A B f m =>
  match m with Ok a => f a | Crash c => Crash c end.

Definition of_option {A} (c : crash) (o : option A) : outcome A :=
  match o with Some a => Ok a | None => Crash c end.

(** The operation returns, and its result satisfies [Q]. *)
Definition returns {A} (o : outcome A) (Q : A -> Prop) : Prop :=
  match o with Ok a => Q a | Crash _ => False end.

(** ** Record update

    [r <| f := v |>] is the C assignment [r.f = v]. *)
Class Eta (R : Type) := eta : R -> R.
Class Setter {R T : Type} (proj : R -> T) := set : (T -> T) -> R -> R.
Arguments set {R T} proj {_} _ _.

Ltac solve_setter :=
  match goal with
  | |- @Setter ?R ?T ?proj =>
      let f := fresh "f" in
      let r := fresh "r" in
      intros f r;
      let i := constr:(ltac:(typeclasses eauto) : Eta R) in
      let e := eval hnf in i in
      let e' := eval cbv beta in (e r) in
      let p := eval pattern (proj r) in e' in
      match p with
      | ?k _ => let b := eval cbv beta in (k (f (proj r))) in exact b
      end
  end.

Notation "r <| f := v |>" := (set f (fun _ => v) r)
  (at level 1, left associativity, f constr at level 9,
   format "r <| f  :=  v |>") : rfc_scope.
Notation "r <| f ::= g |>" := (set f g r)
  (at level 1, left associativity, f constr at level 9,
   format "r <| f  ::=  g |>") : rfc_scope.

(** ** Byte arrays *)

Definition slice {A} (data : list A) (pos len : Z) : list A :=
  take (Z.to_nat len) (drop (Z.to_nat pos) data).

(** A one-byte read [data[pos]], a block read, and a block write; each stops
    the process when it leaves the allocation. *)
Definition rd (data : list Z) (pos : Z) : outcome Z :=
  if pos <? 0 then Crash OutOfBounds
  else of_option OutOfBounds (data !! Z.to_nat pos).

Definition rd_bytes (data : list Z) (pos len : Z) : outcome (list Z) :=
  if (pos <? 0) || (len <? 0) || (Z.of_nat (length data) <? pos + len)
  then Crash OutOfBounds
  else Ok (slice data pos len).

Definition wr_bytes (data : list Z) (pos : Z) (bs : list Z) : outcome (list Z) :=
  if (pos <? 0) || (Z.of_nat (length data) <? pos + Z.of_nat (length bs))
  then Crash OutOfBounds
  else Ok (take (Z.to_nat pos) data ++ bs ++
           drop (Z.to_nat pos + length bs) data).

(** Exhaustive checks over one byte: a boolean property that evaluates to
    [true] on [0..n-1] holds of every number in that range. *)
Definition all_below (n : Z) (P : Z -> bool) : bool := forallb P (seqZ 0 n).

(** * Lemmas *)

Create HintDb rfc discriminated.

(** Proves [Forall P [x1; ...; xn]] from the facts [P xi]. *)
Ltac solve_Forall :=
  repeat first [apply List.Forall_nil | apply List.Forall_cons | assumption].

(** Splits [Forall P [x1; ...; xn]] hypotheses. *)
Ltac inv_Forall :=
  repeat match goal with
  | H : Forall _ (_ :: _) |- _ => inversion_clear H
  end.

Lemma returns_ret {A} (a : A) (Q : A -> Prop) : Q a -> returns (mret a) Q.
Proof. done. Qed.

Lemma returns_bind {A B} (m : outcome A) (k : A -> outcome B) (R : A -> Prop) (Q : B -> Prop) :
  returns m R -> (forall a, R a -> returns (k a) Q) -> returns (m ≫= k) Q.
Proof. destruct m; simpl; [auto|done]. Qed.

Lemma returns_assoc {A B C} (m : outcome A) (k : A -> outcome B) (k' : B -> outcome C) Q :
  returns (m ≫= fun a => k a ≫= k') Q -> returns ((m ≫= k) ≫= k') Q.
Proof. by destruct m. Qed.

Lemma returns_ret_bind {A B} (a : A) (k : A -> outcome B) Q :
  returns (k a) Q -> returns (mret a ≫= k) Q.
Proof. done. Qed.

Lemma returns_mono {A} (m : outcome A) (R Q : A -> Prop) :
  returns m R -> (forall a, R a -> Q a) -> returns m Q.
Proof. destruct m; simpl; auto. Qed.

Lemma returns_inv {A} (m : outcome A) (Q : A -> Prop) :
  returns m Q -> exists a, m = Ok a /\ Q a.
Proof. destruct m; simpl; [eauto|done]. Qed.

Lemma u8_id x : is_u8 x -> u8 x = x.
Proof. intros H. apply Z.mod_small. unfold is_u8 in H. lia. Qed.

Lemma u16_id x : is_u16 x -> u16 x = x.
Proof. intros H. apply Z.mod_small. unfold is_u16 in H. lia. Qed.

Lemma u8_range x : is_u8 (u8 x).
Proof. apply (Z.mod_pos_bound x 256). lia. Qed.

Lemma u16_range x : is_u16 (u16 x).
Proof. apply (Z.mod_pos_bound x 65536). lia. Qed.

Lemma u32_range x : 0 <= u32 x < 2 ^ 32.
Proof. apply Z.mod_pos_bound. lia. Qed.

Lemma u8_idemp x : u8 (u8 x) = u8 x.
Proof. apply u8_id, u8_range. Qed.

Lemma nz_false x : nz x = false <-> x = 0.
Proof. unfold nz. rewrite negb_false_iff. apply Z.eqb_eq. Qed.

Lemma nz_true x : nz x = true <-> x <> 0.
Proof. unfold nz. rewrite negb_true_iff. apply Z.eqb_neq. Qed.

Lemma is_byteb_spec x : is_byteb x = true <-> is_u8 x.
Proof. unfold is_byteb, is_u8. rewrite andb_true_iff. lia. Qed.

#[export] Hint Resolve u8_range u16_range : rfc.

Lemma all_below_spec n P x : all_below n P = true -> 0 <= x < n -> P x = true.
Proof.
  unfold all_below. rewrite forallb_forall. intros H Hx. apply H.
  apply list_elem_of_In, elem_of_seqZ. lia.
Qed.

Lemma all_below2_spec n m P x y :
  all_below n (fun x => all_below m (P x)) = true ->
  0 <= x < n -> 0 <= y < m -> P x y = true.
Proof.
  intros H Hx Hy. apply (all_below_spec m (P x) y); [|done].
  apply (all_below_spec n (fun x => all_below m (P x)) x H Hx).
Qed.

(** The boolean operations on bytes stay within a byte. *)
Lemma testbit_ge n x i : 0 <= x < 2 ^ n -> 0 <= n <= i -> Z.testbit x i = false.
Proof.
  intros Hx Hi. rewrite <- (Z.mod_small x (2 ^ n)) by lia.
  apply Z.mod_pow2_bits_high. lia.
Qed.

Lemma bits_bound n x :
  0 <= n -> (forall i, n <= i -> Z.testbit x i = false) -> 0 <= x < 2 ^ n.
Proof.
  intros Hn H. replace x with (x mod 2 ^ n); [apply Z.mod_pos_bound; lia|].
  apply Z.bits_inj'. intros i Hi. destruct (Z.lt_ge_cases i n).
  - rewrite Z.mod_pow2_bits_low by lia. done.
  - rewrite Z.mod_pow2_bits_high by lia. by rewrite H.
Qed.

Lemma lor_bound n x y : 0 <= n -> 0 <= x < 2 ^ n -> 0 <= y < 2 ^ n -> 0 <= x .| y < 2 ^ n.
Proof.
  intros Hn Hx Hy. apply bits_bound; [done|]. intros i Hi.
  rewrite Z.lor_spec, (testbit_ge n x), (testbit_ge n y) by lia. done.
Qed.

Lemma lxor_bound n x y :
  0 <= n -> 0 <= x < 2 ^ n -> 0 <= y < 2 ^ n -> 0 <= Z.lxor x y < 2 ^ n.
Proof.
  intros Hn Hx Hy. apply bits_bound; [done|]. intros i Hi.
  rewrite Z.lxor_spec, (testbit_ge n x), (testbit_ge n y) by lia. done.
Qed.

Lemma is_u8_lor x y : is_u8 x -> is_u8 y -> is_u8 (x .| y).
Proof. apply (lor_bound 8). lia. Qed.

Lemma is_u8_lxor x y : is_u8 x -> is_u8 y -> is_u8 (Z.lxor x y).
Proof. apply (lxor_bound 8). lia. Qed.

Lemma is_u8_shiftr x n : is_u8 x -> 0 <= n -> is_u8 (x .>> n).
Proof.
  unfold is_u8. intros Hx Hn. rewrite Z.shiftr_div_pow2 by done.
  split; [apply Z.div_pos; lia|]. apply Z.le_lt_trans with x; [|lia]. apply Z.div_le_upper_bound; nia.
Qed.

Lemma is_u8_land x y : is_u8 x -> is_u8 (x .& y).
Proof.
  unfold is_u8. intros Hx. apply (bits_bound 8); [done|]. intros i Hi.
  rewrite Z.land_spec, (testbit_ge 8 x) by lia. done.
Qed.

(** ** Slices and checked accesses *)

Lemma slice_take {A} (l : list A) p n m : 0 <= p -> 0 <= n <= m -> take (Z.to_nat n) (slice l p m) = slice l p n.
Proof. intros Hp Hn. unfold slice. rewrite take_take. f_equal. lia. Qed.

Lemma slice_drop {A} (l : list A) p n m : 0 <= p -> 0 <= n <= m -> drop (Z.to_nat n) (slice l p m) = slice l (p + n) (m - n).
Proof.
  intros Hp Hn. unfold slice. rewrite skipn_firstn_comm, drop_drop. f_equal; [lia|f_equal; lia].
Qed.

Lemma length_slice {A} (data : list A) pos len :
  0 <= pos -> 0 <= len -> pos + len <= Z.of_nat (length data) ->
  length (slice data pos len) = Z.to_nat len.
Proof. intros. unfold slice. rewrite length_take, length_drop. lia. Qed.

Lemma rd_ok data pos :
  0 <= pos < Z.of_nat (length data) -> exists b, rd data pos = Ok b /\ data !! Z.to_nat pos = Some b.
Proof.
  intros H. unfold rd. destruct (Z.ltb_spec pos 0); [lia|].
  destruct (lookup_lt_is_Some_2 data (Z.to_nat pos)) as [b Hb]; [lia|].
  exists b. by rewrite Hb.
Qed.

Lemma lookup_slice {A} (data : list A) pos len i :
  0 <= pos -> 0 <= i < len ->
  slice data pos len !! Z.to_nat i = data !! Z.to_nat (pos + i).
Proof.
  intros Hp Hi. unfold slice. rewrite lookup_take_lt by lia.
  rewrite lookup_drop. f_equal. lia.
Qed.

(** Reading inside a slice whose bytes are known. *)
Lemma rd_slice data pos len i b :
  0 <= pos -> 0 <= i < len ->
  slice data pos len !! Z.to_nat i = Some b -> rd data (pos + i) = Ok b.
Proof.
  intros Hp Hi Hs. rewrite lookup_slice in Hs by done. unfold rd.
  destruct (Z.ltb_spec (pos + i) 0); [lia|]. by rewrite Hs.
Qed.

Lemma slice_slice {A} (data : list A) pos len pos' len' :
  0 <= pos -> 0 <= pos' -> 0 <= len' -> pos' + len' <= len ->
  slice (slice data pos len) pos' len' = slice data (pos + pos') len'.
Proof.
  intros. unfold slice. rewrite skipn_firstn_comm, take_take, drop_drop.
  f_equal; [lia|]. f_equal. lia.
Qed.

Lemma slice_app_mid {A} (l1 l2 l3 : list A) pos len :
  pos = Z.of_nat (length l1) -> len = Z.of_nat (length l2) ->
  slice (l1 ++ l2 ++ l3) pos len = l2.
Proof.
  intros -> ->. unfold slice. rewrite !Nat2Z.id, drop_app_length.
  apply take_app_length.
Qed.

(** What a successful block write leaves in memory. *)
Lemma wr_bytes_ok data pos bs :
  0 <= pos -> pos + Z.of_nat (length bs) <= Z.of_nat (length data) ->
  exists data', wr_bytes data pos bs = Ok data' /\
    length data' = length data /\
    slice data' pos (Z.of_nat (length bs)) = bs /\
    (forall p l, 0 <= p -> 0 <= l -> (p + l <= pos \/ pos + Z.of_nat (length bs) <= p) ->
       slice data' p l = slice data p l).
Proof.
  intros Hp Hl. eexists. split.
  { unfold wr_bytes.
    destruct (Z.ltb_spec pos 0); [lia|].
    destruct (Z.ltb_spec (Z.of_nat (length data)) (pos + Z.of_nat (length bs))); [lia|].
    reflexivity. }
  repeat split.
  - rewrite !length_app, length_take, length_drop. lia.
  - apply slice_app_mid; [|done]. rewrite length_take. lia.
  - intros p l Hp0 Hl0 [Hb|Ha].
    + unfold slice. rewrite drop_app_le by (rewrite length_take; lia).
      rewrite take_app_le by (rewrite length_drop, length_take; lia).
      rewrite skipn_firstn_comm, take_take. f_equal. lia.
    + unfold slice. rewrite app_assoc, drop_app_ge; [|rewrite length_app, length_take; lia].
      rewrite drop_drop. do 2 f_equal. rewrite length_app, length_take. lia.
Qed.

Lemma slice_split {A} (d : list A) p l1 l2 :
  0 <= p -> 0 <= l1 -> 0 <= l2 -> slice d p (l1 + l2) = slice d p l1 ++ slice d (p + l1) l2.
Proof.
  intros. unfold slice. rewrite !Z2Nat.inj_add by lia.
  rewrite <- drop_drop. set (e := drop (Z.to_nat p) d).
  rewrite <- (take_drop (Z.to_nat l1) (take (Z.to_nat l1 + Z.to_nat l2) e)).
  rewrite take_take, skipn_firstn_comm. f_equal; f_equal; lia.
Qed.

Lemma bytes_ok l : forallb is_byteb l = true -> Forall is_u8 l.
Proof.
  intros H. apply Forall_forall. intros x Hx. apply is_byteb_spec.
  rewrite forallb_forall in H. by apply H.
Qed.
