(* ===== verification/RfcFcs.v ===== *)
(** * RfcFcs: the RFCOMM frame check sequence

    The CRC-8 of [src/system/stack/rfcomm/rfc_utils.cc]: the lookup table, the
    sender's [rfc_calc_fcs] and the receiver's [rfc_check_fcs].  The theorems
    relate the table to the bit-at-a-time CRC of TS 07.10, show that the
    receiver accepts exactly the checksum the sender computes, and bound the
    corruption that can go unnoticed. *)

From Stdlib Require Import ZArith Lia.
From S2P Require Import Prelude.

(** Reversed CRC table, 8-bit, polynomial 0x07. *)
Definition rfc_crctable : list Z := [
    0x00; 0x91; 0xE3; 0x72; 0x07; 0x96; 0xE4; 0x75; 0x0E; 0x9F; 0xED;
    0x7C; 0x09; 0x98; 0xEA; 0x7B; 0x1C; 0x8D; 0xFF; 0x6E; 0x1B; 0x8A;
    0xF8; 0x69; 0x12; 0x83; 0xF1; 0x60; 0x15; 0x84; 0xF6; 0x67; 0x38;
    0xA9; 0xDB; 0x4A; 0x3F; 0xAE; 0xDC; 0x4D; 0x36; 0xA7; 0xD5; 0x44;
    0x31; 0xA0; 0xD2; 0x43; 0x24; 0xB5; 0xC7; 0x56; 0x23; 0xB2; 0xC0;
    0x51; 0x2A; 0xBB; 0xC9; 0x58; 0x2D; 0xBC; 0xCE; 0x5F;

    0x70; 0xE1; 0x93; 0x02; 0x77; 0xE6; 0x94; 0x05; 0x7E; 0xEF; 0x9D;
    0x0C; 0x79; 0xE8; 0x9A; 0x0B; 0x6C; 0xFD; 0x8F; 0x1E; 0x6B; 0xFA;
    0x88; 0x19; 0x62; 0xF3; 0x81; 0x10; 0x65; 0xF4; 0x86; 0x17; 0x48;
    0xD9; 0xAB; 0x3A; 0x4F; 0xDE; 0xAC; 0x3D; 0x46; 0xD7; 0xA5; 0x34;
    0x41; 0xD0; 0xA2; 0x33; 0x54; 0xC5; 0xB7; 0x26; 0x53; 0xC2; 0xB0;
    0x21; 0x5A; 0xCB; 0xB9; 0x28; 0x5D; 0xCC; 0xBE; 0x2F;

    0xE0; 0x71; 0x03; 0x92; 0xE7; 0x76; 0x04; 0x95; 0xEE; 0x7F; 0x0D;
    0x9C; 0xE9; 0x78; 0x0A; 0x9B; 0xFC; 0x6D; 0x1F; 0x8E; 0xFB; 0x6A;
    0x18; 0x89; 0xF2; 0x63; 0x11; 0x80; 0xF5; 0x64; 0x16; 0x87; 0xD8;
    0x49; 0x3B; 0xAA; 0xDF; 0x4E; 0x3C; 0xAD; 0xD6; 0x47; 0x35; 0xA4;
    0xD1; 0x40; 0x32; 0xA3; 0xC4; 0x55; 0x27; 0xB6; 0xC3; 0x52; 0x20;
    0xB1; 0xCA; 0x5B; 0x29; 0xB8; 0xCD; 0x5C; 0x2E; 0xBF;

    0x90; 0x01; 0x73; 0xE2; 0x97; 0x06; 0x74; 0xE5; 0x9E; 0x0F; 0x7D;
    0xEC; 0x99; 0x08; 0x7A; 0xEB; 0x8C; 0x1D; 0x6F; 0xFE; 0x8B; 0x1A;
    0x68; 0xF9; 0x82; 0x13; 0x61; 0xF0; 0x85; 0x14; 0x66; 0xF7; 0xA8;
    0x39; 0x4B; 0xDA; 0xAF; 0x3E; 0x4C; 0xDD; 0xA6; 0x37; 0x45; 0xD4;
    0xA1; 0x30; 0x42; 0xD3; 0xB4; 0x25; 0x57; 0xC6; 0xB3; 0x22; 0x50;
    0xC1; 0xBA; 0x2B; 0x59; 0xC8; 0xBD; 0x2C; 0x5E; 0xCF].

(** [rfc_crctable[i]] *)
Definition crc_at (i : Z) : Z := nth (Z.to_nat i) rfc_crctable 0.

(** The loop [while (len--) fcs = rfc_crctable[fcs ^ *p++]] over the bytes
    [p] that the pointer argument designates. *)
Fixpoint crc_loop (fcs : Z) (p : list Z) : Z :=
  match p with
  | [] => fcs
  | b :: p' => crc_loop (crc_at (Z.lxor fcs b)) p'
  end.

Definition rfc_calc_fcs (p : list Z) : Z := 0xFF - crc_loop 0xFF p.

Definition rfc_check_fcs (p : list Z) (received_fcs : Z) : bool :=
  let fcs := crc_loop 0xFF p in
  let fcs := crc_at (Z.lxor fcs received_fcs) in
  fcs =? 0xCF.

(** ** Reference: the CRC one bit at a time

    The generator x^8 + x^2 + x + 1 in reflected bit order is 0xE0. *)
Definition crc8_bit (c : Z) : Z :=
  if Z.testbit c 0 then Z.lxor (c .>> 1) 0xE0 else c .>> 1.

Definition crc8_byte (c b : Z) : Z := Nat.iter 8 crc8_bit (Z.lxor c b).

Definition crc8_ref (p : list Z) : Z := Z.lxor 0xFF (foldl crc8_byte 0xFF p).

(** Number of one bits of a byte, and of a string of bytes. *)
Definition weight (b : Z) : Z :=
  foldr Z.add 0 ((fun i => b2z (Z.testbit b i)) <$> seqZ 0 8).
Definition weights (p : list Z) : Z := foldr (fun b w => weight b + w) 0 p.

Definition xor_bytes (p e : list Z) : list Z := zip_with Z.lxor p e.

(** The table is a permutation of the bytes: it has a left inverse. *)
Definition crc_inv (y : Z) : Z :=
  default 0 (head (filter (fun i => crc_at i = y) (seqZ 0 256))).

(** Error patterns of one to three flipped bits on a three-byte header and
    its checksum leave a non-zero syndrome: an exhaustive check. *)
Definition lw2 (e0 e1 e2 : Z) : bool :=
  let w := weight e0 + weight e1 + weight e2 in
  if 3 <? w then true else
  let wf := weight (crc_loop 0 [e0; e1; e2]) in (3 <? w + wf) || (w + wf =? 0).

Definition lw1 (e0 e1 : Z) : bool :=
  if 3 <? weight e0 + weight e1 then true else all_below 256 (lw2 e0 e1).

Definition lw0 (e0 : Z) : bool := 
  if 3 <? weight e0 then true else all_below 256 (lw1 e0).

(** * Lemmas *)

Lemma crc_at_byte i : is_u8 i -> is_u8 (crc_at i).
Proof.
  intros H. apply is_byteb_spec.
  apply (all_below_spec 256 (fun i => is_byteb (crc_at i))); [vm_compute; reflexivity|].
  exact H.
Qed.

Lemma crc_loop_byte p : forall c, is_u8 c -> Forall is_u8 p -> is_u8 (crc_loop c p).
Proof.
  induction p as [|b p IH]; intros c Hc Hp; [done|].
  inversion Hp; subst. simpl. apply IH; [|done].
  apply crc_at_byte, is_u8_lxor; done.
Qed.

Lemma crc_at_ref i : is_u8 i -> crc_at i = Nat.iter 8 crc8_bit i.
Proof.
  intros H. apply Z.eqb_eq.
  apply (all_below_spec 256 (fun i => crc_at i =? Nat.iter 8 crc8_bit i));
    [vm_compute; reflexivity|exact H].
Qed.

Lemma crc_loop_ref p :
  forall c, is_u8 c -> Forall is_u8 p -> crc_loop c p = foldl crc8_byte c p.
Proof.
  induction p as [|b p IH]; intros c Hc Hp; [done|].
  inversion Hp; subst. simpl. unfold crc8_byte at 2.
  rewrite <- crc_at_ref by (by apply is_u8_lxor).
  apply IH; [|done]. by apply crc_at_byte, is_u8_lxor.
Qed.

Lemma ones_complement c : is_u8 c -> 255 - c = Z.lxor 255 c.
Proof.
  intros H. apply Z.eqb_eq.
  apply (all_below_spec 256 (fun c => 255 - c =? Z.lxor 255 c));
    [vm_compute; reflexivity|exact H].
Qed.

Lemma rfc_calc_fcs_byte p : Forall is_u8 p -> is_u8 (rfc_calc_fcs p).
Proof.
  intros H. unfold rfc_calc_fcs.
  pose proof (crc_loop_byte p 255 ltac:(unfold is_u8; lia) H). unfold is_u8 in *. lia.
Qed.
#[export] Hint Resolve rfc_calc_fcs_byte : rfc.

Lemma crc_at_CF i : is_u8 i -> (crc_at i =? 0xCF) = (i =? 255).
Proof.
  intros H. apply eqb_prop.
  apply (all_below_spec 256 (fun i => Bool.eqb (crc_at i =? 0xCF) (i =? 255)));
    [vm_compute; reflexivity|exact H].
Qed.

Lemma crc_at_inj i j : is_u8 i -> is_u8 j -> crc_at i = crc_at j -> i = j.
Proof.
  assert (Hinv : forall k, is_u8 k -> crc_inv (crc_at k) = k).
  { intros k Hk. apply Z.eqb_eq.
    apply (all_below_spec 256 (fun k => crc_inv (crc_at k) =? k));
      [vm_compute; reflexivity|exact Hk]. }
  intros Hi Hj E. rewrite <- (Hinv i Hi), <- (Hinv j Hj). by rewrite E.
Qed.

Lemma crc_step_inj c c' b :
  is_u8 c -> is_u8 c' -> is_u8 b ->
  crc_at (Z.lxor c b) = crc_at (Z.lxor c' b) -> c = c'.
Proof.
  intros Hc Hc' Hb E.
  apply crc_at_inj in E; [|by apply is_u8_lxor..].
  rewrite <- (Z.lxor_0_r c), <- (Z.lxor_0_r c'), <- (Z.lxor_nilpotent b),
    <- !Z.lxor_assoc. by rewrite E.
Qed.

Lemma crc_loop_inj p : forall c c',
  is_u8 c -> is_u8 c' -> Forall is_u8 p -> crc_loop c p = crc_loop c' p -> c = c'.
Proof.
  induction p as [|b p IH]; intros c c' Hc Hc' Hp E; [done|].
  inversion Hp; subst. apply (crc_step_inj c c' b); try done.
  apply IH; try done; by apply crc_at_byte, is_u8_lxor.
Qed.

Lemma crc_loop_app p q c : crc_loop c (p ++ q) = crc_loop (crc_loop c p) q.
Proof. revert c. induction p as [|b p IH]; intros c; [done|]. apply IH. Qed.

Lemma check_fcs_iff p f :
  Forall is_u8 p -> is_u8 f -> rfc_check_fcs p f = (f =? rfc_calc_fcs p).
Proof.
  intros Hp Hf. unfold rfc_check_fcs, rfc_calc_fcs.
  pose proof (crc_loop_byte p 255 ltac:(unfold is_u8; lia) Hp) as Hc.
  rewrite crc_at_CF by (by apply is_u8_lxor).
  rewrite ones_complement by done. generalize dependent (crc_loop 255 p).
  intros c Hc. apply eq_true_iff_eq. rewrite !Z.eqb_eq. split; [intros <-|intros ->].
  - by rewrite (Z.lxor_comm c f), Z.lxor_assoc, Z.lxor_nilpotent, Z.lxor_0_r.
  - by rewrite (Z.lxor_comm 255), <- Z.lxor_assoc, Z.lxor_nilpotent, Z.lxor_0_l.
Qed.

(** The table is linear over the exclusive or. *)
Lemma crc_at_lxor i j : is_u8 i -> is_u8 j ->
  crc_at (Z.lxor i j) = Z.lxor (crc_at i) (crc_at j).
Proof.
  intros Hi Hj. apply Z.eqb_eq.
  apply (all_below2_spec 256 256
    (fun i j => crc_at (Z.lxor i j) =? Z.lxor (crc_at i) (crc_at j)));
    [vm_compute; reflexivity|exact Hi|exact Hj].
Qed.

Lemma xor_swap a b c d :
  Z.lxor (Z.lxor a b) (Z.lxor c d) = Z.lxor (Z.lxor a c) (Z.lxor b d).
Proof.
  rewrite !Z.lxor_assoc. f_equal. rewrite <- !Z.lxor_assoc. f_equal. apply Z.lxor_comm.
Qed.

Lemma crc_loop_lxor p : forall e c d,
  length e = length p -> Forall is_u8 p -> Forall is_u8 e -> is_u8 c -> is_u8 d ->
  crc_loop (Z.lxor c d) (xor_bytes p e) = Z.lxor (crc_loop c p) (crc_loop d e).
Proof.
  induction p as [|b p IH]; intros [|x e] c d Hl Hp He Hc Hd; try done.
  inversion Hp; subst. inversion He; subst. simpl.
  rewrite xor_swap, crc_at_lxor by (by apply is_u8_lxor).
  apply IH; try done; [simpl in Hl; lia| |]; by apply crc_at_byte, is_u8_lxor.
Qed.

(** An error [e] on the header and [ef] on the checksum is accepted exactly
    when its own syndrome is zero. *)
Lemma check_fcs_error p e f ef :
  length e = length p -> Forall is_u8 p -> Forall is_u8 e -> is_u8 f -> is_u8 ef ->
  rfc_check_fcs p f = true ->
  rfc_check_fcs (xor_bytes p e) (Z.lxor f ef) = (crc_loop 0 e =? ef).
Proof.
  intros Hl Hp He Hf Hef Hok. rewrite check_fcs_iff in Hok by done.
  apply Z.eqb_eq in Hok. unfold rfc_check_fcs.
  assert (Hb : is_u8 255 /\ is_u8 0) by (unfold is_u8; lia). destruct Hb as [H255 H0].
  pose proof (crc_loop_byte p 255 H255 Hp) as Hc.
  pose proof (crc_loop_byte e 0 H0 He) as Hce.
  rewrite <- (Z.lxor_0_r 255) at 1. rewrite crc_loop_lxor by done.
  rewrite xor_swap, crc_at_CF by (repeat apply is_u8_lxor; done).
  rewrite Hok. unfold rfc_calc_fcs. rewrite ones_complement by done.
  rewrite (Z.lxor_comm 255 (crc_loop 255 p)), <- (Z.lxor_assoc _ _ 255), Z.lxor_nilpotent,
    Z.lxor_0_l.
  apply eq_true_iff_eq. rewrite !Z.eqb_eq. split.
  - intros E. apply (f_equal (Z.lxor 255)) in E.
    rewrite <- Z.lxor_assoc, Z.lxor_nilpotent, Z.lxor_0_l in E.
    by apply Z.lxor_eq in E.
  - intros ->. by rewrite Z.lxor_nilpotent.
Qed.

Lemma low_weight_check : all_below 256 lw0 = true.
Proof. vm_compute. reflexivity. Qed.

Lemma weight_nonneg b : 0 <= weight b.
Proof.
  unfold weight. induction (seqZ 0 8) as [|i l IH]; [done|].
  rewrite fmap_cons. cbn [foldr]. unfold b2z at 1. destruct (Z.testbit b i); lia.
Qed.

Lemma low_weight_syndrome e0 e1 e2 ef :
  is_u8 e0 -> is_u8 e1 -> is_u8 e2 -> is_u8 ef ->
  1 <= weights [e0; e1; e2; ef] <= 3 -> crc_loop 0 [e0; e1; e2] <> ef.
Proof.
  intros H0 H1 H2 Hf Hw Heq.
  pose proof (weight_nonneg e0). pose proof (weight_nonneg e1).
  pose proof (weight_nonneg e2). pose proof (weight_nonneg ef).
  cbn [weights foldr] in Hw.
  pose proof (all_below_spec 256 lw0 e0 low_weight_check H0) as C.
  unfold lw0 in C. destruct (Z.ltb_spec 3 (weight e0)); [lia|].
  apply (all_below_spec 256 (lw1 e0) e1) in C; [|exact H1].
  unfold lw1 in C. destruct (Z.ltb_spec 3 (weight e0 + weight e1)); [lia|].
  apply (all_below_spec 256 (lw2 e0 e1) e2) in C; [|exact H2].
  unfold lw2 in C. rewrite Heq in C. cbv zeta in C.
  destruct (Z.ltb_spec 3 (weight e0 + weight e1 + weight e2)); [lia|].
  rewrite !orb_true_iff in C. lia.
Qed.

(** * Properties *)

Lemma calc_fcs_ref p : Forall is_u8 p -> rfc_calc_fcs p = crc8_ref p.
Proof.
  intros Hp. unfold rfc_calc_fcs, crc8_ref.
  assert (H255 : is_u8 255) by (unfold is_u8; lia).
  rewrite ones_complement by (by apply crc_loop_byte).
  by rewrite crc_loop_ref.
Qed.

(** The table-driven checksum is the bit-at-a-time CRC-8 of TS 07.10 (generator x^8+x^2+x+1,
    reflected, preset to ones, complemented), and the receiver's check accepts a checksum byte exactly
    when it is that of the header. *)
Theorem fcs_is_crc8 p f : Forall is_u8 p -> is_u8 f ->
  rfc_calc_fcs p = crc8_ref p /\ (rfc_check_fcs p f = true <-> f = crc8_ref p).
Proof. intros Hp Hf. rewrite check_fcs_iff, calc_fcs_ref by done. split; [done|apply Z.eqb_eq]. Qed.

Lemma fcs_is_crc8_witness : rfc_calc_fcs [0x03; 0x3F; 0x01] = crc8_ref [0x03; 0x3F; 0x01] /\
  (rfc_check_fcs [0x03; 0x3F; 0x01] 0x1C = true <-> 0x1C = crc8_ref [0x03; 0x3F; 0x01]).
Proof.
  apply (fcs_is_crc8 [0x03; 0x3F; 0x01] 0x1C); [repeat constructor; discriminate|split; [discriminate|reflexivity]].
Defined.

Lemma detects_byte_error p q b b' :
  Forall is_u8 p -> Forall is_u8 q -> is_u8 b -> is_u8 b' -> b <> b' ->
  rfc_check_fcs (p ++ b' :: q) (rfc_calc_fcs (p ++ b :: q)) = false.
Proof.
  intros Hp Hq Hb Hb' Hne.
  assert (H255 : is_u8 255) by (unfold is_u8; lia).
  assert (Hall : Forall is_u8 (p ++ b :: q)) by (apply Forall_app; auto).
  assert (Hall' : Forall is_u8 (p ++ b' :: q)) by (apply Forall_app; auto).
  rewrite check_fcs_iff by auto with rfc. apply Z.eqb_neq. unfold rfc_calc_fcs.
  rewrite !crc_loop_app. simpl. intros E. apply Hne.
  pose proof (crc_loop_byte p 255 H255 Hp).
  assert (E2 : crc_loop (crc_at (Z.lxor (crc_loop 255 p) b)) q =
               crc_loop (crc_at (Z.lxor (crc_loop 255 p) b')) q) by lia.
  apply crc_loop_inj in E2; [|try by apply crc_at_byte, is_u8_lxor..|done].
  apply (crc_step_inj b b' (crc_loop 255 p)); try done.
  by rewrite !(Z.lxor_comm _ (crc_loop 255 p)).
Qed.

Lemma detects_three_bit_errors h0 h1 h2 f e0 e1 e2 ef :
  Forall is_u8 [h0; h1; h2; f] -> Forall is_u8 [e0; e1; e2; ef] ->
  rfc_check_fcs [h0; h1; h2] f = true ->
  1 <= weights [e0; e1; e2; ef] <= 3 ->
  rfc_check_fcs (xor_bytes [h0; h1; h2] [e0; e1; e2]) (Z.lxor f ef) = false.
Proof.
  intros Hh He Hok Hw.
  inv_Forall.
  rewrite check_fcs_error by (done || solve_Forall).
  apply Z.eqb_neq, low_weight_syndrome; done.
Qed.

(** C40: Corruption is detected: in the three-byte header of a control frame and its checksum any one, two
    or three flipped bits, and in a header of any length any change confined to one byte. *)
Theorem fcs_detects_errors h0 h1 h2 f e0 e1 e2 ef p q b b' :
  Forall is_u8 [h0; h1; h2; f] -> Forall is_u8 [e0; e1; e2; ef] ->
  rfc_check_fcs [h0; h1; h2] f = true -> 1 <= weights [e0; e1; e2; ef] <= 3 ->
  Forall is_u8 p -> Forall is_u8 q -> is_u8 b -> is_u8 b' -> b <> b' ->
  rfc_check_fcs (xor_bytes [h0; h1; h2] [e0; e1; e2]) (Z.lxor f ef) = false /\
  rfc_check_fcs (p ++ b' :: q) (rfc_calc_fcs (p ++ b :: q)) = false.
Proof. intros. split; [by apply detects_three_bit_errors|by apply detects_byte_error]. Qed.

Lemma fcs_detects_errors_witness :
  rfc_check_fcs (xor_bytes [0x03; 0x3F; 0x01] [0x04; 0x10; 0x00]) (Z.lxor 0x1C 0x80) = false /\
  rfc_check_fcs ([0x03] ++ 0x2F :: [0x01]) (rfc_calc_fcs ([0x03] ++ 0x3F :: [0x01])) = false.
Proof.
  apply (fcs_detects_errors 0x03 0x3F 0x01 0x1C 0x04 0x10 0x00 0x80 [0x03] [0x01] 0x3F 0x2F);
    (reflexivity || (repeat constructor; discriminate) || (vm_compute; split; discriminate)).
Defined.
