(* ===== verification/Osi.v ===== *)
(** * Osi: buffers, queues and timers

    The parts of [src/system/osi] and [src/system/stack/include/bt_hdr.h] the
    RFCOMM layer uses: [BT_HDR] buffers, [fixed_queue_t] and [alarm_t].

    A pointer that may be null is an [option].  [osi_malloc] aborts the process
    when memory is short, so it is total here; the content of fresh memory is
    unspecified by C and is taken as zero bytes.  The queues RFCOMM creates have
    capacity [SIZE_MAX], so the enqueue semaphore never blocks. *)

From Stdlib Require Import ZArith Lia.
From S2P Require Import Prelude.

(** ** BT_HDR *)

(** [bh_data] is the memory that follows the four header words. *)
Record BT_HDR : Type := mkBT_HDR {
  bh_event : Z;
  bh_len : Z;
  bh_offset : Z;
  bh_layer_specific : Z;
  bh_data : list Z;
}.

Global Instance eta_BT_HDR : Eta BT_HDR := fun r =>
  mkBT_HDR (bh_event r) (bh_len r) (bh_offset r) (bh_layer_specific r) (bh_data r).
Global Instance set_bh_event : Setter bh_event := ltac:(solve_setter).
Global Instance set_bh_len : Setter bh_len := ltac:(solve_setter).
Global Instance set_bh_offset : Setter bh_offset := ltac:(solve_setter).
Global Instance set_bh_layer_specific : Setter bh_layer_specific := ltac:(solve_setter).
Global Instance set_bh_data : Setter bh_data := ltac:(solve_setter).

Definition sizeof_BT_HDR : Z := 8.

Definition osi_malloc (size : Z) : BT_HDR :=
  mkBT_HDR 0 0 0 0 (replicate (Z.to_nat (size - sizeof_BT_HDR)) 0).

(** The bytes of the packet a buffer holds. *)
Definition bh_payload (b : BT_HDR) : list Z := slice (bh_data b) (bh_offset b) (bh_len b).

(** The packet lies inside the allocation. *)
Definition bh_wf (b : BT_HDR) : Prop :=
  0 <= bh_offset b /\ is_u16 (bh_len b) /\
  bh_offset b + bh_len b <= Z.of_nat (length (bh_data b)).

(** A buffer whose packet lies inside its allocation, at an offset 16 bits can
    hold, with bytes in it. *)
Definition bh_ok (b : BT_HDR) : Prop :=
  0 <= bh_offset b /\ 0 <= bh_len b /\
  bh_offset b + bh_len b <= Z.of_nat (length (bh_data b)) /\
  bh_offset b + bh_len b < 65536 /\ Forall is_u8 (bh_data b).

(** [*(p_data + pos)] and a run of [*p_data++ = ...] starting at [pos]. *)
Definition bh_read (b : BT_HDR) (pos : Z) : outcome Z := rd (bh_data b) pos.
Definition bh_read_bytes (b : BT_HDR) (pos len : Z) : outcome (list Z) :=
  rd_bytes (bh_data b) pos len.
Definition bh_write (b : BT_HDR) (pos : Z) (bs : list Z) : outcome BT_HDR :=
  data ← wr_bytes (bh_data b) pos bs; mret (b <| bh_data := data |>).

(** ** fixed_queue_t *)

Abbreviation fixed_queue := (option (list BT_HDR)).

Definition fixed_queue_new : fixed_queue := Some [].

Definition fixed_queue_is_empty (q : fixed_queue) : bool :=
  match q with None => true | Some [] => true | Some _ => false end.

Definition fixed_queue_length (q : fixed_queue) : Z :=
  match q with None => 0 | Some l => Z.of_nat (length l) end.

Definition fixed_queue_enqueue (q : fixed_queue) (data : BT_HDR) : outcome fixed_queue :=
  match q with None => Crash CheckFailed | Some l => Ok (Some (l ++ [data])) end.

Definition fixed_queue_try_dequeue (q : fixed_queue) : option (BT_HDR * fixed_queue) :=
  match q with Some (b :: l) => Some (b, Some l) | _ => None end.

Definition fixed_queue_try_peek_first (q : fixed_queue) : option BT_HDR :=
  match q with Some l => head l | None => None end.

Definition fixed_queue_try_peek_last (q : fixed_queue) : option BT_HDR :=
  match q with Some l => list.last l | None => None end.

(** Writing through the pointer that [fixed_queue_try_peek_first] or
    [fixed_queue_try_peek_last] returned: the queue holds the buffer itself. *)
Definition fixed_queue_update_first (q : fixed_queue) (b : BT_HDR) : fixed_queue :=
  match q with Some (_ :: l) => Some (b :: l) | _ => q end.

Definition fixed_queue_update_last (q : fixed_queue) (b : BT_HDR) : fixed_queue :=
  match q with Some l => Some (<[Nat.pred (length l) := b]> l) | None => None end.

(** ** alarm_t

    [None] is the null pointer, [Some None] an alarm that is not scheduled and
    [Some (Some ms)] one scheduled [ms] milliseconds ahead. *)
Abbreviation alarm := (option (option Z)).

Definition alarm_new : alarm := Some None.

Definition alarm_set_on_mloop (a : alarm) (interval_ms : Z) : outcome alarm :=
  match a with None => Crash CheckFailed | Some _ => Ok (Some (Some interval_ms)) end.

Definition alarm_cancel (a : alarm) : alarm :=
  match a with None => None | Some _ => Some None end.

(** * Lemmas *)

Lemma length_bh_payload b : bh_wf b -> length (bh_payload b) = Z.to_nat (bh_len b).
Proof.
  intros (Ho & Hl & Hb). unfold bh_payload, is_u16 in *. apply length_slice; lia.
Qed.

(** Reading the [i]-th byte of the packet. *)
Lemma bh_read_payload b i x :
  bh_wf b -> 0 <= i -> bh_payload b !! Z.to_nat i = Some x ->
  bh_read b (bh_offset b + i) = Ok x.
Proof.
  intros Hwf Hi Hx.
  assert (Hlt : i < bh_len b).
  { apply lookup_lt_Some in Hx. rewrite length_bh_payload in Hx by done.
    destruct Hwf as (_ & Hl & _). unfold is_u16 in Hl. lia. }
  destruct Hwf as (Ho & Hl & Hb). unfold bh_read.
  by apply (rd_slice _ (bh_offset b) (bh_len b)).
Qed.

Lemma bh_read_in b i :
  bh_wf b -> 0 <= i < bh_len b -> exists x, bh_read b (bh_offset b + i) = Ok x.
Proof.
  intros Hwf Hi. destruct (lookup_lt_is_Some_2 (bh_payload b) (Z.to_nat i)) as [x Hx].
  { rewrite length_bh_payload by done. lia. }
  exists x. apply bh_read_payload; [done|lia|done].
Qed.

Lemma bh_read_bytes_payload b pos len :
  bh_wf b -> 0 <= pos -> 0 <= len -> pos + len <= bh_len b ->
  bh_read_bytes b (bh_offset b + pos) len = Ok (slice (bh_payload b) pos len).
Proof.
  intros (Ho & Hl & Hb) Hp Hn Hle. unfold bh_read_bytes, rd_bytes, bh_payload.
  destruct (Z.ltb_spec (bh_offset b + pos) 0); [lia|].
  destruct (Z.ltb_spec len 0); [lia|].
  destruct (Z.ltb_spec (Z.of_nat (length (bh_data b))) (bh_offset b + pos + len)); [lia|].
  simpl. by rewrite slice_slice by lia.
Qed.

Lemma fixed_queue_dequeue_spec q b q' :
  fixed_queue_try_dequeue q = Some (b, q') <-> exists l, q = Some (b :: l) /\ q' = Some l.
Proof.
  destruct q as [[|x l]|]; simpl; split; intros H; try done.
  - by destruct H as (? & [= ] & _).
  - injection H as -> <-. by exists l.
  - by destruct H as (l' & [= -> ->] & ->).
  - by destruct H as (? & [= ] & _).
Qed.

Lemma bh_ok_wf b : bh_ok b -> bh_wf b.
Proof. intros (?&?&?&?&?). unfold bh_wf, is_u16. lia. Qed.

Lemma bh_read_ok b pos :
  Forall is_u8 (bh_data b) -> 0 <= pos < Z.of_nat (length (bh_data b)) ->
  returns (bh_read b pos) is_u8.
Proof.
  intros Hb Hp. unfold bh_read. destruct (rd_ok (bh_data b) pos Hp) as (x & -> & Hl).
  simpl. by eapply Forall_lookup_1.
Qed.

Lemma bh_read_bytes_ok b pos len :
  0 <= pos -> 0 <= len -> pos + len <= Z.of_nat (length (bh_data b)) ->
  bh_read_bytes b pos len = Ok (slice (bh_data b) pos len).
Proof.
  intros. unfold bh_read_bytes, rd_bytes.
  destruct (Z.ltb_spec pos 0); [lia|]. destruct (Z.ltb_spec len 0); [lia|].
  by destruct (Z.ltb_spec (Z.of_nat (length (bh_data b))) (pos + len)); [lia|].
Qed.

Lemma bh_write_ok b pos bs :
  0 <= pos -> pos + Z.of_nat (length bs) <= Z.of_nat (length (bh_data b)) ->
  returns (bh_write b pos bs) (fun b' => exists d, b' = b <| bh_data := d |> /\
    wr_bytes (bh_data b) pos bs = Ok d /\ length d = length (bh_data b)).
Proof.
  intros Hp Hl. destruct (wr_bytes_ok (bh_data b) pos bs Hp Hl) as (d & Hd & Hlen & _).
  unfold bh_write. rewrite Hd. simpl. by exists d.
Qed.

Lemma wr_bytes_u8 data pos bs data' :
  Forall is_u8 data -> Forall is_u8 bs -> wr_bytes data pos bs = Ok data' -> Forall is_u8 data'.
Proof.
  unfold wr_bytes. intros Hd Hb. destruct (_ || _); [done|]. intros [= <-].
  rewrite !Forall_app. split_and!; [by apply Forall_take|done|by apply Forall_drop].
Qed.

Lemma osi_malloc_length size : 8 <= size -> Z.of_nat (length (bh_data (osi_malloc size))) = size - 8.
Proof. intros. simpl. rewrite length_replicate. unfold sizeof_BT_HDR. lia. Qed.

Lemma osi_malloc_u8 size : Forall is_u8 (bh_data (osi_malloc size)).
Proof. simpl. apply Forall_replicate. unfold is_u8. lia. Qed.
