(* ===== verification/RfcDefs.v ===== *)
(** * RfcDefs: constants, macros, enumerations and control blocks

    [src/system/stack/include/rfcdefs.h], [port_api.h],
    [src/system/stack/rfcomm/rfc_int.h], [port_int.h], [rfc_event.h] and
    [rfc_state.h].  A macro constant is an abbreviation for its value; a
    function-like macro is a definition. *)

From Stdlib Require Import ZArith Lia.
From S2P Require Import Prelude Osi.

(** ** rfcdefs.h *)

Abbreviation RFCOMM_DEFAULT_MTU := 127 (only parsing).
Abbreviation RFCOMM_SABME := 0x2F (only parsing).
Abbreviation RFCOMM_UA := 0x63 (only parsing).
Abbreviation RFCOMM_DM := 0x0F (only parsing).
Abbreviation RFCOMM_DISC := 0x43 (only parsing).
Abbreviation RFCOMM_UIH := 0xEF (only parsing).
Abbreviation RFCOMM_CTRL_FRAME_LEN := 3 (only parsing).
Abbreviation RFCOMM_MIN_OFFSET := 5 (only parsing).
Abbreviation RFCOMM_DATA_OVERHEAD := 6 (only parsing).
Abbreviation RFCOMM_EA := 1 (only parsing).
Abbreviation RFCOMM_EA_MASK := 0x01 (only parsing).
Abbreviation RFCOMM_CR_MASK := 0x02 (only parsing).
Abbreviation RFCOMM_SHIFT_CR := 1 (only parsing).
Abbreviation RFCOMM_SHIFT_DLCI := 2 (only parsing).
Abbreviation RFCOMM_SHIFT_DLCI2 := 6 (only parsing).
Abbreviation RFCOMM_PF := 0x10 (only parsing).
Abbreviation RFCOMM_PF_MASK := 0x10 (only parsing).
Abbreviation RFCOMM_PF_OFFSET := 4 (only parsing).
Abbreviation RFCOMM_SHIFT_LENGTH1 := 1 (only parsing).
Abbreviation RFCOMM_SHIFT_LENGTH2 := 7 (only parsing).
Abbreviation RFCOMM_MAX_DLCI := 61 (only parsing).
Abbreviation RFCOMM_PN_DLCI_MASK := 0x3F (only parsing).
Abbreviation RFCOMM_PN_FRAM_TYPE_UIH := 0x00 (only parsing).
Abbreviation RFCOMM_PN_FRAME_TYPE_MASK := 0x0F (only parsing).
Abbreviation RFCOMM_PN_CONV_LAYER_MASK := 0xF0 (only parsing).
Abbreviation RFCOMM_PN_CONV_LAYER_TYPE_1 := 0 (only parsing).
Abbreviation RFCOMM_PN_CONV_LAYER_CBFC_I := 0xF0 (only parsing).
Abbreviation RFCOMM_PN_CONV_LAYER_CBFC_R := 0xE0 (only parsing).
Abbreviation RFCOMM_PN_PRIORITY_MASK := 0x3F (only parsing).
Abbreviation RFCOMM_PN_PRIORITY_0 := 0 (only parsing).
Abbreviation RFCOMM_PN_K_MASK := 0x07 (only parsing).
Abbreviation RFCOMM_T1_DSEC := 0 (only parsing).
Abbreviation RFCOMM_N2 := 0 (only parsing).
Abbreviation RFCOMM_K_MAX := 7 (only parsing).
Abbreviation RFCOMM_MSC_FC := 0x02 (only parsing).
Abbreviation RFCOMM_MSC_RTC := 0x04 (only parsing).
Abbreviation RFCOMM_MSC_RTR := 0x08 (only parsing).
Abbreviation RFCOMM_MSC_IC := 0x40 (only parsing).
Abbreviation RFCOMM_MSC_DV := 0x80 (only parsing).
Abbreviation RFCOMM_MSC_SHIFT_BREAK := 4 (only parsing).
Abbreviation RFCOMM_MSC_BREAK_MASK := 0xF0 (only parsing).
Abbreviation RFCOMM_MSC_BREAK_PRESENT_MASK := 0x02 (only parsing).
Abbreviation RFCOMM_RPN_BITS_MASK := 0x03 (only parsing).
Abbreviation RFCOMM_RPN_BITS_SHIFT := 0 (only parsing).
Abbreviation RFCOMM_RPN_STOP_BITS_MASK := 0x01 (only parsing).
Abbreviation RFCOMM_RPN_STOP_BITS_SHIFT := 2 (only parsing).
Abbreviation RFCOMM_RPN_PARITY_MASK := 0x01 (only parsing).
Abbreviation RFCOMM_RPN_PARITY_SHIFT := 3 (only parsing).
Abbreviation RFCOMM_RPN_PARITY_TYPE_MASK := 0x03 (only parsing).
Abbreviation RFCOMM_RPN_PARITY_TYPE_SHIFT := 4 (only parsing).
Abbreviation RFCOMM_FC_OFF := 0x00 (only parsing).
Abbreviation RFCOMM_FC_RTR_ON_INPUT := 0x04 (only parsing).
Abbreviation RFCOMM_FC_RTR_ON_OUTPUT := 0x08 (only parsing).
Abbreviation RFCOMM_FC_RTC_ON_INPUT := 0x10 (only parsing).
Abbreviation RFCOMM_FC_RTC_ON_OUTPUT := 0x20 (only parsing).
Abbreviation RFCOMM_FC_MASK := 0x3F (only parsing).
Abbreviation RFCOMM_RPN_PM_BIT_RATE := 0x0001 (only parsing).
Abbreviation RFCOMM_RPN_PM_DATA_BITS := 0x0002 (only parsing).
Abbreviation RFCOMM_RPN_PM_STOP_BITS := 0x0004 (only parsing).
Abbreviation RFCOMM_RPN_PM_PARITY := 0x0008 (only parsing).
Abbreviation RFCOMM_RPN_PM_PARITY_TYPE := 0x0010 (only parsing).
Abbreviation RFCOMM_RPN_PM_XON_CHAR := 0x0020 (only parsing).
Abbreviation RFCOMM_RPN_PM_XOFF_CHAR := 0x0040 (only parsing).
Abbreviation RFCOMM_RPN_PM_XONXOFF_ON_INPUT := 0x0100 (only parsing).
Abbreviation RFCOMM_RPN_PM_XONXOFF_ON_OUTPUT := 0x0200 (only parsing).
Abbreviation RFCOMM_RPN_PM_RTR_ON_INPUT := 0x0400 (only parsing).
Abbreviation RFCOMM_RPN_PM_RTR_ON_OUTPUT := 0x0800 (only parsing).
Abbreviation RFCOMM_RPN_PM_RTC_ON_INPUT := 0x1000 (only parsing).
Abbreviation RFCOMM_RPN_PM_RTC_ON_OUTPUT := 0x2000 (only parsing).
Abbreviation RFCOMM_RPN_PM_MASK := 0x3F7F (only parsing).
Abbreviation RFCOMM_RLS_ERROR := 0x01 (only parsing).
Abbreviation RFCOMM_MX_DLCI := 0 (only parsing).
Abbreviation RFCOMM_MX_PN := 0x80 (only parsing).
Abbreviation RFCOMM_MX_PN_LEN := 8 (only parsing).
Abbreviation RFCOMM_MX_TEST := 0x20 (only parsing).
Abbreviation RFCOMM_MX_FCON := 0xA0 (only parsing).
Abbreviation RFCOMM_MX_FCON_LEN := 0 (only parsing).
Abbreviation RFCOMM_MX_FCOFF := 0x60 (only parsing).
Abbreviation RFCOMM_MX_FCOFF_LEN := 0 (only parsing).
Abbreviation RFCOMM_MX_MSC := 0xE0 (only parsing).
Abbreviation RFCOMM_MX_MSC_LEN_NO_BREAK := 2 (only parsing).
Abbreviation RFCOMM_MX_MSC_LEN_WITH_BREAK := 3 (only parsing).
Abbreviation RFCOMM_MX_NSC := 0x10 (only parsing).
Abbreviation RFCOMM_MX_NSC_LEN := 1 (only parsing).
Abbreviation RFCOMM_MX_RPN := 0x90 (only parsing).
Abbreviation RFCOMM_MX_RPN_REQ_LEN := 1 (only parsing).
Abbreviation RFCOMM_MX_RPN_LEN := 8 (only parsing).
Abbreviation RFCOMM_MX_RLS := 0x50 (only parsing).
Abbreviation RFCOMM_MX_RLS_LEN := 2 (only parsing).

(** [initiator] and [cr] are C truth values. *)
Definition RFCOMM_FRAME_IS_CMD (initiator : bool) (cr : Z) : bool :=
  (initiator && negb (nz cr)) || (negb initiator && nz cr).

Definition RFCOMM_FRAME_IS_RSP (initiator : bool) (cr : Z) : bool :=
  (initiator && nz cr) || (negb initiator && negb (nz cr)).

Definition RFCOMM_CR (initiator is_command : bool) : Z :=
  b2z ((initiator && is_command) || (negb initiator && negb is_command)) .<< 1.

Definition RFCOMM_I_CR (is_command : bool) : Z := if is_command then 0x02 else 0x00.

Definition RFCOMM_VALID_DLCI (dlci : Z) : bool :=
  (dlci =? 0) || ((2 <=? dlci) && (dlci <=? RFCOMM_MAX_DLCI)).

(** ** Sizes and watermarks (bt_target.h, l2c_api.h, l2cdefs.h, rfc_int.h) *)

Abbreviation RFCOMM_CMD_BUF_SIZE := 660 (only parsing).
Abbreviation RFCOMM_DATA_BUF_SIZE := 4112 (only parsing).
Abbreviation L2CAP_MIN_OFFSET := 13 (only parsing).
Abbreviation L2CAP_MTU_SIZE := 1691 (only parsing).
Abbreviation L2CAP_PKT_OVERHEAD := 4 (only parsing).
Abbreviation L2CAP_DEFAULT_MTU := 672 (only parsing).
Abbreviation MAX_RFC_PORTS := 30 (only parsing).
Abbreviation PORT_MAX_RFC_PORTS := 31 (only parsing).
Abbreviation MAX_BD_CONNECTIONS := 16 (only parsing).
Abbreviation BTA_RFC_MTU_SIZE := 1672 (only parsing).
Abbreviation PORT_RX_BUF_LOW_WM := 4 (only parsing).
Abbreviation PORT_RX_BUF_HIGH_WM := 10 (only parsing).
Abbreviation PORT_RX_BUF_CRITICAL_WM := 15 (only parsing).
Abbreviation PORT_RX_LOW_WM := 6688 (only parsing).
Abbreviation PORT_RX_HIGH_WM := 16720 (only parsing).
Abbreviation PORT_RX_CRITICAL_WM := 25080 (only parsing).
Abbreviation PORT_TX_BUF_HIGH_WM := 10 (only parsing).
Abbreviation PORT_TX_BUF_CRITICAL_WM := 15 (only parsing).
Abbreviation PORT_TX_HIGH_WM := 16720 (only parsing).
Abbreviation PORT_TX_CRITICAL_WM := 25080 (only parsing).
Abbreviation RFCOMM_MIN_MTU := 23 (only parsing).
Abbreviation RFCOMM_MAX_MTU := 32767 (only parsing).
Abbreviation RFC_T1_TIMEOUT := 20 (only parsing).
Abbreviation RFC_PORT_T1_TIMEOUT := 60 (only parsing).
Abbreviation RFC_T2_TIMEOUT := 20 (only parsing).
Abbreviation RFC_DISC_TIMEOUT := 3 (only parsing).
Abbreviation RFCOMM_CONN_TIMEOUT := 120 (only parsing).
Abbreviation RFC_MCB_INIT_INACT_TIMER := 60 (only parsing).
Abbreviation RFC_MCB_RELEASE_INACT_TIMER := 20 (only parsing).

(** ** Result codes, events and signals (port_api.h, rfc_int.h, port_int.h) *)

Abbreviation RFCOMM_SUCCESS := 0 (only parsing).
Abbreviation RFCOMM_ERROR := 1 (only parsing).
Abbreviation RFCOMM_SECURITY_ERR := 112 (only parsing).
Abbreviation L2CAP_SUCCESS := 0 (only parsing).
Abbreviation L2CAP_CONN_OK := 0 (only parsing).
Abbreviation L2CAP_CFG_OK := 0 (only parsing).
Abbreviation L2CAP_CFG_FAILED_NO_REASON := 2 (only parsing).
Abbreviation L2CAP_CONN_INTERNAL_MASK := 0xF000 (only parsing).
Abbreviation BTM_SUCCESS := 0 (only parsing).
Abbreviation HCI_ERR_PAGE_TIMEOUT := 4 (only parsing).
Abbreviation PORT_SUCCESS := 0 (only parsing).
Abbreviation PORT_UNKNOWN_ERROR := 1 (only parsing).
Abbreviation PORT_ALREADY_OPENED := 2 (only parsing).
Abbreviation PORT_CMD_PENDING := 3 (only parsing).
Abbreviation PORT_NO_RESOURCES := 6 (only parsing).
Abbreviation PORT_BAD_HANDLE := 9 (only parsing).
Abbreviation PORT_NOT_OPENED := 10 (only parsing).
Abbreviation PORT_LINE_ERR := 11 (only parsing).
Abbreviation PORT_START_FAILED := 12 (only parsing).
Abbreviation PORT_PAR_NEG_FAILED := 13 (only parsing).
Abbreviation PORT_PORT_NEG_FAILED := 14 (only parsing).
Abbreviation PORT_SEC_FAILED := 15 (only parsing).
Abbreviation PORT_PEER_CONNECTION_FAILED := 16 (only parsing).
Abbreviation PORT_PEER_TIMEOUT := 18 (only parsing).
Abbreviation PORT_CLOSED := 19 (only parsing).
Abbreviation PORT_TX_FULL := 20 (only parsing).
Abbreviation PORT_TX_QUEUE_DISABLED := 23 (only parsing).
Abbreviation PORT_PAGE_TIMEOUT := 24 (only parsing).
Abbreviation PORT_INVALID_SCN := 25 (only parsing).
Abbreviation PORT_ERR_MAX := 26 (only parsing).

Abbreviation PORT_EV_RXCHAR := 0x00000001 (only parsing).
Abbreviation PORT_EV_RXFLAG := 0x00000002 (only parsing).
Abbreviation PORT_EV_TXEMPTY := 0x00000004 (only parsing).
Abbreviation PORT_EV_CTS := 0x00000008 (only parsing).
Abbreviation PORT_EV_DSR := 0x00000010 (only parsing).
Abbreviation PORT_EV_RLSD := 0x00000020 (only parsing).
Abbreviation PORT_EV_BREAK := 0x00000040 (only parsing).
Abbreviation PORT_EV_ERR := 0x00000080 (only parsing).
Abbreviation PORT_EV_RING := 0x00000100 (only parsing).
Abbreviation PORT_EV_CONNECTED := 0x00000200 (only parsing).
Abbreviation PORT_EV_CTSS := 0x00000400 (only parsing).
Abbreviation PORT_EV_DSRS := 0x00000800 (only parsing).
Abbreviation PORT_EV_RLSDS := 0x00001000 (only parsing).
Abbreviation PORT_EV_OVERRUN := 0x00002000 (only parsing).
Abbreviation PORT_EV_TXCHAR := 0x00004000 (only parsing).
Abbreviation PORT_EV_CONNECT_ERR := 0x00008000 (only parsing).
Abbreviation PORT_EV_FC := 0x00010000 (only parsing).
Abbreviation PORT_EV_FCS := 0x00020000 (only parsing).

Abbreviation PORT_DTRDSR_ON := 0x01 (only parsing).
Abbreviation PORT_CTSRTS_ON := 0x02 (only parsing).
Abbreviation PORT_RING_ON := 0x04 (only parsing).
Abbreviation PORT_DCD_ON := 0x08 (only parsing).
Abbreviation PORT_ERR_BREAK := 0x01 (only parsing).
Abbreviation PORT_ERR_OVERRUN := 0x02 (only parsing).
Abbreviation LINE_STATUS_OVERRUN := 0x02 (only parsing).
Abbreviation LINE_STATUS_FAILED := 0x10 (only parsing).
Abbreviation MODEM_SIGNAL_DTRDSR := 0x01 (only parsing).
Abbreviation MODEM_SIGNAL_RTSCTS := 0x02 (only parsing).
Abbreviation MODEM_SIGNAL_RI := 0x04 (only parsing).
Abbreviation MODEM_SIGNAL_DCD := 0x08 (only parsing).
Abbreviation RFCOMM_CTRL_BREAK_IN_SEQ := 1 (only parsing).
Abbreviation RFC_RSP_PN := 0x01 (only parsing).
Abbreviation RFC_RSP_RPN_REPLY := 0x02 (only parsing).
Abbreviation RFC_RSP_RPN := 0x04 (only parsing).
Abbreviation RFC_RSP_MSC := 0x08 (only parsing).
Abbreviation RFC_RSP_RLS := 0x10 (only parsing).
Abbreviation PORT_CTRL_REQ_SENT := 0x01 (only parsing).
Abbreviation PORT_CTRL_REQ_CONFIRMED := 0x02 (only parsing).
Abbreviation PORT_CTRL_IND_RECEIVED := 0x04 (only parsing).
Abbreviation PORT_CTRL_IND_RESPONDED := 0x08 (only parsing).
Abbreviation BT_EVT_TO_BTU_SP_DATA := 0x1500 (only parsing).
Abbreviation UUID_PROTOCOL_OBEX := 0x0008 (only parsing).
Abbreviation UUID_SERVCLASS_SERIAL_PORT := 0x1101 (only parsing).
Abbreviation UUID_SERVCLASS_LAN_ACCESS_USING_PPP := 0x1102 (only parsing).
Abbreviation UUID_SERVCLASS_DIALUP_NETWORKING := 0x1103 (only parsing).
Abbreviation UUID_SERVCLASS_FAX := 0x1111 (only parsing).

(** Bluetooth device addresses as 48-bit numbers. *)
Abbreviation RawAddress := Z (only parsing).
Abbreviation RawAddress_kAny := 0xFFFFFFFFFFFF (only parsing).
Abbreviation RawAddress_kEmpty := 0 (only parsing).

(** ** States and events (rfc_state.h, rfc_event.h, port_int.h) *)

Inductive tRFC_MX_STATE : Type :=
  | RFC_MX_STATE_IDLE
  | RFC_MX_STATE_WAIT_CONN_CNF
  | RFC_MX_STATE_CONFIGURE
  | RFC_MX_STATE_SABME_WAIT_UA
  | RFC_MX_STATE_WAIT_SABME
  | RFC_MX_STATE_CONNECTED
  | RFC_MX_STATE_DISC_WAIT_UA.

Inductive tRFC_PORT_STATE : Type :=
  | RFC_STATE_CLOSED
  | RFC_STATE_SABME_WAIT_UA
  | RFC_STATE_ORIG_WAIT_SEC_CHECK
  | RFC_STATE_TERM_WAIT_SEC_CHECK
  | RFC_STATE_OPENED
  | RFC_STATE_DISC_WAIT_UA.

Inductive tPORT_CONNECTION_STATE : Type :=
  | PORT_CONNECTION_STATE_CLOSED
  | PORT_CONNECTION_STATE_OPENING
  | PORT_CONNECTION_STATE_OPENED
  | PORT_CONNECTION_STATE_CLOSING.

Inductive tPORT_FC : Type :=
  | PORT_FC_UNDEFINED
  | PORT_FC_TS710
  | PORT_FC_CREDIT.

Abbreviation PORT_FC_DEFAULT := PORT_FC_CREDIT (only parsing).

Inductive tRFC_EVENT : Type :=
  | RFC_EVENT_SABME
  | RFC_EVENT_UA
  | RFC_EVENT_DM
  | RFC_EVENT_DISC
  | RFC_EVENT_UIH
  | RFC_EVENT_TIMEOUT
  | RFC_EVENT_BAD_FRAME.

Inductive tRFC_MX_EVENT : Type :=
  | RFC_MX_EVENT_SABME
  | RFC_MX_EVENT_UA
  | RFC_MX_EVENT_DM
  | RFC_MX_EVENT_DISC
  | RFC_MX_EVENT_UIH
  | RFC_MX_EVENT_TIMEOUT
  | RFC_MX_EVENT_START_REQ
  | RFC_MX_EVENT_START_RSP
  | RFC_MX_EVENT_CLOSE_REQ
  | RFC_MX_EVENT_CONN_CNF
  | RFC_MX_EVENT_CONN_IND
  | RFC_MX_EVENT_CONF_CNF
  | RFC_MX_EVENT_CONF_IND
  | RFC_MX_EVENT_QOS_VIOLATION_IND
  | RFC_MX_EVENT_DISC_IND.

Inductive tRFC_PORT_EVENT : Type :=
  | RFC_PORT_EVENT_SABME
  | RFC_PORT_EVENT_UA
  | RFC_PORT_EVENT_DM
  | RFC_PORT_EVENT_DISC
  | RFC_PORT_EVENT_UIH
  | RFC_PORT_EVENT_TIMEOUT
  | RFC_PORT_EVENT_OPEN
  | RFC_PORT_EVENT_ESTABLISH_RSP
  | RFC_PORT_EVENT_CLOSE
  | RFC_PORT_EVENT_CLEAR
  | RFC_PORT_EVENT_DATA
  | RFC_PORT_EVENT_SEC_COMPLETE.

Global Instance tRFC_MX_STATE_eq_dec : EqDecision tRFC_MX_STATE.
Proof. solve_decision. Defined.
Global Instance tRFC_PORT_STATE_eq_dec : EqDecision tRFC_PORT_STATE.
Proof. solve_decision. Defined.
Global Instance tPORT_CONNECTION_STATE_eq_dec : EqDecision tPORT_CONNECTION_STATE.
Proof. solve_decision. Defined.
Global Instance tPORT_FC_eq_dec : EqDecision tPORT_FC.
Proof. solve_decision. Defined.
Global Instance tRFC_EVENT_eq_dec : EqDecision tRFC_EVENT.
Proof. solve_decision. Defined.

(** The casts [static_cast<tRFC_MX_EVENT>(event)] and
    [static_cast<tRFC_PORT_EVENT>(event)]; a bad frame is filtered before. *)
Definition mx_event_of (e : tRFC_EVENT) : option tRFC_MX_EVENT :=
  match e with
  | RFC_EVENT_SABME => Some RFC_MX_EVENT_SABME
  | RFC_EVENT_UA => Some RFC_MX_EVENT_UA
  | RFC_EVENT_DM => Some RFC_MX_EVENT_DM
  | RFC_EVENT_DISC => Some RFC_MX_EVENT_DISC
  | RFC_EVENT_UIH => Some RFC_MX_EVENT_UIH
  | RFC_EVENT_TIMEOUT => Some RFC_MX_EVENT_TIMEOUT
  | RFC_EVENT_BAD_FRAME => None
  end.

Definition port_event_of (e : tRFC_EVENT) : option tRFC_PORT_EVENT :=
  match e with
  | RFC_EVENT_SABME => Some RFC_PORT_EVENT_SABME
  | RFC_EVENT_UA => Some RFC_PORT_EVENT_UA
  | RFC_EVENT_DM => Some RFC_PORT_EVENT_DM
  | RFC_EVENT_DISC => Some RFC_PORT_EVENT_DISC
  | RFC_EVENT_UIH => Some RFC_PORT_EVENT_UIH
  | RFC_EVENT_TIMEOUT => Some RFC_PORT_EVENT_TIMEOUT
  | RFC_EVENT_BAD_FRAME => None
  end.

(** [p_port->state >= PORT_CONNECTION_STATE_OPENED] *)
Definition port_state_ge_opened (s : tPORT_CONNECTION_STATE) : bool :=
  match s with
  | PORT_CONNECTION_STATE_OPENED | PORT_CONNECTION_STATE_CLOSING => true
  | _ => false
  end.
