(* ===== verification/RfcState.v ===== *)
(** * RfcState: control blocks, global state and the execution monad

    The structures of [src/system/stack/rfcomm/port_int.h] and [rfc_int.h], the
    global [rfc_cb] and [rfc_lcid_mcb], the calls RFCOMM makes to the outside
    (a trace of outputs) and the services it needs from it (the class
    [RfcEnv]).  A [tPORT*] or [tRFC_MCB*] is an index into its table; a callback
    pointer is a number, 0 being [NULL]. *)

From Stdlib Require Import ZArith Lia.
From stdpp Require Import gmap.
From S2P Require Import Prelude Osi RfcDefs.

(** ** Control blocks *)

(** Port settings (port_api.h). *)
Record tPORT_STATE : Type := mkPORT_STATE {
  baud_rate : Z;
  byte_size : Z;
  stop_bits : Z;
  parity : Z;
  parity_type : Z;
  fc_type : Z;
  rx_char1 : Z;
  xon_char : Z;
  xoff_char : Z;
}.

Global Instance eta_tPORT_STATE : Eta tPORT_STATE := fun r =>
  mkPORT_STATE (baud_rate r) (byte_size r) (stop_bits r) (parity r) (parity_type r)
    (fc_type r) (rx_char1 r) (xon_char r) (xoff_char r).
Global Instance set_baud_rate : Setter baud_rate := ltac:(solve_setter).
Global Instance set_byte_size : Setter byte_size := ltac:(solve_setter).
Global Instance set_stop_bits : Setter stop_bits := ltac:(solve_setter).
Global Instance set_parity : Setter parity := ltac:(solve_setter).
Global Instance set_parity_type : Setter parity_type := ltac:(solve_setter).
Global Instance set_fc_type : Setter fc_type := ltac:(solve_setter).
Global Instance set_rx_char1 : Setter rx_char1 := ltac:(solve_setter).
Global Instance set_xon_char : Setter xon_char := ltac:(solve_setter).
Global Instance set_xoff_char : Setter xoff_char := ltac:(solve_setter).

(** Data transfer control block (port_int.h); its [p_callback] is never used. *)
Record tPORT_DATA : Type := mkPORT_DATA {
  pd_queue : fixed_queue;  (* buffers waiting *)
  peer_fc : bool;  (* flow control requested by the peer *)
  user_fc : bool;  (* flow control requested by the user *)
  queue_size : Z;  (* uint32_t: data bytes in the queue *)
}.

Global Instance eta_tPORT_DATA : Eta tPORT_DATA := fun r =>
  mkPORT_DATA (pd_queue r) (peer_fc r) (user_fc r) (queue_size r).
Global Instance set_pd_queue : Setter pd_queue := ltac:(solve_setter).
Global Instance set_peer_fc : Setter peer_fc := ltac:(solve_setter).
Global Instance set_user_fc : Setter user_fc := ltac:(solve_setter).
Global Instance set_queue_size : Setter queue_size := ltac:(solve_setter).

(** Modem information (port_int.h). *)
Record tPORT_CTRL : Type := mkPORT_CTRL {
  modem_signal : Z;
  break_signal : Z;
  discard_buffers : Z;
  break_signal_seq : Z;
  ctrl_fc : bool;
}.

Global Instance eta_tPORT_CTRL : Eta tPORT_CTRL := fun r =>
  mkPORT_CTRL (modem_signal r) (break_signal r) (discard_buffers r) (break_signal_seq r)
    (ctrl_fc r).
Global Instance set_modem_signal : Setter modem_signal := ltac:(solve_setter).
Global Instance set_break_signal : Setter break_signal := ltac:(solve_setter).
Global Instance set_discard_buffers : Setter discard_buffers := ltac:(solve_setter).
Global Instance set_break_signal_seq : Setter break_signal_seq := ltac:(solve_setter).
Global Instance set_ctrl_fc : Setter ctrl_fc := ltac:(solve_setter).

(** The two fields of the L2CAP configuration that RFCOMM reads (l2c_api.h). *)
Record tL2CAP_CFG_INFO : Type := mkCFG_INFO {
  cfg_mtu_present : bool;
  cfg_mtu : Z;
}.

Global Instance eta_tL2CAP_CFG_INFO : Eta tL2CAP_CFG_INFO := fun r =>
  mkCFG_INFO (cfg_mtu_present r) (cfg_mtu r).
Global Instance set_cfg_mtu_present : Setter cfg_mtu_present := ltac:(solve_setter).
Global Instance set_cfg_mtu : Setter cfg_mtu := ltac:(solve_setter).

(** Multiplexer control block (port_int.h). *)
Record tRFC_MCB : Type := mkRFC_MCB {
  mcb_timer : alarm;
  cmd_q : fixed_queue;
  port_handles : list Z;  (* uint8_t[RFCOMM_MAX_DLCI + 1] *)
  mcb_bd_addr : RawAddress;
  mcb_lcid : Z;  (* uint16_t *)
  peer_l2cap_mtu : Z;  (* uint16_t *)
  mcb_state : tRFC_MX_STATE;
  is_initiator : bool;
  restart_required : bool;
  peer_ready : bool;
  mcb_flow : tPORT_FC;
  l2cap_congested : bool;
  is_disc_initiator : bool;
  pending_lcid : Z;  (* uint16_t *)
  pending_configure_complete : bool;
  pending_cfg_info : tL2CAP_CFG_INFO;
}.

Global Instance eta_tRFC_MCB : Eta tRFC_MCB := fun r =>
  mkRFC_MCB (mcb_timer r) (cmd_q r) (port_handles r) (mcb_bd_addr r) (mcb_lcid r)
    (peer_l2cap_mtu r) (mcb_state r) (is_initiator r) (restart_required r)
    (peer_ready r) (mcb_flow r) (l2cap_congested r) (is_disc_initiator r)
    (pending_lcid r) (pending_configure_complete r) (pending_cfg_info r).
Global Instance set_mcb_timer : Setter mcb_timer := ltac:(solve_setter).
Global Instance set_cmd_q : Setter cmd_q := ltac:(solve_setter).
Global Instance set_port_handles : Setter port_handles := ltac:(solve_setter).
Global Instance set_mcb_bd_addr : Setter mcb_bd_addr := ltac:(solve_setter).
Global Instance set_mcb_lcid : Setter mcb_lcid := ltac:(solve_setter).
Global Instance set_peer_l2cap_mtu : Setter peer_l2cap_mtu := ltac:(solve_setter).
Global Instance set_mcb_state : Setter mcb_state := ltac:(solve_setter).
Global Instance set_is_initiator : Setter is_initiator := ltac:(solve_setter).
Global Instance set_restart_required : Setter restart_required := ltac:(solve_setter).
Global Instance set_peer_ready : Setter peer_ready := ltac:(solve_setter).
Global Instance set_mcb_flow : Setter mcb_flow := ltac:(solve_setter).
Global Instance set_l2cap_congested : Setter l2cap_congested := ltac:(solve_setter).
Global Instance set_is_disc_initiator : Setter is_disc_initiator := ltac:(solve_setter).
Global Instance set_pending_lcid : Setter pending_lcid := ltac:(solve_setter).
Global Instance set_pending_configure_complete : Setter pending_configure_complete := ltac:(solve_setter).
Global Instance set_pending_cfg_info : Setter pending_cfg_info := ltac:(solve_setter).

(** RFCOMM port connection control block (port_int.h). *)
Record tRFC_PORT : Type := mkRFC_PORT {
  rfc_state : tRFC_PORT_STATE;
  expected_rsp : Z;  (* uint8_t *)
  p_mcb : option nat;  (* index into the multiplexer table *)
  port_timer : alarm;
}.

Global Instance eta_tRFC_PORT : Eta tRFC_PORT := fun r =>
  mkRFC_PORT (rfc_state r) (expected_rsp r) (p_mcb r) (port_timer r).
Global Instance set_rfc_state : Setter rfc_state := ltac:(solve_setter).
Global Instance set_expected_rsp : Setter expected_rsp := ltac:(solve_setter).
Global Instance set_p_mcb : Setter p_mcb := ltac:(solve_setter).
Global Instance set_port_timer : Setter port_timer := ltac:(solve_setter).

(** Port control block (port_int.h). *)
Record tPORT : Type := mkPORT {
  port_handle : Z;  (* uint8_t: starts from 1 *)
  in_use : bool;
  port_state : tPORT_CONNECTION_STATE;
  port_scn : Z;  (* uint8_t *)
  port_uuid : Z;  (* uint16_t *)
  port_bd_addr : RawAddress;
  is_server : bool;
  port_dlci : Z;  (* uint8_t *)
  port_error : Z;  (* uint8_t *)
  line_status : Z;  (* uint8_t *)
  default_signal_state : Z;  (* uint8_t *)
  port_mtu : Z;  (* uint16_t *)
  peer_mtu : Z;  (* uint16_t *)
  tx : tPORT_DATA;
  rx : tPORT_DATA;
  user_port_pars : tPORT_STATE;
  peer_port_pars : tPORT_STATE;
  local_ctrl : tPORT_CTRL;
  peer_ctrl : tPORT_CTRL;
  port_ctrl : Z;  (* uint8_t *)
  rx_flag_ev_pending : bool;
  rfc : tRFC_PORT;
  ev_mask : Z;  (* uint32_t *)
  p_callback : Z;  (* 0 is NULL *)
  p_mgmt_callback : Z;
  p_data_callback : Z;
  p_data_co_callback : Z;
  credit_tx : Z;  (* uint16_t *)
  credit_rx : Z;  (* uint16_t *)
  credit_rx_max : Z;  (* uint16_t *)
  credit_rx_low : Z;  (* uint16_t *)
  rx_buf_critical : Z;  (* uint16_t *)
  keep_port_handle : bool;
  keep_mtu : Z;  (* uint16_t *)
  sec_mask : Z;  (* uint16_t *)
}.

Global Instance eta_tPORT : Eta tPORT := fun r =>
  mkPORT (port_handle r) (in_use r) (port_state r) (port_scn r) (port_uuid r)
    (port_bd_addr r) (is_server r) (port_dlci r) (port_error r) (line_status r)
    (default_signal_state r) (port_mtu r) (peer_mtu r) (tx r) (rx r)
    (user_port_pars r) (peer_port_pars r) (local_ctrl r) (peer_ctrl r)
    (port_ctrl r) (rx_flag_ev_pending r) (rfc r) (ev_mask r) (p_callback r)
    (p_mgmt_callback r) (p_data_callback r) (p_data_co_callback r) (credit_tx r)
    (credit_rx r) (credit_rx_max r) (credit_rx_low r) (rx_buf_critical r)
    (keep_port_handle r) (keep_mtu r) (sec_mask r).
Global Instance set_port_handle : Setter port_handle := ltac:(solve_setter).
Global Instance set_in_use : Setter in_use := ltac:(solve_setter).
Global Instance set_port_state : Setter port_state := ltac:(solve_setter).
Global Instance set_port_scn : Setter port_scn := ltac:(solve_setter).
Global Instance set_port_uuid : Setter port_uuid := ltac:(solve_setter).
Global Instance set_port_bd_addr : Setter port_bd_addr := ltac:(solve_setter).
Global Instance set_is_server : Setter is_server := ltac:(solve_setter).
Global Instance set_port_dlci : Setter port_dlci := ltac:(solve_setter).
Global Instance set_port_error : Setter port_error := ltac:(solve_setter).
Global Instance set_line_status : Setter line_status := ltac:(solve_setter).
Global Instance set_default_signal_state : Setter default_signal_state := ltac:(solve_setter).
Global Instance set_port_mtu : Setter port_mtu := ltac:(solve_setter).
Global Instance set_peer_mtu : Setter peer_mtu := ltac:(solve_setter).
Global Instance set_tx : Setter tx := ltac:(solve_setter).
Global Instance set_rx : Setter rx := ltac:(solve_setter).
Global Instance set_user_port_pars : Setter user_port_pars := ltac:(solve_setter).
Global Instance set_peer_port_pars : Setter peer_port_pars := ltac:(solve_setter).
Global Instance set_local_ctrl : Setter local_ctrl := ltac:(solve_setter).
Global Instance set_peer_ctrl : Setter peer_ctrl := ltac:(solve_setter).
Global Instance set_port_ctrl : Setter port_ctrl := ltac:(solve_setter).
Global Instance set_rx_flag_ev_pending : Setter rx_flag_ev_pending := ltac:(solve_setter).
Global Instance set_rfc : Setter rfc := ltac:(solve_setter).
Global Instance set_ev_mask : Setter ev_mask := ltac:(solve_setter).
Global Instance set_p_callback : Setter p_callback := ltac:(solve_setter).
Global Instance set_p_mgmt_callback : Setter p_mgmt_callback := ltac:(solve_setter).
Global Instance set_p_data_callback : Setter p_data_callback := ltac:(solve_setter).
Global Instance set_p_data_co_callback : Setter p_data_co_callback := ltac:(solve_setter).
Global Instance set_credit_tx : Setter credit_tx := ltac:(solve_setter).
Global Instance set_credit_rx : Setter credit_rx := ltac:(solve_setter).
Global Instance set_credit_rx_max : Setter credit_rx_max := ltac:(solve_setter).
Global Instance set_credit_rx_low : Setter credit_rx_low := ltac:(solve_setter).
Global Instance set_rx_buf_critical : Setter rx_buf_critical := ltac:(solve_setter).
Global Instance set_keep_port_handle : Setter keep_port_handle := ltac:(solve_setter).
Global Instance set_keep_mtu : Setter keep_mtu := ltac:(solve_setter).
Global Instance set_sec_mask : Setter sec_mask := ltac:(solve_setter).

(** Decoded frame (rfc_int.h).  The members of [u] share storage, and the port
    negotiation code reads [u.rpn] fields a frame did not set, so the union is
    kept as its bytes. *)
Record MX_FRAME : Type := mkMX_FRAME {
  mx_dlci : Z;
  mx_type : Z;
  mx_cr : Z;
  mx_ea : Z;
  mx_pf : Z;
  mx_credit : Z;
  mx_u : list Z;  (* the 12 bytes of the union u *)
}.

Global Instance eta_MX_FRAME : Eta MX_FRAME := fun r =>
  mkMX_FRAME (mx_dlci r) (mx_type r) (mx_cr r) (mx_ea r) (mx_pf r) (mx_credit r) (mx_u r).
Global Instance set_mx_dlci : Setter mx_dlci := ltac:(solve_setter).
Global Instance set_mx_type : Setter mx_type := ltac:(solve_setter).
Global Instance set_mx_cr : Setter mx_cr := ltac:(solve_setter).
Global Instance set_mx_ea : Setter mx_ea := ltac:(solve_setter).
Global Instance set_mx_pf : Setter mx_pf := ltac:(solve_setter).
Global Instance set_mx_credit : Setter mx_credit := ltac:(solve_setter).
Global Instance set_mx_u : Setter mx_u := ltac:(solve_setter).

(** *** Zeroed blocks, as [memset] leaves them *)

Definition zero_PORT_STATE : tPORT_STATE := mkPORT_STATE 0 0 0 0 0 0 0 0 0.
Definition zero_PORT_DATA : tPORT_DATA := mkPORT_DATA None false false 0.
Definition zero_PORT_CTRL : tPORT_CTRL := mkPORT_CTRL 0 0 0 0 false.
Definition zero_CFG_INFO : tL2CAP_CFG_INFO := mkCFG_INFO false 0.
Definition zero_RFC_MCB : tRFC_MCB :=
  mkRFC_MCB None None (replicate 62 0) RawAddress_kEmpty 0 0 RFC_MX_STATE_IDLE
    false false false PORT_FC_UNDEFINED false false 0 false zero_CFG_INFO.
Definition zero_RFC_PORT : tRFC_PORT := mkRFC_PORT RFC_STATE_CLOSED 0 None None.
Definition zero_PORT : tPORT :=
  mkPORT 0 false PORT_CONNECTION_STATE_CLOSED 0 0 RawAddress_kEmpty false 0 0 0 0
    0 0 zero_PORT_DATA zero_PORT_DATA zero_PORT_STATE zero_PORT_STATE
    zero_PORT_CTRL zero_PORT_CTRL 0 false zero_RFC_PORT 0 0 0 0 0 0 0 0 0 0
    false 0 0.
Definition zero_MX_FRAME : MX_FRAME := mkMX_FRAME 0 0 0 0 0 0 (replicate 12 0).

(** *** Members of the union, at their offsets on the 64-bit targets *)

Definition u_byte (f : MX_FRAME) (i : nat) : Z := nth i (mx_u f) 0.
Definition set_u (i : nat) (v : Z) (f : MX_FRAME) : MX_FRAME :=
  f <| mx_u ::= <[i := u8 v]> |>.
Definition u_word (f : MX_FRAME) (i : nat) : Z := u_byte f i + (u_byte f (S i) .<< 8).
Definition set_u16 (i : nat) (v : Z) (f : MX_FRAME) : MX_FRAME :=
  set_u (S i) (v .>> 8) (set_u i v f).

Definition pn_frame_type f := u_byte f 1.
Definition pn_conv_layer f := u_byte f 2.
Definition pn_priority f := u_byte f 3.
Definition pn_t1 f := u_byte f 4.
Definition pn_mtu f := u_word f 6.
Definition pn_n2 f := u_byte f 8.
Definition pn_k f := u_byte f 9.
Definition msc_signals f := u_byte f 1.
Definition msc_break_present f := u_byte f 2.
Definition msc_break_duration f := u_byte f 3.
Definition rpn_is_request f := u_byte f 1.
Definition rpn_baud_rate f := u_byte f 2.
Definition rpn_byte_size f := u_byte f 3.
Definition rpn_stop_bits f := u_byte f 4.
Definition rpn_parity f := u_byte f 5.
Definition rpn_parity_type f := u_byte f 6.
Definition rpn_fc_type f := u_byte f 7.
Definition rpn_xon_char f := u_byte f 8.
Definition rpn_xoff_char f := u_byte f 9.
Definition rpn_param_mask f := u_word f 10.
Definition rls_line_status f := u_byte f 1.

(** ** Outputs and environment *)

Inductive output : Type :=
  | L2CA_DataWrite (cid : Z) (p : BT_HDR)
  | L2CA_ConnectReq (addr : RawAddress)
  | L2CA_DisconnectReq (cid : Z)
  | btm_sec_mx_access_request (addr : RawAddress) (is_originator : bool)
      (security_requirement : Z) (port : nat)
  | btm_sec_abort_access_req (addr : RawAddress)
  | port_callback (cb : Z) (code : Z) (h : Z)
  | port_mgmt_callback (cb : Z) (code : Z) (h : Z)
  | port_data_callback (cb : Z) (h : Z) (data : list Z)
  | port_data_co_incoming (cb : Z) (h : Z) (p : BT_HDR)
  | port_data_co_outgoing (cb : Z) (h : Z) (len : Z).

(** What RFCOMM learns from the services it calls.  Each answer may depend on
    everything output so far. *)
Class RfcEnv := {
  env_l2ca_connect_req : list output -> Z;    (* uint16_t LCID, 0 on failure *)
  env_max_packet_size : RawAddress -> Z;      (* uint16_t BTM_GetMaxPacketSize *)
  env_boottime_ms : list output -> Z;         (* time_get_os_boottime_ms *)
  env_sec_sync : list output -> option Z;
    (* [Some res]: btm_sec_mx_access_request calls back before it returns *)
  env_data_co_incoming : list output -> bool; (* application's answers *)
  env_data_co_size : list output -> option Z; (* available bytes, None: error *)
  env_data_co_bytes : list output -> Z -> option (list Z);
  env_test_ptr : list output -> Z;            (* the pointer in u.test.p_data *)
}.

(** ** Global state *)

Record rfc_cb : Type := mk_rfc_cb {
  port_tab : list tPORT;
  rfc_mcb_tab : list tRFC_MCB;
  rx_frame : MX_FRAME;
  peer_rx_disabled : bool;
  last_mux : Z;
  last_port_index : Z;
  rfc_lcid_mcb : gmap Z nat;
  out : list output;   (* newest first *)
}.

Global Instance eta_rfc_cb : Eta rfc_cb := fun r =>
  mk_rfc_cb (port_tab r) (rfc_mcb_tab r) (rx_frame r) (peer_rx_disabled r)
    (last_mux r) (last_port_index r) (rfc_lcid_mcb r) (out r).
Global Instance set_port_tab : Setter port_tab := ltac:(solve_setter).
Global Instance set_rfc_mcb_tab : Setter rfc_mcb_tab := ltac:(solve_setter).
Global Instance set_rx_frame : Setter rx_frame := ltac:(solve_setter).
Global Instance set_peer_rx_disabled : Setter peer_rx_disabled := ltac:(solve_setter).
Global Instance set_last_mux : Setter last_mux := ltac:(solve_setter).
Global Instance set_last_port_index : Setter last_port_index := ltac:(solve_setter).
Global Instance set_rfc_lcid_mcb : Setter rfc_lcid_mcb := ltac:(solve_setter).
Global Instance set_out : Setter out := ltac:(solve_setter).

(** ** The monad *)

Definition M (A : Type) : Type := rfc_cb -> outcome (A * rfc_cb).

Global Instance M_ret : MRet M := fun A a s => Ok (a, s).
Global Instance M_bind : MBind M := fun A B f m s =>
  match m s with
  | Ok (a, s') => f a s'
  | Crash c => Crash c
  end.

Definition abort {A} (c : crash) : M A := fun _ => Crash c.
Definition lift {A} (o : outcome A) : M A := fun s =>
  match o with Ok a => Ok (a, s) | Crash c => Crash c end.
Definition get : M rfc_cb := fun s => Ok (s, s).
Definition modify (f : rfc_cb -> rfc_cb) : M unit := fun s => Ok (tt, f s).
Definition emit (o : output) : M unit := modify (fun s => s <| out ::= cons o |>).
Definition skip : M unit := mret tt.
Definition when (b : bool) (m : M unit) : M unit := if b then m else skip.

(** Reading and writing through pointers into the two tables. *)
Definition get_port (p : nat) : M tPORT := fun s =>
  match port_tab s !! p with Some x => Ok (x, s) | None => Crash OutOfBounds end.
Definition get_mcb (m : nat) : M tRFC_MCB := fun s =>
  match rfc_mcb_tab s !! m with Some x => Ok (x, s) | None => Crash OutOfBounds end.
Definition upd_port (p : nat) (f : tPORT -> tPORT) : M unit := fun s =>
  match port_tab s !! p with
  | Some x => Ok (tt, s <| port_tab ::= <[p := f x]> |>)
  | None => Crash OutOfBounds
  end.
Definition upd_mcb (m : nat) (f : tRFC_MCB -> tRFC_MCB) : M unit := fun s =>
  match rfc_mcb_tab s !! m with
  | Some x => Ok (tt, s <| rfc_mcb_tab ::= <[m := f x]> |>)
  | None => Crash OutOfBounds
  end.

(** [p_port->rfc.p_mcb->...]: the pointer must not be null. *)
Definition port_mcb (p : nat) : M nat :=
  x ← get_port p; lift (of_option NullDeref (p_mcb (rfc x))).

(** [p_mcb->port_handles[i] = h] *)
Definition put_port_handle (m : nat) (i h : Z) : M unit :=
  if (0 <=? i) && (i <=? RFCOMM_MAX_DLCI)
  then upd_mcb m (fun x => x <| port_handles ::= <[Z.to_nat i := h]> |>)
  else abort OutOfBounds.

Definition put_rfc_state (v : tRFC_PORT_STATE) (x : tPORT) : tPORT :=
  x <| rfc ::= set rfc_state (fun _ => v) |>.
Definition put_p_mcb (v : option nat) (x : tPORT) : tPORT :=
  x <| rfc ::= set p_mcb (fun _ => v) |>.
Definition or_expected_rsp (v : Z) (x : tPORT) : tPORT :=
  x <| rfc ::= set expected_rsp (fun e => e .| v) |>.
Definition clear_expected_rsp (v : Z) (x : tPORT) : tPORT :=
  x <| rfc ::= set expected_rsp (fun e => e .&~ v) |>.

(** ** Calls between the two state machines

    [rfc_mx_sm_execute] and [rfc_port_sm_execute] call each other through the
    port layer.  Every function between them is written against this class;
    [RfcL2capIf] ties the knot with a call depth. *)

Inductive pdata : Type :=
  | PNull
  | PResult (r : Z)
  | PCfg (c : tL2CAP_CFG_INFO)
  | PBuf (b : BT_HDR).

Inductive sm_call : Type :=
  | MxCall (m : nat) (ev : tRFC_MX_EVENT) (p_data : pdata)
  | PortCall (p : nat) (ev : tRFC_PORT_EVENT) (p_data : pdata).

Class SmCalls := sm_exec : sm_call -> M unit.

Definition call_mx_sm `{SmCalls} (m : nat) (ev : tRFC_MX_EVENT) (d : pdata) : M unit :=
  sm_exec (MxCall m ev d).
(** [CHECK(p_port != nullptr)] *)
Definition call_port_sm `{SmCalls} (p : option nat) (ev : tRFC_PORT_EVENT) (d : pdata) :
    M unit :=
  match p with
  | Some p => sm_exec (PortCall p ev d)
  | None => abort CheckFailed
  end.

(** Reading [p_data] as a [uint16_t], as a [uint8_t], as a buffer and as an
    L2CAP configuration. *)
Definition pdata_u16 (d : pdata) : M Z :=
  match d with PResult r => mret (u16 r) | _ => abort NullDeref end.
Definition pdata_u8 (d : pdata) : M Z :=
  match d with PResult r => mret (u8 r) | _ => abort NullDeref end.
Definition pdata_buf (d : pdata) : M BT_HDR :=
  match d with PBuf b => mret b | _ => abort NullDeref end.
Definition pdata_cfg (d : pdata) : M tL2CAP_CFG_INFO :=
  match d with PCfg c => mret c | _ => abort NullDeref end.

(** [for (i = 0; i < n; i++) body(i)] *)
Fixpoint for_up (n : nat) (i : nat) (body : nat -> M unit) : M unit :=
  match n with
  | O => skip
  | S n => body i;; for_up n (S i) body
  end.
