(* ===== verification/RfcRun.v ===== *)
(** * RfcRun: one step at a time

    Equations for running the first operation of a function body in a known
    state, used by the theorems about what an operation does. *)

From Stdlib Require Import ZArith Lia.
From stdpp Require Import gmap.
From S2P Require Import Prelude Osi RfcDefs RfcState.

(** [s] with port [p] replaced. *)
Definition put_port (p : nat) (x : tPORT) (s : rfc_cb) : rfc_cb := s <| port_tab ::= <[p := x]> |>.

(** [s] with multiplexer [m] replaced. *)
Definition put_mcb (m : nat) (y : tRFC_MCB) (s : rfc_cb) : rfc_cb := s <| rfc_mcb_tab ::= <[m := y]> |>.

(** * Lemmas *)

Lemma run_get_port {B} p x (kont : tPORT -> M B) s :
  port_tab s !! p = Some x -> (get_port p ≫= kont) s = kont x s.
Proof. intros Hx. unfold mbind, M_bind, get_port. by rewrite Hx. Qed.

Lemma run_get_mcb {B} m y (kont : tRFC_MCB -> M B) s :
  rfc_mcb_tab s !! m = Some y -> (get_mcb m ≫= kont) s = kont y s.
Proof. intros Hy. unfold mbind, M_bind, get_mcb. by rewrite Hy. Qed.

Lemma run_port_mcb {B} p x m (kont : nat -> M B) s :
  port_tab s !! p = Some x -> p_mcb (rfc x) = Some m -> (port_mcb p ≫= kont) s = kont m s.
Proof. intros Hx Hm. unfold port_mcb, mbind, M_bind, get_port, lift. rewrite Hx, Hm. done. Qed.

Lemma run_upd_port {B} p x f (kont : unit -> M B) s :
  port_tab s !! p = Some x -> (upd_port p f ≫= kont) s = kont tt (put_port p (f x) s).
Proof. intros Hx. unfold mbind, M_bind, upd_port. by rewrite Hx. Qed.

Lemma lookup_put_port p x x' s : port_tab s !! p = Some x -> port_tab (put_port p x' s) !! p = Some x'.
Proof. intros Hx. cbn. apply list_lookup_insert_eq. by eapply lookup_lt_Some. Qed.

Lemma put_put_port p x x' s : put_port p x' (put_port p x s) = put_port p x' s.
Proof. unfold put_port, set, set_port_tab. cbn. by rewrite list_insert_insert_eq. Qed.

Lemma put_port_same p x s : port_tab s !! p = Some x -> put_port p x s = s.
Proof.
  intros Hx. unfold put_port, set, set_port_tab. destruct s as [pt ? ? ? ? ? ? ?]. cbn in *. f_equal.
  by apply list_insert_id.
Qed.

Lemma run_ret {A B} (a : A) (kont : A -> M B) s : (mret a ≫= kont) s = kont a s.
Proof. done. Qed.

Lemma run_assoc {A B C} (m : M A) (f : A -> M B) (g : B -> M C) s :
  ((m ≫= f) ≫= g) s = (m ≫= fun a => f a ≫= g) s.
Proof. unfold mbind, M_bind. by destruct (m s) as [[a s']|]. Qed.

Lemma run_upd_mcb_bind {B} m y f (kont : unit -> M B) s :
  rfc_mcb_tab s !! m = Some y -> (upd_mcb m f ≫= kont) s = kont tt (put_mcb m (f y) s).
Proof. intros Hy. unfold mbind, M_bind, upd_mcb. by rewrite Hy. Qed.

Lemma lookup_put_mcb m y y' s : rfc_mcb_tab s !! m = Some y -> rfc_mcb_tab (put_mcb m y' s) !! m = Some y'.
Proof. intros Hy. cbn. apply list_lookup_insert_eq. by eapply lookup_lt_Some. Qed.

Lemma put_mcb_same m y s : rfc_mcb_tab s !! m = Some y -> put_mcb m y s = s.
Proof.
  intros Hy. unfold put_mcb, set, set_rfc_mcb_tab. destruct s as [? mt ? ? ? ? ? ?]. cbn in *. f_equal.
  by apply list_insert_id.
Qed.

