(* ===== verification/RfcFrames.v ===== *)
(** * RfcFrames: TS 07.10 frames

    [src/system/stack/rfcomm/rfc_ts_frames.cc] and [rfc_check_send_cmd] of
    [rfc_utils.cc]: building and sending the frames, and decoding received
    ones.  The bytes of a frame are computed by pure functions on buffers
    ([ctrl_frame], [uih_frame], [mx_cmd], ...); the [rfc_send_*] functions queue
    the result on a multiplexer. *)

From Stdlib Require Import ZArith Lia.
From stdpp Require Import gmap.
From S2P Require Import Prelude RfcFcs Osi RfcDefs RfcState.

(** ** Building frames *)

(** The body shared by SABME, UA, DM and DISC: address, control, length 0, FCS. *)
Definition ctrl_frame (cr dlci control : Z) : outcome BT_HDR :=
  let p_buf := (osi_malloc RFCOMM_CMD_BUF_SIZE) <| bh_offset := L2CAP_MIN_OFFSET |> in
  p_buf ← bh_write p_buf L2CAP_MIN_OFFSET
    [u8 (RFCOMM_EA .| cr .| (dlci .<< RFCOMM_SHIFT_DLCI)); u8 control;
     u8 (RFCOMM_EA .| 0)];
  hdr ← bh_read_bytes p_buf L2CAP_MIN_OFFSET 3;
  p_buf ← bh_write p_buf (L2CAP_MIN_OFFSET + 3) [rfc_calc_fcs hdr];
  mret (p_buf <| bh_len := 4 |>).

Definition sabme_frame (initiator : bool) (dlci : Z) : outcome BT_HDR :=
  ctrl_frame (RFCOMM_CR initiator true) dlci (RFCOMM_SABME .| RFCOMM_PF).

Definition ua_frame (initiator : bool) (dlci : Z) : outcome BT_HDR :=
  ctrl_frame (RFCOMM_CR initiator false) dlci (RFCOMM_UA .| RFCOMM_PF).

Definition dm_frame (initiator : bool) (dlci : Z) (pf : bool) : outcome BT_HDR :=
  ctrl_frame (RFCOMM_CR initiator false) dlci
    (RFCOMM_DM .| (if pf then RFCOMM_PF else 0)).

Definition disc_frame (initiator : bool) (dlci : Z) : outcome BT_HDR :=
  ctrl_frame (RFCOMM_CR initiator true) dlci (RFCOMM_DISC .| RFCOMM_PF).

(** The UIH header is written in front of the data the buffer holds. *)
Definition uih_frame (initiator : bool) (dlci : Z) (p_buf : BT_HDR) : outcome BT_HDR :=
  let cr := RFCOMM_CR initiator true in
  let len := bh_len p_buf in
  let offset := u16 (bh_offset p_buf - RFCOMM_CTRL_FRAME_LEN) in
  let offset := if 127 <? len then u16 (offset - 1) else offset in
  let credits := if nz dlci then u8 (bh_layer_specific p_buf) else 0 in
  let offset := if nz credits then u16 (offset - 1) else offset in
  let p_buf := p_buf <| bh_offset := offset |> in
  let length_field :=
    if len <=? 127 then [u8 (RFCOMM_EA .| (len .<< 1))]
    else [u8 ((len .& 0x7f) .<< 1); u8 (len .>> RFCOMM_SHIFT_LENGTH2)] in
  p_buf ← bh_write p_buf offset
    ([u8 (RFCOMM_EA .| cr .| (dlci .<< RFCOMM_SHIFT_DLCI));
      u8 (RFCOMM_UIH .| (if nz credits then RFCOMM_PF else 0))]
     ++ length_field ++ (if nz credits then [credits] else []));
  let len := u16 (len + (if len <=? 127 then 3 else 4)) in
  let len := if nz credits then u16 (len + 1) else len in
  hdr ← bh_read_bytes p_buf offset 2;
  p_buf ← bh_write p_buf (offset + len) [rfc_calc_fcs hdr];
  mret (p_buf <| bh_len := u16 (len + 1) |>).

(** A multiplexer command [bytes], placed so that a UIH header fits before it. *)
Definition mx_cmd (bytes : list Z) : outcome BT_HDR :=
  let p_buf := (osi_malloc RFCOMM_CMD_BUF_SIZE)
    <| bh_offset := L2CAP_MIN_OFFSET + RFCOMM_CTRL_FRAME_LEN |> in
  p_buf ← bh_write p_buf (bh_offset p_buf) bytes;
  mret (p_buf <| bh_len := Z.of_nat (length bytes) |>).

(** [rx_priority] is [rfc_cb.rfc.rx_frame.u.pn.priority]. *)
Definition pn_cmd (rx_priority : Z) (dlci : Z) (is_command : bool) (mtu cl k : Z) :
    outcome BT_HDR :=
  mx_cmd [u8 (RFCOMM_EA .| RFCOMM_I_CR is_command .| RFCOMM_MX_PN);
          u8 (RFCOMM_EA .| (RFCOMM_MX_PN_LEN .<< 1));
          u8 dlci;
          u8 (RFCOMM_PN_FRAM_TYPE_UIH .| cl);
          (if is_command then RFCOMM_PN_PRIORITY_0 else u8 rx_priority);
          RFCOMM_T1_DSEC;
          u8 (mtu .& 0xFF);
          u8 (mtu .>> 8);
          RFCOMM_N2;
          u8 k].

Definition fcon_cmd (is_command : bool) : outcome BT_HDR :=
  mx_cmd [u8 (RFCOMM_EA .| RFCOMM_I_CR is_command .| RFCOMM_MX_FCON);
          u8 (RFCOMM_EA .| (RFCOMM_MX_FCON_LEN .<< 1))].

Definition fcoff_cmd (is_command : bool) : outcome BT_HDR :=
  mx_cmd [u8 (RFCOMM_EA .| RFCOMM_I_CR is_command .| RFCOMM_MX_FCOFF);
          u8 (RFCOMM_EA .| (RFCOMM_MX_FCOFF_LEN .<< 1))].

Definition msc_cmd (dlci : Z) (is_command : bool) (p_pars : tPORT_CTRL) : outcome BT_HDR :=
  let signals := modem_signal p_pars in
  let break_duration := break_signal p_pars in
  let len := if nz break_duration then RFCOMM_MX_MSC_LEN_WITH_BREAK
             else RFCOMM_MX_MSC_LEN_NO_BREAK in
  mx_cmd ([u8 (RFCOMM_EA .| RFCOMM_I_CR is_command .| RFCOMM_MX_MSC);
           u8 (RFCOMM_EA .| (len .<< 1));
           u8 (RFCOMM_EA .| RFCOMM_CR_MASK .| (dlci .<< RFCOMM_SHIFT_DLCI));
           u8 (RFCOMM_EA .| (if ctrl_fc p_pars then RFCOMM_MSC_FC else 0)
               .| (if nz (signals .& MODEM_SIGNAL_DTRDSR) then RFCOMM_MSC_RTC else 0)
               .| (if nz (signals .& MODEM_SIGNAL_RTSCTS) then RFCOMM_MSC_RTR else 0)
               .| (if nz (signals .& MODEM_SIGNAL_RI) then RFCOMM_MSC_IC else 0)
               .| (if nz (signals .& MODEM_SIGNAL_DCD) then RFCOMM_MSC_DV else 0))]
          ++ (if nz break_duration
              then [u8 (RFCOMM_EA .| RFCOMM_MSC_BREAK_PRESENT_MASK
                        .| (break_duration .<< RFCOMM_MSC_SHIFT_BREAK))]
              else [])).

Definition rls_cmd (dlci : Z) (is_command : bool) (status : Z) : outcome BT_HDR :=
  mx_cmd [u8 (RFCOMM_EA .| RFCOMM_I_CR is_command .| RFCOMM_MX_RLS);
          u8 (RFCOMM_EA .| (RFCOMM_MX_RLS_LEN .<< 1));
          u8 (RFCOMM_EA .| RFCOMM_CR_MASK .| (dlci .<< RFCOMM_SHIFT_DLCI));
          u8 (RFCOMM_RLS_ERROR .| status)].

(** [f] is [rfc_cb.rfc.rx_frame]. *)
Definition nsc_cmd (f : MX_FRAME) : outcome BT_HDR :=
  mx_cmd [u8 (RFCOMM_EA .| RFCOMM_I_CR false .| RFCOMM_MX_NSC);
          u8 (RFCOMM_EA .| (RFCOMM_MX_NSC_LEN .<< 1));
          u8 (mx_ea f .| (mx_cr f .<< RFCOMM_SHIFT_CR) .| mx_type f)].

Definition rpn_cmd (dlci : Z) (is_command : bool) (p_pars : option tPORT_STATE) (mask : Z) :
    outcome BT_HDR :=
  let head := u8 (RFCOMM_EA .| RFCOMM_I_CR is_command .| RFCOMM_MX_RPN) in
  match p_pars with
  | None =>
      mx_cmd [head; u8 (RFCOMM_EA .| (RFCOMM_MX_RPN_REQ_LEN .<< 1));
              u8 (RFCOMM_EA .| RFCOMM_CR_MASK .| (dlci .<< RFCOMM_SHIFT_DLCI))]
  | Some p =>
      mx_cmd [head; u8 (RFCOMM_EA .| (RFCOMM_MX_RPN_LEN .<< 1));
              u8 (RFCOMM_EA .| RFCOMM_CR_MASK .| (dlci .<< RFCOMM_SHIFT_DLCI));
              u8 (baud_rate p);
              u8 ((byte_size p .<< RFCOMM_RPN_BITS_SHIFT)
                  .| (stop_bits p .<< RFCOMM_RPN_STOP_BITS_SHIFT)
                  .| (parity p .<< RFCOMM_RPN_PARITY_SHIFT)
                  .| (parity_type p .<< RFCOMM_RPN_PARITY_TYPE_SHIFT));
              u8 (fc_type p);
              u8 (xon_char p);
              u8 (xoff_char p);
              u8 (mask .& 0xFF);
              u8 (mask .>> 8)]
  end.

(** The received test data is moved when there is no room for the headers. *)
Definition test_cmd (is_command : bool) (p_buf : BT_HDR) : outcome BT_HDR :=
  p_buf ← (if bh_offset p_buf <? L2CAP_MIN_OFFSET + RFCOMM_MIN_OFFSET + 2 then
    let p_new_buf := (osi_malloc (bh_len p_buf +
        (L2CAP_MIN_OFFSET + RFCOMM_MIN_OFFSET + 2 + sizeof_BT_HDR + 1)))
      <| bh_offset := L2CAP_MIN_OFFSET + RFCOMM_MIN_OFFSET + 2 |>
      <| bh_len := bh_len p_buf |> in
    bytes ← bh_read_bytes p_buf (bh_offset p_buf) (bh_len p_buf);
    bh_write p_new_buf (bh_offset p_new_buf) bytes
  else mret p_buf);
  let p_buf := p_buf <| bh_offset ::= fun o => u16 (o - 2) |> in
  p_buf ← bh_write p_buf (bh_offset p_buf)
    [u8 (RFCOMM_EA .| RFCOMM_I_CR is_command .| RFCOMM_MX_TEST);
     u8 (RFCOMM_EA .| (bh_len p_buf .<< 1))];
  mret (p_buf <| bh_len ::= fun l => u16 (l + 2) |>).

Definition credit_frame (initiator : bool) (dlci credit : Z) : outcome BT_HDR :=
  let p_buf := (osi_malloc RFCOMM_CMD_BUF_SIZE) <| bh_offset := L2CAP_MIN_OFFSET |> in
  let cr := RFCOMM_CR initiator true in
  p_buf ← bh_write p_buf (bh_offset p_buf)
    [u8 (RFCOMM_EA .| cr .| (dlci .<< RFCOMM_SHIFT_DLCI));
     u8 (RFCOMM_UIH .| RFCOMM_PF);
     u8 (RFCOMM_EA .| 0);
     u8 credit];
  hdr ← bh_read_bytes p_buf (bh_offset p_buf) 2;
  p_buf ← bh_write p_buf (bh_offset p_buf + 4) [rfc_calc_fcs hdr];
  mret (p_buf <| bh_len := 5 |>).

(** ** Decoding *)

(** [RFCOMM_PARSE_CTRL_FIELD]: EA, C/R, DLCI and the position after the field. *)
Definition RFCOMM_PARSE_CTRL_FIELD (p_buf : BT_HDR) (pos : Z) : outcome (Z * Z * Z * Z) :=
  d ← bh_read p_buf pos;
  let ea := d .& RFCOMM_EA in
  let cr := (d .& RFCOMM_CR_MASK) .>> RFCOMM_SHIFT_CR in
  let dlci := d .>> RFCOMM_SHIFT_DLCI in
  if nz ea then mret (ea, cr, dlci, pos + 1)
  else d2 ← bh_read p_buf (pos + 1);
       mret (ea, cr, u8 (dlci + (d2 .<< RFCOMM_SHIFT_DLCI2)), pos + 2).

Definition RFCOMM_PARSE_TYPE_FIELD (p_buf : BT_HDR) (pos : Z) : outcome (Z * Z * Z) :=
  d ← bh_read p_buf pos;
  mret (d .&~ RFCOMM_PF_MASK, (d .& RFCOMM_PF_MASK) .>> RFCOMM_PF_OFFSET, pos + 1).

(** The checks per frame type: [switch (p_frame->type)]. *)
Definition rfc_check_frame (is_initiator : bool) (f : MX_FRAME) (len : Z)
    (hdr3 hdr2 : list Z) (fcs : Z) : tRFC_EVENT :=
  let ty := mx_type f in
  let bad_ctrl (wrong_cr : bool) (need_pf : bool) :=
    wrong_cr || (need_pf && negb (nz (mx_pf f))) || nz len
    || negb (RFCOMM_VALID_DLCI (mx_dlci f)) || negb (rfc_check_fcs hdr3 fcs) in
  if ty =? RFCOMM_SABME then
    if bad_ctrl (RFCOMM_FRAME_IS_RSP is_initiator (mx_cr f)) true
    then RFC_EVENT_BAD_FRAME else RFC_EVENT_SABME
  else if ty =? RFCOMM_UA then
    if bad_ctrl (RFCOMM_FRAME_IS_CMD is_initiator (mx_cr f)) true
    then RFC_EVENT_BAD_FRAME else RFC_EVENT_UA
  else if ty =? RFCOMM_DM then
    if bad_ctrl (RFCOMM_FRAME_IS_CMD is_initiator (mx_cr f)) false
    then RFC_EVENT_BAD_FRAME else RFC_EVENT_DM
  else if ty =? RFCOMM_DISC then
    if bad_ctrl (RFCOMM_FRAME_IS_RSP is_initiator (mx_cr f)) true
    then RFC_EVENT_BAD_FRAME else RFC_EVENT_DISC
  else if ty =? RFCOMM_UIH then
    if negb (RFCOMM_VALID_DLCI (mx_dlci f)) then RFC_EVENT_BAD_FRAME
    else if negb (rfc_check_fcs hdr2 fcs) then RFC_EVENT_BAD_FRAME
    else RFC_EVENT_UIH
  else RFC_EVENT_BAD_FRAME.

(** The frame carries a credit octet. *)
Definition carries_credit (p_mcb : tRFC_MCB) (p_frame : MX_FRAME) : bool :=
  bool_decide (mcb_flow p_mcb = PORT_FC_CREDIT) && (mx_type p_frame =? RFCOMM_UIH)
  && negb (mx_dlci p_frame =? RFCOMM_MX_DLCI) && (mx_pf p_frame =? 1).

(** The part after the header: the credit octet, the length and the FCS.
    [p_buf] is already stripped of the header; [p_data] is the position after it. *)
Definition rfc_parse_body (p_mcb : tRFC_MCB) (p_frame : MX_FRAME) (p_buf : BT_HDR)
    (p_start p_data len : Z) : outcome (tRFC_EVENT * MX_FRAME * BT_HDR) :=
  let has_credit := carries_credit p_mcb p_frame in
  if has_credit && (bh_len p_buf <? 1) then mret (RFC_EVENT_BAD_FRAME, p_frame, p_buf)
  else
  '(p_frame, p_buf, p_data) ← (if has_credit then
       c ← bh_read p_buf p_data;
       mret (p_frame <| mx_credit := c |>,
             p_buf <| bh_len ::= fun l => u16 (l - 1) |>
                   <| bh_offset ::= fun o => u16 (o + 1) |>, p_data + 1)
     else mret (p_frame <| mx_credit := 0 |>, p_buf, p_data));
  if negb (bh_len p_buf =? len) then mret (RFC_EVENT_BAD_FRAME, p_frame, p_buf)
  else
  fcs ← bh_read p_buf (p_data + len);
  hdr3 ← bh_read_bytes p_buf p_start RFCOMM_CTRL_FRAME_LEN;
  hdr2 ← bh_read_bytes p_buf p_start 2;
  mret (rfc_check_frame (is_initiator p_mcb) p_frame len hdr3 hdr2 fcs, p_frame, p_buf).

(** The event, the decoded frame and the buffer stripped of header and FCS. *)
Definition rfc_parse_data (p_mcb : tRFC_MCB) (p_frame : MX_FRAME) (p_buf : BT_HDR) :
    outcome (tRFC_EVENT * MX_FRAME * BT_HDR) :=
  let p_start := bh_offset p_buf in
  let buf_len := bh_len p_buf in
  if buf_len <? RFCOMM_CTRL_FRAME_LEN then mret (RFC_EVENT_BAD_FRAME, p_frame, p_buf)
  else
  '(ead, cr, dlci, p_data) ← RFCOMM_PARSE_CTRL_FIELD p_buf p_start;
  let p_frame := p_frame <| mx_cr := cr |> <| mx_dlci := dlci |> in
  if negb (nz ead) then mret (RFC_EVENT_BAD_FRAME, p_frame, p_buf)
  else
  '(ty, pf, p_data) ← RFCOMM_PARSE_TYPE_FIELD p_buf p_data;
  let p_frame := p_frame <| mx_type := ty |> <| mx_pf := pf |> in
  d ← bh_read p_buf p_data;
  let p_data := p_data + 1 in
  let eal := d .& RFCOMM_EA in
  let len := d .>> RFCOMM_SHIFT_LENGTH1 in
  if (eal =? 0) && negb (RFCOMM_CTRL_FRAME_LEN <? buf_len)
  then mret (RFC_EVENT_BAD_FRAME, p_frame, p_buf)
  else
  '(len, p_data) ← (if eal =? 0 then
       d2 ← bh_read p_buf p_data;
       mret (u16 (len + (d2 .<< RFCOMM_SHIFT_LENGTH2)), p_data + 1)
     else mret (len, p_data));
  let hdr_len := 3 + b2z (negb (nz ead)) + b2z (negb (nz eal)) in
  if buf_len <? hdr_len + 1 then mret (RFC_EVENT_BAD_FRAME, p_frame, p_buf)
  else
  let p_buf := p_buf <| bh_len := u16 (buf_len - (hdr_len + 1)) |>
                     <| bh_offset ::= fun o => u16 (o + hdr_len) |> in
  rfc_parse_body p_mcb p_frame p_buf p_start p_data len.

(** *** Multiplexer control messages

    [mx_header] is the part of [rfc_process_mx_message] before the switch: it
    returns the frame with EA, C/R and type stored, and, for a well-formed
    message, the position of its value, [mx_len] and [length] (a message that
    is only dropped gives [None]).  The [mx_read_*] functions read the value of
    each message type into the frame. *)

Definition mx_header (p_rx_frame : MX_FRAME) (p_buf : BT_HDR) :
    outcome (MX_FRAME * option (Z * Z * Z)) :=
  let p_data := bh_offset p_buf in
  let length := bh_len p_buf in
  if length <? 2 then mret (p_rx_frame, None)
  else
  d ← bh_read p_buf p_data;
  let f := p_rx_frame <| mx_ea := d .& RFCOMM_EA |>
             <| mx_cr := (d .& RFCOMM_CR_MASK) .>> RFCOMM_SHIFT_CR |>
             <| mx_type := d .&~ (RFCOMM_CR_MASK .| RFCOMM_EA_MASK) |> in
  let p_data := p_data + 1 in
  if negb (nz (mx_ea f)) || negb (nz length) then mret (f, None)
  else
  let length := length - 1 in
  d ← bh_read p_buf p_data;
  let p_data := p_data + 1 in
  let ea := d .& RFCOMM_EA in
  let mx_len := d .>> RFCOMM_SHIFT_LENGTH1 in
  let length := length - 1 in
  if negb (nz ea) && (length <? 1) then mret (f, None)
  else
  '(mx_len, p_data, length) ← (if nz ea then mret (mx_len, p_data, length) else
       d ← bh_read p_buf p_data;
       mret (u8 (mx_len + (d .<< RFCOMM_SHIFT_LENGTH2)), p_data + 1, length - 1));
  if negb (mx_len =? length) then mret (f, None)
  else mret (f, Some (p_data, mx_len, length)).

Definition mx_read_pn (f : MX_FRAME) (p_buf : BT_HDR) (p : Z) : outcome MX_FRAME :=
  d0 ← bh_read p_buf p;
  d1 ← bh_read p_buf (p + 1);
  d2 ← bh_read p_buf (p + 2);
  d3 ← bh_read p_buf (p + 3);
  d4 ← bh_read p_buf (p + 4);
  d5 ← bh_read p_buf (p + 5);
  d6 ← bh_read p_buf (p + 6);
  d7 ← bh_read p_buf (p + 7);
  mret (set_u 9 (d7 .& RFCOMM_PN_K_MASK) (set_u 8 d6
       (set_u16 6 (d4 + (d5 .<< 8)) (set_u 4 d3
       (set_u 3 (d2 .& RFCOMM_PN_PRIORITY_MASK)
       (set_u 2 (d1 .& RFCOMM_PN_CONV_LAYER_MASK)
       (set_u 1 (d1 .& RFCOMM_PN_FRAME_TYPE_MASK)
       (f <| mx_dlci := d0 .& RFCOMM_PN_DLCI_MASK |>)))))))).

Definition mx_bad_pn (f : MX_FRAME) : bool :=
  negb (nz (mx_dlci f)) || negb (RFCOMM_VALID_DLCI (mx_dlci f))
  || (pn_mtu f <? RFCOMM_MIN_MTU) || (RFCOMM_MAX_MTU <? pn_mtu f).

(** The address octet of MSC, RPN and RLS values: EA, C/R, and the DLCI. *)
Definition mx_read_addr (f : MX_FRAME) (p_buf : BT_HDR) (p : Z) : outcome (bool * MX_FRAME) :=
  d ← bh_read p_buf p;
  let ea := d .& RFCOMM_EA in
  let cr := (d .& RFCOMM_CR_MASK) .>> RFCOMM_SHIFT_CR in
  let f := f <| mx_dlci := d .>> RFCOMM_SHIFT_DLCI |> in
  mret (negb (nz ea) || negb (nz cr) || negb (nz (mx_dlci f))
        || negb (RFCOMM_VALID_DLCI (mx_dlci f)), f).

Definition mx_read_msc (f : MX_FRAME) (p_buf : BT_HDR) (p mx_len : Z) : outcome MX_FRAME :=
  d ← bh_read p_buf (p + 1);
  let f := set_u 1 d f in
  if mx_len =? RFCOMM_MX_MSC_LEN_WITH_BREAK then
    d ← bh_read p_buf (p + 2);
    mret (set_u 3 ((d .& RFCOMM_MSC_BREAK_MASK) .>> RFCOMM_MSC_SHIFT_BREAK)
         (set_u 2 (d .& RFCOMM_MSC_BREAK_PRESENT_MASK) f))
  else mret (set_u 3 0 (set_u 2 0 f)).

Definition mx_read_nsc (f : MX_FRAME) (p_buf : BT_HDR) (p : Z) : outcome MX_FRAME :=
  d ← bh_read p_buf p;
  mret (set_u 2 (d .>> RFCOMM_SHIFT_DLCI)
       (set_u 1 ((d .& RFCOMM_CR_MASK) .>> RFCOMM_SHIFT_CR)
       (set_u 0 (d .& RFCOMM_EA) f))).

Definition mx_read_rpn (f : MX_FRAME) (p_buf : BT_HDR) (p length : Z) : outcome MX_FRAME :=
  let f := set_u 1 (b2z (length =? RFCOMM_MX_RPN_REQ_LEN)) f in
  if nz (rpn_is_request f) then mret f else
  d1 ← bh_read p_buf (p + 1);
  d2 ← bh_read p_buf (p + 2);
  d3 ← bh_read p_buf (p + 3);
  d4 ← bh_read p_buf (p + 4);
  d5 ← bh_read p_buf (p + 5);
  d6 ← bh_read p_buf (p + 6);
  d7 ← bh_read p_buf (p + 7);
  mret (set_u16 10 ((d6 + (d7 .<< 8)) .& RFCOMM_RPN_PM_MASK)
       (set_u 9 d5 (set_u 8 d4 (set_u 7 (d3 .& RFCOMM_FC_MASK)
       (set_u 6 ((d2 .>> RFCOMM_RPN_PARITY_TYPE_SHIFT) .& RFCOMM_RPN_PARITY_TYPE_MASK)
       (set_u 5 ((d2 .>> RFCOMM_RPN_PARITY_SHIFT) .& RFCOMM_RPN_PARITY_MASK)
       (set_u 4 ((d2 .>> RFCOMM_RPN_STOP_BITS_SHIFT) .& RFCOMM_RPN_STOP_BITS_MASK)
       (set_u 3 ((d2 .>> RFCOMM_RPN_BITS_SHIFT) .& RFCOMM_RPN_BITS_MASK)
       (set_u 2 d1 f))))))))).

Definition mx_read_rls (f : MX_FRAME) (p_buf : BT_HDR) (p : Z) : outcome MX_FRAME :=
  d ← bh_read p_buf (p + 1);
  mret (set_u 1 (d .&~ 0x01) f).

(** ** Sending *)

(** [while (!p_mcb->l2cap_congested) { ... }]; each round dequeues one buffer. *)
Fixpoint send_cmd_loop (fuel : nat) (m : nat) : M unit :=
  match fuel with
  | O => abort OutOfFuel
  | S fuel =>
      x ← get_mcb m;
      if l2cap_congested x then skip
      else match fixed_queue_try_dequeue (cmd_q x) with
           | None => skip
           | Some (p, q) =>
               upd_mcb m (fun x => x <| cmd_q := q |>);;
               emit (L2CA_DataWrite (mcb_lcid x) p);;
               send_cmd_loop fuel m
           end
  end.

Definition rfc_check_send_cmd (m : nat) (p_buf : option BT_HDR) : M unit :=
  match p_buf with
  | Some b =>
      x ← get_mcb m;
      q ← lift (fixed_queue_enqueue (cmd_q x) b);
      upd_mcb m (fun x => x <| cmd_q := q |>)
  | None => skip
  end;;
  x ← get_mcb m;
  send_cmd_loop (S (Z.to_nat (fixed_queue_length (cmd_q x)))) m.

Definition rfc_send_sabme (m : nat) (dlci : Z) : M unit :=
  x ← get_mcb m;
  p_buf ← lift (sabme_frame (is_initiator x) dlci);
  rfc_check_send_cmd m (Some p_buf).

Definition rfc_send_ua (m : nat) (dlci : Z) : M unit :=
  x ← get_mcb m;
  p_buf ← lift (ua_frame (is_initiator x) dlci);
  rfc_check_send_cmd m (Some p_buf).

Definition rfc_send_dm (m : nat) (dlci : Z) (pf : bool) : M unit :=
  x ← get_mcb m;
  p_buf ← lift (dm_frame (is_initiator x) dlci pf);
  rfc_check_send_cmd m (Some p_buf).

Definition rfc_send_disc (m : nat) (dlci : Z) : M unit :=
  x ← get_mcb m;
  p_buf ← lift (disc_frame (is_initiator x) dlci);
  rfc_check_send_cmd m (Some p_buf).

Definition rfc_send_buf_uih (m : nat) (dlci : Z) (p_buf : BT_HDR) : M unit :=
  x ← get_mcb m;
  p_buf ← lift (uih_frame (is_initiator x) dlci p_buf);
  if dlci =? RFCOMM_MX_DLCI then rfc_check_send_cmd m (Some p_buf)
  else emit (L2CA_DataWrite (mcb_lcid x) p_buf).

Definition rfc_send_pn (m : nat) (dlci : Z) (is_command : bool) (mtu cl k : Z) : M unit :=
  s ← get;
  p_buf ← lift (pn_cmd (pn_priority (rx_frame s)) dlci is_command mtu cl k);
  rfc_send_buf_uih m RFCOMM_MX_DLCI p_buf.

Definition rfc_send_fcon (m : nat) (is_command : bool) : M unit :=
  p_buf ← lift (fcon_cmd is_command);
  rfc_send_buf_uih m RFCOMM_MX_DLCI p_buf.

Definition rfc_send_fcoff (m : nat) (is_command : bool) : M unit :=
  p_buf ← lift (fcoff_cmd is_command);
  rfc_send_buf_uih m RFCOMM_MX_DLCI p_buf.

Definition rfc_send_msc (m : nat) (dlci : Z) (is_command : bool) (p_pars : tPORT_CTRL) : M unit :=
  p_buf ← lift (msc_cmd dlci is_command p_pars);
  rfc_send_buf_uih m RFCOMM_MX_DLCI p_buf.

Definition rfc_send_rls (m : nat) (dlci : Z) (is_command : bool) (status : Z) : M unit :=
  p_buf ← lift (rls_cmd dlci is_command status);
  rfc_send_buf_uih m RFCOMM_MX_DLCI p_buf.

Definition rfc_send_nsc (m : nat) : M unit :=
  s ← get;
  p_buf ← lift (nsc_cmd (rx_frame s));
  rfc_send_buf_uih m RFCOMM_MX_DLCI p_buf.

Definition rfc_send_rpn (m : nat) (dlci : Z) (is_command : bool)
    (p_pars : option tPORT_STATE) (mask : Z) : M unit :=
  p_buf ← lift (rpn_cmd dlci is_command p_pars mask);
  rfc_send_buf_uih m RFCOMM_MX_DLCI p_buf.

Definition rfc_send_test (m : nat) (is_command : bool) (p_buf : BT_HDR) : M unit :=
  p_buf ← lift (test_cmd is_command p_buf);
  rfc_send_buf_uih m RFCOMM_MX_DLCI p_buf.

Definition rfc_send_credit (m : nat) (dlci credit : Z) : M unit :=
  x ← get_mcb m;
  p_buf ← lift (credit_frame (is_initiator x) dlci credit);
  rfc_check_send_cmd m (Some p_buf).
