(* ===== verification/RfcUtils.v ===== *)
(** * RfcUtils: multiplexer and port tables

    [src/system/stack/rfcomm/rfc_utils.cc], the table functions of
    [port_utils.cc] and the LCID table of [rfc_l2cap_if.cc]: allocation and
    release of multiplexers and ports, timers, lookups, MTU selection and the
    flow control decisions. *)

From Stdlib Require Import ZArith Lia.
From stdpp Require Import gmap.
From S2P Require Import Prelude Osi RfcDefs RfcState RfcFrames.

(** ** LCID table (rfc_l2cap_if.cc) *)

(** A null entry and an absent one are the same to every reader. *)
Definition rfc_save_lcid_mcb (p_mcb : option nat) (lcid : Z) : M unit :=
  modify (fun s => s <| rfc_lcid_mcb ::= fun t =>
    match p_mcb with Some m => <[lcid := m]> t | None => delete lcid t end |>).

Definition rfc_find_lcid_mcb (lcid : Z) : M (option nat) :=
  s ← get;
  match rfc_lcid_mcb s !! lcid with
  | None => mret None
  | Some m => x ← get_mcb m;
              mret (if mcb_lcid x =? lcid then Some m else None)
  end.

(** ** Timers *)

Definition rfc_timer_start (m : nat) (timeout : Z) : M unit :=
  x ← get_mcb m;
  t ← lift (alarm_set_on_mloop (mcb_timer x) (timeout * 1000));
  upd_mcb m (fun x => x <| mcb_timer := t |>).

Definition rfc_timer_stop (m : nat) : M unit :=
  upd_mcb m (fun x => x <| mcb_timer ::= alarm_cancel |>).

Definition rfc_port_timer_start (p : nat) (timeout : Z) : M unit :=
  x ← get_port p;
  t ← lift (alarm_set_on_mloop (port_timer (rfc x)) (timeout * 1000));
  upd_port p (fun x => x <| rfc ::= set port_timer (fun _ => t) |>).

Definition rfc_port_timer_stop (p : nat) : M unit :=
  upd_port p (fun x => x <| rfc ::= set port_timer alarm_cancel |>).

(** ** Multiplexer table *)

Fixpoint find_index {A} (P : A -> bool) (l : list A) (i : nat) : option nat :=
  match l with
  | [] => None
  | x :: l => if P x then Some i else find_index P l (S i)
  end.

Definition mcb_is (addr : RawAddress) (x : tRFC_MCB) : bool :=
  negb (bool_decide (mcb_state x = RFC_MX_STATE_IDLE)) && (mcb_bd_addr x =? addr).

(** [for (i = 0, j = last_mux + 1; i < MAX_BD_CONNECTIONS; i++, j++)] *)
Fixpoint find_idle_mcb (tab : list tRFC_MCB) (n : nat) (j : Z) : option Z :=
  match n with
  | O => None
  | S n =>
      let j := if MAX_BD_CONNECTIONS <=? j then 0 else j in
      match tab !! Z.to_nat j with
      | Some x => if bool_decide (mcb_state x = RFC_MX_STATE_IDLE) then Some j
                  else find_idle_mcb tab n (j + 1)
      | None => None
      end
  end.

Definition rfc_alloc_multiplexer_channel (addr : RawAddress) (is_initiator : bool) :
    M (option nat) :=
  s ← get;
  match find_index (mcb_is addr) (rfc_mcb_tab s) 0 with
  | Some i =>
      x ← get_mcb i;
      when (bool_decide (mcb_state x = RFC_MX_STATE_CONNECTED)) (rfc_timer_stop i);;
      mret (Some i)
  | None =>
      match find_idle_mcb (rfc_mcb_tab s) 16 (last_mux s + 1) with
      | Some j =>
          let m := Z.to_nat j in
          upd_mcb m (fun _ => zero_RFC_MCB <| mcb_bd_addr := addr |>
            <| mcb_timer := alarm_new |> <| cmd_q := fixed_queue_new |>
            <| RfcState.is_initiator := is_initiator |>);;
          rfc_timer_start m RFC_MCB_INIT_INACT_TIMER;;
          modify (fun s => s <| last_mux := u8 j |>);;
          mret (Some m)
      | None => mret None
      end
  end.

Definition rfc_release_multiplexer_channel (m : nat) : M unit :=
  x ← get_mcb m;
  rfc_save_lcid_mcb None (mcb_lcid x);;
  modify (fun s => s <| port_tab ::= map (fun p =>
    if bool_decide (p_mcb (rfc p) = Some m) then put_p_mcb None p else p) |>);;
  rfc_timer_stop m;;
  upd_mcb m (fun _ => zero_RFC_MCB <| mcb_state := RFC_MX_STATE_IDLE |>).

(** [for (i = 0; i < RFCOMM_MAX_DLCI; i++) if (port_handles[i] != 0)] *)
Definition mcb_has_port (x : tRFC_MCB) : bool :=
  existsb nz (take (Z.to_nat RFCOMM_MAX_DLCI) (port_handles x)).

(** ** Port table *)

Definition default_port_pars : tPORT_STATE := mkPORT_STATE 0x03 0x03 0x00 0x00 0x00 0x00 0 0x11 0x13.

Definition port_set_defaults (x : tPORT) : tPORT :=
  x <| ev_mask := 0 |> <| p_callback := 0 |> <| port_ctrl := 0 |> <| port_error := 0 |>
    <| line_status := 0 |> <| rx_flag_ev_pending := false |>
    <| peer_mtu := RFCOMM_DEFAULT_MTU |>
    <| user_port_pars := default_port_pars |> <| peer_port_pars := default_port_pars |>
    <| credit_tx := 0 |> <| credit_rx := 0 |>
    <| local_ctrl := zero_PORT_CTRL |> <| peer_ctrl := zero_PORT_CTRL |>
    <| rx := zero_PORT_DATA |> <| tx := zero_PORT_DATA |>
    <| tx ::= set pd_queue (fun _ => fixed_queue_new) |>
    <| rx ::= set pd_queue (fun _ => fixed_queue_new) |>.

Fixpoint find_free_port (tab : list tPORT) (n : nat) (port_index : Z) : option Z :=
  match n with
  | O => None
  | S n =>
      let port_index := if MAX_RFC_PORTS <=? port_index then 0 else port_index in
      match tab !! Z.to_nat port_index with
      | Some x => if in_use x then find_free_port tab n (u8 (port_index + 1))
                  else Some port_index
      | None => None
      end
  end.

Definition port_allocate_port (dlci : Z) (addr : RawAddress) : M (option nat) :=
  s ← get;
  match find_free_port (port_tab s) 30 (u8 (last_port_index s + 1)) with
  | Some port_index =>
      upd_port (Z.to_nat port_index) (fun _ =>
        (port_set_defaults (zero_PORT <| in_use := true |>
           <| port_handle := u8 (port_index + 1) |>))
        <| rfc ::= set port_timer (fun _ => alarm_new) |>
        <| port_dlci := dlci |> <| port_bd_addr := addr |>);;
      modify (fun s => s <| last_port_index := port_index |>);;
      mret (Some (Z.to_nat port_index))
  | None => mret None
  end.

Definition port_find_mcb (addr : RawAddress) : M (option nat) :=
  s ← get; mret (find_index (mcb_is addr) (rfc_mcb_tab s) 0).

(** A handle designates the entry [handle - 1] of the port table. *)
Definition port_find_mcb_dlci_port (p_mcb : option nat) (dlci : Z) : M (option nat) :=
  match p_mcb with
  | None => mret None
  | Some m =>
      if RFCOMM_MAX_DLCI <? dlci then mret None else
      x ← get_mcb m;
      handle ← lift (rd (port_handles x) dlci);
      mret (if handle =? 0 then None else Some (Z.to_nat (handle - 1)))
  end.

Definition dlci_matches (dlci : Z) (x : tPORT) : bool :=
  in_use x && bool_decide (p_mcb (rfc x) = None)
  && ((port_dlci x =? dlci) || (nz (dlci .& 0x01) && (port_dlci x =? dlci - 1))).

Definition port_find_dlci_port (dlci : Z) : M (option nat) :=
  s ← get;
  match find_index (dlci_matches dlci) (port_tab s) 0 with
  | None => mret None
  | Some p =>
      x ← get_port p;
      when (negb (port_dlci x =? dlci))
        (upd_port p (fun x => x <| port_dlci ::= fun d => u8 (d + 1) |>));;
      mret (Some p)
  end.

Definition port_find_port (dlci : Z) (addr : RawAddress) : M (option nat) :=
  s ← get;
  mret (find_index (fun x => in_use x && (port_dlci x =? dlci) && (port_bd_addr x =? addr))
    (port_tab s) 0).

(** ** MTU selection and flow control decisions *)

Definition div (a b : Z) : outcome Z := if b =? 0 then Crash DivByZero else Ok (a / b).

(** [packet_size] is [BTM_GetMaxPacketSize(p_port->bd_addr)]. *)
Definition select_mtu (packet_size : Z) (x : tPORT) : outcome tPORT :=
  let x :=
    if port_mtu x =? 0 then
      if packet_size =? 0 then x <| port_mtu := RFCOMM_DEFAULT_MTU |>
      else if packet_size <=? L2CAP_MTU_SIZE + L2CAP_PKT_OVERHEAD then
        x <| port_mtu := u16 ((L2CAP_MTU_SIZE + L2CAP_PKT_OVERHEAD) / packet_size * packet_size
                              - RFCOMM_DATA_OVERHEAD - L2CAP_PKT_OVERHEAD) |>
      else x <| port_mtu := L2CAP_MTU_SIZE - RFCOMM_DATA_OVERHEAD |>
    else x in
  max ← div PORT_RX_HIGH_WM (port_mtu x);
  low ← div PORT_RX_LOW_WM (port_mtu x);
  critical ← div PORT_RX_CRITICAL_WM (port_mtu x);
  mret (x <| credit_rx_max := (if PORT_RX_BUF_HIGH_WM <? max then PORT_RX_BUF_HIGH_WM else max) |>
          <| credit_rx_low := (if PORT_RX_BUF_LOW_WM <? low then PORT_RX_BUF_LOW_WM else low) |>
          <| rx_buf_critical := (if PORT_RX_BUF_CRITICAL_WM <? critical
                                 then PORT_RX_BUF_CRITICAL_WM else critical) |>).

Definition port_select_mtu `{RfcEnv} (p : nat) : M unit :=
  x ← get_port p;
  y ← lift (select_mtu (u16 (env_max_packet_size (port_bd_addr x))) x);
  upd_port p (fun _ => y).

(** The new flow state and the event bits. *)
Definition port_flow_control_user (p : nat) : M Z :=
  x ← get_port p;
  ready ← match p_mcb (rfc x) with
          | None => mret false
          | Some m => y ← get_mcb m; mret (peer_ready y)
          end;
  let fc := peer_fc (tx x) || negb ready || (PORT_TX_HIGH_WM <? queue_size (tx x))
            || (PORT_TX_BUF_HIGH_WM <? fixed_queue_length (pd_queue (tx x))) in
  if Bool.eqb (user_fc (tx x)) fc then mret 0
  else upd_port p (fun x => x <| tx ::= set user_fc (fun _ => fc) |>);;
       mret (if fc then PORT_EV_FC else PORT_EV_FC .| PORT_EV_FCS).

Definition port_get_signal_changes (x : tPORT) (old_signals signal : Z) : Z :=
  let changed_signals := Z.lxor signal old_signals in
  let events :=
    if nz (changed_signals .& PORT_DTRDSR_ON) then
      PORT_EV_DSR .| (if nz (signal .& PORT_DTRDSR_ON) then PORT_EV_DSRS else 0) else 0 in
  let events := events .|
    if nz (changed_signals .& PORT_CTSRTS_ON) then
      PORT_EV_CTS .| (if nz (signal .& PORT_CTSRTS_ON) then PORT_EV_CTSS else 0) else 0 in
  let events := events .| if nz (changed_signals .& PORT_RING_ON) then PORT_EV_RING else 0 in
  let events := events .|
    if nz (changed_signals .& PORT_DCD_ON) then
      PORT_EV_RLSD .| (if nz (signal .& PORT_DCD_ON) then PORT_EV_RLSDS else 0) else 0 in
  ev_mask x .& events.

Definition port_get_credits (p : nat) (k : Z) : M unit :=
  upd_port p (fun x => x <| credit_tx := k |>);;
  when (k =? 0) (upd_port p (fun x => x <| tx ::= set peer_fc (fun _ => true) |>)).

(** [p_port->rfc.p_mcb->flow]: the pointer is dereferenced. *)
Definition rfc_dec_credit (p : nat) : M unit :=
  m ← port_mcb p;
  y ← get_mcb m;
  when (bool_decide (mcb_flow y = PORT_FC_CREDIT)) (
    x ← get_port p;
    when (0 <? credit_tx x) (upd_port p (fun x => x <| credit_tx ::= fun c => c - 1 |>));;
    x ← get_port p;
    when (credit_tx x =? 0)
      (upd_port p (fun x => x <| tx ::= set peer_fc (fun _ => true) |>))).

(** ** Functions that call the state machines *)

Section Calls.
Context `{SmCalls}.

Definition rfc_check_mcb_active (m : nat) : M unit :=
  x ← get_mcb m;
  if mcb_has_port x then upd_mcb m (fun x => x <| is_disc_initiator := false |>)
  else if is_disc_initiator x then
    upd_mcb m (fun x => x <| is_disc_initiator := false |>);;
    call_mx_sm m RFC_MX_EVENT_CLOSE_REQ PNull
  else rfc_timer_start m RFC_MCB_RELEASE_INACT_TIMER.

Definition rfcomm_port_timer_timeout (p : nat) : M unit :=
  call_port_sm (Some p) RFC_PORT_EVENT_TIMEOUT PNull.

Definition rfcomm_mcb_timer_timeout (m : nat) : M unit :=
  call_mx_sm m RFC_MX_EVENT_TIMEOUT PNull.

Definition waits_sec_check (x : tPORT) : bool :=
  in_use x &&
  (bool_decide (rfc_state (rfc x) = RFC_STATE_ORIG_WAIT_SEC_CHECK)
   || bool_decide (rfc_state (rfc x) = RFC_STATE_TERM_WAIT_SEC_CHECK)).

Definition rfc_sec_check_complete (p : nat) (res : Z) : M unit :=
  x ← get_port p;
  when (waits_sec_check x) (call_port_sm (Some p) RFC_PORT_EVENT_SEC_COMPLETE (PResult res)).

(** [while ((p_buf = fixed_queue_try_dequeue(q)) != nullptr) osi_free(p_buf)] *)
Definition drain (q : fixed_queue) : fixed_queue :=
  match q with Some _ => Some [] | None => None end.

Definition reinit_port (x : tPORT) : tPORT :=
  let mask := ev_mask x in
  let p_port_cb := p_callback x in
  let user_pars := user_port_pars x in
  let x := (port_set_defaults x) <| ev_mask := mask |> <| p_callback := p_port_cb |>
             <| user_port_pars := user_pars |> <| port_mtu := keep_mtu x |>
             <| port_state := PORT_CONNECTION_STATE_OPENING |> in
  let x := put_p_mcb None x in
  let x := if is_server x then x <| port_dlci ::= fun d => d .& 0xfe |> else x in
  x <| local_ctrl ::= set modem_signal (fun _ => default_signal_state x) |>
    <| port_bd_addr := RawAddress_kAny |>.

Definition port_release_port (p : nat) : M unit :=
  upd_port p (fun x =>
    x <| rx ::= fun d => d <| pd_queue ::= drain |> <| queue_size := 0 |> |>
      <| tx ::= fun d => d <| pd_queue ::= drain |> <| queue_size := 0 |> |>
      <| rfc ::= set port_timer alarm_cancel |>
      <| port_state := PORT_CONNECTION_STATE_CLOSED |>);;
  x ← get_port p;
  when (bool_decide (rfc_state (rfc x) = RFC_STATE_CLOSED)) (
    match p_mcb (rfc x) with
    | Some m =>
        put_port_handle m (port_dlci x) 0;;
        rfc_check_mcb_active m
    | None => skip
    end;;
    rfc_port_timer_stop p;;
    upd_port p (fun x => x <| tx ::= set pd_queue (fun _ => None) |>
                           <| rx ::= set pd_queue (fun _ => None) |>);;
    x ← get_port p;
    if keep_port_handle x then upd_port p reinit_port
    else upd_port p (fun _ => zero_PORT)).

End Calls.
