(* ===== verification/PortRfc.v ===== *)
(** * PortRfc: the port layer and its interface to RFCOMM

    [src/system/stack/rfcomm/port_rfc.cc], [rfc_port_if.cc], and the functions
    of [port_utils.cc] and [rfc_utils.cc] that call them.  Metrics, traces and
    the snoop logger are left out.  Application callbacks are outputs: they do
    not call back into RFCOMM. *)

From Stdlib Require Import ZArith Lia.
From stdpp Require Import gmap.
From S2P Require Import Prelude Osi RfcDefs RfcState RfcFrames RfcUtils.

Section PortRfc.
Context `{RfcEnv} `{SmCalls}.

(** ** Application callbacks *)

(** [if (p_port->p_callback && events) p_port->p_callback(events, handle)] *)
Definition event_callback (p : nat) (events : Z) : M unit :=
  x ← get_port p;
  when (nz (p_callback x) && nz events)
    (emit (port_callback (p_callback x) events (port_handle x))).

Definition mgmt_callback (p : nat) (code : Z) : M unit :=
  x ← get_port p;
  when (nz (p_mgmt_callback x))
    (emit (port_mgmt_callback (p_mgmt_callback x) code (port_handle x))).

(** ** Requests to the state machines (rfc_port_if.cc) *)

Definition RFCOMM_StartReq (m : nat) : M unit :=
  call_mx_sm m RFC_MX_EVENT_START_REQ PNull.

Definition RFCOMM_StartRsp (m : nat) (result : Z) : M unit :=
  call_mx_sm m RFC_MX_EVENT_START_RSP (PResult result).

Definition RFCOMM_DlcReleaseReq (m : nat) (dlci : Z) : M unit :=
  p ← port_find_mcb_dlci_port (Some m) dlci;
  call_port_sm p RFC_PORT_EVENT_CLOSE PNull.

Definition RFCOMM_DataReq (m : nat) (dlci : Z) (p_buf : BT_HDR) : M unit :=
  p ← port_find_mcb_dlci_port (Some m) dlci;
  call_port_sm p RFC_PORT_EVENT_DATA (PBuf p_buf).

Definition RFCOMM_ParameterNegotiationRequest (m : nat) (dlci mtu : Z) : M unit :=
  o ← port_find_mcb_dlci_port (Some m) dlci;
  match o with
  | None => skip
  | Some p =>
      y ← get_mcb m;
      if negb (bool_decide (mcb_state y = RFC_MX_STATE_CONNECTED))
      then upd_port p (fun x => x <| port_error := PORT_PAR_NEG_FAILED |>)
      else
      let flow := if bool_decide (mcb_flow y = PORT_FC_UNDEFINED)
                  then PORT_FC_DEFAULT else mcb_flow y in
      x ← get_port p;
      '(cl, k) ← (if bool_decide (flow = PORT_FC_CREDIT) then
          let k := u8 (if credit_rx_max x <? RFCOMM_K_MAX then credit_rx_max x
                       else RFCOMM_K_MAX) in
          upd_port p (fun x => x <| credit_rx := k |>);;
          mret (RFCOMM_PN_CONV_LAYER_CBFC_I, k)
        else mret (RFCOMM_PN_CONV_LAYER_TYPE_1, 0));
      upd_port p (or_expected_rsp RFC_RSP_PN);;
      rfc_send_pn m dlci true mtu cl k;;
      rfc_port_timer_start p RFC_T2_TIMEOUT
  end.

Definition RFCOMM_ParameterNegotiationResponse (m : nat) (dlci mtu cl k : Z) : M unit :=
  y ← get_mcb m;
  if negb (bool_decide (mcb_state y = RFC_MX_STATE_CONNECTED)) then skip
  else rfc_send_pn m dlci false mtu cl k.

Definition RFCOMM_PortParameterNegotiationResponse (m : nat) (dlci : Z)
    (p_pars : tPORT_STATE) (param_mask : Z) : M unit :=
  y ← get_mcb m;
  if negb (bool_decide (mcb_state y = RFC_MX_STATE_CONNECTED)) then skip
  else rfc_send_rpn m dlci false (Some p_pars) param_mask.

(** The port is opened on both layers. *)
Definition fully_opened (x : tPORT) : bool :=
  bool_decide (port_state x = PORT_CONNECTION_STATE_OPENED)
  && bool_decide (rfc_state (rfc x) = RFC_STATE_OPENED).

Definition RFCOMM_ControlReq (p_mcb : option nat) (dlci : Z) (p_pars : tPORT_CTRL) : M unit :=
  o ← port_find_mcb_dlci_port p_mcb dlci;
  match o, p_mcb with
  | Some p, Some m =>
      x ← get_port p;
      if negb (fully_opened x) then skip else
      upd_port p (fun x => or_expected_rsp RFC_RSP_MSC
                             (x <| port_ctrl ::= fun c => c .| PORT_CTRL_REQ_SENT |>));;
      rfc_send_msc m dlci true p_pars;;
      rfc_port_timer_start p RFC_T2_TIMEOUT
  | _, _ => skip
  end.

Definition RFCOMM_FlowReq (m : nat) (dlci : Z) (enable : bool) : M unit :=
  o ← port_find_mcb_dlci_port (Some m) dlci;
  match o with
  | None => skip
  | Some p =>
      x ← get_port p;
      if negb (fully_opened x) then skip else
      upd_port p (fun x => or_expected_rsp RFC_RSP_MSC
                             (x <| local_ctrl ::= set ctrl_fc (fun _ => negb enable) |>));;
      x ← get_port p;
      rfc_send_msc m dlci true (local_ctrl x);;
      rfc_port_timer_start p RFC_T2_TIMEOUT
  end.

Definition RFCOMM_LineStatusReq (m : nat) (dlci status : Z) : M unit :=
  o ← port_find_mcb_dlci_port (Some m) dlci;
  match o with
  | None => skip
  | Some p =>
      x ← get_port p;
      if negb (fully_opened x) then skip else
      upd_port p (or_expected_rsp RFC_RSP_RLS);;
      rfc_send_rls m dlci true status;;
      rfc_port_timer_start p RFC_T2_TIMEOUT
  end.

(** ** Flow control towards the peer (port_utils.cc) *)

Definition port_flow_control_peer (p : nat) (enable : bool) (count : Z) : M unit :=
  x ← get_port p;
  match p_mcb (rfc x) with
  | None => skip
  | Some m =>
      y ← get_mcb m;
      let has_data_cb := nz (p_data_callback x) || nz (p_data_co_callback x) in
      if bool_decide (mcb_flow y = PORT_FC_CREDIT) then
        if enable then
          upd_port p (fun x => x <| credit_rx ::= fun c => if c <? count then 0 else c - count |>);;
          x ← get_port p;
          when ((credit_rx x <=? credit_rx_low x) && negb (user_fc (rx x))
                && (credit_rx x <? credit_rx_max x)) (
            rfc_send_credit m (port_dlci x) (u8 (credit_rx_max x - credit_rx x));;
            upd_port p (fun x => x <| credit_rx := credit_rx_max x |>
                                   <| rx ::= set peer_fc (fun _ => false) |>))
        else
          when (has_data_cb || (credit_rx_max x <=? fixed_queue_length (pd_queue (rx x))))
            (upd_port p (fun x => x <| rx ::= set peer_fc (fun _ => true) |>))
      else if enable then
        when (peer_fc (rx x) && (queue_size (rx x) <? PORT_RX_LOW_WM)
              && (fixed_queue_length (pd_queue (rx x)) <? PORT_RX_BUF_LOW_WM)) (
          upd_port p (fun x => x <| rx ::= set peer_fc (fun _ => false) |>);;
          when (negb (user_fc (rx x))) (RFCOMM_FlowReq m (port_dlci x) true))
      else
        when (has_data_cb ||
              (((PORT_RX_HIGH_WM <? queue_size (rx x))
                || (PORT_RX_BUF_HIGH_WM <? fixed_queue_length (pd_queue (rx x))))
               && negb (peer_fc (rx x)))) (
          upd_port p (fun x => x <| rx ::= set peer_fc (fun _ => true) |>);;
          RFCOMM_FlowReq m (port_dlci x) false)
  end.

(** ** Closing a port (port_rfc.cc, rfc_utils.cc) *)

(** The signals that drop with the connection. *)
Definition drop_signals (x : tPORT) : tPORT :=
  x <| line_status ::= fun l => l .| LINE_STATUS_FAILED |>
    <| peer_ctrl ::= set modem_signal (fun g =>
         g .&~ (PORT_DTRDSR_ON .| PORT_CTSRTS_ON .| PORT_DCD_ON)) |>.

Definition port_rfc_closed (p : nat) (res : Z) : M unit :=
  x ← get_port p;
  if bool_decide (port_state x = PORT_CONNECTION_STATE_OPENING) && is_server x then
    rfc_port_timer_stop p;;
    upd_port p (put_rfc_state RFC_STATE_CLOSED);;
    match p_mcb (rfc x) with
    | Some m =>
        put_port_handle m (port_dlci x) 0;;
        rfc_check_mcb_active m;;
        upd_port p (put_p_mcb None)
    | None => skip
    end;;
    upd_port p (fun x => x <| port_dlci ::= fun d => d .& 0xfe |>)
  else
    let live := negb (bool_decide (port_state x = PORT_CONNECTION_STATE_CLOSING))
                && negb (bool_decide (port_state x = PORT_CONNECTION_STATE_CLOSED)) in
    let old_signals := modem_signal (peer_ctrl x) in
    when live (upd_port p drop_signals);;
    x ← get_port p;
    let events := if live then
        port_get_signal_changes x old_signals (modem_signal (peer_ctrl x))
        .| (if nz (ev_mask x .& PORT_EV_CONNECT_ERR) then PORT_EV_CONNECT_ERR else 0)
      else 0 in
    event_callback p events;;
    mgmt_callback p res;;
    upd_port p (put_rfc_state RFC_STATE_CLOSED);;
    port_release_port p.

Definition rfc_port_closed (p : nat) : M unit :=
  x ← get_port p;
  let mcb := p_mcb (rfc x) in
  rfc_port_timer_stop p;;
  upd_port p (put_rfc_state RFC_STATE_CLOSED);;
  match mcb with
  | Some m =>
      put_port_handle m (port_dlci x) 0;;
      rfc_check_mcb_active m
  | None => skip
  end;;
  port_rfc_closed p PORT_CLOSED.

Definition PORT_DlcReleaseInd (p_mcb : option nat) (dlci : Z) : M unit :=
  o ← port_find_mcb_dlci_port p_mcb dlci;
  match o with
  | None => skip
  | Some p => port_rfc_closed p PORT_CLOSED
  end.

(** The ports attached to [p_mcb], in table order, each closed with [res]. *)
Definition close_ports_of (p_mcb : option nat) (res : Z) : M unit :=
  for_up 30 0 (fun p =>
    x ← get_port p;
    when (bool_decide (RfcState.p_mcb (rfc x) = p_mcb)) (port_rfc_closed p res)).

Definition PORT_CloseInd (m : nat) : M unit :=
  close_ports_of (Some m) PORT_PEER_CONNECTION_FAILED;;
  rfc_release_multiplexer_channel m.

Definition Port_TimeOutCloseMux (p_mcb : option nat) : M unit :=
  close_ports_of p_mcb PORT_PEER_TIMEOUT.

Definition RFCOMM_DlcEstablishRsp (m : nat) (dlci mtu result : Z) : M unit :=
  y ← get_mcb m;
  if negb (bool_decide (mcb_state y = RFC_MX_STATE_CONNECTED)) && (result =? RFCOMM_SUCCESS)
  then PORT_DlcReleaseInd (Some m) dlci
  else
  o ← port_find_mcb_dlci_port (Some m) dlci;
  match o with
  | None => skip
  | Some p => call_port_sm (Some p) RFC_PORT_EVENT_ESTABLISH_RSP (PResult result)
  end.

(** ** Port parameter negotiation *)

Definition PORT_PortNegCnf (m : nat) (dlci result : Z) : M unit :=
  o ← port_find_mcb_dlci_port (Some m) dlci;
  match o with
  | None => skip
  | Some p =>
      if negb (result =? RFCOMM_SUCCESS) then
        upd_port p (fun x => x <| port_error := PORT_PORT_NEG_FAILED |>);;
        x ← get_port p;
        RFCOMM_DlcReleaseReq m (port_dlci x);;
        port_rfc_closed p PORT_PORT_NEG_FAILED
      else
        x ← get_port p;
        when (negb (nz (port_ctrl x .& PORT_CTRL_REQ_SENT)))
          (RFCOMM_ControlReq (p_mcb (rfc x)) (port_dlci x) (local_ctrl x))
  end.

Definition RFCOMM_PortParameterNegotiationRequest (p_mcb : option nat) (dlci : Z)
    (p_pars : option tPORT_STATE) : M unit :=
  m ← lift (of_option NullDeref p_mcb);
  y ← get_mcb m;
  if negb (bool_decide (mcb_state y = RFC_MX_STATE_CONNECTED))
  then PORT_PortNegCnf m dlci RFCOMM_ERROR
  else
  o ← port_find_mcb_dlci_port (Some m) dlci;
  match o with
  | None => skip
  | Some p =>
      upd_port p (or_expected_rsp
        match p_pars with None => RFC_RSP_RPN_REPLY | Some _ => RFC_RSP_RPN end);;
      rfc_send_rpn m dlci true p_pars RFCOMM_RPN_PM_MASK;;
      rfc_port_timer_start p RFC_T2_TIMEOUT
  end.

Definition PORT_PortNegInd (m : nat) (dlci : Z) (p_pars : tPORT_STATE) (param_mask : Z) : M unit :=
  o ← port_find_mcb_dlci_port (Some m) dlci;
  o ← match o with
      | Some p => mret (Some p)
      | None =>
          o ← port_find_dlci_port dlci;
          match o with
          | None => mret None
          | Some p => x ← get_port p;
                      put_port_handle m dlci (port_handle x);;
                      mret (Some p)
          end
      end;
  match o with
  | None => RFCOMM_PortParameterNegotiationResponse m dlci p_pars 0
  | Some p =>
      upd_port p (fun x => x <| peer_port_pars := p_pars |>);;
      RFCOMM_PortParameterNegotiationResponse m dlci p_pars param_mask
  end.

(** ** Establishing a DLC *)

Definition PORT_DlcEstablishCnf (m : nat) (dlci mtu result : Z) : M unit :=
  o ← port_find_mcb_dlci_port (Some m) dlci;
  match o with
  | None => skip
  | Some p =>
      if negb (result =? RFCOMM_SUCCESS) then
        upd_port p (fun x => x <| port_error := PORT_START_FAILED |>);;
        port_rfc_closed p PORT_START_FAILED
      else
      x ← get_port p;
      when (nz mtu && (mtu <? peer_mtu x)) (upd_port p (fun x => x <| peer_mtu := mtu |>));;
      rfc_timer_stop m;;
      event_callback p (ev_mask x .& PORT_EV_CONNECTED);;
      mgmt_callback p PORT_SUCCESS;;
      upd_port p (fun x => x <| port_state := PORT_CONNECTION_STATE_OPENED |>);;
      x ← get_port p;
      if (port_uuid x =? UUID_SERVCLASS_DIALUP_NETWORKING) || (port_uuid x =? UUID_SERVCLASS_FAX)
      then RFCOMM_PortParameterNegotiationRequest (p_mcb (rfc x)) (port_dlci x) None
      else RFCOMM_ControlReq (p_mcb (rfc x)) (port_dlci x) (local_ctrl x)
  end.

Definition RFCOMM_DlcEstablishReq (m : nat) (dlci mtu : Z) : M unit :=
  y ← get_mcb m;
  if negb (bool_decide (mcb_state y = RFC_MX_STATE_CONNECTED))
  then PORT_DlcEstablishCnf m dlci 0 RFCOMM_ERROR
  else
  o ← port_find_mcb_dlci_port (Some m) dlci;
  match o with
  | None => skip
  | Some p => call_port_sm (Some p) RFC_PORT_EVENT_OPEN PNull
  end.

Definition PORT_DlcEstablishInd (m : nat) (dlci mtu : Z) : M unit :=
  o ← port_find_mcb_dlci_port (Some m) dlci;
  o ← match o with
      | Some p => mret (Some p)
      | None =>
          o ← port_find_dlci_port dlci;
          match o with
          | None => mret None
          | Some p => x ← get_port p;
                      put_port_handle m dlci (port_handle x);;
                      mret (Some p)
          end
      end;
  match o with
  | None => RFCOMM_DlcEstablishRsp m dlci 0 RFCOMM_ERROR
  | Some p =>
      x ← get_port p;
      when (nz mtu && (mtu <? peer_mtu x)) (upd_port p (fun x => x <| peer_mtu := mtu |>));;
      rfc_timer_stop m;;
      RFCOMM_DlcEstablishRsp m dlci (port_mtu x) RFCOMM_SUCCESS;;
      x ← get_port p;
      event_callback p (ev_mask x .& PORT_EV_CONNECTED);;
      mgmt_callback p PORT_SUCCESS;;
      upd_port p (fun x => x <| port_state := PORT_CONNECTION_STATE_OPENED |>)
  end.

(** ** Starting and stopping the multiplexer *)

(** [for (i = 0; i < MAX_RFC_PORTS; i++, p_port++)]; returns [no_ports_up]. *)
Fixpoint start_cnf_loop (n p : nat) (m : nat) (result : Z) (no_ports_up : bool) : M bool :=
  match n with
  | O => mret no_ports_up
  | S n =>
      x ← get_port p;
      if bool_decide (p_mcb (rfc x) = Some m) then
        (if result =? RFCOMM_SUCCESS then
           RFCOMM_ParameterNegotiationRequest m (port_dlci x) (port_mtu x)
         else
           upd_port p (fun x => x <| port_error :=
             (if result =? HCI_ERR_PAGE_TIMEOUT then PORT_PAGE_TIMEOUT else PORT_START_FAILED) |>);;
           rfc_release_multiplexer_channel m;;
           event_callback p (ev_mask x .& PORT_EV_CONNECT_ERR);;
           mgmt_callback p PORT_START_FAILED;;
           port_release_port p);;
        start_cnf_loop n (S p) m result false
      else start_cnf_loop n (S p) m result no_ports_up
  end.

Definition PORT_StartCnf (m : nat) (result : Z) : M unit :=
  no_ports_up ← start_cnf_loop 30 0 m result true;
  when no_ports_up (rfc_check_mcb_active m).

Definition PORT_StartInd (m : nat) : M unit :=
  s ← get;
  if existsb (fun x => bool_decide (p_mcb (rfc x) = None) || bool_decide (p_mcb (rfc x) = Some m))
       (port_tab s)
  then RFCOMM_StartRsp m RFCOMM_SUCCESS
  else RFCOMM_StartRsp m RFCOMM_ERROR.

(** ** DLC parameter negotiation *)

Definition PORT_ParNegInd (m : nat) (dlci mtu cl k : Z) : M unit :=
  o ← port_find_mcb_dlci_port (Some m) dlci;
  o ← match o with
      | Some p => mret (Some p)
      | None =>
          o ← port_find_dlci_port dlci;
          match o with
          | None => mret None
          | Some p => x ← get_port p;
                      put_port_handle m dlci (port_handle x);;
                      mret (Some p)
          end
      end;
  match o with
  | None => rfc_send_dm m dlci false;; rfc_check_mcb_active m
  | Some p =>
      y ← get_mcb m;
      upd_port p (fun x => x <| port_bd_addr := mcb_bd_addr y |>);;
      port_select_mtu p;;
      upd_port p (fun x => put_p_mcb (Some m)
        (x <| port_mtu ::= fun v => if v <? mtu then v else mtu |>));;
      upd_port p (fun x => x <| peer_mtu := port_mtu x |>);;
      when (bool_decide (mcb_flow y = PORT_FC_UNDEFINED))
        (upd_mcb m (fun y => y <| mcb_flow :=
           (if bool_decide (PORT_FC_DEFAULT = PORT_FC_TS710) || (cl =? RFCOMM_PN_CONV_LAYER_TYPE_1)
            then PORT_FC_TS710 else PORT_FC_CREDIT) |>));;
      y ← get_mcb m;
      '(our_cl, our_k) ← (if cl =? RFCOMM_PN_CONV_LAYER_TYPE_1
        then mret (RFCOMM_PN_CONV_LAYER_TYPE_1, 0)
        else if bool_decide (mcb_flow y = PORT_FC_CREDIT) then
          port_get_credits p k;;
          x ← get_port p;
          let our_k := u8 (if credit_rx_max x <? RFCOMM_K_MAX then credit_rx_max x
                           else RFCOMM_K_MAX) in
          upd_port p (fun x => x <| credit_rx := our_k |>);;
          mret (RFCOMM_PN_CONV_LAYER_CBFC_R, our_k)
        else mret (RFCOMM_PN_CONV_LAYER_TYPE_1, 0));
      x ← get_port p;
      RFCOMM_ParameterNegotiationResponse m dlci (port_mtu x) our_cl our_k
  end.

Definition PORT_ParNegCnf (m : nat) (dlci mtu cl k : Z) : M unit :=
  o ← port_find_mcb_dlci_port (Some m) dlci;
  match o with
  | None => skip
  | Some p =>
      y ← get_mcb m;
      let undefined := bool_decide (mcb_flow y = PORT_FC_UNDEFINED) in
      if undefined && bool_decide (PORT_FC_DEFAULT = PORT_FC_TS710)
         && (cl =? RFCOMM_PN_CONV_LAYER_CBFC_R) then
        x ← get_port p;
        rfc_send_disc m (port_dlci x);;
        rfc_port_closed p
      else
      when undefined (upd_mcb m (fun y => y <| mcb_flow :=
        (if cl =? RFCOMM_PN_CONV_LAYER_CBFC_R then PORT_FC_CREDIT else PORT_FC_TS710) |>));;
      upd_port p (fun x => x <| port_mtu ::= fun v => if v <? mtu then v else mtu |>);;
      upd_port p (fun x => x <| peer_mtu := port_mtu x |>);;
      y ← get_mcb m;
      when (bool_decide (mcb_flow y = PORT_FC_CREDIT)) (port_get_credits p k);;
      x ← get_port p;
      when (bool_decide (port_state x = PORT_CONNECTION_STATE_OPENING))
        (RFCOMM_DlcEstablishReq m (port_dlci x) (port_mtu x))
  end.

(** ** Data and flow *)

(** [while (!tx.peer_fc && p_mcb && p_mcb->peer_ready)]; each round dequeues. *)
Fixpoint send_tx_loop (fuel : nat) (p : nat) (events : Z) : M Z :=
  match fuel with
  | O => abort OutOfFuel
  | S fuel =>
      x ← get_port p;
      match p_mcb (rfc x) with
      | None => mret events
      | Some m =>
          y ← get_mcb m;
          if peer_fc (tx x) || negb (peer_ready y) then mret events
          else match fixed_queue_try_dequeue (pd_queue (tx x)) with
               | None => mret (events .| PORT_EV_TXEMPTY)
               | Some (p_buf, q) =>
                   upd_port p (fun x => x <| tx ::= fun d => d <| pd_queue := q |>
                     <| queue_size ::= fun n => u32 (n - bh_len p_buf) |> |>);;
                   RFCOMM_DataReq m (port_dlci x) p_buf;;
                   let events := events .| PORT_EV_TXCHAR in
                   x ← get_port p;
                   if queue_size (tx x) =? 0 then mret (events .| PORT_EV_TXEMPTY)
                   else send_tx_loop fuel p events
               end
      end
  end.

Definition port_rfc_send_tx_data (p : nat) : M Z :=
  x ← get_port p;
  events ← (if 0 <? queue_size (tx x) then
      events ← send_tx_loop (S (Z.to_nat (fixed_queue_length (pd_queue (tx x))))) p 0;
      fc ← port_flow_control_user p;
      mret (events .| fc)
    else mret 0);
  x ← get_port p;
  mret (events .& ev_mask x).

(** The body of the loop of [PORT_FlowInd] for one port. *)
Definition flow_ind_port (p : nat) : M unit :=
  e1 ← port_flow_control_user p;
  e2 ← port_rfc_send_tx_data p;
  x ← get_port p;
  event_callback p ((e1 .| e2) .& ev_mask x).

Definition PORT_FlowInd (m : nat) (dlci : Z) (enable_data : bool) : M unit :=
  if dlci =? 0 then
    upd_mcb m (fun y => y <| peer_ready := enable_data |>);;
    for_up 30 0 (fun p =>
      x ← get_port p;
      if negb (in_use x) || negb (bool_decide (p_mcb (rfc x) = Some m))
         || negb (bool_decide (rfc_state (rfc x) = RFC_STATE_OPENED))
      then skip
      else flow_ind_port p)
  else
    o ← port_find_mcb_dlci_port (Some m) dlci;
    match o with
    | None => skip
    | Some p =>
        upd_port p (fun x => x <| tx ::= set peer_fc (fun _ => negb enable_data) |>);;
        flow_ind_port p
    end.

Definition rfc_inc_credit (p : nat) (credit : Z) : M unit :=
  m ← port_mcb p;
  y ← get_mcb m;
  when (bool_decide (mcb_flow y = PORT_FC_CREDIT)) (
    upd_port p (fun x => x <| credit_tx ::= fun c => u16 (c + credit) |>);;
    x ← get_port p;
    when (peer_fc (tx x)) (PORT_FlowInd m (port_dlci x) true)).

Definition PORT_DataInd (p_mcb : option nat) (dlci : Z) (p_buf : BT_HDR) : M unit :=
  o ← port_find_mcb_dlci_port p_mcb dlci;
  match o, p_mcb with
  | Some p, Some m =>
      x ← get_port p;
      if nz (p_data_co_callback x) then
        emit (port_data_co_incoming (p_data_co_callback x) (port_handle x) p_buf);;
        s ← get;
        if env_data_co_incoming (out s) then port_flow_control_peer p true 1
        else port_flow_control_peer p false 0
      else if nz (p_data_callback x) then
        port_flow_control_peer p true 1;;
        data ← lift (bh_read_bytes p_buf (bh_offset p_buf) (bh_len p_buf));
        emit (port_data_callback (p_data_callback x) (port_handle x) data)
      else if (PORT_RX_CRITICAL_WM <? u32 (queue_size (rx x) + bh_len p_buf))
              || (rx_buf_critical x <? fixed_queue_length (pd_queue (rx x)) + 1)
      then RFCOMM_LineStatusReq m dlci LINE_STATUS_OVERRUN
      else
      let rx_char1 := rx_char1 (user_port_pars x) in
      events ← (if nz rx_char1 && nz (ev_mask x .& PORT_EV_RXFLAG) then
          data ← lift (bh_read_bytes p_buf (bh_offset p_buf) (bh_len p_buf));
          mret (if existsb (fun b => b =? rx_char1) data then PORT_EV_RXFLAG else 0)
        else mret 0);
      q ← lift (fixed_queue_enqueue (pd_queue (rx x)) p_buf);
      upd_port p (fun x => x <| rx ::= fun d => d <| pd_queue := q |>
        <| queue_size ::= fun n => u32 (n + bh_len p_buf) |> |>);;
      port_flow_control_peer p false 0;;
      x ← get_port p;
      if user_fc (rx x) then
        when (nz (events .& PORT_EV_RXFLAG))
          (upd_port p (fun x => x <| rx_flag_ev_pending := true |>))
      else event_callback p ((events .| PORT_EV_RXCHAR) .& ev_mask x)
  | _, _ => skip
  end.

(** ** Modem and line status *)

Definition PORT_ControlInd (m : nat) (dlci : Z) (p_pars : tPORT_CTRL) : M unit :=
  o ← port_find_mcb_dlci_port (Some m) dlci;
  match o with
  | None => skip
  | Some p =>
      x ← get_port p;
      let event := port_get_signal_changes x (modem_signal (peer_ctrl x)) (modem_signal p_pars) in
      upd_port p (fun x => x <| peer_ctrl := p_pars |>);;
      event ← (if negb (nz (port_ctrl x .& PORT_CTRL_REQ_SENT)) then
          RFCOMM_ControlReq (p_mcb (rfc x)) (port_dlci x) (local_ctrl x);;
          mret event
        else
          let event := event .| (if negb (nz (port_ctrl x .& PORT_CTRL_IND_RECEIVED))
                                 then PORT_EV_CONNECTED .& ev_mask x else 0) in
          if nz (port_ctrl x .& PORT_CTRL_REQ_CONFIRMED) then
            e ← port_rfc_send_tx_data p; mret (event .| e)
          else mret event);
      upd_port p (fun x => x <| port_ctrl ::= fun c =>
        c .| (PORT_CTRL_IND_RECEIVED .| PORT_CTRL_IND_RESPONDED) |>);;
      x ← get_port p;
      event_callback p (event .| (if nz (break_signal p_pars)
                                  then PORT_EV_BREAK .& ev_mask x else 0))
  end.

Definition PORT_ControlCnf (p_mcb : option nat) (dlci : Z) : M unit :=
  o ← port_find_mcb_dlci_port p_mcb dlci;
  match o with
  | None => skip
  | Some p =>
      x ← get_port p;
      let confirmed := nz (port_ctrl x .& PORT_CTRL_REQ_CONFIRMED) in
      let ind_received := nz (port_ctrl x .& PORT_CTRL_IND_RECEIVED) in
      when (negb confirmed)
        (upd_port p (fun x => x <| port_ctrl ::= fun c => c .| PORT_CTRL_REQ_CONFIRMED |>));;
      let event := if negb confirmed && ind_received
                   then ev_mask x .& PORT_EV_CONNECTED else 0 in
      event ← (if ind_received then e ← port_rfc_send_tx_data p; mret (event .| e)
               else mret event);
      event_callback p event
  end.

Definition PORT_LineStatusInd (m : nat) (dlci status : Z) : M unit :=
  o ← port_find_mcb_dlci_port (Some m) dlci;
  match o with
  | None => skip
  | Some p =>
      upd_port p (fun x => x <| line_status ::= fun l => l .| status |>);;
      let event := (if nz (status .& PORT_ERR_OVERRUN) then PORT_EV_OVERRUN else 0)
        .| (if nz (status .& PORT_ERR_BREAK) then PORT_EV_BREAK else 0)
        .| (if nz (status .&~ (PORT_ERR_OVERRUN .| PORT_ERR_BREAK)) then PORT_EV_ERR else 0) in
      x ← get_port p;
      event_callback p (ev_mask x .& event)
  end.

(** ** Opening, controlling and closing from the API *)

(** Returns the result code of the open request. *)
Definition port_open_continue (p : nat) : M Z :=
  x ← get_port p;
  o ← rfc_alloc_multiplexer_channel (port_bd_addr x) true;
  match o with
  | None => port_release_port p;; mret PORT_NO_RESOURCES
  | Some m =>
      upd_port p (put_p_mcb (Some m));;
      put_port_handle m (port_dlci x) (port_handle x);;
      port_select_mtu p;;
      y ← get_mcb m;
      x ← get_port p;
      (match mcb_state y with
       | RFC_MX_STATE_CONNECTED =>
           RFCOMM_ParameterNegotiationRequest m (port_dlci x) (port_mtu x)
       | RFC_MX_STATE_IDLE | RFC_MX_STATE_DISC_WAIT_UA => RFCOMM_StartReq m
       | _ => skip
       end);;
      mret PORT_SUCCESS
  end.

Definition port_start_control (p : nat) : M unit :=
  x ← get_port p;
  match p_mcb (rfc x) with
  | None => skip
  | Some m => RFCOMM_ControlReq (Some m) (port_dlci x) (local_ctrl x)
  end.

Definition port_start_par_neg (p : nat) : M unit :=
  x ← get_port p;
  match p_mcb (rfc x) with
  | None => skip
  | Some m => RFCOMM_PortParameterNegotiationRequest (Some m) (port_dlci x)
                (Some (user_port_pars x))
  end.

Definition port_start_close (p : nat) : M unit :=
  x ← get_port p;
  let mcb := p_mcb (rfc x) in
  let old_signals := modem_signal (peer_ctrl x) in
  upd_port p drop_signals;;
  x ← get_port p;
  event_callback p
    (port_get_signal_changes x old_signals (modem_signal (peer_ctrl x))
     .| (if nz (ev_mask x .& PORT_EV_CONNECT_ERR) then PORT_EV_CONNECT_ERR else 0)
     .| (if nz (ev_mask x .& PORT_EV_ERR) then PORT_EV_ERR else 0));;
  match mcb with
  | Some m =>
      if bool_decide (rfc_state (rfc x) = RFC_STATE_CLOSED) then
        mgmt_callback p PORT_CLOSED;; port_release_port p
      else RFCOMM_DlcReleaseReq m (port_dlci x)
  | None => mgmt_callback p PORT_CLOSED;; port_release_port p
  end.

End PortRfc.
