(* ===== verification/RfcMxFsm.v ===== *)
(** * RfcMxFsm: the multiplexer state machine

    [src/system/stack/rfcomm/rfc_mx_fsm.cc]: one definition per state handler,
    dispatched by [rfc_mx_sm_execute]; a handler that only logs an event leaves
    the state unchanged. *)

From Stdlib Require Import ZArith Lia.
From stdpp Require Import gmap.
From S2P Require Import Prelude Osi RfcDefs RfcState RfcFrames RfcUtils PortRfc.

Definition put_mx_state (m : nat) (v : tRFC_MX_STATE) : M unit :=
  upd_mcb m (fun x => x <| mcb_state := v |>).

Definition rfc_mx_conf_cnf (m : nat) : M unit :=
  x ← get_mcb m;
  when (bool_decide (mcb_state x = RFC_MX_STATE_CONFIGURE)) (
    if is_initiator x then
      put_mx_state m RFC_MX_STATE_SABME_WAIT_UA;;
      rfc_send_sabme m RFCOMM_MX_DLCI;;
      rfc_timer_start m RFC_T1_TIMEOUT
    else
      put_mx_state m RFC_MX_STATE_WAIT_SABME;;
      rfc_timer_start m RFCOMM_CONN_TIMEOUT).

Definition rfc_mx_conf_ind (m : nat) (p_cfg : tL2CAP_CFG_INFO) : M unit :=
  upd_mcb m (fun x => x <| peer_l2cap_mtu := u16 (
    if cfg_mtu_present p_cfg then cfg_mtu p_cfg - RFCOMM_MIN_OFFSET - 1
    else L2CAP_DEFAULT_MTU - RFCOMM_MIN_OFFSET - 1) |>).

(** [for (i = 0; i < RFCOMM_MAX_DLCI; i += 2)]: the ports opened as initiator
    move to the odd DLCI of the same channel. *)
Fixpoint update_direction (n : nat) (i : Z) (m : nat) : M unit :=
  match n with
  | O => skip
  | S n =>
      x ← get_mcb m;
      handle ← lift (rd (port_handles x) i);
      when (nz handle) (
        put_port_handle m i 0;;
        put_port_handle m (i + 1) handle;;
        upd_port (Z.to_nat (handle - 1)) (fun x => x <| port_dlci ::= fun d => u8 (d + 1) |>));;
      update_direction n (i + 2) m
  end.

(** 31 even DLCIs lie below [RFCOMM_MAX_DLCI]. *)
Definition update_direction_bits (m : nat) : M unit := update_direction 31 0 m.

Section RfcMxFsm.
Context `{RfcEnv} `{SmCalls}.

(** [L2CA_ConnectReq(BT_PSM_RFCOMM, p_mcb->bd_addr)] *)
Definition l2ca_connect_req (m : nat) : M Z :=
  x ← get_mcb m;
  emit (L2CA_ConnectReq (mcb_bd_addr x));;
  s ← get;
  mret (u16 (env_l2ca_connect_req (out s))).

Definition l2ca_disconnect_req (m : nat) : M unit :=
  x ← get_mcb m; emit (L2CA_DisconnectReq (mcb_lcid x)).

(** The channel failed to open: forget the LCID and tell the ports. *)
Definition connect_failed (m : nat) : M unit :=
  x ← get_mcb m;
  rfc_save_lcid_mcb None (mcb_lcid x);;
  upd_mcb m (fun x => x <| mcb_lcid := 0 |>);;
  PORT_StartCnf m RFCOMM_ERROR.

Definition save_new_lcid (m : nat) (lcid : Z) : M unit :=
  upd_mcb m (fun x => x <| mcb_lcid := lcid |>);;
  rfc_save_lcid_mcb (Some m) lcid.

Definition rfc_mx_sm_state_idle (m : nat) (event : tRFC_MX_EVENT) : M unit :=
  match event with
  | RFC_MX_EVENT_START_REQ =>
      upd_mcb m (fun x => x <| peer_l2cap_mtu := L2CAP_DEFAULT_MTU - RFCOMM_MIN_OFFSET - 1 |>);;
      lcid ← l2ca_connect_req m;
      if lcid =? 0 then connect_failed m
      else save_new_lcid m lcid;; put_mx_state m RFC_MX_STATE_WAIT_CONN_CNF
  | RFC_MX_EVENT_CONN_IND =>
      rfc_timer_start m RFCOMM_CONN_TIMEOUT;;
      put_mx_state m RFC_MX_STATE_CONFIGURE
  | RFC_MX_EVENT_DISC => rfc_send_dm m RFCOMM_MX_DLCI true
  | RFC_MX_EVENT_UIH => rfc_send_dm m RFCOMM_MX_DLCI false
  | _ => skip
  end.

Definition rfc_mx_sm_state_wait_conn_cnf (m : nat) (event : tRFC_MX_EVENT) (p_data : pdata) :
    M unit :=
  match event with
  | RFC_MX_EVENT_CONF_IND => c ← pdata_cfg p_data; rfc_mx_conf_ind m c
  | RFC_MX_EVENT_CONN_CNF =>
      result ← pdata_u16 p_data;
      if negb (result =? L2CAP_SUCCESS) then
        put_mx_state m RFC_MX_STATE_IDLE;;
        PORT_StartCnf m result
      else put_mx_state m RFC_MX_STATE_CONFIGURE
  | RFC_MX_EVENT_DISC_IND =>
      put_mx_state m RFC_MX_STATE_IDLE;;
      PORT_CloseInd m
  | RFC_MX_EVENT_TIMEOUT =>
      put_mx_state m RFC_MX_STATE_IDLE;;
      l2ca_disconnect_req m;;
      x ← get_mcb m;
      if nz (pending_lcid x) then
        rfc_save_lcid_mcb None (mcb_lcid x);;
        save_new_lcid m (pending_lcid x);;
        upd_mcb m (fun x => x <| is_initiator := false |>);;
        update_direction_bits m;;
        call_mx_sm m RFC_MX_EVENT_CONN_IND PNull
      else PORT_CloseInd m
  | _ => skip
  end.

Definition rfc_mx_sm_state_configure (m : nat) (event : tRFC_MX_EVENT) (p_data : pdata) : M unit :=
  match event with
  | RFC_MX_EVENT_CONF_IND => c ← pdata_cfg p_data; rfc_mx_conf_ind m c
  | RFC_MX_EVENT_CONF_CNF => rfc_mx_conf_cnf m
  | RFC_MX_EVENT_DISC_IND =>
      put_mx_state m RFC_MX_STATE_IDLE;;
      PORT_CloseInd m
  | RFC_MX_EVENT_TIMEOUT =>
      put_mx_state m RFC_MX_STATE_IDLE;;
      l2ca_disconnect_req m;;
      PORT_StartCnf m RFCOMM_ERROR
  | _ => skip
  end.

Definition rfc_mx_sm_sabme_wait_ua (m : nat) (event : tRFC_MX_EVENT) : M unit :=
  match event with
  | RFC_MX_EVENT_DISC_IND =>
      put_mx_state m RFC_MX_STATE_IDLE;;
      PORT_CloseInd m
  | RFC_MX_EVENT_UA =>
      rfc_timer_stop m;;
      put_mx_state m RFC_MX_STATE_CONNECTED;;
      upd_mcb m (fun x => x <| peer_ready := true |>);;
      PORT_StartCnf m RFCOMM_SUCCESS
  | RFC_MX_EVENT_DM | RFC_MX_EVENT_CONF_IND | RFC_MX_EVENT_CONF_CNF | RFC_MX_EVENT_TIMEOUT =>
      match event with RFC_MX_EVENT_DM => rfc_timer_stop m | _ => skip end;;
      put_mx_state m RFC_MX_STATE_IDLE;;
      l2ca_disconnect_req m;;
      PORT_StartCnf m RFCOMM_ERROR
  | _ => skip
  end.

Definition rfc_mx_sm_state_wait_sabme (m : nat) (event : tRFC_MX_EVENT) (p_data : pdata) : M unit :=
  match event with
  | RFC_MX_EVENT_DISC_IND =>
      put_mx_state m RFC_MX_STATE_IDLE;;
      PORT_CloseInd m
  | RFC_MX_EVENT_SABME =>
      x ← get_mcb m;
      if nz (pending_lcid x) then
        upd_mcb m (fun x => x <| pending_lcid := 0 |>);;
        rfc_send_ua m RFCOMM_MX_DLCI;;
        rfc_timer_stop m;;
        put_mx_state m RFC_MX_STATE_CONNECTED;;
        upd_mcb m (fun x => x <| peer_ready := true |>);;
        PORT_StartCnf m RFCOMM_SUCCESS
      else
        rfc_timer_stop m;;
        PORT_StartInd m
  | RFC_MX_EVENT_START_RSP =>
      result ← pdata_u16 p_data;
      if negb (result =? RFCOMM_SUCCESS) then rfc_send_dm m RFCOMM_MX_DLCI true
      else
        rfc_send_ua m RFCOMM_MX_DLCI;;
        put_mx_state m RFC_MX_STATE_CONNECTED;;
        upd_mcb m (fun x => x <| peer_ready := true |>);;
        PORT_StartCnf m RFCOMM_SUCCESS
  | RFC_MX_EVENT_CONF_IND | RFC_MX_EVENT_CONF_CNF | RFC_MX_EVENT_TIMEOUT =>
      put_mx_state m RFC_MX_STATE_IDLE;;
      l2ca_disconnect_req m;;
      PORT_CloseInd m
  | _ => skip
  end.

Definition rfc_mx_sm_state_connected (m : nat) (event : tRFC_MX_EVENT) : M unit :=
  match event with
  | RFC_MX_EVENT_TIMEOUT | RFC_MX_EVENT_CLOSE_REQ =>
      rfc_timer_start m RFC_DISC_TIMEOUT;;
      put_mx_state m RFC_MX_STATE_DISC_WAIT_UA;;
      rfc_send_disc m RFCOMM_MX_DLCI
  | RFC_MX_EVENT_DISC_IND =>
      put_mx_state m RFC_MX_STATE_IDLE;;
      PORT_CloseInd m
  | RFC_MX_EVENT_DISC =>
      rfc_send_ua m RFCOMM_MX_DLCI;;
      x ← get_mcb m;
      when (is_initiator x) (l2ca_disconnect_req m);;
      PORT_CloseInd m
  | _ => skip
  end.

Definition rfc_mx_sm_state_disc_wait_ua (m : nat) (event : tRFC_MX_EVENT) : M unit :=
  match event with
  | RFC_MX_EVENT_UA | RFC_MX_EVENT_DM | RFC_MX_EVENT_TIMEOUT =>
      l2ca_disconnect_req m;;
      x ← get_mcb m;
      if restart_required x then
        lcid ← l2ca_connect_req m;
        if lcid =? 0 then connect_failed m
        else
          save_new_lcid m lcid;;
          upd_mcb m (fun x => x <| cmd_q ::= drain |>);;
          rfc_timer_start m RFC_MCB_INIT_INACT_TIMER;;
          upd_mcb m (fun x => x <| is_initiator := true |> <| restart_required := false |>);;
          put_mx_state m RFC_MX_STATE_WAIT_CONN_CNF
      else rfc_release_multiplexer_channel m
  | RFC_MX_EVENT_DISC => rfc_send_ua m RFCOMM_MX_DLCI
  | RFC_MX_EVENT_UIH => rfc_send_dm m RFCOMM_MX_DLCI false
  | RFC_MX_EVENT_START_REQ => upd_mcb m (fun x => x <| restart_required := true |>)
  | RFC_MX_EVENT_DISC_IND =>
      put_mx_state m RFC_MX_STATE_IDLE;;
      PORT_CloseInd m
  | _ => skip
  end.

Definition rfc_mx_sm_execute (m : nat) (event : tRFC_MX_EVENT) (p_data : pdata) : M unit :=
  x ← get_mcb m;
  match mcb_state x with
  | RFC_MX_STATE_IDLE => rfc_mx_sm_state_idle m event
  | RFC_MX_STATE_WAIT_CONN_CNF => rfc_mx_sm_state_wait_conn_cnf m event p_data
  | RFC_MX_STATE_CONFIGURE => rfc_mx_sm_state_configure m event p_data
  | RFC_MX_STATE_SABME_WAIT_UA => rfc_mx_sm_sabme_wait_ua m event
  | RFC_MX_STATE_WAIT_SABME => rfc_mx_sm_state_wait_sabme m event p_data
  | RFC_MX_STATE_CONNECTED => rfc_mx_sm_state_connected m event
  | RFC_MX_STATE_DISC_WAIT_UA => rfc_mx_sm_state_disc_wait_ua m event
  end.

End RfcMxFsm.
