(* ===== verification/RfcPortFsm.v ===== *)
(** * RfcPortFsm: the port state machine and the multiplexer messages

    [src/system/stack/rfcomm/rfc_port_fsm.cc]: one definition per state handler
    and per [rfc_process_*] function, and [rfc_process_mx_message] of
    [rfc_ts_frames.cc], which dispatches to them. *)

From Stdlib Require Import ZArith Lia.
From stdpp Require Import gmap.
From S2P Require Import Prelude Osi RfcDefs RfcState RfcFrames RfcUtils PortRfc.

Section RfcPortFsm.
Context `{RfcEnv} `{SmCalls}.

(** [btm_sec_mx_access_request]: the answer comes through
    [rfc_sec_check_complete], possibly before the call returns. *)
Definition sec_access_request (p : nat) : M unit :=
  m ← port_mcb p;
  y ← get_mcb m;
  x ← get_port p;
  emit (btm_sec_mx_access_request (mcb_bd_addr y) true (sec_mask x) p);;
  s ← get;
  match env_sec_sync (out s) with
  | Some res => rfc_sec_check_complete p (u8 res)
  | None => skip
  end.

Definition sec_abort (p : nat) : M unit :=
  m ← port_mcb p;
  y ← get_mcb m;
  emit (btm_sec_abort_access_req (mcb_bd_addr y)).

Definition port_send_dm (p : nat) (pf : bool) : M unit :=
  m ← port_mcb p; x ← get_port p; rfc_send_dm m (port_dlci x) pf.

Definition port_send_ua (p : nat) : M unit :=
  m ← port_mcb p; x ← get_port p; rfc_send_ua m (port_dlci x).

(** [PORT_DlcEstablishCnf(p_mcb, dlci, p_mcb->peer_l2cap_mtu, result)] *)
Definition port_establish_cnf (p : nat) (result : Z) : M unit :=
  m ← port_mcb p; y ← get_mcb m; x ← get_port p;
  PORT_DlcEstablishCnf m (port_dlci x) (peer_l2cap_mtu y) result.

Definition set_disc_initiator (p : nat) : M unit :=
  m ← port_mcb p; upd_mcb m (fun y => y <| is_disc_initiator := true |>).

(** Sending DISC and waiting for its UA, from SABME_WAIT_UA and OPENED. *)
Definition start_disc (p : nat) : M unit :=
  rfc_port_timer_start p RFC_DISC_TIMEOUT;;
  m ← port_mcb p;
  x ← get_port p;
  rfc_send_disc m (port_dlci x);;
  upd_port p (fun x => x <| rfc ::= fun r => r <| expected_rsp := 0 |>
                                              <| rfc_state := RFC_STATE_DISC_WAIT_UA |> |>).

Definition rfc_port_sm_state_closed (p : nat) (event : tRFC_PORT_EVENT) : M unit :=
  match event with
  | RFC_PORT_EVENT_OPEN =>
      upd_port p (put_rfc_state RFC_STATE_ORIG_WAIT_SEC_CHECK);;
      sec_access_request p
  | RFC_PORT_EVENT_SABME =>
      m ← port_mcb p;
      rfc_timer_stop m;;
      upd_port p (put_rfc_state RFC_STATE_TERM_WAIT_SEC_CHECK);;
      sec_access_request p
  | RFC_PORT_EVENT_DM => rfc_port_closed p
  | RFC_PORT_EVENT_UIH => port_send_dm p false
  | RFC_PORT_EVENT_DISC => port_send_dm p false
  | RFC_PORT_EVENT_TIMEOUT => x ← get_port p; Port_TimeOutCloseMux (p_mcb (rfc x))
  | _ => skip
  end.

Definition rfc_port_sm_sabme_wait_ua (p : nat) (event : tRFC_PORT_EVENT) : M unit :=
  match event with
  | RFC_PORT_EVENT_CLOSE => start_disc p
  | RFC_PORT_EVENT_CLEAR => rfc_port_closed p
  | RFC_PORT_EVENT_UA =>
      rfc_port_timer_stop p;;
      upd_port p (put_rfc_state RFC_STATE_OPENED);;
      port_establish_cnf p RFCOMM_SUCCESS
  | RFC_PORT_EVENT_DM =>
      set_disc_initiator p;;
      port_establish_cnf p RFCOMM_ERROR;;
      rfc_port_closed p
  | RFC_PORT_EVENT_DISC =>
      port_send_ua p;;
      port_establish_cnf p RFCOMM_ERROR;;
      rfc_port_closed p
  | RFC_PORT_EVENT_SABME => port_send_ua p
  | RFC_PORT_EVENT_TIMEOUT =>
      upd_port p (put_rfc_state RFC_STATE_CLOSED);;
      port_establish_cnf p RFCOMM_ERROR
  | _ => skip
  end.

Definition rfc_port_sm_term_wait_sec_check (p : nat) (event : tRFC_PORT_EVENT) (p_data : pdata) :
    M unit :=
  match event with
  | RFC_PORT_EVENT_SEC_COMPLETE =>
      res ← pdata_u8 p_data;
      if negb (res =? BTM_SUCCESS) then
        x ← get_port p;
        match p_mcb (rfc x) with
        | Some m =>
            rfc_send_dm m (port_dlci x) true;;
            upd_mcb m (fun y => y <| is_disc_initiator := true |>);;
            port_rfc_closed p PORT_SEC_FAILED
        | None => skip
        end
      else
        m ← port_mcb p; y ← get_mcb m; x ← get_port p;
        PORT_DlcEstablishInd m (port_dlci x) (peer_l2cap_mtu y)
  | RFC_PORT_EVENT_CLEAR => sec_abort p;; rfc_port_closed p
  | RFC_PORT_EVENT_DISC =>
      sec_abort p;;
      upd_port p (put_rfc_state RFC_STATE_CLOSED);;
      port_send_ua p;;
      x ← get_port p;
      PORT_DlcReleaseInd (p_mcb (rfc x)) (port_dlci x)
  | RFC_PORT_EVENT_ESTABLISH_RSP =>
      res ← pdata_u8 p_data;
      if negb (res =? RFCOMM_SUCCESS) then
        x ← get_port p;
        match p_mcb (rfc x) with
        | Some m => rfc_send_dm m (port_dlci x) true
        | None => skip
        end
      else
        port_send_ua p;;
        upd_port p (put_rfc_state RFC_STATE_OPENED)
  | _ => skip
  end.

Definition rfc_port_sm_orig_wait_sec_check (p : nat) (event : tRFC_PORT_EVENT) (p_data : pdata) :
    M unit :=
  match event with
  | RFC_PORT_EVENT_SEC_COMPLETE =>
      res ← pdata_u8 p_data;
      if negb (res =? BTM_SUCCESS) then
        set_disc_initiator p;;
        m ← port_mcb p; x ← get_port p;
        PORT_DlcEstablishCnf m (port_dlci x) 0 RFCOMM_SECURITY_ERR;;
        rfc_port_closed p
      else
        m ← port_mcb p; x ← get_port p;
        rfc_send_sabme m (port_dlci x);;
        rfc_port_timer_start p RFC_PORT_T1_TIMEOUT;;
        upd_port p (put_rfc_state RFC_STATE_SABME_WAIT_UA)
  | RFC_PORT_EVENT_CLOSE => sec_abort p;; rfc_port_closed p
  | _ => skip
  end.

Definition rfc_port_uplink_data (p : nat) (p_buf : BT_HDR) : M unit :=
  x ← get_port p; PORT_DataInd (p_mcb (rfc x)) (port_dlci x) p_buf.

Definition rfc_port_sm_opened (p : nat) (event : tRFC_PORT_EVENT) (p_data : pdata) : M unit :=
  match event with
  | RFC_PORT_EVENT_CLOSE => start_disc p
  | RFC_PORT_EVENT_CLEAR => rfc_port_closed p
  | RFC_PORT_EVENT_DATA =>
      b ← pdata_buf p_data;
      m ← port_mcb p;
      y ← get_mcb m;
      x ← get_port p;
      b ← (if bool_decide (mcb_flow y = PORT_FC_CREDIT) && (bh_len b <? peer_mtu x)
              && negb (user_fc (rx x)) && (credit_rx x <? credit_rx_max x) then
             upd_port p (fun x => x <| credit_rx := credit_rx_max x |>);;
             mret (b <| bh_layer_specific := u8 (credit_rx_max x - credit_rx x) |>)
           else mret (b <| bh_layer_specific := 0 |>));
      rfc_send_buf_uih m (port_dlci x) b;;
      rfc_dec_credit p
  | RFC_PORT_EVENT_SABME => port_send_ua p
  | RFC_PORT_EVENT_DM =>
      x ← get_port p;
      PORT_DlcReleaseInd (p_mcb (rfc x)) (port_dlci x);;
      rfc_port_closed p
  | RFC_PORT_EVENT_DISC =>
      upd_port p (put_rfc_state RFC_STATE_CLOSED);;
      port_send_ua p;;
      x ← get_port p;
      if negb (fixed_queue_is_empty (pd_queue (rx x)))
      then rfc_port_timer_start p RFC_DISC_TIMEOUT
      else PORT_DlcReleaseInd (p_mcb (rfc x)) (port_dlci x)
  | RFC_PORT_EVENT_UIH => b ← pdata_buf p_data; rfc_port_uplink_data p b
  | RFC_PORT_EVENT_TIMEOUT => x ← get_port p; Port_TimeOutCloseMux (p_mcb (rfc x))
  | _ => skip
  end.

Definition rfc_port_sm_disc_wait_ua (p : nat) (event : tRFC_PORT_EVENT) : M unit :=
  match event with
  | RFC_PORT_EVENT_CLEAR => rfc_port_closed p
  | RFC_PORT_EVENT_UA => set_disc_initiator p;; rfc_port_closed p
  | RFC_PORT_EVENT_DM => rfc_port_closed p
  | RFC_PORT_EVENT_SABME => port_send_dm p true
  | RFC_PORT_EVENT_DISC => port_send_dm p true
  | RFC_PORT_EVENT_UIH => port_send_dm p false
  | RFC_PORT_EVENT_TIMEOUT => rfc_port_closed p
  | _ => skip
  end.

Definition rfc_port_sm_execute (p : nat) (event : tRFC_PORT_EVENT) (p_data : pdata) : M unit :=
  x ← get_port p;
  match rfc_state (rfc x) with
  | RFC_STATE_CLOSED => rfc_port_sm_state_closed p event
  | RFC_STATE_SABME_WAIT_UA => rfc_port_sm_sabme_wait_ua p event
  | RFC_STATE_ORIG_WAIT_SEC_CHECK => rfc_port_sm_orig_wait_sec_check p event p_data
  | RFC_STATE_TERM_WAIT_SEC_CHECK => rfc_port_sm_term_wait_sec_check p event p_data
  | RFC_STATE_OPENED => rfc_port_sm_opened p event p_data
  | RFC_STATE_DISC_WAIT_UA => rfc_port_sm_disc_wait_ua p event
  end.

(** ** Multiplexer messages

    Every caller passes [&rfc_cb.rfc.rx_frame] as [p_frame]. *)

Definition get_frame : M MX_FRAME := s ← get; mret (rx_frame s).
Definition put_frame (f : MX_FRAME) : M unit := modify (fun s => s <| rx_frame := f |>).

Definition rfc_process_pn (m : nat) (is_command : bool) : M unit :=
  f ← get_frame;
  let dlci := mx_dlci f in
  if is_command then
    y ← get_mcb m;
    if negb (bool_decide (mcb_state y = RFC_MX_STATE_DISC_WAIT_UA))
    then PORT_ParNegInd m dlci (pn_mtu f) (pn_conv_layer f) (pn_k f)
    else rfc_send_dm m dlci false
  else
  o ← port_find_mcb_dlci_port (Some m) dlci;
  match o with
  | None => skip
  | Some p =>
      x ← get_port p;
      if negb (nz (expected_rsp (rfc x) .& RFC_RSP_PN)) then skip else
      upd_port p (clear_expected_rsp RFC_RSP_PN);;
      rfc_port_timer_stop p;;
      PORT_ParNegCnf m dlci (pn_mtu f) (pn_conv_layer f) (pn_k f)
  end.

Definition rfc_set_port_state (port_pars : tPORT_STATE) (f : MX_FRAME) : tPORT_STATE :=
  let mask := rpn_param_mask f in
  let p := port_pars in
  let p := if nz (mask .& RFCOMM_RPN_PM_BIT_RATE) then p <| baud_rate := rpn_baud_rate f |> else p in
  let p := if nz (mask .& RFCOMM_RPN_PM_DATA_BITS) then p <| byte_size := rpn_byte_size f |> else p in
  let p := if nz (mask .& RFCOMM_RPN_PM_STOP_BITS) then p <| stop_bits := rpn_stop_bits f |> else p in
  let p := if nz (mask .& RFCOMM_RPN_PM_PARITY) then p <| parity := rpn_parity f |> else p in
  let p := if nz (mask .& RFCOMM_RPN_PM_PARITY_TYPE)
           then p <| parity_type := rpn_parity_type f |> else p in
  let p := if nz (mask .& (RFCOMM_RPN_PM_XONXOFF_ON_INPUT .| RFCOMM_RPN_PM_XONXOFF_ON_OUTPUT
                           .| RFCOMM_RPN_PM_RTR_ON_INPUT .| RFCOMM_RPN_PM_RTR_ON_OUTPUT
                           .| RFCOMM_RPN_PM_RTC_ON_INPUT .| RFCOMM_RPN_PM_RTC_ON_OUTPUT))
           then p <| fc_type := rpn_fc_type f |> else p in
  let p := if nz (mask .& RFCOMM_RPN_PM_XON_CHAR) then p <| xon_char := rpn_xon_char f |> else p in
  if nz (mask .& RFCOMM_RPN_PM_XOFF_CHAR) then p <| xoff_char := rpn_xoff_char f |> else p.

Abbreviation FC_RTR := (RFCOMM_FC_RTR_ON_INPUT .| RFCOMM_FC_RTR_ON_OUTPUT) (only parsing).
Abbreviation FC_RTC := (RFCOMM_FC_RTC_ON_INPUT .| RFCOMM_FC_RTC_ON_OUTPUT) (only parsing).
Abbreviation PM_RTR := (RFCOMM_RPN_PM_RTR_ON_INPUT .| RFCOMM_RPN_PM_RTR_ON_OUTPUT) (only parsing).
Abbreviation PM_RTC := (RFCOMM_RPN_PM_RTC_ON_INPUT .| RFCOMM_RPN_PM_RTC_ON_OUTPUT) (only parsing).

(** Proposing other flow control parameters to the peer. *)
Definition propose_fc (m p : nat) (dlci fc mask : Z) : M unit :=
  upd_port p (fun x => or_expected_rsp RFC_RSP_RPN
    (x <| peer_port_pars ::= set fc_type (fun _ => fc) |>));;
  x ← get_port p;
  rfc_send_rpn m dlci true (Some (peer_port_pars x)) mask;;
  rfc_port_timer_start p RFC_T2_TIMEOUT.

(** The response to a negotiation this side started (lines 729-786). *)
Definition rfc_process_rpn_rsp (m p : nat) (port_pars : tPORT_STATE) : M unit :=
  f ← get_frame;
  x ← get_port p;
  if negb (nz (expected_rsp (rfc x) .& (RFC_RSP_RPN .| RFC_RSP_RPN_REPLY))) then skip else
  rfc_port_timer_stop p;;
  continue ← (if nz (expected_rsp (rfc x) .& RFC_RSP_RPN_REPLY) then
      upd_port p (fun x => clear_expected_rsp RFC_RSP_RPN_REPLY
                             (x <| peer_port_pars := port_pars |>));;
      if (fc_type port_pars =? FC_RTR) || (fc_type port_pars =? FC_RTC) then
        put_frame (set_u16 10 RFCOMM_RPN_PM_MASK f);;
        mret true
      else
        propose_fc m p (mx_dlci f) FC_RTR PM_RTR;;
        mret false
    else
      upd_port p (clear_expected_rsp RFC_RSP_RPN);;
      mret true);
  if negb continue then skip else
  f ← get_frame;
  x ← get_port p;
  if (rpn_param_mask f .& PM_RTR =? PM_RTR) || (rpn_param_mask f .& PM_RTC =? PM_RTC)
  then PORT_PortNegCnf m (port_dlci x) RFCOMM_SUCCESS
  else if fc_type (peer_port_pars x) =? FC_RTR then propose_fc m p (mx_dlci f) FC_RTC PM_RTC
  else when (fc_type (peer_port_pars x) =? FC_RTC) (
    upd_port p (fun x => x <| peer_port_pars ::= set fc_type (fun _ => RFCOMM_FC_OFF) |>);;
    PORT_PortNegCnf m (port_dlci x) RFCOMM_SUCCESS).

Definition rfc_process_rpn (m : nat) (is_command is_request : bool) : M unit :=
  f ← get_frame;
  o ← port_find_mcb_dlci_port (Some m) (mx_dlci f);
  match o with
  | None =>
      when is_command (PORT_PortNegInd m (mx_dlci f) (rfc_set_port_state zero_PORT_STATE f)
                         (rpn_param_mask f))
  | Some p =>
      x ← get_port p;
      if is_command && is_request
      then rfc_send_rpn m (mx_dlci f) false (Some (peer_port_pars x)) 0
      else
      let port_pars := rfc_set_port_state (peer_port_pars x) f in
      if is_command then PORT_PortNegInd m (mx_dlci f) port_pars (rpn_param_mask f)
      else rfc_process_rpn_rsp m p port_pars
  end.

(** The modem status a received MSC carries. *)
Definition msc_pars (f : MX_FRAME) : tPORT_CTRL :=
  let modem_signals := msc_signals f in
  mkPORT_CTRL
    ((if nz (modem_signals .& RFCOMM_MSC_RTC) then MODEM_SIGNAL_DTRDSR else 0)
     .| (if nz (modem_signals .& RFCOMM_MSC_RTR) then MODEM_SIGNAL_RTSCTS else 0)
     .| (if nz (modem_signals .& RFCOMM_MSC_IC) then MODEM_SIGNAL_RI else 0)
     .| (if nz (modem_signals .& RFCOMM_MSC_DV) then MODEM_SIGNAL_DCD else 0))
    (if nz (msc_break_present f) then msc_break_duration f else 0)
    0 RFCOMM_CTRL_BREAK_IN_SEQ
    (modem_signals .& RFCOMM_MSC_FC =? RFCOMM_MSC_FC).

Definition rfc_process_msc (m : nat) (is_command : bool) : M unit :=
  f ← get_frame;
  o ← port_find_mcb_dlci_port (Some m) (mx_dlci f);
  match o with
  | None => skip
  | Some p =>
      let pars := msc_pars f in
      if is_command then
        rfc_send_msc m (mx_dlci f) false pars;;
        pm ← port_mcb p;
        y ← get_mcb pm;
        when (negb (bool_decide (mcb_flow y = PORT_FC_CREDIT))) (
          upd_port p (fun x => x <| peer_ctrl ::= set ctrl_fc (fun _ => ctrl_fc pars) |>);;
          x ← get_port p;
          when (negb (Bool.eqb (ctrl_fc pars) (peer_fc (tx x))))
            (PORT_FlowInd m (mx_dlci f) (negb (ctrl_fc pars))));;
        PORT_ControlInd m (mx_dlci f) pars
      else
        x ← get_port p;
        if negb (nz (expected_rsp (rfc x) .& RFC_RSP_MSC)) then skip else
        upd_port p (clear_expected_rsp RFC_RSP_MSC);;
        rfc_port_timer_stop p;;
        PORT_ControlCnf (p_mcb (rfc x)) (port_dlci x)
  end.

Definition rfc_process_rls (m : nat) (is_command : bool) : M unit :=
  f ← get_frame;
  if is_command then
    PORT_LineStatusInd m (mx_dlci f) (rls_line_status f);;
    rfc_send_rls m (mx_dlci f) false (rls_line_status f)
  else
  o ← port_find_mcb_dlci_port (Some m) (mx_dlci f);
  match o with
  | None => skip
  | Some p =>
      x ← get_port p;
      if negb (nz (expected_rsp (rfc x) .& RFC_RSP_RLS)) then skip else
      upd_port p (clear_expected_rsp RFC_RSP_RLS);;
      rfc_port_timer_stop p
  end.

Definition rfc_process_nsc : M unit := skip.

(** The buffer is freed. *)
Definition rfc_process_test_rsp : M unit := skip.

Definition rfc_process_fcon (m : nat) (is_command : bool) : M unit :=
  when is_command (
    modify (fun s => s <| peer_rx_disabled := false |>);;
    rfc_send_fcon m false;;
    y ← get_mcb m;
    when (negb (l2cap_congested y)) (PORT_FlowInd m 0 true)).

Definition rfc_process_fcoff (m : nat) (is_command : bool) : M unit :=
  when is_command (
    modify (fun s => s <| peer_rx_disabled := true |>);;
    y ← get_mcb m;
    when (negb (l2cap_congested y)) (PORT_FlowInd m 0 false);;
    rfc_send_fcoff m false).

Definition rfc_process_l2cap_congestion (m : nat) (is_congested : bool) : M unit :=
  upd_mcb m (fun y => y <| l2cap_congested := is_congested |>);;
  when (negb is_congested) (rfc_check_send_cmd m None);;
  s ← get;
  when (negb (peer_rx_disabled s)) (PORT_FlowInd m 0 (negb is_congested)).

(** A message that breaks out of the switch: NSC in answer to a command. *)
Definition mx_unsupported (m : nat) (is_command : bool) : M unit :=
  when is_command (rfc_send_nsc m).

(** The bytes of a 64-bit pointer, as the union overlays them. *)
Definition ptr_bytes (ptr : Z) : list Z := map (fun i => u8 (ptr .>> (8 * i))) (seqZ 0 8).

(** The switch on the message type. *)
Definition mx_dispatch (m : nat) (p_buf : BT_HDR) (p_data mx_len length : Z) : M unit :=
  f ← get_frame;
  let is_command := nz (mx_cr f) in
  let ty := mx_type f in
  if ty =? RFCOMM_MX_PN then
    if negb (length =? RFCOMM_MX_PN_LEN) then mx_unsupported m is_command else
    f ← lift (mx_read_pn f p_buf p_data);
    put_frame f;;
    if mx_bad_pn f then mx_unsupported m is_command else rfc_process_pn m is_command
  else if ty =? RFCOMM_MX_TEST then
    if negb (nz length) then mx_unsupported m is_command else
    s ← get;
    put_frame (f <| mx_u := ptr_bytes (env_test_ptr (out s))
                             ++ [u8 length; u8 (length .>> 8)] ++ drop 10 (mx_u f) |>);;
    let p_buf := p_buf <| bh_offset ::= fun o => u16 (o + 2) |>
                       <| bh_len ::= fun l => u16 (l - 2) |> in
    if is_command then rfc_send_test m false p_buf else rfc_process_test_rsp
  else if ty =? RFCOMM_MX_FCON then
    if negb (length =? RFCOMM_MX_FCON_LEN) then mx_unsupported m is_command
    else rfc_process_fcon m is_command
  else if ty =? RFCOMM_MX_FCOFF then
    if negb (length =? RFCOMM_MX_FCOFF_LEN) then mx_unsupported m is_command
    else rfc_process_fcoff m is_command
  else if ty =? RFCOMM_MX_MSC then
    if negb (length =? RFCOMM_MX_MSC_LEN_WITH_BREAK)
       && negb (length =? RFCOMM_MX_MSC_LEN_NO_BREAK) then skip else
    a ← lift (mx_read_addr f p_buf p_data);
    put_frame a.2;;
    if (a.1 : bool) then mx_unsupported m is_command else
    f ← lift (mx_read_msc a.2 p_buf p_data mx_len);
    put_frame f;;
    rfc_process_msc m is_command
  else if ty =? RFCOMM_MX_NSC then
    if negb (length =? RFCOMM_MX_NSC_LEN) || negb is_command
    then mx_unsupported m is_command else
    f ← lift (mx_read_nsc f p_buf p_data);
    put_frame f;;
    rfc_process_nsc
  else if ty =? RFCOMM_MX_RPN then
    if negb (length =? RFCOMM_MX_RPN_REQ_LEN) && negb (length =? RFCOMM_MX_RPN_LEN)
    then mx_unsupported m is_command else
    a ← lift (mx_read_addr f p_buf p_data);
    put_frame a.2;;
    if (a.1 : bool) then mx_unsupported m is_command else
    f ← lift (mx_read_rpn a.2 p_buf p_data length);
    put_frame f;;
    rfc_process_rpn m is_command (nz (rpn_is_request f))
  else if ty =? RFCOMM_MX_RLS then
    if negb (length =? RFCOMM_MX_RLS_LEN) then mx_unsupported m is_command else
    a ← lift (mx_read_addr f p_buf p_data);
    f ← lift (mx_read_rls a.2 p_buf p_data);
    put_frame f;;
    if (a.1 : bool) then mx_unsupported m is_command else rfc_process_rls m is_command
  else mx_unsupported m is_command.

Definition rfc_process_mx_message (m : nat) (p_buf : BT_HDR) : M unit :=
  f ← get_frame;
  h ← lift (mx_header f p_buf);
  put_frame h.1;;
  match h.2 with
  | None => skip
  | Some (p_data, mx_len, length) => mx_dispatch m p_buf p_data mx_len length
  end.

End RfcPortFsm.
