(* ===== verification/RfcL2capIf.v ===== *)
(** * RfcL2capIf: callbacks from L2CAP, and the two state machines tied together

    [src/system/stack/rfcomm/rfc_l2cap_if.cc], [rfc_on_l2cap_error] of
    [rfc_mx_fsm.cc], and [sm_execute], which runs a call of either state machine
    with a bound on the nesting of such calls. *)

From Stdlib Require Import ZArith Lia.
From stdpp Require Import gmap.
From S2P Require Import Prelude Osi RfcDefs RfcState RfcFrames RfcUtils PortRfc RfcMxFsm RfcPortFsm.

(** ** The knot *)

Fixpoint sm_execute `{RfcEnv} (depth : nat) (c : sm_call) : M unit :=
  match depth with
  | O => abort OutOfFuel
  | S n =>
      let sm : SmCalls := sm_execute n in
      match c with
      | MxCall m ev d => rfc_mx_sm_execute m ev d
      | PortCall p ev d => rfc_port_sm_execute p ev d
      end
  end.

(** Three nested calls always suffice: [RfcSafety] shows that no event exhausts
    the depth. *)
Definition sm_depth : nat := 3.

Global Instance sm_calls `{RfcEnv} : SmCalls := sm_execute sm_depth.

(** ** Callbacks *)

Section RfcL2capIf.
Context `{RfcEnv} `{SmCalls}.

Definition RFCOMM_ConnectInd (addr : RawAddress) (cid : Z) : M unit :=
  o ← rfc_alloc_multiplexer_channel addr false;
  match o with
  | None =>
      rfc_save_lcid_mcb None cid;;
      emit (L2CA_DisconnectReq cid)
  | Some m =>
      y ← get_mcb m;
      if bool_decide (mcb_state y = RFC_MX_STATE_IDLE) then
        rfc_save_lcid_mcb (Some m) cid;;
        upd_mcb m (fun y => y <| mcb_lcid := cid |>);;
        call_mx_sm m RFC_MX_EVENT_CONN_IND PNull
      else if is_initiator y && bool_decide (mcb_state y = RFC_MX_STATE_WAIT_CONN_CNF) then
        upd_mcb m (fun y => y <| pending_lcid := cid |>);;
        s ← get;
        rfc_timer_start m (u16 (env_boottime_ms (out s) mod 10 + 2))
      else emit (L2CA_DisconnectReq cid)
  end.

Definition RFCOMM_ConnectCnf (cid result : Z) : M unit :=
  o ← rfc_find_lcid_mcb cid;
  match o with
  | None => skip
  | Some m =>
      y ← get_mcb m;
      if nz (pending_lcid y) && negb (result =? L2CAP_CONN_OK) then skip else
      when (nz (pending_lcid y)) (
        emit (L2CA_DisconnectReq (pending_lcid y));;
        upd_mcb m (fun y => y <| pending_lcid := 0 |>));;
      upd_mcb m (fun y => y <| mcb_lcid := cid |>);;
      call_mx_sm m RFC_MX_EVENT_CONN_CNF (PResult result)
  end.

(** The multiplexers in the LCID table, one of which may be waiting for [cid];
    at most one is, so the order of the walk does not matter. *)
Fixpoint save_pending_cfg (l : list nat) (cid : Z) (p_cfg : tL2CAP_CFG_INFO) : M unit :=
  match l with
  | [] => skip
  | m :: l =>
      y ← get_mcb m;
      if pending_lcid y =? cid then
        upd_mcb m (fun y => y <| pending_configure_complete := true |>
                              <| pending_cfg_info := p_cfg |>)
      else save_pending_cfg l cid p_cfg
  end.

Definition RFCOMM_ConfigInd (cid : Z) (p_cfg : option tL2CAP_CFG_INFO) : M unit :=
  match p_cfg with
  | None => skip
  | Some cfg =>
      o ← rfc_find_lcid_mcb cid;
      match o with
      | None => s ← get; save_pending_cfg (snd <$> map_to_list (rfc_lcid_mcb s)) cid cfg
      | Some m => call_mx_sm m RFC_MX_EVENT_CONF_IND (PCfg cfg)
      end
  end.

Definition RFCOMM_ConfigCnf (cid : Z) (p_cfg : option tL2CAP_CFG_INFO) : M unit :=
  RFCOMM_ConfigInd cid p_cfg;;
  o ← rfc_find_lcid_mcb cid;
  match o with
  | None => skip
  | Some m => call_mx_sm m RFC_MX_EVENT_CONF_CNF (PResult L2CAP_CFG_OK)
  end.

Definition RFCOMM_DisconnectInd (cid : Z) : M unit :=
  o ← rfc_find_lcid_mcb cid;
  match o with
  | None => skip
  | Some m => call_mx_sm m RFC_MX_EVENT_DISC_IND PNull
  end.

(** The frame was received on a data DLCI: the port it is for.  A SABME may be
    the first frame of a listening port. *)
Definition find_data_port (m : nat) (event : tRFC_EVENT) : M (option nat) :=
  f ← get_frame;
  o ← port_find_mcb_dlci_port (Some m) (mx_dlci f);
  attached ← match o with
             | None => mret None
             | Some p => x ← get_port p;
                         mret (match p_mcb (rfc x) with Some _ => Some p | None => None end)
             end;
  match attached with
  | Some p => mret (Some p)
  | None =>
      if negb (bool_decide (event = RFC_EVENT_SABME)) then
        y ← get_mcb m;
        when ((is_initiator y && negb (nz (mx_cr f))) || (negb (is_initiator y) && nz (mx_cr f)))
          (rfc_send_dm m (mx_dlci f) (nz (mx_pf f)));;
        mret None
      else
      o ← port_find_dlci_port (mx_dlci f);
      match o with
      | None => rfc_send_dm m (mx_dlci f) true;; mret None
      | Some p =>
          x ← get_port p;
          put_port_handle m (mx_dlci f) (port_handle x);;
          upd_port p (put_p_mcb (Some m));;
          mret (Some p)
      end
  end.

Definition RFCOMM_BufDataInd (cid : Z) (p_buf : BT_HDR) : M unit :=
  o ← rfc_find_lcid_mcb cid;
  match o with
  | None => skip
  | Some m =>
      y ← get_mcb m;
      f ← get_frame;
      r ← lift (rfc_parse_data y f p_buf);
      let event := r.1.1 in
      let p_buf := r.2 in
      put_frame r.1.2;;
      match mx_event_of event, port_event_of event with
      | Some mx_event, Some port_event =>
          f ← get_frame;
          if mx_dlci f =? RFCOMM_MX_DLCI then
            if bool_decide (event = RFC_EVENT_UIH) then rfc_process_mx_message m p_buf
            else call_mx_sm m mx_event PNull
          else
          o ← find_data_port m event;
          match o with
          | None => skip
          | Some p =>
              if bool_decide (event = RFC_EVENT_UIH) then
                when (0 <? bh_len p_buf) (call_port_sm (Some p) port_event (PBuf p_buf));;
                f ← get_frame;
                when (negb (mx_credit f =? 0)) (rfc_inc_credit p (mx_credit f))
              else call_port_sm (Some p) port_event PNull
          end
      | _, _ => skip   (* RFC_EVENT_BAD_FRAME *)
      end
  end.

Definition RFCOMM_CongestionStatusInd (cid : Z) (is_congested : bool) : M unit :=
  o ← rfc_find_lcid_mcb cid;
  match o with
  | None => skip
  | Some m => rfc_process_l2cap_congestion m is_congested
  end.

Definition rfc_on_l2cap_error (cid result : Z) : M unit :=
  o ← rfc_find_lcid_mcb cid;
  match o with
  | None => skip
  | Some m =>
      y ← get_mcb m;
      if nz (result .& L2CAP_CONN_INTERNAL_MASK) then
        if nz (pending_lcid y) then
          rfc_save_lcid_mcb None (mcb_lcid y);;
          upd_mcb m (fun y => y <| mcb_lcid := pending_lcid y |> <| is_initiator := false |>
                                <| mcb_state := RFC_MX_STATE_IDLE |>);;
          rfc_save_lcid_mcb (Some m) (pending_lcid y);;
          update_direction_bits m;;
          call_mx_sm m RFC_MX_EVENT_CONN_IND PNull;;
          y ← get_mcb m;
          when (pending_configure_complete y) (
            upd_mcb m (fun y => y <| pending_configure_complete := false |>);;
            call_mx_sm m RFC_MX_EVENT_CONF_IND (PCfg (pending_cfg_info y));;
            call_mx_sm m RFC_MX_EVENT_CONF_CNF (PResult L2CAP_CFG_OK))
        else
          upd_mcb m (fun y => y <| mcb_lcid := cid |>);;
          call_mx_sm m RFC_MX_EVENT_CONN_CNF (PResult result)
      else when (result =? L2CAP_CFG_FAILED_NO_REASON) (
        when (is_initiator y) (
          PORT_StartCnf m result;;
          y ← get_mcb m;
          emit (L2CA_DisconnectReq (mcb_lcid y)));;
        rfc_release_multiplexer_channel m)
  end.

End RfcL2capIf.
