(* ===== verification/PortApi.v ===== *)
(** * PortApi: the interface to applications

    [src/system/stack/rfcomm/port_api.cc].  A function that returns a code and
    fills output parameters returns them as a tuple.  A user buffer is the list
    of its bytes. *)

From Stdlib Require Import ZArith Lia.
From stdpp Require Import gmap.
From S2P Require Import Prelude Osi RfcDefs RfcState RfcFrames RfcUtils PortRfc RfcMxFsm RfcPortFsm.
From S2P Require Import RfcL2capIf.

Abbreviation PORT_OBEX_DEFAULT_SIGNAL_STATE := (PORT_DTRDSR_ON .| PORT_CTSRTS_ON .| PORT_DCD_ON) (only parsing).
Abbreviation PORT_SPP_DEFAULT_SIGNAL_STATE := (PORT_DTRDSR_ON .| PORT_CTSRTS_ON .| PORT_DCD_ON) (only parsing).
Abbreviation PORT_PPP_DEFAULT_SIGNAL_STATE := (PORT_DTRDSR_ON .| PORT_CTSRTS_ON .| PORT_DCD_ON) (only parsing).
Abbreviation PORT_DUN_DEFAULT_SIGNAL_STATE := (PORT_DTRDSR_ON .| PORT_CTSRTS_ON) (only parsing).

(** [RFCOMM_Init]: the zeroed control block. *)
Definition RFCOMM_Init : rfc_cb :=
  mk_rfc_cb (replicate 30 zero_PORT) (replicate 16 zero_RFC_MCB) zero_MX_FRAME false
    MAX_BD_CONNECTIONS 0 ∅ [].

Definition bad_handle (handle : Z) : bool := (handle =? 0) || (MAX_RFC_PORTS <? handle).

Definition not_opened (x : tPORT) : bool :=
  negb (in_use x) || bool_decide (port_state x = PORT_CONNECTION_STATE_CLOSED).

Definition handle_port (handle : Z) : nat := Z.to_nat (handle - 1).

Definition default_signals (uuid : Z) : Z :=
  if uuid =? UUID_PROTOCOL_OBEX then PORT_OBEX_DEFAULT_SIGNAL_STATE
  else if uuid =? UUID_SERVCLASS_SERIAL_PORT then PORT_SPP_DEFAULT_SIGNAL_STATE
  else if uuid =? UUID_SERVCLASS_LAN_ACCESS_USING_PPP then PORT_PPP_DEFAULT_SIGNAL_STATE
  else if (uuid =? UUID_SERVCLASS_DIALUP_NETWORKING) || (uuid =? UUID_SERVCLASS_FAX)
  then PORT_DUN_DEFAULT_SIGNAL_STATE
  else PORT_DTRDSR_ON .| PORT_CTSRTS_ON .| PORT_DCD_ON.

Section PortApi.
Context `{RfcEnv} `{SmCalls}.

(** ** Connections *)

(** The fields [RFCOMM_CreateConnectionWithSecurity] sets on a new port. *)
Definition init_connection (uuid scn : Z) (is_server : bool) (mtu : Z) (addr : RawAddress)
    (p_mgmt_cb sec : Z) (x : tPORT) : tPORT :=
  let rfcomm_mtu := L2CAP_MTU_SIZE - RFCOMM_DATA_OVERHEAD in
  let mtu := if nz mtu then (if mtu <? rfcomm_mtu then mtu else rfcomm_mtu) else rfcomm_mtu in
  let x := x <| sec_mask := sec |> <| default_signal_state := default_signals uuid |>
    <| port_state := PORT_CONNECTION_STATE_OPENING |> <| port_uuid := uuid |>
    <| RfcState.is_server := is_server |> <| port_scn := scn |> <| ev_mask := 0 |>
    <| port_mtu := mtu |> in
  let x := if is_server then x <| keep_port_handle := true |> <| keep_mtu := mtu |> else x in
  x <| local_ctrl ::= fun c => c <| modem_signal := default_signals uuid |> <| ctrl_fc := false |> |>
    <| p_mgmt_callback := p_mgmt_cb |> <| port_bd_addr := addr |>.

(** Result code and [*p_handle]. *)
Definition RFCOMM_CreateConnectionWithSecurity (uuid scn : Z) (is_server : bool) (mtu : Z)
    (addr : RawAddress) (p_mgmt_cb sec : Z) : M (Z * Z) :=
  if (scn =? 0) || (PORT_MAX_RFC_PORTS <=? scn) then mret (PORT_INVALID_SCN, 0) else
  o ← port_find_mcb addr;
  odd ← match o with
        | None => mret false
        | Some m => y ← get_mcb m; mret (negb (is_initiator y) && negb is_server)
        end;
  let dlci := u8 (if (odd : bool) then (scn .<< 1) + 1 else scn .<< 1) in
  existing ← (if is_server then mret None else port_find_port dlci addr);
  clash ← match existing with
          | None => mret None
          | Some p => x ← get_port p;
                      mret (if RfcState.is_server x then None else Some (port_handle x))
          end;
  match clash with
  | Some h => mret (PORT_ALREADY_OPENED, h)
  | None =>
      o ← port_allocate_port dlci addr;
      match o with
      | None => mret (PORT_NO_RESOURCES, 0)
      | Some p =>
          upd_port p (init_connection uuid scn is_server mtu addr p_mgmt_cb sec);;
          x ← get_port p;
          if RfcState.is_server x then mret (PORT_SUCCESS, port_handle x)
          else r ← port_open_continue p; mret (r, port_handle x)
      end
  end.

Definition RFCOMM_RemoveConnection (handle : Z) : M Z :=
  if bad_handle handle then mret PORT_BAD_HANDLE else
  let p := handle_port handle in
  x ← get_port p;
  if not_opened x then mret PORT_SUCCESS else
  upd_port p (fun x => x <| port_state := PORT_CONNECTION_STATE_CLOSING |>);;
  port_start_close p;;
  mret PORT_SUCCESS.

Definition RFCOMM_RemoveServer (handle : Z) : M Z :=
  if bad_handle handle then mret PORT_BAD_HANDLE else
  let p := handle_port handle in
  upd_port p (fun x => x <| p_mgmt_callback := 0 |>);;
  x ← get_port p;
  if not_opened x then mret PORT_SUCCESS else
  upd_port p (fun x => x <| keep_port_handle := false |>
                         <| port_state := PORT_CONNECTION_STATE_CLOSING |>);;
  port_start_close p;;
  mret PORT_SUCCESS.

(** ** Settings *)

Definition on_open_port (handle : Z) (f : tPORT -> tPORT) : M Z :=
  if bad_handle handle then mret PORT_BAD_HANDLE else
  let p := handle_port handle in
  x ← get_port p;
  if not_opened x then mret PORT_NOT_OPENED else
  upd_port p f;;
  mret PORT_SUCCESS.

Definition PORT_SetEventCallback (handle p_port_cb : Z) : M Z :=
  on_open_port handle (fun x => x <| p_callback := p_port_cb |>).

Definition PORT_ClearKeepHandleFlag (handle : Z) : M Z :=
  if bad_handle handle then mret PORT_BAD_HANDLE else
  upd_port (handle_port handle) (fun x => x <| keep_port_handle := false |>);;
  mret PORT_SUCCESS.

Definition PORT_SetDataCOCallback (handle p_port_cb : Z) : M Z :=
  on_open_port handle (fun x => x <| p_data_co_callback := p_port_cb |>).

Definition PORT_SetEventMask (handle mask : Z) : M Z :=
  on_open_port handle (fun x => x <| ev_mask := mask |>).

(** Result code, [*bd_addr] and [*p_lcid]. *)
Definition PORT_CheckConnection (handle : Z) : M (Z * option (RawAddress * Z)) :=
  if bad_handle handle then mret (PORT_BAD_HANDLE, None) else
  x ← get_port (handle_port handle);
  if not_opened x then mret (PORT_NOT_OPENED, None) else
  match p_mcb (rfc x) with
  | None => mret (PORT_LINE_ERR, None)
  | Some m =>
      y ← get_mcb m;
      if negb (peer_ready y) || negb (bool_decide (rfc_state (rfc x) = RFC_STATE_OPENED))
      then mret (PORT_LINE_ERR, None)
      else mret (PORT_SUCCESS, Some (mcb_bd_addr y, mcb_lcid y))
  end.

(** [port.rfc.state < RFC_STATE_OPENED] *)
Definition rfc_state_lt_opened (s : tRFC_PORT_STATE) : bool :=
  match s with RFC_STATE_OPENED | RFC_STATE_DISC_WAIT_UA => false | _ => true end.

Definition mcb_opening (ports : list tPORT) (i : nat) (y : tRFC_MCB) : bool :=
  match mcb_state y with
  | RFC_MX_STATE_WAIT_CONN_CNF | RFC_MX_STATE_CONFIGURE | RFC_MX_STATE_SABME_WAIT_UA
  | RFC_MX_STATE_WAIT_SABME => true
  | RFC_MX_STATE_CONNECTED =>
      match find_index (fun x => bool_decide (p_mcb (rfc x) = Some i)) ports 0 with
      | None => true
      | Some p => match ports !! p with
                  | Some x => rfc_state_lt_opened (rfc_state (rfc x))
                  | None => true
                  end
      end
  | _ => false
  end.

Fixpoint find_opening (ports : list tPORT) (i : nat) (mcbs : list tRFC_MCB) : option RawAddress :=
  match mcbs with
  | [] => None
  | y :: l => if mcb_opening ports i y then Some (mcb_bd_addr y) else find_opening ports (S i) l
  end.

(** [Some addr]: returns true with [*bd_addr = addr]. *)
Definition PORT_IsOpening : M (option RawAddress) :=
  s ← get; mret (find_opening (port_tab s) 0 (rfc_mcb_tab s)).

Definition PORT_SetState (handle : Z) (p_settings : tPORT_STATE) : M Z :=
  if bad_handle handle then mret PORT_BAD_HANDLE else
  let p := handle_port handle in
  x ← get_port p;
  if not_opened x then mret PORT_NOT_OPENED else
  if nz (line_status x) then mret PORT_LINE_ERR else
  upd_port p (fun x => x <| user_port_pars := p_settings |>);;
  when (negb (baud_rate (user_port_pars x) =? baud_rate p_settings)) (port_start_par_neg p);;
  mret PORT_SUCCESS.

Definition PORT_GetState (handle : Z) : M (Z * option tPORT_STATE) :=
  if bad_handle handle then mret (PORT_BAD_HANDLE, None) else
  x ← get_port (handle_port handle);
  if not_opened x then mret (PORT_NOT_OPENED, None) else
  if nz (line_status x) then mret (PORT_LINE_ERR, None) else
  mret (PORT_SUCCESS, Some (user_port_pars x)).

Definition PORT_GetSecurityMask (handle : Z) : M (Z * option Z) :=
  if bad_handle handle then mret (PORT_BAD_HANDLE, None) else
  x ← get_port (handle_port handle);
  mret (PORT_SUCCESS, Some (sec_mask x)).

Definition PORT_FlowControl_MaxCredit (handle : Z) (enable : bool) : M Z :=
  if bad_handle handle then mret PORT_BAD_HANDLE else
  let p := handle_port handle in
  x ← get_port p;
  if not_opened x then mret PORT_NOT_OPENED else
  match p_mcb (rfc x) with
  | None => mret PORT_NOT_OPENED
  | Some m =>
      upd_port p (fun x => x <| rx ::= set user_fc (fun _ => negb enable) |>);;
      y ← get_mcb m;
      (if bool_decide (mcb_flow y = PORT_FC_CREDIT) then
         when enable (port_flow_control_peer p true (credit_rx x))
       else
         let fc := negb enable || peer_fc (rx x) in
         upd_port p (fun x => x <| local_ctrl ::= set ctrl_fc (fun _ => fc) |>);;
         when (negb (Bool.eqb fc (ctrl_fc (local_ctrl x)))) (port_start_control p));;
      x ← get_port p;
      when (enable && negb (queue_size (rx x) =? 0)) (
        upd_port p (fun x => x <| rx_flag_ev_pending := false |>);;
        event_callback p ((PORT_EV_RXCHAR .| (if rx_flag_ev_pending x then PORT_EV_RXFLAG else 0))
                          .& ev_mask x));;
      mret PORT_SUCCESS
  end.

(** ** Reading *)

(** [while (max_len)]: the bytes copied and the number of buffers freed. *)
Fixpoint read_loop (fuel : nat) (p : nat) (max_len : Z) (data : list Z) (count : Z) :
    M (list Z * Z) :=
  match fuel with
  | O => abort OutOfFuel
  | S fuel =>
      if max_len =? 0 then mret (data, count) else
      x ← get_port p;
      match fixed_queue_try_peek_first (pd_queue (rx x)) with
      | None => mret (data, count)
      | Some b =>
          if max_len <? bh_len b then
            bytes ← lift (bh_read_bytes b (bh_offset b) max_len);
            let b := b <| bh_offset ::= fun o => u16 (o + max_len) |>
                       <| bh_len ::= fun l => u16 (l - max_len) |> in
            upd_port p (fun x => x <| rx ::= fun d =>
              d <| pd_queue ::= fun q => fixed_queue_update_first q b |>
                <| queue_size ::= fun n => u32 (n - max_len) |> |>);;
            mret (data ++ bytes, count)
          else
            bytes ← lift (bh_read_bytes b (bh_offset b) (bh_len b));
            upd_port p (fun x => x <| rx ::= fun d =>
              d <| pd_queue ::= fun q =>
                     match fixed_queue_try_dequeue q with Some (_, q) => q | None => q end |>
                <| queue_size ::= fun n => u32 (n - bh_len b) |> |>);;
            read_loop fuel p (max_len - bh_len b) (data ++ bytes) (u16 (count + 1))
      end
  end.

(** Result code and the bytes read, [*p_len] of them. *)
Definition PORT_ReadData (handle max_len : Z) : M (Z * list Z) :=
  if bad_handle handle then mret (PORT_BAD_HANDLE, []) else
  let p := handle_port handle in
  x ← get_port p;
  if not_opened x then mret (PORT_NOT_OPENED, []) else
  if nz (line_status x) then mret (PORT_LINE_ERR, []) else
  if fixed_queue_is_empty (pd_queue (rx x)) then mret (PORT_SUCCESS, []) else
  r ← read_loop (S (Z.to_nat (fixed_queue_length (pd_queue (rx x))))) p max_len [] 0;
  port_flow_control_peer p true r.2;;
  mret (PORT_SUCCESS, r.1).

(** ** Writing *)

(** The initial port control command was sent and answered in kind. *)
Definition ctrl_exchanged (x : tPORT) : bool :=
  port_ctrl x .& (PORT_CTRL_REQ_SENT .| PORT_CTRL_IND_RECEIVED)
  =? (PORT_CTRL_REQ_SENT .| PORT_CTRL_IND_RECEIVED).

Definition port_write (p : nat) (p_buf : BT_HDR) : M Z :=
  x ← get_port p;
  let opened := bool_decide (rfc_state (rfc x) = RFC_STATE_OPENED) in
  if is_server x && negb opened then mret PORT_CLOSED else
  ready ← match p_mcb (rfc x) with
          | None => mret None
          | Some m => y ← get_mcb m; mret (if peer_ready y then Some m else None)
          end;
  match (if peer_fc (tx x) || negb opened || negb (ctrl_exchanged x) then None else ready) with
  | None =>
      if (PORT_TX_CRITICAL_WM <? queue_size (tx x))
         || (PORT_TX_BUF_CRITICAL_WM <? fixed_queue_length (pd_queue (tx x))) then
        event_callback p (ev_mask x .& PORT_EV_ERR);;
        mret PORT_TX_FULL
      else
        q ← lift (fixed_queue_enqueue (pd_queue (tx x)) p_buf);
        upd_port p (fun x => x <| tx ::= fun d => d <| pd_queue := q |>
          <| queue_size ::= fun n => u32 (n + bh_len p_buf) |> |>);;
        mret PORT_CMD_PENDING
  | Some m =>
      RFCOMM_DataReq m (port_dlci x) p_buf;;
      mret PORT_SUCCESS
  end.

(** [RFCOMM_DATA_BUF_SIZE - (sizeof(BT_HDR) + L2CAP_MIN_OFFSET + RFCOMM_DATA_OVERHEAD)] *)
Definition max_buf_data : Z :=
  RFCOMM_DATA_BUF_SIZE - (sizeof_BT_HDR + L2CAP_MIN_OFFSET + RFCOMM_DATA_OVERHEAD).

Definition tx_over_high_wm (x : tPORT) : bool :=
  (PORT_TX_HIGH_WM <? queue_size (tx x))
  || (PORT_TX_BUF_HIGH_WM <? fixed_queue_length (pd_queue (tx x))).

(** A fresh data buffer with [bytes] behind the room for the headers. *)
Definition data_buf (handle : Z) (bytes : list Z) : outcome BT_HDR :=
  let b := (osi_malloc RFCOMM_DATA_BUF_SIZE)
    <| bh_offset := L2CAP_MIN_OFFSET + RFCOMM_MIN_OFFSET |> <| bh_layer_specific := handle |>
    <| bh_len := Z.of_nat (length bytes) |> <| bh_event := BT_EVT_TO_BTU_SP_DATA |> in
  bh_write b (bh_offset b) bytes.

(** The data is appended to the last buffer of the queue. *)
Definition append_last (p : nat) (b : BT_HDR) (bytes : list Z) : M unit :=
  let n := Z.of_nat (length bytes) in
  b ← lift (bh_write b (bh_offset b + bh_len b) bytes);
  upd_port p (fun x => x <| tx ::= fun d =>
    d <| queue_size ::= fun q => u32 (q + u16 n) |>
      <| pd_queue ::= fun q => fixed_queue_update_last q (b <| bh_len ::= fun l => u16 (l + u16 n) |>) |> |>).

(** [while (max_len)]: bytes accepted, bytes left, last [rc] and events. *)
Fixpoint write_loop (fuel : nat) (p : nat) (handle : Z) (p_data : list Z) (length done rc event : Z) :
    M (Z * list Z * Z * Z) :=
  match fuel with
  | O => abort OutOfFuel
  | S fuel =>
      match p_data with
      | [] => mret (done, [], rc, event)
      | _ =>
          x ← get_port p;
          if tx_over_high_wm x then mret (done, p_data, rc, event) else
          let length := if peer_mtu x <? length then peer_mtu x else length in
          let max_len := Z.of_nat (List.length p_data) in
          let length := if max_len <? length then max_len else length in
          b ← lift (data_buf handle (take (Z.to_nat length) p_data));
          rc ← port_write p b;
          fc ← port_flow_control_user p;
          let event := event .| fc in
          let event := if rc =? PORT_SUCCESS then event .| PORT_EV_TXCHAR else event in
          if negb (rc =? PORT_SUCCESS) && negb (rc =? PORT_CMD_PENDING)
          then mret (done, p_data, rc, event)
          else write_loop fuel p handle (drop (Z.to_nat length) p_data) length
                 (u16 (done + length)) rc event
      end
  end.

(** Result code and [*p_len]; [p_data] holds [max_len] bytes. *)
Definition PORT_WriteData (handle : Z) (p_data : list Z) : M (Z * Z) :=
  if bad_handle handle then mret (PORT_BAD_HANDLE, 0) else
  let p := handle_port handle in
  x ← get_port p;
  if not_opened x then mret (PORT_NOT_OPENED, 0) else
  let max_len := Z.of_nat (length p_data) in
  if negb (nz max_len) || negb (nz (peer_mtu x)) then mret (PORT_UNKNOWN_ERROR, 0) else
  let last := match fixed_queue_try_peek_last (pd_queue (tx x)) with
  | Some b =>
      if (bh_len b + max_len <=? peer_mtu x) && (bh_len b + max_len <=? max_buf_data)
      then Some b else None
  | None => None
  end in
  match last with
  | Some b => append_last p b p_data;; mret (PORT_SUCCESS, max_len)
  | None =>
      r ← write_loop (S (length p_data)) p handle p_data max_buf_data 0 0 0;
      let '(done, rest, rc, event) := r in
      let event := if match rest with [] => true | _ => false end
                      && negb (rc =? PORT_CMD_PENDING) && negb (rc =? PORT_TX_QUEUE_DISABLED)
                   then event .| PORT_EV_TXEMPTY else event in
      x ← get_port p;
      event_callback p (event .& ev_mask x);;
      mret (PORT_SUCCESS, done)
  end.

(** *** Writing by callout *)

(** The outgoing data callback: [len] bytes of the application, or failure; its
    length parameter is a [uint16_t]. *)
Definition data_co_fetch (p : nat) (handle len : Z) : M (option (list Z)) :=
  let len := u16 len in
  x ← get_port p;
  if p_data_co_callback x =? 0 then abort NullDeref else
  emit (port_data_co_outgoing (p_data_co_callback x) handle len);;
  s ← get;
  mret (resize (Z.to_nat len) 0 <$> env_data_co_bytes (out s) len).

(** [while (available)]: [*p_len] and, unless the callback failed, what is left,
    the last [rc] and the events. *)
Fixpoint write_co_loop (fuel : nat) (p : nat) (handle available length done rc event : Z) :
    M (Z * option (Z * Z * Z)) :=
  match fuel with
  | O => abort OutOfFuel
  | S fuel =>
      if available =? 0 then mret (done, Some (0, rc, event)) else
      x ← get_port p;
      if tx_over_high_wm x then
        port_flow_control_user p;;
        mret (done, Some (available, rc, event .| PORT_EV_FC))
      else
      let length := if peer_mtu x <? length then peer_mtu x else length in
      let length := if available <? length then u16 available else length in
      o ← data_co_fetch p handle length;
      match o with
      | None => mret (done, None)
      | Some bytes =>
          b ← lift (data_buf handle bytes);
          rc ← port_write p b;
          fc ← port_flow_control_user p;
          let event := event .| fc in
          let event := if rc =? PORT_SUCCESS then event .| PORT_EV_TXCHAR else event in
          if negb (rc =? PORT_SUCCESS) && negb (rc =? PORT_CMD_PENDING)
          then mret (done, Some (available, rc, event))
          else write_co_loop fuel p handle (available - length) length (done + length) rc event
      end
  end.

Definition PORT_WriteDataCO (handle : Z) : M (Z * Z) :=
  if bad_handle handle then mret (PORT_BAD_HANDLE, 0) else
  let p := handle_port handle in
  x ← get_port p;
  if not_opened x then mret (PORT_NOT_OPENED, 0) else
  if negb (nz (peer_mtu x)) then mret (PORT_UNKNOWN_ERROR, 0) else
  if p_data_co_callback x =? 0 then abort NullDeref else
  s ← get;
  match env_data_co_size (out s) with
  | None => mret (PORT_UNKNOWN_ERROR, 0)
  | Some available =>
  if available =? 0 then mret (PORT_SUCCESS, 0) else
  let last := match fixed_queue_try_peek_last (pd_queue (tx x)) with
  | Some b =>
      if (bh_len b + available <=? peer_mtu x) && (bh_len b + available <=? max_buf_data)
      then Some b else None
  | None => None
  end in
  match last with
  | Some b =>
      o ← data_co_fetch p handle available;
      match o with
      | None => mret (PORT_UNKNOWN_ERROR, 0)
      | Some bytes => append_last p b bytes;; mret (PORT_SUCCESS, available)
      end
  | None =>
      o ← write_co_loop (S (Z.to_nat available)) p handle available max_buf_data 0 0 0;
      match o with
      | (done, None) => mret (PORT_UNKNOWN_ERROR, done)
      | (done, Some (rest, rc, event)) =>
          let event := if (rest =? 0) && negb (rc =? PORT_CMD_PENDING)
                          && negb (rc =? PORT_TX_QUEUE_DISABLED)
                       then event .| PORT_EV_TXEMPTY else event in
          x ← get_port p;
          event_callback p (event .& ev_mask x);;
          mret (PORT_SUCCESS, done)
      end
  end
  end.

End PortApi.
