(* ===== verification/RfcFramesProps.v ===== *)
(** * RfcFramesProps: correctness of the frame layer

    Decoding is memory safe on every received packet, what one side builds the
    other side decodes, and the command queue is a FIFO. *)

From Stdlib Require Import ZArith Lia.
From stdpp Require Import gmap.
From S2P Require Import Prelude RfcFcs Osi RfcDefs RfcState RfcFrames.

(** What [rfc_parse_data] leaves of the packet [b] and the frame [f]. *)
Definition parsed (b : BT_HDR) (f : MX_FRAME) (r : tRFC_EVENT * MX_FRAME * BT_HDR) : Prop :=
  let '(ev, f', b') := r in
  bh_data b' = bh_data b /\ bh_event b' = bh_event b /\
  bh_layer_specific b' = bh_layer_specific b /\
  bh_offset b <= bh_offset b' /\ 0 <= bh_len b' /\
  bh_offset b' + bh_len b' <= bh_offset b + bh_len b /\
  ev <> RFC_EVENT_TIMEOUT /\
  mx_u f' = mx_u f /\ mx_ea f' = mx_ea f /\ (is_u8 (mx_dlci f) -> is_u8 (mx_dlci f')) /\
  (ev <> RFC_EVENT_BAD_FRAME ->
     RFCOMM_VALID_DLCI (mx_dlci f') = true /\ is_u8 (mx_credit f') /\
     bh_offset b' + bh_len b' < bh_offset b + bh_len b).

(** A packet of [b] from its [n]-th byte on, [len] bytes long. *)
Definition sub_packet (b : BT_HDR) (n len : Z) : BT_HDR :=
  b <| bh_len := len |> <| bh_offset := bh_offset b + n |>.

Definition ctrl_bytes (cr dlci control : Z) : list Z :=
  [u8 (RFCOMM_EA .| cr .| (dlci .<< RFCOMM_SHIFT_DLCI)); u8 control; 1].

(** The frame [o] that this side builds, in whatever buffer it reaches the peer,
    is the event [ev] for [dlci] there. *)
Definition peer_decodes (o : outcome BT_HDR) (y : tRFC_MCB) (f : MX_FRAME)
    (ev : tRFC_EVENT) (dlci pf credit : Z) (data : list Z) : Prop :=
  returns o (fun b_tx => forall b_rx, bh_ok b_rx -> bh_payload b_rx = bh_payload b_tx ->
    exists f' b', rfc_parse_data y f b_rx = Ok (ev, f', b') /\
      mx_dlci f' = dlci /\ mx_pf f' = pf /\ mx_credit f' = credit /\ bh_payload b' = data).

(** The address octet, checked for every DLCI. *)
Definition addr_octet (cr dlci : Z) : Z := u8 (RFCOMM_EA .| cr .| (dlci .<< RFCOMM_SHIFT_DLCI)).

Definition addr_octet_ok (cr dlci : Z) : bool :=
  let a := addr_octet cr dlci in
  nz (a .& 1) && ((a .& 2) .>> 1 =? cr .>> 1) && (a .>> 2 =? dlci).

Definition uih_length (len : Z) : list Z :=
  if len <=? 127 then [u8 (RFCOMM_EA .| (len .<< 1))]
  else [u8 ((len .& 0x7f) .<< 1); u8 (len .>> RFCOMM_SHIFT_LENGTH2)].

Definition uih_header (ini : bool) (dlci credits len : Z) : list Z :=
  [u8 (RFCOMM_EA .| RFCOMM_CR ini true .| (dlci .<< RFCOMM_SHIFT_DLCI));
   u8 (RFCOMM_UIH .| (if nz credits then RFCOMM_PF else 0))]
  ++ uih_length len ++ (if nz credits then [credits] else []).

Definition uih_credits (dlci : Z) (b : BT_HDR) : Z :=
  if nz dlci then u8 (bh_layer_specific b) else 0.

(** The headroom and tailroom [uih_frame] needs. *)
Definition uih_room (dlci : Z) (b : BT_HDR) : Prop :=
  bh_ok b /\
  3 + b2z (127 <? bh_len b) + b2z (nz (uih_credits dlci b)) <= bh_offset b /\
  bh_offset b + bh_len b + 1 <= Z.of_nat (length (bh_data b)) /\
  bh_offset b + bh_len b + 1 < 65536.

(** The length octets decode to the length. *)
Definition short_length_ok (len : Z) : bool :=
  nz (u8 (1 .| (len .<< 1)) .& 1) && (u8 (1 .| (len .<< 1)) .>> 1 =? len).

Definition uih_example : BT_HDR := mkBT_HDR 0 3 18 5 (replicate 18 0 ++ [0x61; 0x62; 0x63] ++ replicate 10 0).

(** * Lemmas *)

(** ** Decoding is memory safe *)

Lemma check_frame_valid ini f len h3 h2 fcs :
  rfc_check_frame ini f len h3 h2 fcs <> RFC_EVENT_BAD_FRAME ->
  RFCOMM_VALID_DLCI (mx_dlci f) = true.
Proof.
  unfold rfc_check_frame. destruct (RFCOMM_VALID_DLCI (mx_dlci f)); [done|].
  simpl. rewrite !orb_true_r. simpl.
  repeat match goal with |- context [if ?c then _ else _] => destruct c end; done.
Qed.

Lemma check_frame_event ini f len h3 h2 fcs :
  rfc_check_frame ini f len h3 h2 fcs <> RFC_EVENT_TIMEOUT.
Proof.
  unfold rfc_check_frame.
  repeat match goal with |- context [if ?c then _ else _] => destruct c end; done.
Qed.

(** Steps through reads and tests of a decoder. *)
Ltac decode_step :=
  match goal with
  | |- returns (mret _) _ => apply returns_ret
  | |- returns (mret _ ≫= _) _ => apply returns_ret_bind
  | |- returns ((_ ≫= _) ≫= _) _ => apply returns_assoc
  | |- returns (if ?c then _ else _) _ => let E := fresh "E" in destruct c eqn:E
  | |- returns (let '(_, _) := ?p in _) _ => destruct p
  | |- returns (bh_read _ _ ≫= _) _ =>
      eapply returns_bind; [apply bh_read_ok; simpl; [assumption|lia]|intros ? ?]
  | |- returns (bh_read_bytes _ _ _ ≫= _) _ =>
      rewrite bh_read_bytes_ok by (simpl; lia); simpl
  end.

Lemma u16_small x : 0 <= x < 65536 -> u16 x = x.
Proof. intros. by apply u16_id. Qed.

Ltac solve_parsed :=
  unfold parsed; simpl; rewrite ?u16_small by lia; split_and!; try done; try lia; try by intros [].

Lemma parse_ctrl_field_ok b pos :
  Forall is_u8 (bh_data b) -> 0 <= pos -> pos + 2 <= Z.of_nat (length (bh_data b)) ->
  returns (RFCOMM_PARSE_CTRL_FIELD b pos) (fun '(ea, cr, dlci, p) =>
    is_u8 dlci /\ (ea = 0 \/ nz ea = true /\ p = pos + 1)).
Proof.
  intros Hu Hp Hl. unfold RFCOMM_PARSE_CTRL_FIELD. decode_step. decode_step.
  - apply returns_ret. split; [by apply is_u8_shiftr|by right].
  - decode_step. apply returns_ret. split; [apply u8_range|left; by apply nz_false].
Qed.

(** [b1] is what is left of the packet [b] after its header. *)
Lemma rfc_parse_body_spec y f0 f b b1 p len :
  bh_ok b -> mx_u f = mx_u f0 -> mx_ea f = mx_ea f0 -> is_u8 (mx_dlci f) ->
  b1 = b <| bh_len := bh_len b1 |> <| bh_offset := p |> ->
  bh_offset b + 3 <= p -> 0 <= bh_len b1 -> p + bh_len b1 + 1 = bh_offset b + bh_len b ->
  0 <= len ->
  returns (rfc_parse_body y f b1 (bh_offset b) p len) (parsed b f0).
Proof.
  intros (Ho & Hl & Hd & H16 & Hu) Hfu Hfe Hfd -> Hp Hl1 Hend Hlen. unfold rfc_parse_body.
  simpl in Hl1, Hend.
  destruct (carries_credit y f); simpl.
  - decode_step; apply Z.ltb_lt in E || apply Z.ltb_ge in E; simpl in E.
    { apply returns_ret; solve_parsed. }
    decode_step. decode_step. decode_step. simpl. rewrite !u16_small by lia. decode_step; simpl in *.
    { apply returns_ret; solve_parsed. }
    apply negb_false_iff, Z.eqb_eq in E0. repeat decode_step.
    unfold parsed. simpl. rewrite ?u16_small by lia.
    split_and!; try done; try lia; [apply check_frame_event|].
    intros Hev%check_frame_valid. split_and!; [done|done|lia].
  - decode_step; simpl in *.
    { apply returns_ret; solve_parsed. }
    apply negb_false_iff, Z.eqb_eq in E. repeat decode_step.
    unfold parsed. simpl. rewrite ?u16_small by lia.
    split_and!; try done; try lia; [apply check_frame_event|].
    intros Hev%check_frame_valid. split_and!; [done|unfold is_u8; simpl; lia|lia].
Qed.

Lemma rfc_parse_data_spec y f b :
  bh_ok b -> returns (rfc_parse_data y f b) (parsed b f).
Proof.
  intros (Ho & Hl & Hd & H16 & Hu). unfold rfc_parse_data.
  decode_step.
  { apply returns_ret; solve_parsed. }
  apply Z.ltb_ge in E.
  eapply returns_bind; [apply parse_ctrl_field_ok; [done|lia|lia]|].
  intros [[[ea cr] dlci] p] [Hdl Hea]. decode_step.
  { apply returns_ret; solve_parsed. }
  destruct Hea as [->|[Hea ->]]; [done|].
  eapply returns_bind with (R := fun r => r.2 = bh_offset b + 2).
  { unfold RFCOMM_PARSE_TYPE_FIELD. decode_step. apply returns_ret. simpl. lia. }
  intros [[ty pf] p] Hp. simpl in Hp. subst p.
  eapply returns_bind; [apply bh_read_ok; simpl; [done|lia]|]. intros d2 Hd2.
  decode_step.
  { apply returns_ret; solve_parsed. }
  assert (Hshift : 0 <= d2 .>> 1) by (unfold is_u8 in Hd2; apply Z.shiftr_nonneg; lia).
  destruct (d2 .& 1 =? 0) eqn:Eal; simpl in E1.
  - apply Z.eqb_eq in Eal. rewrite Eal. simpl. apply negb_false_iff, Z.ltb_lt in E1.
    eapply returns_bind; [eapply returns_bind; [apply bh_read_ok; simpl; [done|lia]|]|].
    { intros d3 Hd3. apply returns_ret. instantiate (1 := fun r => 0 <= r.1 /\ r.2 = bh_offset b + 4).
      simpl. split; [apply u16_range|lia]. }
    intros [len p] [Hlen Hp]. simpl in *. subst p. decode_step; [decode_step|];
      [solve_parsed|apply Z.ltb_ge in E2].
    rewrite !u16_small by lia. apply rfc_parse_body_spec; try done; simpl; try lia.
    unfold set, set_bh_offset, set_bh_len. simpl. rewrite u16_small by lia. f_equal; lia.
  - assert (Hnz : nz (d2 .& 1) = true) by (unfold nz; by rewrite Eal). rewrite Hnz. simpl.
    decode_step; [decode_step|];
      [solve_parsed|apply Z.ltb_ge in E2].
    rewrite !u16_small by lia.
    replace (bh_offset b + 2 + 1) with (bh_offset b + 3) by lia.
    apply rfc_parse_body_spec; try done; simpl; try lia.
    unfold set, set_bh_offset, set_bh_len. simpl. rewrite u16_small by lia. f_equal; lia.
Qed.

(** ** Decoding by content *)

Lemma bh_read_at b (i : nat) x :
  bh_ok b -> bh_payload b !! i = Some x -> bh_read b (bh_offset b + Z.of_nat i) = Ok x.
Proof.
  intros Hb Hx. apply bh_read_payload; [by apply bh_ok_wf|lia|by rewrite Nat2Z.id].
Qed.

Lemma bh_payload_len b : bh_ok b -> Z.of_nat (length (bh_payload b)) = bh_len b.
Proof.
  intros Hb. rewrite length_bh_payload by (by apply bh_ok_wf). destruct Hb as (?&?&_). lia.
Qed.

(** The header of a frame with a one-octet length field. *)
Lemma parse_data_short y f b a c l rest :
  bh_ok b -> bh_payload b = a :: c :: l :: rest -> (rest <> [])%list ->
  nz (a .& 1) = true -> nz (l .& 1) = true ->
  rfc_parse_data y f b =
    rfc_parse_body y
      (f <| mx_cr := (a .& 2) .>> 1 |> <| mx_dlci := a .>> 2 |>
         <| mx_type := c .&~ 0x10 |> <| mx_pf := (c .& 0x10) .>> 4 |>)
      (b <| bh_len := bh_len b - 4 |> <| bh_offset := bh_offset b + 3 |>)
      (bh_offset b) (bh_offset b + 3) (l .>> 1).
Proof.
  intros Hb Hp Hr Ha Hl. pose proof (bh_payload_len b Hb) as Hlen. rewrite Hp in Hlen.
  simpl in Hlen. assert (Hr' : (0 < length rest)%nat) by (destruct rest; [done|simpl; lia]).
  unfold rfc_parse_data, RFCOMM_PARSE_CTRL_FIELD, RFCOMM_PARSE_TYPE_FIELD.
  destruct (Z.ltb_spec (bh_len b) 3); [lia|].
  pose proof (bh_read_at b 0 a Hb ltac:(by rewrite Hp)) as R0.
  pose proof (bh_read_at b 1 c Hb ltac:(by rewrite Hp)) as R1.
  pose proof (bh_read_at b 2 l Hb ltac:(by rewrite Hp)) as R2.
  rewrite Z.add_0_r in R0. change (Z.of_nat 1) with 1 in R1. change (Z.of_nat 2) with 2 in R2.
  rewrite R0. simpl. rewrite Ha. simpl. rewrite Ha. simpl. rewrite R1. simpl.
  replace (bh_offset b + 1 + 1) with (bh_offset b + 2) by lia. rewrite R2. simpl.
  assert (El : (l .& 1 =? 0) = false) by (unfold nz in Hl; by destruct (_ =? 0)).
  rewrite El. simpl. rewrite Hl. simpl.
  destruct (Z.ltb_spec (bh_len b) (3 + 0 + 0 + 1)); [lia|].
  destruct Hb as (Ho & _ & _ & H16 & _).
  unfold set, set_bh_offset, set_bh_len. simpl. rewrite !u16_small by lia.
  f_equal; lia.
Qed.

(** The header of a frame with a two-octet length field. *)
Lemma parse_data_long y f b a c l h rest :
  bh_ok b -> bh_payload b = a :: c :: l :: h :: rest -> (rest <> [])%list ->
  nz (a .& 1) = true -> l .& 1 = 0 -> is_u8 l -> is_u8 h ->
  rfc_parse_data y f b =
    rfc_parse_body y
      (f <| mx_cr := (a .& 2) .>> 1 |> <| mx_dlci := a .>> 2 |>
         <| mx_type := c .&~ 0x10 |> <| mx_pf := (c .& 0x10) .>> 4 |>)
      (b <| bh_len := bh_len b - 5 |> <| bh_offset := bh_offset b + 4 |>)
      (bh_offset b) (bh_offset b + 4) ((l .>> 1) + (h .<< 7)).
Proof.
  intros Hb Hp Hr Ha Hl Hlu Hhu. pose proof (bh_payload_len b Hb) as Hlen. rewrite Hp in Hlen.
  simpl in Hlen. assert (Hr' : (0 < length rest)%nat) by (destruct rest; [done|simpl; lia]).
  unfold rfc_parse_data, RFCOMM_PARSE_CTRL_FIELD, RFCOMM_PARSE_TYPE_FIELD.
  destruct (Z.ltb_spec (bh_len b) 3); [lia|].
  pose proof (bh_read_at b 0 a Hb ltac:(by rewrite Hp)) as R0.
  pose proof (bh_read_at b 1 c Hb ltac:(by rewrite Hp)) as R1.
  pose proof (bh_read_at b 2 l Hb ltac:(by rewrite Hp)) as R2.
  pose proof (bh_read_at b 3 h Hb ltac:(by rewrite Hp)) as R3.
  rewrite Z.add_0_r in R0. change (Z.of_nat 1) with 1 in R1. change (Z.of_nat 2) with 2 in R2.
  change (Z.of_nat 3) with 3 in R3.
  rewrite R0. simpl. rewrite Ha. simpl. rewrite Ha. simpl. rewrite R1. simpl.
  replace (bh_offset b + 1 + 1) with (bh_offset b + 2) by lia. rewrite R2. simpl.
  rewrite Hl. simpl. destruct (Z.ltb_spec 3 (bh_len b)); [|lia]. simpl.
  replace (bh_offset b + 2 + 1) with (bh_offset b + 3) by lia. rewrite R3. simpl.
  destruct (Z.ltb_spec (bh_len b) (3 + 0 + 1 + 1)); [lia|].
  destruct Hb as (Ho & _ & _ & H16 & _).
  assert (Hv : 0 <= (l .>> 1) + (h .<< 7) < 65536).
  { rewrite Z.shiftr_div_pow2, Z.shiftl_mul_pow2 by lia. unfold is_u8 in *.
    change (2 ^ 1) with 2. change (2 ^ 7) with 128.
    pose proof (Z.div_le_upper_bound l 2 128). pose proof (Z.div_pos l 2). lia. }
  unfold set, set_bh_offset, set_bh_len. simpl. rewrite !u16_small by lia.
  f_equal; lia.
Qed.

Lemma payload_sub_packet b n len :
  bh_ok b -> 0 <= n -> 0 <= len -> n + len <= bh_len b ->
  bh_payload (sub_packet b n len) = slice (bh_payload b) n len.
Proof.
  intros (Ho & ?) Hn Hl Hle. unfold bh_payload, sub_packet. simpl.
  by rewrite slice_slice by lia.
Qed.

Lemma payload_prefix b n :
  bh_ok b -> 0 <= n <= bh_len b ->
  bh_read_bytes b (bh_offset b) n = Ok (take (Z.to_nat n) (bh_payload b)).
Proof.
  intros Hb Hn. rewrite <- (Z.add_0_r (bh_offset b)).
  rewrite bh_read_bytes_payload by (try apply bh_ok_wf; done || lia).
  unfold slice. simpl. by rewrite drop_0.
Qed.

(** The end of a frame without a credit octet. *)
Lemma parse_body_plain y f b hdr body fcs n :
  bh_ok b -> bh_payload b = hdr ++ body ++ [fcs] -> n = Z.of_nat (length hdr) -> 3 <= n ->
  carries_credit y f = false ->
  let f' := f <| mx_credit := 0 |> in
  let len := Z.of_nat (length body) in
  rfc_parse_body y f (sub_packet b n len) (bh_offset b) (bh_offset b + n) len =
    Ok (rfc_check_frame (is_initiator y) f' len (take 3 hdr) (take 2 hdr) fcs, f',
        sub_packet b n len) /\
  bh_payload (sub_packet b n len) = body.
Proof.
  intros Hb Hp Hn H3 Hc f' len. subst n.
  pose proof (bh_payload_len b Hb) as Hlen. rewrite Hp, !length_app in Hlen. simpl in Hlen.
  split.
  - unfold rfc_parse_body. rewrite Hc. simpl. subst len. rewrite Z.eqb_refl. simpl.
    replace (bh_offset b + Z.of_nat (length hdr) + Z.of_nat (length body))
      with (bh_offset b + Z.of_nat (length hdr + length body)) by lia.
    change (bh_read (sub_packet b _ _) ?p) with (bh_read b p).
    erewrite bh_read_at; [|done|]; simpl; cycle 1.
    { rewrite Hp, app_assoc, lookup_app_r, length_app by (rewrite length_app; lia).
      by rewrite Nat.sub_diag. }
    change (bh_read_bytes (sub_packet b _ _) ?p ?q) with (bh_read_bytes b p q).
    rewrite !payload_prefix by (done || lia). simpl. rewrite Hp.
    by rewrite !take_app_le by lia.
  - rewrite payload_sub_packet by (done || lia). rewrite Hp. by apply slice_app_mid.
Qed.

(** The end of a frame with a credit octet. *)
Lemma parse_body_credit y f b hdr k body fcs n :
  bh_ok b -> bh_payload b = hdr ++ k :: body ++ [fcs] -> n = Z.of_nat (length hdr) -> 3 <= n ->
  carries_credit y f = true ->
  let f' := f <| mx_credit := k |> in
  let len := Z.of_nat (length body) in
  rfc_parse_body y f (sub_packet b n (len + 1)) (bh_offset b) (bh_offset b + n) len =
    Ok (rfc_check_frame (is_initiator y) f' len (take 3 hdr) (take 2 hdr) fcs, f',
        sub_packet b (n + 1) len) /\
  bh_payload (sub_packet b (n + 1) len) = body.
Proof.
  intros Hb Hp Hn H3 Hc f' len. subst n.
  pose proof (bh_payload_len b Hb) as Hlen. rewrite Hp, length_app in Hlen. simpl in Hlen.
  rewrite length_app in Hlen. simpl in Hlen. pose proof Hb as (Ho & Hl & Hd & H16 & Hu).
  split.
  - unfold rfc_parse_body. rewrite Hc. simpl.
    destruct (Z.ltb_spec (len + 1) 1); [lia|]. simpl.
    change (bh_read (sub_packet b _ _) ?p) with (bh_read b p).
    rewrite (bh_read_at b (length hdr) k) by (done || by rewrite Hp, list_lookup_middle). simpl.
    rewrite (u16_small (len + 1 - 1)) by lia. replace (len + 1 - 1) with len by lia.
    rewrite Z.eqb_refl. simpl.
    replace (bh_offset b + Z.of_nat (length hdr) + 1 + len)
      with (bh_offset b + Z.of_nat (length hdr + S (length body))) by lia.
    change (bh_read _ ?p) with (bh_read b p).
    erewrite bh_read_at; [|done|]; simpl; cycle 1.
    { rewrite Hp, lookup_app_r by lia. replace (_ + _ - _)%nat with (S (length body)) by lia.
      simpl. rewrite lookup_app_r, Nat.sub_diag by lia. done. }
    change (bh_read_bytes _ ?p ?q) with (bh_read_bytes b p q).
    rewrite !payload_prefix by (done || lia). simpl. rewrite Hp, !take_app_le by lia.
    do 2 f_equal. unfold sub_packet, set, set_bh_offset, set_bh_len. simpl.
    rewrite !u16_small by lia. f_equal; lia.
  - rewrite payload_sub_packet by (done || lia). rewrite Hp.
    replace (hdr ++ k :: body ++ [fcs]) with ((hdr ++ [k]) ++ body ++ [fcs]) by by rewrite <- app_assoc.
    apply slice_app_mid; [|done]. rewrite length_app. simpl. lia.
Qed.

(** ** What the builders produce *)

(** A block write, by its effect on slices. *)
Lemma bh_write_slices b pos bs :
  0 <= pos -> pos + Z.of_nat (length bs) <= Z.of_nat (length (bh_data b)) ->
  Forall is_u8 (bh_data b) -> Forall is_u8 bs ->
  returns (bh_write b pos bs) (fun b' => exists d, b' = b <| bh_data := d |> /\
    length d = length (bh_data b) /\ Forall is_u8 d /\
    slice d pos (Z.of_nat (length bs)) = bs /\
    (forall p l, 0 <= p -> 0 <= l -> (p + l <= pos \/ pos + Z.of_nat (length bs) <= p) ->
       slice d p l = slice (bh_data b) p l)).
Proof.
  intros Hp Hl Hu Hb. destruct (wr_bytes_ok (bh_data b) pos bs Hp Hl) as (d & Hd & H1 & H2 & H3).
  unfold bh_write. rewrite Hd. simpl. exists d.
  split; [done|]. split; [done|]. split; [|by split].
  by apply (wr_bytes_u8 (bh_data b) pos bs).
Qed.

Lemma ctrl_bytes_u8 cr dlci c : Forall is_u8 (ctrl_bytes cr dlci c).
Proof. unfold ctrl_bytes. solve_Forall; auto with rfc. unfold is_u8. lia. Qed.

Lemma ctrl_frame_content cr dlci c :
  returns (ctrl_frame cr dlci c) (fun b => bh_ok b /\
    bh_payload b = ctrl_bytes cr dlci c ++ [rfc_calc_fcs (ctrl_bytes cr dlci c)]).
Proof.
  unfold ctrl_frame. fold (ctrl_bytes cr dlci c). change (u8 (1 .| 0)) with 1.
  pose proof (ctrl_bytes_u8 cr dlci c) as Hu.
  pose proof (osi_malloc_length 660 ltac:(lia)) as Hm. pose proof (osi_malloc_u8 660) as Hz.
  change [_; _; _] with (ctrl_bytes cr dlci c).
  set (m := osi_malloc 660) in *. set (hb := ctrl_bytes cr dlci c) in *.
  assert (Hlb : length hb = 3%nat) by done.
  eapply returns_bind; [apply bh_write_slices; simpl; try done; rewrite ?Hlb; lia|].
  intros b1 (d1 & -> & L1 & U1 & S1 & _). simpl in L1. rewrite Hlb in S1.
  rewrite bh_read_bytes_ok by (simpl; lia). simpl. change (Z.of_nat 3) with 3 in S1. rewrite S1.
  eapply returns_bind; [apply bh_write_slices; simpl; try done; try lia|].
  { solve_Forall. by apply rfc_calc_fcs_byte. }
  intros b2 (d2 & -> & L2 & U2 & S2 & K2). simpl in L2, S2, K2. apply returns_ret. split.
  - unfold bh_ok. simpl. split_and!; try done; lia.
  - unfold bh_payload. simpl. change 4 with (3 + 1). rewrite slice_split by lia.
    rewrite K2, S1 by lia. change (Z.of_nat 1) with 1 in S2. by rewrite S2.
Qed.

(** ** Round trips *)

Lemma addr_octet_spec b dlci :
  0 <= dlci < 64 -> let cr := b2z b .<< 1 in let a := addr_octet cr dlci in
  nz (a .& 1) = true /\ (a .& 2) .>> 1 = b2z b /\ a .>> 2 = dlci.
Proof.
  intros Hd cr a.
  assert (H : addr_octet_ok cr dlci = true).
  { apply (all_below_spec 64 (addr_octet_ok cr) dlci); [|done]. by destruct b; vm_compute. }
  unfold addr_octet_ok in H. fold a in H.
  apply andb_prop in H as [[H1 H2]%andb_prop H3].
  apply Z.eqb_eq in H2, H3. split_and!; [done| |done]. rewrite H2. subst cr. by destruct b.
Qed.

Lemma valid_dlci_range dlci : RFCOMM_VALID_DLCI dlci = true -> 0 <= dlci <= 61.
Proof. unfold RFCOMM_VALID_DLCI. lia. Qed.

Lemma rfc_check_fcs_calc p : Forall is_u8 p -> rfc_check_fcs p (rfc_calc_fcs p) = true.
Proof.
  intros H. rewrite check_fcs_iff by (done || by apply rfc_calc_fcs_byte). apply Z.eqb_refl.
Qed.

(** A control frame reaches the checks of [rfc_check_frame] with its fields. *)
Lemma ctrl_frame_decodes b dlci control y f ev :
  RFCOMM_VALID_DLCI dlci = true -> is_u8 control -> control .&~ 0x10 <> RFCOMM_UIH ->
  (forall f' fcs, mx_type f' = control .&~ 0x10 -> mx_pf f' = (control .& 0x10) .>> 4 ->
     mx_cr f' = b2z b -> mx_dlci f' = dlci ->
     fcs = rfc_calc_fcs (ctrl_bytes (b2z b .<< 1) dlci control) ->
     rfc_check_frame (is_initiator y) f' 0 (ctrl_bytes (b2z b .<< 1) dlci control)
       (take 2 (ctrl_bytes (b2z b .<< 1) dlci control)) fcs = ev) ->
  peer_decodes (ctrl_frame (b2z b .<< 1) dlci control) y f ev dlci ((control .& 0x10) .>> 4) 0 [].
Proof.
  intros Hv Hc Hne Hev. eapply returns_mono; [apply ctrl_frame_content|].
  intros b_tx [_ Hp] b_rx Hb Hrx. rewrite Hp in Hrx.
  pose proof (valid_dlci_range dlci Hv). destruct (addr_octet_spec b dlci) as (A1 & A2 & A3); [lia|].
  assert (Hrx' := Hrx). unfold ctrl_bytes in Hrx'. simpl in Hrx'. rewrite (u8_id control) in Hrx' by done.
  pose proof (bh_payload_len b_rx Hb) as Hlen. rewrite Hrx' in Hlen. simpl in Hlen.
  erewrite parse_data_short; [|done|exact Hrx'|done|exact A1|done].
  change (u8 _) with (addr_octet (b2z b .<< 1) dlci). rewrite A2, A3.
  replace (bh_len b_rx - 4) with (Z.of_nat (length (@nil Z))) by (simpl; lia).
  set (f1 := f <| mx_cr := _ |> <| mx_dlci := _ |> <| mx_type := _ |> <| mx_pf := _ |>).
  destruct (parse_body_plain y f1 b_rx (ctrl_bytes (b2z b .<< 1) dlci control) []
    (rfc_calc_fcs (ctrl_bytes (b2z b .<< 1) dlci control)) 3) as [E P]; try done.
  { unfold carries_credit. simpl. destruct (Z.eqb_spec (control .&~ 16) 239); [done|].
    by rewrite andb_false_r. }
  eexists _, _. split; [etrans; [exact E|]; repeat f_equal; by apply Hev|done].
Qed.

Lemma ctrl_frame_peer (ini b : bool) dlci control y f ev :
  is_initiator y = negb ini -> RFCOMM_VALID_DLCI dlci = true ->
  is_u8 control -> control .&~ 0x10 <> RFCOMM_UIH ->
  (forall f' : MX_FRAME, mx_type f' = control .&~ 0x10 -> mx_pf f' = (control .& 0x10) .>> 4 ->
     mx_cr f' = b2z b -> mx_dlci f' = dlci -> forall h3 h2 fcs, rfc_check_fcs h3 fcs = true ->
     rfc_check_frame (negb ini) f' 0 h3 h2 fcs = ev) ->
  peer_decodes (ctrl_frame (b2z b .<< 1) dlci control) y f ev dlci ((control .& 0x10) .>> 4) 0 [].
Proof.
  intros Hy Hv Hc Hne Hev. apply ctrl_frame_decodes; try done.
  intros f' fcs ? ? ? ? ->. rewrite Hy. apply Hev; try done.
  apply rfc_check_fcs_calc, ctrl_bytes_u8.
Qed.

(** Discharges the conditions of [ctrl_frame_peer] for a concrete control octet. *)
Ltac ctrl_peer :=
  match goal with
  | |- is_u8 _ => unfold is_u8; lia
  | |- forall f' : MX_FRAME, _ =>
      intros ? T P C D ? ? ? F; unfold rfc_check_frame; rewrite T, P, C, D, F
  | _ => done
  end.

(** C38: the decoder never reads outside the packet, whatever the packet holds: on
    every buffer it returns, the payload it leaves lies inside the packet, behind
    the header and in front of the checksum, and an accepted frame has a valid DLCI. *)
Theorem parse_in_bounds y f b :
  bh_ok b -> match rfc_parse_data y f b with Ok r => parsed b f r | Crash _ => False end.
Proof. apply rfc_parse_data_spec. Qed.

(** C30: every control frame one side builds (SABME, UA, DISC, and DM with either
    final bit) is accepted by the other side of the multiplexer as the same
    frame type, for the same DLCI and with the same poll/final bit, whatever
    buffer it arrives in. *)
Theorem ctrl_frames_roundtrip ini y f dlci :
  is_initiator y = negb ini -> RFCOMM_VALID_DLCI dlci = true ->
  peer_decodes (sabme_frame ini dlci) y f RFC_EVENT_SABME dlci 1 0 [] /\
  peer_decodes (ua_frame ini dlci) y f RFC_EVENT_UA dlci 1 0 [] /\
  peer_decodes (disc_frame ini dlci) y f RFC_EVENT_DISC dlci 1 0 [] /\
  (forall pf, peer_decodes (dm_frame ini dlci pf) y f RFC_EVENT_DM dlci (b2z pf) 0 []).
Proof.
  intros Hy Hv. split_and!; [| | |intros pf].
  - apply (ctrl_frame_peer ini ((ini && true) || (negb ini && false)) dlci 0x3F); ctrl_peer.
    rewrite Hv. by destruct ini.
  - apply (ctrl_frame_peer ini ((ini && false) || (negb ini && true)) dlci 0x73); ctrl_peer.
    rewrite Hv. by destruct ini.
  - apply (ctrl_frame_peer ini ((ini && true) || (negb ini && false)) dlci 0x53); ctrl_peer.
    rewrite Hv. by destruct ini.
  - destruct pf.
    + apply (ctrl_frame_peer ini ((ini && false) || (negb ini && true)) dlci 0x1F); ctrl_peer.
      rewrite Hv. by destruct ini.
    + apply (ctrl_frame_peer ini ((ini && false) || (negb ini && true)) dlci 0x0F); ctrl_peer.
      rewrite Hv. by destruct ini.
Qed.

Lemma ctrl_frames_roundtrip_witness :
  peer_decodes (sabme_frame true 2) zero_RFC_MCB zero_MX_FRAME RFC_EVENT_SABME 2 1 0 [].
Proof. exact (proj1 (ctrl_frames_roundtrip true zero_RFC_MCB zero_MX_FRAME 2 eq_refl eq_refl)). Defined.

(** *** UIH frames *)

Lemma uih_header_u8 ini dlci credits len :
  is_u8 credits -> Forall is_u8 (uih_header ini dlci credits len).
Proof.
  intros Hc. unfold uih_header, uih_length. rewrite !Forall_app. split_and!.
  - solve_Forall; auto with rfc.
  - destruct (_ <=? _); solve_Forall; auto with rfc.
  - destruct (nz credits); solve_Forall.
Qed.

Lemma uih_header_length ini dlci credits len :
  Z.of_nat (length (uih_header ini dlci credits len)) =
  3 + b2z (127 <? len) + b2z (nz credits).
Proof.
  unfold uih_header, uih_length. rewrite !length_app.
  destruct (Z.leb_spec len 127), (Z.ltb_spec 127 len); try lia; by destruct (nz credits).
Qed.

Lemma uih_credits_u8 dlci b : is_u8 (uih_credits dlci b).
Proof. unfold uih_credits. destruct (nz dlci); [apply u8_range|unfold is_u8; lia]. Qed.

(** [uih_frame] with the header length [n] computed. *)
Lemma uih_frame_eq ini dlci b :
  uih_room dlci b ->
  let hdr := uih_header ini dlci (uih_credits dlci b) (bh_len b) in
  let n := Z.of_nat (length hdr) in
  let o := bh_offset b - n in
  uih_frame ini dlci b =
    (b1 ← bh_write (b <| bh_offset := o |>) o hdr;
     h ← bh_read_bytes b1 o 2;
     b2 ← bh_write b1 (o + (n + bh_len b)) [rfc_calc_fcs h];
     mret (b2 <| bh_len := n + bh_len b + 1 |>)).
Proof.
  intros (Hb & Hh & Ht & H16) hdr n o. pose proof Hb as (Ho & Hl & Hd & _ & Hu).
  pose proof (uih_header_length ini dlci (uih_credits dlci b) (bh_len b)) as Hn.
  fold hdr in Hn. fold n in Hn. unfold uih_frame.
  fold (uih_credits dlci b). fold (uih_length (bh_len b)).
  fold (uih_header ini dlci (uih_credits dlci b) (bh_len b)). fold hdr.
  assert (Eo : (if nz (uih_credits dlci b)
     then u16 ((if 127 <? bh_len b then u16 (u16 (bh_offset b - 3) - 1)
                else u16 (bh_offset b - 3)) - 1)
     else if 127 <? bh_len b then u16 (u16 (bh_offset b - 3) - 1) else u16 (bh_offset b - 3)) = o).
  { subst o. rewrite Hn, (u16_small (bh_offset b - 3)) by
      (destruct (127 <? bh_len b), (nz (uih_credits dlci b)); simpl in *; lia).
    destruct (127 <? bh_len b); simpl in *; rewrite ?(u16_small (bh_offset b - 3 - 1)) by
      (destruct (nz (uih_credits dlci b)); simpl in *; lia);
    destruct (nz (uih_credits dlci b)); simpl in *; rewrite ?u16_small by lia; lia. }
  rewrite Eo.
  assert (El : (if nz (uih_credits dlci b)
     then u16 (u16 (bh_len b + (if bh_len b <=? 127 then 3 else 4)) + 1)
     else u16 (bh_len b + (if bh_len b <=? 127 then 3 else 4))) = n + bh_len b).
  { rewrite Hn, (u16_small (bh_len b + _)) by
      (destruct (Z.leb_spec (bh_len b) 127), (Z.ltb_spec 127 (bh_len b)),
         (nz (uih_credits dlci b)); simpl in *; lia).
    destruct (Z.leb_spec (bh_len b) 127), (Z.ltb_spec 127 (bh_len b)); try lia;
      destruct (nz (uih_credits dlci b)); simpl in *; rewrite ?u16_small by lia; lia. }
  rewrite El. by rewrite (u16_small (n + bh_len b + 1)) by lia.
Qed.

Lemma uih_frame_content ini dlci b :
  uih_room dlci b ->
  let hdr := uih_header ini dlci (uih_credits dlci b) (bh_len b) in
  returns (uih_frame ini dlci b) (fun b' => bh_ok b' /\
    bh_payload b' = hdr ++ bh_payload b ++ [rfc_calc_fcs (take 2 hdr)]).
Proof.
  intros Hroom hdr. rewrite uih_frame_eq by done. cbn zeta. fold hdr.
  destruct Hroom as (Hb & Hh & Ht & H16). pose proof Hb as (Ho & Hl & Hd & _ & Hu).
  pose proof (uih_credits_u8 dlci b) as Hcu.
  pose proof (uih_header_u8 ini dlci _ (bh_len b) Hcu) as Hhu. fold hdr in Hhu.
  pose proof (uih_header_length ini dlci (uih_credits dlci b) (bh_len b)) as Hhl. fold hdr in Hhl.
  assert (Hfu : is_u8 (rfc_calc_fcs (take 2 hdr))) by (by apply rfc_calc_fcs_byte, Forall_take).
  set (n := Z.of_nat (length hdr)) in *.
  assert (3 <= n <= 5 /\ n <= bh_offset b) as [Hn3 Hno]
    by (destruct (127 <? bh_len b), (nz (uih_credits dlci b)); simpl in *; lia).
  clearbody hdr. eapply returns_bind; [apply bh_write_slices; simpl; try done; lia|].
  intros b1 (d1 & -> & L1 & U1 & S1 & K1). simpl in L1, K1. fold n in S1, K1.
  rewrite bh_read_bytes_ok by (simpl; lia). cbn [mbind outcome_bind]. simpl bh_data.
  assert (E2 : slice d1 (bh_offset b - n) 2 = take 2 hdr).
  { rewrite <- S1. unfold slice at 2. rewrite take_take. unfold slice. f_equal. lia. }
  rewrite E2. eapply returns_bind; [apply bh_write_slices; simpl; try done; try lia|].
  { solve_Forall. }
  intros b2 (d2 & -> & L2 & U2 & S2 & K2). simpl in L2, S2, K2. apply returns_ret. split.
  - unfold bh_ok. simpl. split_and!; try done; lia.
  - unfold bh_payload. simpl. replace (n + bh_len b + 1) with (n + (bh_len b + 1)) by lia.
    rewrite (slice_split d2) by lia. rewrite (slice_split d2 (bh_offset b - n + n)) by lia.
    rewrite (K2 (bh_offset b - n) n), (K2 (bh_offset b - n + n) (bh_len b)), S1, K1 by lia.
    replace (bh_offset b - n + (n + bh_len b)) with (bh_offset b - n + n + bh_len b) in S2 by lia.
    change (Z.of_nat 1) with 1 in S2. rewrite S2.
    by replace (bh_offset b - n + n) with (bh_offset b) by lia.
Qed.

Lemma uih_length_short len :
  0 <= len <= 127 -> exists l, uih_length len = [l] /\ nz (l .& 1) = true /\ l .>> 1 = len.
Proof.
  intros H. unfold uih_length. destruct (Z.leb_spec len 127); [|lia].
  eexists. split; [done|].
  assert (E : short_length_ok len = true).
  { apply (all_below_spec 128 short_length_ok len); [by vm_compute|lia]. }
  unfold short_length_ok in E. apply andb_prop in E as [E1 E2%Z.eqb_eq]. done.
Qed.

Lemma uih_length_long len :
  127 < len < 32768 ->
  exists l h, uih_length len = [l; h] /\ l .& 1 = 0 /\ is_u8 l /\ is_u8 h /\
    (l .>> 1) + (h .<< 7) = len.
Proof.
  intros H. unfold uih_length. destruct (Z.leb_spec len 127); [lia|].
  assert (Hm : 0 <= len .& 0x7f < 128).
  { change 0x7f with (Z.ones 7). rewrite Z.land_ones by lia. apply Z.mod_pos_bound. lia. }
  assert (Hs : 0 <= len .>> 7 < 256).
  { rewrite Z.shiftr_div_pow2 by lia. change (2 ^ 7) with 128.
    split; [apply Z.div_pos; lia|apply Z.div_lt_upper_bound; lia]. }
  assert (Hl : u8 ((len .& 0x7f) .<< 1) = (len .& 0x7f) * 2).
  { rewrite Z.shiftl_mul_pow2 by lia. apply u8_id. unfold is_u8. change (2 ^ 1) with 2. lia. }
  assert (Hh : u8 (len .>> 7) = len .>> 7) by (apply u8_id; done).
  eexists _, _. split; [done|]. rewrite Hl, Hh. split_and!.
  - change 1 with (Z.ones 1). rewrite Z.land_ones by lia. apply Z.mod_mul. lia.
  - unfold is_u8. lia.
  - done.
  - rewrite Z.shiftr_div_pow2, Z.shiftl_mul_pow2 by lia. change (2 ^ 1) with 2.
    rewrite Z.div_mul by lia. change 0x7f with (Z.ones 7). rewrite Z.land_ones by lia.
    rewrite Z.shiftr_div_pow2 by lia. change (2 ^ 7) with 128.
    pose proof (Z.div_mod len 128). lia.
Qed.

(** The header of a UIH frame, with either length field. *)
Lemma parse_uih_header y f b a c len rest :
  bh_ok b -> bh_payload b = a :: c :: uih_length len ++ rest -> (rest <> [])%list ->
  0 <= len < 32768 -> nz (a .& 1) = true ->
  let n := 2 + Z.of_nat (length (uih_length len)) in
  rfc_parse_data y f b =
    rfc_parse_body y
      (f <| mx_cr := (a .& 2) .>> 1 |> <| mx_dlci := a .>> 2 |>
         <| mx_type := c .&~ 0x10 |> <| mx_pf := (c .& 0x10) .>> 4 |>)
      (sub_packet b n (bh_len b - n - 1)) (bh_offset b) (bh_offset b + n) len.
Proof.
  intros Hb Hp Hr Hlen Ha n. destruct (Z.le_gt_cases len 127).
  - destruct (uih_length_short len) as (l & El & L1 & L2); [lia|].
    subst n. rewrite El in *. simpl in Hp. erewrite parse_data_short; try done.
    change (2 + Z.of_nat (length [l])) with 3. rewrite L2. unfold sub_packet.
    by replace (bh_len b - 3 - 1) with (bh_len b - 4) by lia.
  - destruct (uih_length_long len) as (l & h & El & L1 & L2 & L3 & L4); [lia|].
    subst n. rewrite El in *. simpl in Hp. erewrite parse_data_long; try done.
    change (2 + Z.of_nat (length [l; h])) with 4. rewrite L4. unfold sub_packet.
    by replace (bh_len b - 4 - 1) with (bh_len b - 5) by lia.
Qed.

Lemma check_frame_uih ini f len h3 h2 fcs :
  mx_type f = RFCOMM_UIH -> RFCOMM_VALID_DLCI (mx_dlci f) = true ->
  rfc_check_fcs h2 fcs = true -> rfc_check_frame ini f len h3 h2 fcs = RFC_EVENT_UIH.
Proof. intros T V F. unfold rfc_check_frame. by rewrite T, V, F. Qed.

Lemma uih_length_pos len : (1 <= length (uih_length len))%nat.
Proof. unfold uih_length. destruct (_ <=? _); simpl; lia. Qed.

Lemma parse_uih_plain y f b a body :
  let len := Z.of_nat (length body) in
  let hdr := [a; 0xEF] ++ uih_length len in
  bh_ok b -> bh_payload b = hdr ++ body ++ [rfc_calc_fcs (take 2 hdr)] ->
  Forall is_u8 hdr -> len < 32768 -> nz (a .& 1) = true -> RFCOMM_VALID_DLCI (a .>> 2) = true ->
  exists f' b', rfc_parse_data y f b = Ok (RFC_EVENT_UIH, f', b') /\
    mx_dlci f' = a .>> 2 /\ mx_pf f' = 0 /\ mx_credit f' = 0 /\ bh_payload b' = body.
Proof.
  intros len hdr Hb Hp Hu Hlen Ha Hv.
  pose proof (bh_payload_len b Hb) as Hl. rewrite Hp, !length_app in Hl. simpl in Hl.
  pose proof (uih_length_pos len) as HL.
  erewrite (parse_uih_header y f b a 0xEF len); [|done|by rewrite Hp|by destruct body|lia|done].
  set (n := 2 + Z.of_nat (length (uih_length len))).
  replace (bh_len b - n - 1) with len by (subst n len; lia).
  match goal with |- context [rfc_parse_body _ ?g] => set (f1 := g) end.
  destruct (parse_body_plain y f1 b hdr body (rfc_calc_fcs (take 2 hdr)) n) as [E P]; try done.
  { subst n hdr. rewrite length_app. simpl. lia. }
  { subst n. lia. }
  { unfold carries_credit. simpl. by rewrite andb_false_r. }
  eexists _, _. split; [etrans; [exact E|]; repeat f_equal|done].
  apply check_frame_uih; [done|done|]. apply rfc_check_fcs_calc. by apply Forall_take.
Qed.

Lemma parse_uih_credit y f b a k body :
  let len := Z.of_nat (length body) in
  let hdr := [a; 0xFF] ++ uih_length len in
  bh_ok b -> bh_payload b = hdr ++ k :: body ++ [rfc_calc_fcs (take 2 hdr)] ->
  Forall is_u8 hdr -> len < 32768 -> nz (a .& 1) = true -> RFCOMM_VALID_DLCI (a .>> 2) = true ->
  a .>> 2 <> 0 -> mcb_flow y = PORT_FC_CREDIT ->
  exists f' b', rfc_parse_data y f b = Ok (RFC_EVENT_UIH, f', b') /\
    mx_dlci f' = a .>> 2 /\ mx_pf f' = 1 /\ mx_credit f' = k /\ bh_payload b' = body.
Proof.
  intros len hdr Hb Hp Hu Hlen Ha Hv Hd Hf.
  pose proof (bh_payload_len b Hb) as Hl. rewrite Hp, length_app in Hl. simpl in Hl.
  rewrite length_app in Hl. simpl in Hl. pose proof (uih_length_pos len) as HL.
  erewrite (parse_uih_header y f b a 0xFF len (k :: body ++ _)); [|done|by rewrite Hp|done|lia|done].
  set (n := 2 + Z.of_nat (length (uih_length len))).
  replace (bh_len b - n - 1) with (len + 1) by (subst n len; lia).
  match goal with |- context [rfc_parse_body _ ?g] => set (f1 := g) end.
  destruct (parse_body_credit y f1 b hdr k body (rfc_calc_fcs (take 2 hdr)) n) as [E P]; try done.
  { subst n hdr. rewrite length_app. simpl. lia. }
  { subst n. lia. }
  { unfold carries_credit. simpl. rewrite bool_decide_eq_true_2 by done.
    by destruct (Z.eqb_spec (a .>> 2) 0). }
  eexists _, _. split; [etrans; [exact E|]; repeat f_equal|done].
  apply check_frame_uih; [done|done|]. apply rfc_check_fcs_calc. by apply Forall_take.
Qed.

(** The bytes of a UIH frame, in whatever buffer they arrive, decode to its
    channel, credits and data. *)
Lemma parse_uih ini y f dlci cr body b_rx :
  let hdr := uih_header ini dlci cr (Z.of_nat (length body)) in
  bh_ok b_rx -> bh_payload b_rx = hdr ++ body ++ [rfc_calc_fcs (take 2 hdr)] ->
  is_u8 cr -> RFCOMM_VALID_DLCI dlci = true -> Z.of_nat (length body) < 32768 ->
  (cr <> 0 -> dlci <> 0 /\ mcb_flow y = PORT_FC_CREDIT) ->
  exists f' b', rfc_parse_data y f b_rx = Ok (RFC_EVENT_UIH, f', b') /\
    mx_dlci f' = dlci /\ mx_pf f' = b2z (nz cr) /\ mx_credit f' = cr /\ bh_payload b' = body.
Proof.
  intros hdr Hb Hrx Hc Hv Hlen Hcr. pose proof (valid_dlci_range dlci Hv).
  destruct (addr_octet_spec (ini && true || negb ini && false) dlci) as (A1 & A2 & A3); [lia|].
  pose proof (uih_header_u8 ini dlci cr (Z.of_nat (length body)) Hc) as Hhu.
  unfold hdr, uih_header in *. change (u8 (1 .| RFCOMM_CR ini true .| dlci .<< 2)) with (addr_octet
    (b2z (ini && true || negb ini && false) .<< 1) dlci) in *.
  set (a := addr_octet _ dlci) in *. destruct (nz cr) eqn:Hk.
  - destruct (Hcr (proj1 (nz_true _) Hk)) as [Hd Hf].
    pose proof (parse_uih_credit y f b_rx a cr body) as G.
    rewrite A3 in G. apply G; try done.
    + rewrite Hrx. simpl. by rewrite <- app_assoc.
    + rewrite app_assoc, Forall_app in Hhu. tauto.
  - pose proof (parse_uih_plain y f b_rx a body) as G. rewrite A3 in G.
    rewrite app_nil_r in Hrx, Hhu. apply nz_false in Hk. rewrite Hk. by apply G.
Qed.

(** C29: a UIH frame carries its data and its credits to the peer: for any
    payload of less than 32768 bytes and any number of credits (credits only
    when the multiplexer uses credit based flow control), the peer decodes a
    UIH event for the same DLCI, the same credits and exactly the same bytes. *)
Theorem uih_roundtrip ini y f dlci b :
  is_initiator y = negb ini -> RFCOMM_VALID_DLCI dlci = true ->
  uih_room dlci b -> bh_len b < 32768 ->
  (uih_credits dlci b <> 0 -> mcb_flow y = PORT_FC_CREDIT) ->
  peer_decodes (uih_frame ini dlci b) y f RFC_EVENT_UIH dlci
    (b2z (nz (uih_credits dlci b))) (uih_credits dlci b) (bh_payload b).
Proof.
  intros Hy Hv Hroom Hlen Hcr. eapply returns_mono; [by apply uih_frame_content|].
  intros b_tx [_ Hp] b_rx Hb Hrx. rewrite Hp in Hrx.
  pose proof (bh_payload_len b (proj1 Hroom)) as Hbl. rewrite <- Hbl in *.
  apply (parse_uih ini y f dlci); try done; [apply uih_credits_u8|].
  intros Hne. split; [|by apply Hcr]. intros ->. by destruct Hne.
Qed.

Lemma uih_roundtrip_witness :
  peer_decodes (uih_frame true 2 uih_example) (zero_RFC_MCB <| mcb_flow := PORT_FC_CREDIT |>)
    zero_MX_FRAME RFC_EVENT_UIH 2 1 5 [0x61; 0x62; 0x63].
Proof.
  refine (uih_roundtrip true (zero_RFC_MCB <| mcb_flow := PORT_FC_CREDIT |>) zero_MX_FRAME 2
    uih_example eq_refl eq_refl _ _ (fun _ => eq_refl)).
  - unfold uih_room, bh_ok. split_and!; try (vm_compute; congruence). by apply bytes_ok.
  - reflexivity.
Defined.
