(* ===== verification/RfcInv.v ===== *)
(** * RfcInv: the state invariant and its proof rules

    [inv] is the well-formedness of the whole RFCOMM state: table sizes, handle
    and DLCI ranges, the shape of every queued buffer, the watermarks of the
    queues, and which ports may have passed their security check.  [pres] says
    that an operation keeps it and that, if the operation stops the process, it
    is by a null pointer or a [CHECK], never by an access outside an allocation,
    a division by zero or an exhausted call depth.  [SmOk] is what the functions
    between the two state machines rely on from them. *)

From Stdlib Require Import ZArith Lia.
From stdpp Require Import gmap.
From S2P Require Import Prelude Osi RfcDefs RfcState RfcFrames RfcUtils.

(** ** Definitions *)

(** The two ways an operation may stop the process. *)
Definition allowed (e : crash) : Prop := e = NullDeref \/ e = CheckFailed.

Definition sound {A} (o : outcome A) (Q : A -> Prop) : Prop :=
  match o with Ok a => Q a | Crash e => allowed e end.

(** What the invariant is relative to: the ports that may be in a state only an
    access check leads to, and the largest DLCI of the decoded frame. *)
Record icfg : Type := mk_icfg { auth : nat -> Prop; dmax : Z }.

(** A buffer waiting to be sent leaves room for the headers and the FCS. *)
Definition tx_ok (b : BT_HDR) : Prop :=
  bh_offset b = L2CAP_MIN_OFFSET + RFCOMM_MIN_OFFSET /\ 0 <= bh_len b <= 4085 /\
  length (bh_data b) = 4104%nat /\ Forall is_u8 (bh_data b).

Definition sum_len (l : list BT_HDR) : Z := foldr (fun b n => bh_len b + n) 0 l.

Definition tx_q_ok (q : fixed_queue) (size : Z) : Prop :=
  match q with
  | None => True
  | Some l => Forall tx_ok l /\ (length l <= 16)%nat /\ size = sum_len l
  end.

Definition rx_q_ok (q : fixed_queue) (size : Z) : Prop :=
  match q with
  | None => True
  | Some l => Forall bh_ok l /\ (length l <= 15)%nat /\ size = sum_len l /\
              size <= PORT_RX_CRITICAL_WM
  end.

(** States a port reaches only through a granted access request. *)
Definition auth_state (st : tRFC_PORT_STATE) : Prop :=
  match st with
  | RFC_STATE_SABME_WAIT_UA | RFC_STATE_OPENED | RFC_STATE_DISC_WAIT_UA => True
  | _ => False
  end.

Definition mcb_index (o : option nat) : Prop :=
  match o with Some m => (m < 16)%nat | None => True end.

Definition port_index (o : option nat) : Prop :=
  match o with Some p => (p < 30)%nat | None => True end.

Definition port_ok (c : icfg) (p : nat) (x : tPORT) : Prop :=
  (port_handle x = 0 \/ port_handle x = Z.of_nat p + 1) /\
  0 <= port_dlci x <= RFCOMM_MAX_DLCI /\
  tx_q_ok (pd_queue (tx x)) (queue_size (tx x)) /\
  rx_q_ok (pd_queue (rx x)) (queue_size (rx x)) /\
  mcb_index (p_mcb (rfc x)) /\
  (auth_state (rfc_state (rfc x)) -> auth c p) /\
  (is_u16 (port_mtu x) /\ is_u16 (peer_mtu x) /\ is_u16 (keep_mtu x) /\ is_u16 (credit_tx x)) /\
  0 <= credit_rx x <= PORT_RX_BUF_HIGH_WM /\
  0 <= credit_rx_max x <= PORT_RX_BUF_HIGH_WM /\
  0 <= rx_buf_critical x <= PORT_RX_BUF_CRITICAL_WM.

Definition mcb_ok (y : tRFC_MCB) : Prop :=
  length (port_handles y) = 62%nat /\
  Forall (fun h => 0 <= h <= MAX_RFC_PORTS) (port_handles y) /\
  is_u16 (peer_l2cap_mtu y).

Definition frame_ok (c : icfg) (f : MX_FRAME) : Prop :=
  0 <= mx_dlci f <= dmax c /\ length (mx_u f) = 12%nat /\ Forall is_u8 (mx_u f).

Record inv (c : icfg) (s : rfc_cb) : Prop := mk_inv {
  inv_nports : length (port_tab s) = 30%nat;
  inv_nmcbs : length (rfc_mcb_tab s) = 16%nat;
  inv_port : forall p x, port_tab s !! p = Some x -> port_ok c p x;
  inv_mcb : Forall mcb_ok (rfc_mcb_tab s);
  inv_frame : frame_ok c (rx_frame s);
  inv_last_mux : 0 <= last_mux s;
  inv_lcid : map_Forall (fun _ m => (m < 16)%nat) (rfc_lcid_mcb s);
}.

(** [m] keeps the invariant and its result satisfies [Q]. *)
Definition pres (c : icfg) {A} (m : M A) (Q : A -> Prop) : Prop :=
  forall s, inv c s ->
    match m s with Ok (a, s') => inv c s' /\ Q a | Crash e => allowed e end.

(** The same, when port [p] is known to be [x]. *)
Definition pres_at (c : icfg) (p : nat) (x : tPORT) {A} (m : M A) (Q : A -> Prop) : Prop :=
  forall s, inv c s -> port_tab s !! p = Some x ->
    match m s with Ok (a, s') => inv c s' /\ Q a | Crash e => allowed e end.

Abbreviation T := (fun _ => True) (only parsing).

(** ** The interface of the state machines *)

Definition grants (c : icfg) : Prop := forall p, auth c p.

(** What a caller owes: existing control blocks, well-formed buffers, and a
    success result only when access was granted. *)
Definition call_wf (c : icfg) (call : sm_call) : Prop :=
  match call with
  | MxCall m ev d => (m < 16)%nat /\ ev <> RFC_MX_EVENT_TIMEOUT
  | PortCall p ev d =>
      (p < 30)%nat /\
      match ev, d with
      | RFC_PORT_EVENT_DATA, PBuf b => tx_ok b
      | RFC_PORT_EVENT_UIH, PBuf b => bh_ok b
      | RFC_PORT_EVENT_SEC_COMPLETE, PResult r
      | RFC_PORT_EVENT_ESTABLISH_RSP, PResult r => u8 r = 0 -> grants c
      | _, _ => True
      end
  end.

(** How deep the calls that a call makes can nest, itself included. *)
Definition call_rank (call : sm_call) : nat :=
  match call with
  | MxCall _ (RFC_MX_EVENT_CLOSE_REQ | RFC_MX_EVENT_CONN_IND) _ => 1
  | MxCall _ (RFC_MX_EVENT_START_REQ | RFC_MX_EVENT_START_RSP) _ => 2
  | PortCall _ (RFC_PORT_EVENT_DATA | RFC_PORT_EVENT_ESTABLISH_RSP) _ => 1
  | PortCall _ (RFC_PORT_EVENT_CLOSE | RFC_PORT_EVENT_SEC_COMPLETE) _ => 2
  | _ => 3
  end.

(** What sending data leaves alone: the queues of every port, and its MTU. *)
Definition same_tx (s s' : rfc_cb) : Prop :=
  forall p x', port_tab s' !! p = Some x' -> exists x, port_tab s !! p = Some x /\
    pd_queue (tx x') = pd_queue (tx x) /\ queue_size (tx x') = queue_size (tx x) /\
    peer_mtu x' = peer_mtu x.

(** The state machines keep the invariant in calls of rank at most [k]. *)
Class SmOk `{SmCalls} (c : icfg) (k : nat) : Prop := {
  sm_pres call : call_wf c call -> (call_rank call <= k)%nat -> pres c (sm_exec call) T;
  sm_data p b s u s' :
    sm_exec (PortCall p RFC_PORT_EVENT_DATA (PBuf b)) s = Ok (u, s') -> same_tx s s';
}.

(** * Lemmas *)

Create HintDb pres discriminated.
#[export] Hint Constants Opaque : pres.

(** ** Rules *)

Section Rules.
Context (c : icfg).

Lemma pres_ret {A} (a : A) (Q : A -> Prop) : Q a -> pres c (mret a) Q.
Proof. intros Ha s Hs. by split. Qed.

Lemma pres_bind {A B} (m : M A) (f : A -> M B) (R : A -> Prop) (Q : B -> Prop) :
  pres c m R -> (forall a, R a -> pres c (f a) Q) -> pres c (m ≫= f) Q.
Proof.
  intros Hm Hf s Hs. specialize (Hm s Hs). unfold mbind, M_bind.
  destruct (m s) as [[a s']|e]; [|done]. destruct Hm as [Hs' Ha]. by apply Hf.
Qed.

Lemma pres_mono {A} (m : M A) (R Q : A -> Prop) :
  pres c m R -> (forall a, R a -> Q a) -> pres c m Q.
Proof.
  intros Hm HQ s Hs. specialize (Hm s Hs). destruct (m s) as [[a s']|e]; [|done].
  destruct Hm. auto.
Qed.

Lemma pres_skip : pres c skip T.
Proof. by apply pres_ret. Qed.

Lemma pres_abort {A} e (Q : A -> Prop) : allowed e -> pres c (abort e) Q.
Proof. intros He s Hs. exact He. Qed.

Lemma pres_when b m : (b = true -> pres c m T) -> pres c (when b m) T.
Proof. destruct b; simpl; [auto|intros _; apply pres_skip]. Qed.

Lemma pres_lift {A} (o : outcome A) (Q : A -> Prop) : sound o Q -> pres c (lift o) Q.
Proof. intros Ho s Hs. unfold lift. destruct o; [by split|done]. Qed.

Lemma pres_get : pres c get (inv c).
Proof. intros s Hs. by split. Qed.

Lemma pres_modify f : (forall s, inv c s -> inv c (f s)) -> pres c (modify f) T.
Proof. intros Hf s Hs. split; [by apply Hf|done]. Qed.

Lemma pres_emit o : pres c (emit o) T.
Proof. apply pres_modify. intros s []. by split. Qed.

Lemma pres_get_port p : (p < 30)%nat -> pres c (get_port p) (port_ok c p).
Proof.
  intros Hp s Hs. unfold get_port.
  destruct (lookup_lt_is_Some_2 (port_tab s) p) as [x Hx].
  { rewrite (inv_nports _ _ Hs). lia. }
  rewrite Hx. split; [done|]. by apply (inv_port _ _ Hs).
Qed.

Lemma inv_set_port s p y :
  inv c s -> port_ok c p y -> inv c (s <| port_tab ::= <[p := y]> |>).
Proof.
  intros [H1 H2 H3 H4 H5 H6 H7] Hy. split; simpl; try done.
  - by rewrite length_insert.
  - intros q z. destruct (decide (p = q)) as [->|Hne].
    + intros Hz. destruct (decide (q < length (port_tab s))%nat).
      * rewrite list_lookup_insert_eq in Hz by done. by injection Hz as <-.
      * rewrite list_insert_ge in Hz by lia. by apply H3.
    + rewrite list_lookup_insert_ne by done. apply H3.
Qed.

Lemma pres_upd_port p f :
  (p < 30)%nat -> (forall x, port_ok c p x -> port_ok c p (f x)) -> pres c (upd_port p f) T.
Proof.
  intros Hp Hf s Hs. unfold upd_port.
  destruct (lookup_lt_is_Some_2 (port_tab s) p) as [x Hx].
  { rewrite (inv_nports _ _ Hs). lia. }
  rewrite Hx. split; [|done]. apply inv_set_port; [done|].
  by apply Hf, (inv_port _ _ Hs).
Qed.

Lemma pres_get_mcb m : (m < 16)%nat -> pres c (get_mcb m) mcb_ok.
Proof.
  intros Hp s Hs. unfold get_mcb.
  destruct (lookup_lt_is_Some_2 (rfc_mcb_tab s) m) as [x Hx].
  { rewrite (inv_nmcbs _ _ Hs). lia. }
  rewrite Hx. split; [done|]. eapply Forall_lookup_1; [apply (inv_mcb _ _ Hs)|done].
Qed.

Lemma pres_upd_mcb m f :
  (m < 16)%nat -> (forall x, mcb_ok x -> mcb_ok (f x)) -> pres c (upd_mcb m f) T.
Proof.
  intros Hp Hf s Hs. unfold upd_mcb.
  destruct (lookup_lt_is_Some_2 (rfc_mcb_tab s) m) as [x Hx].
  { rewrite (inv_nmcbs _ _ Hs). lia. }
  rewrite Hx. split; [|done]. destruct Hs as [H1 H2 H3 H4 H5 H6 H7]. split; simpl; try done.
  - by rewrite length_insert.
  - apply Forall_insert; [done|]. apply Hf. by eapply Forall_lookup_1.
Qed.

Lemma pres_port_mcb p : (p < 30)%nat -> pres c (port_mcb p) (fun m => (m < 16)%nat).
Proof.
  intros Hp. eapply pres_bind; [by apply pres_get_port|]. intros x Hx. apply pres_lift.
  destruct Hx as (_ & _ & _ & _ & Hm & _). destruct (p_mcb (rfc x)); [done|by left].
Qed.

Lemma pres_put_port_handle m i h :
  (m < 16)%nat -> 0 <= i <= RFCOMM_MAX_DLCI -> 0 <= h <= MAX_RFC_PORTS ->
  pres c (put_port_handle m i h) T.
Proof.
  intros Hm Hi Hh. unfold put_port_handle.
  destruct ((0 <=? i) && (i <=? RFCOMM_MAX_DLCI)) eqn:E; [|lia].
  apply pres_upd_mcb; [done|]. intros y (H1 & H2 & H3). split_and!; simpl; [|by apply Forall_insert|done].
  by rewrite length_insert.
Qed.

Lemma pres_for_up n i body :
  (forall j, (i <= j < i + n)%nat -> pres c (body j) T) -> pres c (for_up n i body) T.
Proof.
  revert i. induction n as [|n IH]; intros i H; simpl; [apply pres_skip|].
  eapply pres_bind; [apply H; lia|]. intros _ _. apply IH. intros j Hj. apply H. lia.
Qed.

End Rules.


Section Facts.
Context (c : icfg).

Lemma pres_assoc {A B C} (m : M A) (f : A -> M B) (g : B -> M C) Q :
  pres c (m ≫= fun a => f a ≫= g) Q -> pres c ((m ≫= f) ≫= g) Q.
Proof.
  intros H s Hs. specialize (H s Hs). unfold mbind, M_bind in *. by destruct (m s) as [[a s']|e].
Qed.

Lemma pres_ret_bind {A B} (a : A) (f : A -> M B) Q : pres c (f a) Q -> pres c (mret a ≫= f) Q.
Proof. done. Qed.

Lemma pres_drop {A} (m : M A) Q : pres c m Q -> pres c m T.
Proof. intros H. eapply pres_mono; [apply H|done]. Qed.

(** *** Reading a port and using what was read *)

Lemma pres_get_port_at {B} p (k : tPORT -> M B) Q :
  (p < 30)%nat -> (forall x, port_ok c p x -> pres_at c p x (k x) Q) ->
  pres c (get_port p ≫= k) Q.
Proof.
  intros Hp Hk s Hs. unfold mbind, M_bind, get_port.
  destruct (lookup_lt_is_Some_2 (port_tab s) p) as [x Hx].
  { rewrite (inv_nports _ _ Hs). lia. }
  rewrite Hx. apply Hk; [by apply (inv_port _ _ Hs)|done|done].
Qed.

Lemma pres_at_drop {A} p x (m : M A) Q : pres c m Q -> pres_at c p x m Q.
Proof. intros H s Hs _. by apply H. Qed.

Lemma pres_at_upd {B} p x f (k : unit -> M B) Q :
  port_ok c p (f x) -> pres_at c p (f x) (k tt) Q -> pres_at c p x (upd_port p f ≫= k) Q.
Proof.
  intros Hf Hk s Hs Hx. unfold mbind, M_bind, upd_port. rewrite Hx.
  apply Hk; [by apply inv_set_port|]. cbn. apply list_lookup_insert_eq. by eapply lookup_lt_Some.
Qed.

Lemma pres_at_upd_last p x f : port_ok c p (f x) -> pres_at c p x (upd_port p f) T.
Proof.
  intros Hf s Hs Hx. unfold upd_port. rewrite Hx. split; [by apply inv_set_port|done].
Qed.

Lemma pres_at_get {B} p x (k : tPORT -> M B) Q :
  pres_at c p x (k x) Q -> pres_at c p x (get_port p ≫= k) Q.
Proof. intros Hk s Hs Hx. unfold mbind, M_bind, get_port. rewrite Hx. by apply Hk. Qed.

Lemma pres_at_lift {A B} p x (o : outcome A) (k : A -> M B) R Q :
  sound o R -> (forall a, R a -> pres_at c p x (k a) Q) -> pres_at c p x (lift o ≫= k) Q.
Proof.
  intros Ho Hk s Hs Hx. unfold mbind, M_bind, lift. destruct o; [|done]. by apply Hk.
Qed.

Lemma pres_at_when_upd {B} p x (b : bool) f (k : unit -> M B) Q :
  (b = true -> port_ok c p (f x)) -> pres c (k tt) Q ->
  pres_at c p x (when b (upd_port p f) ≫= k) Q.
Proof.
  intros Hf Hk. destruct b; cbn [when].
  - intros s Hs Hx. unfold mbind, M_bind, upd_port. rewrite Hx. apply Hk. by apply inv_set_port, Hf.
  - intros s Hs _. by apply Hk.
Qed.

Lemma pres_at_bind {A B} p x (m : M A) (f : A -> M B) R Q :
  pres_at c p x m R -> (forall a, R a -> pres c (f a) Q) -> pres_at c p x (m ≫= f) Q.
Proof.
  intros Hm Hf s Hs Hx. specialize (Hm s Hs Hx). unfold mbind, M_bind.
  destruct (m s) as [[a s']|e]; [|done]. destruct Hm as [Hs' Ha]. by apply Hf.
Qed.

Lemma pres_at_assoc {A B C} p x (m : M A) (f : A -> M B) (g : B -> M C) Q :
  pres_at c p x (m ≫= fun a => f a ≫= g) Q -> pres_at c p x ((m ≫= f) ≫= g) Q.
Proof.
  intros H s Hs Hx. specialize (H s Hs Hx). unfold mbind, M_bind in *.
  by destruct (m s) as [[a s']|e].
Qed.

Lemma pres_at_ret_bind {A B} p x (a : A) (k : A -> M B) Q :
  pres_at c p x (k a) Q -> pres_at c p x (mret a ≫= k) Q.
Proof. done. Qed.

Lemma port_ok_handle p x : port_ok c p x -> (p < 30)%nat -> 0 <= port_handle x <= 30.
Proof. intros ([H|H] & _) Hp; lia. Qed.

Lemma port_ok_dlci p x : port_ok c p x -> 0 <= port_dlci x <= 61.
Proof. by intros (_ & H & _). Qed.

Lemma port_ok_mcb p x m : port_ok c p x -> p_mcb (rfc x) = Some m -> (m < 16)%nat.
Proof. intros (_ & _ & _ & _ & H & _) E. by rewrite E in H. Qed.

Lemma port_ok_credits p x : port_ok c p x -> 0 <= credit_rx x <= 10 /\ 0 <= credit_rx_max x <= 10.
Proof. intros (_ & _ & _ & _ & _ & _ & _ & H1 & H2 & _). done. Qed.

Lemma port_ok_mtu p x : port_ok c p x -> is_u16 (port_mtu x) /\ is_u16 (peer_mtu x).
Proof. intros (_ & _ & _ & _ & _ & _ & (H1 & H2 & _) & _). done. Qed.

Lemma port_ok_auth p x : port_ok c p x -> auth_state (rfc_state (rfc x)) -> auth c p.
Proof. by intros (_ & _ & _ & _ & _ & H & _). Qed.

End Facts.

(** ** Automation *)

Lemma is_u16_if (b : bool) x y : is_u16 x -> is_u16 y -> is_u16 (if b then x else y).
Proof. by destruct b. Qed.

Lemma is_u8_u16 x : is_u8 x -> is_u16 x.
Proof. unfold is_u8, is_u16. lia. Qed.

Lemma drain_tx_ok q n : tx_q_ok q n -> tx_q_ok (drain q) 0.
Proof. destruct q; cbn; [|done]. intros _. split_and!; [apply Forall_nil|..]; done || lia. Qed.

Lemma drain_rx_ok q n : rx_q_ok q n -> rx_q_ok (drain q) 0.
Proof. destruct q; cbn; [|done]. intros _. split_and!; [apply Forall_nil|..]; done || lia. Qed.

Lemma new_tx_ok : tx_q_ok (Some []) 0.
Proof. exact (drain_tx_ok (Some []) 0 (conj (Forall_nil_2 _) (conj (Nat.le_0_l _) eq_refl))). Qed.

Lemma new_rx_ok : rx_q_ok (Some []) 0.
Proof. cbn. split_and!; [apply Forall_nil|..]; done || lia. Qed.

Lemma dlci_land x : 0 <= x <= 61 -> 0 <= x .& 0xfe <= 61.
Proof.
  intros Hx. assert (H : all_below 62 (fun x => (0 <=? x .& 0xfe) && (x .& 0xfe <=? 61)) = true)
    by (vm_compute; reflexivity).
  apply (all_below_spec 62 _ x) in H; [cbn beta in H; lia|lia].
Qed.

#[export] Hint Resolve is_u16_if is_u8_u16 drain_tx_ok drain_rx_ok new_tx_ok new_rx_ok : rfc.

(** Pointers into the tables. *)
Ltac idx :=
  cbn [port_index mcb_index] in *;
  first [ assumption | lia
        | match goal with
          | E : p_mcb (rfc ?x) = Some ?m, H : port_ok _ _ ?x |- (?m < _)%nat =>
              exact (port_ok_mcb _ _ _ _ H E)
          end ].

Ltac mcb_idx :=
  first [ exact I | assumption
        | match goal with H : port_ok _ _ ?x |- mcb_index (p_mcb (rfc ?x)) => apply H end
        | cbn [mcb_index]; idx ].

(** Records what a control block that was read satisfies. *)
Ltac note H :=
  cbn beta in H;
  match type of H with
  | port_ok ?c ?p ?x =>
      let H1 := fresh "Hdlci" in pose proof (port_ok_dlci c p x H) as H1;
      let H2 := fresh "Hcred" in pose proof (port_ok_credits c p x H) as H2;
      let H3 := fresh "Hmtu" in pose proof (port_ok_mtu c p x H) as H3;
      try (let H4 := fresh "Hhandle" in
           pose proof (port_ok_handle c p x H ltac:(idx)) as H4)
  | port_index _ /\ _ => destruct H as [H ?]; cbn [port_index mcb_index] in *
  | _ => cbn [port_index mcb_index] in *
  end.

(** [port_ok] of an updated port: either no field of interest changed, or each
    conjunct is shown in turn. *)
Ltac range_tac :=
  repeat match goal with |- context [if ?b then _ else _] => destruct b eqn:? end; lia.

Ltac port_split H :=
  let H1 := fresh in let H2 := fresh in let H3 := fresh in let H4 := fresh in
  let H5 := fresh in let H6 := fresh in let H7 := fresh in let H8 := fresh in
  let H9 := fresh in let H10 := fresh in let H11 := fresh in let H12 := fresh in
  let H13 := fresh in
  destruct H as (H1 & H2 & H3 & H4 & H5 & H6 & (H7 & H11 & H12 & H13) & H8 & H9 & H10);
  let H14 := fresh in pose proof (dlci_land _ H2) as H14;
  unfold port_ok; cbn -[Z.add Z.sub Z.land Z.ldiff Z.lor Z.ltb Z.eqb Z.of_nat u8 u16 u32];
  split_and!; try first [assumption | tauto | lia | by eauto with rfc | range_tac].

Ltac port_tac :=
  let x := fresh "x" in let H := fresh "H" in
  intros x H; first [exact H | port_split H].

Ltac mcb_tac :=
  let y := fresh "y" in let H := fresh "H" in
  intros y H;
  first [ exact H
        | destruct H as (?&?&?); unfold mcb_ok; cbn -[Z.add Z.sub u16]; split_and!;
          try first [assumption | lia | by auto with rfc] ].

#[export] Hint Resolve pres_skip pres_emit : pres.
#[export] Hint Extern 1 (_ < _)%nat => idx : pres.
#[export] Hint Extern 1 (_ <= _)%nat => lia : pres.
#[export] Hint Extern 1 (_ <= _ <= _) => lia : pres.
#[export] Hint Extern 1 (Z.le _ _) => lia : pres.
#[export] Hint Extern 1 (mcb_index _) => mcb_idx : pres.
#[export] Hint Extern 1 (is_u16 _) => first [assumption | unfold is_u16; lia] : pres.
#[export] Hint Extern 0 (SmOk _ _) => first [eassumption | typeclasses eauto] : pres.

(** One operation. *)
Ltac pres_op :=
  lazymatch goal with
  | |- pres _ (get_port _) _ => apply pres_get_port; idx
  | |- pres _ (get_mcb _) _ => apply pres_get_mcb; idx
  | |- pres _ (port_mcb _) _ => apply pres_port_mcb; idx
  | |- pres _ get _ => apply pres_get
  | |- pres _ (upd_port _ _) _ => apply pres_upd_port; [idx|try solve [port_tac | intros; eauto with rfc]]
  | |- pres _ (upd_mcb _ _) _ => apply pres_upd_mcb; [idx|try solve [mcb_tac]]
  | |- pres _ (put_port_handle _ _ _) _ => apply pres_put_port_handle; [idx|try lia..]
  | |- pres _ (abort _) _ => apply pres_abort; by (left || right)
  | |- pres _ _ _ => first [solve [eauto 3 with pres] | eapply pres_drop; solve [eauto 3 with pres]]
  end.

(** One step of a function body. *)
Ltac pres_step :=
  lazymatch goal with
  | |- pres _ (mret _) _ => apply pres_ret; try done
  | |- pres _ skip _ => apply pres_ret; try done
  | |- pres _ (mret _ ≫= _) _ => apply pres_ret_bind; cbn beta
  | |- pres _ ((_ ≫= _) ≫= _) _ => apply pres_assoc
  | |- pres _ (match ?x with _ => _ end ≫= _) _ => let E := fresh "E" in destruct x eqn:E
  | |- pres _ (when _ _ ≫= _) _ =>
      eapply pres_bind; [apply pres_when; intros ?|intros _ _]
  | |- pres _ (_ ≫= _) _ =>
      eapply pres_bind; [pres_op|let a := fresh "a" in let H := fresh "H" in intros a H; note H]
  | |- pres _ (when _ _) _ => apply pres_when; intros ?
  | |- pres _ (match ?x with _ => _ end) _ => let E := fresh "E" in destruct x eqn:E
  | |- pres _ _ _ => pres_op
  end.

Ltac pres := repeat pres_step.
