(* ===== verification/RfcInvBase.v ===== *)
(** * RfcInvBase: the frame layer and the tables keep the invariant

    Every [rfc_send_*] function and every function of [RfcUtils] preserves
    [inv]; building a frame stays inside its buffer. *)

From Stdlib Require Import ZArith Lia.
From stdpp Require Import gmap.
From S2P Require Import Prelude RfcFcs Osi RfcDefs RfcState RfcFrames RfcFramesProps RfcUtils.
From S2P Require Import RfcInv.

(** ** Building frames is sound *)

(** A received packet is followed by its FCS octet. *)
Definition rx_tail (b : BT_HDR) : Prop :=
  bh_ok b /\ bh_offset b + bh_len b + 1 <= Z.of_nat (length (bh_data b)) /\
  bh_offset b + bh_len b + 1 < 65536.

Lemma returns_sound {A} (o : outcome A) Q : returns o Q -> sound o Q.
Proof. by destruct o. Qed.

Lemma ctrl_frame_sound cr dlci control : sound (ctrl_frame cr dlci control) T.
Proof.
  apply returns_sound. eapply returns_mono; [apply ctrl_frame_content|done].
Qed.

Lemma mx_cmd_room bytes :
  Forall is_u8 bytes -> (length bytes <= 127)%nat -> returns (mx_cmd bytes) (uih_room 0).
Proof.
  intros Hu Hl. unfold mx_cmd.
  pose proof (osi_malloc_length 660 ltac:(lia)) as Hm. pose proof (osi_malloc_u8 660) as Hz.
  eapply returns_bind; [apply bh_write_slices; cbn [set set_bh_offset bh_data bh_offset]; try done; lia|].
  intros b (d & -> & Hd & Hdu & _). apply returns_ret.
  unfold uih_room, bh_ok, uih_credits. cbn [set set_bh_offset set_bh_data set_bh_len bh_data bh_offset
    bh_len bh_layer_specific] in *.
  destruct (Z.ltb_spec 127 (Z.of_nat (length bytes))); [lia|].
  change (b2z false) with 0. change (b2z (nz (if nz 0 then _ else 0))) with 0.
  rewrite Hd. split_and!; try done; lia.
Qed.

Ltac cmd_room := apply returns_sound, mx_cmd_room;
  [solve_Forall; auto with rfc; try (unfold is_u8; lia)|simpl; lia].

Lemma pn_cmd_room pr dlci is_command mtu cl k : sound (pn_cmd pr dlci is_command mtu cl k) (uih_room 0).
Proof. unfold pn_cmd. destruct is_command; cmd_room. Qed.

Lemma fcon_cmd_room is_command : sound (fcon_cmd is_command) (uih_room 0).
Proof. unfold fcon_cmd. cmd_room. Qed.

Lemma fcoff_cmd_room is_command : sound (fcoff_cmd is_command) (uih_room 0).
Proof. unfold fcoff_cmd. cmd_room. Qed.

Lemma msc_cmd_room dlci is_command p : sound (msc_cmd dlci is_command p) (uih_room 0).
Proof. unfold msc_cmd. destruct (nz (break_signal p)); cmd_room. Qed.

Lemma rls_cmd_room dlci is_command st : sound (rls_cmd dlci is_command st) (uih_room 0).
Proof. unfold rls_cmd. cmd_room. Qed.

Lemma nsc_cmd_room f : sound (nsc_cmd f) (uih_room 0).
Proof. unfold nsc_cmd. cmd_room. Qed.

Lemma rpn_cmd_room dlci is_command p mask : sound (rpn_cmd dlci is_command p mask) (uih_room 0).
Proof. unfold rpn_cmd. destruct p; cmd_room. Qed.

Lemma test_cmd_room is_command b :
  rx_tail b -> 2 <= bh_offset b -> bh_len b <= 256 -> sound (test_cmd is_command b) (uih_room 0).
Proof.
  intros ((Ho & Hl & Hd & H16 & Hu) & Ht & Ht16) H2 H256. apply returns_sound. unfold test_cmd.
  eapply returns_bind with (R := fun b' => rx_tail b' /\ 20 <= bh_offset b' /\ bh_len b' = bh_len b).
  { destruct (Z.ltb_spec (bh_offset b) (13 + 5 + 2)).
    - rewrite bh_read_bytes_ok by lia. cbn beta zeta. unfold mbind at 1, outcome_bind at 1.
      set (sz := bh_len b + (13 + 5 + 2 + sizeof_BT_HDR + 1)).
      assert (Hsz : sz = bh_len b + 29) by (unfold sz, sizeof_BT_HDR; lia).
      pose proof (osi_malloc_length sz ltac:(lia)) as Hm. pose proof (osi_malloc_u8 sz) as Hz.
      pose proof (length_slice (bh_data b) (bh_offset b) (bh_len b) Ho Hl Hd) as Hs.
      eapply returns_mono.
      + apply bh_write_slices; cbn [set set_bh_offset set_bh_len bh_data bh_offset]; try done; try lia.
        unfold slice. by apply Forall_take, Forall_drop.
      + intros b' (d & -> & Hdl & Hdu & _). unfold rx_tail, bh_ok.
        cbn [set set_bh_offset set_bh_len set_bh_data bh_data bh_offset bh_len] in *.
        split_and!; try done; lia.
    - apply returns_ret. unfold rx_tail, bh_ok. split_and!; done || lia. }
  intros b1 (((Ho1 & Hl1 & Hd1 & H161 & Hu1) & Ht1 & Ht161) & H20 & Hlen).
  cbn beta zeta.
  eapply returns_bind; [apply bh_write_slices;
    cbn [set set_bh_offset bh_data bh_offset bh_len]; rewrite ?u16_small by lia; try done|].
  1-2: simpl; lia.
  { solve_Forall; auto with rfc. }
  intros b2 (d & -> & Hdl & Hdu & _). apply returns_ret. unfold uih_room, bh_ok, uih_credits.
  cbn [set set_bh_offset set_bh_len set_bh_data bh_data bh_offset bh_len bh_layer_specific] in *.
  rewrite !u16_small by lia.
  change (b2z (nz (if nz 0 then _ else 0))) with 0.
  destruct (Z.ltb_spec 127 (bh_len b1 + 2)); simpl b2z; split_and!; try done; lia.
Qed.

Lemma credit_frame_returns ini dlci credit : returns (credit_frame ini dlci credit) T.
Proof.
  unfold credit_frame.
  pose proof (osi_malloc_length 660 ltac:(lia)) as Hm.
  eapply returns_bind; [apply bh_write_ok; cbn [set set_bh_offset bh_data bh_offset]; simpl length; lia|].
  intros b (d & -> & _ & Hd). cbn [set set_bh_offset set_bh_data bh_data bh_offset] in *.
  rewrite bh_read_bytes_ok by (cbn [set set_bh_offset set_bh_data bh_data]; lia).
  unfold mbind at 1, outcome_bind at 1.
  eapply returns_bind; [apply bh_write_ok; cbn [set set_bh_offset set_bh_data bh_data]; simpl length; lia|].
  intros b' _. by apply returns_ret.
Qed.

Lemma tx_ok_room dlci b v : tx_ok b -> uih_room dlci (b <| bh_layer_specific := v |>).
Proof.
  intros (Ho & Hl & Hd & Hu). unfold uih_room, bh_ok.
  cbn [set set_bh_layer_specific bh_data bh_offset bh_len bh_layer_specific].
  rewrite Ho, Hd. pose proof (uih_credits_u8 dlci (b <| bh_layer_specific := v |>)).
  destruct (127 <? bh_len b), (nz (uih_credits dlci _)); cbn [b2z]; split_and!; try done; lia.
Qed.

(** ** Sending *)

Section Send.
Context (c : icfg).

Lemma send_cmd_loop_ok fuel m s y :
  inv c s -> (m < 16)%nat -> rfc_mcb_tab s !! m = Some y ->
  (Z.to_nat (fixed_queue_length (cmd_q y)) < fuel)%nat ->
  match send_cmd_loop fuel m s with Ok (_, s') => inv c s' | Crash _ => False end.
Proof.
  revert s y. induction fuel as [|fuel IH]; intros s y Hs Hm Hy Hf; [lia|].
  cbn [send_cmd_loop]. unfold mbind, M_bind, get_mcb at 1. rewrite Hy.
  destruct (l2cap_congested y); [done|].
  destruct (fixed_queue_try_dequeue (cmd_q y)) as [[b q]|] eqn:Eq; [|done].
  unfold upd_mcb. rewrite Hy. cbn [emit modify].
  apply fixed_queue_dequeue_spec in Eq as (l & El & ->).
  apply (IH _ (y <| cmd_q := Some l |>)).
  - destruct Hs as [H1 H2 H3 H4 H5 H6 H7]. split; cbn; try done.
    + by rewrite length_insert.
    + apply Forall_insert; [done|]. exact (Forall_lookup_1 _ _ _ _ H4 Hy).
  - done.
  - cbn. apply list_lookup_insert_eq. by eapply lookup_lt_Some.
  - rewrite El in Hf. cbn in Hf |- *. lia.
Qed.

Lemma pres_rfc_check_send_cmd m b : (m < 16)%nat -> pres c (rfc_check_send_cmd m b) T.
Proof.
  intros Hm. unfold rfc_check_send_cmd. eapply pres_bind with (R := T).
  { destruct b as [b|]; [|apply pres_skip]. pres_step. eapply pres_bind with (R := T).
    - apply pres_lift. destruct (cmd_q a); [done|by right].
    - intros q _. apply pres_upd_mcb; [done|mcb_tac]. }
  intros _ _ s Hs. unfold mbind, M_bind, get_mcb at 1.
  destruct (lookup_lt_is_Some_2 (rfc_mcb_tab s) m) as [y Hy].
  { rewrite (inv_nmcbs _ _ Hs). lia. }
  rewrite Hy.
  pose proof (send_cmd_loop_ok (S (Z.to_nat (fixed_queue_length (cmd_q y)))) m s y Hs Hm Hy ltac:(lia)).
  by destruct (send_cmd_loop _ _ _) as [[? ?]|].
Qed.

Hint Resolve pres_rfc_check_send_cmd : pres.

Ltac send_ctrl := intros Hm; pres_step; eapply pres_bind;
  [apply pres_lift, ctrl_frame_sound|intros ? _; by apply pres_rfc_check_send_cmd].

Lemma pres_rfc_send_sabme m dlci : (m < 16)%nat -> pres c (rfc_send_sabme m dlci) T.
Proof. unfold rfc_send_sabme, sabme_frame. send_ctrl. Qed.

Lemma pres_rfc_send_ua m dlci : (m < 16)%nat -> pres c (rfc_send_ua m dlci) T.
Proof. unfold rfc_send_ua, ua_frame. send_ctrl. Qed.

Lemma pres_rfc_send_dm m dlci pf : (m < 16)%nat -> pres c (rfc_send_dm m dlci pf) T.
Proof. unfold rfc_send_dm, dm_frame. send_ctrl. Qed.

Lemma pres_rfc_send_disc m dlci : (m < 16)%nat -> pres c (rfc_send_disc m dlci) T.
Proof. unfold rfc_send_disc, disc_frame. send_ctrl. Qed.

Lemma pres_rfc_send_credit m dlci k : (m < 16)%nat -> pres c (rfc_send_credit m dlci k) T.
Proof.
  intros Hm. unfold rfc_send_credit. pres_step. eapply pres_bind.
  - apply pres_lift, returns_sound, credit_frame_returns.
  - intros ? _. by apply pres_rfc_check_send_cmd.
Qed.

Lemma pres_rfc_send_buf_uih m dlci b :
  (m < 16)%nat -> uih_room dlci b -> pres c (rfc_send_buf_uih m dlci b) T.
Proof.
  intros Hm Hb. unfold rfc_send_buf_uih. pres_step. eapply pres_bind with (R := T).
  - apply pres_lift, returns_sound. eapply returns_mono; [by apply uih_frame_content|done].
  - intros ? _. pres.
Qed.

Ltac send_mx L := intros Hm; try (pres_step; []); eapply pres_bind;
  [apply pres_lift, L|intros ? ?; by apply pres_rfc_send_buf_uih].

Lemma pres_rfc_send_pn m dlci is_command mtu cl k :
  (m < 16)%nat -> pres c (rfc_send_pn m dlci is_command mtu cl k) T.
Proof. unfold rfc_send_pn. send_mx pn_cmd_room. Qed.

Lemma pres_rfc_send_fcon m is_command : (m < 16)%nat -> pres c (rfc_send_fcon m is_command) T.
Proof. unfold rfc_send_fcon. send_mx fcon_cmd_room. Qed.

Lemma pres_rfc_send_fcoff m is_command : (m < 16)%nat -> pres c (rfc_send_fcoff m is_command) T.
Proof. unfold rfc_send_fcoff. send_mx fcoff_cmd_room. Qed.

Lemma pres_rfc_send_msc m dlci is_command p :
  (m < 16)%nat -> pres c (rfc_send_msc m dlci is_command p) T.
Proof. unfold rfc_send_msc. send_mx msc_cmd_room. Qed.

Lemma pres_rfc_send_rls m dlci is_command st :
  (m < 16)%nat -> pres c (rfc_send_rls m dlci is_command st) T.
Proof. unfold rfc_send_rls. send_mx rls_cmd_room. Qed.

Lemma pres_rfc_send_nsc m : (m < 16)%nat -> pres c (rfc_send_nsc m) T.
Proof. unfold rfc_send_nsc. send_mx nsc_cmd_room. Qed.

Lemma pres_rfc_send_rpn m dlci is_command p mask :
  (m < 16)%nat -> pres c (rfc_send_rpn m dlci is_command p mask) T.
Proof. unfold rfc_send_rpn. send_mx rpn_cmd_room. Qed.

Lemma pres_rfc_send_test m is_command b :
  (m < 16)%nat -> rx_tail b -> 2 <= bh_offset b -> bh_len b <= 256 ->
  pres c (rfc_send_test m is_command b) T.
Proof.
  intros Hm Hb H2 Hl. eapply pres_bind; [apply pres_lift, test_cmd_room; done|].
  intros ? ?. by apply pres_rfc_send_buf_uih.
Qed.

End Send.

#[export] Hint Resolve tx_ok_room pres_rfc_check_send_cmd pres_rfc_send_sabme pres_rfc_send_ua pres_rfc_send_dm
  pres_rfc_send_disc pres_rfc_send_credit pres_rfc_send_buf_uih pres_rfc_send_pn pres_rfc_send_fcon
  pres_rfc_send_fcoff pres_rfc_send_msc pres_rfc_send_rls pres_rfc_send_nsc pres_rfc_send_rpn : pres.
