(* ===== verification/RfcMxMsgs.v ===== *)
(** * RfcMxMsgs: multiplexer commands, from the sender to the peer's handler

    The commands [rfc_send_pn], [rfc_send_msc], [rfc_send_rpn] and [rfc_send_rls]
    build reach the handler of the same name at the peer with the values they
    were built from. *)

From Stdlib Require Import ZArith Lia.
From stdpp Require Import gmap.
From S2P Require Import Prelude RfcFcs Osi RfcDefs RfcState RfcFrames RfcFramesProps RfcUtils.
From S2P Require Import PortRfc RfcMxFsm RfcPortFsm RfcL2capIf RfcInv RfcInvBase RfcRun.

(** In whatever buffer the command [o] arrives, [P] holds of it. *)
Definition arrives (o : outcome BT_HDR) (P : BT_HDR -> Prop) : Prop :=
  returns o (fun b_tx => forall b_rx, bh_ok b_rx -> bh_payload b_rx = bh_payload b_tx -> P b_rx).

(** [s] with the decoded frame replaced. *)
Definition with_frame (f : MX_FRAME) (s : rfc_cb) : rfc_cb := s <| rx_frame := f |>.

(** The flow control, modem signal and break fields of a control message. *)
Definition same_ctrl (p q : tPORT_CTRL) : Prop :=
  modem_signal p = modem_signal q /\ break_signal p = break_signal q /\ ctrl_fc p = ctrl_fc q.

(** The parameters of a remote port negotiation, each in the range of its field. *)
Definition rpn_range (p : tPORT_STATE) : Prop :=
  is_u8 (baud_rate p) /\ 0 <= byte_size p < 4 /\ 0 <= stop_bits p < 2 /\ 0 <= parity p < 2 /\
  0 <= parity_type p < 4 /\ 0 <= fc_type p < 64 /\ is_u8 (xon_char p) /\ is_u8 (xoff_char p).

(** The messages with parameters that one side sends: [mx_bytes] builds them. *)
Inductive mx_message : Type :=
| MxPn (pr dlci : Z) (is_command : bool) (mtu cl k : Z)
| MxMsc (dlci : Z) (is_command : bool) (pars : tPORT_CTRL)
| MxRpn (dlci : Z) (is_command : bool) (pars : option tPORT_STATE) (mask : Z)
| MxRls (dlci : Z) (is_command : bool) (status : Z).

Definition mx_bytes (msg : mx_message) : outcome BT_HDR :=
  match msg with
  | MxPn pr dlci is_command mtu cl k => pn_cmd pr dlci is_command mtu cl k
  | MxMsc dlci is_command pars => msc_cmd dlci is_command pars
  | MxRpn dlci is_command pars mask => rpn_cmd dlci is_command pars mask
  | MxRls dlci is_command status => rls_cmd dlci is_command status
  end.

(** Values in the range of their fields; bit 0 of a line status is the error flag itself. *)
Definition mx_valid (msg : mx_message) : Prop :=
  match msg with
  | MxPn _ dlci _ mtu cl k =>
      2 <= dlci <= RFCOMM_MAX_DLCI /\ RFCOMM_MIN_MTU <= mtu <= RFCOMM_MAX_MTU /\ 0 <= k <= 7 /\
      (cl = RFCOMM_PN_CONV_LAYER_TYPE_1 \/ cl = RFCOMM_PN_CONV_LAYER_CBFC_I \/ cl = RFCOMM_PN_CONV_LAYER_CBFC_R)
  | MxMsc dlci _ pars => 2 <= dlci <= RFCOMM_MAX_DLCI /\ 0 <= modem_signal pars < 16 /\ 0 <= break_signal pars < 16
  | MxRpn dlci _ pars mask =>
      2 <= dlci <= RFCOMM_MAX_DLCI /\ (forall p, pars = Some p -> rpn_range p) /\ is_u16 mask /\ mask .& RFCOMM_RPN_PM_MASK = mask
  | MxRls dlci _ status => 2 <= dlci <= RFCOMM_MAX_DLCI /\ is_u8 status /\ status .& 1 = 0
  end.

(** In the buffer [b] the message reaches its handler with the values it was built from. *)
Definition mx_received `{RfcEnv} `{SmCalls} (m : nat) (s : rfc_cb) (msg : mx_message) (b : BT_HDR) : Prop :=
  match msg with
  | MxPn _ dlci is_command mtu cl k => exists f,
      rfc_process_mx_message m b s = rfc_process_pn m is_command (with_frame f s) /\
      mx_dlci f = dlci /\ pn_mtu f = mtu /\ pn_conv_layer f = cl /\ pn_k f = k
  | MxMsc dlci is_command pars => exists f,
      rfc_process_mx_message m b s = rfc_process_msc m is_command (with_frame f s) /\
      mx_dlci f = dlci /\ same_ctrl (msc_pars f) pars
  | MxRpn dlci is_command pars mask => exists f,
      rfc_process_mx_message m b s =
        rfc_process_rpn m is_command (match pars with None => true | Some _ => false end) (with_frame f s) /\
      mx_dlci f = dlci /\
      forall p, pars = Some p ->
        rpn_param_mask f = mask /\ rpn_baud_rate f = baud_rate p /\ rpn_byte_size f = byte_size p /\
        rpn_stop_bits f = stop_bits p /\ rpn_parity f = parity p /\ rpn_parity_type f = parity_type p /\
        rpn_fc_type f = fc_type p /\ rpn_xon_char f = xon_char p /\ rpn_xoff_char f = xoff_char p
  | MxRls dlci is_command status => exists f,
      rfc_process_mx_message m b s = rfc_process_rls m is_command (with_frame f s) /\
      mx_dlci f = dlci /\ rls_line_status f = status
  end.

(** * Lemmas *)

Lemma mx_cmd_payload bytes :
  Forall is_u8 bytes -> (length bytes <= 127)%nat ->
  returns (mx_cmd bytes) (fun b => bh_payload b = bytes).
Proof.
  intros Hu Hl. unfold mx_cmd.
  pose proof (osi_malloc_length 660 ltac:(lia)) as Hm. pose proof (osi_malloc_u8 660) as Hz.
  eapply returns_bind; [apply bh_write_slices; cbn [set set_bh_offset bh_data bh_offset]; try done; lia|].
  intros b (d & -> & Hd & Hdu & Hs & _). apply returns_ret. exact Hs.
Qed.

Lemma arrives_cmd bytes P :
  Forall is_u8 bytes -> (length bytes <= 127)%nat ->
  (forall b, bh_ok b -> bh_payload b = bytes -> P b) -> arrives (mx_cmd bytes) P.
Proof.
  intros Hu Hl HP. eapply returns_mono; [by apply mx_cmd_payload|].
  intros b Hb b_rx Hok E. apply HP; [done|congruence].
Qed.

Lemma read_at b l i v pos :
  bh_ok b -> bh_payload b = l -> pos = bh_offset b + Z.of_nat i -> l !! i = Some v -> bh_read b pos = Ok v.
Proof.
  intros Hb <- -> Hi. apply bh_read_payload; [by apply bh_ok_wf|lia|by rewrite Nat2Z.id].
Qed.

(** The header of a message: type and one length octet. *)
Lemma mx_header_spec f b t n body :
  bh_ok b -> bh_payload b = t :: u8 (RFCOMM_EA .| (n .<< 1)) :: body -> n = Z.of_nat (length body) ->
  n <= 127 -> nz (t .& 1) = true ->
  mx_header f b = Ok (f <| mx_ea := t .& 1 |> <| mx_cr := (t .& 2) .>> 1 |> <| mx_type := t .&~ 3 |>,
                      Some (bh_offset b + 2, n, n)).
Proof.
  intros Hb Hp Hn H127 Ht. pose proof (bh_payload_len b Hb) as Hl. rewrite Hp in Hl. cbn [length] in Hl.
  assert (Hlen : all_below 128 (fun n => nz (u8 (1 .| (n .<< 1)) .& 1) && (u8 (1 .| (n .<< 1)) .>> 1 =? n)) = true)
    by (vm_compute; reflexivity).
  apply (all_below_spec 128 _ n) in Hlen; [|lia]. cbn beta in Hlen. apply andb_true_iff in Hlen as [H1 H2].
  unfold mx_header. destruct (bh_len b <? 2) eqn:E; [exfalso; lia|].
  rewrite (read_at b _ 0 t (bh_offset b) Hb Hp) by (done || lia). cbn [mbind outcome_bind].
  cbn [set set_mx_ea set_mx_cr set_mx_type mx_ea]. rewrite Ht.
  replace (nz (bh_len b)) with true by (symmetry; apply nz_true; lia). cbn [negb orb].
  rewrite (read_at b _ 1 (u8 (1 .| (n .<< 1))) (bh_offset b + 1) Hb Hp) by (done || lia). cbn [mbind outcome_bind].
  rewrite H1. cbn [negb andb mbind outcome_bind mret outcome_ret].
  replace (u8 (1 .| (n .<< 1)) .>> RFCOMM_SHIFT_LENGTH1) with n by lia.
  replace (bh_len b - 1 - 1) with n by lia. replace (bh_offset b + 1 + 1) with (bh_offset b + 2) by lia.
  by rewrite Z.eqb_refl.
Qed.

(** Storing into the union and reading back. *)
Lemma u_twelve (l : list Z) : length l = 12%nat ->
  exists a b c d e f g h i j k m, l = [a; b; c; d; e; f; g; h; i; j; k; m].
Proof.
  intros E. do 12 (destruct l as [|? l]; [done|]). destruct l; [|done]. by repeat eexists.
Qed.

Lemma word_join v : is_u16 v -> u8 v + (u8 (v .>> 8) .<< 8) = v.
Proof.
  intros Hv. unfold is_u16 in Hv. rewrite Z.shiftl_mul_pow2, Z.shiftr_div_pow2 by lia. unfold u8.
  change (2 ^ 8) with 256. rewrite (Z.mod_small (v / 256)).
  - pose proof (Z.div_mod v 256 ltac:(lia)). lia.
  - split; [apply Z.div_pos; lia|apply Z.div_lt_upper_bound; lia].
Qed.

Lemma low_byte v : u8 (v .& 0xFF) = u8 v.
Proof. unfold u8. change 0xFF with (Z.ones 8). rewrite Z.land_ones by lia. by rewrite Z.mod_mod. Qed.

(** The header reaches the handler of its type. *)
Section Messages.
Context `{RfcEnv} `{SmCalls}.

Lemma process_message m b t n body s :
  bh_ok b -> bh_payload b = t :: u8 (RFCOMM_EA .| (n .<< 1)) :: body -> n = Z.of_nat (length body) ->
  n <= 127 -> nz (t .& 1) = true ->
  rfc_process_mx_message m b s =
    mx_dispatch m b (bh_offset b + 2) n n (with_frame ((rx_frame s) <| mx_ea := t .& 1 |>
      <| mx_cr := (t .& 2) .>> 1 |> <| mx_type := t .&~ 3 |>) s).
Proof.
  intros Hb Hp Hn H127 Ht. unfold rfc_process_mx_message, get_frame, mbind at 1, M_bind at 1, mbind at 1, M_bind at 1, get.
  cbn [mret M_ret]. unfold lift, mbind at 1, M_bind at 1.
  by rewrite (mx_header_spec (rx_frame s) b t n body Hb Hp Hn H127 Ht).
Qed.

(** Reads the octets of a value at their positions. *)
Ltac reads Hb Hp :=
  repeat match goal with
  | |- context [bh_read ?b ?pos] =>
      let k := match pos with
               | _ + ?x + ?y => eval vm_compute in (Z.to_nat (x + y))
               | _ + ?x => eval vm_compute in (Z.to_nat x)
               end in
      erewrite (read_at b _ k _ pos Hb Hp); [|lia|reflexivity];
      cbn [mbind outcome_bind]
  end.

(** The fields of the union after the stores of a message. *)
Ltac union_fields Hu :=
  let E := fresh "E" in
  destruct (u_twelve _ Hu) as (? & ? & ? & ? & ? & ? & ? & ? & ? & ? & ? & ? & E);
  unfold pn_mtu, pn_conv_layer, pn_k, msc_signals, msc_break_present, msc_break_duration, rls_line_status,
    rpn_is_request, rpn_baud_rate, rpn_byte_size, rpn_stop_bits, rpn_parity, rpn_parity_type, rpn_fc_type,
    rpn_xon_char, rpn_xoff_char, rpn_param_mask, u_word, u_byte, set_u16, set_u, with_frame;
  cbn [set set_rx_frame rx_frame set_mx_u set_mx_dlci set_mx_ea set_mx_cr set_mx_type mx_u mx_dlci mx_cr mx_type]; rewrite E;
  cbn [insert list_insert nth].

Lemma dispatch_pn m b p f s :
  mx_type (rx_frame s) = RFCOMM_MX_PN -> mx_read_pn (rx_frame s) b p = Ok f -> mx_bad_pn f = false ->
  mx_dispatch m b p 8 8 s = rfc_process_pn m (nz (mx_cr (rx_frame s))) (with_frame f s).
Proof.
  intros Ht Hr Hbad. unfold mx_dispatch, get_frame. rewrite run_assoc. unfold mbind at 1, M_bind at 1, get.
  rewrite run_ret, Ht. cbn [Z.eqb negb]. unfold lift, mbind at 1, M_bind at 1. rewrite Hr.
  unfold put_frame, modify, mbind at 1, M_bind at 1. by rewrite Hbad.
Qed.

Lemma pn_octets mtu cl k dlci :
  0 <= dlci <= 63 -> is_u16 mtu -> cl = 0 \/ cl = 0xF0 \/ cl = 0xE0 -> 0 <= k <= 7 ->
  u8 dlci .& 0x3F = dlci /\ u8 (u8 (0 .| cl) .& 0xF0) = cl /\ u8 (u8 k .& 7) = k /\
  u8 (u8 (mtu .& 255) + (u8 (mtu .>> 8) .<< 8)) +
    (u8 ((u8 (mtu .& 255) + (u8 (mtu .>> 8) .<< 8)) .>> 8) .<< 8) = mtu.
Proof.
  intros Hd Hm Hcl Hk. split_and!.
  - assert (E : all_below 64 (fun d => u8 d .& 0x3F =? d) = true) by (vm_compute; reflexivity).
    apply (all_below_spec 64 _ dlci) in E; [cbn beta in E; lia|lia].
  - by destruct Hcl as [->|[->| ->]].
  - assert (E : all_below 8 (fun k => u8 (u8 k .& 7) =? k) = true) by (vm_compute; reflexivity).
    apply (all_below_spec 8 _ k) in E; [cbn beta in E; lia|lia].
  - by rewrite low_byte, !word_join by (rewrite ?word_join by done; done).
Qed.

(** Parameter negotiation: the PN command or response for a channel reaches
    [rfc_process_pn] of the peer with the channel, frame size, convergence layer
    and initial credits it was sent with. *)
Lemma pn_roundtrip m pr dlci is_command mtu cl k s :
  2 <= dlci <= RFCOMM_MAX_DLCI -> RFCOMM_MIN_MTU <= mtu <= RFCOMM_MAX_MTU ->
  cl = RFCOMM_PN_CONV_LAYER_TYPE_1 \/ cl = RFCOMM_PN_CONV_LAYER_CBFC_I \/ cl = RFCOMM_PN_CONV_LAYER_CBFC_R ->
  0 <= k <= 7 -> length (mx_u (rx_frame s)) = 12%nat ->
  arrives (pn_cmd pr dlci is_command mtu cl k) (fun b => exists f,
    rfc_process_mx_message m b s = rfc_process_pn m is_command (with_frame f s) /\
    mx_dlci f = dlci /\ pn_mtu f = mtu /\ pn_conv_layer f = cl /\ pn_k f = k).
Proof.
  intros Hd Hm Hcl Hk Hu. apply arrives_cmd.
  { solve_Forall; auto with rfc; try (unfold is_u8; lia). destruct is_command; auto with rfc; unfold is_u8; lia. }
  { cbn. lia. }
  intros b Hb Hp. set (t := u8 (1 .| RFCOMM_I_CR is_command .| 0x80)) in Hp.
  assert (Ht : nz (t .& 1) = true /\ t .&~ 3 = 0x80 /\ nz ((t .& 2) .>> 1) = is_command)
    by (unfold t; by destruct is_command).
  destruct Ht as (T1 & T2 & T3). clearbody t.
  rewrite (process_message m b t 8 _ s Hb Hp) by done.
  assert (Hm16 : is_u16 mtu) by (unfold is_u16; lia).
  destruct (pn_octets mtu cl k dlci) as (O1 & O2 & O3 & O4); [lia|done|done|done|].
  set (f0 := (rx_frame s) <| mx_ea := _ |> <| mx_cr := _ |> <| mx_type := _ |>).
  assert (Hr : exists f, mx_read_pn f0 b (bh_offset b + 2) = Ok f /\
    mx_dlci f = dlci /\ pn_mtu f = mtu /\ pn_conv_layer f = cl /\ pn_k f = k).
  { eexists. split; [unfold mx_read_pn; reads Hb Hp; reflexivity|]. unfold f0. union_fields Hu. by rewrite O1, O2, O3, O4. }
  destruct Hr as (f & Hr & F1 & F2 & F3 & F4). exists f. split_and!; try done.
  rewrite (dispatch_pn m b _ f (with_frame f0 s) T2 Hr).
  - by rewrite <- T3.
  - unfold mx_bad_pn, RFCOMM_VALID_DLCI, nz. rewrite F1, F2. lia.
Qed.

(** *** Messages with an address octet *)

Lemma read_addr f b pos dlci :
  bh_read b pos = Ok (u8 (RFCOMM_EA .| RFCOMM_CR_MASK .| (dlci .<< RFCOMM_SHIFT_DLCI))) ->
  2 <= dlci <= RFCOMM_MAX_DLCI ->
  mx_read_addr f b pos = Ok (false, f <| mx_dlci := dlci |>).
Proof.
  intros Hr Hd. destruct (addr_octet_spec true dlci) as (A1 & A2 & A3); [lia|].
  change (addr_octet (b2z true .<< 1) dlci) with (u8 (1 .| 2 .| (dlci .<< 2))) in *.
  unfold mx_read_addr. rewrite Hr. cbn [mbind outcome_bind mret outcome_ret].
  rewrite A1, A2, A3. cbn [mx_dlci set set_mx_dlci]. unfold RFCOMM_VALID_DLCI, nz.
  replace (dlci =? 0) with false by lia. replace (2 <=? dlci) with true by lia.
  by replace (dlci <=? RFCOMM_MAX_DLCI) with true by lia.
Qed.

Ltac dispatch Ht :=
  unfold mx_dispatch, get_frame; rewrite run_assoc; unfold mbind at 1, M_bind at 1, get;
  rewrite run_ret, Ht; cbn [Z.eqb Pos.eqb negb andb].

Lemma dispatch_msc m b p f f1 n s :
  mx_type (rx_frame s) = RFCOMM_MX_MSC -> (n = 2 \/ n = 3) ->
  mx_read_addr (rx_frame s) b p = Ok (false, f1) -> mx_read_msc f1 b p n = Ok f ->
  mx_dispatch m b p n n s = rfc_process_msc m (nz (mx_cr (rx_frame s))) (with_frame f s).
Proof.
  intros Ht Hn Ha Hr. dispatch Ht. replace (negb (n =? 3) && negb (n =? 2)) with false by lia.
  unfold lift, mbind at 1, M_bind at 1. rewrite Ha. unfold put_frame, modify, mbind at 1, M_bind at 1.
  cbn [fst snd]. unfold mbind at 1, M_bind at 1. rewrite Hr. reflexivity.
Qed.

Lemma dispatch_rpn m b p f f1 n s :
  mx_type (rx_frame s) = RFCOMM_MX_RPN -> (n = 1 \/ n = 8) ->
  mx_read_addr (rx_frame s) b p = Ok (false, f1) -> mx_read_rpn f1 b p n = Ok f ->
  mx_dispatch m b p n n s =
    rfc_process_rpn m (nz (mx_cr (rx_frame s))) (nz (rpn_is_request f)) (with_frame f s).
Proof.
  intros Ht Hn Ha Hr. dispatch Ht. replace (negb (n =? 1) && negb (n =? 8)) with false by lia.
  unfold lift, mbind at 1, M_bind at 1. rewrite Ha. unfold put_frame, modify, mbind at 1, M_bind at 1.
  cbn [fst snd]. unfold mbind at 1, M_bind at 1. rewrite Hr. reflexivity.
Qed.

Lemma dispatch_rls m b p f f1 s :
  mx_type (rx_frame s) = RFCOMM_MX_RLS ->
  mx_read_addr (rx_frame s) b p = Ok (false, f1) -> mx_read_rls f1 b p = Ok f ->
  mx_dispatch m b p 2 2 s = rfc_process_rls m (nz (mx_cr (rx_frame s))) (with_frame f s).
Proof.
  intros Ht Ha Hr. dispatch Ht. unfold lift, mbind at 1, M_bind at 1. rewrite Ha.
  cbn [fst snd]. unfold mbind at 1, M_bind at 1. rewrite Hr. reflexivity.
Qed.

(** Its type octet tells a command from a response. *)
Lemma type_octet ty is_command :
  ty .& 3 = 0 -> is_u8 ty ->
  let t := u8 (RFCOMM_EA .| RFCOMM_I_CR is_command .| ty) in
  nz (t .& 1) = true /\ t .&~ 3 = ty /\ nz ((t .& 2) .>> 1) = is_command.
Proof.
  intros H3 Hu t.
  assert (E : all_below 256 (fun ty => negb (ty .& 3 =? 0) || forallb (fun c =>
    let t := u8 (1 .| RFCOMM_I_CR c .| ty) in
    nz (t .& 1) && (t .&~ 3 =? ty) && Bool.eqb (nz ((t .& 2) .>> 1)) c) [false; true]) = true)
    by (vm_compute; reflexivity).
  apply (all_below_spec 256 _ ty) in E; [|done]. cbn beta in E. rewrite H3 in E. cbn [Z.eqb negb orb] in E.
  rewrite forallb_forall in E. specialize (E is_command ltac:(destruct is_command; cbn; tauto)).
  cbn zeta in E. fold t in E. rewrite !andb_true_iff in E. destruct E as [[E1 E2] E3%Bool.eqb_prop].
  split_and!; [done|lia|done].
Qed.



(** The octets of a modem status command decode to the values they encode. *)
Lemma msc_octets sig brk (fc : bool) :
  0 <= sig < 16 -> 0 <= brk < 16 ->
  let o := u8 (RFCOMM_EA .| (if fc then RFCOMM_MSC_FC else 0)
               .| (if nz (sig .& MODEM_SIGNAL_DTRDSR) then RFCOMM_MSC_RTC else 0)
               .| (if nz (sig .& MODEM_SIGNAL_RTSCTS) then RFCOMM_MSC_RTR else 0)
               .| (if nz (sig .& MODEM_SIGNAL_RI) then RFCOMM_MSC_IC else 0)
               .| (if nz (sig .& MODEM_SIGNAL_DCD) then RFCOMM_MSC_DV else 0)) in
  let d := u8 (RFCOMM_EA .| RFCOMM_MSC_BREAK_PRESENT_MASK .| (brk .<< RFCOMM_MSC_SHIFT_BREAK)) in
  (if nz (u8 o .& RFCOMM_MSC_RTC) then MODEM_SIGNAL_DTRDSR else 0)
   .| (if nz (u8 o .& RFCOMM_MSC_RTR) then MODEM_SIGNAL_RTSCTS else 0)
   .| (if nz (u8 o .& RFCOMM_MSC_IC) then MODEM_SIGNAL_RI else 0)
   .| (if nz (u8 o .& RFCOMM_MSC_DV) then MODEM_SIGNAL_DCD else 0) = sig /\
  (u8 o .& RFCOMM_MSC_FC =? RFCOMM_MSC_FC) = fc /\
  nz (u8 (d .& RFCOMM_MSC_BREAK_PRESENT_MASK)) = true /\
  u8 ((d .& RFCOMM_MSC_BREAK_MASK) .>> RFCOMM_MSC_SHIFT_BREAK) = brk.
Proof.
  intros Hs Hb o d. split_and!.
  - apply Z.eqb_eq. unfold o. clear o. revert sig Hs.
    enough (E : all_below 16 (fun sig => _) = true) by (intros sig Hs; exact (all_below_spec 16 _ sig E Hs)).
    by destruct fc; vm_compute.
  - apply Bool.eqb_prop. unfold o. clear o. revert sig Hs.
    enough (E : all_below 16 (fun sig => _) = true) by (intros sig Hs; exact (all_below_spec 16 _ sig E Hs)).
    by destruct fc; vm_compute.
  - unfold d. clear d. revert brk Hb.
    enough (E : all_below 16 (fun brk => _) = true) by (intros brk Hb; exact (all_below_spec 16 _ brk E Hb)).
    by vm_compute.
  - apply Z.eqb_eq. unfold d. clear d. revert brk Hb.
    enough (E : all_below 16 (fun brk => _) = true) by (intros brk Hb; exact (all_below_spec 16 _ brk E Hb)).
    by vm_compute.
Qed.

(** Modem status: the MSC command or response for a channel reaches
    [rfc_process_msc] of the peer, which reads from it the channel, the V.24
    signals, the break length and the flow control bit it was sent with. *)
Lemma msc_roundtrip m dlci is_command pars s :
  2 <= dlci <= RFCOMM_MAX_DLCI -> 0 <= modem_signal pars < 16 -> 0 <= break_signal pars < 16 ->
  length (mx_u (rx_frame s)) = 12%nat ->
  arrives (msc_cmd dlci is_command pars) (fun b => exists f,
    rfc_process_mx_message m b s = rfc_process_msc m is_command (with_frame f s) /\
    mx_dlci f = dlci /\ same_ctrl (msc_pars f) pars).
Proof.
  intros Hd Hs Hbr Hu. unfold msc_cmd.
  destruct (msc_octets (modem_signal pars) (break_signal pars) (ctrl_fc pars) Hs Hbr) as (O1 & O2 & O3 & O4).
  set (o := u8 (1 .| (if ctrl_fc pars then _ else _) .| _ .| _ .| _ .| _)) in *.
  set (d := u8 (1 .| 2 .| (break_signal pars .<< 4))) in *.
  assert (Ho : is_u8 o) by apply u8_range. assert (Hdu : is_u8 d) by apply u8_range. clearbody o d.
  destruct (type_octet RFCOMM_MX_MSC is_command) as (T1 & T2 & T3); [done|done|].
  set (t := u8 (1 .| RFCOMM_I_CR is_command .| RFCOMM_MX_MSC)) in *.
  assert (Htu : is_u8 t) by apply u8_range. clearbody t.
  destruct (nz (break_signal pars)) eqn:Ebr; apply arrives_cmd; try (cbn; lia);
    try (solve_Forall; apply u8_range); intros b Hb Hp; cbn [app] in Hp.
  - rewrite (process_message m b t 3 _ s Hb Hp) by done.
    set (f0 := (rx_frame s) <| mx_ea := _ |> <| mx_cr := _ |> <| mx_type := _ |>).
    eexists. split; [|split].
    + rewrite <- T3. eapply (dispatch_msc m b (bh_offset b + 2) _ _ 3 (with_frame f0 s)); [exact T2|by right|..].
      * apply read_addr; [|done]. by reads Hb Hp.
      * unfold mx_read_msc. reads Hb Hp. reflexivity.
    + done.
    + unfold same_ctrl, msc_pars, f0. union_fields Hu. by rewrite O1, O2, O3, O4.
  - rewrite (process_message m b t 2 _ s Hb Hp) by done.
    set (f0 := (rx_frame s) <| mx_ea := _ |> <| mx_cr := _ |> <| mx_type := _ |>).
    eexists. split; [|split].
    + rewrite <- T3. eapply (dispatch_msc m b (bh_offset b + 2) _ _ 2 (with_frame f0 s)); [exact T2|by left|..].
      * apply read_addr; [|done]. by reads Hb Hp.
      * unfold mx_read_msc. reads Hb Hp. reflexivity.
    + done.
    + apply nz_false in Ebr. unfold same_ctrl, msc_pars, f0. union_fields Hu. by rewrite O1, O2, Ebr.
Qed.

Lemma is_request_set f v : length (mx_u f) = 12%nat -> rpn_is_request (set_u 1 v f) = u8 v.
Proof. intros Hu. by union_fields Hu. Qed.

(** The character format octet. *)
Lemma rpn_format bits stop par ptype :
  0 <= bits < 4 -> 0 <= stop < 2 -> 0 <= par < 2 -> 0 <= ptype < 4 ->
  let o := u8 ((bits .<< RFCOMM_RPN_BITS_SHIFT) .| (stop .<< RFCOMM_RPN_STOP_BITS_SHIFT)
               .| (par .<< RFCOMM_RPN_PARITY_SHIFT) .| (ptype .<< RFCOMM_RPN_PARITY_TYPE_SHIFT)) in
  u8 ((o .>> RFCOMM_RPN_BITS_SHIFT) .& RFCOMM_RPN_BITS_MASK) = bits /\
  u8 ((o .>> RFCOMM_RPN_STOP_BITS_SHIFT) .& RFCOMM_RPN_STOP_BITS_MASK) = stop /\
  u8 ((o .>> RFCOMM_RPN_PARITY_SHIFT) .& RFCOMM_RPN_PARITY_MASK) = par /\
  u8 ((o .>> RFCOMM_RPN_PARITY_TYPE_SHIFT) .& RFCOMM_RPN_PARITY_TYPE_MASK) = ptype.
Proof.
  intros H1 H2 H3 H4 o. rewrite <- !Z.eqb_eq, <- !andb_true_iff. unfold o. clear o.
  assert (E : all_below 4 (fun bits => all_below 2 (fun stop => all_below 2 (fun par => all_below 4 (fun ptype =>
    let o := u8 ((bits .<< 0) .| (stop .<< 2) .| (par .<< 3) .| (ptype .<< 4)) in
    (u8 ((o .>> 0) .& 3) =? bits) && ((u8 ((o .>> 2) .& 1) =? stop) && ((u8 ((o .>> 3) .& 1) =? par) &&
    (u8 ((o .>> 4) .& 3) =? ptype))))))) = true) by (vm_compute; reflexivity).
  apply (all_below_spec 4 _ bits) in E; [|done]. apply (all_below_spec 2 _ stop) in E; [|done].
  apply (all_below_spec 2 _ par) in E; [|done]. by apply (all_below_spec 4 _ ptype) in E.
Qed.

Lemma rpn_fc fc : 0 <= fc < 64 -> u8 (u8 fc .& RFCOMM_FC_MASK) = fc.
Proof.
  intros Hf. assert (E : all_below 64 (fun fc => u8 (u8 fc .& 0x3F) =? fc) = true) by (vm_compute; reflexivity).
  apply (all_below_spec 64 _ fc) in E; [cbn beta in E; lia|done].
Qed.

(** Remote port negotiation: the RPN command or response with parameters [p]
    reaches [rfc_process_rpn] of the peer as a setting, and one without
    parameters as a request; the peer reads the channel, the parameter mask and
    every parameter it was sent with. *)
Lemma rpn_roundtrip m dlci is_command pars mask s :
  2 <= dlci <= RFCOMM_MAX_DLCI -> (forall p, pars = Some p -> rpn_range p) ->
  is_u16 mask -> mask .& RFCOMM_RPN_PM_MASK = mask -> length (mx_u (rx_frame s)) = 12%nat ->
  arrives (rpn_cmd dlci is_command pars mask) (fun b => exists f,
    rfc_process_mx_message m b s =
      rfc_process_rpn m is_command (match pars with None => true | Some _ => false end) (with_frame f s) /\
    mx_dlci f = dlci /\
    forall p, pars = Some p ->
      rpn_param_mask f = mask /\ rpn_baud_rate f = baud_rate p /\ rpn_byte_size f = byte_size p /\
      rpn_stop_bits f = stop_bits p /\ rpn_parity f = parity p /\ rpn_parity_type f = parity_type p /\
      rpn_fc_type f = fc_type p /\ rpn_xon_char f = xon_char p /\ rpn_xoff_char f = xoff_char p).
Proof.
  intros Hd Hr Hm Hmm Hu. unfold rpn_cmd.
  destruct (type_octet RFCOMM_MX_RPN is_command) as (T1 & T2 & T3); [done|done|].
  set (t := u8 (1 .| RFCOMM_I_CR is_command .| RFCOMM_MX_RPN)) in *.
  assert (Htu : is_u8 t) by apply u8_range. clearbody t.
  destruct pars as [p|]; apply arrives_cmd; try (cbn; lia); try (solve_Forall; apply u8_range); intros b Hb Hp.
  - destruct (Hr p eq_refl) as (R1 & R2 & R3 & R4 & R5 & R6 & R7 & R8).
    destruct (rpn_format (byte_size p) (stop_bits p) (parity p) (parity_type p) R2 R3 R4 R5) as (B1 & B2 & B3 & B4).
    set (o := u8 (_ .| _ .| _ .| _)) in *. clearbody o.
    rewrite (process_message m b t 8 _ s Hb Hp) by done.
    set (f0 := (rx_frame s) <| mx_ea := _ |> <| mx_cr := _ |> <| mx_type := _ |>).
    assert (Hrd : exists f, mx_read_rpn (f0 <| mx_dlci := dlci |>) b (bh_offset b + 2) 8 = Ok f /\
      rpn_is_request f = 0 /\ mx_dlci f = dlci /\
      rpn_param_mask f = mask /\ rpn_baud_rate f = baud_rate p /\ rpn_byte_size f = byte_size p /\
      rpn_stop_bits f = stop_bits p /\ rpn_parity f = parity p /\ rpn_parity_type f = parity_type p /\
      rpn_fc_type f = fc_type p /\ rpn_xon_char f = xon_char p /\ rpn_xoff_char f = xoff_char p).
    { eexists. split; [unfold mx_read_rpn; rewrite is_request_set by exact Hu; reads Hb Hp; reflexivity|].
      unfold f0. union_fields Hu. rewrite B1, B2, B3, B4, low_byte, (word_join mask), Hmm, (word_join mask), rpn_fc by done.
      by rewrite !u8_id by (done || apply u8_range). }
    destruct Hrd as (f & Hrd & Hq & Hdl & F). exists f. split_and!; [|done|by intros ? [= <-]].
    rewrite <- T3. rewrite (dispatch_rpn m b (bh_offset b + 2) f (f0 <| mx_dlci := dlci |>) 8 (with_frame f0 s));
      [by rewrite Hq|exact T2|by right| |done].
    apply read_addr; [|done]. by reads Hb Hp.
  - rewrite (process_message m b t 1 _ s Hb Hp) by done.
    set (f0 := (rx_frame s) <| mx_ea := _ |> <| mx_cr := _ |> <| mx_type := _ |>).
    exists (set_u 1 1 (f0 <| mx_dlci := dlci |>)). split_and!; [|done|done].
    rewrite <- T3. rewrite (dispatch_rpn m b (bh_offset b + 2) (set_u 1 1 (f0 <| mx_dlci := dlci |>))
      (f0 <| mx_dlci := dlci |>) 1 (with_frame f0 s)); [by rewrite is_request_set by exact Hu|exact T2|by left| |].
    + apply read_addr; [|done]. by reads Hb Hp.
    + unfold mx_read_rpn. by rewrite is_request_set by exact Hu.
Qed.

(** Line status: the RLS command or response for a channel reaches
    [rfc_process_rls] of the peer with the channel and the status it was sent
    with, the error flag in bit 0 aside. *)
Lemma rls_roundtrip m dlci is_command status s :
  2 <= dlci <= RFCOMM_MAX_DLCI -> is_u8 status -> status .& 1 = 0 -> length (mx_u (rx_frame s)) = 12%nat ->
  arrives (rls_cmd dlci is_command status) (fun b => exists f,
    rfc_process_mx_message m b s = rfc_process_rls m is_command (with_frame f s) /\
    mx_dlci f = dlci /\ rls_line_status f = status).
Proof.
  intros Hd Hs He Hu. unfold rls_cmd.
  destruct (type_octet RFCOMM_MX_RLS is_command) as (T1 & T2 & T3); [done|done|].
  set (t := u8 (1 .| RFCOMM_I_CR is_command .| RFCOMM_MX_RLS)) in *.
  assert (Htu : is_u8 t) by apply u8_range. clearbody t.
  apply arrives_cmd; [solve_Forall; apply u8_range|cbn; lia|]. intros b Hb Hp.
  rewrite (process_message m b t 2 _ s Hb Hp) by done.
  set (f0 := (rx_frame s) <| mx_ea := _ |> <| mx_cr := _ |> <| mx_type := _ |>).
  assert (E : all_below 256 (fun st => negb (st .& 1 =? 0) || (u8 (u8 (1 .| st) .&~ 0x01) =? st)) = true)
    by (vm_compute; reflexivity).
  apply (all_below_spec 256 _ status) in E; [|done]. cbn beta in E. rewrite He in E. cbn [Z.eqb negb orb] in E.
  eexists. split; [|split].
  - rewrite <- T3. apply (dispatch_rls m b (bh_offset b + 2) _ (f0 <| mx_dlci := dlci |>) (with_frame f0 s)); [exact T2|..].
    + apply read_addr; [|done]. by reads Hb Hp.
    + unfold mx_read_rls. reads Hb Hp. reflexivity.
  - done.
  - unfold f0. union_fields Hu. lia.
Qed.

(** C35: Multiplexer messages survive the trip: a parameter negotiation, modem status, remote port
    negotiation or line status command or response that one side builds, arriving in any buffer, reaches
    the peer's handler of the same name with the channel and every value it was built from. *)
Theorem mx_messages_roundtrip m msg s : mx_valid msg -> length (mx_u (rx_frame s)) = 12%nat ->
  arrives (mx_bytes msg) (mx_received m s msg).
Proof.
  intros Hv Hu. destruct msg; cbn [mx_valid] in Hv.
  - destruct Hv as (? & ? & ? & ?). by apply pn_roundtrip.
  - destruct Hv as (? & ? & ?). by apply msc_roundtrip.
  - destruct Hv as (? & ? & ? & ?). by apply rpn_roundtrip.
  - destruct Hv as (? & ? & ?). by apply rls_roundtrip.
Qed.

End Messages.
