(* ===== verification/RfcInvUtils.v ===== *)
(** * RfcInvUtils: the tables keep the invariant

    Every function of [RfcUtils] preserves [inv]; lookups return indices inside
    the tables, and MTU selection never divides by zero. *)

From Stdlib Require Import ZArith Lia.
From stdpp Require Import gmap.
From S2P Require Import Prelude Osi RfcDefs RfcState RfcFrames RfcFramesProps RfcUtils RfcInv.
From S2P Require Import RfcInvBase.

Lemma find_index_lt {A} (P : A -> bool) l i j :
  find_index P l i = Some j -> (i <= j < i + length l)%nat /\
    exists x, l !! (j - i)%nat = Some x /\ P x = true.
Proof.
  revert i. induction l as [|x l IH]; intros i; simpl; [done|].
  destruct (P x) eqn:E.
  - intros [= ->]. split; [lia|]. rewrite Nat.sub_diag. by exists x.
  - intros H%IH. destruct H as [H1 (z & Hz & HP)]. split; [lia|]. exists z.
    replace (j - i)%nat with (S (j - S i)) by lia. done.
Qed.

Lemma find_idle_mcb_lt tab n j k :
  0 <= j -> find_idle_mcb tab n j = Some k ->
  0 <= k < 16 /\ exists x, tab !! Z.to_nat k = Some x /\ mcb_state x = RFC_MX_STATE_IDLE.
Proof.
  revert j. induction n as [|n IH]; intros j Hj; simpl; [done|].
  set (j' := if 16 <=? j then 0 else j).
  assert (Hj' : 0 <= j' < 16) by (unfold j'; destruct (Z.leb_spec 16 j); lia).
  destruct (tab !! Z.to_nat j') as [x|] eqn:Ex; [|done].
  case_bool_decide; [intros [= <-]; eauto|]. apply IH. lia.
Qed.

Lemma find_free_port_lt tab n j k :
  0 <= j -> find_free_port tab n j = Some k ->
  0 <= k < 30 /\ exists x, tab !! Z.to_nat k = Some x /\ in_use x = false.
Proof.
  revert j. induction n as [|n IH]; intros j Hj; simpl; [done|].
  set (j' := if 30 <=? j then 0 else j).
  assert (Hj' : 0 <= j' < 30) by (unfold j'; destruct (Z.leb_spec 30 j); lia).
  destruct (tab !! Z.to_nat j') as [x|] eqn:Ex; [|done].
  destruct (in_use x) eqn:Eu; [|intros [= <-]; eauto]. apply IH. apply u8_range.
Qed.

Lemma select_mtu_ok c p ps x :
  is_u16 ps -> port_ok c p x ->
  returns (select_mtu ps x) (fun y => port_ok c p y /\ port_mtu y <> 0).
Proof.
  unfold is_u16. intros Hps Hx. unfold select_mtu.
  set (x1 := if port_mtu x =? 0 then _ else _).
  assert (H1 : port_ok c p x1 /\ port_mtu x1 <> 0).
  { unfold x1. destruct (Z.eqb_spec (port_mtu x) 0) as [E|E]; [|done].
    assert (Hupd : forall v, is_u16 v -> port_ok c p (x <| port_mtu := v |>)).
    { intros v Hv. destruct Hx as (?&?&?&?&?&?&(?&?&?&?)&?&?&?). unfold port_ok. cbn. tauto. }
    destruct (Z.eqb_spec ps 0); [split; [apply Hupd; unfold is_u16; lia|done]|].
    destruct (Z.leb_spec ps (1691 + 4)); [|split; [apply Hupd; unfold is_u16; lia|done]].
    split; [apply Hupd, u16_range|]. cbn -[u16 Z.div Z.mul Z.sub].
    assert (Hd : 0 < (1691 + 4) / ps * ps - 6 - 4 < 65536).
    { pose proof (Z.div_mod (1691 + 4) ps ltac:(lia)).
      pose proof (Z.mod_pos_bound (1691 + 4) ps ltac:(lia)).
      assert (1 <= (1691 + 4) / ps) by (apply Z.div_le_lower_bound; lia). nia. }
    rewrite u16_small by lia. lia. }
  clearbody x1. destruct H1 as [H1 H2]. unfold div.
  destruct (Z.eqb_spec (port_mtu x1) 0); [done|]. cbn -[Z.div].
  destruct H1 as (?&?&?&?&?&?&H16&?&?&?).
  assert (Hp : forall a, 0 <= a -> 0 <= a / port_mtu x1).
  { intros. apply Z.div_pos; [done|]. unfold is_u16 in H16. lia. }
  pose proof (Hp 16720 ltac:(lia)). pose proof (Hp 25080 ltac:(lia)).
  split; [|done]. unfold port_ok. cbn -[Z.div]. split_and!; try tauto.
  - destruct (Z.ltb_spec 10 (16720 / port_mtu x1)); lia.
  - destruct (Z.ltb_spec 10 (16720 / port_mtu x1)); lia.
  - destruct (Z.ltb_spec 15 (25080 / port_mtu x1)); lia.
  - destruct (Z.ltb_spec 15 (25080 / port_mtu x1)); lia.
Qed.

Lemma zero_port_ok c p : port_ok c p zero_PORT.
Proof. unfold port_ok, is_u16. cbn. split_and!; try lia; tauto. Qed.

Lemma zero_mcb_ok : mcb_ok zero_RFC_MCB.
Proof.
  unfold mcb_ok, is_u16. cbn [zero_RFC_MCB port_handles peer_l2cap_mtu]. rewrite length_replicate.
  split_and!; try lia. apply Forall_replicate. lia.
Qed.

#[export] Hint Resolve zero_port_ok zero_mcb_ok : rfc.

Section Utils.
Context (c : icfg).

Lemma port_ok_put_p_mcb p o x : mcb_index o -> port_ok c p x -> port_ok c p (put_p_mcb o x).
Proof. intros Ho. revert x. port_tac. Qed.

Lemma port_ok_put_rfc_state p st x :
  (auth_state st -> auth c p) -> port_ok c p x -> port_ok c p (put_rfc_state st x).
Proof. intros Ho. revert x. port_tac. Qed.

Lemma pres_rfc_save_lcid_mcb o lcid : mcb_index o -> pres c (rfc_save_lcid_mcb o lcid) T.
Proof.
  intros Ho. apply pres_modify. intros s [H1 H2 H3 H4 H5 H6 H7]. split; cbn; try done.
  destruct o as [m|]; [by apply map_Forall_insert_2|by apply map_Forall_delete].
Qed.

Lemma pres_rfc_find_lcid_mcb lcid : pres c (rfc_find_lcid_mcb lcid) mcb_index.
Proof.
  unfold rfc_find_lcid_mcb. pres_step.
  destruct (rfc_lcid_mcb a !! lcid) as [m|] eqn:E; [|by apply pres_ret].
  pose proof (inv_lcid _ _ H _ _ E) as Hm. cbn in Hm.
  pres_step. apply pres_ret. by destruct (_ =? _).
Qed.

Lemma alarm_set_sound a t : sound (alarm_set_on_mloop a t) T.
Proof. destruct a; [done|by right]. Qed.

Lemma pres_rfc_timer_start m t : (m < 16)%nat -> pres c (rfc_timer_start m t) T.
Proof.
  intros Hm. unfold rfc_timer_start. pres_step.
  eapply pres_bind; [apply pres_lift, alarm_set_sound|intros ? _]. pres.
Qed.

Lemma pres_rfc_timer_stop m : (m < 16)%nat -> pres c (rfc_timer_stop m) T.
Proof. intros Hm. unfold rfc_timer_stop. pres. Qed.

Lemma pres_rfc_port_timer_start p t : (p < 30)%nat -> pres c (rfc_port_timer_start p t) T.
Proof.
  intros Hp. unfold rfc_port_timer_start. pres_step.
  eapply pres_bind; [apply pres_lift, alarm_set_sound|intros ? _]. pres.
Qed.

Lemma pres_rfc_port_timer_stop p : (p < 30)%nat -> pres c (rfc_port_timer_stop p) T.
Proof. intros Hp. unfold rfc_port_timer_stop. pres. Qed.

Hint Resolve pres_rfc_timer_start pres_rfc_timer_stop pres_rfc_port_timer_start
  pres_rfc_port_timer_stop : pres.

Lemma inv_find_mcb s P i : inv c s -> find_index P (rfc_mcb_tab s) 0 = Some i -> (i < 16)%nat.
Proof. intros Hs [H _]%find_index_lt. rewrite (inv_nmcbs _ _ Hs) in H. lia. Qed.

Lemma inv_find_port s P i : inv c s -> find_index P (port_tab s) 0 = Some i -> (i < 30)%nat.
Proof. intros Hs [H _]%find_index_lt. rewrite (inv_nports _ _ Hs) in H. lia. Qed.

Lemma pres_rfc_alloc_multiplexer_channel addr ini :
  pres c (rfc_alloc_multiplexer_channel addr ini) mcb_index.
Proof.
  unfold rfc_alloc_multiplexer_channel. pres_step. rename a into s, H into Hs.
  destruct (find_index _ _ _) as [i|] eqn:E.
  { apply (inv_find_mcb _ _ _ Hs) in E. pres. }
  destruct (find_idle_mcb _ _ _) as [j|] eqn:Ej; [|by apply pres_ret].
  apply find_idle_mcb_lt in Ej as [Hj _]; [|pose proof (inv_last_mux _ _ Hs); lia].
  assert (Hm : (Z.to_nat j < 16)%nat) by lia.
  eapply pres_bind; [apply pres_upd_mcb; [done|intros _ _; exact zero_mcb_ok]|intros _ _].
  pres_step. eapply pres_bind; [apply pres_modify|intros _ _; by apply pres_ret].
  intros s' []. split; cbn; try done. apply u8_range.
Qed.

Lemma pres_rfc_release_multiplexer_channel m :
  (m < 16)%nat -> pres c (rfc_release_multiplexer_channel m) T.
Proof.
  intros Hm. unfold rfc_release_multiplexer_channel. pres_step.
  eapply pres_bind; [by apply pres_rfc_save_lcid_mcb|intros _ _].
  eapply pres_bind; [apply pres_modify|intros _ _; pres_step; apply pres_upd_mcb; [done|]].
  - intros s [H1 H2 H3 H4 H5 H6 H7]. split; cbn; try done; [by rewrite length_map|].
    intros p x. rewrite list_lookup_fmap. intros (z & Hz & ->)%fmap_Some. apply H3 in Hz.
    case_bool_decide; [by apply port_ok_put_p_mcb|done].
  - intros _ _. exact zero_mcb_ok.
Qed.

Lemma pres_port_find_mcb addr : pres c (port_find_mcb addr) mcb_index.
Proof.
  unfold port_find_mcb. pres_step. apply pres_ret. destruct (find_index _ _ _) eqn:E; [|done].
  by eapply inv_find_mcb.
Qed.

Lemma pres_port_find_port dlci addr : pres c (port_find_port dlci addr) port_index.
Proof.
  unfold port_find_port. pres_step. apply pres_ret. destruct (find_index _ _ _) eqn:E; [|done].
  by eapply inv_find_port.
Qed.

Lemma pres_port_find_mcb_dlci_port o dlci :
  mcb_index o -> 0 <= dlci -> pres c (port_find_mcb_dlci_port o dlci)
    (fun r => port_index r /\ (r <> None -> o <> None)).
Proof.
  intros Ho Hd. unfold port_find_mcb_dlci_port. destruct o as [m|]; [|by apply pres_ret].
  destruct (Z.ltb_spec 61 dlci); [by apply pres_ret|]. pres_step.
  destruct H0 as (Hl & Hf & _).
  eapply pres_bind with (R := fun h => 0 <= h <= 30).
  - apply pres_lift. destruct (rd_ok (port_handles a) dlci) as (h & -> & Hh); [lia|].
    by eapply (Forall_lookup_1 _ _ _ _ Hf).
  - intros h Hh. apply pres_ret. destruct (Z.eqb_spec h 0); cbn; [done|]. split; [lia|done].
Qed.

Lemma pres_port_find_dlci_port dlci :
  0 <= dlci <= RFCOMM_MAX_DLCI -> pres c (port_find_dlci_port dlci) port_index.
Proof.
  intros Hd s Hs. unfold port_find_dlci_port, mbind, M_bind, get.
  destruct (find_index _ _ _) as [p|] eqn:E; [|done].
  pose proof (inv_find_port _ _ _ Hs E) as Hp.
  apply find_index_lt in E as [_ (x & Hx & HP)]. rewrite Nat.sub_0_r in Hx.
  unfold get_port. rewrite Hx.
  destruct (port_dlci x =? dlci) eqn:Ed; cbn [negb when]; [done|].
  unfold upd_port. rewrite Hx. split; [|done]. apply inv_set_port; [done|].
  pose proof (inv_port _ _ Hs _ _ Hx) as (?&?&?&?&?&?&?&?&?&?).
  unfold dlci_matches in HP. rewrite Ed in HP.
  assert (port_dlci x = dlci - 1) as Hx1 by lia.
  unfold port_ok. cbn -[u8]. rewrite Hx1, u8_id by (unfold is_u8; lia).
  split_and!; try tauto; lia.
Qed.

Lemma pres_port_allocate_port dlci addr :
  0 <= dlci <= RFCOMM_MAX_DLCI -> pres c (port_allocate_port dlci addr) port_index.
Proof.
  intros Hd. unfold port_allocate_port. pres_step.
  destruct (find_free_port _ _ _) as [j|] eqn:Ej; [|by apply pres_ret].
  apply find_free_port_lt in Ej as [Hj _]; [|apply u8_range].
  eapply pres_bind; [apply pres_upd_port; [lia|]|intros _ _].
  - intros _ _. unfold port_ok, is_u16. cbn -[u8 Z.add Z.of_nat]. rewrite u8_id by (unfold is_u8; lia).
    split_and!; try lia; try tauto; by apply Forall_nil || cbn; lia.
  - eapply pres_bind; [apply pres_modify|intros _ _; apply pres_ret; cbn; lia].
    intros s' []. by split.
Qed.

Lemma pres_port_select_mtu `{RfcEnv} p : (p < 30)%nat -> pres c (port_select_mtu p) T.
Proof.
  intros Hp. unfold port_select_mtu. pres_step. eapply pres_bind.
  - apply pres_lift, returns_sound, (select_mtu_ok c p); [apply u16_range|done].
  - intros y [Hy _]. by apply pres_upd_port.
Qed.

Lemma pres_port_flow_control_user p : (p < 30)%nat -> pres c (port_flow_control_user p) T.
Proof. intros Hp. unfold port_flow_control_user. pres. Qed.

Lemma pres_port_get_credits p k :
  (p < 30)%nat -> is_u16 k -> pres c (port_get_credits p k) T.
Proof. intros Hp Hk. unfold port_get_credits. pres. Qed.

Lemma pres_rfc_dec_credit p : (p < 30)%nat -> pres c (rfc_dec_credit p) T.
Proof.
  intros Hp. unfold rfc_dec_credit. do 3 pres_step.
  apply pres_get_port_at; [done|]. intros x Hx. apply pres_at_when_upd; [|pres].
  intros Hc. destruct Hx as (?&?&?&?&?&?&?&?&?&?). unfold port_ok, is_u16 in *.
  cbn -[Z.sub]. split_and!; try tauto; lia.
Qed.

End Utils.

#[export] Hint Resolve pres_rfc_save_lcid_mcb pres_rfc_find_lcid_mcb pres_rfc_timer_start
  pres_rfc_timer_stop pres_rfc_port_timer_start pres_rfc_port_timer_stop
  pres_rfc_alloc_multiplexer_channel pres_rfc_release_multiplexer_channel pres_port_find_mcb
  pres_port_find_port pres_port_find_mcb_dlci_port pres_port_find_dlci_port
  pres_port_allocate_port pres_port_select_mtu pres_port_flow_control_user pres_port_get_credits
  pres_rfc_dec_credit : pres.
