(* ===== verification/RfcTables.v ===== *)
(** * RfcTables: the port and multiplexer tables, and the receive limits

    What allocation returns and when it fails, the credits [port_select_mtu]
    derives from the frame size, and the handles the interface refuses. *)

From Stdlib Require Import ZArith Lia.
From stdpp Require Import gmap.
From S2P Require Import Prelude Osi RfcDefs RfcState RfcRun RfcFrames RfcUtils PortRfc RfcMxFsm.
From S2P Require Import RfcPortFsm RfcL2capIf PortApi RfcFramesProps RfcInv RfcInvUtils.

(** What [port_allocate_port] makes of an entry. *)
Definition fresh_port (p : nat) (dlci : Z) (addr : RawAddress) (x : tPORT) : Prop :=
  in_use x = true /\ port_handle x = Z.of_nat p + 1 /\ port_dlci x = dlci /\ port_bd_addr x = addr /\
  rfc_state (rfc x) = RFC_STATE_CLOSED /\ p_mcb (rfc x) = None /\
  pd_queue (tx x) = Some [] /\ pd_queue (rx x) = Some [] /\ credit_tx x = 0 /\ credit_rx x = 0.

(** What [rfc_alloc_multiplexer_channel] makes of an entry. *)
Definition fresh_mcb (ini : bool) (y : tRFC_MCB) : Prop :=
  mcb_state y = RFC_MX_STATE_IDLE /\ is_initiator y = ini /\ cmd_q y = Some [] /\ mcb_lcid y = 0 /\
  port_handles y = replicate 62 0 /\ mcb_timer y = Some (Some (RFC_MCB_INIT_INACT_TIMER * 1000)).

(** The outcome of [port_allocate_port]: a free entry made a fresh port, or none because all
    entries are in use. *)
Definition port_allocated (s : rfc_cb) (dlci : Z) (addr : RawAddress) (r : outcome (option nat * rfc_cb)) : Prop :=
  match r with
  | Ok (Some p, s') =>
      (exists x, port_tab s !! p = Some x /\ in_use x = false) /\
      exists x', port_tab s' = <[p := x']> (port_tab s) /\ fresh_port p dlci addr x'
  | Ok (None, s') => s' = s /\ forall p x, port_tab s !! p = Some x -> in_use x = true
  | Crash _ => False
  end.

(** The outcome of [rfc_alloc_multiplexer_channel]: the multiplexer the device has, a fresh one,
    or none because the device has none and all are busy. *)
Definition mux_allocated (s : rfc_cb) (addr : RawAddress) (ini : bool) (r : outcome (option nat * rfc_cb)) : Prop :=
  match r with
  | Ok (Some m, s') => exists y y', rfc_mcb_tab s !! m = Some y /\ rfc_mcb_tab s' = <[m := y']> (rfc_mcb_tab s) /\
      mcb_bd_addr y' = addr /\
      if bool_decide (mcb_state y = RFC_MX_STATE_IDLE)
      then fresh_mcb ini y' /\ forall m' y2, rfc_mcb_tab s !! m' = Some y2 -> mcb_is addr y2 = false
      else mcb_bd_addr y = addr /\ y' = y <| mcb_timer := mcb_timer y' |>
  | Ok (None, s') => s' = s /\ forall m y, rfc_mcb_tab s !! m = Some y ->
      mcb_state y <> RFC_MX_STATE_IDLE /\ mcb_bd_addr y <> addr
  | Crash _ => False
  end.

(** The entry a round-robin search looks at in its [i]-th step from [j]. *)
Definition slot (size j i : Z) : Z := ((if size <=? j then 0 else j) + i) mod size.

(** * Lemmas *)

Lemma slot_next size j i :
  0 < size -> 0 <= j -> 0 <= i ->
  slot size ((if size <=? j then 0 else j) + 1) i = slot size j (i + 1).
Proof.
  intros Hs Hj Hi. unfold slot. set (k := if size <=? j then 0 else j).
  assert (Hk : 0 <= k < size) by (unfold k; destruct (size <=? j) eqn:?; lia).
  destruct (Z.leb_spec size (k + 1)).
  - replace (k + (i + 1)) with (0 + i + 1 * size) by lia. by rewrite Z.mod_add by lia.
  - f_equal. lia.
Qed.

Lemma slot_zero size j : 0 < size -> 0 <= j -> slot size j 0 = if size <=? j then 0 else j.
Proof. intros Hs Hj. unfold slot. rewrite Z.add_0_r. apply Z.mod_small. destruct (size <=? j) eqn:?; lia. Qed.

(** Every entry is looked at within one round. *)
Lemma slot_onto size j k : 0 < size -> 0 <= j -> 0 <= k < size -> exists i, 0 <= i < size /\ slot size j i = k.
Proof.
  intros Hs Hj Hk. set (b := if size <=? j then 0 else j).
  assert (Hb : 0 <= b < size) by (unfold b; destruct (size <=? j) eqn:?; lia).
  exists ((k - b) mod size). split; [apply Z.mod_pos_bound; lia|]. unfold slot. fold b.
  rewrite Zplus_mod_idemp_r. replace (b + (k - b)) with k by lia. by apply Z.mod_small.
Qed.

Lemma find_free_port_spec tab n j :
  length tab = 30%nat -> 0 <= j < 200 ->
  match find_free_port tab n j with
  | Some k => 0 <= k < 30 /\ exists x, tab !! Z.to_nat k = Some x /\ in_use x = false
  | None => forall i, 0 <= i < Z.of_nat n -> exists x, tab !! Z.to_nat (slot 30 j i) = Some x /\ in_use x = true
  end.
Proof.
  intros Hl. revert j. induction n as [|n IH]; intros j Hj; cbn [find_free_port]; [lia|].
  set (k := if MAX_RFC_PORTS <=? j then 0 else j).
  assert (Hk : 0 <= k < 30) by (unfold k; destruct (_ <=? _) eqn:?; lia).
  destruct (lookup_lt_is_Some_2 tab (Z.to_nat k)) as [x Hx]; [lia|]. rewrite Hx.
  destruct (in_use x) eqn:Eu; [|split; [done|by exists x]].
  assert (Eu8 : u8 (k + 1) = k + 1) by (apply u8_id; unfold is_u8; lia).
  rewrite Eu8. specialize (IH (k + 1) ltac:(lia)). destruct (find_free_port tab n (k + 1)); [done|].
  intros i Hi. destruct (Z.eq_dec i 0) as [->|Hne].
  - rewrite slot_zero by lia. by exists x.
  - destruct (IH (i - 1) ltac:(lia)) as (x' & Hx' & Hu'). exists x'. split; [|done].
    rewrite <- Hx'. f_equal. f_equal. unfold k. rewrite slot_next by lia. f_equal. lia.
Qed.

Lemma find_idle_mcb_spec tab n j :
  length tab = 16%nat -> 0 <= j ->
  match find_idle_mcb tab n j with
  | Some k => 0 <= k < 16 /\ exists y, tab !! Z.to_nat k = Some y /\ mcb_state y = RFC_MX_STATE_IDLE
  | None => forall i, 0 <= i < Z.of_nat n ->
      exists y, tab !! Z.to_nat (slot 16 j i) = Some y /\ mcb_state y <> RFC_MX_STATE_IDLE
  end.
Proof.
  intros Hl. revert j. induction n as [|n IH]; intros j Hj; cbn [find_idle_mcb]; [lia|].
  set (k := if MAX_BD_CONNECTIONS <=? j then 0 else j).
  assert (Hk : 0 <= k < 16) by (unfold k; destruct (_ <=? _) eqn:?; lia).
  destruct (lookup_lt_is_Some_2 tab (Z.to_nat k)) as [y Hy]; [lia|]. rewrite Hy.
  case_bool_decide as Eu; [split; [done|by exists y]|].
  specialize (IH (k + 1) ltac:(lia)). destruct (find_idle_mcb tab n (k + 1)); [done|].
  intros i Hi. destruct (Z.eq_dec i 0) as [->|Hne].
  - rewrite slot_zero by lia. by exists y.
  - destruct (IH (i - 1) ltac:(lia)) as (y' & Hy' & Hu'). exists y'. split; [|done].
    rewrite <- Hy'. f_equal. f_equal. unfold k. rewrite slot_next by lia. f_equal. lia.
Qed.

Lemma find_index_none {A} (P : A -> bool) l i :
  find_index P l i = None -> forall j x, l !! j = Some x -> P x = false.
Proof.
  revert i. induction l as [|a l IH]; intros i; cbn; [done|]. destruct (P a) eqn:E; [done|].
  intros Hn [|j] x Hx; cbn in Hx; [by simplify_eq|]. by eapply IH.
Qed.

(** The multiplexer the device already has is returned as it is, its timer apart. *)
Lemma reuse_mux s m y addr :
  rfc_mcb_tab s !! m = Some y -> mcb_is addr y = true ->
  match (x ← get_mcb m; when (bool_decide (mcb_state x = RFC_MX_STATE_CONNECTED)) (rfc_timer_stop m);;
         mret (Some m)) s with
  | Ok (r, s') => r = Some m /\ exists y', rfc_mcb_tab s' = <[m := y']> (rfc_mcb_tab s) /\
      mcb_bd_addr y = addr /\ mcb_state y <> RFC_MX_STATE_IDLE /\ y' = y <| mcb_timer := mcb_timer y' |>
  | Crash _ => False
  end.
Proof.
  intros Hy His. unfold mcb_is in His. apply andb_true_iff in His as [Hs Ha].
  apply negb_true_iff, bool_decide_eq_false in Hs. apply Z.eqb_eq in Ha.
  rewrite (run_get_mcb m y) by done. case_bool_decide; cbn [when].
  - unfold rfc_timer_stop. rewrite (run_upd_mcb_bind m y) by done. cbn. split; [done|].
    eexists. split; [done|]. by destruct y.
  - cbn. split; [done|]. exists y. rewrite list_insert_id by done. by destruct y.
Qed.

Lemma whole_packets ps : 0 < ps <= 1695 -> 10 < (1691 + 4) / ps * ps <= 1695.
Proof.
  intros Hp. change (1691 + 4) with 1695. pose proof (Z.div_mod 1695 ps ltac:(lia)).
  pose proof (Z.mod_pos_bound 1695 ps ltac:(lia)).
  assert (1 <= 1695 / ps) by (apply Z.div_le_lower_bound; lia). nia.
Qed.

(** The window for a frame size that fits an SDU. *)
Lemma window_of mtu :
  0 < mtu <= 1685 ->
  let cap c v := if c <? v then c else v in
  0 < cap 4 (6688 / mtu) < cap 10 (16720 / mtu) /\ cap 10 (16720 / mtu) < cap 15 (25080 / mtu) /\
  cap 10 (16720 / mtu) * mtu <= 16720.
Proof.
  intros Hm cap. unfold cap.
  assert (3 <= 6688 / mtu) by (apply Z.div_le_lower_bound; lia).
  assert (9 <= 16720 / mtu) by (apply Z.div_le_lower_bound; lia).
  assert (14 <= 25080 / mtu) by (apply Z.div_le_lower_bound; lia).
  pose proof (Z.mul_div_le 16720 mtu ltac:(lia)).
  pose proof (Z.mul_div_le 25080 mtu ltac:(lia)).
  pose proof (Z.mul_succ_div_gt 25080 mtu ltac:(lia)).
  destruct (Z.ltb_spec 4 (6688 / mtu)), (Z.ltb_spec 10 (16720 / mtu)), (Z.ltb_spec 15 (25080 / mtu)); nia.
Qed.

(** ** Properties *)

Lemma port_allocate_complete s dlci addr :
  length (port_tab s) = 30%nat -> 0 <= last_port_index s < 30 ->
  port_allocated s dlci addr (port_allocate_port dlci addr s).
Proof.
  intros Hl Hi. unfold port_allocated, port_allocate_port, mbind at 1, M_bind at 1, get.
  assert (Eu8 : u8 (last_port_index s + 1) = last_port_index s + 1) by (apply u8_id; unfold is_u8; lia).
  rewrite Eu8. pose proof (find_free_port_spec (port_tab s) 30 (last_port_index s + 1) Hl ltac:(lia)) as Hf.
  destruct (find_free_port _ _ _) as [k|].
  - destruct Hf as (Hk & x & Hx & Hu). rewrite (run_upd_port (Z.to_nat k) x) by done.
    cbn. split; [by exists x|]. eexists. split; [done|].
    unfold fresh_port. cbn -[u8 Z.of_nat]. split_and!; try done. rewrite u8_id by (unfold is_u8; lia). lia.
  - cbn. split; [done|]. intros p x Hx. pose proof (lookup_lt_Some _ _ _ Hx).
    destruct (slot_onto 30 (last_port_index s + 1) (Z.of_nat p)) as (i & Hi' & Es); [lia..|].
    destruct (Hf i ltac:(lia)) as (x' & Hx' & Hu'). rewrite Es, Nat2Z.id in Hx'. by simplify_eq.
Qed.

Lemma alloc_mux_complete s addr ini :
  length (rfc_mcb_tab s) = 16%nat -> 0 <= last_mux s ->
  mux_allocated s addr ini (rfc_alloc_multiplexer_channel addr ini s).
Proof.
  intros Hl Hi. unfold mux_allocated, rfc_alloc_multiplexer_channel, mbind at 1, M_bind at 1, get.
  destruct (find_index _ _ _) as [m|] eqn:Ef.
  - destruct (find_index_lt _ _ _ _ Ef) as (_ & y & Hy & His). rewrite Nat.sub_0_r in Hy.
    pose proof (reuse_mux s m y addr Hy His) as Hr. destruct ((get_mcb m ≫= _) s) as [[r s']|]; [|done].
    destruct Hr as (-> & y' & Ht & Ha & Hs & Hy'). exists y, y'. rewrite bool_decide_false by done.
    split_and!; try done. by rewrite Hy'.
  - pose proof (find_idle_mcb_spec (rfc_mcb_tab s) 16 (last_mux s + 1) Hl ltac:(lia)) as Hf.
    destruct (find_idle_mcb _ _ _) as [k|].
    + destruct Hf as (Hk & y & Hy & Hidle). rewrite (run_upd_mcb_bind (Z.to_nat k) y) by done.
      unfold rfc_timer_start. rewrite run_assoc, (run_get_mcb _ _ _ _ (lookup_put_mcb _ _ _ _ Hy)). cbn -[put_mcb].
      rewrite run_assoc. change (lift (Ok ?t)) with (mret t : M alarm). rewrite run_ret.
      rewrite (run_upd_mcb_bind _ _ _ _ _ (lookup_put_mcb _ _ _ _ Hy)). cbn. eexists y, _. split; [done|].
      split; [apply list_insert_insert_eq|]. rewrite bool_decide_true by done.
      split_and!; try done. intros m' y2. by apply (find_index_none _ _ _ Ef).
    + cbn. split; [done|]. intros m y Hy. pose proof (lookup_lt_Some _ _ _ Hy).
      destruct (slot_onto 16 (last_mux s + 1) (Z.of_nat m)) as (i & Hi' & Es); [lia..|].
      destruct (Hf i ltac:(lia)) as (y' & Hy' & Hb). rewrite Es, Nat2Z.id in Hy'. simplify_eq.
      split; [done|]. intros Ha. pose proof (find_index_none _ _ _ Ef m y Hy) as Hno.
      unfold mcb_is in Hno. rewrite bool_decide_false, Ha, Z.eqb_refl in Hno by done. done.
Qed.

(** Allocation fails only when it must. [port_allocate_port] takes a free entry whenever there is one,
    wherever the last allocation left off, makes it a fresh port with the handle of its place and touches
    no other; [rfc_alloc_multiplexer_channel] gives the multiplexer the device already has, and otherwise a
    fresh one whenever an entry is idle. *)
Theorem allocation_complete s dlci addr ini :
  length (port_tab s) = 30%nat -> 0 <= last_port_index s < 30 -> length (rfc_mcb_tab s) = 16%nat -> 0 <= last_mux s ->
  port_allocated s dlci addr (port_allocate_port dlci addr s) /\
  mux_allocated s addr ini (rfc_alloc_multiplexer_channel addr ini s).
Proof. intros Hp Hl Hm Hx. split; [by apply port_allocate_complete|by apply alloc_mux_complete]. Qed.

(** MTU selection never divides by zero.  It keeps a frame size the user asked for, and
    otherwise fills whole baseband packets and fits an L2CAP SDU; the receive window it
    derives is never empty, holds at most [PORT_RX_HIGH_WM] bytes, and is refilled
    before it is used up and used up before the critical mark. *)
Theorem select_mtu_window x packet_size :
  0 <= port_mtu x <= L2CAP_MTU_SIZE - RFCOMM_DATA_OVERHEAD -> is_u16 packet_size ->
  returns (select_mtu packet_size x) (fun x' =>
    0 < port_mtu x' <= L2CAP_MTU_SIZE - RFCOMM_DATA_OVERHEAD /\
    (port_mtu x <> 0 -> port_mtu x' = port_mtu x) /\
    (port_mtu x = 0 -> 0 < packet_size <= L2CAP_MTU_SIZE + L2CAP_PKT_OVERHEAD ->
       (port_mtu x' + RFCOMM_DATA_OVERHEAD + L2CAP_PKT_OVERHEAD) mod packet_size = 0) /\
    0 < credit_rx_low x' < credit_rx_max x' /\ credit_rx_max x' < rx_buf_critical x' /\
    credit_rx_max x' <= PORT_RX_BUF_HIGH_WM /\ credit_rx_max x' * port_mtu x' <= PORT_RX_HIGH_WM).
Proof.
  intros Hm Hp. unfold select_mtu. set (x1 := if port_mtu x =? 0 then _ else _).
  assert (H1 : 0 < port_mtu x1 <= 1685 /\ (port_mtu x <> 0 -> port_mtu x1 = port_mtu x) /\
    (port_mtu x = 0 -> 0 < packet_size <= 1695 -> (port_mtu x1 + 6 + 4) mod packet_size = 0)).
  { unfold x1, is_u16 in *. destruct (Z.eqb_spec (port_mtu x) 0) as [E|E]; [|split_and!; [lia..|done]].
    split; [|split; [done|intros _]].
    - destruct (Z.eqb_spec packet_size 0); [done|]. destruct (Z.leb_spec packet_size (1691 + 4)); [|done].
      pose proof (whole_packets packet_size ltac:(lia)). cbn -[u16 Z.mul Z.div Z.sub]. rewrite u16_small; lia.
    - intros Hps. destruct (Z.eqb_spec packet_size 0); [lia|].
      destruct (Z.leb_spec packet_size (1691 + 4)); [|lia].
      pose proof (whole_packets packet_size ltac:(lia)). cbn -[u16 Z.mul Z.div Z.sub Z.modulo].
      rewrite u16_small by lia. replace (_ - 6 - 4 + 6 + 4) with ((1691 + 4) / packet_size * packet_size) by lia.
      apply Z.mod_mul. lia. }
  clearbody x1. destruct H1 as (Hx & Hk & Hw). unfold div.
  destruct (Z.eqb_spec (port_mtu x1) 0); [lia|]. cbn -[Z.div Z.mul].
  pose proof (window_of _ Hx) as (H1 & H2 & H3). unfold returns, mret, outcome_ret. cbn -[Z.div Z.mul Z.ltb].
  split_and!; try done; try lia. destruct (Z.ltb_spec 10 (16720 / port_mtu x1)); lia.
Qed.
