(* ===== verification/RfcReject.v ===== *)
(** * RfcReject: what the layer refuses

    A frame whose check sequence fails has no effect, and a handle that names no
    open port is refused by every call without a change of state. *)

From Stdlib Require Import ZArith Lia.
From stdpp Require Import gmap.
From S2P Require Import Prelude RfcFcs Osi RfcDefs RfcState RfcRun RfcFrames RfcUtils PortRfc.
From S2P Require Import RfcMxFsm RfcPortFsm RfcL2capIf PortApi RfcFramesProps.

(** The last octet is the check sequence of the first two octets of a UIH frame
    and of the first three of any other. *)
Definition fcs_ok (bytes : list Z) : bool :=
  match bytes with
  | _ :: c :: _ => rfc_check_fcs (take (if c .&~ 0x10 =? RFCOMM_UIH then 2 else 3) bytes)
                     (default 0 (list.last bytes))
  | _ => false
  end.

(** The handle is out of range or its port is not opened. *)
Definition refused (s : rfc_cb) (handle : Z) : Prop :=
  bad_handle handle = true \/
  exists x, port_tab s !! handle_port handle = Some x /\ not_opened x = true.

Definition refusal (handle : Z) : Z := if bad_handle handle then PORT_BAD_HANDLE else PORT_NOT_OPENED.

(** * Lemmas *)

Lemma check_frame_fcs ini f len h3 h2 fcs :
  rfc_check_frame ini f len h3 h2 fcs <> RFC_EVENT_BAD_FRAME ->
  rfc_check_fcs (if mx_type f =? RFCOMM_UIH then h2 else h3) fcs = true.
Proof.
  unfold rfc_check_frame.
  destruct (Z.eqb_spec (mx_type f) RFCOMM_SABME) as [->|]; [cbn -[rfc_check_fcs]|].
  { destruct (rfc_check_fcs h3 fcs); [done|]. by rewrite orb_true_r. }
  destruct (Z.eqb_spec (mx_type f) RFCOMM_UA) as [->|]; [cbn -[rfc_check_fcs]|].
  { destruct (rfc_check_fcs h3 fcs); [done|]. by rewrite orb_true_r. }
  destruct (Z.eqb_spec (mx_type f) RFCOMM_DM) as [->|]; [cbn -[rfc_check_fcs]|].
  { destruct (rfc_check_fcs h3 fcs); [done|]. by rewrite orb_true_r. }
  destruct (Z.eqb_spec (mx_type f) RFCOMM_DISC) as [->|]; [cbn -[rfc_check_fcs]|].
  { destruct (rfc_check_fcs h3 fcs); [done|]. by rewrite orb_true_r. }
  destruct (Z.eqb_spec (mx_type f) RFCOMM_UIH); [|done].
  destruct (negb (RFCOMM_VALID_DLCI _)); [done|]. by destruct (rfc_check_fcs h2 fcs).
Qed.

Lemma last_payload b : bh_ok b -> 0 < bh_len b ->
  bh_read b (bh_offset b + bh_len b - 1) = Ok (default 0 (list.last (bh_payload b))).
Proof.
  intros Hb Hl. pose proof (bh_payload_len b Hb) as Hp.
  destruct (list.last (bh_payload b)) as [x|] eqn:E.
  - rewrite last_lookup in E. replace (bh_offset b + bh_len b - 1) with
      (bh_offset b + Z.of_nat (Nat.pred (length (bh_payload b)))) by lia. by apply bh_read_at.
  - apply last_None in E. rewrite E in Hp. cbn in Hp. lia.
Qed.

(** An accepted frame has passed its check; [b1] is what is left of [b] after its header. *)
Lemma parse_body_fcs y f b b1 n len a c rest :
  bh_ok b -> bh_payload b = a :: c :: rest -> mx_type f = c .&~ 0x10 -> 3 <= n -> n < bh_len b ->
  b1 = b <| bh_len := bh_len b - (n + 1) |> <| bh_offset := bh_offset b + n |> ->
  returns (rfc_parse_body y f b1 (bh_offset b) (bh_offset b + n) len)
    (fun r => r.1.1 <> RFC_EVENT_BAD_FRAME -> fcs_ok (bh_payload b) = true).
Proof.
  intros Hb Hp Hty Hn Hl ->. pose proof Hb as (Ho & _ & Hd & H16 & Hu). unfold rfc_parse_body.
  destruct (_ && _) eqn:Ec; [by apply returns_ret|].
  eapply returns_bind with (R := fun r => mx_type r.1.1 = mx_type f /\ bh_data r.1.2 = bh_data b /\
    r.2 + bh_len r.1.2 = bh_offset b + bh_len b - 1).
  { destruct (carries_credit y f).
    - apply andb_false_iff in Ec as [|Ec]; [done|]. cbn in Ec. apply Z.ltb_ge in Ec.
      eapply returns_bind; [apply bh_read_ok; cbn; [done|lia]|]. intros cr _. apply returns_ret.
      cbn -[u16]. split_and!; try done. rewrite u16_small by lia. lia.
    - apply returns_ret. cbn. split_and!; try done. lia. }
  intros [[f' b'] p'] (Hty' & Hd' & Hpos). cbn in Hty', Hd', Hpos.
  destruct (Z.eqb_spec (bh_len b') len) as [<-|]; [cbn [negb]|by apply returns_ret].
  rewrite Hpos. unfold bh_read_bytes, bh_read. rewrite Hd'. fold (bh_read b (bh_offset b + bh_len b - 1)).
  rewrite last_payload by (done || lia). cbn [mbind outcome_bind].
  fold (bh_read_bytes b (bh_offset b) 3). fold (bh_read_bytes b (bh_offset b) 2).
  rewrite !payload_prefix by (done || lia). apply returns_ret. cbn [fst].
  intros Hev%check_frame_fcs. unfold fcs_ok. rewrite Hp. rewrite Hp, Hty', Hty in Hev.
  by destruct (_ =? RFCOMM_UIH).
Qed.

Lemma parse_data_fcs y f b :
  bh_ok b ->
  returns (rfc_parse_data y f b) (fun r => r.1.1 <> RFC_EVENT_BAD_FRAME -> fcs_ok (bh_payload b) = true).
Proof.
  intros Hb. pose proof Hb as (Ho & Hl & Hd & H16 & Hu). unfold rfc_parse_data.
  destruct (Z.ltb_spec (bh_len b) RFCOMM_CTRL_FRAME_LEN); [by apply returns_ret|].
  pose proof (bh_payload_len b Hb) as Hlen.
  destruct (bh_payload b) as [|a [|c [|l rest]]] eqn:Hp; cbn in Hlen; [lia..|].
  pose proof (bh_read_at b 0 a Hb ltac:(by rewrite Hp)) as R0. rewrite Z.add_0_r in R0.
  pose proof (bh_read_at b 1 c Hb ltac:(by rewrite Hp)) as R1. change (Z.of_nat 1) with 1 in R1.
  pose proof (bh_read_at b 2 l Hb ltac:(by rewrite Hp)) as R2. change (Z.of_nat 2) with 2 in R2.
  unfold RFCOMM_PARSE_CTRL_FIELD, RFCOMM_PARSE_TYPE_FIELD. rewrite R0. cbn [mbind outcome_bind].
  destruct (nz (a .& RFCOMM_EA)) eqn:Ea.
  2: { apply returns_assoc. eapply returns_bind; [apply bh_read_ok; [done|lia]|]. intros d _.
       apply returns_ret_bind. cbn -[Z.shiftr]. rewrite Ea. by apply returns_ret. }
  apply returns_ret_bind. rewrite Ea. cbn [negb]. rewrite R1. cbn [mbind outcome_bind].
  apply returns_ret_bind. replace (bh_offset b + 1 + 1) with (bh_offset b + 2) by lia.
  rewrite R2. cbn [mbind outcome_bind]. destruct (_ && _) eqn:El; [by apply returns_ret|].
  eapply returns_bind with (R := fun r => r.2 = bh_offset b + 3 + b2z (negb (nz (l .& RFCOMM_EA)))).
  { unfold nz. destruct (l .& RFCOMM_EA =? 0); [|apply returns_ret; cbn; lia].
    cbn in El. apply negb_false_iff, Z.ltb_lt in El.
    eapply returns_bind; [apply bh_read_ok; [done|lia]|]. intros d _. apply returns_ret. cbn. lia. }
  intros [len p] Hpos. cbn in Hpos. subst p. cbn [b2z].
  destruct (Z.ltb_spec (bh_len b) (3 + 0 + b2z (negb (nz (l .& RFCOMM_EA))) + 1)); [by apply returns_ret|].
  set (e := b2z (negb (nz (l .& RFCOMM_EA)))) in *. assert (He : 0 <= e) by (unfold e; by destruct (nz (l .& _))). clearbody e.
  rewrite <- Hp. rewrite <- (Z.add_assoc (bh_offset b)). eapply parse_body_fcs; try done; try lia.
  unfold set, set_bh_offset, set_bh_len. cbn -[u16]. rewrite !u16_small by lia. f_equal; lia.
Qed.

Section Refusals.
Context `{RfcEnv}.

(** C39: a received packet whose check sequence fails has no effect, on whichever
    channel it arrives: nothing is sent, no callback runs and no port or
    multiplexer changes; only the scratch frame of the parser is left different. *)
Theorem corrupt_frame_ignored s cid b :
  (forall m, rfc_lcid_mcb s !! cid = Some m -> (m < length (rfc_mcb_tab s))%nat) ->
  bh_ok b -> fcs_ok (bh_payload b) = false ->
  exists f, RFCOMM_BufDataInd cid b s = Ok (tt, s <| rx_frame := f |>).
Proof.
  intros Hm Hb Hf. assert (Hs : s <| rx_frame := rx_frame s |> = s) by by destruct s.
  unfold RFCOMM_BufDataInd, rfc_find_lcid_mcb. rewrite run_assoc.
  change ((get ≫= ?k) s) with (k s s). cbv beta.
  destruct (rfc_lcid_mcb s !! cid) as [m|]; [|exists (rx_frame s); by rewrite Hs].
  destruct (lookup_lt_is_Some_2 (rfc_mcb_tab s) m) as [y Hy]; [by apply Hm|].
  rewrite run_assoc, (run_get_mcb m y), run_ret by done.
  destruct (mcb_lcid y =? cid); [|exists (rx_frame s); by rewrite Hs].
  rewrite (run_get_mcb m y) by done. unfold get_frame, mbind, M_bind, lift.
  pose proof (parse_data_fcs y (rx_frame s) b Hb) as Hr.
  destruct (rfc_parse_data y (rx_frame s) b) as [[[ev f'] b']|] eqn:Er; [|done]. cbn in Hr.
  exists f'. destruct (decide (ev = RFC_EVENT_BAD_FRAME)) as [->|Hne]; [unfold get, mret, M_ret; by rewrite Er|].
  apply Hr in Hne. congruence.
Qed.

(** every call of the interface on a handle that is out of range, or whose port
    is not opened, returns the error code and leaves the state as it was. *)
Theorem closed_handle_refused s handle :
  refused s handle ->
  (forall cb, PORT_SetEventCallback handle cb s = Ok (refusal handle, s)) /\
  (forall cb, PORT_SetDataCOCallback handle cb s = Ok (refusal handle, s)) /\
  (forall mask, PORT_SetEventMask handle mask s = Ok (refusal handle, s)) /\
  (PORT_CheckConnection handle s = Ok ((refusal handle, None), s)) /\
  (forall st, PORT_SetState handle st s = Ok (refusal handle, s)) /\
  (PORT_GetState handle s = Ok ((refusal handle, None), s)) /\
  (forall on, PORT_FlowControl_MaxCredit handle on s = Ok (refusal handle, s)) /\
  (forall n, PORT_ReadData handle n s = Ok ((refusal handle, []), s)) /\
  (forall data, PORT_WriteData handle data s = Ok ((refusal handle, 0), s)) /\
  (PORT_WriteDataCO handle s = Ok ((refusal handle, 0), s)).
Proof.
  intros Hr. unfold PORT_SetEventCallback, PORT_SetDataCOCallback, PORT_SetEventMask, on_open_port,
    PORT_CheckConnection, PORT_SetState, PORT_GetState, PORT_FlowControl_MaxCredit, PORT_ReadData,
    PORT_WriteData, PORT_WriteDataCO, refusal.
  destruct Hr as [->|(x & Hx & Hno)]; [done|]. destruct (bad_handle handle); [done|].
  split_and!; intros; rewrite (run_get_port _ x) by done; by rewrite Hno.
Qed.

End Refusals.
