(* ===== verification/RfcInvPort.v ===== *)
(** * RfcInvPort: the port layer keeps the invariant

    Every function of [PortRfc] preserves [inv], given state machines that do
    ([SmOk]); the hypotheses on [k] bound how deep its calls nest. *)

From Stdlib Require Import ZArith Lia.
From stdpp Require Import gmap.
From S2P Require Import Prelude Osi RfcDefs RfcState RfcFrames RfcFramesProps RfcUtils PortRfc.
From S2P Require Import RfcInv RfcInvBase RfcInvUtils.

Section Calls.
Context `{SmCalls} (c : icfg) (k : nat) {Hsm : SmOk c k}.

Lemma pres_call_mx_sm m ev d :
  (m < 16)%nat -> ev <> RFC_MX_EVENT_TIMEOUT -> (call_rank (MxCall m ev d) <= k)%nat ->
  pres c (call_mx_sm m ev d) T.
Proof. intros Hm He Hk. by apply sm_pres. Qed.

Lemma pres_call_port_sm o ev d :
  (forall p, o = Some p -> call_wf c (PortCall p ev d) /\ (call_rank (PortCall p ev d) <= k)%nat) ->
  pres c (call_port_sm o ev d) T.
Proof.
  intros Ho. destruct o as [p|]; [|apply pres_abort; by right].
  destruct (Ho p eq_refl). by apply sm_pres.
Qed.

Lemma pres_rfc_check_mcb_active m : (m < 16)%nat -> (1 <= k)%nat -> pres c (rfc_check_mcb_active m) T.
Proof. intros Hm Hk. unfold rfc_check_mcb_active. pres. by apply pres_call_mx_sm. Qed.

Lemma pres_rfc_sec_check_complete p res :
  (p < 30)%nat -> (2 <= k)%nat -> (u8 res = 0 -> grants c) -> pres c (rfc_sec_check_complete p res) T.
Proof.
  intros Hp Hk Hg. unfold rfc_sec_check_complete. pres.
  apply pres_call_port_sm. intros ? [= <-]. done.
Qed.

Lemma reinit_port_ok p x : port_ok c p x -> port_ok c p (reinit_port x).
Proof.
  intros H1. unfold reinit_port. destruct (is_server (put_p_mcb None _)); port_split H1.
Qed.

Hint Resolve pres_rfc_check_mcb_active : pres.
Hint Resolve reinit_port_ok : rfc.

Lemma pres_port_release_port p : (p < 30)%nat -> (1 <= k)%nat -> pres c (port_release_port p) T.
Proof.
  intros Hp Hk. unfold port_release_port. pres.
Qed.

End Calls.

#[export] Hint Resolve pres_rfc_check_mcb_active pres_rfc_sec_check_complete pres_port_release_port : pres.

(** The credits offered in a PN frame. *)
Lemma k_bound x : 0 <= x <= 10 -> 0 <= u8 (if x <? 7 then x else 7) <= 10.
Proof. intros Hx. rewrite u8_id by (unfold is_u8; range_tac). range_tac. Qed.

Ltac offer_tac :=
  match goal with
  | Hc : 0 <= credit_rx ?y <= 10 /\ _ |- context [credit_rx_max ?y <? 7] =>
      let Hb := fresh in pose proof (k_bound (credit_rx_max y) (proj2 Hc)) as Hb;
      let Hx := fresh in intros ? Hx; port_split Hx
  end.

Section Port.
Context `{RfcEnv} `{SmCalls} (c : icfg) (k : nat) {Hsm : SmOk c k}.

(** A call on the port that a lookup returned. *)
Lemma pres_call_found o ev d :
  port_index o -> (forall p, (p < 30)%nat -> call_wf c (PortCall p ev d)) ->
  (call_rank (PortCall 0 ev d) <= k)%nat -> pres c (call_port_sm o ev d) T.
Proof.
  intros Ho Hwf Hr. apply (pres_call_port_sm c k). intros p ->. split; [by apply Hwf|exact Hr].
Qed.

Ltac call_found := apply pres_call_found; [assumption|intros; by split|simpl; lia].

Lemma pres_event_callback p ev : (p < 30)%nat -> pres c (event_callback p ev) T.
Proof. intros Hp. unfold event_callback. pres. Qed.

Lemma pres_mgmt_callback p code : (p < 30)%nat -> pres c (mgmt_callback p code) T.
Proof. intros Hp. unfold mgmt_callback. pres. Qed.

Hint Resolve pres_event_callback pres_mgmt_callback : pres.

(** *** rfc_port_if.cc *)

Lemma pres_RFCOMM_StartReq m : (m < 16)%nat -> (2 <= k)%nat -> pres c (RFCOMM_StartReq m) T.
Proof. intros. by apply (pres_call_mx_sm c k). Qed.

Lemma pres_RFCOMM_StartRsp m r : (m < 16)%nat -> (2 <= k)%nat -> pres c (RFCOMM_StartRsp m r) T.
Proof. intros. by apply (pres_call_mx_sm c k). Qed.

Lemma pres_RFCOMM_DlcReleaseReq m dlci :
  (m < 16)%nat -> 0 <= dlci -> (2 <= k)%nat -> pres c (RFCOMM_DlcReleaseReq m dlci) T.
Proof. intros. unfold RFCOMM_DlcReleaseReq. pres_step. call_found. Qed.

Lemma pres_RFCOMM_DataReq m dlci b :
  (m < 16)%nat -> 0 <= dlci -> tx_ok b -> (1 <= k)%nat -> pres c (RFCOMM_DataReq m dlci b) T.
Proof. intros. unfold RFCOMM_DataReq. pres_step. call_found. Qed.

Lemma pres_RFCOMM_ParameterNegotiationRequest m dlci mtu :
  (m < 16)%nat -> 0 <= dlci -> pres c (RFCOMM_ParameterNegotiationRequest m dlci mtu) T.
Proof.
  intros. unfold RFCOMM_ParameterNegotiationRequest. pres. offer_tac.
Qed.

Lemma pres_RFCOMM_ParameterNegotiationResponse m dlci mtu cl kk :
  (m < 16)%nat -> pres c (RFCOMM_ParameterNegotiationResponse m dlci mtu cl kk) T.
Proof. intros. unfold RFCOMM_ParameterNegotiationResponse. pres. Qed.

Lemma pres_RFCOMM_PortParameterNegotiationResponse m dlci p mask :
  (m < 16)%nat -> pres c (RFCOMM_PortParameterNegotiationResponse m dlci p mask) T.
Proof. intros. unfold RFCOMM_PortParameterNegotiationResponse. pres. Qed.

Lemma pres_RFCOMM_ControlReq o dlci pars :
  mcb_index o -> 0 <= dlci -> pres c (RFCOMM_ControlReq o dlci pars) T.
Proof. intros. unfold RFCOMM_ControlReq. pres. Qed.

Lemma pres_RFCOMM_FlowReq m dlci enable :
  (m < 16)%nat -> 0 <= dlci -> pres c (RFCOMM_FlowReq m dlci enable) T.
Proof. intros. unfold RFCOMM_FlowReq. pres. Qed.

Lemma pres_RFCOMM_LineStatusReq m dlci status :
  (m < 16)%nat -> 0 <= dlci -> pres c (RFCOMM_LineStatusReq m dlci status) T.
Proof. intros. unfold RFCOMM_LineStatusReq. pres. Qed.

Hint Resolve pres_RFCOMM_StartReq pres_RFCOMM_StartRsp pres_RFCOMM_DlcReleaseReq
  pres_RFCOMM_DataReq pres_RFCOMM_ParameterNegotiationRequest
  pres_RFCOMM_ParameterNegotiationResponse pres_RFCOMM_PortParameterNegotiationResponse
  pres_RFCOMM_ControlReq pres_RFCOMM_FlowReq pres_RFCOMM_LineStatusReq : pres.

(** *** Flow control and closing *)

Lemma pres_port_flow_control_peer p enable count :
  (p < 30)%nat -> 0 <= count -> pres c (port_flow_control_peer p enable count) T.
Proof. intros. unfold port_flow_control_peer. pres.
Qed.

Lemma pres_port_rfc_closed p res : (p < 30)%nat -> (1 <= k)%nat -> pres c (port_rfc_closed p res) T.
Proof. intros. unfold port_rfc_closed. pres. Qed.

Hint Resolve pres_port_flow_control_peer pres_port_rfc_closed : pres.

Lemma pres_rfc_port_closed p : (p < 30)%nat -> (1 <= k)%nat -> pres c (rfc_port_closed p) T.
Proof. intros. unfold rfc_port_closed. pres. Qed.

Lemma pres_PORT_DlcReleaseInd o dlci :
  mcb_index o -> 0 <= dlci -> (1 <= k)%nat -> pres c (PORT_DlcReleaseInd o dlci) T.
Proof. intros. unfold PORT_DlcReleaseInd. pres. Qed.

Lemma pres_close_ports_of o res : (1 <= k)%nat -> pres c (close_ports_of o res) T.
Proof. intros. apply pres_for_up. intros p Hp. pres. Qed.

Hint Resolve pres_rfc_port_closed pres_PORT_DlcReleaseInd pres_close_ports_of : pres.

Lemma pres_PORT_CloseInd m : (m < 16)%nat -> (1 <= k)%nat -> pres c (PORT_CloseInd m) T.
Proof. intros. unfold PORT_CloseInd. pres. Qed.

Lemma pres_Port_TimeOutCloseMux o : (1 <= k)%nat -> pres c (Port_TimeOutCloseMux o) T.
Proof. intros. unfold Port_TimeOutCloseMux. pres. Qed.

Lemma pres_RFCOMM_DlcEstablishRsp m dlci mtu result :
  (m < 16)%nat -> 0 <= dlci -> (1 <= k)%nat -> (u8 result = 0 -> grants c) ->
  pres c (RFCOMM_DlcEstablishRsp m dlci mtu result) T.
Proof.
  intros. unfold RFCOMM_DlcEstablishRsp. pres. apply pres_call_found; [done|by split|simpl; lia].
Qed.

Hint Resolve pres_PORT_CloseInd pres_Port_TimeOutCloseMux : pres.

(** *** Negotiation and establishment *)

Lemma pres_PORT_PortNegCnf m dlci result :
  (m < 16)%nat -> 0 <= dlci -> (2 <= k)%nat -> pres c (PORT_PortNegCnf m dlci result) T.
Proof. intros. unfold PORT_PortNegCnf. pres. Qed.

Hint Resolve pres_PORT_PortNegCnf : pres.

Lemma pres_RFCOMM_PortParameterNegotiationRequest o dlci pars :
  mcb_index o -> 0 <= dlci -> (2 <= k)%nat ->
  pres c (RFCOMM_PortParameterNegotiationRequest o dlci pars) T.
Proof.
  intros Ho Hd Hk. unfold RFCOMM_PortParameterNegotiationRequest.
  eapply pres_bind with (R := fun m => (m < 16)%nat).
  - apply pres_lift. destruct o; [done|by left].
  - intros m Hm. pres.
Qed.

Hint Resolve pres_RFCOMM_PortParameterNegotiationRequest : pres.

(** The lookup that [PORT_PortNegInd], [PORT_DlcEstablishInd] and
    [PORT_ParNegInd] share: a port of the multiplexer, or a listening one. *)
Lemma pres_find_or_listen {B} m dlci (kont : option nat -> M B) Q :
  (m < 16)%nat -> 0 <= dlci <= RFCOMM_MAX_DLCI ->
  (forall o, port_index o -> pres c (kont o) Q) ->
  pres c (o ← port_find_mcb_dlci_port (Some m) dlci;
          o ← match o with
              | Some p => mret (Some p)
              | None =>
                  o ← port_find_dlci_port dlci;
                  match o with
                  | None => mret None
                  | Some p => x ← get_port p;
                              put_port_handle m dlci (port_handle x);;
                              mret (Some p)
                  end
              end;
          kont o) Q.
Proof. intros Hm Hd Hk. pres; apply Hk; done. Qed.

Lemma pres_PORT_PortNegInd m dlci pars mask :
  (m < 16)%nat -> 0 <= dlci <= RFCOMM_MAX_DLCI -> pres c (PORT_PortNegInd m dlci pars mask) T.
Proof. intros. apply pres_find_or_listen; [done|done|]. intros o Ho. pres. Qed.

Lemma pres_PORT_DlcEstablishCnf m dlci mtu result :
  (m < 16)%nat -> 0 <= dlci -> is_u16 mtu -> (1 <= k)%nat -> (result = 0 -> (2 <= k)%nat) ->
  pres c (PORT_DlcEstablishCnf m dlci mtu result) T.
Proof.
  intros Hm Hd Hu Hk1 Hk2. unfold PORT_DlcEstablishCnf. pres_step. pres_step; [|pres].
  destruct (Z.eqb_spec result RFCOMM_SUCCESS) as [Er|Er]; cbn [negb]; [specialize (Hk2 Er)|]; pres.
Qed.

Lemma pres_RFCOMM_DlcEstablishReq m dlci mtu :
  (m < 16)%nat -> 0 <= dlci -> (3 <= k)%nat -> pres c (RFCOMM_DlcEstablishReq m dlci mtu) T.
Proof.
  intros. unfold RFCOMM_DlcEstablishReq. pres_step. pres_step.
  - apply pres_PORT_DlcEstablishCnf; try done; try lia.
  - pres. call_found.
Qed.

Lemma pres_PORT_DlcEstablishInd m dlci mtu :
  (m < 16)%nat -> 0 <= dlci <= RFCOMM_MAX_DLCI -> is_u16 mtu -> (1 <= k)%nat -> grants c ->
  pres c (PORT_DlcEstablishInd m dlci mtu) T.
Proof.
  intros Hm Hd Hu Hk Hg. apply pres_find_or_listen; [done|done|]. intros o Ho.
  pres_step; [|apply pres_RFCOMM_DlcEstablishRsp; done || lia].
  pres_step. pres_step; [pres|]. pres_step.
  eapply pres_bind; [apply pres_RFCOMM_DlcEstablishRsp; done || lia|intros _ _]. pres.
Qed.

(** *** Starting the multiplexer *)

Lemma pres_start_cnf_loop n p m result b :
  (p + n <= 30)%nat -> (m < 16)%nat -> (1 <= k)%nat -> pres c (start_cnf_loop n p m result b) T.
Proof.
  intros Hn Hm Hk. revert p b Hn. induction n as [|n IH]; intros p b Hn; cbn [start_cnf_loop].
  - by apply pres_ret.
  - assert (IH' : forall b, pres c (start_cnf_loop n (S p) m result b) T) by (intros; apply IH; lia).
    pres.
Qed.

Lemma pres_PORT_StartCnf m result : (m < 16)%nat -> (1 <= k)%nat -> pres c (PORT_StartCnf m result) T.
Proof.
  intros. unfold PORT_StartCnf.
  eapply pres_bind; [apply pres_start_cnf_loop; done || lia|]. intros ? _. pres.
Qed.

Lemma pres_PORT_StartInd m : (m < 16)%nat -> (2 <= k)%nat -> pres c (PORT_StartInd m) T.
Proof. intros. unfold PORT_StartInd. pres. Qed.

Hint Resolve pres_PORT_PortNegInd pres_RFCOMM_DlcEstablishReq pres_PORT_StartCnf
  pres_PORT_StartInd : pres.

(** *** DLC parameter negotiation *)

Lemma pres_PORT_ParNegInd m dlci mtu cl kk :
  (m < 16)%nat -> 0 <= dlci <= RFCOMM_MAX_DLCI -> is_u16 mtu -> is_u16 kk -> (1 <= k)%nat ->
  pres c (PORT_ParNegInd m dlci mtu cl kk) T.
Proof.
  intros Hm Hd Hu Hkk Hk. apply pres_find_or_listen; [done|done|]. intros o Ho.
  pres. offer_tac.
Qed.

Lemma pres_PORT_ParNegCnf m dlci mtu cl kk :
  (m < 16)%nat -> 0 <= dlci -> is_u16 mtu -> is_u16 kk -> (3 <= k)%nat ->
  pres c (PORT_ParNegCnf m dlci mtu cl kk) T.
Proof. intros. unfold PORT_ParNegCnf. pres. Qed.

(** *** Data *)

Lemma sum_len_nonneg l : Forall tx_ok l -> 0 <= sum_len l <= 4085 * Z.of_nat (length l).
Proof.
  induction 1 as [|b l (_ & Hb & _) Hl IH]; cbn [sum_len foldr length]; [lia|].
  fold (sum_len l). lia.
Qed.

(** Taking the first buffer of the send queue. *)
Lemma tx_dequeue_ok p x b l :
  port_ok c p x -> pd_queue (tx x) = Some (b :: l) ->
  tx_ok b /\ port_ok c p (x <| tx ::= fun d => d <| pd_queue := Some l |>
                               <| queue_size ::= fun n => u32 (n - bh_len b) |> |>).
Proof.
  intros Hx Hq. destruct Hx as (H1 & H2 & H3 & Hx). rewrite Hq in H3.
  destruct H3 as (Hf & Hl & Hs). inversion_clear Hf as [|? ? Hb Hf']. split; [done|].
  unfold port_ok. cbn -[u32 Z.sub]. split_and!; try apply Hx; try done; try lia.
  - cbn in Hl. lia.
  - rewrite Hs. cbn [sum_len foldr]. fold (sum_len l). pose proof (sum_len_nonneg l Hf').
    cbn in Hl. unfold u32. rewrite Z.mod_small; lia.
Qed.

Lemma find_mcb_dlci_port_state o dlci s r s' :
  port_find_mcb_dlci_port o dlci s = Ok (r, s') -> s' = s.
Proof.
  unfold port_find_mcb_dlci_port, mbind, M_bind, get_mcb, lift, mret, M_ret. intros E.
  destruct o as [m|]; [|by injection E]. destruct (_ <? _); [by injection E|].
  destruct (_ !! m) as [y|]; [|done]. destruct (rd _ _); [by injection E|done].
Qed.

Lemma RFCOMM_DataReq_same_tx m dlci b s u s' :
  RFCOMM_DataReq m dlci b s = Ok (u, s') -> same_tx s s'.
Proof.
  unfold RFCOMM_DataReq, mbind, M_bind. intros E.
  destruct (port_find_mcb_dlci_port _ _ _) as [[o s1]|e] eqn:Ef; [|done].
  apply find_mcb_dlci_port_state in Ef as ->.
  destruct o as [p|]; [|done]. by eapply sm_data.
Qed.

Lemma send_tx_loop_ok fuel p ev s x :
  (1 <= k)%nat -> (p < 30)%nat -> inv c s -> port_tab s !! p = Some x ->
  (Z.to_nat (fixed_queue_length (pd_queue (tx x))) < fuel)%nat ->
  match send_tx_loop fuel p ev s with Ok (_, s') => inv c s' /\ True | Crash e => allowed e end.
Proof.
  intros Hk Hp. revert s x ev. induction fuel as [|fuel IH]; intros s x ev Hs Hx Hf; [lia|].
  cbn [send_tx_loop]. unfold mbind at 1, M_bind at 1, get_port at 1. rewrite Hx.
  destruct (p_mcb (rfc x)) as [m|] eqn:Em; [|done].
  pose proof (inv_port _ _ Hs _ _ Hx) as Hok. pose proof (port_ok_mcb _ _ _ _ Hok Em) as Hm.
  unfold mbind at 1, M_bind at 1, get_mcb at 1.
  destruct (lookup_lt_is_Some_2 (rfc_mcb_tab s) m) as [y Hy].
  { rewrite (inv_nmcbs _ _ Hs). lia. }
  rewrite Hy. destruct (_ || _); [done|].
  destruct (fixed_queue_try_dequeue _) as [[b q]|] eqn:Eq; [|done].
  apply fixed_queue_dequeue_spec in Eq as (l & El & ->).
  destruct (tx_dequeue_ok _ _ _ _ Hok El) as [Hb Hok1].
  unfold mbind at 1, M_bind at 1, upd_port at 1. rewrite Hx.
  pose proof (inv_set_port _ _ _ _ Hs Hok1) as Hs1.
  unfold mbind at 1, M_bind at 1.
  set (x1 := x <| tx ::= _ |>) in *.
  assert (Hx1 : port_tab (s <| port_tab ::= <[p:=x1]> |>) !! p = Some x1).
  { cbn. apply list_lookup_insert_eq. by eapply lookup_lt_Some. }
  set (s1 := s <| port_tab ::= <[p:=x1]> |>) in *.
  pose proof (pres_RFCOMM_DataReq m (port_dlci x) b Hm ltac:(apply Hok) Hb Hk s1 Hs1) as Hreq.
  destruct (RFCOMM_DataReq m (port_dlci x) b s1) as [[u s2]|e] eqn:Er; [|done].
  destruct Hreq as [Hs2 _]. apply RFCOMM_DataReq_same_tx in Er.
  unfold mbind at 1, M_bind at 1, get_port at 1.
  destruct (lookup_lt_is_Some_2 (port_tab s2) p) as [x2 Hx2].
  { rewrite (inv_nports _ _ Hs2). lia. }
  rewrite Hx2. destruct (_ =? 0); [done|].
  apply (IH s2 x2); try done.
  destruct (Er _ _ Hx2) as (x1' & Hx1' & Hq & _). simplify_eq. rewrite Hq.
  rewrite El in Hf. cbn in Hf |- *. lia.
Qed.

Lemma pres_port_rfc_send_tx_data p : (p < 30)%nat -> (1 <= k)%nat -> pres c (port_rfc_send_tx_data p) T.
Proof.
  intros Hp Hk. unfold port_rfc_send_tx_data. apply pres_get_port_at; [done|]. intros x Hx.
  destruct (0 <? queue_size (tx x)).
  - eapply pres_at_bind with (R := T); [|intros ? _; pres].
    eapply pres_at_bind with (R := T); [|intros ? _; pres].
    intros s Hs Hxs. eapply send_tx_loop_ok; [done..|]. lia.
  - apply pres_at_drop. pres.
Qed.

Hint Resolve pres_port_rfc_send_tx_data : pres.

Lemma pres_flow_ind_port p : (p < 30)%nat -> (1 <= k)%nat -> pres c (flow_ind_port p) T.
Proof. intros. unfold flow_ind_port. pres. Qed.

Hint Resolve pres_flow_ind_port : pres.

Lemma pres_PORT_FlowInd m dlci b :
  (m < 16)%nat -> 0 <= dlci -> (1 <= k)%nat -> pres c (PORT_FlowInd m dlci b) T.
Proof.
  intros. unfold PORT_FlowInd. pres_step; [|pres].
  pres_step. apply pres_for_up. intros p Hp. pres.
Qed.

Hint Resolve pres_PORT_FlowInd : pres.

Lemma pres_rfc_inc_credit p credit : (p < 30)%nat -> (1 <= k)%nat -> pres c (rfc_inc_credit p credit) T.
Proof. intros. unfold rfc_inc_credit. pres. Qed.

Lemma rx_sum_nonneg l : Forall bh_ok l -> 0 <= sum_len l.
Proof.
  induction 1 as [|b l (_ & Hb & _) Hl IH]; cbn [sum_len foldr]; [lia|]. fold (sum_len l). lia.
Qed.

Lemma sum_len_app l1 l2 : sum_len (l1 ++ l2) = sum_len l1 + sum_len l2.
Proof.
  induction l1 as [|b l IH]; cbn [app sum_len foldr]; [done|].
  fold (sum_len (l ++ l2)) (sum_len l). lia.
Qed.

(** Queueing a received packet below the watermarks. *)
Lemma rx_enqueue_ok p x b q :
  port_ok c p x -> bh_ok b ->
  (PORT_RX_CRITICAL_WM <? u32 (queue_size (rx x) + bh_len b))
    || (rx_buf_critical x <? fixed_queue_length (pd_queue (rx x)) + 1) = false ->
  fixed_queue_enqueue (pd_queue (rx x)) b = Ok q ->
  port_ok c p (x <| rx ::= fun d => d <| pd_queue := q |>
                     <| queue_size ::= fun n => u32 (n + bh_len b) |> |>).
Proof.
  intros Hx Hb Hw Hq. apply orb_false_iff in Hw as [Hw1 Hw2].
  destruct Hx as (H1 & H2 & H3 & H4 & H5 & H6 & H7 & H8 & H9 & H10).
  destruct (pd_queue (rx x)) as [l|] eqn:El; [|done]. injection Hq as <-.
  destruct H4 as (Hf & Hl & Hs & Hc). pose proof (rx_sum_nonneg l Hf) as Hnn.
  destruct Hb as (Hb1 & Hb2 & Hb3 & Hb4 & Hb5).
  assert (Hu : u32 (queue_size (rx x) + bh_len b) = queue_size (rx x) + bh_len b).
  { apply Z.mod_small. lia. }
  rewrite Hu in Hw1. cbn [fixed_queue_length] in Hw2.
  unfold port_ok. cbn -[u32 Z.add Z.of_nat]. rewrite Hu, length_app, sum_len_app, Forall_app.
  cbn [sum_len foldr length]. split_and!; try done; try lia; try tauto.
  solve_Forall. unfold bh_ok. tauto.
Qed.

Lemma bh_read_all_sound b : bh_ok b -> sound (bh_read_bytes b (bh_offset b) (bh_len b)) T.
Proof. intros (H1 & H2 & H3 & _). by rewrite bh_read_bytes_ok. Qed.

Lemma pres_PORT_DataInd o dlci b :
  mcb_index o -> 0 <= dlci -> bh_ok b -> pres c (PORT_DataInd o dlci b) T.
Proof.
  intros Ho Hd Hb. unfold PORT_DataInd. pres_step.
  destruct a as [p|]; [|apply pres_skip]. destruct o as [m|]; [|apply pres_skip].
  cbn [port_index mcb_index] in *.
  apply pres_get_port_at; [done|]. intros x Hx.
  destruct (nz (p_data_co_callback x)); [apply pres_at_drop; pres|].
  destruct (nz (p_data_callback x)).
  { apply pres_at_drop. pres_step.
    eapply pres_bind; [apply pres_lift; by apply bh_read_all_sound|intros ? _]. pres. }
  destruct (_ || _) eqn:Ew; [apply pres_at_drop; pres|]. cbn zeta.
  assert (Hend : forall ev, pres_at c p x (q ← lift (fixed_queue_enqueue (pd_queue (rx x)) b);
      upd_port p (fun x => x <| rx ::= fun d => d <| pd_queue := q |>
        <| queue_size ::= fun n => u32 (n + bh_len b) |> |>);;
      port_flow_control_peer p false 0;;
      x ← get_port p;
      if user_fc (rx x) then
        when (nz (ev .& PORT_EV_RXFLAG))
          (upd_port p (fun x => x <| rx_flag_ev_pending := true |>))
      else event_callback p ((ev .| PORT_EV_RXCHAR) .& ev_mask x)) T).
  { intros ev. eapply pres_at_lift with (R := fun q => fixed_queue_enqueue (pd_queue (rx x)) b = Ok q).
    - destruct (pd_queue (rx x)); [done|by right].
    - intros q Hq. apply pres_at_upd; [by apply rx_enqueue_ok|]. apply pres_at_drop. pres. }
  destruct (_ && _).
  - apply pres_at_assoc. eapply pres_at_lift; [by apply bh_read_all_sound|]. intros ? _.
    apply pres_at_ret_bind, Hend.
  - apply pres_at_ret_bind, Hend.
Qed.

(** *** Modem and line status *)

Lemma pres_PORT_ControlInd m dlci pars :
  (m < 16)%nat -> 0 <= dlci -> (1 <= k)%nat -> pres c (PORT_ControlInd m dlci pars) T.
Proof. intros. unfold PORT_ControlInd. pres. Qed.

Lemma pres_PORT_ControlCnf o dlci :
  mcb_index o -> 0 <= dlci -> (1 <= k)%nat -> pres c (PORT_ControlCnf o dlci) T.
Proof. intros. unfold PORT_ControlCnf. pres. Qed.

Lemma pres_PORT_LineStatusInd m dlci st :
  (m < 16)%nat -> 0 <= dlci -> pres c (PORT_LineStatusInd m dlci st) T.
Proof. intros. unfold PORT_LineStatusInd. pres. Qed.

(** *** Requests of the API *)

Lemma pres_port_open_continue p : (p < 30)%nat -> (2 <= k)%nat -> pres c (port_open_continue p) T.
Proof. intros. unfold port_open_continue. pres. Qed.

Lemma pres_port_start_control p : (p < 30)%nat -> pres c (port_start_control p) T.
Proof. intros. unfold port_start_control. pres. Qed.

Lemma pres_port_start_par_neg p : (p < 30)%nat -> (2 <= k)%nat -> pres c (port_start_par_neg p) T.
Proof. intros. unfold port_start_par_neg. pres. Qed.

Lemma pres_port_start_close p : (p < 30)%nat -> (2 <= k)%nat -> pres c (port_start_close p) T.
Proof. intros. unfold port_start_close. pres. Qed.

End Port.

#[export] Hint Resolve pres_event_callback pres_mgmt_callback pres_RFCOMM_StartReq
  pres_RFCOMM_StartRsp pres_RFCOMM_DlcReleaseReq pres_RFCOMM_DataReq
  pres_RFCOMM_ParameterNegotiationRequest pres_RFCOMM_ParameterNegotiationResponse
  pres_RFCOMM_PortParameterNegotiationResponse pres_RFCOMM_ControlReq pres_RFCOMM_FlowReq
  pres_RFCOMM_LineStatusReq pres_port_flow_control_peer pres_port_rfc_closed pres_rfc_port_closed
  pres_PORT_DlcReleaseInd pres_PORT_CloseInd pres_Port_TimeOutCloseMux pres_PORT_PortNegCnf
  pres_RFCOMM_PortParameterNegotiationRequest pres_PORT_PortNegInd pres_PORT_DlcEstablishCnf
  pres_RFCOMM_DlcEstablishReq pres_PORT_StartCnf pres_PORT_StartInd pres_PORT_ParNegInd pres_PORT_ParNegCnf
  pres_port_rfc_send_tx_data pres_PORT_FlowInd pres_rfc_inc_credit pres_PORT_DataInd
  pres_PORT_ControlInd pres_PORT_ControlCnf pres_PORT_LineStatusInd pres_port_open_continue
  pres_port_start_control pres_port_start_par_neg pres_port_start_close : pres.
