(* ===== verification/RfcInvFsm.v ===== *)
(** * RfcInvFsm: the state machines keep the invariant

    Every state handler of the two machines and every multiplexer message
    preserves [inv]; [sm_execute] therefore meets the interface [SmOk] that the
    port layer was verified against, with three levels of nesting. *)

From Stdlib Require Import ZArith Lia.
From stdpp Require Import gmap.
From S2P Require Import Prelude Osi RfcDefs RfcState RfcFrames RfcFramesProps RfcUtils PortRfc.
From S2P Require Import RfcMxFsm RfcPortFsm RfcL2capIf RfcInv RfcInvBase RfcInvUtils RfcInvPort.

(** What is assumed of the services RFCOMM calls: a synchronous success answer
    to an access request is a grant, and the application's byte source returns
    bytes and a length that is not negative. *)
Class EnvOk `{RfcEnv} (c : icfg) : Prop := {
  env_sync_ok l r : env_sec_sync l = Some r -> u8 r = 0 -> grants c;
  env_bytes_ok l n bs : env_data_co_bytes l n = Some bs -> Forall is_u8 bs;
  env_size_ok l n : env_data_co_size l = Some n -> 0 <= n;
}.

(** Every even entry of the handle table names a port on that DLCI: what the
    change of direction after a connection collision relies on. *)
Definition dir_safe_from (i : Z) (m : nat) (s : rfc_cb) : Prop :=
  forall y j h x, rfc_mcb_tab s !! m = Some y -> i <= Z.of_nat j -> Z.of_nat j mod 2 = 0 ->
    port_handles y !! j = Some h -> h <> 0 ->
    port_tab s !! Z.to_nat (h - 1) = Some x -> port_dlci x = Z.of_nat j.

Definition dir_safe : nat -> rfc_cb -> Prop := dir_safe_from 0.

(** [m] keeps the invariant and [P]. *)
Definition keeps (c : icfg) (P : rfc_cb -> Prop) {A} (m : M A) (Q : A -> Prop) : Prop :=
  forall s, inv c s -> P s ->
    match m s with Ok (a, s') => inv c s' /\ P s' /\ Q a | Crash e => allowed e end.

(** [m] keeps the invariant from states that satisfy [P]. *)
Definition pres_if (c : icfg) (P : rfc_cb -> Prop) {A} (m : M A) (Q : A -> Prop) : Prop :=
  forall s, inv c s -> P s ->
    match m s with Ok (a, s') => inv c s' /\ Q a | Crash e => allowed e end.

(** ** The multiplexer state machine *)

Section MxFsm.
Context `{RfcEnv} `{SmCalls} (c : icfg) (k : nat) {Hsm : SmOk c k}.

Definition move_entry (m : nat) (i h : Z) : M unit :=
  put_port_handle m i 0;;
  put_port_handle m (i + 1) h;;
  upd_port (Z.to_nat (h - 1)) (fun x => x <| port_dlci ::= fun d => u8 (d + 1) |>).

(** Properties of the two tables only. *)
Definition of_tables (P : rfc_cb -> Prop) : Prop :=
  forall s s', port_tab s' = port_tab s -> rfc_mcb_tab s' = rfc_mcb_tab s -> P s -> P s'.

(** The even entries are in order whenever a collision would move them. *)
Definition collision_safe (m : nat) (s : rfc_cb) : Prop :=
  forall y, rfc_mcb_tab s !! m = Some y -> pending_lcid y <> 0 -> dir_safe m s.

(** The same, where only the wait for the connection to be confirmed moves them. *)
Definition timeout_safe (m : nat) (s : rfc_cb) : Prop :=
  forall y, rfc_mcb_tab s !! m = Some y -> mcb_state y = RFC_MX_STATE_WAIT_CONN_CNF ->
    pending_lcid y <> 0 -> dir_safe m s.

Lemma pres_put_mx_state m v : (m < 16)%nat -> pres c (put_mx_state m v) T.
Proof. intros. unfold put_mx_state. pres. Qed.

Lemma pres_l2ca_connect_req m : (m < 16)%nat -> pres c (l2ca_connect_req m) T.
Proof. intros. unfold l2ca_connect_req. pres. Qed.

Lemma pres_l2ca_disconnect_req m : (m < 16)%nat -> pres c (l2ca_disconnect_req m) T.
Proof. intros. unfold l2ca_disconnect_req. pres. Qed.

Lemma pres_save_new_lcid m lcid : (m < 16)%nat -> pres c (save_new_lcid m lcid) T.
Proof. intros. unfold save_new_lcid. pres. Qed.

Hint Resolve pres_put_mx_state pres_l2ca_connect_req pres_l2ca_disconnect_req pres_save_new_lcid : pres.

Lemma pres_connect_failed m : (m < 16)%nat -> (1 <= k)%nat -> pres c (connect_failed m) T.
Proof. intros. unfold connect_failed. pres. Qed.

Lemma pres_rfc_mx_conf_cnf m : (m < 16)%nat -> pres c (rfc_mx_conf_cnf m) T.
Proof. intros. unfold rfc_mx_conf_cnf. pres. Qed.

Lemma pres_rfc_mx_conf_ind m cfg : (m < 16)%nat -> pres c (rfc_mx_conf_ind m cfg) T.
Proof. intros. unfold rfc_mx_conf_ind. pres. Qed.

Hint Resolve pres_connect_failed pres_rfc_mx_conf_cnf pres_rfc_mx_conf_ind : pres.

Lemma pres_pdata_u16 d : pres c (pdata_u16 d) T.
Proof. destruct d; cbn [pdata_u16]; pres. Qed.

Lemma pres_pdata_u8 d : pres c (pdata_u8 d) (fun r => exists v, d = PResult v /\ r = u8 v).
Proof. destruct d; cbn [pdata_u8]; pres. eauto. Qed.

Lemma pres_pdata_buf d : pres c (pdata_buf d) (fun b => d = PBuf b).
Proof. destruct d; cbn [pdata_buf]; pres. Qed.

Lemma pres_pdata_cfg d : pres c (pdata_cfg d) T.
Proof. destruct d; cbn [pdata_cfg]; pres. Qed.

Hint Resolve pres_pdata_u16 pres_pdata_u8 pres_pdata_buf pres_pdata_cfg : pres.

Lemma pres_rfc_mx_sm_state_idle m ev :
  (m < 16)%nat -> (call_rank (MxCall m ev PNull) <= S k)%nat -> pres c (rfc_mx_sm_state_idle m ev) T.
Proof. intros Hm Hr. destruct ev; cbn [rfc_mx_sm_state_idle]; cbn in Hr; pres. Qed.

Lemma pres_rfc_mx_sm_state_wait_conn_cnf m ev d :
  (m < 16)%nat -> ev <> RFC_MX_EVENT_TIMEOUT -> (call_rank (MxCall m ev d) <= S k)%nat ->
  pres c (rfc_mx_sm_state_wait_conn_cnf m ev d) T.
Proof. intros Hm He Hr. destruct ev; try (by destruct He); cbn [rfc_mx_sm_state_wait_conn_cnf]; cbn in Hr; pres. Qed.

Lemma pres_rfc_mx_sm_state_configure m ev d :
  (m < 16)%nat -> (call_rank (MxCall m ev d) <= S k)%nat -> pres c (rfc_mx_sm_state_configure m ev d) T.
Proof. intros Hm Hr. destruct ev; cbn [rfc_mx_sm_state_configure]; cbn in Hr; pres. Qed.

Lemma pres_rfc_mx_sm_sabme_wait_ua m ev :
  (m < 16)%nat -> (call_rank (MxCall m ev PNull) <= S k)%nat -> pres c (rfc_mx_sm_sabme_wait_ua m ev) T.
Proof. intros Hm Hr. destruct ev; cbn [rfc_mx_sm_sabme_wait_ua]; cbn in Hr; pres. Qed.

Lemma pres_rfc_mx_sm_state_wait_sabme m ev d :
  (m < 16)%nat -> (call_rank (MxCall m ev d) <= S k)%nat -> pres c (rfc_mx_sm_state_wait_sabme m ev d) T.
Proof. intros Hm Hr. destruct ev; cbn [rfc_mx_sm_state_wait_sabme]; cbn in Hr; pres. Qed.

Lemma pres_rfc_mx_sm_state_connected m ev :
  (m < 16)%nat -> (call_rank (MxCall m ev PNull) <= S k)%nat -> pres c (rfc_mx_sm_state_connected m ev) T.
Proof. intros Hm Hr. destruct ev; cbn [rfc_mx_sm_state_connected]; cbn in Hr; pres. Qed.

Lemma pres_rfc_mx_sm_state_disc_wait_ua m ev :
  (m < 16)%nat -> (call_rank (MxCall m ev PNull) <= S k)%nat ->
  pres c (rfc_mx_sm_state_disc_wait_ua m ev) T.
Proof. intros Hm Hr. destruct ev; cbn [rfc_mx_sm_state_disc_wait_ua]; cbn in Hr; pres. Qed.

Lemma pres_rfc_mx_sm_execute m ev d :
  (m < 16)%nat -> ev <> RFC_MX_EVENT_TIMEOUT -> (call_rank (MxCall m ev d) <= S k)%nat ->
  pres c (rfc_mx_sm_execute m ev d) T.
Proof.
  intros Hm He Hr. unfold rfc_mx_sm_execute. pres_step. destruct (mcb_state a).
  - by apply pres_rfc_mx_sm_state_idle.
  - by apply pres_rfc_mx_sm_state_wait_conn_cnf.
  - by apply pres_rfc_mx_sm_state_configure.
  - by apply pres_rfc_mx_sm_sabme_wait_ua.
  - by apply pres_rfc_mx_sm_state_wait_sabme.
  - by apply pres_rfc_mx_sm_state_connected.
  - by apply pres_rfc_mx_sm_state_disc_wait_ua.
Qed.

(** *** Changing the direction of the DLCIs *)

Lemma run_upd_mcb m f s y :
  rfc_mcb_tab s !! m = Some y -> upd_mcb m f s = Ok (tt, s <| rfc_mcb_tab ::= <[m := f y]> |>).
Proof. intros E. unfold upd_mcb. by rewrite E. Qed.

Lemma run_put_port_handle m i h s y :
  rfc_mcb_tab s !! m = Some y -> 0 <= i <= RFCOMM_MAX_DLCI ->
  put_port_handle m i h s =
    Ok (tt, s <| rfc_mcb_tab ::= <[m := y <| port_handles ::= <[Z.to_nat i := h]> |>]> |>).
Proof.
  intros E Hi. unfold put_port_handle.
  destruct ((0 <=? i) && (i <=? RFCOMM_MAX_DLCI)) eqn:Ei; [|lia]. by apply run_upd_mcb.
Qed.

Lemma lookup_mcb_insert (s : rfc_cb) m (y z : tRFC_MCB) :
  rfc_mcb_tab s !! m = Some y -> <[m := z]> (rfc_mcb_tab s) !! m = Some z.
Proof. intros E. apply list_lookup_insert_eq. by eapply lookup_lt_Some. Qed.

Lemma move_entry_ok m i h s y :
  inv c s -> rfc_mcb_tab s !! m = Some y -> 0 <= i <= 60 -> i mod 2 = 0 ->
  port_handles y !! Z.to_nat i = Some h -> 0 < h <= 30 -> dir_safe_from i m s ->
  match move_entry m i h s with
  | Ok (_, s') => inv c s' /\ dir_safe_from (i + 2) m s'
  | Crash _ => False
  end.
Proof.
  intros Hs Hy Hi Hev Hh Hhr Hd. unfold move_entry, mbind, M_bind.
  rewrite (run_put_port_handle m i 0 s y Hy) by lia.
  set (y1 := y <| port_handles ::= <[Z.to_nat i := 0]> |>).
  set (s1 := s <| rfc_mcb_tab ::= <[m := y1]> |>).
  assert (Hy1 : rfc_mcb_tab s1 !! m = Some y1) by (by apply (lookup_mcb_insert s m y)).
  rewrite (run_put_port_handle m (i + 1) h s1 y1 Hy1) by lia.
  set (y2 := y1 <| port_handles ::= <[Z.to_nat (i + 1) := h]> |>).
  set (s2 := s1 <| rfc_mcb_tab ::= <[m := y2]> |>).
  assert (Hy2 : rfc_mcb_tab s2 !! m = Some y2) by (by apply (lookup_mcb_insert s1 m y1)).
  destruct (lookup_lt_is_Some_2 (port_tab s) (Z.to_nat (h - 1))) as [x Hx].
  { rewrite (inv_nports _ _ Hs). lia. }
  unfold upd_port. change (port_tab s2) with (port_tab s). rewrite Hx.
  pose proof (Hd y (Z.to_nat i) h x Hy ltac:(lia) ltac:(by rewrite Z2Nat.id by lia) Hh ltac:(lia) Hx)
    as Hdl. rewrite Z2Nat.id in Hdl by lia.
  split.
  - pose proof (inv_port _ _ Hs _ _ Hx) as Hok.
    assert (Hs2 : inv c s2).
    { pose proof (pres_put_port_handle c m i 0 ltac:(eapply lookup_lt_Some in Hy;
        rewrite (inv_nmcbs _ _ Hs) in Hy; done) ltac:(lia) ltac:(lia) s Hs) as P1.
      rewrite (run_put_port_handle m i 0 s y Hy) in P1 by lia. destruct P1 as [P1 _].
      pose proof (pres_put_port_handle c m (i + 1) h ltac:(eapply lookup_lt_Some in Hy;
        rewrite (inv_nmcbs _ _ Hs) in Hy; done) ltac:(lia) ltac:(lia) _ P1) as P2.
      fold y1 s1 in P2. rewrite (run_put_port_handle m (i + 1) h s1 y1 Hy1) in P2 by lia.
      exact (proj1 P2). }
    apply inv_set_port; [done|]. destruct Hok as (?&?&?). unfold port_ok. cbn -[u8 Z.add].
    rewrite Hdl, u8_id by (unfold is_u8; lia). split_and!; tauto || lia.
  - intros y' j h' x' Hy' Hj Hjev Hh' Hh0 Hx'. cbn in Hx'.
    change (rfc_mcb_tab s2 !! m = Some y') in Hy'. rewrite Hy2 in Hy'. injection Hy' as <-. cbn in Hh'.
    rewrite list_lookup_insert_ne in Hh' by lia. rewrite list_lookup_insert_ne in Hh' by lia.
    destruct (decide (Z.to_nat (h - 1) = Z.to_nat (h' - 1))) as [E|E].
    + rewrite <- E in Hx'. pose proof (Hd y j h' x Hy ltac:(lia) Hjev Hh' Hh0) as Hc.
      rewrite <- E in Hc. specialize (Hc Hx). lia.
    + rewrite list_lookup_insert_ne in Hx' by done.
      apply (Hd y j h' x' Hy ltac:(lia) Hjev Hh' Hh0 Hx').
Qed.

Lemma update_direction_ok n i m s :
  inv c s -> (m < 16)%nat -> i + 2 * Z.of_nat n = 62 -> 0 <= i -> i mod 2 = 0 ->
  dir_safe_from i m s ->
  match update_direction n i m s with Ok (_, s') => inv c s' | Crash _ => False end.
Proof.
  revert i s. induction n as [|n IH]; intros i s Hs Hm Hn Hi Hev Hd; [done|].
  cbn [update_direction]. unfold mbind at 1, M_bind at 1, get_mcb.
  destruct (lookup_lt_is_Some_2 (rfc_mcb_tab s) m) as [y Hy].
  { rewrite (inv_nmcbs _ _ Hs). lia. }
  rewrite Hy. pose proof (Forall_lookup_1 _ _ _ _ (inv_mcb _ _ Hs) Hy) as (Hl & Hf & _).
  destruct (rd_ok (port_handles y) i) as (h & Hr & Hh); [lia|].
  unfold mbind at 1, M_bind at 1, lift. rewrite Hr.
  pose proof (Forall_lookup_1 _ _ _ _ Hf Hh) as Hhr. cbn in Hhr.
  assert (Hev' : (i + 2) mod 2 = 0).
  { replace (i + 2) with (i + 1 * 2) by lia. by rewrite Z.mod_add. }
  destruct (nz h) eqn:Enz; cbn [when].
  - apply nz_true in Enz. fold (move_entry m i h). unfold mbind at 1, M_bind at 1.
    pose proof (move_entry_ok m i h s y Hs Hy ltac:(lia) Hev Hh ltac:(lia) Hd) as Hmv.
    destruct (move_entry m i h s) as [[u s']|]; [|done]. destruct Hmv as [Hs' Hd'].
    apply IH; try done; lia.
  - apply IH; try done; try lia.
    intros y' j h' x' Hy' Hj. apply Hd; [done|lia].
Qed.

Lemma keeps_bind {A B} P (m : M A) (f : A -> M B) R Q :
  keeps c P m R -> (forall a, R a -> pres_if c P (f a) Q) -> pres_if c P (m ≫= f) Q.
Proof.
  intros Hm Hf s Hs HP. specialize (Hm s Hs HP). unfold mbind, M_bind.
  destruct (m s) as [[a s']|e]; [|done]. destruct Hm as (Hs' & HP' & Ha). by apply Hf.
Qed.

Lemma keeps_seq {A B} P (m : M A) (f : A -> M B) R Q :
  keeps c P m R -> (forall a, R a -> keeps c P (f a) Q) -> keeps c P (m ≫= f) Q.
Proof.
  intros Hm Hf s Hs HP. specialize (Hm s Hs HP). unfold mbind, M_bind.
  destruct (m s) as [[a s']|e]; [|done]. destruct Hm as (Hs' & HP' & Ha). by apply Hf.
Qed.

Lemma pres_if_bind {A B} P (m : M A) (f : A -> M B) R Q :
  pres_if c P m R -> (forall a, R a -> pres c (f a) Q) -> pres_if c P (m ≫= f) Q.
Proof.
  intros Hm Hf s Hs HP. specialize (Hm s Hs HP). unfold mbind, M_bind.
  destruct (m s) as [[a s']|e]; [|done]. destruct Hm as (Hs' & Ha). by apply Hf.
Qed.

Lemma pres_pres_if {A} P (m : M A) Q : pres c m Q -> pres_if c P m Q.
Proof. intros Hm s Hs _. by apply Hm. Qed.

Lemma pres_if_mono {A} (P P' : rfc_cb -> Prop) (m : M A) Q :
  (forall s, P s -> P' s) -> pres_if c P' m Q -> pres_if c P m Q.
Proof. intros HP Hm s Hs H1. by apply Hm, HP. Qed.

Lemma pres_update_direction_bits m : (m < 16)%nat -> pres_if c (dir_safe m) (update_direction_bits m) T.
Proof.
  intros Hm s Hs Hd. pose proof (update_direction_ok 31 0 m s Hs Hm eq_refl ltac:(lia) eq_refl Hd).
  unfold update_direction_bits. by destruct (update_direction 31 0 m s) as [[u s']|].
Qed.

Lemma keeps_upd_mcb m f :
  (m < 16)%nat -> (forall x, mcb_ok x -> mcb_ok (f x)) ->
  (forall x, port_handles (f x) = port_handles x) -> keeps c (dir_safe m) (upd_mcb m f) T.
Proof.
  intros Hm Hf Hph s Hs Hd. pose proof (pres_upd_mcb c m f Hm Hf s Hs) as Hp.
  destruct (upd_mcb m f s) as [[u s']|e] eqn:E; [|done]. destruct Hp as [Hs' _].
  split_and!; [done| |done]. unfold upd_mcb in E.
  destruct (rfc_mcb_tab s !! m) as [y|] eqn:Ey; [|done]. injection E as _ <-.
  intros y' j h x. cbn. rewrite (lookup_mcb_insert s m y) by done. intros [= <-].
  rewrite Hph. by apply Hd.
Qed.

Lemma keeps_outside {A} P (op : M A) Q :
  of_tables P -> pres c op Q ->
  (forall s a s', op s = Ok (a, s') -> port_tab s' = port_tab s /\ rfc_mcb_tab s' = rfc_mcb_tab s) ->
  keeps c P op Q.
Proof.
  intros HP Hp Hsame s Hs Hd. specialize (Hp s Hs). destruct (op s) as [[a s']|e] eqn:E; [|done].
  destruct Hp as [Hs' Ha]. destruct (Hsame _ _ _ E) as [E1 E2]. split_and!; [done| |done].
  by eapply HP.
Qed.

Lemma dir_safe_tables m : of_tables (dir_safe m).
Proof. intros s s' E1 E2 Hd. unfold dir_safe, dir_safe_from. by rewrite E1, E2. Qed.

Lemma collision_safe_tables m : of_tables (collision_safe m).
Proof.
  intros s s' E1 E2 Hd y Hy Hp. rewrite E2 in Hy.
  apply (dir_safe_tables m s s' E1 E2). by apply (Hd y).
Qed.

Lemma keeps_save_lcid P o lcid : of_tables P -> mcb_index o -> keeps c P (rfc_save_lcid_mcb o lcid) T.
Proof.
  intros HP Ho. apply keeps_outside; [done|by apply pres_rfc_save_lcid_mcb|].
  by intros s a s' [= _ <-].
Qed.

Lemma keeps_l2ca_disconnect_req P m :
  of_tables P -> (m < 16)%nat -> keeps c P (l2ca_disconnect_req m) T.
Proof.
  intros HP Hm. apply keeps_outside; [done|by apply pres_l2ca_disconnect_req|].
  unfold l2ca_disconnect_req, mbind, M_bind, get_mcb, emit, modify. intros s a s'.
  destruct (_ !! _); [|done]. by intros [= _ <-].
Qed.

Lemma pres_if_get_mcb {B} P m (kont : tRFC_MCB -> M B) Q :
  (m < 16)%nat ->
  (forall y, mcb_ok y -> pres_if c (fun s => P s /\ rfc_mcb_tab s !! m = Some y) (kont y) Q) ->
  pres_if c P (get_mcb m ≫= kont) Q.
Proof.
  intros Hm Hk s Hs HP. unfold mbind, M_bind, get_mcb.
  destruct (lookup_lt_is_Some_2 (rfc_mcb_tab s) m) as [y Hy].
  { rewrite (inv_nmcbs _ _ Hs). lia. }
  rewrite Hy. apply Hk; [|done|done]. eapply Forall_lookup_1; [apply (inv_mcb _ _ Hs)|done].
Qed.

Lemma keeps_collision_upd m f :
  (m < 16)%nat -> (forall x, mcb_ok x -> mcb_ok (f x)) ->
  (forall x, port_handles (f x) = port_handles x /\ pending_lcid (f x) = pending_lcid x) ->
  keeps c (collision_safe m) (upd_mcb m f) T.
Proof.
  intros Hm Hf Hph s Hs Hd. pose proof (pres_upd_mcb c m f Hm Hf s Hs) as Hp.
  unfold upd_mcb in *. destruct (rfc_mcb_tab s !! m) as [y|] eqn:Ey; [|done].
  destruct Hp as [Hs' _]. split_and!; [done| |done].
  intros y' Hy' Hp' y2 j h x Hy2. cbn in Hy', Hy2.
  rewrite (lookup_mcb_insert s m y) in Hy', Hy2 by done. injection Hy' as <-. injection Hy2 as <-.
  destruct (Hph y) as [E1 E2]. rewrite E1. rewrite E2 in Hp'. by apply (Hd y Ey Hp').
Qed.

(** Retrying as acceptor: the part both collision paths share. *)
Lemma pres_retry_as_acceptor m :
  (m < 16)%nat -> (1 <= k)%nat ->
  pres_if c (dir_safe m) (update_direction_bits m;; call_mx_sm m RFC_MX_EVENT_CONN_IND PNull) T.
Proof.
  intros Hm Hk. eapply pres_if_bind; [by apply pres_update_direction_bits|].
  intros _ _. by apply (pres_call_mx_sm c k).
Qed.

Lemma pres_wait_conn_cnf_timeout m d :
  (m < 16)%nat -> (1 <= k)%nat ->
  pres_if c (collision_safe m) (rfc_mx_sm_state_wait_conn_cnf m RFC_MX_EVENT_TIMEOUT d) T.
Proof.
  intros Hm Hk. cbn [rfc_mx_sm_state_wait_conn_cnf]. pose proof (dir_safe_tables m) as Ht.
  eapply keeps_bind; [apply keeps_collision_upd; [done|mcb_tac|done]|intros _ _].
  eapply keeps_bind; [apply keeps_l2ca_disconnect_req; [apply collision_safe_tables|done]|intros _ _].
  apply pres_if_get_mcb; [done|]. intros y _.
  destruct (nz (pending_lcid y)) eqn:E; [|apply pres_pres_if; pres].
  apply nz_true in E. apply pres_if_mono with (dir_safe m); [by intros s [Hc Hy]; apply (Hc y)|].
  eapply keeps_bind; [by apply keeps_save_lcid|intros _ _].
  eapply keeps_bind with (R := T).
  { eapply keeps_seq; [apply keeps_upd_mcb; [done|mcb_tac|done]|intros _ _].
    by apply keeps_save_lcid. }
  intros _ _. eapply keeps_bind; [apply keeps_upd_mcb; [done|mcb_tac|done]|intros _ _].
  by apply pres_retry_as_acceptor.
Qed.

Lemma pres_rfc_mx_sm_timeout m d :
  (m < 16)%nat -> (2 <= k)%nat ->
  pres_if c (timeout_safe m) (rfc_mx_sm_execute m RFC_MX_EVENT_TIMEOUT d) T.
Proof.
  intros Hm Hk. unfold rfc_mx_sm_execute. assert (Hr : (3 <= S k)%nat) by lia.
  apply pres_if_get_mcb; [done|]. intros y _.
  destruct (mcb_state y) eqn:Ey; [|apply pres_if_mono with (collision_safe m);
    [|apply pres_wait_conn_cnf_timeout; [done|lia]]|..]; try apply pres_pres_if.
  2: { intros s [Hc Hy] y' Hy' Hp. simplify_eq. by apply (Hc y). }
  - by apply pres_rfc_mx_sm_state_idle.
  - by apply pres_rfc_mx_sm_state_configure.
  - by apply pres_rfc_mx_sm_sabme_wait_ua.
  - by apply pres_rfc_mx_sm_state_wait_sabme.
  - by apply pres_rfc_mx_sm_state_connected.
  - by apply pres_rfc_mx_sm_state_disc_wait_ua.
Qed.

End MxFsm.

#[export] Hint Resolve pres_put_mx_state pres_l2ca_disconnect_req pres_pdata_u16 pres_pdata_u8
  pres_pdata_buf pres_pdata_cfg : pres.

(** ** The port state machine *)

Section PortFsm.
Context `{RfcEnv} `{SmCalls} (c : icfg) (k : nat) {Henv : EnvOk c} {Hsm : SmOk c k}.

Lemma pres_sec_access_request p : (p < 30)%nat -> (2 <= k)%nat -> pres c (sec_access_request p) T.
Proof.
  intros Hp Hk. unfold sec_access_request. pres.
  apply (pres_rfc_sec_check_complete c k); [done|done|]. rewrite u8_idemp. by eapply env_sync_ok.
Qed.

Lemma pres_sec_abort p : (p < 30)%nat -> pres c (sec_abort p) T.
Proof. intros. unfold sec_abort. pres. Qed.

Lemma pres_port_send_dm p pf : (p < 30)%nat -> pres c (port_send_dm p pf) T.
Proof. intros. unfold port_send_dm. pres. Qed.

Lemma pres_port_send_ua p : (p < 30)%nat -> pres c (port_send_ua p) T.
Proof. intros. unfold port_send_ua. pres. Qed.

Lemma pres_port_establish_cnf p result :
  (p < 30)%nat -> (1 <= k)%nat -> (result = 0 -> (2 <= k)%nat) -> pres c (port_establish_cnf p result) T.
Proof.
  intros Hp Hk1 Hk2. unfold port_establish_cnf. pres_step. pres_step. pres_step.
  apply (pres_PORT_DlcEstablishCnf c k); try done; try lia. by destruct H2 as (_ & _ & Hu).
Qed.

Lemma pres_set_disc_initiator p : (p < 30)%nat -> pres c (set_disc_initiator p) T.
Proof. intros. unfold set_disc_initiator. pres. Qed.

Lemma pres_start_disc p : (p < 30)%nat -> auth c p -> pres c (start_disc p) T.
Proof. intros. unfold start_disc. pres. Qed.

Hint Resolve pres_sec_access_request pres_sec_abort pres_port_send_dm pres_port_send_ua
  pres_port_establish_cnf pres_set_disc_initiator pres_start_disc : pres.

Lemma pres_rfc_port_sm_state_closed p ev :
  (p < 30)%nat -> (call_rank (PortCall p ev PNull) <= S k)%nat -> pres c (rfc_port_sm_state_closed p ev) T.
Proof. intros Hp Hr. destruct ev; cbn [rfc_port_sm_state_closed]; cbn in Hr; pres. Qed.

Lemma pres_rfc_port_sm_sabme_wait_ua p ev :
  (p < 30)%nat -> auth c p -> (call_rank (PortCall p ev PNull) <= S k)%nat ->
  pres c (rfc_port_sm_sabme_wait_ua p ev) T.
Proof.
  intros Hp Ha Hr. destruct ev; cbn [rfc_port_sm_sabme_wait_ua]; cbn in Hr; pres.
Qed.

Lemma pres_rfc_port_sm_term_wait_sec_check p ev d :
  call_wf c (PortCall p ev d) -> (call_rank (PortCall p ev d) <= S k)%nat ->
  pres c (rfc_port_sm_term_wait_sec_check p ev d) T.
Proof.
  intros [Hp Hwf] Hr. destruct ev; cbn [rfc_port_sm_term_wait_sec_check]; cbn in Hr; pres.
  - destruct H1 as (v & -> & ->). port_tac. intros _. apply Hwf. lia.
  - destruct H1 as (v & -> & ->). apply (pres_PORT_DlcEstablishInd c k); try done; try lia.
    + by destruct H3 as (_ & _ & Hu).
    + apply Hwf. lia.
Qed.

Lemma pres_rfc_port_sm_orig_wait_sec_check p ev d :
  call_wf c (PortCall p ev d) -> (call_rank (PortCall p ev d) <= S k)%nat ->
  pres c (rfc_port_sm_orig_wait_sec_check p ev d) T.
Proof.
  intros [Hp Hwf] Hr. destruct ev; cbn [rfc_port_sm_orig_wait_sec_check]; cbn in Hr; pres.
  destruct H1 as (v & -> & ->). port_tac. intros _. apply Hwf. lia.
Qed.

Lemma pres_rfc_port_uplink_data p b : (p < 30)%nat -> bh_ok b -> pres c (rfc_port_uplink_data p b) T.
Proof. intros. unfold rfc_port_uplink_data. pres. Qed.

Hint Resolve pres_rfc_port_uplink_data : pres.

Lemma pres_rfc_port_sm_opened p ev d :
  call_wf c (PortCall p ev d) -> auth c p -> (call_rank (PortCall p ev d) <= S k)%nat ->
  pres c (rfc_port_sm_opened p ev d) T.
Proof.
  intros [Hp Hwf] Ha Hr. destruct ev; cbn [rfc_port_sm_opened]; cbn in Hr; pres.
  all: subst d; pres.
Qed.

Lemma pres_rfc_port_sm_disc_wait_ua p ev :
  (p < 30)%nat -> (call_rank (PortCall p ev PNull) <= S k)%nat -> pres c (rfc_port_sm_disc_wait_ua p ev) T.
Proof. intros Hp Hr. destruct ev; cbn [rfc_port_sm_disc_wait_ua]; cbn in Hr; pres. Qed.

Lemma pres_rfc_port_sm_execute p ev d :
  call_wf c (PortCall p ev d) -> (call_rank (PortCall p ev d) <= S k)%nat ->
  pres c (rfc_port_sm_execute p ev d) T.
Proof.
  intros Hwf Hr. pose proof Hwf as [Hp _]. unfold rfc_port_sm_execute. pres_step.
  pose proof (port_ok_auth _ _ _ H1) as Ha.
  destruct (rfc_state (rfc a)); cbn [auth_state] in Ha.
  - by apply pres_rfc_port_sm_state_closed.
  - by apply pres_rfc_port_sm_sabme_wait_ua; [|apply Ha|].
  - by apply pres_rfc_port_sm_orig_wait_sec_check.
  - by apply pres_rfc_port_sm_term_wait_sec_check.
  - by apply pres_rfc_port_sm_opened; [|apply Ha|].
  - by apply pres_rfc_port_sm_disc_wait_ua.
Qed.

End PortFsm.
