(* ===== verification/RfcInvMx.v ===== *)
(** * RfcInvMx: received frames keep the invariant, and the knot

    Sending data leaves the queues alone, so [sm_execute] meets [SmOk]; then the
    multiplexer messages and the callbacks from L2CAP preserve [inv]. *)

From Stdlib Require Import ZArith Lia.
From stdpp Require Import gmap.
From S2P Require Import Prelude Osi RfcDefs RfcState RfcFrames RfcFramesProps RfcUtils PortRfc.
From S2P Require Import RfcMxFsm RfcPortFsm RfcL2capIf RfcInv RfcInvBase RfcInvUtils RfcInvPort.
From S2P Require Import RfcInvFsm.

(** [m] leaves the send queues and the MTU of every port alone. *)
Definition quiet {A} (m : M A) : Prop := forall s a s', m s = Ok (a, s') -> same_tx s s'.

(** The invariant with a decoded frame on a valid DLCI. *)
Definition narrow (c : icfg) : icfg := mk_icfg (auth c) RFCOMM_MAX_DLCI.

(** ** Sending data is quiet *)

(** [n] octets can be read at [pos]. *)
Definition readable (b : BT_HDR) (pos n : Z) : Prop :=
  Forall is_u8 (bh_data b) /\ 0 <= pos /\ pos + n <= Z.of_nat (length (bh_data b)).

Lemma same_tx_refl s : same_tx s s.
Proof. intros p x Hx. by exists x. Qed.

Lemma same_tx_trans s1 s2 s3 : same_tx s1 s2 -> same_tx s2 s3 -> same_tx s1 s3.
Proof.
  intros H1 H2 p x3 Hx3. destruct (H2 _ _ Hx3) as (x2 & Hx2 & -> & -> & ->).
  destruct (H1 _ _ Hx2) as (x1 & Hx1 & -> & -> & ->). eauto.
Qed.

Lemma quiet_bind {A B} (m : M A) (f : A -> M B) : quiet m -> (forall a, quiet (f a)) -> quiet (m ≫= f).
Proof.
  intros Hm Hf s b s'. unfold mbind, M_bind. destruct (m s) as [[a s1]|] eqn:E; [|done].
  intros E'. eapply same_tx_trans; [by eapply Hm|by eapply Hf].
Qed.

Lemma quiet_same {A} (m : M A) :
  (forall s a s', m s = Ok (a, s') -> port_tab s' = port_tab s) -> quiet m.
Proof. intros H s a s' E p x Hx. exists x. rewrite (H _ _ _ E) in Hx. done. Qed.

Lemma quiet_ret {A} (a : A) : quiet (mret a).
Proof. apply quiet_same. by intros s a' s' [= _ <-]. Qed.

Lemma quiet_lift {A} (o : outcome A) : quiet (lift o).
Proof. apply quiet_same. intros s a s'. unfold lift. destruct o; [|done]. by intros [= _ <-]. Qed.

Lemma quiet_get_port p : quiet (get_port p).
Proof. apply quiet_same. intros s a s'. unfold get_port. case_match; [|done]. by intros [= _ <-]. Qed.

Lemma quiet_get_mcb m : quiet (get_mcb m).
Proof. apply quiet_same. intros s a s'. unfold get_mcb. case_match; [|done]. by intros [= _ <-]. Qed.

Lemma quiet_upd_mcb m f : quiet (upd_mcb m f).
Proof. apply quiet_same. intros s a s'. unfold upd_mcb. case_match; [|done]. by intros [= _ <-]. Qed.

Lemma quiet_emit o : quiet (emit o).
Proof. apply quiet_same. by intros s a s' [= _ <-]. Qed.

Lemma quiet_abort {A} e : quiet (abort e : M A).
Proof. by intros s a s'. Qed.

Lemma quiet_when b m : quiet m -> quiet (when b m).
Proof. destruct b; [done|]. intros _. apply quiet_ret. Qed.

Lemma quiet_upd_port p f :
  (forall x, pd_queue (tx (f x)) = pd_queue (tx x) /\ queue_size (tx (f x)) = queue_size (tx x) /\
             peer_mtu (f x) = peer_mtu x) -> quiet (upd_port p f).
Proof.
  intros Hf s a s'. unfold upd_port. destruct (port_tab s !! p) as [x|] eqn:Ex; [|done].
  intros [= _ <-] q z. cbn. destruct (decide (p = q)) as [->|Hne].
  - rewrite list_lookup_insert_eq by (by eapply lookup_lt_Some). intros [= <-]. eauto.
  - rewrite list_lookup_insert_ne by done. eauto.
Qed.

Create HintDb quiet discriminated.
#[export] Hint Constants Opaque : quiet.
#[export] Hint Resolve quiet_ret quiet_lift quiet_get_port quiet_get_mcb quiet_upd_mcb quiet_emit
  quiet_abort : quiet.

Ltac quiet :=
  repeat lazymatch goal with
  | |- quiet (_ ≫= _) => apply quiet_bind; [|intros ?]
  | |- quiet (when _ _) => apply quiet_when
  | |- quiet (match ?x with _ => _ end) => destruct x
  | |- quiet (upd_port _ _) => by apply quiet_upd_port
  | |- quiet skip => apply quiet_ret
  | |- quiet _ => solve [auto with quiet]
  end.

Lemma quiet_send_cmd_loop fuel m : quiet (send_cmd_loop fuel m).
Proof. induction fuel as [|n IH]; cbn [send_cmd_loop]; quiet. Qed.

#[export] Hint Resolve quiet_send_cmd_loop : quiet.

Lemma quiet_rfc_check_send_cmd m b : quiet (rfc_check_send_cmd m b).
Proof. unfold rfc_check_send_cmd. quiet. Qed.

#[export] Hint Resolve quiet_rfc_check_send_cmd : quiet.

Lemma quiet_rfc_send_buf_uih m dlci b : quiet (rfc_send_buf_uih m dlci b).
Proof. unfold rfc_send_buf_uih. quiet. Qed.

Lemma quiet_rfc_dec_credit p : quiet (rfc_dec_credit p).
Proof. unfold rfc_dec_credit, port_mcb. quiet. Qed.

#[export] Hint Resolve quiet_rfc_send_buf_uih quiet_rfc_dec_credit : quiet.

Lemma quiet_port_data `{RfcEnv} `{SmCalls} p d : quiet (rfc_port_sm_execute p RFC_PORT_EVENT_DATA d).
Proof.
  unfold rfc_port_sm_execute. apply quiet_bind; [apply quiet_get_port|]. intros x.
  destruct (rfc_state (rfc x)); try apply quiet_ret.
  cbn [rfc_port_sm_opened]. unfold pdata_buf, port_mcb. quiet.
Qed.

(** ** The knot *)

Lemma sm_execute_ok `{RfcEnv} c n : EnvOk c -> @SmOk (sm_execute n) c n.
Proof.
  intros Henv. induction n as [|n IH]; split.
  - intros [m ev d|p ev d] Hwf Hr.
    + exfalso. revert Hr. cbn. destruct ev; lia.
    + exfalso. revert Hr. cbn. destruct ev; lia.
  - intros p b s u s' E. done.
  - intros [m ev d|p ev d] Hwf Hr.
    + destruct Hwf. by apply (@pres_rfc_mx_sm_execute _ (sm_execute n) c n IH).
    + by apply (@pres_rfc_port_sm_execute _ (sm_execute n) c n Henv IH).
  - intros p b s u s' E. by eapply (@quiet_port_data _ (sm_execute n)).
Qed.

Global Instance sm_calls_ok `{RfcEnv} c `{!EnvOk c} : SmOk c 3 := sm_execute_ok c 3 _.

(** ** Reading the value of a message *)

Lemma u_byte_u8 c f i : frame_ok c f -> is_u8 (u_byte f i).
Proof.
  intros (_ & _ & Hu). unfold u_byte. rewrite nth_lookup.
  destruct (mx_u f !! i) as [b|] eqn:E; cbn; [|unfold is_u8; lia]. by eapply Forall_lookup_1.
Qed.

Lemma u_word_u16 c f i : frame_ok c f -> is_u16 (u_word f i).
Proof.
  intros Hf. pose proof (u_byte_u8 c f i Hf) as H1. pose proof (u_byte_u8 c f (S i) Hf) as H2.
  unfold u_word, is_u16, is_u8 in *. rewrite Z.shiftl_mul_pow2 by lia. lia.
Qed.

Lemma set_u_ok c f i v : frame_ok c f -> frame_ok c (set_u i v f).
Proof.
  intros (H1 & H2 & H3). unfold frame_ok, set_u. cbn -[u8]. rewrite length_insert.
  split_and!; try done; try lia. apply Forall_insert; [done|apply u8_range].
Qed.

Lemma set_u16_ok c f i v : frame_ok c f -> frame_ok c (set_u16 i v f).
Proof. intros H. unfold set_u16. by do 2 apply set_u_ok. Qed.

Lemma frame_ok_dlci c c' f d :
  frame_ok c f -> 0 <= d <= dmax c' -> frame_ok c' (f <| mx_dlci := d |>).
Proof. intros (H1 & H2 & H3) Hd. by unfold frame_ok. Qed.

Lemma frame_ok_valid c f :
  frame_ok c f -> RFCOMM_VALID_DLCI (mx_dlci f) = true -> frame_ok (narrow c) f.
Proof.
  intros (H1 & H2 & H3) Hv. unfold frame_ok, narrow. cbn. apply valid_dlci_range in Hv. done.
Qed.

#[export] Hint Resolve set_u_ok set_u16_ok : rfc.

Ltac read_byte :=
  eapply returns_bind; [apply bh_read_ok; [assumption|lia]|intros ? ?].

Lemma mx_read_pn_ok c f b p :
  frame_ok c f -> 63 <= dmax c -> readable b p 8 -> returns (mx_read_pn f b p) (frame_ok c).
Proof.
  intros Hf Hd (Hu & Hp & Hl). unfold mx_read_pn. do 8 read_byte. apply returns_ret.
  repeat (apply set_u_ok || apply set_u16_ok). eapply frame_ok_dlci; [done|].
  pose proof (Z.mod_pos_bound a 64 ltac:(lia)) as Hm. change RFCOMM_PN_DLCI_MASK with (Z.ones 6).
  rewrite Z.land_ones by lia. change (2 ^ 6) with 64. lia.
Qed.

Lemma mx_read_addr_ok c f b p :
  frame_ok c f -> 63 <= dmax c -> readable b p 1 ->
  returns (mx_read_addr f b p) (fun a => frame_ok c a.2 /\
    (a.1 = false -> RFCOMM_VALID_DLCI (mx_dlci a.2) = true)).
Proof.
  intros Hf Hd (Hu & Hp & Hl). unfold mx_read_addr. read_byte. apply returns_ret. split.
  - eapply frame_ok_dlci; [done|]. unfold is_u8 in *. rewrite Z.shiftr_div_pow2 by lia.
    pose proof (Z.div_lt_upper_bound a (2 ^ 2) 64 ltac:(lia)).
    pose proof (Z.div_pos a (2 ^ 2) ltac:(lia)). lia.
  - cbn. by intros [_ Hv%negb_false_iff]%orb_false_iff.
Qed.

Lemma mx_read_msc_ok c f b p len :
  frame_ok c f -> readable b p len -> (len = 2 \/ len = 3) ->
  returns (mx_read_msc f b p len) (fun f' => frame_ok c f' /\ mx_dlci f' = mx_dlci f).
Proof.
  intros Hf (Hu & Hp & Hl) Hlen. unfold mx_read_msc. read_byte.
  destruct (Z.eqb_spec len 3); [read_byte|]; apply returns_ret; split; auto with rfc.
Qed.

Lemma mx_read_nsc_ok c f b p :
  frame_ok c f -> readable b p 1 -> returns (mx_read_nsc f b p) (frame_ok c).
Proof.
  intros Hf (Hu & Hp & Hl). unfold mx_read_nsc. read_byte. apply returns_ret. auto with rfc.
Qed.

Lemma mx_read_rpn_ok c f b p len :
  frame_ok c f -> readable b p len -> (len = 1 \/ len = 8) ->
  returns (mx_read_rpn f b p len) (fun f' => frame_ok c f' /\ mx_dlci f' = mx_dlci f).
Proof.
  intros Hf (Hu & Hp & Hl) Hlen. unfold mx_read_rpn.
  assert (Hr : rpn_is_request (set_u 1 (b2z (len =? 1)) f) = b2z (len =? 1)).
  { destruct Hf as (_ & H12 & _). unfold rpn_is_request, u_byte, set_u. cbn -[u8].
    rewrite nth_lookup, list_lookup_insert_eq by lia. by destruct (len =? 1). }
  rewrite Hr. destruct Hlen as [->| ->]; cbn [Z.eqb Pos.eqb b2z nz negb].
  - apply returns_ret. split; auto with rfc.
  - do 7 read_byte. apply returns_ret. split; auto 12 with rfc.
Qed.

Lemma mx_read_rls_ok c f b p :
  frame_ok c f -> readable b p 2 ->
  returns (mx_read_rls f b p) (fun f' => frame_ok c f' /\ mx_dlci f' = mx_dlci f).
Proof.
  intros Hf (Hu & Hp & Hl). unfold mx_read_rls. read_byte. apply returns_ret. split; auto with rfc.
Qed.

(** The value of a message lies inside the packet and is at most 255 octets. *)
Lemma mx_header_ok c f b :
  frame_ok c f -> bh_ok b ->
  returns (mx_header f b) (fun h => frame_ok c h.1 /\
    match h.2 with
    | None => True
    | Some (p, mx_len, length) =>
        mx_len = length /\ 0 <= length <= 255 /\ bh_offset b + 2 <= p <= bh_offset b + 3 /\
        p + length = bh_offset b + bh_len b /\ readable b p length
    end).
Proof.
  intros Hf (Ho & Hl & Hd & H16 & Hu). unfold mx_header.
  destruct (Z.ltb_spec (bh_len b) 2); [by apply returns_ret|].
  read_byte. destruct (_ || _); [by apply returns_ret|]. read_byte.
  assert (Hf' : forall x y z, frame_ok c (f <| mx_ea := x |> <| mx_cr := y |> <| mx_type := z |>)) by done.
  destruct (_ && _) eqn:Ee; [by apply returns_ret|].
  assert (Hs : is_u8 (a0 .>> 1)) by (by apply is_u8_shiftr).
  unfold is_u8 in *. destruct (nz (a0 .& 1)) eqn:Ea.
  - apply returns_ret_bind. destruct (Z.eqb_spec (a0 .>> 1) (bh_len b - 1 - 1)); apply returns_ret; [|done].
    cbn [negb fst snd]. unfold readable, is_u8. split_and!; try done; lia.
  - apply returns_assoc. read_byte. apply returns_ret_bind. pose proof (u8_range (a0 .>> 1 + (a1 .<< 7))) as Hr.
    unfold is_u8 in Hr. set (l := u8 _) in *.
    destruct (Z.eqb_spec l (bh_len b - 1 - 1 - 1)); apply returns_ret; [|done].
    cbn [negb fst snd]. unfold readable, is_u8. split_and!; try done; lia.
Qed.

(** ** Processing a message *)

Lemma pres_get_frame c : pres c get_frame (frame_ok c).
Proof. unfold get_frame. pres_step. apply pres_ret. by destruct H. Qed.

Lemma pres_put_frame c f : frame_ok c f -> pres c (put_frame f) T.
Proof. intros Hf. apply pres_modify. intros s []. by split. Qed.

Lemma pres_modify_rx_disabled c b : pres c (modify (fun s => s <| peer_rx_disabled := b |>)) T.
Proof. apply pres_modify. intros s []. by split. Qed.

#[export] Hint Resolve pres_get_frame pres_put_frame pres_modify_rx_disabled : pres.

Section Process.
Context `{RfcEnv} `{SmCalls} (c : icfg) (k : nat) {Hsm : SmOk c k}.

(** The decoded frame is on a DLCI that is valid. *)
Lemma pres_frame_dlci :
  dmax c <= 61 -> pres c get_frame (fun f => frame_ok c f /\ 0 <= mx_dlci f <= 61).
Proof.
  intros Hd. eapply pres_mono; [apply pres_get_frame|]. intros f Hf. split; [done|].
  destruct Hf. lia.
Qed.

Lemma pres_rfc_process_pn m is_command :
  dmax c <= 61 -> (m < 16)%nat -> (3 <= k)%nat -> pres c (rfc_process_pn m is_command) T.
Proof.
  intros Hd Hm Hk. unfold rfc_process_pn.
  eapply pres_bind; [by apply pres_frame_dlci|]. intros f [Hf Hdl]. cbn beta zeta.
  pose proof (u_word_u16 c f 6 Hf : is_u16 (pn_mtu f)) as H1.
  pose proof (is_u8_u16 _ (u_byte_u8 c f 9 Hf) : is_u16 (pn_k f)) as H2. pres.
Qed.

Lemma pres_propose_fc m p dlci fc mask : (m < 16)%nat -> (p < 30)%nat -> pres c (propose_fc m p dlci fc mask) T.
Proof. intros. unfold propose_fc. pres. Qed.

Hint Resolve pres_propose_fc : pres.

Lemma pres_rfc_process_rpn_rsp m p pars :
  dmax c <= 61 -> (m < 16)%nat -> (p < 30)%nat -> (2 <= k)%nat -> pres c (rfc_process_rpn_rsp m p pars) T.
Proof.
  intros Hd Hm Hp Hk. unfold rfc_process_rpn_rsp.
  eapply pres_bind; [by apply pres_frame_dlci|]. intros f [Hf Hdl].
  pose proof (set_u16_ok c f 10 RFCOMM_RPN_PM_MASK Hf) as Hf2. pres.
Qed.

Lemma pres_rfc_process_rpn m is_command is_request :
  dmax c <= 61 -> (m < 16)%nat -> (2 <= k)%nat -> pres c (rfc_process_rpn m is_command is_request) T.
Proof.
  intros Hd Hm Hk. unfold rfc_process_rpn.
  eapply pres_bind; [by apply pres_frame_dlci|]. intros f [Hf Hdl].
  pose proof pres_rfc_process_rpn_rsp as Hrsp. pres.
Qed.

Lemma pres_rfc_process_msc m is_command :
  dmax c <= 61 -> (m < 16)%nat -> (1 <= k)%nat -> pres c (rfc_process_msc m is_command) T.
Proof.
  intros Hd Hm Hk. unfold rfc_process_msc.
  eapply pres_bind; [by apply pres_frame_dlci|]. intros f [Hf Hdl]. pres.
Qed.

Lemma pres_rfc_process_rls m is_command :
  dmax c <= 61 -> (m < 16)%nat -> pres c (rfc_process_rls m is_command) T.
Proof.
  intros Hd Hm. unfold rfc_process_rls.
  eapply pres_bind; [by apply pres_frame_dlci|]. intros f [Hf Hdl]. pres.
Qed.

Lemma pres_rfc_process_fcon m is_command :
  (m < 16)%nat -> (1 <= k)%nat -> pres c (rfc_process_fcon m is_command) T.
Proof. intros. unfold rfc_process_fcon. pres. Qed.

Lemma pres_rfc_process_fcoff m is_command :
  (m < 16)%nat -> (1 <= k)%nat -> pres c (rfc_process_fcoff m is_command) T.
Proof. intros. unfold rfc_process_fcoff. pres. Qed.

Lemma pres_rfc_process_l2cap_congestion m b :
  (m < 16)%nat -> (1 <= k)%nat -> pres c (rfc_process_l2cap_congestion m b) T.
Proof. intros. unfold rfc_process_l2cap_congestion. pres. Qed.

Lemma pres_mx_unsupported m b : (m < 16)%nat -> pres c (mx_unsupported m b) T.
Proof. intros. unfold mx_unsupported. pres. Qed.

End Process.

#[export] Hint Resolve pres_rfc_process_fcon pres_rfc_process_fcoff pres_rfc_process_l2cap_congestion
  pres_mx_unsupported : pres.

(** ** Dispatching a message *)

Section Dispatch.
Context `{RfcEnv} `{SmCalls} (c : icfg) {Hsm : SmOk c 3} {Hsm' : SmOk (narrow c) 3}.
Context (Hd : 63 <= dmax c).

(** Storing a frame with a valid DLCI and going on with it. *)
Lemma pres_put_narrow {A} f (op : M A) Q :
  frame_ok (narrow c) f -> pres (narrow c) op Q -> pres c (put_frame f;; op) Q.
Proof.
  intros Hf Hop s Hs. unfold mbind, M_bind, put_frame, modify.
  assert (Hn : inv (narrow c) (s <| rx_frame := f |>)) by (by destruct Hs; split).
  specialize (Hop _ Hn). destruct (op _) as [[a s']|e]; [|done].
  destruct Hop as [[H1 H2 H3 H4 H5 H6 H7] Ha]. split; [|done]. split; try done.
  destruct H5 as ([? ?] & ?). cbn in *. split; [lia|done].
Qed.

Lemma ptr_bytes_ok p : length (ptr_bytes p) = 8%nat /\ Forall is_u8 (ptr_bytes p).
Proof.
  unfold ptr_bytes. rewrite length_map. split; [done|]. apply Forall_fmap, Forall_true.
  intros. apply u8_range.
Qed.

Lemma pres_mx_test m f b p len :
  (m < 16)%nat -> frame_ok c f -> rx_tail b -> 0 <= len <= 255 ->
  bh_offset b + 2 <= p <= bh_offset b + 3 -> p + len = bh_offset b + bh_len b ->
  pres c (if negb (nz len) then mx_unsupported m (nz (mx_cr f)) else
    s ← get;
    put_frame (f <| mx_u := ptr_bytes (env_test_ptr (out s))
                             ++ [u8 len; u8 (len .>> 8)] ++ drop 10 (mx_u f) |>);;
    let p_buf := b <| bh_offset ::= fun o => u16 (o + 2) |> <| bh_len ::= fun l => u16 (l - 2) |> in
    if nz (mx_cr f) then rfc_send_test m false p_buf else rfc_process_test_rsp) T.
Proof.
  intros Hm (Hf1 & Hf2 & Hf3) ((H1 & H2 & H3 & H4 & H5) & H6 & H7) Hlen Hp Hend.
  destruct (nz len); cbn [negb]; [|pres]. pres_step.
  destruct (ptr_bytes_ok (env_test_ptr (out a))) as [Hpl Hpu].
  eapply pres_bind; [apply pres_put_frame|intros _ _].
  { unfold frame_ok. cbn -[u8]. rewrite length_app, Hpl. cbn [length]. rewrite length_drop.
    split_and!; try lia. apply Forall_app. split; [done|].
    solve_Forall; auto with rfc. by apply Forall_drop. }
  cbn zeta. destruct (nz (mx_cr f)); [|apply pres_skip].
  apply pres_rfc_send_test; [done| |cbn -[u16]; rewrite u16_small; lia|cbn -[u16]; rewrite u16_small; lia].
  unfold rx_tail, bh_ok. cbn -[u16]. rewrite !u16_small by lia. split_and!; try done; lia.
Qed.

Lemma pres_dispatch_pn m f b p :
  (m < 16)%nat -> frame_ok c f -> readable b p 8 ->
  pres c (f' ← lift (mx_read_pn f b p); put_frame f';;
          if mx_bad_pn f' then mx_unsupported m (nz (mx_cr f)) else rfc_process_pn m (nz (mx_cr f))) T.
Proof.
  intros Hm Hf Hr.
  eapply pres_bind; [apply pres_lift, returns_sound; by apply mx_read_pn_ok|intros f1 Hf1].
  destruct (mx_bad_pn f1) eqn:Eb; [pres|]. apply pres_put_narrow.
  - apply frame_ok_valid; [done|]. unfold mx_bad_pn in Eb.
    destruct (RFCOMM_VALID_DLCI (mx_dlci f1)); [done|]. cbn in Eb. by rewrite !orb_true_r in Eb.
  - apply (pres_rfc_process_pn (narrow c) 3); [cbn; lia|done|lia].
Qed.

(** MSC and RPN: the address octet, then the rest of the value. *)
Lemma pres_dispatch_addr m f b p len (rest : MX_FRAME -> outcome MX_FRAME) (op : MX_FRAME -> M unit) :
  (m < 16)%nat -> frame_ok c f -> readable b p len -> 1 <= len ->
  (forall g, frame_ok (narrow c) g ->
     returns (rest g) (fun g' => frame_ok (narrow c) g' /\ mx_dlci g' = mx_dlci g)) ->
  (forall g, frame_ok (narrow c) g -> pres (narrow c) (op g) T) ->
  pres c (a ← lift (mx_read_addr f b p); put_frame a.2;;
          if (a.1 : bool) then mx_unsupported m (nz (mx_cr f)) else
          g ← lift (rest a.2); put_frame g;; op g) T.
Proof.
  intros Hm Hf (Hu & Hp & Hl) Hlen Hrest Hop.
  eapply pres_bind; [apply pres_lift, returns_sound, (mx_read_addr_ok c); try done; split_and!; done || lia|].
  intros a [Ha Hv]. destruct a.1 eqn:E; [pres|]. apply pres_put_narrow.
  - by apply frame_ok_valid, Hv.
  - eapply pres_bind; [apply pres_lift, returns_sound, Hrest; by apply frame_ok_valid, Hv|].
    intros g [Hg _]. eapply pres_bind; [by apply pres_put_frame|intros _ _]. by apply Hop.
Qed.

Lemma pres_dispatch_rls m f b p :
  (m < 16)%nat -> frame_ok c f -> readable b p 2 ->
  pres c (a ← lift (mx_read_addr f b p); g ← lift (mx_read_rls a.2 b p); put_frame g;;
          if (a.1 : bool) then mx_unsupported m (nz (mx_cr f))
          else rfc_process_rls m (nz (mx_cr f))) T.
Proof.
  intros Hm Hf Hr.
  eapply pres_bind; [apply pres_lift, returns_sound, (mx_read_addr_ok c); try done|].
  { destruct Hr as (?&?&?). split_and!; done || lia. }
  intros a [Ha Hv].
  eapply pres_bind; [apply pres_lift, returns_sound; by apply mx_read_rls_ok|intros g [Hg Hg2]].
  destruct a.1; [pres|]. apply pres_put_narrow.
  - apply frame_ok_valid; [done|]. rewrite Hg2. by apply Hv.
  - apply (pres_rfc_process_rls (narrow c)); [cbn; lia|done].
Qed.

Lemma pres_mx_dispatch m b p len :
  (m < 16)%nat -> rx_tail b -> 0 <= len <= 255 -> bh_offset b + 2 <= p <= bh_offset b + 3 ->
  p + len = bh_offset b + bh_len b -> readable b p len ->
  pres c (mx_dispatch m b p len len) T.
Proof.
  intros Hm Hb Hlen Hp Hend Hr. unfold mx_dispatch. pres_step. rename a into f, H1 into Hf. cbn zeta.
  pres_step.
  { destruct (Z.eqb_spec len 8) as [->|]; cbn [negb]; [by apply pres_dispatch_pn|pres]. }
  pres_step; [by apply (pres_mx_test m f b p len)|].
  pres_step; [pres|]. pres_step; [pres|].
  pres_step.
  { destruct (negb (len =? 3) && negb (len =? 2)) eqn:El; [pres|].
    apply (pres_dispatch_addr m f b p len (fun g => mx_read_msc g b p len)
             (fun _ => rfc_process_msc m (nz (mx_cr f)))); [done|done|done|lia| |].
    - intros g Hg. apply mx_read_msc_ok; [done|done|lia].
    - intros g Hg. apply (pres_rfc_process_msc (narrow c) 3); [cbn; lia|done|lia]. }
  pres_step.
  { destruct (negb (len =? 1) || negb (nz (mx_cr f))) eqn:El; [pres|].
    eapply pres_bind; [apply pres_lift, returns_sound; eapply mx_read_nsc_ok; [done|]|intros ? ?; unfold rfc_process_nsc; pres].
    destruct Hr as (?&?&?). split_and!; done || lia. }
  pres_step.
  { destruct (negb (len =? 1) && negb (len =? 8)) eqn:El; [pres|].
    apply (pres_dispatch_addr m f b p len (fun g => mx_read_rpn g b p len)
             (fun g => rfc_process_rpn m (nz (mx_cr f)) (nz (rpn_is_request g)))); [done|done|done|lia| |].
    - intros g Hg. apply mx_read_rpn_ok; [done|done|lia].
    - intros g Hg. apply (pres_rfc_process_rpn (narrow c) 3); [cbn; lia|done|lia]. }
  pres_step; [|pres].
  destruct (Z.eqb_spec len 2) as [->|]; cbn [negb]; [by apply pres_dispatch_rls|pres].
Qed.

Lemma pres_rfc_process_mx_message m b :
  (m < 16)%nat -> rx_tail b -> pres c (rfc_process_mx_message m b) T.
Proof.
  intros Hm Hb. unfold rfc_process_mx_message. pres_step. rename a into f, H1 into Hf.
  eapply pres_bind; [apply pres_lift, returns_sound; apply (mx_header_ok c); [done|apply Hb]|].
  intros h [Hh Hv]. pres_step. destruct (h.2) as [[[p mx_len] len]|]; [|pres].
  destruct Hv as (-> & Hl & Hp & Hend & Hr). by apply pres_mx_dispatch.
Qed.

End Dispatch.

(** ** Callbacks from L2CAP *)

Section L2cap.
Context `{RfcEnv} (c : icfg) `{!EnvOk c}.

Ltac call_mx := apply (pres_call_mx_sm c 3); [idx|done|cbn; lia].

Lemma narrow_env : EnvOk (narrow c).
Proof. destruct EnvOk0 as [H1 H2 H3]. split; [|done|done]. intros l r E1 E2. by apply (H1 l r). Qed.

Lemma pres_RFCOMM_ConnectInd addr cid : pres c (RFCOMM_ConnectInd addr cid) T.
Proof. unfold RFCOMM_ConnectInd. pres. call_mx. Qed.

Lemma pres_RFCOMM_ConnectCnf cid result : pres c (RFCOMM_ConnectCnf cid result) T.
Proof. unfold RFCOMM_ConnectCnf. pres. call_mx. Qed.

Lemma pres_save_pending_cfg l cid cfg :
  Forall (fun m => (m < 16)%nat) l -> pres c (save_pending_cfg l cid cfg) T.
Proof.
  induction 1 as [|m l Hm Hl IH]; cbn [save_pending_cfg]; [apply pres_skip|]. pres.
Qed.

Lemma pres_RFCOMM_ConfigInd cid cfg : pres c (RFCOMM_ConfigInd cid cfg) T.
Proof.
  unfold RFCOMM_ConfigInd. pres; [call_mx|].
  apply pres_save_pending_cfg, Forall_fmap, List.Forall_forall.
  intros [cid' m] Hin%list_elem_of_In%elem_of_map_to_list. exact (inv_lcid _ _ H1 _ _ Hin).
Qed.

Lemma pres_RFCOMM_ConfigCnf cid cfg : pres c (RFCOMM_ConfigCnf cid cfg) T.
Proof.
  unfold RFCOMM_ConfigCnf. eapply pres_bind; [apply pres_RFCOMM_ConfigInd|intros _ _].
  pres. call_mx.
Qed.

Lemma pres_RFCOMM_DisconnectInd cid : pres c (RFCOMM_DisconnectInd cid) T.
Proof. unfold RFCOMM_DisconnectInd. pres. call_mx. Qed.

Lemma pres_RFCOMM_CongestionStatusInd cid b : pres c (RFCOMM_CongestionStatusInd cid b) T.
Proof. unfold RFCOMM_CongestionStatusInd. pres. Qed.

Lemma pres_find_data_port m ev :
  dmax c <= 61 -> (m < 16)%nat -> pres c (find_data_port m ev) port_index.
Proof.
  intros Hd Hm. unfold find_data_port.
  eapply pres_bind; [by apply pres_frame_dlci|]. intros f [Hf Hdl]. pres.
  by destruct (p_mcb (rfc a0)); simplify_eq.
Qed.

(** A data frame for the port that was found. *)
Lemma pres_port_frame o ev pe b :
  port_index o -> bh_ok b -> port_event_of ev = Some pe ->
  pres c (match o with
          | None => skip
          | Some p =>
              if bool_decide (ev = RFC_EVENT_UIH) then
                when (0 <? bh_len b) (call_port_sm (Some p) pe (PBuf b));;
                f ← get_frame;
                when (negb (mx_credit f =? 0)) (rfc_inc_credit p (mx_credit f))
              else call_port_sm (Some p) pe PNull
          end) T.
Proof.
  intros Ho Hb Ep. destruct o as [p|]; [|apply pres_skip]. cbn in Ho.
  case_bool_decide as E.
  - subst ev. injection Ep as <-. pres.
    apply (pres_call_port_sm c 3). intros ? [= <-]. split; [by split|cbn; lia].
  - apply (pres_call_port_sm c 3). intros ? [= <-].
    destruct ev; inversion Ep; subst; (split; [by split|cbn; lia]).
Qed.

End L2cap.

Section BufData.
Context `{RfcEnv} (c : icfg) `{!EnvOk c}.

Lemma put_get_frame {A} (f : MX_FRAME) (kont : MX_FRAME -> M A) Q :
  pres c (put_frame f;; kont f) Q -> pres c (put_frame f;; g ← get_frame; kont g) Q.
Proof. done. Qed.

Lemma rx_tail_of_parsed b ev f b' f' :
  bh_ok b -> parsed b f (ev, f', b') -> ev <> RFC_EVENT_BAD_FRAME -> rx_tail b'.
Proof.
  intros (H1 & H2 & H3 & H4 & H5) (Hd & _ & _ & Ho & Hl & He & _ & _ & _ & _ & Hv) Hev.
  destruct (Hv Hev) as (_ & _ & Hlt). unfold rx_tail, bh_ok. rewrite Hd. split_and!; try done; lia.
Qed.

Lemma pres_RFCOMM_BufDataInd cid b :
  dmax c = 255 -> bh_ok b -> pres c (RFCOMM_BufDataInd cid b) T.
Proof.
  intros Hd Hb. pose proof (narrow_env c) as Hn. unfold RFCOMM_BufDataInd. pres_step. pres_step; [|pres].
  pres_step. pres_step. rename a0 into y, a1 into f, H2 into Hf.
  eapply pres_bind; [apply pres_lift, returns_sound; by apply rfc_parse_data_spec|].
  intros [[ev f'] b'] Hp. cbn [fst snd]. pose proof Hp as Hp0.
  destruct Hp as (_ & _ & _ & _ & _ & _ & Hto & Hu & _ & Hdl & Hv).
  assert (Hf' : frame_ok c f').
  { destruct Hf as (Hf1 & Hf2 & Hf3). unfold frame_ok. rewrite Hu. split_and!; try done;
    unfold is_u8 in Hdl; lia. }
  destruct (decide (ev = RFC_EVENT_BAD_FRAME)) as [->|Hev]; [cbn [mx_event_of]; pres|].
  pose proof (rx_tail_of_parsed _ _ _ _ _ Hb Hp0 Hev) as Ht. destruct (Hv Hev) as (Hval & _).
  destruct (mx_event_of ev) as [mxe|] eqn:Em; [|by destruct ev].
  destruct (port_event_of ev) as [pe|] eqn:Ep; [|by destruct ev].
  apply put_get_frame. destruct (Z.eqb_spec (mx_dlci f') RFCOMM_MX_DLCI).
  - pres_step. pres_step; [apply (pres_rfc_process_mx_message c); [lia|done|done]|].
    apply (pres_call_mx_sm c 3); [done| |]; destruct ev; inversion Em; subst; first [done | cbn; lia].
  - apply pres_put_narrow; [lia|by apply frame_ok_valid|].
    eapply pres_bind; [apply (pres_find_data_port (narrow c)); cbn; [lia|done]|intros o Ho].
    by apply (pres_port_frame (narrow c)); [|apply Ht|].
Qed.

End BufData.
