(* ===== verification/PortData.v ===== *)
(** * PortData: the data path of a port

    What [PORT_ReadData] returns and leaves in the receive queue, what
    [PORT_WriteData] appends to the send queue, and how many frames
    [port_rfc_send_tx_data] sends for the credits at hand. *)

From Stdlib Require Import ZArith Lia.
From stdpp Require Import gmap.
From S2P Require Import Prelude RfcFcs Osi RfcDefs RfcState RfcFrames RfcFramesProps RfcUtils.
From S2P Require Import PortRfc RfcMxFsm RfcPortFsm RfcL2capIf PortApi RfcRun RfcInv RfcInvBase.
From S2P Require Import RfcInvUtils RfcInvPort RfcInvFsm RfcInvMx.

(** The bytes waiting in a queue, oldest first. *)
Definition queue_bytes (q : fixed_queue) : list Z :=
  match q with None => [] | Some l => concat (bh_payload <$> l) end.

(** [s] with the receive side of port [p] replaced. *)
Definition put_rx (p : nat) (x : tPORT) (q : fixed_queue) (size : Z) (s : rfc_cb) : rfc_cb :=
  s <| port_tab ::= <[p := x <| rx ::= fun d => d <| pd_queue := q |> <| queue_size := size |> |>]> |>.

(** Port [p] is open on channel [port_dlci x] of multiplexer [m], with credit
    flow control. *)
Record linked (s : rfc_cb) (p : nat) (x : tPORT) (m : nat) (y : tRFC_MCB) : Prop := mk_linked {
  linked_port : port_tab s !! p = Some x;
  linked_mcb : rfc_mcb_tab s !! m = Some y;
  linked_p_mcb : p_mcb (rfc x) = Some m;
  linked_open : rfc_state (rfc x) = RFC_STATE_OPENED;
  linked_dlci : 2 <= port_dlci x <= RFCOMM_MAX_DLCI;
  linked_handle : port_handles y !! Z.to_nat (port_dlci x) = Some (Z.of_nat p + 1);
  linked_flow : mcb_flow y = PORT_FC_CREDIT;
}.

(** [o] sends the data of [b] on channel [dlci] of the multiplexer, in one frame,
    with [cr] credits for the peer. *)
Definition sends (y : tRFC_MCB) (dlci : Z) (b : BT_HDR) (cr : Z) (o : output) : Prop :=
  let hdr := uih_header (is_initiator y) dlci cr (bh_len b) in
  exists b', o = L2CA_DataWrite (mcb_lcid y) b' /\ bh_ok b' /\
    bh_payload b' = hdr ++ bh_payload b ++ [rfc_calc_fcs (take 2 hdr)].

(** The credits sent along with a buffer: all that are due, unless it fills the
    frame or the application stopped reading. *)
Definition piggyback (x : tPORT) (b : BT_HDR) : Z :=
  if (bh_len b <? peer_mtu x) && negb (user_fc (rx x)) && (credit_rx x <? credit_rx_max x)
  then credit_rx_max x - credit_rx x else 0.

(** The port after one buffer was sent. *)
Definition sent (b : BT_HDR) (x : tPORT) : tPORT :=
  x <| credit_rx := credit_rx x + piggyback x b |> <| credit_tx := credit_tx x - 1 |>
    <| tx ::= set peer_fc (fun fc => fc || (credit_tx x =? 1)) |>.

(** Port [p] may send the buffers [l] now. *)
Record ready_to_send (s : rfc_cb) (p : nat) (x : tPORT) (m : nat) (y : tRFC_MCB) (l : list BT_HDR) : Prop :=
  mk_ready {
  ready_linked : linked s p x m y;
  ready_peer : peer_ready y = true;
  ready_fc : peer_fc (tx x) = false;
  ready_credit : 0 < credit_tx x;
  ready_credit_rx : 0 <= credit_rx x <= credit_rx_max x /\ credit_rx_max x <= PORT_RX_BUF_HIGH_WM;
  ready_queue : pd_queue (tx x) = Some l;
  ready_bufs : Forall (fun b => tx_ok b /\ 0 < bh_len b) l;
  ready_len : (length l <= 16)%nat;
  ready_size : queue_size (tx x) = sum_len l;
}.

(** How many of [l] the credits allow. *)
Definition sendable (x : tPORT) (l : list BT_HDR) : nat := Nat.min (length l) (Z.to_nat (credit_tx x)).

(** [outs] are the frames of [l], in order. *)
Definition send_all (y : tRFC_MCB) (dlci : Z) : list BT_HDR -> list output -> Prop :=
  Forall2 (fun b o => exists cr, is_u8 cr /\ sends y dlci b cr o).

(** [s'] is [s] after port [p] became [x'] and [outs] were sent, the first first. *)
Definition after_send (p : nat) (x' : tPORT) (outs : list output) (s : rfc_cb) : rfc_cb :=
  put_port p x' (s <| out ::= fun o => rev outs ++ o |>).

(** The outcome [r] of sending from [s]: the buffers of [l] that the credits
    allow went out, in order, one frame and one credit each; the rest is queued. *)
Definition sends_prefix (s : rfc_cb) (p : nat) (x : tPORT) (y : tRFC_MCB) (l : list BT_HDR)
    (r : outcome (Z * rfc_cb)) : Prop :=
  exists ev x' outs, r = Ok (ev, after_send p x' outs s) /\
    send_all y (port_dlci x) (take (sendable x l) l) outs /\
    pd_queue (tx x') = Some (drop (sendable x l) l) /\
    credit_tx x' = credit_tx x - Z.of_nat (sendable x l) /\ rfc x' = rfc x.

(** * Lemmas *)

(** ** Reading *)

Lemma bytes_length l : Forall bh_ok l -> Z.of_nat (length (concat (bh_payload <$> l))) = sum_len l.
Proof.
  induction 1 as [|b l Hb Hl IH]; cbn [fmap list_fmap concat sum_len foldr]; [done|].
  fold (sum_len l). rewrite length_app, Nat2Z.inj_add, bh_payload_len by done.
  change (list_fmap _ _ bh_payload l) with (bh_payload <$> l). lia.
Qed.

Lemma put_rx_same p x s :
  port_tab s !! p = Some x -> put_rx p x (pd_queue (rx x)) (queue_size (rx x)) s = s.
Proof.
  intros Hx. unfold put_rx.
  assert (E : x <| rx ::= fun d => d <| pd_queue := pd_queue (rx x) |> <| queue_size := queue_size (rx x) |> |> = x)
    by (destruct x as []; by destruct rx).
  rewrite E. destruct s as [pt ? ? ? ? ? ? ?]. unfold set, set_port_tab. cbn. f_equal.
  by apply list_insert_id.
Qed.

(** Taking the first [n] bytes of a packet longer than that. *)
Lemma partial_read b n :
  bh_ok b -> 0 <= n < bh_len b ->
  let b' := b <| bh_offset ::= fun o => u16 (o + n) |> <| bh_len ::= fun l => u16 (l - n) |> in
  bh_read_bytes b (bh_offset b) n = Ok (take (Z.to_nat n) (bh_payload b)) /\
  bh_ok b' /\ bh_payload b' = drop (Z.to_nat n) (bh_payload b) /\ bh_len b' = bh_len b - n.
Proof.
  intros Hb Hn b'. pose proof Hb as (H1 & H2 & H3 & H4 & H5).
  assert (E : b' = b <| bh_offset := bh_offset b + n |> <| bh_len := bh_len b - n |>).
  { unfold b', set, set_bh_offset, set_bh_len. cbn -[u16]. by rewrite !u16_small by lia. }
  rewrite E. split_and!.
  - apply payload_prefix; [done|lia].
  - unfold bh_ok. cbn. split_and!; try done; lia.
  - unfold bh_payload, slice. cbn. rewrite skipn_firstn_comm, drop_drop. f_equal; [lia|]. f_equal. lia.
  - done.
Qed.

Lemma rx_upd x f g :
  x <| rx ::= fun d => d <| pd_queue ::= f |> <| queue_size ::= g |> |> =
  x <| rx ::= fun d => d <| pd_queue := f (pd_queue (rx x)) |> <| queue_size := g (queue_size (rx x)) |> |>.
Proof. reflexivity. Qed.

Lemma put_rx_put_rx p x q n q' n' s :
  put_rx p (x <| rx ::= fun d => d <| pd_queue := q |> <| queue_size := n |> |>) q' n' (put_rx p x q n s) =
  put_rx p x q' n' s.
Proof. unfold put_rx, set, set_port_tab. cbn. by rewrite list_insert_insert_eq. Qed.

Lemma read_loop_spec fuel p n data count s x l :
  port_tab s !! p = Some x -> pd_queue (rx x) = Some l -> Forall bh_ok l ->
  queue_size (rx x) = sum_len l -> sum_len l < 2 ^ 32 -> 0 <= n -> 0 <= count ->
  (length l < fuel)%nat ->
  exists l' count',
    read_loop fuel p n data count s =
      Ok ((data ++ take (Z.to_nat n) (queue_bytes (Some l)), count'),
          put_rx p x (Some l') (sum_len l') s) /\
    queue_bytes (Some l') = drop (Z.to_nat n) (queue_bytes (Some l)) /\
    Forall bh_ok l' /\ (length l' <= length l)%nat /\ sum_len l' <= sum_len l /\ 0 <= count'.
Proof.
  revert n data count s x l. induction fuel as [|fuel IH]; intros n data count s x l Hx Hq Hf Hs H32 Hn Hc Hfu; [lia|].
  assert (Hsame : put_rx p x (Some l) (sum_len l) s = s).
  { rewrite <- Hq, <- Hs. by apply put_rx_same. }
  cbn [read_loop]. destruct (Z.eqb_spec n 0) as [->|Hn0].
  { exists l, count. rewrite Hsame, app_nil_r. by split_and!. }
  unfold mbind, M_bind, get_port. rewrite Hx, Hq. destruct l as [|b l]; cbn [fixed_queue_try_peek_first head].
  { exists [], count. rewrite Hsame. cbn. rewrite take_nil, drop_nil, app_nil_r. by split_and!. }
  inversion_clear Hf as [|? ? Hb Hl]. pose proof (rx_sum_nonneg _ Hl) as Hnn.
  pose proof (bh_payload_len b Hb) as Hbl. pose proof Hb as (_ & Hb2 & _ & Hb4 & _).
  cbn [sum_len foldr] in Hs, H32. fold (sum_len l) in Hs, H32. cbn [length] in Hfu.
  cbn [queue_bytes fmap list_fmap concat].
  change (list_fmap _ _ bh_payload l) with (bh_payload <$> l).
  destruct (Z.ltb_spec n (bh_len b)) as [Hlt|Hge].
  - destruct (partial_read b n Hb ltac:(lia)) as (Er & Hb' & Hp' & Hl').
    set (b' := b <| bh_offset ::= _ |> <| bh_len ::= _ |>) in *. unfold lift. rewrite Er.
    unfold upd_port. rewrite Hx. exists (b' :: l), count. split_and!.
    + rewrite take_app_le by lia. unfold mret, M_ret, put_rx. do 3 f_equal.
      rewrite rx_upd, Hq, Hs. cbn [fixed_queue_update_first sum_len foldr]. fold (sum_len l).
      rewrite Hl'. unfold u32. rewrite Z.mod_small by lia.
      by replace (bh_len b - n + sum_len l) with (bh_len b + sum_len l - n) by lia.
    + cbn [fmap list_fmap concat]. change (list_fmap _ _ bh_payload l) with (bh_payload <$> l).
      by rewrite Hp', drop_app_le by lia.
    + solve_Forall.
    + cbn. lia.
    + cbn [sum_len foldr]. fold (sum_len l). lia.
    + done.
  - unfold lift. rewrite bh_read_bytes_ok by (destruct Hb; lia). fold (bh_payload b).
    unfold upd_port at 1. rewrite Hx.
    set (x1 := x <| rx ::= _ |>).
    assert (Hx1 : x1 = x <| rx ::= fun d => d <| pd_queue := Some l |> <| queue_size := sum_len l |> |>).
    { unfold x1. rewrite rx_upd, Hq, Hs. cbn [fixed_queue_try_dequeue]. unfold u32.
      rewrite Z.mod_small by lia. by replace (bh_len b + sum_len l - bh_len b) with (sum_len l) by lia. }
    set (s1 := s <| port_tab ::= <[p := x1]> |>).
    assert (Hx1' : port_tab s1 !! p = Some x1).
    { cbn. apply list_lookup_insert_eq. by eapply lookup_lt_Some. }
    destruct (IH (n - bh_len b) (data ++ bh_payload b) (u16 (count + 1)) s1 x1 l) as
      (l' & c' & E & Hb1 & Hf' & Hlen & Hsum & Hc').
    { done. } { by rewrite Hx1. } { done. } { by rewrite Hx1. } { lia. } { lia. } { apply u16_range. } { lia. }
    exists l', c'. rewrite E. split_and!.
    + f_equal. f_equal.
      * cbn [queue_bytes]. rewrite <- app_assoc, take_app_ge by lia. do 3 f_equal. f_equal. lia.
      * unfold s1. rewrite Hx1. apply put_rx_put_rx.
    + etrans; [exact Hb1|]. cbn [queue_bytes]. rewrite drop_app_ge by lia. f_equal. lia.
    + done.
    + cbn. lia.
    + cbn [sum_len foldr]. fold (sum_len l). lia.
    + done.
Qed.

(** ** Sending *)

Lemma find_linked s p x m y :
  linked s p x m y -> port_find_mcb_dlci_port (Some m) (port_dlci x) s = Ok (Some p, s).
Proof.
  intros [H1 H2 H3 H4 H5 H6 H7].
  unfold port_find_mcb_dlci_port. destruct (_ <? _) eqn:E; [lia|].
  unfold mbind, M_bind, get_mcb, lift, mret, M_ret, rd. rewrite H2.
  destruct (port_dlci x <? 0) eqn:E0; [lia|]. rewrite H6. cbn [of_option].
  destruct (Z.eqb_spec (Z.of_nat p + 1) 0); [lia|]. do 3 f_equal. lia.
Qed.

Section Send.
Context `{RfcEnv}.

(** One more credit used. *)
Lemma dec_credit_spec s p x m y :
  linked s p x m y -> 0 < credit_tx x ->
  rfc_dec_credit p s = Ok (tt, put_port p (x <| credit_tx := credit_tx x - 1 |>
    <| tx ::= set peer_fc (fun fc => fc || (credit_tx x =? 1)) |>) s).
Proof.
  intros [H1 H2 H3 H4 H5 H6 H7] Hc. unfold rfc_dec_credit.
  rewrite (run_port_mcb p x m) by done. rewrite (run_get_mcb m y) by done.
  rewrite bool_decide_true by done. cbn [when]. rewrite (run_get_port p x) by done.
  destruct (0 <? credit_tx x) eqn:E; [|lia]. cbn [when].
  rewrite (run_upd_port p x) by done. set (x1 := x <| credit_tx ::= _ |>).
  rewrite (run_get_port p x1) by (by eapply lookup_put_port).
  change (credit_tx x1) with (credit_tx x - 1).
  destruct (Z.eqb_spec (credit_tx x - 1) 0), (Z.eqb_spec (credit_tx x) 1); try lia; cbn [when].
  - unfold upd_port. rewrite (lookup_put_port p x) by done. do 2 f_equal.
    etrans; [apply put_put_port|]. f_equal. unfold x1, set, set_tx, set_peer_fc. cbn. by rewrite orb_true_r.
  - unfold skip, mret, M_ret. do 3 f_equal. unfold x1, set, set_tx, set_peer_fc.
    destruct x as []. destruct tx. cbn. by rewrite orb_false_r.
Qed.

Lemma piggyback_u8 x b : 0 <= credit_rx x -> credit_rx_max x <= 10 -> is_u8 (piggyback x b).
Proof. unfold piggyback, is_u8. intros. destruct (_ && _ && _) eqn:?; lia. Qed.

Lemma linked_put s p x m y x' :
  linked s p x m y -> rfc x' = rfc x -> port_dlci x' = port_dlci x -> linked (put_port p x' s) p x' m y.
Proof.
  intros [H1 H2 H3 H4 H5 H6 H7] E1 E2. split; try done; rewrite ?E1, ?E2; try done.
  by eapply lookup_put_port.
Qed.

(** A buffer is framed and handed to L2CAP. *)
Lemma send_buf_spec s m y dlci b cr :
  rfc_mcb_tab s !! m = Some y -> 2 <= dlci <= RFCOMM_MAX_DLCI -> tx_ok b -> is_u8 cr ->
  exists o, sends y dlci b cr o /\
    rfc_send_buf_uih m dlci (b <| bh_layer_specific := cr |>) s = Ok (tt, s <| out ::= cons o |>).
Proof.
  intros Hy Hd Hb Hc. unfold rfc_send_buf_uih. rewrite (run_get_mcb m y) by done.
  set (b1 := b <| bh_layer_specific := cr |>).
  assert (Ec : uih_credits dlci b1 = cr).
  { unfold uih_credits. replace (nz dlci) with true by (symmetry; apply nz_true; lia).
    cbn. by apply u8_id. }
  pose proof (uih_frame_content (is_initiator y) dlci b1) as Hf. rewrite Ec in Hf. cbn zeta in Hf.
  assert (Hroom : uih_room dlci b1).
  { unfold uih_room, bh_ok. rewrite Ec. destruct Hb as (H1 & H2 & H3 & H4). cbn. rewrite H1, H3.
    change (Z.of_nat 4104) with 4104. split_and!; try done; try lia.
    destruct (_ <? _), (nz cr); cbn; lia. }
  specialize (Hf Hroom). unfold mbind, M_bind, lift.
  destruct (uih_frame _ _ _) as [b'|]; [|done]. destruct Hf as [Hok Hp].
  replace (dlci =? RFCOMM_MX_DLCI) with false by lia.
  exists (L2CA_DataWrite (mcb_lcid y) b'). split; [|done]. by exists b'.
Qed.

Lemma data_req_spec s p x m y b :
  linked s p x m y -> tx_ok b -> 0 < credit_tx x -> 0 <= credit_rx x -> credit_rx_max x <= 10 ->
  exists o, sends y (port_dlci x) b (piggyback x b) o /\
    RFCOMM_DataReq m (port_dlci x) b s = Ok (tt, put_port p (sent b x) (s <| out ::= cons o |>)).
Proof.
  intros Hl Hb Hc Hcr Hmx. unfold RFCOMM_DataReq, mbind at 1, M_bind at 1.
  rewrite (find_linked _ _ _ _ _ Hl). pose proof Hl as [H1 H2 H3 H4 H5 H6 H7].
  pose proof (piggyback_u8 x b Hcr Hmx) as Hpb.
  cbn [call_port_sm]. unfold sm_exec, sm_calls, sm_depth. cbn [sm_execute].
  unfold rfc_port_sm_execute. rewrite (run_get_port p x) by done. rewrite H4.
  cbn [rfc_port_sm_opened pdata_buf].
  rewrite run_ret, (run_port_mcb p x m), (run_get_mcb m y), (run_get_port p x) by done.
  rewrite bool_decide_true by done. cbn [andb].
  set (x1 := x <| credit_rx := credit_rx x + piggyback x b |>).
  assert (E : forall kont : BT_HDR -> M unit,
    ((if (bh_len b <? peer_mtu x) && negb (user_fc (rx x)) && (credit_rx x <? credit_rx_max x) then
        upd_port p (fun x => x <| credit_rx := credit_rx_max x |>);;
        mret (b <| bh_layer_specific := u8 (credit_rx_max x - credit_rx x) |>)
      else mret (b <| bh_layer_specific := 0 |>)) ≫= kont) s =
    kont (b <| bh_layer_specific := piggyback x b |>) (put_port p x1 s)).
  { intros kont. unfold x1, piggyback. destruct (_ && _ && _) eqn:E.
    - rewrite run_assoc, (run_upd_port p x), run_ret, u8_id by (done || unfold is_u8; lia).
      by replace (credit_rx x + (credit_rx_max x - credit_rx x)) with (credit_rx_max x) by lia.
    - rewrite run_ret. f_equal. rewrite Z.add_0_r. symmetry. apply put_port_same. rewrite H1. by destruct x as []. }
  rewrite E. assert (Hl1 : linked (put_port p x1 s) p x1 m y) by (by eapply linked_put).
  destruct (send_buf_spec (put_port p x1 s) m y (port_dlci x) b (piggyback x b)) as (o & Ho & Es); try done.
  exists o. split; [done|]. unfold mbind, M_bind. rewrite Es.
  rewrite (dec_credit_spec _ p x1 m y); [|by destruct Hl1|done].
  do 2 f_equal. unfold put_port, set, set_port_tab, set_out. cbn. by rewrite list_insert_insert_eq.
Qed.

Lemma after_send_app p x x' outs outs' s :
  after_send p x' outs' (after_send p x outs s) = after_send p x' (outs ++ outs') s.
Proof.
  unfold after_send, put_port, set, set_port_tab, set_out. cbn.
  by rewrite list_insert_insert_eq, rev_app_distr, app_assoc.
Qed.

Lemma linked_after s p x m y x' outs :
  linked s p x m y -> rfc x' = rfc x -> port_dlci x' = port_dlci x -> linked (after_send p x' outs s) p x' m y.
Proof. intros Hl E1 E2. by destruct (linked_put s p x m y x' Hl E1 E2). Qed.

(** The first buffer goes out. *)
Lemma send_first s p x m y b l :
  ready_to_send s p x m y (b :: l) ->
  let x1 := x <| tx ::= fun d => d <| pd_queue := Some l |> <| queue_size := sum_len l |> |> in
  exists o, (exists cr, is_u8 cr /\ sends y (port_dlci x) b cr o) /\
    (upd_port p (fun x => x <| tx ::= fun d => d <| pd_queue := Some l |>
       <| queue_size ::= fun n => u32 (n - bh_len b) |> |>);; RFCOMM_DataReq m (port_dlci x) b) s =
    Ok (tt, after_send p (sent b x1) [o] s).
Proof.
  intros [Hl Hp Hfc Hc Hcr Hq Hb Hn Hs] x1. inversion_clear Hb as [|? ? [Hb1 Hb2] Hb'].
  assert (Hsum : 0 <= sum_len l <= 4085 * Z.of_nat (length l)).
  { apply sum_len_nonneg. eapply list.Forall_impl; [exact Hb'|]. by intros ? []. }
  rewrite (run_upd_port p x) by apply Hl.
  replace (x <| tx ::= _ |>) with x1.
  2: { unfold x1. unfold set, set_tx, set_queue_size, set_pd_queue. cbn -[u32]. rewrite Hs.
       cbn [sum_len foldr]. fold (sum_len l). unfold u32. cbn in Hn. destruct Hb1 as (_ & ? & _).
       rewrite Z.mod_small by lia. do 2 f_equal. lia. }
  assert (Hl1 : linked (put_port p x1 s) p x1 m y) by (by eapply linked_put).
  destruct (data_req_spec (put_port p x1 s) p x1 m y b Hl1 Hb1 Hc) as (o & Ho & E); [cbn; lia..|].
  exists o. split; [exists (piggyback x1 b); split; [apply piggyback_u8; cbn; lia|exact Ho]|].
  change (port_dlci x) with (port_dlci x1). rewrite E. do 2 f_equal.
  unfold after_send, put_port, set, set_port_tab, set_out. cbn. by rewrite list_insert_insert_eq.
Qed.

(** The port after [send_first]. *)
Lemma sendable_cons x b l q n :
  0 < credit_tx x ->
  sendable x (b :: l) = S (sendable (sent b (x <| tx ::= fun d => d <| pd_queue := q |> <| queue_size := n |> |>)) l).
Proof.
  intros Hc. unfold sendable. change (credit_tx (sent _ _)) with (credit_tx x - 1). cbn [length]. lia.
Qed.

Lemma positive_sum l : Forall (fun b => tx_ok b /\ 0 < bh_len b) l -> sum_len l = 0 -> l = [].
Proof.
  destruct 1 as [|b l [_ Hb] Hl]; [done|]. cbn [sum_len foldr]. fold (sum_len l).
  assert (0 <= sum_len l) by (eapply sum_len_nonneg, list.Forall_impl; [exact Hl|by intros ? []]). lia.
Qed.

Lemma send_tx_loop_spec fuel p ev s x m y l :
  ready_to_send s p x m y l -> (length l < fuel)%nat ->
  sends_prefix s p x y l (send_tx_loop fuel p ev s).
Proof.
  revert ev s x l. induction fuel as [|fuel IH]; intros ev s x l Hr Hf; [lia|].
  pose proof Hr as [Hl Hp Hfc Hc Hcr Hq Hb Hn Hs]. pose proof Hl as [H1 H2 H3 H4 H5 H6 H7].
  cbn [send_tx_loop]. rewrite (run_get_port p x), H3, (run_get_mcb m y), Hfc, Hp, Hq by done. cbn [orb negb].
  destruct l as [|b l]; cbn [fixed_queue_try_dequeue].
  { exists (ev .| PORT_EV_TXEMPTY), x, []. unfold sendable. cbn [length Nat.min take drop]. split_and!; try done; try lia.
    - unfold mret, M_ret. do 2 f_equal. etrans; [symmetry; by apply (put_port_same p x)|]. by destruct s.
    - constructor. }
  destruct (send_first s p x m y b l Hr) as (o & Ho & E). set (x1 := sent b _) in E.
  rewrite <- run_assoc. unfold mbind at 1, M_bind at 1. rewrite E.
  assert (Hl1 : linked (after_send p x1 [o] s) p x1 m y) by (by eapply linked_after).
  rewrite (run_get_port p x1) by apply Hl1. change (queue_size (tx x1)) with (sum_len l).
  pose proof (sendable_cons x b l (Some l) (sum_len l) Hc) as Hk. fold x1 in Hk.
  assert (Hstop : forall ev', sendable x1 l = 0%nat -> sends_prefix s p x y (b :: l) (Ok (ev', after_send p x1 [o] s))).
  { intros ev' E0. exists ev', x1, [o]. rewrite Hk, E0. cbn [take drop]. split_and!; try done.
    constructor; [done|constructor]. }
  inversion_clear Hb as [|? ? [Hb1 Hb2] Hb'].
  destruct (Z.eqb_spec (sum_len l) 0) as [Hz|Hnz].
  { apply Hstop. by rewrite (positive_sum _ Hb' Hz). }
  destruct (Z.eqb_spec (credit_tx x) 1) as [Hc1|Hc1].
  { destruct fuel as [|fuel]; [cbn in Hf; lia|]. cbn [send_tx_loop].
    rewrite (run_get_port p x1) by apply Hl1. rewrite (linked_p_mcb _ _ _ _ _ Hl1).
    rewrite (run_get_mcb m y) by done. replace (peer_fc (tx x1)) with true.
    2: { unfold x1. cbn. rewrite Hc1. by rewrite orb_true_r. }
    apply Hstop. unfold sendable. change (credit_tx x1) with (credit_tx x - 1). lia. }
  destruct (IH (ev .| PORT_EV_TXCHAR) (after_send p x1 [o] s) x1 l) as (ev' & x' & outs & E' & Ha & Hq' & Hc' & Hx').
  { split; try done.
    - cbn. rewrite Hfc. cbn. lia.
    - change (credit_tx x1) with (credit_tx x - 1). lia.
    - cbn. unfold piggyback. destruct (_ && _ && _) eqn:?; cbn in *; lia.
    - cbn in Hn. lia. }
  { cbn in Hf. lia. }
  exists ev', x', (o :: outs). rewrite E', after_send_app, Hk. cbn [take drop]. split_and!; try done.
  - by constructor.
  - rewrite Hc'. change (credit_tx x1) with (credit_tx x - 1). lia.
Qed.

Lemma flow_user_spec s p x m y :
  port_tab s !! p = Some x -> p_mcb (rfc x) = Some m -> rfc_mcb_tab s !! m = Some y ->
  exists r fc, port_flow_control_user p s = Ok (r, put_port p (x <| tx ::= set user_fc (fun _ => fc) |>) s).
Proof.
  intros Hx Hm Hy. unfold port_flow_control_user. rewrite (run_get_port p x), Hm by done.
  rewrite run_assoc, (run_get_mcb m y), run_ret by done.
  destruct (Bool.eqb _ _) eqn:E.
  - exists 0, (user_fc (tx x)). unfold mret, M_ret. do 2 f_equal. symmetry. apply put_port_same. rewrite Hx.
    f_equal. destruct x as []. by destruct tx.
  - rewrite (run_upd_port p x) by done. do 2 eexists. reflexivity.
Qed.

(** C33: [port_rfc_send_tx_data] sends queued buffers oldest first, one UIH frame
    and one credit each, until the queue or the credits run out, and keeps the
    others queued in order. *)
Theorem send_tx_data_fifo s p x m y l :
  ready_to_send s p x m y l -> l <> [] ->
  exists ev s' x' outs,
    port_rfc_send_tx_data p s = Ok (ev, s') /\ port_tab s' !! p = Some x' /\
    out s' = rev outs ++ out s /\
    send_all y (port_dlci x) (take (sendable x l) l) outs /\
    pd_queue (tx x') = Some (drop (sendable x l) l) /\
    credit_tx x' = credit_tx x - Z.of_nat (sendable x l).
Proof.
  intros Hr Hne. pose proof Hr as [Hl Hp Hfc Hc Hcr Hq Hb Hn Hs]. pose proof Hl as [H1 H2 H3 H4 H5 H6 H7].
  unfold port_rfc_send_tx_data. rewrite (run_get_port p x), Hq by done.
  assert (0 <= sum_len l) by (eapply sum_len_nonneg, list.Forall_impl; [exact Hb|by intros ? []]).
  destruct (0 <? queue_size (tx x)) eqn:E0.
  2: { destruct Hne. apply positive_sum; [done|lia]. }
  destruct (send_tx_loop_spec (S (Z.to_nat (fixed_queue_length (Some l)))) p 0 s x m y l Hr) as
    (ev & x' & outs & E & Ha & Hq' & Hc' & Hx'); [cbn; lia|].
  assert (Hx1 : port_tab (after_send p x' outs s) !! p = Some x') by (by eapply lookup_put_port).
  destruct (flow_user_spec (after_send p x' outs s) p x' m y Hx1) as (r & fc & Ef); [by rewrite Hx'|done|].
  set (x2 := x' <| tx ::= _ |>) in Ef. set (s2 := put_port p x2 _) in Ef.
  assert (Hx2 : port_tab s2 !! p = Some x2) by (by eapply lookup_put_port).
  exists ((ev .| r) .& ev_mask x2), s2, x2, outs. split_and!; try done.
  rewrite run_assoc. unfold mbind at 1, M_bind at 1. rewrite E.
  rewrite run_assoc. unfold mbind at 1, M_bind at 1. rewrite Ef, run_ret. by rewrite (run_get_port p x2).
Qed.

End Send.
