(* ===== verification/RfcInvApi.v ===== *)
(** * RfcInvApi: the application interface keeps the invariant

    Every function of [PortApi], and [rfc_on_l2cap_error], preserves [inv]; the
    loops of [PORT_WriteData] and [PORT_WriteDataCO] end within the number of
    bytes to write, since the peer's MTU cannot become zero under them. *)

From Stdlib Require Import ZArith Lia.
From stdpp Require Import gmap.
From S2P Require Import Prelude Osi RfcDefs RfcState RfcFrames RfcFramesProps RfcUtils PortRfc.
From S2P Require Import RfcMxFsm RfcPortFsm RfcL2capIf PortApi RfcInv RfcInvBase RfcInvUtils.
From S2P Require Import RfcInvPort RfcInvFsm RfcInvMx PortData.

(** The MTU of port [p]'s peer is [v]. *)
Definition mtu_at (p : nat) (v : Z) (s : rfc_cb) : Prop :=
  forall x, port_tab s !! p = Some x -> peer_mtu x = v.

(** What an error that L2CAP reports for channel [cid] relies on: where it makes
    the multiplexer of the channel retry, the even handles are in order. *)
Definition error_safe (cid result : Z) (s : rfc_cb) : Prop :=
  forall m, rfc_find_lcid_mcb cid s = Ok (Some m, s) -> nz (result .& L2CAP_CONN_INTERNAL_MASK) = true ->
    collision_safe m s.

(** * Lemmas *)

Lemma handle_port_lt handle : 0 <= handle -> bad_handle handle = false -> (handle_port handle < 30)%nat.
Proof. unfold bad_handle, handle_port. lia. Qed.

Lemma data_buf_ok handle bytes :
  Z.of_nat (length bytes) <= 4085 -> Forall is_u8 bytes ->
  returns (data_buf handle bytes)
    (fun b => tx_ok b /\ bh_payload b = bytes /\ bh_len b = Z.of_nat (length bytes)).
Proof.
  intros Hl Hb. unfold data_buf. set (b0 := _ <| bh_event := _ |>).
  assert (Hd : length (bh_data b0) = 4104%nat) by (vm_compute; reflexivity).
  assert (Hu : Forall is_u8 (bh_data b0)).
  { change (bh_data b0) with (replicate 4104 0). apply Forall_replicate. unfold is_u8. lia. }
  assert (Ho : bh_offset b0 = 18) by reflexivity.
  assert (Hlen : bh_len b0 = Z.of_nat (length bytes)) by reflexivity.
  clearbody b0. rewrite Ho. unfold bh_write, wr_bytes. rewrite Hd.
  change (Z.of_nat 4104) with 4104. destruct (_ || _) eqn:E; [exfalso; lia|]. cbn [mbind outcome_bind mret outcome_ret returns].
  split_and!; [| |done].
  - unfold tx_ok. cbn [set set_bh_data bh_offset bh_len bh_data]. rewrite Ho, Hlen. split_and!; try lia.
    + rewrite !length_app, length_take, length_drop. lia.
    + apply Forall_app; split; [by apply Forall_take|]. apply Forall_app; split; [done|by apply Forall_drop].
  - unfold bh_payload, slice. cbn [set set_bh_data bh_offset bh_len bh_data]. rewrite Ho, Hlen.
    rewrite drop_app_length' by (rewrite length_take; lia). rewrite Nat2Z.id. apply take_app_length.
Qed.

Lemma find_lcid_mcb_state lcid s r s' : rfc_find_lcid_mcb lcid s = Ok (r, s') -> s' = s.
Proof.
  unfold rfc_find_lcid_mcb, mbind, M_bind, get, get_mcb, mret, M_ret.
  destruct (rfc_lcid_mcb s !! lcid); [|by intros [= _ ->]]. destruct (_ !! _); [|done].
  by intros [= _ ->].
Qed.

(** ** Errors reported by L2CAP *)

Section L2capError.
Context `{RfcEnv} (c : icfg) `{!EnvOk c}.

Ltac call_mx := apply (pres_call_mx_sm c 3); [idx|done|cbn; lia].

Lemma pres_if_find {A} cid P (k : option nat -> M A) Q :
  (forall o, match o with Some m => (m < 16)%nat | None => True end ->
     pres_if c (fun s => P s /\ rfc_find_lcid_mcb cid s = Ok (o, s)) (k o) Q) ->
  pres_if c P (o ← rfc_find_lcid_mcb cid; k o) Q.
Proof.
  intros Hk s Hs HP. pose proof (pres_rfc_find_lcid_mcb c cid s Hs) as Hf. unfold mbind, M_bind.
  destruct (rfc_find_lcid_mcb cid s) as [[o s1]|x] eqn:E; [|exact Hf].
  pose proof (find_lcid_mcb_state _ _ _ _ E) as ->. by apply Hk; [apply Hf|..].
Qed.

Lemma pres_rfc_on_l2cap_error cid result :
  pres_if c (error_safe cid result) (rfc_on_l2cap_error cid result) T.
Proof.
  unfold rfc_on_l2cap_error. apply pres_if_find.
  intros o Ho. destruct o as [m|]; [|apply pres_pres_if; pres].
  apply pres_if_get_mcb; [done|]. intros y Hy.
  destruct (nz (result .& _)) eqn:Er; [|apply pres_pres_if; pres].
  destruct (nz (pending_lcid y)) eqn:E; [|apply pres_pres_if; pres; call_mx].
  apply nz_true in E. apply pres_if_mono with (dir_safe m); [by intros s [[Hc Hf] Hy']; apply (Hc m Hf Er y)|].
  pose proof (dir_safe_tables m) as Ht.
  eapply keeps_bind; [by apply keeps_save_lcid|intros _ _].
  eapply keeps_bind; [apply keeps_upd_mcb; [done|mcb_tac|done]|intros _ _].
  eapply keeps_bind; [by apply keeps_save_lcid|intros _ _].
  eapply pres_if_bind; [by apply pres_update_direction_bits|intros _ _].
  eapply pres_bind; [call_mx|intros _ _]. pres_step. pres_step. pres_step.
  eapply pres_bind; [call_mx|intros _ _]. call_mx.
Qed.

End L2capError.

(** ** Connections and settings *)

Section Api.
Context `{RfcEnv} (c : icfg) `{!EnvOk c}.

Lemma init_connection_ok p uuid scn srv mtu addr cb sec x :
  is_u16 mtu -> port_ok c p x -> port_ok c p (init_connection uuid scn srv mtu addr cb sec x).
Proof.
  intros Hm Hx. unfold init_connection.
  set (v := if nz mtu then _ else _).
  assert (Hv : is_u16 v) by (unfold v, is_u16 in *; destruct (nz mtu); [destruct (mtu <? _) eqn:?|]; lia).
  clearbody v. destruct srv; revert x Hx; port_tac.
Qed.

Lemma pres_RFCOMM_CreateConnectionWithSecurity uuid scn srv mtu addr cb sec :
  0 <= scn -> is_u16 mtu ->
  pres c (RFCOMM_CreateConnectionWithSecurity uuid scn srv mtu addr cb sec) T.
Proof.
  intros Hs Hm. unfold RFCOMM_CreateConnectionWithSecurity. pres_step; [pres|].
  assert (Hd : forall odd : bool, 0 <= u8 (if odd then (scn .<< 1) + 1 else scn .<< 1) <= 61).
  { intros odd. rewrite Z.shiftl_mul_pow2 by lia. unfold u8. rewrite Z.mod_small; destruct odd; lia. }
  pose proof (Hd true). pose proof (Hd false). pres; eauto using init_connection_ok.
Qed.

Ltac open_handle :=
  pres_step; [pres|];
  match goal with E : bad_handle ?h = false |- _ => pose proof (handle_port_lt h ltac:(assumption) E) end.

Lemma pres_RFCOMM_RemoveConnection handle : 0 <= handle -> pres c (RFCOMM_RemoveConnection handle) T.
Proof. intros Hh. unfold RFCOMM_RemoveConnection. open_handle. pres. Qed.

Lemma pres_RFCOMM_RemoveServer handle : 0 <= handle -> pres c (RFCOMM_RemoveServer handle) T.
Proof. intros Hh. unfold RFCOMM_RemoveServer. open_handle. pres. Qed.

Lemma pres_on_open_port handle f :
  0 <= handle -> (forall p x, port_ok c p x -> port_ok c p (f x)) -> pres c (on_open_port handle f) T.
Proof. intros Hh Hf. unfold on_open_port. open_handle. pres. Qed.

Lemma pres_PORT_ClearKeepHandleFlag handle : 0 <= handle -> pres c (PORT_ClearKeepHandleFlag handle) T.
Proof. intros Hh. unfold PORT_ClearKeepHandleFlag. open_handle. pres. Qed.

Lemma pres_PORT_CheckConnection handle : 0 <= handle -> pres c (PORT_CheckConnection handle) T.
Proof. intros Hh. unfold PORT_CheckConnection. open_handle. pres. Qed.

Lemma pres_PORT_SetState handle st : 0 <= handle -> pres c (PORT_SetState handle st) T.
Proof. intros Hh. unfold PORT_SetState. open_handle. pres. Qed.

Lemma pres_PORT_GetState handle : 0 <= handle -> pres c (PORT_GetState handle) T.
Proof. intros Hh. unfold PORT_GetState. open_handle. pres. Qed.

Lemma pres_PORT_GetSecurityMask handle : 0 <= handle -> pres c (PORT_GetSecurityMask handle) T.
Proof. intros Hh. unfold PORT_GetSecurityMask. open_handle. pres. Qed.

Lemma pres_PORT_IsOpening : pres c PORT_IsOpening T.
Proof. unfold PORT_IsOpening. pres. Qed.

Lemma pres_PORT_FlowControl_MaxCredit handle b :
  0 <= handle -> pres c (PORT_FlowControl_MaxCredit handle b) T.
Proof. intros Hh. unfold PORT_FlowControl_MaxCredit. open_handle. pres. Qed.

(** ** Reading *)

Lemma pres_PORT_ReadData handle max_len :
  0 <= handle -> 0 <= max_len -> pres c (PORT_ReadData handle max_len) T.
Proof.
  intros Hh Hl. unfold PORT_ReadData. open_handle. apply pres_get_port_at; [done|]. intros x Hx.
  set (p := handle_port handle) in *.
  repeat (match goal with |- pres_at _ _ _ (if ?b then _ else _) _ => destruct b eqn:? end;
          [apply pres_at_drop; pres|]).
  eapply pres_at_bind with (R := fun r => 0 <= r.2); [|intros r Hr; pres].
  pose proof Hx as (H1 & H2 & H3 & H4 & H5). intros s Hs Hxs.
  destruct (pd_queue (rx x)) as [l|] eqn:Eq; [|done]. destruct H4 as (Hf & H15 & Hsz & Hwm).
  destruct (read_loop_spec (S (Z.to_nat (fixed_queue_length (Some l)))) p max_len [] 0 s x l)
    as (l' & n & -> & _ & Hf' & Hl' & Hs' & Hn); try done; try lia. { cbn. lia. }
  split; [|done]. apply inv_set_port; [done|].
  unfold port_ok. cbn -[Z.of_nat sum_len]. split_and!; try apply H5; try done; lia.
Qed.

(** ** Writing *)

Lemma keeps_get_port p v :
  (p < 30)%nat -> keeps c (mtu_at p v) (get_port p) (fun x => port_ok c p x /\ peer_mtu x = v).
Proof.
  intros Hp s Hs Hv. unfold get_port.
  destruct (lookup_lt_is_Some_2 (port_tab s) p) as [x Hx]; [rewrite (inv_nports _ _ Hs); lia|].
  rewrite Hx. split_and!; try done; [by apply (inv_port _ _ Hs)|by apply Hv].
Qed.

Lemma keeps_lift {A} P (o : outcome A) (Q : A -> Prop) : sound o Q -> keeps c P (lift o) Q.
Proof. intros Ho s Hs HP. unfold lift. destruct o; [by split_and!|done]. Qed.

(** An operation that leaves the MTU alone. *)
Lemma keeps_mtu {A} p v (m : M A) Q :
  pres c m Q ->
  (forall s a s' x', m s = Ok (a, s') -> port_tab s' !! p = Some x' ->
    exists x, port_tab s !! p = Some x /\ peer_mtu x' = peer_mtu x) ->
  keeps c (mtu_at p v) m Q.
Proof.
  intros Hm Hk s Hs Hv. specialize (Hm s Hs). destruct (m s) as [[a s']|e] eqn:E; [|done].
  destruct Hm as [Hs' Ha]. split_and!; [done| |done]. intros x' Hx'.
  destruct (Hk _ _ _ _ E Hx') as (x & Hx & ->). by apply Hv.
Qed.

Lemma upd_port_mtu p f s u s' x' :
  (forall x, peer_mtu (f x) = peer_mtu x) -> upd_port p f s = Ok (u, s') ->
  port_tab s' !! p = Some x' -> exists x, port_tab s !! p = Some x /\ peer_mtu x' = peer_mtu x.
Proof.
  unfold upd_port. intros Hf. destruct (port_tab s !! p) as [x|] eqn:E; [|done].
  intros [= _ <-]. cbn. rewrite list_lookup_insert_eq by (by eapply lookup_lt_Some).
  intros [= <-]. eauto.
Qed.

Lemma pres_at_get_mcb {B} p x m (kont : tRFC_MCB -> M B) Q :
  (m < 16)%nat -> (forall y, mcb_ok y -> pres_at c p x (kont y) Q) ->
  pres_at c p x (get_mcb m ≫= kont) Q.
Proof.
  intros Hm Hk s Hs Hx. pose proof (pres_get_mcb c m Hm s Hs) as Hg. unfold mbind, M_bind, get_mcb in *.
  destruct (rfc_mcb_tab s !! m); [|exact Hg]. apply Hk; [apply Hg|done..].
Qed.

Lemma tx_enqueue_ok p x b q :
  port_ok c p x -> tx_ok b -> fixed_queue_length (pd_queue (tx x)) <= 15 ->
  fixed_queue_enqueue (pd_queue (tx x)) b = Ok q ->
  port_ok c p (x <| tx ::= fun d => d <| pd_queue := q |> <| queue_size ::= fun n => u32 (n + bh_len b) |> |>).
Proof.
  intros (H1 & H2 & H3 & H4) Hb Hl. destruct (pd_queue (tx x)) as [l|] eqn:Eq; [|done].
  intros [= <-]. cbn in Hl. destruct H3 as (Hf & _ & Hs). pose proof (sum_len_nonneg _ Hf) as Hn.
  pose proof Hb as (_ & Hbl & _).
  unfold port_ok. cbn -[u32]. split_and!; try apply H4; try done; try lia.
  - apply Forall_app; split; [done|by apply Forall_singleton].
  - rewrite length_app. cbn. lia.
  - rewrite Hs, sum_len_app. cbn [sum_len foldr]. unfold u32. rewrite Z.mod_small; lia.
Qed.

Ltac write_tail :=
  destruct (_ || (_ <? fixed_queue_length _)) eqn:?; [apply pres_at_drop; pres|];
  eapply pres_at_lift; [eassumption|]; intros ? ?;
  apply pres_at_upd; [auto with lia|apply pres_at_drop; pres].

Lemma pres_port_write p b : (p < 30)%nat -> tx_ok b -> pres c (port_write p b) T.
Proof.
  intros Hp Hb. unfold port_write. apply pres_get_port_at; [done|]. intros x Hx. note Hx.
  destruct (is_server x && _); [apply pres_at_drop; pres|].
  assert (Hq : fixed_queue_length (pd_queue (tx x)) <= 15 -> forall q,
    fixed_queue_enqueue (pd_queue (tx x)) b = Ok q -> port_ok c p (x <| tx ::= fun d => d <| pd_queue := q |>
      <| queue_size ::= fun n => u32 (n + bh_len b) |> |>)) by (intros; by apply tx_enqueue_ok).
  assert (Hs : sound (fixed_queue_enqueue (pd_queue (tx x)) b)
    (fun q => fixed_queue_enqueue (pd_queue (tx x)) b = Ok q)).
  { destruct (pd_queue (tx x)); cbn; [done|by right]. }
  destruct (p_mcb (rfc x)) as [m|] eqn:Em.
  - pose proof (port_ok_mcb _ _ _ _ Hx Em) as Hm.
    apply pres_at_assoc, pres_at_get_mcb; [done|]. intros y Hy. apply pres_at_ret_bind.
    destruct (if _ || _ || _ then _ else _) as [m'|] eqn:Em'; [|write_tail].
    destruct (_ || _ || _), (peer_ready y); simplify_eq. apply pres_at_drop.
    eapply pres_bind; [apply (pres_RFCOMM_DataReq c 3); [done|lia|done|lia]|intros _ _; pres].
  - apply pres_at_ret_bind. destruct (_ || _ || _); write_tail.
Qed.

Lemma event_callback_tab p ev s u s' : event_callback p ev s = Ok (u, s') -> port_tab s' = port_tab s.
Proof.
  unfold event_callback, mbind, M_bind, get_port. destruct (_ !! _); [|done].
  destruct (_ && _); cbn; by intros [= _ <-].
Qed.

Lemma ready_state {A} (o : option nat) (d : A) (f : nat -> tRFC_MCB -> A) s r s' :
  match o with None => mret d | Some m => y ← get_mcb m; mret (f m y) end s = Ok (r, s') -> s' = s.
Proof.
  unfold mbind, M_bind, get_mcb, mret, M_ret.
  destruct o as [m|]; [destruct (_ !! m); [|done]|]; by intros [= _ <-].
Qed.

Ltac run_ready :=
  lazymatch goal with
  | |- context [match ?m ?s with Ok _ => _ | Crash _ => _ end] =>
      let E := fresh "E" in destruct (m s) as [[? ?]|] eqn:E; [|done]; apply ready_state in E as ->
  end.

Lemma port_write_mtu p b s r s' x' :
  port_write p b s = Ok (r, s') -> port_tab s' !! p = Some x' ->
  exists x, port_tab s !! p = Some x /\ peer_mtu x' = peer_mtu x.
Proof.
  unfold port_write, mbind at 1, M_bind at 1, get_port at 1.
  destruct (port_tab s !! p) as [x|] eqn:Hx; [|done].
  destruct (is_server x && _). { intros [= _ <-]. intros. simplify_eq. eauto. }
  unfold mbind at 1, M_bind at 1.
  run_ready. destruct (if _ || _ || _ then _ else _) as [m'|].
  - unfold mbind, M_bind. destruct (RFCOMM_DataReq _ _ _ _) as [[u s2]|] eqn:Ed; [|done].
    intros [= _ <-] Hx'. apply (RFCOMM_DataReq_same_tx c 3) in Ed. destruct (Ed _ _ Hx') as (x1 & ? & _ & _ & ?).
    rewrite <- Hx. eauto.
  - destruct (_ || _); unfold mbind, M_bind.
    + destruct (event_callback _ _ _) as [[u s2]|] eqn:Ed; [|done]. apply event_callback_tab in Ed.
      intros [= _ <-]. rewrite Ed, Hx. intros [= <-]. eauto.
    + unfold lift. destruct (fixed_queue_enqueue _ _) as [q|]; [|done].
      destruct (upd_port _ _ _) as [[u s2]|] eqn:Eu; [|done]. intros [= _ <-] Hx'.
      rewrite <- Hx. eapply upd_port_mtu; [|exact Eu|done]. done.
Qed.

Lemma flow_user_mtu p s r s' x' :
  port_flow_control_user p s = Ok (r, s') -> port_tab s' !! p = Some x' ->
  exists x, port_tab s !! p = Some x /\ peer_mtu x' = peer_mtu x.
Proof.
  unfold port_flow_control_user, mbind at 1, M_bind at 1, get_port.
  destruct (port_tab s !! p) as [x|] eqn:Hx; [|done].
  unfold mbind at 1, M_bind at 1.
  run_ready. destruct (Bool.eqb _ _). { intros [= _ <-] ?. simplify_eq. eauto. }
  unfold mbind, M_bind. destruct (upd_port _ _ _) as [[u s2]|] eqn:Eu; [|done]. intros [= _ <-] Hx'.
  rewrite <- Hx. eapply upd_port_mtu; [|exact Eu|done]. done.
Qed.

Lemma keeps_port_write p v b :
  (p < 30)%nat -> tx_ok b -> keeps c (mtu_at p v) (port_write p b) T.
Proof. intros Hp Hb. apply keeps_mtu; [by apply pres_port_write|]. intros. by eapply port_write_mtu. Qed.

Lemma keeps_flow_user p v : (p < 30)%nat -> keeps c (mtu_at p v) (port_flow_control_user p) T.
Proof.
  intros Hp. apply keeps_mtu; [eapply pres_drop; by apply pres_port_flow_control_user|].
  intros. by eapply flow_user_mtu.
Qed.

(** The length of the next buffer. *)
Lemma fragment_len v len avail :
  is_u16 v -> v <> 0 -> 0 < len <= 4085 -> 0 < avail ->
  0 < (if avail <? (if v <? len then v else len) then avail else if v <? len then v else len) <= 4085 /\
  (if avail <? (if v <? len then v else len) then avail else if v <? len then v else len) <= avail.
Proof. unfold is_u16. intros. destruct (v <? len) eqn:?; destruct (avail <? _) eqn:?; lia. Qed.

Lemma pres_write_loop fuel p v handle data len done rc ev :
  (p < 30)%nat -> v <> 0 -> 0 < len <= 4085 -> Forall is_u8 data -> (length data < fuel)%nat ->
  pres_if c (mtu_at p v) (write_loop fuel p handle data len done rc ev) T.
Proof.
  intros Hp Hv. revert data len done rc ev. induction fuel as [|fuel IH]; intros data len dn rc ev Hl Hd Hf; [lia|].
  cbn [write_loop]. destruct data as [|a data']; [apply pres_pres_if; pres|].
  set (data := a :: data') in *. assert (Hpos : 0 < Z.of_nat (length data)) by (cbn; lia). clearbody data.
  eapply keeps_bind; [by apply keeps_get_port|]. intros x [Hx Ex]. rewrite Ex. note Hx. rewrite Ex in Hmtu.
  destruct (tx_over_high_wm x); [apply pres_pres_if; pres|].
  pose proof (fragment_len v len _ (proj2 Hmtu) Hv Hl Hpos) as Hn.
  lazymatch type of Hn with 0 < ?e <= _ /\ _ => set (n := e) in * end. clearbody n.
  eapply keeps_bind; [apply keeps_lift, returns_sound, data_buf_ok; [rewrite length_take; lia|by apply Forall_take]|].
  intros b [Hb _]. eapply keeps_bind; [by apply keeps_port_write|intros rc' _].
  eapply keeps_bind; [by apply keeps_flow_user|intros fc _].
  destruct (_ && _); [apply pres_pres_if; pres|].
  apply IH; [lia|by apply Forall_drop|]. rewrite length_drop. lia.
Qed.

Lemma pres_at_if {A} p x (m : M A) Q : pres_if c (mtu_at p (peer_mtu x)) m Q -> pres_at c p x m Q.
Proof. intros Hm s Hs Hx. apply Hm; [done|]. intros x' Hx'. by simplify_eq. Qed.

(** The last buffer of the queue, with [bytes] appended to it. *)
Lemma pres_append_last p x b bytes :
  (p < 30)%nat -> port_ok c p x -> fixed_queue_try_peek_last (pd_queue (tx x)) = Some b ->
  Forall is_u8 bytes -> bh_len b + Z.of_nat (length bytes) <= 4085 ->
  pres_at c p x (append_last p b bytes) T.
Proof.
  intros Hp Hx Hlast Hby Hl. unfold append_last.
  pose proof Hx as (H1 & H2 & H3 & H4). destruct (pd_queue (tx x)) as [l|] eqn:Eq; [|done].
  cbn in Hlast. destruct H3 as (Hf & H16 & Hs). destruct (proj1 (last_Some _ _) Hlast) as [l' ->].
  apply Forall_app in Hf as [Hf' Hb]. apply Forall_inv in Hb.
  pose proof Hb as (Ho & Hbl & Hdl & Hdu).
  rewrite Ho. change (L2CAP_MIN_OFFSET + RFCOMM_MIN_OFFSET) with 18.
  eapply pres_at_lift with (R := fun b' => bh_len b' = bh_len b /\ tx_ok b').
  { apply returns_sound. unfold bh_write, wr_bytes. rewrite Hdl. change (Z.of_nat 4104) with 4104.
    destruct (_ || _) eqn:E; [exfalso; lia|]. cbn [mbind outcome_bind mret outcome_ret returns].
    split; [done|]. unfold tx_ok. cbn [set set_bh_data bh_offset bh_len bh_data]. split_and!; try done; try lia.
    - rewrite !length_app, length_take, length_drop. lia.
    - apply Forall_app; split; [by apply Forall_take|]. apply Forall_app; split; [done|by apply Forall_drop]. }
  intros b' [Hlen (Ho' & _ & Hd' & Hu')]. apply pres_at_upd_last.
  unfold port_ok. cbn -[u16 u32]. rewrite Eq. cbn [fixed_queue_update_last tx_q_ok].
  rewrite length_app, Nat.add_1_r, Nat.pred_succ, <- (Nat.add_0_r (length l')), insert_app_r.
  cbn [insert list_insert]. rewrite length_app in H16. cbn in H16.
  assert (Hw : u16 (bh_len b' + u16 (Z.of_nat (length bytes))) = bh_len b + Z.of_nat (length bytes)).
  { rewrite Hlen, (u16_small (Z.of_nat _)) by lia. apply u16_small. lia. }
  pose proof (sum_len_nonneg _ Hf') as Hn.
  split_and!; try apply H4; try done; try lia.
  - apply Forall_app; split; [done|]. apply Forall_singleton. unfold tx_ok.
    cbn [set set_bh_len bh_offset bh_len bh_data]. rewrite Hw. split_and!; try done; lia.
  - rewrite length_app. cbn. lia.
  - rewrite Hs, !sum_len_app. cbn [sum_len foldr set set_bh_len bh_len]. rewrite Hw, u16_small by lia.
    unfold u32. rewrite Z.mod_small; lia.
Qed.

Lemma pres_PORT_WriteData handle data :
  0 <= handle -> Forall is_u8 data -> pres c (PORT_WriteData handle data) T.
Proof.
  intros Hh Hd. unfold PORT_WriteData. open_handle. apply pres_get_port_at; [done|]. intros x Hx.
  destruct (not_opened x); [apply pres_at_drop; pres|].
  destruct (_ || _) eqn:Enz; [apply pres_at_drop; pres|].
  apply orb_false_iff in Enz as [_ Hm%negb_false_iff%nz_true].
  match goal with |- pres_at _ _ _ (match ?o with _ => _ end) _ => destruct o as [b|] eqn:El end.
  - destruct (fixed_queue_try_peek_last _) as [b'|] eqn:Eq; [|done].
    destruct (_ && _) eqn:Ec; [|done]. injection El as ->.
    eapply pres_at_bind with (R := T); [|intros ? _; pres].
    apply pres_append_last; try done. change max_buf_data with 4085 in Ec. lia.
  - eapply pres_at_bind with (R := T); [|intros [[[dn rest] rc] ev] _; pres].
    apply pres_at_if, pres_write_loop; try done. lia.
Qed.

Lemma keeps_data_co_fetch p v handle len :
  (p < 30)%nat -> keeps c (mtu_at p v) (data_co_fetch p handle len)
    (fun o => forall bytes, o = Some bytes -> Z.of_nat (length bytes) = u16 len /\ Forall is_u8 bytes).
Proof.
  intros Hp. apply keeps_mtu.
  - unfold data_co_fetch. pres_step. pres_step; [pres|]. pres_step. pres_step. apply pres_ret.
    intros bytes Eb. destruct (env_data_co_bytes _ _) as [bs|] eqn:E2; [|done]. injection Eb as <-.
    pose proof (u16_range len) as Hr. unfold is_u16 in Hr. split; [rewrite length_resize; lia|].
    apply env_bytes_ok in E2. apply Forall_resize; [unfold is_u8; lia|done].
  - intros s a s' x'. unfold data_co_fetch, mbind, M_bind, get_port.
    destruct (port_tab s !! p) as [x|] eqn:Hx; [|done]. destruct (_ =? _); [done|].
    intros [= _ <-]. cbn. intros ?. simplify_eq. eauto.
Qed.

Lemma pres_write_co_loop fuel p v handle avail len done rc ev :
  (p < 30)%nat -> v <> 0 -> 0 < len <= 4085 -> 0 <= avail -> (Z.to_nat avail < fuel)%nat ->
  pres_if c (mtu_at p v) (write_co_loop fuel p handle avail len done rc ev) T.
Proof.
  intros Hp Hv. revert avail len done rc ev.
  induction fuel as [|fuel IH]; intros avail len dn rc ev Hl Ha Hf; [lia|].
  cbn [write_co_loop]. destruct (Z.eqb_spec avail 0) as [|Hne]; [apply pres_pres_if; pres|].
  eapply keeps_bind; [by apply keeps_get_port|]. intros x [Hx Ex]. rewrite Ex. note Hx. rewrite Ex in Hmtu.
  destruct (tx_over_high_wm x); [apply pres_pres_if; pres|].
  pose proof (fragment_len v len avail (proj2 Hmtu) Hv Hl ltac:(lia)) as Hn.
  assert (Hu : (if avail <? (if v <? len then v else len) then u16 avail else if v <? len then v else len) =
               (if avail <? (if v <? len then v else len) then avail else if v <? len then v else len)).
  { destruct (avail <? _) eqn:E; [|done]. apply u16_small. lia. }
  rewrite Hu. lazymatch type of Hn with 0 < ?e <= _ /\ _ => set (n := e) in * end. clearbody n.
  eapply keeps_bind; [by apply keeps_data_co_fetch|]. intros o Ho.
  destruct o as [bytes|]; [|apply pres_pres_if; pres]. destruct (Ho _ eq_refl) as [Hbl Hbu].
  rewrite u16_small in Hbl by lia.
  eapply keeps_bind; [apply keeps_lift, returns_sound, data_buf_ok; [lia|done]|].
  intros b [Hb _]. eapply keeps_bind; [by apply keeps_port_write|intros rc' _].
  eapply keeps_bind; [by apply keeps_flow_user|intros fc _].
  destruct (_ && _); [apply pres_pres_if; pres|]. apply IH; lia.
Qed.

Lemma pres_at_get_state {B} p x (kont : rfc_cb -> M B) Q :
  (forall st, pres_at c p x (kont st) Q) -> pres_at c p x (get ≫= kont) Q.
Proof. intros Hk s Hs Hx. by apply Hk. Qed.

(** Asking the application for bytes changes nothing but the output. *)
Lemma pres_at_fetch {B} p x handle len (kont : option (list Z) -> M B) Q :
  (p < 30)%nat -> pres_at c p x (kont None) Q ->
  (forall bytes, Z.of_nat (length bytes) = u16 len -> Forall is_u8 bytes ->
     pres_at c p x (kont (Some bytes)) Q) ->
  pres_at c p x (data_co_fetch p handle len ≫= kont) Q.
Proof.
  intros Hp Hn Hk s Hs Hx.
  pose proof (keeps_data_co_fetch p (peer_mtu x) handle len Hp s Hs) as Hf.
  unfold mbind, M_bind. destruct (data_co_fetch p handle len s) as [[o s']|e] eqn:E.
  - destruct Hf as (Hs' & _ & Ho). { intros x' Hx'. by simplify_eq. }
    assert (Hx' : port_tab s' !! p = Some x).
    { revert E. unfold data_co_fetch, mbind, M_bind, get_port. rewrite Hx. destruct (_ =? _); [done|].
      by intros [= _ <-]. }
    destruct o as [bytes|]; [|by apply Hn]. destruct (Ho _ eq_refl). by apply Hk.
  - apply Hf. intros x' Hx'. by simplify_eq.
Qed.

Lemma peek_last_len p x b :
  port_ok c p x -> fixed_queue_try_peek_last (pd_queue (tx x)) = Some b -> 0 <= bh_len b.
Proof.
  intros (_ & _ & Hq & _). destruct (pd_queue (tx x)) as [l|]; [|done]. intros Hl. destruct Hq as [Hf _].
  destruct (proj1 (last_Some _ _) Hl) as [l' ->]. apply Forall_app in Hf as [_ Hb].
  apply Forall_inv in Hb. apply Hb.
Qed.

Lemma pres_PORT_WriteDataCO handle : 0 <= handle -> pres c (PORT_WriteDataCO handle) T.
Proof.
  intros Hh. unfold PORT_WriteDataCO. open_handle. set (p := handle_port handle) in *.
  apply pres_get_port_at; [done|]. intros x Hx.
  destruct (not_opened x); [apply pres_at_drop; pres|].
  destruct (negb _) eqn:Enz; [apply pres_at_drop; pres|]. apply negb_false_iff, nz_true in Enz.
  destruct (_ =? 0); [apply pres_at_drop; pres|].
  apply pres_at_get_state. intros st.
  destruct (env_data_co_size (out st)) as [avail|] eqn:Ea; [|apply pres_at_drop; pres].
  apply env_size_ok in Ea. destruct (Z.eqb_spec avail 0); [apply pres_at_drop; pres|].
  match goal with |- pres_at _ _ _ (match ?o with _ => _ end) _ => destruct o as [b|] eqn:El end.
  - destruct (fixed_queue_try_peek_last _) as [b'|] eqn:Eq; [|done].
    destruct (_ && _) eqn:Ec; [|done]. injection El as ->. change max_buf_data with 4085 in Ec.
    apply pres_at_fetch; [done| |]. apply pres_at_drop; pres. intros bytes Hb Hbu.
    eapply pres_at_bind with (R := T); [|intros ? _; pres].
    pose proof (peek_last_len _ _ _ Hx Eq). apply pres_append_last; try done.
    rewrite Hb, u16_small; lia.
  - eapply pres_at_bind with (R := T); [|intros [dn [[[rest rc] ev]|]] _; pres].
    apply pres_at_if, pres_write_co_loop; done || lia.
Qed.

End Api.
