(* ===== verification/PortWrite.v ===== *)
(** * PortWrite: what PORT_WriteData does with the bytes

    On an open port whose queue is empty or whose peer has closed the flow, the
    bytes [PORT_WriteData] accepts are sent or queued behind the earlier ones,
    in order, none lost and none twice. *)

From Stdlib Require Import ZArith Lia.
From stdpp Require Import gmap.
From S2P Require Import Prelude RfcFcs Osi RfcDefs RfcState RfcFrames RfcFramesProps RfcUtils.
From S2P Require Import PortRfc RfcMxFsm RfcPortFsm RfcL2capIf PortApi RfcRun RfcInv RfcInvBase.
From S2P Require Import RfcInvUtils RfcInvPort RfcInvFsm RfcInvMx PortData RfcInvApi.

(** Port [p] is open, ready to write, with buffers [q] waiting; something waits
    only while the peer has closed the flow. *)
Record writable (s : rfc_cb) (p : nat) (x : tPORT) (m : nat) (y : tRFC_MCB) (q : list BT_HDR) : Prop :=
  mk_writable {
  wr_linked : linked s p x m y;
  wr_peer : peer_ready y = true;
  wr_ctrl : ctrl_exchanged x = true;
  wr_queue : pd_queue (tx x) = Some q;
  wr_order : q = [] \/ peer_fc (tx x) = true;
  wr_credit : peer_fc (tx x) = false -> 0 < credit_tx x;
  wr_credit_tx : 0 <= credit_tx x;
  wr_credit_rx : 0 <= credit_rx x <= credit_rx_max x /\ credit_rx_max x <= PORT_RX_BUF_HIGH_WM;
  wr_bufs : Forall tx_ok q;
  wr_len : (length q <= 16)%nat;
  wr_size : queue_size (tx x) = sum_len q;
  wr_mtu : 0 < peer_mtu x < 65536;
}.

(** From [x] to [x'], the buffers [bufs] were sent as [outs], each within the
    peer's MTU and for one of the credits the port had, and the bytes [data]
    entered the stream behind what was queued. *)
Definition streamed (y : tRFC_MCB) (x x' : tPORT) (bufs : list BT_HDR) (outs : list output)
    (data : list Z) : Prop :=
  send_all y (port_dlci x) bufs outs /\
  concat (bh_payload <$> bufs) ++ queue_bytes (pd_queue (tx x')) = queue_bytes (pd_queue (tx x)) ++ data /\
  Forall (fun b => tx_ok b /\ bh_len b <= peer_mtu x) bufs /\
  credit_tx x' = credit_tx x - Z.of_nat (length bufs) /\ 0 <= credit_tx x'.

(** The outcome [r] of writing [data] from [s] when [dn] bytes were written
    before: [n] more were, and they are in the stream. *)
Definition accepts (s : rfc_cb) (p : nat) (x : tPORT) (y : tRFC_MCB) (data : list Z) (dn : Z)
    (r : outcome (Z * list Z * Z * Z * rfc_cb)) : Prop :=
  exists n rc ev x' bufs outs,
    r = Ok ((dn + Z.of_nat n, drop n data, rc, ev), after_send p x' outs s) /\
    (n <= length data)%nat /\ streamed y x x' bufs outs (take n data) /\ rfc x' = rfc x.

(** The frames among the outputs. *)
Definition is_data_write (o : output) : bool :=
  match o with L2CA_DataWrite _ _ => true | _ => false end.

(** * Lemmas *)

Section Write.
Context `{RfcEnv}.

Lemma streamed_trans y x x1 x' bufs1 outs1 data1 bufs2 outs2 data2 :
  streamed y x x1 bufs1 outs1 data1 -> streamed y x1 x' bufs2 outs2 data2 ->
  port_dlci x1 = port_dlci x -> peer_mtu x1 = peer_mtu x ->
  streamed y x x' (bufs1 ++ bufs2) (outs1 ++ outs2) (data1 ++ data2).
Proof.
  intros (A1 & B1 & C1 & D1 & _) (A2 & B2 & C2 & D2 & E2) Ed Em. rewrite Ed in A2. rewrite Em in C2.
  unfold streamed. split_and!.
  - by apply Forall2_app.
  - rewrite fmap_app, concat_app, <- app_assoc, B2, app_assoc, B1. by rewrite <- app_assoc.
  - by apply Forall_app.
  - rewrite D2, D1, length_app. lia.
  - done.
Qed.

Lemma after_send_nil p x s : after_send p x [] s = put_port p x s.
Proof. by destruct s. Qed.

(** The readiness test of [port_write]. *)
Lemma port_write_open s p x m y q b :
  writable s p x m y q ->
  port_write p b s =
    (if peer_fc (tx x) then
       if (PORT_TX_CRITICAL_WM <? queue_size (tx x))
          || (PORT_TX_BUF_CRITICAL_WM <? fixed_queue_length (pd_queue (tx x))) then
         event_callback p (ev_mask x .& PORT_EV_ERR);; mret PORT_TX_FULL
       else
         q ← lift (fixed_queue_enqueue (pd_queue (tx x)) b);
         upd_port p (fun x => x <| tx ::= fun d => d <| pd_queue := q |>
           <| queue_size ::= fun n => u32 (n + bh_len b) |> |>);;
         mret PORT_CMD_PENDING
     else RFCOMM_DataReq m (port_dlci x) b;; mret PORT_SUCCESS) s.
Proof.
  intros [[H1 H2 H3 H4 H5 H6 H7] Hp Hct Hq Hor Hc Hc0 Hcr Hb Hl Hs Hm]. unfold port_write.
  rewrite (run_get_port p x), H4, bool_decide_true, andb_false_r, H3 by done.
  rewrite run_assoc, (run_get_mcb m y), run_ret, Hp, Hct by done.
  by destruct (peer_fc (tx x)).
Qed.

Lemma write_step s p x m y q b :
  writable s p x m y q -> tx_over_high_wm x = false -> tx_ok b -> 0 < bh_len b <= peer_mtu x ->
  exists rc x' bufs outs q',
    port_write p b s = Ok (rc, after_send p x' outs s) /\ (rc = PORT_SUCCESS \/ rc = PORT_CMD_PENDING) /\
    writable (after_send p x' outs s) p x' m y q' /\ streamed y x x' bufs outs (bh_payload b) /\
    port_dlci x' = port_dlci x /\ peer_mtu x' = peer_mtu x /\ rfc x' = rfc x.
Proof.
  intros Hw Hwm Hb Hlen. rewrite (port_write_open _ _ _ _ _ _ _ Hw).
  pose proof Hw as [Hl Hp Hct Hq Hor Hc Hc0 Hcr Hbs Hn Hs Hm].
  unfold tx_over_high_wm in Hwm. apply orb_false_iff in Hwm as [Hw1 Hw2].
  destruct (peer_fc (tx x)) eqn:Hfc.
  - rewrite Hq in *. destruct (_ || _) eqn:E; [cbn in *; lia|]. cbn [fixed_queue_enqueue].
    unfold lift. unfold mbind at 1, M_bind at 1. rewrite (run_upd_port p x) by apply Hl.
    set (x1 := x <| tx ::= _ |>). exists PORT_CMD_PENDING, x1, [], [], (q ++ [b]). rewrite after_send_nil.
    pose proof (sum_len_nonneg q Hbs) as Hsum. pose proof Hb as (_ & Hb2 & _).
    split_and!; try done; [by right| |].
    + split; try done.
      * by eapply linked_put.
      * by right.
      * cbn. by rewrite Hfc.
      * apply Forall_app; split; [done|]. constructor; [done|constructor].
      * rewrite length_app. cbn in *. lia.
      * unfold x1. cbn -[u32]. rewrite Hs, sum_len_app. cbn [sum_len foldr]. unfold u32.
        rewrite Z.mod_small; lia.
    + split_and!; [constructor| |constructor|cbn; lia..].
      rewrite Hq. cbn. rewrite fmap_app, concat_app. cbn. by rewrite app_nil_r.
  - destruct Hor as [->|]; [|done]. specialize (Hc eq_refl).
    destruct (data_req_spec s p x m y b Hl Hb Hc) as (o & Ho & E); [lia..|].
    unfold mbind, M_bind. rewrite E. exists PORT_SUCCESS, (sent b x), [b], [o], [].
    assert (Hpb := piggyback_u8 x b ltac:(lia) ltac:(lia)).
    split_and!; try done; [by left| |].
    + split; try done.
      * by eapply linked_after.
      * by left.
      * cbn. rewrite Hfc. cbn. lia.
      * cbn. lia.
      * cbn. unfold piggyback. destruct (_ && _ && _) eqn:?; lia.
    + split_and!; try done.
      * constructor; [by exists (piggyback x b)|constructor].
      * rewrite Hq. cbn. by rewrite Hq, !app_nil_r.
      * constructor; [split; [done|lia]|constructor].
      * cbn. lia.
Qed.

Lemma writable_user_fc s p x m y q outs fc :
  writable (after_send p x outs s) p x m y q ->
  let x' := x <| tx ::= set user_fc (fun _ => fc) |> in
  writable (after_send p x' outs s) p x' m y q /\ put_port p x' (after_send p x outs s) = after_send p x' outs s.
Proof.
  intros [Hl Hp Hct Hq Hor Hc Hc0 Hcr Hbs Hn Hs Hm] x'.
  assert (E : put_port p x' (after_send p x outs s) = after_send p x' outs s) by apply put_put_port.
  split; [|done]. split; try done. rewrite <- E. by eapply linked_put.
Qed.

Lemma streamed_nil y x : 0 <= credit_tx x -> streamed y x x [] [] [].
Proof. intros Hc. split_and!; [constructor| |constructor|cbn; lia..]. cbn. by rewrite app_nil_r. Qed.

Lemma accepts_none s p x m y q data dn rc ev :
  writable s p x m y q -> accepts s p x y data dn (Ok ((dn, data, rc, ev), s)).
Proof.
  intros Hw. exists 0%nat, rc, ev, x, [], []. cbn [take drop Z.of_nat].
  rewrite Z.add_0_r, after_send_nil, put_port_same by apply Hw.
  split_and!; [done|lia|apply streamed_nil, Hw|done].
Qed.

Lemma accepts_more s p x x1 y data dn k bufs outs r :
  (k <= length data)%nat -> streamed y x x1 bufs outs (take k data) ->
  port_dlci x1 = port_dlci x -> peer_mtu x1 = peer_mtu x -> rfc x1 = rfc x ->
  accepts (after_send p x1 outs s) p x1 y (drop k data) (dn + Z.of_nat k) r -> accepts s p x y data dn r.
Proof.
  intros Hk St Ed Em Er (n & rc & ev & x' & bufs' & outs' & E & Hn & St' & Er').
  rewrite length_drop in Hn. exists (k + n)%nat, rc, ev, x', (bufs ++ bufs'), (outs ++ outs').
  rewrite E, after_send_app, drop_drop. split_and!; [|lia| |by rewrite Er'].
  - do 5 f_equal. lia.
  - replace (take (k + n) data) with (take k data ++ take n (drop k data)); [by eapply streamed_trans|].
    by rewrite take_take_drop.
Qed.

(** The length of a fragment: within the MTU, the buffer and what is left. *)
Lemma fragment_mtu v len avail :
  (if avail <? (if v <? len then v else len) then avail else if v <? len then v else len) <= v.
Proof. destruct (v <? len) eqn:?; destruct (avail <? _) eqn:?; lia. Qed.

Lemma write_loop_spec fuel p s x m y q handle data len dn rc ev :
  writable s p x m y q -> Forall is_u8 data -> (length data < fuel)%nat -> 0 < len <= 4085 ->
  0 <= dn -> dn + Z.of_nat (length data) < 65536 ->
  accepts s p x y data dn (write_loop fuel p handle data len dn rc ev s).
Proof.
  revert s x q data len dn rc ev. induction fuel as [|fuel IH]; intros s x q data len dn rc ev Hw Hd Hf Hl Hdn H16; [lia|].
  cbn [write_loop]. destruct data as [|a data']; [by eapply accepts_none|].
  set (data := a :: data') in *. assert (Hpos : 0 < Z.of_nat (length data)) by (cbn; lia). clearbody data.
  rewrite (run_get_port p x) by apply Hw.
  destruct (tx_over_high_wm x) eqn:Hwm; [by eapply accepts_none|].
  pose proof (wr_mtu _ _ _ _ _ _ Hw) as Hmtu.
  pose proof (fragment_len (peer_mtu x) len _ ltac:(unfold is_u16; lia) ltac:(lia) Hl Hpos) as Hn.
  pose proof (fragment_mtu (peer_mtu x) len (Z.of_nat (length data))) as Hnm.
  lazymatch type of Hn with 0 < ?e <= _ /\ _ => set (n := e) in * end. clearbody n.
  pose proof (data_buf_ok handle (take (Z.to_nat n) data)) as Hb. rewrite length_take in Hb.
  specialize (Hb ltac:(lia) ltac:(by apply Forall_take)). unfold lift, mbind at 1, M_bind at 1.
  destruct (data_buf _ _) as [b|]; [|done]. destruct Hb as (Hb & Hpay & Hbn).
  destruct (write_step s p x m y q b Hw Hwm Hb ltac:(lia)) as
    (rc1 & x1 & bufs & outs & q1 & E1 & Hrc & Hw1 & St & Ed & Em & Er).
  unfold mbind at 1, M_bind at 1. rewrite E1. rewrite Hpay in St.
  destruct (flow_user_spec _ p x1 m y (linked_port _ _ _ _ _ (wr_linked _ _ _ _ _ _ Hw1))) as (r & fc & E2);
    [apply Hw1|apply Hw1|].
  unfold mbind at 1, M_bind at 1. rewrite E2.
  destruct (writable_user_fc _ _ _ _ _ _ _ fc Hw1) as [Hw2 ->].
  replace (negb (rc1 =? PORT_SUCCESS) && negb (rc1 =? PORT_CMD_PENDING)) with false by lia.
  rewrite u16_small by lia. apply (accepts_more s p x (x1 <| tx ::= set user_fc (fun _ => fc) |>) y data dn
    (Z.to_nat n) bufs outs); try done; [lia|].
  rewrite Z2Nat.id by lia. eapply IH; try done; [by apply Forall_drop|rewrite ?length_drop; lia..].
Qed.

Lemma handle_of_port p : (p < 30)%nat -> bad_handle (Z.of_nat p + 1) = false.
Proof. unfold bad_handle. lia. Qed.

(** The last buffer with [bytes] behind its packet. *)
Lemma append_buf b bytes :
  tx_ok b -> bh_len b + Z.of_nat (length bytes) <= 4085 ->
  exists b', bh_write b (bh_offset b + bh_len b) bytes = Ok b' /\ bh_len b' = bh_len b /\
    bh_payload (b' <| bh_len := bh_len b + Z.of_nat (length bytes) |>) = bh_payload b ++ bytes.
Proof.
  intros (Ho & Hl & Hd & _) Hn. change (L2CAP_MIN_OFFSET + RFCOMM_MIN_OFFSET) with 18 in Ho.
  unfold bh_write, wr_bytes. rewrite Ho, Hd. change (Z.of_nat 4104) with 4104.
  destruct (_ || _) eqn:E; [exfalso; lia|]. cbn [mbind outcome_bind mret outcome_ret].
  eexists. split_and!; [done|done|].
  unfold bh_payload, slice. cbn [set set_bh_len set_bh_data bh_len bh_data bh_offset]. rewrite Ho.
  rewrite drop_app_le by (rewrite length_take; lia). rewrite skipn_firstn_comm.
  replace (Z.to_nat (18 + bh_len b) - Z.to_nat 18)%nat with (Z.to_nat (bh_len b)) by lia.
  assert (Hlen : length (take (Z.to_nat (bh_len b)) (drop (Z.to_nat 18) (bh_data b))) = Z.to_nat (bh_len b))
    by (rewrite length_take, length_drop; lia).
  rewrite app_assoc. apply take_app_length'. rewrite length_app, Hlen. lia.
Qed.

Lemma append_last_spec s p x m y q b bytes :
  writable s p x m y (q ++ [b]) -> bh_len b + Z.of_nat (length bytes) <= 4085 ->
  exists x', append_last p b bytes s = Ok (tt, put_port p x' s) /\ streamed y x x' [] [] bytes.
Proof.
  intros Hw Hn. pose proof Hw as [Hl Hp Hct Hq Hor Hc Hc0 Hcr Hbs Hle Hs Hm].
  apply Forall_app in Hbs as [_ Hb]. apply Forall_inv in Hb.
  destruct (append_buf b bytes Hb Hn) as (b' & E & Hl' & Hpay).
  unfold append_last, lift, mbind, M_bind. rewrite E. unfold upd_port. rewrite (linked_port _ _ _ _ _ Hl).
  eexists. split; [done|]. split_and!; [constructor| |constructor|cbn; lia..]. cbn -[u16 u32 queue_bytes].
  rewrite Hq. cbn [fixed_queue_update_last queue_bytes].
  rewrite length_app, Nat.add_1_r, Nat.pred_succ, <- (Nat.add_0_r (length q)), insert_app_r.
  cbn [insert list_insert]. rewrite !fmap_app, !concat_app, <- app_assoc. f_equal. cbn -[u16].
  destruct Hb as (_ & Hb2 & _). rewrite !app_nil_r, <- Hpay. f_equal. unfold set, set_bh_len. cbn -[u16].
  rewrite Hl', (u16_small (Z.of_nat _)) by lia. by rewrite u16_small by lia.
Qed.

Lemma event_callback_quiet p ev s x :
  port_tab s !! p = Some x ->
  exists s', event_callback p ev s = Ok (tt, s') /\ port_tab s' = port_tab s /\
    List.filter is_data_write (out s') = List.filter is_data_write (out s).
Proof.
  intros Hx. unfold event_callback. rewrite (run_get_port p x) by done.
  destruct (_ && _); eexists; by split_and!.
Qed.

Lemma send_all_writes y dlci bufs outs :
  send_all y dlci bufs outs -> List.filter is_data_write (rev outs) = rev outs.
Proof.
  intros Hs. assert (Hf : Forall (fun o => is_data_write o = true) (rev outs)).
  { apply Forall_rev. induction Hs as [|b o bufs' outs' (cr & _ & b' & -> & _) _ IH]; by constructor. }
  induction Hf as [|o l Ho _ IH]; [done|]. cbn. by rewrite Ho, IH.
Qed.

Lemma write_data_run s handle p x m y q data :
  writable s p x m y q -> handle = Z.of_nat p + 1 -> (p < 30)%nat ->
  in_use x = true -> port_state x <> PORT_CONNECTION_STATE_CLOSED ->
  Forall is_u8 data -> 0 < Z.of_nat (length data) < 65536 ->
  exists n s' x' bufs outs,
    PORT_WriteData handle data s = Ok ((PORT_SUCCESS, Z.of_nat n), s') /\ (n <= length data)%nat /\
    port_tab s' !! p = Some x' /\ streamed y x x' bufs outs (take n data) /\
    List.filter is_data_write (out s') = rev outs ++ List.filter is_data_write (out s).
Proof.
  intros Hw -> Hp Hu Hst Hd Hlen. pose proof Hw as [Hl _ _ Hq _ _ _ _ _ _ _ Hm].
  unfold PORT_WriteData. rewrite handle_of_port by done.
  replace (handle_port _) with p by (unfold handle_port; lia). rewrite (run_get_port p x) by apply Hl.
  unfold not_opened. rewrite Hu, bool_decide_false by done. cbn [negb orb].
  destruct (_ || _) eqn:E2.
  { exfalso. apply orb_true_iff in E2 as [E2%negb_true_iff%nz_false|E2%negb_true_iff%nz_false]; lia. }
  match goal with |- context [match ?o with Some b => append_last _ _ _ ;; _ | None => _ end] => destruct o as [b|] eqn:El end.
  - destruct (fixed_queue_try_peek_last _) as [b'|] eqn:Eq; [|done].
    destruct (_ && _) eqn:Ec; [|done]. injection El as ->. change max_buf_data with 4085 in Ec.
    rewrite Hq in Eq. destruct (proj1 (last_Some _ _) Eq) as [q' ->].
    destruct (append_last_spec s p x m y q' b data Hw ltac:(lia)) as (x' & E & St).
    unfold mbind, M_bind. rewrite E. exists (length data), (put_port p x' s), x', [], [].
    split_and!; try done; [by eapply lookup_put_port, Hl|]. by rewrite firstn_all.
  - destruct (write_loop_spec (S (length data)) p s x m y q (Z.of_nat p + 1) data max_buf_data 0 0 0 Hw Hd) as
      (n & rc & ev & x' & bufs & outs & E & Hn & St & Er); [lia|split; reflexivity|lia..|].
    unfold mbind at 1, M_bind at 1. rewrite E. set (s1 := after_send p x' outs s).
    assert (Hx1 : port_tab s1 !! p = Some x') by (by eapply lookup_put_port, Hl).
    rewrite (run_get_port p x') by done. lazymatch goal with |- context [event_callback p ?e] => set (ev2 := e) end.
    destruct (event_callback_quiet p ev2 s1 x' Hx1) as (s' & E' & Ht & Ho).
    unfold mbind, M_bind. rewrite E'. exists n, s', x', bufs, outs. split_and!; try done; [by rewrite Ht|].
    rewrite Ho. cbn. rewrite List.filter_app. f_equal. by eapply send_all_writes, St.
Qed.

(** C9: on an open port of a credit-controlled multiplexer with the modem signals
    exchanged, whose send queue is empty or whose peer closed the flow ([writable];
    [RfcFindings.early_write_overtaken] shows what happens otherwise),
    [PORT_WriteData] succeeds, reports how many bytes [n] it took, and puts
    exactly the first [n] bytes behind those already queued: the frames it sends,
    each within the peer's MTU and each costing one credit, followed by what is
    still queued, carry the old queue and then the new bytes. *)
Theorem write_data_stream s handle p x m y q data :
  writable s p x m y q -> handle = Z.of_nat p + 1 -> (p < 30)%nat ->
  in_use x = true -> port_state x <> PORT_CONNECTION_STATE_CLOSED ->
  Forall is_u8 data -> 0 < Z.of_nat (length data) < 65536 ->
  exists n s' x' bufs outs,
    PORT_WriteData handle data s = Ok ((PORT_SUCCESS, Z.of_nat n), s') /\ (n <= length data)%nat /\
    port_tab s' !! p = Some x' /\ streamed y x x' bufs outs (take n data) /\
    List.filter is_data_write (out s') = rev outs ++ List.filter is_data_write (out s).
Proof.
  apply write_data_run.
Qed.

End Write.
