(* ===== verification/PortRead.v ===== *)
(** * PortRead: what PORT_ReadData returns, and the command queue

    [PORT_ReadData] returns the oldest bytes of the receive queue and leaves the
    others; [rfc_check_send_cmd] sends the commands of a multiplexer in order
    and keeps them while L2CAP is congested. *)

From Stdlib Require Import ZArith Lia.
From stdpp Require Import gmap.
From S2P Require Import Prelude RfcFcs Osi RfcDefs RfcState RfcFrames RfcFramesProps RfcUtils.
From S2P Require Import PortRfc RfcMxFsm RfcPortFsm RfcL2capIf PortApi RfcRun RfcInv RfcInvBase.
From S2P Require Import RfcInvUtils RfcInvPort RfcInvFsm RfcInvMx PortData RfcInvApi PortWrite.

(** [s] after multiplexer [m] became [y'] and the buffers [l] were handed to
    L2CAP, the first first. *)
Definition after_cmds (m : nat) (y' : tRFC_MCB) (l : list BT_HDR) (s : rfc_cb) : rfc_cb :=
  put_mcb m y' (s <| out ::= fun o => rev (L2CA_DataWrite (mcb_lcid y') <$> l) ++ o |>).

(** The port changed in nothing that decides how data is received. *)
Definition same_port (x x' : tPORT) : Prop :=
  rfc x' = rfc x /\ port_dlci x' = port_dlci x /\ in_use x' = in_use x /\ port_state x' = port_state x /\
  line_status x' = line_status x /\ p_data_callback x' = p_data_callback x /\
  p_data_co_callback x' = p_data_co_callback x /\ rx_buf_critical x' = rx_buf_critical x /\ tx x' = tx x.

(** Port [p], on channel [cid], is open for reading with the packets [l] waiting. *)
Record rx_open (s : rfc_cb) (cid : Z) (p : nat) (x : tPORT) (m : nat) (y : tRFC_MCB) (l : list BT_HDR) : Prop :=
  mk_rx_open {
  rxo_linked : linked s p x m y;
  rxo_cmd : is_Some (cmd_q y);
  rxo_lcid : rfc_lcid_mcb s !! cid = Some m;
  rxo_cid : mcb_lcid y = cid;
  rxo_use : in_use x = true;
  rxo_state : port_state x <> PORT_CONNECTION_STATE_CLOSED;
  rxo_line : line_status x = 0;
  rxo_cb : p_data_callback x = 0 /\ p_data_co_callback x = 0;
  rxo_fc : peer_fc (tx x) = false;
  rxo_queue : pd_queue (rx x) = Some l;
  rxo_bufs : Forall bh_ok l;
  rxo_size : queue_size (rx x) = sum_len l;
  rxo_limit : sum_len l <= PORT_RX_CRITICAL_WM;
}.

(** * Lemmas *)

Lemma send_cmd_loop_spec fuel m y l s :
  rfc_mcb_tab s !! m = Some y -> cmd_q y = Some l -> l2cap_congested y = false -> (length l < fuel)%nat ->
  send_cmd_loop fuel m s = Ok (tt, after_cmds m (y <| cmd_q := Some [] |>) l s).
Proof.
  revert y l s. induction fuel as [|fuel IH]; intros y l s Hy Hq Hc Hf; [lia|].
  cbn [send_cmd_loop]. rewrite (run_get_mcb m y), Hc, Hq by done.
  destruct l as [|b l]; cbn [fixed_queue_try_dequeue].
  - unfold skip, mret, M_ret. do 2 f_equal. unfold after_cmds. cbn [fmap list_fmap rev app].
    replace (y <| cmd_q := Some [] |>) with y by (destruct y as []; cbn in *; by subst).
    etrans; [symmetry; by apply (put_mcb_same m y)|]. by destruct s.
  - rewrite (run_upd_mcb_bind m y) by done. set (y1 := y <| cmd_q := Some l |>).
    unfold mbind, M_bind, emit, modify.
    rewrite (IH y1 l); [|by eapply lookup_put_mcb|done|done|cbn in Hf; lia]. do 2 f_equal.
    unfold after_cmds, put_mcb, set, set_rfc_mcb_tab, set_out. cbn. rewrite list_insert_insert_eq, <- app_assoc.
    done.
Qed.

Lemma check_send_cmd_spec m y l b s :
  rfc_mcb_tab s !! m = Some y -> cmd_q y = Some l ->
  rfc_check_send_cmd m (Some b) s =
    Ok (tt, if l2cap_congested y then put_mcb m (y <| cmd_q := Some (l ++ [b]) |>) s
            else after_cmds m (y <| cmd_q := Some [] |>) (l ++ [b]) s).
Proof.
  intros Hy Hq. unfold rfc_check_send_cmd. rewrite run_assoc, (run_get_mcb m y), Hq by done.
  cbn [fixed_queue_enqueue]. rewrite run_assoc. unfold lift, mbind at 1, M_bind at 1.
  rewrite (run_upd_mcb_bind m y) by done. set (y1 := y <| cmd_q := Some (l ++ [b]) |>).
  assert (Hy1 : rfc_mcb_tab (put_mcb m y1 s) !! m = Some y1) by (by eapply lookup_put_mcb).
  rewrite (run_get_mcb m y1) by done. destruct (l2cap_congested y) eqn:Hc.
  - cbn [send_cmd_loop]. rewrite (run_get_mcb m y1) by done. change (l2cap_congested y1) with (l2cap_congested y).
    by rewrite Hc.
  - rewrite (send_cmd_loop_spec _ m y1 (l ++ [b])); [|done|done|done|cbn; lia]. do 2 f_equal.
    unfold after_cmds, put_mcb, set, set_rfc_mcb_tab, set_out. cbn. by rewrite list_insert_insert_eq.
Qed.

(** commands of a multiplexer go to L2CAP in the order they were issued: a
    new one is queued behind the others, and all are sent at once unless L2CAP
    is congested, when all are kept. *)
Theorem check_send_cmd_fifo m y l b s :
  rfc_mcb_tab s !! m = Some y -> cmd_q y = Some l ->
  exists s' y', rfc_check_send_cmd m (Some b) s = Ok (tt, s') /\ rfc_mcb_tab s' !! m = Some y' /\
    if l2cap_congested y
    then cmd_q y' = Some (l ++ [b]) /\ out s' = out s
    else cmd_q y' = Some [] /\
         rev (out s') = rev (out s) ++ (L2CA_DataWrite (mcb_lcid y) <$> l ++ [b]).
Proof.
  intros Hy Hq. rewrite (check_send_cmd_spec m y l b s Hy Hq). destruct (l2cap_congested y).
  - do 2 eexists. split_and!; [done|by eapply lookup_put_mcb|done|done].
  - do 2 eexists. split_and!; [done|by eapply lookup_put_mcb|done|]. cbn.
    by rewrite rev_app_distr, rev_involutive.
Qed.

(** ** Reading *)

Section Read.
Context `{RfcEnv}.

(** Returning credits to the peer leaves the receive queue alone. *)
Lemma flow_peer_spec s p x m y cq count :
  linked s p x m y -> cmd_q y = Some cq ->
  exists s' x' cq', port_flow_control_peer p true count s = Ok (tt, s') /\
    linked s' p x' m (y <| cmd_q := Some cq' |>) /\ rfc_lcid_mcb s' = rfc_lcid_mcb s /\ same_port x x' /\
    pd_queue (rx x') = pd_queue (rx x) /\ queue_size (rx x') = queue_size (rx x).
Proof.
  intros [H1 H2 H3 H4 H5 H6 H7] Hq. unfold port_flow_control_peer.
  rewrite (run_get_port p x), H3, (run_get_mcb m y), bool_decide_true by done.
  rewrite (run_upd_port p x) by done. set (x1 := x <| credit_rx ::= _ |>).
  assert (Hx1 : port_tab (put_port p x1 s) !! p = Some x1) by (by eapply lookup_put_port).
  rewrite (run_get_port p x1) by done. destruct (_ && _); cbn [when].
  2: { exists (put_port p x1 s), x1, cq.
       replace (y <| cmd_q := Some cq |>) with y by (destruct y as []; cbn in *; by subst). by split_and!. }
  unfold rfc_send_credit. rewrite run_assoc, (run_get_mcb m y) by done. rewrite run_assoc.
  pose proof (credit_frame_returns (is_initiator y) (port_dlci x1) (u8 (credit_rx_max x1 - credit_rx x1))) as Hf.
  unfold lift, mbind at 1, M_bind at 1. destruct (credit_frame _ _ _) as [b|]; [|done].
  unfold mbind at 1, M_bind at 1. rewrite (check_send_cmd_spec m y cq) by done.
  set (s1 := if l2cap_congested y then _ else _).
  assert (Hs1 : port_tab s1 !! p = Some x1) by (unfold s1; by destruct (l2cap_congested y)).
  assert (Hm1 : exists cq', rfc_mcb_tab s1 !! m = Some (y <| cmd_q := Some cq' |>)).
  { unfold s1. destruct (l2cap_congested y); eexists; by eapply (lookup_put_mcb m y). }
  destruct Hm1 as [cq' Hm1]. unfold upd_port. rewrite Hs1.
  set (x2 := x1 <| credit_rx := _ |> <| rx ::= _ |>). exists (put_port p x2 s1), x2, cq'.
  split_and!; [reflexivity|split; try done; by eapply lookup_put_port| |done..].
  unfold s1. by destruct (l2cap_congested y).
Qed.

Lemma rx_open_after s cid p x m y l s' x' cq' l' :
  rx_open s cid p x m y l -> linked s' p x' m (y <| cmd_q := Some cq' |>) ->
  rfc_lcid_mcb s' = rfc_lcid_mcb s -> same_port x x' -> pd_queue (rx x') = Some l' ->
  queue_size (rx x') = sum_len l' -> Forall bh_ok l' -> sum_len l' <= PORT_RX_CRITICAL_WM ->
  rx_open s' cid p x' m (y <| cmd_q := Some cq' |>) l'.
Proof.
  intros [] Hl Hlc (E1 & E2 & E3 & E4 & E5 & E6 & E7 & E8 & E9) Hq Hs Hb Hw.
  split; rewrite ?Hlc, ?E3, ?E4, ?E5, ?E6, ?E7, ?E9; try done; try lia.
Qed.

(** Reading, with the state it leads to. *)
Lemma read_data_run s cid p x m y l max_len :
  rx_open s cid p x m y l -> (p < 30)%nat -> 0 <= max_len ->
  exists s' x' cq' l',
    PORT_ReadData (Z.of_nat p + 1) max_len s =
      Ok ((PORT_SUCCESS, take (Z.to_nat max_len) (queue_bytes (Some l))), s') /\
    rx_open s' cid p x' m (y <| cmd_q := Some cq' |>) l' /\ same_port x x' /\ (length l' <= length l)%nat /\
    queue_bytes (Some l') = drop (Z.to_nat max_len) (queue_bytes (Some l)).
Proof.
  intros Ho Hp Hm. pose proof Ho as [Hl [cq Hcq] Hlc Hc Hu Hst Hls Hcb Hfc Hq Hf Hsz Hlim].
  unfold PORT_ReadData. rewrite handle_of_port by done.
  replace (handle_port _) with p by (unfold handle_port; lia). rewrite (run_get_port p x) by apply Hl.
  unfold not_opened. rewrite Hu, bool_decide_false, Hls, Hq by done. cbn [negb orb]. change (nz 0) with false.
  destruct l as [|b0 l0] eqn:E0.
  { exists s, x, cq, []. replace (y <| cmd_q := Some cq |>) with y by (destruct y as []; cbn in *; by subst).
    split_and!; try done; [|by cbn; rewrite drop_nil]. cbn. by rewrite take_nil. }
  rewrite <- E0 in *. replace (fixed_queue_is_empty (Some l)) with false by (by subst).
  destruct (read_loop_spec (S (Z.to_nat (fixed_queue_length (Some l)))) p max_len [] 0 s x l) as
    (l' & n & E & Hb & Hf' & Hlen & Hsum & _); try done; [apply Hl|lia|cbn; lia|].
  unfold mbind at 1, M_bind at 1. rewrite E. set (s1 := put_rx _ _ _ _ _).
  set (x1 := x <| rx ::= fun d => d <| pd_queue := Some l' |> <| queue_size := sum_len l' |> |>).
  assert (Hl1 : linked s1 p x1 m y) by (by apply (linked_put s p x m y x1)).
  destruct (flow_peer_spec s1 p x1 m y cq n Hl1 Hcq) as (s2 & x2 & cq' & E2 & Hl2 & Hlc2 & Hsp & Hq2 & Hs2).
  unfold mbind, M_bind. cbn [fst snd]. rewrite E2. exists s2, x2, cq', l'. split_and!; try done.
  apply (rx_open_after s cid p x m y l); try done. lia.
Qed.


End Read.
