(* ===== verification/PortDeliver.v ===== *)
(** * PortDeliver: data from one port to the other

    A data frame, handed to [RFCOMM_BufDataInd] in whatever buffer it arrives,
    puts exactly its data at the end of the port's receive queue and its credits
    on the port's account; the frames of a [PORT_WriteData], handed to the peer in
    order, put the bytes written there. *)

From Stdlib Require Import ZArith Lia.
From stdpp Require Import gmap.
From S2P Require Import Prelude RfcFcs Osi RfcDefs RfcState RfcFrames RfcFramesProps RfcUtils.
From S2P Require Import PortRfc RfcMxFsm RfcPortFsm RfcL2capIf PortApi RfcRun RfcInv RfcInvBase.
From S2P Require Import RfcInvUtils RfcInvPort RfcInvFsm RfcInvMx PortData RfcInvApi PortWrite.
From S2P Require Import PortRead.

(** [n] more bytes fit into the receive queue. *)
Definition rx_room (x : tPORT) (l : list BT_HDR) (n : Z) : Prop :=
  sum_len l + n <= PORT_RX_CRITICAL_WM /\ Z.of_nat (length l) < rx_buf_critical x.

(** The data and then the credits of a decoded frame: the end of
    [RFCOMM_BufDataInd] for a UIH frame. *)
Definition take_frame `{RfcEnv} (p : nat) (b : BT_HDR) : M unit :=
  when (0 <? bh_len b) (call_port_sm (Some p) RFC_PORT_EVENT_UIH (PBuf b));;
  f ← get_frame;
  when (negb (mx_credit f =? 0)) (rfc_inc_credit p (mx_credit f)).

(** L2CAP delivers [b] for the packet that [o] writes: the same bytes, somewhere in
    a buffer. *)
Definition carries (o : output) (b : BT_HDR) : Prop :=
  exists c b', o = L2CA_DataWrite c b' /\ bh_ok b /\ bh_payload b = bh_payload b'.

(** L2CAP delivers the packets [l] of channel [cid] in order. *)
Fixpoint deliver_all `{RfcEnv} (cid : Z) (l : list BT_HDR) : M unit :=
  match l with
  | [] => skip
  | b :: l => RFCOMM_BufDataInd cid b;; deliver_all cid l
  end.

(** * Lemmas *)

Section Deliver.
Context `{RfcEnv}.

Lemma find_lcid_linked s lcid m y :
  rfc_lcid_mcb s !! lcid = Some m -> rfc_mcb_tab s !! m = Some y -> mcb_lcid y = lcid ->
  rfc_find_lcid_mcb lcid s = Ok (Some m, s).
Proof.
  intros E Hy <-. unfold rfc_find_lcid_mcb, mbind at 1, M_bind at 1, get. rewrite E.
  rewrite (run_get_mcb m y) by done. by rewrite Z.eqb_refl.
Qed.

(** Closing the flow for the peer, with credits, only notes it. *)
Lemma flow_peer_off_spec s p x m y :
  linked s p x m y ->
  exists fc, port_flow_control_peer p false 0 s =
    Ok (tt, put_port p (x <| rx ::= set peer_fc (fun _ => fc) |>) s).
Proof.
  intros [H1 H2 H3 H4 H5 H6 H7]. unfold port_flow_control_peer.
  rewrite (run_get_port p x), H3, (run_get_mcb m y), bool_decide_true by done.
  destruct (_ || _); cbn [when].
  - exists true. unfold upd_port. by rewrite H1.
  - exists (peer_fc (rx x)). unfold skip, mret, M_ret. do 2 f_equal. symmetry. apply put_port_same. rewrite H1.
    f_equal. destruct x as []. by destruct rx.
Qed.

Lemma data_ind_spec s cid p x m y l b :
  rx_open s cid p x m y l -> rx_room x l (bh_len b) -> bh_ok b -> 0 < bh_len b ->
  exists s' x', PORT_DataInd (Some m) (port_dlci x) b s = Ok (tt, s') /\ linked s' p x' m y /\
    rfc_lcid_mcb s' = rfc_lcid_mcb s /\ same_port x x' /\ pd_queue (rx x') = Some (l ++ [b]) /\
    queue_size (rx x') = sum_len (l ++ [b]) /\ credit_tx x' = credit_tx x /\ rx_frame s' = rx_frame s.
Proof.
  intros [Hl _ _ _ _ _ _ [Hcb Hco] _ Hq Hbufs Hsz Hlim] [Hroom Hbc] Hb Hpos.
  unfold PORT_DataInd, mbind at 1, M_bind at 1.
  rewrite (find_linked _ _ _ _ _ Hl), (run_get_port p x), Hco, Hcb by apply Hl. change (nz 0) with false.
  pose proof Hb as (Ho & _ & Hd & _). pose proof (rx_sum_nonneg l Hbufs) as Hnn.
  assert (Hu : u32 (queue_size (rx x) + bh_len b) = sum_len (l ++ [b])).
  { rewrite Hsz, sum_len_app. cbn [sum_len foldr]. unfold u32. rewrite Z.mod_small; lia. }
  rewrite Hu, Hq. destruct (_ || _) eqn:E.
  { rewrite sum_len_app in E. cbn in E. lia. }
  set (flags := if nz _ && nz _ then _ else _).
  assert (Hfl : exists v, flags s = Ok (v, s)).
  { unfold flags. destruct (_ && _); [|by eexists]. unfold lift, mbind, M_bind.
    rewrite bh_read_bytes_ok by lia. by eexists. }
  destruct Hfl as [v Hfl]. clearbody flags. unfold mbind at 1, M_bind at 1. rewrite Hfl.
  cbn [fixed_queue_enqueue]. unfold lift, mbind at 1, M_bind at 1.
  rewrite (run_upd_port p x) by apply Hl. set (x1 := x <| rx ::= _ |>).
  assert (Hl1 : linked (put_port p x1 s) p x1 m y) by (by apply (linked_put s p x m y x1)).
  destruct (flow_peer_off_spec _ _ _ _ _ Hl1) as [fc Ef]. unfold mbind at 1, M_bind at 1. rewrite Ef.
  set (x2 := x1 <| rx ::= set peer_fc (fun _ => fc) |>). rewrite put_put_port.
  assert (Hl2 : linked (put_port p x2 s) p x2 m y) by (by apply (linked_put s p x m y x2)).
  assert (Hs2 : queue_size (rx x2) = sum_len (l ++ [b])) by exact Hu.
  rewrite (run_get_port p x2) by apply Hl2. destruct (user_fc (rx x2)).
  - destruct (nz (v .& _)); cbn [when].
    + unfold upd_port. rewrite (linked_port _ _ _ _ _ Hl2). set (x3 := x2 <| rx_flag_ev_pending := true |>).
      exists (put_port p x3 (put_port p x2 s)), x3.
      assert (Hl3 : linked (put_port p x3 (put_port p x2 s)) p x3 m y) by (by apply (linked_put _ p x2 m y x3)).
      by split_and!.
    + exists (put_port p x2 s), x2. by split_and!.
  - unfold event_callback. rewrite (run_get_port p x2) by apply Hl2.
    destruct (_ && _); cbn [when]; (eexists _, x2; split_and!; [reflexivity|by destruct Hl2|done..]).
Qed.

(** Credits for a port whose peer had not closed the flow. *)
Lemma inc_credit_spec s p x m y cr :
  linked s p x m y -> peer_fc (tx x) = false ->
  rfc_inc_credit p cr s = Ok (tt, put_port p (x <| credit_tx ::= fun c => u16 (c + cr) |>) s).
Proof.
  intros [H1 H2 H3 H4 H5 H6 H7] Hfc. unfold rfc_inc_credit.
  rewrite (run_port_mcb p x m), (run_get_mcb m y), bool_decide_true by done. cbn [when].
  rewrite (run_upd_port p x) by done. set (x1 := x <| credit_tx ::= _ |>).
  rewrite (run_get_port p x1) by (by eapply lookup_put_port). change (peer_fc (tx x1)) with (peer_fc (tx x)).
  by rewrite Hfc.
Qed.

Lemma find_data_port_linked s p x m y ev :
  linked s p x m y -> mx_dlci (rx_frame s) = port_dlci x -> find_data_port m ev s = Ok (Some p, s).
Proof.
  intros Hl Hd. unfold find_data_port, get_frame, mbind at 1, M_bind at 1, mbind at 1, M_bind at 1, get, mret, M_ret.
  rewrite Hd. unfold mbind at 1, M_bind at 1. rewrite (find_linked _ _ _ _ _ Hl).
  rewrite run_assoc, (run_get_port p x) by apply Hl. rewrite (linked_p_mcb _ _ _ _ _ Hl). done.
Qed.

Lemma buf_data_ind_uih s cid p x m y l b_rx f' b' :
  rx_open s cid p x m y l -> rfc_parse_data y (rx_frame s) b_rx = Ok (RFC_EVENT_UIH, f', b') ->
  mx_dlci f' = port_dlci x ->
  RFCOMM_BufDataInd cid b_rx s = take_frame p b' (s <| rx_frame := f' |>).
Proof.
  intros [Hl _ Hlc Hc _ _ _ _ _ _ _ _ _] Hp Hd. pose proof Hl as [H1 H2 H3 H4 H5 H6 H7].
  unfold RFCOMM_BufDataInd, mbind at 1, M_bind at 1. rewrite (find_lcid_linked s cid m y) by done.
  rewrite (run_get_mcb m y) by done. unfold mbind at 1, M_bind at 1, get_frame at 1, mbind at 1, M_bind at 1, get at 1.
  cbn [mret M_ret]. unfold mbind at 1, M_bind at 1, lift. rewrite Hp. cbn [fst snd mx_event_of port_event_of].
  unfold mbind at 1, M_bind at 1, put_frame, modify.
  set (s1 := s <| rx_frame := f' |>). unfold mbind at 1, M_bind at 1.
  change (get_frame s1) with (@Ok (MX_FRAME * rfc_cb) (f', s1)). cbn beta iota.
  replace (mx_dlci f' =? RFCOMM_MX_DLCI) with false by lia.
  unfold mbind at 1, M_bind at 1. rewrite (find_data_port_linked s1 p x m y); [|by destruct Hl|done].
  rewrite bool_decide_true by done. reflexivity.
Qed.

(** The data of a frame, if there is any. *)
Lemma take_data_spec s cid p x m y l b :
  rx_open s cid p x m y l -> rx_room x l (bh_len b) -> bh_ok b ->
  exists s' x' l',
    when (0 <? bh_len b) (call_port_sm (Some p) RFC_PORT_EVENT_UIH (PBuf b)) s = Ok (tt, s') /\
    rx_open s' cid p x' m y l' /\ same_port x x' /\
    (bh_payload <$> l') = (bh_payload <$> l) ++ (if 0 <? bh_len b then [bh_payload b] else []) /\
    credit_tx x' = credit_tx x /\ rx_frame s' = rx_frame s.
Proof.
  intros Ho Hr Hb. pose proof Ho as [Hl [cq Hcq] Hlc Hc Hu Hst Hls Hcb Hfc Hq Hf Hsz Hlim].
  destruct (0 <? bh_len b) eqn:E; cbn [when].
  2: { exists s, x, l. rewrite app_nil_r. by split_and!. }
  destruct (data_ind_spec s cid p x m y l b Ho Hr Hb ltac:(lia)) as
    (s1 & x1 & E1 & Hl1 & Hlc1 & Hsp & Hq1 & Hs1 & Hc1 & Hf1).
  exists s1, x1, (l ++ [b]). split_and!; try done; [| |by rewrite fmap_app].
  - cbn [call_port_sm]. unfold sm_exec, sm_calls, sm_depth. cbn [sm_execute]. unfold rfc_port_sm_execute.
    rewrite (run_get_port p x), (linked_open _ _ _ _ _ Hl) by apply Hl.
    cbn [rfc_port_sm_opened pdata_buf]. rewrite run_ret. unfold rfc_port_uplink_data.
    rewrite (run_get_port p x), (linked_p_mcb _ _ _ _ _ Hl) by apply Hl. exact E1.
  - replace y with (y <| cmd_q := Some cq |>) in Hl1 |- * by (destruct y as []; cbn in *; by subst).
    apply (rx_open_after s cid p x m y l); try done.
    + apply Forall_app; split; [done|]. constructor; [done|constructor].
    + rewrite sum_len_app. cbn [sum_len foldr]. destruct Hr. lia.
Qed.

(** A data frame, with the state it leads to. *)
Lemma deliver_run s cid p x m y l ini cr data b_rx :
  let hdr := uih_header ini (port_dlci x) cr (Z.of_nat (length data)) in
  rx_open s cid p x m y l -> rx_room x l (Z.of_nat (length data)) -> is_u8 cr ->
  bh_ok b_rx -> bh_payload b_rx = hdr ++ data ++ [rfc_calc_fcs (take 2 hdr)] ->
  exists s' x' l', RFCOMM_BufDataInd cid b_rx s = Ok (tt, s') /\ rx_open s' cid p x' m y l' /\ same_port x x' /\
    (bh_payload <$> l') = (bh_payload <$> l) ++ (match data with [] => [] | _ => [data] end) /\
    credit_tx x' = if cr =? 0 then credit_tx x else u16 (credit_tx x + cr).
Proof.
  intros hdr Ho Hr Hcr Hok Hrx. pose proof Ho as [Hl Hcq Hlc Hc Hu Hst Hls Hcb Hfc Hq Hf Hsz Hlim].
  pose proof Hl as [H1 H2 H3 H4 H5 H6 H7]. pose proof (rx_sum_nonneg l Hf) as Hnn.
  destruct (parse_uih ini y (rx_frame s) (port_dlci x) cr data b_rx) as (f' & b' & Ep & Hd & _ & Hcr' & Hpay); try done.
  { unfold RFCOMM_VALID_DLCI. lia. } { destruct Hr. lia. } { split; [lia|done]. }
  rewrite (buf_data_ind_uih s cid p x m y l b_rx f' b') by done.
  pose proof (rfc_parse_data_spec y (rx_frame s) b_rx Hok) as Hsp. rewrite Ep in Hsp.
  assert (Hb' : bh_ok b') by (eapply rx_tail_of_parsed; [exact Hok|exact Hsp|done]).
  pose proof (bh_payload_len b' Hb') as Hlen. rewrite Hpay in Hlen.
  destruct (take_data_spec (s <| rx_frame := f' |>) cid p x m y l b') as (s1 & x1 & l1 & E1 & Ho1 & Hsp1 & Hl1 & Hc1 & Hf1).
  { by split. } { by rewrite <- Hlen. } { done. }
  unfold take_frame, mbind at 1, M_bind at 1. rewrite E1. unfold mbind at 1, M_bind at 1.
  change (get_frame s1) with (@Ok (MX_FRAME * rfc_cb) (rx_frame s1, s1)). cbn beta iota. rewrite Hf1.
  change (mx_credit (rx_frame (s <| rx_frame := f' |>))) with (mx_credit f'). rewrite Hcr'.
  assert (Hdata : (if 0 <? bh_len b' then [bh_payload b'] else []) = match data with [] => [] | _ => [data] end).
  { rewrite Hpay. destruct data; cbn in Hlen; [by rewrite <- Hlen|]. by replace (0 <? bh_len b') with true by lia. }
  rewrite Hdata in Hl1. destruct (Z.eqb_spec cr 0) as [E0|E0]; cbn [negb when].
  - exists s1, x1, l1. by split_and!.
  - destruct Ho1 as [L1 Q1 C1 D1 U1 S1 N1 B1 F1 G1 I1 J1 K1]. rewrite (inc_credit_spec s1 p x1 m y _ L1 F1).
    set (x2 := x1 <| credit_tx ::= _ |>). exists (put_port p x2 s1), x2, l1.
    split_and!; [done| |done|done|by rewrite <- Hc1].
    split; try done. by apply (linked_put s1 p x1 m y).
Qed.

Lemma frame_bytes l l' data :
  (bh_payload <$> l') = (bh_payload <$> l) ++ (match data with [] => [] | _ => [data] end) ->
  queue_bytes (Some l') = queue_bytes (Some l) ++ data /\ (length l' <= S (length l))%nat.
Proof.
  intros E. split.
  - cbn [queue_bytes]. rewrite E, concat_app. f_equal. destruct data; [done|]. cbn. by rewrite app_nil_r.
  - apply (f_equal length) in E. rewrite length_app, !length_fmap in E. destruct data; cbn in E; lia.
Qed.

Lemma same_port_trans x1 x2 x3 : same_port x1 x2 -> same_port x2 x3 -> same_port x1 x3.
Proof. unfold same_port. intros H1 H2. destruct_and!. split_and!; congruence. Qed.

Lemma tx_ok_bh_ok b : tx_ok b -> bh_ok b.
Proof.
  intros (Ho & Hl & Hd & Hb). change (L2CAP_MIN_OFFSET + RFCOMM_MIN_OFFSET) with 18 in Ho.
  unfold bh_ok. split_and!; [lia..|done].
Qed.

(** The frames [outs] of the buffers [bufs], delivered in order to a port with
    room for them. *)
Lemma deliver_all_run mtu y1 cid p m y bufs outs bs :
  Forall2 carries outs bs -> forall t x l,
  send_all y1 (port_dlci x) bufs outs -> Forall (fun b => tx_ok b /\ bh_len b <= mtu) bufs ->
  rx_open t cid p x m y l -> 0 <= mtu ->
  sum_len l + Z.of_nat (length bufs) * mtu <= PORT_RX_CRITICAL_WM ->
  Z.of_nat (length l + length bufs) <= rx_buf_critical x ->
  exists t' x' l', deliver_all cid bs t = Ok (tt, t') /\ rx_open t' cid p x' m y l' /\ same_port x x' /\
    queue_bytes (Some l') = queue_bytes (Some l) ++ concat (bh_payload <$> bufs).
Proof.
  intros Hc. revert bufs. induction Hc as [|o b_rx outs bs Hb _ IH]; intros bufs t x l Hs Hf Ho Hm Hn Hl.
  - inversion Hs; subst. exists t, x, l. cbn. rewrite app_nil_r. by split_and!.
  - inversion Hs as [|b o' bufs' outs' (cr & Hcr & b2 & E2 & _ & Hp) Hs']; subst.
    apply list.Forall_cons in Hf as [[Hb1 Hb2] Hf]. destruct Hb as (c & b' & [= <- <-] & Hok & Hrx).
    pose proof (bh_payload_len b (tx_ok_bh_ok b Hb1)) as Hpl. rewrite Hp, <- Hpl in Hrx. cbn [length] in *.
    destruct (deliver_run t cid p x m y l (is_initiator y1) cr (bh_payload b) b_rx Ho) as
      (t1 & x1 & l1 & E1 & Ho1 & Hsp & El & _); [split; nia|done..|].
    destruct (frame_bytes l l1 _ El) as [Eq Hlen].
    pose proof (bytes_length l (rxo_bufs _ _ _ _ _ _ _ Ho)) as Q0.
    pose proof (bytes_length l1 (rxo_bufs _ _ _ _ _ _ _ Ho1)) as Q1. change (concat (bh_payload <$> l1)) with (queue_bytes (Some l1)) in Q1.
    rewrite Eq, length_app in Q1. cbn [queue_bytes] in Q1.
    pose proof Hsp as (_ & Hdl & _ & _ & _ & _ & _ & Hcrit & _).
    destruct (IH bufs' t1 x1 l1) as (t' & x' & l' & E' & Ho' & Hsp' & Eq'); try done; [by rewrite Hdl|nia|rewrite Hcrit; lia|].
    exists t', x', l'. split_and!; [|done|by eapply same_port_trans|].
    + cbn [deliver_all]. unfold mbind, M_bind. by rewrite E1.
    + rewrite Eq', Eq, fmap_cons. cbn [concat]. by rewrite <- app_assoc.
Qed.

(** C10: what is written on one side arrives on the other. When an open port
    ([writable], as for [write_data_stream]) writes [data] and L2CAP delivers the
    frames this sends, in order and unchanged, to the open port of the same DLCI
    on the other side ([rx_open]: no data callback, no line error, not held back
    by its own peer), which has room for as many frames as the sender has credits,
    then every call succeeds, and the bytes received, followed by those still
    queued at the sender, are the bytes that were waiting at the receiver, those
    that were queued at the sender, and the [n] bytes that were accepted. *)
Theorem write_delivered s handle p x m y q data t cid p2 x2 m2 y2 l2 :
  writable s p x m y q -> handle = Z.of_nat p + 1 -> (p < 30)%nat ->
  in_use x = true -> port_state x <> PORT_CONNECTION_STATE_CLOSED ->
  Forall is_u8 data -> 0 < Z.of_nat (length data) < 65536 ->
  rx_open t cid p2 x2 m2 y2 l2 -> port_dlci x2 = port_dlci x ->
  sum_len l2 + credit_tx x * peer_mtu x <= PORT_RX_CRITICAL_WM ->
  Z.of_nat (length l2) + credit_tx x <= rx_buf_critical x2 ->
  exists n s' x' outs,
    PORT_WriteData handle data s = Ok ((PORT_SUCCESS, Z.of_nat n), s') /\ (n <= length data)%nat /\
    port_tab s' !! p = Some x' /\
    List.filter is_data_write (out s') = rev outs ++ List.filter is_data_write (out s) /\
    forall bs, Forall2 carries outs bs ->
      exists t' x2' l2', deliver_all cid bs t = Ok (tt, t') /\ rx_open t' cid p2 x2' m2 y2 l2' /\
        queue_bytes (pd_queue (rx x2')) ++ queue_bytes (pd_queue (tx x')) =
          queue_bytes (pd_queue (rx x2)) ++ queue_bytes (pd_queue (tx x)) ++ take n data.
Proof.
  intros Hw Hh Hp Hu Hst Hd Hlen Ho Hdl Hroom Hbufs.
  destruct (write_data_run s handle p x m y q data) as (n & s' & x' & bufs & outs & E & Hn & Hx' & St & Hout); try done.
  exists n, s', x', outs. split_and!; try done. intros bs Hc.
  destruct St as (Hs & Hq & Hf & Hcr & Hpos). rewrite <- Hdl in Hs. pose proof (wr_mtu _ _ _ _ _ _ Hw) as Hm.
  destruct (deliver_all_run (peer_mtu x) y cid p2 m2 y2 bufs outs bs Hc t x2 l2) as (t' & x2' & l2' & E' & Ho' & _ & Eq);
    try done; [lia|nia|lia|].
  exists t', x2', l2'. split_and!; [done|done|].
  rewrite (rxo_queue _ _ _ _ _ _ _ Ho), (rxo_queue _ _ _ _ _ _ _ Ho'), Eq, <- app_assoc, Hq. done.
Qed.

End Deliver.
