(* ===== verification/PortStream.v ===== *)
(** * PortStream: the receive side of a port is a byte pipe

    The specification is a pipe: a list of bytes, to which a delivery appends and
    from which a read takes the front.  The refinement: while the peer keeps to
    the room the port has, [RFCOMM_BufDataInd] and [PORT_ReadData] on an open
    port do what the pipe does, in any order, and never fail. *)

From Stdlib Require Import ZArith Lia.
From stdpp Require Import gmap.
From S2P Require Import Prelude RfcFcs Osi RfcDefs RfcState RfcFrames RfcFramesProps RfcUtils.
From S2P Require Import PortRfc RfcMxFsm RfcPortFsm RfcL2capIf PortApi RfcRun RfcInv RfcInvBase.
From S2P Require Import RfcInvUtils RfcInvPort RfcInvFsm RfcInvMx PortData RfcInvApi PortWrite.
From S2P Require Import PortRead PortDeliver.

(** ** The specification *)

Inductive pipe_op : Type :=
| Deliver (data : list Z)
| Read (max_len : Z).

(** What the operation returns, and the bytes left in the pipe. *)
Definition pipe_step (pending : list Z) (op : pipe_op) : list Z * list Z :=
  match op with
  | Deliver data => ([], pending ++ data)
  | Read n => (take (Z.to_nat n) pending, drop (Z.to_nat n) pending)
  end.

Fixpoint pipe_run (pending : list Z) (ops : list pipe_op) : list Z * list Z :=
  match ops with
  | [] => ([], pending)
  | op :: ops =>
      let '(o, pending) := pipe_step pending op in
      let '(os, pending) := pipe_run pending ops in (o ++ os, pending)
  end.

(** ** The implementation *)

Section Pipe.
Context `{RfcEnv} (cid : Z) (p : nat).

(** The state holds an open port with the bytes [pending] to be read. *)
Definition holds (s : rfc_cb) (pending : list Z) : Prop :=
  exists x m y l, rx_open s cid p x m y l /\ queue_bytes (Some l) = pending.

(** The buffer [b] is a frame with [data] for the port, which has room for it. *)
Definition frame_for (s : rfc_cb) (b : BT_HDR) (data : list Z) : Prop :=
  exists x m y l ini cr, rx_open s cid p x m y l /\ rx_room x l (Z.of_nat (length data)) /\ is_u8 cr /\ bh_ok b /\
    let hdr := uih_header ini (port_dlci x) cr (Z.of_nat (length data)) in
    bh_payload b = hdr ++ data ++ [rfc_calc_fcs (take 2 hdr)].

(** One call, and the operation of the pipe it stands for. *)
Inductive impl_step (s : rfc_cb) : pipe_op -> list Z -> rfc_cb -> Prop :=
| impl_deliver b data u s' :
    frame_for s b data -> RFCOMM_BufDataInd cid b s = Ok (u, s') -> impl_step s (Deliver data) [] s'
| impl_read n rc data s' :
    0 <= n -> PORT_ReadData (Z.of_nat p + 1) n s = Ok ((rc, data), s') -> impl_step s (Read n) data s'.

Inductive impl_run : rfc_cb -> list pipe_op -> list Z -> rfc_cb -> Prop :=
| impl_nil s : impl_run s [] [] s
| impl_cons s op o s1 ops os s' :
    impl_step s op o s1 -> impl_run s1 ops os s' -> impl_run s (op :: ops) (o ++ os) s'.

(** * Lemmas *)

Lemma rx_open_unique s x m y l x' m' y' l' :
  rx_open s cid p x m y l -> rx_open s cid p x' m' y' l' -> x = x' /\ m = m' /\ y = y' /\ l = l'.
Proof.
  intros [[A1 A2 A3 _ _ _ _] _ _ _ _ _ _ _ _ Q _ _ _] [[B1 B2 B3 _ _ _ _] _ _ _ _ _ _ _ _ Q' _ _ _].
  simplify_eq. done.
Qed.

Lemma deliver_refines s pending b data :
  holds s pending -> frame_for s b data ->
  exists s', RFCOMM_BufDataInd cid b s = Ok (tt, s') /\ holds s' (pending ++ data).
Proof.
  intros (x & m & y & l & Ho & <-) (x' & m' & y' & l' & ini & cr & Ho' & Hr & Hcr & Hb & Hp).
  destruct (rx_open_unique _ _ _ _ _ _ _ _ _ Ho Ho') as (<- & <- & <- & <-).
  destruct (deliver_run s cid p x m y l ini cr data b Ho Hr Hcr Hb Hp) as (s1 & x1 & l1 & E & Ho1 & _ & El & _).
  exists s1. split; [done|]. exists x1, m, y, l1. split; [done|by apply frame_bytes].
Qed.

Lemma read_refines s pending n :
  (p < 30)%nat -> 0 <= n -> holds s pending ->
  exists s', PORT_ReadData (Z.of_nat p + 1) n s = Ok ((PORT_SUCCESS, take (Z.to_nat n) pending), s') /\
    holds s' (drop (Z.to_nat n) pending).
Proof.
  intros Hp Hn (x & m & y & l & Ho & <-).
  destruct (read_data_run s cid p x m y l n Ho Hp Hn) as (s1 & x1 & cq & l1 & E & Ho1 & _ & _ & El).
  exists s1. split; [done|]. by eexists _, _, _, _.
Qed.

Lemma step_refines s pending op o s' :
  (p < 30)%nat -> holds s pending -> impl_step s op o s' ->
  o = (pipe_step pending op).1 /\ holds s' (pipe_step pending op).2.
Proof.
  intros Hp Hh [b data u s1 Hf E|n rc data s1 Hn E].
  - destruct (deliver_refines s pending b data Hh Hf) as (s2 & E2 & Hh2). rewrite E in E2.
    by injection E2 as -> ->.
  - destruct (read_refines s pending n Hp Hn Hh) as (s2 & E2 & Hh2). rewrite E in E2.
    by injection E2 as -> -> ->.
Qed.

Lemma run_refines s pending ops o s' :
  (p < 30)%nat -> holds s pending -> impl_run s ops o s' ->
  o = (pipe_run pending ops).1 /\ holds s' (pipe_run pending ops).2.
Proof.
  intros Hp Hh Hr. revert pending Hh. induction Hr as [s|s op o s1 ops os s' Hs _ IH]; intros pending Hh; [done|].
  destruct (step_refines s pending op o s1 Hp Hh Hs) as [-> Hh1]. cbn [pipe_run].
  destruct (pipe_step pending op) as [o1 pend1]. cbn [fst snd] in *.
  destruct (IH pend1 Hh1) as [-> Hh']. by destruct (pipe_run pend1 ops).
Qed.

(** ** Properties *)

(** C2: the receive side of an open port refines the byte pipe. Any sequence of
    reads and of data frames that fit into the room the port has, on a port that is
    open without data callback, line error or flow control from its peer
    ([holds], [frame_for]), returns the bytes the pipe returns and leaves the
    bytes the pipe holds; and after it nothing is refused: the next frame that
    fits is taken and the next read succeeds with the bytes of the pipe. *)
Theorem receive_refines_pipe s pending ops o s' :
  (p < 30)%nat -> holds s pending -> impl_run s ops o s' ->
  let left := (pipe_run pending ops).2 in
  o = (pipe_run pending ops).1 /\ holds s' left /\
  (forall b data, frame_for s' b data ->
     exists s2, RFCOMM_BufDataInd cid b s' = Ok (tt, s2) /\ holds s2 (left ++ data)) /\
  (forall n, 0 <= n -> exists s2,
     PORT_ReadData (Z.of_nat p + 1) n s' = Ok ((PORT_SUCCESS, take (Z.to_nat n) left), s2) /\
     holds s2 (drop (Z.to_nat n) left)).
Proof.
  intros Hp Hh Hr left. destruct (run_refines s pending ops o s' Hp Hh Hr) as [Eo Hs'].
  split_and!; [done|done|intros; by apply deliver_refines|intros; by apply read_refines].
Qed.

End Pipe.
