(* ===== verification/RfcSafety.v ===== *)
(** * RfcSafety: the whole layer, event by event

    An [event] is one call into RFCOMM from outside: a function of the
    application interface, a callback from L2CAP, a timer, or the answer of the
    security manager.  [reachable] closes [RFCOMM_Init] under well-typed events;
    [orderly] leaves out those events that retry a connection after a collision
    while the handle table is stale, a defect that [RfcFindings] runs.  The
    theorems are about every orderly state: no event leaves an allocation, divides
    by zero or nests the state machines deeper than [sm_depth]; the queues and
    credits stay inside their limits; and no port is opened by an event that does
    not carry a grant of the security manager. *)

From Stdlib Require Import ZArith Lia.
From stdpp Require Import gmap.
From S2P Require Import Prelude Osi RfcDefs RfcState RfcFrames RfcFramesProps RfcUtils PortRfc.
From S2P Require Import RfcMxFsm RfcPortFsm RfcL2capIf PortApi RfcInv RfcInvBase RfcInvUtils.
From S2P Require Import RfcInvPort RfcInvFsm RfcInvMx PortData RfcInvApi.

(** ** Events *)

Inductive event : Type :=
(* the application *)
| EvCreateConnection (uuid scn : Z) (is_server : bool) (mtu : Z) (addr : RawAddress) (p_mgmt_cb sec : Z)
| EvRemoveConnection (handle : Z)
| EvRemoveServer (handle : Z)
| EvSetEventCallback (handle p_port_cb : Z)
| EvClearKeepHandleFlag (handle : Z)
| EvSetDataCOCallback (handle p_port_cb : Z)
| EvSetEventMask (handle mask : Z)
| EvCheckConnection (handle : Z)
| EvIsOpening
| EvSetState (handle : Z) (p_settings : tPORT_STATE)
| EvGetState (handle : Z)
| EvGetSecurityMask (handle : Z)
| EvFlowControl (handle : Z) (enable : bool)
| EvReadData (handle max_len : Z)
| EvWriteData (handle : Z) (p_data : list Z)
| EvWriteDataCO (handle : Z)
(* L2CAP *)
| EvConnectInd (addr : RawAddress) (cid : Z)
| EvConnectCnf (cid result : Z)
| EvConfigInd (cid : Z) (p_cfg : option tL2CAP_CFG_INFO)
| EvConfigCnf (cid : Z) (p_cfg : option tL2CAP_CFG_INFO)
| EvDisconnectInd (cid : Z)
| EvBufDataInd (cid : Z) (p_buf : BT_HDR)
| EvCongestionStatusInd (cid : Z) (is_congested : bool)
| EvL2capError (cid result : Z)
(* timers and the security manager *)
| EvMcbTimeout (m : nat)
| EvPortTimeout (p : nat)
| EvSecComplete (p : nat) (res : Z).

(** ** Collision retries *)

(** An even entry of the handle table of [m] names a port on another DLCI. *)
Definition stale_handle (m : nat) (s : rfc_cb) : bool :=
  match rfc_mcb_tab s !! m with
  | None => false
  | Some y =>
      existsb (fun j =>
        match port_handles y !! j with
        | None => false
        | Some h => (Z.of_nat j mod 2 =? 0) && nz h &&
            match port_tab s !! Z.to_nat (h - 1) with
            | None => false
            | Some x => negb (port_dlci x =? Z.of_nat j)
            end
        end) (seq 0 (length (port_handles y)))
  end.

(** A connection request of the peer is pending on [m]. *)
Definition retry_pending (m : nat) (s : rfc_cb) : bool :=
  match rfc_mcb_tab s !! m with Some y => nz (pending_lcid y) | None => false end.

Definition waits_for_cnf (m : nat) (s : rfc_cb) : bool :=
  match rfc_mcb_tab s !! m with
  | Some y => bool_decide (mcb_state y = RFC_MX_STATE_WAIT_CONN_CNF)
  | None => false
  end.

Section Events.
Context `{RfcEnv}.

Definition run_event (e : event) : M unit :=
  match e with
  | EvCreateConnection uuid scn srv mtu addr cb sec =>
      _ ← RFCOMM_CreateConnectionWithSecurity uuid scn srv mtu addr cb sec; skip
  | EvRemoveConnection h => _ ← RFCOMM_RemoveConnection h; skip
  | EvRemoveServer h => _ ← RFCOMM_RemoveServer h; skip
  | EvSetEventCallback h cb => _ ← PORT_SetEventCallback h cb; skip
  | EvClearKeepHandleFlag h => _ ← PORT_ClearKeepHandleFlag h; skip
  | EvSetDataCOCallback h cb => _ ← PORT_SetDataCOCallback h cb; skip
  | EvSetEventMask h mask => _ ← PORT_SetEventMask h mask; skip
  | EvCheckConnection h => _ ← PORT_CheckConnection h; skip
  | EvIsOpening => _ ← PORT_IsOpening; skip
  | EvSetState h st => _ ← PORT_SetState h st; skip
  | EvGetState h => _ ← PORT_GetState h; skip
  | EvGetSecurityMask h => _ ← PORT_GetSecurityMask h; skip
  | EvFlowControl h b => _ ← PORT_FlowControl_MaxCredit h b; skip
  | EvReadData h n => _ ← PORT_ReadData h n; skip
  | EvWriteData h data => _ ← PORT_WriteData h data; skip
  | EvWriteDataCO h => _ ← PORT_WriteDataCO h; skip
  | EvConnectInd addr cid => RFCOMM_ConnectInd addr cid
  | EvConnectCnf cid result => RFCOMM_ConnectCnf cid result
  | EvConfigInd cid cfg => RFCOMM_ConfigInd cid cfg
  | EvConfigCnf cid cfg => RFCOMM_ConfigCnf cid cfg
  | EvDisconnectInd cid => RFCOMM_DisconnectInd cid
  | EvBufDataInd cid b => RFCOMM_BufDataInd cid b
  | EvCongestionStatusInd cid b => RFCOMM_CongestionStatusInd cid b
  | EvL2capError cid result => rfc_on_l2cap_error cid result
  | EvMcbTimeout m => rfcomm_mcb_timer_timeout m
  | EvPortTimeout p => rfcomm_port_timer_timeout p
  | EvSecComplete p res => rfc_sec_check_complete p res
  end.

(** Arguments in the range of their C types; a packet from L2CAP lies inside its
    buffer; a timer or an access request belongs to an entry of the tables. *)
Definition event_wf (e : event) : Prop :=
  match e with
  | EvCreateConnection _ scn _ mtu _ _ _ => is_u8 scn /\ is_u16 mtu
  | EvRemoveConnection h | EvRemoveServer h | EvSetEventCallback h _ | EvClearKeepHandleFlag h
  | EvSetDataCOCallback h _ | EvSetEventMask h _ | EvCheckConnection h | EvSetState h _
  | EvGetState h | EvGetSecurityMask h | EvFlowControl h _ | EvWriteDataCO h => is_u16 h
  | EvReadData h n => is_u16 h /\ is_u16 n
  | EvWriteData h data => is_u16 h /\ Forall is_u8 data
  | EvBufDataInd _ b => bh_ok b
  | EvMcbTimeout m => (m < 16)%nat
  | EvPortTimeout p | EvSecComplete p _ => (p < 30)%nat
  | _ => True
  end.

(** The multiplexer that an event makes retry its connection as acceptor, because
    a connection request of the peer was pending when its own one failed. *)
Definition retried (e : event) (s : rfc_cb) : option nat :=
  match e with
  | EvL2capError cid result =>
      match rfc_find_lcid_mcb cid s with
      | Ok (Some m, _) => if nz (result .& L2CAP_CONN_INTERNAL_MASK) && retry_pending m s then Some m else None
      | _ => None
      end
  | EvMcbTimeout m => if waits_for_cnf m s && retry_pending m s then Some m else None
  | _ => None
  end.

(** The retry moves every even entry of the handle table one place up, together
    with the DLCI of its port; it is stale when such an entry names a port that is
    not on that DLCI. *)
Definition stale_retry (e : event) (s : rfc_cb) : bool :=
  match retried e s with Some m => stale_handle m s | None => false end.

(** The states that well-typed events lead to from the start. *)
Inductive reachable : rfc_cb -> Prop :=
| reach_init : reachable RFCOMM_Init
| reach_step s e u s' :
    reachable s -> event_wf e -> run_event e s = Ok (u, s') -> reachable s'.

(** Those they lead to without a stale retry on the way. *)
Inductive orderly : rfc_cb -> Prop :=
| orderly_init : orderly RFCOMM_Init
| orderly_step s e u s' :
    orderly s -> event_wf e -> stale_retry e s = false -> run_event e s = Ok (u, s') -> orderly s'.

(** The security manager grants access in this event. *)
Definition grant_event (e : event) : Prop :=
  match e with EvSecComplete _ res => u8 res = 0 | _ => False end.

(** The byte source of the application returns bytes and sizes. *)
Definition env_wf : Prop :=
  (forall l n bs, env_data_co_bytes l n = Some bs -> Forall is_u8 bs) /\
  (forall l n, env_data_co_size l = Some n -> 0 <= n).

(** The security manager never grants access before it returns. *)
Definition no_sync_grant : Prop := forall l r, env_sec_sync l = Some r -> u8 r <> 0.

End Events.

(** Every port may have passed its access check. *)
Definition any_auth : icfg := mk_icfg T 255.

(** The ports that have passed it in [s]. *)
Definition auth_in (s : rfc_cb) (p : nat) : Prop :=
  exists x, port_tab s !! p = Some x /\ auth_state (rfc_state (rfc x)).

(** * Lemmas *)

Section Safety.
Context `{RfcEnv}.

Lemma pres_plain_event c e :
  EnvOk c -> dmax c = 255 -> event_wf e -> (grant_event e -> grants c) ->
  match e with EvL2capError _ _ | EvMcbTimeout _ => False | _ => True end ->
  pres c (run_event e) T.
Proof.
  intros Henv Hd Hwf Hg Hpl.
  assert (Hh : forall h, is_u16 h -> 0 <= h) by (unfold is_u16; lia).
  destruct e; cbn [run_event event_wf] in *; try done;
    lazymatch goal with
    | |- pres _ (_ ≫= _) _ => eapply pres_bind; [|intros ? _; apply pres_skip]
    | _ => idtac
    end.
  - apply (pres_RFCOMM_CreateConnectionWithSecurity c); apply Hwf.
  - apply (pres_RFCOMM_RemoveConnection c); auto.
  - apply (pres_RFCOMM_RemoveServer c); auto.
  - apply (pres_on_open_port c); auto.
  - apply (pres_PORT_ClearKeepHandleFlag c); auto.
  - apply (pres_on_open_port c); auto.
  - apply (pres_on_open_port c); auto.
  - apply (pres_PORT_CheckConnection c); auto.
  - apply (pres_PORT_SetState c); auto.
  - apply (pres_PORT_GetState c); auto.
  - apply (pres_PORT_GetSecurityMask c); auto.
  - apply (pres_PORT_FlowControl_MaxCredit c); auto.
  - apply (pres_PORT_ReadData c); [apply Hh, Hwf|apply Hh, Hwf].
  - apply (pres_PORT_WriteData c); [apply Hh, Hwf|apply Hwf].
  - apply (pres_PORT_WriteDataCO c); auto.
  - by apply (pres_RFCOMM_ConnectInd c).
  - by apply (pres_RFCOMM_ConnectCnf c).
  - by apply (pres_RFCOMM_ConfigInd c).
  - by apply (pres_RFCOMM_ConfigCnf c).
  - by apply (pres_RFCOMM_DisconnectInd c).
  - by apply (pres_RFCOMM_BufDataInd c).
  - by apply (pres_RFCOMM_CongestionStatusInd c).
  - apply (pres_call_port_sm c 3). intros ? [= <-]. by split.
  - apply (pres_rfc_sec_check_complete c 3); [done|lia|done].
Qed.

Lemma stale_handle_dir m s : stale_handle m s = false -> dir_safe m s.
Proof.
  unfold stale_handle. intros Hs y j h x Hy _ Hj Hh Hne Hx. rewrite Hy in Hs.
  apply Z.eqb_eq, negb_false_iff. rewrite <-Hs. symmetry.
  destruct (port_dlci x =? Z.of_nat j) eqn:E; [by rewrite Hs|].
  apply existsb_exists. exists j. split.
  - apply in_seq. apply lookup_lt_Some in Hh. lia.
  - rewrite Hh, Hx, E, (proj2 (nz_true h) Hne), Hj. done.
Qed.

Lemma retry_error_safe cid result s : stale_retry (EvL2capError cid result) s = false -> error_safe cid result s.
Proof.
  intros Hs m Hf Hr y Hy Hp. apply stale_handle_dir. unfold stale_retry, retried, retry_pending in Hs.
  by rewrite Hf, Hr, Hy, (proj2 (nz_true _) Hp) in Hs.
Qed.

Lemma retry_timeout_safe m s : stale_retry (EvMcbTimeout m) s = false -> timeout_safe m s.
Proof.
  intros Hs y Hy Hst Hp. apply stale_handle_dir. unfold stale_retry, retried, waits_for_cnf, retry_pending in Hs.
  by rewrite Hy, (bool_decide_eq_true_2 _ Hst), (proj2 (nz_true _) Hp) in Hs.
Qed.

Lemma pres_run_event c e :
  EnvOk c -> dmax c = 255 -> event_wf e -> (grant_event e -> grants c) ->
  pres_if c (fun s => stale_retry e s = false) (run_event e) T.
Proof.
  intros Henv Hd Hwf Hg. destruct e; try (apply pres_pres_if; by apply pres_plain_event).
  - apply pres_if_mono with (error_safe cid result); [apply retry_error_safe|].
    cbn [run_event]. apply (pres_rfc_on_l2cap_error c).
  - apply pres_if_mono with (timeout_safe m); [apply retry_timeout_safe|].
    apply (@pres_rfc_mx_sm_timeout _ (sm_execute 2) c 2 (sm_execute_ok c 2 Henv)); [done|lia].
Qed.

Lemma inv_init c : 0 <= dmax c -> inv c RFCOMM_Init.
Proof.
  intros Hd. split; try done.
  - intros p x Hx. apply lookup_replicate in Hx as [-> _]. apply zero_port_ok.
  - apply Forall_replicate, zero_mcb_ok.
  - unfold frame_ok. cbn. split_and!; try done. repeat constructor; unfold is_u8; lia.
Qed.

Lemma any_auth_env : env_wf -> EnvOk any_auth.
Proof. intros [H1 H2]. by split. Qed.

Lemma orderly_inv s : env_wf -> orderly s -> inv any_auth s.
Proof.
  intros Hw Hr. pose proof (any_auth_env Hw) as Henv.
  induction Hr as [|s e u s' Hr IH Hwf Hc E]; [by apply inv_init|].
  pose proof (pres_run_event any_auth e Henv eq_refl Hwf ltac:(done) s IH Hc) as Hp.
  rewrite E in Hp. apply Hp.
Qed.

(** The invariant relative to the ports authorised now. *)
Lemma inv_auth_in s : inv any_auth s -> inv (mk_icfg (auth_in s) 255) s.
Proof.
  intros [H1 H2 H3 H4 H5 H6 H7]. split; try done. intros p x Hx.
  destruct (H3 p x Hx) as (?&?&?&?&?&?&?&?&?&?). unfold port_ok. split_and!; try done; try tauto; try lia.
  intros Ha. by exists x.
Qed.

(** ** Properties *)

(** C1: every sequence of well-typed events, up to a collision retry that finds
    a stale handle ([stale_retry], which [RfcFindings.retry_overruns_handles] shows
    to be possible and harmful), keeps the layer memory safe: each event either
    completes in a well-formed state or stops the process at a null pointer or a
    failed [CHECK]; it never reads or writes outside an allocation or a table,
    never divides by zero, and never nests the two state machines deeper than
    [sm_depth]. *)
Theorem rfc_memory_safe s e :
  env_wf -> orderly s -> event_wf e -> stale_retry e s = false ->
  match run_event e s with
  | Ok (_, s') => inv any_auth s'
  | Crash x => x = NullDeref \/ x = CheckFailed
  end.
Proof.
  intros Hw Hr Hwf Hc.
  pose proof (pres_run_event any_auth e (any_auth_env Hw) eq_refl Hwf ltac:(done) s
                (orderly_inv s Hw Hr) Hc) as Hp.
  destruct (run_event e s) as [[u s']|x]; [apply Hp|exact Hp].
Qed.

(** C3: access control. After any sequence of events without a stale collision
    retry, an event that carries no grant of the security manager opens no port:
    the ports that wait for a UA, are open or are closing after it were in such a
    state before. *)
Theorem no_open_without_grant s e u s' :
  env_wf -> no_sync_grant -> orderly s -> event_wf e -> stale_retry e s = false -> ~ grant_event e ->
  run_event e s = Ok (u, s') -> forall p, auth_in s' p -> auth_in s p.
Proof.
  intros [Hb Hn] Hg Hr Hwf Hc Hng E p (x & Hx & Ha).
  set (c := mk_icfg (auth_in s) 255).
  assert (Henv : EnvOk c). { split; [|done|done]. intros l r E1 E2. by destruct (Hg l r E1). }
  pose proof (pres_run_event c e Henv eq_refl Hwf ltac:(done) s) as Hp. rewrite E in Hp.
  destruct Hp as [Hs' _]; [|done|].
  - apply inv_auth_in, orderly_inv; [by split|done].
  - by destruct (inv_port _ _ Hs' p x Hx) as (_ & _ & _ & _ & _ & Hauth & _); apply Hauth.
Qed.

(** C31: the memory a port holds is bounded, after every sequence of events
    without a stale collision retry: at most 15 packets and 25080 bytes
    wait to be read, at most 16 buffers wait to be sent, each small enough for
    its headers and its checksum, and the byte counters agree with the queues. *)
Theorem queues_bounded s p x :
  env_wf -> orderly s -> port_tab s !! p = Some x ->
  (forall l, pd_queue (rx x) = Some l ->
     (length l <= 15)%nat /\ queue_size (rx x) = sum_len l /\ sum_len l <= PORT_RX_CRITICAL_WM) /\
  (forall l, pd_queue (tx x) = Some l ->
     (length l <= 16)%nat /\ queue_size (tx x) = sum_len l /\
     Forall (fun b => bh_len b <= max_buf_data) l).
Proof.
  intros Hw Hr Hx. pose proof (inv_port _ _ (orderly_inv s Hw Hr) p x Hx) as (_ & _ & Ht & Hrx & _).
  split; intros l E; rewrite E in *.
  - destruct Hrx as (_ & ? & Hsz & ?). rewrite Hsz in *. done.
  - destruct Ht as (Hf & ? & ?). split_and!; [done|done|].
    eapply list.Forall_impl; [exact Hf|]. by intros b (_ & [_ Hb] & _).
Qed.

(** C32: identifiers and counters stay in range as long as no collision retry
    finds a stale handle: a port is on a DLCI of 0..61, its
    handle is its place in the table plus one, the credits it owes its peer are
    at most the receive high-water mark, its MTUs and send credits are 16-bit,
    its multiplexer is in the table, and so is every handle a multiplexer holds. *)
Theorem identifiers_in_range s :
  env_wf -> orderly s ->
  (forall p x, port_tab s !! p = Some x ->
     0 <= port_dlci x <= RFCOMM_MAX_DLCI /\ (port_handle x = 0 \/ port_handle x = Z.of_nat p + 1) /\
     0 <= credit_rx x <= PORT_RX_BUF_HIGH_WM /\ is_u16 (credit_tx x) /\
     is_u16 (port_mtu x) /\ is_u16 (peer_mtu x) /\
     (forall m, p_mcb (rfc x) = Some m -> is_Some (rfc_mcb_tab s !! m))) /\
  (forall m y h, rfc_mcb_tab s !! m = Some y -> h ∈ port_handles y ->
     h <> 0 -> is_Some (port_tab s !! Z.to_nat (h - 1))).
Proof.
  intros Hw Hr. pose proof (orderly_inv s Hw Hr) as Hs. split.
  - intros p x Hx. pose proof (inv_port _ _ Hs p x Hx) as (? & ? & _ & _ & Hm & _ & (? & ? & _ & ?) & ? & _).
    split_and!; try done; try lia.
    intros m E. rewrite E in Hm. apply lookup_lt_is_Some_2. by rewrite (inv_nmcbs _ _ Hs).
  - intros m y h Hy Hh Hne. pose proof (Forall_lookup_1 _ _ _ _ (inv_mcb _ _ Hs) Hy) as (_ & Hf & _).
    rewrite List.Forall_forall in Hf. apply list_elem_of_In in Hh. apply Hf in Hh.
    apply lookup_lt_is_Some_2. rewrite (inv_nports _ _ Hs). lia.
Qed.

End Safety.
