(* ===== verification/RfcRuns.v ===== *)
(** * RfcRuns: complete sessions, run

    Two instances of the stack joined by an L2CAP link: the packets one sends are
    delivered to the other, and access requests are granted.  The runs give
    concrete reachable states. *)

From Stdlib Require Import ZArith Lia.
From stdpp Require Import gmap.
From S2P Require Import Prelude Osi RfcDefs RfcState RfcFrames RfcFramesProps RfcUtils PortRfc.
From S2P Require Import RfcMxFsm RfcPortFsm RfcL2capIf PortApi RfcInv RfcInvBase RfcInvUtils.
From S2P Require Import RfcInvPort RfcInvFsm RfcInvMx PortData RfcInvApi RfcSafety.

(** ** Surroundings *)

(** Connections get channel 0x40, packets are of up to 1021 bytes, access
    requests are answered later, and there is no application callout. *)
Definition plain_env : RfcEnv := {|
  env_l2ca_connect_req := fun _ => 0x40;
  env_max_packet_size := fun _ => 1021;
  env_boottime_ms := fun _ => 0;
  env_sec_sync := fun _ => None;
  env_data_co_incoming := fun _ => true;
  env_data_co_size := fun _ => None;
  env_data_co_bytes := fun _ _ => None;
  env_test_ptr := fun _ => 0;
|}.

#[local] Existing Instance plain_env.

(** A packet as L2CAP delivers it. *)
Definition rx_packet (bytes : list Z) : BT_HDR :=
  mkBT_HDR 0 (Z.of_nat (length bytes)) 0 0 bytes.

(** ** Running events *)

Fixpoint run_events (l : list event) (s : rfc_cb) : outcome rfc_cb :=
  match l with
  | [] => Ok s
  | e :: l => match run_event e s with Ok (_, s') => run_events l s' | Crash c => Crash c end
  end.

Definition is_u8b (x : Z) : bool := (0 <=? x) && (x <? 256).
Definition is_u16b (x : Z) : bool := (0 <=? x) && (x <? 65536).

Definition bh_okb (b : BT_HDR) : bool :=
  (0 <=? bh_offset b) && (0 <=? bh_len b) &&
  (bh_offset b + bh_len b <=? Z.of_nat (length (bh_data b))) &&
  (bh_offset b + bh_len b <? 65536) && forallb is_u8b (bh_data b).

Definition event_wfb (e : event) : bool :=
  match e with
  | EvCreateConnection _ scn _ mtu _ _ _ => is_u8b scn && is_u16b mtu
  | EvRemoveConnection h | EvRemoveServer h | EvSetEventCallback h _ | EvClearKeepHandleFlag h
  | EvSetDataCOCallback h _ | EvSetEventMask h _ | EvCheckConnection h | EvSetState h _
  | EvGetState h | EvGetSecurityMask h | EvFlowControl h _ | EvWriteDataCO h => is_u16b h
  | EvReadData h n => is_u16b h && is_u16b n
  | EvWriteData h data => is_u16b h && forallb is_u8b data
  | EvBufDataInd _ b => bh_okb b
  | EvMcbTimeout m => Nat.ltb m 16
  | EvPortTimeout p | EvSecComplete p _ => Nat.ltb p 30
  | _ => true
  end.

(** Well-typed, and not one of the events that may retry a connection. *)
Definition plain_eventb (e : event) : bool :=
  event_wfb e && match e with EvMcbTimeout _ | EvL2capError _ _ => false | _ => true end.

(** One end of the link: its state, how many of its outputs were handled, and the
    events it has processed, newest first. *)
Record side : Type := mk_side { side_cb : rfc_cb; side_seen : nat; side_log : list event }.

Definition side_init : side := mk_side RFCOMM_Init 0 [].

Definition side_run (l : list event) (x : side) : outcome side :=
  s ← run_events l (side_cb x);
  mret (mk_side s (side_seen x) (rev l ++ side_log x)).

(** What an output makes happen at the same end, and at the other one. *)
Definition self_event (o : output) : list event :=
  match o with btm_sec_mx_access_request _ _ _ p => [EvSecComplete p 0] | _ => [] end.

Definition peer_event (cid : Z) (o : output) : list event :=
  match o with L2CA_DataWrite _ b => [EvBufDataInd cid (rx_packet (bh_payload b))] | _ => [] end.

(** Handles the outputs of the two ends in turn, [n] times. *)
Fixpoint exchange (n : nat) (cx cy : Z) (x y : side) : outcome (side * side) :=
  match n with
  | O => Ok (x, y)
  | S n =>
      let new := rev (take (length (out (side_cb x)) - side_seen x) (out (side_cb x))) in
      let x := mk_side (side_cb x) (length (out (side_cb x))) (side_log x) in
      x ← side_run (concat (map self_event new)) x;
      y ← side_run (concat (map (peer_event cy) new)) y;
      r ← exchange n cy cx y x;
      mret (r.2, r.1)
  end.

(** ** A session *)

Definition addr_a : RawAddress := 0xA.
Definition addr_b : RawAddress := 0xB.
Definition cid_a : Z := 0x40.
Definition cid_b : Z := 0x50.

Definition link_cfg : option tL2CAP_CFG_INFO := Some (mkCFG_INFO true 1691).

(** The client at [a] connects to server channel [scn] of [b]; [n] rounds. *)
Definition connect_for (n : nat) (scn : Z) : outcome (side * side) :=
  b ← side_run [EvCreateConnection 0x1101 scn true 990 RawAddress_kAny 1 0] side_init;
  a ← side_run [EvCreateConnection 0x1101 scn false 990 addr_b 1 0] side_init;
  b ← side_run [EvConnectInd addr_a cid_b] b;
  a ← side_run [EvConnectCnf cid_a 0; EvConfigCnf cid_a link_cfg] a;
  b ← side_run [EvConfigCnf cid_b link_cfg] b;
  exchange n cid_a cid_b a b.

(** Until nothing is left to deliver. *)
Definition connect (scn : Z) : outcome (side * side) := connect_for 24 scn.

(** The two ends of the session on channel 1, once the exchange is over. *)
Definition opened : side * side :=
  match connect 1 with Ok r => r | Crash _ => (side_init, side_init) end.

Definition opened_a : rfc_cb := side_cb opened.1.
Definition opened_b : rfc_cb := side_cb opened.2.

(** The port a run left at index [p]. *)
Definition port_at (s : rfc_cb) (p : nat) : tPORT := default zero_PORT (port_tab s !! p).
Definition mcb_at (s : rfc_cb) (m : nat) : tRFC_MCB := default zero_RFC_MCB (rfc_mcb_tab s !! m).

(** Both ends have the channel open, on the client's DLCI, with credits. *)
Definition session_open (scn : Z) (a b : rfc_cb) : bool :=
  let ok s := match port_tab s !! 1%nat, rfc_mcb_tab s !! 0%nat with
    | Some x, Some y =>
        bool_decide (rfc_state (rfc x) = RFC_STATE_OPENED) &&
        bool_decide (mcb_state y = RFC_MX_STATE_CONNECTED) &&
        bool_decide (mcb_flow y = PORT_FC_CREDIT) && bool_decide (p_mcb (rfc x) = Some 0%nat) &&
        (port_dlci x =? 2 * scn) && bool_decide (port_handles y !! Z.to_nat (2 * scn) = Some 2) &&
        (0 <? credit_tx x) && ctrl_exchanged x && negb (peer_fc (tx x))
    | _, _ => false
    end in ok a && ok b.

(** * Lemmas *)

Lemma is_u8b_spec x : is_u8b x = true -> is_u8 x.
Proof. unfold is_u8b, is_u8. lia. Qed.

Lemma is_u16b_spec x : is_u16b x = true -> is_u16 x.
Proof. unfold is_u16b, is_u16. lia. Qed.

Lemma bytesb_spec l : forallb is_u8b l = true -> Forall is_u8 l.
Proof.
  induction l as [|x l IH]; cbn; [constructor|]. intros [H1 H2]%andb_true_iff.
  constructor; [by apply is_u8b_spec|auto].
Qed.

Lemma bh_okb_spec b : bh_okb b = true -> bh_ok b.
Proof.
  unfold bh_okb, bh_ok. rewrite !andb_true_iff. intros [[[[H1 H2] H3] H4] H5].
  split_and!; try lia. by apply bytesb_spec.
Qed.

Lemma event_wfb_spec e : event_wfb e = true -> event_wf e.
Proof.
  intros Hp. destruct e; cbn in *; rewrite ?andb_true_iff in Hp; try done;
    repeat match goal with H : _ /\ _ |- _ => destruct H end;
    split_and?; auto using is_u8b_spec, is_u16b_spec, bytesb_spec, bh_okb_spec;
    by apply Nat.ltb_lt.
Qed.

Lemma run_events_reachable l s s' :
  reachable s -> forallb event_wfb l = true -> run_events l s = Ok s' -> reachable s'.
Proof.
  revert s. induction l as [|e l IH]; cbn [forallb run_events]; intros s Hr Hp E; [by simplify_eq|].
  apply andb_true_iff in Hp as [He Hl].
  destruct (run_event e s) as [[u s1]|] eqn:E1; [|done]. apply (IH s1); [|done|done].
  apply (reach_step s e u s1); auto using event_wfb_spec.
Qed.

Lemma run_events_orderly l s s' :
  orderly s -> forallb plain_eventb l = true -> run_events l s = Ok s' -> orderly s'.
Proof.
  revert s. induction l as [|e l IH]; cbn [forallb run_events]; intros s Hr Hp E; [by simplify_eq|].
  apply andb_true_iff in Hp as [[He Hn]%andb_true_iff Hl].
  destruct (run_event e s) as [[u s1]|] eqn:E1; [|done]. apply (IH s1); [|done|done].
  apply (orderly_step s e u s1); auto using event_wfb_spec. by destruct e.
Qed.

Lemma orderly_reachable s : orderly s -> reachable s.
Proof. induction 1 as [|s e u s' _ IH Hw _ E]; [apply reach_init|by apply (reach_step s e u s')]. Qed.

Lemma plain_env_wf : env_wf.
Proof. by split. Qed.

Lemma opened_a_orderly : orderly opened_a.
Proof.
  apply (run_events_orderly (rev (side_log opened.1)) RFCOMM_Init); [apply orderly_init|by vm_compute..].
Qed.

Lemma opened_b_orderly : orderly opened_b.
Proof.
  apply (run_events_orderly (rev (side_log opened.2)) RFCOMM_Init); [apply orderly_init|by vm_compute..].
Qed.

(** The session the runs start from is open at both ends. *)
Lemma opened_open : session_open 1 opened_a opened_b = true.
Proof. by vm_compute. Qed.
