(* ===== verification/RfcFindings.v ===== *)
(** * RfcFindings: behaviour the code does not intend

    Concrete runs, from reachable states, of four defects: a peer stops the
    process with two multiplexer commands, a peer makes a connection retry write
    past the handle table, data written during set-up is overtaken by later data,
    and the last DLCI does not keep its multiplexer up. *)

From Stdlib Require Import ZArith Lia.
From stdpp Require Import gmap.
From S2P Require Import Prelude RfcFcs Osi RfcDefs RfcState RfcFrames RfcFramesProps RfcUtils.
From S2P Require Import PortRfc RfcMxFsm RfcPortFsm RfcL2capIf PortApi RfcRun RfcInv RfcSafety.
From S2P Require Import RfcRuns.

#[local] Existing Instance plain_env.

(** A message on DLCI 0, and a command there as the initiator of the multiplexer
    and as its responder sends it. *)
Definition mx_packet (address : Z) (msg : list Z) : BT_HDR :=
  rx_packet (address :: 0xEF :: (2 * Z.of_nat (length msg) + 1) :: msg ++ [rfc_calc_fcs [address; 0xEF]]).

Definition mx_command : list Z -> BT_HDR := mx_packet 0x03.
Definition mx_command_back : list Z -> BT_HDR := mx_packet 0x01.

(** The responder's UA for a DLCI. *)
Definition ua_back (dlci : Z) : BT_HDR :=
  let a := 4 * dlci + 3 in rx_packet [a; 0x73; 0x01; rfc_calc_fcs [a; 0x73; 0x01]].

(** A second server listens on channel 2; the peer negotiates the parameters of
    its DLCI 4 without having opened it. *)
Definition second_server : list event :=
  [EvCreateConnection 0x1101 2 true 990 RawAddress_kAny 1 0;
   EvBufDataInd cid_b (mx_command [0x93; 0x11; 0x13; 0x03; 0x03; 0x00; 0x00; 0x00; 0x00; 0x00])].

(** Modem status for DLCI 4. *)
Definition modem_status : event := EvBufDataInd cid_b (mx_command [0xE3; 0x05; 0x13; 0x8D]).

(** The client, which also serves channel 30, closes its connection and opens it
    again.  In between, the peer negotiates the port settings of DLCI 60 and of
    DLCI 61: both entries of the handle table then name the server's port.  The
    peer also opens a connection itself, so that the client's one collides. *)
Definition cid_back : Z := 0x51.

Definition stale_handles : list event :=
  [EvCreateConnection 0x1101 30 true 990 RawAddress_kAny 1 0;
   EvRemoveConnection 2;
   EvBufDataInd cid_a (ua_back 2);
   EvBufDataInd cid_a (mx_command_back [0x93; 0x11; 0xF3; 0x03; 0x03; 0x00; 0x00; 0x00; 0x00; 0x00]);
   EvBufDataInd cid_a (mx_command_back [0x93; 0x11; 0xF7; 0x03; 0x03; 0x00; 0x00; 0x00; 0x00; 0x00]);
   EvCreateConnection 0x1101 1 false 990 addr_b 1 0;
   EvBufDataInd cid_a (ua_back 0);
   EvConnectInd addr_b cid_back].

(** The client's connection fails and it retries as acceptor; the peer negotiates
    DLCI 61 on the connection it opened. *)
Definition retry : event := EvL2capError cid_a 0xF001.
Definition negotiate_61 : event :=
  EvBufDataInd cid_back (mx_command [0x83; 0x11; 0x3D; 0xF0; 0x00; 0x00; 0xDE; 0x03; 0x00; 0x07]).

(** The retry is stale, leaves the port on DLCI 62, and the end of the connection
    leaves the table. *)
Definition overruns (s : rfc_cb) : bool :=
  match run_events [retry; negotiate_61] s with
  | Ok s' => stale_retry retry s && (port_dlci (port_at s' 2) =? 62)
             && match run_event (EvDisconnectInd cid_back) s' with Crash OutOfBounds => true | _ => false end
  | Crash _ => false
  end.

(** The client once its DLC is open: the modem signals of the server have not
    arrived yet, nor the answer to its own. *)
Definition just_open : rfc_cb :=
  match connect_for 10 1 with Ok (a, _) => side_cb a | Crash _ => RFCOMM_Init end.

(** The application writes, the modem signals of the server arrive, and the
    application writes again. *)
Definition first_write : list Z := replicate 990 1.
Definition second_write : list Z := replicate 990 2.

Definition two_writes : list event :=
  [EvWriteData 2 first_write;
   EvBufDataInd cid_a (rx_packet [0x01; 0xEF; 0x09; 0xE3; 0x05; 0x0B; 0x8D; rfc_calc_fcs [0x01; 0xEF]]);
   EvWriteData 2 second_write;
   EvBufDataInd cid_a (rx_packet [0x01; 0xEF; 0x09; 0xE1; 0x05; 0x0B; 0x8D; rfc_calc_fcs [0x01; 0xEF]])].

(** The data of the UIH frames sent on DLCI 2, oldest first: what follows the
    address, the control octet and the two octets of length, without the FCS. *)
Definition data_sent (s : rfc_cb) : list Z :=
  concat (map (fun o => match o with
    | L2CA_DataWrite _ b =>
        match bh_payload b with
        | a :: 0xEF :: _ :: _ :: rest => if a .>> 2 =? 2 then removelast rest else []
        | _ => []
        end
    | _ => []
    end) (rev (out s))).

(** * Lemmas *)

Lemma just_open_reachable : reachable just_open.
Proof.
  apply (run_events_reachable (match connect_for 10 1 with Ok (a, _) => rev (side_log a) | Crash _ => [] end)
    RFCOMM_Init); [apply reach_init|by vm_compute..].
Qed.

(** What a function gives of the result of a run, from running both. *)
Lemma run_then {A B} (o : outcome A) (f : A -> B) a b :
  o = Ok a -> match o with Ok x => Ok (f x) | Crash c => Crash c end = Ok b -> f a = b.
Proof. intros -> E. by injection E. Qed.

(** ** Properties *)

(** a peer that negotiates the parameters of a DLCI it never opened, on which
    a server listens, and then sends modem status for it, makes
    [rfc_process_msc] follow the null [p_mcb] of the listening port. *)
Theorem msc_on_unopened_dlci :
  exists s, run_events second_server opened_b = Ok s /\ reachable s /\
    run_event modem_status s = Crash NullDeref.
Proof.
  destruct (run_events second_server opened_b) as [s|] eqn:E; [|by vm_compute in E].
  exists s. split; [reflexivity|]. split.
  - apply (run_events_reachable second_server opened_b); [apply orderly_reachable, opened_b_orderly|by vm_compute|exact E].
  - apply (run_then _ (run_event modem_status) _ _ E). by vm_compute.
Qed.

(** a peer makes the retry after a collision move a port to DLCI 62, beyond the
    handle table: when the connection ends, closing the port writes
    [port_handles[62]], one past the end of the array.  The retry is the one event
    of the run that [stale_retry] marks. *)
Theorem retry_overruns_handles :
  exists s s', run_events stale_handles opened_a = Ok s /\ orderly s /\ stale_retry retry s = true /\
    run_events [retry; negotiate_61] s = Ok s' /\ reachable s' /\
    port_dlci (port_at s' 2) = 62 /\ run_event (EvDisconnectInd cid_back) s' = Crash OutOfBounds.
Proof.
  destruct (run_events stale_handles opened_a) as [s|] eqn:E; [|by vm_compute in E].
  assert (Hs : orderly s)
    by (apply (run_events_orderly stale_handles opened_a); [apply opened_a_orderly|by vm_compute|exact E]).
  assert (Hc : overruns s = true) by (apply (run_then _ overruns _ _ E); by vm_compute).
  unfold overruns in Hc.
  destruct (run_events [retry; negotiate_61] s) as [s'|] eqn:E2; [|discriminate].
  apply andb_true_iff in Hc as [[H1 H2]%andb_true_iff H3]. exists s, s'.
  split; [reflexivity|]. split; [exact Hs|]. split; [exact H1|]. split; [exact E2|]. split; [|split].
  - apply (run_events_reachable [retry; negotiate_61] s); [by apply orderly_reachable|by vm_compute|exact E2].
  - by apply Z.eqb_eq.
  - destruct (run_event (EvDisconnectInd cid_back) s') as [r|x]; [discriminate H3|].
    destruct x; (discriminate H3 || reflexivity).
Qed.

(** data written after the DLC is open but before the modem signals are
    confirmed is overtaken: the second of two writes, made between the arrival of
    the peer's signals and of its confirmation, is sent first. *)
Theorem early_write_overtaken :
  reachable just_open /\ exists s, run_events two_writes just_open = Ok s /\
    data_sent s = data_sent just_open ++ second_write ++ first_write.
Proof.
  split; [apply just_open_reachable|].
  destruct (run_events two_writes just_open) as [s|] eqn:E; [|by vm_compute in E].
  exists s. split; [reflexivity|]. apply (run_then _ data_sent _ _ E). by vm_compute.
Qed.

(** a port on DLCI 61 does not keep its multiplexer up: with no port on a lower
    DLCI, [rfc_check_mcb_active] starts the release timer, or closes the
    multiplexer, although the port is there. *)
Theorem dlci_61_not_counted s m y h :
  rfc_mcb_tab s !! m = Some y -> port_handles y = <[61%nat := h]> (replicate 62 0) ->
  is_disc_initiator y = false -> is_Some (mcb_timer y) ->
  rfc_check_mcb_active m s =
    Ok (tt, put_mcb m (y <| mcb_timer := Some (Some (RFC_MCB_RELEASE_INACT_TIMER * 1000)) |>) s).
Proof.
  intros Hy Hh Hd [t Ht]. unfold rfc_check_mcb_active. rewrite (run_get_mcb m y) by done.
  replace (mcb_has_port y) with false by (unfold mcb_has_port; by rewrite Hh).
  rewrite Hd. unfold rfc_timer_start. rewrite (run_get_mcb m y), Ht by done. cbn.
  unfold mbind, M_bind, lift. cbn. unfold upd_mcb. by rewrite Hy.
Qed.
