(* ===== verification/RfcWitness.v ===== *)
(** * RfcWitness: the theorems at concrete states

    Each theorem with hypotheses is applied to a state of the session that
    [RfcRuns] opens, where its hypotheses are computed to hold. *)

From Stdlib Require Import ZArith Lia.
From stdpp Require Import gmap.
From S2P Require Import Prelude RfcFcs Osi RfcDefs RfcState RfcRun RfcFrames RfcFramesProps.
From S2P Require Import RfcUtils PortRfc RfcMxFsm RfcPortFsm RfcL2capIf PortApi RfcInv RfcInvBase.
From S2P Require Import RfcMxMsgs RfcTables RfcReject PortData PortWrite PortRead PortDeliver.
From S2P Require Import PortStream RfcSafety RfcRuns RfcFindings.

#[local] Existing Instance plain_env.

(** The ports and multiplexers of the open session. *)
Definition port_a : tPORT := port_at opened_a 1.
Definition mcb_a : tRFC_MCB := mcb_at opened_a 0.
Definition port_b : tPORT := port_at opened_b 1.
Definition mcb_b : tRFC_MCB := mcb_at opened_b 0.

(** A data frame with two bytes and no credits, from the client to the server. *)
Definition hello : BT_HDR := rx_packet [104; 105].
Definition hello_header : list Z := uih_header true 2 0 2.
Definition hello_frame : BT_HDR :=
  rx_packet (hello_header ++ [104; 105] ++ [rfc_calc_fcs (take 2 hello_header)]).

(** The session at [b] with a buffer of three bytes queued at [a] although it may send. *)
Definition queued_buf : BT_HDR :=
  match data_buf 2 [1; 2; 3] with Ok b => b | Crash _ => hello end.
Definition queued_a : rfc_cb :=
  put_port 1 (port_a <| tx ::= fun d => d <| pd_queue := Some [queued_buf] |> <| queue_size := 3 |> |>) opened_a.

(** The server asked the security manager about a channel, which refuses. *)
Definition asking_b : rfc_cb :=
  match connect_for 7 1 with Ok (_, b) => side_cb b | Crash _ => RFCOMM_Init end.
Definition refusal : event := EvSecComplete 1 5.

(** Modem signals of a control message. *)
Definition some_ctrl : tPORT_CTRL := local_ctrl port_a.

(** A control frame whose check sequence is off by one bit. *)
Definition corrupt : BT_HDR := rx_packet [0x03; 0x3F; 0x01; Z.lxor (rfc_calc_fcs [0x03; 0x3F; 0x01]) 1].

(** A state whose only port is on DLCI 61. *)
Definition only_61 : rfc_cb :=
  put_mcb 0 (mcb_b <| port_handles := <[61%nat := 2]> (replicate 62 0) |>) opened_b.

(** * Lemmas *)

Lemma asking_b_orderly : orderly asking_b.
Proof.
  apply (run_events_orderly (match connect_for 7 1 with Ok (_, b) => rev (side_log b) | Crash _ => [] end)
    RFCOMM_Init); [apply orderly_init|by vm_compute..].
Qed.

Lemma linked_a : linked opened_a 1 port_a 0 mcb_a.
Proof. split; by vm_compute. Qed.

Lemma linked_b : linked opened_b 1 port_b 0 mcb_b.
Proof. split; by vm_compute. Qed.

Lemma rx_open_b : rx_open opened_b cid_b 1 port_b 0 mcb_b [].
Proof.
  split; [apply linked_b|by exists []|..|apply List.Forall_nil|by vm_compute|by vm_compute]; by vm_compute.
Qed.

Lemma hello_frame_for : frame_for cid_b 1 opened_b hello_frame [104; 105].
Proof.
  exists port_b, 0%nat, mcb_b, [], true, 0. split_and!; [apply rx_open_b|..].
  - split; by vm_compute.
  - split; by vm_compute.
  - apply bh_okb_spec. by vm_compute.
  - by vm_compute.
Qed.

Lemma writable_a : writable opened_a 1 port_a 0 mcb_a [].
Proof.
  split; [apply linked_a|..|apply List.Forall_nil|cbn; lia|by vm_compute|by vm_compute]; (by vm_compute) || (by left).
Qed.

Lemma ready_a :
  ready_to_send queued_a 1 (port_at queued_a 1) 0 mcb_a [queued_buf].
Proof.
  split; [split|..|cbn; lia|]; try (by vm_compute).
  constructor; [|constructor]. split; [|by vm_compute]. split_and!; try (by vm_compute).
  apply bytesb_spec. by vm_compute.
Qed.

(** * The theorems applied *)

Lemma rfc_memory_safe_witness :
  match run_event (EvBufDataInd cid_b hello_frame) opened_b with
  | Ok (_, s') => inv any_auth s'
  | Crash x => x = NullDeref \/ x = CheckFailed
  end.
Proof.
  apply (rfc_memory_safe opened_b (EvBufDataInd cid_b hello_frame));
    [apply plain_env_wf|apply opened_b_orderly|apply bh_okb_spec; by vm_compute|reflexivity].
Defined.

Lemma no_open_without_grant_witness :
  rfc_state (rfc (port_at asking_b 1)) = RFC_STATE_TERM_WAIT_SEC_CHECK /\
  exists s', run_event refusal asking_b = Ok (tt, s') /\ ~ auth_in s' 1 /\
    forall p, auth_in s' p -> auth_in asking_b p.
Proof.
  split; [by vm_compute|].
  destruct (run_event refusal asking_b) as [[[] s']|] eqn:E; [|by vm_compute in E].
  assert (H : forall p, auth_in s' p -> auth_in asking_b p)
    by (apply (no_open_without_grant asking_b refusal tt s');
      [apply plain_env_wf|intros l r; discriminate|apply asking_b_orderly|cbn; lia|reflexivity|by vm_compute|exact E]).
  exists s'. split; [reflexivity|]. split; [|exact H].
  intros (x & Hx & Ha)%H.
  assert (Hst : option_map (fun x => rfc_state (rfc x)) (port_tab asking_b !! 1%nat) =
    Some RFC_STATE_TERM_WAIT_SEC_CHECK) by (by vm_compute).
  rewrite Hx in Hst. cbn [option_map] in Hst. injection Hst as Hst. by rewrite Hst in Ha.
Defined.

Lemma queues_bounded_witness :
  (forall l, pd_queue (rx port_b) = Some l ->
     (length l <= 15)%nat /\ queue_size (rx port_b) = sum_len l /\ sum_len l <= PORT_RX_CRITICAL_WM) /\
  (forall l, pd_queue (tx port_b) = Some l ->
     (length l <= 16)%nat /\ queue_size (tx port_b) = sum_len l /\
     Forall (fun b => bh_len b <= max_buf_data) l).
Proof.
  apply (queues_bounded opened_b 1 port_b); [apply plain_env_wf|apply opened_b_orderly|apply linked_b].
Defined.

Lemma identifiers_in_range_witness :
  (forall p x, port_tab opened_b !! p = Some x ->
     0 <= port_dlci x <= RFCOMM_MAX_DLCI /\ (port_handle x = 0 \/ port_handle x = Z.of_nat p + 1) /\
     0 <= credit_rx x <= PORT_RX_BUF_HIGH_WM /\ is_u16 (credit_tx x) /\
     is_u16 (port_mtu x) /\ is_u16 (peer_mtu x) /\
     (forall m, p_mcb (rfc x) = Some m -> is_Some (rfc_mcb_tab opened_b !! m))) /\
  (forall m y h, rfc_mcb_tab opened_b !! m = Some y -> h ∈ port_handles y ->
     h <> 0 -> is_Some (port_tab opened_b !! Z.to_nat (h - 1))).
Proof. apply (identifiers_in_range opened_b); [apply plain_env_wf|apply opened_b_orderly]. Defined.

Lemma receive_refines_pipe_witness :
  exists o s', impl_run cid_b 1 opened_b [Deliver [104; 105]; Read 1] o s' /\ o = [104] /\ holds cid_b 1 s' [105].
Proof.
  destruct (RFCOMM_BufDataInd cid_b hello_frame opened_b) as [[[] s1]|] eqn:E1; [|by vm_compute in E1].
  destruct (PORT_ReadData 2 1 s1) as [[[rc o] s2]|] eqn:E2.
  2: { apply (run_then _ (fun r => PORT_ReadData 2 1 r.2) _
         (match RFCOMM_BufDataInd cid_b hello_frame opened_b with Ok r => PORT_ReadData 2 1 r.2 | Crash c => Crash c end)) in E1;
       [|by vm_compute]. cbn [snd] in E1. rewrite E2 in E1. by vm_compute in E1. }
  assert (Hr : impl_run cid_b 1 opened_b [Deliver [104; 105]; Read 1] ([] ++ o ++ []) s2).
  { eapply impl_cons; [eapply impl_deliver; [apply hello_frame_for|exact E1]|].
    eapply impl_cons; [eapply (impl_read _ _ _ 1); [lia|exact E2]|apply impl_nil]. }
  exists ([] ++ o ++ []), s2. split; [exact Hr|].
  destruct (receive_refines_pipe cid_b 1 opened_b [] [Deliver [104; 105]; Read 1] ([] ++ o ++ []) s2) as (Ho & Hh & _);
    [lia| |exact Hr|by split].
  exists port_b, 0%nat, mcb_b, []. split; [apply rx_open_b|reflexivity].
Defined.

Lemma write_data_stream_witness :
  exists n s' x' bufs outs,
    PORT_WriteData 2 [104; 105] opened_a = Ok ((PORT_SUCCESS, Z.of_nat n), s') /\ (n <= 2)%nat /\
    port_tab s' !! 1%nat = Some x' /\ streamed mcb_a port_a x' bufs outs (take n [104; 105]) /\
    List.filter is_data_write (out s') = rev outs ++ List.filter is_data_write (out opened_a).
Proof.
  apply (write_data_stream opened_a 2 1 port_a 0 mcb_a [] [104; 105]);
    [apply writable_a|reflexivity|lia|by vm_compute|by vm_compute|repeat constructor; unfold is_u8; lia|cbn; lia].
Defined.


Lemma write_delivered_witness :
  exists n s' x' outs,
    PORT_WriteData 2 [104; 105] opened_a = Ok ((PORT_SUCCESS, Z.of_nat n), s') /\ (n <= 2)%nat /\
    port_tab s' !! 1%nat = Some x' /\
    List.filter is_data_write (out s') = rev outs ++ List.filter is_data_write (out opened_a) /\
    forall bs, Forall2 carries outs bs ->
      exists t' x2' l2', deliver_all cid_b bs opened_b = Ok (tt, t') /\ rx_open t' cid_b 1 x2' 0 mcb_b l2' /\
        queue_bytes (pd_queue (rx x2')) ++ queue_bytes (pd_queue (tx x')) =
          queue_bytes (pd_queue (rx port_b)) ++ queue_bytes (pd_queue (tx port_a)) ++ take n [104; 105].
Proof.
  apply (write_delivered opened_a 2 1 port_a 0 mcb_a [] [104; 105] opened_b cid_b 1 port_b 0 mcb_b []);
    [apply writable_a|reflexivity|lia|by vm_compute|by vm_compute|repeat constructor; unfold is_u8; lia|cbn; lia
    |apply rx_open_b|by vm_compute|by vm_compute|by vm_compute].
Defined.

Lemma send_tx_data_fifo_witness :
  exists ev s' x' outs,
    port_rfc_send_tx_data 1 queued_a = Ok (ev, s') /\ port_tab s' !! 1%nat = Some x' /\
    out s' = rev outs ++ out queued_a /\
    send_all mcb_a (port_dlci (port_at queued_a 1)) (take (sendable (port_at queued_a 1) [queued_buf]) [queued_buf]) outs /\
    pd_queue (tx x') = Some (drop (sendable (port_at queued_a 1) [queued_buf]) [queued_buf]) /\
    credit_tx x' = credit_tx (port_at queued_a 1) - Z.of_nat (sendable (port_at queued_a 1) [queued_buf]).
Proof. apply (send_tx_data_fifo queued_a 1 (port_at queued_a 1) 0 mcb_a [queued_buf] ready_a). discriminate. Defined.

Lemma check_send_cmd_fifo_witness :
  exists s' y', rfc_check_send_cmd 0 (Some hello) opened_b = Ok (tt, s') /\ rfc_mcb_tab s' !! 0%nat = Some y' /\
    if l2cap_congested mcb_b
    then cmd_q y' = Some ([] ++ [hello]) /\ out s' = out opened_b
    else cmd_q y' = Some [] /\
         rev (out s') = rev (out opened_b) ++ (L2CA_DataWrite (mcb_lcid mcb_b) <$> [] ++ [hello]).
Proof. apply (check_send_cmd_fifo 0 mcb_b [] hello opened_b); [apply linked_b|by vm_compute]. Defined.

Lemma mx_messages_roundtrip_witness :
  arrives (mx_bytes (MxPn 0 2 true 990 RFCOMM_PN_CONV_LAYER_CBFC_I 7))
    (mx_received 0 opened_b (MxPn 0 2 true 990 RFCOMM_PN_CONV_LAYER_CBFC_I 7)) /\
  arrives (mx_bytes (MxMsc 2 true some_ctrl)) (mx_received 0 opened_b (MxMsc 2 true some_ctrl)) /\
  arrives (mx_bytes (MxRpn 2 true (Some default_port_pars) 0x3F)) (mx_received 0 opened_b (MxRpn 2 true (Some default_port_pars) 0x3F)) /\
  arrives (mx_bytes (MxRls 2 true 0x04)) (mx_received 0 opened_b (MxRls 2 true 0x04)).
Proof.
  split_and!; (apply (mx_messages_roundtrip 0 _ opened_b); [cbn [mx_valid]|by vm_compute]).
  - split_and!; lia.
  - split_and!; by vm_compute.
  - unfold is_u16. split_and!; try (lia || reflexivity).
    intros p [= <-]. unfold rpn_range, is_u8. split_and!; by vm_compute.
  - unfold is_u8. split_and!; (lia || reflexivity).
Defined.

Lemma parse_in_bounds_witness :
  match rfc_parse_data mcb_b (rx_frame opened_b) hello_frame with
  | Ok r => parsed hello_frame (rx_frame opened_b) r
  | Crash _ => False
  end.
Proof. apply (parse_in_bounds mcb_b (rx_frame opened_b) hello_frame). apply bh_okb_spec. by vm_compute. Defined.

Lemma corrupt_frame_ignored_witness :
  exists f, RFCOMM_BufDataInd cid_b corrupt opened_b = Ok (tt, opened_b <| rx_frame := f |>).
Proof.
  apply (corrupt_frame_ignored opened_b cid_b corrupt);
    [|apply bh_okb_spec; by vm_compute|by vm_compute].
  intros m Hm. rewrite (rxo_lcid _ _ _ _ _ _ _ rx_open_b) in Hm. injection Hm as <-.
  apply (lookup_lt_Some _ _ mcb_b), linked_b.
Defined.

Lemma closed_handle_refused_witness :
  PORT_ReadData 3 16 opened_b = Ok ((PORT_NOT_OPENED, []), opened_b).
Proof.
  apply (closed_handle_refused opened_b 3). right. exists (port_at opened_b 2). split; by vm_compute.
Defined.

Lemma allocation_complete_witness :
  port_allocated opened_b 4 addr_a (port_allocate_port 4 addr_a opened_b) /\
  mux_allocated opened_b addr_a true (rfc_alloc_multiplexer_channel addr_a true opened_b).
Proof. apply (allocation_complete opened_b 4 addr_a true); [by vm_compute|split; by vm_compute|by vm_compute|by vm_compute]. Defined.

Lemma select_mtu_window_witness :
  returns (select_mtu 1021 zero_PORT) (fun x' =>
    0 < port_mtu x' <= L2CAP_MTU_SIZE - RFCOMM_DATA_OVERHEAD /\
    (port_mtu zero_PORT <> 0 -> port_mtu x' = port_mtu zero_PORT) /\
    (port_mtu zero_PORT = 0 -> 0 < 1021 <= L2CAP_MTU_SIZE + L2CAP_PKT_OVERHEAD ->
       (port_mtu x' + RFCOMM_DATA_OVERHEAD + L2CAP_PKT_OVERHEAD) mod 1021 = 0) /\
    0 < credit_rx_low x' < credit_rx_max x' /\ credit_rx_max x' < rx_buf_critical x' /\
    credit_rx_max x' <= PORT_RX_BUF_HIGH_WM /\ credit_rx_max x' * port_mtu x' <= PORT_RX_HIGH_WM).
Proof. apply (select_mtu_window zero_PORT 1021); [cbn; lia|unfold is_u16; lia]. Defined.

Lemma dlci_61_not_counted_witness :
  rfc_check_mcb_active 0 only_61 =
    Ok (tt, put_mcb 0 ((mcb_at only_61 0) <| mcb_timer := Some (Some (RFC_MCB_RELEASE_INACT_TIMER * 1000)) |>) only_61).
Proof.
  apply (dlci_61_not_counted only_61 0 (mcb_at only_61 0) 2); [by vm_compute|by vm_compute|by vm_compute|].
  eexists. by vm_compute.
Defined.
