(* ===== verification/Aes.v ===== *)
(** * Aes: the AES block cipher

    [src/system/stack/crypto_toolbox/aes.cc] with the options of [aes.h] and of
    the head of the file: byte tables, [VERSION_1], and 32-bit words for exclusive
    or, which is the same on bytes.  A block is a list of 16 bytes; the arrays of
    fixed size are indexed by constants inside their size.  Accesses to the key
    schedule and to the buffers of the chaining modes are checked. *)

From Stdlib Require Import ZArith Lia.
From stdpp Require Import base list.
From S2P Require Import Prelude.

Declare Scope aes_scope.
Notation "a .[ i ]" := (nth i a 0) (at level 1, left associativity, format "a .[ i ]") : aes_scope.
Notation "a ^^ b" := (Z.lxor a b) (at level 50, left associativity) : aes_scope.
Open Scope aes_scope.

(** ** Multiplication in the field *)

Abbreviation WPOLY := 0x011b (only parsing).
Abbreviation DPOLY := 0x008d (only parsing).
Abbreviation N_BLOCK := 16 (only parsing).
Abbreviation N_MAX_ROUNDS := 14 (only parsing).

Definition f2 (x : Z) : Z := (x .<< 1) ^^ (((x .>> 7) .& 1) * WPOLY).
Definition f4 (x : Z) : Z :=
  (x .<< 2) ^^ (((x .>> 6) .& 1) * WPOLY) ^^ (((x .>> 6) .& 2) * WPOLY).
Definition f8 (x : Z) : Z :=
  (x .<< 3) ^^ (((x .>> 5) .& 1) * WPOLY) ^^ (((x .>> 5) .& 2) * WPOLY) ^^ (((x .>> 5) .& 4) * WPOLY).
Definition d2 (x : Z) : Z := (x .>> 1) ^^ (if nz (x .& 1) then DPOLY else 0).
Definition f3 (x : Z) : Z := f2 x ^^ x.
Definition f9 (x : Z) : Z := f8 x ^^ x.
Definition fb (x : Z) : Z := f8 x ^^ f2 x ^^ x.
Definition fd (x : Z) : Z := f8 x ^^ f4 x ^^ x.
Definition fe (x : Z) : Z := f8 x ^^ f4 x ^^ f2 x.

(** ** Tables *)

Definition sb_data : list Z :=
  [0x63; 0x7c; 0x77; 0x7b; 0xf2; 0x6b; 0x6f; 0xc5; 0x30; 0x01; 0x67; 0x2b; 0xfe; 0xd7; 0xab; 0x76;
   0xca; 0x82; 0xc9; 0x7d; 0xfa; 0x59; 0x47; 0xf0; 0xad; 0xd4; 0xa2; 0xaf; 0x9c; 0xa4; 0x72; 0xc0;
   0xb7; 0xfd; 0x93; 0x26; 0x36; 0x3f; 0xf7; 0xcc; 0x34; 0xa5; 0xe5; 0xf1; 0x71; 0xd8; 0x31; 0x15;
   0x04; 0xc7; 0x23; 0xc3; 0x18; 0x96; 0x05; 0x9a; 0x07; 0x12; 0x80; 0xe2; 0xeb; 0x27; 0xb2; 0x75;
   0x09; 0x83; 0x2c; 0x1a; 0x1b; 0x6e; 0x5a; 0xa0; 0x52; 0x3b; 0xd6; 0xb3; 0x29; 0xe3; 0x2f; 0x84;
   0x53; 0xd1; 0x00; 0xed; 0x20; 0xfc; 0xb1; 0x5b; 0x6a; 0xcb; 0xbe; 0x39; 0x4a; 0x4c; 0x58; 0xcf;
   0xd0; 0xef; 0xaa; 0xfb; 0x43; 0x4d; 0x33; 0x85; 0x45; 0xf9; 0x02; 0x7f; 0x50; 0x3c; 0x9f; 0xa8;
   0x51; 0xa3; 0x40; 0x8f; 0x92; 0x9d; 0x38; 0xf5; 0xbc; 0xb6; 0xda; 0x21; 0x10; 0xff; 0xf3; 0xd2;
   0xcd; 0x0c; 0x13; 0xec; 0x5f; 0x97; 0x44; 0x17; 0xc4; 0xa7; 0x7e; 0x3d; 0x64; 0x5d; 0x19; 0x73;
   0x60; 0x81; 0x4f; 0xdc; 0x22; 0x2a; 0x90; 0x88; 0x46; 0xee; 0xb8; 0x14; 0xde; 0x5e; 0x0b; 0xdb;
   0xe0; 0x32; 0x3a; 0x0a; 0x49; 0x06; 0x24; 0x5c; 0xc2; 0xd3; 0xac; 0x62; 0x91; 0x95; 0xe4; 0x79;
   0xe7; 0xc8; 0x37; 0x6d; 0x8d; 0xd5; 0x4e; 0xa9; 0x6c; 0x56; 0xf4; 0xea; 0x65; 0x7a; 0xae; 0x08;
   0xba; 0x78; 0x25; 0x2e; 0x1c; 0xa6; 0xb4; 0xc6; 0xe8; 0xdd; 0x74; 0x1f; 0x4b; 0xbd; 0x8b; 0x8a;
   0x70; 0x3e; 0xb5; 0x66; 0x48; 0x03; 0xf6; 0x0e; 0x61; 0x35; 0x57; 0xb9; 0x86; 0xc1; 0x1d; 0x9e;
   0xe1; 0xf8; 0x98; 0x11; 0x69; 0xd9; 0x8e; 0x94; 0x9b; 0x1e; 0x87; 0xe9; 0xce; 0x55; 0x28; 0xdf;
   0x8c; 0xa1; 0x89; 0x0d; 0xbf; 0xe6; 0x42; 0x68; 0x41; 0x99; 0x2d; 0x0f; 0xb0; 0x54; 0xbb; 0x16].

Definition isb_data : list Z :=
  [0x52; 0x09; 0x6a; 0xd5; 0x30; 0x36; 0xa5; 0x38; 0xbf; 0x40; 0xa3; 0x9e; 0x81; 0xf3; 0xd7; 0xfb;
   0x7c; 0xe3; 0x39; 0x82; 0x9b; 0x2f; 0xff; 0x87; 0x34; 0x8e; 0x43; 0x44; 0xc4; 0xde; 0xe9; 0xcb;
   0x54; 0x7b; 0x94; 0x32; 0xa6; 0xc2; 0x23; 0x3d; 0xee; 0x4c; 0x95; 0x0b; 0x42; 0xfa; 0xc3; 0x4e;
   0x08; 0x2e; 0xa1; 0x66; 0x28; 0xd9; 0x24; 0xb2; 0x76; 0x5b; 0xa2; 0x49; 0x6d; 0x8b; 0xd1; 0x25;
   0x72; 0xf8; 0xf6; 0x64; 0x86; 0x68; 0x98; 0x16; 0xd4; 0xa4; 0x5c; 0xcc; 0x5d; 0x65; 0xb6; 0x92;
   0x6c; 0x70; 0x48; 0x50; 0xfd; 0xed; 0xb9; 0xda; 0x5e; 0x15; 0x46; 0x57; 0xa7; 0x8d; 0x9d; 0x84;
   0x90; 0xd8; 0xab; 0x00; 0x8c; 0xbc; 0xd3; 0x0a; 0xf7; 0xe4; 0x58; 0x05; 0xb8; 0xb3; 0x45; 0x06;
   0xd0; 0x2c; 0x1e; 0x8f; 0xca; 0x3f; 0x0f; 0x02; 0xc1; 0xaf; 0xbd; 0x03; 0x01; 0x13; 0x8a; 0x6b;
   0x3a; 0x91; 0x11; 0x41; 0x4f; 0x67; 0xdc; 0xea; 0x97; 0xf2; 0xcf; 0xce; 0xf0; 0xb4; 0xe6; 0x73;
   0x96; 0xac; 0x74; 0x22; 0xe7; 0xad; 0x35; 0x85; 0xe2; 0xf9; 0x37; 0xe8; 0x1c; 0x75; 0xdf; 0x6e;
   0x47; 0xf1; 0x1a; 0x71; 0x1d; 0x29; 0xc5; 0x89; 0x6f; 0xb7; 0x62; 0x0e; 0xaa; 0x18; 0xbe; 0x1b;
   0xfc; 0x56; 0x3e; 0x4b; 0xc6; 0xd2; 0x79; 0x20; 0x9a; 0xdb; 0xc0; 0xfe; 0x78; 0xcd; 0x5a; 0xf4;
   0x1f; 0xdd; 0xa8; 0x33; 0x88; 0x07; 0xc7; 0x31; 0xb1; 0x12; 0x10; 0x59; 0x27; 0x80; 0xec; 0x5f;
   0x60; 0x51; 0x7f; 0xa9; 0x19; 0xb5; 0x4a; 0x0d; 0x2d; 0xe5; 0x7a; 0x9f; 0x93; 0xc9; 0x9c; 0xef;
   0xa0; 0xe0; 0x3b; 0x4d; 0xae; 0x2a; 0xf5; 0xb0; 0xc8; 0xeb; 0xbb; 0x3c; 0x83; 0x53; 0x99; 0x61;
   0x17; 0x2b; 0x04; 0x7e; 0xba; 0x77; 0xd6; 0x26; 0xe1; 0x69; 0x14; 0x63; 0x55; 0x21; 0x0c; 0x7d].

Definition mm_data : list Z :=
  [0x00; 0x01; 0x02; 0x03; 0x04; 0x05; 0x06; 0x07; 0x08; 0x09; 0x0a; 0x0b; 0x0c; 0x0d; 0x0e; 0x0f;
   0x10; 0x11; 0x12; 0x13; 0x14; 0x15; 0x16; 0x17; 0x18; 0x19; 0x1a; 0x1b; 0x1c; 0x1d; 0x1e; 0x1f;
   0x20; 0x21; 0x22; 0x23; 0x24; 0x25; 0x26; 0x27; 0x28; 0x29; 0x2a; 0x2b; 0x2c; 0x2d; 0x2e; 0x2f;
   0x30; 0x31; 0x32; 0x33; 0x34; 0x35; 0x36; 0x37; 0x38; 0x39; 0x3a; 0x3b; 0x3c; 0x3d; 0x3e; 0x3f;
   0x40; 0x41; 0x42; 0x43; 0x44; 0x45; 0x46; 0x47; 0x48; 0x49; 0x4a; 0x4b; 0x4c; 0x4d; 0x4e; 0x4f;
   0x50; 0x51; 0x52; 0x53; 0x54; 0x55; 0x56; 0x57; 0x58; 0x59; 0x5a; 0x5b; 0x5c; 0x5d; 0x5e; 0x5f;
   0x60; 0x61; 0x62; 0x63; 0x64; 0x65; 0x66; 0x67; 0x68; 0x69; 0x6a; 0x6b; 0x6c; 0x6d; 0x6e; 0x6f;
   0x70; 0x71; 0x72; 0x73; 0x74; 0x75; 0x76; 0x77; 0x78; 0x79; 0x7a; 0x7b; 0x7c; 0x7d; 0x7e; 0x7f;
   0x80; 0x81; 0x82; 0x83; 0x84; 0x85; 0x86; 0x87; 0x88; 0x89; 0x8a; 0x8b; 0x8c; 0x8d; 0x8e; 0x8f;
   0x90; 0x91; 0x92; 0x93; 0x94; 0x95; 0x96; 0x97; 0x98; 0x99; 0x9a; 0x9b; 0x9c; 0x9d; 0x9e; 0x9f;
   0xa0; 0xa1; 0xa2; 0xa3; 0xa4; 0xa5; 0xa6; 0xa7; 0xa8; 0xa9; 0xaa; 0xab; 0xac; 0xad; 0xae; 0xaf;
   0xb0; 0xb1; 0xb2; 0xb3; 0xb4; 0xb5; 0xb6; 0xb7; 0xb8; 0xb9; 0xba; 0xbb; 0xbc; 0xbd; 0xbe; 0xbf;
   0xc0; 0xc1; 0xc2; 0xc3; 0xc4; 0xc5; 0xc6; 0xc7; 0xc8; 0xc9; 0xca; 0xcb; 0xcc; 0xcd; 0xce; 0xcf;
   0xd0; 0xd1; 0xd2; 0xd3; 0xd4; 0xd5; 0xd6; 0xd7; 0xd8; 0xd9; 0xda; 0xdb; 0xdc; 0xdd; 0xde; 0xdf;
   0xe0; 0xe1; 0xe2; 0xe3; 0xe4; 0xe5; 0xe6; 0xe7; 0xe8; 0xe9; 0xea; 0xeb; 0xec; 0xed; 0xee; 0xef;
   0xf0; 0xf1; 0xf2; 0xf3; 0xf4; 0xf5; 0xf6; 0xf7; 0xf8; 0xf9; 0xfa; 0xfb; 0xfc; 0xfd; 0xfe; 0xff].

Definition sbox : list Z := sb_data.
Definition isbox : list Z := isb_data.
Definition gfm2_sbox : list Z := map (fun w => u8 (f2 w)) sb_data.
Definition gfm3_sbox : list Z := map (fun w => u8 (f3 w)) sb_data.
Definition gfmul_9 : list Z := map (fun w => u8 (f9 w)) mm_data.
Definition gfmul_b : list Z := map (fun w => u8 (fb w)) mm_data.
Definition gfmul_d : list Z := map (fun w => u8 (fd w)) mm_data.
Definition gfmul_e : list Z := map (fun w => u8 (fe w)) mm_data.

Definition s_box (x : Z) : Z := sbox.[Z.to_nat x].
Definition is_box (x : Z) : Z := isbox.[Z.to_nat x].
Definition gfm2_sb (x : Z) : Z := gfm2_sbox.[Z.to_nat x].
Definition gfm3_sb (x : Z) : Z := gfm3_sbox.[Z.to_nat x].
Definition gfm_9 (x : Z) : Z := gfmul_9.[Z.to_nat x].
Definition gfm_b (x : Z) : Z := gfmul_b.[Z.to_nat x].
Definition gfm_d (x : Z) : Z := gfmul_d.[Z.to_nat x].
Definition gfm_e (x : Z) : Z := gfmul_e.[Z.to_nat x].

(** ** Blocks *)

Definition xor_block (d s : list Z) : list Z := zip_with Z.lxor d s.
Definition copy_and_key (s k : list Z) : list Z := zip_with Z.lxor s k.
Definition add_round_key (d k : list Z) : list Z := xor_block d k.

Definition shift_sub_rows (st : list Z) : list Z :=
  let st := <[0%nat := s_box st.[0]]> st in
  let st := <[4%nat := s_box st.[4]]> st in
  let st := <[8%nat := s_box st.[8]]> st in
  let st := <[12%nat := s_box st.[12]]> st in
  let tt := st.[1] in
  let st := <[1%nat := s_box st.[5]]> st in
  let st := <[5%nat := s_box st.[9]]> st in
  let st := <[9%nat := s_box st.[13]]> st in
  let st := <[13%nat := s_box tt]> st in
  let tt := st.[2] in
  let st := <[2%nat := s_box st.[10]]> st in
  let st := <[10%nat := s_box tt]> st in
  let tt := st.[6] in
  let st := <[6%nat := s_box st.[14]]> st in
  let st := <[14%nat := s_box tt]> st in
  let tt := st.[15] in
  let st := <[15%nat := s_box st.[11]]> st in
  let st := <[11%nat := s_box st.[7]]> st in
  let st := <[7%nat := s_box st.[3]]> st in
  let st := <[3%nat := s_box tt]> st in
  st.

Definition inv_shift_sub_rows (st : list Z) : list Z :=
  let st := <[0%nat := is_box st.[0]]> st in
  let st := <[4%nat := is_box st.[4]]> st in
  let st := <[8%nat := is_box st.[8]]> st in
  let st := <[12%nat := is_box st.[12]]> st in
  let tt := st.[13] in
  let st := <[13%nat := is_box st.[9]]> st in
  let st := <[9%nat := is_box st.[5]]> st in
  let st := <[5%nat := is_box st.[1]]> st in
  let st := <[1%nat := is_box tt]> st in
  let tt := st.[2] in
  let st := <[2%nat := is_box st.[10]]> st in
  let st := <[10%nat := is_box tt]> st in
  let tt := st.[6] in
  let st := <[6%nat := is_box st.[14]]> st in
  let st := <[14%nat := is_box tt]> st in
  let tt := st.[3] in
  let st := <[3%nat := is_box st.[7]]> st in
  let st := <[7%nat := is_box st.[11]]> st in
  let st := <[11%nat := is_box st.[15]]> st in
  let st := <[15%nat := is_box tt]> st in
  st.

Definition mix_sub_columns (dt : list Z) : list Z :=
  let st := dt in
  let dt := <[0%nat := gfm2_sb st.[0] ^^ gfm3_sb st.[5] ^^ s_box st.[10] ^^ s_box st.[15]]> dt in
  let dt := <[1%nat := s_box st.[0] ^^ gfm2_sb st.[5] ^^ gfm3_sb st.[10] ^^ s_box st.[15]]> dt in
  let dt := <[2%nat := s_box st.[0] ^^ s_box st.[5] ^^ gfm2_sb st.[10] ^^ gfm3_sb st.[15]]> dt in
  let dt := <[3%nat := gfm3_sb st.[0] ^^ s_box st.[5] ^^ s_box st.[10] ^^ gfm2_sb st.[15]]> dt in
  let dt := <[4%nat := gfm2_sb st.[4] ^^ gfm3_sb st.[9] ^^ s_box st.[14] ^^ s_box st.[3]]> dt in
  let dt := <[5%nat := s_box st.[4] ^^ gfm2_sb st.[9] ^^ gfm3_sb st.[14] ^^ s_box st.[3]]> dt in
  let dt := <[6%nat := s_box st.[4] ^^ s_box st.[9] ^^ gfm2_sb st.[14] ^^ gfm3_sb st.[3]]> dt in
  let dt := <[7%nat := gfm3_sb st.[4] ^^ s_box st.[9] ^^ s_box st.[14] ^^ gfm2_sb st.[3]]> dt in
  let dt := <[8%nat := gfm2_sb st.[8] ^^ gfm3_sb st.[13] ^^ s_box st.[2] ^^ s_box st.[7]]> dt in
  let dt := <[9%nat := s_box st.[8] ^^ gfm2_sb st.[13] ^^ gfm3_sb st.[2] ^^ s_box st.[7]]> dt in
  let dt := <[10%nat := s_box st.[8] ^^ s_box st.[13] ^^ gfm2_sb st.[2] ^^ gfm3_sb st.[7]]> dt in
  let dt := <[11%nat := gfm3_sb st.[8] ^^ s_box st.[13] ^^ s_box st.[2] ^^ gfm2_sb st.[7]]> dt in
  let dt := <[12%nat := gfm2_sb st.[12] ^^ gfm3_sb st.[1] ^^ s_box st.[6] ^^ s_box st.[11]]> dt in
  let dt := <[13%nat := s_box st.[12] ^^ gfm2_sb st.[1] ^^ gfm3_sb st.[6] ^^ s_box st.[11]]> dt in
  let dt := <[14%nat := s_box st.[12] ^^ s_box st.[1] ^^ gfm2_sb st.[6] ^^ gfm3_sb st.[11]]> dt in
  let dt := <[15%nat := gfm3_sb st.[12] ^^ s_box st.[1] ^^ s_box st.[6] ^^ gfm2_sb st.[11]]> dt in
  dt.

Definition inv_mix_sub_columns (dt : list Z) : list Z :=
  let st := dt in
  let dt := <[0%nat := is_box (gfm_e st.[0] ^^ gfm_b st.[1] ^^ gfm_d st.[2] ^^ gfm_9 st.[3])]> dt in
  let dt := <[5%nat := is_box (gfm_9 st.[0] ^^ gfm_e st.[1] ^^ gfm_b st.[2] ^^ gfm_d st.[3])]> dt in
  let dt := <[10%nat := is_box (gfm_d st.[0] ^^ gfm_9 st.[1] ^^ gfm_e st.[2] ^^ gfm_b st.[3])]> dt in
  let dt := <[15%nat := is_box (gfm_b st.[0] ^^ gfm_d st.[1] ^^ gfm_9 st.[2] ^^ gfm_e st.[3])]> dt in
  let dt := <[4%nat := is_box (gfm_e st.[4] ^^ gfm_b st.[5] ^^ gfm_d st.[6] ^^ gfm_9 st.[7])]> dt in
  let dt := <[9%nat := is_box (gfm_9 st.[4] ^^ gfm_e st.[5] ^^ gfm_b st.[6] ^^ gfm_d st.[7])]> dt in
  let dt := <[14%nat := is_box (gfm_d st.[4] ^^ gfm_9 st.[5] ^^ gfm_e st.[6] ^^ gfm_b st.[7])]> dt in
  let dt := <[3%nat := is_box (gfm_b st.[4] ^^ gfm_d st.[5] ^^ gfm_9 st.[6] ^^ gfm_e st.[7])]> dt in
  let dt := <[8%nat := is_box (gfm_e st.[8] ^^ gfm_b st.[9] ^^ gfm_d st.[10] ^^ gfm_9 st.[11])]> dt in
  let dt := <[13%nat := is_box (gfm_9 st.[8] ^^ gfm_e st.[9] ^^ gfm_b st.[10] ^^ gfm_d st.[11])]> dt in
  let dt := <[2%nat := is_box (gfm_d st.[8] ^^ gfm_9 st.[9] ^^ gfm_e st.[10] ^^ gfm_b st.[11])]> dt in
  let dt := <[7%nat := is_box (gfm_b st.[8] ^^ gfm_d st.[9] ^^ gfm_9 st.[10] ^^ gfm_e st.[11])]> dt in
  let dt := <[12%nat := is_box (gfm_e st.[12] ^^ gfm_b st.[13] ^^ gfm_d st.[14] ^^ gfm_9 st.[15])]> dt in
  let dt := <[1%nat := is_box (gfm_9 st.[12] ^^ gfm_e st.[13] ^^ gfm_b st.[14] ^^ gfm_d st.[15])]> dt in
  let dt := <[6%nat := is_box (gfm_d st.[12] ^^ gfm_9 st.[13] ^^ gfm_e st.[14] ^^ gfm_b st.[15])]> dt in
  let dt := <[11%nat := is_box (gfm_b st.[12] ^^ gfm_d st.[13] ^^ gfm_9 st.[14] ^^ gfm_e st.[15])]> dt in
  dt.

(** ** Key schedule *)

Record aes_context : Type := mk_aes_context {
  ksch : list Z;   (* (N_MAX_ROUNDS + 1) * N_BLOCK bytes *)
  rnd : Z;
}.

(** [for (cc = keylen, rc = 1; cc < hi; cc += 4)] *)
Fixpoint key_loop (fuel : nat) (ksch : list Z) (keylen hi cc rc : Z) : outcome (list Z) :=
  match fuel with
  | O => Crash OutOfFuel
  | S fuel =>
      if negb (cc <? hi) then mret ksch else
      t0 ← rd ksch (cc - 4);
      t1 ← rd ksch (cc - 3);
      t2 ← rd ksch (cc - 2);
      t3 ← rd ksch (cc - 1);
      let '(t0, t1, t2, t3, rc) :=
        if cc mod keylen =? 0 then
          (s_box t1 ^^ rc, s_box t2, s_box t3, s_box t0, u8 (f2 rc))
        else if (24 <? keylen) && (cc mod keylen =? 16) then
          (s_box t0, s_box t1, s_box t2, s_box t3, rc)
        else (t0, t1, t2, t3, rc) in
      let tt := u8 (cc - keylen) in
      k0 ← rd ksch (tt + 0);
      ksch ← wr_bytes ksch (cc + 0) [k0 ^^ t0];
      k1 ← rd ksch (tt + 1);
      ksch ← wr_bytes ksch (cc + 1) [k1 ^^ t1];
      k2 ← rd ksch (tt + 2);
      ksch ← wr_bytes ksch (cc + 2) [k2 ^^ t2];
      k3 ← rd ksch (tt + 3);
      ksch ← wr_bytes ksch (cc + 3) [k3 ^^ t3];
      key_loop fuel ksch keylen hi (u8 (cc + 4)) rc
  end.

(** The key length in bytes, from a length in bytes or in bits. *)
Definition key_bytes (keylen : Z) : option Z :=
  if (keylen =? 16) || (keylen =? 128) then Some 16
  else if (keylen =? 24) || (keylen =? 192) then Some 24
  else if keylen =? 32 then Some 32
  else None.

(** The return code and the context. *)
Definition aes_set_key (key : list Z) (keylen : Z) (ctx : aes_context) : outcome (Z * aes_context) :=
  match key_bytes keylen with
  | None => mret (u8 (-1), mk_aes_context (ksch ctx) 0)
  | Some keylen =>
      k ← rd_bytes key 0 keylen;
      sch ← wr_bytes (ksch ctx) 0 k;
      let hi := u8 ((keylen + 28) .<< 2) in
      sch ← key_loop 64 sch keylen hi keylen 1;
      mret (0, mk_aes_context sch (u8 ((hi .>> 4) - 1)))
  end.

(** ** Encryption and decryption *)

(** [ctx->ksch + r * N_BLOCK] *)
Definition round_key (ctx : aes_context) (r : Z) : outcome (list Z) :=
  rd_bytes (ksch ctx) (r * N_BLOCK) N_BLOCK.

(** [for (r = 1; r < ctx->rnd; ++r)]: the state and the final [r]. *)
Fixpoint encrypt_rounds (fuel : nat) (ctx : aes_context) (s1 : list Z) (r : Z) : outcome (list Z * Z) :=
  match fuel with
  | O => Crash OutOfFuel
  | S fuel =>
      if negb (r <? rnd ctx) then mret (s1, r) else
      let s1 := mix_sub_columns s1 in
      k ← round_key ctx r;
      encrypt_rounds fuel ctx (add_round_key s1 k) (u8 (r + 1))
  end.

(** The return code and [out]. *)
Definition aes_encrypt (inp out : list Z) (ctx : aes_context) : outcome (Z * list Z) :=
  if nz (rnd ctx) then
    k ← round_key ctx 0;
    '(s1, r) ← encrypt_rounds 256 ctx (copy_and_key inp k) 1;
    let s1 := shift_sub_rows s1 in
    k ← round_key ctx r;
    mret (0, copy_and_key s1 k)
  else mret (u8 (-1), out).

(** The return code, [out] and [iv]; [pos] is how far [in] and [out] were advanced.
    [n_block] is not negative. *)
Fixpoint aes_cbc_encrypt (inp out : list Z) (pos : Z) (n_block : nat) (iv : list Z) (ctx : aes_context) :
    outcome (Z * list Z * list Z) :=
  match n_block with
  | O => mret (0, out, iv)
  | S n_block =>
      b ← rd_bytes inp pos N_BLOCK;
      let iv := xor_block iv b in
      '(rc, iv) ← aes_encrypt iv iv ctx;
      if nz rc then mret (1, out, iv) else
      out ← wr_bytes out pos iv;
      aes_cbc_encrypt inp out (pos + N_BLOCK) n_block iv ctx
  end.

(** [for (r = ctx->rnd; --r;)] *)
Fixpoint decrypt_rounds (fuel : nat) (ctx : aes_context) (s1 : list Z) (r : Z) : outcome (list Z) :=
  match fuel with
  | O => Crash OutOfFuel
  | S fuel =>
      let r := u8 (r - 1) in
      if negb (nz r) then mret s1 else
      k ← round_key ctx r;
      let s1 := add_round_key s1 k in
      decrypt_rounds fuel ctx (inv_mix_sub_columns s1) r
  end.

Definition aes_decrypt (inp out : list Z) (ctx : aes_context) : outcome (Z * list Z) :=
  if nz (rnd ctx) then
    k ← round_key ctx (rnd ctx);
    let s1 := inv_shift_sub_rows (copy_and_key inp k) in
    s1 ← decrypt_rounds 256 ctx s1 (rnd ctx);
    k ← round_key ctx 0;
    mret (0, copy_and_key s1 k)
  else mret (u8 (-1), out).

Fixpoint aes_cbc_decrypt (inp out : list Z) (pos : Z) (n_block : nat) (iv : list Z) (ctx : aes_context) :
    outcome (Z * list Z * list Z) :=
  match n_block with
  | O => mret (0, out, iv)
  | S n_block =>
      tmp ← rd_bytes inp pos N_BLOCK;
      o ← rd_bytes out pos N_BLOCK;
      '(rc, o) ← aes_decrypt tmp o ctx;
      if nz rc then mret (1, out, iv) else
      out ← wr_bytes out pos (xor_block o iv);
      aes_cbc_decrypt inp out (pos + N_BLOCK) n_block tmp ctx
  end.

(** ** Keys computed while encrypting *)

(** [k[cc + i] ^= k[cc - 4 + i]] for the four bytes of a word. *)
Definition xor_word (k : list Z) (cc : nat) : list Z :=
  let k := <[(cc + 0)%nat := k.[cc + 0] ^^ k.[cc - 4]]> k in
  let k := <[(cc + 1)%nat := k.[cc + 1] ^^ k.[cc - 3]]> k in
  let k := <[(cc + 2)%nat := k.[cc + 2] ^^ k.[cc - 2]]> k in
  let k := <[(cc + 3)%nat := k.[cc + 3] ^^ k.[cc - 1]]> k in
  k.

Definition update_encrypt_key_128 (k : list Z) (rc : Z) : list Z * Z :=
  let k := <[0%nat := k.[0] ^^ (s_box k.[13] ^^ rc)]> k in
  let k := <[1%nat := k.[1] ^^ s_box k.[14]]> k in
  let k := <[2%nat := k.[2] ^^ s_box k.[15]]> k in
  let k := <[3%nat := k.[3] ^^ s_box k.[12]]> k in
  let rc := u8 (f2 rc) in
  (foldl xor_word k [4%nat; 8%nat; 12%nat], rc).

(** [for (r = 1; r < 10; ++r)], [n] rounds left. *)
Fixpoint encrypt_128_rounds (n : nat) (s1 o_key : list Z) (rc : Z) : list Z * list Z * Z :=
  match n with
  | O => (s1, o_key, rc)
  | S n =>
      let s1 := mix_sub_columns s1 in
      let '(o_key, rc) := update_encrypt_key_128 o_key rc in
      encrypt_128_rounds n (add_round_key s1 o_key) o_key rc
  end.

(** [out] and [o_key]. *)
Definition aes_encrypt_128 (inp key : list Z) : list Z * list Z :=
  let o_key := key in
  let '(s1, o_key, rc) := encrypt_128_rounds 9 (copy_and_key inp o_key) o_key 1 in
  let s1 := shift_sub_rows s1 in
  let '(o_key, rc) := update_encrypt_key_128 o_key rc in
  (copy_and_key s1 o_key, o_key).

Definition update_decrypt_key_128 (k : list Z) (rc : Z) : list Z * Z :=
  let k := foldl xor_word k [12%nat; 8%nat; 4%nat] in
  let rc := u8 (d2 rc) in
  let k := <[0%nat := k.[0] ^^ (s_box k.[13] ^^ rc)]> k in
  let k := <[1%nat := k.[1] ^^ s_box k.[14]]> k in
  let k := <[2%nat := k.[2] ^^ s_box k.[15]]> k in
  let k := <[3%nat := k.[3] ^^ s_box k.[12]]> k in
  (k, rc).

(** [for (r = 10; --r;)], [n] rounds left. *)
Fixpoint decrypt_128_rounds (n : nat) (s1 o_key : list Z) (rc : Z) : list Z * list Z * Z :=
  match n with
  | O => (s1, o_key, rc)
  | S n =>
      let '(o_key, rc) := update_decrypt_key_128 o_key rc in
      let s1 := add_round_key s1 o_key in
      decrypt_128_rounds n (inv_mix_sub_columns s1) o_key rc
  end.

Definition aes_decrypt_128 (inp key : list Z) : list Z * list Z :=
  let o_key := key in
  let s1 := inv_shift_sub_rows (copy_and_key inp o_key) in
  let '(s1, o_key, rc) := decrypt_128_rounds 9 s1 o_key 0x6c in
  let '(o_key, rc) := update_decrypt_key_128 o_key rc in
  (copy_and_key s1 o_key, o_key).

Definition update_encrypt_key_256 (k : list Z) (rc : Z) : list Z * Z :=
  let k := <[0%nat := k.[0] ^^ (s_box k.[29] ^^ rc)]> k in
  let k := <[1%nat := k.[1] ^^ s_box k.[30]]> k in
  let k := <[2%nat := k.[2] ^^ s_box k.[31]]> k in
  let k := <[3%nat := k.[3] ^^ s_box k.[28]]> k in
  let rc := u8 (f2 rc) in
  let k := foldl xor_word k [4%nat; 8%nat; 12%nat] in
  let k := <[16%nat := k.[16] ^^ s_box k.[12]]> k in
  let k := <[17%nat := k.[17] ^^ s_box k.[13]]> k in
  let k := <[18%nat := k.[18] ^^ s_box k.[14]]> k in
  let k := <[19%nat := k.[19] ^^ s_box k.[15]]> k in
  (foldl xor_word k [20%nat; 24%nat; 28%nat], rc).

(** [for (r = 1; r < 14; ++r)], [n] rounds left. *)
Fixpoint encrypt_256_rounds (n : nat) (r : Z) (s1 o_key : list Z) (rc : Z) : list Z * list Z * Z :=
  match n with
  | O => (s1, o_key, rc)
  | S n =>
      let s1 := mix_sub_columns s1 in
      if nz (r .& 1) then
        encrypt_256_rounds n (r + 1) (add_round_key s1 (drop 16 o_key)) o_key rc
      else
        let '(o_key, rc) := update_encrypt_key_256 o_key rc in
        encrypt_256_rounds n (r + 1) (add_round_key s1 o_key) o_key rc
  end.

Definition aes_encrypt_256 (inp key : list Z) : list Z * list Z :=
  let o_key := key in
  let '(s1, o_key, rc) := encrypt_256_rounds 13 1 (copy_and_key inp o_key) o_key 1 in
  let s1 := shift_sub_rows s1 in
  let '(o_key, rc) := update_encrypt_key_256 o_key rc in
  (copy_and_key s1 o_key, o_key).

Definition update_decrypt_key_256 (k : list Z) (rc : Z) : list Z * Z :=
  let k := foldl xor_word k [28%nat; 24%nat; 20%nat] in
  let k := <[16%nat := k.[16] ^^ s_box k.[12]]> k in
  let k := <[17%nat := k.[17] ^^ s_box k.[13]]> k in
  let k := <[18%nat := k.[18] ^^ s_box k.[14]]> k in
  let k := <[19%nat := k.[19] ^^ s_box k.[15]]> k in
  let k := foldl xor_word k [12%nat; 8%nat; 4%nat] in
  let rc := u8 (d2 rc) in
  let k := <[0%nat := k.[0] ^^ (s_box k.[29] ^^ rc)]> k in
  let k := <[1%nat := k.[1] ^^ s_box k.[30]]> k in
  let k := <[2%nat := k.[2] ^^ s_box k.[31]]> k in
  let k := <[3%nat := k.[3] ^^ s_box k.[28]]> k in
  (k, rc).

(** [for (r = 14; --r;)] *)
Fixpoint decrypt_256_rounds (n : nat) (r : Z) (s1 o_key : list Z) (rc : Z) : list Z * list Z * Z :=
  match n with
  | O => (s1, o_key, rc)
  | S n =>
      if nz (r .& 1) then
        let '(o_key, rc) := update_decrypt_key_256 o_key rc in
        let s1 := add_round_key s1 (drop 16 o_key) in
        decrypt_256_rounds n (r - 1) (inv_mix_sub_columns s1) o_key rc
      else
        let s1 := add_round_key s1 o_key in
        decrypt_256_rounds n (r - 1) (inv_mix_sub_columns s1) o_key rc
  end.

Definition aes_decrypt_256 (inp key : list Z) : list Z * list Z :=
  let o_key := key in
  let s1 := inv_shift_sub_rows (copy_and_key inp o_key) in
  let '(s1, o_key, rc) := decrypt_256_rounds 13 13 s1 o_key 0x80 in
  (copy_and_key s1 o_key, o_key).
