(* ===== verification/AesSpec.v ===== *)
(** * AesSpec: the cipher of FIPS 197, and CMAC of RFC 4493

    The reference the code is compared with, written from the standards: the
    field by shifting and reduction, the S-box by inversion and an affine map, the
    state by rows and columns, the key schedule word by word; CMAC over a block
    cipher given as a function on blocks of 16 bytes, most significant first. *)

From Stdlib Require Import ZArith Lia.
From stdpp Require Import base list.
From S2P Require Import Prelude.

(** ** The field *)

(** Multiplication by x modulo x^8 + x^4 + x^3 + x + 1. *)
Definition xtime (a : Z) : Z := Z.lxor ((2 * a) mod 256) (if 128 <=? a then 0x1b else 0).

Fixpoint gf_mul_bits (n : nat) (a b : Z) : Z :=
  match n with
  | O => 0
  | S n => Z.lxor (if Z.odd b then a else 0) (gf_mul_bits n (xtime a) (b / 2))
  end.

Definition gf_mul (a b : Z) : Z := gf_mul_bits 8 a b.

Fixpoint gf_pow (a : Z) (n : nat) : Z :=
  match n with O => 1 | S n => gf_mul a (gf_pow a n) end.

(** The inverse is the power 254 = 2 + 4 + ... + 128: [n] squarings to come. *)
Fixpoint gf_squares (n : nat) (a acc : Z) : Z :=
  match n with O => acc | S n => let a := gf_mul a a in gf_squares n a (gf_mul acc a) end.

Definition gf_inv (a : Z) : Z := gf_squares 7 a 1.

(** ** The S-box *)

Definition bit (a : Z) (i : nat) : bool := Z.testbit a (Z.of_nat (i mod 8)).

Definition affine (a : Z) : Z :=
  foldr (fun i acc =>
    Z.lor (Z.shiftl (b2z (xorb (xorb (xorb (xorb (xorb (bit a i) (bit a (i + 4))) (bit a (i + 5)))
      (bit a (i + 6))) (bit a (i + 7))) (bit 0x63 i))) (Z.of_nat i)) acc) 0 (seq 0 8).

Definition sub_byte (a : Z) : Z := affine (gf_inv a).

(** ** The state: byte [r + 4c] is in row [r] and column [c] *)

Definition cell (s : list Z) (r c : nat) : Z := nth (r mod 4 + 4 * (c mod 4)) s 0.

Definition of_cells (f : nat -> nat -> Z) : list Z :=
  concat (map (fun c => map (fun r => f r c) (seq 0 4)) (seq 0 4)).

Definition sub_bytes (s : list Z) : list Z := map sub_byte s.

Definition shift_rows (s : list Z) : list Z := of_cells (fun r c => cell s r (c + r)).

(** Row [r] of the matrix is [2; 3; 1; 1] rotated to the right by [r]. *)
Definition coefficient (r j : nat) : Z := nth ((4 + j - r) mod 4) [2; 3; 1; 1] 0.

Definition mix_columns (s : list Z) : list Z :=
  of_cells (fun r c =>
    Z.lxor (Z.lxor (Z.lxor (gf_mul (coefficient r 0) (cell s 0 c)) (gf_mul (coefficient r 1) (cell s 1 c)))
      (gf_mul (coefficient r 2) (cell s 2 c))) (gf_mul (coefficient r 3) (cell s 3 c))).

Definition xor_bytes (a b : list Z) : list Z := zip_with Z.lxor a b.

(** ** The key schedule *)

Definition rot_word (w : list Z) : list Z := drop 1 w ++ take 1 w.
Definition sub_word (w : list Z) : list Z := map sub_byte w.
Definition rcon (i : nat) : list Z := [gf_pow 2 (i - 1); 0; 0; 0].

(** The word after [ws], for a key of [nk] words. *)
Definition next_word (nk : nat) (ws : list (list Z)) : list Z :=
  let i := length ws in
  let temp := nth (i - 1) ws [] in
  let temp :=
    if Nat.eqb (i mod nk) 0 then xor_bytes (sub_word (rot_word temp)) (rcon (i / nk))
    else if Nat.ltb 6 nk && Nat.eqb (i mod nk) 4 then sub_word temp
    else temp in
  xor_bytes (nth (i - nk) ws []) temp.

Fixpoint expand (nk n : nat) (ws : list (list Z)) : list (list Z) :=
  match n with O => ws | S n => expand nk n (ws ++ [next_word nk ws]) end.

Fixpoint words (nk : nat) (key : list Z) : list (list Z) :=
  match nk with O => [] | S nk => take 4 key :: words nk (drop 4 key) end.

Definition key_expansion (nk : nat) (key : list Z) : list (list Z) :=
  expand nk (4 * (nk + 7) - nk) (words nk key).

(** The [r]-th round key. *)
Definition round_key_of (ws : list (list Z)) (r : nat) : list Z := concat (take 4 (drop (4 * r) ws)).

(** ** The cipher, with round keys [K] *)

Fixpoint cipher_rounds (K : nat -> list Z) (n r : nat) (s : list Z) : list Z :=
  match n with
  | O => s
  | S n => cipher_rounds K n (S r) (xor_bytes (mix_columns (shift_rows (sub_bytes s))) (K r))
  end.

Definition cipher (nr : nat) (K : nat -> list Z) (input : list Z) : list Z :=
  let s := cipher_rounds K (nr - 1) 1 (xor_bytes input (K 0%nat)) in
  xor_bytes (shift_rows (sub_bytes s)) (K nr).

(** AES with a key of [nk] words: 10, 12 or 14 rounds for 4, 6 or 8 words. *)
Definition aes (nk : nat) (key input : list Z) : list Z :=
  cipher (nk + 6) (round_key_of (key_expansion nk key)) input.

(** ** CMAC *)

(** A block as a number, most significant byte first. *)
Definition block_value (b : list Z) : Z := foldl (fun v x => 256 * v + x) 0 b.

Fixpoint value_bytes (n : nat) (v : Z) : list Z :=
  match n with O => [] | S n => value_bytes n (v / 256) ++ [v mod 256] end.

(** Multiplication by x in the field of 2^128 elements. *)
Definition double (b : list Z) : list Z :=
  let v := block_value b in
  value_bytes 16 (Z.lxor ((2 * v) mod 2 ^ 128) (if 2 ^ 127 <=? v then 0x87 else 0)).

Section Cmac.
Context (E : list Z -> list Z).

Definition subkey1 : list Z := double (E (replicate 16 0)).
Definition subkey2 : list Z := double subkey1.

(** The message followed by a one bit and zeros up to a full block. *)
Definition pad (m : list Z) : list Z := m ++ [0x80] ++ replicate (15 - length m) 0.

(** The chain over the message from the state [x], the last block masked. *)
Fixpoint cmac_from (n : nat) (x m : list Z) : list Z :=
  match n with
  | O => x
  | S n =>
      if Nat.leb (length m) 16 then
        let last := if Nat.eqb (length m) 16 then xor_bytes m subkey1 else xor_bytes (pad m) subkey2 in
        E (xor_bytes x last)
      else cmac_from n (E (xor_bytes x (take 16 m))) (drop 16 m)
  end.

Definition cmac (m : list Z) : list Z := cmac_from (S (length m)) (replicate 16 0) m.

End Cmac.

(** ** The functions of the Security Manager

    Core specification, volume 3, part H, 2.2; all values most significant byte
    first. *)

Definition AES_CMAC (k m : list Z) : list Z := cmac (aes 4 k) m.

Definition F4 (U V X : list Z) (Z0 : Z) : list Z := AES_CMAC X (U ++ V ++ [Z0]).

(** The salt 0x6C888391_AAF5A538_60370BDB_5A6083BE, the string btle, and 256. *)
Definition F5 (W N1 N2 A1 A2 : list Z) : list Z * list Z :=
  let SALT := [0x6C; 0x88; 0x83; 0x91; 0xAA; 0xF5; 0xA5; 0x38; 0x60; 0x37; 0x0B; 0xDB; 0x5A; 0x60; 0x83; 0xBE] in
  let T := AES_CMAC SALT W in
  let out counter := AES_CMAC T ([counter] ++ [0x62; 0x74; 0x6c; 0x65] ++ N1 ++ N2 ++ A1 ++ A2 ++ [0x01; 0x00]) in
  (out 0, out 1).

Definition F6 (W N1 N2 R IOcap A1 A2 : list Z) : list Z := AES_CMAC W (N1 ++ N2 ++ R ++ IOcap ++ A1 ++ A2).

(** The six digits shown to the user. *)
Definition G2 (U V X Y : list Z) : Z := block_value (AES_CMAC X (U ++ V ++ Y)) mod 2 ^ 32 mod 10 ^ 6.

Definition H6 (W keyID : list Z) : list Z := AES_CMAC W keyID.
Definition H7 (SALT W : list Z) : list Z := AES_CMAC SALT W.

(** The link key from the long term key: tmp1, then lebr; with [ct2] the first step is h7. *)
Definition link_key_of_ltk (ltk : list Z) (ct2 : bool) : list Z :=
  let tmp1 := [0x74; 0x6d; 0x70; 0x31] in
  H6 (if ct2 then H7 (replicate 12 0 ++ tmp1) ltk else H6 ltk tmp1) [0x6c; 0x65; 0x62; 0x72].

(** The long term key from the link key: tmp2, then brle. *)
Definition ltk_of_link_key (link_key : list Z) (ct2 : bool) : list Z :=
  let tmp2 := [0x74; 0x6d; 0x70; 0x32] in
  H6 (if ct2 then H7 (replicate 12 0 ++ tmp2) link_key else H6 link_key tmp2) [0x62; 0x72; 0x6c; 0x65].
