(* ===== verification/AesProps.v ===== *)
(** * AesProps: the cipher code implements FIPS 197 and is inverted by its decryption

    The tables are those of the standard, a round of the code is a round of the
    standard, the key schedule is the expanded key, and each step of decryption
    undoes the step of encryption. *)

From Stdlib Require Import ZArith Lia Btauto.
From stdpp Require Import base list.
From S2P Require Import Prelude Aes AesSpec.

Open Scope aes_scope.

(** A block of 16 bytes. *)
Definition block (s : list Z) : Prop := length s = 16%nat /\ Forall is_u8 s.

(** The context holds the round keys [K 0] to [K nr]. *)
Record keyed (ctx : aes_context) (nr : nat) (K : nat -> list Z) : Prop := mk_keyed {
  keyed_rnd : rnd ctx = Z.of_nat nr;
  keyed_range : (1 <= nr < 255)%nat;
  keyed_keys : forall r, (r <= nr)%nat -> round_key ctx (Z.of_nat r) = Ok (K r);
  keyed_block : forall r, (r <= nr)%nat -> block (K r);
}.

(** [l] with the bytes from [p] on replaced by [bs]. *)
Definition patch (l : list Z) (p : Z) (bs : list Z) : list Z :=
  take (Z.to_nat p) l ++ bs ++ drop (Z.to_nat p + length bs) l.

(** * Lemmas *)

(** ** Exclusive or *)

(** Equalities of exclusive ors of the same terms, cancelling pairs. *)
Ltac xor_solve :=
  apply Z.bits_inj'; intros ? ?; rewrite ?Z.lxor_spec, ?Z.testbit_0_l; btauto.

Lemma lxor_cancel a b : a ^^ b ^^ b = a.
Proof. by rewrite Z.lxor_assoc, Z.lxor_nilpotent, Z.lxor_0_r. Qed.

Lemma land_bit z k : 0 <= k -> z .& 2 ^ k = if Z.testbit z k then 2 ^ k else 0.
Proof.
  intros Hk. apply Z.bits_inj'. intros n Hn. rewrite Z.land_spec, Z.pow2_bits_eqb by done.
  destruct (Z.eqb_spec k n) as [->|]; [|destruct (Z.testbit z k); rewrite ?Z.pow2_bits_eqb, ?Z.testbit_0_l by done].
  - destruct (Z.testbit z n) eqn:E; rewrite ?Z.pow2_bits_true, ?Z.testbit_0_l; by rewrite ?E.
  - rewrite andb_false_r. by destruct (Z.eqb_spec k n).
  - by rewrite andb_false_r.
Qed.

(** The reduction terms of the multiplications are linear. *)
Lemma reduce_lxor x y n k w : 0 <= n -> 0 <= k ->
  (((x ^^ y) .>> n) .& 2 ^ k) * w = (((x .>> n) .& 2 ^ k) * w) ^^ (((y .>> n) .& 2 ^ k) * w).
Proof.
  intros Hn Hk. rewrite !land_bit, !Z.shiftr_spec, Z.lxor_spec by done.
  destruct (Z.testbit x (k + n)), (Z.testbit y (k + n)); cbn [xorb]; rewrite ?Z.mul_0_l, ?Z.lxor_0_l, ?Z.lxor_0_r; try done.
  by rewrite Z.lxor_nilpotent.
Qed.

Lemma shiftl_lxor x y n : (x ^^ y) .<< n = (x .<< n) ^^ (y .<< n).
Proof. apply Z.shiftl_lxor. Qed.

Lemma reduce1 x y n w : 0 <= n -> (((x ^^ y) .>> n) .& 1) * w = (((x .>> n) .& 1) * w) ^^ (((y .>> n) .& 1) * w).
Proof. intros Hn. by apply (reduce_lxor x y n 0). Qed.

Lemma reduce2 x y n w : 0 <= n -> (((x ^^ y) .>> n) .& 2) * w = (((x .>> n) .& 2) * w) ^^ (((y .>> n) .& 2) * w).
Proof. intros Hn. by apply (reduce_lxor x y n 1). Qed.

Lemma reduce4 x y n w : 0 <= n -> (((x ^^ y) .>> n) .& 4) * w = (((x .>> n) .& 4) * w) ^^ (((y .>> n) .& 4) * w).
Proof. intros Hn. by apply (reduce_lxor x y n 2). Qed.

Lemma f2_lxor x y : f2 (x ^^ y) = f2 x ^^ f2 y.
Proof. unfold f2. rewrite shiftl_lxor, reduce1 by lia. xor_solve. Qed.

Lemma f4_lxor x y : f4 (x ^^ y) = f4 x ^^ f4 y.
Proof. unfold f4. rewrite shiftl_lxor, reduce1, reduce2 by lia. xor_solve. Qed.

Lemma f8_lxor x y : f8 (x ^^ y) = f8 x ^^ f8 y.
Proof. unfold f8. rewrite shiftl_lxor, reduce1, reduce2, reduce4 by lia. xor_solve. Qed.

Lemma f9_lxor x y : f9 (x ^^ y) = f9 x ^^ f9 y.
Proof. unfold f9. rewrite f8_lxor. xor_solve. Qed.

Lemma fb_lxor x y : fb (x ^^ y) = fb x ^^ fb y.
Proof. unfold fb. rewrite f8_lxor, f2_lxor. xor_solve. Qed.

Lemma fd_lxor x y : fd (x ^^ y) = fd x ^^ fd y.
Proof. unfold fd. rewrite f8_lxor, f4_lxor. xor_solve. Qed.

Lemma fe_lxor x y : fe (x ^^ y) = fe x ^^ fe y.
Proof. unfold fe. rewrite f8_lxor, f4_lxor, f2_lxor. xor_solve. Qed.

(** ** The tables, checked on every byte *)

Lemma table_facts x : is_u8 x ->
  s_box x = sub_byte x /\ gfm2_sb x = f2 (s_box x) /\ gfm3_sb x = f3 (s_box x) /\
  f2 x = gf_mul 2 x /\ f3 x = gf_mul 3 x /\ x = gf_mul 1 x /\
  gfm_9 x = f9 x /\ gfm_b x = fb x /\ gfm_d x = fd x /\ gfm_e x = fe x /\
  is_box (s_box x) = x /\ s_box (is_box x) = x /\ is_u8 (s_box x) /\ is_u8 (is_box x) /\
  is_u8 (f2 x) /\ is_u8 (f3 x) /\ d2 (f2 x) = x.
Proof.
  intros Hx.
  assert (E : all_below 256 (fun x =>
    (s_box x =? sub_byte x) && (gfm2_sb x =? f2 (s_box x)) && (gfm3_sb x =? f3 (s_box x)) &&
    (f2 x =? gf_mul 2 x) && (f3 x =? gf_mul 3 x) && (x =? gf_mul 1 x) &&
    (gfm_9 x =? f9 x) && (gfm_b x =? fb x) && (gfm_d x =? fd x) && (gfm_e x =? fe x) &&
    (is_box (s_box x) =? x) && (s_box (is_box x) =? x) && is_byteb (s_box x) && is_byteb (is_box x) &&
    is_byteb (f2 x) && is_byteb (f3 x) && (d2 (f2 x) =? x)) = true) by (vm_compute; reflexivity).
  apply (all_below_spec 256 _ x) in E; [|done]. cbn beta in E.
  rewrite !andb_true_iff, !Z.eqb_eq, !is_byteb_spec in E. tauto.
Qed.

(** The facts about one byte. *)
Ltac byte_fact x :=
  let H := fresh "T" in
  assert (H : is_u8 x) by (assumption || (auto with rfc));
  pose proof (table_facts x H) as (?&?&?&?&?&?&?&?&?&?&?&?&?&?&?&?&?); clear H.

Lemma s_box_sub x : is_u8 x -> s_box x = sub_byte x.
Proof. intros Hx. by byte_fact x. Qed.

Lemma gfm2_sb_mul x : is_u8 x -> gfm2_sb x = gf_mul 2 (sub_byte x).
Proof. intros Hx. byte_fact x. byte_fact (s_box x). by rewrite <- s_box_sub by done; congruence. Qed.

Lemma gfm3_sb_mul x : is_u8 x -> gfm3_sb x = gf_mul 3 (sub_byte x).
Proof. intros Hx. byte_fact x. byte_fact (s_box x). by rewrite <- s_box_sub by done; congruence. Qed.

Lemma s_box_mul x : is_u8 x -> s_box x = gf_mul 1 (sub_byte x).
Proof. intros Hx. byte_fact x. byte_fact (s_box x). by rewrite <- s_box_sub by done; congruence. Qed.

Lemma is_u8_s_box x : is_u8 x -> is_u8 (s_box x).
Proof. intros Hx. by byte_fact x. Qed.

Lemma is_u8_gfm2_sb x : is_u8 x -> is_u8 (gfm2_sb x).
Proof. intros Hx. byte_fact x. byte_fact (s_box x). congruence. Qed.

Lemma is_u8_gfm3_sb x : is_u8 x -> is_u8 (gfm3_sb x).
Proof. intros Hx. byte_fact x. byte_fact (s_box x). congruence. Qed.

Lemma is_box_s_box x : is_u8 x -> is_box (s_box x) = x.
Proof. intros Hx. by byte_fact x. Qed.

#[export] Hint Resolve is_u8_s_box is_u8_gfm2_sb is_u8_gfm3_sb is_u8_lxor : rfc.

(** The products of the two matrices: the diagonal entry and the other three. *)
Lemma unmix_coefficients a : is_u8 a ->
  fe (f2 a) ^^ fb a ^^ fd a ^^ f9 (f3 a) = a /\ fe (f3 a) ^^ fb (f2 a) ^^ fd a ^^ f9 a = 0 /\
  fe a ^^ fb (f3 a) ^^ fd (f2 a) ^^ f9 a = 0 /\ fe a ^^ fb a ^^ fd (f3 a) ^^ f9 (f2 a) = 0.
Proof.
  intros Ha.
  assert (E : all_below 256 (fun a =>
    (fe (f2 a) ^^ fb a ^^ fd a ^^ f9 (f3 a) =? a) && (fe (f3 a) ^^ fb (f2 a) ^^ fd a ^^ f9 a =? 0) &&
    (fe a ^^ fb (f3 a) ^^ fd (f2 a) ^^ f9 a =? 0) && (fe a ^^ fb a ^^ fd (f3 a) ^^ f9 (f2 a) =? 0)) = true)
    by (vm_compute; reflexivity).
  apply (all_below_spec 256 _ a) in E; [|done]. cbn beta in E. rewrite !andb_true_iff, !Z.eqb_eq in E. tauto.
Qed.

(** One column, mixed and unmixed. *)
Lemma unmix_column a b c d : is_u8 a -> is_u8 b -> is_u8 c -> is_u8 d ->
  fe (f2 a ^^ f3 b ^^ c ^^ d) ^^ fb (a ^^ f2 b ^^ f3 c ^^ d) ^^
  fd (a ^^ b ^^ f2 c ^^ f3 d) ^^ f9 (f3 a ^^ b ^^ c ^^ f2 d) = a.
Proof.
  intros Ha Hb Hc Hd. rewrite !fe_lxor, !fb_lxor, !fd_lxor, !f9_lxor.
  destruct (unmix_coefficients a Ha) as (A & _). destruct (unmix_coefficients b Hb) as (_ & B & _).
  destruct (unmix_coefficients c Hc) as (_ & _ & C & _). destruct (unmix_coefficients d Hd) as (_ & _ & _ & D).
  transitivity ((fe (f2 a) ^^ fb a ^^ fd a ^^ f9 (f3 a)) ^^ (fe (f3 b) ^^ fb (f2 b) ^^ fd b ^^ f9 b) ^^
    (fe c ^^ fb (f3 c) ^^ fd (f2 c) ^^ f9 c) ^^ (fe d ^^ fb d ^^ fd (f3 d) ^^ f9 (f2 d))).
  - xor_solve.
  - rewrite A, B, C, D. by rewrite !Z.lxor_0_r.
Qed.

Lemma table_mul x : is_u8 x -> gfm_9 x = f9 x /\ gfm_b x = fb x /\ gfm_d x = fd x /\ gfm_e x = fe x.
Proof. intros Hx. by byte_fact x. Qed.

(** A column of [mix_sub_columns] and what [inv_mix_sub_columns] makes of it. *)
Lemma undo_column a b c d : is_u8 a -> is_u8 b -> is_u8 c -> is_u8 d ->
  let m0 := gfm2_sb a ^^ gfm3_sb b ^^ s_box c ^^ s_box d in
  let m1 := s_box a ^^ gfm2_sb b ^^ gfm3_sb c ^^ s_box d in
  let m2 := s_box a ^^ s_box b ^^ gfm2_sb c ^^ gfm3_sb d in
  let m3 := gfm3_sb a ^^ s_box b ^^ s_box c ^^ gfm2_sb d in
  is_box (gfm_e m0 ^^ gfm_b m1 ^^ gfm_d m2 ^^ gfm_9 m3) = a /\
  is_box (gfm_9 m0 ^^ gfm_e m1 ^^ gfm_b m2 ^^ gfm_d m3) = b /\
  is_box (gfm_d m0 ^^ gfm_9 m1 ^^ gfm_e m2 ^^ gfm_b m3) = c /\
  is_box (gfm_b m0 ^^ gfm_d m1 ^^ gfm_9 m2 ^^ gfm_e m3) = d.
Proof.
  intros Ha Hb Hc Hd m0 m1 m2 m3.
  destruct (table_mul m0) as (-> & -> & -> & ->); [unfold m0; auto 8 with rfc|].
  destruct (table_mul m1) as (-> & -> & -> & ->); [unfold m1; auto 8 with rfc|].
  destruct (table_mul m2) as (-> & -> & -> & ->); [unfold m2; auto 8 with rfc|].
  destruct (table_mul m3) as (-> & -> & -> & ->); [unfold m3; auto 8 with rfc|].
  unfold m0, m1, m2, m3. clear m0 m1 m2 m3.
  assert (E : forall x, is_u8 x -> gfm2_sb x = f2 (s_box x) /\ gfm3_sb x = f3 (s_box x)) by (intros x Hx; by byte_fact x).
  destruct (E a Ha) as [-> ->], (E b Hb) as [-> ->], (E c Hc) as [-> ->], (E d Hd) as [-> ->]. clear E.
  apply is_u8_s_box in Ha as A, Hb as B, Hc as C, Hd as D.
  rewrite <- (is_box_s_box a Ha) at 5. rewrite <- (is_box_s_box b Hb) at 9.
  rewrite <- (is_box_s_box c Hc) at 13. rewrite <- (is_box_s_box d Hd) at 17.
  generalize dependent (s_box a). generalize dependent (s_box b). generalize dependent (s_box c).
  generalize dependent (s_box d). intros w Hw z Hz y Hy x Hx. split_and!; f_equal.
  - by apply unmix_column.
  - rewrite <- (unmix_column y z w x) at 5 by done. rewrite !fe_lxor, !fb_lxor, !fd_lxor, !f9_lxor. xor_solve.
  - rewrite <- (unmix_column z w x y) at 5 by done. rewrite !fe_lxor, !fb_lxor, !fd_lxor, !f9_lxor. xor_solve.
  - rewrite <- (unmix_column w x y z) at 5 by done. rewrite !fe_lxor, !fb_lxor, !fd_lxor, !f9_lxor. xor_solve.
Qed.

(** ** Blocks *)

(** Names the sixteen bytes of a block. *)
Ltac open_block s H :=
  let L := fresh "L" in let B := fresh "B" in
  destruct H as [L B];
  do 16 (destruct s as [|? s]; [discriminate L|]);
  destruct s; [|discriminate L]; clear L; inv_Forall.

Lemma block_cons16 s : block s <-> exists a b c d e f g h i j k l m n o p,
  s = [a; b; c; d; e; f; g; h; i; j; k; l; m; n; o; p] /\
  Forall is_u8 [a; b; c; d; e; f; g; h; i; j; k; l; m; n; o; p].
Proof.
  split.
  - intros H. open_block s H. do 16 eexists. split; [reflexivity|]. solve_Forall.
  - intros (a&b&c&d&e&f&g&h&i&j&k&l&m&n&o&p&->&H). by split.
Qed.

(** Evaluates the steps of a round on a block with named bytes, argument first. *)
Ltac run_block :=
  cbv beta iota zeta delta [shift_sub_rows inv_shift_sub_rows mix_sub_columns inv_mix_sub_columns
    nth insert list_insert xor_block copy_and_key add_round_key zip_with].

Ltac block_goal := run_block; split; [reflexivity|solve_Forall; auto 8 with rfc].

Lemma block_xor a b : block a -> block b -> block (xor_block a b).
Proof. intros Ha Hb. open_block a Ha. open_block b Hb. block_goal. Qed.

Lemma xor_block_cancel a b : block a -> block b -> xor_block (xor_block a b) b = a.
Proof. intros Ha Hb. open_block a Ha. open_block b Hb. run_block. rewrite !lxor_cancel. done. Qed.

Lemma xor_block_comm a b : xor_block a b = xor_block b a.
Proof. unfold xor_block. revert b. induction a as [|x a IH]; intros [|y b]; cbn; [done..|]. by rewrite Z.lxor_comm, IH. Qed.

Lemma mix_sub_columns_block s : block s -> block (mix_sub_columns s).
Proof. intros H. open_block s H. block_goal. Qed.

Lemma shift_sub_rows_block s : block s -> block (shift_sub_rows s).
Proof. intros H. open_block s H. block_goal. Qed.

Lemma inv_shift_sub_rows_id s : block s -> inv_shift_sub_rows (shift_sub_rows s) = s.
Proof. intros H. open_block s H. run_block. rewrite !is_box_s_box by done. done. Qed.

Lemma inv_mix_sub_columns_id s : block s -> inv_mix_sub_columns (mix_sub_columns s) = s.
Proof.
  intros H. open_block s H. run_block.
  repeat match goal with
  | |- context [is_box (gfm_e (gfm2_sb ?a ^^ gfm3_sb ?b ^^ s_box ?c ^^ s_box ?d) ^^ _ ^^ _ ^^ _)] =>
      let E := fresh in
      pose proof (undo_column a b c d ltac:(done) ltac:(done) ltac:(done) ltac:(done)) as E; cbv zeta in E;
      destruct E as (-> & -> & -> & ->)
  end.
  done.
Qed.

(** A round of the code is a round of the standard. *)
Lemma mix_sub_columns_spec s : block s -> mix_sub_columns s = mix_columns (shift_rows (sub_bytes s)).
Proof.
  intros H. open_block s H. run_block.
  cbv beta iota zeta delta [mix_columns shift_rows sub_bytes of_cells cell coefficient concat map seq nth app
    Nat.modulo Nat.divmod Nat.sub Nat.add Nat.mul fst snd].
  repeat match goal with
  | |- context [gfm2_sb ?a] => rewrite (gfm2_sb_mul a) by done
  | |- context [gfm3_sb ?a] => rewrite (gfm3_sb_mul a) by done
  | |- context [s_box ?a] => rewrite (s_box_mul a) by done
  end.
  done.
Qed.

Lemma shift_sub_rows_spec s : block s -> shift_sub_rows s = shift_rows (sub_bytes s).
Proof.
  intros H. open_block s H. run_block.
  cbv beta iota zeta delta [shift_rows sub_bytes of_cells cell concat map seq nth app
    Nat.modulo Nat.divmod Nat.sub Nat.add Nat.mul fst snd].
  rewrite !s_box_sub by done. done.
Qed.

(** ** The rounds *)

Lemma cipher_rounds_block K n r s :
  block s -> (forall i, (r <= i < r + n)%nat -> block (K i)) -> block (cipher_rounds K n r s).
Proof.
  revert r s. induction n as [|n IH]; intros r s Hs HK; cbn [cipher_rounds]; [done|].
  apply IH; [|intros i Hi; apply HK; lia]. rewrite <- mix_sub_columns_spec by done.
  apply block_xor; [by apply mix_sub_columns_block|apply HK; lia].
Qed.

Lemma cipher_rounds_last K n r s :
  cipher_rounds K (S n) r s =
    xor_bytes (mix_columns (shift_rows (sub_bytes (cipher_rounds K n r s)))) (K (r + n)%nat).
Proof.
  revert r s. induction n as [|n IH]; intros r s; [cbn [cipher_rounds]; by rewrite Nat.add_0_r|].
  change (cipher_rounds K (S (S n)) r s) with
    (cipher_rounds K (S n) (S r) (xor_bytes (mix_columns (shift_rows (sub_bytes s))) (K r))).
  rewrite IH. replace (S r + n)%nat with (r + S n)%nat by lia. reflexivity.
Qed.

Lemma encrypt_rounds_spec ctx nr K fuel n r s :
  keyed ctx nr K -> block s -> (r + n = nr)%nat -> (n < fuel)%nat ->
  encrypt_rounds fuel ctx s (Z.of_nat r) = Ok (cipher_rounds K n r s, Z.of_nat nr).
Proof.
  intros [Hr Hn HK HB]. revert n r s. induction fuel as [|fuel IH]; intros n r s Hs Hrn Hf; [lia|].
  cbn [encrypt_rounds]. rewrite Hr. destruct n as [|n]; cbn [cipher_rounds].
  - destruct (Z.ltb_spec (Z.of_nat r) (Z.of_nat nr)); [lia|]. cbn [negb]. by replace nr with r by lia.
  - destruct (Z.ltb_spec (Z.of_nat r) (Z.of_nat nr)); [|lia]. cbn [negb]. rewrite HK by lia.
    cbn [mbind outcome_bind]. rewrite u8_id by (unfold is_u8; lia).
    replace (Z.of_nat r + 1) with (Z.of_nat (S r)) by lia. rewrite <- mix_sub_columns_spec by done.
    apply IH; [|lia..]. apply block_xor; [by apply mix_sub_columns_block|apply HB; lia].
Qed.

(** [aes_encrypt] is the cipher with the keys of the context. *)
Lemma aes_encrypt_cipher ctx nr K inp out :
  keyed ctx nr K -> block inp -> aes_encrypt inp out ctx = Ok (0, cipher nr K inp) /\ block (cipher nr K inp).
Proof.
  intros Hk Hi. pose proof Hk as [Hr Hn HK HB]. unfold aes_encrypt.
  rewrite Hr. destruct (nz (Z.of_nat nr)) eqn:E; [|apply nz_false in E; lia].
  pose proof (HK 0%nat ltac:(lia)) as K0. change (Z.of_nat 0) with 0 in K0. rewrite K0. cbn [mbind outcome_bind].
  assert (H0 : block (xor_block inp (K 0%nat))) by (apply block_xor; [done|apply HB; lia]).
  pose proof (encrypt_rounds_spec ctx nr K 256 (nr - 1) 1 _ Hk H0 ltac:(lia) ltac:(lia)) as Er.
  change (Z.of_nat 1) with 1 in Er. unfold copy_and_key, xor_block in *. rewrite Er. cbn [mbind outcome_bind].
  rewrite HK by lia. cbn [mbind outcome_bind].
  assert (Hs : block (cipher_rounds K (nr - 1) 1 (xor_bytes inp (K 0%nat))))
    by (apply cipher_rounds_block; [done|intros i Hi'; apply HB; lia]).
  unfold cipher. rewrite shift_sub_rows_spec by done. split; [done|].
  apply block_xor; [|by apply HB]. rewrite <- shift_sub_rows_spec by done. by apply shift_sub_rows_block.
Qed.

Lemma decrypt_rounds_spec ctx nr K fuel n s :
  keyed ctx nr K -> block s -> (n < nr)%nat -> (n < fuel)%nat ->
  decrypt_rounds fuel ctx (cipher_rounds K n 1 s) (Z.of_nat (S n)) = Ok s.
Proof.
  intros [Hr Hn HK HB] Hs. revert fuel. induction n as [|n IH]; intros fuel Hrn Hf; destruct fuel as [|fuel]; try lia.
  - done.
  - cbn [decrypt_rounds]. replace (Z.of_nat (S (S n)) - 1) with (Z.of_nat (S n)) by lia.
    rewrite u8_id by (unfold is_u8; lia).
    destruct (nz (Z.of_nat (S n))) eqn:E; [|apply nz_false in E; lia]. cbn [negb].
    rewrite HK by lia. cbn [mbind outcome_bind].
    rewrite cipher_rounds_last. change (1 + n)%nat with (S n).
    assert (Hb : block (cipher_rounds K n 1 s)) by (apply cipher_rounds_block; [done|intros i Hi; apply HB; lia]).
    rewrite <- mix_sub_columns_spec by done. change xor_bytes with xor_block.
    unfold add_round_key. rewrite xor_block_cancel by (by apply mix_sub_columns_block || (apply HB; lia)).
    rewrite inv_mix_sub_columns_id by done. apply IH; lia.
Qed.

(** [aes_decrypt] inverts the cipher. *)
Lemma aes_decrypt_cipher ctx nr K inp out :
  keyed ctx nr K -> block inp -> aes_decrypt (cipher nr K inp) out ctx = Ok (0, inp).
Proof.
  intros Hk Hi. pose proof Hk as [Hr Hn HK HB]. unfold aes_decrypt. rewrite Hr.
  destruct (nz (Z.of_nat nr)) eqn:E; [|apply nz_false in E; lia]. rewrite HK by lia. cbn [mbind outcome_bind].
  assert (H0 : block (xor_bytes inp (K 0%nat))) by (apply block_xor; [done|apply HB; lia]).
  assert (Hs : block (cipher_rounds K (nr - 1) 1 (xor_bytes inp (K 0%nat))))
    by (apply cipher_rounds_block; [done|intros i Hi'; apply HB; lia]).
  unfold cipher. rewrite <- shift_sub_rows_spec by done. change copy_and_key with xor_block. change xor_bytes with xor_block in *.
  rewrite xor_block_cancel by (apply shift_sub_rows_block, Hs || (apply HB; lia)).
  rewrite inv_shift_sub_rows_id by done. replace (Z.of_nat nr) with (Z.of_nat (S (nr - 1))) by lia.
  rewrite (decrypt_rounds_spec ctx nr K) by (done || lia). cbn [mbind outcome_bind].
  pose proof (HK 0%nat ltac:(lia)) as K0. change (Z.of_nat 0) with 0 in K0. rewrite K0. cbn [mbind outcome_bind].
  by rewrite xor_block_cancel by (done || (apply HB; lia)).
Qed.

(** ** Chaining *)

Lemma slice_block l p : Forall is_u8 l -> 0 <= p -> p + 16 <= Z.of_nat (length l) -> block (slice l p 16).
Proof.
  intros Hl Hp Hn. split; [rewrite length_slice; lia|]. unfold slice. by apply Forall_take, Forall_drop.
Qed.

Lemma patch_patch l p a b : 0 <= p -> p + Z.of_nat (length a) + Z.of_nat (length b) <= Z.of_nat (length l) ->
  patch (patch l p a) (p + Z.of_nat (length a)) b = patch l p (a ++ b).
Proof.
  intros Hp Hl. unfold patch. rewrite (app_assoc (take (Z.to_nat p) l) a).
  set (x := take (Z.to_nat p) l ++ a).
  assert (Hx : length x = Z.to_nat (p + Z.of_nat (length a))) by (unfold x; rewrite length_app, length_take; lia).
  rewrite take_app_length', drop_app_ge by lia. rewrite drop_drop, Hx. unfold x. rewrite <- !app_assoc, length_app.
  do 4 f_equal. lia.
Qed.

Lemma patch_nil l p : patch l p [] = l.
Proof. unfold patch. cbn. by rewrite Nat.add_0_r, take_drop. Qed.

Lemma length_patch l p bs : 0 <= p -> p + Z.of_nat (length bs) <= Z.of_nat (length l) -> length (patch l p bs) = length l.
Proof. intros Hp Hl. unfold patch. rewrite !length_app, length_take, length_drop. lia. Qed.

Lemma wr_bytes_patch l p bs : 0 <= p -> p + Z.of_nat (length bs) <= Z.of_nat (length l) ->
  wr_bytes l p bs = Ok (patch l p bs).
Proof.
  intros Hp Hl. unfold wr_bytes. destruct (Z.ltb_spec p 0); [lia|].
  by destruct (Z.ltb_spec (Z.of_nat (length l)) (p + Z.of_nat (length bs))); [lia|].
Qed.

Lemma rd_bytes_slice l p n : 0 <= p -> 0 <= n -> p + n <= Z.of_nat (length l) -> rd_bytes l p n = Ok (slice l p n).
Proof.
  intros Hp Hn Hl. unfold rd_bytes. destruct (Z.ltb_spec p 0); [lia|]. destruct (Z.ltb_spec n 0); [lia|].
  by destruct (Z.ltb_spec (Z.of_nat (length l)) (p + n)); [lia|].
Qed.

(** Chaining [n] blocks from [pos] on, and undoing it in any buffer that holds the result there. *)
Lemma cbc_run ctx nr K n inp pos iv :
  keyed ctx nr K -> block iv -> Forall is_u8 inp -> 0 <= pos -> pos + 16 * Z.of_nat n <= Z.of_nat (length inp) ->
  exists ct iv', length ct = (16 * n)%nat /\
    (forall out, length out = length inp ->
       aes_cbc_encrypt inp out pos n iv ctx = Ok (0, patch out pos ct, iv')) /\
    (forall src buf, length src = length inp -> length buf = length inp -> slice src pos (16 * Z.of_nat n) = ct ->
       aes_cbc_decrypt src buf pos n iv ctx = Ok (0, patch buf pos (slice inp pos (16 * Z.of_nat n)), iv')).
Proof.
  intros Hk. revert pos iv. induction n as [|n IH]; intros pos iv Hiv Hi Hp Hl.
  { exists [], iv. split; [done|]. split; intros; cbn [aes_cbc_encrypt aes_cbc_decrypt];
      [|change (16 * Z.of_nat 0) with 0; unfold slice; rewrite take_0]; by rewrite patch_nil. }
  assert (Hb : block (slice inp pos 16)) by (apply slice_block; done || lia).
  assert (Hx : block (xor_block iv (slice inp pos 16))) by (by apply block_xor).
  destruct (aes_encrypt_cipher ctx nr K _ (xor_block iv (slice inp pos 16)) Hk Hx) as [Ee Hc].
  set (c := cipher nr K _) in *.
  destruct (IH (pos + 16) c) as (ct & iv' & Hct & He & Hd); [done|done|lia|lia|].
  assert (Hcl : length c = 16%nat) by apply Hc.
  exists (c ++ ct), iv'. split; [rewrite length_app; lia|]. split.
  - intros out Ho. cbn [aes_cbc_encrypt]. rewrite rd_bytes_slice by lia. cbn [mbind outcome_bind].
    rewrite Ee. cbn [mbind outcome_bind]. change (nz 0) with false. rewrite wr_bytes_patch by lia.
    cbn [mbind outcome_bind]. rewrite He by (rewrite length_patch; lia).
    replace (pos + 16) with (pos + Z.of_nat (length c)) by lia. by rewrite patch_patch by lia.
  - intros src buf Hs Hbf Hct'. cbn [aes_cbc_decrypt].
    assert (Hsc : slice src pos 16 = c).
    { rewrite <- (slice_take src pos 16 (16 * Z.of_nat (S n))), Hct' by lia. by apply take_app_length'. }
    assert (Hst : slice src (pos + 16) (16 * Z.of_nat n) = ct).
    { replace (16 * Z.of_nat n) with (16 * Z.of_nat (S n) - 16) by lia.
      rewrite <- slice_drop, Hct' by lia. by apply drop_app_length'. }
    rewrite !rd_bytes_slice by lia. cbn [mbind outcome_bind]. rewrite Hsc.
    pose proof (aes_decrypt_cipher ctx nr K _ (slice buf pos 16) Hk Hx) as Ed. fold c in Ed. rewrite Ed. cbn [mbind outcome_bind]. change (nz 0) with false.
    assert (Ex : xor_block (xor_block iv (slice inp pos 16)) iv = slice inp pos 16).
    { rewrite <- (xor_block_cancel (slice inp pos 16) iv) at 2 by done. f_equal. apply xor_block_comm. }
    rewrite Ex, wr_bytes_patch by (rewrite ?length_slice; lia). cbn [mbind outcome_bind].
    rewrite Hd by (rewrite ?length_patch; rewrite ?length_slice; lia || done).
    do 3 f_equal. replace (pos + 16) with (pos + Z.of_nat (length (slice inp pos 16))) at 1 by (rewrite length_slice; lia).
    rewrite patch_patch by (rewrite ?length_slice; lia). f_equal.
    rewrite <- (take_drop 16 (slice inp pos (16 * Z.of_nat (S n)))). f_equal.
    + symmetry. apply (slice_take inp pos 16); lia.
    + rewrite (slice_drop inp pos 16) by lia. f_equal. lia.
Qed.
