(* ===== verification/AesKeys.v ===== *)
(** * AesKeys: the key schedule

    [aes_set_key] fills the context with the expanded key of FIPS 197, for keys of
    128, 192 and 256 bits, and the keys computed while encrypting are the same. *)

From Stdlib Require Import ZArith Lia.
From stdpp Require Import base list.
From S2P Require Import Prelude Aes AesSpec AesProps.

Open Scope aes_scope.

(** Words of the expanded key: four bytes each. *)
Definition word_list (ws : list (list Z)) : Prop := Forall (fun w => length w = 4%nat /\ Forall is_u8 w) ws.

(** The round constant the code holds before word [i]. *)
Definition next_rc (nk i : nat) : Z := gf_pow 2 ((i + nk - 1) / nk - 1).

(** The key lengths and their number of words. *)
Definition key_size (keylen : Z) (nk : nat) : Prop :=
  (nk = 4%nat /\ (keylen = 16 \/ keylen = 128)) \/ (nk = 6%nat /\ (keylen = 24 \/ keylen = 192)) \/
  (nk = 8%nat /\ keylen = 32).

(** * Lemmas *)

Lemma gf_pow_2 n : is_u8 (gf_pow 2 n) /\ u8 (f2 (gf_pow 2 n)) = gf_pow 2 (S n).
Proof.
  assert (H : forall x, is_u8 x -> f2 x = gf_mul 2 x /\ is_u8 (f2 x)) by (intros x Hx; by byte_fact x).
  assert (Hp : forall n, is_u8 (gf_pow 2 n)).
  { induction n0 as [|k IH]; [done|]. cbn [gf_pow]. destruct (H _ IH) as [<- Hu]. done. }
  split; [apply Hp|]. destruct (H _ (Hp n)) as [E Hu]. rewrite u8_id by done. exact E.
Qed.

Lemma lookup_concat_words ws j w t :
  word_list ws -> ws !! j = Some w -> (t < 4)%nat -> concat ws !! (4 * j + t)%nat = w !! t.
Proof.
  revert j. induction ws as [|v ws IH]; intros j Hw Hj Ht; [done|].
  inversion_clear Hw as [|? ? [Hv _] Hw']. destruct j as [|j]; cbn in Hj |- *.
  - simplify_eq. by rewrite lookup_app_l by lia.
  - rewrite lookup_app_r by lia. rewrite <- (IH j Hw' Hj Ht). f_equal. lia.
Qed.

Lemma length_concat_words ws : word_list ws -> length (concat ws) = (4 * length ws)%nat.
Proof. induction 1 as [|w ws [Hw _] _ IH]; [done|]. cbn. rewrite length_app, IH. lia. Qed.

(** A byte of word [j] of a schedule that starts with [ws]. *)
Lemma rd_word ws rest j a b c d :
  word_list ws -> ws !! j = Some [a; b; c; d] -> let k := concat ws ++ rest in
  rd k (4 * Z.of_nat j) = Ok a /\ rd k (4 * Z.of_nat j + 1) = Ok b /\
  rd k (4 * Z.of_nat j + 2) = Ok c /\ rd k (4 * Z.of_nat j + 3) = Ok d.
Proof.
  intros Hw Hj k. pose proof (lookup_lt_Some _ _ _ Hj) as Hlt. pose proof (length_concat_words ws Hw) as Hl.
  assert (E : forall t x, (t < 4)%nat -> [a; b; c; d] !! t = Some x -> rd k (4 * Z.of_nat j + Z.of_nat t) = Ok x).
  { intros t x Ht Hx. unfold rd. destruct (Z.ltb_spec (4 * Z.of_nat j + Z.of_nat t) 0); [lia|].
    replace (Z.to_nat _) with (4 * j + t)%nat by lia. unfold k. rewrite lookup_app_l by lia.
    by rewrite (lookup_concat_words ws j _ t Hw Hj Ht), Hx. }
  rewrite <- (Z.add_0_r (4 * _)) at 1.
  split_and!; [apply (E 0%nat)|apply (E 1%nat)|apply (E 2%nat)|apply (E 3%nat)]; lia || done.
Qed.

Lemma wr_one l p v : 0 <= p < Z.of_nat (length l) -> wr_bytes l p [v] = Ok (<[Z.to_nat p := v]> l).
Proof.
  intros Hp. rewrite wr_bytes_patch by (cbn; lia). f_equal. unfold patch. cbn [app length].
  destruct (lookup_lt_is_Some_2 l (Z.to_nat p)) as [x Hx]; [lia|].
  rewrite insert_take_drop by lia. rewrite Nat.add_1_r. done.
Qed.

(** The four writes of a step. *)
Lemma wr_word pre x0 x1 x2 x3 rest t v :
  Z.of_nat (length pre) = t ->
  wr_bytes (pre ++ x0 :: x1 :: x2 :: x3 :: rest) (t + 0) [v] = Ok (pre ++ v :: x1 :: x2 :: x3 :: rest) /\
  wr_bytes (pre ++ x0 :: x1 :: x2 :: x3 :: rest) (t + 1) [v] = Ok (pre ++ x0 :: v :: x2 :: x3 :: rest) /\
  wr_bytes (pre ++ x0 :: x1 :: x2 :: x3 :: rest) (t + 2) [v] = Ok (pre ++ x0 :: x1 :: v :: x3 :: rest) /\
  wr_bytes (pre ++ x0 :: x1 :: x2 :: x3 :: rest) (t + 3) [v] = Ok (pre ++ x0 :: x1 :: x2 :: v :: rest).
Proof.
  intros <-. assert (Hl : (length pre + 4 <= length (pre ++ x0 :: x1 :: x2 :: x3 :: rest))%nat)
    by (rewrite length_app; cbn; lia).
  split_and!; rewrite wr_one by lia; f_equal; rewrite insert_app_r_alt by lia;
    first [replace (Z.to_nat _ - length pre)%nat with 0%nat by lia
          |replace (Z.to_nat _ - length pre)%nat with 1%nat by lia
          |replace (Z.to_nat _ - length pre)%nat with 2%nat by lia
          |replace (Z.to_nat _ - length pre)%nat with 3%nat by lia];
    reflexivity.
Qed.

Lemma next_rc_step nk i :
  (0 < nk)%nat -> (nk <= i)%nat ->
  next_rc nk (S i) = if Nat.eqb (i mod nk) 0 then u8 (f2 (next_rc nk i)) else next_rc nk i.
Proof.
  intros Hn Hi. unfold next_rc. pose proof (Nat.div_mod i nk ltac:(lia)) as E.
  pose proof (Nat.mod_upper_bound i nk ltac:(lia)) as Hm.
  assert (H1 : ((S i + nk - 1) / nk = S (i / nk))%nat).
  { replace (S i + nk - 1)%nat with (i mod nk + S (i / nk) * nk)%nat by lia.
    rewrite Nat.div_add, Nat.div_small by lia. lia. }
  assert (H3 : (1 <= i / nk)%nat) by (apply Nat.div_le_lower_bound; lia).
  rewrite H1. destruct (Nat.eqb_spec (i mod nk) 0) as [E0|E0].
  - assert (H2 : ((i + nk - 1) / nk = i / nk)%nat).
    { replace (i + nk - 1)%nat with (nk - 1 + (i / nk) * nk)%nat by lia.
      rewrite Nat.div_add, Nat.div_small by lia. lia. }
    rewrite H2, (proj2 (gf_pow_2 _)). f_equal. lia.
  - assert (H2 : ((i + nk - 1) / nk = S (i / nk))%nat).
    { replace (i + nk - 1)%nat with (i mod nk - 1 + S (i / nk) * nk)%nat by lia.
      rewrite Nat.div_add, Nat.div_small by lia. lia. }
    by rewrite H2.
Qed.

(** The word and the constant that a step computes from the last word. *)
Lemma temp_word nk ws i a b c d p q r s :
  (4 <= nk <= 8)%nat -> length ws = i -> (nk <= i)%nat ->
  nth (i - 1) ws [] = [a; b; c; d] -> nth (i - nk) ws [] = [p; q; r; s] -> Forall is_u8 [a; b; c; d] ->
  exists t0 t1 t2 t3,
    (if (4 * Z.of_nat i) mod (4 * Z.of_nat nk) =? 0 then
       (s_box b ^^ next_rc nk i, s_box c, s_box d, s_box a, u8 (f2 (next_rc nk i)))
     else if (24 <? 4 * Z.of_nat nk) && ((4 * Z.of_nat i) mod (4 * Z.of_nat nk) =? 16) then
       (s_box a, s_box b, s_box c, s_box d, next_rc nk i)
     else (a, b, c, d, next_rc nk i)) = (t0, t1, t2, t3, next_rc nk (S i)) /\
    next_word nk ws = [p ^^ t0; q ^^ t1; r ^^ t2; s ^^ t3].
Proof.
  intros Hnk Hi Hle Hl Ho Hb. inv_Forall. rewrite next_rc_step by lia.
  rewrite Z.mul_mod_distr_l, <- Nat2Z.inj_mod by lia. unfold next_word. rewrite Hi, Hl, Ho.
  destruct (Nat.eqb_spec (i mod nk) 0) as [E|E].
  - rewrite E. cbn -[gf_pow s_box sub_byte Z.lxor]. do 4 eexists. split; [reflexivity|].
    rewrite !Z.lxor_0_r, !s_box_sub by done.
    assert (Er : next_rc nk i = gf_pow 2 (i / nk - 1)).
    { unfold next_rc. pose proof (Nat.div_mod i nk ltac:(lia)).
      replace (i + nk - 1)%nat with (nk - 1 + (i / nk) * nk)%nat by lia. by rewrite Nat.div_add, Nat.div_small by lia. }
    by rewrite Er.
  - destruct (Z.eqb_spec (4 * Z.of_nat (i mod nk)) 0); [lia|].
    destruct (Nat.ltb_spec 6 nk), (Z.ltb_spec 24 (4 * Z.of_nat nk)); try lia; cbn [andb];
      [|by do 4 eexists].
    destruct (Nat.eqb_spec (i mod nk) 4), (Z.eqb_spec (4 * Z.of_nat (i mod nk)) 16); try lia; [|by do 4 eexists].
    cbn -[s_box sub_byte Z.lxor]. do 4 eexists. split; [reflexivity|]. by rewrite !s_box_sub by done.
Qed.

Lemma temp_bytes nk i a b c d t0 t1 t2 t3 :
  (if (4 * Z.of_nat i) mod (4 * Z.of_nat nk) =? 0 then
     (s_box b ^^ next_rc nk i, s_box c, s_box d, s_box a, u8 (f2 (next_rc nk i)))
   else if (24 <? 4 * Z.of_nat nk) && ((4 * Z.of_nat i) mod (4 * Z.of_nat nk) =? 16) then
     (s_box a, s_box b, s_box c, s_box d, next_rc nk i)
   else (a, b, c, d, next_rc nk i)) = (t0, t1, t2, t3, next_rc nk (S i)) ->
  Forall is_u8 [a; b; c; d] -> Forall is_u8 [t0; t1; t2; t3].
Proof.
  intros E H. inv_Forall. assert (is_u8 (next_rc nk i)) by apply gf_pow_2.
  destruct (_ =? 0); [|destruct (_ && _)]; simplify_eq; solve_Forall; auto with rfc.
Qed.

(** One step of the loop appends the next word. *)
Lemma key_step fuel nk ws rest i :
  (4 <= nk <= 8)%nat -> word_list ws -> length ws = i -> (nk <= i)%nat -> (4 <= length rest)%nat ->
  (4 * i + 4 <= 240)%nat -> (4 * i < 16 * (nk + 7))%nat ->
  key_loop (S fuel) (concat ws ++ rest) (4 * Z.of_nat nk) (16 * (Z.of_nat nk + 7)) (4 * Z.of_nat i) (next_rc nk i) =
    key_loop fuel (concat (ws ++ [next_word nk ws]) ++ drop 4 rest) (4 * Z.of_nat nk) (16 * (Z.of_nat nk + 7))
      (4 * Z.of_nat (S i)) (next_rc nk (S i)) /\ word_list (ws ++ [next_word nk ws]).
Proof.
  intros Hnk Hw Hi Hle Hr Hb Hhi.
  destruct (lookup_lt_is_Some_2 ws (i - 1)) as [w Hlast]; [lia|].
  destruct (lookup_lt_is_Some_2 ws (i - nk)) as [v Hold]; [lia|].
  destruct (Forall_lookup_1 _ _ _ _ Hw Hlast) as [Lw Bw]. destruct (Forall_lookup_1 _ _ _ _ Hw Hold) as [Lv Bv].
  destruct w as [|a [|b [|c [|d [|? ?]]]]]; try discriminate Lw.
  destruct v as [|p [|q [|r [|s [|? ?]]]]]; try discriminate Lv.
  destruct rest as [|x0 [|x1 [|x2 [|x3 rest]]]]; cbn in Hr; try lia.
  destruct (temp_word nk ws i a b c d p q r s) as (t0 & t1 & t2 & t3 & Et & Ew);
    [done|done|done|by apply nth_lookup_Some|by apply nth_lookup_Some|done|].
  split.
  2: { apply Forall_app. split; [done|]. constructor; [|constructor]. rewrite Ew. split; [done|].
       pose proof (temp_bytes nk i a b c d t0 t1 t2 t3 Et Bw). inv_Forall. solve_Forall; by apply is_u8_lxor. }
  pose proof (length_concat_words ws Hw) as Hlc.
  cbn [key_loop]. destruct (Z.ltb_spec (4 * Z.of_nat i) (16 * (Z.of_nat nk + 7))); [|lia]. cbn [negb].
  destruct (rd_word ws (x0 :: x1 :: x2 :: x3 :: rest) (i - 1) a b c d Hw Hlast) as (R0 & R1 & R2 & R3).
  replace (4 * Z.of_nat i - 4) with (4 * Z.of_nat (i - 1)) by lia. rewrite R0. cbn [mbind outcome_bind].
  replace (4 * Z.of_nat i - 3) with (4 * Z.of_nat (i - 1) + 1) by lia. rewrite R1. cbn [mbind outcome_bind].
  replace (4 * Z.of_nat i - 2) with (4 * Z.of_nat (i - 1) + 2) by lia. rewrite R2. cbn [mbind outcome_bind].
  replace (4 * Z.of_nat i - 1) with (4 * Z.of_nat (i - 1) + 3) by lia. rewrite R3. cbn [mbind outcome_bind].
  rewrite Et.
  assert (Eu : u8 (4 * Z.of_nat i - 4 * Z.of_nat nk) = 4 * Z.of_nat (i - nk)) by (rewrite u8_id; unfold is_u8; lia).
  assert (Ec : u8 (4 * Z.of_nat i + 4) = 4 * Z.of_nat (S i)) by (rewrite u8_id; unfold is_u8; lia).
  rewrite Eu, Ec. replace (4 * Z.of_nat (i - nk) + 0) with (4 * Z.of_nat (i - nk)) by lia.
  assert (Hrd : forall x0 x1 x2 x3, let k := concat ws ++ x0 :: x1 :: x2 :: x3 :: rest in
    rd k (4 * Z.of_nat (i - nk)) = Ok p /\ rd k (4 * Z.of_nat (i - nk) + 1) = Ok q /\
    rd k (4 * Z.of_nat (i - nk) + 2) = Ok r /\ rd k (4 * Z.of_nat (i - nk) + 3) = Ok s)
    by (intros; by apply rd_word).
  assert (Hlc' : Z.of_nat (length (concat ws)) = 4 * Z.of_nat i) by lia.
  rewrite (proj1 (Hrd _ _ _ _)). cbn [mbind outcome_bind].
  rewrite (proj1 (wr_word (concat ws) _ _ _ _ _ _ _ Hlc')). cbn [mbind outcome_bind].
  rewrite (proj1 (proj2 (Hrd _ _ _ _))). cbn [mbind outcome_bind].
  rewrite (proj1 (proj2 (wr_word (concat ws) _ _ _ _ _ _ _ Hlc'))). cbn [mbind outcome_bind].
  rewrite (proj1 (proj2 (proj2 (Hrd _ _ _ _)))). cbn [mbind outcome_bind].
  rewrite (proj1 (proj2 (proj2 (wr_word (concat ws) _ _ _ _ _ _ _ Hlc')))). cbn [mbind outcome_bind].
  rewrite (proj2 (proj2 (proj2 (Hrd _ _ _ _)))). cbn [mbind outcome_bind].
  rewrite (proj2 (proj2 (proj2 (wr_word (concat ws) _ _ _ _ _ _ _ Hlc')))). cbn [mbind outcome_bind].
  rewrite concat_app, Ew, <- app_assoc. reflexivity.
Qed.

Lemma key_loop_run nk n fuel ws rest i :
  (4 <= nk <= 8)%nat -> word_list ws -> length ws = i -> (nk <= i)%nat -> (4 * n <= length rest)%nat ->
  (i + n = 4 * (nk + 7))%nat -> (n < fuel)%nat ->
  key_loop fuel (concat ws ++ rest) (4 * Z.of_nat nk) (16 * (Z.of_nat nk + 7)) (4 * Z.of_nat i) (next_rc nk i) =
    Ok (concat (expand nk n ws) ++ drop (4 * n) rest) /\ word_list (expand nk n ws) /\
  length (expand nk n ws) = (4 * (nk + 7))%nat.
Proof.
  intros Hnk. revert fuel ws rest i. induction n as [|n IH]; intros fuel ws rest i Hw Hi Hle Hr Hn Hf;
    (destruct fuel as [|fuel]; [lia|]).
  - split_and!; [|done|cbn; lia]. cbn [key_loop].
    destruct (Z.ltb_spec (4 * Z.of_nat i) (16 * (Z.of_nat nk + 7))); [lia|]. done.
  - destruct (key_step fuel nk ws rest i) as [E Hw']; [done|done|done|done|lia|lia|lia|].
    rewrite E. cbn [expand].
    destruct (IH fuel (ws ++ [next_word nk ws]) (drop 4 rest) (S i)) as (E' & Hw2 & Hl); [done|rewrite length_app; cbn; lia|lia|
      rewrite length_drop; lia|lia|lia|].
    rewrite E', drop_drop. split_and!; [do 3 f_equal; lia|done|done].
Qed.

Lemma words_spec nk key :
  Forall is_u8 key -> (4 * nk <= length key)%nat ->
  word_list (words nk key) /\ length (words nk key) = nk /\ concat (words nk key) = take (4 * nk) key.
Proof.
  revert key. induction nk as [|nk IH]; intros key Hk Hl; [by split_and!; [constructor|..]|]. cbn [words].
  destruct (IH (drop 4 key)) as (Hw & Hn & Hc); [by apply Forall_drop|rewrite length_drop; lia|].
  split_and!.
  - constructor; [|done]. split; [rewrite length_take; lia|by apply Forall_take].
  - cbn. lia.
  - cbn [concat]. rewrite Hc. rewrite <- (take_drop 4 key) at 3. replace (4 * S nk)%nat with (4 + 4 * nk)%nat by lia.
    rewrite take_app_add' by (rewrite length_take; lia). done.
Qed.

Lemma drop_concat_words n ws rest :
  word_list ws -> (n <= length ws)%nat -> drop (4 * n) (concat ws ++ rest) = concat (drop n ws) ++ rest.
Proof.
  intros Hw. revert n. induction Hw as [|w ws [Lw _] Hw IH]; intros [|n] Hn; cbn in Hn; try done; [lia|].
  cbn [concat drop]. replace (4 * S n)%nat with (4 + 4 * n)%nat by lia. rewrite <- app_assoc, <- drop_drop.
  rewrite drop_app_length' by done. apply IH. lia.
Qed.

Lemma take_concat_words n ws rest :
  word_list ws -> (n <= length ws)%nat -> take (4 * n) (concat ws ++ rest) = concat (take n ws).
Proof.
  intros Hw. revert n. induction Hw as [|w ws [Lw _] Hw IH]; intros [|n] Hn; cbn in Hn; try done; [lia|].
  cbn [concat take]. replace (4 * S n)%nat with (4 + 4 * n)%nat by lia. rewrite <- app_assoc.
  rewrite take_app_add' by done. f_equal. apply IH. lia.
Qed.

Lemma round_key_block ws r :
  word_list ws -> (4 * r + 4 <= length ws)%nat -> block (round_key_of ws r).
Proof.
  intros Hw Hr. unfold round_key_of. assert (Hd : word_list (take 4 (drop (4 * r) ws))) by (by apply Forall_take, Forall_drop).
  split; [rewrite length_concat_words by done; rewrite length_take, length_drop; lia|].
  apply Forall_concat. eapply list.Forall_impl; [exact Hd|]. by intros w [].
Qed.

(** A schedule that starts with the expanded key gives its round keys. *)
Lemma round_key_words sch ws rest r n :
  sch = concat ws ++ rest -> word_list ws -> (4 * r + 4 <= length ws)%nat ->
  round_key (mk_aes_context sch n) (Z.of_nat r) = Ok (round_key_of ws r).
Proof.
  intros -> Hw Hr. unfold round_key. pose proof (length_concat_words ws Hw).
  rewrite rd_bytes_slice by (cbn; rewrite ?length_app; lia). f_equal. unfold slice, round_key_of. cbn [ksch].
  replace (Z.to_nat (Z.of_nat r * 16)) with (4 * (4 * r))%nat by lia. rewrite drop_concat_words by (done || lia).
  change (Z.to_nat 16) with (4 * 4)%nat. rewrite take_concat_words; [done|by apply Forall_drop|rewrite length_drop; lia].
Qed.

Lemma aes_set_key_spec key keylen nk ctx :
  key_size keylen nk -> Forall is_u8 key -> (4 * nk <= length key)%nat -> length (ksch ctx) = 240%nat ->
  exists ctx', aes_set_key key keylen ctx = Ok (0, ctx') /\
    keyed ctx' (nk + 6) (round_key_of (key_expansion nk key)) /\ length (ksch ctx') = 240%nat.
Proof.
  intros Hs Hk Hl Hc. assert (Hnk : (4 <= nk <= 8)%nat) by (unfold key_size in Hs; lia).
  assert (Eb : key_bytes keylen = Some (4 * Z.of_nat nk)).
  { unfold key_size in Hs. destruct Hs as [[-> [->| ->]]|[[-> [->| ->]]|[-> ->]]]; reflexivity. }
  destruct (words_spec nk key Hk Hl) as (Hw & Hn & Ec).
  unfold aes_set_key. rewrite Eb, rd_bytes_slice by lia. cbn [mbind outcome_bind].
  assert (Esl : slice key 0 (4 * Z.of_nat nk) = concat (words nk key)).
  { rewrite Ec. unfold slice. change (Z.to_nat 0) with 0%nat. rewrite drop_0. f_equal. lia. }
  pose proof (length_concat_words _ Hw) as Lc.
  rewrite Esl, wr_bytes_patch by lia. cbn [mbind outcome_bind]. unfold patch. change (Z.to_nat 0) with 0%nat. cbn [take app Nat.add].
  rewrite firstn_O. cbn [app].
  replace (u8 ((4 * Z.of_nat nk + 28) .<< 2)) with (16 * (Z.of_nat nk + 7))
    by (rewrite Z.shiftl_mul_pow2 by lia; rewrite u8_id; [|unfold is_u8]; lia).
  destruct (key_loop_run nk (4 * (nk + 7) - nk) 64 (words nk key) (drop (length (concat (words nk key))) (ksch ctx)) nk) as
    (E & Hw' & Hl'); [done|done|done|lia|rewrite length_drop; lia|lia|lia|].
  replace (next_rc nk nk) with 1 in E by (unfold next_rc; replace (nk + nk - 1)%nat with (nk - 1 + 1 * nk)%nat by lia;
    by rewrite Nat.div_add, Nat.div_small by lia).
  rewrite E. cbn [mbind outcome_bind]. eexists. split; [reflexivity|]. split.
  - split.
    + cbn [rnd]. rewrite Z.shiftr_div_pow2 by lia. change (2 ^ 4) with 16. rewrite Z.mul_comm, Z.div_mul by lia.
      rewrite u8_id; [lia|unfold is_u8; lia].
    + lia.
    + intros r Hr. eapply round_key_words; [reflexivity|exact Hw'|unfold key_expansion; lia].
    + intros r Hr. apply round_key_block; [exact Hw'|unfold key_expansion; lia].
  - cbn [ksch]. rewrite length_app, !length_drop, (length_concat_words _ Hw'), Hl'. lia.
Qed.
