(* ===== verification/AesFly.v ===== *)
(** * AesFly: encryption with keys computed on the way

    [aes_encrypt_128] and [aes_encrypt_256] compute the same cipher as the keyed
    functions and leave in [o_key] the key with which their decryption starts. *)

From Stdlib Require Import ZArith Lia.
From stdpp Require Import base list.
From S2P Require Import Prelude Aes AesSpec AesProps AesKeys.

Open Scope aes_scope.

(** Every word from [nk] on is the one the standard computes from those before. *)
Definition recurrent (nk : nat) (ws : list (list Z)) : Prop :=
  word_list ws /\ forall i, (nk <= i < length ws)%nat -> nth i ws [] = next_word nk (take i ws).

(** The 32 bytes the 256-bit code keeps: two round keys. *)
Definition key_pair (ws : list (list Z)) (q : nat) : list Z := round_key_of ws (2 * q) ++ round_key_of ws (2 * q + 1).

(** * Lemmas *)

Lemma expand_app nk n ws : exists ext, expand nk n ws = ws ++ ext /\ length ext = n.
Proof.
  revert ws. induction n as [|n IH]; intros ws; [exists []; by rewrite app_nil_r|]. cbn [expand].
  destruct (IH (ws ++ [next_word nk ws])) as (ext & -> & Hl). exists (next_word nk ws :: ext).
  rewrite <- app_assoc. cbn. by rewrite Hl.
Qed.

Lemma expand_word nk n ws i : (length ws <= i < length ws + n)%nat ->
  nth i (expand nk n ws) [] = next_word nk (take i (expand nk n ws)).
Proof.
  revert ws. induction n as [|n IH]; intros ws Hi; [lia|]. cbn [expand].
  destruct (decide (i = length ws)) as [->|Hne].
  - destruct (expand_app nk n (ws ++ [next_word nk ws])) as (ext & -> & _). rewrite <- app_assoc.
    rewrite take_app_length. rewrite app_nth2 by lia. by rewrite Nat.sub_diag.
  - apply IH. rewrite length_app. cbn. lia.
Qed.

Lemma word_of ws i : word_list ws -> (i < length ws)%nat ->
  exists a b c d, nth i ws [] = [a; b; c; d] /\ Forall is_u8 [a; b; c; d].
Proof.
  intros Hw Hi. destruct (lookup_lt_is_Some_2 ws i Hi) as [w Hx]. destruct (Forall_lookup_1 _ _ _ _ Hw Hx) as [Hl Hb].
  rewrite (nth_lookup_Some _ _ _ _ Hx). destruct w as [|a [|b [|c [|d [|? ?]]]]]; try discriminate Hl. by exists a, b, c, d.
Qed.

Lemma xor_bytes_word a b : length a = 4%nat -> length b = 4%nat -> Forall is_u8 a -> Forall is_u8 b ->
  length (xor_bytes a b) = 4%nat /\ Forall is_u8 (xor_bytes a b).
Proof.
  intros La Lb Fa Fb. destruct a as [|? [|? [|? [|? [|? ?]]]]]; try discriminate La.
  destruct b as [|? [|? [|? [|? [|? ?]]]]]; try discriminate Lb. inv_Forall.
  split; [reflexivity|]. cbn. solve_Forall; by apply is_u8_lxor.
Qed.

Lemma next_word_bytes nk ws : (4 <= nk <= 8)%nat -> (nk <= length ws)%nat -> word_list ws ->
  length (next_word nk ws) = 4%nat /\ Forall is_u8 (next_word nk ws).
Proof.
  intros Hnk Hl Hw. destruct (word_of ws (length ws - 1) Hw) as (a & b & c & d & E & B); [lia|].
  destruct (word_of ws (length ws - nk) Hw) as (p & q & r & s & E' & B'); [lia|].
  assert (Hsb : forall x, is_u8 x -> is_u8 (sub_byte x)) by (intros x Hx; rewrite <- s_box_sub by done; by apply is_u8_s_box).
  unfold next_word. rewrite E, E'. apply xor_bytes_word; [done| |done|]; inv_Forall.
  - destruct (Nat.eqb _ 0); [|destruct (_ && _)]; done.
  - assert (is_u8 (gf_pow 2 (length ws / nk - 1))) by apply gf_pow_2. assert (is_u8 0) by done.
    destruct (Nat.eqb _ 0); [|destruct (_ && _)]; cbn -[gf_pow sub_byte]; solve_Forall; auto with rfc.
Qed.

Lemma expand_words nk n ws : (4 <= nk <= 8)%nat -> word_list ws -> (nk <= length ws)%nat -> word_list (expand nk n ws).
Proof.
  intros Hnk. revert ws. induction n as [|n IH]; intros ws Hw Hl; [done|]. cbn [expand].
  apply IH; [|rewrite length_app; lia]. apply Forall_app. split; [done|]. constructor; [|constructor].
  by apply next_word_bytes.
Qed.

Lemma expand_recurrent nk n ws :
  word_list (expand nk n ws) -> length ws = nk -> recurrent nk (expand nk n ws).
Proof.
  intros Hw Hl. split; [done|]. intros i Hi. apply expand_word. destruct (expand_app nk n ws) as (ext & E & He).
  rewrite E, length_app in Hi. lia.
Qed.

Lemma take4 (ws : list (list Z)) n : (n + 4 <= length ws)%nat ->
  take 4 (drop n ws) = [nth n ws []; nth (n + 1) ws []; nth (n + 2) ws []; nth (n + 3) ws []].
Proof.
  intros Hn.
  assert (D : forall k, (k < length ws)%nat -> drop k ws = nth k ws [] :: drop (S k) ws).
  { intros k Hk. destruct (lookup_lt_is_Some_2 ws k Hk) as [x Hx]. rewrite (drop_S _ _ _ Hx). f_equal.
    symmetry. by apply nth_lookup_Some. }
  rewrite (D n), (D (S n)), (D (S (S n))), (D (S (S (S n)))) by lia. cbn [take].
  rewrite firstn_O. repeat (f_equal; try lia).
Qed.

Lemma recurrent_word nk ws i : recurrent nk ws -> (1 <= nk <= i)%nat -> (i < length ws)%nat ->
  nth i ws [] = xor_bytes (nth (i - nk) ws [])
    (if Nat.eqb (i mod nk) 0 then xor_bytes (sub_word (rot_word (nth (i - 1) ws []))) (rcon (i / nk))
     else if Nat.ltb 6 nk && Nat.eqb (i mod nk) 4 then sub_word (nth (i - 1) ws [])
     else nth (i - 1) ws []).
Proof.
  intros [Hw Hr] Hi Hl. rewrite Hr by lia. unfold next_word.
  assert (T : forall k, (k < i)%nat -> nth k (take i ws) [] = nth k ws []) by (intros; by rewrite !nth_lookup, lookup_take_lt by done).
  rewrite length_take_le, !T by lia. done.
Qed.

(** Evaluates a key update on named bytes. *)
Ltac run_update :=
  cbv beta iota zeta delta [update_encrypt_key_128 update_decrypt_key_128 update_encrypt_key_256 update_decrypt_key_256
    foldl xor_word nth insert list_insert Nat.add Nat.sub concat app fst snd].

(** The next round key of a 128-bit key. *)
Lemma update_128 ws r : recurrent 4 ws -> (4 * r + 8 <= length ws)%nat ->
  update_encrypt_key_128 (round_key_of ws r) (gf_pow 2 r) = (round_key_of ws (S r), gf_pow 2 (S r)).
Proof.
  intros Hr Hl. pose proof Hr as [Hw _]. unfold round_key_of. rewrite !take4 by lia.
  destruct (word_of ws (4 * r) Hw) as (a0 & a1 & a2 & a3 & Ea & Ba); [lia|].
  destruct (word_of ws (4 * r + 1) Hw) as (b0 & b1 & b2 & b3 & Eb & Bb); [lia|].
  destruct (word_of ws (4 * r + 2) Hw) as (c0 & c1 & c2 & c3 & Ec & Bc); [lia|].
  destruct (word_of ws (4 * r + 3) Hw) as (d0 & d1 & d2 & d3 & Ed & Bd); [lia|].
  assert (M : forall t, (t < 4)%nat -> ((4 * S r + t) mod 4 = t)%nat)
    by (intros t Ht; rewrite Nat.add_comm, Nat.mul_comm, Nat.Div0.mod_add; by apply Nat.mod_small).
  assert (E4 : nth (4 * S r) ws [] = xor_bytes [a0; a1; a2; a3]
    [sub_byte d1 ^^ gf_pow 2 r; sub_byte d2 ^^ 0; sub_byte d3 ^^ 0; sub_byte d0 ^^ 0]).
  { rewrite (recurrent_word 4) by (done || lia). pose proof (M 0%nat ltac:(lia)) as M0. rewrite Nat.add_0_r in M0. rewrite M0.
    replace (4 * S r - 4)%nat with (4 * r)%nat by lia. replace (4 * S r - 1)%nat with (4 * r + 3)%nat by lia.
    rewrite Ea, Ed. cbn [Nat.eqb]. f_equal. unfold rcon. rewrite Nat.mul_comm, Nat.div_mul by lia.
    by replace (S r - 1)%nat with r by lia. }
  assert (En : forall t, (0 < t < 4)%nat ->
    nth (4 * S r + t) ws [] = xor_bytes (nth (4 * r + t) ws []) (nth (4 * S r + (t - 1)) ws [])).
  { intros t Ht. rewrite (recurrent_word 4) by (done || lia). rewrite M by lia.
    destruct (Nat.eqb_spec t 0); [lia|]. cbn [Nat.ltb Nat.leb andb]. f_equal; f_equal; lia. }
  rewrite (En 1%nat), (En 2%nat), (En 3%nat) by lia.
  change (1 - 1)%nat with 0%nat. change (2 - 1)%nat with 1%nat. change (3 - 1)%nat with 2%nat.
  rewrite (En 2%nat), (En 1%nat) by lia. change (1 - 1)%nat with 0%nat. change (2 - 1)%nat with 1%nat.
  rewrite (En 1%nat) by lia. change (1 - 1)%nat with 0%nat.
  rewrite !Nat.add_0_r, E4, Ea, Eb, Ec, Ed. inv_Forall.
  run_update. rewrite (proj2 (gf_pow_2 r)), !s_box_sub by done.
  cbv beta iota delta [xor_bytes zip_with]. by rewrite !Z.lxor_0_r.
Qed.

(** The next two round keys of a 256-bit key. *)
Lemma update_256 ws r : recurrent 8 ws -> (8 * r + 16 <= length ws)%nat ->
  update_encrypt_key_256 (round_key_of ws (2 * r) ++ round_key_of ws (2 * r + 1)) (gf_pow 2 r) =
    (round_key_of ws (2 * S r) ++ round_key_of ws (2 * S r + 1), gf_pow 2 (S r)).
Proof.
  intros Hr Hl. pose proof Hr as [Hw _]. unfold round_key_of.
  replace (4 * (2 * r))%nat with (8 * r)%nat by lia. replace (4 * (2 * r + 1))%nat with (8 * r + 4)%nat by lia.
  replace (4 * (2 * S r))%nat with (8 * S r)%nat by lia. replace (4 * (2 * S r + 1))%nat with (8 * S r + 4)%nat by lia.
  rewrite !take4 by lia. rewrite <- !Nat.add_assoc. cbn [Nat.add].
  destruct (word_of ws (8 * r) Hw) as (a0 & a1 & a2 & a3 & Ea & Ba); [lia|].
  destruct (word_of ws (8 * r + 1) Hw) as (b0 & b1 & b2 & b3 & Eb & Bb); [lia|].
  destruct (word_of ws (8 * r + 2) Hw) as (c0 & c1 & c2 & c3 & Ec & Bc); [lia|].
  destruct (word_of ws (8 * r + 3) Hw) as (d0 & d1 & d2 & d3 & Ed & Bd); [lia|].
  destruct (word_of ws (8 * r + 4) Hw) as (e0 & e1 & e2 & e3 & Ee & Be); [lia|].
  destruct (word_of ws (8 * r + 5) Hw) as (f0 & f1 & f2 & f3 & Ef & Bf); [lia|].
  destruct (word_of ws (8 * r + 6) Hw) as (g0 & g1 & g2 & g3 & Eg & Bg); [lia|].
  destruct (word_of ws (8 * r + 7) Hw) as (h0 & h1 & h2 & h3 & Eh & Bh); [lia|].
  assert (M : forall t, (t < 8)%nat -> ((8 * S r + t) mod 8 = t)%nat)
    by (intros t Ht; rewrite Nat.add_comm, Nat.mul_comm, Nat.Div0.mod_add; by apply Nat.mod_small).
  assert (E0 : nth (8 * S r) ws [] = xor_bytes [a0; a1; a2; a3]
    [sub_byte h1 ^^ gf_pow 2 r; sub_byte h2 ^^ 0; sub_byte h3 ^^ 0; sub_byte h0 ^^ 0]).
  { rewrite (recurrent_word 8) by (done || lia). pose proof (M 0%nat ltac:(lia)) as M0. rewrite Nat.add_0_r in M0. rewrite M0.
    replace (8 * S r - 8)%nat with (8 * r)%nat by lia. replace (8 * S r - 1)%nat with (8 * r + 7)%nat by lia.
    rewrite Ea, Eh. cbn [Nat.eqb]. f_equal. unfold rcon. rewrite Nat.mul_comm, Nat.div_mul by lia.
    by replace (S r - 1)%nat with r by lia. }
  assert (En : forall t, (0 < t < 8)%nat ->
    nth (8 * S r + t) ws [] = xor_bytes (nth (8 * r + t) ws [])
      (if Nat.eqb t 4 then sub_word (nth (8 * S r + (t - 1)) ws []) else nth (8 * S r + (t - 1)) ws [])).
  { intros t Ht. rewrite (recurrent_word 8) by (done || lia). rewrite M by lia.
    destruct (Nat.eqb_spec t 0); [lia|]. cbn [Nat.ltb Nat.leb andb].
    replace (8 * S r + t - 8)%nat with (8 * r + t)%nat by lia.
    by replace (8 * S r + t - 1)%nat with (8 * S r + (t - 1))%nat by lia. }
  pose proof (En 1%nat ltac:(lia)) as E1. pose proof (En 2%nat ltac:(lia)) as E2. pose proof (En 3%nat ltac:(lia)) as E3.
  pose proof (En 4%nat ltac:(lia)) as E4. pose proof (En 5%nat ltac:(lia)) as E5. pose proof (En 6%nat ltac:(lia)) as E6.
  pose proof (En 7%nat ltac:(lia)) as E7. cbn [Nat.eqb Nat.sub] in E1, E2, E3, E4, E5, E6, E7. clear En M.
  rewrite Nat.add_0_r, E0 in E1. rewrite E1 in E2. rewrite E2 in E3. rewrite E3 in E4. rewrite E4 in E5. rewrite E5 in E6.
  rewrite E6 in E7. rewrite E0, E1, E2, E3, E4, E5, E6, E7, Ea, Eb, Ec, Ed, Ee, Ef, Eg, Eh.
  clear E0 E1 E2 E3 E4 E5 E6 E7 Ea Eb Ec Ed Ee Ef Eg Eh. inv_Forall.
  assert (Hrc : is_u8 (gf_pow 2 r)) by apply gf_pow_2.
  assert (Hsb : forall x, is_u8 x -> is_u8 (sub_byte x)) by (intros x Hx; rewrite <- s_box_sub by done; by apply is_u8_s_box).
  run_update. rewrite (proj2 (gf_pow_2 r)). cbv beta iota delta [xor_bytes zip_with sub_word map].
  rewrite !Z.lxor_0_r. rewrite !s_box_sub by auto 8 with rfc. done.
Qed.

Lemma encrypt_128_rounds_spec ws n r s :
  recurrent 4 ws -> (4 * (r + n) + 4 <= length ws)%nat -> block s ->
  encrypt_128_rounds n s (round_key_of ws r) (gf_pow 2 r) =
    (cipher_rounds (round_key_of ws) n (S r) s, round_key_of ws (r + n), gf_pow 2 (r + n)).
Proof.
  intros Hr. revert r s. induction n as [|n IH]; intros r s Hl Hs; cbn [encrypt_128_rounds cipher_rounds].
  - by rewrite Nat.add_0_r.
  - rewrite update_128 by (done || lia). rewrite <- mix_sub_columns_spec by done.
    change xor_bytes with add_round_key. rewrite IH; [by replace (S r + n)%nat with (r + S n)%nat by lia|lia|].
    apply block_xor; [by apply mix_sub_columns_block|]. apply round_key_block; [apply Hr|lia].
Qed.

(** The schedule of a key, [n] words long in all. *)
Lemma schedule_recurrent nk n key :
  (4 <= nk <= 8)%nat -> Forall is_u8 key -> length key = (4 * nk)%nat ->
  let ws := expand nk n (words nk key) in
  recurrent nk ws /\ length ws = (nk + n)%nat /\ concat (take nk ws) = key.
Proof.
  intros Hnk Hk Hl ws. destruct (words_spec nk key Hk) as (Hw & Hn & Hc); [lia|].
  assert (Hx : word_list ws) by (apply expand_words; done || lia).
  split; [by apply expand_recurrent|]. destruct (expand_app nk n (words nk key)) as (ext & E & He).
  unfold ws. rewrite E. split; [rewrite length_app; lia|]. rewrite take_app_length' by done. rewrite Hc. apply take_ge. lia.
Qed.

(** ** Decryption keys *)

Lemma rc_back rc : is_u8 rc -> u8 (d2 (u8 (f2 rc))) = rc.
Proof. intros H. byte_fact rc. rewrite (u8_id (f2 rc)) by done. by rewrite u8_id by congruence. Qed.

Lemma lxor_cancel_r a b : a ^^ (b ^^ a) = b.
Proof. by rewrite (Z.lxor_comm b a), <- Z.lxor_assoc, Z.lxor_nilpotent, Z.lxor_0_l. Qed.

Lemma update_decrypt_128 k rc : block k -> is_u8 rc ->
  update_decrypt_key_128 (update_encrypt_key_128 k rc).1 (update_encrypt_key_128 k rc).2 = (k, rc).
Proof.
  intros Hk Hrc. open_block k Hk. run_update. rewrite rc_back by done. by rewrite !lxor_cancel.
Qed.

Lemma update_decrypt_256 k rc : length k = 32%nat -> is_u8 rc ->
  update_decrypt_key_256 (update_encrypt_key_256 k rc).1 (update_encrypt_key_256 k rc).2 = (k, rc).
Proof.
  intros Hk Hrc. do 32 (destruct k as [|? k]; [discriminate Hk|]). destruct k; [|discriminate Hk].
  run_update. rewrite rc_back by done. by rewrite !lxor_cancel.
Qed.

(** ** 128 bits *)

Lemma final_round s k : block s -> copy_and_key (shift_sub_rows s) k = xor_bytes (shift_rows (sub_bytes s)) k.
Proof. intros Hs. rewrite <- shift_sub_rows_spec by done. exact eq_refl. Qed.

Lemma first_round inp k : copy_and_key inp k = xor_bytes inp k.
Proof. exact eq_refl. Qed.

Lemma undo_final_round s k :
  block s -> block k ->
  inv_shift_sub_rows (copy_and_key (xor_bytes (shift_rows (sub_bytes s)) k) k) = s.
Proof.
  intros Hs Hk. rewrite <- shift_sub_rows_spec by done.
  transitivity (inv_shift_sub_rows (xor_block (xor_block (shift_sub_rows s) k) k)); [exact eq_refl|].
  rewrite xor_block_cancel by (done || by apply shift_sub_rows_block). by apply inv_shift_sub_rows_id.
Qed.

Lemma aes_encrypt_128_spec inp key :
  block inp -> block key ->
  aes_encrypt_128 inp key = (aes 4 key inp, round_key_of (key_expansion 4 key) 10).
Proof.
  intros Hi Hk. destruct (schedule_recurrent 4 40 key) as (Hr & Hl & Hc); [lia|apply Hk|apply Hk|].
  unfold aes, key_expansion, aes_encrypt_128, cipher. change (4 * (4 + 7) - 4)%nat with 40%nat.
  set (ws := expand 4 40 (words 4 key)) in *. clearbody ws.
  change (4 + 6 - 1)%nat with 9%nat. change (4 + 6)%nat with (S 9). remember 9%nat as n eqn:En.
  assert (E0 : round_key_of ws 0 = key) by exact Hc. rewrite <- E0 at 1 2. rewrite first_round.
  assert (Hb : block (xor_bytes inp (round_key_of ws 0))) by (apply block_xor; [done|by rewrite E0]).
  pose proof (encrypt_128_rounds_spec ws n 0 _ Hr ltac:(lia) Hb) as Hn. cbn [Nat.add] in Hn.
  change (gf_pow 2 0) with 1 in Hn. rewrite Hn. rewrite update_128 by (done || lia). rewrite final_round; [by subst n|].
  apply cipher_rounds_block; [done|]. intros r Hrr. apply round_key_block; [apply Hr|lia].
Qed.

Lemma decrypt_128_rounds_spec ws n s :
  recurrent 4 ws -> (4 * n + 8 <= length ws)%nat -> block s ->
  decrypt_128_rounds n (cipher_rounds (round_key_of ws) n 1 s) (round_key_of ws (S n)) (gf_pow 2 (S n)) =
    (s, round_key_of ws 1, gf_pow 2 1).
Proof.
  intros Hr Hl Hs. pose proof Hr as [Hw _]. induction n as [|n IH]; [done|]. cbn [decrypt_128_rounds].
  pose proof (update_decrypt_128 (round_key_of ws (S n)) (gf_pow 2 (S n))) as Hu.
  rewrite update_128 in Hu by (done || lia). cbn [fst snd] in Hu.
  rewrite Hu; [|apply round_key_block; [done|lia]|apply gf_pow_2].
  assert (Hb : block (cipher_rounds (round_key_of ws) n 1 s))
    by (apply cipher_rounds_block; [done|intros i Hi; apply round_key_block; [done|lia]]).
  rewrite cipher_rounds_last. change (1 + n)%nat with (S n). rewrite <- mix_sub_columns_spec by done.
  change xor_bytes with xor_block. unfold add_round_key.
  rewrite xor_block_cancel by (by apply mix_sub_columns_block || (apply round_key_block; [done|lia])).
  rewrite inv_mix_sub_columns_id by done. apply IH. lia.
Qed.

Lemma aes_decrypt_128_spec inp key :
  block inp -> block key ->
  aes_decrypt_128 (aes 4 key inp) (round_key_of (key_expansion 4 key) 10) = (inp, key).
Proof.
  intros Hi Hk. destruct (schedule_recurrent 4 40 key) as (Hr & Hl & Hc); [lia|apply Hk|apply Hk|].
  unfold aes, key_expansion, aes_decrypt_128, cipher. change (4 * (4 + 7) - 4)%nat with 40%nat.
  set (ws := expand 4 40 (words 4 key)) in *. clearbody ws.
  change 10%nat with (S 9). change (4 + 6 - 1)%nat with 9%nat. change (4 + 6)%nat with (S 9).
  change 0x6c with (gf_pow 2 (S 9)). remember 9%nat as n eqn:En.
  assert (E0 : round_key_of ws 0 = key) by exact Hc.
  assert (Hb : block (xor_bytes inp (round_key_of ws 0))) by (apply block_xor; [done|by rewrite E0]).
  assert (Hs : block (cipher_rounds (round_key_of ws) n 1 (xor_bytes inp (round_key_of ws 0))))
    by (apply cipher_rounds_block; [done|intros i Hi'; apply round_key_block; [apply Hr|lia]]).
  rewrite undo_final_round by (done || (apply round_key_block; [apply Hr|lia])).
  rewrite decrypt_128_rounds_spec by (done || lia).
  pose proof (update_decrypt_128 (round_key_of ws 0) (gf_pow 2 0)) as Hu.
  rewrite update_128 in Hu by (done || lia). cbn [fst snd] in Hu.
  rewrite Hu; [|by rewrite E0|done]. rewrite first_round.
  pose proof (xor_block_cancel inp (round_key_of ws 0) Hi ltac:(by rewrite E0)) as Hx.
  rewrite E0 in Hx |- *. by f_equal.
Qed.

(** ** 256 bits *)

Lemma odd_round q : nz (Z.of_nat (2 * q + 1) .& 1) = true.
Proof.
  unfold nz. change 1 with (Z.ones 1). rewrite Z.land_ones by lia. change (2 ^ 1) with 2.
  replace (Z.of_nat (2 * q + 1)) with (1 + Z.of_nat q * 2) by lia. by rewrite Z_mod_plus_full.
Qed.

Lemma even_round q : nz (Z.of_nat (2 * q) .& 1) = false.
Proof.
  unfold nz. change 1 with (Z.ones 1). rewrite Z.land_ones by lia. change (2 ^ 1) with 2.
  replace (Z.of_nat (2 * q)) with (Z.of_nat q * 2) by lia. by rewrite Z_mod_mult.
Qed.

Lemma add_first s a b : length s = length a -> add_round_key s (a ++ b) = xor_bytes s a.
Proof.
  intros Hl. unfold add_round_key, xor_block. rewrite <- (app_nil_r s) at 1. rewrite zip_with_app by done.
  cbn. by rewrite app_nil_r.
Qed.

Lemma add_second s ws q :
  word_list ws -> (8 * q + 8 <= length ws)%nat ->
  add_round_key s (drop 16 (key_pair ws q)) = xor_bytes s (round_key_of ws (2 * q + 1)).
Proof.
  intros Hw Hl. unfold key_pair. rewrite drop_app_length'; [done|].
  by destruct (round_key_block ws (2 * q) Hw) as [-> _]; [lia|].
Qed.

Lemma encrypt_256_rounds_spec ws m q s :
  recurrent 8 ws -> (8 * (q + m) + 8 <= length ws)%nat -> block s ->
  encrypt_256_rounds (2 * m + 1) (Z.of_nat (2 * q + 1)) s (key_pair ws q) (gf_pow 2 q) =
    (cipher_rounds (round_key_of ws) (2 * m + 1) (2 * q + 1) s, key_pair ws (q + m), gf_pow 2 (q + m)).
Proof.
  intros Hr. pose proof Hr as [Hw _]. revert q s. induction m as [|m IH]; intros q s Hl Hs.
  - change (2 * 0 + 1)%nat with 1%nat. cbn [encrypt_256_rounds cipher_rounds]. rewrite odd_round, add_second by (done || lia).
    rewrite mix_sub_columns_spec by done. by rewrite Nat.add_0_r.
  - replace (2 * S m + 1)%nat with (S (S (2 * m + 1))) by lia. cbn [encrypt_256_rounds cipher_rounds].
    rewrite odd_round, (add_second (mix_sub_columns s)) by (done || lia). rewrite <- (mix_sub_columns_spec s) by done.
    set (s1 := xor_bytes (mix_sub_columns s) _).
    assert (H1 : block s1) by (apply block_xor; [by apply mix_sub_columns_block|apply round_key_block; [done|lia]]).
    replace (Z.of_nat (2 * q + 1) + 1) with (Z.of_nat (2 * S q)) by lia. rewrite even_round.
    unfold key_pair at 1. rewrite update_256 by (done || lia).
    assert (H2 : block (mix_sub_columns s1)) by by apply mix_sub_columns_block.
    rewrite add_first by (destruct (round_key_block ws (2 * S q) Hw) as [-> _]; [lia|apply H2]).
    replace (Z.of_nat (2 * S q) + 1) with (Z.of_nat (2 * S q + 1)) by lia. fold (key_pair ws (S q)).
    rewrite <- (mix_sub_columns_spec s1) by done.
    replace (S (2 * q + 1)) with (2 * S q)%nat by lia. replace (S (2 * S q)) with (2 * S q + 1)%nat by lia.
    rewrite IH; [by replace (S q + m)%nat with (q + S m)%nat by lia|lia|].
    apply block_xor; [done|]. apply round_key_block; [done|lia].
Qed.

Lemma key_pair_back ws q :
  recurrent 8 ws -> (8 * q + 16 <= length ws)%nat ->
  update_decrypt_key_256 (key_pair ws (S q)) (gf_pow 2 (S q)) = (key_pair ws q, gf_pow 2 q).
Proof.
  intros Hr Hl. pose proof Hr as [Hw _]. pose proof (update_decrypt_256 (key_pair ws q) (gf_pow 2 q)) as Hu.
  unfold key_pair in Hu at 2 3. rewrite update_256 in Hu by (done || lia). apply Hu; [|apply gf_pow_2].
  unfold key_pair. rewrite length_app.
  destruct (round_key_block ws (2 * q) Hw) as [-> _]; [lia|]. by destruct (round_key_block ws (2 * q + 1) Hw) as [-> _]; [lia|].
Qed.

(** One round undone, with the round key [k]. *)
Lemma undo_round s k :
  block s -> block k -> inv_mix_sub_columns (xor_bytes (xor_bytes (mix_columns (shift_rows (sub_bytes s))) k) k) = s.
Proof.
  intros Hs Hk. rewrite <- mix_sub_columns_spec by done.
  transitivity (inv_mix_sub_columns (xor_block (xor_block (mix_sub_columns s) k) k)); [exact eq_refl|].
  rewrite xor_block_cancel by (done || by apply mix_sub_columns_block). by apply inv_mix_sub_columns_id.
Qed.

Lemma round_block s k : block s -> block k -> block (xor_bytes (mix_columns (shift_rows (sub_bytes s))) k).
Proof. intros Hs Hk. rewrite <- mix_sub_columns_spec by done. by apply block_xor; [apply mix_sub_columns_block|]. Qed.

Lemma add_pair s ws q :
  word_list ws -> (8 * q + 8 <= length ws)%nat -> block s ->
  add_round_key s (key_pair ws q) = xor_bytes s (round_key_of ws (2 * q)).
Proof. intros Hw Hl [Hs _]. apply add_first. by destruct (round_key_block ws (2 * q) Hw) as [-> _]; [lia|]. Qed.

Lemma decrypt_256_rounds_spec ws m s :
  recurrent 8 ws -> (8 * m + 16 <= length ws)%nat -> block s ->
  decrypt_256_rounds (2 * m + 1) (Z.of_nat (2 * m + 1)) (cipher_rounds (round_key_of ws) (2 * m + 1) 1 s)
    (key_pair ws (S m)) (gf_pow 2 (S m)) = (s, key_pair ws 0, gf_pow 2 0).
Proof.
  intros Hr Hl Hs. pose proof Hr as [Hw _].
  assert (HK : forall r, (4 * r + 4 <= length ws)%nat -> block (round_key_of ws r)) by (intros; by apply round_key_block).
  assert (HB : forall n, (4 * n + 4 <= length ws)%nat -> block (cipher_rounds (round_key_of ws) n 1 s))
    by (intros n Hn; apply cipher_rounds_block; [done|intros i Hi; apply HK; lia]).
  induction m as [|m IH].
  - change (2 * 0 + 1)%nat with (S 0). cbn [decrypt_256_rounds]. change (nz (Z.of_nat 1 .& 1)) with true. cbv iota. rewrite key_pair_back by (done || lia).
    rewrite add_second by (done || lia). rewrite cipher_rounds_last, undo_round; [done|apply HB; lia|apply HK; lia].
  - replace (2 * S m + 1)%nat with (S (2 * S m)) by lia. cbn [decrypt_256_rounds].
    replace (S (2 * S m)) with (2 * S m + 1)%nat at 1 by lia. rewrite odd_round, key_pair_back by (done || lia).
    rewrite add_second by (done || lia). rewrite cipher_rounds_last. replace (1 + 2 * S m)%nat with (2 * S m + 1)%nat by lia.
    rewrite undo_round; [|apply HB; lia|apply HK; lia].
    replace (Z.of_nat (S (2 * S m)) - 1) with (Z.of_nat (2 * S m)) by lia.
    replace (2 * S m)%nat with (S (2 * m + 1)) at 1 3 by lia. cbn [decrypt_256_rounds]. rewrite even_round.
    rewrite cipher_rounds_last. replace (1 + (2 * m + 1))%nat with (2 * S m)%nat by lia.
    rewrite add_pair by (done || lia || by apply round_block; [apply HB|apply HK]; lia). rewrite undo_round; [|apply HB; lia|apply HK; lia].
    replace (Z.of_nat (2 * S m) - 1) with (Z.of_nat (2 * m + 1)) by lia. apply IH. lia.
Qed.

Lemma expand_split nk a b ws : expand nk (a + b) ws = expand nk b (expand nk a ws).
Proof. revert ws. induction a as [|a IH]; intros ws; [done|]. cbn [Nat.add expand]. apply IH. Qed.

(** The schedule of 60 words begins the one of 64 that the code reaches. *)
Lemma longer_schedule key r :
  length key = 32%nat -> Forall is_u8 key -> (r < 15)%nat ->
  round_key_of (expand 8 56 (words 8 key)) r = round_key_of (key_expansion 8 key) r.
Proof.
  intros Hl Hk Hr. destruct (schedule_recurrent 8 52 key) as (_ & Hn & _); [lia|done|done|].
  unfold key_expansion. change (8 * (8 + 7) - 8)%nat with 52%nat. change (4 * (8 + 7) - 8)%nat with 52%nat.
  change 56%nat with (52 + 4)%nat. rewrite expand_split.
  destruct (expand_app 8 4 (expand 8 52 (words 8 key))) as (ext & -> & _).
  set (l := expand 8 52 (words 8 key)) in *. clearbody l. unfold round_key_of. f_equal.
  rewrite drop_app_le by lia. rewrite take_app_le; [done|]. rewrite length_drop. lia.
Qed.

Lemma cipher_rounds_ext K K' n r s :
  (forall i, (i < r + n)%nat -> K i = K' i) -> cipher_rounds K n r s = cipher_rounds K' n r s.
Proof.
  revert r s. induction n as [|n IH]; intros r s HK; cbn [cipher_rounds]; [done|].
  rewrite HK by lia. apply IH. intros i Hi. apply HK. lia.
Qed.

Lemma cipher_ext K K' nr s :
  (1 <= nr)%nat -> (forall i, (i <= nr)%nat -> K i = K' i) -> cipher nr K s = cipher nr K' s.
Proof.
  intros Hn HK. unfold cipher. rewrite (HK 0%nat), (HK nr) by lia. do 3 f_equal.
  apply cipher_rounds_ext. intros i Hi. apply HK. lia.
Qed.

Lemma aes_256_cipher key inp :
  length key = 32%nat -> Forall is_u8 key ->
  aes 8 key inp = cipher 14 (round_key_of (expand 8 56 (words 8 key))) inp.
Proof. intros Hl Hk. apply cipher_ext; [lia|]. intros i Hi. symmetry. apply longer_schedule; done || lia. Qed.

Lemma first_pair nk ws key : length key = 32%nat -> nk = 8%nat -> concat (take nk ws) = key -> key_pair ws 0 = key.
Proof. intros Hl -> <-. unfold key_pair, round_key_of. cbn [Nat.mul Nat.add]. rewrite drop_0, <- concat_app. f_equal. apply take_take_drop. Qed.

(** The whole of [aes_encrypt_256] and of [aes_decrypt_256], for any even number of rounds. *)
Lemma encrypt_256_all ws m inp :
  recurrent 8 ws -> (8 * m + 16 <= length ws)%nat -> block inp ->
  (let '(s1, o_key, rc) :=
     encrypt_256_rounds (2 * m + 1) 1 (copy_and_key inp (key_pair ws 0)) (key_pair ws 0) 1 in
   let '(o_key, rc) := update_encrypt_key_256 o_key rc in
   (copy_and_key (shift_sub_rows s1) o_key, o_key)) = (cipher (2 * S m) (round_key_of ws) inp, key_pair ws (S m)).
Proof.
  intros Hr Hl Hi. pose proof Hr as [Hw _].
  assert (HK : forall r, (4 * r + 4 <= length ws)%nat -> block (round_key_of ws r)) by (intros; by apply round_key_block).
  assert (Hb : block (xor_bytes inp (round_key_of ws 0))) by (apply block_xor; [done|apply HK; lia]).
  rewrite (add_pair inp ws 0 Hw ltac:(lia) Hi : copy_and_key _ _ = _). change (2 * 0)%nat with 0%nat.
  pose proof (encrypt_256_rounds_spec ws m 0 _ Hr ltac:(lia) Hb) as Hn. change (0 + m)%nat with m in Hn.
  change (Z.of_nat (2 * 0 + 1)) with 1 in Hn. change (2 * 0 + 1)%nat with 1%nat in Hn.
  change (gf_pow 2 0) with 1 in Hn. rewrite Hn.
  set (s := cipher_rounds (round_key_of ws) (2 * m + 1) 1 _).
  assert (Hs : block s) by (apply cipher_rounds_block; [done|intros i Hi'; apply HK; lia]).
  unfold key_pair at 1. rewrite update_256 by (done || lia). fold (key_pair ws (S m)).
  rewrite (add_pair _ ws (S m) Hw ltac:(lia) (shift_sub_rows_block s Hs) : copy_and_key _ _ = _).
  rewrite shift_sub_rows_spec by done. unfold cipher. by replace (2 * S m - 1)%nat with (2 * m + 1)%nat by lia.
Qed.

Lemma aes_encrypt_256_spec inp key :
  block inp -> length key = 32%nat -> Forall is_u8 key ->
  aes_encrypt_256 inp key = (aes 8 key inp, key_pair (expand 8 56 (words 8 key)) 7).
Proof.
  intros Hi Hl Hk. destruct (schedule_recurrent 8 56 key) as (Hr & Hn & Hc); [lia|done|done|].
  rewrite aes_256_cipher by done. set (ws := expand 8 56 (words 8 key)) in *. clearbody ws.
  assert (E0 : key_pair ws 0 = key) by by apply (first_pair 8). rewrite <- E0 at 1.
  apply (encrypt_256_all ws 6 inp Hr); [lia|done].
Qed.

Lemma decrypt_256_all ws m inp :
  recurrent 8 ws -> (8 * m + 16 <= length ws)%nat -> block inp ->
  (let '(s1, o_key, rc) :=
     decrypt_256_rounds (2 * m + 1) (Z.of_nat (2 * m + 1))
       (inv_shift_sub_rows (copy_and_key (cipher (2 * S m) (round_key_of ws) inp) (key_pair ws (S m))))
       (key_pair ws (S m)) (gf_pow 2 (S m)) in
   (copy_and_key s1 o_key, o_key)) = (inp, key_pair ws 0).
Proof.
  intros Hr Hl Hi. pose proof Hr as [Hw _].
  assert (HK : forall r, (4 * r + 4 <= length ws)%nat -> block (round_key_of ws r)) by (intros; by apply round_key_block).
  assert (Hb : block (xor_bytes inp (round_key_of ws 0))) by (apply block_xor; [done|apply HK; lia]).
  unfold cipher. replace (2 * S m - 1)%nat with (2 * m + 1)%nat by lia.
  set (s := cipher_rounds (round_key_of ws) (2 * m + 1) 1 _).
  assert (Hs : block s) by (apply cipher_rounds_block; [done|intros i Hi'; apply HK; lia]).
  assert (Hx : block (xor_bytes (shift_rows (sub_bytes s)) (round_key_of ws (2 * S m))))
    by (rewrite <- shift_sub_rows_spec by done; apply block_xor; [by apply shift_sub_rows_block|apply HK; lia]).
  rewrite (add_pair _ ws (S m) Hw ltac:(lia) Hx : copy_and_key _ _ = _).
  rewrite <- (first_round (xor_bytes _ _)). rewrite undo_final_round by (done || apply HK; lia). unfold s.
  rewrite decrypt_256_rounds_spec by done.
  rewrite (add_pair _ ws 0 Hw ltac:(lia) Hb : copy_and_key _ _ = _). change (2 * 0)%nat with 0%nat. f_equal.
  apply (xor_block_cancel inp (round_key_of ws 0) Hi). apply HK. lia.
Qed.

Lemma aes_decrypt_256_spec inp key :
  block inp -> length key = 32%nat -> Forall is_u8 key ->
  aes_decrypt_256 (aes 8 key inp) (key_pair (expand 8 56 (words 8 key)) 7) = (inp, key).
Proof.
  intros Hi Hl Hk. destruct (schedule_recurrent 8 56 key) as (Hr & Hn & Hc); [lia|done|done|].
  rewrite aes_256_cipher by done. set (ws := expand 8 56 (words 8 key)) in *. clearbody ws.
  assert (E0 : key_pair ws 0 = key) by by apply (first_pair 8). rewrite <- E0.
  apply (decrypt_256_all ws 6 inp Hr); [lia|done].
Qed.
