(* ===== verification/AesCmac.v ===== *)
(** * AesCmac: the message authentication code

    [src/system/stack/crypto_toolbox/aes_cmac.cc].  Blocks ([Octet16]) are stored
    least significant byte first.  The text under computation is in the control
    block [cmac_cb]; its buffer comes from [alloca] and starts with arbitrary
    contents, as do the local variables the code does not initialise: [garbage] is
    the byte found at each place. *)

From Stdlib Require Import ZArith Lia.
From stdpp Require Import base list.
From S2P Require Import Prelude Aes.

Open Scope aes_scope.

Abbreviation OCTET16_LEN := 16 (only parsing).

Record tCMAC_CB : Type := mk_tCMAC_CB {
  cmac_text : list Z;
  cmac_len : Z;
  cmac_round : Z;
}.

(** [memset(&cmac_cb, 0, sizeof(tCMAC_CB))] *)
Definition cmac_cb_clear : tCMAC_CB := mk_tCMAC_CB [] 0 0.

Definition const_Rb : list Z := [0x87; 0; 0; 0; 0; 0; 0; 0; 0; 0; 0; 0; 0; 0; 0; 0].

Definition xor_128 (a b : list Z) : list Z :=
  foldl (fun aa i => <[i := aa.[i] ^^ b.[i]]> aa) a (seq 0 16).

(** [xor_128] on the 16 bytes at [text + pos]. *)
Definition xor_128_at (text : list Z) (pos : Z) (b : list Z) : outcome (list Z) :=
  a ← rd_bytes text pos OCTET16_LEN;
  wr_bytes text pos (xor_128 a b).

Definition padding (dest : list Z) (length : nat) : list Z :=
  foldl (fun p i => <[(16 - i - 1)%nat := if Nat.eqb i length then 0x80 else 0]> p) dest (seq length (16 - length)).

(** One turn of the loop, on [output] and [overflow]. *)
Definition leftshift_step (input : list Z) (acc : list Z * Z) (i : nat) : list Z * Z :=
  let '(output, overflow) := acc in
  let next_overflow := if nz (input.[i] .& 0x80) then 1 else 0 in
  (<[i := u8 ((input.[i] .<< 1) .| overflow)]> output, next_overflow).

Definition leftshift_onebit (input output : list Z) : list Z :=
  (foldl (leftshift_step input) (output, 0) (seq 0 16)).1.

Section Garbage.
Context (garbage : nat -> Z).

(** An object of [n] bytes that is not initialised. *)
Definition uninitialised (n : nat) : list Z := map garbage (seq 0 n).

Definition aes_128 (key message : list Z) : outcome (list Z) :=
  let key_reversed := reverse key in
  let message_reversed := reverse message in
  '(_, ctx) ← aes_set_key key_reversed 16 (mk_aes_context (uninitialised 240) (garbage 240));
  '(_, output) ← aes_encrypt message_reversed (uninitialised 16) ctx;
  mret (reverse output).

(** The overload of [crypto_toolbox.h] for a message of at most 16 bytes, which
    starts at [pos] in [message]. *)
Definition aes_128_bytes (key message : list Z) (pos length : Z) : outcome (list Z) :=
  if OCTET16_LEN <? length then Crash CheckFailed else
  bytes ← rd_bytes message pos length;
  msg ← wr_bytes (replicate 16 0) 0 bytes;
  aes_128 key msg.

(** [while (i <= cmac_cb.round)] *)
Fixpoint cmac_loop (fuel : nat) (key : list Z) (cb : tCMAC_CB) (i : Z) (x output : list Z) :
    outcome (list Z * tCMAC_CB) :=
  match fuel with
  | O => Crash OutOfFuel
  | S fuel =>
      if negb (i <=? cmac_round cb) then mret (output, cb) else
      text ← xor_128_at (cmac_text cb) ((cmac_round cb - i) * OCTET16_LEN) x;
      let cb := mk_tCMAC_CB text (cmac_len cb) (cmac_round cb) in
      output ← aes_128_bytes key (cmac_text cb) ((cmac_round cb - i) * OCTET16_LEN) OCTET16_LEN;
      let x := output in
      cmac_loop fuel key cb (u16 (i + 1)) x output
  end.

Definition cmac_aes_k_calculate (key : list Z) (cb : tCMAC_CB) : outcome (list Z * tCMAC_CB) :=
  let output := uninitialised 16 in
  let x := replicate 16 0 in
  cmac_loop (S (Z.to_nat (cmac_round cb))) key cb 1 x output.

Definition cmac_prepare_last_block (k1 k2 : list Z) (cb : tCMAC_CB) : outcome tCMAC_CB :=
  let flag := (cmac_len cb `mod` OCTET16_LEN =? 0) && nz (cmac_len cb) in
  text ←
    if flag then xor_128_at (cmac_text cb) 0 k1
    else
      last ← rd_bytes (cmac_text cb) 0 OCTET16_LEN;
      text ← wr_bytes (cmac_text cb) 0 (padding last (Z.to_nat (u8 (cmac_len cb `mod` 16))));
      xor_128_at text 0 k2;
  mret (mk_tCMAC_CB text (cmac_len cb) (cmac_round cb)).

(** One subkey from the block before it. *)
Definition cmac_shift (p : list Z) : list Z :=
  let k := leftshift_onebit p (uninitialised 16) in
  if nz (p.[15] .& 0x80) then xor_128 k const_Rb else k.

Definition cmac_generate_subkey (key : list Z) (cb : tCMAC_CB) : outcome tCMAC_CB :=
  let zero := replicate 16 0 in
  p ← aes_128_bytes key zero 0 OCTET16_LEN;
  let k1 := cmac_shift p in
  let k2 := cmac_shift k1 in
  cmac_prepare_last_block k1 k2 cb.

(** [input] is a pointer that may be null.  The code and its control block. *)
Definition aes_cmac (key : list Z) (input : option (list Z)) (length : Z) (cb : tCMAC_CB) :
    outcome (list Z * tCMAC_CB) :=
  let n := u16 ((length + OCTET16_LEN - 1) `div` OCTET16_LEN) in
  let n := if n =? 0 then 1 else n in
  let len := u32 (n * OCTET16_LEN) in
  let text := uninitialised (Z.to_nat len) in
  let diff := u16 (len - length) in
  cb ←
    match input with
    | Some input =>
        if 0 <? length then
          bytes ← rd_bytes input 0 length;
          text ← wr_bytes text diff bytes;
          mret (mk_tCMAC_CB text length n)
        else mret (mk_tCMAC_CB text 0 n)
    | None => mret (mk_tCMAC_CB text 0 n)
    end;
  cb ← cmac_generate_subkey key cb;
  '(signature, cb) ← cmac_aes_k_calculate key cb;
  mret (signature, cmac_cb_clear).

End Garbage.
