(* ===== verification/CryptoToolbox.v ===== *)
(** * CryptoToolbox: the key functions of the Security Manager

    [src/system/stack/crypto_toolbox/crypto_toolbox.cc] and the overloads of
    [crypto_toolbox.h].  The messages are assembled least significant byte first,
    that is from the last field of the specification's concatenation to the first.
    Every function passes the control block of [aes_cmac] along. *)

From Stdlib Require Import ZArith Lia.
From stdpp Require Import base list.
From S2P Require Import Prelude Aes AesCmac.

Open Scope aes_scope.

Abbreviation BT_OCTET32_LEN := 32 (only parsing).

Section Toolbox.
Context (garbage : nat -> Z).

(** [aes_cmac(key, message)] for a message that is an array. *)
Definition aes_cmac_array (key message : list Z) (cb : tCMAC_CB) : outcome (list Z * tCMAC_CB) :=
  aes_cmac garbage key (Some message) (u16 (Z.of_nat (length message))) cb.

(** The overload that stores the [tlen] most significant bytes at [p_signature]. *)
Definition aes_cmac_tlen (key : list Z) (message : option (list Z)) (length tlen : Z) (p_signature : list Z)
    (cb : tCMAC_CB) : outcome (list Z * tCMAC_CB) :=
  '(signature, cb) ← aes_cmac garbage key message length cb;
  mac ← rd_bytes signature (OCTET16_LEN - tlen) tlen;
  p_signature ← wr_bytes p_signature 0 mac;
  mret (p_signature, cb).

Definition h6 (w keyid : list Z) (cb : tCMAC_CB) : outcome (list Z * tCMAC_CB) := aes_cmac_array w keyid cb.

Definition h7 (salt w : list Z) (cb : tCMAC_CB) : outcome (list Z * tCMAC_CB) := aes_cmac_array salt w cb.

Definition f4 (u v x : list Z) (z : Z) (cb : tCMAC_CB) : outcome (list Z * tCMAC_CB) :=
  v ← rd_bytes v 0 BT_OCTET32_LEN;
  u ← rd_bytes u 0 BT_OCTET32_LEN;
  aes_cmac_array x ([z] ++ v ++ u) cb.

Definition calculate_mac_key_or_ltk (t : list Z) (counter : Z) (key_id n1 n2 a1 a2 length : list Z) (cb : tCMAC_CB) :
    outcome (list Z * tCMAC_CB) :=
  length ← rd_bytes length 0 2;
  a2 ← rd_bytes a2 0 7;
  a1 ← rd_bytes a1 0 7;
  key_id ← rd_bytes key_id 0 4;
  aes_cmac_array t (length ++ a2 ++ a1 ++ n2 ++ n1 ++ key_id ++ [counter]) cb.

Definition f5_salt : list Z :=
  [0xBE; 0x83; 0x60; 0x5A; 0xDB; 0x0B; 0x37; 0x60; 0x38; 0xA5; 0xF5; 0xAA; 0x91; 0x83; 0x88; 0x6C].

(** [mac_key] and [ltk]. *)
Definition f5 (w n1 n2 a1 a2 : list Z) (cb : tCMAC_CB) : outcome (list Z * list Z * tCMAC_CB) :=
  '(t, cb) ← aes_cmac garbage f5_salt (Some w) BT_OCTET32_LEN cb;
  let key_id := [0x65; 0x6c; 0x74; 0x62] in
  let length := [0x00; 0x01] in
  '(mac_key, cb) ← calculate_mac_key_or_ltk t 0 key_id n1 n2 a1 a2 length cb;
  '(ltk, cb) ← calculate_mac_key_or_ltk t 1 key_id n1 n2 a1 a2 length cb;
  mret (mac_key, ltk, cb).

Definition f6 (w n1 n2 r iocap a1 a2 : list Z) (cb : tCMAC_CB) : outcome (list Z * tCMAC_CB) :=
  a2 ← rd_bytes a2 0 7;
  a1 ← rd_bytes a1 0 7;
  iocap ← rd_bytes iocap 0 3;
  aes_cmac_array w (a2 ++ a1 ++ iocap ++ r ++ n2 ++ n1) cb.

(** [STREAM_TO_UINT32] *)
Definition stream_to_uint32 (p : list Z) : Z :=
  u32 (p.[0] + (p.[1] .<< 8) + (p.[2] .<< 16) + (p.[3] .<< 24)).

Definition g2 (u v x y : list Z) (cb : tCMAC_CB) : outcome (Z * tCMAC_CB) :=
  v ← rd_bytes v 0 BT_OCTET32_LEN;
  u ← rd_bytes u 0 BT_OCTET32_LEN;
  '(cmac, cb) ← aes_cmac_array x (y ++ v ++ u) cb;
  let vres := stream_to_uint32 cmac in
  mret (vres `mod` 1000000, cb).

Definition ltk_to_link_key (ltk : list Z) (use_h7 : bool) (cb : tCMAC_CB) : outcome (list Z * tCMAC_CB) :=
  '(ilk, cb) ←
    if use_h7 then h7 ([0x31; 0x70; 0x6D; 0x74] ++ replicate 12 0) ltk cb
    else h6 ltk [0x31; 0x70; 0x6D; 0x74] cb;
  h6 ilk [0x72; 0x62; 0x65; 0x6c] cb.

Definition link_key_to_ltk (link_key : list Z) (use_h7 : bool) (cb : tCMAC_CB) : outcome (list Z * tCMAC_CB) :=
  '(iltk, cb) ←
    if use_h7 then h7 ([0x32; 0x70; 0x6D; 0x74] ++ replicate 12 0) link_key cb
    else h6 link_key [0x32; 0x70; 0x6D; 0x74] cb;
  h6 iltk [0x65; 0x6c; 0x72; 0x62] cb.

End Toolbox.
