(* ===== verification/CmacProps.v ===== *)
(** * CmacProps: the message authentication code is the one of RFC 4493

    The code works on blocks stored least significant byte first and from the end
    of its buffer to the start; the specification on the reversed bytes, in order. *)

From Stdlib Require Import ZArith Lia Btauto.
From stdpp Require Import base list.
From S2P Require Import Prelude Aes AesSpec AesProps AesKeys AesCmac.

Open Scope aes_scope.

(** The number a block stands for, least significant byte first. *)
Definition le_value (l : list Z) : Z := foldr (fun x v => x + 256 * v) 0 l.

(** One bit to the left, [c] shifted in, and the bit that falls out. *)
Fixpoint shl (c : Z) (l : list Z) : list Z :=
  match l with [] => [] | x :: l => (2 * (x mod 128) + c) :: shl (x / 128) l end.

Fixpoint shl_carry (c : Z) (l : list Z) : Z :=
  match l with [] => c | x :: l => shl_carry (x / 128) l end.

(** The chain of RFC 4493 over [n] whole blocks. *)
Fixpoint chain (E : list Z -> list Z) (n : nat) (x m : list Z) : list Z :=
  match n with O => x | S n => chain E n (E (xor_bytes x (take 16 m))) (drop 16 m) end.

(** The last block of a message as the chain takes it, with the subkeys [k1] and [k2]. *)
Definition masked (k1 k2 m : list Z) : list Z :=
  if Nat.eqb (length m) 16 then xor_bytes m k1 else xor_bytes (pad m) k2.

(** * Lemmas *)

Ltac run_octet :=
  cbv beta iota zeta delta [xor_128 foldl seq nth insert list_insert xor_block zip_with].

Lemma xor_128_block a b : length a = 16%nat -> length b = 16%nat -> xor_128 a b = xor_block a b.
Proof.
  intros Ha Hb. do 16 (destruct a as [|? a]; [discriminate Ha|]). destruct a; [|discriminate Ha].
  do 16 (destruct b as [|? b]; [discriminate Hb|]). destruct b; [|discriminate Hb]. run_octet. reflexivity.
Qed.

Lemma padding_spec d l : length d = 16%nat -> (l < 16)%nat ->
  padding d l = replicate (15 - l) 0 ++ [0x80] ++ drop (16 - l) d.
Proof.
  intros Hd Hl. do 16 (destruct d as [|? d]; [discriminate Hd|]). destruct d; [|discriminate Hd].
  do 16 (destruct l as [|l]; [reflexivity|]). lia.
Qed.

(** ** The two subkeys *)

Lemma le_value_reverse l : block_value (reverse l) = le_value l.
Proof.
  induction l as [|x l IH]; [done|]. rewrite reverse_cons. unfold block_value in *. rewrite foldl_app.
  cbn [foldl]. rewrite IH. cbn [le_value foldr]. fold (le_value l). lia.
Qed.

Lemma value_bytes_value b : Forall is_u8 b -> value_bytes (length b) (block_value b) = b.
Proof.
  induction b as [|x b IH] using rev_ind; [done|]. intros [Hb Hx]%Forall_app. inversion_clear Hx as [|? ? Hx' _].
  rewrite length_app, Nat.add_comm. unfold block_value. rewrite foldl_app. cbn [length Nat.add foldl value_bytes].
  fold (block_value b). unfold is_u8 in Hx'.
  replace ((256 * block_value b + x) / 256) with (block_value b) by (rewrite Z.mul_comm, Z.div_add_l by lia; rewrite Z.div_small by lia; lia).
  replace ((256 * block_value b + x) mod 256) with x by (rewrite Z.add_comm, Z.mul_comm, Z_mod_plus_full; by rewrite Z.mod_small).
  by rewrite IH.
Qed.

Lemma shl_value c l : le_value (shl c l) + 256 ^ Z.of_nat (length l) * shl_carry c l = 2 * le_value l + c.
Proof.
  revert c. induction l as [|x l IH]; intros c; [cbn; lia|]. cbn [shl shl_carry le_value foldr length].
  fold (le_value l) (le_value (shl (x / 128) l)). specialize (IH (x / 128)).
  rewrite Nat2Z.inj_succ, Z.pow_succ_r by lia. pose proof (Z.div_mod x 128). lia.
Qed.

Lemma shl_bytes c l : 0 <= c <= 1 -> Forall is_u8 l -> Forall is_u8 (shl c l) /\ 0 <= shl_carry c l <= 1.
Proof.
  revert c. induction l as [|x l IH]; intros c Hc Hl; [done|]. inversion_clear Hl as [|? ? Hx Hl']. unfold is_u8 in Hx.
  assert (Hq : 0 <= x / 128 <= 1) by (split; [apply Z.div_pos; lia|]; apply Z.lt_succ_r, Z.div_lt_upper_bound; lia).
  destruct (IH (x / 128) Hq Hl') as [Hf Hk]. split; [|done]. cbn. constructor; [|done].
  pose proof (Z.mod_pos_bound x 128). unfold is_u8. lia.
Qed.

Lemma le_value_bound l : Forall is_u8 l -> 0 <= le_value l < 256 ^ Z.of_nat (length l).
Proof.
  induction 1 as [|x l Hx Hl IH]; [done|]. cbn [le_value foldr length]. fold (le_value l).
  rewrite Nat2Z.inj_succ, Z.pow_succ_r by lia. unfold is_u8 in Hx. lia.
Qed.

Lemma top_bit y : is_u8 y -> (if nz (y .& 0x80) then 1 else 0) = y / 128.
Proof.
  intros Hy.
  assert (C : all_below 256 (fun y => (if nz (y .& 0x80) then 1 else 0) =? y / 128) = true) by (vm_compute; reflexivity).
  apply Z.eqb_eq. exact (all_below_spec _ _ y C Hy).
Qed.

(** A byte shifted with the top bit of its neighbour. *)
Lemma shift_byte x y : is_u8 x -> is_u8 y ->
  u8 ((x .<< 1) .| (if nz (y .& 0x80) then 1 else 0)) = 2 * (x mod 128) + y / 128.
Proof.
  intros Hx Hy. rewrite <- top_bit by done.
  assert (C : all_below 256 (fun x => (u8 ((x .<< 1) .| 0) =? 2 * (x mod 128)) &&
    (u8 ((x .<< 1) .| 1) =? 2 * (x mod 128) + 1)) = true) by (vm_compute; reflexivity).
  pose proof (all_below_spec _ _ x C Hx) as [E0%Z.eqb_eq E1%Z.eqb_eq]%andb_true_iff.
  destruct (nz (y .& 0x80)); [exact E1|]. rewrite E0. lia.
Qed.

Lemma leftshift_onebit_shl p out : block p -> length out = 16%nat -> leftshift_onebit p out = shl 0 p.
Proof.
  intros Hp Ho. do 16 (destruct out as [|? out]; [discriminate Ho|]). destruct out; [|discriminate Ho].
  open_block p Hp.
  assert (E0 : forall x, is_u8 x -> u8 ((x .<< 1) .| 0) = 2 * (x mod 128) + 0)
    by (intros x Hx; exact (shift_byte x 0 Hx ltac:(done))).
  cbv beta iota zeta delta [leftshift_onebit leftshift_step foldl seq nth insert list_insert fst shl].
  rewrite E0 by done. repeat rewrite shift_byte by done. reflexivity.
Qed.

Lemma value_bytes_lxor n w c : 0 <= w -> is_u8 c ->
  value_bytes (S n) (Z.lxor w c) = value_bytes n (w / 256) ++ [Z.lxor (w mod 256) c].
Proof.
  intros Hw Hc. cbn [value_bytes]. change 256 with (2 ^ 8).
  rewrite <- !Z.shiftr_div_pow2, <- !Z.land_ones by lia. rewrite Z.shiftr_lxor.
  replace (c .>> 8) with 0 by (rewrite Z.shiftr_div_pow2, Z.div_small; done). rewrite Z.lxor_0_r. do 2 f_equal.
  apply Z.bits_inj'. intros k Hk. rewrite Z.land_spec, !Z.lxor_spec, Z.land_spec, Z.testbit_ones_nonneg by lia.
  destruct (Z.ltb_spec k 8) as [|Hge]; [btauto|]. rewrite !andb_false_r, xorb_false_l. symmetry.
  apply Z.testbit_false; [lia|]. rewrite Z.div_small; [done|]. destruct Hc as [Hc1 Hc2]. split; [done|].
  apply Z.lt_le_trans with (2 ^ 8); [done|]. apply Z.pow_le_mono_r; lia.
Qed.

Lemma value_bytes_lxor_reverse l x c : Forall is_u8 (x :: l) -> is_u8 c ->
  value_bytes (S (length l)) (Z.lxor (block_value (reverse (x :: l))) c) = reverse (Z.lxor x c :: l).
Proof.
  intros Hl Hc. inversion_clear Hl as [|? ? Hx Hl']. rewrite le_value_reverse. pose proof (le_value_bound _ Hl').
  unfold is_u8 in Hx. cbn [le_value foldr]. fold (le_value l). rewrite value_bytes_lxor by (done || lia).
  rewrite Z.mul_comm, Z.div_add, Z_mod_plus_full, Z.div_small, Z.mod_small by lia. rewrite Z.add_0_l.
  rewrite <- le_value_reverse, <- (length_reverse l). rewrite value_bytes_value by by apply Forall_reverse.
  by rewrite reverse_cons.
Qed.

Lemma shl_carry_top p : block p -> shl_carry 0 p = if nz (p.[15] .& 0x80) then 1 else 0.
Proof. intros Hp. open_block p Hp. cbn [shl_carry nth]. symmetry. by apply top_bit. Qed.

Lemma cmac_shift_double g p : block p -> cmac_shift g p = reverse (double (reverse p)).
Proof.
  intros Hp. unfold cmac_shift. rewrite leftshift_onebit_shl by (done || by unfold uninitialised; rewrite length_map, length_seq).
  pose proof Hp as [Hl Hb]. destruct (shl_bytes 0 p ltac:(lia) Hb) as [Hs Hc].
  pose proof (shl_value 0 p) as Hv. pose proof (le_value_bound _ Hs) as Hbd.
  assert (Hl' : length (shl 0 p) = 16%nat) by (clear -Hl; do 17 (destruct p as [|? p]; try discriminate Hl); done).
  rewrite Hl in Hv. rewrite Hl' in Hbd. change (256 ^ Z.of_nat 16) with (2 ^ 128) in *.
  unfold double. rewrite le_value_reverse. rewrite (shl_carry_top p Hp) in *.
  assert (Hm : (2 * le_value p) mod 2 ^ 128 = le_value (shl 0 p))
    by (symmetry; eapply Z.mod_unique_pos; [exact Hbd|]; rewrite Z.add_comm; rewrite Hv; lia).
  rewrite Hm, <- (le_value_reverse (shl 0 p)).
  destruct (shl 0 p) as [|x l] eqn:E; [discriminate Hl'|]. injection Hl' as Hl'.
  replace 16%nat with (S (length l)) by lia.
  assert (Ht : nz (p.[15] .& 0x80) = (2 ^ 127 <=? le_value p))
    by (destruct (nz _); symmetry; [apply Z.leb_le|apply Z.leb_gt]; lia).
  rewrite Ht. destruct (2 ^ 127 <=? le_value p); rewrite value_bytes_lxor_reverse by done; rewrite reverse_involutive.
  - do 15 (destruct l as [|? l]; [discriminate Hl'|]). destruct l; [|discriminate Hl'].
    run_octet. unfold const_Rb. by rewrite !Z.lxor_0_r.
  - by rewrite Z.lxor_0_r.
Qed.

(** ** The cipher on reversed blocks *)

Lemma block_reverse b : block b -> block (reverse b).
Proof. intros [Hl Hb]. split; [by rewrite length_reverse|by apply Forall_reverse]. Qed.

Lemma aes_block key m : block key -> block m -> block (aes 4 key m).
Proof.
  intros [Hl Hk] Hm. destruct (aes_set_key_spec key 16 4 (mk_aes_context (replicate 240 0) 0)) as (ctx & _ & HK & _);
    [unfold key_size; lia|done|lia|done|]. by destruct (aes_encrypt_cipher _ _ _ _ m HK Hm).
Qed.

Lemma aes_128_spec g key m : block key -> block m ->
  aes_128 g key m = Ok (reverse (aes 4 (reverse key) (reverse m))).
Proof.
  intros Hk Hm. apply block_reverse in Hk, Hm. unfold aes_128. destruct Hk as [Hl Hk].
  destruct (aes_set_key_spec (reverse key) 16 4 (mk_aes_context (uninitialised g 240) (g 240%nat)))
    as (ctx & E & HK & _); [unfold key_size; lia|done|lia|by unfold uninitialised; cbn [ksch]; rewrite length_map, length_seq|].
  rewrite E. cbn [mbind outcome_bind]. destruct (aes_encrypt_cipher _ _ _ _ (uninitialised g 16) HK Hm) as [E' _].
  rewrite E'. unfold aes. exact eq_refl.
Qed.

Lemma aes_128_bytes_spec g key text p : block key -> Forall is_u8 text -> 0 <= p -> p + 16 <= Z.of_nat (length text) ->
  aes_128_bytes g key text p 16 = Ok (reverse (aes 4 (reverse key) (reverse (slice text p 16)))).
Proof.
  intros Hk Ht Hp Hl. unfold aes_128_bytes. pose proof (slice_block text p Ht Hp Hl) as Hb. pose proof Hb as [Hn _].
  rewrite rd_bytes_slice by lia. cbn [Z.ltb Z.compare Pos.compare Pos.compare_cont mbind outcome_bind].
  rewrite wr_bytes_patch by (cbn; lia). cbn [mbind outcome_bind]. unfold patch. rewrite Hn.
  rewrite take_0, app_nil_l. change (drop (Z.to_nat 0 + 16) (replicate 16 0)) with (@nil Z). rewrite app_nil_r.
  by apply aes_128_spec.
Qed.

(** ** The chain *)

Lemma reverse_xor a b : length a = 16%nat -> length b = 16%nat ->
  reverse (xor_block a b) = xor_bytes (reverse b) (reverse a).
Proof.
  intros Ha Hb. do 16 (destruct a as [|? a]; [discriminate Ha|]). destruct a; [|discriminate Ha].
  do 16 (destruct b as [|? b]; [discriminate Hb|]). destruct b; [|discriminate Hb].
  rewrite (xor_block_comm _ _). reflexivity.
Qed.

Lemma xor_128_at_spec text p b : Forall is_u8 text -> 0 <= p -> p + 16 <= Z.of_nat (length text) -> block b ->
  xor_128_at text p b = Ok (patch text p (xor_block (slice text p 16) b)).
Proof.
  intros Ht Hp Hl Hb. pose proof (slice_block text p Ht Hp Hl) as Hs. unfold xor_128_at.
  rewrite rd_bytes_slice by lia. cbn [mbind outcome_bind]. rewrite xor_128_block by (apply Hs || apply Hb).
  apply wr_bytes_patch; [done|]. destruct (block_xor _ _ Hs Hb) as [-> _]. lia.
Qed.

Lemma patch_bytes l p bs : Forall is_u8 l -> Forall is_u8 bs -> Forall is_u8 (patch l p bs).
Proof. intros Hl Hb. unfold patch. apply Forall_app. split; [by apply Forall_take|]. apply Forall_app. split; [done|by apply Forall_drop]. Qed.

Lemma slice_patch l p n bs : 0 <= p -> p + n <= Z.of_nat (length l) -> n = Z.of_nat (length bs) ->
  slice (patch l p bs) p n = bs.
Proof.
  intros Hp Hl ->. unfold slice, patch. rewrite drop_app_length' by (rewrite length_take; lia).
  by rewrite take_app_length' by lia.
Qed.

Lemma take_patch l p bs : 0 <= p -> p <= Z.of_nat (length l) -> take (Z.to_nat p) (patch l p bs) = take (Z.to_nat p) l.
Proof. intros Hp Hl. unfold patch. by rewrite take_app_length' by (rewrite length_take; lia). Qed.

Lemma reverse_take_block (text : list Z) j : (16 * S j <= length text)%nat ->
  reverse (take (16 * S j) text) = reverse (slice text (16 * Z.of_nat j) 16) ++ reverse (take (16 * j) text).
Proof.
  intros Hl. rewrite <- reverse_app. f_equal. unfold slice.
  replace (Z.to_nat (16 * Z.of_nat j)) with (16 * j)%nat by lia. change (Z.to_nat 16) with 16%nat.
  rewrite take_take_drop. f_equal. lia.
Qed.

Lemma chain_reverse E x text j : (16 * S j <= length text)%nat -> 
  chain E (S j) x (reverse (take (16 * S j) text)) =
    chain E j (E (xor_bytes x (reverse (slice text (16 * Z.of_nat j) 16)))) (reverse (take (16 * j) text)).
Proof.
  intros Hl. assert (Hs : length (slice text (16 * Z.of_nat j) 16) = 16%nat)
    by (unfold slice; rewrite length_take, length_drop; lia).
  cbn [chain]. rewrite reverse_take_block by done.
  rewrite take_app_length', drop_app_length' by by rewrite length_reverse. done.
Qed.

Lemma cmac_loop_spec g key j n fuel text len x out :
  block key -> length text = (16 * n)%nat -> Forall is_u8 text -> (j <= n)%nat -> Z.of_nat n < 65535 -> (j < fuel)%nat ->
  block x -> (j = 0%nat -> out = x) ->
  exists cb', cmac_loop g fuel key (mk_tCMAC_CB text len (Z.of_nat n)) (Z.of_nat (n - j) + 1) x out =
    Ok (reverse (chain (aes 4 (reverse key)) j (reverse x) (reverse (take (16 * j) text))), cb').
Proof.
  intros Hk. revert fuel text x out. induction j as [|j IH]; intros fuel text x out Hl Ht Hj Hn Hf Hx Ho;
    (destruct fuel as [|fuel]; [lia|]); cbn [cmac_loop cmac_round cmac_text cmac_len].
  - destruct (Z.leb_spec (Z.of_nat (n - 0) + 1) (Z.of_nat n)); [lia|]. rewrite (Ho eq_refl).
    cbn [negb chain]. rewrite reverse_involutive. by eexists.
  - destruct (Z.leb_spec (Z.of_nat (n - S j) + 1) (Z.of_nat n)); [|lia]. cbn [negb].
    replace ((Z.of_nat n - (Z.of_nat (n - S j) + 1)) * 16) with (16 * Z.of_nat j) by lia.
    rewrite xor_128_at_spec by (done || lia). cbn [mbind outcome_bind].
    pose proof (slice_block text (16 * Z.of_nat j) Ht ltac:(lia) ltac:(lia)) as Hs.
    set (b := xor_block _ x). assert (Hb : block b) by by apply block_xor. pose proof Hb as [Hbl Hbu].
    assert (Hpl : length (patch text (16 * Z.of_nat j) b) = (16 * n)%nat) by (rewrite length_patch; lia).
    assert (Hpb : Forall is_u8 (patch text (16 * Z.of_nat j) b)) by by apply patch_bytes.
    rewrite aes_128_bytes_spec by (done || lia). cbn [mbind outcome_bind].
    rewrite slice_patch by lia.
    assert (He : block (aes 4 (reverse key) (reverse b))) by (apply aes_block; by apply block_reverse).
    replace (u16 (Z.of_nat (n - S j) + 1 + 1)) with (Z.of_nat (n - j) + 1) by (unfold u16; rewrite Z.mod_small; lia).
    destruct (IH fuel (patch text (16 * Z.of_nat j) b) (reverse (aes 4 (reverse key) (reverse b)))
      (reverse (aes 4 (reverse key) (reverse b)))) as [cb' ->]; [done|done|lia|lia|lia|by apply block_reverse|done|].
    exists cb'. rewrite chain_reverse by lia. rewrite reverse_involutive.
    replace (16 * j)%nat with (Z.to_nat (16 * Z.of_nat j)) by lia. rewrite take_patch by lia.
    unfold b. rewrite reverse_xor by (apply Hs || apply Hx). done.
Qed.

(** ** The specification as a chain over whole blocks *)

Lemma value_bytes_block n v : length (value_bytes n v) = n /\ Forall is_u8 (value_bytes n v).
Proof.
  revert v. induction n as [|n IH]; intros v; [done|]. destruct (IH (v / 256)) as [Hl Hb]. cbn [value_bytes].
  rewrite length_app, Hl. split; [cbn; lia|]. apply Forall_app. split; [done|]. constructor; [|done].
  apply Z.mod_pos_bound. lia.
Qed.

Lemma length_masked k1 k2 m : length k1 = 16%nat -> length k2 = 16%nat -> (length m <= 16)%nat ->
  length (masked k1 k2 m) = 16%nat.
Proof.
  intros H1 H2 Hm. unfold masked, xor_bytes, pad. destruct (Nat.eqb_spec (length m) 16); rewrite length_zip_with; [lia|].
  rewrite !length_app, length_replicate. cbn [length]. lia.
Qed.

Lemma chain_S E n x m : chain E (S n) x m = chain E n (E (xor_bytes x (take 16 m))) (drop 16 m).
Proof. exact eq_refl. Qed.

Lemma cmac_from_chain E q fuel x m :
  (q < fuel)%nat -> (16 * q < length m \/ q = 0)%nat -> (length m <= 16 * S q)%nat ->
  cmac_from E fuel x m =
    chain E (S q) x (take (16 * q) m ++ masked (subkey1 E) (subkey2 E) (drop (16 * q) m)).
Proof.
  revert fuel x m. induction q as [|q IH]; intros fuel x m Hf Hlo Hhi; (destruct fuel as [|fuel]; [lia|]); cbn [cmac_from].
  - destruct (Nat.leb_spec (length m) 16) as [Hm|]; [|lia]. change (16 * 0)%nat with 0%nat. rewrite take_0, drop_0.
    cbn [app chain]. rewrite take_ge; [done|]. rewrite length_masked; [done| | |done]; apply value_bytes_block.
  - destruct (Nat.leb_spec (length m) 16); [lia|]. rewrite (IH fuel); [|lia|rewrite length_drop; lia|rewrite length_drop; lia].
    rewrite (chain_S E (S q)), take_app_le, drop_app_le by (rewrite length_take; lia).
    rewrite take_take, skipn_firstn_comm, drop_drop.
    replace (16 * S q - 16)%nat with (16 * q)%nat by lia. replace (16 + 16 * q)%nat with (16 * S q)%nat by lia.
    by replace (16 `min` (16 * S q))%nat with 16%nat by lia.
Qed.

(** ** The last block *)

Lemma reverse_masked k1 k2 junk lo :
  length (junk ++ lo) = 16%nat -> length k1 = 16%nat -> length k2 = 16%nat ->
  reverse (if Nat.eqb (length lo) 16 then xor_block (junk ++ lo) k1 else xor_block (padding (junk ++ lo) (length lo)) k2) =
    masked (reverse k1) (reverse k2) (reverse lo).
Proof.
  intros Hl H1 H2. unfold masked. rewrite length_reverse. rewrite length_app in Hl.
  destruct (Nat.eqb_spec (length lo) 16) as [He|Hne].
  - destruct junk; [|cbn in Hl; lia]. rewrite reverse_xor by done. apply xor_block_comm.
  - rewrite padding_spec by (rewrite ?length_app; lia). rewrite drop_app_length' by lia.
    rewrite reverse_xor; [|rewrite !length_app, length_replicate; cbn; lia|done].
    rewrite (xor_block_comm _ _ : xor_bytes _ _ = xor_bytes _ _). f_equal. unfold pad.
    rewrite !reverse_app, reverse_replicate, length_reverse. by rewrite <- app_assoc.
Qed.

Lemma slice_first (a hi : list Z) : length a = 16%nat -> slice (a ++ hi) 0 16 = a.
Proof. intros Ha. unfold slice. rewrite drop_0. by rewrite take_app_length' by (rewrite Ha; done). Qed.

Lemma patch_first (a b hi : list Z) : length a = 16%nat -> length b = 16%nat -> patch (a ++ hi) 0 b = b ++ hi.
Proof. intros Ha Hb. unfold patch. rewrite take_0, app_nil_l, Hb. by rewrite drop_app_length' by (rewrite Ha; done). Qed.

Lemma xor_first a hi b : length (a ++ hi) = (length hi + 16)%nat -> Forall is_u8 (a ++ hi) -> block b ->
  xor_128_at (a ++ hi) 0 b = Ok (xor_block a b ++ hi) /\ block (xor_block a b).
Proof.
  intros Hl Hb Hk. rewrite length_app in Hl. assert (Ha : length a = 16%nat) by lia.
  apply Forall_app in Hb as [Hba Hbh]. assert (Hx : block (xor_block a b)) by (by apply block_xor). split; [|done].
  rewrite xor_128_at_spec; [|by apply Forall_app|lia|rewrite length_app; lia|done].
  by rewrite slice_first, patch_first by (done || apply Hx).
Qed.

Lemma flag_spec (l q : nat) : (l <= 16)%nat -> (l = 0 -> q = 0)%nat ->
  ((Z.of_nat (l + 16 * q) `mod` 16 =? 0) && nz (Z.of_nat (l + 16 * q))) = Nat.eqb l 16 /\
  (l <> 16%nat -> Z.to_nat (u8 (Z.of_nat (l + 16 * q) `mod` 16)) = l).
Proof.
  intros Hl Hq. replace (Z.of_nat (l + 16 * q)) with (Z.of_nat l + Z.of_nat q * 16) by lia. rewrite Z_mod_plus_full.
  unfold nz, u8. split.
  - destruct (Nat.eqb_spec l 16) as [->|Hne]; [by destruct (Z.eqb_spec (Z.of_nat 16 + Z.of_nat q * 16) 0); [lia|]|].
    rewrite Z.mod_small by lia. destruct (Z.eqb_spec (Z.of_nat l) 0) as [E|]; [|done].
    by replace (Z.of_nat l + Z.of_nat q * 16) with 0 by lia.
  - intros Hne. rewrite !(Z.mod_small (Z.of_nat l)) by lia. lia.
Qed.

Lemma padding_bytes junk lo : length (junk ++ lo) = 16%nat -> (length lo < 16)%nat -> Forall is_u8 lo ->
  block (padding (junk ++ lo) (length lo)).
Proof.
  intros Hl Hn Hb. rewrite padding_spec by done. rewrite length_app in Hl. rewrite drop_app_length' by lia.
  split; [rewrite !length_app, length_replicate; cbn [length]; lia|].
  apply Forall_app. split; [by apply Forall_replicate|]. by constructor.
Qed.

Lemma prepare_last_block_spec k1 k2 junk lo hi q :
  length (junk ++ lo) = 16%nat -> Forall is_u8 lo -> Forall is_u8 hi -> length hi = (16 * q)%nat ->
  (length lo = 0 -> q = 0)%nat -> block k1 -> block k2 ->
  exists text', Forall is_u8 text' /\ length text' = (16 * S q)%nat /\
    reverse text' = reverse hi ++ masked (reverse k1) (reverse k2) (reverse lo) /\
    cmac_prepare_last_block k1 k2 (mk_tCMAC_CB ((junk ++ lo) ++ hi) (Z.of_nat (length lo + 16 * q)) (Z.of_nat (S q))) =
      Ok (mk_tCMAC_CB text' (Z.of_nat (length lo + 16 * q)) (Z.of_nat (S q))).
Proof.
  intros Hl Hlo Hhi Hh Hq H1 H2. pose proof (reverse_masked k1 k2 junk lo Hl (proj1 H1) (proj1 H2)) as Hm.
  assert (Hle : (length lo <= 16)%nat) by (rewrite length_app in Hl; lia).
  destruct (flag_spec (length lo) q Hle Hq) as [Hf Hu].
  unfold cmac_prepare_last_block. cbn [cmac_len cmac_text cmac_round]. rewrite Hf.
  destruct (Nat.eqb_spec (length lo) 16) as [He|Hne].
  - assert (junk = []) as -> by (destruct junk; [done|rewrite length_app in Hl; cbn in Hl; lia]).
    destruct (xor_first ([] ++ lo) hi k1) as [Ex Hb]; [rewrite length_app; cbn; lia|by apply Forall_app|done|].
    rewrite Ex. cbn [mbind outcome_bind]. eexists. split; [apply Forall_app; split; [apply Hb|done]|].
    split; [rewrite length_app; destruct Hb as [-> _]; lia|]. split; [by rewrite reverse_app, Hm|done].
  - rewrite rd_bytes_slice by (rewrite ?length_app in *; lia). cbn [mbind outcome_bind]. rewrite slice_first, Hu by done.
    pose proof (padding_bytes junk lo Hl ltac:(lia) Hlo) as Hp.
    pose proof Hp as [Hpl _].
    rewrite wr_bytes_patch by (rewrite ?length_app in *; lia). cbn [mbind outcome_bind].
    rewrite patch_first by (done || apply Hp).
    destruct (xor_first (padding (junk ++ lo) (length lo)) hi k2) as [Ex Hb];
      [rewrite length_app; destruct Hp as [-> _]; lia|apply Forall_app; split; [apply Hp|done]|done|].
    rewrite Ex. eexists. split; [apply Forall_app; split; [apply Hb|done]|].
    split; [rewrite length_app; destruct Hb as [-> _]; lia|]. split; [by rewrite reverse_app, Hm|done].
Qed.

(** ** The whole function *)

Lemma double_block b : block (double b).
Proof. apply value_bytes_block. Qed.

Lemma zero_block : block (replicate 16 0).
Proof. split; [done|]. by apply Forall_replicate. Qed.

Lemma generate_subkey_spec g key cb : block key ->
  cmac_generate_subkey g key cb =
    cmac_prepare_last_block (reverse (subkey1 (aes 4 (reverse key)))) (reverse (subkey2 (aes 4 (reverse key)))) cb.
Proof.
  intros Hk. pose proof zero_block as Hz.
  assert (He : block (aes 4 (reverse key) (replicate 16 0))) by (apply aes_block; [by apply block_reverse|done]).
  unfold cmac_generate_subkey. rewrite aes_128_bytes_spec by (done || apply Hz).
  change (reverse (slice (replicate 16 0) 0 16)) with (replicate 16 0). cbn [mbind outcome_bind].
  rewrite (cmac_shift_double g (reverse (aes _ _ _))) by by apply block_reverse. rewrite reverse_involutive.
  rewrite cmac_shift_double by apply block_reverse, double_block. by rewrite reverse_involutive.
Qed.

Lemma cmac_core g key junk lo hi q :
  block key -> length (junk ++ lo) = 16%nat -> Forall is_u8 lo -> Forall is_u8 hi -> length hi = (16 * q)%nat ->
  (length lo = 0 -> q = 0)%nat -> Z.of_nat q < 65534 ->
  (cb ← cmac_generate_subkey g key
          (mk_tCMAC_CB ((junk ++ lo) ++ hi) (Z.of_nat (length lo + 16 * q)) (Z.of_nat (S q)));
   '(signature, cb) ← cmac_aes_k_calculate g key cb;
   mret (signature, cmac_cb_clear)) =
  Ok (reverse (cmac (aes 4 (reverse key)) (reverse (lo ++ hi))), cmac_cb_clear).
Proof.
  intros Hk Hl Hlo Hhi Hh Hq Hn. pose proof zero_block. rewrite generate_subkey_spec by done. set (E := aes 4 (reverse key)).
  destruct (prepare_last_block_spec (reverse (subkey1 E)) (reverse (subkey2 E)) junk lo hi q)
    as (text' & Hb & Hl' & Hr & ->); try done; [apply block_reverse, double_block..|].
  cbn [mbind outcome_bind]. unfold cmac_aes_k_calculate. cbn [cmac_round].
  destruct (cmac_loop_spec g key (S q) (S q) (S (Z.to_nat (Z.of_nat (S q)))) text' (Z.of_nat (length lo + 16 * q))
    (replicate 16 0) (uninitialised g 16)) as [cb' Hc]; try done; [lia..|].
  rewrite Nat.sub_diag in Hc. change (Z.of_nat 0 + 1) with 1 in Hc. rewrite Hc. cbn [mbind outcome_bind]. do 3 f_equal.
  rewrite take_ge by lia. rewrite Hr, !reverse_involutive. unfold cmac. rewrite length_app in Hl.
  rewrite (cmac_from_chain E q);
    [|rewrite length_reverse, length_app; lia|rewrite length_reverse, length_app; lia|rewrite length_reverse, length_app; lia].
  rewrite reverse_app, take_app_length', drop_app_length' by (rewrite length_reverse; lia). done.
Qed.

Lemma aes_cmac_rounds (L q : nat) : (16 * q < L <= 16 * S q)%nat -> Z.of_nat L < 65536 ->
  u16 ((Z.of_nat L + 16 - 1) `div` 16) = Z.of_nat (S q) /\ u32 (Z.of_nat (S q) * 16) = Z.of_nat (16 * S q) /\
  u16 (Z.of_nat (16 * S q) - Z.of_nat L) = Z.of_nat (16 * S q - L).
Proof.
  intros Hq HL. unfold u16, u32. rewrite <- (Z.div_unique (Z.of_nat L + 16 - 1) 16 (Z.of_nat (S q)) (Z.of_nat (L - 1 - 16 * q))) by lia.
  rewrite !Z.mod_small by lia. lia.
Qed.

Lemma aes_cmac_empty g key input cb :
  block key -> aes_cmac g key input 0 cb = Ok (reverse (cmac (aes 4 (reverse key)) []), cmac_cb_clear).
Proof.
  intros Hk. pose proof (cmac_core g key (uninitialised g 16) [] [] 0 Hk) as Hc. rewrite !app_nil_r in Hc.
  unfold aes_cmac. destruct input; apply Hc; try done; by unfold uninitialised; rewrite length_map, length_seq.
Qed.

Lemma aes_cmac_spec g key input L cb :
  block key -> Forall is_u8 input -> (L <= length input)%nat -> Z.of_nat L < 65536 ->
  aes_cmac g key (Some input) (Z.of_nat L) cb =
    Ok (reverse (cmac (aes 4 (reverse key)) (reverse (take L input))), cmac_cb_clear).
Proof.
  intros Hk Hb Hi HL. destruct (decide (L = 0)%nat) as [->|Hne]; [by apply aes_cmac_empty|].
  assert (Hq : exists q, (16 * q < L <= 16 * S q)%nat)
    by (exists ((L - 1) / 16)%nat; pose proof (Nat.div_mod_eq (L - 1) 16); pose proof (Nat.mod_upper_bound (L - 1) 16); lia).
  destruct Hq as [q Hq]. destruct (aes_cmac_rounds L q Hq HL) as (En & El & Ed).
  unfold aes_cmac. rewrite En. destruct (Z.eqb_spec (Z.of_nat (S q)) 0); [lia|]. rewrite El, Ed, Nat2Z.id.
  destruct (Z.ltb_spec 0 (Z.of_nat L)); [|lia]. rewrite rd_bytes_slice by lia. cbn [mbind outcome_bind].
  unfold slice at 1. rewrite Nat2Z.id, drop_0. set (msg := take L input).
  assert (Hm : length msg = L) by (unfold msg; rewrite length_take; lia).
  assert (Hmb : Forall is_u8 msg) by by apply Forall_take.
  set (u := uninitialised g (16 * S q)). assert (Hu : length u = (16 * S q)%nat) by (unfold u, uninitialised; by rewrite length_map, length_seq).
  rewrite wr_bytes_patch by lia. cbn [mbind outcome_bind]. unfold patch. rewrite Nat2Z.id.
  rewrite (drop_ge u) by lia. rewrite app_nil_r. rewrite <- (take_drop (L - 16 * q) msg) at 1. rewrite app_assoc.
  pose proof (cmac_core g key (take (16 * S q - L) u) (take (L - 16 * q) msg) (drop (L - 16 * q) msg) q Hk) as Hc.
  rewrite take_drop in Hc. rewrite length_app, !length_take, length_drop in Hc.
  replace (Nat.min (L - 16 * q) (length msg) + 16 * q)%nat with L in Hc by lia.
  apply Hc; [lia|by apply Forall_take|by apply Forall_drop|lia|lia|lia].
Qed.

Lemma cmac_block key m : block key -> Forall is_u8 m -> block (cmac (aes 4 key) m).
Proof.
  intros Hk. unfold cmac. pose proof zero_block as Hx. revert Hx. generalize (S (length m)) (replicate 16 0).
  assert (HE : forall b, block b -> block (aes 4 key b)) by (intros b Hb; by apply aes_block).
  intros n x. revert x m. induction n as [|n IH]; intros x m Hx Hm; cbn [cmac_from]; [done|].
  destruct (Nat.leb_spec (length m) 16) as [Hl|Hl].
  - apply HE, block_xor; [done|]. destruct (Nat.eqb_spec (length m) 16); apply block_xor; try apply double_block; [done|].
    unfold pad. split; [rewrite !length_app, length_replicate; cbn [length]; lia|].
    apply Forall_app. split; [done|]. by apply Forall_app; split; [by constructor|apply Forall_replicate].
  - apply IH; [|by apply Forall_drop]. apply HE, block_xor; [done|]. split; [rewrite length_take; lia|by apply Forall_take].
Qed.
