(* ===== verification/CryptoThms.v ===== *)
(** * CryptoThms: the cryptographic toolbox meets its specifications

    The AES functions against FIPS 197, the chaining modes, the authentication
    code against RFC 4493, and the key functions against the Core specification. *)

From Stdlib Require Import ZArith Lia.
From stdpp Require Import base list.
From S2P Require Import Prelude Aes AesSpec AesProps AesKeys AesFly.
From S2P Require Import AesCmac CryptoToolbox CmacProps.

Open Scope aes_scope.

(** The octet string [b], most significant byte first, has [n] bytes. *)
Definition octets (n : nat) (b : list Z) : Prop := length b = n /\ Forall is_u8 b.

(** The examples of FIPS 197, C, and of the Core specification, volume 3, part H, D. *)
Definition key_bytes_upto (n : nat) : list Z := map Z.of_nat (seq 0 n).
Definition fips_plain : list Z := map (fun i => 17 * Z.of_nat i) (seq 0 16).
Definition no_key : aes_context := mk_aes_context (replicate 240 0) 0.

Definition spec_U : list Z :=
  [0x20; 0xb0; 0x03; 0xd2; 0xf2; 0x97; 0xbe; 0x2c; 0x5e; 0x2c; 0x83; 0xa7; 0xe9; 0xf9; 0xa5; 0xb9;
   0xef; 0xf4; 0x91; 0x11; 0xac; 0xf4; 0xfd; 0xdb; 0xcc; 0x03; 0x01; 0x48; 0x0e; 0x35; 0x9d; 0xe6].
Definition spec_V : list Z :=
  [0x55; 0x18; 0x8b; 0x3d; 0x32; 0xf6; 0xbb; 0x9a; 0x90; 0x0a; 0xfc; 0xfb; 0xee; 0xd4; 0xe7; 0x2a;
   0x59; 0xcb; 0x9a; 0xc2; 0xf1; 0x9d; 0x7c; 0xfb; 0x6b; 0x4f; 0xdd; 0x49; 0xf4; 0x7f; 0xc5; 0xfd].
Definition spec_X : list Z :=
  [0xd5; 0xcb; 0x84; 0x54; 0xd1; 0x77; 0x73; 0x3e; 0xff; 0xff; 0xb2; 0xec; 0x71; 0x2b; 0xae; 0xab].
Definition spec_Y : list Z :=
  [0xa6; 0xe8; 0xe7; 0xcc; 0x25; 0xa7; 0x5f; 0x6e; 0x21; 0x65; 0x83; 0xf7; 0xff; 0x3d; 0xc4; 0xcf].
Definition spec_A : list Z := [0x00; 0x56; 0x12; 0x37; 0x37; 0xbf; 0xce].

(** * Lemmas *)

Create HintDb octets discriminated.

Lemma octets_reverse n b : octets n b -> octets n (reverse b).
Proof. intros [Hl Hb]. split; [by rewrite length_reverse|by apply Forall_reverse]. Qed.

Lemma octets_app n m a b : octets n a -> octets m b -> octets (n + m) (a ++ b).
Proof. intros [Ha Ba] [Hb Bb]. split; [by rewrite length_app, Ha, Hb|by apply Forall_app]. Qed.

Lemma AES_CMAC_octets n k m : octets 16 k -> octets n m -> octets 16 (AES_CMAC k m).
Proof. intros Hk [_ Hm]. by apply cmac_block. Qed.

Lemma octets_1 x : is_u8 x -> octets 1 [x].
Proof. intros Hx. split; [done|by constructor]. Qed.

Lemma rd_octets n b z : octets n b -> z = Z.of_nat n -> rd_bytes (reverse b) 0 z = Ok (reverse b).
Proof.
  intros [Hl _] ->. rewrite rd_bytes_slice by (rewrite ?length_reverse; lia). unfold slice. rewrite drop_0, take_ge; [done|].
  rewrite length_reverse. lia.
Qed.

#[export] Hint Resolve octets_app octets_1 octets_reverse AES_CMAC_octets : octets.

Section Specs.
Context (g : nat -> Z) (cb : tCMAC_CB).

Lemma cmac_array_spec n k m : octets 16 k -> octets n m -> Z.of_nat n < 65536 ->
  aes_cmac_array g (reverse k) (reverse m) cb = Ok (reverse (AES_CMAC k m), cmac_cb_clear).
Proof.
  intros Hk [Hl Hm] Hn. unfold aes_cmac_array. rewrite length_reverse, Hl. unfold u16.
  rewrite Z.mod_small by lia. rewrite aes_cmac_spec; [|by apply octets_reverse|by apply Forall_reverse|rewrite length_reverse; lia|done].
  rewrite take_ge by (rewrite length_reverse; lia). by rewrite !reverse_involutive.
Qed.

Lemma f4_spec U V X z : octets 32 U -> octets 32 V -> octets 16 X -> is_u8 z ->
  f4 g (reverse U) (reverse V) (reverse X) z cb = Ok (reverse (F4 U V X z), cmac_cb_clear).
Proof.
  intros HU HV HX Hz. unfold f4. rewrite (rd_octets 32 V), (rd_octets 32 U) by done. cbn [mbind outcome_bind].
  change [z] with (reverse [z]). rewrite <- !reverse_app. rewrite <- app_assoc.
  apply (cmac_array_spec (32 + (32 + 1))); auto with octets. lia.
Qed.

Lemma f6_spec W N1 N2 R IOcap A1 A2 :
  octets 16 W -> octets 16 N1 -> octets 16 N2 -> octets 16 R -> octets 3 IOcap -> octets 7 A1 -> octets 7 A2 ->
  f6 g (reverse W) (reverse N1) (reverse N2) (reverse R) (reverse IOcap) (reverse A1) (reverse A2) cb =
    Ok (reverse (F6 W N1 N2 R IOcap A1 A2), cmac_cb_clear).
Proof.
  intros HW H1 H2 HR HI HA HB. unfold f6.
  rewrite (rd_octets 7 A2), (rd_octets 7 A1) by done. rewrite (rd_octets 3 IOcap) by done. cbn [mbind outcome_bind].
  rewrite <- !reverse_app. rewrite <- !app_assoc.
  apply (cmac_array_spec (16 + (16 + (16 + (3 + (7 + 7)))))); auto 10 with octets. lia.
Qed.

Lemma mac_key_or_ltk_spec T counter N1 N2 A1 A2 :
  octets 16 T -> is_u8 counter -> octets 16 N1 -> octets 16 N2 -> octets 7 A1 -> octets 7 A2 ->
  calculate_mac_key_or_ltk g (reverse T) counter [0x65; 0x6c; 0x74; 0x62] (reverse N1) (reverse N2) (reverse A1)
    (reverse A2) [0x00; 0x01] cb =
    Ok (reverse (AES_CMAC T ([counter] ++ [0x62; 0x74; 0x6c; 0x65] ++ N1 ++ N2 ++ A1 ++ A2 ++ [0x01; 0x00])),
      cmac_cb_clear).
Proof.
  intros HT Hc H1 H2 HA HB. unfold calculate_mac_key_or_ltk.
  assert (HL : octets 2 [0x01; 0x00]) by (split; [done|by repeat constructor]).
  assert (HI : octets 4 [0x62; 0x74; 0x6c; 0x65]) by (split; [done|by repeat constructor]).
  change [0x65; 0x6c; 0x74; 0x62] with (reverse [0x62; 0x74; 0x6c; 0x65]). change [0x00; 0x01] with (reverse [0x01; 0x00]).
  rewrite (rd_octets 2 [_; _]) by done. rewrite (rd_octets 7 A2), (rd_octets 7 A1) by done.
  rewrite (rd_octets 4 [_; _; _; _]) by done. cbn [mbind outcome_bind].
  change [counter] with (reverse [counter]) at 1. rewrite <- !reverse_app. rewrite <- !app_assoc.
  apply (cmac_array_spec (1 + (4 + (16 + (16 + (7 + (7 + 2))))))); auto 10 with octets. lia.
Qed.

End Specs.

Section Functions.
Context (g : nat -> Z) (cb : tCMAC_CB).

Lemma f5_spec W N1 N2 A1 A2 :
  octets 32 W -> octets 16 N1 -> octets 16 N2 -> octets 7 A1 -> octets 7 A2 ->
  f5 g (reverse W) (reverse N1) (reverse N2) (reverse A1) (reverse A2) cb =
    Ok (reverse (F5 W N1 N2 A1 A2).1, reverse (F5 W N1 N2 A1 A2).2, cmac_cb_clear).
Proof.
  intros HW H1 H2 HA HB. unfold f5, F5. cbn [fst snd]. set (SALT := [0x6C; _; _; _; _; _; _; _; _; _; _; _; _; _; _; _]).
  assert (HS : octets 16 SALT) by (split; [done|by repeat constructor]).
  pose proof (cmac_array_spec g cb 32 SALT W HS HW ltac:(lia)) as Ht. unfold aes_cmac_array in Ht.
  rewrite length_reverse in Ht. destruct HW as [HWl HW]. rewrite HWl in Ht.
  change (u16 (Z.of_nat 32)) with 32 in Ht. change (reverse SALT) with f5_salt in Ht. rewrite Ht. cbn [mbind outcome_bind].
  assert (HT : octets 16 (AES_CMAC SALT W)) by (eapply AES_CMAC_octets; [done|by split]).
  do 2 (rewrite mac_key_or_ltk_spec by done; cbn [mbind outcome_bind]). done.
Qed.

Lemma stream_to_uint32_value b : block b -> stream_to_uint32 (reverse b) = block_value b mod 2 ^ 32.
Proof.
  intros Hb. apply block_reverse in Hb. rewrite <- (reverse_involutive b) at 2. rewrite le_value_reverse.
  set (c := reverse b) in *. clearbody c. open_block c Hb. cbv [stream_to_uint32 nth le_value foldr u32].
  rewrite !Z.shiftl_mul_pow2 by lia. rewrite (Z.mod_small (_ + _)) by (unfold is_u8 in *; lia).
  match goal with |- ?s = (?a + 256 * (?b + 256 * (?c + 256 * (?d + 256 * ?r)))) mod _ =>
    replace (a + 256 * (b + 256 * (c + 256 * (d + 256 * r)))) with (s + r * 2 ^ 32) by lia end.
  rewrite Z_mod_plus_full, Z.mod_small; [done|]. unfold is_u8 in *; lia.
Qed.

Lemma g2_spec U V X Y : octets 32 U -> octets 32 V -> octets 16 X -> octets 16 Y ->
  g2 g (reverse U) (reverse V) (reverse X) (reverse Y) cb = Ok (G2 U V X Y, cmac_cb_clear).
Proof.
  intros HU HV HX HY. unfold g2. rewrite (rd_octets 32 V), (rd_octets 32 U) by done. cbn [mbind outcome_bind].
  rewrite <- !reverse_app. rewrite <- app_assoc.
  assert (HM : octets (32 + (32 + 16)) (U ++ V ++ Y)) by auto with octets.
  rewrite (cmac_array_spec _ _ (32 + (32 + 16))) by (done || lia). cbn [mbind outcome_bind].
  rewrite stream_to_uint32_value; [done|]. by eapply AES_CMAC_octets.
Qed.

End Functions.

Section Conversions.
Context (g : nat -> Z).

Lemma h6_spec cb W keyID n : octets 16 W -> octets n keyID -> Z.of_nat n < 65536 ->
  h6 g (reverse W) (reverse keyID) cb = Ok (reverse (H6 W keyID), cmac_cb_clear).
Proof. apply cmac_array_spec. Qed.

Lemma h7_spec cb SALT W : octets 16 SALT -> octets 16 W ->
  h7 g (reverse SALT) (reverse W) cb = Ok (reverse (H7 SALT W), cmac_cb_clear).
Proof. intros HS HW. by apply (cmac_array_spec g cb 16). Qed.

(** Both conversions: [id1] with or without padding, then [id2]. *)
Lemma conversion_spec cb key ct2 id1 id2 : octets 16 key -> octets 4 id1 -> octets 4 id2 ->
  ('(k, cb) ← if ct2 : bool then h7 g (reverse id1 ++ replicate 12 0) (reverse key) cb
              else h6 g (reverse key) (reverse id1) cb;
   h6 g k (reverse id2) cb) =
  Ok (reverse (H6 (if ct2 then H7 (replicate 12 0 ++ id1) key else H6 key id1) id2), cmac_cb_clear).
Proof.
  intros Hk H1 H2. destruct ct2.
  - assert (HS : octets 16 (replicate 12 0 ++ id1))
      by (apply (octets_app 12 4); [split; [done|by apply Forall_replicate]|done]).
    replace (reverse id1 ++ replicate 12 0) with (reverse (replicate 12 0 ++ id1)) by by rewrite reverse_app.
    rewrite h7_spec by done. cbn [mbind outcome_bind]. apply (h6_spec _ _ _ 4); [by eapply AES_CMAC_octets|done|lia].
  - rewrite (h6_spec _ _ _ 4) by done. cbn [mbind outcome_bind]. apply (h6_spec _ _ _ 4); [by eapply AES_CMAC_octets|done|lia].
Qed.

End Conversions.

(** * Theorems *)

(** C13: for each key size, setting the key and encrypting a block is AES as FIPS 197
    defines it (S-box as inversion in the field, MixColumns as a matrix product, the
    key expansion by its recurrence), and decrypting the result gives the block back. *)
Theorem aes_is_fips197 key keylen nk ctx inp out :
  key_size keylen nk -> Forall is_u8 key -> (4 * nk <= length key)%nat -> length (ksch ctx) = 240%nat -> block inp ->
  exists ctx', aes_set_key key keylen ctx = Ok (0, ctx') /\
    aes_encrypt inp out ctx' = Ok (0, aes nk key inp) /\
    aes_decrypt (aes nk key inp) out ctx' = Ok (0, inp).
Proof.
  intros Hs Hk Hl Hc Hi. destruct (aes_set_key_spec key keylen nk ctx Hs Hk Hl Hc) as (ctx' & E & HK & _).
  exists ctx'. split; [exact E|]. split; [exact (proj1 (aes_encrypt_cipher _ _ _ inp out HK Hi))|].
  exact (aes_decrypt_cipher _ _ _ inp out HK Hi).
Qed.

(** a key of any other length is refused: the context is marked as having no key,
    and encryption and decryption with it return an error and leave the output as it was. *)
Theorem aes_bad_key_refused key keylen ctx inp out :
  key_bytes keylen = None ->
  exists ctx', aes_set_key key keylen ctx = Ok (255, ctx') /\
    aes_encrypt inp out ctx' = Ok (255, out) /\ aes_decrypt inp out ctx' = Ok (255, out).
Proof. intros E. unfold aes_set_key. rewrite E. by eexists. Qed.

(** C37: decrypting in cipher block chaining mode undoes encrypting, for every number of
    blocks, and both leave the same chaining value. *)
Theorem cbc_roundtrip key keylen nk ctx inp out buf n iv :
  key_size keylen nk -> Forall is_u8 key -> (4 * nk <= length key)%nat -> length (ksch ctx) = 240%nat ->
  block iv -> Forall is_u8 inp -> length inp = (16 * n)%nat -> length out = length inp -> length buf = length inp ->
  exists ctx' ct iv', aes_set_key key keylen ctx = Ok (0, ctx') /\
    aes_cbc_encrypt inp out 0 n iv ctx' = Ok (0, ct, iv') /\ length ct = length inp /\
    aes_cbc_decrypt ct buf 0 n iv ctx' = Ok (0, inp, iv').
Proof.
  intros Hs Hk Hl Hc Hiv Hi Hn Ho Hb. destruct (aes_set_key_spec key keylen nk ctx Hs Hk Hl Hc) as (ctx' & E & HK & _).
  destruct (cbc_run ctx' _ _ n inp 0 iv HK Hiv Hi) as (ct & iv' & Hct & He & Hd); [lia|lia|].
  assert (HP : forall l bs, length l = (16 * n)%nat -> length bs = (16 * n)%nat -> patch l 0 bs = bs)
    by (intros l bs H1 H2; unfold patch; rewrite take_0, drop_ge, app_nil_r by lia; done).
  assert (HS : forall l : list Z, length l = (16 * n)%nat -> slice l 0 (16 * Z.of_nat n) = l)
    by (intros l Hl'; unfold slice; rewrite drop_0, take_ge by lia; done).
  exists ctx', ct, iv'. split; [exact E|]. rewrite He by done. rewrite HP by lia. split; [done|]. split; [lia|].
  rewrite (Hd ct buf) by (rewrite ?HS; lia || done). rewrite HS, HP by lia. done.
Qed.

(** C36: the functions that compute round keys while they run give the same cipher, for
    128 and 256 bits, and leave the key with which their decryption starts; decryption
    gives back the block and the original key. *)
Theorem on_the_fly_keys inp key key' :
  block inp -> block key -> length key' = 32%nat -> Forall is_u8 key' ->
  exists o_key o_key',
    aes_encrypt_128 inp key = (aes 4 key inp, o_key) /\ aes_decrypt_128 (aes 4 key inp) o_key = (inp, key) /\
    aes_encrypt_256 inp key' = (aes 8 key' inp, o_key') /\ aes_decrypt_256 (aes 8 key' inp) o_key' = (inp, key').
Proof.
  intros Hi Hk Hl Hk'. eexists _, _. split; [by apply aes_encrypt_128_spec|]. split; [by apply aes_decrypt_128_spec|].
  split; [by apply aes_encrypt_256_spec|by apply aes_decrypt_256_spec].
Qed.

(** C14: [aes_cmac] is the AES-CMAC of RFC 4493 on the reversed key and message, for every
    message of up to 65535 bytes and whatever the uninitialised buffer and the control
    block contained before; it does not read outside its buffers and clears the block. *)
Theorem aes_cmac_is_rfc4493 garbage key input L cb :
  block key -> Forall is_u8 input -> (L <= length input)%nat -> Z.of_nat L < 65536 ->
  aes_cmac garbage key (Some input) (Z.of_nat L) cb =
    Ok (reverse (AES_CMAC (reverse key) (reverse (take L input))), cmac_cb_clear) /\
  aes_cmac garbage key None 0 cb = Ok (reverse (AES_CMAC (reverse key) []), cmac_cb_clear).
Proof. intros Hk Hb Hi HL. split; [by apply aes_cmac_spec|by apply aes_cmac_empty]. Qed.

(** C15: the pairing functions f4, f5, f6, g2, h6 and h7 and the conversions between long
    term key and link key are those of the Core specification, on reversed octets. *)
Theorem toolbox_is_core_spec garbage cb U V W X Y N1 N2 R IOcap A1 A2 keyID z ct2 :
  octets 32 U -> octets 32 V -> octets 32 W -> octets 16 X -> octets 16 Y -> octets 16 N1 -> octets 16 N2 ->
  octets 16 R -> octets 3 IOcap -> octets 7 A1 -> octets 7 A2 -> octets 4 keyID -> is_u8 z ->
  let rev := @reverse Z in
  f4 garbage (rev U) (rev V) (rev X) z cb = Ok (rev (F4 U V X z), cmac_cb_clear) /\
  f5 garbage (rev W) (rev N1) (rev N2) (rev A1) (rev A2) cb =
    Ok (rev (F5 W N1 N2 A1 A2).1, rev (F5 W N1 N2 A1 A2).2, cmac_cb_clear) /\
  f6 garbage (rev X) (rev N1) (rev N2) (rev R) (rev IOcap) (rev A1) (rev A2) cb =
    Ok (rev (F6 X N1 N2 R IOcap A1 A2), cmac_cb_clear) /\
  g2 garbage (rev U) (rev V) (rev X) (rev Y) cb = Ok (G2 U V X Y, cmac_cb_clear) /\
  h6 garbage (rev X) (rev keyID) cb = Ok (rev (H6 X keyID), cmac_cb_clear) /\
  h7 garbage (rev X) (rev Y) cb = Ok (rev (H7 X Y), cmac_cb_clear) /\
  ltk_to_link_key garbage (rev X) ct2 cb = Ok (rev (link_key_of_ltk X ct2), cmac_cb_clear) /\
  link_key_to_ltk garbage (rev X) ct2 cb = Ok (rev (ltk_of_link_key X ct2), cmac_cb_clear).
Proof.
  intros. assert (HO : forall a b c d, Forall is_u8 [a; b; c; d] -> octets 4 [a; b; c; d]) by done. subst rev.
  split; [by apply f4_spec|]. split; [by apply f5_spec|]. split; [by apply f6_spec|]. split; [by apply g2_spec|].
  split; [by apply (h6_spec _ _ _ _ 4)|]. split; [by apply h7_spec|].
  unfold ltk_to_link_key, link_key_of_ltk, link_key_to_ltk, ltk_of_link_key. split.
  - apply (conversion_spec garbage cb X ct2 [0x74; 0x6d; 0x70; 0x31] [0x6c; 0x65; 0x62; 0x72]);
      [done|apply HO; by repeat constructor..].
  - apply (conversion_spec garbage cb X ct2 [0x74; 0x6d; 0x70; 0x32] [0x62; 0x72; 0x6c; 0x65]);
      [done|apply HO; by repeat constructor..].
Qed.

(** ** The examples *)

Ltac octets := split; [reflexivity|repeat constructor; done].

Lemma aes_is_fips197_witness :
  exists ctx', aes_set_key (key_bytes_upto 24) 192 no_key = Ok (0, ctx') /\
    aes_encrypt fips_plain fips_plain ctx' = Ok (0, aes 6 (key_bytes_upto 24) fips_plain) /\
    aes_decrypt (aes 6 (key_bytes_upto 24) fips_plain) fips_plain ctx' = Ok (0, fips_plain).
Proof.
  apply (aes_is_fips197 (key_bytes_upto 24) 192 6 no_key fips_plain fips_plain);
    [unfold key_size; lia|repeat constructor; done|cbn; lia|reflexivity|octets].
Defined.

Lemma aes_bad_key_refused_witness :
  exists ctx', aes_set_key (key_bytes_upto 17) 17 no_key = Ok (255, ctx') /\
    aes_encrypt fips_plain fips_plain ctx' = Ok (255, fips_plain) /\
    aes_decrypt fips_plain fips_plain ctx' = Ok (255, fips_plain).
Proof. apply (aes_bad_key_refused (key_bytes_upto 17) 17 no_key fips_plain fips_plain). reflexivity. Defined.

Lemma cbc_roundtrip_witness :
  exists ctx' ct iv', aes_set_key (key_bytes_upto 32) 32 no_key = Ok (0, ctx') /\
    aes_cbc_encrypt (fips_plain ++ fips_plain) (replicate 32 0) 0 2 spec_X ctx' = Ok (0, ct, iv') /\
    length ct = 32%nat /\
    aes_cbc_decrypt ct (replicate 32 0) 0 2 spec_X ctx' = Ok (0, fips_plain ++ fips_plain, iv').
Proof.
  apply (cbc_roundtrip (key_bytes_upto 32) 32 8 no_key (fips_plain ++ fips_plain) (replicate 32 0) (replicate 32 0) 2 spec_X);
    [unfold key_size; lia|repeat constructor; done|cbn; lia|reflexivity|octets|repeat constructor; done|reflexivity..].
Defined.

Lemma on_the_fly_keys_witness :
  exists o_key o_key',
    aes_encrypt_128 fips_plain spec_X = (aes 4 spec_X fips_plain, o_key) /\
    aes_decrypt_128 (aes 4 spec_X fips_plain) o_key = (fips_plain, spec_X) /\
    aes_encrypt_256 fips_plain spec_U = (aes 8 spec_U fips_plain, o_key') /\
    aes_decrypt_256 (aes 8 spec_U fips_plain) o_key' = (fips_plain, spec_U).
Proof. apply (on_the_fly_keys fips_plain spec_X spec_U); [octets|octets|reflexivity|repeat constructor; done]. Defined.

Lemma aes_cmac_is_rfc4493_witness :
  aes_cmac (fun _ => 0xaa) spec_X (Some (spec_U ++ spec_A)) 39 cmac_cb_clear =
    Ok (reverse (AES_CMAC (reverse spec_X) (reverse (spec_U ++ spec_A))), cmac_cb_clear) /\
  aes_cmac (fun _ => 0xaa) spec_X None 0 cmac_cb_clear = Ok (reverse (AES_CMAC (reverse spec_X) []), cmac_cb_clear).
Proof.
  apply (aes_cmac_is_rfc4493 (fun _ => 0xaa) spec_X (spec_U ++ spec_A) 39 cmac_cb_clear);
    [octets|repeat constructor; done|cbn; lia|lia].
Defined.

Lemma toolbox_is_core_spec_witness :
  f4 (fun _ => 0xaa) (reverse spec_U) (reverse spec_V) (reverse spec_X) 0 cmac_cb_clear =
    Ok (reverse (F4 spec_U spec_V spec_X 0), cmac_cb_clear) /\
  g2 (fun _ => 0xaa) (reverse spec_U) (reverse spec_V) (reverse spec_X) (reverse spec_Y) cmac_cb_clear =
    Ok (G2 spec_U spec_V spec_X spec_Y, cmac_cb_clear).
Proof.
  destruct (toolbox_is_core_spec (fun _ => 0xaa) cmac_cb_clear spec_U spec_V spec_U spec_X spec_Y spec_X spec_Y
    spec_X [1; 1; 2] spec_A spec_A [0x6c; 0x65; 0x62; 0x72] 0 true) as (Hf4 & _ & _ & Hg2 & _);
    [octets..|done|exact (conj Hf4 Hg2)].
Defined.

(** The results the Core specification gives for f4 and g2 (D.2 and D.5). *)
Example core_spec_D2 :
  f4 (fun _ => 0xaa) (reverse spec_U) (reverse spec_V) (reverse spec_X) 0 cmac_cb_clear =
    Ok (reverse [0xf2; 0xc9; 0x16; 0xf1; 0x07; 0xa9; 0xbd; 0x1c; 0xf1; 0xed; 0xa1; 0xbe; 0xa9; 0x74; 0x87; 0x2d], cmac_cb_clear).
Proof. vm_compute. reflexivity. Qed.

Example core_spec_D5 :
  g2 (fun _ => 0xaa) (reverse spec_U) (reverse spec_V) (reverse spec_X) (reverse spec_Y) cmac_cb_clear =
    Ok (0x2f9ed5ba mod 1000000, cmac_cb_clear).
Proof. vm_compute. reflexivity. Qed.
