(* ===== verification/P256.v ===== *)
(** * P256: elliptic curve arithmetic of the Security Manager

    [src/system/stack/smp/p_256_multprecision.cc], [p_256_ecc_pp.cc] and
    [p_256_curvepara.cc].  A number is an array of 32-bit words, least significant
    first; the arrays have 8 words, 16 for a product.  Loops that visit the arrays
    word by word are recursions on the lists.  Every function reads the words of its
    arguments at an index before it writes the result there, so that the calls in
    which the result array is one of the arguments are covered.  The functions
    depend on the global [curve_p256] only through its modulus [modp]. *)

From Stdlib Require Import ZArith Lia.
From stdpp Require Import base list.
From S2P Require Import Prelude Aes.

Open Scope aes_scope.

(** ** Data *)

Record Point : Type := mk_Point { pt_x : list Z; pt_y : list Z; pt_z : list Z }.

Record elliptic_curve_t : Type := mk_curve {
  ec_a : list Z;
  ec_b : list Z;
  a_minus3 : Z;
  ec_p : list Z;
  omega : list Z;
  ec_G : Point;
}.

(** ** Arithmetic on arrays of words *)

Definition multiprecision_init : list Z := replicate 8 0.

(** [for (i = n - 1; i >= 0; i--)] *)
Fixpoint compare_from (a b : list Z) (n : nat) : Z :=
  match n with
  | O => 0
  | S i => if b.[i] <? a.[i] then 1 else if a.[i] <? b.[i] then -1 else compare_from a b i
  end.

Definition multiprecision_compare (a b : list Z) : Z := compare_from a b 8.

Fixpoint multiprecision_iszero (a : list Z) : Z :=
  match a with [] => 1 | x :: a => if nz x then 0 else multiprecision_iszero a end.

(** [n] is the number of turns left. *)
Fixpoint dword_bits_from (n : nat) (i a : Z) : Z :=
  match n with O => i | S n => if a =? 0 then i else dword_bits_from n (i + 1) (a .>> 1) end.

Definition multiprecision_dword_bits (a : Z) : Z := dword_bits_from 32 0 a.

Fixpoint most_signdwords_from (a : list Z) (n : nat) : Z :=
  match n with O => 0 | S i => if nz a.[i] then Z.of_nat (S i) else most_signdwords_from a i end.

Definition multiprecision_most_signdwords (a : list Z) : Z := most_signdwords_from a 8.

Definition multiprecision_most_signbits (a : list Z) : Z :=
  let aMostSignDWORDs := multiprecision_most_signdwords a in
  if aMostSignDWORDs =? 0 then 0
  else ((aMostSignDWORDs - 1) .<< 5) + multiprecision_dword_bits a.[Z.to_nat (aMostSignDWORDs - 1)].

Fixpoint add_words (a b : list Z) (carrier : Z) : list Z * Z :=
  match a, b with
  | x :: a, y :: b =>
      let temp := u32 (x + carrier) in
      let carrier := b2z (temp <? carrier) in
      let temp := u32 (temp + y) in
      let carrier := carrier .| b2z (temp <? y) in
      let '(c, carrier) := add_words a b carrier in
      (temp :: c, carrier)
  | _, _ => ([], carrier)
  end.

(** The result and the carry. *)
Definition multiprecision_add (a b : list Z) : list Z * Z := add_words a b 0.

Fixpoint sub_words (a b : list Z) (borrow : Z) : list Z * Z :=
  match a, b with
  | x :: a, y :: b =>
      let temp := u32 (x - borrow) in
      let borrow := b2z (x <? temp) in
      let c := u32 (temp - y) in
      let borrow := borrow .| b2z (temp <? c) in
      let '(cs, borrow) := sub_words a b borrow in
      (c :: cs, borrow)
  | _, _ => ([], borrow)
  end.

Definition multiprecision_sub (a b : list Z) : list Z * Z := sub_words a b 0.

Fixpoint lshift_words (a : list Z) (carrier : Z) : list Z * Z :=
  match a with
  | [] => ([], carrier)
  | temp :: a =>
      let c := u32 (temp .<< 1) .| carrier in
      let '(cs, carrier) := lshift_words a (temp .>> 31) in
      (c :: cs, carrier)
  end.

Definition multiprecision_lshift (a : list Z) : list Z * Z := lshift_words a 0.

(** From the most significant word down; the second component is [carrier]. *)
Fixpoint rshift_words (a : list Z) : list Z * Z :=
  match a with
  | [] => ([], 0)
  | temp :: a =>
      let '(cs, carrier) := rshift_words a in
      ((temp .>> 1) .| carrier :: cs, u32 (temp .<< 31))
  end.

Definition multiprecision_rshift (a : list Z) : list Z := (rshift_words a).1.

(** The inner loop, on the words of [c] from index [i] on; it ends with the store of
    [U] behind those it added to. *)
Fixpoint mult_row (ai : Z) (b c : list Z) (U : Z) : list Z :=
  match b, c with
  | bj :: b, cj :: c =>
      let W := (ai * bj) .>> 32 in
      let V := u32 (ai * bj) in
      let V := u32 (V + U) in
      let U := b2z (V <? U) in
      let U := u32 (U + W) in
      let V := u32 (V + cj) in
      let U := u32 (U + b2z (V <? cj)) in
      V :: mult_row ai b c U
  | _, [] => []
  | [], _ :: c => U :: c
  end.

Fixpoint mult_loop (a b c : list Z) : list Z :=
  match a with
  | [] => c
  | ai :: a => match mult_row ai b c 0 with [] => [] | c0 :: c => c0 :: mult_loop a b c end
  end.

(** [c] is an array of 16 words of which only the first 8 are set to zero. *)
Definition multiprecision_mult (c a b : list Z) : list Z :=
  mult_loop a b (multiprecision_init ++ drop 8 c).

(** ** Reduction modulo the prime of the curve *)

(** [c += v] with the carry added to [U], and [c -= v] with the borrow taken from it. *)
Definition acc_add (v : Z) (s : Z * Z) : Z * Z :=
  let '(c, U) := s in
  let c := u32 (c + v) in
  (c, u32 (U + b2z (c <? v))).

Definition acc_sub (v : Z) (s : Z * Z) : Z * Z :=
  let '(c, U) := s in
  (u32 (c - v), u32 (U - b2z (c <? v))).

(** The same with a number of two words, [u] above [v]. *)
Definition acc_add2 (v u : Z) (s : Z * Z) : Z * Z :=
  let '(c, U) := acc_add v s in (c, u32 (U + u)).

Definition acc_sub2 (v u : Z) (s : Z * Z) : Z * Z :=
  let '(c, U) := s in
  let U := u32 (U - b2z (c <? v)) in
  (u32 (c - v), u32 (U - u)).

(** The start of the next word from the carry of the one before. *)
Definition next_word_carry (ai U : Z) : Z * Z :=
  if nz (U .& 0x80000000) then
    let UU := u32 (0 - U) in
    (u32 (ai - UU), b2z (ai <? UU))
  else
    let c := u32 (ai + U) in
    (c, b2z (c <? ai)).

(** [C], [UC]: the sum of words with its carry in 8 bits. *)
Definition wide_add (v : Z) (s : Z * Z) : Z * Z :=
  let '(c, U) := s in
  let c := u32 (c + v) in
  (c, u8 (U + b2z (c <? v))).

Definition wide_sub (v : Z) (s : Z * Z) : Z * Z :=
  let '(c, U) := s in
  (u32 (c - v), u8 (U - b2z (c <? v))).

(** The words of the sum and the carry [U] after the last one. *)
Definition fast_mod_sum (a : list Z) : list Z * Z :=
  let '(C, UC) := wide_add a.[15] (wide_add a.[14] (a.[13], 0)) in
  let '(E, UE) := wide_add a.[9] (a.[8], 0) in
  let '(F, UF) := wide_add a.[10] (a.[9], 0) in
  let '(G, UG) := wide_add a.[11] (a.[10], 0) in
  let '(B, UB) := wide_add a.[12] (C, UC) in
  let '(A, UA) := wide_sub a.[15] (wide_add a.[11] (B, UB)) in
  let '(D, UD) := wide_sub a.[14] (wide_add a.[10] (A, UA)) in
  let '(c0, U) := acc_sub2 A UA (acc_add2 E UE (a.[0], 0)) in
  let '(c1, U) := acc_sub2 B UB (acc_add2 F UF (next_word_carry a.[1] U)) in
  let '(c2, U) := acc_sub2 C UC (acc_add2 G UG (next_word_carry a.[2] U)) in
  let '(c3, U) :=
    acc_sub2 E UE (acc_sub a.[15] (acc_sub a.[14] (acc_add a.[12] (acc_add a.[11]
      (acc_add2 A UA (next_word_carry a.[3] U)))))) in
  let '(c4, U) :=
    acc_sub2 F UF (acc_add a.[13] (acc_add a.[12] (acc_sub a.[15] (acc_add2 B UB (next_word_carry a.[4] U))))) in
  let '(c5, U) :=
    acc_sub2 G UG (acc_add a.[14] (acc_add a.[13] (acc_add2 C UC (next_word_carry a.[5] U)))) in
  let '(c6, U) :=
    acc_sub2 E UE (acc_add a.[15] (acc_add a.[14] (acc_add a.[14] (acc_add2 C UC (next_word_carry a.[6] U))))) in
  let '(c7, U) :=
    acc_sub2 D UD (acc_add a.[8] (acc_add a.[15] (acc_add a.[15] (acc_add a.[15] (next_word_carry a.[7] U))))) in
  ([c0; c1; c2; c3; c4; c5; c6; c7], U).

Section Curve.
Context (modp : list Z).

(** [while (U) { ...; U++; }] and [while (U) { ...; U--; }] *)
Definition fast_mod_correct (c : list Z) (U : Z) : list Z :=
  if nz (U .& 0x80000000) then Nat.iter (Z.to_nat (2 ^ 32 - U)) (fun c => (multiprecision_add c modp).1) c
  else Nat.iter (Z.to_nat U) (fun c => (multiprecision_sub c modp).1) c.

Definition multiprecision_fast_mod_P256 (a : list Z) : list Z :=
  let '(c, U) := fast_mod_sum a in
  let c := fast_mod_correct c U in
  if 0 <=? multiprecision_compare c modp then (multiprecision_sub c modp).1 else c.

(** [cc] is not initialised; the product does not depend on its contents. *)
Definition multiprecision_mersenns_mult_mod (a b : list Z) : list Z :=
  let cc := replicate 16 0 in
  multiprecision_fast_mod_P256 (multiprecision_mult cc a b).

Definition multiprecision_mersenns_squa_mod (a : list Z) : list Z := multiprecision_mersenns_mult_mod a a.

Definition multiprecision_lshift_mod (a : list Z) : list Z :=
  let '(c, carrier) := multiprecision_lshift a in
  if nz carrier then (multiprecision_sub c modp).1
  else if 0 <=? multiprecision_compare c modp then (multiprecision_sub c modp).1 else c.

Definition multiprecision_add_mod (a b : list Z) : list Z :=
  let '(c, carrier) := multiprecision_add a b in
  if nz carrier then (multiprecision_sub c modp).1
  else if 0 <=? multiprecision_compare c modp then (multiprecision_sub c modp).1 else c.

Definition multiprecision_sub_mod (a b : list Z) : list Z :=
  let '(c, borrow) := multiprecision_sub a b in
  if nz borrow then (multiprecision_add c modp).1 else c.

(** ** Inversion *)

(** One step on the coefficient [A]: half of it, or of [A + p] with its ninth word. *)
Definition halve_coefficient (A : list Z) : list Z :=
  if negb (nz (A.[0] .& 1)) then multiprecision_rshift A
  else
    let '(A, A8) := multiprecision_add A modp in
    let A := multiprecision_rshift A in
    <[7%nat := A.[7] .| u32 (A8 .<< 31)]> A.

(** [while (!(u[0] & 0x01))] *)
Fixpoint make_odd (fuel : nat) (u A : list Z) : outcome (list Z * list Z) :=
  match fuel with
  | O => Crash OutOfFuel
  | S fuel =>
      if nz (u.[0] .& 1) then mret (u, A)
      else make_odd fuel (multiprecision_rshift u) (halve_coefficient A)
  end.

(** [while (!multiprecision_iszero(u))]; the result is [C], and [u] ends as zero. *)
Fixpoint inv_loop (fuel : nat) (u v A C : list Z) : outcome (list Z * list Z) :=
  match fuel with
  | O => Crash OutOfFuel
  | S fuel =>
      if nz (multiprecision_iszero u) then mret (u, C) else
      '(u, A) ← make_odd 257 u A;
      '(v, C) ← make_odd 257 v C;
      if 0 <=? multiprecision_compare u v then
        inv_loop fuel (multiprecision_sub u v).1 v (multiprecision_sub_mod A C) C
      else inv_loop fuel u (multiprecision_sub v u).1 A (multiprecision_sub_mod C A)
  end.

(** [aminus] and [u]. *)
Definition multiprecision_inv_mod (u : list Z) : outcome (list Z * list Z) :=
  let v := modp in
  let A := <[0%nat := 1]> multiprecision_init in
  let C := multiprecision_init in
  '(u, C) ← inv_loop 514 u v A C;
  mret (if 0 <=? multiprecision_compare C modp then (multiprecision_sub C modp).1 else C, u).

(** ** Points *)

Definition p_256_init_point : Point := mk_Point multiprecision_init multiprecision_init multiprecision_init.

(** [q] is the point that is overwritten. *)
Definition ECC_Double (q p : Point) : Point :=
  if nz (multiprecision_iszero (pt_z p)) then mk_Point (pt_x q) (pt_y q) multiprecision_init else
  let '(mk_Point x1 y1 z1) := p in
  let t1 := multiprecision_mersenns_squa_mod z1 in
  let t2 := multiprecision_sub_mod x1 t1 in
  let t1 := multiprecision_add_mod x1 t1 in
  let t2 := multiprecision_mersenns_mult_mod t1 t2 in
  let t3 := multiprecision_lshift_mod t2 in
  let t2 := multiprecision_add_mod t3 t2 in
  let z3 := multiprecision_mersenns_mult_mod y1 z1 in
  let z3 := multiprecision_lshift_mod z3 in
  let y3 := multiprecision_mersenns_squa_mod y1 in
  let y3 := multiprecision_lshift_mod y3 in
  let t3 := multiprecision_mersenns_mult_mod y3 x1 in
  let t3 := multiprecision_lshift_mod t3 in
  let y3 := multiprecision_mersenns_squa_mod y3 in
  let y3 := multiprecision_lshift_mod y3 in
  let x3 := multiprecision_mersenns_squa_mod t2 in
  let t1 := multiprecision_lshift_mod t3 in
  let x3 := multiprecision_sub_mod x3 t1 in
  let t1 := multiprecision_sub_mod t3 x3 in
  let t1 := multiprecision_mersenns_mult_mod t1 t2 in
  let y3 := multiprecision_sub_mod t1 y3 in
  mk_Point x3 y3 z3.

(** The result [r], and [p], whose [z] serves as a temporary. *)
Definition ECC_Add (r p q : Point) : Point * Point :=
  let '(mk_Point x1 y1 z1) := p in
  let '(mk_Point x2 y2 z2) := q in
  if nz (multiprecision_iszero z2) then (p, p) else
  if nz (multiprecision_iszero z1) then (q, p) else
  let t1 := multiprecision_mersenns_squa_mod z1 in
  let t2 := multiprecision_mersenns_mult_mod z1 t1 in
  let t1 := multiprecision_mersenns_mult_mod x2 t1 in
  let t2 := multiprecision_mersenns_mult_mod y2 t2 in
  let t1 := multiprecision_sub_mod t1 x1 in
  let t2 := multiprecision_sub_mod t2 y1 in
  if nz (multiprecision_iszero t1) then
    if nz (multiprecision_iszero t2) then (ECC_Double r q, p)
    else (mk_Point (pt_x r) (pt_y r) multiprecision_init, p)
  else
  let z3 := multiprecision_mersenns_mult_mod z1 t1 in
  let y3 := multiprecision_mersenns_squa_mod t1 in
  let z1 := multiprecision_mersenns_mult_mod y3 t1 in
  let y3 := multiprecision_mersenns_mult_mod y3 x1 in
  let t1 := multiprecision_lshift_mod y3 in
  let x3 := multiprecision_mersenns_squa_mod t2 in
  let x3 := multiprecision_sub_mod x3 t1 in
  let x3 := multiprecision_sub_mod x3 z1 in
  let y3 := multiprecision_sub_mod y3 x3 in
  let y3 := multiprecision_mersenns_mult_mod y3 t2 in
  let z1 := multiprecision_mersenns_mult_mod z1 y1 in
  let y3 := multiprecision_sub_mod y3 z1 in
  (mk_Point x3 y3 z3, mk_Point x1 y1 z1).

(** ** Scalar multiplication *)

(** [do { k[j]++; } while (k[j++] == 0);], for at most the 8 words and the one after them. *)
Fixpoint carry_loop (fuel : nat) (k : list Z) (j : Z) : outcome (list Z) :=
  match fuel with
  | O => Crash OutOfFuel
  | S fuel =>
      kj ← rd k j;
      let kj := u32 (kj + 1) in
      k ← wr_bytes k j [kj];
      if kj =? 0 then carry_loop fuel k (j + 1) else mret k
  end.

(** [k - naf[i]] for odd [k]. *)
Definition naf_round (k : list Z) (sign : Z) : outcome (list Z) :=
  if sign =? 1 then mret (<[0%nat := k.[0] .& 0xFFFFFFFE]> k)
  else
    let k := <[0%nat := u32 (k.[0] + 1)]> k in
    if k.[0] =? 0 then carry_loop 9 k 1 else mret k.

(** [while ((var = multiprecision_most_signbits(k)) >= 1)]: [naf], [i] and [k]. *)
Fixpoint naf_loop (fuel : nat) (naf : list Z) (i : Z) (k : list Z) : outcome (list Z * Z * list Z) :=
  match fuel with
  | O => Crash OutOfFuel
  | S fuel =>
      if multiprecision_most_signbits k <? 1 then mret (naf, i, k) else
      '(sign, k) ←
        (if nz (k.[0] .& 1) then
           let sign := k.[0] .& 3 in
           k ← naf_round k sign; mret (sign, k)
         else mret (0, k));
      let k := multiprecision_rshift k in
      n ← rd naf (i `div` 4);
      naf ← wr_bytes naf (i `div` 4) [u8 (n .| (sign .<< ((i `mod` 4) * 2)))];
      naf_loop fuel naf (i + 1) k
  end.

(** [naf], [NumNAF] and [k]. *)
Definition ECC_NAF (naf k : list Z) : outcome (list Z * Z * list Z) := naf_loop 258 naf 0 k.

(** [for (int i = NumNaf - 1; i >= 0; i--)], [n] turns left: [q]. *)
Fixpoint mult_digits (n : nat) (naf : list Z) (p minus_p q : Point) : outcome Point :=
  match n with
  | O => mret q
  | S i =>
      let r := q in
      let q := ECC_Double q r in
      d ← rd naf (Z.of_nat i `div` 4);
      let sign := (d .>> ((Z.of_nat i `mod` 4) * 2)) .& 3 in
      let q :=
        if sign =? 1 then (ECC_Add q q p).1
        else if sign =? 3 then (ECC_Add q q minus_p).1
        else q in
      mult_digits i naf p minus_p q
  end.

Definition one : list Z := <[0%nat := 1]> multiprecision_init.

(** [q], [p] and [n]. *)
Definition ECC_PointMult_Bin_NAF (p : Point) (n : list Z) : outcome (Point * Point * list Z) :=
  let p := mk_Point (pt_x p) (pt_y p) one in
  let q := p_256_init_point in
  let minus_p := mk_Point (pt_x p) (multiprecision_sub modp (pt_y p)).1 one in
  '(naf, NumNaf, n) ← ECC_NAF (replicate 65 0) n;
  q ← mult_digits (Z.to_nat NumNaf) naf p minus_p q;
  '(x, z) ← multiprecision_inv_mod (pt_z q);
  let z := multiprecision_mersenns_squa_mod x in
  let qx := multiprecision_mersenns_mult_mod (pt_x q) z in
  let z := multiprecision_mersenns_mult_mod z x in
  let qy := multiprecision_mersenns_mult_mod (pt_y q) z in
  mret (mk_Point qx qy z, p, n).

End Curve.

(** ** The curve *)

(** [memset(f, 0, KEY_LENGTH_DWORDS_P256)] clears 8 bytes, that is two words. *)
Definition clear8 (f : list Z) : list Z := <[0%nat := 0]> (<[1%nat := 0]> f).

Definition p_256_init_curve (ec : elliptic_curve_t) : elliptic_curve_t :=
  mk_curve (clear8 (ec_a ec))
    [0x27d2604b; 0x3bce3c3e; 0xcc53b0f6; 0x651d06b0; 0x769886bc; 0xb3ebbd55; 0xaa3a93e7; 0x5ac635d8]
    1
    [0xFFFFFFFF; 0xFFFFFFFF; 0xFFFFFFFF; 0; 0; 0; 1; 0xFFFFFFFF]
    (clear8 (omega ec))
    (mk_Point
       [0xd898c296; 0xf4a13945; 0x2deb33a0; 0x77037d81; 0x63a440f2; 0xf8bce6e5; 0xe12c4247; 0x6b17d1f2]
       [0x37bf51f5; 0xcbb64068; 0x6b315ece; 0x2bce3357; 0x7c0f9e16; 0x8ee7eb4a; 0xfe1a7f9b; 0x4fe342e2]
       (pt_z (ec_G ec))).

(** The answer and the global [curve_p256]. *)
Definition ECC_ValidatePoint (pt : Point) (curve_p256 : elliptic_curve_t) : bool * elliptic_curve_t :=
  let curve_p256 := p_256_init_curve curve_p256 in
  let modp := ec_p curve_p256 in
  let y2_mod := multiprecision_mersenns_squa_mod modp (pt_y pt) in
  let rhs := multiprecision_mersenns_squa_mod modp (pt_x pt) in
  let three := <[0%nat := 3]> multiprecision_init in
  let rhs := multiprecision_sub_mod modp rhs three in
  let rhs := multiprecision_mersenns_mult_mod modp rhs (pt_x pt) in
  let rhs := multiprecision_add_mod modp rhs (ec_b curve_p256) in
  (multiprecision_compare rhs y2_mod =? 0, curve_p256).
