(* ===== verification/P256Words.v ===== *)
(** * P256Words: what the word-by-word loops compute

    The value of an array of words, and each elementary routine of P256.v as an
    equation on values. *)

From Stdlib Require Import ZArith Lia.
From stdpp Require Import base list.
From S2P Require Import Prelude Aes P256.

Open Scope aes_scope.

Definition is_u32 (x : Z) : Prop := 0 <= x < 2 ^ 32.

(** An array of [n] words. *)
Definition words (n : nat) (l : list Z) : Prop := length l = n /\ Forall is_u32 l.

(** The number it stands for, and 2^(32 n). *)
Definition wval (l : list Z) : Z := foldr (fun x v => x + 2 ^ 32 * v) 0 l.
Definition base (n : nat) : Z := 2 ^ (32 * Z.of_nat n).

(** A carry. *)
Definition is_bit (c : Z) : Prop := c = 0 \/ c = 1.

(** * Lemmas *)

Create HintDb words discriminated.

Lemma base_S n : base (S n) = 2 ^ 32 * base n.
Proof. unfold base. rewrite <- Z.pow_add_r by lia. f_equal. lia. Qed.

Lemma base_pos n : 0 < base n.
Proof. unfold base. apply Z.pow_pos_nonneg; lia. Qed.

Lemma base_add n m : base (n + m) = base n * base m.
Proof. unfold base. rewrite <- Z.pow_add_r by lia. f_equal. lia. Qed.

Lemma wval_cons x l : wval (x :: l) = x + 2 ^ 32 * wval l.
Proof. reflexivity. Qed.

Lemma wval_app a b : wval (a ++ b) = wval a + base (length a) * wval b.
Proof.
  induction a as [|x a IH]; [by rewrite Z.mul_1_l|]. cbn [app length]. rewrite !wval_cons, IH, base_S. lia.
Qed.

Lemma wval_bound l : Forall is_u32 l -> 0 <= wval l < base (length l).
Proof.
  induction 1 as [|x l Hx Hl IH]; [done|]. cbn [length]. rewrite wval_cons, base_S. unfold is_u32 in Hx. lia.
Qed.

Lemma words_bound n l : words n l -> 0 <= wval l < base n.
Proof. intros [<- Hl]. by apply wval_bound. Qed.

Lemma words_cons n x l : words (S n) (x :: l) <-> is_u32 x /\ words n l.
Proof.
  split.
  - intros [Hl Hf]. inversion_clear Hf. split; [done|]. split; [cbn in Hl; lia|done].
  - intros [Hx [Hl Hf]]. split; [cbn; lia|by constructor].
Qed.

Lemma words_nil l : words 0 l -> l = [].
Proof. intros [Hl _]. by destruct l. Qed.

Lemma words_app n m a b : words n a -> words m b -> words (n + m) (a ++ b).
Proof. intros [Ha Fa] [Hb Fb]. split; [rewrite length_app; lia|by apply Forall_app]. Qed.

Lemma words_take n m l : words n l -> (m <= n)%nat -> words m (take m l).
Proof. intros [Hl Hf] Hm. split; [rewrite length_take; lia|by apply Forall_take]. Qed.

Lemma words_drop n m l : words n l -> words (n - m) (drop m l).
Proof. intros [Hl Hf]. split; [rewrite length_drop; lia|by apply Forall_drop]. Qed.

Lemma words_nth n l i : words n l -> is_u32 l.[i].
Proof.
  intros [_ Hf]. revert i. induction Hf as [|x l Hx Hf IH]; intros [|i]; cbn; try done; split; lia.
Qed.

Lemma words_insert n l i x : words n l -> is_u32 x -> words n (<[i := x]> l).
Proof. intros [Hl Hf] Hx. split; [by rewrite length_insert|by apply Forall_insert]. Qed.

Lemma wval_inj n a b : words n a -> words n b -> wval a = wval b -> a = b.
Proof.
  revert a b. induction n as [|n IH]; intros a b Ha Hb He; [by rewrite (words_nil a), (words_nil b)|].
  destruct a as [|x a]; [by destruct Ha|]. destruct b as [|y b]; [by destruct Hb|].
  apply words_cons in Ha as [Hx Ha], Hb as [Hy Hb]. rewrite !wval_cons in He. unfold is_u32 in *.
  assert (wval a = wval b) by lia. assert (x = y) by lia. subst y. f_equal. by apply IH.
Qed.

(** ** One word with its carry *)

Lemma u32_id x : is_u32 x -> u32 x = x.
Proof. intros Hx. by apply Z.mod_small. Qed.

Lemma is_u32_u32 x : is_u32 (u32 x).
Proof. apply Z.mod_pos_bound. lia. Qed.

Lemma u32_wrap x k : is_u32 (x - 2 ^ 32 * k) -> u32 x = x - 2 ^ 32 * k.
Proof. intros Hx. symmetry. apply (Z.mod_unique_pos x (2 ^ 32) k); [exact Hx|lia]. Qed.

Lemma add_carry x y : is_u32 x -> is_u32 y ->
  u32 (x + y) + 2 ^ 32 * b2z (u32 (x + y) <? y) = x + y.
Proof.
  unfold is_u32. intros Hx Hy. destruct (Z_lt_le_dec (x + y) (2 ^ 32)).
  - rewrite u32_id by (unfold is_u32; lia). destruct (Z.ltb_spec (x + y) y); cbn [b2z]; lia.
  - rewrite (u32_wrap _ 1) by (unfold is_u32; lia). destruct (Z.ltb_spec (x + y - 2 ^ 32 * 1) y); cbn [b2z]; lia.
Qed.

Lemma sub_borrow x y : is_u32 x -> is_u32 y ->
  u32 (x - y) - 2 ^ 32 * b2z (x <? y) = x - y.
Proof.
  unfold is_u32. intros Hx Hy. destruct (Z.ltb_spec x y); cbn [b2z].
  - rewrite (u32_wrap _ (-1)) by (unfold is_u32; lia). lia.
  - rewrite u32_id by (unfold is_u32; lia). lia.
Qed.

(** The other form of the test in the code: the difference is above the minuend. *)
Lemma sub_borrow' x y : is_u32 x -> is_u32 y -> b2z (x <? u32 (x - y)) = b2z (x <? y).
Proof.
  unfold is_u32. intros Hx Hy. f_equal. destruct (Z.ltb_spec x y).
  - rewrite (u32_wrap _ (-1)) by (unfold is_u32; lia). apply Z.ltb_lt. lia.
  - rewrite u32_id by (unfold is_u32; lia). apply Z.ltb_ge. lia.
Qed.

Lemma is_bit_b2z b : is_bit (b2z b).
Proof. destruct b; [by right|by left]. Qed.

Lemma lor_bits b c : ~ (b2z b = 1 /\ b2z c = 1) -> b2z b .| b2z c = b2z b + b2z c.
Proof. destruct b, c; cbn; tauto. Qed.

Lemma is_bit_u32 c : is_bit c -> is_u32 c.
Proof. intros [->| ->]; by unfold is_u32. Qed.

#[export] Hint Resolve is_u32_u32 is_bit_b2z is_bit_u32 words_nth : words.

(** ** Sum and difference *)

Lemma add_words_spec n a b c : words n a -> words n b -> is_bit c ->
  words n (add_words a b c).1 /\ is_bit (add_words a b c).2 /\
  wval (add_words a b c).1 + base n * (add_words a b c).2 = wval a + wval b + c.
Proof.
  revert a b c. induction n as [|n IH]; intros a b c Ha Hb Hc.
  { rewrite (words_nil a), (words_nil b) by done. cbn -[base]. change (base 0) with 1. split; [done|]. split; [done|lia]. }
  destruct a as [|x a]; [by destruct Ha|]. destruct b as [|y b]; [by destruct Hb|].
  apply words_cons in Ha as [Hx Ha], Hb as [Hy Hb]. cbn [add_words].
  pose proof (add_carry x c Hx (is_bit_u32 c Hc)) as E1.
  pose proof (add_carry (u32 (x + c)) y (is_u32_u32 _) Hy) as E2.
  set (t := u32 (x + c)) in *. set (t2 := u32 (t + y)) in *.
  assert (Ht : is_u32 t) by apply is_u32_u32. assert (Ht2 : is_u32 t2) by apply is_u32_u32.
  pose proof (is_bit_b2z (t <? c)) as B1. pose proof (is_bit_b2z (t2 <? y)) as B2.
  assert (El : b2z (t <? c) .| b2z (t2 <? y) = b2z (t <? c) + b2z (t2 <? y))
    by (apply lor_bits; unfold is_u32, is_bit in *; lia).
  rewrite El. destruct (IH a b (b2z (t <? c) + b2z (t2 <? y)) Ha Hb) as (Hw & Hb' & E); [unfold is_u32, is_bit in *; lia|].
  destruct (add_words a b _) as [r c']. cbn [fst snd] in *. split; [by apply words_cons|]. split; [done|].
  rewrite !wval_cons, base_S. lia.
Qed.

Lemma sub_words_spec n a b c : words n a -> words n b -> is_bit c ->
  words n (sub_words a b c).1 /\ is_bit (sub_words a b c).2 /\
  wval (sub_words a b c).1 - base n * (sub_words a b c).2 = wval a - wval b - c.
Proof.
  revert a b c. induction n as [|n IH]; intros a b c Ha Hb Hc.
  { rewrite (words_nil a), (words_nil b) by done. cbn -[base]. change (base 0) with 1. split; [done|]. split; [done|lia]. }
  destruct a as [|x a]; [by destruct Ha|]. destruct b as [|y b]; [by destruct Hb|].
  apply words_cons in Ha as [Hx Ha], Hb as [Hy Hb]. cbn [sub_words].
  pose proof (sub_borrow x c Hx (is_bit_u32 c Hc)) as E1. rewrite sub_borrow' by auto with words.
  pose proof (sub_borrow (u32 (x - c)) y (is_u32_u32 _) Hy) as E2. rewrite sub_borrow' by auto with words.
  set (t := u32 (x - c)) in *. set (t2 := u32 (t - y)) in *.
  assert (Ht : is_u32 t) by apply is_u32_u32. assert (Ht2 : is_u32 t2) by apply is_u32_u32.
  pose proof (is_bit_b2z (x <? c)) as B1. pose proof (is_bit_b2z (t <? y)) as B2.
  assert (El : b2z (x <? c) .| b2z (t <? y) = b2z (x <? c) + b2z (t <? y))
    by (apply lor_bits; unfold is_u32, is_bit in *; lia).
  rewrite El. destruct (IH a b (b2z (x <? c) + b2z (t <? y)) Ha Hb) as (Hw & Hb' & E); [unfold is_u32, is_bit in *; lia|].
  destruct (sub_words a b _) as [r c']. cbn [fst snd] in *. split; [by apply words_cons|]. split; [done|].
  rewrite !wval_cons, base_S. lia.
Qed.

Lemma add_spec a b : words 8 a -> words 8 b ->
  words 8 (multiprecision_add a b).1 /\ is_bit (multiprecision_add a b).2 /\
  wval (multiprecision_add a b).1 + 2 ^ 256 * (multiprecision_add a b).2 = wval a + wval b.
Proof.
  intros Ha Hb. destruct (add_words_spec 8 a b 0 Ha Hb) as (Hw & Hc & E); [by left|].
  unfold multiprecision_add. change (base 8) with (2 ^ 256) in E. split; [done|]. split; [done|lia].
Qed.

Lemma sub_spec a b : words 8 a -> words 8 b ->
  words 8 (multiprecision_sub a b).1 /\ is_bit (multiprecision_sub a b).2 /\
  wval (multiprecision_sub a b).1 - 2 ^ 256 * (multiprecision_sub a b).2 = wval a - wval b.
Proof.
  intros Ha Hb. destruct (sub_words_spec 8 a b 0 Ha Hb) as (Hw & Hc & E); [by left|].
  unfold multiprecision_sub. change (base 8) with (2 ^ 256) in E. split; [done|]. split; [done|lia].
Qed.

(** ** Comparison *)

Lemma wval_take_S l i : (i < length l)%nat -> wval (take (S i) l) = wval (take i l) + base i * l.[i].
Proof.
  intros Hi. destruct (lookup_lt_is_Some_2 l i Hi) as [x Hx]. rewrite (take_S_r l i x Hx), wval_app.
  rewrite length_take_le by lia. rewrite (nth_lookup_Some _ _ 0 _ Hx). cbn [wval foldr]. lia.
Qed.

Lemma compare_from_spec n a b i : words n a -> words n b -> (i <= n)%nat ->
  compare_from a b i = Z.sgn (wval (take i a) - wval (take i b)).
Proof.
  intros Ha Hb. induction i as [|i IH]; intros Hi; [done|]. cbn [compare_from].
  rewrite !wval_take_S by (destruct Ha, Hb; lia).
  pose proof (words_bound i _ (words_take n i a Ha ltac:(lia))). pose proof (words_bound i _ (words_take n i b Hb ltac:(lia))).
  destruct (Z.ltb_spec b.[i] a.[i]); [symmetry; apply Z.sgn_pos; nia|].
  destruct (Z.ltb_spec a.[i] b.[i]); [symmetry; apply Z.sgn_neg; nia|].
  rewrite IH by lia. f_equal. replace a.[i] with b.[i] by lia. lia.
Qed.

Lemma compare_spec a b : words 8 a -> words 8 b -> multiprecision_compare a b = Z.sgn (wval a - wval b).
Proof.
  intros Ha Hb. unfold multiprecision_compare. rewrite (compare_from_spec 8) by done.
  destruct Ha as [Ha _], Hb as [Hb _]. by rewrite !take_ge by lia.
Qed.

Lemma compare_ge a b : words 8 a -> words 8 b -> (0 <=? multiprecision_compare a b) = (wval b <=? wval a).
Proof.
  intros Ha Hb. rewrite compare_spec by done. destruct (Z.leb_spec (wval b) (wval a)).
  - apply Z.leb_le, Z.sgn_nonneg. lia.
  - apply Z.leb_gt, Z.sgn_neg_iff. lia.
Qed.

Lemma iszero_spec a : Forall is_u32 a -> multiprecision_iszero a = if wval a =? 0 then 1 else 0.
Proof.
  induction 1 as [|x a Hx Ha IH]; [done|]. cbn [multiprecision_iszero]. rewrite wval_cons, IH.
  pose proof (wval_bound a Ha). unfold is_u32, nz in *. destruct (Z.eqb_spec x 0) as [->|].
  - cbn [negb]. by destruct (Z.eqb_spec (wval a) 0), (Z.eqb_spec (0 + 2 ^ 32 * wval a) 0); lia || done.
  - cbn [negb]. destruct (Z.eqb_spec (x + 2 ^ 32 * wval a) 0); lia.
Qed.

Lemma nz_iszero a : Forall is_u32 a -> nz (multiprecision_iszero a) = (wval a =? 0).
Proof. intros Ha. rewrite iszero_spec by done. by destruct (wval a =? 0). Qed.

(** ** Shifts *)

Lemma testbit_above k c n : 0 <= k <= n -> 0 <= c < 2 ^ k -> Z.testbit c n = false.
Proof.
  intros Hk Hc. apply Z.testbit_false; [lia|]. rewrite Z.div_small; [done|].
  pose proof (Z.pow_le_mono_r 2 k n). lia.
Qed.

Lemma lor_add_low x k c : 0 <= k -> 0 <= c < 2 ^ k -> (x * 2 ^ k) .| c = x * 2 ^ k + c.
Proof.
  intros Hk Hc.
  assert (E : (x * 2 ^ k) .& c = 0).
  { apply Z.bits_inj'. intros n Hn. rewrite Z.land_spec, Z.bits_0. destruct (Z_lt_le_dec n k).
    - rewrite Z.mul_pow2_bits_low by lia. done.
    - rewrite (testbit_above k c n) by lia. by rewrite andb_false_r. }
  by rewrite Z.add_nocarry_lxor, Z.lxor_lor by done.
Qed.

Lemma lshift_words_spec n a c : words n a -> is_bit c ->
  words n (lshift_words a c).1 /\ is_bit (lshift_words a c).2 /\
  wval (lshift_words a c).1 + base n * (lshift_words a c).2 = 2 * wval a + c.
Proof.
  revert a c. induction n as [|n IH]; intros a c Ha Hc.
  { rewrite (words_nil a) by done. cbn -[base]. change (base 0) with 1. split; [done|]. split; [done|lia]. }
  destruct a as [|x a]; [by destruct Ha|]. apply words_cons in Ha as [Hx Ha]. cbn [lshift_words].
  rewrite Z.shiftl_mul_pow2, Z.shiftr_div_pow2 by lia.
  assert (Hq : is_bit (x / 2 ^ 31)).
  { unfold is_u32, is_bit in *. assert (0 <= x / 2 ^ 31 < 2); [|lia].
    split; [apply Z.div_pos; lia|apply Z.div_lt_upper_bound; lia]. }
  assert (E : u32 (x * 2 ^ 1) .| c = 2 * (x mod 2 ^ 31) + c).
  { pose proof (Z.div_mod x (2 ^ 31) ltac:(lia)). pose proof (Z.mod_pos_bound x (2 ^ 31) ltac:(lia)).
    rewrite (u32_wrap _ (x / 2 ^ 31)) by (unfold is_u32; lia).
    replace (x * 2 ^ 1 - 2 ^ 32 * (x / 2 ^ 31)) with ((x mod 2 ^ 31) * 2 ^ 1) by lia.
    rewrite lor_add_low; [lia|lia|]. change (2 ^ 1) with 2. destruct Hc; lia. }
  rewrite E. destruct (IH a (x / 2 ^ 31) Ha Hq) as (Hw & Hb & Ev). destruct (lshift_words a _) as [r c'].
  cbn [fst snd] in *. pose proof (Z.div_mod x (2 ^ 31) ltac:(lia)). pose proof (Z.mod_pos_bound x (2 ^ 31) ltac:(lia)).
  split; [apply words_cons; split; [unfold is_u32, is_bit in *; lia|done]|]. split; [done|].
  rewrite !wval_cons, base_S. lia.
Qed.

Lemma lshift_spec a : words 8 a ->
  words 8 (multiprecision_lshift a).1 /\ is_bit (multiprecision_lshift a).2 /\
  wval (multiprecision_lshift a).1 + 2 ^ 256 * (multiprecision_lshift a).2 = 2 * wval a.
Proof.
  intros Ha. destruct (lshift_words_spec 8 a 0 Ha) as (Hw & Hc & E); [by left|].
  unfold multiprecision_lshift. change (base 8) with (2 ^ 256) in E. split; [done|]. split; [done|lia].
Qed.

(** The carry of the loop is the lowest bit, moved to the top of a word. *)
Lemma rshift_words_spec n a : words n a ->
  words n (rshift_words a).1 /\ wval (rshift_words a).1 = wval a / 2 /\ (rshift_words a).2 = 2 ^ 31 * (wval a mod 2).
Proof.
  revert a. induction n as [|n IH]; intros a Ha; [by rewrite (words_nil a)|].
  destruct a as [|x a]; [by destruct Ha|]. apply words_cons in Ha as [Hx Ha]. cbn [rshift_words].
  destruct (IH a Ha) as (Hw & Ev & Ec). destruct (rshift_words a) as [r c]. cbn [fst snd] in *. subst c.
  rewrite Z.shiftr_div_pow2, Z.shiftl_mul_pow2 by lia. change (2 ^ 1) with 2. unfold is_u32 in Hx.
  pose proof (Z.mod_pos_bound (wval a) 2 ltac:(lia)) as Hm.
  pose proof (Z.div_mod x 2 ltac:(lia)) as Hd. pose proof (Z.mod_pos_bound x 2 ltac:(lia)).
  pose proof (Z.div_mod (wval a) 2 ltac:(lia)).
  assert (El : x / 2 .| 2 ^ 31 * (wval a mod 2) = x / 2 + 2 ^ 31 * (wval a mod 2)).
  { rewrite Z.lor_comm, Z.mul_comm, lor_add_low; lia. }
  rewrite El. split; [apply words_cons; split; [unfold is_u32; lia|done]|]. rewrite !wval_cons, Ev. split.
  - apply (Z.div_unique_pos _ 2 _ (x mod 2)); lia.
  - replace ((x + 2 ^ 32 * wval a) mod 2) with (x mod 2)
      by (replace (x + 2 ^ 32 * wval a) with (x + (2 ^ 31 * wval a) * 2) by lia; by rewrite Z_mod_plus_full).
    rewrite (u32_wrap _ (x / 2)); unfold is_u32; lia.
Qed.

Lemma rshift_spec n a : words n a -> words n (multiprecision_rshift a) /\ wval (multiprecision_rshift a) = wval a / 2.
Proof. intros Ha. destruct (rshift_words_spec n a Ha) as (Hw & Ev & _). by split. Qed.

Lemma odd_word n a : words (S n) a -> nz (a.[0] .& 1) = Z.odd (wval a).
Proof.
  intros Ha. destruct a as [|x a]; [by destruct Ha|]. cbn [nth]. rewrite wval_cons.
  replace (x + 2 ^ 32 * wval a) with (x + 2 * (2 ^ 31 * wval a)) by lia. rewrite Z.odd_add_mul_2.
  change 1 with (Z.ones 1). rewrite Z.land_ones by lia. change (2 ^ 1) with 2. rewrite Zmod_odd. by destruct (Z.odd x).
Qed.

(** ** Product *)

Lemma mult_step ai bj cj U : is_u32 ai -> is_u32 bj -> is_u32 cj -> is_u32 U ->
  let V1 := u32 (u32 (ai * bj) + U) in
  let U1 := u32 (b2z (V1 <? U) + (ai * bj) .>> 32) in
  let V2 := u32 (V1 + cj) in
  let U2 := u32 (U1 + b2z (V2 <? cj)) in
  V2 + 2 ^ 32 * U2 = ai * bj + U + cj.
Proof.
  intros Ha Hb Hc HU V1 U1 V2 U2.
  pose proof (add_carry (u32 (ai * bj)) U (is_u32_u32 _) HU) as E1. fold V1 in E1.
  pose proof (add_carry V1 cj (is_u32_u32 _) Hc) as E2. fold V2 in E2.
  assert (Hp : 0 <= ai * bj <= (2 ^ 32 - 1) * (2 ^ 32 - 1)) by (unfold is_u32 in *; nia).
  pose proof (Z.div_mod (ai * bj) (2 ^ 32) ltac:(lia)) as Ed. fold (u32 (ai * bj)) in Ed.
  rewrite <- (Z.shiftr_div_pow2 _ 32) in Ed by lia. set (W := (ai * bj) .>> 32) in *.
  pose proof (is_u32_u32 (ai * bj)) as Hl. pose proof (is_u32_u32 (u32 (ai * bj) + U) : is_u32 V1) as H1.
  pose proof (is_u32_u32 (V1 + cj) : is_u32 V2) as H2.
  pose proof (is_bit_b2z (V1 <? U)) as B1. pose proof (is_bit_b2z (V2 <? cj)) as B2.
  unfold is_u32, is_bit in *.
  assert (EU : U1 = b2z (V1 <? U) + W) by (apply u32_id; unfold is_u32; lia).
  assert (EU2 : U2 = U1 + b2z (V2 <? cj)) by (apply u32_id; unfold is_u32; lia). lia.
Qed.

Lemma mult_row_spec m ai b cs x rest U : is_u32 ai -> words m b -> words m cs -> is_u32 U ->
  exists r, mult_row ai b (cs ++ x :: rest) U = r ++ rest /\ words (S m) r /\ wval r = wval cs + ai * wval b + U.
Proof.
  intros Ha. revert b cs U. induction m as [|m IH]; intros b cs U Hb Hc HU.
  { rewrite (words_nil b), (words_nil cs) by done. exists [U]. split; [done|]. split; [by apply words_cons|]. cbn. lia. }
  destruct b as [|bj b]; [by destruct Hb|]. destruct cs as [|cj cs]; [by destruct Hc|].
  apply words_cons in Hb as [Hbj Hb], Hc as [Hcj Hc]. cbn [app mult_row].
  pose proof (mult_step ai bj cj U Ha Hbj Hcj HU) as E. cbv zeta in E.
  set (V2 := u32 (_ + cj)) in *. set (U2 := u32 (_ + b2z (V2 <? cj))) in *.
  destruct (IH b cs U2 Hb Hc (is_u32_u32 _)) as (r & Er & Hr & Ev). exists (V2 :: r).
  split; [by rewrite Er|]. split; [apply words_cons; split; [apply is_u32_u32|done]|]. rewrite !wval_cons. lia.
Qed.

Lemma mult_loop_spec n m a b cs rest : words n a -> words m b -> words m cs -> length rest = n ->
  words (n + m) (mult_loop a b (cs ++ rest)) /\ wval (mult_loop a b (cs ++ rest)) = wval cs + wval a * wval b.
Proof.
  revert a cs rest. induction n as [|n IH]; intros a cs rest Ha Hb Hc Hl.
  { rewrite (words_nil a) by done. destruct rest; [|done]. rewrite app_nil_r. split; [done|]. cbn [mult_loop]. change (wval []) with 0. lia. }
  destruct a as [|ai a]; [by destruct Ha|]. destruct rest as [|x rest]; [done|]. apply words_cons in Ha as [Hai Ha].
  cbn [mult_loop]. destruct (mult_row_spec m ai b cs x rest 0 Hai Hb Hc) as (r & -> & Hr & Ev); [by split|].
  destruct r as [|c0 r]; [by destruct Hr|]. apply words_cons in Hr as [H0 Hr]. cbn [app].
  destruct (IH a r rest Ha Hb Hr) as [Hw E]; [cbn in Hl; lia|]. split; [by apply words_cons|].
  rewrite wval_cons, E. rewrite !wval_cons in *. lia.
Qed.

Lemma init_spec : words 8 multiprecision_init /\ wval multiprecision_init = 0.
Proof. split; [|done]. split; [done|]. by apply Forall_replicate. Qed.

Lemma mult_spec c a b : length c = 16%nat -> words 8 a -> words 8 b ->
  words 16 (multiprecision_mult c a b) /\ wval (multiprecision_mult c a b) = wval a * wval b.
Proof.
  intros Hc Ha Hb. destruct init_spec as [Hi Ei].
  destruct (mult_loop_spec 8 8 a b multiprecision_init (drop 8 c) Ha Hb Hi) as [Hw Ev]; [rewrite length_drop; lia|].
  split; [exact Hw|]. unfold multiprecision_mult. lia.
Qed.
