(* ===== verification/P256Mod.v ===== *)
(** * P256Mod: arithmetic modulo the prime of the curve

    The reduction of a product by sums of words is exact when no borrow is lost on
    the way; sums, differences and doubles of reduced numbers are exact. *)

From Stdlib Require Import ZArith Lia.
From stdpp Require Import base list.
From S2P Require Import Prelude Aes P256 P256Words.

Open Scope aes_scope.

(** The prime 2^256 - 2^224 + 2^192 + 2^96 - 1. *)
Definition p256 : Z := 2 ^ 256 - 2 ^ 224 + 2 ^ 192 + 2 ^ 96 - 1.

(** [s] is the word [c] with the carry [U], a signed number kept modulo 2^32; together
    they stand for [v], and the carry is at most [m]. *)
Definition acc (s : Z * Z) (v m : Z) : Prop :=
  exists u, s.2 = u32 u /\ - m <= u <= m /\ is_u32 s.1 /\ s.1 + 2 ^ 32 * u = v.

(** The same with an unsigned carry in a byte. *)
Definition wide (s : Z * Z) (v m : Z) : Prop :=
  0 <= s.2 <= m /\ is_u32 s.1 /\ s.1 + 2 ^ 32 * s.2 = v.

(** The eight words of a product and the signed sums of higher words that go to each. *)
Definition columns (a : list Z) : list (Z * Z) :=
  let s l := foldr (fun i n => a.[i] + n) 0 l in
  [(a.[0], s [8; 9]%nat - s [11; 12; 13; 14]%nat);
   (a.[1], s [9; 10]%nat - s [12; 13; 14; 15]%nat);
   (a.[2], s [10; 11]%nat - s [13; 14; 15]%nat);
   (a.[3], s [11; 11; 12; 12; 13]%nat - s [15; 8; 9]%nat);
   (a.[4], s [12; 12; 13; 13; 14]%nat - s [9; 10]%nat);
   (a.[5], s [13; 13; 14; 14; 15]%nat - s [10; 11]%nat);
   (a.[6], s [13; 14; 14; 14; 15; 15]%nat - s [8; 9]%nat);
   (a.[7], s [15; 15; 15; 8]%nat - s [10; 11; 12; 13]%nat)].

(** The last word and the carry out of it, unless some word is smaller than the borrow that
    goes into it. *)
Fixpoint column_carry (cols : list (Z * Z)) (w k : Z) : option (Z * Z) :=
  match cols with
  | [] => Some (w, k)
  | (x, v) :: cols =>
      if 0 <=? x + k then column_carry cols ((x + v + k) mod 2 ^ 32) ((x + v + k) / 2 ^ 32) else None
  end.

(** A product the reduction handles: no borrow is lost on the way, and with a carry left the top
    word of the sum leaves room for the final multiples of the prime. *)
Definition reducible (a : list Z) : bool :=
  match column_carry (columns a) 0 0 with
  | Some (w, k) => (k =? 0) || ((16 <=? w) && (w <? 2 ^ 32 - 16))
  | None => false
  end.

(** The multiple of the prime that the sum of words takes from the number. *)
Definition fold_multiple (a : list Z) : Z :=
  a.[8] + 0x100000001 * a.[9] + 0x10000000100000000 * a.[10] + 0x100000000ffffffffffffffff * a.[11] +
  0x100000000fffffffffffffffeffffffff * a.[12] + 0x100000000fffffffffffffffefffffffeffffffff * a.[13] +
  0x100000000fffffffffffffffefffffffefffffffeffffffff * a.[14] +
  0x100000000fffffffffffffffefffffffefffffffeffffffff00000000 * a.[15].

(** A reduced number. *)
Definition field_elem (a : list Z) : Prop := words 8 a /\ wval a < p256.

(** * Lemmas *)

Lemma acc_add_spec x s v m : acc s v m -> is_u32 x -> acc (acc_add x s) (v + x) (m + 1).
Proof.
  destruct s as [c U]. intros (u & EU & Hm & Hc & Ev) Hx. cbn [fst snd] in *. subst U. unfold acc_add.
  pose proof (add_carry c x Hc Hx) as E. pose proof (is_bit_b2z (u32 (c + x) <? x)) as B. unfold is_bit in B.
  exists (u + b2z (u32 (c + x) <? x)). cbn [fst snd]. split; [unfold u32; by rewrite Zplus_mod_idemp_l|].
  split; [lia|]. split; [apply is_u32_u32|lia].
Qed.

Lemma acc_sub_spec x s v m : acc s v m -> is_u32 x -> acc (acc_sub x s) (v - x) (m + 1).
Proof.
  destruct s as [c U]. intros (u & EU & Hm & Hc & Ev) Hx. cbn [fst snd] in *. subst U. unfold acc_sub.
  pose proof (sub_borrow c x Hc Hx) as E. pose proof (is_bit_b2z (c <? x)) as B. unfold is_bit in B.
  exists (u - b2z (c <? x)). cbn [fst snd]. split; [unfold u32; by rewrite Zminus_mod_idemp_l|].
  split; [lia|]. split; [apply is_u32_u32|lia].
Qed.

Lemma acc_high s v m k : acc s v m -> acc (s.1, u32 (s.2 + k)) (v + 2 ^ 32 * k) (m + Z.abs k).
Proof.
  intros (u & EU & Hm & Hc & Ev). exists (u + k). cbn [fst snd]. rewrite EU.
  split; [unfold u32; by rewrite Zplus_mod_idemp_l|]. split; [lia|]. split; [done|lia].
Qed.

Lemma acc_add2_spec x k s v m w n : acc s v m -> wide (x, k) w n -> acc (acc_add2 x k s) (v + w) (m + 1 + n).
Proof.
  intros Hs (Hk & Hx & Ew). cbn [fst snd] in *. pose proof (acc_high _ _ _ k (acc_add_spec x s v m Hs Hx)) as H.
  unfold acc_add2. destruct (acc_add x s) as [c U]. cbn [fst snd] in H.
  destruct H as (u & EU & Hm & Hc & Ev). exists u. split; [done|]. split; [lia|]. split; [done|lia].
Qed.

Lemma acc_sub2_spec x k s v m w n : acc s v m -> wide (x, k) w n -> acc (acc_sub2 x k s) (v - w) (m + 1 + n).
Proof.
  intros Hs (Hk & Hx & Ew). cbn [fst snd] in *. pose proof (acc_high _ _ _ (- k) (acc_sub_spec x s v m Hs Hx)) as H.
  unfold acc_sub2, acc_sub in *. destruct s as [c U]. cbn [fst snd] in H. change (?a - k) with (a + - k).
  destruct H as (u & EU & Hm & Hc & Ev). exists u. split; [done|]. split; [lia|]. split; [done|cbn [fst snd] in *; lia].
Qed.

Lemma wide_add_spec x s v m : wide s v m -> is_u32 x -> m < 255 -> wide (wide_add x s) (v + x) (m + 1).
Proof.
  destruct s as [c U]. intros (Hm & Hc & Ev) Hx Hlt. cbn [fst snd] in *. unfold wide_add.
  pose proof (add_carry c x Hc Hx) as E. pose proof (is_bit_b2z (u32 (c + x) <? x)) as B. unfold is_bit in B.
  unfold wide. cbn [fst snd]. unfold u8. rewrite Z.mod_small by lia. split; [lia|]. split; [apply is_u32_u32|lia].
Qed.

Lemma wide_sub_spec x s v m n : wide s v m -> is_u32 x -> 0 <= v - x < 2 ^ 32 * (n + 1) -> 0 <= n <= 255 ->
  wide (wide_sub x s) (v - x) n.
Proof.
  destruct s as [c U]. intros (Hm & Hc & Ev) Hx Hr Hn. cbn [fst snd] in *. unfold wide_sub.
  pose proof (sub_borrow c x Hc Hx) as E. pose proof (is_u32_u32 (c - x)) as Hd.
  unfold wide. cbn [fst snd]. unfold is_u32 in *. unfold u8. rewrite Z.mod_small by lia. split; [lia|]. split; [done|lia].
Qed.

Lemma top_bit_u32 x : is_u32 x -> nz (x .& 0x80000000) = (2 ^ 31 <=? x).
Proof.
  intros Hx. assert (E : x .& 2 ^ 31 = if Z.testbit x 31 then 2 ^ 31 else 0).
  { apply Z.bits_inj'. intros n Hn. rewrite Z.land_spec, Z.pow2_bits_eqb by lia.
    destruct (Z.eqb_spec 31 n) as [<-|Hne]; destruct (Z.testbit x 31);
      rewrite ?Z.pow2_bits_true, ?Z.pow2_bits_false, ?Z.bits_0, ?andb_false_r, ?andb_true_r by lia; done. }
  change 0x80000000 with (2 ^ 31). rewrite E. unfold is_u32 in Hx.
  pose proof (Z.div_mod x (2 ^ 31) ltac:(lia)). pose proof (Z.mod_pos_bound x (2 ^ 31) ltac:(lia)).
  destruct (Z.leb_spec (2 ^ 31) x).
  - rewrite (proj2 (Z.testbit_true x 31 ltac:(lia))); [done|]. by replace (x / 2 ^ 31) with 1 by lia.
  - rewrite (proj2 (Z.testbit_false x 31 ltac:(lia))); [done|]. by replace (x / 2 ^ 31) with 0 by lia.
Qed.

Lemma negative_carry u : - 2 ^ 31 <= u < 2 ^ 31 -> nz (u32 u .& 0x80000000) = (u <? 0).
Proof.
  intros Hu. rewrite top_bit_u32 by apply is_u32_u32. destruct (Z.ltb_spec u 0).
  - rewrite (u32_wrap u (-1)) by (unfold is_u32; lia). apply Z.leb_le. lia.
  - rewrite u32_id by (unfold is_u32; lia). apply Z.leb_gt. lia.
Qed.

(** The carry goes into the next word; a borrow must not exceed the word. *)
Lemma next_word_carry_spec a u m : is_u32 a -> - m <= u <= m -> m < 2 ^ 31 -> 0 <= a + u ->
  acc (next_word_carry a (u32 u)) (a + u) 1.
Proof.
  intros Ha Hm Hlt Hle. unfold next_word_carry. rewrite negative_carry by lia. unfold is_u32 in Ha.
  destruct (Z.ltb_spec u 0).
  - replace (u32 (0 - u32 u)) with (- u)
      by (unfold u32; rewrite Zminus_mod_idemp_r, Z.mod_small; lia).
    exists 0. cbn [fst snd]. destruct (Z.ltb_spec a (- u)); [lia|]. split; [done|]. split; [lia|].
    rewrite u32_id by (unfold is_u32; lia). unfold is_u32. lia.
  - rewrite (u32_id u) by (unfold is_u32; lia). pose proof (add_carry u a) as E. rewrite (Z.add_comm u a) in E.
    specialize (E ltac:(unfold is_u32; lia) Ha).
    pose proof (is_bit_b2z (u32 (a + u) <? a)) as B. unfold is_bit in B. exists (b2z (u32 (a + u) <? a)). cbn [fst snd].
    split; [symmetry; apply u32_id; unfold is_u32; lia|]. split; [lia|]. split; [apply is_u32_u32|lia].
Qed.

Lemma acc_init x : is_u32 x -> acc (x, 0) x 0.
Proof. intros Hx. exists 0. cbn [fst snd]. split; [done|]. split; [lia|]. split; [done|lia]. Qed.

Lemma wide_init x : is_u32 x -> wide (x, 0) x 0.
Proof. intros Hx. split; cbn [fst snd]; [lia|]. split; [done|lia]. Qed.

(** ** The sum of words *)

(** Proves [wide e v m] and [acc e v m] for a composed accumulation [e]. *)
Ltac wide_tac := lazymatch goal with
  | |- wide (wide_add _ _) _ _ => eapply wide_add_spec; [wide_tac|solve [auto with words]|lia]
  | |- wide (wide_sub _ _) _ _ => eapply (wide_sub_spec _ _ _ _ 3); [wide_tac|solve [auto with words]|lia|lia]
  | |- wide (_, 0) _ _ => apply wide_init; solve [auto with words]
  | |- _ => eassumption
  end.

Ltac acc_tac := lazymatch goal with
  | |- acc (acc_sub2 _ _ _) _ _ => eapply acc_sub2_spec; [acc_tac|eassumption]
  | |- acc (acc_add2 _ _ _) _ _ => eapply acc_add2_spec; [acc_tac|eassumption]
  | |- acc (acc_sub _ _) _ _ => eapply acc_sub_spec; [acc_tac|solve [auto with words]]
  | |- acc (acc_add _ _) _ _ => eapply acc_add_spec; [acc_tac|solve [auto with words]]
  | |- acc (next_word_carry _ _) _ _ =>
      apply (next_word_carry_spec _ _ 16); [solve [auto with words]|lia|lia|assumption]
  | |- acc (_, 0) _ _ => apply acc_init; solve [auto with words]
  end.

Lemma column_step x v cols w k r : column_carry ((x, v) :: cols) w k = Some r ->
  0 <= x + k /\ forall c u, is_u32 c -> c + 2 ^ 32 * u = x + v + k -> column_carry cols c u = Some r.
Proof.
  cbn [column_carry]. destruct (Z.leb_spec 0 (x + k)); [|done]. intros E. split; [done|]. intros c u Hc Ec. unfold is_u32 in Hc.
  by rewrite <- Ec, Z.mul_comm, Z.mod_add, Z.div_add, Z.mod_small, Z.div_small, Z.add_0_l in E by lia.
Qed.

(** Names the accumulation that a [let] in [H] takes apart. *)
Ltac open_wide H :=
  lazymatch type of H with (match ?e with _ => _ end) = _ =>
    let W := fresh "W" in let c := fresh "c" in let u := fresh "u" in
    eassert (W : wide e _ _) by wide_tac; destruct e as [c u] end.

(** The same for a word of the sum, with the carries [K] of the columns. *)
Ltac open_acc H K :=
  lazymatch type of H with (match ?e with _ => _ end) = _ =>
    let W := fresh "S" in let c := fresh "c" in let U := fresh "U" in let E := fresh "E" in
    let u := fresh "u" in let B := fresh "B" in let V := fresh "V" in
    apply column_step in K as [? K];
    eassert (W : acc e _ _) by acc_tac; destruct e as [c U]; destruct W as (u & E & ? & B & V);
    cbn [fst snd] in *; subst U; specialize (K c u B ltac:(lia)) end.

Lemma wval_16 a : words 16 a ->
  wval a = a.[0] + 2 ^ 32 * a.[1] + 2 ^ 64 * a.[2] + 2 ^ 96 * a.[3] + 2 ^ 128 * a.[4] + 2 ^ 160 * a.[5] +
    2 ^ 192 * a.[6] + 2 ^ 224 * a.[7] + 2 ^ 256 * a.[8] + 2 ^ 288 * a.[9] + 2 ^ 320 * a.[10] + 2 ^ 352 * a.[11] +
    2 ^ 384 * a.[12] + 2 ^ 416 * a.[13] + 2 ^ 448 * a.[14] + 2 ^ 480 * a.[15].
Proof.
  intros [Hl _]. do 16 (destruct a as [|? a]; [discriminate Hl|]). destruct a; [|discriminate Hl].
  unfold wval. cbn [foldr nth]. lia.
Qed.

Lemma fast_mod_sum_spec a c U w k : words 16 a -> column_carry (columns a) 0 0 = Some (w, k) -> fast_mod_sum a = (c, U) ->
  words 8 c /\ c.[7] = w /\ U = u32 k /\ -16 <= k <= 16 /\ wval c + 2 ^ 256 * k = wval a - p256 * fold_multiple a.
Proof.
  intros Ha K H. assert (N : forall i, is_u32 a.[i]) by (intros; eauto with words).
  assert (B : forall i, 0 <= a.[i] < 2 ^ 32) by exact N.
  pose proof (B 10%nat). pose proof (B 11%nat). pose proof (B 12%nat). pose proof (B 13%nat). pose proof (B 14%nat).
  pose proof (B 15%nat). clear B. unfold columns in K. cbn [foldr] in K. unfold fast_mod_sum in H.
  do 7 open_wide H. do 8 open_acc H K. injection H as <- <-. injection K as <- <-.
  split; [split; [done|solve_Forall]|]. split; [done|]. split; [done|]. split; [lia|].
  rewrite (wval_16 a Ha). unfold fold_multiple, p256, wval. cbn [foldr]. lia.
Qed.

Lemma fast_mod_sum_words a : words 8 (fast_mod_sum a).1.
Proof.
  assert (H : forall x k s, is_u32 (acc_sub2 x k s).1) by (intros x k [c U]; apply is_u32_u32).
  unfold fast_mod_sum.
  repeat lazymatch goal with
  | |- words 8 (match acc_sub2 ?x ?k ?s with _ => _ end).1 =>
      let E := fresh in pose proof (H x k s) as E; destruct (acc_sub2 x k s); cbn [fst] in E
  | |- words 8 (match ?e with _ => _ end).1 => destruct e
  end.
  split; [done|solve_Forall].
Qed.

(** ** Modular operations *)

Section Modulus.
Context (modp : list Z) (Hp : words 8 modp) (Ep : wval modp = p256).

Lemma iter_sub_spec k c : words 8 c -> wval c + Z.of_nat k * (2 ^ 256 - p256) < 2 ^ 256 ->
  words 8 (Nat.iter k (fun c => (multiprecision_sub c modp).1) c) /\
  wval (Nat.iter k (fun c => (multiprecision_sub c modp).1) c) = wval c + Z.of_nat k * (2 ^ 256 - p256).
Proof.
  intros Hc. induction k as [|k IH]; intros Hk; [split; [done|]; cbn [Nat.iter nat_rect]; lia|].
  assert (Hpos : 0 < 2 ^ 256 - p256) by (unfold p256; lia). destruct IH as [Hw Ev]; [lia|]. cbn [Nat.iter nat_rect].
  set (c' := nat_rect _ _ _ _) in *. destruct (sub_spec c' modp Hw Hp) as (Hs & Hb & E).
  pose proof (words_bound 8 _ Hs) as Hbd. change (base 8) with (2 ^ 256) in Hbd.
  split; [done|]. change (Nat.iter k _ c) with c' in Ev. unfold is_bit in Hb. lia.
Qed.

Lemma iter_add_spec k c : words 8 c -> 0 <= wval c - Z.of_nat k * (2 ^ 256 - p256) ->
  words 8 (Nat.iter k (fun c => (multiprecision_add c modp).1) c) /\
  wval (Nat.iter k (fun c => (multiprecision_add c modp).1) c) = wval c - Z.of_nat k * (2 ^ 256 - p256).
Proof.
  intros Hc. induction k as [|k IH]; intros Hk; [split; [done|]; cbn [Nat.iter nat_rect]; lia|].
  assert (Hpos : 0 < 2 ^ 256 - p256) by (unfold p256; lia). destruct IH as [Hw Ev]; [lia|]. cbn [Nat.iter nat_rect].
  set (c' := nat_rect _ _ _ _) in *. destruct (add_spec c' modp Hw Hp) as (Hs & Hb & E).
  pose proof (words_bound 8 _ Hs) as Hbd. change (base 8) with (2 ^ 256) in Hbd.
  split; [done|]. change (Nat.iter k _ c) with c' in Ev. unfold is_bit in Hb. lia.
Qed.

Lemma fast_mod_correct_words c U : words 8 c -> words 8 (fast_mod_correct modp c U).
Proof.
  intros Hc. unfold fast_mod_correct. destruct (nz _); [generalize (Z.to_nat (2 ^ 32 - U))|generalize (Z.to_nat U)];
    intros k; (induction k as [|k IH]; [done|]); cbn [Nat.iter nat_rect]; [by apply add_spec|by apply sub_spec].
Qed.

(** The subtraction at the end of every operation: below twice the prime it reduces. *)
Lemma reduce_once c : words 8 c ->
  let r := if 0 <=? multiprecision_compare c modp then (multiprecision_sub c modp).1 else c in
  field_elem r /\ wval r = wval c mod p256.
Proof.
  intros Hc r. pose proof (words_bound 8 c Hc) as Hb. change (base 8) with (2 ^ 256) in Hb.
  assert (H2 : 2 ^ 256 < 2 * p256) by (unfold p256; lia). subst r. rewrite compare_ge, Ep by done.
  destruct (Z.leb_spec p256 (wval c)).
  - destruct (sub_spec c modp Hc Hp) as (Hs & Hbit & E). unfold is_bit in Hbit.
    pose proof (words_bound 8 _ Hs) as Hb'. change (base 8) with (2 ^ 256) in Hb'.
    assert (Er : wval (multiprecision_sub c modp).1 = wval c - p256) by lia. split; [split; [done|lia]|].
    rewrite Er. apply (Z.mod_unique_pos _ _ 1); lia.
  - split; [by split|]. symmetry. apply Z.mod_small. lia.
Qed.

Lemma fast_mod_field a : field_elem (multiprecision_fast_mod_P256 modp a).
Proof.
  unfold multiprecision_fast_mod_P256. pose proof (fast_mod_sum_words a) as Hw. destruct (fast_mod_sum a) as [c U].
  by apply reduce_once, fast_mod_correct_words.
Qed.

Lemma fast_mod_correct_spec c u : words 8 c -> -16 <= u <= 16 -> 16 <= c.[7] < 2 ^ 32 - 16 ->
  words 8 (fast_mod_correct modp c (u32 u)) /\
  wval (fast_mod_correct modp c (u32 u)) = wval c + u * (2 ^ 256 - p256).
Proof.
  intros Hc Hu H7. assert (Hv : 16 * 2 ^ 224 <= wval c < (2 ^ 32 - 16) * 2 ^ 224).
  { pose proof (wval_take_S c 7 ltac:(destruct Hc; lia)) as E. rewrite take_ge in E by (destruct Hc; lia).
    pose proof (words_bound 7 _ (words_take 8 7 c Hc ltac:(lia))) as B. change (base 7) with (2 ^ 224) in *. lia. }
  assert (Hd : 0 < 2 ^ 256 - p256 < 2 ^ 224) by (unfold p256; lia).
  unfold fast_mod_correct. rewrite negative_carry by lia. destruct (Z.ltb_spec u 0).
  - rewrite (u32_wrap u (-1)) by (unfold is_u32; lia).
    replace (Z.to_nat (2 ^ 32 - (u - 2 ^ 32 * -1))) with (Z.to_nat (- u)) by lia.
    destruct (iter_add_spec (Z.to_nat (- u)) c Hc) as [Hw E]; [nia|]. split; [done|]. rewrite E. lia.
  - rewrite u32_id by (unfold is_u32; lia).
    destruct (iter_sub_spec (Z.to_nat u) c Hc) as [Hw E]; [nia|]. split; [done|]. rewrite E. lia.
Qed.

Lemma fast_mod_correct_zero c : fast_mod_correct modp c 0 = c.
Proof. done. Qed.

Lemma fast_mod_spec a : words 16 a -> reducible a = true ->
  wval (multiprecision_fast_mod_P256 modp a) = wval a mod p256.
Proof.
  intros Ha Hr. unfold reducible in Hr. unfold multiprecision_fast_mod_P256.
  destruct (column_carry (columns a) 0 0) as [[w k]|] eqn:K; [|done].
  destruct (fast_mod_sum a) as [c U] eqn:E. destruct (fast_mod_sum_spec a c U w k Ha K E) as (Hc & E7 & -> & Hk & Ev).
  assert (Hw : words 8 (fast_mod_correct modp c (u32 k)) /\ wval (fast_mod_correct modp c (u32 k)) = wval c + k * (2 ^ 256 - p256)).
  { apply orb_true_iff in Hr as [->%Z.eqb_eq|Hr]; [split; [done|change (u32 0) with 0; rewrite fast_mod_correct_zero; lia]|].
    apply fast_mod_correct_spec; [done|done|lia]. }
  destruct Hw as [Hw Er]. rewrite (proj2 (reduce_once _ Hw)), Er.
  replace (wval c + k * (2 ^ 256 - p256)) with (wval a + (- fold_multiple a - k) * p256) by lia.
  by rewrite Z_mod_plus_full.
Qed.

Lemma mult_mod_field a b : field_elem (multiprecision_mersenns_mult_mod modp a b).
Proof. apply fast_mod_field. Qed.

Lemma mult_mod_spec a b : words 8 a -> words 8 b -> reducible (multiprecision_mult (replicate 16 0) a b) = true ->
  wval (multiprecision_mersenns_mult_mod modp a b) = (wval a * wval b) mod p256.
Proof.
  intros Ha Hb Hr. unfold multiprecision_mersenns_mult_mod. cbv zeta.
  destruct (mult_spec (replicate 16 0) a b) as [Hw E]; [done|done|done|]. by rewrite fast_mod_spec, E.
Qed.

(** After a carry the number is at least 2^256, and at most twice the prime. *)
Lemma reduce_carry c k : words 8 c -> is_bit k -> wval c + 2 ^ 256 * k < 2 * p256 ->
  let r := if nz k then (multiprecision_sub c modp).1
           else if 0 <=? multiprecision_compare c modp then (multiprecision_sub c modp).1 else c in
  field_elem r /\ wval r = (wval c + 2 ^ 256 * k) mod p256.
Proof.
  intros Hc Hk Hlt r. subst r. destruct Hk as [->| ->]; [rewrite Z.mul_0_r, Z.add_0_r; by apply reduce_once|].
  change (nz 1) with true. cbv iota. destruct (sub_spec c modp Hc Hp) as (Hs & Hb & E). rewrite Ep in E.
  pose proof (words_bound 8 _ Hs) as Hb'. pose proof (words_bound 8 _ Hc). change (base 8) with (2 ^ 256) in *.
  assert (H2 : p256 < 2 ^ 256 < 2 * p256) by (unfold p256; lia). unfold is_bit in Hb.
  assert (Er : wval (multiprecision_sub c modp).1 = wval c + 2 ^ 256 * 1 - p256) by lia. split; [split; [done|lia]|].
  rewrite Er. apply (Z.mod_unique_pos _ _ 1); lia.
Qed.

Lemma add_mod_spec a b : field_elem a -> field_elem b ->
  field_elem (multiprecision_add_mod modp a b) /\ wval (multiprecision_add_mod modp a b) = (wval a + wval b) mod p256.
Proof.
  intros [Ha La] [Hb Lb]. destruct (add_spec a b Ha Hb) as (Hw & Hk & E). unfold multiprecision_add_mod.
  destruct (multiprecision_add a b) as [c k]. cbn [fst snd] in *. rewrite <- E. apply reduce_carry; [done|done|lia].
Qed.

Lemma lshift_mod_spec a : field_elem a ->
  field_elem (multiprecision_lshift_mod modp a) /\ wval (multiprecision_lshift_mod modp a) = (2 * wval a) mod p256.
Proof.
  intros [Ha La]. destruct (lshift_spec a Ha) as (Hw & Hk & E). unfold multiprecision_lshift_mod.
  destruct (multiprecision_lshift a) as [c k]. cbn [fst snd] in *. rewrite <- E. apply reduce_carry; [done|done|lia].
Qed.

Lemma sub_mod_spec a b : field_elem a -> field_elem b ->
  field_elem (multiprecision_sub_mod modp a b) /\ wval (multiprecision_sub_mod modp a b) = (wval a - wval b) mod p256.
Proof.
  intros [Ha La] [Hb Lb]. destruct (sub_spec a b Ha Hb) as (Hw & Hk & E). unfold multiprecision_sub_mod.
  pose proof (words_bound 8 _ Ha). pose proof (words_bound 8 _ Hb).
  destruct (multiprecision_sub a b) as [c k]. cbn [fst snd] in *.
  pose proof (words_bound 8 _ Hw) as Hbd. change (base 8) with (2 ^ 256) in *.
  assert (H2 : p256 < 2 ^ 256 < 2 * p256) by (unfold p256; lia). destruct Hk as [->| ->].
  - change (nz 0) with false. cbv iota. split; [split; [done|lia]|]. rewrite Z.mod_small; lia.
  - change (nz 1) with true. cbv iota. destruct (add_spec c modp Hw Hp) as (Hs & Hb' & E'). rewrite Ep in E'.
    pose proof (words_bound 8 _ Hs) as Hbs. change (base 8) with (2 ^ 256) in *. unfold is_bit in Hb'.
    assert (Er : wval (multiprecision_add c modp).1 = wval a - wval b + p256) by lia. split; [split; [done|lia]|].
    rewrite Er. apply (Z.mod_unique_pos _ _ (-1)); lia.
Qed.

End Modulus.

Lemma modp_spec ec : words 8 (ec_p (p_256_init_curve ec)) /\ wval (ec_p (p_256_init_curve ec)) = p256.
Proof. split; [split; [done|]|reflexivity]. cbn [ec_p p_256_init_curve]. repeat constructor; done. Qed.
