(* ===== verification/P256Inv.v ===== *)
(** * P256Inv: the inversion terminates and inverts

    [multiprecision_inv_mod] is the binary extended Euclidean algorithm.  Every turn
    of its loop after the first finds one of the two numbers even and so halves their
    product, which bounds the number of turns. *)

From Stdlib Require Import ZArith Lia.
From stdpp Require Import base list.
From S2P Require Import Prelude Aes P256 P256Words P256Mod.

Open Scope aes_scope.

(** Congruence modulo the prime. *)
Definition cong (x y : Z) : Prop := (p256 | x - y).

(** The state of the loop: [A] and [C] are [u] and [v] divided by [a0], and the greatest
    common divisor of [u] and [v] is [g]. *)
Record inv_state (a0 g : Z) (u v A C : list Z) : Prop := mk_inv_state {
  inv_u : words 8 u;
  inv_v : words 8 v;
  inv_A : field_elem A;
  inv_C : field_elem C;
  inv_pos : 0 < wval v;
  inv_odd : Z.odd (wval u) = true \/ Z.odd (wval v) = true;
  inv_gcd : Z.gcd (wval u) (wval v) = g;
  inv_Au : cong (wval A * a0) (wval u);
  inv_Cv : cong (wval C * a0) (wval v);
}.

(** * Lemmas *)

Lemma cong_mod x y : cong x y <-> x mod p256 = y mod p256.
Proof.
  unfold cong. rewrite <- Z.mod_divide by done. split; intros H.
  - replace x with (y + (x - y)) by lia. rewrite Zplus_mod, H, Z.add_0_r. by rewrite Zmod_mod.
  - by rewrite Zminus_mod, H, Z.sub_diag.
Qed.

Lemma cong_half x y : cong (2 * x) (2 * y) -> cong x y.
Proof.
  unfold cong. intros H. apply (Z.gauss _ 2); [by replace (2 * (x - y)) with (2 * x - 2 * y) by lia|]. reflexivity.
Qed.

Lemma cong_sub a b c d : cong a b -> cong c d -> cong (a - c) (b - d).
Proof. unfold cong. intros H1 H2. replace (a - c - (b - d)) with (a - b - (c - d)) by lia. by apply Z.divide_sub_r. Qed.

Lemma cong_trans a b c : cong a b -> cong b c -> cong a c.
Proof. rewrite !cong_mod. congruence. Qed.

Lemma cong_mul_mod x y : cong (x mod p256 * y) (x * y).
Proof. rewrite cong_mod. by rewrite Zmult_mod_idemp_l. Qed.

Lemma gcd_odd_2 d : Z.odd d = true -> Z.gcd d 2 = 1.
Proof. intros Hd. rewrite Z.gcd_comm, <- Z.gcd_mod by lia. by rewrite Zmod_odd, Hd. Qed.

Lemma odd_divisor d y : (d | y) -> Z.odd y = true -> Z.odd d = true.
Proof. intros [k ->]. rewrite Z.odd_mul. by intros [_ ?]%andb_true_iff. Qed.

Lemma gcd_half x y : Z.odd y = true -> Z.gcd (2 * x) y = Z.gcd x y.
Proof.
  intros Hy. apply Z.divide_antisym_nonneg; try apply Z.gcd_nonneg.
  - apply Z.gcd_greatest; [|apply Z.gcd_divide_r]. apply (Z.gauss _ 2); [apply Z.gcd_divide_l|].
    apply gcd_odd_2, (odd_divisor _ y); [apply Z.gcd_divide_r|done].
  - apply Z.gcd_greatest; [|apply Z.gcd_divide_r]. apply Z.divide_mul_r, Z.gcd_divide_l.
Qed.

Lemma even_half x : Z.odd x = false -> x = 2 * (x / 2).
Proof.
  intros Hx. rewrite <- Z.negb_even in Hx. apply negb_false_iff, Z.even_spec in Hx as [k ->].
  rewrite Z.mul_comm, Z.div_mul by lia. lia.
Qed.

Section Modulus.
Context (modp : list Z) (Hp : words 8 modp) (Ep : wval modp = p256).

Lemma halve_coefficient_spec A : field_elem A ->
  field_elem (halve_coefficient modp A) /\ cong (2 * wval (halve_coefficient modp A)) (wval A).
Proof.
  intros [HA LA]. unfold halve_coefficient. rewrite (odd_word 7) by done. destruct (Z.odd (wval A)) eqn:Ho; cbn [negb].
  - destruct (add_spec A modp HA Hp) as (Hw & Hk & E). rewrite Ep in E.
    destruct (multiprecision_add A modp) as [c k]. cbn [fst snd] in *.
    destruct (rshift_spec 8 c Hw) as [Hr Er]. set (r := multiprecision_rshift c) in *.
    pose proof (words_bound 8 _ Hw) as Hb. change (base 8) with (2 ^ 256) in Hb.
    assert (Hodd : Z.odd (wval c) = false).
    { replace (wval c) with (wval A + p256 + 2 * (- 2 ^ 255 * k)) by lia. rewrite Z.odd_add_mul_2, Z.odd_add, Ho. done. }
    pose proof (even_half _ Hodd) as Eh. rewrite <- Er in Eh.
    pose proof (wval_take_S r 7 ltac:(destruct Hr; lia)) as E7. rewrite take_ge in E7 by (destruct Hr; lia).
    pose proof (words_bound 7 _ (words_take 8 7 r Hr ltac:(lia))) as B7. change (base 7) with (2 ^ 224) in *.
    pose proof (words_nth 8 r 7 Hr) as Hr7. unfold is_u32 in Hr7.
    assert (El : r.[7] .| u32 (k .<< 31) = r.[7] + 2 ^ 31 * k).
    { rewrite Z.shiftl_mul_pow2 by lia. unfold is_bit in Hk. rewrite u32_id by (unfold is_u32; lia).
      rewrite Z.lor_comm, lor_add_low; lia. }
    rewrite El. unfold is_bit in Hk.
    assert (Hw' : words 8 (<[7%nat := r.[7] + 2 ^ 31 * k]> r)) by (apply words_insert; [done|unfold is_u32; lia]).
    pose proof (wval_take_S (<[7%nat := r.[7] + 2 ^ 31 * k]> r) 7 ltac:(destruct Hw'; lia)) as E7'.
    rewrite take_ge in E7' by (destruct Hw'; lia). rewrite take_insert_ge in E7' by lia.
    rewrite (nth_lookup_Some (<[7%nat := r.[7] + 2 ^ 31 * k]> r) 7 0 (r.[7] + 2 ^ 31 * k)) in E7' by (apply list_lookup_insert_eq; destruct Hr; lia).
    change (base 7) with (2 ^ 224) in E7'. split; [split; [done|lia]|]. exists 1. lia.
  - destruct (rshift_spec 8 A HA) as [Hr Er]. pose proof (even_half _ Ho). pose proof (words_bound 8 _ HA).
    split; [split; [done|lia]|]. exists 0. lia.
Qed.

Lemma make_odd_spec fuel u A : words 8 u -> field_elem A -> 0 < wval u < 2 ^ (Z.of_nat fuel - 1) ->
  exists u' A', make_odd modp fuel u A = Ok (u', A') /\ words 8 u' /\ field_elem A' /\ Z.odd (wval u') = true /\
    0 < wval u' <= wval u /\ (Z.odd (wval u) = false -> 2 * wval u' <= wval u) /\
    (Z.odd (wval u) = true -> u' = u) /\
    (forall x, Z.odd x = true -> Z.gcd (wval u') x = Z.gcd (wval u) x) /\
    (forall a0, cong (wval A * a0) (wval u) -> cong (wval A' * a0) (wval u')).
Proof.
  revert u A. induction fuel as [|fuel IH]; intros u A Hu HA Hb; [cbn in Hb; lia|].
  replace (Z.of_nat (S fuel) - 1) with (Z.of_nat fuel) in Hb by lia.
  cbn [make_odd]. rewrite (odd_word 7) by done. destruct (Z.odd (wval u)) eqn:Ho.
  { exists u, A. repeat (split; [first [done | lia | intros; congruence]|]). done. }
  pose proof (even_half _ Ho) as Eh. destruct (rshift_spec 8 u Hu) as [Hr Er].
  destruct (halve_coefficient_spec A HA) as [HA' Hc]. set (u2 := multiprecision_rshift u) in *.
  destruct (IH u2 (halve_coefficient modp A)) as (u' & A' & E & Hu' & HF & Ho' & Hpos & _ & _ & Hg & Hcg); [done|done| |].
  { rewrite Er. split; [lia|]. apply Z.div_lt_upper_bound; [lia|].
    destruct fuel; [cbn in Hb; lia|]. replace (2 * 2 ^ (Z.of_nat (S fuel) - 1)) with (2 ^ Z.of_nat (S fuel)); [lia|].
    rewrite <- Z.pow_succ_r by lia. f_equal. lia. }
  exists u', A'. split; [done|]. split; [done|]. split; [done|]. split; [done|]. split; [lia|]. split; [lia|].
  split; [done|]. split.
  - intros x Hx. rewrite Hg, Er by done. rewrite Eh at 2. symmetry. by apply gcd_half.
  - intros a0 H0. apply Hcg, cong_half. rewrite Er, <- Eh. eapply cong_trans; [|exact H0].
    destruct Hc as [k Hk]. exists (k * a0). lia.
Qed.

(** The subtraction of the smaller odd number from the larger. *)
Lemma sub_step a0 x y X Y : words 8 x -> words 8 y -> field_elem X -> field_elem Y -> wval y <= wval x ->
  Z.odd (wval x) = true -> Z.odd (wval y) = true -> cong (wval X * a0) (wval x) -> cong (wval Y * a0) (wval y) ->
  words 8 (multiprecision_sub x y).1 /\ wval (multiprecision_sub x y).1 = wval x - wval y /\
  Z.odd (wval (multiprecision_sub x y).1) = false /\ field_elem (multiprecision_sub_mod modp X Y) /\
  cong (wval (multiprecision_sub_mod modp X Y) * a0) (wval (multiprecision_sub x y).1) /\
  Z.gcd (wval (multiprecision_sub x y).1) (wval y) = Z.gcd (wval x) (wval y).
Proof.
  intros Hx Hy HX HY Hle Ox Oy Cx Cy. destruct (sub_spec x y Hx Hy) as (Hw & Hb & E).
  pose proof (words_bound 8 _ Hw) as Bw. pose proof (words_bound 8 _ Hx). pose proof (words_bound 8 _ Hy).
  change (base 8) with (2 ^ 256) in *. unfold is_bit in Hb.
  assert (Ed : wval (multiprecision_sub x y).1 = wval x - wval y) by lia. rewrite Ed.
  destruct (sub_mod_spec modp Hp Ep X Y HX HY) as [HF EF]. split; [done|]. split; [done|].
  split; [by rewrite Z.odd_sub, Ox, Oy|]. split; [done|]. split.
  - rewrite EF. eapply cong_trans; [apply cong_mul_mod|]. rewrite Z.mul_sub_distr_r. by apply cong_sub.
  - rewrite Z.gcd_comm, Z.gcd_sub_diag_r, Z.gcd_comm. done.
Qed.

(** One turn of the loop: the state is kept, one of the numbers becomes even, and the
    product does not grow; it is halved when one of them was even before. *)
Lemma inv_step a0 g u v A C : inv_state a0 g u v A C -> wval u <> 0 ->
  exists u1 v1 A1 C1, (forall f, inv_loop modp (S f) u v A C = inv_loop modp f u1 v1 A1 C1) /\
    inv_state a0 g u1 v1 A1 C1 /\ (Z.odd (wval u1) && Z.odd (wval v1) = false) /\
    wval u1 * wval v1 <= wval u * wval v /\
    (Z.odd (wval u) && Z.odd (wval v) = false -> 2 * (wval u1 * wval v1) <= wval u * wval v).
Proof.
  intros [Hu Hv HA HC Hpos Hodd Hg HAu HCv] Hne.
  pose proof (words_bound 8 _ Hu) as Bu. pose proof (words_bound 8 _ Hv) as Bv. change (base 8) with (2 ^ 256) in *.
  destruct (make_odd_spec 257 u A Hu HA) as (u' & A' & Eu & Hu' & HA' & Ou & Pu & Lu & Su & Gu & Cu);
    [change (Z.of_nat 257 - 1) with 256; lia|].
  destruct (make_odd_spec 257 v C Hv HC) as (v' & C' & Ev & Hv' & HC' & Ov & Pv & Lv & Sv & Gv & Cv);
    [change (Z.of_nat 257 - 1) with 256; lia|].
  specialize (Cu a0 HAu). specialize (Cv a0 HCv).
  assert (Hg' : Z.gcd (wval u') (wval v') = g).
  { rewrite <- Hg. destruct Hodd as [Hou|Hov].
    - rewrite (Su Hou). rewrite Z.gcd_comm, (Z.gcd_comm (wval u)). by apply Gv.
    - rewrite (Sv Hov). by apply Gu. }
  assert (Hprod : wval u' * wval v' <= wval u * wval v /\
    (Z.odd (wval u) && Z.odd (wval v) = false -> 2 * (wval u' * wval v') <= wval u * wval v)).
  { split; [nia|]. intros [E|E]%andb_false_iff; [specialize (Lu E)|specialize (Lv E)]; nia. }
  assert (Step : forall f, inv_loop modp (S f) u v A C =
    if wval v' <=? wval u' then inv_loop modp f (multiprecision_sub u' v').1 v' (multiprecision_sub_mod modp A' C') C'
    else inv_loop modp f u' (multiprecision_sub v' u').1 A' (multiprecision_sub_mod modp C' A')).
  { intros f. cbn [inv_loop]. rewrite nz_iszero by apply Hu. destruct (Z.eqb_spec (wval u) 0); [done|].
    rewrite Eu. cbn [mbind outcome_bind]. rewrite Ev. cbn [mbind outcome_bind]. by rewrite compare_ge. }
  destruct Hprod as [P1 P2]. destruct (Z.leb_spec (wval v') (wval u')) as [Hle|Hlt].
  - destruct (sub_step a0 u' v' A' C') as (Hd & Ed & Od & HD & CD & GD); try done.
    exists (multiprecision_sub u' v').1, v', (multiprecision_sub_mod modp A' C'), C'. split; [done|].
    split; [split; try done; [lia|by right|by rewrite GD]|]. split; [by rewrite Od|]. rewrite Ed.
    assert ((wval u' - wval v') * wval v' <= wval u' * wval v') by nia. split; [lia|]. intros Hev; specialize (P2 Hev); lia.
  - destruct (sub_step a0 v' u' C' A') as (Hd & Ed & Od & HD & CD & GD); try done; [lia|].
    exists u', (multiprecision_sub v' u').1, A', (multiprecision_sub_mod modp C' A'). split; [done|].
    split; [split; try done; [lia|by left|by rewrite Z.gcd_comm, GD, Z.gcd_comm]|].
    split; [by rewrite Od, andb_false_r|]. rewrite Ed.
    assert (wval u' * (wval v' - wval u') <= wval u' * wval v') by nia. split; [lia|]. intros Hev; specialize (P2 Hev); lia.
Qed.

Lemma inv_loop_spec a0 g fuel u v A C : inv_state a0 g u v A C -> Z.odd (wval u) && Z.odd (wval v) = false ->
  wval u * wval v < 2 ^ (Z.of_nat fuel - 1) ->
  exists u' C', inv_loop modp fuel u v A C = Ok (u', C') /\ words 8 u' /\ wval u' = 0 /\ field_elem C' /\
    cong (wval C' * a0) g.
Proof.
  revert u v A C. induction fuel as [|fuel IH]; intros u v A C HI He Hlt.
  { pose proof (words_bound 8 _ (inv_u _ _ _ _ _ _ HI)). pose proof (inv_pos _ _ _ _ _ _ HI). cbn in Hlt. nia. }
  pose proof (words_bound 8 _ (inv_u _ _ _ _ _ _ HI)) as Bu.
  destruct (Z.eq_dec (wval u) 0) as [Hz|Hne].
  - cbn [inv_loop]. rewrite nz_iszero by apply (inv_u _ _ _ _ _ _ HI). rewrite Hz. cbn [Z.eqb].
    destruct HI as [Hu Hv HA HC Hpos Hodd Hg HAu HCv]. exists u, C. split; [done|]. split; [done|]. split; [done|].
    split; [done|]. rewrite Hz, Z.gcd_0_l, Z.abs_eq in Hg by lia. by rewrite <- Hg.
  - destruct (inv_step a0 g u v A C HI Hne) as (u1 & v1 & A1 & C1 & Es & HI1 & He1 & _ & Hhalf). rewrite Es.
    specialize (Hhalf He). apply IH; [done|done|]. replace (Z.of_nat (S fuel) - 1) with (Z.of_nat fuel) in Hlt by lia.
    destruct fuel as [|fuel].
    + pose proof (inv_pos _ _ _ _ _ _ HI). cbn in Hlt. nia.
    + replace (2 ^ Z.of_nat (S fuel)) with (2 * 2 ^ (Z.of_nat (S fuel) - 1)) in Hlt
        by (rewrite <- Z.pow_succ_r by lia; f_equal; lia). lia.
Qed.

Lemma inv_mod_spec a : words 8 a -> wval a <> 0 ->
  exists r a', multiprecision_inv_mod modp a = Ok (r, a') /\ field_elem r /\ wval a' = 0 /\
    cong (wval r * wval a) (Z.gcd (wval a) p256).
Proof.
  intros Ha Hne. destruct init_spec as [Hi Ei]. set (A := <[0%nat := 1]> multiprecision_init).
  assert (HA : field_elem A /\ wval A = 1) by (split; [split; [by apply words_insert|done]|done]).
  assert (HI : inv_state (wval a) (Z.gcd (wval a) p256) a modp A multiprecision_init).
  { split; try done; try apply HA.
    - rewrite Ep. done.
    - right. by rewrite Ep.
    - by rewrite Ep.
    - rewrite (proj2 HA). exists 0. lia.
    - rewrite Ei, Ep. exists (-1). lia. }
  destruct (inv_step _ _ _ _ _ _ HI Hne) as (u1 & v1 & A1 & C1 & Es & HI1 & He1 & Hle & _).
  pose proof (words_bound 8 _ Ha) as Ba. change (base 8) with (2 ^ 256) in Ba. rewrite Ep in Hle.
  destruct (inv_loop_spec _ _ 513 u1 v1 A1 C1 HI1 He1) as (u' & C' & El & Hu' & Hz & HC' & Hcg).
  { change (Z.of_nat 513 - 1) with 512. assert (p256 < 2 ^ 256) by done.
    replace (2 ^ 512) with (2 ^ 256 * 2 ^ 256) by (rewrite <- Z.pow_add_r; lia). nia. }
  unfold multiprecision_inv_mod. fold A. rewrite (Es 513%nat), El. cbn [mbind outcome_bind].
  destruct (reduce_once modp Hp Ep C' (proj1 HC')) as [Hr Er]. cbv zeta in Hr, Er.
  eexists _, _. split; [reflexivity|]. split; [exact Hr|]. split; [done|].
  rewrite Er. eapply cong_trans; [apply cong_mul_mod|exact Hcg].
Qed.

End Modulus.
