(* ===== verification/P256Naf.v ===== *)
(** * P256Naf: the digits of the scalar

    [ECC_NAF] writes the non-adjacent form of the scalar, two bits per digit. *)

From Stdlib Require Import ZArith Lia.
From stdpp Require Import base list.
From S2P Require Import Prelude Aes AesKeys P256 P256Words.

Open Scope aes_scope.

(** The [i]-th digit as the code stores it, 0, 1 or 3, and its signed value. *)
Definition naf_digit (naf : list Z) (i : nat) : Z := (naf.[i / 4] .>> ((Z.of_nat i mod 4) * 2)) .& 3.
Definition signed (d : Z) : Z := if d =? 3 then -1 else d.

(** The number whose signed digits are those from [i] on, [n] of them. *)
Fixpoint naf_value (naf : list Z) (i n : nat) : Z :=
  match n with O => 0 | S n => signed (naf_digit naf i) + 2 * naf_value naf (S i) n end.

Definition is_digit (d : Z) : Prop := d = 0 \/ d = 1 \/ d = 3.

(** From [i] on the digits are well formed and no two neighbours are both set. *)
Definition naf_from (naf : list Z) (i : nat) : Prop :=
  forall j, (i <= j < 260)%nat -> is_digit (naf_digit naf j) /\ (naf_digit naf j <> 0 -> naf_digit naf (S j) = 0).

(** * Lemmas *)

(** ** The test for zero *)

Lemma dword_bits_from_ge n i a : i <= dword_bits_from n i a.
Proof.
  revert i a. induction n as [|n IH]; intros i a; cbn [dword_bits_from]; [lia|].
  destruct (a =? 0); [lia|]. specialize (IH (i + 1) (a .>> 1)). lia.
Qed.

Lemma dword_bits_pos x : x <> 0 -> 1 <= multiprecision_dword_bits x.
Proof.
  intros Hx. change (multiprecision_dword_bits x) with (if x =? 0 then 0 else dword_bits_from 31 1 (x .>> 1)).
  destruct (Z.eqb_spec x 0); [done|]. apply dword_bits_from_ge.
Qed.

Lemma most_signdwords_spec a i : words 8 a -> (i <= 8)%nat ->
  (most_signdwords_from a i = 0 /\ wval (take i a) = 0) \/
  (exists j, (j < i)%nat /\ most_signdwords_from a i = Z.of_nat (S j) /\ a.[j] <> 0 /\ wval (take i a) <> 0).
Proof.
  intros Ha. induction i as [|i IH]; intros Hi; [by left|]. cbn [most_signdwords_from]. unfold nz.
  pose proof (words_bound i _ (words_take 8 i a Ha ltac:(lia))). pose proof (words_nth 8 a i Ha) as Hw. unfold is_u32 in Hw.
  pose proof (base_pos i). rewrite wval_take_S by (destruct Ha; lia). destruct (Z.eqb_spec a.[i] 0) as [->|Hne]; cbn [negb].
  - destruct (IH ltac:(lia)) as [[E Ev]|(j & Hj & E & Hn & Hv)]; [left; lia|right; exists j].
    split; [lia|]. split; [done|]. split; [done|lia].
  - right. exists i. split; [lia|]. split; [done|]. split; [done|nia].
Qed.

Lemma most_signbits_zero a : words 8 a -> (multiprecision_most_signbits a <? 1) = (wval a =? 0).
Proof.
  intros Ha. unfold multiprecision_most_signbits, multiprecision_most_signdwords.
  assert (E8 : take 8 a = a) by (apply take_ge; destruct Ha; lia).
  destruct (most_signdwords_spec a 8 Ha ltac:(lia)) as [[-> Ev]|(j & Hj & -> & Hn & Hv)].
  - rewrite E8 in Ev. by rewrite Ev.
  - rewrite E8 in Hv. destruct (Z.eqb_spec (Z.of_nat (S j)) 0); [lia|]. destruct (Z.eqb_spec (wval a) 0); [done|].
    apply Z.ltb_ge. rewrite Z.shiftl_mul_pow2 by lia. replace (Z.to_nat (Z.of_nat (S j) - 1)) with j by lia.
    pose proof (dword_bits_pos a.[j] Hn). lia.
Qed.

(** ** The next scalar *)

Lemma rd_nth k j : (j < length k)%nat -> rd k (Z.of_nat j) = Ok k.[j].
Proof.
  intros Hj. unfold rd. destruct (Z.ltb_spec (Z.of_nat j) 0); [lia|]. rewrite Nat2Z.id.
  destruct (lookup_lt_is_Some_2 k j Hj) as [x Hx]. rewrite Hx. cbn. by rewrite (nth_lookup_Some _ _ 0 _ Hx).
Qed.

Lemma wval_insert k j x : (j < length k)%nat -> wval (<[j := x]> k) = wval k + base j * (x - k.[j]).
Proof.
  revert j. induction k as [|y k IH]; intros [|j] Hj; cbn [length] in Hj; [lia|lia| |].
  - cbn [insert list_insert nth]. rewrite !wval_cons. change (base 0) with 1. lia.
  - cbn [insert list_insert nth]. rewrite !wval_cons, base_S, IH by lia. lia.
Qed.

Lemma u32_succ x : is_u32 x -> (u32 (x + 1) = 0 /\ x = 2 ^ 32 - 1) \/ (u32 (x + 1) = x + 1 /\ x < 2 ^ 32 - 1).
Proof.
  intros Hx. unfold is_u32 in Hx. destruct (Z.eq_dec x (2 ^ 32 - 1)) as [->|]; [by left|right].
  split; [apply u32_id; unfold is_u32; lia|lia].
Qed.

Lemma carry_loop_spec fuel k j : words 8 k -> (j < 8)%nat -> (8 - j < fuel)%nat -> wval k + base j < 2 ^ 256 ->
  exists k', carry_loop fuel k (Z.of_nat j) = Ok k' /\ words 8 k' /\ wval k' = wval k + base j.
Proof.
  revert k j. induction fuel as [|fuel IH]; intros k j Hk Hj Hf Hlt; [lia|]. cbn [carry_loop].
  assert (Hl : (j < length k)%nat) by (destruct Hk; lia). rewrite rd_nth by done. cbn [mbind outcome_bind].
  rewrite wr_one by lia. cbn [mbind outcome_bind]. rewrite Nat2Z.id.
  pose proof (words_nth 8 k j Hk) as Hw. pose proof (is_u32_u32 (k.[j] + 1)) as Hu.
  pose proof (wval_insert k j (u32 (k.[j] + 1)) Hl) as Ev. pose proof (words_insert 8 k j _ Hk Hu) as Hw'.
  destruct (u32_succ _ Hw) as [[E Ek]|[E Ek]]; rewrite E in *.
  - rewrite Z.eqb_refl. rewrite Ek in Ev. destruct (decide (j = 7)%nat) as [->|Hne].
    + exfalso. pose proof (wval_take_S k 7 ltac:(lia)) as E7. rewrite take_ge in E7 by (destruct Hk; lia).
      pose proof (words_bound 7 _ (words_take 8 7 k Hk ltac:(lia))). change (base 7) with (2 ^ 224) in *. lia.
    + replace (Z.of_nat j + 1) with (Z.of_nat (S j)) by lia. pose proof (base_S j).
      destruct (IH (<[j := 0]> k) (S j)) as (k' & -> & Hk' & Ek'); [done|lia|lia|lia|]. exists k'. split; [done|]. split; [done|lia].
  - unfold is_u32 in Hw. destruct (Z.eqb_spec (k.[j] + 1) 0); [lia|]. eexists. split; [reflexivity|]. split; [done|lia].
Qed.

Lemma land_3 n a : words (S n) a -> a.[0] .& 3 = wval a mod 4.
Proof.
  intros Ha. destruct a as [|x a]; [by destruct Ha|]. cbn [nth]. rewrite wval_cons. change 3 with (Z.ones 2).
  rewrite Z.land_ones by lia. change (2 ^ 2) with 4. replace (x + 2 ^ 32 * wval a) with (x + (2 ^ 30 * wval a) * 4) by lia.
  by rewrite Z_mod_plus_full.
Qed.

Lemma land_even x : is_u32 x -> Z.odd x = true -> x .& 0xFFFFFFFE = x - 1.
Proof.
  intros Hx Ho. apply Z.odd_spec in Ho as [y ->]. change 0xFFFFFFFE with (2 * Z.ones 31).
  assert (E : (2 * y + 1) .& (2 * Z.ones 31) = 2 * (y .& Z.ones 31)).
  { apply Z.bits_inj'. intros n Hn. rewrite Z.land_spec. destruct (Z.eq_dec n 0) as [->|].
    - by rewrite Z.testbit_odd_0, !Z.testbit_even_0.
    - replace n with (Z.succ (Z.pred n)) by lia. rewrite Z.testbit_odd_succ, !Z.testbit_even_succ by lia.
      by rewrite Z.land_spec. }
  rewrite E, Z.land_ones by lia. unfold is_u32 in Hx. rewrite Z.mod_small; lia.
Qed.

Lemma odd_mod_4 x : Z.odd x = true -> x mod 4 = 1 \/ x mod 4 = 3.
Proof.
  intros [y ->]%Z.odd_spec. pose proof (Z.div_mod (2 * y + 1) 4 ltac:(lia)).
  pose proof (Z.mod_pos_bound (2 * y + 1) 4 ltac:(lia)). lia.
Qed.

(** The scalar less its digit. *)
Lemma naf_round_spec k : words 8 k -> wval k < 2 ^ 256 - 1 -> Z.odd (wval k) = true ->
  exists k', naf_round k (k.[0] .& 3) = Ok k' /\ words 8 k' /\ wval k' = wval k - signed (k.[0] .& 3).
Proof.
  intros Hk Hlt Ho. unfold naf_round. assert (Hl : (0 < length k)%nat) by (destruct Hk; lia).
  pose proof (words_nth 8 k 0 Hk) as H0. rewrite (land_3 7) by done.
  destruct (odd_mod_4 _ Ho) as [->| ->]; cbn [Z.eqb Pos.eqb].
  - assert (Ho0 : Z.odd k.[0] = true).
    { destruct k as [|x k]; [cbn in Hl; lia|]. cbn [nth]. rewrite wval_cons in Ho.
      replace (x + 2 ^ 32 * wval k) with (x + 2 * (2 ^ 31 * wval k)) in Ho by lia. by rewrite Z.odd_add_mul_2 in Ho. }
    rewrite land_even by done. assert (k.[0] <> 0) by (intros E; by rewrite E in Ho0).
    eexists. split; [reflexivity|]. unfold is_u32 in *. split; [apply words_insert; [done|unfold is_u32; lia]|].
    rewrite wval_insert by done. change (base 0) with 1. change (signed 1) with 1. lia.
  - change (signed 3) with (-1). pose proof (is_u32_u32 (k.[0] + 1)) as Hu.
    pose proof (words_insert 8 k 0 _ Hk Hu) as Hw. pose proof (wval_insert k 0 (u32 (k.[0] + 1)) Hl) as Ev.
    change (base 0) with 1 in Ev.
    assert (En : (<[0%nat := u32 (k.[0] + 1)]> k).[0] = u32 (k.[0] + 1)) by (destruct k; [cbn in Hl; lia|done]).
    rewrite En. destruct (u32_succ _ H0) as [[E Ek]|[E Ek]]; rewrite E in *.
    + rewrite Z.eqb_refl. destruct (carry_loop_spec 9 (<[0%nat := 0]> k) 1) as (k' & Ec & Hk' & Ek');
        [done|lia|lia|change (base 1) with (2 ^ 32); lia|].
      exists k'. change (Z.of_nat 1) with 1 in Ec. split; [done|]. split; [done|]. change (base 1) with (2 ^ 32) in Ek'. lia.
    + unfold is_u32 in H0. destruct (Z.eqb_spec (k.[0] + 1) 0); [lia|]. eexists. split; [reflexivity|]. split; [done|lia].
Qed.

(** ** The packed digits *)

Lemma is_digit_high s n : is_digit s -> n < 0 \/ 2 <= n -> Z.testbit s n = false.
Proof.
  intros Hs [Hn|Hn]; [by apply Z.testbit_neg_r|]. apply (testbit_above 2); [lia|]. unfold is_digit in Hs. lia.
Qed.

Lemma digit_or x s t t' : is_digit s -> 0 <= t < 4 -> 0 <= t' < 4 ->
  (u8 (x .| (s .<< (t * 2))) .>> (t' * 2)) .& 3 = ((x .>> (t' * 2)) .& 3) .| (if t =? t' then s else 0).
Proof.
  intros Hs Ht Ht'. apply Z.bits_inj'. intros n Hn. rewrite Z.lor_spec, !Z.land_spec, !Z.shiftr_spec by lia.
  change 3 with (Z.ones 2). rewrite Z.testbit_ones_nonneg by lia. destruct (Z.ltb_spec n 2).
  - unfold u8. rewrite Z.mod_pow2_bits_low, Z.lor_spec, Z.shiftl_spec by lia. rewrite !andb_true_r. f_equal.
    destruct (Z.eqb_spec t t') as [<-|Hne]; [f_equal; lia|]. rewrite Z.bits_0. apply is_digit_high; [done|lia].
  - rewrite !andb_false_r. symmetry. cbn [orb]. destruct (t =? t'); [apply is_digit_high; [done|lia]|apply Z.bits_0].
Qed.

Lemma naf_digit_write naf i j s : (i < 4 * length naf)%nat -> is_digit s ->
  naf_digit (<[(i / 4)%nat := u8 (naf.[i / 4] .| (s .<< ((Z.of_nat i mod 4) * 2)))]> naf) j =
    naf_digit naf j .| (if Nat.eqb i j then s else 0).
Proof.
  intros Hi Hs. unfold naf_digit. assert (Hd : (i / 4 < length naf)%nat) by (apply Nat.Div0.div_lt_upper_bound; lia).
  pose proof (Nat.div_mod_eq i 4). pose proof (Nat.div_mod_eq j 4).
  pose proof (Nat.mod_upper_bound i 4 ltac:(lia)). pose proof (Nat.mod_upper_bound j 4 ltac:(lia)).
  destruct (decide (i / 4 = j / 4)%nat) as [E|Hne].
  - rewrite <- E. rewrite (nth_lookup_Some (<[_ := _]> naf) _ _ _ (list_lookup_insert_eq _ _ _ Hd)).
    rewrite digit_or by (done || apply Z.mod_pos_bound; lia). f_equal.
    change 4 with (Z.of_nat 4). rewrite <- !Nat2Z.inj_mod.
    destruct (Nat.eqb_spec i j) as [->|]; [by rewrite Z.eqb_refl|]. destruct (Z.eqb_spec (Z.of_nat (i mod 4)) (Z.of_nat (j mod 4))); [lia|done].
  - destruct (Nat.eqb_spec i j); [lia|]. rewrite Z.lor_0_r. rewrite !nth_lookup. by rewrite list_lookup_insert_ne.
Qed.

Lemma naf_value_ext naf naf' i n : (forall j, (i <= j < i + n)%nat -> naf_digit naf j = naf_digit naf' j) ->
  naf_value naf i n = naf_value naf' i n.
Proof.
  revert i. induction n as [|n IH]; intros i He; cbn [naf_value]; [done|]. rewrite He by lia. f_equal. f_equal.
  apply IH. intros j Hj. apply He. lia.
Qed.

(** What one turn does to the scalar: its digit and the number left. *)
Lemma naf_turn k : words 8 k -> wval k < 2 ^ 256 - 1 -> wval k <> 0 ->
  exists sign k1, (if nz (k.[0] .& 1) then k2 ← naf_round k (k.[0] .& 3); mret (k.[0] .& 3, k2) else mret (0, k)) = Ok (sign, k1) /\
    let k2 := multiprecision_rshift k1 in
    words 8 k2 /\ is_digit sign /\ wval k = signed sign + 2 * wval k2 /\ (sign <> 0 -> Z.even (wval k2) = true) /\
    (Z.even (wval k) = true -> sign = 0).
Proof.
  intros Hk Hlt Hne. pose proof (words_bound 8 _ Hk) as Hb. rewrite (odd_word 7) by done. destruct (Z.odd (wval k)) eqn:Ho.
  - destruct (naf_round_spec k Hk Hlt Ho) as (k1 & Er & Hk1 & E1). rewrite Er. exists (k.[0] .& 3), k1.
    split; [done|]. destruct (rshift_spec 8 k1 Hk1) as [Hk2 E2]. cbv zeta. rewrite E2.
    rewrite (land_3 7) in * by done. pose proof (Z.div_mod (wval k) 4 ltac:(lia)) as Hd.
    assert (Hs : is_digit (wval k mod 4) /\ exists q, wval k1 = 4 * q).
    { destruct (odd_mod_4 _ Ho) as [E|E]; rewrite E in *; (split; [unfold is_digit; lia|]);
        [exists (wval k / 4)|exists (wval k / 4 + 1)]; cbn [signed Z.eqb Pos.eqb] in E1; lia. }
    destruct Hs as [Hs [q Eq]]. split; [done|]. split; [done|].
    replace (wval k1 / 2) with (2 * q) by (rewrite Eq; replace (4 * q) with (2 * q * 2) by lia; by rewrite Z.div_mul).
    split; [lia|]. split; [intros _; by rewrite Z.even_mul|]. intros He. rewrite <- Z.negb_odd, Ho in He. done.
  - exists 0, k. split; [done|]. destruct (rshift_spec 8 k Hk) as [Hk2 E2]. cbv zeta. rewrite E2.
    split; [done|]. split; [by left|]. rewrite <- Z.negb_even in Ho. apply negb_false_iff in Ho as He.
    apply Z.even_spec in He as [q ->]. rewrite (Z.mul_comm 2 q), Z.div_mul by lia. change (signed 0) with 0.
    split; [lia|]. split; [done|]. done.
Qed.

Lemma naf_bound N k k2 s : is_digit s -> k = signed s + 2 * k2 -> (s <> 0 -> Z.even k2 = true) -> k <= 2 ^ Z.of_nat N ->
  2 * k2 <= 2 ^ Z.of_nat N.
Proof.
  intros Hs Ek He Hk. destruct Hs as [->|[->| ->]]; [change (signed 0) with 0 in Ek; lia|change (signed 1) with 1 in Ek; lia|].
  change (signed 3) with (-1) in Ek. specialize (He ltac:(done)). apply Z.even_spec in He as [q ->].
  destruct N as [|N]; [change (2 ^ Z.of_nat 0) with 1 in *; lia|].
  rewrite Nat2Z.inj_succ, Z.pow_succ_r in * by lia. lia.
Qed.

Lemma naf_loop_spec fuel N naf i k : words 8 k -> wval k < 2 ^ 256 - 1 -> 2 * wval k <= 2 ^ Z.of_nat N ->
  (N < fuel)%nat -> (i + N < 260)%nat -> length naf = 65%nat -> (forall j, (i <= j)%nat -> naf_digit naf j = 0) ->
  exists naf' m k0, naf_loop fuel naf (Z.of_nat i) k = Ok (naf', Z.of_nat (i + m), k0) /\
    words 8 k0 /\ wval k0 = 0 /\ (m <= N)%nat /\ length naf' = 65%nat /\
    (forall j, (j < i)%nat -> naf_digit naf' j = naf_digit naf j) /\
    naf_value naf' i m = wval k /\ naf_from naf' i /\ (Z.even (wval k) = true -> naf_digit naf' i = 0).
Proof.
  revert N naf i k. induction fuel as [|fuel IH]; intros N naf i k Hk Hlt HN Hf Hi Hl Hz; [lia|]. cbn [naf_loop].
  rewrite most_signbits_zero by done. destruct (Z.eqb_spec (wval k) 0) as [E0|Hne].
  { exists naf, 0%nat, k. rewrite Nat.add_0_r. split; [done|]. split; [done|]. split; [done|]. split; [lia|]. split; [done|].
    split; [done|]. split; [done|]. split; [|intros _; apply Hz; lia].
    intros j Hj. rewrite !Hz by lia. split; [by left|done]. }
  pose proof (words_bound 8 _ Hk). destruct (naf_turn k Hk Hlt Hne) as (sign & k1 & -> & Hk2 & Hs & Ev & Hev & Hev').
  cbn [mbind outcome_bind]. set (k2 := multiprecision_rshift k1) in *. cbv zeta in *.
  destruct N as [|N]; [change (2 ^ Z.of_nat 0) with 1 in HN; lia|].
  replace (Z.of_nat i `div` 4) with (Z.of_nat (i / 4)) by (change 4 with (Z.of_nat 4); by rewrite Nat2Z.inj_div).
  assert (Hd : (i / 4 < length naf)%nat) by (apply Nat.Div0.div_lt_upper_bound; lia).
  rewrite rd_nth by done. cbn [mbind outcome_bind]. rewrite wr_one by lia. cbn [mbind outcome_bind]. rewrite Nat2Z.id.
  replace (Z.of_nat i + 1) with (Z.of_nat (S i)) by lia.
  pose proof (fun j => naf_digit_write naf i j sign ltac:(lia) Hs) as Hw. set (naf1 := <[(i / 4)%nat := _]> naf) in *.
  assert (Hs2 : -1 <= signed sign <= 1) by (destruct Hs as [->|[->| ->]]; cbn; lia).
  pose proof (words_bound 8 _ Hk2) as Hb2.
  destruct (IH N naf1 (S i) k2) as (naf' & m & k0 & -> & Hk0 & E0 & Hm & Hl' & Hlow & Hv & Hfrom & Hev2).
  - done.
  - lia.
  - rewrite Nat2Z.inj_succ, Z.pow_succ_r in HN by lia. apply (naf_bound N (wval k) (wval k2) sign); [done|done|done|lia].
  - lia.
  - lia.
  - unfold naf1. by rewrite length_insert.
  - intros j Hj. rewrite Hw. destruct (Nat.eqb_spec i j); [lia|]. rewrite Hz by lia. done.
  - assert (Hi' : naf_digit naf' i = sign) by (rewrite Hlow, Hw, Nat.eqb_refl, Hz by lia; done).
    exists naf', (S m), k0. replace (i + S m)%nat with (S i + m)%nat by lia. split; [done|]. split; [done|]. split; [done|].
    split; [lia|]. split; [done|]. split; [|split; [|split]].
    + intros j Hj. rewrite Hlow, Hw by lia. destruct (Nat.eqb_spec i j); [lia|]. by rewrite Z.lor_0_r.
    + cbn [naf_value]. rewrite Hi', Hv. done.
    + intros j Hj. destruct (decide (j = i)) as [->|]; [|apply Hfrom; lia]. rewrite Hi'. split; [done|].
      intros Hn. by apply Hev2, Hev.
    + rewrite Hi'. done.
Qed.

Lemma naf_zero j : naf_digit (replicate 65 0) j = 0.
Proof.
  unfold naf_digit. replace (replicate 65 0).[j / 4] with 0; [by rewrite Z.shiftr_0_l|].
  generalize (j / 4)%nat. intros n. do 66 (destruct n as [|n]; [reflexivity|]). reflexivity.
Qed.

Lemma ECC_NAF_spec k : words 8 k -> wval k < 2 ^ 256 - 1 ->
  exists naf n k0, ECC_NAF (replicate 65 0) k = Ok (naf, Z.of_nat n, k0) /\ wval k0 = 0 /\ (n <= 257)%nat /\
    length naf = 65%nat /\ naf_value naf 0 n = wval k /\ naf_from naf 0.
Proof.
  intros Hk Hlt. destruct (naf_loop_spec 258 257 (replicate 65 0) 0 k) as (naf & m & k0 & E & Hk0 & E0 & Hm & Hl & _ & Hv & Hf & _);
    [done|done| |lia|lia|done|intros; apply naf_zero|].
  - change (Z.of_nat 257) with 257. lia.
  - exists naf, m, k0. done.
Qed.
