(* ===== verification/P256Ecc.v ===== *)
(** * P256Ecc: points

    Doubling and addition in Jacobian coordinates against the tangent and the chord,
    and the test whether a point is on the curve. *)

From Stdlib Require Import ZArith Lia Setoid Morphisms.
From stdpp Require Import base list.
From S2P Require Import Prelude Aes P256 P256Words P256Mod P256Inv P256Naf.

Open Scope aes_scope.

(** A product that the reduction handles, and its numbers. *)
Definition mul_ok (ab : list Z * list Z) : bool := reducible (multiprecision_mult (replicate 16 0) ab.1 ab.2).

(** The operands of the multiplications of [ECC_Double], in order. *)
Definition double_products (modp : list Z) (p : Point) : list (list Z * list Z) :=
  let '(mk_Point x1 y1 z1) := p in
  let zz := multiprecision_mersenns_squa_mod modp z1 in
  let xm := multiprecision_sub_mod modp x1 zz in
  let xp := multiprecision_add_mod modp x1 zz in
  let m := multiprecision_mersenns_mult_mod modp xp xm in
  let m3 := multiprecision_add_mod modp (multiprecision_lshift_mod modp m) m in
  let yy2 := multiprecision_lshift_mod modp (multiprecision_mersenns_squa_mod modp y1) in
  let s := multiprecision_lshift_mod modp (multiprecision_mersenns_mult_mod modp yy2 x1) in
  let x3 := multiprecision_sub_mod modp (multiprecision_mersenns_squa_mod modp m3) (multiprecision_lshift_mod modp s) in
  [(z1, z1); (xp, xm); (y1, z1); (y1, y1); (yy2, x1); (yy2, yy2); (m3, m3); (multiprecision_sub_mod modp s x3, m3)].

(** The differences [ECC_Add] compares to zero, the operands of its multiplications up to that
    comparison, and those after it. *)
Definition add_h (modp : list Z) (p q : Point) : list Z :=
  multiprecision_sub_mod modp
    (multiprecision_mersenns_mult_mod modp (pt_x q) (multiprecision_mersenns_squa_mod modp (pt_z p))) (pt_x p).

Definition add_r (modp : list Z) (p q : Point) : list Z :=
  multiprecision_sub_mod modp
    (multiprecision_mersenns_mult_mod modp (pt_y q)
       (multiprecision_mersenns_mult_mod modp (pt_z p) (multiprecision_mersenns_squa_mod modp (pt_z p)))) (pt_y p).

Definition add_products (modp : list Z) (p q : Point) : list (list Z * list Z) :=
  let zz := multiprecision_mersenns_squa_mod modp (pt_z p) in
  [(pt_z p, pt_z p); (pt_z p, zz); (pt_x q, zz); (pt_y q, multiprecision_mersenns_mult_mod modp (pt_z p) zz)].

Definition add_products_rest (modp : list Z) (p q : Point) : list (list Z * list Z) :=
  let h := add_h modp p q in
  let r := add_r modp p q in
  let hh := multiprecision_mersenns_squa_mod modp h in
  let hhh := multiprecision_mersenns_mult_mod modp hh h in
  let xh := multiprecision_mersenns_mult_mod modp hh (pt_x p) in
  let x3 := multiprecision_sub_mod modp
    (multiprecision_sub_mod modp (multiprecision_mersenns_squa_mod modp r) (multiprecision_lshift_mod modp xh)) hhh in
  [(pt_z p, h); (h, h); (hh, h); (hh, pt_x p); (r, r); (multiprecision_sub_mod modp xh x3, r); (hhh, pt_y p)].

(** The point [ECC_Add] computes when the two differ and neither is at infinity. *)
Definition add_general (modp : list Z) (p q : Point) : Point :=
  let h := add_h modp p q in
  let r := add_r modp p q in
  let hh := multiprecision_mersenns_squa_mod modp h in
  let hhh := multiprecision_mersenns_mult_mod modp hh h in
  let xh := multiprecision_mersenns_mult_mod modp hh (pt_x p) in
  let x3 := multiprecision_sub_mod modp
    (multiprecision_sub_mod modp (multiprecision_mersenns_squa_mod modp r) (multiprecision_lshift_mod modp xh)) hhh in
  mk_Point x3
    (multiprecision_sub_mod modp
       (multiprecision_mersenns_mult_mod modp (multiprecision_sub_mod modp xh x3) r)
       (multiprecision_mersenns_mult_mod modp hhh (pt_y p)))
    (multiprecision_mersenns_mult_mod modp (pt_z p) h).

(** The modulus [p_256_init_curve] stores, and the operands of the multiplications of [ECC_ValidatePoint]. *)
Definition validate_modp : list Z := [0xFFFFFFFF; 0xFFFFFFFF; 0xFFFFFFFF; 0; 0; 0; 1; 0xFFFFFFFF].

Definition validate_products (pt : Point) : list (list Z * list Z) :=
  let rhs := multiprecision_sub_mod validate_modp (multiprecision_mersenns_squa_mod validate_modp (pt_x pt))
               (<[0%nat := 3]> multiprecision_init) in
  [(pt_y pt, pt_y pt); (pt_x pt, pt_x pt); (rhs, pt_x pt)].

(** A point with reduced coordinates, and what it stands for: the affine point [(x, y)]. *)
Definition field_point (p : Point) : Prop := field_elem (pt_x p) /\ field_elem (pt_y p) /\ field_elem (pt_z p).

Definition represents (p : Point) (x y : Z) : Prop :=
  cong (wval (pt_x p)) (x * wval (pt_z p) ^ 2) /\ cong (wval (pt_y p)) (y * wval (pt_z p) ^ 3).

(** The array [a] is reduced and stands for the residue of [x]. *)
Definition stands (a : list Z) (x : Z) : Prop := field_elem a /\ cong (wval a) x.

(** The curve y^2 = x^3 - 3 x + b. *)
Definition curve_b : Z := 0x5ac635d8aa3a93e7b3ebbd55769886bc651d06b0cc53b0f63bce3c3e27d2604b.
Definition on_curve (x y : Z) : Prop := cong (y ^ 2) (x ^ 3 - 3 * x + curve_b).

(** * Lemmas *)

#[global] Instance cong_equiv : Equivalence cong.
Proof.
  split.
  - intros x. exists 0. lia.
  - intros x y [k Hk]. exists (- k). lia.
  - intros x y z. apply cong_trans.
Qed.

#[global] Instance cong_add_proper : Proper (cong ==> cong ==> cong) Z.add.
Proof. intros x x' [k Hk] y y' [j Hj]. exists (k + j). lia. Qed.

#[global] Instance cong_sub_proper : Proper (cong ==> cong ==> cong) Z.sub.
Proof. intros x x' [k Hk] y y' [j Hj]. exists (k - j). lia. Qed.

#[global] Instance cong_mul_proper : Proper (cong ==> cong ==> cong) Z.mul.
Proof. intros x x' [k Hk] y y' [j Hj]. exists (k * y + j * x'). nia. Qed.

Lemma cong_of_mod a b : a = b mod p256 -> cong a b.
Proof. intros ->. rewrite cong_mod. by rewrite Zmod_mod. Qed.

Lemma cong_zero a : 0 <= a < p256 -> (a =? 0) = true <-> cong a 0.
Proof.
  intros Ha. rewrite cong_mod, Z.eqb_eq, Zmod_0_l. split; [by intros ->|]. intros E. by rewrite Z.mod_small in E.
Qed.

Lemma stands_eq a x y : stands a x -> x = y -> stands a y.
Proof. by intros ? <-. Qed.

Lemma stands_self a : field_elem a -> stands a (wval a).
Proof. intros Ha. by split. Qed.

Ltac split_products H :=
  cbn [forallb] in H; repeat match type of H with _ && _ = true => apply andb_true_iff in H as [? H] end; clear H.

Section Modulus.
Context (modp : list Z) (Hp : words 8 modp) (Ep : wval modp = p256).

(** Each operation on arrays that stand for residues. *)
Lemma words_mul a b : words 8 a -> words 8 b -> mul_ok (a, b) = true ->
  stands (multiprecision_mersenns_mult_mod modp a b) (wval a * wval b).
Proof. intros Ha Hb Hr. split; [by apply mult_mod_field|]. by apply cong_of_mod, mult_mod_spec. Qed.

Lemma words_squ a : words 8 a -> mul_ok (a, a) = true ->
  stands (multiprecision_mersenns_squa_mod modp a) (wval a * wval a).
Proof. intros Ha. by apply words_mul. Qed.

Lemma stands_mul a b x y : stands a x -> stands b y -> mul_ok (a, b) = true ->
  stands (multiprecision_mersenns_mult_mod modp a b) (x * y).
Proof.
  intros [Fa Ca] [Fb Cb] Hr. destruct (words_mul a b) as [F C]; [apply Fa|apply Fb|done|].
  split; [done|]. by rewrite <- Ca, <- Cb.
Qed.

Lemma stands_squ a x : stands a x -> mul_ok (a, a) = true -> stands (multiprecision_mersenns_squa_mod modp a) (x * x).
Proof. intros Ha. by apply stands_mul. Qed.

Lemma stands_add a b x y : stands a x -> stands b y -> stands (multiprecision_add_mod modp a b) (x + y).
Proof.
  intros [Fa Ca] [Fb Cb]. split; [by apply add_mod_spec|]. rewrite <- Ca, <- Cb. by apply cong_of_mod, add_mod_spec.
Qed.

Lemma stands_sub a b x y : stands a x -> stands b y -> stands (multiprecision_sub_mod modp a b) (x - y).
Proof.
  intros [Fa Ca] [Fb Cb]. split; [by apply sub_mod_spec|]. rewrite <- Ca, <- Cb. by apply cong_of_mod, sub_mod_spec.
Qed.

Lemma stands_dbl a x : stands a x -> stands (multiprecision_lshift_mod modp a) (2 * x).
Proof. intros [Fa Ca]. split; [by apply lshift_mod_spec|]. rewrite <- Ca. by apply cong_of_mod, lshift_mod_spec. Qed.

(** Names the array [e] and finds out what it stands for. *)
Ltac name v e :=
  let S := fresh "S" v in
  eassert (S : stands e _)
    by first [eapply stands_mul; [eassumption|eassumption|assumption] | eapply stands_squ; [eassumption|assumption]
             | eapply stands_add; eassumption | eapply stands_sub; eassumption | eapply stands_dbl; eassumption];
  set (v := e) in *; clearbody v.

Lemma double_formula q x1 y1 z1 X Y Z1 : stands x1 X -> stands y1 Y -> stands z1 Z1 -> wval z1 <> 0 ->
  forallb mul_ok (double_products modp (mk_Point x1 y1 z1)) = true ->
  let M := 3 * ((X - Z1 * Z1) * (X + Z1 * Z1)) in let S := 4 * X * (Y * Y) in
  exists x3 y3 z3, ECC_Double modp q (mk_Point x1 y1 z1) = mk_Point x3 y3 z3 /\
    stands z3 (2 * (Y * Z1)) /\ stands x3 (M * M - 2 * S) /\ stands y3 ((S - (M * M - 2 * S)) * M - 8 * (Y * Y) * (Y * Y)).
Proof.
  intros Hx Hy Hz Hne Hok M S. unfold ECC_Double. cbn [pt_z]. rewrite nz_iszero by apply Hz.
  destruct (Z.eqb_spec (wval z1) 0) as [|_]; [done|]. unfold double_products in Hok. split_products Hok. cbv zeta.
  name zz (multiprecision_mersenns_squa_mod modp z1). name xm (multiprecision_sub_mod modp x1 zz).
  name xp (multiprecision_add_mod modp x1 zz). name m (multiprecision_mersenns_mult_mod modp xp xm).
  name m2 (multiprecision_lshift_mod modp m). name m3 (multiprecision_add_mod modp m2 m).
  name yz (multiprecision_mersenns_mult_mod modp y1 z1). name z3 (multiprecision_lshift_mod modp yz).
  name yy (multiprecision_mersenns_squa_mod modp y1). name yy2 (multiprecision_lshift_mod modp yy).
  name xyy (multiprecision_mersenns_mult_mod modp yy2 x1). name s (multiprecision_lshift_mod modp xyy).
  name y4 (multiprecision_mersenns_squa_mod modp yy2). name y8 (multiprecision_lshift_mod modp y4).
  name mm (multiprecision_mersenns_squa_mod modp m3). name s2 (multiprecision_lshift_mod modp s).
  name x3 (multiprecision_sub_mod modp mm s2). name sx (multiprecision_sub_mod modp s x3).
  name sm (multiprecision_mersenns_mult_mod modp sx m3). name y3 (multiprecision_sub_mod modp sm y8).
  exists x3, y3, z3. split; [done|]. split; [exact Sz3|].
  split; [eapply stands_eq; [exact Sx3|]|eapply stands_eq; [exact Sy3|]]; unfold M, S; ring.
Qed.

Lemma add_differences p q X1 Y1 Z1 X2 Y2 :
  stands (pt_x p) X1 -> stands (pt_y p) Y1 -> stands (pt_z p) Z1 -> stands (pt_x q) X2 -> stands (pt_y q) Y2 ->
  forallb mul_ok (add_products modp p q) = true ->
  stands (add_h modp p q) (X2 * (Z1 * Z1) - X1) /\ stands (add_r modp p q) (Y2 * (Z1 * (Z1 * Z1)) - Y1).
Proof.
  intros Hx1 Hy1 Hz1 Hx2 Hy2 Hok. unfold add_products in Hok. split_products Hok. unfold add_h, add_r.
  destruct p as [x1 y1 z1], q as [x2 y2 z2]. cbn [pt_x pt_y pt_z] in *.
  name zz (multiprecision_mersenns_squa_mod modp z1). name zzz (multiprecision_mersenns_mult_mod modp z1 zz).
  name u (multiprecision_mersenns_mult_mod modp x2 zz). name v (multiprecision_mersenns_mult_mod modp y2 zzz).
  split; by apply stands_sub.
Qed.

Lemma ECC_Add_cases s p q : Forall is_u32 (pt_z p) -> Forall is_u32 (pt_z q) ->
  Forall is_u32 (add_h modp p q) -> Forall is_u32 (add_r modp p q) ->
  (ECC_Add modp s p q).1 =
    if wval (pt_z q) =? 0 then p else if wval (pt_z p) =? 0 then q else
    if wval (add_h modp p q) =? 0 then
      if wval (add_r modp p q) =? 0 then ECC_Double modp s q else mk_Point (pt_x s) (pt_y s) multiprecision_init
    else add_general modp p q.
Proof.
  intros H1 H2 H3 H4. rewrite <- !nz_iszero by done. destruct p as [x1 y1 z1], q as [x2 y2 z2].
  unfold ECC_Add, add_general, add_h, add_r. cbv zeta. cbn [pt_x pt_y pt_z].
  by repeat match goal with |- context [if ?b then _ else _] => destruct b end.
Qed.

Lemma add_formula p q X1 Y1 Z1 H R :
  stands (pt_x p) X1 -> stands (pt_y p) Y1 -> stands (pt_z p) Z1 -> stands (add_h modp p q) H -> stands (add_r modp p q) R ->
  forallb mul_ok (add_products_rest modp p q) = true ->
  let X3 := R * R - 2 * (H * H * X1) - H * H * H in
  exists x3 y3 z3, add_general modp p q = mk_Point x3 y3 z3 /\
    stands z3 (Z1 * H) /\ stands x3 X3 /\ stands y3 ((H * H * X1 - X3) * R - H * H * H * Y1).
Proof.
  intros Hx Hy Hz SH SR Hok X3. unfold add_general. unfold add_products_rest in Hok. split_products Hok. cbv zeta.
  destruct p as [x1 y1 z1]. cbn [pt_x pt_y pt_z] in *.
  set (h := add_h _ _ _) in *. set (r := add_r _ _ _) in *. clearbody h r.
  name z3 (multiprecision_mersenns_mult_mod modp z1 h). name hh (multiprecision_mersenns_squa_mod modp h).
  name hhh (multiprecision_mersenns_mult_mod modp hh h). name xh (multiprecision_mersenns_mult_mod modp hh x1).
  name xh2 (multiprecision_lshift_mod modp xh). name rr (multiprecision_mersenns_squa_mod modp r).
  name d (multiprecision_sub_mod modp rr xh2). name x3 (multiprecision_sub_mod modp d hhh).
  name e (multiprecision_sub_mod modp xh x3). name er (multiprecision_mersenns_mult_mod modp e r).
  name yh (multiprecision_mersenns_mult_mod modp hhh y1). name y3 (multiprecision_sub_mod modp er yh).
  by exists x3, y3, z3.
Qed.

End Modulus.

(** Two reduced arrays are equal when they stand for the same residue. *)
Lemma stands_compare a b x y : stands a x -> stands b y -> (multiprecision_compare a b =? 0) = true <-> cong x y.
Proof.
  intros [[Wa Ba] Ca] [[Wb Bb] Cb]. rewrite <- Ca, <- Cb, cong_mod.
  pose proof (words_bound 8 a Wa). pose proof (words_bound 8 b Wb).
  rewrite !Z.mod_small, compare_spec, Z.eqb_eq, Z.sgn_null_iff by (done || lia). lia.
Qed.

Lemma small_field n : 0 <= n < 2 ^ 32 -> field_elem (<[0%nat := n]> multiprecision_init) /\ wval (<[0%nat := n]> multiprecision_init) = n.
Proof.
  intros Hn. assert (E : wval (<[0%nat := n]> multiprecision_init) = n) by (cbn -[Z.mul]; lia).
  split; [|done]. split; [|rewrite E; unfold p256; lia]. apply words_insert; [apply init_spec|done].
Qed.

Lemma validate_spec pt ec : words 8 (pt_x pt) -> words 8 (pt_y pt) -> forallb mul_ok (validate_products pt) = true ->
  (ECC_ValidatePoint pt ec).1 = true <-> on_curve (wval (pt_x pt)) (wval (pt_y pt)).
Proof.
  intros Hx Hy Hok. destruct (modp_spec ec) as [Hp Ep]. unfold validate_products in Hok.
  change validate_modp with (ec_p (p_256_init_curve ec)) in Hok. split_products Hok. unfold ECC_ValidatePoint. cbv zeta. cbn [fst].
  set (modp := ec_p (p_256_init_curve ec)) in *. clearbody modp.
  destruct (small_field 3) as [F3 E3]; [done|]. pose proof (stands_self _ F3) as S3. rewrite E3 in S3.
  pose proof (words_squ modp Hp Ep _ Hy H) as Sy. pose proof (words_squ modp Hp Ep _ Hx H0) as Sx.
  pose proof (stands_sub modp Hp Ep _ _ _ _ Sx S3) as Sd.
  pose proof (words_mul modp Hp Ep _ _ (proj1 (proj1 Sd)) Hx H1) as Sm.
  assert (Sb : stands (ec_b (p_256_init_curve ec)) curve_b) by (split; [split; [|done]|done]; split; [done|]; repeat constructor; done).
  pose proof (stands_add modp Hp Ep _ _ _ _ Sm Sb) as Sr.
  rewrite (stands_compare _ _ _ _ Sr Sy), (proj2 Sd). unfold on_curve.
  set (x := wval (pt_x pt)). set (y := wval (pt_y pt)).
  replace ((x * x - 3) * x + curve_b) with (x ^ 3 - 3 * x + curve_b) by ring. replace (y * y) with (y ^ 2) by ring.
  split; by symmetry.
Qed.
