(* ===== verification/P256Group.v ===== *)
(** * P256Group: the points of the curve and scalar multiplication

    The chord and tangent law on affine points as relations, and the simulation that
    [ECC_Double], [ECC_Add] and the digits of [ECC_PointMult_Bin_NAF] follow it. *)

From Stdlib Require Import ZArith Lia Setoid Morphisms.
From stdpp Require Import base list.
From S2P Require Import Prelude Aes P256 P256Words P256Mod P256Inv P256Naf P256Ecc.

Open Scope aes_scope.

(** ** The law *)

(** An affine point, or the point at infinity. *)
Definition affine : Type := option (Z * Z).

Definition is_unit (a : Z) : Prop := exists i, cong (i * a) 1.

(** The tangent with slope [l]. *)
Inductive aff_double : affine -> affine -> Prop :=
| double_infinity : aff_double None None
| double_vertical x y : cong (2 * y) 0 -> aff_double (Some (x, y)) None
| double_tangent x y l x3 y3 :
    is_unit (2 * y) -> cong (2 * y * l) (3 * x ^ 2 - 3) -> cong x3 (l ^ 2 - 2 * x) -> cong y3 (l * (x - x3) - y) ->
    aff_double (Some (x, y)) (Some (x3, y3)).

(** The chord with slope [l]. *)
Inductive aff_add : affine -> Z * Z -> affine -> Prop :=
| add_infinity q : aff_add None q (Some q)
| add_equal x y x2 y2 r : cong x x2 -> cong y y2 -> aff_double (Some (x2, y2)) r -> aff_add (Some (x, y)) (x2, y2) r
| add_vertical x y x2 y2 : cong x x2 -> ~ cong y y2 -> aff_add (Some (x, y)) (x2, y2) None
| add_chord x y x2 y2 l x3 y3 :
    is_unit (x2 - x) -> cong (l * (x2 - x)) (y2 - y) -> cong x3 (l ^ 2 - x - x2) -> cong y3 (l * (x - x3) - y) ->
    aff_add (Some (x, y)) (x2, y2) (Some (x3, y3)).

(** [times p k r]: doublings and additions of [p] and [- p] that lead from infinity to [r],
    and whose multiple of [p] is [k]. *)
Inductive times (p : Z * Z) : Z -> affine -> Prop :=
| times_zero : times p 0 None
| times_double k q r : times p k q -> aff_double q r -> times p (2 * k) r
| times_add k q r : times p k q -> aff_add q p r -> times p (k + 1) r
| times_sub k q r : times p k q -> aff_add q (p.1, - p.2) r -> times p (k - 1) r.

(** A point in Jacobian coordinates and the affine point it stands for. *)
Definition repr (p : Point) (P : affine) : Prop :=
  field_point p /\
  match P with
  | None => wval (pt_z p) = 0
  | Some (x, y) => is_unit (wval (pt_z p)) /\ represents p x y
  end.

(** ** Runs whose products the reduction handles *)

Definition unit_or_zero (a : list Z) : bool := (wval a =? 0) || (Z.gcd (wval a) p256 =? 1).

Section Modulus.
Context (modp : list Z).

Definition safe_double (p : Point) : bool :=
  (wval (pt_z p) =? 0) || (forallb mul_ok (double_products modp p) && unit_or_zero (pt_z (ECC_Double modp p p))).

Definition safe_add (p q : Point) : bool :=
  (wval (pt_z p) =? 0) ||
  (forallb mul_ok (add_products modp p q) &&
   (if wval (add_h modp p q) =? 0 then (if wval (add_r modp p q) =? 0 then safe_double q else true)
    else forallb mul_ok (add_products_rest modp p q) && (Z.gcd (wval (pt_z (add_general modp p q))) p256 =? 1))).

(** The turns of the loop of [ECC_PointMult_Bin_NAF]. *)
Fixpoint safe_digits (n : nat) (naf : list Z) (p minus_p q : Point) : bool :=
  match n with
  | O => true
  | S i =>
      let q' := ECC_Double modp q q in
      let sign := naf_digit naf i in
      safe_double q &&
      (if sign =? 1 then safe_add q' p && safe_digits i naf p minus_p (ECC_Add modp q' q' p).1
       else if sign =? 3 then safe_add q' minus_p && safe_digits i naf p minus_p (ECC_Add modp q' q' minus_p).1
       else safe_digits i naf p minus_p q')
  end.

(** The return to affine coordinates. *)
Definition affine_products (q : Point) (x : list Z) : list (list Z * list Z) :=
  let z := multiprecision_mersenns_squa_mod modp x in
  let z3 := multiprecision_mersenns_mult_mod modp z x in
  [(x, x); (pt_x q, z); (z, x); (pt_y q, z3)].

Definition safe_mult (p : Point) (n : list Z) : bool :=
  let p := mk_Point (pt_x p) (pt_y p) one in
  let minus_p := mk_Point (pt_x p) (multiprecision_sub modp (pt_y p)).1 one in
  match ECC_NAF (replicate 65 0) n with
  | Ok (naf, NumNaf, _) =>
      safe_digits (Z.to_nat NumNaf) naf p minus_p p_256_init_point &&
      match mult_digits modp (Z.to_nat NumNaf) naf p minus_p p_256_init_point with
      | Ok q =>
          match multiprecision_inv_mod modp (pt_z q) with
          | Ok (x, _) => (wval (pt_z q) =? 0) || forallb mul_ok (affine_products q x)
          | Crash _ => false
          end
      | Crash _ => false
      end
  | Crash _ => false
  end.

End Modulus.

(** * Lemmas *)

(** ** Units *)

Lemma cong_eq a b : a = b -> cong a b.
Proof. by intros ->. Qed.

Lemma unit_gcd a : is_unit a <-> Z.gcd a p256 = 1.
Proof.
  split.
  - intros [i [k Hk]]. apply Z.bezout_1_gcd. exists i, (- k). lia.
  - intros E. destruct (Z.gcd_bezout a p256 1 E) as (i & k & H). exists i, (- k). lia.
Qed.

Lemma unit_cong a b : cong a b -> is_unit a -> is_unit b.
Proof. intros E [i Hi]. exists i. by rewrite <- E. Qed.

Lemma unit_mul a b : is_unit (a * b) -> is_unit a.
Proof. intros [i Hi]. exists (i * b). by replace (i * b * a) with (i * (a * b)) by ring. Qed.

Lemma unit_nonzero a : is_unit a -> ~ cong a 0.
Proof. intros [i Hi] E. rewrite E, Z.mul_0_r in Hi. apply cong_mod in Hi. done. Qed.

Lemma unit_quot a m : is_unit a -> exists l, cong (l * a) m.
Proof. intros [i Hi]. exists (m * i). by rewrite <- Z.mul_assoc, Hi, Z.mul_1_r. Qed.

Lemma cong_cancel z a b : is_unit z -> cong (a * z) (b * z) -> cong a b.
Proof.
  intros [i Hi] E. rewrite <- (Z.mul_1_r a), <- (Z.mul_1_r b), <- Hi.
  replace (a * (i * z)) with (a * z * i) by ring. replace (b * (i * z)) with (b * z * i) by ring. by rewrite E.
Qed.

Lemma unit_or_zero_spec a : unit_or_zero a = true -> wval a = 0 \/ is_unit (wval a).
Proof. unfold unit_or_zero. rewrite orb_true_iff, !Z.eqb_eq, unit_gcd. done. Qed.

(** ** Doubling and addition *)

Section Simulation.
Context (modp : list Z) (Hp : words 8 modp) (Ep : wval modp = p256).

Lemma repr_infinity q : field_point q -> repr (mk_Point (pt_x q) (pt_y q) multiprecision_init) None.
Proof. intros (? & ? & _). split; [|apply init_spec]. split; [done|]. split; [done|]. by split; [apply init_spec|]. Qed.

Lemma double_tangent_slope x y z M Z3 l :
  is_unit z -> M = 3 * ((x * z ^ 2 - z * z) * (x * z ^ 2 + z * z)) -> cong Z3 (2 * (y * z ^ 3 * z)) -> cong (l * Z3) M ->
  cong (2 * y * l) (3 * x ^ 2 - 3).
Proof.
  intros Hz -> E3 El. do 4 apply (cong_cancel z _ _ Hz). rewrite E3 in El.
  etransitivity; [|etransitivity; [exact El|]]; apply cong_eq; ring.
Qed.

Lemma double_algebra x y z Z3 M l : cong Z3 (2 * (y * z ^ 3 * z)) -> cong (l * Z3) M ->
  let S := 4 * (x * z ^ 2) * (y * z ^ 3 * (y * z ^ 3)) in let x3 := l ^ 2 - 2 * x in
  cong (M * M - 2 * S) (x3 * Z3 ^ 2) /\
  cong ((S - (M * M - 2 * S)) * M - 8 * (y * z ^ 3 * (y * z ^ 3)) * (y * z ^ 3 * (y * z ^ 3))) ((l * (x - x3) - y) * Z3 ^ 3).
Proof.
  intros E3 El S x3.
  assert (ES : cong S (x * (Z3 * Z3))) by (rewrite E3; apply cong_eq; unfold S; ring).
  assert (EX : cong (M * M - 2 * S) (x3 * Z3 ^ 2)) by (rewrite <- El, ES; apply cong_eq; unfold x3; ring).
  split; [done|].
  transitivity ((x * (Z3 * Z3) - x3 * Z3 ^ 2) * (l * Z3) - y * (Z3 * Z3 * Z3)); [|apply cong_eq; ring].
  rewrite El, EX, <- ES. f_equiv. rewrite E3. apply cong_eq. ring.
Qed.

Lemma double_z q q' p : pt_z (ECC_Double modp q p) = pt_z (ECC_Double modp q' p).
Proof. destruct p as [x y z]. unfold ECC_Double. by destruct (nz _). Qed.

Lemma double_repr q p P : field_point q -> repr p P -> safe_double modp p = true ->
  exists R, aff_double P R /\ repr (ECC_Double modp q p) R.
Proof.
  intros Hq [(Fx & Fy & Fz) HP] Hs. destruct p as [x1 y1 z1]. cbn [pt_x pt_y pt_z] in *.
  destruct P as [[x y]|].
  - destruct HP as [Uz [Ex Ey]]. cbn [pt_x pt_y pt_z] in *.
    assert (Hne : wval z1 <> 0) by (intros E; apply (unit_nonzero _ Uz); by rewrite E).
    unfold safe_double in Hs. cbn [pt_z] in Hs. destruct (Z.eqb_spec (wval z1) 0) as [|_]; [done|].
    apply andb_true_iff in Hs as [Hok Hu]. rewrite (double_z _ q) in Hu.
    destruct (double_formula modp Hp Ep q x1 y1 z1 _ _ _ (conj Fx Ex) (conj Fy Ey) (stands_self z1 Fz) Hne Hok)
      as (x3 & y3 & z3 & E & [F3 C3] & [Fx3 Cx3] & [Fy3 Cy3]).
    rewrite E in Hu |- *. cbn [pt_z] in Hu. apply unit_or_zero_spec in Hu as [E0|U3].
    + exists None. split; [|by split; [|exact E0]]. apply double_vertical. rewrite E0 in C3.
      do 4 apply (cong_cancel _ _ _ Uz). etransitivity; [|etransitivity; [symmetry; exact C3|]]; apply cong_eq; ring.
    + destruct (unit_quot _ (3 * ((x * wval z1 ^ 2 - wval z1 * wval z1) * (x * wval z1 ^ 2 + wval z1 * wval z1))) U3) as [l Hl].
      destruct (double_algebra x y (wval z1) _ _ l C3 Hl) as [A1 A2].
      exists (Some (l ^ 2 - 2 * x, l * (x - (l ^ 2 - 2 * x)) - y)). split.
      * apply (double_tangent x y l); [|exact (double_tangent_slope x y _ _ _ l Uz eq_refl C3 Hl)|done|done].
        apply (unit_mul _ (wval z1 ^ 4)). apply (unit_cong (wval z3)); [|done]. rewrite C3. apply cong_eq. ring.
      * split; [done|]. split; [done|]. split; cbn [pt_x pt_y pt_z]; [by rewrite Cx3|by rewrite Cy3].
  - exists None. split; [apply double_infinity|]. unfold ECC_Double. cbn [pt_z]. rewrite nz_iszero by apply Fz.
    rewrite HP. by apply repr_infinity.
Qed.

Lemma add_algebra x y x2 z H R Z3 l :
  cong H (x2 * (z * z) - x * z ^ 2) -> cong Z3 (z * H) -> cong (l * Z3) R ->
  let X3 := R * R - 2 * (H * H * (x * z ^ 2)) - H * H * H in let x3 := l ^ 2 - x - x2 in
  cong X3 (x3 * Z3 ^ 2) /\
  cong ((H * H * (x * z ^ 2) - X3) * R - H * H * H * (y * z ^ 3)) ((l * (x - x3) - y) * Z3 ^ 3).
Proof.
  intros EH E3 El X3 x3.
  assert (EX : cong X3 (x3 * Z3 ^ 2)).
  { transitivity (R * R - 2 * (H * H * (x * z ^ 2)) - H * H * (x2 * (z * z) - x * z ^ 2)); [unfold X3; by rewrite <- EH|].
    transitivity (l * Z3 * (l * Z3) - (x + x2) * (Z3 * Z3)); [|apply cong_eq; unfold x3; ring].
    rewrite El, E3. apply cong_eq. ring. }
  split; [done|]. rewrite EX.
  transitivity ((x * (Z3 * Z3) - x3 * Z3 ^ 2) * (l * Z3) - y * (Z3 * Z3 * Z3)); [|apply cong_eq; ring].
  rewrite El. f_equiv; [f_equiv; f_equiv|]; rewrite E3; apply cong_eq; ring.
Qed.

Lemma add_chord_slope x y x2 y2 z H R Z3 l : is_unit z ->
  cong H (x2 * (z * z) - x * z ^ 2) -> cong R (y2 * (z * (z * z)) - y * z ^ 3) -> cong Z3 (z * H) -> cong (l * Z3) R ->
  cong (l * (x2 - x)) (y2 - y).
Proof.
  intros Hz EH ER E3 El. do 3 apply (cong_cancel z _ _ Hz). rewrite E3, EH, ER in El.
  etransitivity; [|etransitivity; [exact El|]]; apply cong_eq; ring.
Qed.

(** The two points compared after scaling: equal abscissas, equal ordinates. *)
Lemma add_compare a b z n : is_unit z -> (n = 2 \/ n = 3) -> cong (b * z ^ n - a * z ^ n) 0 <-> cong a b.
Proof.
  intros Hz Hn. split.
  - intros E. assert (E' : cong (a * z ^ n) (b * z ^ n)).
    { rewrite <- (Z.add_0_l (a * z ^ n)), <- E. apply cong_eq. ring. }
    destruct Hn as [-> | ->]; [do 2 apply (cong_cancel z _ _ Hz)|do 3 apply (cong_cancel z _ _ Hz)];
      (etransitivity; [|etransitivity; [exact E'|]]); apply cong_eq; ring.
  - intros ->. apply cong_eq. ring.
Qed.

Lemma field_u32 a : field_elem a -> Forall is_u32 a.
Proof. by intros [[_ ?] _]. Qed.

Lemma difference_fields p q : field_point p -> field_elem (pt_x q) -> field_elem (pt_y q) ->
  field_elem (add_h modp p q) /\ field_elem (add_r modp p q).
Proof.
  intros (Fx & Fy & [Wz _]) [W2 _] [V2 _]. unfold add_h, add_r.
  assert (Fzz : field_elem (multiprecision_mersenns_squa_mod modp (pt_z p))) by by apply mult_mod_field.
  split; apply sub_mod_spec; try done; apply mult_mod_field; try done; apply Fzz.
Qed.

Lemma repr_affine q x y : stands (pt_x q) x -> stands (pt_y q) y -> pt_z q = one -> repr q (Some (x, y)).
Proof.
  intros [Fx Cx] [Fy Cy] Ez. destruct (small_field 1) as [F1 E1]; [done|].
  split; [split; [done|]; split; [done|]; by rewrite Ez|]. unfold represents. rewrite Ez. unfold one. rewrite E1.
  split; [by exists 1|]. rewrite !Z.pow_1_l, !Z.mul_1_r by done. done.
Qed.

(** The case of two different abscissas. *)
Lemma add_general_repr p q x y x2 y2 : repr p (Some (x, y)) ->
  stands (add_h modp p q) (x2 * (wval (pt_z p) * wval (pt_z p)) - x * wval (pt_z p) ^ 2) ->
  stands (add_r modp p q) (y2 * (wval (pt_z p) * (wval (pt_z p) * wval (pt_z p))) - y * wval (pt_z p) ^ 3) ->
  forallb mul_ok (add_products_rest modp p q) = true -> is_unit (wval (pt_z (add_general modp p q))) ->
  exists R, aff_add (Some (x, y)) (x2, y2) R /\ repr (add_general modp p q) R.
Proof.
  intros [(Fx & Fy & Fz) [Uz [Ex Ey]]] [FH CH] [FR CR] Hok U3.
  destruct (add_formula modp Hp Ep p q _ _ _ _ _ (conj Fx Ex) (conj Fy Ey) (stands_self _ Fz) (stands_self _ FH) (stands_self _ FR) Hok)
    as (x3 & y3 & z3 & E & [F3 C3] & [Fx3 Cx3] & [Fy3 Cy3]).
  rewrite E in U3 |- *. cbn [pt_z] in U3. destruct (unit_quot _ (wval (add_r modp p q)) U3) as [l Hl].
  destruct (add_algebra x y x2 _ _ _ _ l CH C3 Hl) as [A1 A2].
  exists (Some (l ^ 2 - x - x2, l * (x - (l ^ 2 - x - x2)) - y)). split.
  - apply (add_chord x y x2 y2 l); [|exact (add_chord_slope x y x2 y2 _ _ _ _ l Uz CH CR C3 Hl)|done|done].
    apply (unit_mul _ (wval (pt_z p) ^ 3)). apply (unit_cong (wval z3)); [|done]. rewrite C3, CH. apply cong_eq. ring.
  - split; [done|]. split; [done|]. split; cbn [pt_x pt_y pt_z]; [by rewrite Cx3|by rewrite Cy3].
Qed.

Lemma add_repr s p q P x2 y2 : field_point s -> repr p P -> stands (pt_x q) x2 -> stands (pt_y q) y2 -> pt_z q = one ->
  safe_add modp p q = true -> exists R, aff_add P (x2, y2) R /\ repr (ECC_Add modp s p q).1 R.
Proof.
  intros Hs HP Sx Sy Ez Hok. pose proof (proj1 HP) as FP. destruct (small_field 1) as [F1 E1]; [done|].
  destruct (difference_fields p q FP (proj1 Sx) (proj1 Sy)) as [FH FR].
  rewrite ECC_Add_cases by (rewrite ?Ez; apply field_u32; done || apply FP). rewrite Ez. unfold one at 1. rewrite E1. cbn [Z.eqb].
  unfold safe_add in Hok. destruct P as [[x y]|].
  - destruct HP as [_ [Uz [Ex Ey]]]. destruct (Z.eqb_spec (wval (pt_z p)) 0) as [E0|_]; [by apply unit_nonzero in Uz; rewrite E0 in Uz|].
    apply andb_true_iff in Hok as [Hok Hrest].
    destruct (add_differences modp Hp Ep p q _ _ _ _ _ (conj (proj1 FP) Ex) (conj (proj1 (proj2 FP)) Ey)
      (stands_self _ (proj2 (proj2 FP))) Sx Sy Hok) as [SH SR].
    destruct (Z.eqb_spec (wval (add_h modp p q)) 0) as [EH|NH].
    + assert (Exx : cong x x2).
      { apply (add_compare x x2 (wval (pt_z p)) 2); [done|by left|]. rewrite <- EH, (proj2 SH). apply cong_eq. ring. }
      assert (Eyy : cong y y2 <-> wval (add_r modp p q) = 0).
      { rewrite <- Z.eqb_eq, cong_zero by (split; [apply (words_bound 8), FR|apply FR]).
        rewrite <- (add_compare y y2 (wval (pt_z p)) 3) by (done || by right).
        rewrite (proj2 SR). split; intros E; (etransitivity; [|exact E]); apply cong_eq; ring. }
      destruct (Z.eqb_spec (wval (add_r modp p q)) 0) as [ER|NR].
      * destruct (double_repr s q (Some (x2, y2)) Hs) as (R & HR & Hr); [by apply repr_affine|done|].
        exists R. split; [|done]. apply add_equal; [done|by apply Eyy|done].
      * exists None. split; [apply add_vertical; [done|by rewrite Eyy]|by apply repr_infinity].
    + apply andb_true_iff in Hrest as [Hok' Hu]. apply Z.eqb_eq, unit_gcd in Hu.
      by apply add_general_repr.
  - exists (Some (x2, y2)). destruct HP as [_ ->]. cbn [Z.eqb]. split; [apply add_infinity|by apply repr_affine].
Qed.

(** ** The digits *)

Lemma naf_value_top naf i n : naf_value naf i (S n) = naf_value naf i n + 2 ^ Z.of_nat n * signed (naf_digit naf (i + n)).
Proof.
  revert i. induction n as [|n IH]; intros i; [cbn [naf_value Z.of_nat]; rewrite Nat.add_0_r, Z.pow_0_r; lia|].
  change (naf_value naf i (S (S n))) with (signed (naf_digit naf i) + 2 * naf_value naf (S i) (S n)).
  rewrite IH. cbn [naf_value]. rewrite Nat2Z.inj_succ, Z.pow_succ_r, (Nat.add_succ_r i), <- Nat.add_succ_l by lia. lia.
Qed.

Lemma rd_digit naf i : length naf = 65%nat -> (i < 260)%nat -> rd naf (Z.of_nat i `div` 4) = Ok (naf.[i / 4]).
Proof.
  intros Hl Hi. change 4 with (Z.of_nat 4). rewrite <- Nat2Z.inj_div. apply rd_nth. rewrite Hl.
  apply Nat.Div0.div_lt_upper_bound. lia.
Qed.

Lemma digits_spec p minus_p x y n naf q Q k :
  stands (pt_x p) x -> stands (pt_y p) y -> pt_z p = one ->
  stands (pt_x minus_p) x -> stands (pt_y minus_p) (- y) -> pt_z minus_p = one ->
  length naf = 65%nat -> naf_from naf 0 -> (n <= 260)%nat -> repr q Q -> times (x, y) k Q ->
  safe_digits modp n naf p minus_p q = true ->
  exists q' Q', mult_digits modp n naf p minus_p q = Ok q' /\ repr q' Q' /\
    times (x, y) (2 ^ Z.of_nat n * k + naf_value naf 0 n) Q'.
Proof.
  intros Sx Sy Sz Mx My Mz Hl Hd. revert q Q k. induction n as [|i IH]; intros q Q k Hn Hq HQ Hs.
  { exists q, Q. split; [done|]. split; [done|]. by rewrite Z.add_0_r, Z.mul_1_l. }
  cbn [safe_digits] in Hs. apply andb_true_iff in Hs as [Hsd Hs]. cbn [mult_digits]. rewrite rd_digit by (done || lia).
  cbn [mbind outcome_bind]. fold (naf_digit naf i).
  destruct (double_repr q q Q) as (R & HR & Hr); [apply Hq|done|done|].
  pose proof (times_double (x, y) k Q R HQ HR) as HT. set (q2 := ECC_Double modp q q) in *. clearbody q2.
  assert (Hk : forall d, signed (naf_digit naf i) = d ->
    2 ^ Z.of_nat (S i) * k + naf_value naf 0 (S i) = 2 ^ Z.of_nat i * (2 * k + d) + naf_value naf 0 i).
  { intros d <-. rewrite naf_value_top, Nat2Z.inj_succ, Z.pow_succ_r by lia. rewrite Nat.add_0_l. ring. }
  destruct (Hd i) as [[E|[E|E]] _]; [lia|..]; rewrite E in Hs, Hk |- *; cbn [Z.eqb Pos.eqb] in Hs |- *; rewrite (Hk _ eq_refl).
  - rewrite Z.add_0_r. apply (IH q2 R); (done || lia).
  - apply andb_true_iff in Hs as [Ha Hs].
    destruct (add_repr q2 q2 p R x y) as (R' & HR' & Hr'); [apply Hr|done..|].
    apply (IH _ R'); (done || lia || by eapply times_add).
  - apply andb_true_iff in Hs as [Ha Hs].
    destruct (add_repr q2 q2 minus_p R x (- y)) as (R' & HR' & Hr'); [apply Hr|done..|].
    apply (IH _ R'); (done || lia || by eapply times_sub).
Qed.
End Simulation.
