(* ===== verification/P256Mult.v ===== *)
(** * P256Mult: [ECC_PointMult_Bin_NAF]

    It returns for every point and every scalar but the largest one, and where the products of the
    run are handled by the reduction its result is the multiple of the point. *)

From Stdlib Require Import ZArith Lia Setoid Morphisms.
From stdpp Require Import base list.
From S2P Require Import Prelude Aes P256 P256Words P256Mod P256Inv P256Naf P256Ecc P256Group.

Open Scope aes_scope.

(** What the result stands for: zero coordinates for the point at infinity. *)
Definition affine_result (q : Point) (R : affine) : Prop :=
  match R with
  | None => wval (pt_x q) = 0 /\ wval (pt_y q) = 0
  | Some (x, y) => wval (pt_x q) = x mod p256 /\ wval (pt_y q) = y mod p256
  end.

(** * Lemmas *)

Lemma bind_ok {A B} (m : outcome A) (x : A) (f : A -> outcome B) : m = Ok x -> (m ≫= f) = f x.
Proof. by intros ->. Qed.

Section Modulus.
Context (modp : list Z) (Hp : words 8 modp) (Ep : wval modp = p256).

(** ** Termination *)

Lemma double_words q p : words 8 (pt_z (ECC_Double modp q p)).
Proof.
  destruct p as [x y z]. unfold ECC_Double. destruct (nz _); [apply init_spec|]. cbn [pt_z].
  by apply lshift_mod_spec; [..|apply mult_mod_field].
Qed.

Lemma add_words_z s p q : words 8 (pt_z p) -> words 8 (pt_z q) -> words 8 (pt_z (ECC_Add modp s p q).1).
Proof.
  intros H1 H2. destruct p as [x1 y1 z1], q as [x2 y2 z2]. unfold ECC_Add. cbn [pt_z] in *.
  repeat match goal with |- context [if ?b then _ else _] => destruct b end; cbn [fst pt_z]; try done;
    [apply double_words|apply init_spec|by apply mult_mod_field].
Qed.

Lemma mult_digits_total n naf p minus_p q :
  length naf = 65%nat -> (n <= 260)%nat -> words 8 (pt_z p) -> words 8 (pt_z minus_p) -> words 8 (pt_z q) ->
  exists q', mult_digits modp n naf p minus_p q = Ok q' /\ words 8 (pt_z q').
Proof.
  intros Hl Hn H1 H2. revert q. induction n as [|i IH]; intros q Hq; [by exists q|].
  cbn [mult_digits]. rewrite rd_digit by (done || lia). cbn [mbind outcome_bind].
  apply IH; [lia|]. pose proof (double_words q q).
  destruct (_ =? 1); [by apply add_words_z|]. destruct (_ =? 3); [by apply add_words_z|done].
Qed.

Lemma inv_loop_zero fuel u v A C : words 8 u -> wval u = 0 -> inv_loop modp (S fuel) u v A C = Ok (u, C).
Proof. intros Hu E. cbn [inv_loop]. by rewrite nz_iszero, E by apply Hu. Qed.

Lemma inv_mod_zero a : words 8 a -> wval a = 0 -> multiprecision_inv_mod modp a = Ok (multiprecision_init, a).
Proof.
  intros Ha E. unfold multiprecision_inv_mod. rewrite (inv_loop_zero 513) by done. cbn [mbind outcome_bind].
  destruct init_spec as [Hi Ei]. by rewrite compare_ge, Ep, Ei.
Qed.

Lemma inv_mod_total a : words 8 a -> exists r a', multiprecision_inv_mod modp a = Ok (r, a') /\ field_elem r.
Proof.
  intros Ha. destruct (Z.eq_dec (wval a) 0) as [E|E].
  - exists multiprecision_init, a. split; [by apply inv_mod_zero|]. by split; [apply init_spec|].
  - destruct (inv_mod_spec modp Hp Ep a Ha E) as (r & a' & Er & Hr & _). by exists r, a'.
Qed.

Lemma one_words : words 8 one.
Proof. by destruct (small_field 1) as [[? _] _]. Qed.

(** The result from the last [q] and the inverse [x] of its [z]. *)
Lemma point_mult_run p n naf m n' q x z : let p' := mk_Point (pt_x p) (pt_y p) one in
  ECC_NAF (replicate 65 0) n = Ok (naf, Z.of_nat m, n') ->
  mult_digits modp m naf p' (mk_Point (pt_x p) (multiprecision_sub modp (pt_y p)).1 one) p_256_init_point = Ok q ->
  multiprecision_inv_mod modp (pt_z q) = Ok (x, z) ->
  ECC_PointMult_Bin_NAF modp p n =
    let z2 := multiprecision_mersenns_squa_mod modp x in
    let z3 := multiprecision_mersenns_mult_mod modp z2 x in
    Ok (mk_Point (multiprecision_mersenns_mult_mod modp (pt_x q) z2) (multiprecision_mersenns_mult_mod modp (pt_y q) z3) z3, p', n').
Proof.
  intros p' EN Eq Er. unfold ECC_PointMult_Bin_NAF. rewrite (bind_ok _ _ _ EN), Nat2Z.id, (bind_ok _ _ _ Eq), (bind_ok _ _ _ Er).
  reflexivity.
Qed.

Lemma point_mult_total p n : words 8 n -> wval n < 2 ^ 256 - 1 ->
  exists q n', ECC_PointMult_Bin_NAF modp p n = Ok (q, mk_Point (pt_x p) (pt_y p) one, n') /\ field_point q /\ wval n' = 0.
Proof.
  intros Hn Hlt. destruct (ECC_NAF_spec n Hn Hlt) as (naf & m & n' & E & E0 & Hm & Hl & _). pose proof one_words as H1.
  destruct (mult_digits_total m naf (mk_Point (pt_x p) (pt_y p) one) (mk_Point (pt_x p) (multiprecision_sub modp (pt_y p)).1 one)
    p_256_init_point) as (q & Eq & Wq); [done|lia|done|done|apply init_spec|].
  destruct (inv_mod_total (pt_z q) Wq) as (r & z & Er & Hr). rewrite (point_mult_run _ _ _ _ _ _ _ _ E Eq Er).
  eexists _, n'. split; [reflexivity|]. split; [|done]. split; [by apply mult_mod_field|]. split; by apply mult_mod_field.
Qed.

(** ** The multiple *)

Lemma minus_y y : field_elem y -> wval y <> 0 -> stands (multiprecision_sub modp y).1 (- wval y).
Proof.
  intros [Wy By] Hy. pose proof (words_bound 8 y Wy). destruct (sub_spec modp y Hp Wy) as (Ww & [Eb|Eb] & E); rewrite Eb, Ep in E.
  - split; [split; [done|lia]|]. exists 1. lia.
  - pose proof (words_bound 8 _ Ww) as Hb. change (base 8) with (2 ^ 256) in *. lia.
Qed.

Lemma mult_mod_zero a b : words 8 a -> words 8 b -> wval b = 0 -> multiprecision_mersenns_mult_mod modp a b = multiprecision_init.
Proof.
  intros Ha Hb E. unfold multiprecision_mersenns_mult_mod.
  destruct (mult_spec (replicate 16 0) a b) as [Hw Ew]; [done|done|done|].
  assert (Em : multiprecision_mult (replicate 16 0) a b = replicate 16 0).
  { apply (wval_inj 16); [done|by split; [|apply Forall_replicate]|]. by rewrite Ew, E, Z.mul_0_r. }
  rewrite Em. destruct (modp_spec (mk_curve [] [] 0 [] [] p_256_init_point)) as [Hc Ec].
  rewrite (wval_inj 8 modp (ec_p (p_256_init_curve (mk_curve [] [] 0 [] [] p_256_init_point)))) by (done || by rewrite Ep, Ec).
  by vm_compute.
Qed.

Lemma stands_mod a x y : stands a x -> cong x y -> wval a = y mod p256.
Proof.
  intros [[Wa Ba] Ca] E. rewrite E in Ca. apply cong_mod in Ca. rewrite <- Ca. symmetry. apply Z.mod_small.
  split; [apply (words_bound 8 a Wa)|done].
Qed.

Lemma affine_spec q R x z : repr q R -> multiprecision_inv_mod modp (pt_z q) = Ok (x, z) ->
  (wval (pt_z q) =? 0) || forallb mul_ok (affine_products modp q x) = true ->
  let z2 := multiprecision_mersenns_squa_mod modp x in
  let z3 := multiprecision_mersenns_mult_mod modp z2 x in
  affine_result (mk_Point (multiprecision_mersenns_mult_mod modp (pt_x q) z2) (multiprecision_mersenns_mult_mod modp (pt_y q) z3) z3) R.
Proof.
  intros [(Fx & Fy & Fz) HR] Ex Hok z2 z3. destruct R as [[a b]|]; cbn [affine_result pt_x pt_y].
  - destruct HR as [Uz [Cx Cy]]. assert (Hne : wval (pt_z q) <> 0) by (intros E; apply (unit_nonzero _ Uz); by rewrite E).
    destruct (Z.eqb_spec (wval (pt_z q)) 0) as [|_]; [done|]. cbn [orb] in Hok. unfold affine_products in Hok. split_products Hok.
    destruct (inv_mod_spec modp Hp Ep (pt_z q) (proj1 Fz) Hne) as (r & z' & Er & Hr & _ & Cr). rewrite Ex in Er. injection Er as <- <-.
    rewrite (proj1 (unit_gcd _) Uz) in Cr.
    pose proof (stands_squ modp Hp Ep x _ (stands_self x Hr) H) as S2. fold z2 in S2.
    pose proof (stands_mul modp Hp Ep z2 x _ _ S2 (stands_self x Hr) H1) as S3. fold z3 in S3.
    pose proof (stands_mul modp Hp Ep _ z2 _ _ (conj Fx Cx) S2 H0) as Sx.
    pose proof (stands_mul modp Hp Ep _ z3 _ _ (conj Fy Cy) S3 H2) as Sy.
    split; [apply (stands_mod _ _ _ Sx)|apply (stands_mod _ _ _ Sy)].
    + transitivity (a * (wval x * wval (pt_z q)) * (wval x * wval (pt_z q))); [apply cong_eq; ring|]. rewrite Cr. apply cong_eq; ring.
    + transitivity (b * (wval x * wval (pt_z q)) * (wval x * wval (pt_z q)) * (wval x * wval (pt_z q))); [apply cong_eq; ring|].
      rewrite Cr. apply cong_eq; ring.
  - rewrite inv_mod_zero in Ex by (done || apply Fz). injection Ex as <- <-. destruct init_spec as [Hi Ei].
    assert (E2 : z2 = multiprecision_init) by exact (mult_mod_zero _ _ Hi Hi Ei).
    assert (E3 : z3 = multiprecision_init) by (unfold z3; rewrite E2; exact (mult_mod_zero _ _ Hi Hi Ei)).
    rewrite E2, E3. rewrite (mult_mod_zero _ _ (proj1 Fx) Hi Ei), (mult_mod_zero _ _ (proj1 Fy) Hi Ei). exact (conj Ei Ei).
Qed.

Lemma point_mult_spec p n : field_elem (pt_x p) -> field_elem (pt_y p) -> wval (pt_y p) <> 0 ->
  words 8 n -> wval n < 2 ^ 256 - 1 -> safe_mult modp p n = true ->
  exists q p' n' R, ECC_PointMult_Bin_NAF modp p n = Ok (q, p', n') /\
    times (wval (pt_x p), wval (pt_y p)) (wval n) R /\ affine_result q R.
Proof.
  intros Fx Fy Hy Hn Hlt Hs. destruct (ECC_NAF_spec n Hn Hlt) as (naf & m & n' & E & _ & Hm & Hl & Ev & Hf).
  unfold safe_mult in Hs. cbv zeta in Hs. cbn [pt_x pt_y] in Hs. rewrite E, Nat2Z.id in Hs. apply andb_true_iff in Hs as [Hd Hs].
  destruct (digits_spec modp Hp Ep (mk_Point (pt_x p) (pt_y p) one) (mk_Point (pt_x p) (multiprecision_sub modp (pt_y p)).1 one)
    (wval (pt_x p)) (wval (pt_y p)) m naf p_256_init_point None 0) as (q & R & Eq & Hq & HT);
    [by apply stands_self|by apply stands_self|done|by apply stands_self|by apply minus_y|done|done|done|lia| |apply times_zero|done|].
  { apply (repr_infinity p_256_init_point). split; [|split]; by split; [apply init_spec|]. }
  rewrite Eq in Hs. destruct (multiprecision_inv_mod modp (pt_z q)) as [[x z]|] eqn:Ex; [|done].
  rewrite Z.mul_0_r, Z.add_0_l, Ev in HT.
  eexists _, _, n', R. split; [exact (point_mult_run _ _ _ _ _ _ _ _ E Eq Ex)|]. split; [done|]. by apply (affine_spec _ _ x z).
Qed.

End Modulus.
