(* ===== verification/P256Thms.v ===== *)
(** * P256Thms: what is shown of the elliptic curve P-256

    The field operations, inversion, the signed digits of the scalar, scalar multiplication and
    the test of the peer's public key, with the inputs on which they fail. *)

From Stdlib Require Import ZArith Lia.
From stdpp Require Import base list.
From S2P Require Import Prelude Aes P256 P256Words P256Mod P256Inv P256Naf P256Ecc P256Group P256Mult.

Open Scope aes_scope.

(** The modulus the code sets up, whatever the global held before. *)
Definition modulus (ec : elliptic_curve_t) : list Z := ec_p (p_256_init_curve ec).

(** Concrete inputs for the witnesses. *)
Definition empty_curve : elliptic_curve_t := mk_curve multiprecision_init multiprecision_init 0 multiprecision_init multiprecision_init p_256_init_point.
Definition generator : Point := ec_G (p_256_init_curve empty_curve).
Definition number (n : Z) : list Z := <[0%nat := n]> multiprecision_init.

(** An abscissa, the ordinate of a point of the curve, and one that is on no point. *)
Definition bad_x : list Z := [0x5f; 0x0; 0xa6eb8c9e; 0xec1d7da0; 0x87b0b125; 0x76ce2ef; 0xd7210dff; 0x77330bdb].
Definition bad_y : list Z := [0xea8d35f9; 0x3a5b91c7; 0x6bf4dee5; 0xaf488cd3; 0x394b4e07; 0x6618272e; 0xbdddd98e; 0xc503bdb2].
Definition good_y : list Z := [0x123e69d3; 0x2a4bf795; 0x76263d33; 0x611db3bc; 0x30b12e06; 0xc79662fd; 0x461919fb; 0xfcdffcf4].

(** * Lemmas *)

Lemma words_check n l : (length l =? n)%nat && forallb (fun x => (0 <=? x) && (x <? 2 ^ 32)) l = true -> words n l.
Proof.
  intros [Hl Hf]%andb_true_iff. split; [by apply Nat.eqb_eq|]. rewrite forallb_forall in Hf. apply List.Forall_forall.
  intros x Hx. specialize (Hf x Hx). unfold is_u32. lia.
Qed.

Lemma field_check l : (length l =? 8)%nat && forallb (fun x => (0 <=? x) && (x <? 2 ^ 32)) l && (wval l <? p256) = true -> field_elem l.
Proof. intros [Hw Hl]%andb_true_iff. split; [by apply words_check|by apply Z.ltb_lt]. Qed.

(** * Theorems *)

(** C20: On reduced numbers the sum, the difference and the double modulo p are exact, and so are
    the product and the square whenever the reduction of the product loses no borrow. *)
Theorem field_operations_exact ec a b : field_elem a -> field_elem b -> let p := modulus ec in
  wval (multiprecision_add_mod p a b) = (wval a + wval b) mod p256 /\
  wval (multiprecision_sub_mod p a b) = (wval a - wval b) mod p256 /\
  wval (multiprecision_lshift_mod p a) = (2 * wval a) mod p256 /\
  field_elem (multiprecision_mersenns_mult_mod p a b) /\
  (reducible (multiprecision_mult (replicate 16 0) a b) = true ->
   wval (multiprecision_mersenns_mult_mod p a b) = (wval a * wval b) mod p256).
Proof.
  intros Fa Fb p. destruct (modp_spec ec) as [Hp Ep]. split; [by apply add_mod_spec|]. split; [by apply sub_mod_spec|].
  split; [by apply lshift_mod_spec|]. split; [by apply mult_mod_field|]. intros Hr. by apply mult_mod_spec; [..|apply Fa|apply Fb|].
Qed.

Lemma field_operations_exact_witness :
  let p := modulus empty_curve in let a := pt_x generator in let b := pt_y generator in
  reducible (multiprecision_mult (replicate 16 0) a b) = true /\
  wval (multiprecision_mersenns_mult_mod p a b) = (wval a * wval b) mod p256.
Proof.
  split; [by vm_compute|].
  apply (field_operations_exact empty_curve (pt_x generator) (pt_y generator)); [by apply field_check|by apply field_check|by vm_compute].
Defined.

(** C19: Inversion ends for every number of 8 words, within 257 halvings and 514 turns. The result is
    reduced; multiplied by the argument it gives the greatest common divisor of argument and modulus,
    which is 1 unless the argument is a multiple of p, and the argument is left as zero. *)
Theorem inversion_terminates ec a : words 8 a ->
  exists r a', multiprecision_inv_mod (modulus ec) a = Ok (r, a') /\ field_elem r /\ wval a' = 0 /\
    cong (wval r * wval a) (if wval a =? 0 then 0 else Z.gcd (wval a) p256).
Proof.
  intros Ha. destruct (modp_spec ec) as [Hp Ep]. fold (modulus ec) in Hp, Ep. destruct (Z.eqb_spec (wval a) 0) as [E|E].
  - exists multiprecision_init, a. split; [by apply inv_mod_zero|]. split; [by split; [apply init_spec|]|].
    split; [done|]. by rewrite E, Z.mul_0_r.
  - by apply inv_mod_spec.
Qed.

Lemma inversion_terminates_witness : exists r a',
  multiprecision_inv_mod (modulus empty_curve) (number 5) = Ok (r, a') /\ field_elem r /\ wval a' = 0 /\ cong (wval r * 5) 1.
Proof.
  destruct (inversion_terminates empty_curve (number 5)) as (r & a' & E & Hr & Ha & C); [by apply words_check|].
  exists r, a'. exact (conj E (conj Hr (conj Ha C))).
Defined.

(** C12: ECC_NAF writes the signed digits of the scalar: their value is the scalar, no two neighbours are
    both set, there are at most 257 of them, which fit the array of 65 bytes, and the loop ends for every
    scalar of 8 words but 2^256 - 1. *)
Theorem naf_digits_of_scalar k : words 8 k -> wval k < 2 ^ 256 - 1 ->
  exists naf n k', ECC_NAF (replicate 65 0) k = Ok (naf, Z.of_nat n, k') /\ wval k' = 0 /\ (n <= 257)%nat /\
    length naf = 65%nat /\ naf_value naf 0 n = wval k /\ naf_from naf 0.
Proof. apply ECC_NAF_spec. Qed.

Lemma naf_digits_of_scalar_witness : exists naf n k',
  ECC_NAF (replicate 65 0) (number 7) = Ok (naf, Z.of_nat n, k') /\ wval k' = 0 /\ (n <= 257)%nat /\
    length naf = 65%nat /\ naf_value naf 0 n = 7 /\ naf_from naf 0.
Proof. apply (naf_digits_of_scalar (number 7)); [by apply words_check|by vm_compute]. Defined.

(** C17: Scalar multiplication ends for every point and every scalar of 8 words but 2^256 - 1, without an
    access outside its arrays; the result has reduced coordinates, the scalar is left as zero and the
    point with its third coordinate set to one. *)
Theorem point_mult_terminates ec p n : words 8 n -> wval n < 2 ^ 256 - 1 ->
  exists q n', ECC_PointMult_Bin_NAF (modulus ec) p n = Ok (q, mk_Point (pt_x p) (pt_y p) one, n') /\
    field_point q /\ wval n' = 0.
Proof. destruct (modp_spec ec) as [Hp Ep]. by apply point_mult_total. Qed.

Lemma point_mult_terminates_witness :
  exists q n', ECC_PointMult_Bin_NAF (modulus empty_curve) generator bad_y =
    Ok (q, mk_Point (pt_x generator) (pt_y generator) one, n') /\ field_point q /\ wval n' = 0.
Proof. apply (point_mult_terminates empty_curve generator bad_y); [by apply words_check|by vm_compute]. Defined.

(** C16: The result of scalar multiplication is the multiple of the point: it has the affine coordinates,
    reduced, of a point reached from infinity by tangents and by chords through the point and its negative
    whose multiple is the scalar, or zero coordinates for the point at infinity. This holds for every run
    whose products the reduction handles. *)
Theorem point_mult_is_multiple ec p n : field_elem (pt_x p) -> field_elem (pt_y p) -> wval (pt_y p) <> 0 ->
  words 8 n -> wval n < 2 ^ 256 - 1 -> safe_mult (modulus ec) p n = true ->
  exists q p' n' R, ECC_PointMult_Bin_NAF (modulus ec) p n = Ok (q, p', n') /\
    times (wval (pt_x p), wval (pt_y p)) (wval n) R /\ affine_result q R.
Proof. destruct (modp_spec ec) as [Hp Ep]. by apply point_mult_spec. Qed.

Lemma point_mult_is_multiple_witness : safe_mult (modulus empty_curve) generator (number 2) = true /\
  exists q p' n' R, ECC_PointMult_Bin_NAF (modulus empty_curve) generator (number 2) = Ok (q, p', n') /\
    times (wval (pt_x generator), wval (pt_y generator)) (wval (number 2)) R /\ affine_result q R.
Proof.
  assert (Fx : field_elem (pt_x generator)) by by apply field_check. assert (Fy : field_elem (pt_y generator)) by by apply field_check.
  assert (Hy : wval (pt_y generator) <> 0) by by vm_compute. assert (Hn : words 8 (number 2)) by by apply words_check.
  assert (Hl : wval (number 2) < 2 ^ 256 - 1) by by vm_compute.
  assert (Hs : safe_mult (modulus empty_curve) generator (number 2) = true) by by vm_compute.
  split; [exact Hs|].
  exact (point_mult_is_multiple empty_curve generator (number 2) Fx Fy Hy Hn Hl Hs).
Defined.

(** C18: ECC_ValidatePoint accepts exactly the points of the curve, for coordinates of 8 words and whatever
    the global curve held before, whenever the reduction handles its three products. *)
Theorem validate_point_exact pt ec : words 8 (pt_x pt) -> words 8 (pt_y pt) ->
  forallb mul_ok (validate_products pt) = true ->
  (ECC_ValidatePoint pt ec).1 = true <-> on_curve (wval (pt_x pt)) (wval (pt_y pt)).
Proof. apply validate_spec. Qed.

Lemma validate_point_exact_witness : forallb mul_ok (validate_products generator) = true /\
  (ECC_ValidatePoint generator empty_curve).1 = true /\ on_curve (wval (pt_x generator)) (wval (pt_y generator)).
Proof.
  split; [by vm_compute|]. split; [by vm_compute|].
  apply (validate_point_exact generator empty_curve); [by apply words_check|by apply words_check|by vm_compute|by vm_compute].
Defined.

(** The lost borrow reaches the test of the peer's public key: there is a point with reduced coordinates
    that is not on the curve and that ECC_ValidatePoint accepts, and a point of the curve with the same
    abscissa that it refuses. *)
Theorem validate_accepts_point_off_curve ec :
  field_elem bad_x /\ field_elem bad_y /\ field_elem good_y /\
  (ECC_ValidatePoint (mk_Point bad_x bad_y one) ec).1 = true /\ ~ on_curve (wval bad_x) (wval bad_y) /\
  (ECC_ValidatePoint (mk_Point bad_x good_y one) ec).1 = false /\ on_curve (wval bad_x) (wval good_y).
Proof.
  split; [by apply field_check|]. split; [by apply field_check|]. split; [by apply field_check|]. split; [by vm_compute|].
  split; [intros C%cong_mod; revert C; by vm_compute|]. split; [by vm_compute|]. apply cong_mod. by vm_compute.
Qed.

(** The scalar 2^256 - 1 makes the carry run past the last word of the scalar: whatever the point,
    ECC_PointMult_Bin_NAF writes outside the array. *)
Theorem point_mult_overruns_scalar modp p :
  ECC_PointMult_Bin_NAF modp p (replicate 8 0xFFFFFFFF) = Crash OutOfBounds.
Proof.
  unfold ECC_PointMult_Bin_NAF.
  assert (E : ECC_NAF (replicate 65 0) (replicate 8 0xFFFFFFFF) = Crash OutOfBounds) by by vm_compute. by rewrite E.
Qed.
