(* ===== verification/L2cDefs.v ===== *)
(** * L2cDefs: channels of L2CAP in retransmission and credit based modes

    The constants and control blocks that src/system/stack/l2cap/l2c_fcr.cc works on
    (l2c_int.h, l2c_api.h, l2cdefs.h), the state of one channel and its link, and the
    monad its operations run in. *)

From Stdlib Require Import ZArith Lia.
From stdpp Require Import base list.
From S2P Require Import Prelude Osi.

(** ** Constants *)

Definition L2CAP_PKT_OVERHEAD : Z := 4.
Definition L2CAP_FCR_OVERHEAD : Z := 2.
Definition L2CAP_FCS_LEN : Z := 2.
Definition L2CAP_SDU_LEN_OVERHEAD : Z := 2.
Definition L2CAP_SDU_LEN_OFFSET : Z := 2.
Definition L2CAP_MAX_HEADER_FCS : Z := 12.
Definition L2CAP_MIN_OFFSET : Z := 13.
Definition L2CAP_LCC_SDU_LENGTH : Z := 2.
Definition L2CAP_LCC_OFFSET : Z := 15.
Definition HCI_DATA_PREAMBLE_SIZE : Z := 4.
Definition L2CAP_CMD_BUF_SIZE : Z := 660.
Definition BT_DEFAULT_BUFFER_SIZE : Z := 4112.
Definition L2CAP_MTU_SIZE : Z := 1691.
Definition OBX_BUF_MIN_OFFSET : Z := 4.
Definition L2CAP_SEND_CMD_OFFSET : Z := 0.
Definition L2CAP_CMD_OVERHEAD : Z := 4.
Definition L2CAP_CMD_DISC_REQ : Z := 6.
Definition L2CAP_DISC_REQ_LEN : Z := 4.
Definition L2CAP_SIGNALLING_CID : Z := 1.
Definition L2CAP_BLE_SIGNALLING_CID : Z := 5.
Definition L2CAP_CONNECTIONLESS_CID : Z := 2.
Definition MAX_L2CAP_LINKS : Z := 16.
Definition L2CAP_BASE_APPL_CID : Z := 0x40.
Definition L2CAP_FIRST_FIXED_CHNL : Z := 4.
Definition L2CAP_LAST_FIXED_CHNL : Z := 35.

(** The control word. *)
Definition L2CAP_FCR_UNSEG_SDU : Z := 0x0000.
Definition L2CAP_FCR_START_SDU : Z := 0x4000.
Definition L2CAP_FCR_END_SDU : Z := 0x8000.
Definition L2CAP_FCR_CONT_SDU : Z := 0xc000.
Definition L2CAP_FCR_SUP_RR : Z := 0.
Definition L2CAP_FCR_SUP_REJ : Z := 1.
Definition L2CAP_FCR_SUP_RNR : Z := 2.
Definition L2CAP_FCR_SUP_SREJ : Z := 3.
Definition L2CAP_FCR_SAR_BITS : Z := 0xC000.
Definition L2CAP_FCR_SEG_BITS : Z := 0xC000.
Definition L2CAP_FCR_S_FRAME_BIT : Z := 0x0001.
Definition L2CAP_FCR_REQ_SEQ_BITS : Z := 0x3F00.
Definition L2CAP_FCR_REQ_SEQ_BITS_SHIFT : Z := 8.
Definition L2CAP_FCR_TX_SEQ_BITS : Z := 0x007E.
Definition L2CAP_FCR_TX_SEQ_BITS_SHIFT : Z := 1.
Definition L2CAP_FCR_F_BIT : Z := 0x0080.
Definition L2CAP_FCR_P_BIT : Z := 0x0010.
Definition L2CAP_FCR_SUP_SHIFT : Z := 2.
Definition L2CAP_FCR_SUP_BITS : Z := 0x000C.
Definition L2CAP_FCR_INIT_CRC : Z := 0.
Definition L2CAP_FCR_SEQ_MODULO : Z := 0x3F.

Definition L2CAP_FCR_BASIC_MODE : Z := 0.
Definition L2CAP_FCR_ERTM_MODE : Z := 3.
Definition L2CAP_FCR_CHAN_OPT_ALL_MASK : Z := 9.
Definition L2C_FCR_RETX_ALL_PKTS : Z := 0xFF.
Definition L2CAP_FCR_ACK_TIMEOUT_MS : Z := 200.
Definition BT_1SEC_TIMEOUT_MS : Z := 1000.
Definition L2CAP_CHNL_CFG_TIMEOUT_MS : Z := 30000.
Definition L2CAP_MIN_RETRANS_TOUT : Z := 2000.
Definition L2CAP_MIN_MONITOR_TOUT : Z := 12000.
Definition L2CAP_EXTFEA_ENH_RETRANS : Z := 0x08.
Definition L2CAP_EXTFEA_NO_CRC : Z := 0x20.
Definition L2CAP_CFG_UNACCEPTABLE_PARAMS : Z := 1.
Definition L2CAP_CFG_FAILED_NO_REASON : Z := 2.
Definition OB_CFG_DONE : Z := 2.
Definition RECONFIG_FLAG : Z := 4.
Definition L2CAP_PEER_CFG_UNACCEPTABLE : Z := 0.
Definition L2CAP_PEER_CFG_OK : Z := 1.
Definition L2CAP_PEER_CFG_DISCONNECT : Z := 2.
Definition L2CAP_DW_FAILED : Z := 0.
Definition L2CAP_DW_SUCCESS : Z := 1.
Definition L2CAP_DW_CONGESTED : Z := 2.

Definition L2CAP_FLUSHABLE_MASK : Z := 3.
Definition L2CAP_FLUSHABLE_CH_BASED : Z := 0.
Definition L2CAP_NON_FLUSHABLE_PKT : Z := 2.
Definition L2CAP_PKT_START_NON_FLUSHABLE : Z := 0.
Definition L2CAP_PKT_START : Z := 2.
Definition L2CAP_PKT_CONTINUE : Z := 1.
Definition L2CAP_PKT_TYPE_SHIFT : Z := 12.
Definition HCI_DATA_HANDLE_MASK : Z := 0x0FFF.

(** ** Control blocks *)

Inductive tL2C_CHNL_STATE : Type :=
| CST_CLOSED | CST_ORIG_W4_SEC_COMP | CST_TERM_W4_SEC_COMP | CST_W4_L2CAP_CONNECT_RSP | CST_W4_L2CA_CONNECT_RSP
| CST_CONFIG | CST_OPEN | CST_W4_L2CAP_DISCONNECT_RSP | CST_W4_L2CA_DISCONNECT_RSP.

Global Instance tL2C_CHNL_STATE_eq_dec : EqDecision tL2C_CHNL_STATE.
Proof. solve_decision. Defined.

Record tL2CAP_FCR_OPTS : Type := mk_FCR_OPTS {
  fcr_mode : Z;
  tx_win_sz : Z;
  max_transmit : Z;
  rtrans_tout : Z;
  mon_tout : Z;
  fcr_mps : Z;
}.

Global Instance eta_tL2CAP_FCR_OPTS : Eta tL2CAP_FCR_OPTS := fun r =>
  mk_FCR_OPTS (fcr_mode r) (tx_win_sz r) (max_transmit r) (rtrans_tout r) (mon_tout r) (fcr_mps r).
Global Instance set_fcr_mode : Setter fcr_mode := ltac:(solve_setter).
Global Instance set_tx_win_sz : Setter tx_win_sz := ltac:(solve_setter).
Global Instance set_max_transmit : Setter max_transmit := ltac:(solve_setter).
Global Instance set_rtrans_tout : Setter rtrans_tout := ltac:(solve_setter).
Global Instance set_mon_tout : Setter mon_tout := ltac:(solve_setter).
Global Instance set_fcr_mps : Setter fcr_mps := ltac:(solve_setter).

Record FLOW_SPEC : Type := mk_FLOW_SPEC {
  qos_flags : Z;
  service_type : Z;
  token_rate : Z;
  token_bucket_size : Z;
  peak_bandwidth : Z;
  latency : Z;
  delay_variation : Z;
}.

Global Instance eta_FLOW_SPEC : Eta FLOW_SPEC := fun r =>
  mk_FLOW_SPEC (qos_flags r) (service_type r) (token_rate r) (token_bucket_size r) (peak_bandwidth r) (latency r) (delay_variation r).
Global Instance set_qos_flags : Setter qos_flags := ltac:(solve_setter).
Global Instance set_service_type : Setter service_type := ltac:(solve_setter).
Global Instance set_token_rate : Setter token_rate := ltac:(solve_setter).
Global Instance set_token_bucket_size : Setter token_bucket_size := ltac:(solve_setter).
Global Instance set_peak_bandwidth : Setter peak_bandwidth := ltac:(solve_setter).
Global Instance set_latency : Setter latency := ltac:(solve_setter).
Global Instance set_delay_variation : Setter delay_variation := ltac:(solve_setter).

Record tHCI_EXT_FLOW_SPEC : Type := mk_EXT_FLOW_SPEC {
  ext_id : Z;
  ext_stype : Z;
  ext_max_sdu_size : Z;
  ext_sdu_inter_time : Z;
  ext_access_latency : Z;
  ext_flush_timeout : Z;
}.

Global Instance eta_tHCI_EXT_FLOW_SPEC : Eta tHCI_EXT_FLOW_SPEC := fun r =>
  mk_EXT_FLOW_SPEC (ext_id r) (ext_stype r) (ext_max_sdu_size r) (ext_sdu_inter_time r) (ext_access_latency r) (ext_flush_timeout r).
Global Instance set_ext_id : Setter ext_id := ltac:(solve_setter).
Global Instance set_ext_stype : Setter ext_stype := ltac:(solve_setter).
Global Instance set_ext_max_sdu_size : Setter ext_max_sdu_size := ltac:(solve_setter).
Global Instance set_ext_sdu_inter_time : Setter ext_sdu_inter_time := ltac:(solve_setter).
Global Instance set_ext_access_latency : Setter ext_access_latency := ltac:(solve_setter).
Global Instance set_ext_flush_timeout : Setter ext_flush_timeout := ltac:(solve_setter).

Record tL2CAP_CFG_INFO : Type := mk_CFG_INFO {
  cfg_result : Z;
  mtu_present : bool;
  cfg_mtu : Z;
  fcr_present : bool;
  cfg_fcr : tL2CAP_FCR_OPTS;
  fcs_present : bool;
  cfg_fcs : Z;
  ext_flow_spec_present : bool;
  qos_present : bool;
  cfg_qos : FLOW_SPEC;
  flush_to_present : bool;
  cfg_flush_to : Z;
  cfg_ext_flow_spec : tHCI_EXT_FLOW_SPEC;
  cfg_flags : Z;
}.

Global Instance eta_tL2CAP_CFG_INFO : Eta tL2CAP_CFG_INFO := fun r =>
  mk_CFG_INFO (cfg_result r) (mtu_present r) (cfg_mtu r) (fcr_present r) (cfg_fcr r) (fcs_present r) (cfg_fcs r) (ext_flow_spec_present r) (qos_present r) (cfg_qos r) (flush_to_present r) (cfg_flush_to r) (cfg_ext_flow_spec r) (cfg_flags r).
Global Instance set_cfg_result : Setter cfg_result := ltac:(solve_setter).
Global Instance set_mtu_present : Setter mtu_present := ltac:(solve_setter).
Global Instance set_cfg_mtu : Setter cfg_mtu := ltac:(solve_setter).
Global Instance set_fcr_present : Setter fcr_present := ltac:(solve_setter).
Global Instance set_cfg_fcr : Setter cfg_fcr := ltac:(solve_setter).
Global Instance set_fcs_present : Setter fcs_present := ltac:(solve_setter).
Global Instance set_cfg_fcs : Setter cfg_fcs := ltac:(solve_setter).
Global Instance set_ext_flow_spec_present : Setter ext_flow_spec_present := ltac:(solve_setter).
Global Instance set_qos_present : Setter qos_present := ltac:(solve_setter).
Global Instance set_cfg_qos : Setter cfg_qos := ltac:(solve_setter).
Global Instance set_flush_to_present : Setter flush_to_present := ltac:(solve_setter).
Global Instance set_cfg_flush_to : Setter cfg_flush_to := ltac:(solve_setter).
Global Instance set_cfg_ext_flow_spec : Setter cfg_ext_flow_spec := ltac:(solve_setter).
Global Instance set_cfg_flags : Setter cfg_flags := ltac:(solve_setter).

Record tL2CAP_LE_CFG_INFO : Type := mk_LE_CFG {
  le_mtu : Z;
  le_mps : Z;
  le_credits : Z;
}.

Global Instance eta_tL2CAP_LE_CFG_INFO : Eta tL2CAP_LE_CFG_INFO := fun r =>
  mk_LE_CFG (le_mtu r) (le_mps r) (le_credits r).
Global Instance set_le_mtu : Setter le_mtu := ltac:(solve_setter).
Global Instance set_le_mps : Setter le_mps := ltac:(solve_setter).
Global Instance set_le_credits : Setter le_credits := ltac:(solve_setter).

(** The registration: which of the callbacks there are that it may leave out, the mode it prefers, and its other parameters. *)
Record tL2C_RCB : Type := mk_RCB {
  has_TxComplete_Cb : bool;
  has_DataInd_Cb : bool;
  has_CongestionStatus_Cb : bool;
  preferred_mode : Z;
  has_ConnectInd_Cb : bool;
  has_ConnectCfm_Cb : bool;
  has_ConfigInd_Cb : bool;
  has_Error_Cb : bool;
  has_DisconnectCfm_Cb : bool;
  rcb_psm : Z;
  real_psm : Z;
  my_mtu : Z;
  rcb_required_remote_mtu : Z;
}.

Global Instance eta_tL2C_RCB : Eta tL2C_RCB := fun r =>
  mk_RCB (has_TxComplete_Cb r) (has_DataInd_Cb r) (has_CongestionStatus_Cb r) (preferred_mode r) (has_ConnectInd_Cb r) (has_ConnectCfm_Cb r) (has_ConfigInd_Cb r) (has_Error_Cb r) (has_DisconnectCfm_Cb r) (rcb_psm r) (real_psm r) (my_mtu r) (rcb_required_remote_mtu r).
Global Instance set_has_TxComplete_Cb : Setter has_TxComplete_Cb := ltac:(solve_setter).
Global Instance set_has_DataInd_Cb : Setter has_DataInd_Cb := ltac:(solve_setter).
Global Instance set_has_CongestionStatus_Cb : Setter has_CongestionStatus_Cb := ltac:(solve_setter).
Global Instance set_preferred_mode : Setter preferred_mode := ltac:(solve_setter).
Global Instance set_has_ConnectInd_Cb : Setter has_ConnectInd_Cb := ltac:(solve_setter).
Global Instance set_has_ConnectCfm_Cb : Setter has_ConnectCfm_Cb := ltac:(solve_setter).
Global Instance set_has_ConfigInd_Cb : Setter has_ConfigInd_Cb := ltac:(solve_setter).
Global Instance set_has_Error_Cb : Setter has_Error_Cb := ltac:(solve_setter).
Global Instance set_has_DisconnectCfm_Cb : Setter has_DisconnectCfm_Cb := ltac:(solve_setter).
Global Instance set_rcb_psm : Setter rcb_psm := ltac:(solve_setter).
Global Instance set_real_psm : Setter real_psm := ltac:(solve_setter).
Global Instance set_my_mtu : Setter my_mtu := ltac:(solve_setter).
Global Instance set_rcb_required_remote_mtu : Setter rcb_required_remote_mtu := ltac:(solve_setter).

Record tL2C_FCRB : Type := mk_FCRB {
  next_tx_seq : Z;
  last_rx_ack : Z;
  next_seq_expected : Z;
  last_ack_sent : Z;
  num_tries : Z;
  max_held_acks : Z;
  remote_busy : bool;
  rej_sent : bool;
  srej_sent : bool;
  wait_ack : bool;
  rej_after_srej : bool;
  send_f_rsp : bool;
  rx_sdu_len : Z;
  p_rx_sdu : option BT_HDR;
  waiting_for_ack_q : fixed_queue;
  srej_rcv_hold_q : fixed_queue;
  retrans_q : fixed_queue;
  ack_timer : alarm;
  mon_retrans_timer : alarm;
}.

Global Instance eta_tL2C_FCRB : Eta tL2C_FCRB := fun r =>
  mk_FCRB (next_tx_seq r) (last_rx_ack r) (next_seq_expected r) (last_ack_sent r) (num_tries r) (max_held_acks r) (remote_busy r) (rej_sent r) (srej_sent r) (wait_ack r) (rej_after_srej r) (send_f_rsp r) (rx_sdu_len r) (p_rx_sdu r) (waiting_for_ack_q r) (srej_rcv_hold_q r) (retrans_q r) (ack_timer r) (mon_retrans_timer r).
Global Instance set_next_tx_seq : Setter next_tx_seq := ltac:(solve_setter).
Global Instance set_last_rx_ack : Setter last_rx_ack := ltac:(solve_setter).
Global Instance set_next_seq_expected : Setter next_seq_expected := ltac:(solve_setter).
Global Instance set_last_ack_sent : Setter last_ack_sent := ltac:(solve_setter).
Global Instance set_num_tries : Setter num_tries := ltac:(solve_setter).
Global Instance set_max_held_acks : Setter max_held_acks := ltac:(solve_setter).
Global Instance set_remote_busy : Setter remote_busy := ltac:(solve_setter).
Global Instance set_rej_sent : Setter rej_sent := ltac:(solve_setter).
Global Instance set_srej_sent : Setter srej_sent := ltac:(solve_setter).
Global Instance set_wait_ack : Setter wait_ack := ltac:(solve_setter).
Global Instance set_rej_after_srej : Setter rej_after_srej := ltac:(solve_setter).
Global Instance set_send_f_rsp : Setter send_f_rsp := ltac:(solve_setter).
Global Instance set_rx_sdu_len : Setter rx_sdu_len := ltac:(solve_setter).
Global Instance set_p_rx_sdu : Setter p_rx_sdu := ltac:(solve_setter).
Global Instance set_waiting_for_ack_q : Setter waiting_for_ack_q := ltac:(solve_setter).
Global Instance set_srej_rcv_hold_q : Setter srej_rcv_hold_q := ltac:(solve_setter).
Global Instance set_retrans_q : Setter retrans_q := ltac:(solve_setter).
Global Instance set_ack_timer : Setter ack_timer := ltac:(solve_setter).
Global Instance set_mon_retrans_timer : Setter mon_retrans_timer := ltac:(solve_setter).

(** [memset(p_fcrb, 0, sizeof(tL2C_FCRB))] *)
Definition zero_FCRB : tL2C_FCRB :=
  mk_FCRB 0 0 0 0 0 0 false false false false false false 0 None None None None None None.

Record tL2C_LCB : Type := mk_LCB {
  lcb_handle : Z;
  lcb_le : bool;  (* [transport == BT_TRANSPORT_LE] *)
  link_connected : bool;  (* [link_state == LST_CONNECTED] *)
  high_priority : bool;  (* [acl_priority == L2CAP_PRIORITY_HIGH] *)
  link_xmit_quota : Z;
  sent_not_acked : Z;
  link_xmit_data_q : list BT_HDR;
  signal_id : Z;
  peer_ext_fea : Z;
  w4_info_rsp : bool;
  info_resp_timer : alarm;
  cur_echo_id : Z;
  peer_chnl_mask : list Z;
  lcb_index : Z;  (* the control block is [l2cb.lcb_pool[lcb_index]] *)
}.

Global Instance eta_tL2C_LCB : Eta tL2C_LCB := fun r =>
  mk_LCB (lcb_handle r) (lcb_le r) (link_connected r) (high_priority r) (link_xmit_quota r) (sent_not_acked r) (link_xmit_data_q r) (signal_id r) (peer_ext_fea r) (w4_info_rsp r) (info_resp_timer r) (cur_echo_id r) (peer_chnl_mask r) (lcb_index r).
Global Instance set_lcb_handle : Setter lcb_handle := ltac:(solve_setter).
Global Instance set_lcb_le : Setter lcb_le := ltac:(solve_setter).
Global Instance set_link_connected : Setter link_connected := ltac:(solve_setter).
Global Instance set_high_priority : Setter high_priority := ltac:(solve_setter).
Global Instance set_link_xmit_quota : Setter link_xmit_quota := ltac:(solve_setter).
Global Instance set_sent_not_acked : Setter sent_not_acked := ltac:(solve_setter).
Global Instance set_link_xmit_data_q : Setter link_xmit_data_q := ltac:(solve_setter).
Global Instance set_signal_id : Setter signal_id := ltac:(solve_setter).
Global Instance set_peer_ext_fea : Setter peer_ext_fea := ltac:(solve_setter).
Global Instance set_w4_info_rsp : Setter w4_info_rsp := ltac:(solve_setter).
Global Instance set_info_resp_timer : Setter info_resp_timer := ltac:(solve_setter).
Global Instance set_cur_echo_id : Setter cur_echo_id := ltac:(solve_setter).
Global Instance set_peer_chnl_mask : Setter peer_chnl_mask := ltac:(solve_setter).
Global Instance set_lcb_index : Setter lcb_index := ltac:(solve_setter).

Record tL2C_CCB : Type := mk_CCB {
  in_use : bool;
  chnl_state : tL2C_CHNL_STATE;
  local_conn_cfg : tL2CAP_LE_CFG_INFO;
  peer_conn_cfg : tL2CAP_LE_CFG_INFO;
  is_first_seg : bool;
  ble_sdu : option BT_HDR;
  ble_sdu_length : Z;
  has_lcb : bool;  (* [p_lcb] is not null *)
  local_cid : Z;
  remote_cid : Z;
  l2c_ccb_timer : alarm;
  p_rcb : option tL2C_RCB;
  config_done : Z;
  local_id : Z;
  our_cfg : tL2CAP_CFG_INFO;
  peer_cfg : tL2CAP_CFG_INFO;
  cong_sent : bool;
  buff_quota : Z;
  xmit_hold_q : fixed_queue;
  fcrb : tL2C_FCRB;
  tx_mps : Z;
  max_rx_mtu : Z;
  fcr_cfg_tries : Z;
  peer_cfg_already_rejected : bool;
  out_cfg_fcr_present : bool;
  is_flushable : bool;
  remote_credit_count : Z;
  ccb_flags : Z;
  remote_id : Z;
  initiator_local : bool;  (* [connection_initiator == L2CAP_INITIATOR_LOCAL] *)
  remote_config_rsp_result : Z;
  tx_data_rate : Z;
  rx_data_rate : Z;
}.

Global Instance eta_tL2C_CCB : Eta tL2C_CCB := fun r =>
  mk_CCB (in_use r) (chnl_state r) (local_conn_cfg r) (peer_conn_cfg r) (is_first_seg r) (ble_sdu r) (ble_sdu_length r) (has_lcb r) (local_cid r) (remote_cid r) (l2c_ccb_timer r) (p_rcb r) (config_done r) (local_id r) (our_cfg r) (peer_cfg r) (cong_sent r) (buff_quota r) (xmit_hold_q r) (fcrb r) (tx_mps r) (max_rx_mtu r) (fcr_cfg_tries r) (peer_cfg_already_rejected r) (out_cfg_fcr_present r) (is_flushable r) (remote_credit_count r) (ccb_flags r) (remote_id r) (initiator_local r) (remote_config_rsp_result r) (tx_data_rate r) (rx_data_rate r).
Global Instance set_in_use : Setter in_use := ltac:(solve_setter).
Global Instance set_chnl_state : Setter chnl_state := ltac:(solve_setter).
Global Instance set_local_conn_cfg : Setter local_conn_cfg := ltac:(solve_setter).
Global Instance set_peer_conn_cfg : Setter peer_conn_cfg := ltac:(solve_setter).
Global Instance set_is_first_seg : Setter is_first_seg := ltac:(solve_setter).
Global Instance set_ble_sdu : Setter ble_sdu := ltac:(solve_setter).
Global Instance set_ble_sdu_length : Setter ble_sdu_length := ltac:(solve_setter).
Global Instance set_has_lcb : Setter has_lcb := ltac:(solve_setter).
Global Instance set_local_cid : Setter local_cid := ltac:(solve_setter).
Global Instance set_remote_cid : Setter remote_cid := ltac:(solve_setter).
Global Instance set_l2c_ccb_timer : Setter l2c_ccb_timer := ltac:(solve_setter).
Global Instance set_p_rcb : Setter p_rcb := ltac:(solve_setter).
Global Instance set_config_done : Setter config_done := ltac:(solve_setter).
Global Instance set_local_id : Setter local_id := ltac:(solve_setter).
Global Instance set_our_cfg : Setter our_cfg := ltac:(solve_setter).
Global Instance set_peer_cfg : Setter peer_cfg := ltac:(solve_setter).
Global Instance set_cong_sent : Setter cong_sent := ltac:(solve_setter).
Global Instance set_buff_quota : Setter buff_quota := ltac:(solve_setter).
Global Instance set_xmit_hold_q : Setter xmit_hold_q := ltac:(solve_setter).
Global Instance set_fcrb : Setter fcrb := ltac:(solve_setter).
Global Instance set_tx_mps : Setter tx_mps := ltac:(solve_setter).
Global Instance set_max_rx_mtu : Setter max_rx_mtu := ltac:(solve_setter).
Global Instance set_fcr_cfg_tries : Setter fcr_cfg_tries := ltac:(solve_setter).
Global Instance set_peer_cfg_already_rejected : Setter peer_cfg_already_rejected := ltac:(solve_setter).
Global Instance set_out_cfg_fcr_present : Setter out_cfg_fcr_present := ltac:(solve_setter).
Global Instance set_is_flushable : Setter is_flushable := ltac:(solve_setter).
Global Instance set_remote_credit_count : Setter remote_credit_count := ltac:(solve_setter).
Global Instance set_ccb_flags : Setter ccb_flags := ltac:(solve_setter).
Global Instance set_remote_id : Setter remote_id := ltac:(solve_setter).
Global Instance set_initiator_local : Setter initiator_local := ltac:(solve_setter).
Global Instance set_remote_config_rsp_result : Setter remote_config_rsp_result := ltac:(solve_setter).
Global Instance set_tx_data_rate : Setter tx_data_rate := ltac:(solve_setter).
Global Instance set_rx_data_rate : Setter rx_data_rate := ltac:(solve_setter).

(** How the buffers of the controller are shared out, for BR/EDR and for LE links. *)
Record tL2C_CB : Type := mk_CB {
  controller_xmit_window : Z;
  round_robin_quota : Z;
  round_robin_unacked : Z;
  check_round_robin : bool;
  controller_le_xmit_window : Z;
  ble_round_robin_quota : Z;
  ble_round_robin_unacked : Z;
  ble_check_round_robin : bool;
}.

Global Instance eta_tL2C_CB : Eta tL2C_CB := fun r =>
  mk_CB (controller_xmit_window r) (round_robin_quota r) (round_robin_unacked r) (check_round_robin r)
    (controller_le_xmit_window r) (ble_round_robin_quota r) (ble_round_robin_unacked r) (ble_check_round_robin r).
Global Instance set_controller_xmit_window : Setter controller_xmit_window := ltac:(solve_setter).
Global Instance set_round_robin_quota : Setter round_robin_quota := ltac:(solve_setter).
Global Instance set_round_robin_unacked : Setter round_robin_unacked := ltac:(solve_setter).
Global Instance set_check_round_robin : Setter check_round_robin := ltac:(solve_setter).
Global Instance set_controller_le_xmit_window : Setter controller_le_xmit_window := ltac:(solve_setter).
Global Instance set_ble_round_robin_quota : Setter ble_round_robin_quota := ltac:(solve_setter).
Global Instance set_ble_round_robin_unacked : Setter ble_round_robin_unacked := ltac:(solve_setter).
Global Instance set_ble_check_round_robin : Setter ble_check_round_robin := ltac:(solve_setter).

(** ** State *)

(** What the state machine of the channel tells the application, the manager of security and the link. *)
Inductive csm_out : Type :=
| OConnectInd (cid psm id : Z)
| OConnectCfm (cid result : Z)
| OConfigCfm (cid : Z) (local : bool) (cfg : tL2CAP_CFG_INFO)
| OConfigInd (cid : Z) (cfg : tL2CAP_CFG_INFO)
| OError (cid reason : Z)
| ODisconnectConf (cid : Z)  (* [pL2CA_DisconnectInd_Cb(cid, true)] *)
| ODisconnectCfm (cid result : Z)
| OSecAccess (psm : Z) (originator : bool)
| OSecAbort
| OConnCollision
| OAclDisconnect
| OIdleTimeoutZero
| OLcbTimerCancel
| OFixedConn (cid : Z) (connected : bool)
| OOtherCmd (cid : Z) (code : Z).

(** What the channel does to the outside, newest first in the state: a packet handed to the
    controller; data, a completed transmission, a disconnection or the congestion status indicated to
    the application; a fixed channel's data; and calls of parts of L2CAP that are not modelled. *)
Inductive l2c_out : Type :=
| OAcl (p : BT_HDR)
| ODataInd (cid : Z) (p : BT_HDR)
| OFixedData (cid : Z) (p : BT_HDR)
| OTxComplete (cid : Z) (num : Z)
| ODisconnectInd (cid : Z)
| OCongestion (cid : Z) (status : bool)
| OReleased (cid : Z)
| OOtherChannel (cid : Z) (p : BT_HDR)
| OTimeout (cid : Z)
| OLcbTimer
| OCreditsDue (cid : Z) (credits : Z)
| OCsm (o : csm_out).

(** One channel, the link it is on, and the shares of the controller. *)
Record l2c : Type := mk_l2c {
  ccb : tL2C_CCB;
  lcb : tL2C_LCB;
  cb : tL2C_CB;
  outs : list l2c_out;
}.

Global Instance eta_l2c : Eta l2c := fun r =>
  mk_l2c (ccb r) (lcb r) (cb r) (outs r).
Global Instance set_ccb : Setter ccb := ltac:(solve_setter).
Global Instance set_lcb : Setter lcb := ltac:(solve_setter).
Global Instance set_cb : Setter cb := ltac:(solve_setter).
Global Instance set_outs : Setter outs := ltac:(solve_setter).

(** What the model is given: the packet boundary flag for packets that are not flushable, the size of
    the controller's buffers, whether the application has registered for a fixed channel's data
    and for its congestion status, the credits kept with the peer; and, depending on everything that has
    happened, whether the power mode of the link is about to change, the other control block at which the round
    robin for a single write breaks off, if any, and the transports of the other control blocks. *)
Class LinkEnv := {
  non_flushable_pbf : Z;
  acl_data_size : Z;
  fixed_reg : Z -> bool;
  fixed_cong_reg : Z -> bool;
  le_credit_threshold : Z;
  le_credit_default : Z;
  pm_pending : list l2c_out -> bool;
  rr_stop : list l2c_out -> option Z;
  lcb_pool_le : list l2c_out -> Z -> bool;
}.

Definition L (A : Type) : Type := l2c -> outcome (A * l2c).

Global Instance L_ret : MRet L := fun A a s => Ok (a, s).
Global Instance L_bind : MBind L := fun A B f m s =>
  match m s with Ok (a, s) => f a s | Crash c => Crash c end.

Definition get : L l2c := fun s => Ok (s, s).
Definition modify (f : l2c -> l2c) : L unit := fun s => Ok (tt, f s).
Definition lift {A} (o : outcome A) : L A := fun s => match o with Ok a => Ok (a, s) | Crash c => Crash c end.
Definition crash_with {A} (c : crash) : L A := fun _ => Crash c.
Definition skip : L unit := mret tt.
Definition when (b : bool) (m : L unit) : L unit := if b then m else skip.
Definition emit (o : l2c_out) : L unit := modify (fun s => s <| outs ::= cons o |>).

Definition get_ccb : L tL2C_CCB := s ← get; mret (ccb s).
Definition get_fcrb : L tL2C_FCRB := s ← get; mret (fcrb (ccb s)).
Definition upd_ccb (f : tL2C_CCB -> tL2C_CCB) : L unit := modify (fun s => s <| ccb ::= f |>).
Definition upd_cb (f : tL2C_CB -> tL2C_CB) : L unit := modify (fun s => s <| cb ::= f |>).
Definition upd_fcrb (f : tL2C_FCRB -> tL2C_FCRB) : L unit := upd_ccb (fun c => c <| fcrb ::= f |>).

(** Access to the link itself. *)
Definition get_link : L tL2C_LCB := s ← get; mret (lcb s).
Definition upd_link (f : tL2C_LCB -> tL2C_LCB) : L unit := modify (fun s => s <| lcb ::= f |>).

(** Access through [p_ccb->p_lcb] and [p_ccb->p_rcb]. *)
Definition get_lcb : L tL2C_LCB := s ← get; if has_lcb (ccb s) then mret (lcb s) else crash_with NullDeref.
Definition upd_lcb (f : tL2C_LCB -> tL2C_LCB) : L unit := get_lcb;; modify (fun s => s <| lcb ::= f |>).
Definition get_rcb : L tL2C_RCB :=
  c ← get_ccb; match p_rcb c with Some r => mret r | None => crash_with NullDeref end.

(** ** Bytes *)

(** [UINT16_TO_STREAM] and [STREAM_TO_UINT16]. *)
Definition le16 (x : Z) : list Z := [u8 x; u8 (x .>> 8)].

Definition read16 (b : BT_HDR) (pos : Z) : outcome Z :=
  lo ← bh_read b pos;
  hi ← bh_read b (pos + 1);
  mret (lo + (hi .<< 8)).
