(* ===== verification/L2cFcr.v ===== *)
(** * L2cFcr: retransmission, segmentation and reassembly in L2CAP

    The functions of src/system/stack/l2cap/l2c_fcr.cc, with what they call of l2c_utils.cc,
    l2c_csm.cc, l2c_link.cc and l2c_main.cc on behalf of the same channel.  Freed buffers disappear;
    log lines are left out. *)

From Stdlib Require Import ZArith Lia.
From stdpp Require Import base list.
From S2P Require Import Prelude Osi L2cDefs.

(** ** Frame check sequence *)

Definition crctab : list Z := [
  0x0000; 0xc0c1; 0xc181; 0x0140; 0xc301; 0x03c0; 0x0280; 0xc241; 0xc601; 0x06c0; 0x0780; 0xc741;
  0x0500; 0xc5c1; 0xc481; 0x0440; 0xcc01; 0x0cc0; 0x0d80; 0xcd41; 0x0f00; 0xcfc1; 0xce81; 0x0e40;
  0x0a00; 0xcac1; 0xcb81; 0x0b40; 0xc901; 0x09c0; 0x0880; 0xc841; 0xd801; 0x18c0; 0x1980; 0xd941;
  0x1b00; 0xdbc1; 0xda81; 0x1a40; 0x1e00; 0xdec1; 0xdf81; 0x1f40; 0xdd01; 0x1dc0; 0x1c80; 0xdc41;
  0x1400; 0xd4c1; 0xd581; 0x1540; 0xd701; 0x17c0; 0x1680; 0xd641; 0xd201; 0x12c0; 0x1380; 0xd341;
  0x1100; 0xd1c1; 0xd081; 0x1040; 0xf001; 0x30c0; 0x3180; 0xf141; 0x3300; 0xf3c1; 0xf281; 0x3240;
  0x3600; 0xf6c1; 0xf781; 0x3740; 0xf501; 0x35c0; 0x3480; 0xf441; 0x3c00; 0xfcc1; 0xfd81; 0x3d40;
  0xff01; 0x3fc0; 0x3e80; 0xfe41; 0xfa01; 0x3ac0; 0x3b80; 0xfb41; 0x3900; 0xf9c1; 0xf881; 0x3840;
  0x2800; 0xe8c1; 0xe981; 0x2940; 0xeb01; 0x2bc0; 0x2a80; 0xea41; 0xee01; 0x2ec0; 0x2f80; 0xef41;
  0x2d00; 0xedc1; 0xec81; 0x2c40; 0xe401; 0x24c0; 0x2580; 0xe541; 0x2700; 0xe7c1; 0xe681; 0x2640;
  0x2200; 0xe2c1; 0xe381; 0x2340; 0xe101; 0x21c0; 0x2080; 0xe041; 0xa001; 0x60c0; 0x6180; 0xa141;
  0x6300; 0xa3c1; 0xa281; 0x6240; 0x6600; 0xa6c1; 0xa781; 0x6740; 0xa501; 0x65c0; 0x6480; 0xa441;
  0x6c00; 0xacc1; 0xad81; 0x6d40; 0xaf01; 0x6fc0; 0x6e80; 0xae41; 0xaa01; 0x6ac0; 0x6b80; 0xab41;
  0x6900; 0xa9c1; 0xa881; 0x6840; 0x7800; 0xb8c1; 0xb981; 0x7940; 0xbb01; 0x7bc0; 0x7a80; 0xba41;
  0xbe01; 0x7ec0; 0x7f80; 0xbf41; 0x7d00; 0xbdc1; 0xbc81; 0x7c40; 0xb401; 0x74c0; 0x7580; 0xb541;
  0x7700; 0xb7c1; 0xb681; 0x7640; 0x7200; 0xb2c1; 0xb381; 0x7340; 0xb101; 0x71c0; 0x7080; 0xb041;
  0x5000; 0x90c1; 0x9181; 0x5140; 0x9301; 0x53c0; 0x5280; 0x9241; 0x9601; 0x56c0; 0x5780; 0x9741;
  0x5500; 0x95c1; 0x9481; 0x5440; 0x9c01; 0x5cc0; 0x5d80; 0x9d41; 0x5f00; 0x9fc1; 0x9e81; 0x5e40;
  0x5a00; 0x9ac1; 0x9b81; 0x5b40; 0x9901; 0x59c0; 0x5880; 0x9841; 0x8801; 0x48c0; 0x4980; 0x8941;
  0x4b00; 0x8bc1; 0x8a81; 0x4a40; 0x4e00; 0x8ec1; 0x8f81; 0x4f40; 0x8d01; 0x4dc0; 0x4c80; 0x8c41;
  0x4400; 0x84c1; 0x8581; 0x4540; 0x8701; 0x47c0; 0x4680; 0x8641; 0x8201; 0x42c0; 0x4380; 0x8341;
  0x4100; 0x81c1; 0x8081; 0x4040
].

Fixpoint l2c_fcr_updcrc (crc : Z) (p : list Z) : Z :=
  match p with
  | [] => crc
  | b :: p => l2c_fcr_updcrc (Z.lxor ((crc .>> 8) .& 0xff) (nth (Z.to_nat (Z.lxor (crc .& 0xff) b)) crctab 0)) p
  end.

Definition l2c_fcr_tx_get_fcs (p_buf : BT_HDR) : outcome Z :=
  p ← bh_read_bytes p_buf (bh_offset p_buf) (bh_len p_buf);
  mret (l2c_fcr_updcrc L2CAP_FCR_INIT_CRC p).

Definition l2c_fcr_rx_get_fcs (p_buf : BT_HDR) : outcome Z :=
  p ← bh_read_bytes p_buf (bh_offset p_buf - L2CAP_PKT_OVERHEAD) (bh_len p_buf + L2CAP_PKT_OVERHEAD);
  mret (l2c_fcr_updcrc L2CAP_FCR_INIT_CRC p).

(** ** Timers and buffers *)

Definition alarm_is_scheduled (a : alarm) : bool := match a with Some (Some _) => true | _ => false end.

Definition set_mon_retrans_timer (ms : Z) : L unit :=
  f ← get_fcrb;
  a ← lift (alarm_set_on_mloop (mon_retrans_timer f) ms);
  upd_fcrb (fun f => f <| mon_retrans_timer := a |>).

Definition l2c_fcr_start_timer : L unit :=
  c ← get_ccb;
  let tout := if wait_ack (fcrb c) then mon_tout (cfg_fcr (our_cfg c)) else rtrans_tout (cfg_fcr (our_cfg c)) in
  if alarm_is_scheduled (mon_retrans_timer (fcrb c)) then skip else set_mon_retrans_timer tout.

Definition l2c_fcr_stop_timer : L unit := upd_fcrb (fun f => f <| mon_retrans_timer ::= alarm_cancel |>).

Definition cancel_ack_timer : L unit := upd_fcrb (fun f => f <| ack_timer ::= alarm_cancel |>).

(** The timers and queues are freed and their pointers cleared with the rest of the block. *)
Definition l2c_fcr_cleanup : L unit := upd_fcrb (fun _ => zero_FCRB).

Definition l2c_fcr_clone_buf (p_buf : BT_HDR) (new_offset no_of_bytes : Z) : outcome BT_HDR :=
  let buf_size := u16 (no_of_bytes + sizeof_BT_HDR + new_offset + L2CAP_FCS_LEN) in
  let p_buf2 := (osi_malloc buf_size) <| bh_offset := new_offset |> <| bh_len := no_of_bytes |> in
  data ← bh_read_bytes p_buf (bh_offset p_buf) no_of_bytes;
  bh_write p_buf2 (bh_offset p_buf2) data.

Definition l2c_fcr_is_flow_controlled (c : tL2C_CCB) : bool :=
  if fcr_mode (cfg_fcr (peer_cfg c)) =? L2CAP_FCR_ERTM_MODE then
    remote_busy (fcrb c) || (tx_win_sz (cfg_fcr (peer_cfg c)) <=? fixed_queue_length (waiting_for_ack_q (fcrb c)))
  else false.

(** ** Sending an I-frame *)

Definition prepare_I_frame (p_buf : BT_HDR) (is_retransmission : bool) : L BT_HDR :=
  f ← get_fcrb;
  let set_f_bit := send_f_rsp f in
  upd_fcrb (fun f => f <| send_f_rsp := false |>);;
  ctrl_word ←
    (if is_retransmission then
       w ← lift (read16 p_buf (bh_offset p_buf + L2CAP_PKT_OVERHEAD));
       mret (w .&~ (L2CAP_FCR_REQ_SEQ_BITS + L2CAP_FCR_F_BIT))
     else
       upd_fcrb (fun f => f <| next_tx_seq ::= fun n => (n + 1) .& L2CAP_FCR_SEQ_MODULO |>);;
       mret ((bh_layer_specific p_buf .& L2CAP_FCR_SEG_BITS) .| (next_tx_seq f .<< L2CAP_FCR_TX_SEQ_BITS_SHIFT)));
  c ← get_ccb;
  let ertm := fcr_mode (cfg_fcr (peer_cfg c)) =? L2CAP_FCR_ERTM_MODE in
  ctrl_word ←
    (if ertm then
       upd_fcrb (fun f => f <| last_ack_sent := next_seq_expected f |>);;
       cancel_ack_timer;;
       mret ((if set_f_bit then ctrl_word .| L2CAP_FCR_F_BIT else ctrl_word)
             .| (next_seq_expected f .<< L2CAP_FCR_REQ_SEQ_BITS_SHIFT))
     else mret ctrl_word);
  p_buf ← lift (bh_write p_buf (bh_offset p_buf + L2CAP_PKT_OVERHEAD) (le16 (u16 ctrl_word)));
  p_buf ← lift (bh_write p_buf (bh_offset p_buf) (le16 (bh_len p_buf + L2CAP_FCS_LEN - L2CAP_PKT_OVERHEAD)));
  fcs ← lift (l2c_fcr_tx_get_fcs p_buf);
  p_buf ← lift (bh_write p_buf (bh_offset p_buf + bh_len p_buf) (le16 fcs));
  let p_buf := p_buf <| bh_len ::= fun n => u16 (n + L2CAP_FCS_LEN) |> in
  when ertm l2c_fcr_start_timer;;
  mret p_buf.

(** ** The next packet of the channel *)

(** The header of a segment, its number, and the copy kept until it is acknowledged. *)
Definition finish_segment (remote_cid : Z) (p_xmit : BT_HDR) (first_seg mid_seg last_seg : bool) (sdu_len : Z) : L (option BT_HDR) :=
  let p_xmit := p_xmit <| bh_offset ::= fun n => u16 (n - (L2CAP_PKT_OVERHEAD + L2CAP_FCR_OVERHEAD)) |>
                       <| bh_len ::= fun n => u16 (n + (L2CAP_PKT_OVERHEAD + L2CAP_FCR_OVERHEAD)) |> in
  let p_xmit :=
    if first_seg then p_xmit <| bh_offset ::= fun n => u16 (n - L2CAP_SDU_LEN_OVERHEAD) |>
                             <| bh_len ::= fun n => u16 (n + L2CAP_SDU_LEN_OVERHEAD) |>
    else p_xmit in
  p_xmit ← lift (bh_write p_xmit (bh_offset p_xmit)
                   (le16 (bh_len p_xmit - L2CAP_PKT_OVERHEAD) ++ le16 remote_cid));
  p_xmit ←
    (if first_seg then
       p_xmit ← lift (bh_write p_xmit (bh_offset p_xmit + 6) (le16 sdu_len));
       mret (p_xmit <| bh_layer_specific ::= fun l => l .| L2CAP_FCR_START_SDU |>)
     else mret (p_xmit <| bh_layer_specific ::= fun l =>
            l .| (if mid_seg then L2CAP_FCR_CONT_SDU
                  else if last_seg then L2CAP_FCR_END_SDU else L2CAP_FCR_UNSEG_SDU) |>));
  p_xmit ← prepare_I_frame p_xmit false;
  c ← get_ccb;
  (if fcr_mode (cfg_fcr (peer_cfg c)) =? L2CAP_FCR_ERTM_MODE then
     p_wack ← lift (l2c_fcr_clone_buf p_xmit HCI_DATA_PREAMBLE_SIZE (bh_len p_xmit));
     let p_wack := p_wack <| bh_len ::= fun n => u16 (n - L2CAP_FCS_LEN) |>
                          <| bh_layer_specific := bh_layer_specific p_xmit |> in
     q ← lift (fixed_queue_enqueue (waiting_for_ack_q (fcrb c)) p_wack);
     upd_fcrb (fun f => f <| waiting_for_ack_q := q |>)
   else skip);;
  mret (Some p_xmit).

Definition l2c_fcr_get_next_xmit_sdu_seg (max_packet_length : Z) : L (option BT_HDR) :=
  c ← get_ccb;
  match fixed_queue_try_dequeue (retrans_q (fcrb c)) with
  | Some (p_buf, q) =>
      upd_fcrb (fun f => f <| retrans_q := q |>);;
      p_buf ← prepare_I_frame p_buf true;
      mret (Some (p_buf <| bh_event := local_cid c |>))
  | None =>
      let max_pdu := tx_mps c in
      let max_pdu :=
        if (L2CAP_MAX_HEADER_FCS <? max_packet_length) && (max_packet_length <? max_pdu + L2CAP_MAX_HEADER_FCS)
        then u16 (max_packet_length - L2CAP_MAX_HEADER_FCS) else max_pdu in
      match fixed_queue_try_peek_first (xmit_hold_q c) with
      | None => crash_with NullDeref
      | Some p_buf =>
          '(p_xmit, first_seg, mid_seg, last_seg, sdu_len) ←
            (if max_pdu <? bh_len p_buf then
               let first_seg := bh_event p_buf =? 0 in
               let sdu_len := if first_seg then bh_len p_buf else 0 in
               p_xmit ← lift (l2c_fcr_clone_buf p_buf (L2CAP_MIN_OFFSET + L2CAP_SDU_LEN_OFFSET) max_pdu);
               let p_buf := p_buf <| bh_event := local_cid c |> <| bh_len ::= fun n => u16 (n - max_pdu) |>
                              <| bh_offset ::= fun n => u16 (n + max_pdu) |> in
               upd_ccb (fun c => c <| xmit_hold_q ::= fun q => fixed_queue_update_first q p_buf |>);;
               mret (p_xmit <| bh_event := local_cid c |> <| bh_layer_specific := bh_layer_specific p_buf |>,
                     first_seg, negb first_seg, false, sdu_len)
             else
               upd_ccb (fun c => c <| xmit_hold_q ::= fun q =>
                 match fixed_queue_try_dequeue q with Some (_, q) => q | None => q end |>);;
               mret (p_buf <| bh_event := local_cid c |>, false, false, nz (bh_event p_buf), 0));
          finish_segment (remote_cid c) p_xmit first_seg mid_seg last_seg sdu_len
      end
  end.

(** Also the second result, [last_piece_of_sdu]. *)
Definition l2c_lcc_get_next_xmit_sdu_seg : L (BT_HDR * bool) :=
  c ← get_ccb;
  let max_pdu := u16 (le_mps (peer_conn_cfg c) - 4) in
  match fixed_queue_try_peek_first (xmit_hold_q c) with
  | None => crash_with NullDeref
  | Some p_buf =>
      let first_pdu := bh_event p_buf =? 0 in
      let no_of_bytes_to_send :=
        Z.min (bh_len p_buf) (u16 (if first_pdu then max_pdu - L2CAP_LCC_SDU_LENGTH else max_pdu)) in
      let last_pdu := no_of_bytes_to_send =? bh_len p_buf in
      p_xmit ← lift (l2c_fcr_clone_buf p_buf (if first_pdu then L2CAP_LCC_OFFSET else L2CAP_MIN_OFFSET) no_of_bytes_to_send);
      let p_xmit := p_xmit <| bh_event := local_cid c |> in
      p_xmit ←
        (if first_pdu then
           let p_xmit := p_xmit <| bh_offset ::= fun n => u16 (n - L2CAP_LCC_SDU_LENGTH) |> in
           p_xmit ← lift (bh_write p_xmit (bh_offset p_xmit) (le16 (bh_len p_buf)));
           mret (p_xmit <| bh_len ::= fun n => u16 (n + L2CAP_LCC_SDU_LENGTH) |>)
         else mret p_xmit);
      let p_buf := p_buf <| bh_event := local_cid c |> <| bh_len ::= fun n => u16 (n - no_of_bytes_to_send) |>
                         <| bh_offset ::= fun n => u16 (n + no_of_bytes_to_send) |> in
      let p_xmit := p_xmit <| bh_layer_specific := bh_layer_specific p_buf |> in
      upd_ccb (fun c => c <| xmit_hold_q ::= fun q =>
        if last_pdu then match fixed_queue_try_dequeue q with Some (_, q) => q | None => q end
        else fixed_queue_update_first q p_buf |>);;
      let p_xmit := p_xmit <| bh_offset ::= fun n => u16 (n - L2CAP_PKT_OVERHEAD) |>
                           <| bh_len ::= fun n => u16 (n + L2CAP_PKT_OVERHEAD) |> in
      p_xmit ← lift (bh_write p_xmit (bh_offset p_xmit)
                       (le16 (bh_len p_xmit - L2CAP_PKT_OVERHEAD) ++ le16 (remote_cid c)));
      mret (p_xmit, last_pdu)
  end.

Section Link.
Context `{LE : LinkEnv}.

Definition l2cu_set_acl_hci_header (p_buf : BT_HDR) : L BT_HDR :=
  c ← get_ccb;
  l ← get_lcb;
  let word :=
    if lcb_le l then lcb_handle l .| (L2CAP_PKT_START_NON_FLUSHABLE .<< L2CAP_PKT_TYPE_SHIFT)
    else if (bh_layer_specific p_buf .& L2CAP_FLUSHABLE_MASK =? L2CAP_FLUSHABLE_CH_BASED) && is_flushable c
    then lcb_handle l .| (L2CAP_PKT_START .<< L2CAP_PKT_TYPE_SHIFT)
    else lcb_handle l .| non_flushable_pbf in
  let size := if acl_data_size <? bh_len p_buf then acl_data_size else bh_len p_buf in
  p_buf ← lift (bh_write p_buf (bh_offset p_buf - HCI_DATA_PREAMBLE_SIZE) (le16 word ++ le16 size));
  mret (p_buf <| bh_offset ::= fun n => u16 (n - HCI_DATA_PREAMBLE_SIZE) |>
              <| bh_len ::= fun n => u16 (n + HCI_DATA_PREAMBLE_SIZE) |>).

(** The conditions under which the link takes a packet from the channel. *)
Definition can_serve (c : tL2C_CCB) (l : tL2C_LCB) : bool :=
  let basic := fcr_mode (cfg_fcr (peer_cfg c)) =? L2CAP_FCR_BASIC_MODE in
  let held := negb (fixed_queue_is_empty (xmit_hold_q c)) in
  let window :=
    negb (wait_ack (fcrb c) || remote_busy (fcrb c)) &&
    (negb (fixed_queue_is_empty (retrans_q (fcrb c))) ||
     (held && negb ((fcr_mode (cfg_fcr (peer_cfg c)) =? L2CAP_FCR_ERTM_MODE) && l2c_fcr_is_flow_controlled c))) in
  if local_cid c <? L2CAP_BASE_APPL_CID then (if basic then held else window)
  else bool_decide (chnl_state c = CST_OPEN) && (if lcb_le l then held else if basic then held else window).

(** ** Congestion *)

Definition send_congestion_status_to_all_clients (status : bool) : L unit :=
  upd_ccb (fun c => c <| cong_sent := status |>);;
  c ← get_ccb;
  if match p_rcb c with Some r => has_CongestionStatus_Cb r | None => false end then emit (OCongestion (local_cid c) status)
  else
    get_lcb;;
    when ((L2CAP_FIRST_FIXED_CHNL <=? local_cid c) && (local_cid c <=? L2CAP_LAST_FIXED_CHNL) && fixed_cong_reg (local_cid c))
      (emit (OCongestion (local_cid c) status)).

Definition l2cu_check_channel_congestion : L unit :=
  c ← get_ccb;
  if buff_quota c =? 0 then skip
  else
    let q_count := fixed_queue_length (xmit_hold_q c) in
    if cong_sent c then when (q_count <=? buff_quota c / 2) (send_congestion_status_to_all_clients false)
    else when (buff_quota c <? q_count) (send_congestion_status_to_all_clients true).

(** [l2cu_get_next_buffer_to_send], when the scheduling has arrived at the channel. *)
Definition next_buffer_of_channel : L (option BT_HDR) :=
  c ← get_ccb;
  l ← get_link;
  if negb (has_lcb c && can_serve c l) then mret None else
  let basic := fcr_mode (cfg_fcr (peer_cfg c)) =? L2CAP_FCR_BASIC_MODE in
  let dequeue :=
    match fixed_queue_try_dequeue (xmit_hold_q c) with
    | Some (b, q) => upd_ccb (fun c => c <| xmit_hold_q := q |>);; mret (Some b)
    | None => mret None
    end in
  p_buf ←
    (if (L2CAP_BASE_APPL_CID <=? local_cid c) && lcb_le l then
       if le_credits (peer_conn_cfg c) =? 0 then mret None
       else
         r ← l2c_lcc_get_next_xmit_sdu_seg;
         upd_ccb (fun c => c <| peer_conn_cfg ::= fun p => p <| le_credits ::= fun n => u16 (n - 1) |> |>);;
         mret (Some r.1)
     else if basic then dequeue else l2c_fcr_get_next_xmit_sdu_seg 0);
  match p_buf with
  | None => mret None
  | Some p_buf =>
      let tx_complete :=
        match p_rcb c with Some r => has_TxComplete_Cb r && negb (fcr_mode (cfg_fcr (peer_cfg c)) =? L2CAP_FCR_ERTM_MODE)
                         | None => false end in
      when ((L2CAP_BASE_APPL_CID <=? local_cid c) && tx_complete) (emit (OTxComplete (local_cid c) 1));;
      l2cu_check_channel_congestion;;
      p_buf ← l2cu_set_acl_hci_header p_buf;
      mret (Some p_buf)
  end.

(** ** The link *)

Definition l2c_link_send_to_lower (p_buf : BT_HDR) : L unit :=
  l ← get_link;
  let round_robin := link_xmit_quota l =? 0 in
  (if lcb_le l then
     upd_cb (fun b => (if round_robin then b <| ble_round_robin_unacked ::= fun n => u16 (n + 1) |> else b)
                      <| controller_le_xmit_window ::= fun n => u16 (n - 1) |>)
   else
     upd_cb (fun b => (if round_robin then b <| round_robin_unacked ::= fun n => u16 (n + 1) |> else b)
                      <| controller_xmit_window ::= fun n => u16 (n - 1) |>));;
  upd_link (fun l => l <| sent_not_acked ::= fun n => u16 (n + 1) |>);;
  emit (OAcl (p_buf <| bh_layer_specific := 0 |>)).

(** True if the link cannot send because its power mode is about to change. *)
Definition l2c_link_check_power_mode (s : l2c) : bool :=
  let need_to_active :=
    match link_xmit_data_q (lcb s) with [] => has_lcb (ccb s) && negb (fixed_queue_is_empty (xmit_hold_q (ccb s))) | _ => true end in
  negb (lcb_le (lcb s)) && need_to_active && pm_pending (outs s).

(** The condition of the loops of a link that is not served in round robin. *)
Definition window_open (s : l2c) : bool :=
  (if lcb_le (lcb s) then nz (controller_le_xmit_window (cb s)) else nz (controller_xmit_window (cb s))) &&
  (sent_not_acked (lcb s) <? link_xmit_quota (lcb s)).

(** Packets of the channel; each takes one of the window of the controller, which is [n]. *)
Fixpoint serve_channel (n : nat) : L unit :=
  match n with
  | O => skip
  | S n =>
      s ← get;
      if negb (window_open s) then skip else
      p_buf ← next_buffer_of_channel;
      match p_buf with None => skip | Some p_buf => l2c_link_send_to_lower p_buf;; serve_channel n end
  end.

(** Packets of the queue of the link, which has [n] of them. *)
Fixpoint serve_link (n : nat) : L unit :=
  match n with
  | O => skip
  | S n =>
      s ← get;
      if negb (window_open s) then skip else
      match link_xmit_data_q (lcb s) with
      | [] => skip
      | p_buf :: q => upd_link (fun l => l <| link_xmit_data_q := q |>);; l2c_link_send_to_lower p_buf;; serve_link n
      end
  end.

(** The turn of the link in the round robin of all links that have no share of their own. *)
Definition round_robin_turn (single_write : bool) : L unit :=
  s ← get;
  let b := cb s in
  let full :=
    if lcb_le (lcb s) then (ble_round_robin_quota b <=? ble_round_robin_unacked b) || (controller_le_xmit_window b =? 0)
    else (controller_xmit_window b =? 0) || (round_robin_quota b <=? round_robin_unacked b) in
  if full || negb (link_connected (lcb s)) || negb (link_xmit_quota (lcb s) =? 0) || l2c_link_check_power_mode s then skip else
  match link_xmit_data_q (lcb s) with
  | p_buf :: q => upd_link (fun l => l <| link_xmit_data_q := q |>);; l2c_link_send_to_lower p_buf
  | [] =>
      if single_write then skip
      else
        p_buf ← next_buffer_of_channel;
        match p_buf with None => skip | Some p_buf => l2c_link_send_to_lower p_buf end
  end.

(** Where the round robin that starts at [start] stops: sixteen steps on, with a return to the first control
    block before a step from behind the last one.  A single write may break off at an earlier one. *)
Definition round_robin_end (start : Z) (single_write : bool) (s : l2c) : Z :=
  let whole := if (start =? 0) || (start =? MAX_L2CAP_LINKS) then MAX_L2CAP_LINKS else start in
  match rr_stop (outs s) with
  | Some i => if single_write && (0 <=? i) && (i <? MAX_L2CAP_LINKS) then i else whole
  | None => whole
  end.

(** [l2cb.lcb_pool[i].transport == BT_TRANSPORT_LE] *)
Definition pool_le (i : Z) (s : l2c) : outcome bool :=
  if i =? lcb_index (lcb s) then Ok (lcb_le (lcb s))
  else if (0 <=? i) && (i <? MAX_L2CAP_LINKS) then Ok (lcb_pool_le (outs s) i)
  else Crash OutOfBounds.

(** The round robin from the control block [start] on; of the links only this one is modelled.  The transport
    is read at the place where the loop stopped, if the controller has buffers left. *)
Definition round_robin (start : Z) (single_write : bool) : L unit :=
  round_robin_turn single_write;;
  s ← get;
  let b := cb s in
  let i := round_robin_end start single_write s in
  when ((0 <? controller_xmit_window b) && (round_robin_unacked b <? round_robin_quota b))
    (le ← lift (pool_le i s);
     when (negb le) (upd_cb (fun b => b <| check_round_robin := false |>)));;
  when ((0 <? controller_le_xmit_window b) && (ble_round_robin_unacked b <? ble_round_robin_quota b))
    (le ← lift (pool_le i s);
     when le (upd_cb (fun b => b <| ble_check_round_robin := false |>))).

(** The test of [is_cong_cback_context] is left out: it is set only while the congestion callback of the
    application runs, and the callbacks of the application are outputs that do not call back. *)
Definition l2c_link_check_send_pkts (cid : Z) (p_buf : option BT_HDR) : L unit :=
  match p_buf with
  | Some p_buf =>
      upd_link (fun l => l <| link_xmit_data_q ::= fun q => q ++ [p_buf <| bh_event := cid |> <| bh_layer_specific := 0 |>] |>);;
      l ← get_link;
      when (link_xmit_quota l =? 0)
        (upd_cb (fun b => if lcb_le l then b <| ble_check_round_robin := true |> else b <| check_round_robin := true |>))
  | None => skip
  end;;
  let single_write := match p_buf with Some _ => nz cid | None => false end in
  l ← get_link;
  if link_xmit_quota l =? 0 then round_robin (if single_write then lcb_index l else lcb_index l + 1) single_write
  else
    s ← get;
    if negb (link_connected l) || l2c_link_check_power_mode s then skip else
    serve_link (length (link_xmit_data_q l));;
    s ← get;
    when (negb single_write)
      (serve_channel (Z.to_nat (if lcb_le l then controller_le_xmit_window (cb s) else controller_xmit_window (cb s))));;
    l ← get_link;
    when (match link_xmit_data_q l with [] => false | _ => sent_not_acked l <? link_xmit_quota l end) (emit OLcbTimer).

(** [l2c_link_check_send_pkts(p_ccb->p_lcb, cid, p_buf)] *)
Definition ccb_check_send_pkts (cid : Z) (p_buf : option BT_HDR) : L unit :=
  c ← get_ccb;
  if has_lcb c then l2c_link_check_send_pkts cid p_buf
  else match p_buf with Some _ => crash_with NullDeref | None => round_robin 0 false end.

(** The counter of packets handed to the controller and not reported as sent. *)
Definition update_outstanding_packets (packets_acked outstanding : Z) : Z :=
  if packets_acked <? outstanding then outstanding - packets_acked else 0.

(** The controller reports that packets of the link have been sent. *)
Definition l2c_packets_completed (num_sent : Z) : L unit :=
  upd_link (fun l => l <| sent_not_acked ::= update_outstanding_packets num_sent |>);;
  l ← get_link;
  let round_robin_link := link_xmit_quota l =? 0 in
  (if lcb_le l then
     upd_cb (fun b => (if round_robin_link then b <| ble_round_robin_unacked ::= update_outstanding_packets num_sent |> else b)
                      <| controller_le_xmit_window ::= fun n => u16 (n + num_sent) |>)
   else
     upd_cb (fun b => (if round_robin_link then b <| round_robin_unacked ::= update_outstanding_packets num_sent |> else b)
                      <| controller_xmit_window ::= fun n => u16 (n + num_sent) |>));;
  l2c_link_check_send_pkts 0 None;;
  l ← get_link;
  s ← get;
  let b := cb s in
  when (high_priority l &&
        (if lcb_le l then ble_check_round_robin b && (ble_round_robin_unacked b <? ble_round_robin_quota b)
         else check_round_robin b && (round_robin_unacked b <? round_robin_quota b)))
    (round_robin 0 false).

(** ** Supervisory frames *)

Definition l2c_fcr_send_S_frame (function_code pf_bit : Z) : L unit :=
  c ← get_ccb;
  if negb (in_use c) || negb (bool_decide (chnl_state c = CST_OPEN)) then skip
  else
    when (pf_bit =? L2CAP_FCR_P_BIT)
      (upd_fcrb (fun f => f <| wait_ack := true |>);; l2c_fcr_stop_timer;; l2c_fcr_start_timer);;
    let ctrl_word := (function_code .<< L2CAP_FCR_SUP_SHIFT) .| L2CAP_FCR_S_FRAME_BIT
                     .| (next_seq_expected (fcrb c) .<< L2CAP_FCR_REQ_SEQ_BITS_SHIFT) .| pf_bit in
    let p_buf := (osi_malloc L2CAP_CMD_BUF_SIZE) <| bh_offset := HCI_DATA_PREAMBLE_SIZE |>
                   <| bh_len := L2CAP_PKT_OVERHEAD + L2CAP_FCR_OVERHEAD |> in
    p_buf ← lift (bh_write p_buf (bh_offset p_buf)
                    (le16 (L2CAP_FCR_OVERHEAD + L2CAP_FCS_LEN) ++ le16 (remote_cid c) ++ le16 ctrl_word));
    fcs ← lift (l2c_fcr_tx_get_fcs p_buf);
    p_buf ← lift (bh_write p_buf (bh_offset p_buf + 6) (le16 fcs));
    p_buf ← l2cu_set_acl_hci_header (p_buf <| bh_len ::= fun n => u16 (n + L2CAP_FCS_LEN) |>
                                           <| bh_layer_specific := L2CAP_NON_FLUSHABLE_PKT |>);
    ccb_check_send_pkts 0 (Some p_buf);;
    upd_fcrb (fun f => f <| last_ack_sent := next_seq_expected f |>);;
    cancel_ack_timer.

(** ** Closing the channel *)

Definition l2cu_build_header (l : tL2C_LCB) (len cmd id : Z) : outcome BT_HDR :=
  let p_buf := (osi_malloc L2CAP_CMD_BUF_SIZE) <| bh_offset := L2CAP_SEND_CMD_OFFSET |>
    <| bh_len := u16 (len + HCI_DATA_PREAMBLE_SIZE + L2CAP_PKT_OVERHEAD + L2CAP_CMD_OVERHEAD) |> in
  let word := if lcb_le l then lcb_handle l .| (L2CAP_PKT_START_NON_FLUSHABLE .<< L2CAP_PKT_TYPE_SHIFT)
              else lcb_handle l .| non_flushable_pbf in
  bh_write p_buf L2CAP_SEND_CMD_OFFSET
    (le16 word ++ le16 (len + L2CAP_PKT_OVERHEAD + L2CAP_CMD_OVERHEAD) ++ le16 (len + L2CAP_CMD_OVERHEAD) ++
     le16 (if lcb_le l then L2CAP_BLE_SIGNALLING_CID else L2CAP_SIGNALLING_CID) ++ [u8 cmd; u8 id] ++ le16 len).

(** The packets a channel in basic mode still holds go to the link, [n] of them at most. *)
Fixpoint move_held (n : nat) : L unit :=
  match n with
  | O => skip
  | S n =>
      c ← get_ccb;
      match fixed_queue_try_dequeue (xmit_hold_q c) with
      | None => skip
      | Some (p_buf2, q) =>
          upd_ccb (fun c => c <| xmit_hold_q := q |>);;
          p_buf2 ← l2cu_set_acl_hci_header p_buf2;
          ccb_check_send_pkts (local_cid c) (Some p_buf2);;
          move_held n
      end
  end.

Definition l2cu_send_peer_disc_req : L unit :=
  c ← get_ccb;
  if negb (has_lcb c) then skip
  else
    upd_lcb (fun l => l <| signal_id ::= fun n => let n := u8 (n + 1) in if n =? 0 then 1 else n |>);;
    l ← get_lcb;
    upd_ccb (fun c => c <| local_id := signal_id l |>);;
    p_buf ← lift (l2cu_build_header l L2CAP_DISC_REQ_LEN L2CAP_CMD_DISC_REQ (signal_id l));
    p_buf ← lift (bh_write p_buf (L2CAP_SEND_CMD_OFFSET + HCI_DATA_PREAMBLE_SIZE + L2CAP_PKT_OVERHEAD + L2CAP_CMD_OVERHEAD)
                    (le16 (remote_cid c) ++ le16 (local_cid c)));
    when (fcr_mode (cfg_fcr (peer_cfg c)) =? L2CAP_FCR_BASIC_MODE)
      (move_held (S (Z.to_nat (fixed_queue_length (xmit_hold_q c)))));;
    ccb_check_send_pkts 0 (Some p_buf).

(** The effect on the channel; the pool of free channels, the idle timer of the link and the
    quotas are behind [OReleased]. *)
Definition l2cu_release_ccb : L unit :=
  c ← get_ccb;
  if negb (in_use c) then skip
  else
    upd_ccb (fun c => c <| l2c_ccb_timer := None |> <| xmit_hold_q := None |>);;
    l2c_fcr_cleanup;;
    upd_ccb (fun c => c <| has_lcb := has_lcb c && (local_cid c <? L2CAP_BASE_APPL_CID) |>
                        <| in_use := false |> <| remote_cid := 0 |> <| local_id := 0 |>);;
    emit (OReleased (local_cid c)).

Definition l2cu_disconnect_chnl : L unit :=
  c ← get_ccb;
  if L2CAP_BASE_APPL_CID <=? local_cid c then
    get_rcb;;
    l2cu_send_peer_disc_req;;
    l2cu_release_ccb;;
    emit (ODisconnectInd (local_cid c))
  else skip.

(** ** Delivery *)

(** [l2c_csm_execute(p_ccb, L2CEVT_L2CAP_DATA, p_data)] *)
Definition l2c_csm_data (p_data : BT_HDR) : L unit :=
  c ← get_ccb;
  if negb (in_use c) then skip
  else
    match chnl_state c with
    | CST_CONFIG =>
        if (L2CAP_FIRST_FIXED_CHNL <=? local_cid c) && (local_cid c <=? L2CAP_LAST_FIXED_CHNL) &&
           (local_cid c <? L2CAP_BASE_APPL_CID)
        then when (fixed_reg (local_cid c)) (emit (OFixedData (local_cid c) p_data))
        else get_rcb;; emit (ODataInd (local_cid c) p_data)
    | CST_OPEN =>
        when (match p_rcb c with Some r => has_DataInd_Cb r | None => false end) (emit (ODataInd (local_cid c) p_data))
    | _ => skip
    end.

(** ** Retransmission *)

(** The sent frames from the one with sequence number [tx_seq] on. *)
Fixpoint find_seq (tx_seq : Z) (l : list BT_HDR) : outcome (list BT_HDR) :=
  match l with
  | [] => mret []
  | p_buf :: l' =>
      ctrl_word ← read16 p_buf (bh_offset p_buf + L2CAP_PKT_OVERHEAD);
      let buf_seq := (ctrl_word .& L2CAP_FCR_TX_SEQ_BITS) .>> L2CAP_FCR_TX_SEQ_BITS_SHIFT in
      if tx_seq =? buf_seq then mret l else find_seq tx_seq l'
  end.

(** Copies of the frames go to the retransmission queue, only the first of them if [one]. *)
Fixpoint requeue (one : bool) (l : list BT_HDR) : L unit :=
  match l with
  | [] => skip
  | p_buf :: l =>
      p_buf2 ← lift (l2c_fcr_clone_buf p_buf (bh_offset p_buf) (bh_len p_buf));
      f ← get_fcrb;
      q ← lift (fixed_queue_enqueue (retrans_q f) (p_buf2 <| bh_layer_specific := bh_layer_specific p_buf |>));
      upd_fcrb (fun f => f <| retrans_q := q |>);;
      if one then skip else requeue one l
  end.

Definition queue_elems (q : fixed_queue) : list BT_HDR := match q with Some l => l | None => [] end.

Definition retransmit_i_frames (tx_seq : Z) : L bool :=
  c ← get_ccb;
  let sent := queue_elems (waiting_for_ack_q (fcrb c)) in
  let some_sent := negb (fixed_queue_is_empty (waiting_for_ack_q (fcrb c))) in
  if some_sent && nz (max_transmit (cfg_fcr (peer_cfg c))) && (max_transmit (cfg_fcr (peer_cfg c)) <=? num_tries (fcrb c)) then
    l2cu_disconnect_chnl;;
    mret false
  else
    let all := tx_seq =? L2C_FCR_RETX_ALL_PKTS in
    if negb all && negb some_sent then mret true else
    frames ←
      (if all then
         upd_lcb (fun l => l <| link_xmit_data_q ::= List.filter (fun p_tmp =>
           negb ((bh_layer_specific p_tmp =? 0) && (bh_event p_tmp =? local_cid c))) |>);;
         upd_fcrb (fun f => f <| retrans_q ::= fun q => match q with Some _ => Some [] | None => None end |>);;
         mret sent
       else lift (find_seq tx_seq sent));
    requeue (negb all) frames;;
    ccb_check_send_pkts 0 None;;
    f ← get_fcrb;
    when (nz (fixed_queue_length (waiting_for_ack_q f)))
      (upd_fcrb (fun f => f <| num_tries ::= fun n => u8 (n + 1) |>);; l2c_fcr_start_timer);;
    mret true.

(** ** Reassembly *)

(** A complete SDU goes to the application. *)
Definition deliver_sdu (p_buf : BT_HDR) : L unit :=
  c ← get_ccb;
  if (local_cid c <? L2CAP_BASE_APPL_CID) &&
     ((L2CAP_FIRST_FIXED_CHNL <=? local_cid c) && (local_cid c <=? L2CAP_LAST_FIXED_CHNL))
  then when (fixed_reg (local_cid c)) (get_lcb;; emit (OFixedData (local_cid c) p_buf))
  else l2c_csm_data p_buf.

(** The bytes of a segment are added to the SDU under way, which is delivered when it is complete. *)
Definition append_segment (p_buf : BT_HDR) (sar_type : Z) : L bool :=
  f ← get_fcrb;
  match p_rx_sdu f with
  | None => crash_with NullDeref
  | Some sdu =>
      if rx_sdu_len f <? bh_len sdu + bh_len p_buf then mret false
      else if (sar_type =? L2CAP_FCR_END_SDU) && negb (bh_len sdu + bh_len p_buf =? rx_sdu_len f) then mret false
      else
        data ← lift (bh_read_bytes p_buf (bh_offset p_buf) (bh_len p_buf));
        sdu ← lift (bh_write sdu (bh_offset sdu + bh_len sdu) data);
        let sdu := sdu <| bh_len ::= fun n => u16 (n + bh_len p_buf) |> in
        if sar_type =? L2CAP_FCR_END_SDU then
          upd_fcrb (fun f => f <| p_rx_sdu := None |>);;
          deliver_sdu sdu;;
          mret true
        else
          upd_fcrb (fun f => f <| p_rx_sdu := Some sdu |>);;
          mret true
  end.

Definition do_sar_reassembly (p_buf : BT_HDR) (ctrl_word : Z) : L bool :=
  c ← get_ccb;
  let sar_type := ctrl_word .& L2CAP_FCR_SEG_BITS in
  let whole := (sar_type =? L2CAP_FCR_UNSEG_SDU) || (sar_type =? L2CAP_FCR_START_SDU) in
  let packet_ok :=
    if whole then
      bool_decide (p_rx_sdu (fcrb c) = None) &&
      negb ((sar_type =? L2CAP_FCR_START_SDU) && (bh_len p_buf <? L2CAP_SDU_LEN_OVERHEAD))
    else negb (bool_decide (p_rx_sdu (fcrb c) = None)) in
  if negb packet_ok then mret false else
  if sar_type =? L2CAP_FCR_UNSEG_SDU then deliver_sdu p_buf;; mret true else
  '(packet_ok, p_buf) ←
    (if sar_type =? L2CAP_FCR_START_SDU then
       len ← lift (read16 p_buf (bh_offset p_buf));
       upd_fcrb (fun f => f <| rx_sdu_len := len |>);;
       let p_buf := p_buf <| bh_offset ::= fun n => u16 (n + 2) |> <| bh_len ::= fun n => u16 (n - 2) |> in
       if max_rx_mtu c <? len then mret (false, p_buf)
       else
         upd_fcrb (fun f => f <| p_rx_sdu := Some ((osi_malloc (sizeof_BT_HDR + OBX_BUF_MIN_OFFSET + len))
                                                     <| bh_offset := OBX_BUF_MIN_OFFSET |> <| bh_len := 0 |>) |>);;
         mret (true, p_buf)
     else mret (true, p_buf));
  if negb packet_ok then mret false else append_segment p_buf sar_type.

(** ** Acknowledgements *)

(** The frames that are acknowledged leave the queue; the SDUs they complete are counted. *)
Fixpoint release_acked (n : nat) (full_sdus_xmitted : Z) : L Z :=
  match n with
  | O => mret full_sdus_xmitted
  | S n =>
      f ← get_fcrb;
      match fixed_queue_try_dequeue (waiting_for_ack_q f) with
      | None => crash_with NullDeref
      | Some (p_tmp, q) =>
          upd_fcrb (fun f => f <| waiting_for_ack_q := q |>);;
          let ls := bh_layer_specific p_tmp .& L2CAP_FCR_SAR_BITS in
          release_acked n (if (ls =? L2CAP_FCR_UNSEG_SDU) || (ls =? L2CAP_FCR_END_SDU)
                           then u16 (full_sdus_xmitted + 1) else full_sdus_xmitted)
      end
  end.

Definition restart_if_waiting : L unit :=
  f ← get_fcrb;
  when (negb (fixed_queue_is_empty (waiting_for_ack_q f))) l2c_fcr_start_timer.

Definition process_reqseq (ctrl_word : Z) : L bool :=
  if nz (ctrl_word .& L2CAP_FCR_S_FRAME_BIT) &&
     (ctrl_word .& L2CAP_FCR_SUP_BITS =? (L2CAP_FCR_SUP_SREJ .<< L2CAP_FCR_SUP_SHIFT)) &&
     (ctrl_word .& L2CAP_FCR_P_BIT =? 0)
  then restart_if_waiting;; mret true
  else
    f ← get_fcrb;
    let req_seq := (ctrl_word .& L2CAP_FCR_REQ_SEQ_BITS) .>> L2CAP_FCR_REQ_SEQ_BITS_SHIFT in
    let num_bufs_acked := (req_seq - last_rx_ack f) .& L2CAP_FCR_SEQ_MODULO in
    if fixed_queue_length (waiting_for_ack_q f) <? num_bufs_acked then
      l2cu_disconnect_chnl;;
      mret false
    else
      upd_fcrb (fun f => f <| last_rx_ack := req_seq |>);;
      when (nz num_bufs_acked)
        (upd_fcrb (fun f => f <| num_tries := 0 |>);;
         full_sdus_xmitted ← release_acked (Z.to_nat num_bufs_acked) 0;
         f ← get_fcrb;
         when (negb (wait_ack f)) l2c_fcr_stop_timer;;
         c ← get_ccb;
         when (match p_rcb c with Some r => has_TxComplete_Cb r | None => false end && nz full_sdus_xmitted)
           (emit (OTxComplete (local_cid c)
              (if fixed_queue_is_empty (waiting_for_ack_q (fcrb c)) && fixed_queue_is_empty (xmit_hold_q c)
               then 0xFFFF else full_sdus_xmitted))));;
      restart_if_waiting;;
      mret true.

(** ** Received frames *)

(** The answer to a poll. *)
Definition send_final : L unit :=
  f ← get_fcrb;
  l2c_fcr_send_S_frame (if srej_sent f then L2CAP_FCR_SUP_SREJ else L2CAP_FCR_SUP_RR) L2CAP_FCR_F_BIT.

Definition process_s_frame (ctrl_word : Z) : L unit :=
  let s_frame_type := (ctrl_word .& L2CAP_FCR_SUP_BITS) .>> L2CAP_FCR_SUP_SHIFT in
  when (nz (ctrl_word .& L2CAP_FCR_P_BIT)) (upd_fcrb (fun f => f <| rej_sent := false |> <| send_f_rsp := true |>));;
  f ← get_fcrb;
  let remote_was_busy := remote_busy f in
  all_ok ←
    (if s_frame_type =? L2CAP_FCR_SUP_RR then
       upd_fcrb (fun f => f <| remote_busy := false |>);;
       if nz (ctrl_word .& L2CAP_FCR_F_BIT) || remote_was_busy then retransmit_i_frames L2C_FCR_RETX_ALL_PKTS else mret true
     else if s_frame_type =? L2CAP_FCR_SUP_REJ then
       upd_fcrb (fun f => f <| remote_busy := false |>);;
       retransmit_i_frames L2C_FCR_RETX_ALL_PKTS
     else if s_frame_type =? L2CAP_FCR_SUP_RNR then
       upd_fcrb (fun f => f <| remote_busy := true |>);;
       l2c_fcr_stop_timer;;
       mret true
     else
       upd_fcrb (fun f => f <| remote_busy := false |>);;
       retransmit_i_frames ((ctrl_word .& L2CAP_FCR_REQ_SEQ_BITS) .>> L2CAP_FCR_REQ_SEQ_BITS_SHIFT));
  if (all_ok : bool) then
    f ← get_fcrb;
    when (send_f_rsp f) (send_final;; upd_fcrb (fun f => f <| send_f_rsp := false |>))
  else skip.

(** A frame that is not the expected one: dropped, held back, or a reason to ask for the lost ones. *)
Definition out_of_sequence (p_buf : BT_HDR) (tx_seq : Z) : L unit :=
  c ← get_ccb;
  let f := fcrb c in
  let num_lost := (tx_seq - next_seq_expected f) .& L2CAP_FCR_SEQ_MODULO in
  if tx_win_sz (cfg_fcr (our_cfg c)) <=? num_lost then skip
  else if srej_sent f then
    match fixed_queue_try_peek_last (srej_rcv_hold_q f) with
    | None => crash_with NullDeref
    | Some p_last =>
        let next_srej := (bh_layer_specific p_last + 1) .& L2CAP_FCR_SEQ_MODULO in
        if (tx_seq =? next_srej) && (fixed_queue_length (srej_rcv_hold_q f) <? tx_win_sz (cfg_fcr (our_cfg c))) then
          q ← lift (fixed_queue_enqueue (srej_rcv_hold_q f) (p_buf <| bh_layer_specific := tx_seq |>));
          upd_fcrb (fun f => f <| srej_rcv_hold_q := q |>)
        else upd_fcrb (fun f => f <| rej_after_srej := true |>)
    end
  else if rej_sent f then skip
  else
    (if 1 <? num_lost then
       upd_fcrb (fun f => f <| rej_sent := true |>);;
       l2c_fcr_send_S_frame L2CAP_FCR_SUP_REJ 0
     else
       q ← lift (fixed_queue_enqueue (srej_rcv_hold_q f) (p_buf <| bh_layer_specific := tx_seq |>));
       upd_fcrb (fun f => f <| srej_rcv_hold_q := q |> <| srej_sent := true |>);;
       l2c_fcr_send_S_frame L2CAP_FCR_SUP_SREJ 0);;
    cancel_ack_timer.

(** The acknowledgement of a frame taken, at once or when the timer runs out. *)
Definition acknowledge (delay_ack : bool) : L unit :=
  c ← get_ccb;
  let f := fcrb c in
  let num_to_ack := (next_seq_expected f - last_ack_sent f) .& L2CAP_FCR_SEQ_MODULO in
  let delay_ack := (num_to_ack <? max_held_acks f) || delay_ack in
  when (nz num_to_ack && in_use c && bool_decide (chnl_state c = CST_OPEN))
    (if delay_ack then
       if alarm_is_scheduled (ack_timer f) then skip
       else
         a ← lift (alarm_set_on_mloop (ack_timer f) L2CAP_FCR_ACK_TIMEOUT_MS);
         upd_fcrb (fun f => f <| ack_timer := a |>)
     else
       when ((fixed_queue_is_empty (xmit_hold_q c) || l2c_fcr_is_flow_controlled c) &&
             fixed_queue_is_empty (srej_rcv_hold_q f))
         (l2c_fcr_send_S_frame L2CAP_FCR_SUP_RR 0)).

Definition process_i_frame (p_buf : BT_HDR) (ctrl_word : Z) (delay_ack : bool) : L unit :=
  all_ok ← (if nz (ctrl_word .& L2CAP_FCR_F_BIT) then retransmit_i_frames L2C_FCR_RETX_ALL_PKTS else mret true);
  if negb all_ok then skip else
  let tx_seq := (ctrl_word .& L2CAP_FCR_TX_SEQ_BITS) .>> L2CAP_FCR_TX_SEQ_BITS_SHIFT in
  f ← get_fcrb;
  if negb (tx_seq =? next_seq_expected f) then out_of_sequence p_buf tx_seq
  else
    upd_fcrb (fun f => f <| rej_sent := false |> <| srej_sent := false |>
                         <| next_seq_expected := (tx_seq + 1) .& L2CAP_FCR_SEQ_MODULO |>);;
    ok ← do_sar_reassembly p_buf ctrl_word;
    if negb ok then l2cu_disconnect_chnl else acknowledge delay_ack.

(** The frames held back, once the missing one has come. *)
Fixpoint process_held (l : list BT_HDR) : L unit :=
  match l with
  | [] => skip
  | p_buf :: l =>
      c ← get_ccb;
      when (in_use c && bool_decide (chnl_state c = CST_OPEN))
        (ctrl_word ← lift (read16 p_buf (bh_offset p_buf - L2CAP_FCR_OVERHEAD));
         process_i_frame p_buf ctrl_word true);;
      f ← get_fcrb;
      when (rej_after_srej f)
        (upd_fcrb (fun f => f <| rej_after_srej := false |> <| rej_sent := true |>);;
         l2c_fcr_send_S_frame L2CAP_FCR_SUP_REJ 0);;
      process_held l
  end.

Definition release_held : L unit :=
  f ← get_fcrb;
  if negb (srej_sent f) && negb (fixed_queue_is_empty (srej_rcv_hold_q f)) then
    upd_fcrb (fun f => f <| srej_rcv_hold_q := fixed_queue_new |>);;
    process_held (queue_elems (srej_rcv_hold_q f));;
    f ← get_fcrb;
    when (negb (rej_sent f) && negb (srej_sent f) && negb (next_seq_expected f =? last_ack_sent f))
      (l2c_fcr_send_S_frame L2CAP_FCR_SUP_RR 0)
  else skip.

(** What a frame does when a poll of ours is not answered yet: [None] if it is dropped, otherwise
    the control word to go on with. *)
Definition check_final (ctrl_word : Z) : L (option Z) :=
  f ← get_fcrb;
  if wait_ack f then
    if negb (nz (ctrl_word .& L2CAP_FCR_F_BIT)) then
      when (nz (ctrl_word .& L2CAP_FCR_P_BIT) && nz (ctrl_word .& L2CAP_FCR_S_FRAME_BIT))
        (send_final;; set_mon_retrans_timer BT_1SEC_TIMEOUT_MS);;
      mret None
    else
      upd_fcrb (fun f => f <| wait_ack := false |>);;
      when (fixed_queue_is_empty (waiting_for_ack_q f)) (upd_fcrb (fun f => f <| num_tries := 0 |>));;
      l2c_fcr_stop_timer;;
      mret (Some (if nz (ctrl_word .& L2CAP_FCR_S_FRAME_BIT) then ctrl_word .&~ L2CAP_FCR_P_BIT else ctrl_word))
  else mret (Some (ctrl_word .&~ L2CAP_FCR_F_BIT)).

Definition l2c_fcr_proc_pdu (p_buf : BT_HDR) : L unit :=
  if bh_len p_buf <? L2CAP_FCS_LEN + L2CAP_FCR_OVERHEAD then skip else
  fcs ← lift (read16 p_buf (bh_offset p_buf + bh_len p_buf - L2CAP_FCS_LEN));
  let p_buf := p_buf <| bh_len ::= fun n => u16 (n - L2CAP_FCS_LEN) |> in
  own ← lift (l2c_fcr_rx_get_fcs p_buf);
  if negb (own =? fcs) then skip else
  ctrl_word ← lift (read16 p_buf (bh_offset p_buf));
  let p_buf := p_buf <| bh_len ::= fun n => u16 (n - L2CAP_FCR_OVERHEAD) |>
                     <| bh_offset ::= fun n => u16 (n + L2CAP_FCR_OVERHEAD) |> in
  r ← check_final ctrl_word;
  match r with
  | None => skip
  | Some ctrl_word =>
      ok ← process_reqseq ctrl_word;
      if negb ok then skip else
      (if nz (ctrl_word .& L2CAP_FCR_S_FRAME_BIT) then process_s_frame ctrl_word
       else process_i_frame p_buf ctrl_word false);;
      c ← get_ccb;
      if negb (in_use c) || negb (bool_decide (chnl_state c = CST_OPEN)) then skip else
      release_held;;
      c ← get_ccb;
      when ((negb (fixed_queue_is_empty (retrans_q (fcrb c))) || negb (fixed_queue_is_empty (xmit_hold_q c))) &&
            negb (wait_ack (fcrb c)) && negb (l2c_fcr_is_flow_controlled c))
        (ccb_check_send_pkts 0 None)
  end.

(** ** Timeouts *)

Definition l2c_fcr_proc_tout : L unit :=
  c ← get_ccb;
  let limit := max_transmit (cfg_fcr (peer_cfg c)) in
  let tries := if nz limit then u8 (num_tries (fcrb c) + 1) else num_tries (fcrb c) in
  upd_fcrb (fun f => f <| num_tries := tries |>);;
  if nz limit && (limit <? tries) then l2cu_disconnect_chnl
  else when (negb (srej_sent (fcrb c)) && negb (rej_sent (fcrb c))) (l2c_fcr_send_S_frame L2CAP_FCR_SUP_RR L2CAP_FCR_P_BIT).

Definition l2c_fcr_proc_ack_tout : L unit :=
  c ← get_ccb;
  when (bool_decide (chnl_state c = CST_OPEN) && negb (wait_ack (fcrb c)) &&
        negb (last_ack_sent (fcrb c) =? next_seq_expected (fcrb c)))
    (l2c_fcr_send_S_frame L2CAP_FCR_SUP_RR 0).

(** [l2c_csm_execute(p_ccb, L2CEVT_TIMEOUT, NULL)]; what a channel that is not open does is left to the rest of L2CAP. *)
Definition l2c_ccb_timer_timeout : L unit :=
  c ← get_ccb;
  if negb (in_use c) then skip
  else
    match chnl_state c with
    | CST_OPEN => when (fcr_mode (cfg_fcr (peer_cfg c)) =? L2CAP_FCR_ERTM_MODE) l2c_fcr_proc_tout
    | _ => emit (OTimeout (local_cid c))
    end.

(** [l2c_csm_execute(p_ccb, L2CEVT_ACK_TIMEOUT, NULL)] *)
Definition l2c_fcrb_ack_timer_timeout : L unit :=
  c ← get_ccb;
  if negb (in_use c) then skip
  else match chnl_state c with CST_OPEN => l2c_fcr_proc_ack_tout | _ => skip end.

(** ** LE credit based channels *)

Definition drop_sdu : L unit :=
  upd_ccb (fun c => c <| is_first_seg := true |> <| ble_sdu := None |> <| ble_sdu_length := 0 |>).

(** The bytes of [p_buf] are appended to the SDU [p_data], which is delivered when it is complete. *)
Definition lcc_append (p_data p_buf : BT_HDR) : L unit :=
  data ← lift (bh_read_bytes p_buf (bh_offset p_buf) (bh_len p_buf));
  p_data ← lift (bh_write p_data (bh_offset p_data + bh_len p_data) data);
  let p_data := p_data <| bh_len ::= fun n => u16 (n + bh_len p_buf) |> in
  upd_ccb (fun c => c <| ble_sdu := Some p_data |>);;
  c ← get_ccb;
  if bh_len p_data =? ble_sdu_length c then l2c_csm_data p_data;; drop_sdu
  else if bh_len p_data <? ble_sdu_length c then upd_ccb (fun c => c <| is_first_seg := false |>)
  else skip.

Definition l2c_lcc_proc_pdu (p_buf : BT_HDR) : L unit :=
  c ← get_ccb;
  if le_mps (local_conn_cfg c) <? bh_len p_buf then l2cu_disconnect_chnl
  else if is_first_seg c then
    if bh_len p_buf <? 2 then skip
    else
      sdu_length ← lift (read16 p_buf (bh_offset p_buf));
      if le_mtu (local_conn_cfg c) <? sdu_length then l2cu_disconnect_chnl
      else
        let p_buf := p_buf <| bh_len ::= fun n => u16 (n - 2) |> <| bh_offset ::= fun n => u16 (n + 2) |> in
        if sdu_length <? bh_len p_buf then skip
        else
          let p_data := (osi_malloc (sizeof_BT_HDR + sdu_length)) <| bh_len := 0 |> <| bh_offset := 0 |> in
          upd_ccb (fun c => c <| ble_sdu := Some p_data |> <| ble_sdu_length := sdu_length |>);;
          lcc_append p_data p_buf
  else
    match ble_sdu c with
    | None => skip
    | Some p_data =>
        if ble_sdu_length c - bh_len p_data <? bh_len p_buf then drop_sdu;; l2cu_disconnect_chnl
        else lcc_append p_data p_buf
    end.

(** ** Packets from the controller *)

(** A packet for the channel, behind its L2CAP header. *)
Definition rcv_channel_pdu (p_msg : BT_HDR) : L unit :=
  s ← get;
  if lcb_le (lcb s) then
    l2c_lcc_proc_pdu p_msg;;
    upd_ccb (fun c => c <| remote_credit_count ::= fun n => u16 (n - 1) |>);;
    c ← get_ccb;
    when (remote_credit_count c <=? le_credit_threshold)
      (let credits := u16 (le_credit_default - remote_credit_count c) in
       upd_ccb (fun c => c <| remote_credit_count := le_credit_default |>);;
       emit (OCreditsDue (local_cid c) credits))
  else if fcr_mode (cfg_fcr (peer_cfg (ccb s))) =? L2CAP_FCR_BASIC_MODE then l2c_csm_data p_msg
  else
    match chnl_state (ccb s) with
    | CST_OPEN | CST_CONFIG => l2c_fcr_proc_pdu p_msg
    | _ => skip
    end.

(** Packets for other links, and the signalling and fixed channels, are left to the rest of L2CAP. *)
Definition l2c_rcv_acl_data (p_msg : BT_HDR) : L unit :=
  word ← lift (read16 p_msg (bh_offset p_msg));
  let pkt_type := (word .>> 12) .& 3 in
  let handle := word .& HCI_DATA_HANDLE_MASK in
  if pkt_type =? L2CAP_PKT_CONTINUE then skip else
  hci_len ← lift (read16 p_msg (bh_offset p_msg + 2));
  if (hci_len <? L2CAP_PKT_OVERHEAD) || negb (hci_len =? bh_len p_msg - 4) then skip else
  l2cap_len ← lift (read16 p_msg (bh_offset p_msg + 4));
  rcv_cid ← lift (read16 p_msg (bh_offset p_msg + 6));
  s ← get;
  if negb (handle =? lcb_handle (lcb s)) then emit (OOtherChannel rcv_cid p_msg) else
  let mine := in_use (ccb s) && has_lcb (ccb s) && (local_cid (ccb s) =? rcv_cid) in
  if (rcv_cid <? L2CAP_BASE_APPL_CID) || negb mine then emit (OOtherChannel rcv_cid p_msg) else
  let p_msg := p_msg <| bh_len := u16 (hci_len - L2CAP_PKT_OVERHEAD) |>
                     <| bh_offset ::= fun n => u16 (u16 (n + 4) + L2CAP_PKT_OVERHEAD) |> in
  if negb (l2cap_len =? bh_len p_msg) then skip else rcv_channel_pdu p_msg.

(** ** Data of the application *)

Definition l2c_enqueue_peer_data (p_buf : BT_HDR) : L unit :=
  c ← get_ccb;
  p_buf ←
    (if negb (fcr_mode (cfg_fcr (peer_cfg c)) =? L2CAP_FCR_BASIC_MODE) then mret (p_buf <| bh_event := 0 |>)
     else
       let p_buf := p_buf <| bh_event := local_cid c |> <| bh_offset ::= fun n => u16 (n - L2CAP_PKT_OVERHEAD) |>
                          <| bh_len ::= fun n => u16 (n + L2CAP_PKT_OVERHEAD) |> in
       lift (bh_write p_buf (bh_offset p_buf) (le16 (bh_len p_buf - L2CAP_PKT_OVERHEAD) ++ le16 (remote_cid c))));
  match xmit_hold_q c with
  | None => skip
  | Some l => upd_ccb (fun c => c <| xmit_hold_q := Some (l ++ [p_buf]) |>)
  end;;
  l2cu_check_channel_congestion;;
  l ← get_lcb;
  when (link_xmit_quota l =? 0) (upd_cb (fun b => b <| check_round_robin := true |>)).

(** [l2c_csm_execute(p_ccb, L2CEVT_L2CA_DATA_WRITE, p_data)] *)
Definition l2c_csm_data_write (p_data : BT_HDR) : L unit :=
  c ← get_ccb;
  if negb (in_use c) then skip
  else
    match chnl_state c with
    | CST_CONFIG => when (nz (config_done c .& OB_CFG_DONE)) (l2c_enqueue_peer_data p_data)
    | CST_OPEN => l2c_enqueue_peer_data p_data;; ccb_check_send_pkts 0 None
    | _ => skip
    end.

(** For the channel that [l2cu_find_ccb_by_cid] finds, if it is in use. *)
Definition l2c_data_write (p_data : BT_HDR) (flags : Z) : L Z :=
  c ← get_ccb;
  if negb (in_use c) then mret L2CAP_DW_FAILED else
  l ← get_lcb;
  let mtu := if lcb_le l then le_mtu (peer_conn_cfg c) else cfg_mtu (peer_cfg c) in
  if mtu <? bh_len p_data then mret L2CAP_DW_FAILED else
  let p_data := p_data <| bh_layer_specific := flags |> in
  if cong_sent c then mret L2CAP_DW_FAILED else
  l2c_csm_data_write p_data;;
  c ← get_ccb;
  mret (if cong_sent c then L2CAP_DW_CONGESTED else L2CAP_DW_SUCCESS).

End Link.
