(* ===== verification/L2cSig.v ===== *)
(** * L2cSig: the signalling channel, and what it negotiates

    The commands of the signalling channel as src/system/stack/l2cap/l2c_utils.cc builds and sends them, the
    negotiation of the configuration (l2c_utils.cc, and for the mode l2c_fcr.cc), and the allocation of a channel. *)

From Stdlib Require Import ZArith Lia.
From stdpp Require Import base list.
From S2P Require Import Prelude Osi L2cDefs L2cFcr.

(** ** Constants *)

Definition L2CAP_CMD_REJECT : Z := 1.
Definition L2CAP_CMD_CONN_REQ : Z := 2.
Definition L2CAP_CMD_CONN_RSP : Z := 3.
Definition L2CAP_CMD_CONFIG_REQ : Z := 4.
Definition L2CAP_CMD_CONFIG_RSP : Z := 5.
Definition L2CAP_CMD_DISC_RSP : Z := 7.
Definition L2CAP_CMD_ECHO_REQ : Z := 8.
Definition L2CAP_CMD_ECHO_RSP : Z := 9.
Definition L2CAP_CMD_INFO_REQ : Z := 0x0A.
Definition L2CAP_CMD_INFO_RSP : Z := 0x0B.
Definition L2CAP_CMD_AMP_CONN_REQ : Z := 0x0C.
Definition L2CAP_CMD_AMP_MOVE_REQ : Z := 0x0E.
Definition L2CAP_CMD_BLE_UPDATE_REQ : Z := 0x12.
Definition L2CAP_CMD_REJECT_LEN : Z := 2.
Definition L2CAP_CONN_REQ_LEN : Z := 4.
Definition L2CAP_CONN_RSP_LEN : Z := 8.
Definition L2CAP_CONFIG_REQ_LEN : Z := 4.
Definition L2CAP_CONFIG_RSP_LEN : Z := 6.
Definition L2CAP_DISC_RSP_LEN : Z := 4.
Definition L2CAP_ECHO_RSP_LEN : Z := 0.
Definition L2CAP_INFO_RSP_LEN : Z := 4.
Definition L2CAP_CMD_REJ_NOT_UNDERSTOOD : Z := 0.
Definition L2CAP_CMD_REJ_MTU_EXCEEDED : Z := 1.
Definition L2CAP_CMD_REJ_INVALID_CID : Z := 2.
Definition L2CAP_CONN_OK : Z := 0.
Definition L2CAP_CONN_PENDING : Z := 1.
Definition L2CAP_CONN_NO_PSM : Z := 2.
Definition L2CAP_CONN_SECURITY_BLOCK : Z := 3.
Definition L2CAP_CONN_NO_RESOURCES : Z := 4.
Definition L2CAP_CONN_TIMEOUT : Z := 0xEEEE.
Definition L2CAP_CONN_OTHER_ERROR : Z := 0xF000.
Definition L2CAP_CONN_ACL_CONNECTION_FAILED : Z := 0xF001.
Definition L2CAP_CONN_CLIENT_SECURITY_CLEARANCE_FAILED : Z := 0xF002.
Definition L2CAP_CONN_NO_LINK : Z := 0xF003.
Definition L2CAP_DISC_OK : Z := 0.
Definition L2CAP_DISC_TIMEOUT : Z := 0xEEEE.
Definition L2CAP_CFG_OK : Z := 0.
Definition L2CAP_CFG_UNKNOWN_OPTIONS : Z := 3.
Definition L2CAP_CFG_TYPE_MTU : Z := 1.
Definition L2CAP_CFG_TYPE_FLUSH_TOUT : Z := 2.
Definition L2CAP_CFG_TYPE_QOS : Z := 3.
Definition L2CAP_CFG_TYPE_FCR : Z := 4.
Definition L2CAP_CFG_TYPE_FCS : Z := 5.
Definition L2CAP_CFG_TYPE_EXT_FLOW : Z := 6.
Definition L2CAP_CFG_MTU_OPTION_LEN : Z := 2.
Definition L2CAP_CFG_FLUSH_OPTION_LEN : Z := 2.
Definition L2CAP_CFG_QOS_OPTION_LEN : Z := 22.
Definition L2CAP_CFG_FCR_OPTION_LEN : Z := 9.
Definition L2CAP_CFG_FCS_OPTION_LEN : Z := 1.
Definition L2CAP_CFG_EXT_FLOW_OPTION_LEN : Z := 16.
Definition L2CAP_CFG_OPTION_OVERHEAD : Z := 2.
Definition L2CAP_DEFAULT_MTU : Z := 672.
Definition L2CAP_MIN_MTU : Z := 48.
Definition L2CAP_NO_AUTOMATIC_FLUSH : Z := 0xFFFF.
Definition SVC_TYPE_BEST_EFFORT : Z := 1.
Definition SVC_TYPE_GUARANTEED : Z := 2.
Definition L2CAP_MAX_FCR_CFG_TRIES : Z := 2.
Definition L2CAP_CHNL_DATA_RATE_LOW : Z := 1.
Definition L2CAP_CBB_DEFAULT_DATA_RATE_BUFF_QUOTA : Z := 100.
Definition IB_CFG_DONE : Z := 1.
Definition CCB_FLAG_NO_RETRY : Z := 1.
Definition CCB_FLAG_SENT_PENDING : Z := 2.
Definition L2CAP_CONNLESS_MTU_INFO_TYPE : Z := 1.
Definition L2CAP_EXTENDED_FEATURES_INFO_TYPE : Z := 2.
Definition L2CAP_FIXED_CHANNELS_INFO_TYPE : Z := 3.
Definition L2CAP_CONNLESS_MTU_INFO_SIZE : Z := 2.
Definition L2CAP_EXTENDED_FEATURES_ARRAY_SIZE : Z := 4.
Definition L2CAP_FIXED_CHNL_ARRAY_SIZE : Z := 8.
Definition L2CAP_INFO_RESP_RESULT_SUCCESS : Z := 0.
Definition L2CAP_INFO_RESP_RESULT_NOT_SUPPORTED : Z := 1.
Definition L2CAP_EXTFEA_STREAM_MODE : Z := 0x10.
Definition L2CAP_EXTFEA_FIXED_CHNLS : Z := 0x80.
Definition L2CAP_EXTFEA_UCD_RECEPTION : Z := 0x200.
Definition L2CAP_EXTFEA_SUPPORTED_MASK : Z :=
  L2CAP_EXTFEA_ENH_RETRANS .| L2CAP_EXTFEA_STREAM_MODE .| L2CAP_EXTFEA_NO_CRC .| L2CAP_EXTFEA_FIXED_CHNLS.
Definition L2CAP_BLE_EXTFEA_MASK : Z := 0.
Definition L2CAP_ATT_CID : Z := 4.
Definition L2CAP_SMP_CID : Z := 6.
Definition L2CAP_SMP_BR_CID : Z := 7.
Definition L2CAP_NUM_FIXED_CHNLS : Z := 32.
Definition L2CAP_FIXED_CHNL_SIG_BIT : Z := 2.
Definition L2CAP_FIXED_CHNL_CNCTLESS_BIT : Z := 4.
Definition L2CAP_FIXED_CHNL_SMP_BR_BIT : Z := 0x80.
Definition L2CAP_WAIT_INFO_RSP_TIMEOUT_MS : Z := 3000.
Definition MAX_L2CAP_CHANNELS : Z := 64.

(** The options of enhanced retransmission mode that are offered. *)
Definition kDefaultErtmOptions : tL2CAP_FCR_OPTS := mk_FCR_OPTS L2CAP_FCR_ERTM_MODE 10 20 2000 12000 1010.

(** [tL2CAP_CFG_INFO config{}] *)
Definition zero_FLOW_SPEC : FLOW_SPEC := mk_FLOW_SPEC 0 0 0 0 0 0 0.
Definition zero_EXT_FLOW_SPEC : tHCI_EXT_FLOW_SPEC := mk_EXT_FLOW_SPEC 0 0 0 0 0 0.
Definition zero_CFG_INFO : tL2CAP_CFG_INFO :=
  mk_CFG_INFO 0 false 0 false (mk_FCR_OPTS 0 0 0 0 0 0) false 0 false false zero_FLOW_SPEC false 0 zero_EXT_FLOW_SPEC 0.

(** What the model of the signalling is given, of the rest of the stack and of the other channels; what may change is a function
    of everything that has happened: whether the controller knows packets that are not flushable, and the size of its packets;
    which fixed channels are registered; the registration for a PSM; whether another channel of the link has an identifier; whether the
    control block of this channel is the first of the free ones ([Some true]), or another ([Some false]), or none is; the longest
    packet the baseband sends; whether the channel is the only one of the link; the answer of the manager of security to
    a request for access: nothing yet, or the status that it calls back with; whether the link is down, or about to be; and the
    value of [1 << n] from 32 bits on, which the language leaves open. *)
Class SigEnv := {
  supports_non_flushable_pb : bool;
  acl_packet_size : Z;
  fixed_conn_reg : Z -> bool;
  find_rcb_by_psm : list l2c_out -> Z -> option tL2C_RCB;
  other_ccb : list l2c_out -> Z -> bool;
  first_free_ccb : list l2c_out -> option bool;
  max_packet_size : list l2c_out -> Z;
  only_ccb : list l2c_out -> bool;
  sec_access : list l2c_out -> option Z;
  link_ending : list l2c_out -> bool;
  shift_beyond : Z -> Z;
}.

(** [UINT32_TO_STREAM] *)
Definition le32 (x : Z) : list Z := [u8 x; u8 (x .>> 8); u8 (x .>> 16); u8 (x .>> 24)].

Section Link.
Context `{LE : LinkEnv} `{SE : SigEnv}.

(** ** Sending commands *)

(** [l2cu_build_header], and the parameters behind the header. *)
Definition build_cmd (l : tL2C_LCB) (len code id : Z) (params : list Z) : outcome BT_HDR :=
  p_buf ← l2cu_build_header l len code id;
  bh_write p_buf (L2CAP_SEND_CMD_OFFSET + HCI_DATA_PREAMBLE_SIZE + L2CAP_PKT_OVERHEAD + L2CAP_CMD_OVERHEAD) params.

(** [signal_id++; l2cu_adj_id(p_lcb)] *)
Definition next_signal_id (l : tL2C_LCB) : tL2C_LCB :=
  l <| signal_id ::= fun n => let n := u8 (n + 1) in if n =? 0 then 1 else n |>.

(** A new identifier for a request of the channel. *)
Definition new_local_id : L tL2C_LCB :=
  upd_lcb next_signal_id;;
  l ← get_lcb;
  upd_ccb (fun c => c <| local_id := signal_id l |>);;
  mret l.

Definition l2cu_send_peer_cmd_reject (reason rem_id p1 p2 : Z) : L unit :=
  let param_len := if reason =? L2CAP_CMD_REJ_MTU_EXCEEDED then 2 else if reason =? L2CAP_CMD_REJ_INVALID_CID then 4 else 0 in
  l ← get_link;
  p_buf ← lift (build_cmd l (L2CAP_CMD_REJECT_LEN + param_len) L2CAP_CMD_REJECT rem_id
                  (le16 reason ++ (if 2 <=? param_len then le16 p1 else []) ++ (if 4 <=? param_len then le16 p2 else [])));
  l2c_link_check_send_pkts 0 (Some p_buf).

(** The answer to a command in a packet that is too long. *)
Definition l2c_is_cmd_rejected (cmd_code signal_id : Z) : L bool :=
  if bool_decide (cmd_code ∈ [L2CAP_CMD_CONN_REQ; L2CAP_CMD_CONFIG_REQ; L2CAP_CMD_DISC_REQ; L2CAP_CMD_ECHO_REQ; L2CAP_CMD_INFO_REQ;
                              L2CAP_CMD_AMP_CONN_REQ; L2CAP_CMD_AMP_MOVE_REQ; L2CAP_CMD_BLE_UPDATE_REQ])
  then l2cu_send_peer_cmd_reject L2CAP_CMD_REJ_MTU_EXCEEDED signal_id L2CAP_DEFAULT_MTU 0;; mret true
  else mret false.

Definition l2cu_send_peer_connect_req : L unit :=
  l ← new_local_id;
  c ← get_ccb;
  r ← get_rcb;
  p_buf ← lift (build_cmd l L2CAP_CONN_REQ_LEN L2CAP_CMD_CONN_REQ (local_id c) (le16 (real_psm r) ++ le16 (local_cid c)));
  ccb_check_send_pkts 0 (Some p_buf).

Definition l2cu_send_peer_connect_rsp (result status : Z) : L unit :=
  c ← get_ccb;
  if (result =? L2CAP_CONN_PENDING) && nz (ccb_flags c .& CCB_FLAG_SENT_PENDING) then skip
  else
    when (result =? L2CAP_CONN_PENDING) (upd_ccb (fun c => c <| ccb_flags ::= fun n => n .| CCB_FLAG_SENT_PENDING |>));;
    l ← get_lcb;
    p_buf ← lift (build_cmd l L2CAP_CONN_RSP_LEN L2CAP_CMD_CONN_RSP (remote_id c)
                    (le16 (local_cid c) ++ le16 (remote_cid c) ++ le16 result ++ le16 status));
    ccb_check_send_pkts 0 (Some p_buf).

Definition l2cu_reject_connection (remote_cid rem_id result : Z) : L unit :=
  l ← get_link;
  p_buf ← lift (build_cmd l L2CAP_CONN_RSP_LEN L2CAP_CMD_CONN_RSP rem_id (le16 0 ++ le16 remote_cid ++ le16 result ++ le16 0));
  l2c_link_check_send_pkts 0 (Some p_buf).

(** The options of a configuration: their length, and their bytes with the timeouts [tout] and, in a request, the
    option for the frame check sequence. *)
Definition cfg_len (p_cfg : tL2CAP_CFG_INFO) (with_fcs : bool) : Z :=
  (if mtu_present p_cfg then L2CAP_CFG_MTU_OPTION_LEN + L2CAP_CFG_OPTION_OVERHEAD else 0) +
  (if flush_to_present p_cfg then L2CAP_CFG_FLUSH_OPTION_LEN + L2CAP_CFG_OPTION_OVERHEAD else 0) +
  (if qos_present p_cfg then L2CAP_CFG_QOS_OPTION_LEN + L2CAP_CFG_OPTION_OVERHEAD else 0) +
  (if fcr_present p_cfg then L2CAP_CFG_FCR_OPTION_LEN + L2CAP_CFG_OPTION_OVERHEAD else 0) +
  (if with_fcs && fcs_present p_cfg then L2CAP_CFG_FCS_OPTION_LEN + L2CAP_CFG_OPTION_OVERHEAD else 0) +
  (if ext_flow_spec_present p_cfg then L2CAP_CFG_EXT_FLOW_OPTION_LEN + L2CAP_CFG_OPTION_OVERHEAD else 0).

Definition cfg_options (p_cfg : tL2CAP_CFG_INFO) (tout : tL2CAP_FCR_OPTS) (with_fcs : bool) : list Z :=
  let q := cfg_qos p_cfg in
  let f := cfg_fcr p_cfg in
  let e := cfg_ext_flow_spec p_cfg in
  (if mtu_present p_cfg then [L2CAP_CFG_TYPE_MTU; L2CAP_CFG_MTU_OPTION_LEN] ++ le16 (cfg_mtu p_cfg) else []) ++
  (if flush_to_present p_cfg then [L2CAP_CFG_TYPE_FLUSH_TOUT; L2CAP_CFG_FLUSH_OPTION_LEN] ++ le16 (cfg_flush_to p_cfg) else []) ++
  (if qos_present p_cfg then
     [L2CAP_CFG_TYPE_QOS; L2CAP_CFG_QOS_OPTION_LEN; u8 (qos_flags q); u8 (service_type q)] ++ le32 (token_rate q) ++
     le32 (token_bucket_size q) ++ le32 (peak_bandwidth q) ++ le32 (latency q) ++ le32 (delay_variation q)
   else []) ++
  (if fcr_present p_cfg then
     [L2CAP_CFG_TYPE_FCR; L2CAP_CFG_FCR_OPTION_LEN; u8 (fcr_mode f); u8 (tx_win_sz f); u8 (max_transmit f)] ++
     le16 (rtrans_tout tout) ++ le16 (mon_tout tout) ++ le16 (fcr_mps f)
   else []) ++
  (if with_fcs && fcs_present p_cfg then [L2CAP_CFG_TYPE_FCS; L2CAP_CFG_FCS_OPTION_LEN; u8 (cfg_fcs p_cfg)] else []) ++
  (if ext_flow_spec_present p_cfg then
     [L2CAP_CFG_TYPE_EXT_FLOW; L2CAP_CFG_EXT_FLOW_OPTION_LEN; u8 (ext_id e); u8 (ext_stype e)] ++ le16 (ext_max_sdu_size e) ++
     le32 (ext_sdu_inter_time e) ++ le32 (ext_access_latency e) ++ le32 (ext_flush_timeout e)
   else []).

Definition l2cu_send_peer_config_req (p_cfg : tL2CAP_CFG_INFO) : L unit :=
  l ← new_local_id;
  c ← get_ccb;
  p_buf ← lift (build_cmd l (L2CAP_CONFIG_REQ_LEN + cfg_len p_cfg true) L2CAP_CMD_CONFIG_REQ (local_id c)
                  (le16 (remote_cid c) ++ le16 (cfg_flags p_cfg) ++ cfg_options p_cfg (cfg_fcr p_cfg) true));
  ccb_check_send_pkts 0 (Some p_buf).

Definition l2cu_send_peer_config_rsp (p_cfg : tL2CAP_CFG_INFO) : L unit :=
  c ← get_ccb;
  l ← get_lcb;
  p_buf ← lift (build_cmd l (L2CAP_CONFIG_RSP_LEN + cfg_len p_cfg false) L2CAP_CMD_CONFIG_RSP (remote_id c)
                  (le16 (remote_cid c) ++ le16 (cfg_flags p_cfg) ++ le16 (cfg_result p_cfg) ++ cfg_options p_cfg (cfg_fcr (our_cfg c)) false));
  ccb_check_send_pkts 0 (Some p_buf).

(** The types of options that are understood. *)
Definition known_option (cfg_code : Z) : bool :=
  bool_decide (cfg_code .& 0x7F ∈ [L2CAP_CFG_TYPE_MTU; L2CAP_CFG_TYPE_FLUSH_TOUT; L2CAP_CFG_TYPE_QOS; L2CAP_CFG_TYPE_FCR;
                                   L2CAP_CFG_TYPE_FCS; L2CAP_CFG_TYPE_EXT_FLOW]).

(** The options between [p_data] and [p_data_end] in [p_msg] that are not understood and are no hints are copied to [p] in [p_buf], in which
    [buf_space] bytes are left.  An option has two bytes at least, so that [n] turns are enough for as many bytes. *)
Fixpoint copy_rejected (n : nat) (p_msg : BT_HDR) (p_data p_data_end data_len : Z) (p_buf : BT_HDR) (p buf_space : Z) : outcome (BT_HDR * Z) :=
  match n with
  | O => Crash OutOfFuel
  | S n =>
      if negb (p_data <? p_data_end) then mret (p_buf, p) else
      cfg_code ← bh_read p_msg p_data;
      cfg_len ← bh_read p_msg (p_data + 1);
      let next := p_data + cfg_len + L2CAP_CFG_OPTION_OVERHEAD in
      if known_option cfg_code then copy_rejected n p_msg next p_data_end data_len p_buf p buf_space
      else if data_len <? cfg_len + L2CAP_CFG_OPTION_OVERHEAD then mret (p_buf, p)
      else if nz (cfg_code .& 0x80) then copy_rejected n p_msg next p_data_end data_len p_buf p buf_space
      else if buf_space <? cfg_len + L2CAP_CFG_OPTION_OVERHEAD then mret (p_buf, p)
      else
        bytes ← bh_read_bytes p_msg p_data (cfg_len + L2CAP_CFG_OPTION_OVERHEAD);
        p_buf ← bh_write p_buf p bytes;
        copy_rejected n p_msg next p_data_end data_len p_buf (p + cfg_len + L2CAP_CFG_OPTION_OVERHEAD)
          (buf_space - (cfg_len + L2CAP_CFG_OPTION_OVERHEAD))
  end.

(** [p_data] is the place of the options in the packet [p_msg]. *)
Definition l2cu_send_peer_config_rej (p_msg : BT_HDR) (p_data data_len rej_len : Z) : L unit :=
  let len := sizeof_BT_HDR + HCI_DATA_PREAMBLE_SIZE + L2CAP_PKT_OVERHEAD + L2CAP_CMD_OVERHEAD + L2CAP_CONFIG_RSP_LEN in
  if 0xFFFF - len <? rej_len then skip else
  c ← get_ccb;
  l ← get_lcb;
  let word := lcb_handle l .| ((if supports_non_flushable_pb then L2CAP_PKT_START_NON_FLUSHABLE else L2CAP_PKT_START) .<< L2CAP_PKT_TYPE_SHIFT) in
  let p_buf := (osi_malloc (len + rej_len)) <| bh_offset := L2CAP_SEND_CMD_OFFSET |> in
  p_buf ← lift (bh_write p_buf L2CAP_SEND_CMD_OFFSET (le16 word));
  let p_hci_len := L2CAP_SEND_CMD_OFFSET + 2 in
  p_buf ← lift (bh_write p_buf (p_hci_len + 2)
                  (le16 (L2CAP_CMD_OVERHEAD + L2CAP_CONFIG_RSP_LEN + rej_len) ++ le16 L2CAP_SIGNALLING_CID ++
                   [L2CAP_CMD_CONFIG_RSP; u8 (remote_id c)] ++ le16 (L2CAP_CONFIG_RSP_LEN + rej_len) ++
                   le16 (remote_cid c) ++ le16 0 ++ le16 L2CAP_CFG_UNKNOWN_OPTIONS));
  let p := p_hci_len + 2 + L2CAP_PKT_OVERHEAD + L2CAP_CMD_OVERHEAD + L2CAP_CONFIG_RSP_LEN in
  '(p_buf, p) ← lift (copy_rejected (S (Z.to_nat data_len)) p_msg p_data (p_data + data_len) data_len p_buf p rej_len);
  let len := u16 (p - p_hci_len - 2) in
  p_buf ← lift (bh_write p_buf p_hci_len (le16 len));
  ccb_check_send_pkts 0 (Some (p_buf <| bh_len := u16 (len + 4) |>)).

Definition l2cu_send_peer_disc_rsp (remote_id local_cid remote_cid : Z) : L unit :=
  l ← get_link;
  p_buf ← lift (build_cmd l L2CAP_DISC_RSP_LEN L2CAP_CMD_DISC_RSP remote_id (le16 local_cid ++ le16 remote_cid));
  l2c_link_check_send_pkts 0 (Some p_buf).

(** [p_data] is the place of the data in the packet [p_msg]. *)
Definition l2cu_send_peer_echo_rsp (signal_id : Z) (p_msg : BT_HDR) (p_data data_len : Z) : L unit :=
  l ← get_link;
  if (signal_id =? 0) || (signal_id =? cur_echo_id l) then skip
  else
    upd_link (fun l => l <| cur_echo_id := signal_id |>);;
    let maxlen := if acl_packet_size <? L2CAP_CMD_BUF_SIZE then acl_data_size else L2CAP_CMD_BUF_SIZE in
    let maxlen := u16 (maxlen - (sizeof_BT_HDR + HCI_DATA_PREAMBLE_SIZE + L2CAP_PKT_OVERHEAD + L2CAP_CMD_OVERHEAD + L2CAP_ECHO_RSP_LEN)) in
    let data_len := if maxlen <? data_len then 0 else data_len in
    l ← get_link;
    p_buf ← lift (l2cu_build_header l (L2CAP_ECHO_RSP_LEN + data_len) L2CAP_CMD_ECHO_RSP signal_id);
    p_buf ← lift (if data_len =? 0 then mret p_buf
                  else
                    bytes ← bh_read_bytes p_msg p_data data_len;
                    bh_write p_buf (L2CAP_SEND_CMD_OFFSET + HCI_DATA_PREAMBLE_SIZE + L2CAP_PKT_OVERHEAD + L2CAP_CMD_OVERHEAD) bytes);
    l2c_link_check_send_pkts 0 (Some p_buf).

Definition l2cu_send_peer_info_req (info_type : Z) : L unit :=
  upd_link next_signal_id;;
  l ← get_link;
  p_buf ← lift (build_cmd l 2 L2CAP_CMD_INFO_REQ (signal_id l) (le16 info_type));
  a ← lift (alarm_set_on_mloop (info_resp_timer l) L2CAP_WAIT_INFO_RSP_TIMEOUT_MS);
  upd_link (fun l => l <| w4_info_rsp := true |> <| info_resp_timer := a |>);;
  l2c_link_check_send_pkts 0 (Some p_buf).

(** The mask of the fixed channels that are registered and used on a BR/EDR link, as eight bytes. *)
Definition fixed_chnl_mask : list Z :=
  let bit n := n =? L2CAP_SIGNALLING_CID in
  let registered n :=
    (L2CAP_FIRST_FIXED_CHNL <=? n) && (n <? L2CAP_FIRST_FIXED_CHNL + L2CAP_NUM_FIXED_CHNLS) &&
    negb ((L2CAP_ATT_CID <=? n) && (n <=? L2CAP_SMP_CID)) && fixed_conn_reg n in
  map (fun i => foldr (fun k m => (if bit (8 * i + k) || registered (8 * i + k) then 1 .<< k else 0) .| m) 0 [0; 1; 2; 3; 4; 5; 6; 7])
    [0; 1; 2; 3; 4; 5; 6; 7].

Definition l2cu_send_peer_info_rsp (remote_id info_type : Z) : L unit :=
  l ← get_link;
  let params :=
    if info_type =? L2CAP_EXTENDED_FEATURES_INFO_TYPE then
      le16 L2CAP_INFO_RESP_RESULT_SUCCESS ++
      le32 (if lcb_le l then L2CAP_BLE_EXTFEA_MASK else L2CAP_EXTFEA_SUPPORTED_MASK .| L2CAP_EXTFEA_FIXED_CHNLS)
    else if info_type =? L2CAP_FIXED_CHANNELS_INFO_TYPE then le16 L2CAP_INFO_RESP_RESULT_SUCCESS ++ fixed_chnl_mask
    else if info_type =? L2CAP_CONNLESS_MTU_INFO_TYPE then le16 L2CAP_INFO_RESP_RESULT_SUCCESS ++ le16 L2CAP_MTU_SIZE
    else le16 L2CAP_INFO_RESP_RESULT_NOT_SUPPORTED in
  let len := L2CAP_INFO_RSP_LEN +
    (if info_type =? L2CAP_EXTENDED_FEATURES_INFO_TYPE then L2CAP_EXTENDED_FEATURES_ARRAY_SIZE
     else if info_type =? L2CAP_FIXED_CHANNELS_INFO_TYPE then L2CAP_FIXED_CHNL_ARRAY_SIZE
     else if info_type =? L2CAP_CONNLESS_MTU_INFO_TYPE then L2CAP_CONNLESS_MTU_INFO_SIZE else 0) in
  p_buf ← lift (build_cmd l len L2CAP_CMD_INFO_RSP remote_id (le16 info_type ++ params));
  l2c_link_check_send_pkts 0 (Some p_buf).

(** ** Negotiation of the mode *)

Definition l2c_fcr_chk_chan_modes : L bool :=
  l ← get_lcb;
  if negb (nz (peer_ext_fea l .& L2CAP_EXTFEA_ENH_RETRANS)) then
    r ← get_rcb;
    if preferred_mode r =? L2CAP_FCR_ERTM_MODE then
      upd_ccb (fun c => c <| p_rcb := Some (r <| preferred_mode := 0 |>) |>);;
      mret false
    else mret true
  else mret true.

Definition l2c_fcr_adj_monitor_retran_timeout : L unit :=
  upd_ccb (fun c =>
    if out_cfg_fcr_present c then
      let ertm := (fcr_mode (cfg_fcr (our_cfg c)) =? L2CAP_FCR_ERTM_MODE) || (fcr_mode (cfg_fcr (peer_cfg c)) =? L2CAP_FCR_ERTM_MODE) in
      c <| our_cfg ::= fun g => g <| cfg_fcr ::= fun o =>
        o <| mon_tout := if ertm then L2CAP_MIN_MONITOR_TOUT else 0 |>
          <| rtrans_tout := if ertm then L2CAP_MIN_RETRANS_TOUT else 0 |> |> |>
    else c).

Definition l2c_fcr_adj_our_rsp_options (p_cfg : tL2CAP_CFG_INFO) : L tL2CAP_CFG_INFO :=
  l2c_fcr_adj_monitor_retran_timeout;;
  c ← get_ccb;
  let p_cfg := p_cfg <| fcr_present := out_cfg_fcr_present c |> in
  if fcr_present p_cfg then
    let win := if tx_win_sz (cfg_fcr (our_cfg c)) <? tx_win_sz (cfg_fcr (peer_cfg c))
               then tx_win_sz (cfg_fcr (our_cfg c)) else tx_win_sz (cfg_fcr (peer_cfg c)) in
    upd_ccb (fun c => c <| peer_cfg ::= fun g => g <| cfg_fcr ::= fun o => o <| tx_win_sz := win |> |> |>);;
    mret (p_cfg <| cfg_fcr := mk_FCR_OPTS (fcr_mode (cfg_fcr (peer_cfg c))) win (max_transmit (cfg_fcr (peer_cfg c)))
                     (rtrans_tout (cfg_fcr (our_cfg c))) (mon_tout (cfg_fcr (our_cfg c))) (fcr_mps (cfg_fcr (peer_cfg c))) |>)
  else mret p_cfg.

(** The changed [p_cfg], which is a copy of its own. *)
Definition l2cu_process_our_cfg_req (p_cfg : tL2CAP_CFG_INFO) : L tL2CAP_CFG_INFO :=
  when (qos_present p_cfg) (upd_ccb (fun c => c <| our_cfg ::= fun g => g <| qos_present := true |> <| cfg_qos := cfg_qos p_cfg |> |>));;
  p_cfg ←
    (if fcr_present p_cfg then
       let opts := if fcr_mode (cfg_fcr p_cfg) =? L2CAP_FCR_BASIC_MODE then mk_FCR_OPTS 0 0 0 0 0 0
                   else (cfg_fcr p_cfg) <| mon_tout := 0 |> <| rtrans_tout := 0 |> in
       upd_fcrb (fun f => f <| max_held_acks := tx_win_sz opts `div` 3 |>);;
       l ← get_lcb;
       let p_cfg := p_cfg <| cfg_fcr := opts |> in
       mret (if peer_ext_fea l .& L2CAP_EXTFEA_NO_CRC =? 0 then p_cfg <| fcs_present := false |> else p_cfg)
     else mret (p_cfg <| cfg_fcr ::= fun o => o <| fcr_mode := L2CAP_FCR_BASIC_MODE |> |>));
  upd_ccb (fun c => c <| our_cfg ::= fun g => g <| cfg_fcr ::= fun o => o <| fcr_mode := fcr_mode (cfg_fcr p_cfg) |> |>
                                                <| fcr_present := fcr_present p_cfg |> |>);;
  mret p_cfg.

(** The result and the changed [p_cfg]. *)
Definition l2c_fcr_renegotiate_chan (p_cfg : tL2CAP_CFG_INFO) : L (bool * tL2CAP_CFG_INFO) :=
  c ← get_ccb;
  if negb (fcr_present p_cfg) || nz (config_done c .& RECONFIG_FLAG) then mret (false, p_cfg) else
  let unacceptable := cfg_result p_cfg =? L2CAP_CFG_UNACCEPTABLE_PARAMS in
  let our_mode := fcr_mode (cfg_fcr (our_cfg c)) in
  let peer_mode := if unacceptable then fcr_mode (cfg_fcr p_cfg) else our_mode in
  let retry := unacceptable && negb (our_mode =? peer_mode) in
  '(sent, p_cfg) ←
    (if retry then
       let tries := u8 (fcr_cfg_tries c - 1) in
       upd_ccb (fun c => c <| fcr_cfg_tries := tries |>);;
       let p_cfg := if tries =? 0 then p_cfg <| cfg_result := L2CAP_CFG_FAILED_NO_REASON |> else p_cfg in
       can_renegotiate ←
         (if our_mode =? L2CAP_FCR_ERTM_MODE then
            r ← get_rcb; mret (nz (preferred_mode r .& L2CAP_FCR_BASIC_MODE))
          else mret false);
       if (can_renegotiate : bool) then
         upd_ccb (fun c => c <| our_cfg ::= fun g => g <| cfg_fcr ::= fun o => o <| fcr_mode := L2CAP_FCR_BASIC_MODE |> |>
                                                       <| fcr_present := true |> <| fcs_present := false |>
                                                       <| ext_flow_spec_present := false |> |>);;
         let p_cfg := if mtu_present p_cfg && (L2CAP_MTU_SIZE <? cfg_mtu p_cfg) then p_cfg <| cfg_mtu := L2CAP_MTU_SIZE |> else p_cfg in
         c ← get_ccb;
         g ← l2cu_process_our_cfg_req (our_cfg c);
         upd_ccb (fun c => c <| our_cfg := g |>);;
         l2cu_send_peer_config_req g;;
         c ← get_ccb;
         a ← lift (alarm_set_on_mloop (l2c_ccb_timer c) L2CAP_CHNL_CFG_TIMEOUT_MS);
         upd_ccb (fun c => c <| l2c_ccb_timer := a |>);;
         mret (true, p_cfg)
       else mret (false, p_cfg)
     else mret (false, p_cfg));
  if (sent : bool) then mret (true, p_cfg)
  else when (negb (our_mode =? peer_mode)) l2cu_disconnect_chnl;; mret (false, p_cfg).

(** [1 << mode], with the mode of the peer: from 32 on there is no telling what it is. *)
Definition mode_bit (mode : Z) : Z := if mode <? 32 then 1 .<< mode else shift_beyond mode.

(** The answer and the changed [p_cfg]. *)
Definition l2c_fcr_process_peer_cfg_req (p_cfg : tL2CAP_CFG_INFO) : L (Z * tL2CAP_CFG_INFO) :=
  upd_lcb (fun l => l <| w4_info_rsp := false |>);;
  r ← get_rcb;
  c ← get_ccb;
  let ours := cfg_fcr (our_cfg c) in
  '(fcr_ok, p_cfg) ←
    (if negb (fcr_mode (cfg_fcr p_cfg) =? preferred_mode r) then
       if ((mode_bit (fcr_mode (cfg_fcr p_cfg)) .& L2CAP_FCR_CHAN_OPT_ALL_MASK) =? 0) || (preferred_mode r =? L2CAP_FCR_ERTM_MODE) then
         mret (L2CAP_PEER_CFG_UNACCEPTABLE,
               p_cfg <| cfg_fcr ::= fun o => o <| fcr_mode := fcr_mode ours |> <| tx_win_sz := tx_win_sz ours |>
                                               <| max_transmit := max_transmit ours |> |>)
       else if preferred_mode r =? L2CAP_FCR_BASIC_MODE then
         upd_ccb (fun c => c <| our_cfg ::= fun g => g <| cfg_fcr ::= fun o =>
           o <| rtrans_tout := 0 |> <| mon_tout := 0 |> <| fcr_mps := 0 |> |> |>);;
         mret (L2CAP_PEER_CFG_UNACCEPTABLE, p_cfg <| cfg_fcr := mk_FCR_OPTS L2CAP_FCR_BASIC_MODE 0 0 0 0 0 |>)
       else mret (L2CAP_PEER_CFG_OK, p_cfg)
     else mret (L2CAP_PEER_CFG_OK, p_cfg));
  if fcr_ok =? L2CAP_PEER_CFG_OK then
    let modes := fcr_present p_cfg && negb (fcr_mode (cfg_fcr p_cfg) =? L2CAP_FCR_BASIC_MODE) in
    let max_retrans_size := BT_DEFAULT_BUFFER_SIZE - sizeof_BT_HDR - L2CAP_MIN_OFFSET - L2CAP_SDU_LEN_OFFSET - L2CAP_FCS_LEN in
    let mps := fcr_mps (cfg_fcr p_cfg) in
    let mps1 := if (mps =? 0) || (cfg_mtu (peer_cfg c) <? mps) then cfg_mtu (peer_cfg c) else mps in
    let mps2 := if max_retrans_size <? mps1 then max_retrans_size else mps1 in
    let p_cfg := if (modes : bool) then p_cfg <| cfg_fcr ::= fun o => o <| fcr_mps := mps2 |> |> else p_cfg in
    let out := modes && ((mps =? 0) || (cfg_mtu (peer_cfg c) <? mps) || (max_retrans_size <? mps1) ||
                         (fcr_mode (cfg_fcr p_cfg) =? L2CAP_FCR_ERTM_MODE)) in
    upd_ccb (fun c => c <| out_cfg_fcr_present := out |>
                        <| peer_cfg ::= fun g => (if modes && fcs_present p_cfg then g <| cfg_fcs := cfg_fcs p_cfg |> else g)
                                                 <| cfg_fcr := cfg_fcr p_cfg |> |>);;
    mret (L2CAP_PEER_CFG_OK, p_cfg)
  else if peer_cfg_already_rejected c then mret (L2CAP_PEER_CFG_DISCONNECT, p_cfg)
  else upd_ccb (fun c => c <| peer_cfg_already_rejected := true |>);; mret (fcr_ok, p_cfg).

(** The longest segment that is sent; [/] is integer division. *)
Definition l2cu_adjust_out_mps : L unit :=
  get_lcb;;
  s ← get;
  let packet_size := max_packet_size (outs s) in
  let overhead := L2CAP_PKT_OVERHEAD + L2CAP_FCR_OVERHEAD + L2CAP_SDU_LEN_OVERHEAD + L2CAP_FCS_LEN in
  let mps := fcr_mps (cfg_fcr (peer_cfg (ccb s))) in
  upd_ccb (fun c => c <| tx_mps :=
    if packet_size <=? overhead then mps
    else if packet_size - overhead <=? mps then mps `div` (packet_size - overhead) * (packet_size - overhead) else mps |>).

(** The answer and the changed [p_cfg]. *)
Definition l2cu_process_peer_cfg_req (p_cfg : tL2CAP_CFG_INFO) : L (Z * tL2CAP_CFG_INFO) :=
  r ← get_rcb;
  c ← get_ccb;
  let required_remote_mtu := Z.max L2CAP_MIN_MTU (rcb_required_remote_mtu r) in
  let ib_done := nz (config_done c .& IB_CFG_DONE) in
  let p_cfg := if fcr_present p_cfg then p_cfg else p_cfg <| cfg_fcr ::= fun o => o <| fcr_mode := L2CAP_FCR_BASIC_MODE |> |> in
  '(mtu_ok, p_cfg) ←
    (if negb (mtu_present p_cfg) && (L2CAP_DEFAULT_MTU <? required_remote_mtu) then mret (false, p_cfg <| cfg_mtu := required_remote_mtu |>)
     else if mtu_present p_cfg then
       if required_remote_mtu <=? cfg_mtu p_cfg then
         let p_cfg := if negb (fcr_present p_cfg) && (L2CAP_MTU_SIZE <? cfg_mtu p_cfg) then p_cfg <| cfg_mtu := L2CAP_MTU_SIZE |> else p_cfg in
         upd_ccb (fun c => c <| peer_cfg ::= fun g => g <| cfg_mtu := cfg_mtu p_cfg |> <| mtu_present := true |> |>);;
         mret (true, p_cfg)
       else mret (false, p_cfg <| cfg_mtu := required_remote_mtu |>)
     else if mtu_present (peer_cfg c) && negb ib_done then mret (true, p_cfg <| mtu_present := true |> <| cfg_mtu := cfg_mtu (peer_cfg c) |>)
     else mret (true, p_cfg));
  '(flush_to_ok, p_cfg) ←
    (if flush_to_present p_cfg then
       if cfg_flush_to p_cfg =? 0 then mret (false, p_cfg <| cfg_flush_to := 0xFFFF |>)
       else
         upd_ccb (fun c => c <| peer_cfg ::= fun g => g <| flush_to_present := true |> <| cfg_flush_to := cfg_flush_to p_cfg |> |>);;
         mret (true, p_cfg)
     else if flush_to_present (peer_cfg c) && negb ib_done then
       mret (true, p_cfg <| flush_to_present := true |> <| cfg_flush_to := cfg_flush_to (peer_cfg c) |>)
     else mret (true, p_cfg));
  '(qos_type_ok, p_cfg) ←
    (if qos_present p_cfg then
       if service_type (cfg_qos p_cfg) <=? SVC_TYPE_GUARANTEED then
         upd_ccb (fun c => c <| peer_cfg ::= fun g => g <| cfg_qos := cfg_qos p_cfg |> <| qos_present := true |> |>);;
         mret (true, p_cfg)
       else mret (false, p_cfg <| cfg_qos ::= fun q => q <| service_type := SVC_TYPE_BEST_EFFORT |> |>)
     else if qos_present (peer_cfg c) && negb ib_done then mret (true, p_cfg <| qos_present := true |> <| cfg_qos := cfg_qos (peer_cfg c) |>)
     else mret (true, p_cfg));
  '(fcr_status, p_cfg) ← l2c_fcr_process_peer_cfg_req p_cfg;
  if fcr_status =? L2CAP_PEER_CFG_DISCONNECT then
    mret (L2CAP_PEER_CFG_DISCONNECT,
          p_cfg <| cfg_result := L2CAP_CFG_FAILED_NO_REASON |> <| mtu_present := false |> <| qos_present := false |> <| flush_to_present := false |>)
  else
    let fcr_ok := fcr_status =? L2CAP_PEER_CFG_OK in
    if (mtu_ok : bool) && (flush_to_ok : bool) && (qos_type_ok : bool) && fcr_ok then l2cu_adjust_out_mps;; mret (L2CAP_PEER_CFG_OK, p_cfg)
    else
      mret (L2CAP_PEER_CFG_UNACCEPTABLE,
            p_cfg <| cfg_result := L2CAP_CFG_UNACCEPTABLE_PARAMS |> <| mtu_present ::= fun b => negb mtu_ok && b |>
                  <| flush_to_present ::= fun b => negb flush_to_ok && b |> <| qos_present ::= fun b => negb qos_type_ok && b |>
                  <| fcr_present ::= fun b => negb fcr_ok && b |>).

Definition l2cu_process_peer_cfg_rsp (p_cfg : tL2CAP_CFG_INFO) : L unit :=
  upd_ccb (fun c => if qos_present p_cfg && qos_present (our_cfg c) then c <| our_cfg ::= fun g => g <| cfg_qos := cfg_qos p_cfg |> |> else c);;
  when (fcr_present p_cfg)
    (when (fcr_mode (cfg_fcr p_cfg) =? L2CAP_FCR_ERTM_MODE)
       (upd_ccb (fun c => c <| peer_cfg ::= fun g => g <| cfg_fcr ::= fun o =>
          o <| rtrans_tout := rtrans_tout (cfg_fcr p_cfg) |> <| mon_tout := mon_tout (cfg_fcr p_cfg) |> |> |>));;
     c ← get_ccb;
     let win := tx_win_sz (cfg_fcr p_cfg) in
     let our_win := tx_win_sz (cfg_fcr (our_cfg c)) in
     upd_fcrb (fun f => f <| max_held_acks := (if win <? our_win then win else our_win) `div` 3 |>)).

(** The changed [p_cfg]. *)
Definition l2cu_process_our_cfg_rsp (p_cfg : tL2CAP_CFG_INFO) : L tL2CAP_CFG_INFO :=
  c ← get_ccb;
  p_cfg ←
    (if qos_present p_cfg && qos_present (peer_cfg c) then
       upd_ccb (fun c => c <| peer_cfg ::= fun g => g <| cfg_qos := cfg_qos p_cfg |> |>);; mret p_cfg
     else mret (p_cfg <| qos_present := false |>));
  l2c_fcr_adj_our_rsp_options p_cfg.

(** ** Channels *)

(** The quota of the channel; those of the other channels are left out. *)
Definition l2c_link_adjust_chnl_allocation : L unit :=
  c ← get_ccb;
  when (in_use c)
    (upd_ccb (fun c => c <| buff_quota := u16 (L2CAP_CBB_DEFAULT_DATA_RATE_BUFF_QUOTA * (tx_data_rate c + rx_data_rate c)) |>);;
     l2cu_check_channel_congestion).

(** [l2cu_allocate_ccb(p_lcb, 0)], when the control block of the channel is the first of the free ones; its place in the pool
    determines its [local_cid], which stays the same. *)
Definition init_ccb (c : tL2C_CCB) : tL2C_CCB :=
  let cfg := zero_CFG_INFO <| cfg_flush_to := L2CAP_NO_AUTOMATIC_FLUSH |> <| cfg_mtu := L2CAP_DEFAULT_MTU |>
               <| cfg_qos := mk_FLOW_SPEC 0 1 0 0 0 0xFFFFFFFF 0xFFFFFFFF |> in
  c <| in_use := true |> <| has_lcb := true |> <| p_rcb := None |> <| our_cfg := cfg |> <| peer_cfg := cfg |>
    <| peer_cfg_already_rejected := false |> <| fcr_cfg_tries := L2CAP_MAX_FCR_CFG_TRIES |>
    <| fcrb ::= fun f => f <| ack_timer := alarm_new |> <| mon_retrans_timer := alarm_new |> <| srej_rcv_hold_q := fixed_queue_new |>
                           <| retrans_q := fixed_queue_new |> <| waiting_for_ack_q := fixed_queue_new |> |>
    <| max_rx_mtu := BT_DEFAULT_BUFFER_SIZE - (L2CAP_MIN_OFFSET + L2CAP_SDU_LEN_OFFSET + L2CAP_FCS_LEN) |>
    <| tx_mps := BT_DEFAULT_BUFFER_SIZE - 32 |> <| xmit_hold_q := fixed_queue_new |> <| cong_sent := false |> <| buff_quota := 2 |>
    <| config_done := 0 |> <| chnl_state := CST_CLOSED |> <| ccb_flags := 0 |> <| tx_data_rate := L2CAP_CHNL_DATA_RATE_LOW |>
    <| rx_data_rate := L2CAP_CHNL_DATA_RATE_LOW |> <| is_flushable := false |> <| l2c_ccb_timer := alarm_new |>.

Definition l2cu_allocate_ccb : L unit :=
  upd_ccb init_ccb;;
  l2c_link_adjust_chnl_allocation.

(** The callbacks of the fixed channels of a BR/EDR link; the fixed channels themselves are others than this one. *)
Definition l2cu_process_fixed_chnl_resp : L unit :=
  upd_link (fun l => l <| peer_chnl_mask ::= fun m =>
    match m with
    | b :: m => (b .& (L2CAP_FIXED_CHNL_SIG_BIT .| L2CAP_FIXED_CHNL_CNCTLESS_BIT .| L2CAP_FIXED_CHNL_SMP_BR_BIT)) :: m
    | [] => []
    end |>);;
  l ← get_link;
  let channels := map (fun i => L2CAP_FIRST_FIXED_CHNL + Z.of_nat i) (seq 0 (Z.to_nat L2CAP_NUM_FIXED_CHNLS)) in
  foldr (fun cid k =>
      k;;
      (if ((L2CAP_ATT_CID <=? cid) && (cid <=? L2CAP_SMP_CID)) || negb (fixed_conn_reg cid) then skip
       else
         byte ← lift (rd (peer_chnl_mask l) (cid `div` 8));
         emit (OCsm (OFixedConn cid (Z.testbit byte (cid mod 8))))))
    skip (rev channels).
End Link.
