(* ===== verification/L2cCsm.v ===== *)
(** * L2cCsm: the state machine of a channel

    src/system/stack/l2cap/l2c_csm.cc for a channel of a BR/EDR link, from its allocation to its release, with the answers of the
    manager of security (l2c_link.cc).  The events of credit based channels, and the branches for LE links, are left out. *)

From Stdlib Require Import ZArith Lia.
From stdpp Require Import base list.
From S2P Require Import Prelude Osi L2cDefs L2cFcr L2cSig.

(** ** Events *)

Inductive tL2CEVT : Type :=
| LP_CONNECT_CFM
| LP_CONNECT_CFM_NEG (status : Z)
| LP_DISCONNECT_IND (reason : option Z)
| SEC_COMP
| SEC_COMP_NEG (status : Z)
| SEC_RE_SEND_CMD
| L2CAP_CONNECT_REQ
| L2CAP_CONNECT_RSP (remote_cid : Z)
| L2CAP_CONNECT_RSP_PND (remote_cid : Z)
| L2CAP_CONNECT_RSP_NEG (result : Z)
| L2CAP_CONFIG_REQ (p_cfg : tL2CAP_CFG_INFO)
| L2CAP_CONFIG_RSP (p_cfg : tL2CAP_CFG_INFO)
| L2CAP_CONFIG_RSP_NEG (p_cfg : tL2CAP_CFG_INFO)
| L2CAP_DISCONNECT_REQ
| L2CAP_DISCONNECT_RSP
| L2CAP_INFO_RSP
| L2CAP_DATA (p_data : BT_HDR)
| L2CA_CONNECT_REQ
| L2CA_CONNECT_RSP
| L2CA_CONFIG_REQ (p_cfg : tL2CAP_CFG_INFO)
| L2CA_CONFIG_RSP (p_cfg : tL2CAP_CFG_INFO)
| L2CA_DISCONNECT_REQ
| L2CA_DISCONNECT_RSP
| L2CA_DATA_WRITE (p_data : BT_HDR)
| TIMEOUT
| ACK_TIMEOUT.

Definition HCI_ERR_CONNECTION_EXISTS : Z := 0x0B.
Definition HCI_ERR_PEER_USER : Z := 0x13.
Definition BTM_SUCCESS : Z := 0.
Definition BTM_DELAY_CHECK : Z := 15.
Definition BTM_SUCCESS_NO_SECURITY : Z := 17.
Definition L2CAP_CHNL_CONNECT_TIMEOUT_MS : Z := 60000.
Definition L2CAP_CHNL_CONNECT_EXT_TIMEOUT_MS : Z := 120000.
Definition L2CAP_CHNL_DISCONNECT_TIMEOUT_MS : Z := 10000.
Definition L2CAP_DELAY_CHECK_SM4_TIMEOUT_MS : Z := 2000.

Section Link.
Context `{LE : LinkEnv} `{SE : SigEnv}.

(** ** Steps that several events share *)

(** [alarm_set_on_mloop(p_ccb->l2c_ccb_timer, ms, l2c_ccb_timer_timeout, p_ccb)] and [alarm_cancel(p_ccb->l2c_ccb_timer)] *)
Definition start_ccb_timer (ms : Z) : L unit :=
  c ← get_ccb;
  a ← lift (alarm_set_on_mloop (l2c_ccb_timer c) ms);
  upd_ccb (fun c => c <| l2c_ccb_timer := a |>).
Definition cancel_ccb_timer : L unit := upd_ccb (fun c => c <| l2c_ccb_timer ::= alarm_cancel |>).

Definition set_state (st : tL2C_CHNL_STATE) : L unit := upd_ccb (fun c => c <| chnl_state := st |>).

(** A callback that the registration may lack. *)
Definition callback (has : tL2C_RCB -> bool) (o : csm_out) : L unit :=
  r ← get_rcb;
  if has r then emit (OCsm o) else crash_with NullDeref.

(** [l2cu_release_ccb(p_ccb); ( *disconnect_ind)(local_cid, false)] *)
Definition release_and_indicate : L unit :=
  c ← get_ccb;
  l2cu_release_ccb;;
  emit (ODisconnectInd (local_cid c)).

(** [l2cu_release_ccb(p_ccb); ( *p_ccb->p_rcb->api.pL2CA_Error_Cb)(local_cid, reason)] *)
Definition release_with_error (reason : Z) : L unit :=
  c ← get_ccb;
  l2cu_release_ccb;;
  callback has_Error_Cb (OError (local_cid c) reason).

Definition release_and_confirm (result : Z) : L unit :=
  c ← get_ccb;
  r ← get_rcb;
  l2cu_release_ccb;;
  when (has_DisconnectCfm_Cb r) (emit (OCsm (ODisconnectCfm (local_cid c) result))).

(** The state machine, for the events it raises itself; the result is the configuration that the event points to, as it is left. *)
Variable execute : tL2CEVT -> L (option tL2CAP_CFG_INFO).

Definition l2c_csm_send_connect_rsp : L unit := execute L2CA_CONNECT_RSP;; skip.

Definition l2c_csm_send_config_req : L unit :=
  r ← get_rcb;
  let config := zero_CFG_INFO <| mtu_present := true |> <| cfg_mtu := my_mtu r |> in
  let config := if negb (preferred_mode r =? L2CAP_FCR_BASIC_MODE)
                then config <| fcr_present := true |> <| cfg_fcr := kDefaultErtmOptions |> else config in
  upd_ccb (fun c => c <| max_rx_mtu := cfg_mtu config |> <| our_cfg := config |>);;
  execute (L2CA_CONFIG_REQ config);; skip.

Definition l2c_csm_send_config_rsp_ok : L unit :=
  execute (L2CA_CONFIG_RSP (zero_CFG_INFO <| cfg_result := L2CAP_CFG_OK |>));; skip.

Definition l2c_csm_send_disconnect_rsp : L unit := execute L2CA_DISCONNECT_RSP;; skip.

Definition l2c_csm_indicate_connection_open : L unit :=
  c ← get_ccb;
  r ← get_rcb;
  (if initiator_local c then callback has_ConnectCfm_Cb (OConnectCfm (local_cid c) L2CAP_CONN_OK)
   else get_lcb;; callback has_ConnectInd_Cb (OConnectInd (local_cid c) (rcb_psm r) (remote_id c)));;
  match chnl_state c with
  | CST_OPEN => get_lcb;; emit (OCsm (OConfigCfm (local_cid c) (initiator_local c) (peer_cfg c)))
  | _ => skip
  end.

(** The manager of security calls back about the channel, if it is still one of the link. *)
Definition l2c_link_sec_comp (status : Z) : L unit :=
  c ← get_ccb;
  if negb (in_use c && has_lcb c) then skip
  else if (status =? BTM_SUCCESS) || (status =? BTM_SUCCESS_NO_SECURITY) then execute SEC_COMP;; skip
  else if status =? BTM_DELAY_CHECK then start_ccb_timer L2CAP_DELAY_CHECK_SM4_TIMEOUT_MS
  else execute (SEC_COMP_NEG status);; skip.

(** [btm_sec_l2cap_access_req]: true if it returns [BTM_CMD_STARTED], and calls back later. *)
Definition btm_sec_l2cap_access_req (is_originator : bool) : L bool :=
  get_lcb;;
  r ← get_rcb;
  emit (OCsm (OSecAccess (rcb_psm r) is_originator));;
  s ← get;
  match sec_access (outs s) with
  | None => mret true
  | Some status => l2c_link_sec_comp status;; mret false
  end.

(** The connection is requested, once the peer's features are known, if it knows the mode. *)
Definition connect_or_give_up (timer_first : bool) : L unit :=
  ok ← l2c_fcr_chk_chan_modes;
  if (ok : bool) then
    when timer_first (start_ccb_timer L2CAP_CHNL_CONNECT_TIMEOUT_MS);;
    l2cu_send_peer_connect_req;;
    when (negb timer_first) (start_ccb_timer L2CAP_CHNL_CONNECT_TIMEOUT_MS)
  else release_with_error L2CAP_CONN_OTHER_ERROR.

(** The channel is accepted and its configuration begins. *)
Definition accept_connection : L unit :=
  start_ccb_timer L2CAP_CHNL_CONNECT_TIMEOUT_MS;;
  l2c_csm_send_connect_rsp;;
  l2c_csm_send_config_req.

(** ** States *)

Definition l2c_csm_closed (event : tL2CEVT) : L unit :=
  c ← get_ccb;
  match p_rcb c with
  | None => skip
  | Some _ =>
      match event with
      | LP_DISCONNECT_IND _ => release_and_indicate
      | LP_CONNECT_CFM => set_state CST_ORIG_W4_SEC_COMP;; btm_sec_l2cap_access_req true;; skip
      | LP_CONNECT_CFM_NEG status =>
          if status =? HCI_ERR_CONNECTION_EXISTS then get_lcb;; emit (OCsm OConnCollision)
          else release_with_error L2CAP_CONN_ACL_CONNECTION_FAILED
      | L2CA_CONNECT_REQ =>
          started ← btm_sec_l2cap_access_req true;
          when started (set_state CST_ORIG_W4_SEC_COMP)
      | SEC_COMP =>
          set_state CST_W4_L2CAP_CONNECT_RSP;;
          l ← get_lcb;
          when (negb (w4_info_rsp l)) (connect_or_give_up false)
      | SEC_COMP_NEG _ => release_with_error L2CAP_CONN_CLIENT_SECURITY_CLEARANCE_FAILED
      | L2CAP_CONNECT_REQ =>
          get_lcb;;
          emit (OCsm OLcbTimerCancel);;
          set_state CST_TERM_W4_SEC_COMP;;
          started ← btm_sec_l2cap_access_req false;
          when started (l2cu_send_peer_connect_rsp L2CAP_CONN_PENDING 0)
      | TIMEOUT => release_with_error L2CAP_CONN_TIMEOUT
      | L2CA_DISCONNECT_REQ => l2cu_release_ccb
      | _ => skip
      end
  end.

Definition l2c_csm_orig_w4_sec_comp (event : tL2CEVT) : L unit :=
  get_rcb;;
  match event with
  | LP_DISCONNECT_IND _ => release_and_indicate
  | SEC_RE_SEND_CMD | LP_CONNECT_CFM => btm_sec_l2cap_access_req true;; skip
  | SEC_COMP =>
      set_state CST_W4_L2CAP_CONNECT_RSP;;
      l ← get_lcb;
      when (negb (w4_info_rsp l)) (connect_or_give_up true)
  | SEC_COMP_NEG _ =>
      get_lcb;;
      s ← get;
      when (only_ccb (outs s)) (emit (OCsm OIdleTimeoutZero));;
      release_with_error L2CAP_CONN_CLIENT_SECURITY_CLEARANCE_FAILED
  | L2CA_DISCONNECT_REQ => get_lcb;; emit (OCsm OSecAbort);; l2cu_release_ccb
  | _ => skip
  end.

Definition l2c_csm_term_w4_sec_comp (event : tL2CEVT) : L unit :=
  match event with
  | LP_DISCONNECT_IND _ => get_lcb;; emit (OCsm OSecAbort);; l2cu_release_ccb
  | SEC_COMP =>
      set_state CST_W4_L2CA_CONNECT_RSP;;
      l ← get_lcb;
      if negb (w4_info_rsp l) then accept_connection
      else cancel_ccb_timer;; l2cu_send_peer_connect_rsp L2CAP_CONN_PENDING 0
  | SEC_COMP_NEG status =>
      if status =? BTM_DELAY_CHECK then start_ccb_timer L2CAP_DELAY_CHECK_SM4_TIMEOUT_MS
      else l2cu_send_peer_connect_rsp L2CAP_CONN_SECURITY_BLOCK 0;; l2cu_release_ccb
  | L2CA_DISCONNECT_REQ => l2cu_release_ccb
  | L2CAP_DISCONNECT_REQ =>
      c ← get_ccb;
      get_lcb;;
      l2cu_send_peer_disc_rsp (remote_id c) (local_cid c) (remote_cid c);;
      emit (OCsm OSecAbort);;
      l2cu_release_ccb
  | TIMEOUT => get_lcb;; emit (OCsm OAclDisconnect)
  | SEC_RE_SEND_CMD => btm_sec_l2cap_access_req false;; skip
  | _ => skip
  end.

Definition l2c_csm_w4_l2cap_connect_rsp (event : tL2CEVT) : L unit :=
  get_rcb;;
  match event with
  | LP_DISCONNECT_IND reason =>
      set_state CST_CLOSED;;
      c ← get_ccb;
      when (nz (ccb_flags c .& CCB_FLAG_NO_RETRY) || match reason with None => true | Some r => negb (r =? HCI_ERR_PEER_USER) end)
        release_and_indicate;;
      upd_ccb (fun c => c <| ccb_flags ::= fun n => n .| CCB_FLAG_NO_RETRY |>)
  | L2CAP_CONNECT_RSP remote_cid' =>
      upd_ccb (fun c => c <| remote_cid := remote_cid' |>);;
      get_lcb;;
      set_state CST_CONFIG;;
      start_ccb_timer L2CAP_CHNL_CFG_TIMEOUT_MS;;
      l2c_csm_send_config_req
  | L2CAP_CONNECT_RSP_PND remote_cid' =>
      upd_ccb (fun c => c <| remote_cid := remote_cid' |>);;
      start_ccb_timer L2CAP_CHNL_CONNECT_EXT_TIMEOUT_MS
  | L2CAP_CONNECT_RSP_NEG result => release_with_error result
  | TIMEOUT => release_with_error L2CAP_CONN_OTHER_ERROR
  | L2CA_DISCONNECT_REQ =>
      c ← get_ccb;
      if negb (remote_cid c =? 0) then
        l2cu_send_peer_disc_req;;
        set_state CST_W4_L2CAP_DISCONNECT_RSP;;
        start_ccb_timer L2CAP_CHNL_DISCONNECT_TIMEOUT_MS
      else release_and_confirm L2CAP_CONN_NO_LINK
  | L2CAP_INFO_RSP => connect_or_give_up true
  | _ => skip
  end.

Definition l2c_csm_w4_l2ca_connect_rsp (event : tL2CEVT) : L unit :=
  get_rcb;;
  match event with
  | LP_DISCONNECT_IND _ => release_and_indicate
  | L2CA_CONNECT_RSP =>
      l2cu_send_peer_connect_rsp L2CAP_CONN_OK 0;;
      set_state CST_CONFIG;;
      start_ccb_timer L2CAP_CHNL_CFG_TIMEOUT_MS
  | TIMEOUT => l2cu_send_peer_connect_rsp L2CAP_CONN_NO_PSM 0;; release_and_indicate
  | L2CA_DISCONNECT_REQ =>
      l2cu_send_peer_disc_req;;
      set_state CST_W4_L2CAP_DISCONNECT_RSP;;
      start_ccb_timer L2CAP_CHNL_DISCONNECT_TIMEOUT_MS
  | L2CAP_INFO_RSP => accept_connection
  | _ => skip
  end.

(** Both sides have agreed on the configuration: the channel opens, unless the modes differ; false if it is closed for that. *)
Definition open_channel : L bool :=
  c ← get_ccb;
  if negb (fcr_mode (cfg_fcr (our_cfg c)) =? fcr_mode (cfg_fcr (peer_cfg c))) then
    l2cu_send_peer_disc_req;;
    release_and_indicate;;
    mret false
  else
    upd_ccb (fun c => c <| config_done ::= fun n => n .| RECONFIG_FLAG |> <| chnl_state := CST_OPEN |>);;
    l2c_link_adjust_chnl_allocation;;
    cancel_ccb_timer;;
    mret true.

(** Packets that wait in the channel may go out. *)
Definition forward_held : L unit :=
  c ← get_ccb;
  when (negb (fixed_queue_is_empty (xmit_hold_q c))) (ccb_check_send_pkts 0 None).

Definition restart_monitor : L unit :=
  f ← get_fcrb;
  when (wait_ack f) l2c_fcr_start_timer.

(** The log of the channel needs its link. *)
Definition note_channel_open : L unit :=
  c ← get_ccb;
  when (nz (config_done c .& RECONFIG_FLAG)) (get_lcb;; get_rcb;; skip).

(** [L2CEVT_L2CAP_CONFIG_REQ] in [CST_CONFIG]: the changed [p_cfg]. *)
Definition config_peer_req (p_cfg : tL2CAP_CFG_INFO) : L tL2CAP_CFG_INFO :=
  '(cfg_result, p_cfg) ← l2cu_process_peer_cfg_req p_cfg;
  (if cfg_result =? L2CAP_PEER_CFG_OK then
     l2c_csm_send_config_rsp_ok;;
     c ← get_ccb;
     when (nz (config_done c .& OB_CFG_DONE))
       (if remote_config_rsp_result c =? L2CAP_CFG_OK then l2c_csm_indicate_connection_open
        else when (initiator_local c) (callback has_Error_Cb (OError (local_cid c) L2CAP_CFG_FAILED_NO_REASON)))
   else if cfg_result =? L2CAP_PEER_CFG_DISCONNECT then l2cu_disconnect_chnl
   else l2cu_send_peer_config_rsp p_cfg);;
  mret p_cfg.

Definition config_peer_rsp (p_cfg : tL2CAP_CFG_INFO) : L unit :=
  l2cu_process_peer_cfg_rsp p_cfg;;
  upd_ccb (fun c => c <| config_done ::= fun n => n .| OB_CFG_DONE |>);;
  c ← get_ccb;
  opened ←
    (if nz (config_done c .& IB_CFG_DONE) then
       ok ← open_channel;
       if (ok : bool) then
         restart_monitor;;
         c ← get_ccb;
         let ours := cfg_fcr (our_cfg c) in
         when ((fcr_mode ours =? L2CAP_FCR_ERTM_MODE) && ((mon_tout ours =? 0) || nz (rtrans_tout ours))) l2c_fcr_adj_monitor_retran_timeout;;
         forward_held;;
         mret true
       else mret false
     else mret true);
  when opened
    (note_channel_open;;
     upd_ccb (fun c => c <| remote_config_rsp_result := cfg_result p_cfg |>);;
     c ← get_ccb;
     when (nz (config_done c .& IB_CFG_DONE)) l2c_csm_indicate_connection_open).

Definition config_peer_rsp_neg (p_cfg : tL2CAP_CFG_INFO) : L tL2CAP_CFG_INFO :=
  cancel_ccb_timer;;
  '(renegotiates, p_cfg) ← l2c_fcr_renegotiate_chan p_cfg;
  c ← get_ccb;
  when (negb renegotiates && initiator_local c) (callback has_Error_Cb (OError (local_cid c) L2CAP_CFG_FAILED_NO_REASON));;
  mret p_cfg.

Definition config_our_rsp (p_cfg : tL2CAP_CFG_INFO) : L unit :=
  p_cfg ← l2cu_process_our_cfg_rsp p_cfg;
  upd_ccb (fun c => c <| config_done ::= fun n => n .| IB_CFG_DONE |>);;
  c ← get_ccb;
  opened ← (if nz (config_done c .& OB_CFG_DONE) then open_channel else mret true);
  when opened
    (l2cu_send_peer_config_rsp p_cfg;;
     restart_monitor;;
     note_channel_open;;
     c ← get_ccb;
     when (bool_decide (chnl_state c = CST_OPEN)) forward_held).

(** The peer asks for the channel to be closed. *)
Definition peer_disconnects : L unit :=
  c ← get_ccb;
  emit (OCsm (ODisconnectConf (local_cid c)));;
  l2c_csm_send_disconnect_rsp.

Definition l2c_csm_config (event : tL2CEVT) : L (option tL2CAP_CFG_INFO) :=
  get_rcb;;
  match event with
  | LP_DISCONNECT_IND _ => release_and_indicate;; mret None
  | L2CAP_CONFIG_REQ p_cfg => p_cfg ← config_peer_req p_cfg; mret (Some p_cfg)
  | L2CAP_CONFIG_RSP p_cfg => config_peer_rsp p_cfg;; mret None
  | L2CAP_CONFIG_RSP_NEG p_cfg => p_cfg ← config_peer_rsp_neg p_cfg; mret (Some p_cfg)
  | L2CAP_DISCONNECT_REQ =>
      start_ccb_timer L2CAP_CHNL_DISCONNECT_TIMEOUT_MS;;
      set_state CST_W4_L2CA_DISCONNECT_RSP;;
      peer_disconnects;;
      mret None
  | L2CA_CONFIG_REQ p_cfg =>
      p_cfg ← l2cu_process_our_cfg_req p_cfg;
      l2cu_send_peer_config_req p_cfg;;
      start_ccb_timer L2CAP_CHNL_CFG_TIMEOUT_MS;;
      mret None
  | L2CA_CONFIG_RSP p_cfg => config_our_rsp p_cfg;; mret None
  | L2CA_DISCONNECT_REQ =>
      l2cu_send_peer_disc_req;;
      set_state CST_W4_L2CAP_DISCONNECT_RSP;;
      start_ccb_timer L2CAP_CHNL_DISCONNECT_TIMEOUT_MS;;
      mret None
  | L2CAP_DATA p_data => l2c_csm_data p_data;; mret None
  | L2CA_DATA_WRITE p_data => l2c_csm_data_write p_data;; mret None
  | TIMEOUT => l2cu_send_peer_disc_req;; release_and_indicate;; mret None
  | _ => mret None
  end.

(** [L2CEVT_L2CAP_CONFIG_REQ] in [CST_OPEN]: the changed [p_cfg]. *)
Definition reconfig_peer_req (p_cfg : tL2CAP_CFG_INFO) : L tL2CAP_CFG_INFO :=
  c ← get_ccb;
  let tempstate := chnl_state c in
  let tempcfgdone := config_done c in
  upd_ccb (fun c => c <| chnl_state := CST_CONFIG |>
                      <| peer_cfg ::= fun g => g <| mtu_present := false |> <| flush_to_present := false |> <| qos_present := false |> |>
                      <| config_done ::= fun n => Z.ldiff n IB_CFG_DONE |>);;
  start_ccb_timer L2CAP_CHNL_CFG_TIMEOUT_MS;;
  '(cfg_result, p_cfg) ← l2cu_process_peer_cfg_req p_cfg;
  (if cfg_result =? L2CAP_PEER_CFG_OK then
     callback has_ConfigInd_Cb (OConfigInd (local_cid c) p_cfg);;
     l2c_csm_send_config_rsp_ok
   else if cfg_result =? L2CAP_PEER_CFG_UNACCEPTABLE then
     cancel_ccb_timer;;
     upd_ccb (fun c => c <| chnl_state := tempstate |> <| config_done := tempcfgdone |>);;
     l2cu_send_peer_config_rsp p_cfg
   else l2cu_disconnect_chnl);;
  mret p_cfg.

Definition l2c_csm_open (event : tL2CEVT) : L (option tL2CAP_CFG_INFO) :=
  match event with
  | LP_DISCONNECT_IND _ =>
      c ← get_ccb;
      l2cu_release_ccb;;
      when (match p_rcb c with Some _ => true | None => false end) (emit (ODisconnectInd (local_cid c)));;
      mret None
  | L2CAP_CONFIG_REQ p_cfg => p_cfg ← reconfig_peer_req p_cfg; mret (Some p_cfg)
  | L2CAP_DISCONNECT_REQ =>
      get_lcb;;
      set_state CST_W4_L2CA_DISCONNECT_RSP;;
      start_ccb_timer L2CAP_CHNL_DISCONNECT_TIMEOUT_MS;;
      get_rcb;;
      peer_disconnects;;
      mret None
  | L2CAP_DATA p_data => l2c_csm_data p_data;; mret None
  | L2CA_DISCONNECT_REQ =>
      get_lcb;;
      l2cu_send_peer_disc_req;;
      set_state CST_W4_L2CAP_DISCONNECT_RSP;;
      start_ccb_timer L2CAP_CHNL_DISCONNECT_TIMEOUT_MS;;
      mret None
  | L2CA_DATA_WRITE p_data => l2c_csm_data_write p_data;; mret None
  | TIMEOUT =>
      c ← get_ccb;
      when (fcr_mode (cfg_fcr (peer_cfg c)) =? L2CAP_FCR_ERTM_MODE) l2c_fcr_proc_tout;;
      mret None
  | ACK_TIMEOUT => l2c_fcr_proc_ack_tout;; mret None
  | _ => mret None
  end.

Definition l2c_csm_w4_l2cap_disconnect_rsp (event : tL2CEVT) : L unit :=
  get_rcb;;
  match event with
  | L2CAP_DISCONNECT_RSP => release_and_confirm L2CAP_DISC_OK
  | L2CAP_DISCONNECT_REQ =>
      c ← get_ccb;
      get_lcb;;
      l2cu_send_peer_disc_rsp (remote_id c) (local_cid c) (remote_cid c);;
      release_and_confirm L2CAP_DISC_OK
  | LP_DISCONNECT_IND _ | TIMEOUT => release_and_confirm L2CAP_DISC_TIMEOUT
  | _ => skip
  end.

Definition l2c_csm_w4_l2ca_disconnect_rsp (event : tL2CEVT) : L unit :=
  get_rcb;;
  match event with
  | LP_DISCONNECT_IND _ => release_and_indicate
  | TIMEOUT =>
      c ← get_ccb;
      get_lcb;;
      l2cu_send_peer_disc_rsp (remote_id c) (local_cid c) (remote_cid c);;
      release_and_indicate
  | L2CA_DISCONNECT_REQ | L2CA_DISCONNECT_RSP =>
      c ← get_ccb;
      get_lcb;;
      l2cu_send_peer_disc_rsp (remote_id c) (local_cid c) (remote_cid c);;
      l2cu_release_ccb
  | _ => skip
  end.

End Link.

(** ** The machine *)

(** An event of the peer, answered by one of the manager of security, answered by one of the channel itself: no event raises more than
    two others in a row. *)
Definition CSM_DEPTH : nat := 3.

Section Machine.
Context `{LE : LinkEnv} `{SE : SigEnv}.

Fixpoint csm_execute (depth : nat) (event : tL2CEVT) : L (option tL2CAP_CFG_INFO) :=
  match depth with
  | O => crash_with OutOfFuel
  | S depth =>
      let execute := csm_execute depth in
      c ← get_ccb;
      if negb (in_use c) then mret None else
      match chnl_state c with
      | CST_CLOSED => l2c_csm_closed execute event;; mret None
      | CST_ORIG_W4_SEC_COMP => l2c_csm_orig_w4_sec_comp execute event;; mret None
      | CST_TERM_W4_SEC_COMP => l2c_csm_term_w4_sec_comp execute event;; mret None
      | CST_W4_L2CAP_CONNECT_RSP => l2c_csm_w4_l2cap_connect_rsp execute event;; mret None
      | CST_W4_L2CA_CONNECT_RSP => l2c_csm_w4_l2ca_connect_rsp execute event;; mret None
      | CST_CONFIG => l2c_csm_config execute event
      | CST_OPEN => l2c_csm_open execute event
      | CST_W4_L2CAP_DISCONNECT_RSP => l2c_csm_w4_l2cap_disconnect_rsp event;; mret None
      | CST_W4_L2CA_DISCONNECT_RSP => l2c_csm_w4_l2ca_disconnect_rsp event;; mret None
      end
  end.

Definition l2c_csm_execute (event : tL2CEVT) : L (option tL2CAP_CFG_INFO) := csm_execute CSM_DEPTH event.
End Machine.
