(* ===== verification/L2cCmd.v ===== *)
(** * L2cCmd: the commands of the peer

    [process_l2cap_cmd] of src/system/stack/l2cap/l2c_main.cc takes the packets of the signalling channel apart and hands their
    commands to the state machine of the channel.  With the calls of the application (l2c_api.cc), the link and the timers
    (l2c_link.cc) it makes up the events that set a channel up and close it. *)

From Stdlib Require Import ZArith Lia.
From stdpp Require Import base list.
From S2P Require Import Prelude Osi L2cDefs L2cFcr L2cSig L2cCsm.

Definition BT_SMALL_BUFFER_SIZE : Z := 660.

(** [STREAM_TO_UINT32] *)
Definition read32 (b : BT_HDR) (pos : Z) : outcome Z :=
  lo ← read16 b pos;
  hi ← read16 b (pos + 2);
  mret (lo + (hi .<< 16)).

(** ** Options of a configuration *)

(** The length of the options that are understood. *)
Definition option_len (cfg_type : Z) : option Z :=
  if cfg_type =? L2CAP_CFG_TYPE_MTU then Some L2CAP_CFG_MTU_OPTION_LEN
  else if cfg_type =? L2CAP_CFG_TYPE_FLUSH_TOUT then Some L2CAP_CFG_FLUSH_OPTION_LEN
  else if cfg_type =? L2CAP_CFG_TYPE_QOS then Some L2CAP_CFG_QOS_OPTION_LEN
  else if cfg_type =? L2CAP_CFG_TYPE_FCR then Some L2CAP_CFG_FCR_OPTION_LEN
  else if cfg_type =? L2CAP_CFG_TYPE_FCS then Some L2CAP_CFG_FCS_OPTION_LEN
  else if cfg_type =? L2CAP_CFG_TYPE_EXT_FLOW then Some L2CAP_CFG_EXT_FLOW_OPTION_LEN
  else None.

(** The value of such an option, at [p]. *)
Definition read_option (b : BT_HDR) (p cfg_type : Z) (g : tL2CAP_CFG_INFO) : outcome tL2CAP_CFG_INFO :=
  if cfg_type =? L2CAP_CFG_TYPE_MTU then
    mtu ← read16 b p; mret (g <| mtu_present := true |> <| cfg_mtu := mtu |>)
  else if cfg_type =? L2CAP_CFG_TYPE_FLUSH_TOUT then
    flush_to ← read16 b p; mret (g <| flush_to_present := true |> <| cfg_flush_to := flush_to |>)
  else if cfg_type =? L2CAP_CFG_TYPE_QOS then
    flags ← bh_read b p;
    stype ← bh_read b (p + 1);
    rate ← read32 b (p + 2);
    bucket ← read32 b (p + 6);
    peak ← read32 b (p + 10);
    latency ← read32 b (p + 14);
    delay ← read32 b (p + 18);
    mret (g <| qos_present := true |> <| cfg_qos := mk_FLOW_SPEC flags stype rate bucket peak latency delay |>)
  else if cfg_type =? L2CAP_CFG_TYPE_FCR then
    mode ← bh_read b p;
    win ← bh_read b (p + 1);
    max ← bh_read b (p + 2);
    rtrans ← read16 b (p + 3);
    mon ← read16 b (p + 5);
    mps ← read16 b (p + 7);
    mret (g <| fcr_present := true |> <| cfg_fcr := mk_FCR_OPTS mode win max rtrans mon mps |>)
  else if cfg_type =? L2CAP_CFG_TYPE_FCS then
    fcs ← bh_read b p; mret (g <| fcs_present := true |> <| cfg_fcs := fcs |>)
  else if cfg_type =? L2CAP_CFG_TYPE_EXT_FLOW then
    id ← bh_read b p;
    stype ← bh_read b (p + 1);
    size ← read16 b (p + 2);
    inter ← read32 b (p + 4);
    access ← read32 b (p + 8);
    flush ← read32 b (p + 12);
    mret (g <| ext_flow_spec_present := true |> <| cfg_ext_flow_spec := mk_EXT_FLOW_SPEC id stype size inter access flush |>)
  else mret g.

(** The options of a request between [p] and [p_end]; [None] if it is dropped.  The last two results tell whether the request is to be rejected, and
    how long the options are that it is rejected for.  Each turn takes two bytes at least. *)
Fixpoint parse_req_options (n : nat) (b : BT_HDR) (p p_end cmd_len : Z) (g : tL2CAP_CFG_INFO) (rej : bool) (rej_len : Z) :
    outcome (option (tL2CAP_CFG_INFO * bool * Z)) :=
  match n with
  | O => Crash OutOfFuel
  | S n =>
      if negb (p <? p_end) then mret (Some (g, rej, rej_len)) else
      if p_end <? p + 2 then mret None else
      cfg_code ← bh_read b p;
      cfg_len ← bh_read b (p + 1);
      let p := p + 2 in
      match option_len (cfg_code .& 0x7F) with
      | Some len =>
          if negb (cfg_len =? len) then mret None
          else if p_end <? p + cfg_len then mret None
          else
            g ← read_option b p (cfg_code .& 0x7F) g;
            parse_req_options n b (p + cfg_len) p_end cmd_len g rej rej_len
      | None =>
          if cfg_len + L2CAP_CFG_OPTION_OVERHEAD <=? cmd_len then
            if p_end <? p + cfg_len then mret None
            else if cfg_code .& 0x80 =? 0 then
              parse_req_options n b (p + cfg_len) p_end cmd_len g true (u16 (rej_len + cfg_len + L2CAP_CFG_OPTION_OVERHEAD))
            else parse_req_options n b (p + cfg_len) p_end cmd_len g rej rej_len
          else mret (Some (g, true, rej_len))
      end
  end.

(** The options of a response; those that are not understood are not skipped. *)
Fixpoint parse_rsp_options (n : nat) (b : BT_HDR) (p p_end : Z) (g : tL2CAP_CFG_INFO) : outcome (option tL2CAP_CFG_INFO) :=
  match n with
  | O => Crash OutOfFuel
  | S n =>
      if negb (p <? p_end) then mret (Some g) else
      if p_end <? p + 2 then mret None else
      cfg_code ← bh_read b p;
      let p := p + 2 in
      match option_len (cfg_code .& 0x7F) with
      | Some len =>
          if p_end <? p + len then mret None
          else g ← read_option b p (cfg_code .& 0x7F) g; parse_rsp_options n b (p + len) p_end g
      | None => parse_rsp_options n b p p_end g
      end
  end.

(** No option is there yet; that of the extended flow specification is not cleared. *)
Definition no_options (g : tL2CAP_CFG_INFO) : tL2CAP_CFG_INFO :=
  g <| flush_to_present := false |> <| mtu_present := false |> <| qos_present := false |> <| fcr_present := false |> <| fcs_present := false |>.

Section Link.
Context `{LE : LinkEnv} `{SE : SigEnv}.

(** ** Channels *)

(** [l2cu_find_ccb_by_cid(p_lcb, cid)]: this channel, another, or none. *)
Inductive found : Type := Mine | Other | NoCcb.
Definition l2cu_find_ccb_by_cid (cid : Z) : L found :=
  s ← get;
  let c := ccb s in
  mret (if (cid <? L2CAP_BASE_APPL_CID) || (MAX_L2CAP_CHANNELS <=? cid - L2CAP_BASE_APPL_CID) then NoCcb
        else if cid =? local_cid c then if in_use c && has_lcb c then Mine else NoCcb
        else if other_ccb (outs s) cid then Other else NoCcb).

(** What [l2cu_allocate_ccb(p_lcb, 0)] finds: this control block, another, or none. *)
Definition free_ccb : L found :=
  s ← get;
  mret (match first_free_ccb (outs s) with
        | None => NoCcb
        | Some mine => if mine && negb (in_use (ccb s)) then Mine else Other
        end).

(** For the channel [cid], if there is one; [code] is that of the command. *)
Definition for_channel {A} (cid code : Z) (other : A) (m no : L A) : L A :=
  f ← l2cu_find_ccb_by_cid cid;
  match f with
  | Mine => m
  | Other => emit (OCsm (OOtherCmd cid code));; mret other
  | NoCcb => no
  end.

(** An event for all channels of the link. *)
Definition for_all_channels (code : Z) (event : tL2CEVT) : L unit :=
  c ← get_ccb;
  when (in_use c && has_lcb c) (l2c_csm_execute event;; skip);;
  emit (OCsm (OOtherCmd 0 code)).

(** ** Commands

    Each reads its parameters from [p] on, up to [p_next_cmd]; [None] if the rest of the packet is dropped, else the changed [cfg_info]. *)

Definition cmd_reject (b : BT_HDR) (p p_next_cmd : Z) (cfg_info : tL2CAP_CFG_INFO) : L (option tL2CAP_CFG_INFO) :=
  if p_next_cmd <? p + 2 then mret None else
  rej_reason ← lift (read16 b p);
  if (rej_reason =? L2CAP_CMD_REJ_MTU_EXCEEDED) && (p_next_cmd <? p + 4) then mret None else
  if rej_reason =? L2CAP_CMD_REJ_INVALID_CID then
    if p_next_cmd <? p + 6 then mret None else
    rcid ← lift (read16 b (p + 2));
    lcid ← lift (read16 b (p + 4));
    for_channel lcid L2CAP_CMD_REJECT tt
      (c ← get_ccb; when (remote_cid c =? rcid) (l2c_csm_execute (LP_DISCONNECT_IND None);; skip)) skip;;
    mret (Some cfg_info)
  else
    l ← get_link;
    when ((rej_reason =? L2CAP_CMD_REJ_NOT_UNDERSTOOD) && w4_info_rsp l)
      (upd_link (fun l => l <| info_resp_timer ::= alarm_cancel |> <| w4_info_rsp := false |>);;
       for_all_channels L2CAP_CMD_REJECT L2CAP_INFO_RSP);;
    mret (Some cfg_info).

Definition cmd_conn_req (b : BT_HDR) (p p_next_cmd id : Z) (cfg_info : tL2CAP_CFG_INFO) : L (option tL2CAP_CFG_INFO) :=
  if p_next_cmd <? p + 4 then mret None else
  psm ← lift (read16 b p);
  rcid ← lift (read16 b (p + 2));
  s ← get;
  match find_rcb_by_psm (outs s) psm with
  | None => l2cu_reject_connection rcid id L2CAP_CONN_NO_PSM
  | Some r =>
      if negb (has_ConnectInd_Cb r) then l2cu_reject_connection rcid id L2CAP_CONN_NO_PSM
      else
        f ← free_ccb;
        match f with
        | NoCcb => l2cu_reject_connection rcid id L2CAP_CONN_NO_RESOURCES
        | Other => emit (OCsm (OOtherCmd 0 L2CAP_CMD_CONN_REQ))
        | Mine =>
            l2cu_allocate_ccb;;
            upd_ccb (fun c => c <| remote_id := id |> <| p_rcb := Some r |> <| remote_cid := rcid |> <| initiator_local := false |>);;
            l2c_csm_execute L2CAP_CONNECT_REQ;; skip
        end
  end;;
  mret (Some cfg_info).

Definition cmd_conn_rsp (b : BT_HDR) (p p_next_cmd id : Z) (cfg_info : tL2CAP_CFG_INFO) : L (option tL2CAP_CFG_INFO) :=
  if p_next_cmd <? p + 8 then mret None else
  rcid ← lift (read16 b p);
  lcid ← lift (read16 b (p + 2));
  result ← lift (read16 b (p + 4));
  for_channel lcid L2CAP_CMD_CONN_RSP tt
    (c ← get_ccb;
     if negb (local_id c =? id) then skip
     else if result =? L2CAP_CONN_OK then l2c_csm_execute (L2CAP_CONNECT_RSP rcid);; skip
     else if result =? L2CAP_CONN_PENDING then l2c_csm_execute (L2CAP_CONNECT_RSP_PND rcid);; skip
     else l2c_csm_execute (L2CAP_CONNECT_RSP_NEG result);; get_rcb;; skip)
    skip;;
  mret (Some cfg_info).

Definition cmd_config_req (b : BT_HDR) (p p_next_cmd cmd_len id : Z) (cfg_info : tL2CAP_CFG_INFO) : L (option tL2CAP_CFG_INFO) :=
  if p_next_cmd <? p + 4 then mret None else
  lcid ← lift (read16 b p);
  flags ← lift (read16 b (p + 2));
  r ← lift (parse_req_options (S (Z.to_nat cmd_len)) b (p + 4) p_next_cmd cmd_len (no_options (cfg_info <| cfg_flags := flags |>)) false 0);
  match r with
  | None => mret None
  | Some (cfg_info, cfg_rej, cfg_rej_len) =>
      g ← for_channel lcid L2CAP_CMD_CONFIG_REQ None
        (upd_ccb (fun c => c <| remote_id := id |>);;
         if (cfg_rej : bool) then l2cu_send_peer_config_rej b (p + 4) (u16 (cmd_len - L2CAP_CONFIG_REQ_LEN)) cfg_rej_len;; mret None
         else l2c_csm_execute (L2CAP_CONFIG_REQ cfg_info))
        (l2cu_send_peer_cmd_reject L2CAP_CMD_REJ_INVALID_CID id 0 0;; mret None);
      mret (Some (default cfg_info g))
  end.

Definition cmd_config_rsp (b : BT_HDR) (p p_next_cmd cmd_len id : Z) (cfg_info : tL2CAP_CFG_INFO) : L (option tL2CAP_CFG_INFO) :=
  if p_next_cmd <? p + 6 then mret None else
  lcid ← lift (read16 b p);
  flags ← lift (read16 b (p + 2));
  result ← lift (read16 b (p + 4));
  r ← lift (parse_rsp_options (S (Z.to_nat cmd_len)) b (p + 6) p_next_cmd (no_options (cfg_info <| cfg_flags := flags |> <| cfg_result := result |>)));
  match r with
  | None => mret None
  | Some cfg_info =>
      g ← for_channel lcid L2CAP_CMD_CONFIG_RSP None
        (c ← get_ccb;
         if negb (local_id c =? id) then mret None
         else if cfg_result cfg_info =? L2CAP_CFG_OK then l2c_csm_execute (L2CAP_CONFIG_RSP cfg_info)
         else l2c_csm_execute (L2CAP_CONFIG_RSP_NEG cfg_info))
        (mret None);
      mret (Some (default cfg_info g))
  end.

Definition cmd_disc_req (b : BT_HDR) (p p_next_cmd id : Z) (cfg_info : tL2CAP_CFG_INFO) : L (option tL2CAP_CFG_INFO) :=
  if p_next_cmd <? p + 4 then mret None else
  lcid ← lift (read16 b p);
  rcid ← lift (read16 b (p + 2));
  for_channel lcid L2CAP_CMD_DISC_REQ tt
    (c ← get_ccb;
     when (remote_cid c =? rcid) (upd_ccb (fun c => c <| remote_id := id |>);; l2c_csm_execute L2CAP_DISCONNECT_REQ;; skip))
    (l2cu_send_peer_disc_rsp id lcid rcid);;
  mret (Some cfg_info).

Definition cmd_disc_rsp (b : BT_HDR) (p p_next_cmd id : Z) (cfg_info : tL2CAP_CFG_INFO) : L (option tL2CAP_CFG_INFO) :=
  if p_next_cmd <? p + 4 then mret None else
  rcid ← lift (read16 b p);
  lcid ← lift (read16 b (p + 2));
  for_channel lcid L2CAP_CMD_DISC_RSP tt
    (c ← get_ccb; when ((remote_cid c =? rcid) && (local_id c =? id)) (l2c_csm_execute L2CAP_DISCONNECT_RSP;; skip)) skip;;
  mret (Some cfg_info).

Definition cmd_info_rsp (b : BT_HDR) (p p_next_cmd : Z) (cfg_info : tL2CAP_CFG_INFO) : L (option tL2CAP_CFG_INFO) :=
  l ← get_link;
  when (w4_info_rsp l) (upd_link (fun l => l <| info_resp_timer ::= alarm_cancel |> <| w4_info_rsp := false |>));;
  if p_next_cmd <? p + 4 then mret None else
  info_type ← lift (read16 b p);
  result ← lift (read16 b (p + 2));
  if (info_type =? L2CAP_EXTENDED_FEATURES_INFO_TYPE) && (result =? L2CAP_INFO_RESP_RESULT_SUCCESS) then
    if p_next_cmd <? p + 8 then mret None else
    features ← lift (read32 b (p + 4));
    upd_link (fun l => l <| peer_ext_fea := features |>);;
    (if nz (features .& L2CAP_EXTFEA_FIXED_CHNLS) then l2cu_send_peer_info_req L2CAP_FIXED_CHANNELS_INFO_TYPE
     else l2cu_process_fixed_chnl_resp;; for_all_channels L2CAP_CMD_INFO_RSP L2CAP_INFO_RSP);;
    mret (Some cfg_info)
  else if info_type =? L2CAP_FIXED_CHANNELS_INFO_TYPE then
    if (result =? L2CAP_INFO_RESP_RESULT_SUCCESS) && (p_next_cmd <? p + 4 + L2CAP_FIXED_CHNL_ARRAY_SIZE) then mret None else
    (if result =? L2CAP_INFO_RESP_RESULT_SUCCESS then
       mask ← lift (bh_read_bytes b (p + 4) L2CAP_FIXED_CHNL_ARRAY_SIZE);
       upd_link (fun l => l <| peer_chnl_mask := mask |>)
     else skip);;
    l2cu_process_fixed_chnl_resp;;
    for_all_channels L2CAP_CMD_INFO_RSP L2CAP_INFO_RSP;;
    mret (Some cfg_info)
  else for_all_channels L2CAP_CMD_INFO_RSP L2CAP_INFO_RSP;; mret (Some cfg_info).

Definition process_cmd (b : BT_HDR) (cmd_code id cmd_len p p_next_cmd : Z) (cfg_info : tL2CAP_CFG_INFO) : L (option tL2CAP_CFG_INFO) :=
  if cmd_code =? L2CAP_CMD_REJECT then cmd_reject b p p_next_cmd cfg_info
  else if cmd_code =? L2CAP_CMD_CONN_REQ then cmd_conn_req b p p_next_cmd id cfg_info
  else if cmd_code =? L2CAP_CMD_CONN_RSP then cmd_conn_rsp b p p_next_cmd id cfg_info
  else if cmd_code =? L2CAP_CMD_CONFIG_REQ then cmd_config_req b p p_next_cmd cmd_len id cfg_info
  else if cmd_code =? L2CAP_CMD_CONFIG_RSP then cmd_config_rsp b p p_next_cmd cmd_len id cfg_info
  else if cmd_code =? L2CAP_CMD_DISC_REQ then cmd_disc_req b p p_next_cmd id cfg_info
  else if cmd_code =? L2CAP_CMD_DISC_RSP then cmd_disc_rsp b p p_next_cmd id cfg_info
  else if cmd_code =? L2CAP_CMD_ECHO_REQ then l2cu_send_peer_echo_rsp id b p cmd_len;; mret (Some cfg_info)
  else if cmd_code =? L2CAP_CMD_INFO_REQ then
    if p_next_cmd <? p + 2 then mret None
    else info_type ← lift (read16 b p); l2cu_send_peer_info_rsp id info_type;; mret (Some cfg_info)
  else if cmd_code =? L2CAP_CMD_INFO_RSP then cmd_info_rsp b p p_next_cmd cfg_info
  else l2cu_send_peer_cmd_reject L2CAP_CMD_REJ_NOT_UNDERSTOOD id 0 0;; mret None.

(** The commands from [p] on.  Each has four bytes at least. *)
Fixpoint process_cmds (n : nat) (b : BT_HDR) (p p_pkt_end : Z) (pkt_size_rej : bool) (cfg_info : tL2CAP_CFG_INFO) : L unit :=
  match n with
  | O => crash_with OutOfFuel
  | S n =>
      if p_pkt_end - 4 <? p then skip else
      cmd_code ← lift (bh_read b p);
      id ← lift (bh_read b (p + 1));
      cmd_len ← lift (read16 b (p + 2));
      if BT_SMALL_BUFFER_SIZE <? cmd_len then l2cu_send_peer_cmd_reject L2CAP_CMD_REJ_MTU_EXCEEDED id 0 0 else
      let p := p + 4 in
      let p_next_cmd := p + cmd_len in
      if p_pkt_end <? p_next_cmd then skip
      else if pkt_size_rej then
        rejected ← l2c_is_cmd_rejected cmd_code id;
        if (rejected : bool) then skip else process_cmds n b p_next_cmd p_pkt_end pkt_size_rej cfg_info
      else
        r ← process_cmd b cmd_code id cmd_len p p_next_cmd cfg_info;
        match r with
        | None => skip
        | Some cfg_info => process_cmds n b p_next_cmd p_pkt_end pkt_size_rej cfg_info
        end
  end.

(** The [pkt_len] bytes at [p] in [b]. *)
Definition process_l2cap_cmd (b : BT_HDR) (p pkt_len : Z) : L unit :=
  l ← get_link;
  if lcb_le l then skip
  else process_cmds (S (Z.to_nat pkt_len)) b p (p + pkt_len) (L2CAP_DEFAULT_MTU <? pkt_len) zero_CFG_INFO.

(** ** What sets a channel up and closes it *)

(** [L2CA_ConnectReq] for the device at the other end of the link: the identifier of the channel, or 0. *)
Definition L2CA_ConnectReq (psm : Z) : L Z :=
  s ← get;
  match find_rcb_by_psm (outs s) psm with
  | None => mret 0
  | Some r =>
      f ← free_ccb;
      match f with
      | NoCcb => mret 0
      | Other => emit (OCsm (OOtherCmd 0 0));; mret 0
      | Mine =>
          l2cu_allocate_ccb;;
          upd_ccb (fun c => c <| p_rcb := Some r |> <| initiator_local := true |>);;
          l ← get_link;
          when (link_connected l) (l2c_csm_execute L2CA_CONNECT_REQ;; skip);;
          c ← get_ccb;
          mret (local_cid c)
      end
  end.

Definition L2CA_DisconnectReq : L bool :=
  c ← get_ccb;
  if in_use c then l2c_csm_execute L2CA_DISCONNECT_REQ;; mret true else mret false.

(** The timer of the channel. *)
Definition ccb_timer_fires : L unit :=
  c ← get_ccb;
  when (alarm_is_scheduled (l2c_ccb_timer c)) (cancel_ccb_timer;; l2c_csm_execute TIMEOUT;; skip).

(** The timer for the answer to a request for information. *)
Definition l2c_info_resp_timer_timeout : L unit :=
  s ← get;
  when (w4_info_rsp (lcb s))
    (if in_use (ccb s) && has_lcb (ccb s) && bool_decide (chnl_state (ccb s) = CST_ORIG_W4_SEC_COMP \/ chnl_state (ccb s) = CST_TERM_W4_SEC_COMP) then
       a ← lift (alarm_set_on_mloop (info_resp_timer (lcb s)) L2CAP_WAIT_INFO_RSP_TIMEOUT_MS);
       upd_link (fun l => l <| info_resp_timer := a |>)
     else
       upd_link (fun l => l <| w4_info_rsp := false |>);;
       s ← get;
       when (negb (link_ending (outs s))) (for_all_channels L2CAP_CMD_INFO_RSP L2CAP_INFO_RSP)).
Definition info_timer_fires : L unit :=
  l ← get_link;
  when (alarm_is_scheduled (info_resp_timer l))
    (upd_link (fun l => l <| info_resp_timer ::= alarm_cancel |>);; l2c_info_resp_timer_timeout).

(** A packet from the controller: one of the signalling channel, or one that [L2cFcr.l2c_rcv_acl_data] is for. *)
Definition rcv_packet (p_msg : BT_HDR) : L unit :=
  word ← lift (read16 p_msg (bh_offset p_msg));
  let pkt_type := (word .>> 12) .& 3 in
  let handle := word .& HCI_DATA_HANDLE_MASK in
  if pkt_type =? L2CAP_PKT_CONTINUE then skip else
  hci_len ← lift (read16 p_msg (bh_offset p_msg + 2));
  if (hci_len <? L2CAP_PKT_OVERHEAD) || negb (hci_len =? bh_len p_msg - 4) then skip else
  l2cap_len ← lift (read16 p_msg (bh_offset p_msg + 4));
  rcv_cid ← lift (read16 p_msg (bh_offset p_msg + 6));
  l ← get_link;
  if (handle =? lcb_handle l) && (rcv_cid =? L2CAP_SIGNALLING_CID) then
    if negb (l2cap_len =? u16 (hci_len - L2CAP_PKT_OVERHEAD)) then skip else process_l2cap_cmd p_msg (bh_offset p_msg + 8) l2cap_len
  else l2c_rcv_acl_data p_msg.

End Link.

(** What may happen to a channel while no data is on it: a packet of the controller, calls of the application, an answer of the manager of
    security, the link coming up or going down, the timers, and the link being served. *)
Inductive setup_event : Type :=
| SRcv (p : BT_HDR)
| SConnect (psm : Z)
| SDisconnect
| SSecurity (status : Z)
| SLink (event : tL2CEVT)
| SChannelTimer
| SInfoTimer
| SMonitorTimer
| SAckTimer
| SServe
| SCompleted (num_sent : Z)
| SShare (b : tL2C_CB) (connected high : bool) (quota : Z)
| SModeOff.  (* another channel of the same registration gives up enhanced retransmission mode *)

(** The events that the link raises. *)
Definition link_event (e : tL2CEVT) : bool :=
  match e with LP_CONNECT_CFM | LP_CONNECT_CFM_NEG _ | LP_DISCONNECT_IND _ | SEC_RE_SEND_CMD => true | _ => false end.
