(* ===== verification/L2cCrc.v ===== *)
(** * L2cCrc: the frame check sequence of L2CAP

    The table-driven update is the bit-at-a-time CRC-16, and which changes of a frame it detects. *)

From Stdlib Require Import ZArith Lia.
From stdpp Require Import base list.
From S2P Require Import Prelude Osi L2cDefs L2cFcr.

(** One bit and one byte of the CRC-16 with generator x^16+x^15+x^2+1, least significant bit first. *)
Definition crc16_bit (c : Z) : Z := Z.lxor (c .>> 1) (if Z.odd c then 0xA001 else 0).
Definition crc16_byte (c b : Z) : Z := Nat.iter 8 crc16_bit (Z.lxor c b).
Definition crc16 (p : list Z) : Z := foldl crc16_byte 0 p.

Definition crc_at (i : Z) : Z := nth (Z.to_nat i) crctab 0.

(** One turn of the loop of [l2c_fcr_updcrc]. *)
Definition crc_step (c b : Z) : Z := Z.lxor ((c .>> 8) .& 0xff) (crc_at (Z.lxor (c .& 0xff) b)).

(** The place in the table of the entry with the given upper byte. *)
Definition crc_find (hi : Z) : Z :=
  match list_find (fun i => crc_at i .>> 8 = hi) (seqZ 0 256) with Some (_, i) => i | None => 0 end.

(** * Lemmas *)

Lemma crc16_bit_lxor x y : crc16_bit (Z.lxor x y) = Z.lxor (crc16_bit x) (crc16_bit y).
Proof.
  unfold crc16_bit. rewrite Z.shiftr_lxor. rewrite <- !Z.bit0_odd, Z.lxor_spec.
  apply Z.bits_inj'. intros n _. rewrite !Z.lxor_spec.
  destruct (Z.testbit x 0), (Z.testbit y 0); cbn [xorb]; rewrite ?Z.bits_0;
    by destruct (Z.testbit (x .>> 1) n), (Z.testbit (y .>> 1) n), (Z.testbit 0xA001 n).
Qed.

Lemma crc16_bits_lxor n x y : Nat.iter n crc16_bit (Z.lxor x y) = Z.lxor (Nat.iter n crc16_bit x) (Nat.iter n crc16_bit y).
Proof.
  induction n as [|n IH]; [done|]. change (Nat.iter (S n) crc16_bit ?a) with (crc16_bit (Nat.iter n crc16_bit a)).
  by rewrite IH, crc16_bit_lxor.
Qed.

Lemma crc16_at_ref i : is_u8 i -> crc_at i = Nat.iter 8 crc16_bit i.
Proof.
  intros Hi. apply Z.eqb_eq. apply (all_below_spec 256 (fun i => crc_at i =? Nat.iter 8 crc16_bit i)); [by vm_compute|exact Hi].
Qed.

Lemma crc16_high h : is_u8 h -> Nat.iter 8 crc16_bit (h .<< 8) = h.
Proof.
  intros Hh. apply Z.eqb_eq. apply (all_below_spec 256 (fun h => Nat.iter 8 crc16_bit (h .<< 8) =? h)); [by vm_compute|exact Hh].
Qed.

Lemma crc_at_bytes i : is_u8 i -> is_u16 (crc_at i) /\ crc_find (crc_at i .>> 8) = i.
Proof.
  intros Hi. assert (E : (0 <=? crc_at i) && (crc_at i <? 65536) && (crc_find (crc_at i .>> 8) =? i) = true).
  { apply (all_below_spec 256 (fun i => (0 <=? crc_at i) && (crc_at i <? 65536) && (crc_find (crc_at i .>> 8) =? i)));
      [by vm_compute|exact Hi]. }
  unfold is_u16. lia.
Qed.

(** A 16-bit number as its two bytes. *)
Lemma u16_split c : is_u16 c -> is_u8 (c .>> 8) /\ is_u8 (c .& 0xff) /\ c = Z.lxor ((c .>> 8) .<< 8) (c .& 0xff) /\
  (c .>> 8) .& 0xff = c .>> 8.
Proof.
  intros Hc. unfold is_u16, is_u8 in *. change 0xff with (Z.ones 8). rewrite !Z.land_ones, Z.shiftr_div_pow2 by lia.
  assert (Hh : 0 <= c / 2 ^ 8 < 256) by (split; [apply Z.div_pos|apply Z.div_lt_upper_bound]; lia).
  split; [done|]. split; [apply Z.mod_pos_bound; lia|]. split; [|apply Z.mod_small; lia].
  rewrite <- Z.land_ones by lia. apply Z.bits_inj'. intros n Hn. rewrite Z.lxor_spec, Z.land_spec.
  rewrite <- Z.shiftr_div_pow2 by lia. destruct (Z.ltb_spec n 8).
  - rewrite Z.shiftl_spec_low, Z.ones_spec_low, andb_true_r by lia. done.
  - rewrite Z.shiftl_spec_high, Z.ones_spec_high, andb_false_r, xorb_false_r, Z.shiftr_spec by lia. f_equal. lia.
Qed.

Lemma updcrc_cons c b p : l2c_fcr_updcrc c (b :: p) = l2c_fcr_updcrc (crc_step c b) p.
Proof. done. Qed.

Lemma updcrc_app c p q : l2c_fcr_updcrc c (p ++ q) = l2c_fcr_updcrc (l2c_fcr_updcrc c p) q.
Proof. revert c. induction p as [|b p IH]; intros c; [done|]. apply IH. Qed.

Lemma is_u16_lxor a b : is_u16 a -> is_u16 b -> is_u16 (Z.lxor a b).
Proof.
  intros Ha Hb. unfold is_u16 in *. apply (bits_bound 16); [lia|]. intros i Hi.
  rewrite Z.lxor_spec, !(testbit_ge 16) by lia. done.
Qed.

Lemma crc_step_u16 c b : is_u16 c -> is_u8 b -> is_u16 (crc_step c b).
Proof.
  intros Hc Hb. destruct (u16_split c Hc) as (Hh & Hl & _ & Eh). unfold crc_step. rewrite Eh.
  apply is_u16_lxor; [unfold is_u8, is_u16 in *; lia|]. by apply crc_at_bytes, is_u8_lxor.
Qed.

Lemma updcrc_u16 p c : is_u16 c -> Forall is_u8 p -> is_u16 (l2c_fcr_updcrc c p).
Proof.
  revert c. induction p as [|b p IH]; intros c Hc Hp; [done|]. inv_Forall. rewrite updcrc_cons. apply IH; [|done].
  by apply crc_step_u16.
Qed.

Lemma crc_step_ref c b : is_u16 c -> is_u8 b -> crc_step c b = crc16_byte c b.
Proof.
  intros Hc Hb. destruct (u16_split c Hc) as (Hh & Hl & Ec & Eh). unfold crc_step, crc16_byte.
  rewrite Ec at 3. rewrite Z.lxor_assoc, crc16_bits_lxor, crc16_high, Eh, crc16_at_ref by (done || by apply is_u8_lxor). done.
Qed.

Lemma updcrc_ref p c : is_u16 c -> Forall is_u8 p -> l2c_fcr_updcrc c p = foldl crc16_byte c p.
Proof.
  revert c. induction p as [|b p IH]; intros c Hc Hp; [done|]. inv_Forall. rewrite updcrc_cons. cbn [foldl].
  rewrite IH by (done || by apply crc_step_u16). by rewrite crc_step_ref.
Qed.

(** From the result of a step and the byte the state before follows. *)
Lemma crc_step_inv c b : is_u16 c -> is_u8 b ->
  let i := crc_find (crc_step c b .>> 8) in Z.lxor (c .& 0xff) b = i /\ c .>> 8 = Z.lxor (crc_step c b) (crc_at i).
Proof.
  intros Hc Hb i. destruct (u16_split c Hc) as (Hh & Hl & Ec & Eh).
  assert (Hx : is_u8 (Z.lxor (c .& 0xff) b)) by by apply is_u8_lxor.
  destruct (crc_at_bytes _ Hx) as [_ Hf].
  assert (E : crc_step c b .>> 8 = crc_at (Z.lxor (c .& 0xff) b) .>> 8).
  { unfold crc_step. rewrite Eh, Z.shiftr_lxor. replace (c .>> 8 .>> 8) with 0; [apply Z.lxor_0_l|].
    unfold is_u8 in Hh. rewrite (Z.shiftr_div_pow2 (c .>> 8)) by lia. symmetry. by apply Z.div_small. }
  assert (Ei : Z.lxor (c .& 0xff) b = i) by (unfold i; by rewrite E, Hf). split; [done|].
  rewrite <- Ei. unfold crc_step. rewrite Eh, Z.lxor_assoc, Z.lxor_nilpotent. by rewrite Z.lxor_0_r.
Qed.

Lemma lxor_cancel_l a x y : Z.lxor a x = Z.lxor a y -> x = y.
Proof. intros E. apply (f_equal (Z.lxor a)) in E. rewrite <- !Z.lxor_assoc, Z.lxor_nilpotent in E. exact E. Qed.

Lemma crc16_step_inj c c' b : is_u16 c -> is_u16 c' -> is_u8 b -> crc_step c b = crc_step c' b -> c = c'.
Proof.
  intros Hc Hc' Hb E. destruct (crc_step_inv c b Hc Hb) as [El Eh], (crc_step_inv c' b Hc' Hb) as [El' Eh'].
  rewrite <- E in El', Eh'. rewrite <- El' in El. rewrite <- Eh' in Eh.
  destruct (u16_split c Hc) as (_ & _ & -> & _), (u16_split c' Hc') as (_ & _ & -> & _).
  f_equal; [by rewrite Eh|]. rewrite !(Z.lxor_comm _ b) in El. by apply lxor_cancel_l in El.
Qed.

Lemma updcrc_inj p c c' : is_u16 c -> is_u16 c' -> Forall is_u8 p -> l2c_fcr_updcrc c p = l2c_fcr_updcrc c' p -> c = c'.
Proof.
  revert c c'. induction p as [|b p IH]; intros c c' Hc Hc' Hp E; [done|]. inv_Forall. rewrite !updcrc_cons in E.
  apply IH in E; [|by apply crc_step_u16|by apply crc_step_u16|done]. by apply crc16_step_inj in E.
Qed.

(** Two bytes are determined by the states before and after them. *)
Lemma crc_two_bytes c a b a' b' : is_u16 c -> is_u8 a -> is_u8 b -> is_u8 a' -> is_u8 b' ->
  crc_step (crc_step c a) b = crc_step (crc_step c a') b' -> a = a' /\ b = b'.
Proof.
  intros Hc Ha Hb Ha' Hb' E. pose proof (crc_step_u16 c a Hc Ha) as H1. pose proof (crc_step_u16 c a' Hc Ha') as H2.
  destruct (crc_step_inv _ b H1 Hb) as [El Eh], (crc_step_inv _ b' H2 Hb') as [El' Eh'].
  rewrite <- E in El', Eh'. rewrite <- El' in El. rewrite <- Eh' in Eh.
  destruct (crc_step_inv c a Hc Ha) as [Ea _], (crc_step_inv c a' Hc Ha') as [Ea' _].
  rewrite <- Eh in Ea'. rewrite <- Ea' in Ea. apply lxor_cancel_l in Ea as <-. by apply lxor_cancel_l in El as <-.
Qed.

(** The two bytes of the check sequence bring the state to zero, and no others do. *)
Lemma updcrc_residue c b0 b1 : is_u16 c -> is_u8 b0 -> is_u8 b1 ->
  l2c_fcr_updcrc c [b0; b1] = 0 <-> b0 + (b1 .<< 8) = c.
Proof.
  intros Hc H0 H1. destruct (u16_split c Hc) as (Hh & Hl & Ec & Eh).
  assert (E0 : crc_step (crc_step c (c .& 0xff)) (c .>> 8) = 0).
  { unfold crc_step at 2. rewrite Z.lxor_nilpotent, Eh. change (crc_at 0) with 0. rewrite Z.lxor_0_r.
    assert (Hs : is_u16 (c .>> 8)) by (unfold is_u8, is_u16 in *; lia). destruct (u16_split _ Hs) as (_ & _ & _ & E1).
    unfold crc_step. rewrite Eh, Z.lxor_nilpotent, E1. replace (c .>> 8 .>> 8) with 0; [done|].
    unfold is_u8 in Hh. rewrite (Z.shiftr_div_pow2 (c .>> 8)) by lia. symmetry. by apply Z.div_small. }
  assert (Ed : (c .& 0xff) + ((c .>> 8) .<< 8) = c).
  { change 0xff with (Z.ones 8). rewrite Z.land_ones, Z.shiftl_mul_pow2, Z.shiftr_div_pow2 by lia.
    pose proof (Z.div_mod c (2 ^ 8)). lia. }
  rewrite !updcrc_cons. change (l2c_fcr_updcrc ?x []) with x. split.
  - intros E. rewrite <- E0 in E. destruct (crc_two_bytes c b0 b1 (c .& 0xff) (c .>> 8)) as [-> ->]; done.
  - intros E. enough (b0 = c .& 0xff /\ b1 = c .>> 8) as [-> ->] by done.
    rewrite Z.shiftl_mul_pow2 in E by lia. change 0xff with (Z.ones 8). rewrite Z.land_ones, Z.shiftr_div_pow2 by lia.
    unfold is_u8 in *. subst c. split.
    + rewrite Z.mod_add by lia. symmetry. by apply Z.mod_small.
    + rewrite Z.div_add by lia. rewrite Z.div_small; lia.
Qed.
