(* ===== verification/L2cRun.v ===== *)
(** * L2cRun: reasoning about the operations of a channel

    What it means that an operation returns in a state with a property, how such facts compose, and
    buffers seen as the bytes before, inside and after the packet they hold. *)

From Stdlib Require Import ZArith Lia.
From stdpp Require Import base list.
From S2P Require Import Prelude Osi L2cDefs L2cFcr.

(** From the state [s] the operation returns, with a result and a state that satisfy [Q]. *)
Definition runs {A} (m : L A) (s : l2c) (Q : A -> l2c -> Prop) : Prop :=
  match m s with Ok (a, s') => Q a s' | Crash _ => False end.

(** The packet is [body], with [pre] before it and [post] behind it in the allocation. *)
Record holds (b : BT_HDR) (pre body post : list Z) : Prop := {
  holds_data : bh_data b = pre ++ body ++ post;
  holds_offset : bh_offset b = Z.of_nat (length pre);
  holds_len : bh_len b = Z.of_nat (length body);
}.

(** * Lemmas *)

Section Runs.
Context {A B : Type}.
Implicit Types (s : l2c).

Lemma runs_ret (a : A) s (Q : A -> l2c -> Prop) : Q a s -> runs (mret a) s Q.
Proof. done. Qed.

Lemma runs_bind (m : L A) (k : A -> L B) s (Q : B -> l2c -> Prop) :
  runs m s (fun a s' => runs (k a) s' Q) -> runs (m ≫= k) s Q.
Proof. unfold runs, mbind, L_bind. by destruct (m s) as [[a s']|]. Qed.

Lemma runs_mono (m : L A) s (Q R : A -> l2c -> Prop) : runs m s Q -> (forall a s', Q a s' -> R a s') -> runs m s R.
Proof. unfold runs. destruct (m s) as [[a s']|]; [|done]. intros HQ HR. by apply HR. Qed.

Lemma runs_lift (o : outcome A) s (Q : A -> l2c -> Prop) : returns o (fun a => Q a s) -> runs (lift o) s Q.
Proof. unfold runs, lift. by destruct o. Qed.

Lemma runs_inv (m : L A) s (Q : A -> l2c -> Prop) : runs m s Q -> exists a s', m s = Ok (a, s') /\ Q a s'.
Proof. unfold runs. destruct (m s) as [[a s']|]; [|done]. intros HQ. by exists a, s'. Qed.
End Runs.

Lemma runs_get s Q : Q s s -> runs get s Q.
Proof. done. Qed.

Lemma runs_skip s Q : Q tt s -> runs skip s Q.
Proof. done. Qed.

Lemma runs_when (b : bool) m s Q : (b = true -> runs m s Q) -> (b = false -> Q tt s) -> runs (when b m) s Q.
Proof. destruct b; intros H1 H2; [by apply H1|by apply H2]. Qed.

Lemma runs_emit o s Q : Q tt (s <| outs ::= cons o |>) -> runs (emit o) s Q.
Proof. done. Qed.

Lemma runs_get_ccb s Q : Q (ccb s) s -> runs get_ccb s Q.
Proof. done. Qed.

Lemma runs_get_fcrb s Q : Q (fcrb (ccb s)) s -> runs get_fcrb s Q.
Proof. done. Qed.

Lemma runs_upd_ccb f s Q : Q tt (s <| ccb ::= f |>) -> runs (upd_ccb f) s Q.
Proof. done. Qed.

Lemma runs_upd_fcrb f s Q : Q tt (s <| ccb ::= fun c => c <| fcrb ::= f |> |>) -> runs (upd_fcrb f) s Q.
Proof. done. Qed.

Lemma runs_get_lcb s Q : has_lcb (ccb s) = true -> Q (lcb s) s -> runs get_lcb s Q.
Proof. intros E HQ. unfold runs, get_lcb, mbind, L_bind, get. by rewrite E. Qed.

Lemma runs_upd_lcb f s Q : has_lcb (ccb s) = true -> Q tt (s <| lcb ::= f |>) -> runs (upd_lcb f) s Q.
Proof. intros E HQ. unfold upd_lcb. apply runs_bind, runs_get_lcb; [done|]. exact HQ. Qed.

Lemma runs_upd_cb f s Q : Q tt (s <| cb ::= f |>) -> runs (upd_cb f) s Q.
Proof. done. Qed.

Lemma runs_get_link s Q : Q (lcb s) s -> runs get_link s Q.
Proof. done. Qed.

Lemma runs_upd_link f s Q : Q tt (s <| lcb ::= f |>) -> runs (upd_link f) s Q.
Proof. done. Qed.

Lemma runs_get_rcb r s Q : p_rcb (ccb s) = Some r -> Q r s -> runs get_rcb s Q.
Proof. intros E HQ. unfold runs, get_rcb, get_ccb, mbind, L_bind, get, mret, L_ret. by rewrite E. Qed.

(** One primitive operation is executed. *)
Ltac lstep :=
  lazymatch goal with
  | |- runs (mbind _ _) _ _ => apply runs_bind
  | |- runs (mret _) _ _ => apply runs_ret
  | |- runs skip _ _ => apply runs_skip
  | |- runs get _ _ => apply runs_get
  | |- runs get_ccb _ _ => apply runs_get_ccb
  | |- runs get_fcrb _ _ => apply runs_get_fcrb
  | |- runs (upd_ccb _) _ _ => apply runs_upd_ccb
  | |- runs (upd_fcrb _) _ _ => apply runs_upd_fcrb
  | |- runs (upd_cb _) _ _ => apply runs_upd_cb
  | |- runs get_link _ _ => apply runs_get_link
  | |- runs (upd_link _) _ _ => apply runs_upd_link
  | |- runs (emit _) _ _ => apply runs_emit
  | |- runs (when true ?m) _ _ => change (when true m) with m
  | |- runs (when false ?m) _ _ => change (when false m) with skip
  end; cbv beta iota.
Ltac lsteps := repeat lstep.

(** The fields of a buffer that has been updated. *)
Ltac bh_cbn := cbn [set set_bh_data set_bh_len set_bh_offset set_bh_event set_bh_layer_specific
                    bh_data bh_len bh_offset bh_event bh_layer_specific].

(** ** Bytes and words *)

Lemma le16_u8 x : Forall is_u8 (le16 x).
Proof. repeat constructor; apply u8_range. Qed.

Lemma length_le16 x : length (le16 x) = 2%nat.
Proof. done. Qed.

Lemma u16_bytes x : is_u16 x -> u8 x + (u8 (x .>> 8) .<< 8) = x.
Proof.
  intros Hx. unfold u8, is_u16 in *. rewrite Z.shiftl_mul_pow2, Z.shiftr_div_pow2 by lia.
  rewrite (Z.mod_small (x / 2 ^ 8)); [|split; [apply Z.div_pos; lia|apply Z.div_lt_upper_bound; lia]].
  pose proof (Z.div_mod x (2 ^ 8)). lia.
Qed.

Lemma le16_bytes b0 b1 : is_u8 b0 -> is_u8 b1 -> is_u16 (b0 + (b1 .<< 8)) /\ le16 (b0 + (b1 .<< 8)) = [b0; b1].
Proof.
  unfold is_u8, is_u16. intros H0 H1. rewrite Z.shiftl_mul_pow2 by lia. split; [lia|].
  unfold le16, u8. rewrite Z.shiftr_div_pow2, Z.mod_add, Z.div_add by lia.
  rewrite (Z.div_small b0), !Z.mod_small by lia. done.
Qed.

(** A list of two bytes is a word. *)
Lemma two_bytes_le16 l : length l = 2%nat -> Forall is_u8 l -> exists w, is_u16 w /\ l = le16 w.
Proof.
  intros Hl Hb. destruct l as [|b0 [|b1 [|]]]; try done. inv_Forall. exists (b0 + (b1 .<< 8)).
  destruct (le16_bytes b0 b1) as [? ->]; done.
Qed.

Lemma is_u16_lor x y : is_u16 x -> is_u16 y -> is_u16 (x .| y).
Proof. unfold is_u16. intros. by apply (lor_bound 16). Qed.

Lemma rd_app pre b post : rd (pre ++ b :: post) (Z.of_nat (length pre)) = Ok b.
Proof. unfold rd. destruct (Z.ltb_spec (Z.of_nat (length pre)) 0); [lia|]. by rewrite Nat2Z.id, list_lookup_middle. Qed.

Lemma read16_app d pre w post pos b : bh_data b = d -> d = pre ++ le16 w ++ post -> is_u16 w -> pos = Z.of_nat (length pre) ->
  read16 b pos = Ok w.
Proof.
  intros Ed -> Hw ->. unfold read16, bh_read. rewrite Ed. unfold le16. cbn [app]. rewrite rd_app. cbn [mbind outcome_bind].
  rewrite cons_middle, app_assoc. replace (Z.of_nat (length pre) + 1) with (Z.of_nat (length (pre ++ [u8 w])))
    by (rewrite length_app; cbn; lia).
  rewrite rd_app. cbn. by rewrite u16_bytes.
Qed.

Lemma wr_bytes_mid pre old new post pos : length old = length new -> pos = Z.of_nat (length pre) ->
  wr_bytes (pre ++ old ++ post) pos new = Ok (pre ++ new ++ post).
Proof.
  intros Hl ->. unfold wr_bytes. rewrite !length_app.
  destruct (Z.ltb_spec (Z.of_nat (length pre)) 0); [lia|].
  destruct (Z.ltb_spec (Z.of_nat (length pre + (length old + length post))) (Z.of_nat (length pre) + Z.of_nat (length new))); [lia|].
  cbn [orb]. rewrite Nat2Z.id, take_app_length, <- Hl. by rewrite <- drop_drop, drop_app_length, drop_app_length.
Qed.

Lemma bh_write_mid b pre old new post pos : bh_data b = pre ++ old ++ post -> length old = length new ->
  pos = Z.of_nat (length pre) -> bh_write b pos new = Ok (b <| bh_data := pre ++ new ++ post |>).
Proof. intros Ed Hl Hp. unfold bh_write. by rewrite Ed, (wr_bytes_mid pre old new post pos). Qed.

Lemma bh_read_bytes_mid b pre mid post pos len : bh_data b = pre ++ mid ++ post -> pos = Z.of_nat (length pre) ->
  len = Z.of_nat (length mid) -> bh_read_bytes b pos len = Ok mid.
Proof.
  intros Ed -> ->. unfold bh_read_bytes, rd_bytes. rewrite Ed, !length_app.
  destruct (Z.ltb_spec (Z.of_nat (length pre)) 0); [lia|]. destruct (Z.ltb_spec (Z.of_nat (length mid)) 0); [lia|].
  destruct (Z.ltb_spec (Z.of_nat (length pre + (length mid + length post))) (Z.of_nat (length pre) + Z.of_nat (length mid))); [lia|].
  cbn [orb]. f_equal. by apply slice_app_mid.
Qed.

(** ** Packets in their buffers *)

Lemma holds_wf b : 0 <= bh_offset b -> 0 <= bh_len b -> bh_offset b + bh_len b <= Z.of_nat (length (bh_data b)) ->
  exists pre post, holds b pre (bh_payload b) post.
Proof.
  intros Ho Hl Hb. exists (take (Z.to_nat (bh_offset b)) (bh_data b)), (drop (Z.to_nat (bh_offset b + bh_len b)) (bh_data b)).
  unfold bh_payload, slice. constructor.
  - rewrite Z2Nat.inj_add, <- drop_drop, take_drop by lia. symmetry. apply take_drop.
  - rewrite length_take. lia.
  - rewrite length_take, length_drop. lia.
Qed.

Lemma holds_payload b pre body post : holds b pre body post -> bh_payload b = body.
Proof. intros [Ed Eo El]. unfold bh_payload. rewrite Ed, Eo, El. by apply slice_app_mid. Qed.

Lemma osi_malloc_split size a n : Z.of_nat (a + n) <= size - sizeof_BT_HDR ->
  bh_data (osi_malloc size) = replicate a 0 ++ replicate n 0 ++ replicate (Z.to_nat (size - sizeof_BT_HDR) - a - n) 0.
Proof. intros Hs. cbn [osi_malloc bh_data]. rewrite <- !replicate_add. f_equal. lia. Qed.

(** A copy of the first bytes of a packet, with room for the check sequence behind it. *)
Lemma clone_buf_spec b pre body rest post off n : holds b pre (body ++ rest) post -> n = Z.of_nat (length body) -> 0 <= off ->
  n + sizeof_BT_HDR + off + L2CAP_FCS_LEN < 65536 ->
  exists b', l2c_fcr_clone_buf b off n = Ok b' /\ holds b' (replicate (Z.to_nat off) 0) body [0; 0].
Proof.
  intros [Ed Eo El] -> Ho Hs. unfold l2c_fcr_clone_buf. rewrite u16_id by (unfold is_u16, sizeof_BT_HDR, L2CAP_FCS_LEN in *; lia).
  rewrite (bh_read_bytes_mid b pre body (rest ++ post)); [|by rewrite Ed, <- app_assoc|done|done].
  cbn [mbind outcome_bind]. eexists. split.
  - apply (bh_write_mid _ (replicate (Z.to_nat off) 0) (replicate (length body) 0) _ [0; 0]).
    + cbn [bh_data set set_bh_offset set_bh_len]. rewrite (osi_malloc_split _ (Z.to_nat off) (length body))
        by (unfold sizeof_BT_HDR, L2CAP_FCS_LEN in *; lia). do 2 f_equal.
      change [0; 0] with (replicate 2 0). f_equal. unfold sizeof_BT_HDR, L2CAP_FCS_LEN in *. lia.
    + apply length_replicate.
    + cbn. rewrite length_replicate. lia.
  - constructor; cbn; [done|rewrite length_replicate; lia|done].
Qed.
