(* ===== verification/L2cOptions.v ===== *)
(** * L2cOptions: the options of a configuration, written and read

    The options that l2c_utils.cc writes into a request are the ones that l2c_main.cc reads from it. *)

From Stdlib Require Import ZArith Lia.
From stdpp Require Import base list.
From S2P Require Import Prelude Osi L2cDefs L2cFcr L2cSig L2cCsm L2cCmd L2cRun.

Definition is_u32 (x : Z) : Prop := 0 <= x < 2 ^ 32.

(** The fields fit into the options. *)
Record cfg_ranged (g : tL2CAP_CFG_INFO) : Prop := {
  cr_mtu : is_u16 (cfg_mtu g);
  cr_flush : is_u16 (cfg_flush_to g);
  cr_fcs : is_u8 (cfg_fcs g);
  cr_qos : let q := cfg_qos g in is_u8 (qos_flags q) /\ is_u8 (service_type q) /\ is_u32 (token_rate q) /\ is_u32 (token_bucket_size q) /\
    is_u32 (peak_bandwidth q) /\ is_u32 (latency q) /\ is_u32 (delay_variation q);
  cr_fcr : let f := cfg_fcr g in is_u8 (fcr_mode f) /\ is_u8 (tx_win_sz f) /\ is_u8 (max_transmit f) /\ is_u16 (rtrans_tout f) /\
    is_u16 (mon_tout f) /\ is_u16 (fcr_mps f);
  cr_ext : let e := cfg_ext_flow_spec g in is_u8 (ext_id e) /\ is_u8 (ext_stype e) /\ is_u16 (ext_max_sdu_size e) /\
    is_u32 (ext_sdu_inter_time e) /\ is_u32 (ext_access_latency e) /\ is_u32 (ext_flush_timeout e);
}.

(** The same options, with the same values. *)
Record same_options (g g' : tL2CAP_CFG_INFO) : Prop := {
  so_mtu : mtu_present g' = mtu_present g /\ (mtu_present g = true -> cfg_mtu g' = cfg_mtu g);
  so_flush : flush_to_present g' = flush_to_present g /\ (flush_to_present g = true -> cfg_flush_to g' = cfg_flush_to g);
  so_qos : qos_present g' = qos_present g /\ (qos_present g = true -> cfg_qos g' = cfg_qos g);
  so_fcr : fcr_present g' = fcr_present g /\ (fcr_present g = true -> cfg_fcr g' = cfg_fcr g);
  so_fcs : fcs_present g' = fcs_present g /\ (fcs_present g = true -> cfg_fcs g' = cfg_fcs g);
  so_ext : ext_flow_spec_present g' = ext_flow_spec_present g /\ (ext_flow_spec_present g = true -> cfg_ext_flow_spec g' = cfg_ext_flow_spec g);
}.

(** An option: its type, the bytes of its value, and what reading it does. *)
Record opt : Type := mk_opt { o_type : Z; o_value : list Z; o_read : tL2CAP_CFG_INFO -> tL2CAP_CFG_INFO }.

Definition opt_bytes (o : opt) : list Z := o_type o :: Z.of_nat (length (o_value o)) :: o_value o.

Definition qos_value (q : FLOW_SPEC) : list Z :=
  [u8 (qos_flags q); u8 (service_type q)] ++ le32 (token_rate q) ++ le32 (token_bucket_size q) ++ le32 (peak_bandwidth q) ++ le32 (latency q) ++ le32 (delay_variation q).
Definition fcr_value (f : tL2CAP_FCR_OPTS) : list Z :=
  [u8 (fcr_mode f); u8 (tx_win_sz f); u8 (max_transmit f)] ++ le16 (rtrans_tout f) ++ le16 (mon_tout f) ++ le16 (fcr_mps f).
Definition ext_value (e : tHCI_EXT_FLOW_SPEC) : list Z :=
  [u8 (ext_id e); u8 (ext_stype e)] ++ le16 (ext_max_sdu_size e) ++ le32 (ext_sdu_inter_time e) ++ le32 (ext_access_latency e) ++ le32 (ext_flush_timeout e).

(** Those of a configuration, in the order of a request. *)
Definition opts_of (g : tL2CAP_CFG_INFO) : list opt :=
  (if mtu_present g then [mk_opt L2CAP_CFG_TYPE_MTU (le16 (cfg_mtu g)) (fun x => x <| mtu_present := true |> <| cfg_mtu := cfg_mtu g |>)] else []) ++
  (if flush_to_present g then [mk_opt L2CAP_CFG_TYPE_FLUSH_TOUT (le16 (cfg_flush_to g)) (fun x => x <| flush_to_present := true |> <| cfg_flush_to := cfg_flush_to g |>)] else []) ++
  (if qos_present g then [mk_opt L2CAP_CFG_TYPE_QOS (qos_value (cfg_qos g)) (fun x => x <| qos_present := true |> <| cfg_qos := cfg_qos g |>)] else []) ++
  (if fcr_present g then [mk_opt L2CAP_CFG_TYPE_FCR (fcr_value (cfg_fcr g)) (fun x => x <| fcr_present := true |> <| cfg_fcr := cfg_fcr g |>)] else []) ++
  (if fcs_present g then [mk_opt L2CAP_CFG_TYPE_FCS [u8 (cfg_fcs g)] (fun x => x <| fcs_present := true |> <| cfg_fcs := cfg_fcs g |>)] else []) ++
  (if ext_flow_spec_present g then [mk_opt L2CAP_CFG_TYPE_EXT_FLOW (ext_value (cfg_ext_flow_spec g)) (fun x => x <| ext_flow_spec_present := true |> <| cfg_ext_flow_spec := cfg_ext_flow_spec g |>)] else []).

(** * Lemmas *)

(** Reading the option gives what was written. *)
Definition opt_ok (o : opt) : Prop :=
  0 <= o_type o < 128 /\ option_len (o_type o) = Some (Z.of_nat (length (o_value o))) /\
  forall b pre post g, bh_data b = pre ++ o_value o ++ post -> read_option b (Z.of_nat (length pre)) (o_type o) g = Ok (o_read o g).

Lemma opts_bytes g : cfg_options g (cfg_fcr g) true = concat (map opt_bytes (opts_of g)).
Proof.
  unfold cfg_options, opts_of. rewrite !map_app, !concat_app. cbn [andb].
  destruct (mtu_present g), (flush_to_present g), (qos_present g), (fcr_present g), (fcs_present g), (ext_flow_spec_present g); reflexivity.
Qed.

Section Value.
Context (b : BT_HDR) (pre l post : list Z) (E : bh_data b = pre ++ l ++ post).

Lemma off_read pos k x : pos = Z.of_nat (length pre) + Z.of_nat k -> l !! k = Some x -> bh_read b pos = Ok x.
Proof using E.
  intros -> Hx. unfold bh_read, rd. destruct (Z.ltb_spec (Z.of_nat (length pre) + Z.of_nat k) 0); [lia|]. rewrite E.
  replace (Z.to_nat _) with (length pre + k)%nat by lia. rewrite lookup_app_r by lia. rewrite Nat.add_comm, Nat.add_sub, lookup_app_l; [by rewrite Hx|].
  by eapply lookup_lt_Some.
Qed.

Lemma off_read16 pos k w : pos = Z.of_nat (length pre) + Z.of_nat k -> is_u16 w -> l !! k = Some (u8 w) -> l !! S k = Some (u8 (w .>> 8)) -> read16 b pos = Ok w.
Proof using E.
  intros -> Hw H1 H2. unfold read16. rewrite (off_read (Z.of_nat (length pre) + Z.of_nat k) k _ eq_refl H1). cbn [mbind outcome_bind]. rewrite (off_read (Z.of_nat (length pre) + Z.of_nat k + 1) (S k) (u8 (w .>> 8))) by (done || lia). cbn. by rewrite u16_bytes.
Qed.

Lemma off_read32 pos k w : pos = Z.of_nat (length pre) + Z.of_nat k -> is_u32 w -> take 4 (drop k l) = le32 w -> read32 b pos = Ok w.
Proof using E.
  intros -> Hw Hl. assert (Hk : forall i, (i < 4)%nat -> l !! (k + i)%nat = le32 w !! i) by (intros i Hi; by rewrite <- Hl, lookup_take_lt, lookup_drop).
  unfold is_u32 in Hw. unfold read32. rewrite (off_read16 (Z.of_nat (length pre) + Z.of_nat k) k (w mod 65536)); [|done|unfold is_u16; apply Z.mod_pos_bound; lia| |].
  - cbn [mbind outcome_bind]. rewrite (off_read16 _ (k + 2) (w .>> 16)); [|lia|rewrite Z.shiftr_div_pow2 by lia; split; [apply Z.div_pos; lia|apply Z.div_lt_upper_bound; lia]| |].
    + cbn. rewrite Z.shiftl_mul_pow2, Z.shiftr_div_pow2 by lia. f_equal. change (2 ^ 16) with 65536. pose proof (Z.div_mod w 65536). lia.
    + by rewrite (Hk 2%nat) by lia.
    + replace (S (k + 2)) with (k + 3)%nat by lia. rewrite (Hk 3%nat) by lia. cbn. by rewrite Z.shiftr_shiftr.
  - replace k with (k + 0)%nat at 1 by lia. rewrite (Hk O) by lia. cbn [le32 lookup list_lookup]. f_equal. unfold u8. change (2 ^ 8) with 256. clear. Z.to_euclidean_division_equations. lia.
  - replace (S k) with (k + 1)%nat by lia. rewrite (Hk 1%nat) by lia. cbn [le32 lookup list_lookup]. f_equal. unfold u8. rewrite !Z.shiftr_div_pow2 by lia.
    change (2 ^ 8) with 256. clear. Z.to_euclidean_division_equations. lia.
Qed.
End Value.


Lemma bind_to {A B} (m : outcome A) (k : A -> outcome B) a r : m = Ok a -> k a = r -> (m ≫= k) = r.
Proof. by intros -> <-. Qed.

(** The next value that is read, at the place [k] of the option. *)
Ltac byte E k := eapply bind_to; [eapply (off_read _ _ _ _ E _ k); [lia|reflexivity]|]; cbv beta.
Ltac half E k w := eapply bind_to; [eapply (off_read16 _ _ _ _ E _ k w); [lia|assumption|reflexivity|reflexivity]|]; cbv beta.
Ltac full E k w := eapply bind_to; [eapply (off_read32 _ _ _ _ E _ k w); [lia|assumption|reflexivity]|]; cbv beta.

(** The branch of [read_option] for a type. *)
Ltac branch := unfold read_option, L2CAP_CFG_TYPE_MTU, L2CAP_CFG_TYPE_FLUSH_TOUT, L2CAP_CFG_TYPE_QOS, L2CAP_CFG_TYPE_FCR, L2CAP_CFG_TYPE_FCS, L2CAP_CFG_TYPE_EXT_FLOW;
  cbn [Z.eqb Pos.eqb].

Lemma mtu_ok w : is_u16 w -> opt_ok (mk_opt L2CAP_CFG_TYPE_MTU (le16 w) (fun x => x <| mtu_present := true |> <| cfg_mtu := w |>)).
Proof. intros Hw. split; [done|]. split; [done|]. cbn [o_type o_value o_read]. intros b pre post g0 E. branch. half E 0%nat w. done. Qed.

Lemma flush_ok w : is_u16 w -> opt_ok (mk_opt L2CAP_CFG_TYPE_FLUSH_TOUT (le16 w) (fun x => x <| flush_to_present := true |> <| cfg_flush_to := w |>)).
Proof. intros Hw. split; [done|]. split; [done|]. cbn [o_type o_value o_read]. intros b pre post g0 E. branch. half E 0%nat w. done. Qed.

Lemma fcs_ok w : is_u8 w -> opt_ok (mk_opt L2CAP_CFG_TYPE_FCS [u8 w] (fun x => x <| fcs_present := true |> <| cfg_fcs := w |>)).
Proof. intros Hw. split; [done|]. split; [done|]. cbn [o_type o_value o_read]. intros b pre post g0 E. branch. byte E 0%nat. by rewrite u8_id. Qed.

Lemma qos_ok g : cfg_ranged g -> opt_ok (mk_opt L2CAP_CFG_TYPE_QOS (qos_value (cfg_qos g)) (fun x => x <| qos_present := true |> <| cfg_qos := cfg_qos g |>)).
Proof.
  intros Hg. pose proof (cr_qos _ Hg) as (H1 & H2 & H3 & H4 & H5 & H6 & H7). destruct (cfg_qos g) as [a1 a2 a3 a4 a5 a6 a7]. cbn in H1, H2, H3, H4, H5, H6, H7.
  split; [done|]. split; [done|]. cbn [o_type o_value o_read]. intros b pre post g0 E. branch.
  byte E 0%nat. byte E 1%nat. full E 2%nat a3. full E 6%nat a4. full E 10%nat a5. full E 14%nat a6. full E 18%nat a7. by rewrite !u8_id.
Qed.

Lemma fcr_ok g : cfg_ranged g -> opt_ok (mk_opt L2CAP_CFG_TYPE_FCR (fcr_value (cfg_fcr g)) (fun x => x <| fcr_present := true |> <| cfg_fcr := cfg_fcr g |>)).
Proof.
  intros Hg. pose proof (cr_fcr _ Hg) as (H1 & H2 & H3 & H4 & H5 & H6). destruct (cfg_fcr g) as [a1 a2 a3 a4 a5 a6]. cbn in H1, H2, H3, H4, H5, H6.
  split; [done|]. split; [done|]. cbn [o_type o_value o_read]. intros b pre post g0 E. branch.
  byte E 0%nat. byte E 1%nat. byte E 2%nat. half E 3%nat a4. half E 5%nat a5. half E 7%nat a6. by rewrite !u8_id.
Qed.

Lemma ext_ok g : cfg_ranged g ->
  opt_ok (mk_opt L2CAP_CFG_TYPE_EXT_FLOW (ext_value (cfg_ext_flow_spec g)) (fun x => x <| ext_flow_spec_present := true |> <| cfg_ext_flow_spec := cfg_ext_flow_spec g |>)).
Proof.
  intros Hg. pose proof (cr_ext _ Hg) as (H1 & H2 & H3 & H4 & H5 & H6). destruct (cfg_ext_flow_spec g) as [a1 a2 a3 a4 a5 a6]. cbn in H1, H2, H3, H4, H5, H6.
  split; [done|]. split; [done|]. cbn [o_type o_value o_read]. intros b pre post g0 E. branch.
  byte E 0%nat. byte E 1%nat. half E 2%nat a3. full E 4%nat a4. full E 8%nat a5. full E 12%nat a6. by rewrite !u8_id.
Qed.

Lemma opts_ok g : cfg_ranged g -> Forall opt_ok (opts_of g).
Proof.
  intros Hg. unfold opts_of. rewrite !Forall_app. split_and!; case_match; try done; (apply List.Forall_cons; [|done]).
  - apply mtu_ok, Hg.
  - apply flush_ok, Hg.
  - by apply qos_ok.
  - by apply fcr_ok.
  - apply fcs_ok, Hg.
  - by apply ext_ok.
Qed.

(** ** The parser *)

Lemma known_code t : 0 <= t < 128 -> t .& 0x7F = t.
Proof. intros Ht. change 0x7F with (Z.ones 7). rewrite Z.land_ones by lia. by apply Z.mod_small. Qed.

Lemma parse_opts b cmd_len rej rl post l : Forall opt_ok l -> forall n pre g, bh_data b = pre ++ concat (map opt_bytes l) ++ post -> (length l < n)%nat ->
  parse_req_options n b (Z.of_nat (length pre)) (Z.of_nat (length (pre ++ concat (map opt_bytes l)))) cmd_len g rej rl =
  Ok (Some (fold_left (fun g o => o_read o g) l g, rej, rl)).
Proof.
  induction 1 as [|o l (Ht & Hlen & Hread) _ IH]; intros [|n] pre g E Hn; cbn [length] in Hn; try lia; cbn [parse_req_options map concat fold_left].
  { rewrite app_nil_r, Z.ltb_irrefl. done. }
  assert (Eb : bh_data b = pre ++ opt_bytes o ++ concat (map opt_bytes l) ++ post) by by rewrite E; cbn [map concat]; rewrite <- app_assoc.
  set (k := Z.of_nat (length (o_value o))) in *.
  assert (Hhi : Z.of_nat (length (pre ++ opt_bytes o ++ concat (map opt_bytes l))) = Z.of_nat (length pre) + 2 + k + Z.of_nat (length (concat (map opt_bytes l)))).
  { rewrite !length_app. cbn [length opt_bytes]. lia. }
  destruct (Z.ltb_spec (Z.of_nat (length pre)) (Z.of_nat (length (pre ++ opt_bytes o ++ concat (map opt_bytes l))))); [|lia]. cbn [negb].
  destruct (Z.ltb_spec (Z.of_nat (length (pre ++ opt_bytes o ++ concat (map opt_bytes l)))) (Z.of_nat (length pre) + 2)); [lia|].
  byte Eb 0%nat. byte Eb 1%nat. cbv zeta. rewrite known_code, Hlen by done. fold k. rewrite Z.eqb_refl. cbn [negb].
  destruct (Z.ltb_spec (Z.of_nat (length (pre ++ opt_bytes o ++ concat (map opt_bytes l)))) (Z.of_nat (length pre) + 2 + k)); [lia|].
  assert (E2 : bh_data b = (pre ++ [o_type o; k]) ++ o_value o ++ concat (map opt_bytes l) ++ post) by by rewrite Eb, <- app_assoc.
  replace (Z.of_nat (length pre) + 2) with (Z.of_nat (length (pre ++ [o_type o; k]))) by (rewrite length_app; cbn; lia).
  eapply bind_to; [by apply (Hread _ _ _ g E2)|]. cbv beta.
  replace (Z.of_nat (length (pre ++ [o_type o; k])) + k) with (Z.of_nat (length (pre ++ opt_bytes o))) by (rewrite !length_app; cbn; lia).
  rewrite app_assoc. apply IH; [by rewrite <- app_assoc|lia].
Qed.

Lemma fold_same g g0 : ext_flow_spec_present g0 = false -> same_options g (fold_left (fun g o => o_read o g) (opts_of g) (no_options g0)).
Proof.
  intros He. unfold opts_of.
  destruct (mtu_present g) eqn:E1, (flush_to_present g) eqn:E2, (qos_present g) eqn:E3, (fcr_present g) eqn:E4, (fcs_present g) eqn:E5, (ext_flow_spec_present g) eqn:E6;
    constructor; cbn; rewrite ?E1, ?E2, ?E3, ?E4, ?E5, ?E6; done.
Qed.

Lemma length_opts l : (length l <= length (concat (map opt_bytes l)))%nat.
Proof. induction l as [|o l IH]; [done|]. cbn [map concat]. rewrite length_app. cbn [length opt_bytes]. lia. Qed.
