(* ===== verification/L2cInv.v ===== *)
(** * L2cInv: the invariant of a channel in enhanced retransmission mode

    The abstract views of a channel: as a sender it cuts a sequence of SDUs into frames, of which it keeps
    those not acknowledged; as a receiver it accepts a sequence of frames and holds back some that came
    early.  The invariant ties the control block to both. *)

From Stdlib Require Import ZArith Lia.
From stdpp Require Import base list.
From S2P Require Import Prelude Osi L2cDefs L2cFcr L2cCrc L2cRun.

(** ** Frames *)

(** What an information frame carries: how it is part of an SDU, and the bytes behind the control word. *)
Record frame : Type := mk_frame {
  fr_sar : Z;
  fr_info : list Z;
}.

Definition seq_of (j : nat) : Z := Z.of_nat j mod 64.
Definition ctrl_seq (w : Z) : Z := (w .& L2CAP_FCR_TX_SEQ_BITS) .>> L2CAP_FCR_TX_SEQ_BITS_SHIFT.
Definition ctrl_sar (w : Z) : Z := w .& L2CAP_FCR_SEG_BITS.

(** The control word [w] is that of the information frame [fr], the [j]-th of its sender. *)
Record names (w : Z) (j : nat) (fr : frame) : Prop := {
  names_u16 : is_u16 w;
  names_type : w .& L2CAP_FCR_S_FRAME_BIT = 0;
  names_seq : ctrl_seq w = seq_of j;
  names_sar : ctrl_sar w = fr_sar fr;
  names_u8 : Forall is_u8 (fr_info fr);
}.

(** An information frame on the air, from the L2CAP header to the check sequence. *)
Definition iframe_body (cid w : Z) (info : list Z) : list Z :=
  le16 (Z.of_nat (length info) + 4) ++ le16 cid ++ le16 w ++ info.
Definition with_fcs (body : list Z) : list Z := body ++ le16 (crc16 body).

(** ** Reassembly

    The SDUs that are complete, and of the one under way its length and the bytes so far. *)
Definition sar_state : Type := list (list Z) * option (Z * list Z).

Definition sar_step (st : sar_state) (fr : frame) : option sar_state :=
  let '(sdus, cur) := st in
  if fr_sar fr =? L2CAP_FCR_UNSEG_SDU then
    match cur with None => Some (sdus ++ [fr_info fr], None) | Some _ => None end
  else if fr_sar fr =? L2CAP_FCR_START_SDU then
    match cur, fr_info fr with
    | None, b0 :: b1 :: d =>
        let len := b0 + (b1 .<< 8) in
        if len <? Z.of_nat (length d) then None else Some (sdus, Some (len, d))
    | _, _ => None
    end
  else
    match cur with
    | None => None
    | Some (len, got) =>
        let got := got ++ fr_info fr in
        if len <? Z.of_nat (length got) then None
        else if fr_sar fr =? L2CAP_FCR_END_SDU then
          if Z.of_nat (length got) =? len then Some (sdus ++ [got], None) else None
        else Some (sdus, Some (len, got))
    end.

Definition reassemble (F : list frame) : option sar_state :=
  foldl (fun o fr => st ← o; sar_step st fr) (Some ([], None)) F.

(** The SDUs handed to the application so far, in order. *)
Fixpoint delivered (o : list l2c_out) : list (list Z) :=
  match o with
  | [] => []
  | ODataInd _ p :: o => delivered o ++ [bh_payload p]
  | _ :: o => delivered o
  end.

(** ** The channel at rest *)

(** The round robin of a link with control block [i], priority and share does not read past the pool: a link of
    high priority makes it start at the first control block, from where it ends behind the last one; a link
    without a share of its own starts it at its own control block or at the next one. *)
Definition rr_ok (i : Z) (high : bool) (quota : Z) : bool :=
  negb high && (negb (quota =? 0) || ((0 <? i) && (i <? MAX_L2CAP_LINKS - 1))).

Definition rr_bound (l : tL2C_LCB) : bool := rr_ok (lcb_index l) (high_priority l) (link_xmit_quota l).

(** What does not change while the channel is open. *)
Definition fixed_part (s : l2c) :=
  (in_use (ccb s), chnl_state (ccb s), has_lcb (ccb s), local_cid (ccb s), remote_cid (ccb s), p_rcb (ccb s),
   our_cfg (ccb s), peer_cfg (ccb s), tx_mps (ccb s), max_rx_mtu (ccb s), lcb_le (lcb s), lcb_handle (lcb s),
   lcb_index (lcb s), rr_bound (lcb s)).

Definition our_win (s : l2c) : Z := tx_win_sz (cfg_fcr (our_cfg (ccb s))).
Definition peer_win (s : l2c) : Z := tx_win_sz (cfg_fcr (peer_cfg (ccb s))).

(** An open channel with a dynamic channel identifier on a BR/EDR link, in enhanced retransmission mode. *)
Record open_ertm (s : l2c) : Prop := {
  oe_in_use : in_use (ccb s) = true;
  oe_open : chnl_state (ccb s) = CST_OPEN;
  oe_lcb : has_lcb (ccb s) = true;
  oe_local : L2CAP_BASE_APPL_CID <= local_cid (ccb s) < 65536;
  oe_remote : L2CAP_BASE_APPL_CID <= remote_cid (ccb s) < 65536;
  oe_rcb : exists r, p_rcb (ccb s) = Some r /\ has_DataInd_Cb r = true;
  oe_mode : fcr_mode (cfg_fcr (peer_cfg (ccb s))) = L2CAP_FCR_ERTM_MODE;
  oe_mps : 0 < tx_mps (ccb s) <= 4087;
  oe_our_win : 1 <= our_win s <= 63;
  oe_peer_win : 1 <= peer_win s <= 63;
  oe_bredr : lcb_le (lcb s) = false;
  oe_rr : rr_bound (lcb s) = true;
}.

(** ** The receiver *)

Definition rx_part (s : l2c) :=
  let f := fcrb (ccb s) in
  (next_seq_expected f, srej_sent f, srej_rcv_hold_q f, p_rx_sdu f, rx_sdu_len f, delivered (outs s)).

(** The buffer of the SDU under way. *)
Definition sdu_buf (cur : option (Z * list Z)) (p : option BT_HDR) (len : Z) : Prop :=
  match cur, p with
  | None, None => True
  | Some (n, got), Some b =>
      n = len /\ is_u16 n /\ exists pre post, holds b pre got post /\ Z.of_nat (length got + length post) = n
  | _, _ => False
  end.

(** A buffer held back, with its control word still in front of the information. *)
Definition held_frame (j : nat) (fr : frame) (b : BT_HDR) : Prop :=
  exists pre w post, holds b (pre ++ le16 w) (fr_info fr) post /\ names w j fr /\ bh_layer_specific b = seq_of j /\
    Z.of_nat (length pre) + 4 + Z.of_nat (length (fr_info fr)) < 65536.

(** The frames [G] have been accepted: what they complete has been delivered. *)
Record rx_core (G : list frame) (s : l2c) : Prop := {
  rx_next : next_seq_expected (fcrb (ccb s)) = seq_of (length G);
  rx_sar : exists cur, reassemble G = Some (delivered (outs s), cur) /\
    sdu_buf cur (p_rx_sdu (fcrb (ccb s))) (rx_sdu_len (fcrb (ccb s)));
}.

(** The frames [H] are held back, the first of them being the [n]-th of the peer. *)
Definition holds_back (n : nat) (H : list frame) (hq : list BT_HDR) : Prop :=
  length hq = length H /\ forall i b fr, hq !! i = Some b -> H !! i = Some fr -> held_frame (n + i) fr b.

(** [G] are the frames accepted, [H] those held back: they follow the one that is missing. *)
Record rx_inv (G H : list frame) (s : l2c) : Prop := {
  rx_accepted : rx_core G s;
  rx_hold : exists hq, srej_rcv_hold_q (fcrb (ccb s)) = Some hq /\ holds_back (S (length G)) H hq;
  rx_srej : srej_sent (fcrb (ccb s)) = bool_decide (H <> []);
  rx_window : Z.of_nat (length H) < our_win s;
}.

(** ** The sender *)

(** The queues of the sender. *)
Definition tx_part (s : l2c) :=
  let f := fcrb (ccb s) in
  (xmit_hold_q (ccb s), waiting_for_ack_q f, retrans_q f, last_rx_ack f, link_xmit_data_q (lcb s)).

Definition timers_ok (s : l2c) : Prop := ack_timer (fcrb (ccb s)) <> None /\ mon_retrans_timer (fcrb (ccb s)) <> None.

(** A packet of the application, or what is left of it: there is room for the headers before and for the
    check sequence behind it. *)
Record sdu_ok (b : BT_HDR) : Prop := {
  so_holds : exists pre post, holds b pre (bh_payload b) post /\ (10 <= length pre)%nat /\ (2 <= length post)%nat /\
    Z.of_nat (length pre + length (bh_payload b)) + 2 < 65536;
  so_u8 : Forall is_u8 (bh_payload b);
  so_sar : bh_layer_specific b .& L2CAP_FCR_SAR_BITS = 0;
}.

(** The SDUs accepted from the application are those whose last frame is sent, the one under way, and those waiting. *)
Definition pending (sdus : list (list Z)) (cur : option (Z * list Z)) (held : list BT_HDR) (U : list (list Z)) : Prop :=
  match cur with
  | None => U = sdus ++ map bh_payload held /\ Forall (fun b => bh_event b = 0) held
  | Some (len, got) => exists b held', held = b :: held' /\ bh_event b <> 0 /\
      len = Z.of_nat (length (got ++ bh_payload b)) /\
      U = sdus ++ (got ++ bh_payload b) :: map bh_payload held' /\ Forall (fun b => bh_event b = 0) held'
  end.

(** The buffer kept of a frame that was sent, without its check sequence. *)
Definition sent_frame (rcid : Z) (j : nat) (fr : frame) (b : BT_HDR) : Prop :=
  exists pre l w post, holds b pre (le16 l ++ le16 rcid ++ le16 w ++ fr_info fr) post /\
    length pre = 4%nat /\ (2 <= length post)%nat /\ names w j fr /\ Z.of_nat (length (fr_info fr)) < 65000.

(** ** Packets *)

(** The acknowledgement in a control word. *)
Definition ctrl_req (w : Z) : Z := (w .& L2CAP_FCR_REQ_SEQ_BITS) .>> L2CAP_FCR_REQ_SEQ_BITS_SHIFT.

(** A packet of another channel. *)
Definition other_packet (rcid : Z) (body : list Z) : Prop :=
  exists h l cid rest, length h = 4%nat /\ body = h ++ le16 l ++ le16 cid ++ rest /\ is_u16 cid /\ cid <> rcid.

(** A supervisory frame that acknowledges the first [r] frames of the peer. *)
Definition s_packet (rcid : Z) (r : nat) (body : list Z) : Prop :=
  exists h w, length h = 4%nat /\ body = h ++ with_fcs (iframe_body rcid w []) /\ is_u16 w /\
    nz (w .& L2CAP_FCR_S_FRAME_BIT) = true /\ ctrl_req w = seq_of r.

(** The [j]-th information frame, which acknowledges the first [r] frames of the peer. *)
Definition i_packet (rcid : Z) (j : nat) (fr : frame) (r : nat) (body : list Z) : Prop :=
  exists h w, length h = 4%nat /\ body = h ++ with_fcs (iframe_body rcid w (fr_info fr)) /\ names w j fr /\ ctrl_req w = seq_of r.

Definition link_packet (rcid : Z) (r : nat) (body : list Z) : Prop := s_packet rcid r body \/ other_packet rcid body.

(** ** The state of the sender *)

(** The sender of a channel, seen from outside: the frames sent so far, how many of them are acknowledged,
    how many frames of the peer it knows to have been accepted, and how many of those the packets handed
    to the controller have acknowledged. *)
Record sender : Type := mk_sender {
  sd_frames : list frame;
  sd_base : nat;
  sd_seen : nat;
  sd_ack : nat;
}.

Definition with_base (X : sender) (b : nat) : sender := mk_sender (sd_frames X) b (sd_seen X) (sd_ack X).
Definition with_seen (X : sender) (n : nat) : sender := mk_sender (sd_frames X) (sd_base X) n (sd_ack X).

(** The numbers rise from [a] to [b]. *)
Fixpoint chain (a : nat) (l : list nat) (b : nat) : Prop :=
  match l with [] => (a <= b)%nat | x :: l => (a <= x)%nat /\ chain x l b end.

(** The frames [F] sent so far and what is held complete the SDUs [U]. *)
Definition held_inv (F : list frame) (U : list (list Z)) (s : l2c) : Prop :=
  exists held sdus cur, xmit_hold_q (ccb s) = Some held /\ Forall sdu_ok held /\
    reassemble F = Some (sdus, cur) /\ pending sdus cur held U.

(** The frames not acknowledged, no more than the window of the peer, are kept. *)
Definition sent_inv (X : sender) (s : l2c) : Prop :=
  exists sent, waiting_for_ack_q (fcrb (ccb s)) = Some sent /\ (sd_base X + length sent = length (sd_frames X))%nat /\
    Z.of_nat (length sent) <= peer_win s /\ last_rx_ack (fcrb (ccb s)) = seq_of (sd_base X) /\
    forall i b, sent !! i = Some b -> exists fr, sd_frames X !! (sd_base X + i)%nat = Some fr /\
      sent_frame (remote_cid (ccb s)) (sd_base X + i) fr b.

(** Frames to be sent again are among the last ones. *)
Definition recent_frame (F : list frame) (s : l2c) (b : BT_HDR) : Prop :=
  exists j fr, F !! j = Some fr /\ Z.of_nat (length F) <= Z.of_nat j + peer_win s /\ sent_frame (remote_cid (ccb s)) j fr b.
Definition retr_inv (F : list frame) (s : l2c) : Prop :=
  exists retr, retrans_q (fcrb (ccb s)) = Some retr /\ Forall (recent_frame F s) retr.

(** The queue of the link holds no information frames of the channel; the supervisory frames in it are in order. *)
Definition link_left (rcid : Z) (X : sender) (s : l2c) : Prop :=
  exists rs, Forall2 (fun x r => link_packet rcid r x) (map bh_payload (link_xmit_data_q (lcb s))) rs /\ chain (sd_ack X) rs (sd_seen X).
Definition link_inv (X : sender) (s : l2c) : Prop := link_left (remote_cid (ccb s)) X s.

(** [U] are the SDUs accepted so far. *)
Record tx_inv (X : sender) (U : list (list Z)) (s : l2c) : Prop := {
  tx_held : held_inv (sd_frames X) U s;
  tx_sent : sent_inv X s;
  tx_retr : retr_inv (sd_frames X) s;
  tx_next : next_tx_seq (fcrb (ccb s)) = seq_of (length (sd_frames X));
  tx_seen : next_seq_expected (fcrb (ccb s)) = seq_of (sd_seen X);
  tx_timers : timers_ok s;
  tx_link : link_inv X s;
}.

(** What is handed to the controller when the frames [F] have been sent and [r] frames of the peer have
    been acknowledged: an information frame among the last of them, or something else. *)
Definition out_ok (W rcid : Z) (F : list frame) (r : nat) (o : l2c_out) : Prop :=
  match o with
  | OAcl b => link_packet rcid r (bh_payload b) \/
      exists j fr, F !! j = Some fr /\ Z.of_nat (length F) <= Z.of_nat j + W /\ i_packet rcid j fr r (bh_payload b)
  | _ => True
  end.

(** The outputs, newest first, while the frames sent grow from [F] to [F'] and the acknowledgements from [r] to [r']. *)
Inductive emits (W rcid : Z) : list frame -> nat -> list l2c_out -> list frame -> nat -> Prop :=
| emits_nil F r : emits W rcid F r [] F r
| emits_cons F r new F1 r1 F2 r2 o : emits W rcid F r new F1 r1 -> F1 `prefix_of` F2 -> (r1 <= r2)%nat -> out_ok W rcid F2 r2 o ->
    emits W rcid F r (o :: new) F2 r2.

(** The packets among the outputs, oldest first. *)
Fixpoint packets (o : list l2c_out) : list (list Z) :=
  match o with
  | [] => []
  | OAcl p :: o => packets o ++ [bh_payload p]
  | _ :: o => packets o
  end.

(** The receiver and the fixed part are the same in [s'] as in [s]. *)
Definition keeps (s s' : l2c) : Prop := fixed_part s' = fixed_part s /\ rx_part s' = rx_part s.

(** Nothing but flags and timers changes. *)
Definition quiet (s s' : l2c) : Prop :=
  keeps s s' /\ tx_part s' = tx_part s /\ next_tx_seq (fcrb (ccb s')) = next_tx_seq (fcrb (ccb s)) /\ outs s' = outs s /\ timers_ok s'.

(** The outputs from [s] to [s'] while the sender goes from [X] to [X']. *)
Definition outputs (X X' : sender) (s s' : l2c) : Prop :=
  exists new, outs s' = new ++ outs s /\
    emits (peer_win s) (remote_cid (ccb s)) (sd_frames X) (sd_ack X) new (sd_frames X') (sd_ack X').

(** An operation of the sender leads from [s] to [s']. *)
Definition tx_moves (X : sender) (U : list (list Z)) (s s' : l2c) : Prop :=
  exists X', tx_inv X' U s' /\ sd_base X' = sd_base X /\ sd_seen X' = sd_seen X /\ keeps s s' /\ outputs X X' s s'.

(** The channel has been released. *)
Definition released (s : l2c) : Prop :=
  in_use (ccb s) = false /\ fcrb (ccb s) = zero_FCRB /\ xmit_hold_q (ccb s) = None /\ has_lcb (ccb s) = false /\
  rr_bound (lcb s) = true.

(** It was so on the way from [s] to [s'], on the same link. *)
Definition releases (s s' : l2c) : Prop := released s' /\ lcb_index (lcb s') = lcb_index (lcb s).

(** What remains true of a sender whose channel is closed: its frames belong to the SDUs [U], no more than
    [W] of them are not acknowledged, and it has acknowledged no frame that it has not seen. *)
Record tx_left (W : Z) (U : list (list Z)) (X : sender) : Prop := {
  tl_frames : exists sdus cur, reassemble (sd_frames X) = Some (sdus, cur) /\ sdus `prefix_of` U;
  tl_window : Z.of_nat (length (sd_frames X)) <= Z.of_nat (sd_base X) + W;
  tl_ack : (sd_ack X <= sd_seen X)%nat;
}.

(** What remains when the channel of [s] has been closed: the queue of the link is sent later on. *)
Definition tx_rest (s : l2c) (U : list (list Z)) (X' : sender) (s' : l2c) : Prop :=
  tx_left (peer_win s) U X' /\ link_left (remote_cid (ccb s)) X' s'.

(** An operation of the sender closes the channel. *)
Definition tx_closes (X : sender) (U : list (list Z)) (s s' : l2c) : Prop :=
  exists X', releases s s' /\ delivered (outs s') = delivered (outs s) /\ outputs X X' s s' /\
    sd_base X' = sd_base X /\ sd_seen X' = sd_seen X /\ tx_rest s U X' s'.

(** * Lemmas *)

Lemma Forall2_map_l {A B C} (P : B -> C -> Prop) (f : A -> B) l l' : Forall2 P (map f l) l' <-> Forall2 (fun a => P (f a)) l l'.
Proof.
  split; revert l'; induction l as [|a l IH]; intros l' H; inversion H; subst; constructor; auto.
Qed.

Lemma packets_app n o : packets (n ++ o) = packets o ++ packets n.
Proof. induction n as [|x n IH]; [by rewrite app_nil_r|]. destruct x; cbn [app packets]; rewrite IH; by rewrite ?app_assoc. Qed.

#[export] Instance keeps_refl : Reflexive keeps.
Proof. done. Qed.
#[export] Instance keeps_trans : Transitive keeps.
Proof. intros s1 s2 s3 [? ?] [? ?]. split; congruence. Qed.

Lemma fixed_inv s s' : fixed_part s' = fixed_part s ->
  in_use (ccb s') = in_use (ccb s) /\ chnl_state (ccb s') = chnl_state (ccb s) /\ has_lcb (ccb s') = has_lcb (ccb s) /\
  local_cid (ccb s') = local_cid (ccb s) /\ remote_cid (ccb s') = remote_cid (ccb s) /\ p_rcb (ccb s') = p_rcb (ccb s) /\
  our_cfg (ccb s') = our_cfg (ccb s) /\ peer_cfg (ccb s') = peer_cfg (ccb s) /\ tx_mps (ccb s') = tx_mps (ccb s) /\
  max_rx_mtu (ccb s') = max_rx_mtu (ccb s) /\ lcb_le (lcb s') = lcb_le (lcb s) /\ lcb_handle (lcb s') = lcb_handle (lcb s) /\
  lcb_index (lcb s') = lcb_index (lcb s) /\ rr_bound (lcb s') = rr_bound (lcb s).
Proof. intros H. unfold fixed_part in H. by simplify_eq. Qed.

Lemma keeps_rx s s' : keeps s s' ->
  next_seq_expected (fcrb (ccb s')) = next_seq_expected (fcrb (ccb s)) /\ srej_sent (fcrb (ccb s')) = srej_sent (fcrb (ccb s)) /\
  srej_rcv_hold_q (fcrb (ccb s')) = srej_rcv_hold_q (fcrb (ccb s)) /\ p_rx_sdu (fcrb (ccb s')) = p_rx_sdu (fcrb (ccb s)) /\
  rx_sdu_len (fcrb (ccb s')) = rx_sdu_len (fcrb (ccb s)) /\ delivered (outs s') = delivered (outs s).
Proof. intros [_ H]. unfold rx_part in H. by simplify_eq. Qed.

Lemma keeps_win s s' : keeps s s' -> peer_win s' = peer_win s /\ our_win s' = our_win s.
Proof. intros K. unfold peer_win, our_win. destruct (fixed_inv _ _ (proj1 K)) as (_&_&_&_&_&_&E1&E2&_). by rewrite E1, E2. Qed.

Lemma fixed_open s s' : fixed_part s' = fixed_part s -> open_ertm s -> open_ertm s'.
Proof.
  intros E []. destruct (fixed_inv _ _ E) as (E1&E2&E3&E4&E5&E6&E7&E8&E9&E10&E11&E12&E13&E14).
  constructor; unfold our_win, peer_win in *; by rewrite ?E1, ?E2, ?E3, ?E4, ?E5, ?E6, ?E7, ?E8, ?E9, ?E11, ?E14.
Qed.

Lemma fixed_index s s' : fixed_part s' = fixed_part s -> lcb_index (lcb s') = lcb_index (lcb s).
Proof. intros E. by destruct (fixed_inv _ _ E) as (_&_&_&_&_&_&_&_&_&_&_&_&?&_). Qed.

Lemma releases_after s s1 s2 : fixed_part s1 = fixed_part s -> releases s1 s2 -> releases s s2.
Proof. intros E [R Ei]. split; [done|]. by rewrite Ei, (fixed_index _ _ E). Qed.

Lemma keeps_open s s' : keeps s s' -> open_ertm s -> open_ertm s'.
Proof. intros [E _]. by apply fixed_open. Qed.

Lemma keeps_core G s s' : keeps s s' -> rx_core G s -> rx_core G s'.
Proof. intros K []. destruct (keeps_rx _ _ K) as (E1&E2&E3&E4&E5&E6). constructor; by rewrite ?E1, ?E4, ?E5, ?E6. Qed.

Lemma keeps_rx_inv G H s s' : keeps s s' -> rx_inv G H s -> rx_inv G H s'.
Proof.
  intros K []. destruct (keeps_rx _ _ K) as (E1&E2&E3&E4&E5&E6). destruct (keeps_win _ _ K) as [_ Ew].
  constructor; [by eapply keeps_core|by rewrite ?E2, ?E3, ?Ew..].
Qed.

Lemma tx_inv_same X U s s' : fixed_part s' = fixed_part s -> tx_part s' = tx_part s ->
  next_tx_seq (fcrb (ccb s')) = next_tx_seq (fcrb (ccb s)) -> next_seq_expected (fcrb (ccb s')) = next_seq_expected (fcrb (ccb s)) ->
  timers_ok s' -> tx_inv X U s -> tx_inv X U s'.
Proof.
  intros K E En Es Ht []. destruct (fixed_inv _ _ K) as (_&_&_&_&Er&_&_&Ep&_). assert (Ew : peer_win s' = peer_win s) by (unfold peer_win; by rewrite Ep).
  unfold tx_part in E. injection E as E1 E2 E3 E4 E5.
  constructor; [..|done|]; unfold held_inv, sent_inv, retr_inv, recent_frame, link_inv, link_left in *; by rewrite ?E1, ?E2, ?E3, ?E4, ?E5, ?Ew, ?Er, ?En, ?Es.
Qed.

Lemma quiet_tx X U s s' : quiet s s' -> tx_inv X U s -> tx_inv X U s'.
Proof. intros (K & E & En & _ & Ht) Hi. eapply tx_inv_same; [apply K|done..|by destruct (keeps_rx _ _ K)|done|done]. Qed.

Lemma chain_le a l b : chain a l b -> (a <= b)%nat.
Proof. revert a. induction l as [|x l IH]; intros a; cbn [chain]; [done|]. intros [Hx Hl]. apply IH in Hl. lia. Qed.

Lemma chain_weaken a a' l b b' : (a' <= a)%nat -> (b <= b')%nat -> chain a l b -> chain a' l b'.
Proof.
  revert a a'. induction l as [|x l IH]; intros a a' Ha Hb; cbn [chain]; [lia|]. intros [Hx Hl]. split; [lia|]. by eapply IH.
Qed.

Lemma chain_snoc a l b : chain a l b -> chain a (l ++ [b]) b.
Proof. revert a. induction l as [|x l IH]; intros a; cbn [chain app]; [done|]. intros [Hx Hl]. split; [done|by apply IH]. Qed.

Lemma emits_prefix W c F r new F' r' : emits W c F r new F' r' -> F `prefix_of` F' /\ (r <= r')%nat.
Proof. induction 1 as [|????????? []]; [done|]. split; [by etrans|lia]. Qed.

Lemma emits_app W c F r n1 F1 r1 n2 F2 r2 : emits W c F r n1 F1 r1 -> emits W c F1 r1 n2 F2 r2 -> emits W c F r (n2 ++ n1) F2 r2.
Proof. intros H1 H2. revert n1 F r H1. induction H2; intros; [done|]. cbn. econstructor; eauto. Qed.

Lemma emits_same W c F r n1 : Forall (out_ok W c F r) n1 -> emits W c F r n1 F r.
Proof. induction 1; [constructor|]. by econstructor. Qed.

Lemma outputs_refl X X' s s' : outs s' = outs s -> sd_frames X' = sd_frames X -> sd_ack X' = sd_ack X -> outputs X X' s s'.
Proof. intros E E1 E2. exists []. split; [done|]. rewrite E1, E2. constructor. Qed.

Lemma outputs_trans X X1 X2 s s1 s2 : outputs X X1 s s1 -> fixed_part s1 = fixed_part s -> outputs X1 X2 s1 s2 -> outputs X X2 s s2.
Proof.
  intros (n1 & O1 & M1) E (n2 & O2 & M2). exists (n2 ++ n1). split; [by rewrite O2, O1, app_assoc|].
  destruct (fixed_inv _ _ E) as (_&_&_&_&Er&_&_&Ep&_). unfold peer_win in *. rewrite Er, Ep in M2. by eapply emits_app.
Qed.

Lemma tx_moves_refl X U s : tx_inv X U s -> tx_moves X U s s.
Proof. intros Ht. exists X. split_and!; try done. by apply outputs_refl. Qed.

Lemma quiet_moves X U s s' : quiet s s' -> tx_inv X U s -> tx_moves X U s s'.
Proof.
  intros Q Ht. exists X. split; [by eapply quiet_tx|]. destruct Q as (K & _ & _ & Eo & _). split_and!; try done; [apply K..|]. by apply outputs_refl.
Qed.

Lemma tx_moves_keeps X U s s' : tx_moves X U s s' -> keeps s s'.
Proof. by intros (X' & _ & _ & _ & K & _). Qed.

Lemma tx_moves_trans X U s s1 s2 : tx_moves X U s s1 -> (forall X1, tx_inv X1 U s1 -> tx_moves X1 U s1 s2) -> tx_moves X U s s2.
Proof.
  intros (X1 & T1 & B1 & S1 & K1 & O1) H. destruct (H X1 T1) as (X2 & T2 & B2 & S2 & K2 & O2).
  exists X2. split; [done|]. split; [congruence|]. split; [congruence|]. split; [by etrans|]. eapply outputs_trans; [done|apply K1|done].
Qed.

#[export] Instance quiet_trans : Transitive quiet.
Proof. intros s1 s2 s3 (K & E1 & E2 & E3 & _) (K' & E1' & E2' & E3' & T). split; [by etrans|]. split_and!; congruence || done. Qed.

Lemma tx_rest_same s0 s U X s' : fixed_part s = fixed_part s0 -> tx_rest s U X s' -> tx_rest s0 U X s'.
Proof. intros E. unfold tx_rest, peer_win. destruct (fixed_inv _ _ E) as (_&_&_&_&->&_&_&->&_). done. Qed.

Lemma tx_inv_left X U s : tx_inv X U s -> tx_left (peer_win s) U X.
Proof.
  intros [(held & sdus & cur & _ & _ & HF & Hp) (sent & _ & Hl & Hw & _) _ _ _ _ (rs & _ & Hc%chain_le)]. constructor; [|lia|done].
  exists sdus, cur. split; [done|]. destruct cur as [[len got]|].
  - destruct Hp as (b & held' & _ & _ & _ & -> & _). by eexists.
  - destruct Hp as [-> _]. by eexists.
Qed.

(** Neither the outputs nor the counters of the link are part of the invariant of the sender. *)
Lemma tx_inv_ccb X U s s' : ccb s' = ccb s -> link_xmit_data_q (lcb s') = link_xmit_data_q (lcb s) -> tx_inv X U s -> tx_inv X U s'.
Proof.
  intros E El []. constructor; unfold held_inv, sent_inv, retr_inv, recent_frame, link_inv, link_left, timers_ok, peer_win in *; by rewrite ?E, ?El.
Qed.

(** The outputs are no part of the invariant of the sender. *)
Lemma tx_inv_outs X U s g : tx_inv X U s -> tx_inv X U (s <| outs ::= g |>).
Proof. intros []. by constructor. Qed.
