(* ===== verification/L2cTx.v ===== *)
(** * L2cTx: the sender of a channel in enhanced retransmission mode

    Control words, and the operations that send: each returns, keeps the invariant of the sender and
    leaves the receiver as it is. *)

From Stdlib Require Import ZArith Lia.
From stdpp Require Import base list.
From S2P Require Import Prelude Osi L2cDefs L2cFcr L2cCrc L2cRun L2cInv.

(** An open channel whose next expected sequence number is one. *)
Definition ready (s : l2c) : Prop := open_ertm s /\ 0 <= next_seq_expected (fcrb (ccb s)) < 64.

(** The control words agree in everything but the acknowledgement. *)
Definition same_frame (w w' : Z) : Prop :=
  is_u16 w' /\ w' .& L2CAP_FCR_S_FRAME_BIT = w .& L2CAP_FCR_S_FRAME_BIT /\ ctrl_seq w' = ctrl_seq w /\ ctrl_sar w' = ctrl_sar w.

(** What [prepare_I_frame] leaves of the state. *)
Definition prepared (re : bool) (s s' : l2c) : Prop :=
  keeps s s' /\ tx_part s' = tx_part s /\ outs s' = outs s /\ timers_ok s' /\
  next_tx_seq (fcrb (ccb s')) = if re then next_tx_seq (fcrb (ccb s)) else (next_tx_seq (fcrb (ccb s)) + 1) .& L2CAP_FCR_SEQ_MODULO.

(** The buffer holds one of the last of the frames, ready to be sent. *)
Definition frame_out (s : l2c) (X : sender) (b : BT_HDR) : Prop :=
  exists j fr w pre post, sd_frames X !! j = Some fr /\ Z.of_nat (length (sd_frames X)) <= Z.of_nat j + peer_win s /\ names w j fr /\
    ctrl_req w = seq_of (sd_seen X) /\
    holds b pre (with_fcs (iframe_body (remote_cid (ccb s)) w (fr_info fr))) post /\ (4 <= length pre)%nat /\
    Z.of_nat (length pre + length (fr_info fr)) + 8 < 65536 /\ Z.of_nat (length (fr_info fr)) + 16 < 65536.

(** The sender has taken a frame from its queues. *)
Definition took_frame (U : list (list Z)) (X' : sender) (s : l2c) (r : option BT_HDR) (s' : l2c) : Prop :=
  exists b, r = Some b /\ frame_out s X' b /\ tx_inv X' U s' /\ keeps s s' /\ outs s' = outs s /\
    link_xmit_data_q (lcb s') = link_xmit_data_q (lcb s).

Definition add_frame (X : sender) (fr : frame) : sender := mk_sender (sd_frames X ++ [fr]) (sd_base X) (sd_seen X) (sd_ack X).

(** Frames are added. *)
Definition grows (X X' : sender) : Prop :=
  sd_frames X `prefix_of` sd_frames X' /\ sd_base X' = sd_base X /\ sd_seen X' = sd_seen X /\ sd_ack X' = sd_ack X.

(** The segment [fr] has been taken from the queue of held packets, and is to be sent after the others. *)
Record cut_off (X : sender) (U : list (list Z)) (fr : frame) (s : l2c) : Prop := {
  co_held : held_inv (sd_frames X ++ [fr]) U s;
  co_sent : sent_inv X s;
  co_win : fixed_queue_length (waiting_for_ack_q (fcrb (ccb s))) < peer_win s;
  co_retr : retrans_q (fcrb (ccb s)) = Some [];
  co_next : next_tx_seq (fcrb (ccb s)) = seq_of (length (sd_frames X));
  co_seen : next_seq_expected (fcrb (ccb s)) = seq_of (sd_seen X);
  co_timers : timers_ok s;
  co_link : link_inv X s;
}.

Definition seg_sar (first mid last : bool) : Z :=
  if first then L2CAP_FCR_START_SDU else if mid then L2CAP_FCR_CONT_SDU else if last then L2CAP_FCR_END_SDU else L2CAP_FCR_UNSEG_SDU.
Definition seg_frame (first mid last : bool) (sdu_len : Z) (body : list Z) : frame :=
  mk_frame (seg_sar first mid last) ((if first then le16 sdu_len else []) ++ body).

(** * Lemmas *)

(** ** Sequence numbers and control words *)

Lemma seq_of_range j : 0 <= seq_of j < 64.
Proof. apply Z.mod_pos_bound. lia. Qed.

Lemma seq_mask x : x .& L2CAP_FCR_SEQ_MODULO = x mod 64.
Proof. change L2CAP_FCR_SEQ_MODULO with (Z.ones 6). by rewrite Z.land_ones by lia. Qed.

Lemma seq_of_succ j : (seq_of j + 1) .& L2CAP_FCR_SEQ_MODULO = seq_of (S j).
Proof. rewrite seq_mask. unfold seq_of. rewrite Z.add_mod_idemp_l by lia. f_equal. lia. Qed.

Lemma seq_bits n : 0 <= n < 64 -> is_u16 (n .<< 1) /\ (n .<< 1) .& 1 = 0 /\ ctrl_seq (n .<< 1) = n /\ ctrl_sar (n .<< 1) = 0 /\
  (n .<< 1) .& L2CAP_FCR_REQ_SEQ_BITS = 0.
Proof.
  intros Hn. assert (E : (0 <=? n .<< 1) && (n .<< 1 <? 65536) && ((n .<< 1) .& 1 =? 0) && (ctrl_seq (n .<< 1) =? n) && (ctrl_sar (n .<< 1) =? 0)
    && ((n .<< 1) .& L2CAP_FCR_REQ_SEQ_BITS =? 0) = true).
  { apply (all_below_spec 64 (fun n => (0 <=? n .<< 1) && (n .<< 1 <? 65536) && ((n .<< 1) .& 1 =? 0) && (ctrl_seq (n .<< 1) =? n)
      && (ctrl_sar (n .<< 1) =? 0) && ((n .<< 1) .& L2CAP_FCR_REQ_SEQ_BITS =? 0))); [by vm_compute|done]. }
  unfold is_u16. lia.
Qed.

Lemma req_bits r : 0 <= r < 64 ->
  is_u16 (r .<< 8) /\ (r .<< 8) .& 1 = 0 /\ (r .<< 8) .& L2CAP_FCR_TX_SEQ_BITS = 0 /\ (r .<< 8) .& L2CAP_FCR_SEG_BITS = 0.
Proof.
  intros Hr. assert (E : (0 <=? r .<< 8) && (r .<< 8 <? 65536) && ((r .<< 8) .& 1 =? 0) && ((r .<< 8) .& L2CAP_FCR_TX_SEQ_BITS =? 0)
    && ((r .<< 8) .& L2CAP_FCR_SEG_BITS =? 0) = true).
  { apply (all_below_spec 64 (fun r => (0 <=? r .<< 8) && (r .<< 8 <? 65536) && ((r .<< 8) .& 1 =? 0) &&
      ((r .<< 8) .& L2CAP_FCR_TX_SEQ_BITS =? 0) && ((r .<< 8) .& L2CAP_FCR_SEG_BITS =? 0))); [by vm_compute|done]. }
  unfold is_u16. lia.
Qed.

Lemma land_ldiff_mask a b m : (a .&~ b) .& m = a .& (m .&~ b).
Proof.
  apply Z.bits_inj'. intros n _. rewrite !Z.land_spec, !Z.ldiff_spec.
  by destruct (Z.testbit a n), (Z.testbit b n), (Z.testbit m n).
Qed.

Lemma same_frame_refl w : is_u16 w -> same_frame w w.
Proof. done. Qed.
Lemma same_frame_trans w1 w2 w3 : same_frame w1 w2 -> same_frame w2 w3 -> same_frame w1 w3.
Proof. intros (? & ? & ? & ?) (? & ? & ? & ?). unfold same_frame. split_and!; [done|congruence..]. Qed.

Lemma same_frame_lor w x : is_u16 w -> is_u16 x -> x .& 1 = 0 -> x .& L2CAP_FCR_TX_SEQ_BITS = 0 -> x .& L2CAP_FCR_SEG_BITS = 0 ->
  same_frame w (w .| x).
Proof.
  intros Hw Hx E1 E2 E3. unfold same_frame, ctrl_seq, ctrl_sar. rewrite !Z.land_lor_distr_l, E2, E3, !Z.lor_0_r.
  unfold L2CAP_FCR_S_FRAME_BIT. rewrite E1, Z.lor_0_r. by split; [apply is_u16_lor|].
Qed.

Lemma same_frame_clear w : is_u16 w -> same_frame w (w .&~ (L2CAP_FCR_REQ_SEQ_BITS + L2CAP_FCR_F_BIT)).
Proof.
  intros Hw. unfold same_frame, ctrl_seq, ctrl_sar. rewrite !land_ldiff_mask. split; [|done].
  apply (bits_bound 16); [lia|]. intros i Hi. rewrite Z.ldiff_spec, (testbit_ge 16); [done|exact Hw|lia].
Qed.

Lemma same_frame_ack w (f : bool) r : is_u16 w -> 0 <= r < 64 ->
  same_frame w ((if f then w .| L2CAP_FCR_F_BIT else w) .| (r .<< L2CAP_FCR_REQ_SEQ_BITS_SHIFT)).
Proof.
  intros Hw Hr. destruct (req_bits r Hr) as (R1 & R2 & R3 & R4).
  assert (Hf : same_frame w (if f then w .| L2CAP_FCR_F_BIT else w)) by (destruct f; [by apply same_frame_lor|done]).
  eapply same_frame_trans; [done|]. apply same_frame_lor; [apply Hf|done..].
Qed.

Lemma ack_req w (f : bool) r : w .& L2CAP_FCR_REQ_SEQ_BITS = 0 -> 0 <= r < 64 ->
  ctrl_req ((if f then w .| L2CAP_FCR_F_BIT else w) .| (r .<< L2CAP_FCR_REQ_SEQ_BITS_SHIFT)) = r.
Proof.
  intros Hw Hr. unfold ctrl_req. rewrite Z.land_lor_distr_l, Z.shiftr_lor.
  replace ((if f then w .| L2CAP_FCR_F_BIT else w) .& L2CAP_FCR_REQ_SEQ_BITS) with 0.
  - rewrite Z.shiftr_0_l, Z.lor_0_l. apply Z.eqb_eq.
    apply (all_below_spec 64 (fun r => ((r .<< L2CAP_FCR_REQ_SEQ_BITS_SHIFT) .& L2CAP_FCR_REQ_SEQ_BITS) .>> L2CAP_FCR_REQ_SEQ_BITS_SHIFT =? r)); [by vm_compute|done].
  - symmetry. destruct f; [|done]. by rewrite Z.land_lor_distr_l, Hw.
Qed.

(** The control word of a new frame. *)
Lemma new_ctrl ls sar n : ls .& L2CAP_FCR_SEG_BITS = 0 ->
  sar = L2CAP_FCR_UNSEG_SDU \/ sar = L2CAP_FCR_START_SDU \/ sar = L2CAP_FCR_CONT_SDU \/ sar = L2CAP_FCR_END_SDU -> 0 <= n < 64 ->
  let w := ((ls .| sar) .& L2CAP_FCR_SEG_BITS) .| (n .<< L2CAP_FCR_TX_SEQ_BITS_SHIFT) in
  is_u16 w /\ w .& L2CAP_FCR_S_FRAME_BIT = 0 /\ ctrl_seq w = n /\ ctrl_sar w = sar /\ w .& L2CAP_FCR_REQ_SEQ_BITS = 0.
Proof.
  intros Hls Hs Hn w. destruct (seq_bits n Hn) as (N1 & N2 & N3 & N4 & N5).
  assert (Ew : w = sar .| (n .<< 1)).
  { unfold w. rewrite Z.land_lor_distr_l, Hls. by destruct Hs as [->|[->|[->| ->]]]. }
  rewrite Ew. unfold L2CAP_FCR_S_FRAME_BIT, ctrl_seq, ctrl_sar in *. rewrite !Z.land_lor_distr_l, Z.shiftr_lor, N2, N3, N4, N5.
  split; [apply is_u16_lor; [|done]|]; destruct Hs as [->|[->|[->| ->]]]; unfold is_u16; by cbn.
Qed.

Lemma names_same w w' j fr : same_frame w w' -> names w j fr -> names w' j fr.
Proof. intros (? & ? & ? & ?) []. constructor; [done|congruence..|done]. Qed.

(** ** Timers *)

Lemma keeps_ready s s' : keeps s s' -> ready s -> ready s'.
Proof. intros K [Ho Hn]. split; [by eapply keeps_open|]. by destruct (keeps_rx _ _ K) as (-> & _). Qed.

Lemma quiet_refl s : timers_ok s -> quiet s s.
Proof. by intros. Qed.

Lemma alarm_set_some a ms : a <> None -> exists a', alarm_set_on_mloop a ms = Ok a' /\ a' <> None.
Proof. destruct a; [|done]. intros _. by eexists. Qed.

Lemma alarm_cancel_some a : a <> None -> alarm_cancel a <> None.
Proof. by destruct a. Qed.

Lemma set_mon_timer_spec ms s : timers_ok s -> runs (set_mon_retrans_timer ms) s (fun _ s' => quiet s s').
Proof.
  intros [Ha Hm]. unfold set_mon_retrans_timer. lsteps. apply runs_lift.
  destruct (alarm_set_some _ ms Hm) as (a' & -> & Ha'). cbn [returns]. by lsteps.
Qed.

Lemma start_timer_spec s : timers_ok s -> runs l2c_fcr_start_timer s (fun _ s' => quiet s s').
Proof.
  intros Ht. unfold l2c_fcr_start_timer. lsteps. destruct (alarm_is_scheduled _); [by lsteps|]. by apply set_mon_timer_spec.
Qed.

Lemma stop_timer_spec s : timers_ok s -> runs l2c_fcr_stop_timer s (fun _ s' => quiet s s').
Proof. intros [Ha Hm]. unfold l2c_fcr_stop_timer. lsteps. repeat split; [done|]. cbn. by apply alarm_cancel_some. Qed.

Lemma cancel_ack_timer_spec s : timers_ok s -> runs cancel_ack_timer s (fun _ s' => quiet s s').
Proof. intros [Ha Hm]. unfold cancel_ack_timer. lsteps. repeat split; [|done]. cbn. by apply alarm_cancel_some. Qed.

(** ** Building a frame *)

Lemma iframe_u8 cid w info : Forall is_u8 info -> Forall is_u8 (iframe_body cid w info).
Proof. intros. unfold iframe_body. rewrite !Forall_app. split_and!; [apply le16_u8..|done]. Qed.

Lemma tx_fcs_spec p pre body post : holds p pre body post -> Forall is_u8 body -> l2c_fcr_tx_get_fcs p = Ok (crc16 body).
Proof.
  intros [Ed Eo El] Hb. unfold l2c_fcr_tx_get_fcs. rewrite (bh_read_bytes_mid p pre body post) by done.
  cbn [mbind outcome_bind mret outcome_ret]. by rewrite updcrc_ref.
Qed.

(** The header, the control word and the check sequence of a frame are filled in. *)
Lemma frame_bytes_spec p pre h cid cw info fc post w :
  holds p pre (h ++ le16 cid ++ cw ++ info) (fc ++ post) -> length h = 2%nat -> length cw = 2%nat -> length fc = 2%nat ->
  is_u16 w -> Forall is_u8 info -> Z.of_nat (length info) + 8 < 65536 ->
  returns (p ← bh_write p (bh_offset p + L2CAP_PKT_OVERHEAD) (le16 (u16 w));
           p ← bh_write p (bh_offset p) (le16 (bh_len p + L2CAP_FCS_LEN - L2CAP_PKT_OVERHEAD));
           fcs ← l2c_fcr_tx_get_fcs p;
           p ← bh_write p (bh_offset p + bh_len p) (le16 fcs);
           mret (p <| bh_len ::= fun n => u16 (n + L2CAP_FCS_LEN) |>))
    (fun p' => holds p' pre (with_fcs (iframe_body cid w info)) post /\ bh_event p' = bh_event p /\
       bh_layer_specific p' = bh_layer_specific p).
Proof.
  intros [Ed Eo El] Hh Hcw Hfc Hw Hi Hs. rewrite u16_id by done. rewrite !length_app, Hh, Hcw in El. cbn [length le16] in El.
  rewrite (bh_write_mid p (pre ++ h ++ le16 cid) cw (le16 w) (info ++ fc ++ post)); [|by rewrite Ed, <- !app_assoc|done|].
  2:{ rewrite Eo, !length_app, Hh. cbn. unfold L2CAP_PKT_OVERHEAD. lia. }
  cbn [mbind outcome_bind]. erewrite (bh_write_mid _ pre h _ (le16 cid ++ le16 w ++ info ++ fc ++ post)); [|bh_cbn; by rewrite <- !app_assoc|done|done].
  cbn [mbind outcome_bind]. erewrite (tx_fcs_spec _ pre (iframe_body cid w info) (fc ++ post)); [|constructor|by apply iframe_u8].
  2:{ bh_cbn. unfold iframe_body. rewrite <- !app_assoc. do 2 f_equal. unfold L2CAP_FCS_LEN, L2CAP_PKT_OVERHEAD. f_equal. lia. }
  2: done. 2:{ bh_cbn. unfold iframe_body. rewrite !length_app, El. cbn [length le16]. lia. }
  cbn [mbind outcome_bind]. erewrite (bh_write_mid _ (pre ++ iframe_body cid w info) fc _ post); [|bh_cbn|done|].
  2:{ unfold iframe_body. rewrite <- !app_assoc. do 2 f_equal. unfold L2CAP_FCS_LEN, L2CAP_PKT_OVERHEAD. f_equal. lia. }
  2:{ bh_cbn. unfold iframe_body. rewrite !length_app, El, Eo. cbn [length le16]. lia. }
  cbn [returns mret outcome_ret mbind outcome_bind]. split; [|done]. constructor; bh_cbn.
  - unfold with_fcs. by rewrite <- !app_assoc.
  - done.
  - rewrite El, u16_id by (unfold is_u16, L2CAP_FCS_LEN; lia). unfold with_fcs, iframe_body, L2CAP_FCS_LEN. rewrite !length_app. cbn [length le16]. lia.
Qed.

Lemma returns_bind_inv {A B} (m : outcome A) (k : A -> outcome B) Q : returns (m ≫= k) Q -> returns m (fun a => returns (k a) Q).
Proof. by destruct m. Qed.

(** A lifted operation whose result is known from [Hr], the first of a sequence. *)
Ltac lift_from Hr :=
  lstep; apply runs_lift; refine (returns_mono _ _ _ (returns_bind_inv _ _ _ Hr) _); clear Hr; intros ? Hr; cbv beta in Hr.

Lemma prepared_quiet re s s1 s2 : prepared re s s1 -> quiet s1 s2 -> prepared re s s2.
Proof. intros (K & E1 & E2 & _ & E3) (K' & E1' & E2' & E3' & T). split; [by etrans|]. split_and!; [congruence|congruence|done|congruence]. Qed.

Lemma prepare_spec (re : bool) p s pre h cw w0 info fc post :
  ready s -> timers_ok s -> holds p pre (h ++ le16 (remote_cid (ccb s)) ++ cw ++ info) (fc ++ post) ->
  length h = 2%nat -> length cw = 2%nat -> length fc = 2%nat -> Forall is_u8 info -> Z.of_nat (length info) + 8 < 65536 -> is_u16 w0 ->
  (if re then cw = le16 w0
   else w0 = (bh_layer_specific p .& L2CAP_FCR_SEG_BITS) .| (next_tx_seq (fcrb (ccb s)) .<< L2CAP_FCR_TX_SEQ_BITS_SHIFT) /\
     w0 .& L2CAP_FCR_REQ_SEQ_BITS = 0) ->
  runs (prepare_I_frame p re) s (fun p' s' => exists w, same_frame w0 w /\ ctrl_req w = next_seq_expected (fcrb (ccb s)) /\
    holds p' pre (with_fcs (iframe_body (remote_cid (ccb s)) w info)) post /\ bh_event p' = bh_event p /\
    bh_layer_specific p' = bh_layer_specific p /\ prepared re s s').
Proof.
  intros [Ho Hn] Ht Hp Hh Hcw Hfc Hi Hs Hw Hre. unfold prepare_I_frame. lstep. lstep. lstep. lstep. lstep.
  set (f := send_f_rsp (fcrb (ccb s))).
  match goal with |- runs _ ?s1 ?Q => enough (Hw0 : forall s2 w1, prepared re s s2 -> same_frame w0 w1 -> w1 .& L2CAP_FCR_REQ_SEQ_BITS = 0 -> Q w1 s2) end.
  - destruct re.
    + lstep. apply runs_lift. destruct Hp as [Ed Eo El].
      rewrite (read16_app _ (pre ++ h ++ le16 (remote_cid (ccb s))) w0 (info ++ fc ++ post) _ _ eq_refl); [|by rewrite Ed, Hre, <- !app_assoc|done|].
      2:{ rewrite Eo, !length_app, Hh. unfold L2CAP_PKT_OVERHEAD. cbn [length le16]. lia. }
      cbn [returns]. lstep. apply Hw0; [done|by apply same_frame_clear|]. by rewrite land_ldiff_mask, Z.land_0_r.
    + destruct Hre as [Hre Hq]. lstep. lstep. lstep. rewrite <- Hre. apply Hw0; [done|by apply same_frame_refl|done].
  - intros s2 w1 Hs2 Hw1 Hreq. lstep. lstep.
    assert (Ho2 : open_ertm s2) by (eapply keeps_open; [apply Hs2|done]). rewrite (oe_mode _ Ho2), Z.eqb_refl.
    assert (Hw2 := same_frame_ack w1 f _ (proj1 Hw1) Hn). assert (Hr2 := ack_req w1 f _ Hreq Hn). match type of Hw2 with same_frame _ ?x => set (w2 := x) in * end.
    assert (Hr := frame_bytes_spec p pre h _ cw info fc post w2 Hp Hh Hcw Hfc (proj1 Hw2) Hi Hs).
    lstep. lstep. lstep. lstep. assert (Ht2 : timers_ok s2) by apply Hs2.
    eapply runs_mono; [by apply cancel_ack_timer_spec|]. cbv beta. intros _ s3 Q3. lstep.
    lift_from Hr. lift_from Hr. lift_from Hr. lift_from Hr. cbn [returns mret outcome_ret] in Hr. lstep. lstep.
    assert (Hs3 : prepared re s s3) by (eapply prepared_quiet; [exact Hs2|exact Q3]).
    eapply runs_mono; [apply start_timer_spec; apply Hs3|]. cbv beta. intros _ s4 Q4. lstep. exists w2.
    split; [by eapply same_frame_trans|]. split; [done|]. destruct Hr as (? & ? & ?). split_and!; [done..|]. by eapply prepared_quiet.
Qed.

(** ** Cutting an SDU into frames *)

Lemma reassemble_snoc F fr : reassemble (F ++ [fr]) = (st ← reassemble F; sar_step st fr).
Proof. unfold reassemble. by rewrite foldl_snoc. Qed.

Lemma word_of_le16 x : is_u16 x -> le16 x = [u8 x; u8 (x .>> 8)] /\ u8 x + (u8 (x .>> 8) .<< 8) = x.
Proof. intros. split; [done|]. by apply u16_bytes. Qed.

Lemma cut_start F sdus b b' held U d1 :
  reassemble F = Some (sdus, None) -> pending sdus None (b :: held) U -> bh_payload b = d1 ++ bh_payload b' -> bh_event b' <> 0 ->
  is_u16 (bh_len b) -> bh_len b = Z.of_nat (length (bh_payload b)) ->
  let cur := Some (bh_len b, d1) in
  reassemble (F ++ [mk_frame L2CAP_FCR_START_SDU (le16 (bh_len b) ++ d1)]) = Some (sdus, cur) /\ pending sdus cur (b' :: held) U.
Proof.
  intros HF [HU He] Hb He' Hl El. cbn [map] in HU. rewrite Hb, length_app in El. inv_Forall. split.
  - rewrite reassemble_snoc, HF. cbn [mbind option_bind sar_step fr_sar fr_info].
    change (L2CAP_FCR_START_SDU =? L2CAP_FCR_UNSEG_SDU) with false. rewrite Z.eqb_refl. cbn [app le16]. rewrite u16_bytes by done.
    destruct (Z.ltb_spec (bh_len b) (Z.of_nat (length d1))); [lia|done].
  - exists b', held. rewrite length_app. split_and!; [done..|lia|by rewrite HU, Hb|done].
Qed.

Lemma cut_cont F sdus len got b b' held U d1 :
  reassemble F = Some (sdus, Some (len, got)) -> pending sdus (Some (len, got)) (b :: held) U -> bh_payload b = d1 ++ bh_payload b' ->
  bh_event b' <> 0 ->
  let cur := Some (len, got ++ d1) in
  reassemble (F ++ [mk_frame L2CAP_FCR_CONT_SDU d1]) = Some (sdus, cur) /\ pending sdus cur (b' :: held) U.
Proof.
  intros HF (b0 & held' & [= <- <-] & He & Hl & HU & Hz) Hb He'. split.
  - rewrite reassemble_snoc, HF. cbn [mbind option_bind sar_step fr_sar fr_info].
    change (L2CAP_FCR_CONT_SDU =? L2CAP_FCR_UNSEG_SDU) with false. change (L2CAP_FCR_CONT_SDU =? L2CAP_FCR_START_SDU) with false.
    change (L2CAP_FCR_CONT_SDU =? L2CAP_FCR_END_SDU) with false. cbn [andb].
    destruct (Z.ltb_spec len (Z.of_nat (length (got ++ d1)))); [|done]. rewrite Hb, !length_app in *. lia.
  - exists b', held. rewrite <- app_assoc, <- Hb. done.
Qed.

Lemma cut_end F sdus len got b held U :
  reassemble F = Some (sdus, Some (len, got)) -> pending sdus (Some (len, got)) (b :: held) U ->
  exists sdus', reassemble (F ++ [mk_frame L2CAP_FCR_END_SDU (bh_payload b)]) = Some (sdus', None) /\ pending sdus' None held U.
Proof.
  intros HF (b0 & held' & [= <- <-] & He & Hl & HU & Hz). exists (sdus ++ [got ++ bh_payload b]). split.
  - rewrite reassemble_snoc, HF. cbn [mbind option_bind sar_step fr_sar fr_info].
    change (L2CAP_FCR_END_SDU =? L2CAP_FCR_UNSEG_SDU) with false. change (L2CAP_FCR_END_SDU =? L2CAP_FCR_START_SDU) with false.
    rewrite Z.eqb_refl, <- Hl, Z.ltb_irrefl, Z.eqb_refl. done.
  - split; [|done]. by rewrite <- app_assoc.
Qed.

Lemma cut_whole F sdus b held U :
  reassemble F = Some (sdus, None) -> pending sdus None (b :: held) U ->
  exists sdus', reassemble (F ++ [mk_frame L2CAP_FCR_UNSEG_SDU (bh_payload b)]) = Some (sdus', None) /\ pending sdus' None held U.
Proof.
  intros HF [HU He]. inv_Forall. exists (sdus ++ [bh_payload b]). split.
  - by rewrite reassemble_snoc, HF.
  - split; [|done]. by rewrite <- app_assoc.
Qed.

(** The packet grows to the front, and is shortened from the front. *)
Lemma holds_push p pre x body post n : holds p (pre ++ x) body post -> n = Z.of_nat (length x) -> bh_offset p < 65536 ->
  bh_len p + n < 65536 ->
  holds (p <| bh_offset ::= fun o => u16 (o - n) |> <| bh_len ::= fun l => u16 (l + n) |>) pre (x ++ body) post.
Proof.
  intros [Ed Eo El] -> Ho Hl. rewrite length_app in Eo. constructor; bh_cbn.
  - by rewrite Ed, <- !app_assoc.
  - rewrite Eo, u16_id; unfold is_u16; lia.
  - rewrite El, u16_id, length_app; unfold is_u16; lia.
Qed.

Lemma holds_shift p pre x body post n : holds p pre (x ++ body) post -> n = Z.of_nat (length x) -> bh_offset p + n < 65536 ->
  bh_len p < 65536 ->
  holds (p <| bh_len ::= fun l => u16 (l - n) |> <| bh_offset ::= fun o => u16 (o + n) |>) (pre ++ x) body post.
Proof.
  intros [Ed Eo El] -> Ho Hl. rewrite length_app in El. constructor; bh_cbn.
  - by rewrite Ed, <- !app_assoc.
  - rewrite Eo, u16_id, length_app; unfold is_u16; lia.
  - rewrite El, u16_id; unfold is_u16; lia.
Qed.

Lemma holds_same p p' pre body post : holds p pre body post -> bh_data p' = bh_data p -> bh_offset p' = bh_offset p -> bh_len p' = bh_len p ->
  holds p' pre body post.
Proof. intros [] E1 E2 E3. constructor; by rewrite ?E1, ?E2, ?E3. Qed.

(** A list split at a length. *)
Lemma split_at {A} (l : list A) n : (n <= length l)%nat -> exists l1 l2, l = l1 ++ l2 /\ length l1 = n.
Proof. intros. exists (take n l), (drop n l). by rewrite take_drop, length_take_le. Qed.

Lemma split_end {A} (l : list A) n : (n <= length l)%nat -> exists l1 l2, l = l1 ++ l2 /\ length l2 = n.
Proof. intros. destruct (split_at l (length l - n)) as (l1 & l2 & -> & E); [lia|]. exists l1, l2. split; [done|]. rewrite length_app in *. lia. Qed.

(** The L2CAP header is written in front of the information. *)
Lemma header_spec p pre x body post rcid : holds p pre (x ++ body) post -> length x = 6%nat ->
  returns (bh_write p (bh_offset p) (le16 (bh_len p - L2CAP_PKT_OVERHEAD) ++ le16 rcid)) (fun p' =>
    exists h cw, holds p' pre (h ++ le16 rcid ++ cw ++ body) post /\ length h = 2%nat /\ length cw = 2%nat /\
      bh_event p' = bh_event p /\ bh_layer_specific p' = bh_layer_specific p).
Proof.
  intros [Ed Eo El] Hx. destruct (split_at x 4) as (x1 & cw & -> & Hx1); [lia|]. rewrite length_app in Hx.
  rewrite (bh_write_mid p pre x1 _ (cw ++ body ++ post)); [|by rewrite Ed, <- !app_assoc|by rewrite Hx1|done].
  exists (le16 (bh_len p - L2CAP_PKT_OVERHEAD)), cw. split_and!; [|done|lia|done..]. constructor; bh_cbn.
  - by rewrite <- !app_assoc.
  - done.
  - rewrite El, !length_app, Hx1. cbn [length le16]. lia.
Qed.

Lemma length_with_fcs body : length (with_fcs body) = (length body + 2)%nat.
Proof. unfold with_fcs. by rewrite length_app. Qed.

Lemma length_iframe_body cid w info : length (iframe_body cid w info) = (6 + length info)%nat.
Proof. unfold iframe_body. rewrite !length_app. cbn. lia. Qed.

(** The copy that is kept until the frame is acknowledged. *)
Lemma wack_spec b pre post cid w j fr :
  holds b pre (with_fcs (iframe_body cid w (fr_info fr))) post -> names w j fr -> Z.of_nat (length (fr_info fr)) < 65000 ->
  exists b', l2c_fcr_clone_buf b HCI_DATA_PREAMBLE_SIZE (bh_len b) = Ok b' /\
    sent_frame cid j fr (b' <| bh_len ::= fun n => u16 (n - L2CAP_FCS_LEN) |> <| bh_layer_specific := bh_layer_specific b |>).
Proof.
  intros Hb Hn Hs. pose proof (holds_len _ _ _ _ Hb) as El. rewrite length_with_fcs, length_iframe_body in El.
  destruct (clone_buf_spec b pre (with_fcs (iframe_body cid w (fr_info fr))) [] post HCI_DATA_PREAMBLE_SIZE (bh_len b))
    as (b' & E & [Ed Eo El']).
  - by rewrite app_nil_r.
  - apply Hb.
  - done.
  - rewrite El. unfold sizeof_BT_HDR, HCI_DATA_PREAMBLE_SIZE, L2CAP_FCS_LEN. lia.
  - exists b'. split; [done|]. rewrite length_with_fcs, length_iframe_body in El'.
    exists (replicate 4 0), (Z.of_nat (length (fr_info fr)) + 4), w, (le16 (crc16 (iframe_body cid w (fr_info fr))) ++ [0; 0]).
    split_and!; [|done|cbn; lia|done|lia]. constructor; bh_cbn.
    + rewrite Ed. unfold with_fcs. by rewrite <- !app_assoc.
    + by rewrite Eo.
    + rewrite El', u16_id by (unfold is_u16, L2CAP_FCS_LEN; lia). rewrite !length_app. cbn [length le16]. unfold L2CAP_FCS_LEN. lia.
Qed.

Lemma sent_inv_snoc X s fr b : sent_inv X s -> fixed_queue_length (waiting_for_ack_q (fcrb (ccb s))) < peer_win s ->
  sent_frame (remote_cid (ccb s)) (length (sd_frames X)) fr b ->
  exists sent, waiting_for_ack_q (fcrb (ccb s)) = Some sent /\
    sent_inv (add_frame X fr) (s <| ccb ::= fun c => c <| fcrb ::= fun f => f <| waiting_for_ack_q := Some (sent ++ [b]) |> |> |>).
Proof.
  intros (sent & Es & Hl & Hw & Ha & Hs) Hlt Hb. exists sent. split; [done|]. rewrite Es in Hlt. cbn [fixed_queue_length] in Hlt.
  exists (sent ++ [b]). change (peer_win (s <| ccb ::= _ |>)) with (peer_win s). cbn [add_frame sd_frames sd_base]. split; [done|].
  rewrite !length_app. cbn [length]. split; [lia|]. split; [lia|]. split; [done|]. intros i x Hx. apply lookup_app_Some in Hx as [Hx|[Hi Hx]].
  - destruct (Hs i x Hx) as (fr' & Hf & Hsf). exists fr'. split; [|done]. by apply lookup_app_l_Some.
  - apply list_lookup_singleton_Some in Hx as [Hi0 <-]. replace (sd_base X + i)%nat with (length (sd_frames X)) by lia.
    exists fr. split; [|done]. by rewrite list_lookup_middle.
Qed.

(** The frame gets its number and a copy of it is kept. *)
Lemma emit_new_frame p s pre h cw info fc post X U ls sar :
  ready s -> holds p pre (h ++ le16 (remote_cid (ccb s)) ++ cw ++ info) (fc ++ post) ->
  length h = 2%nat -> length cw = 2%nat -> length fc = 2%nat -> Forall is_u8 info -> Z.of_nat (length info) < 65000 -> (4 <= length pre)%nat ->
  Z.of_nat (length pre + length info) + 8 < 65536 ->
  bh_layer_specific p = ls .| sar -> ls .& L2CAP_FCR_SEG_BITS = 0 ->
  sar = L2CAP_FCR_UNSEG_SDU \/ sar = L2CAP_FCR_START_SDU \/ sar = L2CAP_FCR_CONT_SDU \/ sar = L2CAP_FCR_END_SDU ->
  let fr := mk_frame sar info in
  cut_off X U fr s ->
  runs (p_xmit ← prepare_I_frame p false;
        c ← get_ccb;
        (if fcr_mode (cfg_fcr (peer_cfg c)) =? L2CAP_FCR_ERTM_MODE then
           p_wack ← lift (l2c_fcr_clone_buf p_xmit HCI_DATA_PREAMBLE_SIZE (bh_len p_xmit));
           let p_wack := p_wack <| bh_len ::= fun n => u16 (n - L2CAP_FCS_LEN) |>
                                <| bh_layer_specific := bh_layer_specific p_xmit |> in
           q ← lift (fixed_queue_enqueue (waiting_for_ack_q (fcrb c)) p_wack);
           upd_fcrb (fun f => f <| waiting_for_ack_q := q |>)
         else skip);;
        mret (Some p_xmit)) s (took_frame U (add_frame X fr) s).
Proof.
  intros Hr Hp Hh Hcw Hfc Hi Hs Hpre Hpl Els Hls Hsar fr [Hheld Hsent Hwin Hretr Hnext Hseen Ht Hlink].
  destruct (new_ctrl ls sar (next_tx_seq (fcrb (ccb s))) Hls Hsar) as (W1 & W2 & W3 & W4 & W5); [rewrite Hnext; apply seq_of_range|].
  lstep. eapply runs_mono; [eapply (prepare_spec false); try done; [lia|by rewrite Els]|].
  cbv beta. intros p' s1 (w & Hw & Hreq & Hp' & _ & _ & K & Et & Eo & Ht1 & En).
  assert (Hnm : names w (length (sd_frames X)) fr).
  { destruct Hw as (? & E1 & E2 & E3). constructor; [done|congruence|by rewrite E2, W3, Hnext|by rewrite E3, W4|done]. }
  assert (Ho1 : open_ertm s1) by (eapply keeps_open; [done|apply Hr]).
  lstep. lstep. rewrite (oe_mode _ Ho1), Z.eqb_refl. lstep. lstep. apply runs_lift.
  destruct (wack_spec p' pre post _ w _ fr Hp' Hnm Hs) as (b' & -> & Hb'). cbn [returns]. lstep. apply runs_lift.
  destruct (fixed_inv _ _ (proj1 K)) as (_&_&_&_&Er&_). destruct (keeps_win _ _ K) as [Ew _]. destruct (keeps_rx _ _ K) as (Es'&_).
  unfold tx_part in Et. injection Et as E1 E2 E3 E4 E5.
  assert (Hsent1 : sent_inv X s1) by (unfold sent_inv in *; by rewrite E2, E4, Er, Ew).
  rewrite <- Er in Hb'. rewrite <- E2, <- Ew in Hwin. destruct (sent_inv_snoc X s1 fr _ Hsent1 Hwin Hb') as (sent & Es & Hsent2).
  rewrite Es. cbn [fixed_queue_enqueue returns]. lstep. lstep. exists p'. split; [done|]. split; [|split; [|done]].
  - exists (length (sd_frames X)), fr, w, pre, post. split; [by cbn [add_frame sd_frames]; rewrite list_lookup_middle|].
    split; [|split_and!; try done; [cbn [add_frame sd_seen]; congruence|cbn; lia..]].
    cbn [add_frame sd_frames]. rewrite length_app. cbn. destruct Hr as [[] _]. lia.
  - constructor; [..|done|]; unfold held_inv, retr_inv, link_inv, link_left in *; cbn [ccb fcrb set set_ccb set_fcrb set_waiting_for_ack_q
      xmit_hold_q retrans_q next_tx_seq next_seq_expected lcb link_xmit_data_q remote_cid add_frame sd_frames sd_base sd_seen sd_ack].
    + by rewrite E1.
    + done.
    + exists []. by rewrite E3.
    + rewrite En, Hnext, seq_of_succ, length_app. f_equal. cbn. lia.
    + by rewrite Es'.
    + by rewrite E5, Er.
Qed.

(** Room is made in front of a segment for the header and, in the first one, for the length of the SDU. *)
Lemma seg_room p pre body post (first : bool) :
  holds p pre body post -> (12 <= length pre)%nat \/ (10 <= length pre)%nat /\ first = false ->
  bh_offset p < 65536 -> bh_len p + 8 < 65536 ->
  let q := p <| bh_offset ::= fun n => u16 (n - (L2CAP_PKT_OVERHEAD + L2CAP_FCR_OVERHEAD)) |>
             <| bh_len ::= fun n => u16 (n + (L2CAP_PKT_OVERHEAD + L2CAP_FCR_OVERHEAD)) |> in
  let q := if first then q <| bh_offset ::= fun n => u16 (n - L2CAP_SDU_LEN_OVERHEAD) |>
                           <| bh_len ::= fun n => u16 (n + L2CAP_SDU_LEN_OVERHEAD) |> else q in
  exists pre' x y, holds q pre' (x ++ y ++ body) post /\ length x = 6%nat /\ length y = (if first then 2 else 0)%nat /\
    (4 <= length pre' <= length pre)%nat /\ (length pre' + 6 + length y = length pre)%nat /\
    bh_layer_specific q = bh_layer_specific p.
Proof.
  intros Hp Hpre Ho Hl. destruct (split_end pre 6) as (p1 & x & -> & Hx); [destruct first; lia|]. rewrite length_app in *.
  assert (Hq : holds (p <| bh_offset ::= fun n => u16 (n - (L2CAP_PKT_OVERHEAD + L2CAP_FCR_OVERHEAD)) |>
             <| bh_len ::= fun n => u16 (n + (L2CAP_PKT_OVERHEAD + L2CAP_FCR_OVERHEAD)) |>) p1 (x ++ body) post).
  { apply holds_push; [done|by rewrite Hx|done|unfold L2CAP_PKT_OVERHEAD, L2CAP_FCR_OVERHEAD; lia]. }
  set (q0 := p <| bh_offset ::= _ |> <| bh_len ::= _ |>) in *. destruct first.
  - destruct (split_end p1 2) as (p2 & y & -> & Hy); [lia|]. rewrite length_app in *.
    assert (Hq2 := holds_push q0 p2 y (x ++ body) post L2CAP_SDU_LEN_OVERHEAD Hq).
    destruct (split_at (y ++ x) 6) as (x' & y' & Exy & Hx'); [rewrite length_app; lia|].
    assert (Hy' : length y' = 2%nat) by (apply (f_equal length) in Exy; rewrite !length_app in Exy; lia).
    exists p2, x', y'. split; [|split_and!; try done; lia]. rewrite app_assoc, <- Exy, <- app_assoc. apply Hq2.
    + by rewrite Hy.
    + destruct Hq as [_ -> _]. destruct Hp as [_ Eo _]. rewrite !length_app in *. lia.
    + destruct Hq as [_ _ ->]. destruct Hp as [_ _ El]. rewrite length_app in *. unfold L2CAP_SDU_LEN_OVERHEAD. lia.
  - exists p1, x, []. split; [done|]. split_and!; try done; cbn [length]; lia.
Qed.

Lemma finish_segment_spec p pre body post first mid last sdu_len X U s :
  ready s -> holds p pre body post -> (12 <= length pre)%nat \/ (10 <= length pre)%nat /\ first = false -> (2 <= length post)%nat ->
  Forall is_u8 body -> Z.of_nat (length body) < 60000 -> Z.of_nat (length pre + length body) + 2 < 65536 ->
  bh_layer_specific p .& L2CAP_FCR_SEG_BITS = 0 -> cut_off X U (seg_frame first mid last sdu_len body) s ->
  runs (finish_segment (remote_cid (ccb s)) p first mid last sdu_len) s (took_frame U (add_frame X (seg_frame first mid last sdu_len body)) s).
Proof.
  intros Hr Hp Hpre Hpost Hb Hl Hs Hls Hc. unfold finish_segment.
  destruct (seg_room p pre body post first Hp Hpre) as (pre' & x & y & Hq & Hx & Hy & Hpre' & Hsum & Els).
  { destruct Hp as [_ -> _]. lia. } { destruct Hp as [_ _ ->]. lia. }
  set (q := if first then _ else _) in *. destruct (split_at post 2) as (fc & post' & -> & Hfc); [done|].
  assert (Hy2 : (length y <= 2)%nat) by (destruct first; lia).
  lstep. apply runs_lift. eapply returns_mono; [by apply (header_spec q pre' x (y ++ body))|].
  cbv beta. intros q1 (h & cw & Hq1 & Hh & Hcw & _ & Els1). lstep.
  assert (Hsar : forall sar, sar = seg_sar first mid last -> sar = L2CAP_FCR_UNSEG_SDU \/ sar = L2CAP_FCR_START_SDU \/
    sar = L2CAP_FCR_CONT_SDU \/ sar = L2CAP_FCR_END_SDU) by (intros ? ->; destruct first, mid, last; cbn; auto).
  assert (Hlen : length (fr_info (seg_frame first mid last sdu_len body)) = (length y + length body)%nat).
  { cbn. rewrite length_app, Hy. by destruct first. }
  assert (Hu8 : Forall is_u8 (fr_info (seg_frame first mid last sdu_len body))).
  { cbn. apply Forall_app. split; [|done]. destruct first; [apply le16_u8|constructor]. }
  assert (Hfin : forall q2, holds q2 pre' (h ++ le16 (remote_cid (ccb s)) ++ cw ++ fr_info (seg_frame first mid last sdu_len body)) (fc ++ post') ->
    bh_layer_specific q2 = bh_layer_specific p .| seg_sar first mid last -> _) by
    (intros q2 Hq2 Els2; refine (emit_new_frame q2 s pre' h cw _ fc post' X U _ _ Hr Hq2 Hh Hcw Hfc Hu8 _ _ _ Els2 Hls (Hsar _ eq_refl) Hc); lia).
  clear Hsar Hu8 Hlen. destruct first.
  - destruct Hq1 as [Ed Eo El]. lstep. apply runs_lift.
    rewrite (bh_write_mid q1 (pre' ++ h ++ le16 (remote_cid (ccb s)) ++ cw) y _ (body ++ fc ++ post')); [|by rewrite Ed, <- !app_assoc|done|].
    2:{ rewrite Eo, !length_app, Hh, Hcw. cbn. lia. }
    cbn [returns]. lstep. apply Hfin; [|by bh_cbn; rewrite Els1, Els].
    constructor; bh_cbn; [by cbn [seg_frame fr_info]; rewrite <- !app_assoc|done|].
    rewrite El. cbn [seg_frame fr_info]. by rewrite !length_app, Hy.
  - destruct y; [|done]. cbn [app] in Hq1. lstep. apply Hfin; [|by bh_cbn; rewrite Els1, Els]. by apply (holds_same q1).
Qed.

(** ** The next frame *)

Lemma sent_frame_u8 cid j fr b : sent_frame cid j fr b -> Forall is_u8 (fr_info fr).
Proof. by intros (? & ? & ? & ? & _ & _ & _ & [] & _). Qed.

Lemma grows_add X fr : grows X (add_frame X fr).
Proof. split; [by apply prefix_app_r|done]. Qed.

(** A frame is sent again. *)
Lemma next_again b retr X U s : ready s -> tx_inv X U s -> retrans_q (fcrb (ccb s)) = Some (b :: retr) ->
  runs (l2c_fcr_get_next_xmit_sdu_seg 0) s (took_frame U X s).
Proof.
  intros Hr [Hh Hs (retr' & Er & Hre) Hn Hseen Ht Hl] E. rewrite E in Er. injection Er as <-. inv_Forall.
  match goal with H : recent_frame _ s b |- _ => destruct H as (j & fr & Hj & Hjw & Hb) end.
  destruct Hb as (pre & l & w & post & Hp & Hpre & Hpost & Hnm & Hlen). destruct (split_at post 2) as (fc & post' & -> & Hfc); [done|].
  unfold l2c_fcr_get_next_xmit_sdu_seg. lstep. lstep. rewrite E. cbn [fixed_queue_try_dequeue]. lstep. lstep. lstep.
  eapply runs_mono; [eapply (prepare_spec true b _ pre (le16 l) (le16 w) w (fr_info fr) fc post'); try done; [by apply (keeps_ready s)|apply Hnm|lia|apply Hnm]|].
  cbv beta. intros b' s1 (w' & Hw & Hreq & Hb' & _ & _ & K & Et & Eo & Ht1 & En). lstep. eexists. split; [done|].
  assert (K' : keeps s s1) by exact K. split; [|split; [|split; [done|split; [done|by unfold tx_part in Et; injection Et]]]].
  - exists j, fr, w', pre, post'. split_and!; try done; [by eapply names_same|by rewrite <- Hseen|by apply (holds_same b')|lia..].
  - eapply (quiet_tx X U); [split; [exact K|done]|]. constructor; [done..| |done|done|done|done]. by exists retr.
Qed.

(** The state after the first of the held packets was replaced or taken away. *)
Lemma hold_cut X U fr s held g : tx_inv X U s -> fixed_queue_length (waiting_for_ack_q (fcrb (ccb s))) < peer_win s ->
  retrans_q (fcrb (ccb s)) = Some [] -> g (xmit_hold_q (ccb s)) = Some held -> Forall sdu_ok held ->
  (exists sdus cur, reassemble (sd_frames X ++ [fr]) = Some (sdus, cur) /\ pending sdus cur held U) ->
  cut_off X U fr (s <| ccb ::= fun c => c <| xmit_hold_q ::= g |> |>).
Proof.
  intros [] Hw Hr Hg Hok (sdus & cur & HF & Hp). constructor; try done. exists held, sdus, cur. split; [|done]. exact Hg.
Qed.

(** An SDU, or what is left of it, that fits into one frame. *)
Lemma next_last b held X U s : ready s -> tx_inv X U s -> fixed_queue_length (waiting_for_ack_q (fcrb (ccb s))) < peer_win s ->
  retrans_q (fcrb (ccb s)) = Some [] -> xmit_hold_q (ccb s) = Some (b :: held) -> (tx_mps (ccb s) <? bh_len b) = false ->
  runs (l2c_fcr_get_next_xmit_sdu_seg 0) s (fun r s' => exists X', grows X X' /\ took_frame U X' s r s').
Proof.
  intros Hr Htx Hw Er Eh Elen. pose proof Htx as [(held' & sdus & cur & Eh' & Hok & HF & Hp) _ _ _ _ _ _].
  rewrite Eh in Eh'. injection Eh' as <-. inv_Forall.
  match goal with H : sdu_ok b |- _ => destruct H as [(pre & post & Hb & Hpre & Hpost & Hlen) Hu8 Hls] end.
  unfold l2c_fcr_get_next_xmit_sdu_seg. lstep. lstep. rewrite Er, Eh. cbn [fixed_queue_try_dequeue fixed_queue_try_peek_first head].
  change (L2CAP_MAX_HEADER_FCS <? 0) with false. cbn [andb]. rewrite Elen. lstep. lstep. lstep. lstep.
  assert (Hcut : exists sdus cur, reassemble (sd_frames X ++ [seg_frame false false (nz (bh_event b)) 0 (bh_payload b)]) = Some (sdus, cur) /\
    pending sdus cur held U).
  { destruct cur as [[len got]|].
    - destruct (cut_end _ sdus len got b held U HF Hp) as (sdus' & ? & ?). exists sdus', None.
      destruct Hp as (b0 & ? & [= <- <-] & He & _). apply nz_true in He. by rewrite He.
    - destruct (cut_whole _ sdus b held U HF Hp) as (sdus' & ? & ?). exists sdus', None.
      destruct Hp as [_ He]. inv_Forall. match goal with H : bh_event b = 0 |- _ => by rewrite H end. }
  eapply runs_mono; [match goal with |- runs _ ?s1 _ => apply (finish_segment_spec _ pre (bh_payload b) post false false (nz (bh_event b)) 0 X U s1) end|].
  - by apply (keeps_ready s).
  - by apply (holds_same b).
  - by right.
  - done.
  - done.
  - destruct Hr as [[] _]. destruct Hb as [_ _ El]. lia.
  - lia.
  - exact Hls.
  - apply (hold_cut X U _ s held); try done. by rewrite Eh.
  - cbv beta. intros r s' Ht. eexists. split; [by apply grows_add|]. exact Ht.
Qed.

(** The first part of a longer SDU, or of what is left of it. *)
Lemma next_part b held X U s : ready s -> tx_inv X U s -> fixed_queue_length (waiting_for_ack_q (fcrb (ccb s))) < peer_win s ->
  retrans_q (fcrb (ccb s)) = Some [] -> xmit_hold_q (ccb s) = Some (b :: held) -> (tx_mps (ccb s) <? bh_len b) = true ->
  runs (l2c_fcr_get_next_xmit_sdu_seg 0) s (fun r s' => exists X', grows X X' /\ took_frame U X' s r s').
Proof.
  intros Hr Htx Hw Er Eh Elen. pose proof Htx as [(held' & sdus & cur & Eh' & Hok & HF & Hp) _ _ _ _ _ _].
  rewrite Eh in Eh'. injection Eh' as <-. inv_Forall.
  match goal with H : sdu_ok b |- _ => destruct H as [(pre & post & Hb & Hpre & Hpost & Hlen) Hu8 Hls] end.
  pose proof Hr as [[] _]. pose proof (holds_len _ _ _ _ Hb) as El. apply Z.ltb_lt in Elen.
  destruct (split_at (bh_payload b) (Z.to_nat (tx_mps (ccb s)))) as (d1 & d2 & Ed & Hd1); [lia|].
  assert (Ed1 : tx_mps (ccb s) = Z.of_nat (length d1)) by lia.
  unfold l2c_fcr_get_next_xmit_sdu_seg. lstep. lstep. rewrite Er, Eh. cbn [fixed_queue_try_dequeue fixed_queue_try_peek_first head].
  change (L2CAP_MAX_HEADER_FCS <? 0) with false. cbn [andb]. destruct (Z.ltb_spec (tx_mps (ccb s)) (bh_len b)); [|lia].
  rewrite Ed in Hb. rewrite Ed, Forall_app in Hu8. destruct Hu8 as [Hu1 Hu2]. pose proof (holds_offset _ _ _ _ Hb) as Eo.
  rewrite Ed, length_app in Hlen, El.
  destruct (clone_buf_spec b pre d1 d2 post (L2CAP_MIN_OFFSET + L2CAP_SDU_LEN_OFFSET) (tx_mps (ccb s)) Hb Ed1) as (p & Ep & Hpx); [done| |].
  { unfold sizeof_BT_HDR, L2CAP_MIN_OFFSET, L2CAP_SDU_LEN_OFFSET, L2CAP_FCS_LEN. lia. }
  lstep. lstep. apply runs_lift. rewrite Ep. cbn [returns]. lstep. lstep. lstep.
  set (b' := b <| bh_event := local_cid (ccb s) |> <| bh_len ::= fun n => u16 (n - tx_mps (ccb s)) |> <| bh_offset ::= fun n => u16 (n + tx_mps (ccb s)) |>).
  assert (Hb' : holds b' (pre ++ d1) d2 post).
  { apply (holds_shift (b <| bh_event := local_cid (ccb s) |>)); [by apply (holds_same b)|done|bh_cbn; lia|bh_cbn; lia]. }
  assert (Ed2 : bh_payload b' = d2) by by eapply holds_payload.
  assert (Hev : bh_event b' <> 0) by (cbn; unfold L2CAP_BASE_APPL_CID in *; lia).
  assert (Hok' : sdu_ok b').
  { constructor; [|by rewrite Ed2|done]. exists (pre ++ d1), post. rewrite Ed2, length_app. split_and!; [done|lia..]. }
  set (first := bh_event b =? 0) in *.
  assert (Hcut : exists sdus cur, reassemble (sd_frames X ++ [seg_frame first (negb first) false (if first then bh_len b else 0) d1]) = Some (sdus, cur) /\
    pending sdus cur (b' :: held) U).
  { exists sdus. destruct cur as [[len got]|].
    - pose proof Hp as (b0 & ? & [= <- <-] & He & _). unfold first. destruct (Z.eqb_spec (bh_event b) 0); [done|].
      eexists. eapply (cut_cont _ sdus len got b b'); [done|done|by rewrite Ed2|done].
    - pose proof Hp as [_ He]. inv_Forall. unfold first. destruct (Z.eqb_spec (bh_event b) 0); [|done].
      eexists. eapply (cut_start _ sdus b b'); [done|done|by rewrite Ed2|done|unfold is_u16; lia|by rewrite Ed, length_app]. }
  eapply runs_mono; [match goal with |- runs _ ?s1 _ => eapply (finish_segment_spec _ _ d1 [0; 0] first (negb first) false _ X U s1) end|].
  - by apply (keeps_ready s).
  - by apply (holds_same p).
  - left. rewrite length_replicate. change (Z.to_nat (L2CAP_MIN_OFFSET + L2CAP_SDU_LEN_OFFSET)) with 15%nat. lia.
  - cbn. lia.
  - done.
  - lia.
  - rewrite length_replicate. change (Z.to_nat (L2CAP_MIN_OFFSET + L2CAP_SDU_LEN_OFFSET)) with 15%nat. lia.
  - exact Hls.
  - apply (hold_cut X U _ s (b' :: held)); try done; [by rewrite Eh|by constructor].
  - cbv beta. intros r s' Ht. eexists. split; [by apply grows_add|]. exact Ht.
Qed.
