(* ===== verification/L2cLink.v ===== *)
(** * L2cLink: what a channel in enhanced retransmission mode sends

    The link takes frames from the channel, supervisory frames go to the queue of the link, and
    the channel is closed: these operations return and keep the invariant of the sender. *)

From Stdlib Require Import ZArith Lia.
From stdpp Require Import base list.
From S2P Require Import Prelude Osi L2cDefs L2cFcr L2cCrc L2cRun L2cInv L2cTx.

(** An output that is no packet and no data. *)
Definition mere_call (o : l2c_out) : Prop :=
  match o with OAcl _ | ODataInd _ _ => False | _ => True end.

(** Nothing changes but the flag of congestion, which the application may be told of. *)
Definition congests (s s' : l2c) : Prop :=
  fixed_part s' = fixed_part s /\ fcrb (ccb s') = fcrb (ccb s) /\ xmit_hold_q (ccb s') = xmit_hold_q (ccb s) /\ lcb s' = lcb s /\
  exists new, outs s' = new ++ outs s /\ Forall mere_call new.

(** Only counters, and timers of the link, change. *)
Definition counts (s s' : l2c) : Prop :=
  ccb s' = ccb s /\ link_xmit_data_q (lcb s') = link_xmit_data_q (lcb s) /\ lcb_le (lcb s') = lcb_le (lcb s) /\
  lcb_handle (lcb s') = lcb_handle (lcb s) /\ lcb_index (lcb s') = lcb_index (lcb s) /\ rr_bound (lcb s') = rr_bound (lcb s) /\
  (outs s' = outs s \/ outs s' = OLcbTimer :: outs s).

(** From an open channel the operation returns, as an operation of the sender. *)
Definition sends {A} (m : L A) : Prop :=
  forall s X U, ready s -> tx_inv X U s -> runs m s (fun _ s' => tx_moves X U s s').

Section Link.
Context `{LE : LinkEnv}.

(** * Lemmas *)

Lemma acl_header_spec p s pre body post : has_lcb (ccb s) = true -> holds p pre body post -> (4 <= length pre)%nat ->
  bh_offset p < 65536 -> bh_len p + 4 < 65536 ->
  runs (l2cu_set_acl_hci_header p) s (fun p' s' => s' = s /\
    exists pre' h, length h = 4%nat /\ holds p' pre' (h ++ body) post).
Proof.
  intros Hl Hp Hpre Ho Hlen. unfold l2cu_set_acl_hci_header. lstep. lstep. lstep. apply runs_get_lcb; [done|].
  destruct (split_end pre 4) as (p1 & x & -> & Hx); [done|]. lstep. apply runs_lift. pose proof Hp as [Ed Eo El].
  erewrite (bh_write_mid p p1 x _ (body ++ post)); [|by rewrite Ed, <- !app_assoc|by rewrite Hx|].
  2:{ rewrite Eo, length_app, Hx. unfold HCI_DATA_PREAMBLE_SIZE. lia. }
  cbn [returns]. lstep. split; [done|]. match goal with |- context [p1 ++ ?h ++ body ++ post] => exists p1, h; assert (Eh : length h = 4%nat) by done end.
  split; [done|]. apply holds_push; [constructor; bh_cbn|by rewrite Eh|done|done].
  - by rewrite <- !app_assoc.
  - by rewrite Eo, !length_app, Hx.
  - done.
Qed.

Lemma can_serve_ertm s X U : ready s -> tx_inv X U s -> can_serve (ccb s) (lcb s) = true ->
  (exists b retr, retrans_q (fcrb (ccb s)) = Some (b :: retr)) \/
  (retrans_q (fcrb (ccb s)) = Some [] /\ fixed_queue_length (waiting_for_ack_q (fcrb (ccb s))) < peer_win s /\
   exists b held, xmit_hold_q (ccb s) = Some (b :: held)).
Proof.
  intros [[] _] [(held & ? & ? & Eh & _) _ (retr & Er & _) _ _ _ _] Hc. unfold can_serve in Hc.
  destruct (Z.ltb_spec (local_cid (ccb s)) L2CAP_BASE_APPL_CID); [lia|]. rewrite oe_mode, oe_bredr, Er, Eh in Hc.
  change (L2CAP_FCR_ERTM_MODE =? L2CAP_FCR_BASIC_MODE) with false in Hc. rewrite Z.eqb_refl in Hc.
  destruct retr as [|b retr]; [right|left; by eauto]. split; [done|]. unfold l2c_fcr_is_flow_controlled in Hc.
  rewrite oe_mode, Z.eqb_refl in Hc. change (tx_win_sz (cfg_fcr (peer_cfg (ccb s)))) with (peer_win s) in Hc.
  apply andb_true_iff in Hc as [_ Hc]. apply andb_true_iff in Hc as [_ Hc]. cbn [fixed_queue_is_empty negb orb andb] in Hc.
  apply andb_true_iff in Hc as [Hh Hc]. apply negb_true_iff, orb_false_iff in Hc as [_ Hc]. apply Z.leb_gt in Hc.
  split; [done|]. destruct held as [|b held]; [done|]. eauto.
Qed.

Lemma next_seg_spec s X U : ready s -> tx_inv X U s -> can_serve (ccb s) (lcb s) = true ->
  runs (l2c_fcr_get_next_xmit_sdu_seg 0) s (fun r s' => exists X', grows X X' /\ took_frame U X' s r s').
Proof.
  intros Hr Ht Hc. destruct (can_serve_ertm s X U Hr Ht Hc) as [(b & retr & E)|(Er & Hw & b & held & Eh)].
  - eapply runs_mono; [by eapply next_again|]. cbv beta. intros r s' Hs'. by exists X.
  - destruct (tx_mps (ccb s) <? bh_len b) eqn:E; [by eapply next_part|by eapply next_last].
Qed.

(** ** Congestion *)

Lemma delivered_calls new o : Forall mere_call new -> delivered (new ++ o) = delivered o.
Proof. induction 1 as [|x new Hx _ IH]; [done|]. by destruct x. Qed.

Lemma congests_refl s : congests s s.
Proof. unfold congests. split_and!; try done. by exists []. Qed.

Lemma congests_keeps s s' : congests s s' -> keeps s s'.
Proof. intros (K & E & _ & _ & new & Eo & Hn). split; [done|]. unfold rx_part. by rewrite E, Eo, delivered_calls. Qed.

Lemma congests_tx X U s s' : congests s s' -> tx_inv X U s -> tx_inv X U s'.
Proof.
  intros (K & E & Eh & El & _) Ht. pose proof (tx_timers _ _ _ Ht) as Htm.
  eapply tx_inv_same; [done|unfold tx_part; by rewrite E, Eh, El|by rewrite E|by rewrite E|unfold timers_ok in *; by rewrite E|done].
Qed.

Lemma send_congestion_spec status s : has_lcb (ccb s) = true ->
  runs (send_congestion_status_to_all_clients status) s (fun _ s' => congests s s').
Proof.
  intros Hl. unfold send_congestion_status_to_all_clients. lstep. lstep. lstep. lstep.
  assert (Hout : forall o, mere_call o -> congests s ((s <| ccb ::= fun c => c <| cong_sent := status |> |>) <| outs ::= cons o |>)).
  { intros o Ho. unfold congests. split_and!; try done. exists [o]. split; [done|]. by constructor. }
  assert (Hno : congests s (s <| ccb ::= fun c => c <| cong_sent := status |> |>)).
  { unfold congests. split_and!; try done. by exists []. }
  case_match; [lstep; by apply Hout|]. lstep. apply runs_get_lcb; [done|]. apply runs_when; intros _; [lstep; by apply Hout|done].
Qed.

Lemma check_congestion_spec s : has_lcb (ccb s) = true -> runs l2cu_check_channel_congestion s (fun _ s' => congests s s').
Proof.
  intros Hl. unfold l2cu_check_channel_congestion. lstep. lstep. destruct (buff_quota (ccb s) =? 0); [by apply congests_refl|].
  destruct (cong_sent (ccb s)); apply runs_when; intros _; by (apply send_congestion_spec || apply congests_refl).
Qed.

(** ** The next packet *)

(** A packet taken from the channel has its number in the window. *)
Lemma next_buffer_spec s X U : ready s -> tx_inv X U s ->
  runs next_buffer_of_channel s (fun r s' =>
    match r with
    | None => s' = s /\ can_serve (ccb s) (lcb s) = false
    | Some b => exists X' new j fr, grows X X' /\ tx_inv X' U s' /\ keeps s s' /\ outs s' = new ++ outs s /\ Forall mere_call new /\
        link_xmit_data_q (lcb s') = link_xmit_data_q (lcb s) /\ sd_frames X' !! j = Some fr /\
        Z.of_nat (length (sd_frames X')) <= Z.of_nat j + peer_win s /\ i_packet (remote_cid (ccb s)) j fr (sd_seen X') (bh_payload b)
    end).
Proof.
  intros Hr Ht. pose proof Hr as [[] _]. unfold next_buffer_of_channel. lstep. lstep. lstep. lstep. rewrite oe_lcb. cbn [andb].
  destruct (can_serve (ccb s) (lcb s)) eqn:Hc; cbn [negb]; [|by lstep]. rewrite oe_bredr, andb_false_r, oe_mode.
  change (L2CAP_FCR_ERTM_MODE =? L2CAP_FCR_BASIC_MODE) with false. rewrite Z.eqb_refl.
  lstep. eapply runs_mono; [by eapply next_seg_spec|]. cbv beta.
  intros r s1 (X' & HX & b & -> & (j & fr & w & pre & post & Hj & Hjw & Hn & Hreq & Hb & Hpre & Hs & Hs') & Ht1 & K & Eo & El).
  destruct oe_rcb as (rcb & -> & _). rewrite andb_false_r, andb_false_r. lstep. lstep. lstep. lstep.
  assert (Hl1 : has_lcb (ccb s1) = true) by (by destruct (fixed_inv _ _ (proj1 K)) as (_ & _ & -> & _)).
  eapply runs_mono; [by apply check_congestion_spec|]. cbv beta. intros _ s2 C2. lstep.
  pose proof C2 as (K2 & _ & _ & El2 & new & Eo2 & Hnew).
  assert (Hlen : length (with_fcs (iframe_body (remote_cid (ccb s)) w (fr_info fr))) = (8 + length (fr_info fr))%nat).
  { rewrite length_with_fcs, length_iframe_body. lia. }
  eapply runs_mono; [eapply acl_header_spec; [|done|done|rewrite (holds_offset _ _ _ _ Hb); lia|rewrite (holds_len _ _ _ _ Hb); lia]|].
  - by destruct (fixed_inv _ _ K2) as (_ & _ & -> & _).
  - cbv beta. intros p' s3 (-> & pre' & h & Hh & Hp'). lstep. exists X', new, j, fr.
    split; [done|]. split; [by eapply congests_tx|]. split; [etrans; [exact K|by apply congests_keeps]|]. split; [by rewrite Eo2, Eo|].
    split; [done|]. split; [by rewrite El2|]. split; [done|]. split; [done|]. exists h, w. split_and!; try done. by eapply holds_payload.
Qed.

(** ** The link *)

(** After an operation of the sender comes another. *)
Lemma moves_from {A} (m : L A) X U s s1 : ready s -> tx_moves X U s s1 ->
  (forall X1, ready s1 -> tx_inv X1 U s1 -> sd_seen X1 = sd_seen X -> runs m s1 (fun _ s2 => tx_moves X1 U s1 s2)) ->
  runs m s1 (fun _ s2 => tx_moves X U s s2).
Proof.
  intros Hr (X1 & T1 & B1 & S1 & K & O1) Hk. assert (Hr1 : ready s1) by by eapply keeps_ready.
  eapply runs_mono; [by apply (Hk X1)|]. cbv beta. intros a s2 (X2 & T2 & B2 & S2 & K2 & O2). exists X2.
  split; [done|]. split; [congruence|]. split; [congruence|]. split; [by etrans|]. eapply outputs_trans; [done|apply K|done].
Qed.

Lemma sends_from {A} (m : L A) X U s s1 : ready s -> tx_moves X U s s1 -> sends m -> runs m s1 (fun _ s2 => tx_moves X U s s2).
Proof. intros Hr Hm Hk. apply moves_from; [done..|]. intros X1 Hr1 Ht1 _. by apply Hk. Qed.

Lemma sends_bind {A B} (m : L A) (k : A -> L B) : sends m -> (forall a, sends (k a)) -> sends (m ≫= k).
Proof.
  intros Hm Hk s X U Hr Ht. lstep. eapply runs_mono; [by apply Hm|]. cbv beta. intros a s1 M. by apply sends_from.
Qed.

Lemma sends_when b m : sends m -> sends (when b m).
Proof. intros Hm s X U Hr Ht. apply runs_when; intros _; [by apply Hm|by apply tx_moves_refl]. Qed.

#[export] Instance counts_refl : Reflexive counts.
Proof. intros s. split_and!; try done. by left. Qed.

Lemma counts_moves X U s s' : counts s s' -> tx_inv X U s -> tx_moves X U s s'.
Proof.
  intros (Ec & Eq & El & Eh & Ei & Er & Eo) Ht. exists X. split; [by eapply tx_inv_ccb|]. split; [done|]. split; [done|]. split.
  - unfold keeps, fixed_part, rx_part. rewrite Ec, El, Eh, Ei, Er. by destruct Eo as [-> | ->].
  - destruct Eo as [Eo|Eo]; [by apply outputs_refl|]. exists [OLcbTimer]. split; [done|]. apply emits_same. by repeat constructor.
Qed.

Lemma counts_sends {A} (m : L A) : (forall s, runs m s (fun _ s' => counts s s')) -> sends m.
Proof. intros Hm s X U Hr Ht. eapply runs_mono; [by apply Hm|]. cbv beta. intros _ s' C. by apply counts_moves. Qed.

Lemma send_to_lower_spec p s Q :
  (forall s', ccb s' = ccb s -> link_xmit_data_q (lcb s') = link_xmit_data_q (lcb s) -> lcb_le (lcb s') = lcb_le (lcb s) ->
     lcb_handle (lcb s') = lcb_handle (lcb s) -> lcb_index (lcb s') = lcb_index (lcb s) -> rr_bound (lcb s') = rr_bound (lcb s) ->
     outs s' = OAcl (p <| bh_layer_specific := 0 |>) :: outs s -> Q tt s') ->
  runs (l2c_link_send_to_lower p) s Q.
Proof.
  intros HQ. unfold l2c_link_send_to_lower. lstep. lstep. cbv zeta. lstep. destruct (lcb_le (lcb s)) eqn:Ele.
  all: lstep; lstep; lstep; lstep; by apply HQ.
Qed.

(** A frame of the channel goes out when the queue of the link is empty. *)
Lemma next_sent s X U : ready s -> tx_inv X U s -> link_xmit_data_q (lcb s) = [] ->
  runs next_buffer_of_channel s (fun r s1 =>
    match r with
    | None => s1 = s /\ can_serve (ccb s) (lcb s) = false
    | Some b => runs (l2c_link_send_to_lower b) s1 (fun _ s2 => tx_moves X U s s2 /\ link_xmit_data_q (lcb s2) = [])
    end).
Proof.
  intros Hr Ht Hl. eapply runs_mono; [by eapply next_buffer_spec|]. cbv beta. intros [b|] s1 H1; [|done].
  destruct H1 as (X1 & new & j & fr & (HF & HB & HS & HA) & Ht1 & K & Eo & Hnew & Hl1 & Hj & Hjw & Hb).
  apply send_to_lower_spec. intros s2 E2 El2 Ele Eh Ei Err Eo2.
  split; [|congruence]. pose proof (tx_link _ _ _ Ht) as (rs & _ & Hch%chain_le).
  exists (mk_sender (sd_frames X1) (sd_base X1) (sd_seen X1) (sd_seen X1)). split; [|split; [done|split; [done|split]]].
  - eapply tx_inv_ccb; [done..|]. destruct Ht1. constructor; try done. exists []. split; [|cbn; lia]. cbn. rewrite Hl1, Hl. constructor.
  - etrans; [exact K|]. unfold keeps, fixed_part, rx_part. by rewrite E2, Ele, Eh, Ei, Err, Eo2.
  - eexists (_ :: new). split; [by rewrite Eo2, Eo|].
    apply (emits_cons _ _ _ _ new (sd_frames X) (sd_ack X)); [|done|cbn; lia|right; by exists j, fr].
    apply emits_same. eapply Forall_impl; [|done]. by intros [].
Qed.

(** The first packet of the queue of the link goes out. *)
Lemma front_sent s X U b q : ready s -> tx_inv X U s -> link_xmit_data_q (lcb s) = b :: q ->
  runs (upd_link (fun l => l <| link_xmit_data_q := q |>);; l2c_link_send_to_lower b) s
    (fun _ s2 => tx_moves X U s s2 /\ link_xmit_data_q (lcb s2) = q).
Proof.
  intros Hr Ht Eq. lstep. lstep. apply send_to_lower_spec.
  intros s2 E2 El2 Ele Eh Ei Err Eo2. split; [|by rewrite El2].
  destruct (tx_link _ _ _ Ht) as (rs & Hl & Hch). rewrite Eq in Hl. cbn [map] in Hl. apply Forall2_cons_inv_l in Hl as (r & rs' & Hb & Hl & ->). destruct Hch as [Ha Hch].
  exists (mk_sender (sd_frames X) (sd_base X) (sd_seen X) r). split; [|split; [done|split; [done|split]]].
  - eapply tx_inv_ccb; [done..|]. destruct Ht. constructor; try done. by exists rs'.
  - unfold keeps, fixed_part, rx_part. by rewrite E2, Ele, Eh, Ei, Err, Eo2.
  - eexists [_]. split; [by rewrite Eo2|]. apply (emits_cons _ _ _ _ [] (sd_frames X) (sd_ack X)); [constructor|done|done|by left].
Qed.

Lemma serve_channel_spec n s X U : ready s -> tx_inv X U s -> link_xmit_data_q (lcb s) = [] \/ window_open s = false ->
  runs (serve_channel n) s (fun _ s' => tx_moves X U s s').
Proof.
  revert s X. induction n as [|n IH]; intros s X Hr Ht Hl; [by apply tx_moves_refl|]. cbn [serve_channel]. lstep. lstep.
  destruct (window_open s); cbn [negb]; [|by apply tx_moves_refl]. destruct Hl as [Hl|]; [|done].
  lstep. eapply runs_mono; [by apply next_sent|]. cbv beta. intros [b|] s1 H1; [|destruct H1 as [-> _]; by apply tx_moves_refl].
  lstep. eapply runs_mono; [exact H1|]. cbv beta. intros _ s2 [M2 Hl2]. apply (moves_from _ X U s s2 Hr M2). intros X2 Hr2 Ht2 _.
  apply IH; auto.
Qed.

Lemma serve_link_spec n s X U : ready s -> tx_inv X U s -> (length (link_xmit_data_q (lcb s)) <= n)%nat ->
  runs (serve_link n) s (fun _ s' => tx_moves X U s s' /\ (link_xmit_data_q (lcb s') = [] \/ window_open s' = false)).
Proof.
  revert s X. induction n as [|n IH]; intros s X Hr Ht Hl.
  { cbn [serve_link]. lstep. split; [by apply tx_moves_refl|]. left. by apply nil_length_inv, Nat.le_0_r. }
  cbn [serve_link]. lstep. lstep. destruct (window_open s) eqn:Hw; cbn [negb]; [|lstep; split; [by apply tx_moves_refl|by right]].
  destruct (link_xmit_data_q (lcb s)) as [|b q] eqn:Eq; [lstep; split; [by apply tx_moves_refl|by left]|].
  pose proof (front_sent s X U b q Hr Ht Eq) as Hf. unfold runs, mbind, L_bind in Hf |- *.
  destruct (upd_link _ s) as [[[] s1]|]; [|done]. destruct (l2c_link_send_to_lower b s1) as [[[] s2]|]; [|done].
  destruct Hf as [(X2 & T2 & B2 & S2 & K2 & O2) El2]. cbn [length] in Hl.
  change (runs (serve_link n) s2 (fun _ s' => tx_moves X U s s' /\ (link_xmit_data_q (lcb s') = [] \/ window_open s' = false))).
  eapply runs_mono; [apply (IH s2 X2); [by eapply keeps_ready|done|rewrite El2; lia]|]. cbv beta.
  intros _ s3 [(X3 & T3 & B3 & S3 & K3 & O3) Hq]. split; [|done]. exists X3. split; [done|]. split; [congruence|]. split; [congruence|].
  split; [by etrans|]. eapply outputs_trans; [done|apply K2|done].
Qed.

Lemma round_robin_turn_sends single : sends (round_robin_turn single).
Proof.
  intros s X U Hr Ht. unfold round_robin_turn. lstep. lstep. cbv zeta.
  match goal with |- context [if ?c then skip else _] => destruct c end; [by apply tx_moves_refl|].
  destruct (link_xmit_data_q (lcb s)) as [|b q] eqn:Eq.
  - destruct single; [by apply tx_moves_refl|]. lstep. eapply runs_mono; [by apply next_sent|]. cbv beta.
    intros [b|] s1 H1; [|destruct H1 as [-> _]; by apply tx_moves_refl]. eapply runs_mono; [exact H1|]. by intros _ s2 [].
  - eapply runs_mono; [by apply front_sent|]. by intros _ s2 [].
Qed.

Lemma upd_cb_sends f : sends (upd_cb f).
Proof. apply counts_sends. intros s. lstep. split_and!; try done. by left. Qed.

(** From inside the pool the loop ends inside it. *)
Lemma round_robin_end_read start single s : 1 <= start < MAX_L2CAP_LINKS ->
  exists le, pool_le (round_robin_end start single s) s = Ok le.
Proof.
  intros Hs. unfold pool_le. destruct (_ =? lcb_index _); [by eexists|].
  enough (E : 0 <= round_robin_end start single s < MAX_L2CAP_LINKS)
    by (replace ((_ <=? _) && _) with true by lia; by eexists).
  unfold round_robin_end. unfold MAX_L2CAP_LINKS in *. replace ((start =? 0) || (start =? 16)) with false by lia.
  destruct (rr_stop _) as [i|]; [|lia]. destruct (_ && _) eqn:E; lia.
Qed.

Lemma rr_start l single : rr_bound l = true -> link_xmit_quota l = 0 ->
  1 <= (if single : bool then lcb_index l else lcb_index l + 1) < MAX_L2CAP_LINKS.
Proof. unfold rr_bound, rr_ok, MAX_L2CAP_LINKS. intros Hb E. rewrite E in Hb. destruct (high_priority l); [done|]. destruct single; cbn in Hb |- *; lia. Qed.

Lemma rr_not_high l : rr_bound l = true -> high_priority l = false.
Proof. unfold rr_bound, rr_ok. by destruct (high_priority l). Qed.

Lemma round_robin_sends start single : 1 <= start < MAX_L2CAP_LINKS -> sends (round_robin start single).
Proof.
  intros Hs. unfold round_robin. apply sends_bind; [apply round_robin_turn_sends|]. intros _ s X U Hr Ht. lstep. lstep. cbv zeta.
  destruct (round_robin_end_read start single s Hs) as [le ->].
  apply (sends_bind (when _ _) (fun _ => when _ _)); [|intros _|done|done]; apply sends_when;
    (intros s1 X1 U1 Hr1 Ht1; lstep; apply runs_lift; cbn [returns]; by apply sends_when; [apply upd_cb_sends|..]).
Qed.

(** The loops of a link that has a share of its own. *)
Lemma direct_send_sends (single : bool) (le : bool) n : sends (
  s ← get;
  serve_link (length (link_xmit_data_q (lcb s)));;
  s ← get;
  when (negb single) (serve_channel (n s));;
  l ← get_link;
  when (match link_xmit_data_q l with [] => false | _ => sent_not_acked l <? link_xmit_quota l end) (emit OLcbTimer)).
Proof.
  intros s X U Hr Ht. lstep. lstep. lstep. eapply runs_mono; [by apply serve_link_spec|]. cbv beta. intros _ s1 [M1 Hq]. lstep. lstep. lstep.
  eapply runs_mono.
  { apply (moves_from _ X U s s1 Hr M1). intros X1 Hr1 Ht1 _. apply runs_when; intros _; [by apply serve_channel_spec|by apply tx_moves_refl]. }
  cbv beta. intros _ s2 M2. apply (sends_from _ X U s s2 Hr M2). apply counts_sends. intros s3. lstep. lstep.
  apply runs_when; intros _; [lstep|]; split_and!; auto.
Qed.

Lemma check_send_spec cid p s X U : ready s -> tx_inv X U s ->
  (forall b, p = Some b -> link_packet (remote_cid (ccb s)) (sd_seen X) (bh_payload b)) ->
  runs (l2c_link_check_send_pkts cid p) s (fun _ s' => tx_moves X U s s').
Proof.
  intros Hr Ht Hp. pose proof Hr as [[] _]. unfold l2c_link_check_send_pkts. lstep.
  match goal with |- runs _ _ ?Q => enough (Hk : forall s1, tx_moves X U s s1 -> Q tt s1) end.
  - destruct p as [b|]; [|lstep; by apply Hk, tx_moves_refl].
    lstep. lstep. match goal with |- runs _ ?x _ => set (s1 := x) end.
    assert (M1 : tx_moves X U s s1).
    { exists X. split; [|split_and!; try done; by apply outputs_refl].
      destruct Ht as [? ? ? ? ? ? (rs & Hl & Hch)]. constructor; try done. exists (rs ++ [sd_seen X]). split; [|by apply chain_snoc].
      unfold s1. cbn [lcb link_xmit_data_q set set_lcb set_link_xmit_data_q]. rewrite map_app. apply Forall2_app; [done|]. constructor; [|constructor]. exact (Hp b eq_refl). }
    eapply runs_mono; [apply (sends_from _ X U s s1 Hr M1)|intros [] s2; apply Hk].
    apply counts_sends. intros s2. lstep. lstep. apply runs_when; intros _; [lstep|]; split_and!; try done; by left.
  - intros s1 M1. cbv zeta. set (single := match p with Some _ => nz cid | None => false end). apply (sends_from _ X U s s1 Hr M1). clear.
    intros s X U Hr Ht. lstep. lstep.
    destruct (Z.eqb_spec (link_xmit_quota (lcb s)) 0) as [Eq|]; [apply round_robin_sends; [apply rr_start; [apply Hr|done]|done|done]|]. lstep. lstep.
    destruct (negb (link_connected (lcb s)) || l2c_link_check_power_mode s); [by apply tx_moves_refl|].
    exact (direct_send_sends single (lcb_le (lcb s)) (fun s0 => Z.to_nat (if lcb_le (lcb s) then controller_le_xmit_window (cb s0) else controller_xmit_window (cb s0))) s X U Hr Ht).
Qed.

Lemma check_send_sends cid : sends (l2c_link_check_send_pkts cid None).
Proof. intros s X U Hr Ht. by apply check_send_spec. Qed.

Lemma ccb_check_send_spec cid p s X U : ready s -> tx_inv X U s ->
  (forall b, p = Some b -> link_packet (remote_cid (ccb s)) (sd_seen X) (bh_payload b)) ->
  runs (ccb_check_send_pkts cid p) s (fun _ s' => tx_moves X U s s').
Proof. intros Hr Ht Hp. unfold ccb_check_send_pkts. pose proof Hr as [[] _]. lstep. lstep. rewrite oe_lcb. by apply check_send_spec. Qed.

Lemma ccb_check_send_sends cid : sends (ccb_check_send_pkts cid None).
Proof. intros s X U Hr Ht. by apply ccb_check_send_spec. Qed.

Lemma packets_completed_sends n : sends (l2c_packets_completed n).
Proof.
  unfold l2c_packets_completed. apply sends_bind; [apply counts_sends; intros s; lstep; split_and!; try done; by left|].
  intros _. apply sends_bind; [apply counts_sends; intros s; lstep; split_and!; try done; by left|].
  intros l. cbv zeta. apply sends_bind; [destruct (lcb_le l); apply upd_cb_sends|]. intros _. apply sends_bind; [apply check_send_sends|].
  intros _ s X U Hr Ht. lstep. lstep. lstep. lstep. cbv zeta. rewrite (rr_not_high (lcb s)) by apply Hr. by apply tx_moves_refl.
Qed.

(** ** Supervisory frames *)

Lemma quiet_sends {A} (m : L A) : (forall s, timers_ok s -> runs m s (fun _ s' => quiet s s')) -> sends m.
Proof.
  intros Hm s X U Hr Ht. eapply runs_mono; [apply Hm; apply Ht|]. cbv beta. intros _ s' Q. by apply quiet_moves.
Qed.

(** Updates of flags. *)
Lemma flags_sends f : (forall s, timers_ok s -> quiet s (s <| ccb ::= fun c => c <| fcrb ::= f |> |>)) -> sends (upd_fcrb f).
Proof. intros Hf. apply quiet_sends. intros s Ht. lstep. by apply Hf. Qed.

Lemma start_timer_sends : sends l2c_fcr_start_timer.
Proof. apply quiet_sends, start_timer_spec. Qed.
Lemma stop_timer_sends : sends l2c_fcr_stop_timer.
Proof. apply quiet_sends, stop_timer_spec. Qed.
Lemma cancel_ack_timer_sends : sends cancel_ack_timer.
Proof. apply quiet_sends, cancel_ack_timer_spec. Qed.

(** The control word of a supervisory frame. *)
Lemma s_ctrl code pf r : In code [0; 1; 2; 3] -> In pf [0; L2CAP_FCR_P_BIT; L2CAP_FCR_F_BIT] -> 0 <= r < 64 ->
  let w := (code .<< L2CAP_FCR_SUP_SHIFT) .| L2CAP_FCR_S_FRAME_BIT .| (r .<< L2CAP_FCR_REQ_SEQ_BITS_SHIFT) .| pf in
  is_u16 w /\ nz (w .& L2CAP_FCR_S_FRAME_BIT) = true /\ ctrl_req w = r.
Proof.
  intros Hc Hp Hr w. destruct (req_bits r Hr) as (R1 & R2 & _). pose proof (ack_req 0 false r eq_refl Hr) as R3. rewrite Z.lor_0_l in R3.
  unfold w, ctrl_req, L2CAP_FCR_S_FRAME_BIT, L2CAP_FCR_REQ_SEQ_BITS_SHIFT in *. split; [|split].
  - repeat apply is_u16_lor; [..|done|]; cbn in Hc, Hp; intuition subst; done.
  - rewrite !Z.land_lor_distr_l, R2. cbn in Hc, Hp. intuition subst; done.
  - rewrite !Z.land_lor_distr_l, !Z.shiftr_lor, R3. cbn in Hc, Hp. intuition subst; cbn; by rewrite ?Z.lor_0_r.
Qed.

Lemma cmd_buf_split a n : (a + n <= 652)%nat -> exists d, bh_data (osi_malloc L2CAP_CMD_BUF_SIZE) = replicate a 0 ++ replicate n 0 ++ d.
Proof.
  intros Hs. exists (replicate (Z.to_nat (L2CAP_CMD_BUF_SIZE - sizeof_BT_HDR) - a - n) 0).
  apply osi_malloc_split. unfold L2CAP_CMD_BUF_SIZE, sizeof_BT_HDR. lia.
Qed.

(** The bytes of a supervisory frame. *)
Lemma s_frame_bytes rcid w :
  let p := (osi_malloc L2CAP_CMD_BUF_SIZE) <| bh_offset := HCI_DATA_PREAMBLE_SIZE |>
             <| bh_len := L2CAP_PKT_OVERHEAD + L2CAP_FCR_OVERHEAD |> in
  returns (p ← bh_write p (bh_offset p) (le16 (L2CAP_FCR_OVERHEAD + L2CAP_FCS_LEN) ++ le16 rcid ++ le16 w);
           fcs ← l2c_fcr_tx_get_fcs p;
           p ← bh_write p (bh_offset p + 6) (le16 fcs);
           mret (p <| bh_len ::= fun n => u16 (n + L2CAP_FCS_LEN) |> <| bh_layer_specific := L2CAP_NON_FLUSHABLE_PKT |>))
    (fun p => exists post, holds p (replicate 4 0) (with_fcs (iframe_body rcid w [])) post).
Proof.
  intros p. destruct (cmd_buf_split 4 8) as (d & Ed); [lia|].
  rewrite (bh_write_mid p (replicate 4 0) (replicate 6 0) _ (replicate 2 0 ++ d)); [|exact Ed|done|done]. cbn [mbind outcome_bind].
  erewrite (tx_fcs_spec _ (replicate 4 0) (iframe_body rcid w []) (replicate 2 0 ++ d)); [|by constructor|by apply iframe_u8].
  cbn [mbind outcome_bind]. erewrite (bh_write_mid _ (replicate 4 0 ++ iframe_body rcid w []) (replicate 2 0) _ d); [|done|done|done].
  cbn [returns mret outcome_ret mbind outcome_bind]. exists d. constructor; [|done|done]. done.
Qed.

Lemma send_S_frame_sends code pf : In code [0; 1; 2; 3] -> In pf [0; L2CAP_FCR_P_BIT; L2CAP_FCR_F_BIT] ->
  sends (l2c_fcr_send_S_frame code pf).
Proof.
  intros Hc Hp s X U Hr Ht. pose proof Hr as [[] Hn]. unfold l2c_fcr_send_S_frame. lstep. lstep. rewrite oe_in_use.
  rewrite bool_decide_eq_true_2 by done. cbn [negb orb]. lstep.
  eapply runs_mono.
  { apply sends_when; [|done|done]. apply sends_bind; [by apply flags_sends|]. intros _. apply sends_bind; [apply stop_timer_sends|]. intros _. apply start_timer_sends. }
  cbv beta. intros _ s1 M1. destruct (s_ctrl code pf (next_seq_expected (fcrb (ccb s))) Hc Hp Hn) as (Hw & Hs & Hreq).
  rewrite (tx_seen _ _ _ Ht) in Hreq at 2.
  match type of Hw with is_u16 ?x => set (w := x) in * end. assert (Hb := s_frame_bytes (remote_cid (ccb s)) w). cbv zeta in Hb.
  lift_from Hb. lift_from Hb. lift_from Hb. cbn [returns mret outcome_ret] in Hb. destruct Hb as [post Hb]. lstep.
  pose proof (tx_moves_keeps _ _ _ _ M1) as K1. destruct (fixed_inv _ _ (proj1 K1)) as (_&_&El&_&Er&_).
  eapply runs_mono; [eapply (acl_header_spec _ s1); [by rewrite El|exact Hb|cbn; lia|by rewrite (holds_offset _ _ _ _ Hb)|by rewrite (holds_len _ _ _ _ Hb)]|].
  cbv beta. intros p' s2 (-> & pre' & h & Hh & Hp'). lstep. eapply runs_mono.
  { apply (moves_from (ccb_check_send_pkts 0 (Some p')) X U s s1 Hr M1). intros X1 Hr1 Ht1 E1.
    apply ccb_check_send_spec; [done|done|]. intros b [= <-]. rewrite (holds_payload _ _ _ _ Hp'), Er, E1. left. by exists h, w. }
  cbv beta. intros _ s2 M2. apply (sends_from _ X U s s2 Hr M2). apply sends_bind; [by apply flags_sends|]. intros _. apply cancel_ack_timer_sends.
Qed.

(** ** Closing *)

Lemma quiet_lcb s g : timers_ok s -> link_xmit_data_q (g (lcb s)) = link_xmit_data_q (lcb s) -> lcb_le (g (lcb s)) = lcb_le (lcb s) ->
  lcb_handle (g (lcb s)) = lcb_handle (lcb s) -> lcb_index (g (lcb s)) = lcb_index (lcb s) -> rr_bound (g (lcb s)) = rr_bound (lcb s) ->
  quiet s (s <| lcb ::= g |>).
Proof.
  intros Ht E1 E2 E3 E4 E5. unfold quiet, keeps, fixed_part, tx_part. cbn [set set_lcb ccb lcb outs]. by rewrite E1, E2, E3, E4, E5.
Qed.

Lemma disc_req_bytes l id rcid lcid : lcb_le l = false ->
  returns (p ← l2cu_build_header l L2CAP_DISC_REQ_LEN L2CAP_CMD_DISC_REQ id;
           bh_write p (L2CAP_SEND_CMD_OFFSET + HCI_DATA_PREAMBLE_SIZE + L2CAP_PKT_OVERHEAD + L2CAP_CMD_OVERHEAD) (le16 rcid ++ le16 lcid))
    (fun p => exists h rest post, length h = 4%nat /\ holds p [] (h ++ le16 8 ++ le16 L2CAP_SIGNALLING_CID ++ rest) post).
Proof.
  intros El. unfold l2cu_build_header. rewrite El. destruct (cmd_buf_split 0 16) as (d & Ed); [lia|].
  match goal with |- context [bh_write ?p _ ?h] => rewrite (bh_write_mid p [] (replicate 12 0) h (replicate 4 0 ++ d)); [|exact Ed|done|done] end.
  cbn [mbind outcome_bind]. match goal with |- context [bh_write ?p _ ?h] => set (q := p) end.
  erewrite (bh_write_mid q _ (replicate 4 0) _ d); [|unfold q; bh_cbn; rewrite app_nil_l; reflexivity|done|done].
  cbn [returns]. exists (le16 (lcb_handle l .| non_flushable_pbf) ++ le16 12),
    ([u8 L2CAP_CMD_DISC_REQ; u8 id] ++ le16 L2CAP_DISC_REQ_LEN ++ le16 rcid ++ le16 lcid), d. done.
Qed.

Lemma disc_req_sends : sends l2cu_send_peer_disc_req.
Proof.
  intros s X U Hr Ht. pose proof Hr as [[] _]. unfold l2cu_send_peer_disc_req. lstep. lstep. rewrite oe_lcb. cbn [negb].
  lstep. apply runs_upd_lcb; [done|]. lstep. apply runs_get_lcb; [done|]. lstep. lstep.
  match goal with |- runs _ ?x _ => set (s1 := x) end.
  assert (Q1 : quiet s s1) by (apply (quiet_lcb s); [apply Ht|done..]).
  match goal with |- context [l2cu_build_header ?l _ _ ?id] => assert (Hb := disc_req_bytes l id (remote_cid (ccb s)) (local_cid (ccb s)) oe_bredr) end.
  lstep. apply runs_lift. refine (returns_mono _ _ _ (returns_bind_inv _ _ _ Hb) _). clear Hb. intros p1 Hb. cbv beta in Hb.
  lstep. apply runs_lift. refine (returns_mono _ _ _ Hb _). clear Hb. intros p2 (h & rest & post & Hh & Hp2). cbv beta.
  rewrite oe_mode. change (L2CAP_FCR_ERTM_MODE =? L2CAP_FCR_BASIC_MODE) with false. lstep. lstep. lstep.
  apply (moves_from _ X U s s1 Hr); [by apply quiet_moves|]. intros X1 Hr1 Ht1 _. apply ccb_check_send_spec; [done|done|].
  intros b [= <-]. rewrite (holds_payload _ _ _ _ Hp2). right. exists h, 8, L2CAP_SIGNALLING_CID, rest. split_and!; try done.
  change (remote_cid (ccb s1)) with (remote_cid (ccb s)). unfold L2CAP_BASE_APPL_CID, L2CAP_SIGNALLING_CID in *. lia.
Qed.

Lemma disconnect_closes s X U : ready s -> tx_inv X U s -> runs l2cu_disconnect_chnl s (fun _ s' => tx_closes X U s s').
Proof.
  intros Hr Ht. pose proof Hr as [[] _]. unfold l2cu_disconnect_chnl. lstep. lstep.
  destruct (Z.leb_spec L2CAP_BASE_APPL_CID (local_cid (ccb s))); [|lia]. destruct oe_rcb as (r & Er & _). lstep.
  apply (runs_get_rcb r); [done|]. lstep. eapply runs_mono; [by apply disc_req_sends|]. cbv beta. intros _ s1 (X1 & Ht1 & B1 & S1 & K & O1).
  assert (L1 : tx_rest s1 U X1 s1) by (split; [by apply tx_inv_left|apply Ht1]).
  apply (tx_rest_same s) in L1; [|apply K]. clear Ht1. lstep. unfold l2cu_release_ccb. destruct (fixed_inv _ _ (proj1 K)) as (Ei & _). lstep. lstep. rewrite Ei, oe_in_use. cbn [negb].
  unfold l2c_fcr_cleanup. lsteps. destruct (keeps_rx _ _ K) as (_&_&_&_&_&Ed).
  exists X1. split.
  { destruct (fixed_inv _ _ (proj1 K)) as (_&_&_&Ec&_&_&_&_&_&_&_&_&Ex&Err). split; [|exact Ex]. split_and!; try done; [|by etrans].
    cbn. rewrite Ec. destruct (Z.ltb_spec (local_cid (ccb s)) L2CAP_BASE_APPL_CID); [lia|apply andb_false_r]. }
  split; [exact Ed|]. split; [|done]. eapply outputs_trans; [exact O1|apply K|].
  exists [ODisconnectInd (local_cid (ccb s)); OReleased (local_cid (ccb s1))]. split; [done|]. apply emits_same. by repeat constructor.
Qed.
End Link.
