(* ===== verification/L2cDrain.v ===== *)
(** * L2cDrain: the link without its channel

    The queue of the link holds packets of the channel that outlive it: supervisory frames and the request to
    disconnect.  When the channel has nothing to send, or is gone, the link sends the packets of its queue, in
    their order, and nothing else. *)

From Stdlib Require Import ZArith Lia.
From stdpp Require Import base list.
From S2P Require Import Prelude Osi L2cDefs L2cFcr L2cRun L2cInv L2cLink.

(** The channel has nothing for the link, whose round robin stays inside the pool. *)
Definition unserved (s : l2c) : Prop := has_lcb (ccb s) && can_serve (ccb s) (lcb s) = false /\ rr_bound (lcb s) = true.

(** A packet, or a timer of the link. *)
Definition link_output (o : l2c_out) : Prop := match o with OAcl _ | OLcbTimer => True | _ => False end.

(** What the link knows of the peer, and of its own requests. *)
Definition sig_part (l : tL2C_LCB) : Z * Z * bool * alarm * Z * list Z :=
  (signal_id l, peer_ext_fea l, w4_info_rsp l, info_resp_timer l, cur_echo_id l, peer_chnl_mask l).

(** The packets [more] are appended to the queue of the link, and some of the queue are sent, the first ones first. *)
Record drains (more : list (list Z)) (s s' : l2c) : Prop := {
  dr_ccb : ccb s' = ccb s;
  dr_le : lcb_le (lcb s') = lcb_le (lcb s);
  dr_handle : lcb_handle (lcb s') = lcb_handle (lcb s);
  dr_index : lcb_index (lcb s') = lcb_index (lcb s);
  dr_rr : rr_bound (lcb s') = rr_bound (lcb s);
  dr_sig : sig_part (lcb s') = sig_part (lcb s);
  dr_sent : exists new, outs s' = new ++ outs s /\ Forall link_output new /\
    map bh_payload (link_xmit_data_q (lcb s)) ++ more = packets new ++ map bh_payload (link_xmit_data_q (lcb s'));
}.

(** The operation does nothing else. *)
Definition drain_only {A} (m : L A) : Prop := forall s, unserved s -> runs m s (fun _ s' => drains [] s s').

Section Link.
Context `{LE : LinkEnv}.

(** * Lemmas *)

Lemma link_outputs_delivered new o : Forall link_output new -> delivered (new ++ o) = delivered o.
Proof. induction 1 as [|x new Hx _ IH]; [done|]. by destruct x. Qed.

Lemma counts_drains s s' : counts s s' -> sig_part (lcb s') = sig_part (lcb s) -> drains [] s s'.
Proof.
  intros (Ec & Eq & El & Eh & Ei & Er & Eo) Es. constructor; [done..|]. rewrite Eq, app_nil_r.
  destruct Eo as [-> | ->]; [by exists []|]. exists [OLcbTimer]. split; [done|]. split; [by repeat constructor|done].
Qed.

Lemma drains_trans a b s s1 s2 : drains a s s1 -> drains b s1 s2 -> drains (a ++ b) s s2.
Proof.
  intros [E1 E2 E3 E4 E5 E6 (n1 & O1 & F1 & Q1)] [E1' E2' E3' E4' E5' E6' (n2 & O2 & F2 & Q2)]. constructor; [congruence..|].
  exists (n2 ++ n1). split; [by rewrite O2, O1, app_assoc|]. split; [by apply Forall_app|].
  by rewrite packets_app, <- app_assoc, <- Q2, !app_assoc, Q1.
Qed.

Lemma drains_unserved more s s' : drains more s s' -> unserved s -> unserved s'.
Proof. intros [E1 E2 _ _ E5 _ _]. unfold unserved, can_serve. by rewrite E1, E2, E5. Qed.

Lemma drain_bind {A B} (m : L A) (k : A -> L B) : drain_only m -> (forall a, drain_only (k a)) -> drain_only (m ≫= k).
Proof.
  intros Hm Hk s Hs. lstep. eapply runs_mono; [by apply Hm|]. cbv beta. intros a s1 D1.
  eapply runs_mono; [by apply Hk, (drains_unserved [] s)|]. cbv beta. intros b s2 D2. by apply (drains_trans [] [] s s1).
Qed.

Lemma drain_when b m : drain_only m -> drain_only (when b m).
Proof. intros Hm s Hs. apply runs_when; intros _; [by apply Hm|by apply counts_drains; [apply counts_refl|]]. Qed.

Lemma counts_drain_only {A} (m : L A) : (forall s, runs m s (fun _ s' => counts s s' /\ sig_part (lcb s') = sig_part (lcb s))) -> drain_only m.
Proof. intros Hm s Hs. eapply runs_mono; [apply Hm|]. cbv beta. intros _ s' [? ?]. by apply counts_drains. Qed.

Lemma drain_skip : drain_only skip.
Proof. apply counts_drain_only. intros s. by lstep. Qed.

Lemma drain_get : drain_only get.
Proof. apply counts_drain_only. intros s. by lstep. Qed.

Lemma drain_get_link : drain_only get_link.
Proof. apply counts_drain_only. intros s. by lstep. Qed.

Lemma drain_upd_cb f : drain_only (upd_cb f).
Proof. apply counts_drain_only. intros s. lstep. split; [|done]. split_and!; try done. by left. Qed.

(** The channel is not asked in vain. *)
Lemma next_buffer_unserved s Q : unserved s -> Q None s -> runs next_buffer_of_channel s Q.
Proof.
  intros Hs HQ. unfold next_buffer_of_channel. lstep. lstep. lstep. lstep. rewrite (proj1 Hs). cbn [negb]. by lstep.
Qed.

(** The first packet of the queue is sent. *)
Lemma drain_front s b q : link_xmit_data_q (lcb s) = b :: q ->
  runs (upd_link (fun l => l <| link_xmit_data_q := q |>);; l2c_link_send_to_lower b) s
    (fun _ s' => drains [] s s' /\ link_xmit_data_q (lcb s') = q).
Proof.
  intros Eq. lstep. lstep. unfold l2c_link_send_to_lower. lstep. lstep. cbv zeta. lstep.
  match goal with |- context [if lcb_le ?l then _ else _] => destruct (lcb_le l) end.
  all: lstep; lstep; lstep; lstep; (split; [|done]); (constructor; [done..|]); exists [OAcl (b <| bh_layer_specific := 0 |>)];
    (split; [done|]); (split; [by repeat constructor|]); cbn [lcb set set_lcb set_cb set_outs link_xmit_data_q set_link_xmit_data_q set_sent_not_acked];
    by rewrite Eq, app_nil_r.
Qed.

Lemma serve_link_drains n : drain_only (serve_link n).
Proof.
  induction n as [|n IH]; [apply drain_skip|]. intros s Hs. cbn [serve_link]. lstep. lstep.
  destruct (window_open s); cbn [negb]; [|by apply drain_skip]. destruct (link_xmit_data_q (lcb s)) as [|b q] eqn:Eq; [by apply drain_skip|].
  pose proof (drain_front s b q Eq) as Hf. unfold runs, mbind, L_bind in Hf |- *. destruct (upd_link _ s) as [[[] s1]|]; [|done].
  destruct (l2c_link_send_to_lower b s1) as [[[] s2]|]; [|done]. destruct Hf as [D _].
  change (runs (serve_link n) s2 (fun _ s' => drains [] s s')).
  eapply runs_mono; [by apply IH, (drains_unserved [] s)|]. cbv beta. intros _ s3 D3. by apply (drains_trans [] [] s s2).
Qed.

Lemma serve_channel_drains n : drain_only (serve_channel n).
Proof.
  destruct n as [|n]; [apply drain_skip|]. intros s Hs. cbn [serve_channel]. lstep. lstep.
  destruct (window_open s); cbn [negb]; [|by apply drain_skip]. lstep. apply next_buffer_unserved; [done|]. by apply drain_skip.
Qed.

Lemma round_robin_turn_drains single : drain_only (round_robin_turn single).
Proof.
  intros s Hs. unfold round_robin_turn. lstep. lstep. cbv zeta.
  match goal with |- context [if ?c then skip else _] => destruct c end; [by apply drain_skip|].
  destruct (link_xmit_data_q (lcb s)) as [|b q] eqn:Eq.
  - destruct single; [by apply drain_skip|]. lstep. apply next_buffer_unserved; [done|]. by apply drain_skip.
  - eapply runs_mono; [by apply drain_front|]. by intros _ s2 [].
Qed.

Lemma round_robin_drains start single : 1 <= start < MAX_L2CAP_LINKS -> drain_only (round_robin start single).
Proof.
  intros Hst. unfold round_robin. apply drain_bind; [apply round_robin_turn_drains|]. intros _. apply drain_bind; [apply drain_get|]. intros s.
  cbv zeta. destruct (round_robin_end_read start single s Hst) as [le ->].
  apply drain_bind; [|intros _]; apply drain_when; (intros s1 Hs1; lstep; apply runs_lift; cbn [returns]; by apply drain_when; [apply drain_upd_cb|]).
Qed.

Lemma check_send_drains cid p s : unserved s ->
  runs (l2c_link_check_send_pkts cid p) s (fun _ s' => drains (match p with Some b => [bh_payload b] | None => [] end) s s').
Proof.
  intros Hs. unfold l2c_link_check_send_pkts. lstep. eapply (runs_mono _ _ (fun _ s1 => drains (match p with Some b => [bh_payload b] | None => [] end) s s1)).
  - destruct p as [b|]; [|by apply drain_skip]. lstep. lstep. lstep. lstep. set (s1 := s <| lcb ::= _ |>).
    assert (D1 : drains [bh_payload b] s s1) by (constructor; [done..|]; exists []; split_and!; [done|constructor|]; unfold s1; cbn [lcb set set_lcb set_link_xmit_data_q link_xmit_data_q]; by rewrite map_app).
    eapply runs_mono; [apply drain_when; [apply drain_upd_cb|by eapply drains_unserved]|]. cbv beta. intros _ s2 D2.
    by apply (drains_trans [bh_payload b] [] s s1).
  - cbv beta. intros _ s1 D1. cbv zeta. set (single := match p with Some _ => nz cid | None => false end). generalize single. clear single. intros single.
    match goal with |- runs ?m s1 _ => enough (Hm : drain_only m) end.
    { eapply runs_mono; [by eapply Hm, drains_unserved|]. cbv beta. intros x s2 D2.
      rewrite <- (app_nil_r (match p with Some _ => _ | None => _ end)). by apply (drains_trans _ [] s s1). }
    clear. intros s Hs.
    lstep. lstep. destruct (Z.eqb_spec (link_xmit_quota (lcb s)) 0); [apply round_robin_drains; [by apply rr_start; [apply Hs|]|done]|]. lstep. lstep. destruct (_ || _); [by apply drain_skip|].
    apply drain_bind; [apply serve_link_drains| |done]. intros _. apply drain_bind; [apply drain_get|]. intros s1.
    apply drain_bind; [apply drain_when, serve_channel_drains|]. intros _. apply drain_bind; [apply drain_get_link|]. intros l.
    apply drain_when, counts_drain_only. intros s2. lstep. split; [|done]. split_and!; auto.
Qed.

Lemma packets_completed_drains n : drain_only (l2c_packets_completed n).
Proof.
  unfold l2c_packets_completed. apply drain_bind; [apply counts_drain_only; intros s; lstep; split; [split_and!; try done; by left|done]|].
  intros _. apply drain_bind; [apply drain_get_link|]. intros l. cbv zeta. apply drain_bind; [destruct (lcb_le l); apply drain_upd_cb|].
  intros _. apply drain_bind; [intros s Hs; by apply (check_send_drains 0 None)|]. intros _ s Hs. lstep. lstep. lstep. lstep. cbv zeta.
  rewrite (rr_not_high (lcb s)) by apply Hs. by apply drain_skip.
Qed.
End Link.
