(* ===== verification/L2cAck.v ===== *)
(** * L2cAck: acknowledgements and retransmission

    What an acknowledgement or a request for retransmission from the peer does to the sender of a
    channel in enhanced retransmission mode. *)

From Stdlib Require Import ZArith Lia.
From stdpp Require Import base list.
From S2P Require Import Prelude Osi L2cDefs L2cFcr L2cCrc L2cRun L2cInv L2cTx L2cLink.

(** The operation either goes on, or has closed the channel. *)
Definition sends_or_closes (m : L bool) : Prop :=
  forall s X U, ready s -> tx_inv X U s -> runs m s (fun ok s' => if ok then tx_moves X U s s' else tx_closes X U s s').

(** Everything the invariant of the sender is about but the frames not acknowledged. *)
Definition rest_part (s : l2c) :=
  let f := fcrb (ccb s) in
  (xmit_hold_q (ccb s), retrans_q f, last_rx_ack f, next_tx_seq f, ack_timer f, mon_retrans_timer f, link_xmit_data_q (lcb s), outs s).

(** How many frames the acknowledgement in a control word is for. *)
Definition num_acked (w : Z) (s : l2c) : Z := (ctrl_req w - last_rx_ack (fcrb (ccb s))) .& L2CAP_FCR_SEQ_MODULO.

(** The acknowledgement in [w] moves the first frame not acknowledged to [b], or is not for any frame. *)
Definition acked_to (X : sender) (w : Z) (b : nat) : Prop :=
  b = sd_base X \/ (sd_base X <= b < sd_base X + 64)%nat /\ seq_of b = ctrl_req w.

(** A selective reject without the poll bit acknowledges nothing. *)
Definition plain_srej (w : Z) : bool :=
  nz (w .& L2CAP_FCR_S_FRAME_BIT) && (w .& L2CAP_FCR_SUP_BITS =? (L2CAP_FCR_SUP_SREJ .<< L2CAP_FCR_SUP_SHIFT)) &&
  (w .& L2CAP_FCR_P_BIT =? 0).

(** The state once the frames are released. *)
Definition acked (w : Z) (sent : list BT_HDR) (s s' : l2c) : Prop :=
  waiting_for_ack_q (fcrb (ccb s')) = Some (drop (Z.to_nat (num_acked w s)) sent) /\ last_rx_ack (fcrb (ccb s')) = ctrl_req w /\
  keeps s s' /\ xmit_hold_q (ccb s') = xmit_hold_q (ccb s) /\ retrans_q (fcrb (ccb s')) = retrans_q (fcrb (ccb s)) /\
  next_tx_seq (fcrb (ccb s')) = next_tx_seq (fcrb (ccb s)) /\ link_xmit_data_q (lcb s') = link_xmit_data_q (lcb s) /\ timers_ok s' /\
  exists new, outs s' = new ++ outs s /\ Forall mere_call new.

Section Link.
Context `{LE : LinkEnv}.

(** * Lemmas *)

(** ** Retransmission *)

Lemma sent_recent X s sent b : waiting_for_ack_q (fcrb (ccb s)) = Some sent -> sent_inv X s -> In b sent -> recent_frame (sd_frames X) s b.
Proof.
  intros E (sent' & E' & Hl & Hw & _ & Hs) Hb. rewrite E in E'. injection E' as <-.
  apply list_elem_of_In, list_elem_of_lookup in Hb as [i Hi]. destruct (Hs i b Hi) as (fr & Hf & Hsf).
  exists (sd_base X + i)%nat, fr. split; [done|]. split; [|done]. lia.
Qed.

Lemma clone_frame cid j fr b : sent_frame cid j fr b ->
  exists b', l2c_fcr_clone_buf b (bh_offset b) (bh_len b) = Ok b' /\
    sent_frame cid j fr (b' <| bh_layer_specific := bh_layer_specific b |>) /\ bh_payload b' = bh_payload b.
Proof.
  intros (pre & l & w & post & Hb & Hpre & Hpost & Hn & Hl). set (body := le16 l ++ le16 cid ++ le16 w ++ fr_info fr) in *.
  assert (Hlen : length body = (6 + length (fr_info fr))%nat) by done.
  pose proof (holds_len _ _ _ _ Hb) as El. pose proof (holds_offset _ _ _ _ Hb) as Eo. rewrite Hpre in Eo.
  destruct (clone_buf_spec b pre body [] post (bh_offset b) (bh_len b)) as (b' & E & Hb'); [by rewrite app_nil_r|done|lia| |].
  { unfold sizeof_BT_HDR, L2CAP_FCS_LEN. lia. }
  exists b'. split; [done|]. rewrite Eo in Hb'. split; [|by rewrite (holds_payload _ _ _ _ Hb), (holds_payload _ _ _ _ Hb')].
  exists (replicate 4 0), l, w, [0; 0]. split_and!; try done. by apply (holds_same b').
Qed.

Lemma requeue_spec one l s X U : ready s -> tx_inv X U s -> Forall (recent_frame (sd_frames X) s) l ->
  runs (requeue one l) s (fun _ s' => tx_inv X U s' /\ keeps s s' /\ outs s' = outs s /\
    exists l', queue_elems (retrans_q (fcrb (ccb s'))) = queue_elems (retrans_q (fcrb (ccb s))) ++ l' /\
      map bh_payload l' = map bh_payload (if one then take 1 l else l)).
Proof.
  revert s. induction l as [|b l IH]; intros s Hr Ht Hl; cbn [requeue].
  { lstep. split_and!; try done. exists []. rewrite app_nil_r. by destruct one. }
  inv_Forall. match goal with R : recent_frame _ s b |- _ => destruct R as (j & fr & Hj & Hjw & Hb) end.
  destruct (clone_frame _ j fr b Hb) as (b' & E & Hb' & Ep). lstep. apply runs_lift. rewrite E. cbn [returns]. lstep. lstep.
  destruct Ht as [Hh Hs (retr & Er & Hre) Hn Hse Hti Hk]. lstep. apply runs_lift. rewrite Er. cbn [fixed_queue_enqueue returns]. lstep. lstep.
  match goal with |- runs _ ?x _ => set (s1 := x) end. set (b2 := b' <| bh_layer_specific := _ |>) in *.
  assert (Ht1 : tx_inv X U s1).
  { constructor; [done..| |done|done|done|done]. exists (retr ++ [b2]). split; [done|]. apply Forall_app. split; [done|].
    constructor; [|constructor]. by exists j, fr. }
  destruct one.
  - lstep. split_and!; try done. exists [b2]. split; [done|]. cbn [map take]. f_equal. exact Ep.
  - eapply runs_mono; [apply (IH s1); [by apply (keeps_ready s)|done|done]|]. cbv beta. intros _ s2 (Ht2 & K2 & Eo2 & l' & El & Em).
    split_and!; try done. exists (b2 :: l'). split; [rewrite El; change (queue_elems (retrans_q (fcrb (ccb s1)))) with (retr ++ [b2]); by rewrite <- app_assoc|].
    cbn [map]. f_equal; [exact Ep|exact Em].
Qed.

(** The frames from the one asked for on. *)
Lemma find_seq_spec cid seq l : Forall (fun b => exists j fr, sent_frame cid j fr b) l ->
  exists l', find_seq seq l = Ok l' /\ l' `suffix_of` l.
Proof.
  induction 1 as [|b l Hb _ IH]; [by exists []|]. cbn [find_seq]. destruct Hb as (j & fr & pre & x & w & post & [Ed Eo El] & Hpre & _ & Hn & _).
  rewrite (read16_app _ (pre ++ le16 x ++ le16 cid) w (fr_info fr ++ post) _ _ eq_refl); [|by rewrite Ed, <- !app_assoc|apply Hn|].
  2:{ rewrite Eo, !length_app, Hpre. done. }
  cbn [mbind outcome_bind]. destruct (_ =? _).
  - by exists (b :: l).
  - destruct IH as (l' & -> & Hs). exists l'. split; [done|]. by apply suffix_cons_r.
Qed.

Lemma chain_filter {A} (P : A -> nat -> Prop) g l rs a b : Forall2 P l rs -> chain a rs b ->
  exists rs', Forall2 P (List.filter g l) rs' /\ chain a rs' b.
Proof.
  intros Hl. revert a. induction Hl as [|x r l rs Hx _ IH]; intros a Hc; [by exists []|]. cbn [List.filter chain] in *. destruct Hc as [Ha Hc].
  destruct (g x).
  - destruct (IH r Hc) as (rs' & H1 & H2). exists (r :: rs'). split; [by constructor|done].
  - apply (IH a). by eapply chain_weaken.
Qed.

(** The queues before frames are sent again: all of them, or those from a certain one on. *)
Lemma filter_inv X U s g : tx_inv X U s ->
  let s' := s <| lcb ::= fun l => l <| link_xmit_data_q ::= List.filter g |> |>
              <| ccb ::= fun c => c <| fcrb ::= fun f => f <| retrans_q ::= fun q => match q with Some _ => Some [] | None => None end |> |> |> in
  tx_inv X U s' /\ keeps s s' /\ outs s' = outs s.
Proof.
  intros [Hh Hs (retr & Er & Hre) Hn Hse Hti (rs & Hl & Hc)] s'. split; [|done]. constructor; try done.
  - exists []. split; [|done]. unfold s'. cbn. by rewrite Er.
  - apply Forall2_map_l in Hl. destruct (chain_filter _ g _ _ _ _ Hl Hc) as (rs' & Hl' & Hc').
    exists rs'. split; [by apply Forall2_map_l|done].
Qed.

Lemma suffix_Forall {A} (P : A -> Prop) l' l : l' `suffix_of` l -> Forall P l -> Forall P l'.
Proof. intros [k ->]. rewrite Forall_app. by intros [_ ?]. Qed.

Lemma retransmit_spec seq : sends_or_closes (retransmit_i_frames seq).
Proof.
  intros s X U Hr Ht. unfold retransmit_i_frames. lstep. lstep. pose proof Hr as [[] _].
  destruct (_ && _ && _). { lstep. eapply runs_mono; [by eapply disconnect_closes|]. cbv beta. intros _ s1 Hc. by lstep. }
  destruct (negb _ && negb _) eqn:E0. { lstep. by apply tx_moves_refl. }
  pose proof Ht as [_ Hs _ _ _ _ _]. pose proof Hs as (sent & Es & _). lstep.
  match goal with |- runs _ _ ?Q => enough (Hk : forall l s1, tx_inv X U s1 -> keeps s s1 -> outs s1 = outs s -> Forall (recent_frame (sd_frames X) s) l -> Q l s1) end.
  - assert (Hrec : Forall (recent_frame (sd_frames X) s) sent) by (apply Stdlib.Lists.List.Forall_forall; intros b; by eapply sent_recent).
    rewrite Es. cbn [queue_elems]. destruct (seq =? L2C_FCR_RETX_ALL_PKTS).
    + lstep. apply runs_upd_lcb; [done|]. lstep. lstep. lstep. match goal with |- context [List.filter ?g] => destruct (filter_inv X U s g Ht) as (T1 & K1 & O1) end. by apply Hk.
    + apply runs_lift. destruct (find_seq_spec (remote_cid (ccb s)) seq sent) as (l & -> & Hl).
      { eapply Forall_impl; [|exact Hrec]. intros b (j & fr & _ & _ & Hb). eauto. }
      cbn [returns]. apply Hk; try done. by eapply suffix_Forall.
  - intros l s1 Ht1 K1 Eo1 Hl. lstep. assert (Hr1 : ready s1) by by eapply keeps_ready.
    destruct (keeps_win _ _ K1) as [Ew _]. destruct (fixed_inv _ _ (proj1 K1)) as (_&_&_&_&Er&_).
    eapply runs_mono; [apply (requeue_spec _ l s1 X U Hr1 Ht1)|].
    { eapply Forall_impl; [|exact Hl]. unfold recent_frame. by rewrite Ew, Er. }
    cbv beta. intros _ s2 (Ht2 & K2 & Eo2 & _). assert (M2 : tx_moves X U s s2).
    { exists X. split_and!; try done; [by etrans|]. apply outputs_refl; [congruence|done|done]. }
    lstep. eapply runs_mono; [apply (sends_from _ X U s s2 Hr M2), ccb_check_send_sends|]. cbv beta. intros _ s3 M3.
    lstep. lstep. lstep. eapply runs_mono; [apply (sends_from _ X U s s3 Hr M3), sends_when|cbv beta; intros _ s4 M4; by lstep].
    apply sends_bind; [by apply flags_sends|]. intros _. apply start_timer_sends.
Qed.

(** ** Acknowledgements *)

Lemma release_acked_spec n k s sent : waiting_for_ack_q (fcrb (ccb s)) = Some sent -> (n <= length sent)%nat ->
  runs (release_acked n k) s (fun _ s' => waiting_for_ack_q (fcrb (ccb s')) = Some (drop n sent) /\ keeps s s' /\ rest_part s' = rest_part s).
Proof.
  revert k s sent. induction n as [|n IH]; intros k s sent Es Hn; cbn [release_acked]; [by lstep|].
  lstep. lstep. rewrite Es. destruct sent as [|b sent]; [by cbn in Hn; lia|]. cbn [fixed_queue_try_dequeue]. lstep. lstep.
  eapply runs_mono; [apply (IH _ _ sent); [done|cbn in Hn; lia]|]. cbv beta. intros _ s' (E1 & K & E2). done.
Qed.

Lemma restart_sends : sends restart_if_waiting.
Proof. intros s X U Hr Ht. unfold restart_if_waiting. lstep. lstep. by apply sends_when; [apply start_timer_sends|..]. Qed.

Lemma ctrl_req_range w : 0 <= ctrl_req w < 64.
Proof.
  unfold ctrl_req, L2CAP_FCR_REQ_SEQ_BITS, L2CAP_FCR_REQ_SEQ_BITS_SHIFT. rewrite Z.shiftr_land. change (0x3F00 .>> 8) with (Z.ones 6).
  rewrite Z.land_ones by lia. apply Z.mod_pos_bound. lia.
Qed.

(** The acknowledgement moves the window by as many frames as it is for. *)
Lemma acked_sent X s s' w sent : sent_inv X s -> waiting_for_ack_q (fcrb (ccb s)) = Some sent ->
  num_acked w s <= Z.of_nat (length sent) -> waiting_for_ack_q (fcrb (ccb s')) = Some (drop (Z.to_nat (num_acked w s)) sent) ->
  last_rx_ack (fcrb (ccb s')) = ctrl_req w -> keeps s s' ->
  let b := (sd_base X + Z.to_nat (num_acked w s))%nat in sent_inv (with_base X b) s' /\ acked_to X w b.
Proof.
  intros (sent' & E & Hl & Hw & Ha & Hs) Es Hn Es' Ea K. rewrite Es in E. injection E as <-.
  destruct (keeps_win _ _ K) as [Ew _]. destruct (fixed_inv _ _ (proj1 K)) as (_&_&_&_&Er&_).
  unfold num_acked in *. rewrite seq_mask in *. rewrite Ha in *.
  set (m := (ctrl_req w - seq_of (sd_base X)) mod 64) in *. assert (Hm : 0 <= m < 64) by (apply Z.mod_pos_bound; lia).
  assert (Hb : seq_of (sd_base X + Z.to_nat m) = ctrl_req w).
  { pose proof (ctrl_req_range w). rewrite <- (Z.mod_small (ctrl_req w) 64) by done. unfold m, seq_of in *.
    rewrite Nat2Z.inj_add, Z2Nat.id by lia. rewrite Zplus_mod_idemp_r, <- (Zplus_mod_idemp_l (Z.of_nat _)). f_equal. lia. }
  split; [|right; split; [lia|done]].
  exists (drop (Z.to_nat m) sent). cbn [with_base sd_base sd_frames]. rewrite Es', Ea, Ew, Er, length_drop.
  split; [done|]. split; [lia|]. split; [lia|]. split; [done|].
  intros i x Hx. rewrite lookup_drop in Hx. destruct (Hs _ x Hx) as (fr & Hf & Hsf). exists fr. by rewrite <- Nat.add_assoc.
Qed.

Lemma acked_quiet w sent s s1 s2 : acked w sent s s1 -> quiet s1 s2 -> acked w sent s s2.
Proof.
  intros (E1 & E2 & K & E3 & E4 & E5 & E6 & _ & new & Eo & Hn) (K' & Et & En & Eo' & Ht). unfold tx_part in Et. injection Et as Q1 Q2 Q3 Q4 Q5.
  split_and!; try congruence; [by etrans|]. exists new. by rewrite Eo', Eo.
Qed.

Lemma acked_moves w sent s s' X U : tx_inv X U s -> waiting_for_ack_q (fcrb (ccb s)) = Some sent -> num_acked w s <= Z.of_nat (length sent) ->
  acked w sent s s' -> exists b, acked_to X w b /\ tx_moves (with_base X b) U s s'.
Proof.
  intros [Hh Hs Hre Hn Hse Hti Hk] Es Hle (E1 & E2 & K & E3 & E4 & E5 & E6 & T & new & Eo & Hm).
  destruct (keeps_win _ _ K) as [Ew _]. destruct (fixed_inv _ _ (proj1 K)) as (_&_&_&_&Er&_). destruct (keeps_rx _ _ K) as (En&_).
  destruct (acked_sent X s s' w sent Hs Es Hle E1 E2 K) as [Hs' Hb]. eexists. split; [exact Hb|].
  eexists. split; [|split; [done|split; [done|split; [done|]]]].
  - constructor; [|exact Hs'|..|done|]; unfold held_inv, retr_inv, recent_frame, link_inv, link_left in *; cbn [with_base sd_frames sd_seen sd_ack];
      by rewrite ?E3, ?E4, ?E5, ?E6, ?Ew, ?Er, ?En.
  - exists new. split; [done|]. apply emits_same; eapply Forall_impl; [|done]; by intros [].
Qed.

Lemma restart_quiet s : timers_ok s -> runs restart_if_waiting s (fun _ s' => quiet s s').
Proof. intros Ht. unfold restart_if_waiting. lstep. lstep. apply runs_when; intros _; [by apply start_timer_spec|done]. Qed.

Lemma process_reqseq_spec w s X U sent : ready s -> tx_inv X U s -> waiting_for_ack_q (fcrb (ccb s)) = Some sent ->
  runs (process_reqseq w) s (fun ok s' =>
    if ok then (exists b, acked_to X w b /\ tx_moves (with_base X b) U s s') /\ waiting_for_ack_q (fcrb (ccb s')) = Some (drop (if plain_srej w then 0 else Z.to_nat (num_acked w s)) sent)
    else tx_closes X U s s' /\ Z.of_nat (length sent) < num_acked w s).
Proof.
  intros Hr Ht Es. unfold process_reqseq. fold (plain_srej w). destruct (plain_srej w).
  { lstep. eapply runs_mono; [apply restart_quiet; apply Ht|]. cbv beta. intros _ s' Q. lstep. split.
    { exists (sd_base X). split; [by left|]. apply quiet_moves; [done|]. by destruct X. }
    destruct Q as (_ & Et & _). unfold tx_part in Et. injection Et as _ E _ _ _. by rewrite E, Es. }
  lstep. lstep. fold (ctrl_req w). fold (num_acked w s). rewrite Es. cbn [fixed_queue_length].
  destruct (Z.ltb_spec (Z.of_nat (length sent)) (num_acked w s)) as [Hlt|Hge].
  { lstep. eapply runs_mono; [by eapply disconnect_closes|]. cbv beta. intros _ s' Hc. by lstep. }
  lstep. lstep. lstep. match goal with |- runs _ ?x ?Q => set (s1 := x); enough (Hk : forall s2, acked w sent s s2 -> Q tt s2) end.
  - apply runs_when; intros Hz; cycle 1.
    { apply nz_false in Hz. apply Hk. split_and!; try done; [by rewrite Hz|apply Ht|by exists []]. }
    lstep. lstep. lstep. eapply runs_mono; [apply (release_acked_spec _ 0 _ sent); [done|lia]|]. cbv beta.
    intros n s2 (Ew & K2 & E2). unfold rest_part in E2. injection E2 as Q1 Q2 Q3 Q4 Q5 Q6 Q7 Q8. destruct (tx_timers _ _ _ Ht) as [Ta Tm].
    assert (A2 : acked w sent s s2) by (split_and!; try done; [split; congruence|by exists []]).
    lstep. lstep. lstep. eapply runs_mono.
    { apply runs_when; intros _; [apply stop_timer_spec; apply A2|]. apply quiet_refl. apply A2. }
    cbv beta. intros _ s3 Q. assert (A3 : acked w sent s s3) by by eapply acked_quiet.
    lstep. lstep. apply runs_when; intros _; [|by apply Hk]. lstep. apply Hk.
    destruct A3 as (? & ? & ? & ? & ? & ? & ? & ? & new & Eo & Hm). split_and!; try done. eexists (_ :: new). split; [cbn; by rewrite Eo|by constructor].
  - intros s2 A2. lstep. eapply runs_mono; [apply restart_quiet; apply A2|]. cbv beta. intros _ s3 Q. lstep.
    assert (A3 : acked w sent s s3) by by eapply acked_quiet. split; [by eapply acked_moves|apply A3].
Qed.
End Link.
