(* ===== verification/L2cSar.v ===== *)
(** * L2cSar: reassembly in enhanced retransmission mode

    The code that puts SDUs together from the segments accepted is the reassembly of the frames. *)

From Stdlib Require Import ZArith Lia.
From stdpp Require Import base list.
From S2P Require Import Prelude Osi L2cDefs L2cFcr L2cCrc L2cRun L2cInv L2cTx.

(** An output that is not a packet. *)
Definition no_acl (o : l2c_out) : Prop := match o with OAcl _ => False | _ => True end.

(** Nothing but the SDU under way and the outputs changes. *)
Definition sar_only (s s' : l2c) : Prop :=
  fixed_part s' = fixed_part s /\ tx_part s' = tx_part s /\ next_tx_seq (fcrb (ccb s')) = next_tx_seq (fcrb (ccb s)) /\
  (timers_ok s -> timers_ok s') /\ next_seq_expected (fcrb (ccb s')) = next_seq_expected (fcrb (ccb s)) /\
  srej_sent (fcrb (ccb s')) = srej_sent (fcrb (ccb s)) /\ srej_rcv_hold_q (fcrb (ccb s')) = srej_rcv_hold_q (fcrb (ccb s)) /\
  exists new, outs s' = new ++ outs s /\ Forall no_acl new.

(** The segment of frame [fr] leads the reassembly, with [cur] under way in [s], to [s']; or it is refused. *)
Definition sar_takes (cur : option (Z * list Z)) (fr : frame) (s : l2c) (ok : bool) (s' : l2c) : Prop :=
  sar_only s s' /\
  if ok then exists cur', sar_step (delivered (outs s), cur) fr = Some (delivered (outs s'), cur') /\
    sdu_buf cur' (p_rx_sdu (fcrb (ccb s'))) (rx_sdu_len (fcrb (ccb s')))
  else delivered (outs s') = delivered (outs s).

(** The part of [sar_step] for a segment of an SDU under way. *)
Definition seg_step (sdus : list (list Z)) (len : Z) (got d : list Z) (sar : Z) : option sar_state :=
  if len <? Z.of_nat (length (got ++ d)) then None
  else if sar =? L2CAP_FCR_END_SDU then if Z.of_nat (length (got ++ d)) =? len then Some (sdus ++ [got ++ d], None) else None
  else Some (sdus, Some (len, got ++ d)).

Section Link.
Context `{LE : LinkEnv}.

(** * Lemmas *)

Lemma sar_only_upd s g : 
  (forall f, next_seq_expected (g f) = next_seq_expected f /\ srej_sent (g f) = srej_sent f /\ srej_rcv_hold_q (g f) = srej_rcv_hold_q f /\
     waiting_for_ack_q (g f) = waiting_for_ack_q f /\ retrans_q (g f) = retrans_q f /\ last_rx_ack (g f) = last_rx_ack f /\
     next_tx_seq (g f) = next_tx_seq f /\ ack_timer (g f) = ack_timer f /\ mon_retrans_timer (g f) = mon_retrans_timer f) ->
  sar_only s (s <| ccb ::= fun c => c <| fcrb ::= g |> |>).
Proof.
  intros Hg. destruct (Hg (fcrb (ccb s))) as (E1&E2&E3&E4&E5&E6&E7&E8&E9).
  unfold sar_only, fixed_part, tx_part, timers_ok. cbn [ccb lcb outs fcrb set set_ccb set_fcrb in_use chnl_state has_lcb local_cid remote_cid p_rcb
    our_cfg peer_cfg tx_mps max_rx_mtu xmit_hold_q]. rewrite E1, E2, E3, E4, E5, E6, E7, E8, E9. split_and!; try done. by exists [].
Qed.

Lemma sar_only_trans s1 s2 s3 : sar_only s1 s2 -> sar_only s2 s3 -> sar_only s1 s3.
Proof.
  intros (A1&A2&A3&A4&A5&A6&A7&n1&A8&A9) (B1&B2&B3&B4&B5&B6&B7&n2&B8&B9). split_and!; try congruence; [auto|].
  exists (n2 ++ n1). split; [by rewrite B8, A8, app_assoc|by apply Forall_app].
Qed.

Lemma deliver_sdu_spec p s Q : open_ertm s -> Q tt (s <| outs ::= cons (ODataInd (local_cid (ccb s)) p) |>) -> runs (deliver_sdu p) s Q.
Proof.
  intros [] HQ. unfold deliver_sdu. lstep. lstep. destruct (Z.ltb_spec (local_cid (ccb s)) L2CAP_BASE_APPL_CID); [lia|]. cbn [andb].
  unfold l2c_csm_data. lstep. lstep. rewrite oe_in_use, oe_open. cbn [negb]. destruct oe_rcb as (r & -> & ->). lstep. by lstep.
Qed.

Lemma deliver_only s p : sar_only s (s <| outs ::= cons (ODataInd (local_cid (ccb s)) p) |>).
Proof. split_and!; try done. by eexists [_]; split; [done|repeat constructor]. Qed.

(** Bytes are added to the SDU under way. *)
Lemma append_bytes sdu pre got d x post : holds sdu pre got (x ++ post) -> length x = length d -> Z.of_nat (length got + length d) < 65536 ->
  exists sdu', bh_write sdu (bh_offset sdu + bh_len sdu) d = Ok sdu' /\
    holds (sdu' <| bh_len ::= fun n => u16 (n + Z.of_nat (length d)) |>) pre (got ++ d) post.
Proof.
  intros [Ed Eo El] Hx Hl. eexists. split.
  - apply (bh_write_mid sdu (pre ++ got) x d post); [by rewrite Ed, <- !app_assoc|done|rewrite Eo, El, length_app; lia].
  - constructor; bh_cbn; [by rewrite <- !app_assoc|done|]. rewrite El, u16_id, length_app; unfold is_u16; lia.
Qed.

Lemma append_segment_spec p pre d post s len got sar :
  open_ertm s -> holds p pre d post -> sdu_buf (Some (len, got)) (p_rx_sdu (fcrb (ccb s))) (rx_sdu_len (fcrb (ccb s))) ->
  runs (append_segment p sar) s (fun ok s' => sar_only s s' /\
    if ok then exists cur', seg_step (delivered (outs s)) len got d sar = Some (delivered (outs s'), cur') /\
      sdu_buf cur' (p_rx_sdu (fcrb (ccb s'))) (rx_sdu_len (fcrb (ccb s')))
    else delivered (outs s') = delivered (outs s)).
Proof.
  intros Ho Hp Hs. unfold append_segment. lstep. lstep. destruct (p_rx_sdu (fcrb (ccb s))) as [sdu|] eqn:Ep; [|done].
  destruct Hs as (Elen & Hlen & ps & px & Hsdu & Hpx). rewrite <- Elen. pose proof (holds_len _ _ _ _ Hp) as El. pose proof (holds_len _ _ _ _ Hsdu) as Es.
  assert (Hsame : sar_only s s) by (split_and!; try done; by exists []).
  unfold seg_step. rewrite El, Es, !length_app, <- Nat2Z.inj_add. unfold is_u16 in Hlen.
  destruct (Z.ltb_spec len (Z.of_nat (length got + length d))); [by lstep|].
  destruct (sar =? L2CAP_FCR_END_SDU) eqn:Esar; cbn [andb].
  1: destruct (Z.eqb_spec (Z.of_nat (length got + length d)) len); cbn [negb]; [|by lstep].
  all: lstep; apply runs_lift; rewrite (bh_read_bytes_mid p pre d post) by (done || apply Hp); cbn [returns];
    destruct (split_at px (length d)) as (x & px' & -> & Hx); [lia|];
    destruct (append_bytes sdu ps got d x px' Hsdu Hx) as (sdu' & Ew & Hsdu'); [lia|];
    rewrite length_app in Hpx; lstep; apply runs_lift; rewrite <- Es, Ew; cbn [returns]; lstep; lstep.
  - lstep. apply deliver_sdu_spec; [by apply (fixed_open s)|]. lstep. split.
    + apply (sar_only_trans s (s <| ccb ::= fun c => c <| fcrb ::= fun f => f <| p_rx_sdu := None |> |> |>)); [by apply sar_only_upd|].
      apply deliver_only.
    + exists None. cbn. by rewrite (holds_payload _ _ _ _ Hsdu').
  - lstep. split; [by apply sar_only_upd|]. exists (Some (len, got ++ d)). split; [done|]. cbn.
    split; [done|]. split; [done|]. exists ps, px'. split; [done|]. rewrite length_app. lia.
Qed.

Lemma sar_refused cur fr s : sar_takes cur fr s false s.
Proof. split; [|done]. split_and!; try done. by exists []. Qed.

(** The first segment of an SDU. *)
Lemma start_segment_spec p pre post fr s b0 b1 d :
  open_ertm s -> holds p pre (fr_info fr) post -> fr_info fr = b0 :: b1 :: d -> Forall is_u8 (fr_info fr) -> fr_sar fr = L2CAP_FCR_START_SDU ->
  bh_offset p + 2 < 65536 -> bh_len p < 65536 -> p_rx_sdu (fcrb (ccb s)) = None ->
  runs ('(packet_ok, p_buf) ←
          (len ← lift (read16 p (bh_offset p));
           upd_fcrb (fun f => f <| rx_sdu_len := len |>);;
           let p_buf := p <| bh_offset ::= fun n => u16 (n + 2) |> <| bh_len ::= fun n => u16 (n - 2) |> in
           if max_rx_mtu (ccb s) <? len then mret (false, p_buf)
           else
             upd_fcrb (fun f => f <| p_rx_sdu := Some ((osi_malloc (sizeof_BT_HDR + OBX_BUF_MIN_OFFSET + len))
                                                         <| bh_offset := OBX_BUF_MIN_OFFSET |> <| bh_len := 0 |>) |>);;
             mret (true, p_buf));
        if negb packet_ok then mret false else append_segment p_buf L2CAP_FCR_START_SDU) s (sar_takes None fr s).
Proof.
  intros Ho Hp Ei Hu8 Esar Hoff Hlen Ep. rewrite Ei in *. inv_Forall. destruct (le16_bytes b0 b1) as [Hw Ew]; [done|done|].
  set (len := b0 + (b1 .<< 8)) in *. pose proof Hp as [Ed Eo El]. lstep. lstep. apply runs_lift.
  rewrite (read16_app _ pre len (d ++ post) _ _ eq_refl); [|by rewrite Ed, Ew|done|done]. cbn [returns]. lstep. lstep.
  destruct (max_rx_mtu (ccb s) <? len). { lstep. cbn [negb]. lstep. split; [by apply sar_only_upd|done]. }
  lstep. lstep. lstep. cbn [negb]. match goal with |- runs _ ?x _ => set (s1 := x) end.
  assert (S1 : sar_only s s1).
  { eapply sar_only_trans; [|eapply sar_only_upd]; [|done]. by apply sar_only_upd. }
  assert (Hp1 : holds (p <| bh_offset ::= fun n => u16 (n + 2) |> <| bh_len ::= fun n => u16 (n - 2) |>) (pre ++ [b0; b1]) d post)
    by exact (holds_shift p pre [b0; b1] d post 2 Hp eq_refl Hoff Hlen).
  eapply runs_mono; [eapply (append_segment_spec _ _ d post s1 len []); [by apply (fixed_open s)|done|]|].
  - cbn [sdu_buf s1]. unfold is_u16 in *. split; [done|]. split; [done|]. exists (replicate 4 0), (replicate (Z.to_nat len) 0). split.
    + constructor; bh_cbn; [|done|done]. cbn [app osi_malloc bh_data]. rewrite <- replicate_add. f_equal. unfold sizeof_BT_HDR, OBX_BUF_MIN_OFFSET. lia.
    + rewrite length_replicate. cbn [length]. lia.
  - cbv beta. intros ok s2 [S2 Hr2]. split; [exact (sar_only_trans _ _ _ S1 S2)|]. destruct ok; [|exact Hr2]. destruct Hr2 as (cur' & Hst & Hb).
    exists cur'. split; [|done]. rewrite <- Hst. unfold sar_step, seg_step. rewrite Esar, Ei. cbn [app].
    change (L2CAP_FCR_START_SDU =? L2CAP_FCR_UNSEG_SDU) with false. change (L2CAP_FCR_START_SDU =? L2CAP_FCR_END_SDU) with false.
    rewrite Z.eqb_refl. fold len. by destruct (_ <? _).
Qed.

Lemma do_sar_spec p w pre post fr s cur :
  open_ertm s -> holds p pre (fr_info fr) post -> Forall is_u8 (fr_info fr) -> ctrl_sar w = fr_sar fr ->
  bh_offset p + 2 < 65536 -> bh_len p < 65536 ->
  sdu_buf cur (p_rx_sdu (fcrb (ccb s))) (rx_sdu_len (fcrb (ccb s))) ->
  runs (do_sar_reassembly p w) s (sar_takes cur fr s).
Proof.
  intros Ho Hp Hu8 Hsar Hoff Hlen Hcur. unfold do_sar_reassembly. lstep. lstep. fold (ctrl_sar w). rewrite Hsar.
  pose proof (holds_len _ _ _ _ Hp) as El.
  assert (Hnone : bool_decide (p_rx_sdu (fcrb (ccb s)) = None) = match cur with None => true | _ => false end).
  { destruct cur as [[]|], (p_rx_sdu _); try done. }
  rewrite Hnone. destruct (Z.eqb_spec (fr_sar fr) L2CAP_FCR_UNSEG_SDU) as [Eu|Nu]; cbn [orb].
  { rewrite Eu. change (L2CAP_FCR_UNSEG_SDU =? L2CAP_FCR_START_SDU) with false. cbn [andb negb].
    destruct cur; cbn [andb negb]; [lstep; apply sar_refused|]. lstep. apply deliver_sdu_spec; [done|]. lstep.
    split; [apply deliver_only|]. exists None. cbn. unfold sar_step. rewrite Eu. cbn. by rewrite (holds_payload _ _ _ _ Hp). }
  destruct (Z.eqb_spec (fr_sar fr) L2CAP_FCR_START_SDU) as [Es|Ns]; cbn [orb andb].
  { destruct cur as [|]; cbn [andb negb]; [lstep; apply sar_refused|].
    destruct (Z.ltb_spec (bh_len p) L2CAP_SDU_LEN_OVERHEAD); cbn [negb]; [lstep; apply sar_refused|].
    unfold L2CAP_SDU_LEN_OVERHEAD in *. destruct (fr_info fr) as [|b0 [|b1 d]] eqn:Ei; [by cbn in *; lia..|].
    rewrite Es. apply bool_decide_eq_true in Hnone. eapply start_segment_spec; try done; by rewrite Ei. }
  destruct cur as [[len got]|]; cbn [negb]; [|lstep; apply sar_refused].
  lstep. lstep. eapply runs_mono; [by eapply append_segment_spec|]. cbv beta. intros ok s' [S1 H1]. split; [done|].
  destruct ok; [|done]. destruct H1 as (cur' & Hst & Hb). exists cur'. split; [|done]. rewrite <- Hst. unfold sar_step, seg_step.
  destruct (Z.eqb_spec (fr_sar fr) L2CAP_FCR_UNSEG_SDU); [done|]. destruct (Z.eqb_spec (fr_sar fr) L2CAP_FCR_START_SDU); [done|]. done.
Qed.
End Link.
