(* ===== verification/L2cRx.v ===== *)
(** * L2cRx: the receiver of a channel in enhanced retransmission mode

    What a frame from the peer does: frames are accepted in the order of their numbers, early ones are
    held back, and the sender is served. *)

From Stdlib Require Import ZArith Lia.
From stdpp Require Import base list.
From S2P Require Import Prelude Osi L2cDefs L2cFcr L2cCrc L2cRun L2cInv L2cTx L2cLink L2cAck L2cSar.

(** An open channel: [X] is its sender, which has got the SDUs [U]; its receiver has accepted [G] and holds back [H]. *)
Record chan (X : sender) (U : list (list Z)) (G H : list frame) (s : l2c) : Prop := {
  ch_open : open_ertm s;
  ch_tx : tx_inv X U s;
  ch_rx : rx_inv G H s;
  ch_seen : sd_seen X = length G;
}.

(** The same between the arrival of a missing frame and the release of those held back. *)
Record chan_mid (X : sender) (U : list (list Z)) (G H : list frame) (s : l2c) : Prop := {
  cm_open : open_ertm s;
  cm_tx : tx_inv X U s;
  cm_core : rx_core G s;
  cm_hold : exists hq, srej_rcv_hold_q (fcrb (ccb s)) = Some hq /\ holds_back (length G) H hq;
  cm_srej : srej_sent (fcrb (ccb s)) = false;
  cm_window : Z.of_nat (length H) < our_win s;
  cm_seen : sd_seen X = length G;
}.

(** A step from [s] to [s'] that acknowledges no more frames of the sender. *)
Definition via (X X' : sender) (s s' : l2c) : Prop :=
  fixed_part s' = fixed_part s /\ sd_base X' = sd_base X /\ outputs X X' s s'.

Definition moves (X : sender) (U : list (list Z)) (G' H' : list frame) (s s' : l2c) : Prop :=
  exists X', chan X' U G' H' s' /\ via X X' s s'.
Definition moves_mid (X : sender) (U : list (list Z)) (G' H' : list frame) (s s' : l2c) : Prop :=
  exists X', chan_mid X' U G' H' s' /\ via X X' s s'.

(** The channel was closed when the frames [G'] had come in; what was delivered is what some of them complete. *)
Definition closes (X : sender) (U : list (list Z)) (G' : list frame) (s s' : l2c) : Prop :=
  exists X' G0 cur, releases s s' /\ G0 `prefix_of` G' /\ reassemble G0 = Some (delivered (outs s'), cur) /\ outputs X X' s s' /\
    sd_base X' = sd_base X /\ (sd_seen X' <= length G')%nat /\ tx_rest s U X' s'.

(** A frame with number [q]: it is dropped, held back, or taken together with those held back. *)
Inductive rx_next (G H : list frame) (q : Z) (fr : frame) : list frame -> list frame -> Prop :=
| rxn_drop : rx_next G H q fr G H
| rxn_hold : q = seq_of (S (length G) + length H) -> rx_next G H q fr G (H ++ [fr])
| rxn_take : q = seq_of (length G) -> rx_next G H q fr (G ++ fr :: H) [].

(** The buffer of a frame with control word [w], as it is passed on; the word in front may have had other flags. *)
Definition incoming (p : BT_HDR) (w : Z) (fr : frame) : Prop :=
  exists pre w0 post, holds p (pre ++ le16 w0) (fr_info fr) post /\ same_frame w0 w /\ is_u16 w0 /\ w0 .& L2CAP_FCR_S_FRAME_BIT = 0 /\
    ctrl_sar w = fr_sar fr /\ Forall is_u8 (fr_info fr) /\ Z.of_nat (length pre) + 4 + Z.of_nat (length (fr_info fr)) < 65536.

(** What processing an information frame with number [q] leads to. *)
Definition i_frame_done (X : sender) (U : list (list Z)) (G H : list frame) (fr : frame) (q : Z) (s s' : l2c) : Prop :=
  (q <> seq_of (length G) /\ exists H', (H' = H \/ H' = H ++ [fr] /\ q = seq_of (S (length G) + length H)) /\ moves X U G H' s s') \/
  (q = seq_of (length G) /\ (moves_mid X U (G ++ [fr]) H s s' \/ closes X U (G ++ [fr]) s s')) \/ closes X U G s s'.

Section Link.
Context `{LE : LinkEnv}.

(** * Lemmas *)

Lemma core_ready G s : open_ertm s -> rx_core G s -> ready s.
Proof. intros Ho [Hn _]. split; [done|]. rewrite Hn. apply seq_of_range. Qed.

Lemma chan_ready X U G H s : chan X U G H s -> ready s.
Proof. intros [Ho _ [Hc _ _ _] _]. by eapply core_ready. Qed.

Lemma via_refl X s : via X X s s.
Proof. split; [done|]. split; [done|by apply outputs_refl]. Qed.

Lemma via_trans X X1 X2 s s1 s2 : via X X1 s s1 -> via X1 X2 s1 s2 -> via X X2 s s2.
Proof. intros (E1 & B1 & O1) (E2 & B2 & O2). split; [congruence|]. split; [congruence|]. by eapply outputs_trans. Qed.

(** A step that is followed by another. *)
Lemma moves_after X X1 U G' H' s s1 s2 : via X X1 s s1 -> moves X1 U G' H' s1 s2 -> moves X U G' H' s s2.
Proof. intros V (X2 & C & V2). exists X2. split; [done|by eapply via_trans]. Qed.
Lemma mid_after X X1 U G' H' s s1 s2 : via X X1 s s1 -> moves_mid X1 U G' H' s1 s2 -> moves_mid X U G' H' s s2.
Proof. intros V (X2 & C & V2). exists X2. split; [done|by eapply via_trans]. Qed.
Lemma closes_after X X1 U G' s s1 s2 : via X X1 s s1 -> closes X1 U G' s1 s2 -> closes X U G' s s2.
Proof.
  intros (E & B & O) (X2 & G0 & cur & R & HG & D & O2 & B2 & S2 & L2). exists X2, G0, cur. split_and!; try done; [by eapply releases_after|by eapply outputs_trans|congruence|by eapply tx_rest_same].
Qed.

Lemma tx_moves_chan X U G H s s' : tx_moves X U s s' -> open_ertm s -> rx_inv G H s -> sd_seen X = length G -> moves X U G H s s'.
Proof.
  intros (X' & Ht & B & S' & K & O) Ho Hr Hs. exists X'. split; [|split; [apply K|done]].
  constructor; [by eapply keeps_open|done|by eapply keeps_rx_inv|congruence].
Qed.

Lemma sends_chan X U G H s s' : tx_moves X U s s' -> chan X U G H s -> moves X U G H s s'.
Proof. intros M []. by apply tx_moves_chan. Qed.

Lemma tx_moves_mid X U G H s s' : tx_moves X U s s' -> chan_mid X U G H s -> moves_mid X U G H s s'.
Proof.
  intros (X' & Ht & B & S' & K & O) [Ho _ Hc Hh Hs Hw Hse]. exists X'. split; [|split; [apply K|done]].
  destruct (keeps_rx _ _ K) as (E1&E2&E3&E4&E5&E6). destruct (keeps_win _ _ K) as [_ Ew].
  constructor; [by eapply keeps_open|done|by eapply keeps_core|by rewrite E3|by rewrite E2|by rewrite Ew|congruence].
Qed.

Lemma tx_closes_chan X U G s s' : tx_closes X U s s' -> rx_core G s -> sd_seen X = length G -> closes X U G s s'.
Proof.
  intros (X' & Hr & Ed & O & B & S' & Hl) [_ (cur & HG & _)] Hs. exists X', G, cur. split_and!; try done; [by rewrite Ed|lia].
Qed.

(** After a step of the channel an operation of the sender. *)
Lemma moves_sends {A} (m : L A) X U G H s s1 : moves X U G H s s1 -> sends m -> runs m s1 (fun _ s2 => moves X U G H s s2).
Proof.
  intros (X1 & C1 & V1) Hm. eapply runs_mono; [by apply (Hm s1 X1 U (chan_ready _ _ _ _ _ C1)), C1|]. cbv beta. intros a s2 M2.
  eapply moves_after; [done|]. by apply sends_chan.
Qed.

Lemma chan_refl X U G H s : chan X U G H s -> moves X U G H s s.
Proof. intros C. exists X. split; [done|apply via_refl]. Qed.

(** ** Frames out of sequence *)

Lemma seq_of_add a b : (seq_of a + Z.of_nat b) mod 64 = seq_of (a + b).
Proof. unfold seq_of. rewrite Zplus_mod_idemp_l. f_equal. lia. Qed.

(** The distance of a number from the one that is expected. *)
Lemma seq_dist q n : 0 <= q < 64 -> q = seq_of (n + Z.to_nat ((q - seq_of n) mod 64)).
Proof.
  intros Hq. rewrite <- seq_of_add, Z2Nat.id by (apply Z.mod_pos_bound; lia). rewrite Zplus_mod_idemp_r.
  rewrite <- (Z.mod_small q 64) at 1 by done. f_equal. lia.
Qed.

Lemma seq_dist_at n k : (k < 64)%nat -> (seq_of (n + k) - seq_of n) mod 64 = Z.of_nat k.
Proof.
  intros Hk. unfold seq_of. rewrite <- Zminus_mod. replace (Z.of_nat (n + k) - Z.of_nat n) with (Z.of_nat k) by lia.
  apply Z.mod_small. lia.
Qed.

Lemma ctrl_seq_range w : 0 <= ctrl_seq w < 64.
Proof.
  unfold ctrl_seq, L2CAP_FCR_TX_SEQ_BITS, L2CAP_FCR_TX_SEQ_BITS_SHIFT. rewrite Z.shiftr_land. change (0x7E .>> 1) with (Z.ones 6).
  rewrite Z.land_ones by lia. apply Z.mod_pos_bound. lia.
Qed.

Lemma incoming_names p w fr j : incoming p w fr -> ctrl_seq w = seq_of j -> held_frame j fr (p <| bh_layer_specific := ctrl_seq w |>).
Proof.
  intros (pre & w0 & post & Hp & (_ & Et & Es & Ea) & Hw & Ht & Hsar & Hu & Hl) Hq. exists pre, w0, post.
  split; [by apply (holds_same p)|]. split; [|done]. constructor; try done; congruence.
Qed.

Lemma holds_back_snoc n H hq fr b : holds_back n H hq -> held_frame (n + length H) fr b -> holds_back n (H ++ [fr]) (hq ++ [b]).
Proof.
  intros [El Hh] Hb. split; [by rewrite !length_app, El|]. intros i x f Hx Hf.
  apply lookup_app_Some in Hx as [Hx|[Hi Hx]].
  - apply (Hh i x f Hx). apply lookup_app_Some in Hf as [|[Hge _]]; [done|]. apply lookup_lt_Some in Hx. lia.
  - apply list_lookup_singleton_Some in Hx as [Hi0 <-]. rewrite lookup_app_r in Hf by lia.
    apply list_lookup_singleton_Some in Hf as [_ <-]. by replace i with (length H) by lia.
Qed.

(** A frame joins those held back. *)
Lemma hold_chan X U G H s fr b hq g : chan X U G H s -> srej_rcv_hold_q (fcrb (ccb s)) = Some hq ->
  held_frame (S (length G) + length H) fr b -> Z.of_nat (S (length H)) < our_win s ->
  (forall f, g f = f <| srej_rcv_hold_q := Some (hq ++ [b]) |> \/ g f = f <| srej_rcv_hold_q := Some (hq ++ [b]) |> <| srej_sent := true |>) ->
  srej_sent (g (fcrb (ccb s))) = true ->
  chan X U G (H ++ [fr]) (s <| ccb ::= fun c => c <| fcrb ::= g |> |>).
Proof.
  intros [Ho Ht [Hc (hq' & Eq & Hh) Hs Hw] Hse] Eh Hb Hlt Hg Hsr. rewrite Eh in Eq. injection Eq as <-. set (s' := s <| ccb ::= _ |>).
  assert (Eg := Hg (fcrb (ccb s))).
  assert (Ef : fixed_part s' = fixed_part s) by done.
  constructor; [by apply (fixed_open s)| | |done].
  - apply (tx_inv_same _ _ s); [done|..|done]; unfold s', tx_part, timers_ok; cbn [ccb fcrb lcb set set_ccb set_fcrb xmit_hold_q];
      destruct Eg as [-> | ->]; cbn; try done; apply Ht.
  - constructor.
    + destruct Hc as [Hn (cur & HG & Hb')]. constructor; unfold s'; cbn [ccb fcrb outs set set_ccb set_fcrb].
      * by destruct Eg as [-> | ->].
      * exists cur. split; [done|]. by destruct Eg as [-> | ->].
    + exists (hq ++ [b]). split; [unfold s'; cbn [ccb fcrb set set_ccb set_fcrb]; by destruct Eg as [-> | ->]|by apply holds_back_snoc].
    + unfold s'. cbn [ccb fcrb set set_ccb set_fcrb]. rewrite Hsr. symmetry. apply bool_decide_eq_true_2. by destruct H.
    + rewrite length_app. cbn [length]. change (our_win s') with (our_win s). lia.
Qed.

(** The frame held back last, if there is one. *)
Lemma last_held n H hq : holds_back n H hq -> H <> [] -> exists b, list.last hq = Some b /\ bh_layer_specific b = seq_of (n + (length H - 1)).
Proof.
  intros [El Hh] Hne. destruct H as [|fr H _] using rev_ind; [done|]. destruct hq as [|b hq _] using rev_ind; [by rewrite length_app in El; cbn in El; lia|].
  rewrite !length_app in *. cbn in El. exists b. split; [by rewrite last_snoc|].
  destruct (Hh (length H) b fr) as (_ & _ & _ & _ & _ & -> & _).
  - replace (length H) with (length hq) by lia. by rewrite list_lookup_middle.
  - by rewrite list_lookup_middle.
  - f_equal. cbn. lia.
Qed.

Lemma moves_here X U G' H' s s' : chan X U G' H' s' -> fixed_part s' = fixed_part s -> outs s' = outs s -> moves X U G' H' s s'.
Proof. intros C E Eo. exists X. split; [done|]. split; [done|]. split; [done|by apply outputs_refl]. Qed.

(** A change of flags that the invariant does not mention. *)
Lemma moves_flags X U G H s g : chan X U G H s -> quiet s (s <| ccb ::= fun c => c <| fcrb ::= g |> |>) ->
  moves X U G H s (s <| ccb ::= fun c => c <| fcrb ::= g |> |>).
Proof. intros C Q. apply sends_chan; [|done]. apply quiet_moves; [done|apply C]. Qed.

(** The number of a frame that is not expected but lies in the window. *)
Lemma next_held_number X U G H s q : chan X U G H s -> q = seq_of (S (length G) + length H) ->
  (q - seq_of (length G)) mod 64 < our_win s -> Z.of_nat (S (length H)) < our_win s.
Proof.
  intros [Ho _ [_ _ _ Hw] _] -> Hd. pose proof (oe_our_win _ Ho). rewrite Nat.add_succ_l, <- Nat.add_succ_r, seq_dist_at in Hd by lia. lia.
Qed.

Lemma out_of_sequence_spec X U G H s p w fr : chan X U G H s -> incoming p w fr -> ctrl_seq w <> next_seq_expected (fcrb (ccb s)) ->
  runs (out_of_sequence p (ctrl_seq w)) s (fun _ s' => exists H',
    (H' = H \/ H' = H ++ [fr] /\ ctrl_seq w = seq_of (S (length G) + length H)) /\ moves X U G H' s s').
Proof.
  intros C Hi Hne. pose proof C as [Ho Ht [[Hn _] (hq & Eh & Hh) Hs Hw] _]. unfold out_of_sequence. lstep. lstep.
  assert (Hsame : forall s', moves X U G H s s' -> exists H', (H' = H \/ H' = H ++ [fr] /\ ctrl_seq w = seq_of (S (length G) + length H)) /\ moves X U G H' s s')
    by (intros; exists H; auto).
  rewrite seq_mask, Hn in *. pose proof (seq_dist (ctrl_seq w) (length G) (ctrl_seq_range w)) as Hq.
  destruct (Z.leb_spec (tx_win_sz (cfg_fcr (our_cfg (ccb s)))) ((ctrl_seq w - seq_of (length G)) mod 64)); [lstep; by apply Hsame, chan_refl|].
  pose proof (fun E => next_held_number X U G H s _ C E ltac:(done)) as Hroom.
  pose proof (fun E => incoming_names p w fr (S (length G) + length H) Hi E) as Hheld. rewrite Hs, Eh.
  assert (Hd : 0 <= (ctrl_seq w - seq_of (length G)) mod 64 < 64) by (apply Z.mod_pos_bound; lia).
  destruct (bool_decide (H <> [])) eqn:EH.
  - apply bool_decide_eq_true in EH. destruct (last_held _ H hq Hh EH) as (b & Eb & Els). cbn [fixed_queue_try_peek_last]. rewrite Eb, Els, seq_of_succ.
    destruct (_ && _) eqn:E; [|lstep; by apply Hsame, moves_flags; [|repeat split; apply Ht]].
    apply andb_true_iff in E as [E1%Z.eqb_eq _].
    assert (Hnum : ctrl_seq w = seq_of (S (length G) + length H)) by (rewrite E1; f_equal; destruct H; [done|cbn; lia]).
    lstep. apply runs_lift. cbn [fixed_queue_enqueue returns]. lstep. exists (H ++ [fr]). split; [by right|].
    apply moves_here; [|done|done]. eapply hold_chan; [done|done|by apply Hheld|by apply Hroom|by left|done].
  - apply bool_decide_eq_false in EH. assert (H = []) as -> by (destruct H; [done|by destruct EH]).
    destruct (rej_sent _); [lstep; by apply Hsame, chan_refl|]. lstep.
    destruct (Z.ltb_spec 1 ((ctrl_seq w - seq_of (length G)) mod 64)).
    + lstep. lstep. eapply runs_mono.
      { apply (moves_sends _ X U G [] s); [by apply moves_flags; [|repeat split; apply Ht]|]. apply send_S_frame_sends; cbn; auto. }
      cbv beta. intros _ s1 M1. eapply runs_mono; [apply (moves_sends _ X U G [] s); [done|apply cancel_ack_timer_sends]|]. cbv beta. auto.
    + assert (Hnum : ctrl_seq w = seq_of (S (length G) + length (@nil frame))).
      { rewrite Hq. f_equal. cbn [length]. enough ((ctrl_seq w - seq_of (length G)) mod 64 <> 0) by lia. intros E0. apply Hne.
        rewrite Hq at 1. by rewrite E0, Nat.add_0_r. }
      lstep. apply runs_lift. cbn [fixed_queue_enqueue returns]. lstep. lstep. match goal with |- runs _ ?x _ => set (s1 := x) end.
      assert (M1 : moves X U G ([] ++ [fr]) s s1).
      { apply moves_here; [|done|done]. eapply hold_chan; [done|done|by apply Hheld|by apply Hroom|by right|done]. }
      eapply runs_mono; [apply (moves_sends _ _ _ _ _ _ _ M1); apply send_S_frame_sends; cbn; auto|]. cbv beta. intros _ s2 M2.
      eapply runs_mono; [apply (moves_sends _ _ _ _ _ _ _ M2); apply cancel_ack_timer_sends|]. cbv beta. intros _ s3 M3. eexists. by split; [right|].
Qed.

(** ** The acknowledgement of a frame *)

Lemma acknowledge_sends d : sends (acknowledge d).
Proof.
  intros s X U Hr Ht. unfold acknowledge. lstep. lstep. apply runs_when; intros _; [|by apply tx_moves_refl].
  destruct (_ || d).
  - destruct (alarm_is_scheduled _); [by apply tx_moves_refl|]. lstep. apply runs_lift. destruct (tx_timers _ _ _ Ht) as [Ha Hm].
    destruct (alarm_set_some _ L2CAP_FCR_ACK_TIMEOUT_MS Ha) as (a & -> & Ha'). cbn [returns]. lstep. by apply quiet_moves.
  - apply sends_when; [apply send_S_frame_sends; cbn; auto|done|done].
Qed.

(** ** Information frames *)

Lemma sar_only_outputs X X' s s' : sar_only s s' -> sd_frames X' = sd_frames X -> sd_ack X' = sd_ack X -> outputs X X' s s'.
Proof.
  intros (_&_&_&_&_&_&_&new&Eo&Hn) E1 E2. exists new. split; [done|]. rewrite E1, E2. apply emits_same. eapply Forall_impl; [|done]. by intros [].
Qed.

Lemma sar_only_tx X U s s' : sar_only s s' -> tx_inv X U s -> tx_inv X U s'.
Proof. intros (E1&E2&E3&E4&E5&_) Ht. eapply tx_inv_same; [done..| |done]. apply E4, Ht. Qed.

(** The receiver moves on by a frame. *)
Lemma seen_succ X U (G : list frame) s g : tx_inv X U s -> sd_seen X = length G ->
  (forall f, g f = f <| rej_sent := false |> <| srej_sent := false |> <| next_seq_expected := seq_of (S (length G)) |>) ->
  tx_inv (with_seen X (S (length G))) U (s <| ccb ::= fun c => c <| fcrb ::= g |> |>).
Proof.
  intros [Hh Hs Hr Hn Hse Ht (rs & Hl & Hc)] E Hg. set (s' := s <| ccb ::= _ |>).
  assert (Ef : fcrb (ccb s') = (fcrb (ccb s)) <| rej_sent := false |> <| srej_sent := false |> <| next_seq_expected := seq_of (S (length G)) |>) by apply Hg.
  constructor; unfold sent_inv, retr_inv, timers_ok; rewrite ?Ef; try done.
  exists rs. split; [done|]. eapply chain_weaken; [done| |done]. cbn. lia.
Qed.

(** The frame that is expected. *)
Lemma accept_spec X U G H s p w fr d : chan X U G H s -> incoming p w fr -> ctrl_seq w = seq_of (length G) ->
  runs (upd_fcrb (fun f => f <| rej_sent := false |> <| srej_sent := false |>
                             <| next_seq_expected := (ctrl_seq w + 1) .& L2CAP_FCR_SEQ_MODULO |>);;
        ok ← do_sar_reassembly p w;
        if negb ok then l2cu_disconnect_chnl else acknowledge d) s
    (fun _ s' => moves_mid X U (G ++ [fr]) H s s' \/ closes X U (G ++ [fr]) s s').
Proof.
  intros [Ho Ht [[Hn (cur & HG & Hcur)] (hq & Eh & Hh) Hs Hw] Hse] Hi Hq. lstep. lstep. rewrite Hq, seq_of_succ.
  match goal with |- runs _ ?x _ => set (s1 := x) end. set (X1 := with_seen X (S (length G))).
  assert (Ho1 : open_ertm s1) by by apply (fixed_open s).
  assert (Ht1 : tx_inv X1 U s1) by by apply seen_succ.
  destruct Hi as (pre & w0 & post & Hp & _ & _ & _ & Hsar & Hu & Hl).
  lstep. eapply runs_mono; [apply (do_sar_spec p w (pre ++ le16 w0) post fr s1 cur); try done|].
  { rewrite (holds_offset _ _ _ _ Hp), length_app. cbn [length le16]. lia. } { rewrite (holds_len _ _ _ _ Hp). lia. }
  cbv beta. intros ok s2 [S2 H2]. pose proof (sar_only_tx _ _ _ _ S2 Ht1) as Ht2. pose proof (sar_only_outputs X X1 _ _ S2 eq_refl eq_refl) as O2.
  pose proof S2 as (E2 & _ & _ & _ & En & Es & Eq & _). assert (Ho2 : open_ertm s2) by by eapply fixed_open.
  assert (V : via X X1 s s2) by (split; [exact E2|split; [done|exact O2]]).
  assert (Hr2 : ready s2). { split; [done|]. rewrite En. apply seq_of_range. }
  destruct ok; cbn [negb].
  - destruct H2 as (cur' & Hst & Hcur'). change (delivered (outs s1)) with (delivered (outs s)) in Hst.
    assert (C2 : chan_mid X1 U (G ++ [fr]) H s2).
    { constructor; [done|done|constructor|..]; rewrite ?length_app, ?Nat.add_1_r; try done.
      - exists cur'. split; [|done]. rewrite reassemble_snoc, HG. exact Hst.
      - exists hq. by rewrite Eq.
      - unfold our_win. destruct (fixed_inv _ _ E2) as (_&_&_&_&_&_&->&_). done. }
    eapply runs_mono; [by apply acknowledge_sends|]. cbv beta. intros _ s3 M3. left. eapply mid_after; [done|]. by apply tx_moves_mid.
  - eapply runs_mono; [by eapply disconnect_closes|]. cbv beta. intros _ s3 (X3 & R3 & D3 & O3 & B3 & S3 & L3). right.
    eapply closes_after; [done|]. exists X3, G, cur. split_and!; try done; [by eexists|by rewrite D3, H2|].
    rewrite S3, length_app. cbn. lia.
Qed.

Lemma process_i_frame_spec X U G H s p w fr d : chan X U G H s -> incoming p w fr ->
  runs (process_i_frame p w d) s (fun _ s' => i_frame_done X U G H fr (ctrl_seq w) s s').
Proof.
  intros C Hi. unfold process_i_frame. lstep. assert (Hr := chan_ready _ _ _ _ _ C).
  apply (runs_mono _ _ (fun (ok : bool) s1 => if ok then tx_moves X U s s1 else tx_closes X U s s1)).
  { destruct (nz _); [apply retransmit_spec; [done|apply C]|]. lstep. apply tx_moves_refl, C. }
  cbv beta. intros ok s1 H1. destruct ok; cbn [negb]; [|lstep; right; right; eapply tx_closes_chan; [done|apply C|apply C]].
  destruct (sends_chan _ _ _ _ _ _ H1 C) as (X1 & C1 & V1). clear H1.
  lstep. lstep. fold (ctrl_seq w). pose proof C1 as [_ _ [[Hn _] _ _ _] _]. rewrite Hn.
  destruct (Z.eqb_spec (ctrl_seq w) (seq_of (length G))) as [Eq|Nq]; cbn [negb].
  - eapply runs_mono; [by apply accept_spec|]. cbv beta. intros _ s2 M2. right. left. split; [done|].
    destruct M2; [left; by eapply mid_after|right; by eapply closes_after].
  - eapply runs_mono; [apply (out_of_sequence_spec X1 U G H s1 p w fr C1 Hi); by rewrite Hn|]. cbv beta. intros _ s2 (H' & HH & M2). left.
    split; [done|]. exists H'. split; [done|]. by eapply moves_after.
Qed.

(** ** Frames held back *)

Lemma mid_nil X U G s : chan_mid X U G [] s -> chan X U G [] s.
Proof.
  intros [Ho Ht Hc (hq & Eh & El & _) Hs Hw Hse]. constructor; [done|done| |done]. destruct hq; [|done]. constructor; [done|..|done].
  - exists []. done.
  - rewrite Hs. by rewrite bool_decide_eq_false_2 by auto.
Qed.

Lemma moves_mid_nil X U G s s' : moves_mid X U G [] s s' -> moves X U G [] s s'.
Proof. intros (X' & C & V). exists X'. split; [by apply mid_nil|done]. Qed.

Lemma held_incoming j fr b : held_frame j fr b -> exists w, read16 b (bh_offset b - L2CAP_FCR_OVERHEAD) = Ok w /\ incoming b w fr /\ ctrl_seq w = seq_of j.
Proof.
  intros (pre & w & post & Hb & [] & _ & Hl). exists w. split; [|split; [|done]].
  - destruct Hb as [Ed Eo El]. apply (read16_app _ pre w (fr_info fr ++ post) _ _ eq_refl); [by rewrite Ed, <- app_assoc|done|].
    rewrite Eo, length_app. unfold L2CAP_FCR_OVERHEAD. cbn [length le16]. lia.
  - exists pre, w, post. split_and!; try done.
Qed.

Lemma holds_back_cons n fr H b l : holds_back n (fr :: H) (b :: l) -> held_frame n fr b /\ holds_back (S n) H l.
Proof.
  intros [El Hh]. split; [rewrite <- (Nat.add_0_r n); by apply (Hh 0%nat)|]. split; [by injection El|].
  intros i x f Hx Hf. rewrite Nat.add_succ_l, <- Nat.add_succ_r. by apply (Hh (S i)).
Qed.

Lemma process_held_released l s : released s -> runs (process_held l) s (fun _ s' => s' = s).
Proof.
  intros (Hi & Ef & _). induction l as [|b l IH]; cbn [process_held]; [by lstep|]. lstep. lstep. rewrite Hi. lstep. cbn [andb]. lstep. lstep. lstep.
  lstep. rewrite Ef. change (rej_after_srej zero_FCRB) with false. lstep. lstep. lstep. exact IH.
Qed.

(** Operations of the sender after a step that may have closed the channel are only done when it has not. *)
Lemma process_held_spec l H X U G s : chan X U G [] s -> holds_back (length G) H l ->
  runs (process_held l) s (fun _ s' => moves X U (G ++ H) [] s s' \/ exists k, closes X U (G ++ take k H) s s').
Proof.
  revert X G H s. induction l as [|b l IH]; intros X G H s C Hh.
  { destruct H; [|by destruct Hh]. cbn [process_held]. lstep. left. rewrite app_nil_r. by apply chan_refl. }
  destruct H as [|fr H]; [by destruct Hh|]. apply holds_back_cons in Hh as [Hb Hl]. cbn [process_held]. lstep. lstep.
  pose proof (ch_open _ _ _ _ _ C) as []. rewrite oe_in_use, oe_open. change (bool_decide (CST_OPEN = CST_OPEN)) with true. cbn [andb]. lstep. lstep.
  destruct (held_incoming _ _ _ Hb) as (w & Ew & Hi & Hq). lstep. apply runs_lift. rewrite Ew. cbn [returns].
  eapply runs_mono; [by apply process_i_frame_spec|]. cbv beta. intros _ s1 M1.
  enough (Hm : moves X U (G ++ [fr]) [] s s1 \/ exists k, closes X U (G ++ take k (fr :: H)) s s1).
  2:{ destruct M1 as [[Hne _]|[[_ [M1|M1]]|M1]]; [done|left; by apply moves_mid_nil|right; by exists 1%nat|right; exists 0%nat; by rewrite take_0, app_nil_r]. }
  clear M1. destruct Hm as [M1|(k & M1)].
  - lstep. lstep. lstep. apply (runs_mono _ _ (fun _ s2 => moves X U (G ++ [fr]) [] s s2)).
    { apply runs_when; intros _; [|done]. apply (moves_sends _ X U _ _ s); [done|]. apply sends_bind; [by apply flags_sends|]. intros _.
      apply send_S_frame_sends; cbn; auto. }
    cbv beta. intros _ s2 (X2 & C2 & V2). eapply runs_mono.
    { apply (IH X2 (G ++ [fr]) H s2 C2). rewrite length_app, Nat.add_1_r. exact Hl. }
    cbv beta. intros _ s3 [M3|(k & M3)]; [left|right; exists (S k)]; rewrite <- app_assoc in M3; [by eapply moves_after|by eapply closes_after].
  - pose proof M1 as (X1 & G0 & cur & [R1 _] & _). pose proof R1 as (_ & Ef & _). lstep. lstep. rewrite Ef. change (rej_after_srej zero_FCRB) with false.
    lstep. lstep. lstep. eapply runs_mono; [by apply process_held_released|]. cbv beta. intros _ s2 ->. right. by exists k.
Qed.

Lemma release_held_spec X U G H s : chan_mid X U G H s ->
  runs release_held s (fun _ s' => moves X U (G ++ H) [] s s' \/ exists k, closes X U (G ++ take k H) s s').
Proof.
  intros C. pose proof C as [Ho Ht Hc (hq & Eh & Hh) Hs Hw Hse]. unfold release_held. lstep. lstep. rewrite Hs, Eh. cbn [negb andb].
  destruct hq as [|b hq'] eqn:Ehq.
  { cbn [fixed_queue_is_empty negb]. lstep. destruct H; [|by destruct Hh]. left. rewrite app_nil_r. by apply chan_refl, mid_nil. }
  rewrite <- Ehq in *. replace (fixed_queue_is_empty (Some hq)) with false by by rewrite Ehq. cbn [negb queue_elems]. lstep. lstep. lstep.
  match goal with |- runs _ ?x _ => set (s1 := x) end.
  assert (C1 : chan X U G [] s1).
  { apply mid_nil. constructor; [by apply (fixed_open s)|by apply (tx_inv_same _ _ s); [done..|apply Ht|done]|by destruct Hc| |done| |done].
    - exists []. done.
    - cbn. change (our_win s1) with (our_win s). lia. }
  eapply runs_mono; [by apply (process_held_spec hq H X U G s1)|]. cbv beta. intros _ s2 M2. lstep. lstep.
  destruct M2 as [M2|(k & M2)].
  - apply (runs_mono _ _ (fun _ s3 => moves X U (G ++ H) [] s s3)); [|by left]. apply runs_when; intros _; [|exact M2].
    apply (moves_sends _ X U _ _ s); [exact M2|]. apply send_S_frame_sends; cbn; auto.
  - pose proof M2 as (X2 & G0 & cur & [(_ & Ef & _) _] & _). rewrite Ef. apply runs_when; intros E; [done|]. right. exists k. exact M2.
Qed.

Lemma release_held_idle X U G H s : chan X U G H s -> runs release_held s (fun _ s' => s' = s).
Proof.
  intros [_ _ [_ (hq & Eh & El & _) Hs _] _]. unfold release_held. lstep. lstep. rewrite Hs, Eh. destruct H as [|fr H].
  - destruct hq; [|done]. rewrite bool_decide_eq_false_2 by auto. cbn [negb andb fixed_queue_is_empty]. by lstep.
  - rewrite bool_decide_eq_true_2 by done. cbn [negb andb]. by lstep.
Qed.
End Link.
