(* ===== verification/L2cPdu.v ===== *)
(** * L2cPdu: a packet from the peer on a channel in enhanced retransmission mode

    Supervisory frames, polls, and the whole of what the arrival of a packet does. *)

From Stdlib Require Import ZArith Lia.
From stdpp Require Import base list.
From S2P Require Import Prelude Osi L2cDefs L2cFcr L2cCrc L2cRun L2cInv L2cTx L2cLink L2cAck L2cSar L2cRx.

(** The packet of frame [fr] with number [q] has been processed. *)
Definition pdu_done (X : sender) (U : list (list Z)) (G H : list frame) (q : Z) (fr : frame) (s s' : l2c) : Prop :=
  (exists G' H', rx_next G H q fr G' H' /\ moves X U G' H' s s') \/
  closes X U G s s' \/ (q = seq_of (length G) /\ exists k, closes X U (G ++ fr :: take k H) s s').

(** A supervisory frame has been processed. *)
Definition s_frame_done (X : sender) (U : list (list Z)) (G H : list frame) (s s' : l2c) : Prop :=
  moves X U G H s s' \/ closes X U G s s'.

(** The buffer of a packet for the channel: [hd] is its L2CAP header, [body] what follows. *)
Record pdu_buf (p : BT_HDR) (hd body : list Z) : Prop := {
  pb_holds : exists pre post, holds p (pre ++ hd) body post /\ Z.of_nat (length pre) + 4 + Z.of_nat (length body) < 65536;
  pb_header : length hd = 4%nat;
  pb_u8 : Forall is_u8 (hd ++ body);
}.

(** What a frame leads to once its acknowledgement has been processed. *)
Definition frame_done_at (X : sender) (U : list (list Z)) (G H : list frame) (w : Z) (info : list Z) (s s' : l2c) : Prop :=
  if nz (w .& L2CAP_FCR_S_FRAME_BIT) then s_frame_done X U G H s s'
  else pdu_done X U G H (ctrl_seq w) (mk_frame (ctrl_sar w) info) s s'.

(** What a frame with control word [w], numbered or supervisory, leads to. *)
Definition frame_done (X : sender) (U : list (list Z)) (G H : list frame) (w : Z) (info : list Z) (s s' : l2c) : Prop :=
  exists b, acked_to X w b /\ frame_done_at (with_base X b) U G H w info s s'.

Section Link.
Context `{LE : LinkEnv}.

(** * Lemmas *)

Lemma tx_closes_after X X1 U s s1 s2 : keeps s s1 -> outputs X X1 s s1 -> sd_base X1 = sd_base X -> sd_seen X1 = sd_seen X ->
  tx_closes X1 U s1 s2 -> tx_closes X U s s2.
Proof.
  intros K O B S1 (X2 & R & D & O2 & B2 & S2 & L2). exists X2. destruct (keeps_rx _ _ K) as (_&_&_&_&_&Ed). split; [eapply releases_after; [apply K|done]|]. split; [by rewrite D|].
  split; [eapply outputs_trans; [done|apply K|done]|]. split_and!; [congruence|congruence|]. eapply tx_rest_same; [apply K|done].
Qed.

Lemma sends_or_closes_from m X U s s1 : ready s -> tx_moves X U s s1 -> sends_or_closes m ->
  runs m s1 (fun ok s2 => if ok then tx_moves X U s s2 else tx_closes X U s s2).
Proof.
  intros Hr (X1 & T1 & B1 & S1 & K & O) Hm. eapply runs_mono; [by apply (Hm s1 X1 U (keeps_ready _ _ K Hr))|]. cbv beta.
  intros [] s2 M2; [|by eapply tx_closes_after]. destruct M2 as (X2 & T2 & B2 & S2 & K2 & O2). exists X2.
  split; [done|]. split; [congruence|]. split; [congruence|]. split; [by etrans|]. eapply outputs_trans; [done|apply K|done].
Qed.

Lemma sends_or_closes_bind {A} (m : L A) (k : A -> L bool) : sends m -> (forall a, sends_or_closes (k a)) -> sends_or_closes (m ≫= k).
Proof.
  intros Hm Hk s X U Hr Ht. lstep. eapply runs_mono; [by apply Hm|]. cbv beta. intros a s1 M. by apply sends_or_closes_from.
Qed.

Lemma sends_or_closes_true : sends_or_closes (mret true).
Proof. intros s X U Hr Ht. lstep. by apply tx_moves_refl. Qed.

Lemma send_final_sends : sends send_final.
Proof. intros s X U Hr Ht. unfold send_final. lstep. lstep. apply send_S_frame_sends; [destruct (srej_sent _); cbn; auto|cbn; auto|done|done]. Qed.

(** ** Supervisory frames *)

Lemma process_s_frame_spec w s X U : ready s -> tx_inv X U s ->
  runs (process_s_frame w) s (fun _ s' => tx_moves X U s s' \/ tx_closes X U s s').
Proof.
  intros Hr Ht. unfold process_s_frame. lstep. eapply runs_mono; [by apply sends_when; [apply flags_sends|..]|]. cbv beta.
  intros _ s1 M1. lstep. lstep. lstep. eapply runs_mono.
  - apply (sends_or_closes_from _ X U s s1 Hr M1).
    assert (Hflag : forall b (m : L bool), sends_or_closes m -> sends_or_closes (upd_fcrb (fun f => f <| remote_busy := b |>);; m)).
    { intros b m Hm. apply sends_or_closes_bind; [by apply flags_sends|done]. }
    destruct (_ =? _); [apply Hflag; destruct (_ || _); [apply retransmit_spec|apply sends_or_closes_true]|].
    destruct (_ =? _); [apply Hflag, retransmit_spec|]. destruct (_ =? _); [apply Hflag|apply Hflag, retransmit_spec].
    apply sends_or_closes_bind; [apply stop_timer_sends|]. intros _. apply sends_or_closes_true.
  - cbv beta. intros [] s2 M2; [|lstep; by right]. lstep. lstep. eapply runs_mono.
    { apply (sends_from _ X U s s2 Hr M2), sends_when. apply sends_bind; [apply send_final_sends|]. intros _. by apply flags_sends. }
    cbv beta. auto.
Qed.

(** ** Polls *)

Lemma clear_F w : is_u16 w -> same_frame w (w .&~ L2CAP_FCR_F_BIT).
Proof.
  intros Hw. unfold same_frame, ctrl_seq, ctrl_sar. rewrite !land_ldiff_mask. split; [|done].
  apply (bits_bound 16); [lia|]. intros i Hi. rewrite Z.ldiff_spec, (testbit_ge 16); [done|exact Hw|lia].
Qed.

Lemma clear_P_type w : (w .&~ L2CAP_FCR_P_BIT) .& L2CAP_FCR_S_FRAME_BIT = w .& L2CAP_FCR_S_FRAME_BIT.
Proof. by rewrite land_ldiff_mask. Qed.

Lemma clear_F_req w : ctrl_req (w .&~ L2CAP_FCR_F_BIT) = ctrl_req w.
Proof. unfold ctrl_req. by rewrite land_ldiff_mask. Qed.

Lemma clear_P_req w : ctrl_req (w .&~ L2CAP_FCR_P_BIT) = ctrl_req w.
Proof. unfold ctrl_req. by rewrite land_ldiff_mask. Qed.

Lemma check_final_spec w s X U : ready s -> tx_inv X U s -> is_u16 w ->
  runs (check_final w) s (fun r s' => tx_moves X U s s' /\
    match r with
    | None => True
    | Some w' => w' .& L2CAP_FCR_S_FRAME_BIT = w .& L2CAP_FCR_S_FRAME_BIT /\ ctrl_req w' = ctrl_req w /\ (w .& L2CAP_FCR_S_FRAME_BIT = 0 -> same_frame w w')
    end).
Proof.
  intros Hr Ht Hw. unfold check_final. lstep. lstep. destruct (wait_ack _).
  2:{ lstep. split; [by apply tx_moves_refl|]. pose proof (clear_F w Hw) as Hc. split; [apply Hc|]. by rewrite clear_F_req. }
  destruct (negb _); lstep.
  - eapply runs_mono; [apply sends_when; [|done|done]|cbv beta; intros _ s1 M1; by lstep].
    apply sends_bind; [apply send_final_sends|]. intros _. apply quiet_sends, set_mon_timer_spec.
  - lstep. match goal with |- runs _ ?x _ => set (s1 := x) end. assert (M1 : tx_moves X U s s1) by (apply quiet_moves; [repeat split; apply Ht|done]).
    lstep. eapply runs_mono; [apply (sends_from _ X U s s1 Hr M1), sends_when; by apply flags_sends|]. cbv beta. intros _ s2 M2.
    lstep. eapply runs_mono; [apply (sends_from _ X U s s2 Hr M2), stop_timer_sends|]. cbv beta. intros _ s3 M3. lstep. split; [done|].
    destruct (nz (w .& L2CAP_FCR_S_FRAME_BIT)) eqn:E; [|done]. rewrite clear_P_type, clear_P_req. split; [done|]. split; [done|]. apply nz_true in E. done.
Qed.

(** ** The whole packet *)

(** What is waiting is sent when the frame has been processed. *)
Lemma pdu_tail X U G H s s1 : moves X U G H s s1 ->
  runs (c ← get_ccb;
        when ((negb (fixed_queue_is_empty (retrans_q (fcrb c))) || negb (fixed_queue_is_empty (xmit_hold_q c))) &&
              negb (wait_ack (fcrb c)) && negb (l2c_fcr_is_flow_controlled c)) (ccb_check_send_pkts 0 None)) s1
    (fun _ s2 => moves X U G H s s2).
Proof. intros M. lstep. lstep. apply (moves_sends _ X U G H s); [done|]. apply sends_when, ccb_check_send_sends. Qed.

(** Nothing more happens on a channel that was closed. *)
Lemma released_tail s : released s ->
  runs (c ← get_ccb;
        when ((negb (fixed_queue_is_empty (retrans_q (fcrb c))) || negb (fixed_queue_is_empty (xmit_hold_q c))) &&
              negb (wait_ack (fcrb c)) && negb (l2c_fcr_is_flow_controlled c)) (ccb_check_send_pkts 0 None)) s
    (fun _ s' => s' = s).
Proof. intros (Hi & Ef & Hx & _). lstep. lstep. rewrite Ef, Hx. apply runs_when; intros E; done. Qed.

(** What follows an information frame in [l2c_fcr_proc_pdu]. *)
Lemma after_i_frame X U G H fr q s s1 : chan X U G H s -> i_frame_done X U G H fr q s s1 ->
  runs (c ← get_ccb;
        if negb (in_use c) || negb (bool_decide (chnl_state c = CST_OPEN)) then skip else
        release_held;;
        c ← get_ccb;
        when ((negb (fixed_queue_is_empty (retrans_q (fcrb c))) || negb (fixed_queue_is_empty (xmit_hold_q c))) &&
              negb (wait_ack (fcrb c)) && negb (l2c_fcr_is_flow_controlled c)) (ccb_check_send_pkts 0 None)) s1
    (fun _ s' => pdu_done X U G H q fr s s').
Proof.
  intros C. assert (Hopen : forall s1, open_ertm s1 -> negb (in_use (ccb s1)) || negb (bool_decide (chnl_state (ccb s1) = CST_OPEN)) = false).
  { intros s0 []. rewrite oe_in_use, oe_open. done. }
  intros [(_ & H' & HH & M1)|[(Hq & [M1|M1])|M1]]; lstep; lstep.
  - pose proof M1 as (X1 & C1 & _). rewrite Hopen by apply C1. lstep. eapply runs_mono; [by eapply release_held_idle|]. cbv beta. intros _ s2 ->.
    eapply runs_mono; [by apply (pdu_tail X U G H' s)|]. cbv beta. intros _ s3 M3. left. exists G, H'. split; [|done].
    destruct HH as [-> |[-> Hq]]; by constructor.
  - destruct M1 as (X1 & C1 & E1 & O1). rewrite Hopen by apply C1. lstep. eapply runs_mono; [by apply release_held_spec|]. cbv beta.
    intros _ s2 [M2|(k & M2)]; rewrite <- app_assoc in M2; cbn [app] in M2.
    + eapply runs_mono; [apply (pdu_tail X U (G ++ fr :: H) [] s); by eapply moves_after|]. cbv beta. intros _ s3 M3. left.
      exists (G ++ fr :: H), []. split; [by constructor|done].
    + pose proof M2 as (X2 & G0 & cur & [R2 _] & _). eapply runs_mono; [by apply released_tail|]. cbv beta. intros _ s3 ->. right. right.
      split; [done|]. exists k. by eapply closes_after.
  - pose proof M1 as (X1 & G0 & cur & [(Hi & _) _] & _). rewrite Hi. cbn [negb orb]. lstep. right. right. split; [done|]. by exists 0%nat.
  - pose proof M1 as (X1 & G0 & cur & [(Hi & _) _] & _). rewrite Hi. cbn [negb orb]. lstep. right. by left.
Qed.

(** The same after a supervisory frame. *)
Lemma after_s_frame X U G H s s1 : chan X U G H s -> s_frame_done X U G H s s1 ->
  runs (c ← get_ccb;
        if negb (in_use c) || negb (bool_decide (chnl_state c = CST_OPEN)) then skip else
        release_held;;
        c ← get_ccb;
        when ((negb (fixed_queue_is_empty (retrans_q (fcrb c))) || negb (fixed_queue_is_empty (xmit_hold_q c))) &&
              negb (wait_ack (fcrb c)) && negb (l2c_fcr_is_flow_controlled c)) (ccb_check_send_pkts 0 None)) s1
    (fun _ s' => s_frame_done X U G H s s').
Proof.
  intros C [M1|M1]; lstep; lstep.
  - pose proof M1 as (X1 & C1 & _). pose proof (ch_open _ _ _ _ _ C1) as []. rewrite oe_in_use, oe_open. change (bool_decide (CST_OPEN = CST_OPEN)) with true.
    cbn [negb orb]. lstep. eapply runs_mono; [by eapply release_held_idle|]. cbv beta. intros _ s2 ->.
    eapply runs_mono; [by apply (pdu_tail X U G H s)|]. cbv beta. intros _ s3 M3. by left.
  - pose proof M1 as (X1 & G0 & cur & [(Hi & _) _] & _). rewrite Hi. cbn [negb orb]. lstep. by right.
Qed.

(** The check sequence at the end, and the one computed. *)
Lemma pdu_fcs p hd x f : pdu_buf p hd (x ++ le16 f) -> is_u16 f ->
  read16 p (bh_offset p + bh_len p - L2CAP_FCS_LEN) = Ok f /\
  l2c_fcr_rx_get_fcs (p <| bh_len ::= fun n => u16 (n - L2CAP_FCS_LEN) |>) = Ok (crc16 (hd ++ x)) /\
  exists pre post, holds (p <| bh_len ::= fun n => u16 (n - L2CAP_FCS_LEN) |>) (pre ++ hd) x post /\ Z.of_nat (length pre) + 6 + Z.of_nat (length x) < 65536.
Proof.
  intros [(pre & post & [Ed Eo El] & Hs) Hh Hu] Hf. rewrite length_app in El, Hs. rewrite length_app, Hh in Eo. cbn [length le16] in El, Hs.
  unfold L2CAP_FCS_LEN. split; [|split].
  - apply (read16_app _ (pre ++ hd ++ x) f post _ _ eq_refl); [by rewrite Ed, <- !app_assoc|done|]. rewrite Eo, El, !length_app, Hh. lia.
  - unfold l2c_fcr_rx_get_fcs. rewrite (bh_read_bytes_mid _ pre (hd ++ x) (le16 f ++ post)).
    + cbn [mbind outcome_bind mret outcome_ret]. rewrite updcrc_ref; [done|done|]. rewrite app_assoc, Forall_app in Hu. by destruct Hu.
    + bh_cbn. by rewrite Ed, <- !app_assoc.
    + bh_cbn. rewrite Eo. unfold L2CAP_PKT_OVERHEAD. lia.
    + bh_cbn. rewrite El, u16_id, length_app, Hh; unfold is_u16, L2CAP_PKT_OVERHEAD; lia.
  - exists pre, (le16 f ++ post). split; [|lia]. constructor; bh_cbn; [by rewrite Ed, <- !app_assoc|by rewrite length_app, Hh|].
    rewrite El, u16_id; unfold is_u16; lia.
Qed.

(** A packet that is too short or damaged does nothing. *)
Lemma proc_pdu_bad p hd body s : pdu_buf p hd body ->
  (length body < 4)%nat \/ (exists x f, body = x ++ le16 f /\ is_u16 f /\ f <> crc16 (hd ++ x)) ->
  l2c_fcr_proc_pdu p s = Ok (tt, s).
Proof.
  intros Hp Hbad. pose proof Hp as [(pre & post & Hh & _) _ _]. pose proof (holds_len _ _ _ _ Hh) as El. unfold l2c_fcr_proc_pdu, L2CAP_FCS_LEN, L2CAP_FCR_OVERHEAD.
  destruct (Z.ltb_spec (bh_len p) (2 + 2)); [done|]. destruct Hbad as [|(x & f & -> & Hf & Hne)]; [lia|].
  destruct (pdu_fcs p hd x f Hp Hf) as (E1 & E2 & _). unfold lift, mbind, L_bind. unfold L2CAP_FCS_LEN in *. rewrite E1, E2.
  destruct (Z.eqb_spec (crc16 (hd ++ x)) f); [by subst|done].
Qed.

Lemma frame_done_after X X1 U G H w info s s1 s2 : via X X1 s s1 ->
  frame_done_at X1 U G H w info s1 s2 -> frame_done_at X U G H w info s s2.
Proof.
  intros V. unfold frame_done_at. destruct (nz _).
  - intros [M|M]; [left; by eapply moves_after|right; by eapply closes_after].
  - intros [(G' & H' & Hn & M)|[M|(Hq & k & M)]].
    + left. exists G', H'. split; [done|]. by eapply moves_after.
    + right. left. by eapply closes_after.
    + right. right. split; [done|]. exists k. by eapply closes_after.
Qed.

Lemma frame_moves X U G H w info s s' : moves X U G H s s' -> frame_done_at X U G H w info s s'.
Proof. intros M. unfold frame_done_at. destruct (nz _); [by left|]. left. exists G, H. split; [constructor|done]. Qed.

Lemma frame_closes X U G H w info s s' : closes X U G s s' -> frame_done_at X U G H w info s s'.
Proof. intros M. unfold frame_done_at. destruct (nz _); [by right|]. right. by left. Qed.

Lemma with_base_same X : with_base X (sd_base X) = X.
Proof. by destruct X. Qed.

(** The frame itself, once its acknowledgement has been processed. *)
Lemma frame_spec X U G H s p w w1 info : chan X U G H s -> w1 .& L2CAP_FCR_S_FRAME_BIT = w .& L2CAP_FCR_S_FRAME_BIT ->
  (w .& L2CAP_FCR_S_FRAME_BIT = 0 -> same_frame w w1 /\ incoming p w1 (mk_frame (ctrl_sar w) info)) ->
  runs ((if nz (w1 .& L2CAP_FCR_S_FRAME_BIT) then process_s_frame w1 else process_i_frame p w1 false);;
        c ← get_ccb;
        if negb (in_use c) || negb (bool_decide (chnl_state c = CST_OPEN)) then skip else
        release_held;;
        c ← get_ccb;
        when ((negb (fixed_queue_is_empty (retrans_q (fcrb c))) || negb (fixed_queue_is_empty (xmit_hold_q c))) &&
              negb (wait_ack (fcrb c)) && negb (l2c_fcr_is_flow_controlled c)) (ccb_check_send_pkts 0 None)) s
    (fun _ s' => frame_done_at X U G H w info s s').
Proof.
  intros C Et Hi. rewrite Et. unfold frame_done_at. assert (Hr := chan_ready _ _ _ _ _ C). lstep.
  destruct (nz (w .& L2CAP_FCR_S_FRAME_BIT)) eqn:Etype.
  - eapply runs_mono; [apply process_s_frame_spec; [done|apply C]|]. cbv beta. intros _ s3 M3. apply (after_s_frame X U G H s s3 C).
    destruct M3; [left; by apply sends_chan|right; eapply tx_closes_chan; [done|apply C|apply C]].
  - apply nz_false in Etype. destruct (Hi Etype) as [(_ & _ & Eseq & _) Hin].
    eapply runs_mono; [by apply process_i_frame_spec|]. cbv beta. rewrite Eseq. intros _ s3 M3. by apply (after_i_frame X U G H _ _ s s3 C).
Qed.

Lemma pdu_incoming p pre hd w w1 info post : holds p (pre ++ hd) (le16 w ++ info) post -> length hd = 4%nat ->
  Z.of_nat (length pre) + 6 + Z.of_nat (length (le16 w ++ info)) < 65536 -> Forall is_u8 info -> is_u16 w ->
  w .& L2CAP_FCR_S_FRAME_BIT = 0 -> same_frame w w1 ->
  incoming (p <| bh_len ::= fun n => u16 (n - L2CAP_FCR_OVERHEAD) |> <| bh_offset ::= fun n => u16 (n + L2CAP_FCR_OVERHEAD) |>) w1
    (mk_frame (ctrl_sar w) info).
Proof.
  intros Hp Hh Hs Hu Hw Ht Hsf. rewrite length_app in Hs. cbn [length le16] in Hs. exists (pre ++ hd), w, post. split_and!; try done.
  - apply holds_shift; [done|done|..].
    + rewrite (holds_offset _ _ _ _ Hp), length_app, Hh. unfold L2CAP_FCR_OVERHEAD. lia.
    + rewrite (holds_len _ _ _ _ Hp), length_app. cbn [length le16]. lia.
  - by destruct Hsf as (_ & _ & _ & ->).
  - rewrite length_app, Hh. cbn [fr_info]. lia.
Qed.

Lemma proc_pdu_spec X U G H s p hd w info : chan X U G H s -> is_u16 w ->
  let fcs := crc16 (hd ++ le16 w ++ info) in pdu_buf p hd ((le16 w ++ info) ++ le16 fcs) -> is_u16 fcs ->
  runs (l2c_fcr_proc_pdu p) s (fun _ s' => frame_done X U G H w info s s').
Proof.
  intros C Hw fcs Hp Hf. assert (Hr := chan_ready _ _ _ _ _ C). unfold l2c_fcr_proc_pdu.
  pose proof Hp as [(pre0 & post0 & Hh0 & _) Hhd Hu]. pose proof (holds_len _ _ _ _ Hh0) as El. rewrite !length_app in El. cbn [length le16] in El.
  destruct (pdu_fcs p hd _ _ Hp Hf) as (E1 & E2 & pre & post & Hq & Hs).
  destruct (Z.ltb_spec (bh_len p) (L2CAP_FCS_LEN + L2CAP_FCR_OVERHEAD)); [unfold L2CAP_FCS_LEN, L2CAP_FCR_OVERHEAD in *; lia|].
  lstep. apply runs_lift. rewrite E1. cbn [returns]. lstep. apply runs_lift. rewrite E2. cbn [returns]. fold fcs. rewrite Z.eqb_refl. cbn [negb].
  set (p1 := p <| bh_len ::= _ |>) in *. pose proof Hq as [Ed Eo El1]. lstep. apply runs_lift.
  rewrite (read16_app _ (pre ++ hd) w (info ++ post) _ _ eq_refl); [|by rewrite Ed, <- !app_assoc|done|done]. cbn [returns].
  lstep. eapply runs_mono; [by apply check_final_spec; [|apply C|]|]. cbv beta. intros r s1 [M1 Hw1].
  assert (Hsame : frame_done_at X U G H w info s s1 -> frame_done X U G H w info s s1).
  { intros M. exists (sd_base X). split; [by left|]. by rewrite with_base_same. }
  destruct r as [w1|]; [|lstep; by apply Hsame, frame_moves, sends_chan]. clear Hsame. destruct Hw1 as (Et & Ereq & Hsf).
  destruct M1 as (X1 & T1 & B1 & S1 & K1 & O1). assert (Hr1 : ready s1) by by eapply keeps_ready.
  pose proof (tx_sent _ _ _ T1) as (sent & Es & _).
  lstep. eapply runs_mono; [by apply (process_reqseq_spec w1 s1 X1 U sent)|]. cbv beta. intros ok s2 M2.
  rewrite !Forall_app in Hu. destruct Hu as (_ & (_ & Hu) & _).
  destruct ok; cbn [negb]; destruct M2 as [M2 _].
  - destruct M2 as (b & Hb & M2). apply (runs_mono _ _ (fun _ s3 => frame_done_at (with_base X b) U G H w info s s3)).
    2:{ intros _ s3 M3. exists b. split; [|exact M3]. unfold acked_to in *. by rewrite <- B1, <- Ereq. }
    assert (C1 : rx_inv G H s1) by (eapply keeps_rx_inv; [done|apply C]).
    destruct (tx_moves_chan (with_base X1 b) U G H s1 s2 M2) as (X2 & C2 & V2); [apply Hr1|done|by cbn; rewrite S1; apply C|].
    assert (V : via (with_base X b) X2 s s2).
    { eapply (via_trans _ (with_base X1 b)); [|exact V2]. split; [apply K1|]. split; [done|exact O1]. }
    eapply runs_mono; [eapply (frame_spec X2 U G H s2 _ w w1 info C2 Et)|cbv beta; intros _ s3; by apply frame_done_after].
    intros Et0. split; [by apply Hsf|]. eapply pdu_incoming; [done|done|done|done|done|done|by apply Hsf].
  - lstep. exists (sd_base X). split; [by left|]. rewrite with_base_same. apply frame_closes, tx_closes_chan; [|apply C|apply C].
    by eapply tx_closes_after.
Qed.

(** Whatever a frame does, the channel is open or closed afterwards. *)
Lemma frame_done_ok X U G H w info s s' : frame_done X U G H w info s s' ->
  lcb_index (lcb s') = lcb_index (lcb s) /\ (released s' \/ exists X' G' H', chan X' U G' H' s').
Proof.
  set (Q := _ /\ _). assert (Hm : forall Y G' H', moves Y U G' H' s s' -> Q).
  { intros Y G' H' (X' & C & [E _]). split; [by apply fixed_index|]. right. by exists X', G', H'. }
  assert (Hc : forall Y G', closes Y U G' s s' -> Q) by (intros Y G' (X' & G0 & cur & [R Ei] & _); split; [done|by left]).
  intros (b & _ & Hd). unfold frame_done_at in Hd. destruct (nz _); [destruct Hd; by eauto|].
  destruct Hd as [(G' & H' & _ & M)|[M|(_ & k & M)]]; by eauto.
Qed.
End Link.
