(* ===== verification/L2cEvents.v ===== *)
(** * L2cEvents: what happens to a channel in enhanced retransmission mode

    Packets from the controller, data from the application, the timers and the link: each event returns,
    and either keeps the channel in its invariant or closes it. *)

From Stdlib Require Import ZArith Lia.
From stdpp Require Import base list.
From S2P Require Import Prelude Osi L2cDefs L2cFcr L2cCrc L2cRun L2cInv L2cTx L2cLink L2cDrain L2cAck L2cSar L2cRx L2cPdu.

(** ** Events *)

Inductive event : Type :=
| ERcv (p : BT_HDR)
| EWrite (p : BT_HDR) (flags : Z)
| ETimeout
| EAckTimeout
| EServe
| ECompleted (num_sent : Z)
| EShare (b : tL2C_CB) (connected high : bool) (quota : Z).

(** A packet from the controller: it has the header of an ACL packet at least. *)
Record acl_buf (p : BT_HDR) : Prop := {
  ab_offset : 0 <= bh_offset p;
  ab_len : 4 <= bh_len p;
  ab_bound : bh_offset p + bh_len p <= Z.of_nat (length (bh_data p));
  ab_size : bh_offset p + bh_len p < 65536;
  ab_u8 : Forall is_u8 (bh_payload p);
}.

(** On the link with control block [i]: the buffers are good ones, and the link is given no priority and share
    with which the round robin reads past the pool. *)
Definition valid_event (i : Z) (e : event) : Prop :=
  match e with
  | ERcv p => acl_buf p
  | EWrite p flags => sdu_ok (p <| bh_layer_specific := flags |>)
  | EShare _ _ high quota => rr_ok i high quota = true
  | _ => True
  end.

Section Link.
Context `{LE : LinkEnv}.

(** An alarm calls its function if it is scheduled, and is not any more then. *)
Definition mon_retrans_timer_fires : L unit :=
  f ← get_fcrb;
  when (alarm_is_scheduled (mon_retrans_timer f))
    (upd_fcrb (fun f => f <| mon_retrans_timer ::= alarm_cancel |>);; l2c_ccb_timer_timeout).
Definition ack_timer_fires : L unit :=
  f ← get_fcrb;
  when (alarm_is_scheduled (ack_timer f))
    (upd_fcrb (fun f => f <| ack_timer ::= alarm_cancel |>);; l2c_fcrb_ack_timer_timeout).

(** Other links use the controller, come or go, and the shares change. *)
Definition share_changes (b : tL2C_CB) (connected high : bool) (quota : Z) : L unit :=
  modify (fun s => s <| cb := b |>
                     <| lcb ::= fun l => l <| link_connected := connected |> <| high_priority := high |> <| link_xmit_quota := quota |> |>).

(** The event, with the SDUs taken from the application. *)
Definition handle (e : event) : L (list (list Z)) :=
  match e with
  | ERcv p => l2c_rcv_acl_data p;; mret []
  | EWrite p flags => r ← l2c_data_write p flags; mret (if r =? L2CAP_DW_FAILED then [] else [bh_payload p])
  | ETimeout => mon_retrans_timer_fires;; mret []
  | EAckTimeout => ack_timer_fires;; mret []
  | EServe => l2c_link_check_send_pkts 0 None;; mret []
  | ECompleted n => l2c_packets_completed n;; mret []
  | EShare b connected high quota => share_changes b connected high quota;; mret []
  end.

(** ** Their effect *)

(** A packet that is not for the channel, or no good one; or only counters change. *)
Definition ignored (s s' : l2c) : Prop := counts s s' \/ exists cid p, s' = s <| outs ::= cons (OOtherChannel cid p) |>.

(** The packet [body] came in. *)
Definition received (X : sender) (U : list (list Z)) (G H : list frame) (body : list Z) (s s' : l2c) : Prop :=
  ignored s s' \/
  exists h w info, length h = 4%nat /\ body = h ++ with_fcs (iframe_body (local_cid (ccb s)) w info) /\ is_u16 w /\ Forall is_u8 info /\
    frame_done X U G H w info s s'.

(** What a write is answered with, and what it does. *)
Definition wrote (X : sender) (U : list (list Z)) (G H : list frame) (p : BT_HDR) (r : Z) (s s' : l2c) : Prop :=
  if (cfg_mtu (peer_cfg (ccb s)) <? bh_len p) || cong_sent (ccb s) then r = L2CAP_DW_FAILED /\ s' = s
  else r = (if cong_sent (ccb s') then L2CAP_DW_CONGESTED else L2CAP_DW_SUCCESS) /\ moves X (U ++ [bh_payload p]) G H s s'.

(** * Lemmas *)

Lemma byte_word l : (2 <= length l)%nat -> Forall is_u8 l -> exists w r, is_u16 w /\ l = le16 w ++ r /\ Forall is_u8 r.
Proof.
  intros Hl Hu. destruct l as [|b0 [|b1 r]]; cbn in Hl; [lia..|]. inv_Forall. exists (b0 + (b1 .<< 8)), r.
  destruct (le16_bytes b0 b1) as [? ->]; done.
Qed.

Lemma byte_word_end l : (2 <= length l)%nat -> Forall is_u8 l -> exists r w, is_u16 w /\ l = r ++ le16 w /\ Forall is_u8 r.
Proof.
  intros Hl Hu. destruct (split_end l 2 Hl) as (r & x & -> & Hx). apply Forall_app in Hu as [Hr Hw].
  destruct (two_bytes_le16 x Hx Hw) as (w & Hw' & ->). by exists r, w.
Qed.

Lemma crc16_u16 p : Forall is_u8 p -> is_u16 (crc16 p).
Proof. intros Hp. unfold crc16. rewrite <- updcrc_ref by done. by apply updcrc_u16. Qed.

(** The rest of a packet for the channel, behind its header. *)
Lemma proc_pdu_any X U G H s p cid tail : chan X U G H s -> is_u16 cid -> Z.of_nat (length tail) < 65536 ->
  pdu_buf p (le16 (Z.of_nat (length tail)) ++ le16 cid) tail ->
  runs (l2c_fcr_proc_pdu p) s (fun _ s' => s' = s \/ exists w info, le16 (Z.of_nat (length tail)) ++ le16 cid ++ tail = with_fcs (iframe_body cid w info) /\
    is_u16 w /\ Forall is_u8 info /\ frame_done X U G H w info s s').
Proof.
  intros C Hc Hlen Hp. pose proof Hp as [_ _ Hu]. assert (Hbad : l2c_fcr_proc_pdu p s = Ok (tt, s) -> runs (l2c_fcr_proc_pdu p) s (fun _ s' => s' = s)).
  { intros E. unfold runs. by rewrite E. }
  destruct (decide (length tail < 4)%nat) as [Hs|Hs].
  { eapply runs_mono; [apply Hbad; eapply proc_pdu_bad; [done|by left]|auto]. }
  apply Forall_app in Hu as [Hh Hu]. destruct (byte_word_end tail) as (x & f & Hf & -> & Hx); [lia|done|]. rewrite length_app in *. cbn [length le16] in *.
  destruct (decide (f = crc16 ((le16 (Z.of_nat (length x + 2)) ++ le16 cid) ++ x))) as [Ef|Nf].
  2:{ eapply runs_mono; [apply Hbad; eapply proc_pdu_bad; [done|right; by exists x, f]|auto]. }
  destruct (byte_word x) as (w & info & Hw & -> & Hi); [lia|done|]. subst f.
  eapply runs_mono; [by apply (proc_pdu_spec X U G H s p _ w info C Hw Hp Hf)|]. cbv beta. intros _ s' Hd. right. exists w, info.
  split; [|done]. rewrite length_app. cbn [length le16]. unfold with_fcs, iframe_body.
  replace (Z.of_nat (2 + length info + 2)) with (Z.of_nat (length info) + 4) by lia. by rewrite <- !app_assoc.
Qed.

(** The header of an ACL packet. *)
Lemma acl_header_words p : acl_buf p -> exists pre word hlen rest post, holds p pre (le16 word ++ le16 hlen ++ rest) post /\
  is_u16 word /\ is_u16 hlen /\ Forall is_u8 rest /\ Z.of_nat (length pre) + 4 + Z.of_nat (length rest) < 65536.
Proof.
  intros [Ho Hl Hb Hs Hu]. destruct (holds_wf p) as (pre & post & Hp); [lia..|]. pose proof Hp as [_ Eo El].
  destruct (byte_word (bh_payload p)) as (word & r & Hw & E & Hr); [lia|done|]. rewrite E, length_app in El. cbn [length le16] in El.
  destruct (byte_word r) as (hlen & rest & Hh & -> & Hrest); [lia|done|]. rewrite length_app in El. cbn [length le16] in El.
  rewrite E in Hp. exists pre, word, hlen, rest, post. split_and!; try done. lia.
Qed.

Lemma emit_ignored cid p s : ignored s (s <| outs ::= cons (OOtherChannel cid p) |>).
Proof. right. eauto. Qed.

(** A packet is ignored, or it is one for the channel. *)
Lemma rcv_cases s p Q : acl_buf p -> (forall s', ignored s s' -> Q tt s') ->
  (in_use (ccb s) = true -> has_lcb (ccb s) = true -> forall h tail p1, length h = 4%nat -> Z.of_nat (length tail) < 65536 ->
   is_u16 (local_cid (ccb s)) -> bh_payload p = h ++ le16 (Z.of_nat (length tail)) ++ le16 (local_cid (ccb s)) ++ tail ->
   pdu_buf p1 (le16 (Z.of_nat (length tail)) ++ le16 (local_cid (ccb s))) tail -> runs (rcv_channel_pdu p1) s Q) ->
  runs (l2c_rcv_acl_data p) s Q.
Proof.
  intros Hp Hi Hk. destruct (acl_header_words p Hp) as (pre & word & hlen & rest & post & Hh & Hw & Hhl & Hr & Hs).
  assert (Hsame : ignored s s) by by left. pose proof Hh as [Ed Eo El]. rewrite !length_app in El. cbn [length le16] in El.
  unfold l2c_rcv_acl_data. lstep. apply runs_lift. rewrite (read16_app _ pre word (le16 hlen ++ rest ++ post) _ _ eq_refl); [|by rewrite Ed, <- !app_assoc|done|done].
  cbn [returns]. cbv zeta. destruct (_ =? L2CAP_PKT_CONTINUE); [lstep; by apply Hi|]. lstep. apply runs_lift.
  rewrite (read16_app _ (pre ++ le16 word) hlen (rest ++ post) _ _ eq_refl); [|by rewrite Ed, <- !app_assoc|done|by rewrite Eo, length_app; cbn; lia].
  cbn [returns]. destruct (Z.ltb_spec hlen L2CAP_PKT_OVERHEAD) as [|Hmin]; [cbn [orb]; lstep; by apply Hi|].
  destruct (Z.eqb_spec hlen (bh_len p - 4)) as [Eh|]; cbn [negb orb]; [|lstep; by apply Hi]. unfold L2CAP_PKT_OVERHEAD in *.
  destruct (byte_word rest) as (l & r1 & Hl & -> & Hr1); [lia|done|]. rewrite length_app in *. cbn [length le16] in *.
  destruct (byte_word r1) as (cid & tail & Hc & -> & Ht); [lia|done|]. rewrite length_app in *. cbn [length le16] in *. rewrite <- !app_assoc in *.
  lstep. apply runs_lift. rewrite (read16_app _ (pre ++ le16 word ++ le16 hlen) l (le16 cid ++ tail ++ post) _ _ eq_refl); [|by rewrite Ed, <- !app_assoc|done|by rewrite Eo, !length_app; cbn; lia].
  cbn [returns]. lstep. apply runs_lift.
  rewrite (read16_app _ (pre ++ le16 word ++ le16 hlen ++ le16 l) cid (tail ++ post) _ _ eq_refl); [|by rewrite Ed, <- !app_assoc|done|by rewrite Eo, !length_app; cbn; lia].
  cbn [returns]. lstep. lstep. destruct (_ =? lcb_handle _); cbn [negb]; [|lstep; by apply Hi, emit_ignored].
  destruct (_ || _) eqn:Eo'; [lstep; by apply Hi, emit_ignored|].
  apply orb_false_iff in Eo' as [_ Em]. apply negb_false_iff, andb_true_iff in Em as [[Hin Hlcb]%andb_true_iff <-%Z.eqb_eq].
  set (p1 := p <| bh_len := _ |> <| bh_offset ::= _ |>).
  assert (Hp1 : holds p1 (pre ++ le16 word ++ le16 hlen ++ le16 l ++ le16 (local_cid (ccb s))) tail post).
  { constructor; unfold p1; bh_cbn; [by rewrite Ed, <- !app_assoc|..]; rewrite ?Eo, ?length_app; cbn [length le16].
    - rewrite (u16_id (Z.of_nat (length pre) + 4)), u16_id by (unfold is_u16; lia). lia.
    - rewrite u16_id by (unfold is_u16; lia). lia. }
  rewrite (holds_len _ _ _ _ Hp1). destruct (Z.eqb_spec l (Z.of_nat (length tail))) as [-> |]; cbn [negb]; [|lstep; by apply Hi].
  apply (Hk Hin Hlcb (le16 word ++ le16 hlen) tail p1); [done|lia|done|by rewrite (holds_payload _ _ _ _ Hh), <- !app_assoc|].
  constructor; [|done|by rewrite !Forall_app; split_and!; try apply le16_u8].
  exists (pre ++ le16 word ++ le16 hlen), post. rewrite <- !app_assoc. split; [done|]. rewrite !length_app. cbn [length le16]. lia.
Qed.

Lemma rcv_spec X U G H s p : chan X U G H s -> acl_buf p ->
  runs (l2c_rcv_acl_data p) s (fun _ s' => received X U G H (bh_payload p) s s').
Proof.
  intros C Hp. apply rcv_cases; [done|by left|]. intros _ _ h tail p1 Hh Ht Hc E Hp1. pose proof (ch_open _ _ _ _ _ C) as [].
  unfold rcv_channel_pdu. lstep. lstep. rewrite oe_bredr, oe_mode, oe_open. change (L2CAP_FCR_ERTM_MODE =? L2CAP_FCR_BASIC_MODE) with false.
  eapply runs_mono; [by apply (proc_pdu_any X U G H s p1 _ tail C Hc)|]. cbv beta. intros _ s' [-> |(w & info & E' & Hd)]; [by left; left|].
  right. exists h, w, info. split; [done|]. rewrite E, E'. by split.
Qed.

(** ** Data of the application *)

Lemma pending_snoc sdus cur held U b : pending sdus cur held U -> bh_event b = 0 -> pending sdus cur (held ++ [b]) (U ++ [bh_payload b]).
Proof.
  intros Hp Hb. assert (Hf : Forall (fun b => bh_event b = 0) [b]) by by constructor. destruct cur as [[len got]|].
  - destruct Hp as (b0 & held' & -> & He & Hl & -> & Hh). exists b0, (held' ++ [b]). split_and!; try done; [|by apply Forall_app].
    by rewrite map_app, <- app_assoc.
  - destruct Hp as [-> Hh]. split; [|by apply Forall_app]. by rewrite map_app, app_assoc.
Qed.

Lemma enqueue_spec X U s p : open_ertm s -> tx_inv X U s -> sdu_ok p ->
  runs (l2c_enqueue_peer_data p) s (fun _ s' => tx_inv X (U ++ [bh_payload p]) s' /\ keeps s s' /\ outputs X X s s').
Proof.
  intros Ho Ht Hp. pose proof Ho as []. unfold l2c_enqueue_peer_data. lstep. lstep. rewrite oe_mode.
  change (L2CAP_FCR_ERTM_MODE =? L2CAP_FCR_BASIC_MODE) with false. cbn [negb]. lstep. lstep. set (q := p <| bh_event := 0 |>).
  pose proof (tx_held _ _ _ Ht) as (held & sdus & cur & Eh & Hh & HF & Hpe). rewrite Eh. lstep. lstep. set (s1 := s <| ccb ::= _ |>).
  assert (T1 : tx_inv X (U ++ [bh_payload p]) s1).
  { destruct Ht. constructor; try done. exists (held ++ [q]), sdus, cur. split; [done|]. split; [|split; [done|]].
    - apply Forall_app. split; [done|]. constructor; [|done]. destruct Hp as [(pre & post & Hq & Hr) Hu Hs]. constructor; [|done|done].
      exists pre, post. split; [by apply (holds_same p)|exact Hr].
    - by apply (pending_snoc _ _ _ _ q). }
  lstep. eapply runs_mono; [by apply check_congestion_spec|]. cbv beta. intros _ s2 C2. pose proof C2 as (K2 & _ & _ & _ & new & Eo & Hn).
  lstep. apply runs_get_lcb; [by destruct (fixed_inv _ _ K2) as (_ & _ & -> & _)|].
  assert (T2 : tx_inv X (U ++ [bh_payload p]) s2) by by eapply congests_tx. assert (K : keeps s s2) by by etrans; [|by apply congests_keeps].
  enough (Hd : forall s3, ccb s3 = ccb s2 -> lcb s3 = lcb s2 -> outs s3 = outs s2 -> tx_inv X (U ++ [bh_payload p]) s3 /\ keeps s s3 /\ outputs X X s s3)
    by (apply runs_when; intros _; [lstep|]; by apply Hd).
  intros s3 Ec El Eo3. split; [by eapply tx_inv_ccb; [|rewrite El|]|]. split; [etrans; [exact K|]; unfold keeps, fixed_part, rx_part; by rewrite Ec, El, Eo3|].
  exists new. split; [by rewrite Eo3|]. apply emits_same. eapply Forall_impl; [|done]. by intros [].
Qed.

Lemma write_spec X U G H s p flags : chan X U G H s -> sdu_ok (p <| bh_layer_specific := flags |>) ->
  runs (l2c_data_write p flags) s (fun r s' => wrote X U G H p r s s').
Proof.
  intros C Hp. pose proof C as [Ho Ht Hx Hse]. pose proof Ho as []. unfold l2c_data_write, wrote. lstep. lstep. rewrite oe_in_use. cbn [negb].
  lstep. apply runs_get_lcb; [done|]. rewrite oe_bredr. destruct (_ <? _); cbn [orb]; [by lstep|]. cbv zeta.
  destruct (cong_sent (ccb s)); [by lstep|]. unfold l2c_csm_data_write. lstep. lstep. lstep. rewrite oe_in_use, oe_open. cbn [negb].
  lstep. eapply runs_mono; [by apply enqueue_spec|]. cbv beta. intros _ s1 (T1 & K1 & O1).
  assert (M1 : moves X (U ++ [bh_payload p]) G H s s1).
  { exists X. split; [|split; [apply K1|done]]. constructor; [by eapply keeps_open|done|by eapply keeps_rx_inv|done]. }
  eapply runs_mono; [apply (moves_sends _ X (U ++ [bh_payload p]) G H s s1 M1), ccb_check_send_sends|]. cbv beta. intros _ s2 M2. by lsteps.
Qed.

(** ** Timers and the link *)

Lemma timeout_spec X U G H s : chan X U G H s -> runs mon_retrans_timer_fires s (fun _ s' => s_frame_done X U G H s s').
Proof.
  intros C. assert (Hr := chan_ready _ _ _ _ _ C). unfold mon_retrans_timer_fires. lstep. lstep. apply runs_when; intros _; [|left; by apply chan_refl].
  lstep. eapply runs_mono; [by apply stop_timer_sends; [|apply C]|]. cbv beta. intros _ s1 M1.
  destruct (sends_chan _ _ _ _ _ _ M1 C) as (X1 & C1 & V1). pose proof (ch_open _ _ _ _ _ C1) as [].
  unfold l2c_ccb_timer_timeout. lstep. lstep. rewrite oe_in_use, oe_open, oe_mode. cbn [negb]. rewrite Z.eqb_refl. lstep.
  unfold l2c_fcr_proc_tout. lstep. lstep. lstep. eapply runs_mono; [by apply (flags_sends _); [|by eapply chan_ready|apply C1]|].
  cbv beta. intros _ s2 M2. destruct (sends_chan _ _ _ _ _ _ M2 C1) as (X2 & C2 & V2). assert (V : via X X2 s s2) by by eapply via_trans.
  destruct (_ && _).
  - eapply runs_mono; [eapply disconnect_closes; [by eapply chan_ready|apply C2]|]. cbv beta. intros _ s3 M3. right.
    eapply closes_after; [exact V|]. eapply tx_closes_chan; [done|apply C2|apply C2].
  - eapply runs_mono; [apply sends_when; [apply send_S_frame_sends; cbn; auto|by eapply chan_ready|apply C2]|]. cbv beta. intros _ s3 M3. left.
    eapply moves_after; [exact V|]. by apply sends_chan.
Qed.

Lemma ack_timeout_sends : sends ack_timer_fires.
Proof.
  intros s X U Hr Ht. unfold ack_timer_fires. lstep. lstep. apply sends_when; [|done|done]. apply sends_bind; [apply cancel_ack_timer_sends|]. intros _.
  clear s X U Hr Ht. intros s X U Hr Ht. pose proof Hr as [[] _]. unfold l2c_fcrb_ack_timer_timeout, l2c_fcr_proc_ack_tout. lstep. lstep.
  rewrite oe_in_use, oe_open. cbn [negb]. lstep. lstep. apply sends_when; [apply send_S_frame_sends; cbn; auto|done|done].
Qed.

Lemma share_changes_counts b connected high quota s : rr_bound (lcb s) = true -> rr_ok (lcb_index (lcb s)) high quota = true ->
  runs (share_changes b connected high quota) s (fun _ s' => counts s s').
Proof. intros Hb Hr. split_and!; try done; [by rewrite Hb|by left]. Qed.

(** ** Every event *)

(** What an event does to an open channel. *)
Lemma handle_spec X U G H s e : chan X U G H s -> valid_event (lcb_index (lcb s)) e ->
  runs (handle e) s (fun D s' =>
    match e with
    | ERcv p => D = [] /\ received X U G H (bh_payload p) s s'
    | _ => s_frame_done X (U ++ D) G H s s'
    end).
Proof.
  intros C He. assert (HU : forall Y, s_frame_done X U G H s Y -> s_frame_done X (U ++ []) G H s Y) by (intros; by rewrite app_nil_r).
  destruct e as [p|p flags| | | |n|b connected high quota]; cbn [handle valid_event] in *.
  - lstep. eapply runs_mono; [by apply rcv_spec|]. cbv beta. intros _ s1 R. by lstep.
  - lstep. eapply runs_mono; [by apply write_spec|]. cbv beta. intros r s1 R. lstep. unfold wrote in R. destruct (_ || _); destruct R as [-> M].
    + apply HU. subst s1. left. by apply chan_refl.
    + left. by destruct (cong_sent (ccb s1)).
  - lstep. eapply runs_mono; [by apply timeout_spec|]. cbv beta. intros _ s1 M. lstep. by apply HU.
  - lstep. eapply runs_mono; [apply ack_timeout_sends; [by eapply chan_ready|apply C]|]. cbv beta. intros _ s1 M. lstep. apply HU. left. by apply sends_chan.
  - lstep. eapply runs_mono; [apply check_send_sends; [by eapply chan_ready|apply C]|]. cbv beta. intros _ s1 M. lstep. apply HU. left. by apply sends_chan.
  - lstep. eapply runs_mono; [apply packets_completed_sends; [by eapply chan_ready|apply C]|]. cbv beta. intros _ s1 M. lstep. apply HU. left. by apply sends_chan.
  - lstep. eapply runs_mono; [apply share_changes_counts; [apply C|done]|]. cbv beta. intros _ s1 M. lstep. apply HU. left.
    apply sends_chan; [|done]. apply counts_moves; [done|apply C].
Qed.

(** A channel that has been closed stays so, and delivers nothing; the link sends what is left of its queue. *)
Lemma handle_released s e : released s -> valid_event (lcb_index (lcb s)) e ->
  runs (handle e) s (fun D s' => D = [] /\ match e with EServe | ECompleted _ => drains [] s s' | _ => ignored s s' end).
Proof.
  intros (Hi & Ef & Hx & Hl & Hrr) He. destruct e as [p|p flags| | | |n|b connected high quota]; cbn [handle valid_event] in *.
  - lstep. apply rcv_cases; [done|intros s' Hs'; by lstep|]. intros Hin. congruence.
  - unfold l2c_data_write. lsteps. rewrite Hi. cbn [negb]. lsteps. split; [done|by left].
  - unfold mon_retrans_timer_fires. lsteps. rewrite Ef. lsteps. split; [done|by left].
  - unfold ack_timer_fires. lsteps. rewrite Ef. lsteps. split; [done|by left].
  - lstep. eapply runs_mono; [apply (check_send_drains 0 None); unfold unserved; by rewrite Hl, Hrr|]. cbv beta. intros _ s1 D. by lstep.
  - lstep. eapply runs_mono; [apply packets_completed_drains; unfold unserved; by rewrite Hl, Hrr|]. cbv beta. intros _ s1 D. by lstep.
  - lstep. eapply runs_mono; [by apply share_changes_counts|]. cbv beta. intros _ s1 M. lstep. split; [done|by left].
Qed.
End Link.
