(* ===== verification/L2cSetup.v ===== *)
(** * L2cSetup: channels on which there is no data yet

    The invariant of a channel from its allocation on: whatever the peer sends on the signalling channel, and whatever the
    application, the link and the manager of security do, the state machine returns and keeps it. *)

From Stdlib Require Import ZArith Lia.
From stdpp Require Import base list.
From S2P Require Import Prelude Osi L2cDefs L2cFcr L2cSig L2cCsm L2cCmd L2cRun L2cInv L2cLink L2cDrain L2cEvents.

Section Handle.
Context `{LE : LinkEnv} `{SE : SigEnv}.

(** The manager of security calls back when it has been asked. *)
Definition security_answers (status : Z) : L unit :=
  c ← get_ccb;
  when (bool_decide (chnl_state c = CST_ORIG_W4_SEC_COMP \/ chnl_state c = CST_TERM_W4_SEC_COMP)) (l2c_link_sec_comp l2c_csm_execute status).

(** [l2c_fcr_chk_chan_modes] of another channel of the same registration finds that its peer does not have enhanced
    retransmission mode: it changes the registration, which the channels share. *)
Definition mode_off : L unit :=
  upd_ccb (fun c => c <| p_rcb ::= option_map (fun r =>
    if preferred_mode r =? L2CAP_FCR_ERTM_MODE then r <| preferred_mode := 0 |> else r) |>).

Definition setup_handle (e : setup_event) : L unit :=
  match e with
  | SRcv p => rcv_packet p
  | SConnect psm => L2CA_ConnectReq psm;; skip
  | SDisconnect => L2CA_DisconnectReq;; skip
  | SSecurity status => security_answers status
  | SLink event => l2c_csm_execute event;; skip
  | SChannelTimer => ccb_timer_fires
  | SInfoTimer => info_timer_fires
  | SMonitorTimer => mon_retrans_timer_fires
  | SAckTimer => ack_timer_fires
  | SServe => l2c_link_check_send_pkts 0 None
  | SCompleted n => l2c_packets_completed n
  | SShare b connected high quota => share_changes b connected high quota
  | SModeOff => mode_off
  end.
End Handle.

(** ** The invariant *)

(** The registration has every callback that is called without a test, and prefers a mode there is. *)
Record rcb_ok (r : tL2C_RCB) : Prop := {
  rk_data : has_DataInd_Cb r = true;
  rk_cfm : has_ConnectCfm_Cb r = true;
  rk_config : has_ConfigInd_Cb r = true;
  rk_error : has_Error_Cb r = true;
  rk_mode : preferred_mode r = L2CAP_FCR_BASIC_MODE \/ preferred_mode r = L2CAP_FCR_ERTM_MODE;
  rk_mtu : rcb_required_remote_mtu r < 65536;
}.

(** Nothing has been sent or received in enhanced retransmission mode. *)
Record idle_fcrb (f : tL2C_FCRB) : Prop := {
  if_sent : waiting_for_ack_q f = Some [];
  if_hold : srej_rcv_hold_q f = Some [];
  if_retr : retrans_q f = Some [];
  if_sdu : p_rx_sdu f = None;
  if_flags : srej_sent f = false /\ wait_ack f = false;
  if_numbers : next_tx_seq f = 0 /\ last_rx_ack f = 0 /\ next_seq_expected f = 0;
  if_ack_timer : ack_timer f = Some None;
  if_mon_timer : mon_retrans_timer f = Some None;
}.

(** A channel that is in use, with the registration [r]. *)
Record live (r : tL2C_RCB) (c : tL2C_CCB) : Prop := {
  lv_in_use : in_use c = true;
  lv_lcb : has_lcb c = true;
  lv_rcb : p_rcb c = Some r;
  lv_rcb_ok : rcb_ok r;
  lv_ind : initiator_local c = false -> has_ConnectInd_Cb r = true;
  lv_hold : xmit_hold_q c = Some [];
  lv_cong : cong_sent c = false;
  lv_quota : 0 <= buff_quota c;
  lv_fcrb : idle_fcrb (fcrb c);
  lv_timer : l2c_ccb_timer c <> None;
  lv_local : L2CAP_BASE_APPL_CID <= local_cid c < L2CAP_BASE_APPL_CID + MAX_L2CAP_CHANNELS;
  lv_mtu : 0 < cfg_mtu (peer_cfg c) < 65536;
}.

(** What has been offered and accepted. *)
Definition ours (r : tL2C_RCB) (c : tL2C_CCB) : Prop :=
  fcr_mode (cfg_fcr (our_cfg c)) = preferred_mode r /\
  (preferred_mode r = L2CAP_FCR_ERTM_MODE -> tx_win_sz (cfg_fcr (our_cfg c)) = tx_win_sz kDefaultErtmOptions).
Definition theirs (r : tL2C_RCB) (c : tL2C_CCB) : Prop :=
  fcr_mode (cfg_fcr (peer_cfg c)) = preferred_mode r /\
  (preferred_mode r = L2CAP_FCR_ERTM_MODE -> 0 < tx_mps c <= 4087).
Definition ib_done (c : tL2C_CCB) : bool := nz (config_done c .& IB_CFG_DONE).
Definition ob_done (c : tL2C_CCB) : bool := nz (config_done c .& OB_CFG_DONE).

Record agreed (r : tL2C_RCB) (c : tL2C_CCB) : Prop := {
  ag_ours : chnl_state c = CST_CONFIG \/ chnl_state c = CST_OPEN -> ours r c;
  ag_theirs : ib_done c = true -> theirs r c;
  ag_open : chnl_state c = CST_OPEN -> ib_done c = true /\ ob_done c = true /\ l2c_ccb_timer c = Some None;
}.

(** A control block that is not in use. *)
Definition vacant (c : tL2C_CCB) : Prop :=
  in_use c = false /\ fcrb c = zero_FCRB /\ xmit_hold_q c = None /\ has_lcb c = false /\
  L2CAP_BASE_APPL_CID <= local_cid c < L2CAP_BASE_APPL_CID + MAX_L2CAP_CHANNELS.

(** A packet of the signalling channel. *)
Definition sig_packet (body : list Z) : Prop :=
  exists h l rest, length h = 4%nat /\ body = h ++ le16 l ++ le16 L2CAP_SIGNALLING_CID ++ rest.

(** The link, with nothing but such packets in its queue, and a round robin that stays inside the pool. *)
Record lcb_ok (l : tL2C_LCB) : Prop := {
  lk_rr : rr_bound l = true;
  lk_bredr : lcb_le l = false;
  lk_timer : info_resp_timer l <> None;
  lk_mask : length (peer_chnl_mask l) = 8%nat;
  lk_queue : Forall sig_packet (map bh_payload (link_xmit_data_q l));
}.

(** The channel is [c], and no data has been delivered. *)
Record stands (c : tL2C_CCB) (s : l2c) : Prop := {
  sd_ccb : ccb s = c;
  sd_lcb : lcb_ok (lcb s);
  sd_delivered : delivered (outs s) = [];
}.

Definition setup_inv (s : l2c) : Prop :=
  exists c, stands c s /\ ((exists r, live r c /\ agreed r c) \/ vacant c).

(** ** Lemmas: primitive operations *)

Section Primitive.
Context (c : tL2C_CCB) (s : l2c) (H : stands c s).

Lemma st_get_ccb Q : Q c s -> runs get_ccb s Q.
Proof using H. destruct H as [<- _ _]. done. Qed.

Lemma st_get_fcrb Q : Q (fcrb c) s -> runs get_fcrb s Q.
Proof using H. destruct H as [<- _ _]. done. Qed.

Lemma st_get_rcb r Q : p_rcb c = Some r -> Q r s -> runs get_rcb s Q.
Proof using H. destruct H as [<- _ _]. apply runs_get_rcb. Qed.

Lemma st_get_lcb Q : has_lcb c = true -> (lcb_ok (lcb s) -> Q (lcb s) s) -> runs get_lcb s Q.
Proof using H. destruct H as [<- Hl _]. intros Hc HQ. apply runs_get_lcb; auto. Qed.

Lemma st_upd_ccb f Q : (forall s', stands (f c) s' -> Q tt s') -> runs (upd_ccb f) s Q.
Proof using H. intros HQ. apply runs_upd_ccb, HQ. by destruct H as [<- Hl Hd]. Qed.

Lemma st_upd_fcrb f Q : (forall s', stands (c <| fcrb ::= f |>) s' -> Q tt s') -> runs (upd_fcrb f) s Q.
Proof using H. intros HQ. apply runs_upd_fcrb, HQ. by destruct H as [<- Hl Hd]. Qed.

Lemma st_upd_link f Q : (lcb_ok (lcb s) -> lcb_ok (f (lcb s))) -> (forall s', stands c s' -> Q tt s') -> runs (upd_link f) s Q.
Proof using H. intros Hf HQ. apply runs_upd_link, HQ. destruct H as [<- Hl Hd]. constructor; auto. Qed.

Lemma st_upd_lcb f Q : has_lcb c = true -> (lcb_ok (lcb s) -> lcb_ok (f (lcb s))) -> (forall s', stands c s' -> Q tt s') -> runs (upd_lcb f) s Q.
Proof using H. intros Hc Hf HQ. apply runs_upd_lcb; [by destruct H as [-> _ _]|]. apply HQ. destruct H as [<- Hl Hd]. constructor; auto. Qed.

Lemma st_emit o Q : delivered [o] = [] -> (forall s', stands c s' -> Q tt s') -> runs (emit o) s Q.
Proof using H.
  intros Ho HQ. apply runs_emit, HQ. destruct H as [<- Hl Hd]. constructor; [done|done|]. cbn [outs set set_outs]. by destruct o.
Qed.

Lemma st_callback has o r Q : p_rcb c = Some r -> has r = true -> (forall s', stands c s' -> Q tt s') -> runs (callback has o) s Q.
Proof using H. intros Hr Hh HQ. unfold callback. apply runs_bind, (st_get_rcb r); [done|]. rewrite Hh. by apply st_emit. Qed.

Lemma st_start_timer ms Q : l2c_ccb_timer c <> None ->
  (forall s', stands (c <| l2c_ccb_timer := Some (Some ms) |>) s' -> Q tt s') -> runs (start_ccb_timer ms) s Q.
Proof using H.
  intros Ht HQ. unfold start_ccb_timer. apply runs_bind, st_get_ccb. apply runs_bind, runs_lift.
  destruct (l2c_ccb_timer c) as [t|]; [|done]. cbn [alarm_set_on_mloop returns]. by apply st_upd_ccb.
Qed.
End Primitive.

(** One operation on a channel that stands as a hypothesis says. *)
Ltac astep :=
  lazymatch goal with
  | |- runs (mbind _ _) _ _ => apply runs_bind
  | |- runs (mret _) _ _ => apply runs_ret
  | |- runs skip _ _ => apply runs_skip
  | H : stands ?c ?s |- runs get_ccb ?s _ => apply (st_get_ccb c s H)
  | H : stands ?c ?s |- runs get_fcrb ?s _ => apply (st_get_fcrb c s H)
  | H : stands ?c ?s |- runs get_link ?s _ => apply runs_get_link
  | H : stands ?c ?s |- runs get ?s _ => apply runs_get; rewrite ?(sd_ccb c s H)
  | H : stands ?c ?s |- runs (upd_ccb _) ?s _ => apply (st_upd_ccb c s H); clear s H; intros s H
  | H : stands ?c ?s |- runs (set_state _) ?s _ => apply (st_upd_ccb c s H); clear s H; intros s H
  | H : stands ?c ?s |- runs cancel_ccb_timer ?s _ => apply (st_upd_ccb c s H); clear s H; intros s H
  | H : stands ?c ?s |- runs (upd_fcrb _) ?s _ => apply (st_upd_fcrb c s H); clear s H; intros s H
  | H : stands ?c ?s |- runs (emit _) ?s _ => apply (st_emit c s H); [done|]; clear s H; intros s H
  | H : stands ?c ?s |- runs (start_ccb_timer _) ?s _ => apply (st_start_timer c s H); [try done|]; [..|clear s H; intros s H]
  | |- runs (when true ?m) _ _ => change (when true m) with m
  | |- runs (when false ?m) _ _ => change (when false m) with skip
  end; cbv beta iota zeta.
Ltac asteps := repeat astep.

(** ** Lemmas: the link *)

(** The channel has nothing for the link to send. *)
Definition nothing_held (c : tL2C_CCB) : Prop := fixed_queue_is_empty (xmit_hold_q c) = true /\ fixed_queue_is_empty (retrans_q (fcrb c)) = true.

Lemma live_nothing_held r c : live r c -> nothing_held c.
Proof. intros []. unfold nothing_held. destruct lv_fcrb0. by rewrite lv_hold0, if_retr0. Qed.

Lemma vacant_nothing_held c : vacant c -> nothing_held c.
Proof. intros (_ & E & E' & _). unfold nothing_held. by rewrite E, E'. Qed.

(** The bytes of a command. *)
Definition cmd_packet `{LE : LinkEnv} (l : tL2C_LCB) (code id : Z) (params : list Z) : list Z :=
  le16 (lcb_handle l .| non_flushable_pbf) ++ le16 (Z.of_nat (length params) + 8) ++ le16 (Z.of_nat (length params) + 4) ++
  le16 L2CAP_SIGNALLING_CID ++ [u8 code; u8 id] ++ le16 (Z.of_nat (length params)) ++ params.

Section Link.
Context `{LE : LinkEnv} `{SE : SigEnv}.

Lemma stands_unserved c s : stands c s -> nothing_held c -> unserved s.
Proof.
  intros [<- [Hr Hb _ _ _] _] [E1 E2]. split; [|done]. unfold can_serve. rewrite E1, E2, Hb. cbn [negb orb andb].
  by repeat case_match; rewrite ?andb_false_r.
Qed.

Lemma drains_stands more c s s' : stands c s -> drains more s s' -> Forall sig_packet more -> stands c s'.
Proof.
  intros [<- [Hr Hb Ht Hm Hq] Hd] [E1 E2 _ _ Er E4 (new & Eo & Hn & Eq)] Hmore. injection E4 as _ _ _ Et _ Em.
  constructor; [done| |by rewrite Eo, link_outputs_delivered]. constructor; [congruence|congruence|congruence|congruence|].
  assert (Hall : Forall sig_packet (map bh_payload (link_xmit_data_q (lcb s)) ++ more)) by by apply Forall_app.
  rewrite Eq in Hall. by apply Forall_app in Hall as [_ ?].
Qed.

Lemma st_send c s b Q : stands c s -> nothing_held c -> sig_packet (bh_payload b) -> (forall s', stands c s' -> Q tt s') ->
  runs (l2c_link_check_send_pkts 0 (Some b)) s Q.
Proof.
  intros H Hn Hb HQ. eapply runs_mono; [by apply check_send_drains, (stands_unserved c)|]. cbv beta. intros [] s' D. apply HQ.
  eapply drains_stands; [done..|]. by constructor.
Qed.

Lemma st_ccb_send c s b Q : stands c s -> has_lcb c = true -> nothing_held c -> sig_packet (bh_payload b) -> (forall s', stands c s' -> Q tt s') ->
  runs (ccb_check_send_pkts 0 (Some b)) s Q.
Proof. intros H Hl Hn Hb HQ. unfold ccb_check_send_pkts. astep. astep. rewrite Hl. by apply (st_send c). Qed.

(** ** Lemmas: commands *)

Lemma cmd_packet_sig l code id params : sig_packet (cmd_packet l code id params).
Proof. unfold cmd_packet. rewrite app_assoc. eexists _, _, _. split; [|reflexivity]. done. Qed.

Lemma build_cmd_ok l len code id params : lcb_le l = false -> len = Z.of_nat (length params) -> len <= 640 ->
  exists b, build_cmd l len code id params = Ok b /\ bh_payload b = cmd_packet l code id params.
Proof.
  intros El -> Hlen. unfold build_cmd, l2cu_build_header. rewrite El. destruct (cmd_buf_split 0 (12 + length params)) as (d & Ed); [lia|].
  rewrite replicate_add, <- app_assoc in Ed. cbn [app] in Ed.
  match goal with |- context [bh_write ?p _ ?h] => rewrite (bh_write_mid p [] (replicate 12 0) h (replicate (length params) 0 ++ d)); [|exact Ed|done|done] end.
  cbn [mbind outcome_bind]. match goal with |- context [bh_write ?p _ ?h] => set (q := p) end.
  erewrite (bh_write_mid q _ (replicate (length params) 0) params d); [|unfold q; bh_cbn; rewrite app_nil_l; reflexivity|by rewrite length_replicate|done].
  eexists. split; [done|]. eapply (holds_payload _ [] _ d). constructor; bh_cbn.
  - unfold cmd_packet. replace (Z.of_nat (length params) + 8) with (Z.of_nat (length params) + L2CAP_PKT_OVERHEAD + L2CAP_CMD_OVERHEAD);
      [by rewrite <- !app_assoc|]. unfold L2CAP_PKT_OVERHEAD, L2CAP_CMD_OVERHEAD. lia.
  - done.
  - unfold q. bh_cbn. unfold cmd_packet. rewrite !length_app. cbn [length le16].
    rewrite u16_id; unfold is_u16, HCI_DATA_PREAMBLE_SIZE, L2CAP_PKT_OVERHEAD, L2CAP_CMD_OVERHEAD; lia.
Qed.

Lemma st_cmd c s l len code id params Q : stands c s -> nothing_held c -> lcb_le l = false -> len = Z.of_nat (length params) -> len <= 640 ->
  (forall s', stands c s' -> Q tt s') -> runs (p_buf ← lift (build_cmd l len code id params); l2c_link_check_send_pkts 0 (Some p_buf)) s Q.
Proof.
  intros H Hn El Hlen Hm HQ. destruct (build_cmd_ok l len code id params El Hlen Hm) as (b & E & Hb). astep. apply runs_lift. rewrite E.
  apply (st_send c); [done|done| |done]. rewrite Hb. apply cmd_packet_sig.
Qed.

Lemma st_ccb_cmd c s l len code id params Q : stands c s -> has_lcb c = true -> nothing_held c -> lcb_le l = false ->
  len = Z.of_nat (length params) -> len <= 640 -> (forall s', stands c s' -> Q tt s') ->
  runs (p_buf ← lift (build_cmd l len code id params); ccb_check_send_pkts 0 (Some p_buf)) s Q.
Proof.
  intros H Hl Hn El Hlen Hm HQ. destruct (build_cmd_ok l len code id params El Hlen Hm) as (b & E & Hb). astep. apply runs_lift. rewrite E.
  apply (st_ccb_send c); [done..| |done]. rewrite Hb. apply cmd_packet_sig.
Qed.

Lemma next_signal_ok l : lcb_ok l -> lcb_ok (next_signal_id l).
Proof. by intros []. Qed.

Lemma st_new_local_id c s Q : stands c s -> has_lcb c = true ->
  (forall l s', lcb_ok l -> stands (c <| local_id := signal_id l |>) s' -> Q l s') -> runs new_local_id s Q.
Proof.
  intros H Hl HQ. unfold new_local_id. astep. apply (st_upd_lcb c s H); [done|apply next_signal_ok|]. clear s H. intros s H. astep.
  apply (st_get_lcb c s H); [done|]. intros Hlcb. set (l := lcb s) in *. clearbody l. astep. astep. astep. by apply HQ.
Qed.

Lemma cmd_reject_st c s reason id p1 p2 Q : stands c s -> nothing_held c -> (forall s', stands c s' -> Q tt s') ->
  runs (l2cu_send_peer_cmd_reject reason id p1 p2) s Q.
Proof.
  intros H Hn HQ. unfold l2cu_send_peer_cmd_reject. astep. astep. apply (st_cmd c); [done|done|apply H|..|done].
  all: destruct (reason =? L2CAP_CMD_REJ_MTU_EXCEEDED); [done|]; by destruct (reason =? L2CAP_CMD_REJ_INVALID_CID).
Qed.

Lemma is_cmd_rejected_st c s code id Q : stands c s -> nothing_held c -> (forall b s', stands c s' -> Q b s') -> runs (l2c_is_cmd_rejected code id) s Q.
Proof.
  intros H Hn HQ. unfold l2c_is_cmd_rejected. case_match; [|astep; by apply HQ]. astep. apply (cmd_reject_st c); [done..|].
  intros s' H'. astep. by apply HQ.
Qed.

Lemma reject_connection_st c s rcid id result Q : stands c s -> nothing_held c -> (forall s', stands c s' -> Q tt s') ->
  runs (l2cu_reject_connection rcid id result) s Q.
Proof. intros H Hn HQ. unfold l2cu_reject_connection. astep. astep. by apply (st_cmd c); [done|done|apply H|..]. Qed.

Lemma disc_rsp_st c s id lcid rcid Q : stands c s -> nothing_held c -> (forall s', stands c s' -> Q tt s') ->
  runs (l2cu_send_peer_disc_rsp id lcid rcid) s Q.
Proof. intros H Hn HQ. unfold l2cu_send_peer_disc_rsp. astep. astep. by apply (st_cmd c); [done|done|apply H|..]. Qed.

Lemma info_rsp_st c s id type Q : stands c s -> nothing_held c -> (forall s', stands c s' -> Q tt s') ->
  runs (l2cu_send_peer_info_rsp id type) s Q.
Proof.
  intros H Hn HQ. unfold l2cu_send_peer_info_rsp. astep. astep. cbv zeta. apply (st_cmd c); [done|done|apply H|..|done].
  all: destruct (type =? L2CAP_EXTENDED_FEATURES_INFO_TYPE); [done|]; destruct (type =? L2CAP_FIXED_CHANNELS_INFO_TYPE); [done|];
    by destruct (type =? L2CAP_CONNLESS_MTU_INFO_TYPE).
Qed.

Lemma info_req_st c s type Q : stands c s -> nothing_held c -> (forall s', stands c s' -> Q tt s') ->
  runs (l2cu_send_peer_info_req type) s Q.
Proof.
  intros H Hn HQ. unfold l2cu_send_peer_info_req. astep. apply (st_upd_link c s H); [apply next_signal_ok|]. clear s H. intros s H.
  astep. astep. pose proof (sd_lcb _ _ H) as Hl. destruct (build_cmd_ok (lcb s) 2 L2CAP_CMD_INFO_REQ (signal_id (lcb s)) (le16 type)) as (b & E & Hb); [apply Hl|done|done|].
  assert (Hs : sig_packet (bh_payload b)) by (rewrite Hb; apply cmd_packet_sig). clear Hb.
  astep. apply runs_lift. rewrite E. cbn [returns]. astep. apply runs_lift. pose proof (lk_timer _ Hl) as Ht.
  destruct (info_resp_timer (lcb s)) as [t|]; [|done]. cbn [alarm_set_on_mloop returns]. astep.
  apply (st_upd_link c s H); [by intros []|]. clear s H Hl E Ht. intros s H. by apply (st_send c).
Qed.

Lemma connect_req_st r c s Q : stands c s -> has_lcb c = true -> p_rcb c = Some r -> nothing_held c ->
  (forall id s', stands (c <| local_id := id |>) s' -> Q tt s') -> runs l2cu_send_peer_connect_req s Q.
Proof.
  intros H Hl Hr Hn HQ. unfold l2cu_send_peer_connect_req. astep. apply (st_new_local_id c); [done..|]. clear s H. intros l s Hlcb H. astep. astep. astep.
  apply (st_get_rcb _ s H r); [done|]. apply (st_ccb_cmd (c <| local_id := signal_id l |>)); [done|done|done|apply Hlcb|done|done|apply HQ].
Qed.

Lemma stands_flags c s : stands c s -> stands (c <| ccb_flags := ccb_flags c |>) s.
Proof. intros [<- ? ?]. constructor; [by destruct s as [[]]|done..]. Qed.

Lemma connect_rsp_st c s result status Q : stands c s -> has_lcb c = true -> nothing_held c ->
  (forall fl s', stands (c <| ccb_flags := fl |>) s' -> Q tt s') -> runs (l2cu_send_peer_connect_rsp result status) s Q.
Proof.
  intros H Hl Hn HQ. unfold l2cu_send_peer_connect_rsp. astep. astep.
  case_match; [astep; by eapply HQ, stands_flags|]. astep.
  assert (Hk : forall fl s', stands (c <| ccb_flags := fl |>) s' ->
    runs (l ← get_lcb; p_buf ← lift (build_cmd l L2CAP_CONN_RSP_LEN L2CAP_CMD_CONN_RSP (remote_id c)
            (le16 (local_cid c) ++ le16 (remote_cid c) ++ le16 result ++ le16 status)); ccb_check_send_pkts 0 (Some p_buf)) s' Q).
  { intros fl s' H'. astep. apply (st_get_lcb _ s' H'); [done|]. intros Hlcb. apply (st_ccb_cmd (c <| ccb_flags := fl |>)); [done|done|done|apply Hlcb|done|done|apply HQ]. }
  apply runs_when; intros _; [|by eapply Hk, stands_flags]. astep. exact (Hk _ _ H).
Qed.

(** *** Configurations *)

Lemma length_cfg_options g tout fcs : Z.of_nat (length (cfg_options g tout fcs)) = cfg_len g fcs.
Proof.
  unfold cfg_options, cfg_len. rewrite !length_app, !Nat2Z.inj_add.
  destruct (mtu_present g), (flush_to_present g), (qos_present g), (fcr_present g), (fcs && fcs_present g), (ext_flow_spec_present g); done.
Qed.

Lemma cfg_len_bound g fcs : 0 <= cfg_len g fcs <= 64.
Proof.
  unfold cfg_len. destruct (mtu_present g), (flush_to_present g), (qos_present g), (fcr_present g), (fcs && fcs_present g), (ext_flow_spec_present g);
    vm_compute; split; discriminate.
Qed.

Lemma config_req_st c s g Q : stands c s -> has_lcb c = true -> nothing_held c ->
  (forall id s', stands (c <| local_id := id |>) s' -> Q tt s') -> runs (l2cu_send_peer_config_req g) s Q.
Proof.
  intros H Hl Hn HQ. unfold l2cu_send_peer_config_req. astep. apply (st_new_local_id c); [done..|]. clear s H. intros l s Hlcb H. astep. astep.
  pose proof (length_cfg_options g (cfg_fcr g) true). pose proof (cfg_len_bound g true).
  apply (st_ccb_cmd (c <| local_id := signal_id l |>)); [done|done|done|apply Hlcb| | |apply HQ].
  all: rewrite ?length_app; cbn [length le16]; unfold L2CAP_CONFIG_REQ_LEN; lia.
Qed.

Lemma config_rsp_st c s g Q : stands c s -> has_lcb c = true -> nothing_held c ->
  (forall s', stands c s' -> Q tt s') -> runs (l2cu_send_peer_config_rsp g) s Q.
Proof.
  intros H Hl Hn HQ. unfold l2cu_send_peer_config_rsp. astep. astep. astep. apply (st_get_lcb _ s H); [done|]. intros Hlcb.
  pose proof (length_cfg_options g (cfg_fcr (our_cfg c)) false). pose proof (cfg_len_bound g false).
  apply (st_ccb_cmd c); [done|done|done|apply Hlcb| | |done].
  all: rewrite ?length_app; cbn [length le16]; unfold L2CAP_CONFIG_RSP_LEN; lia.
Qed.
End Link.
