(* ===== verification/L2cSetupCsm.v ===== *)
(** * L2cSetupCsm: the state machine keeps the invariant

    Every event returns from a channel in use on which there is no data, and leaves such a channel or releases it.  A channel opens only when both
    sides have agreed on its configuration. *)

From Stdlib Require Import ZArith Lia.
From stdpp Require Import base list.
From S2P Require Import Prelude Osi L2cDefs L2cFcr L2cSig L2cCsm L2cCmd L2cRun L2cInv L2cTx L2cLink L2cDrain L2cEvents L2cSetup.

(** A channel that has been released. *)
Definition freed (c : tL2C_CCB) : tL2C_CCB :=
  c <| l2c_ccb_timer := None |> <| xmit_hold_q := None |> <| fcrb := zero_FCRB |>
    <| has_lcb := has_lcb c && (local_cid c <? L2CAP_BASE_APPL_CID) |> <| in_use := false |>
    <| remote_cid := 0 |> <| local_id := 0 |>.

(** The configuration in an event: the options that are there have numbers that 16 bits can hold. *)
Definition cfg_wf (g : tL2CAP_CFG_INFO) : Prop :=
  (mtu_present g = true -> 0 <= cfg_mtu g < 65536) /\ (fcr_present g = true -> 0 <= fcr_mps (cfg_fcr g)).

(** In the course of the negotiation nothing is lost that has been agreed on. *)
Record nego (r : tL2C_RCB) (c c' : tL2C_CCB) : Prop := {
  ng_live : live r c';
  ng_state : chnl_state c' = chnl_state c;
  ng_done : config_done c' = config_done c;
  ng_ours : ours r c -> ours r c';
  ng_theirs : theirs r c -> theirs r c';
}.

(** The mode, the window and the other options of the peer. *)
Definition mode_taken (r : tL2C_RCB) (c : tL2C_CCB) : Prop :=
  fcr_mode (cfg_fcr (peer_cfg c)) = preferred_mode r /\ (preferred_mode r = L2CAP_FCR_ERTM_MODE -> 0 < fcr_mps (cfg_fcr (peer_cfg c)) <= 4087).

(** What the options other than the mode come to. *)
Definition option_done (r : tL2C_RCB) (c : tL2C_CCB) (g : tL2CAP_CFG_INFO) (res : bool * tL2CAP_CFG_INFO) (s' : l2c) : Prop :=
  cfg_fcr res.2 = cfg_fcr g /\ fcr_present res.2 = fcr_present g /\ exists c', stands c' s' /\ nego r c c'.

(** The channel is open; the timer is stopped. *)
Definition opened (c : tL2C_CCB) (q : Z) : tL2C_CCB :=
  c <| config_done := config_done c .| RECONFIG_FLAG |> <| chnl_state := CST_OPEN |> <| buff_quota := q |> <| l2c_ccb_timer := alarm_cancel (l2c_ccb_timer c) |>.

(** A channel in use that has been agreed on as far as its state says, or one that has been released; its registration is still known. *)
Definition stays (r : tL2C_RCB) (s : l2c) : Prop := exists c, stands c s /\ p_rcb c = Some r /\ (live r c /\ agreed r c \/ vacant c).

(** * Lemmas *)

Lemma live_use r c (P : tL2C_CCB -> tL2C_CCB) : live r c ->
  in_use (P c) = in_use c -> has_lcb (P c) = has_lcb c -> p_rcb (P c) = p_rcb c -> initiator_local (P c) = initiator_local c ->
  xmit_hold_q (P c) = xmit_hold_q c -> cong_sent (P c) = cong_sent c -> 0 <= buff_quota (P c) -> idle_fcrb (fcrb (P c)) ->
  l2c_ccb_timer (P c) <> None -> local_cid (P c) = local_cid c -> 0 < cfg_mtu (peer_cfg (P c)) < 65536 -> live r (P c).
Proof. intros [] E1 E2 E3 E4 E5 E6 E7 E8 E9 E10 E11. constructor; rewrite ?E1, ?E2, ?E3, ?E4, ?E5, ?E6, ?E10; done. Qed.

(** A change of fields that the invariant does not read, or reads only as the hypotheses say. *)
Ltac live_upd HL := let H := fresh in pose proof HL as H; destruct H; constructor; try done.

Lemma agreed_same r c c' : agreed r c -> chnl_state c' = chnl_state c -> config_done c' = config_done c -> our_cfg c' = our_cfg c ->
  peer_cfg c' = peer_cfg c -> tx_mps c' = tx_mps c -> l2c_ccb_timer c' = l2c_ccb_timer c -> agreed r c'.
Proof.
  intros [H1 H2 H3] E1 E2 E3 E4 E5 E6. unfold ours, theirs, ib_done, ob_done in *.
  constructor; unfold ours, theirs, ib_done, ob_done; by rewrite ?E1, ?E2, ?E3, ?E4, ?E5, ?E6.
Qed.

(** In a state other than those of the configuration. *)
Lemma agreed_apart r c c' : agreed r c -> chnl_state c' <> CST_CONFIG -> chnl_state c' <> CST_OPEN -> config_done c' = config_done c ->
  peer_cfg c' = peer_cfg c -> tx_mps c' = tx_mps c -> agreed r c'.
Proof.
  intros [H1 H2 H3] N1 N2 E2 E4 E5. constructor; [by intros []| |done]. unfold ib_done, theirs in *. by rewrite E2, E4, E5.
Qed.

Lemma inv_live r c s : stands c s -> live r c -> agreed r c -> setup_inv s.
Proof. intros H HL HA. exists c. split; [done|]. left. by exists r. Qed.

Lemma inv_vacant c s : stands c s -> vacant c -> setup_inv s.
Proof. intros H HV. exists c. auto. Qed.

Lemma vacant_freed r c : live r c -> vacant (freed c).
Proof.
  intros HL. pose proof (lv_local _ _ HL). unfold vacant, freed. split_and!; [done..| |apply HL|apply HL]. cbn [has_lcb set set_has_lcb set_in_use set_remote_cid set_local_id].
  destruct (Z.ltb_spec (local_cid c) L2CAP_BASE_APPL_CID); [lia|apply andb_false_r].
Qed.

Section Link.
Context `{LE : LinkEnv} `{SE : SigEnv}.

(** ** Releasing *)

Lemma release_st r c s Q : stands c s -> live r c -> (forall s', stands (freed c) s' -> Q tt s') -> runs l2cu_release_ccb s Q.
Proof.
  intros H HL HQ. pose proof HL as []. unfold l2cu_release_ccb, l2c_fcr_cleanup. astep. astep. rewrite lv_in_use. cbn [negb].
  astep. astep. astep. astep. astep. astep. astep. by apply HQ.
Qed.

Lemma indicate_st r c s : stands c s -> live r c -> runs release_and_indicate s (fun _ s' => stands (freed c) s').
Proof. intros H HL. unfold release_and_indicate. astep. astep. astep. apply (release_st r c); [done..|]. clear s H. intros s H. by astep. Qed.

Lemma indicate_inv r c s : stands c s -> live r c -> runs release_and_indicate s (fun _ s' => setup_inv s').
Proof.
  intros H HL. eapply runs_mono; [by eapply indicate_st|]. cbv beta. intros _ s' H'. eapply inv_vacant; [done|by eapply vacant_freed].
Qed.

Lemma release_inv r c s : stands c s -> live r c -> runs l2cu_release_ccb s (fun _ s' => setup_inv s').
Proof. intros H HL. apply (release_st r c); [done..|]. intros s' H'. eapply inv_vacant; [done|by eapply vacant_freed]. Qed.

Lemma error_inv r c s reason : stands c s -> live r c -> runs (release_with_error reason) s (fun _ s' => setup_inv s').
Proof.
  intros H HL. unfold release_with_error. astep. astep. astep. apply (release_st r c); [done..|]. clear s H. intros s H.
  apply (st_callback _ s H _ _ r); [apply HL|apply HL|]. intros s' H'. eapply inv_vacant; [done|by eapply vacant_freed].
Qed.

Lemma confirm_inv r c s result : stands c s -> live r c -> runs (release_and_confirm result) s (fun _ s' => setup_inv s').
Proof.
  intros H HL. unfold release_and_confirm. astep. astep. astep. apply (st_get_rcb _ s H r); [apply HL|]. astep. apply (release_st r c); [done..|].
  clear s H. intros s H. assert (HV := vacant_freed r c HL). apply runs_when; intros _; [astep|]; by eapply inv_vacant.
Qed.

(** ** The request to disconnect *)

Lemma disc_req_st r c s Q : stands c s -> live r c -> (forall id s', stands (c <| local_id := id |>) s' -> Q tt s') ->
  runs l2cu_send_peer_disc_req s Q.
Proof.
  intros H HL HQ. pose proof HL as []. pose proof (live_nothing_held _ _ HL) as Hn. unfold l2cu_send_peer_disc_req. astep. astep. rewrite lv_lcb. cbn [negb].
  astep. apply (st_upd_lcb c s H); [done|apply next_signal_ok|]. clear s H. intros s H. astep. apply (st_get_lcb c s H); [done|]. intros Hl.
  set (l := lcb s) in *. clearbody l. astep. astep. assert (Hb := disc_req_bytes l (signal_id l) (remote_cid c) (local_cid c) (lk_bredr _ Hl)).
  astep. apply runs_lift. refine (returns_mono _ _ _ (returns_bind_inv _ _ _ Hb) _). clear Hb. intros p1 Hb. cbv beta in Hb.
  astep. apply runs_lift. refine (returns_mono _ _ _ Hb _). clear Hb. intros p2 (h & rest & post & Hh & Hp2). cbv beta. rewrite lv_hold.
  set (c1 := c <| local_id := signal_id l |>) in *.
  assert (Hsend : forall s', stands c1 s' -> runs (ccb_check_send_pkts 0 (Some p2)) s' Q).
  { intros s' H'. apply (st_ccb_send c1); [done|done|done| |apply HQ]. rewrite (holds_payload _ _ _ _ Hp2). by exists h, 8, rest. }
  cbn [fixed_queue_length length Z.of_nat Z.to_nat move_held]. astep. apply runs_when; intros _; [|by apply Hsend]. astep. astep.
  change (xmit_hold_q c1) with (xmit_hold_q c). rewrite lv_hold. cbn [fixed_queue_try_dequeue]. astep. by apply Hsend.
Qed.

Lemma disconnect_inv r c s : stands c s -> live r c -> runs l2cu_disconnect_chnl s (fun _ s' => exists id, stands (freed (c <| local_id := id |>)) s').
Proof.
  intros H HL. unfold l2cu_disconnect_chnl. astep. astep. destruct (Z.leb_spec L2CAP_BASE_APPL_CID (local_cid c)); [|destruct HL; lia].
  astep. apply (st_get_rcb _ s H r); [apply HL|]. astep. apply (disc_req_st r c); [done..|]. clear s H. intros id s H. astep.
  apply (release_st r (c <| local_id := id |>)); [done|by live_upd HL|]. clear s H. intros s H. astep. by exists id.
Qed.

(** ** Negotiation *)

Lemma nego_refl r c : live r c -> nego r c c.
Proof. by constructor. Qed.

Lemma nego_trans r c c1 c2 : nego r c c1 -> nego r c1 c2 -> nego r c c2.
Proof. intros [] []. constructor; try congruence; auto. Qed.

(** The options of the peer other than the mode. *)
Lemma nego_peer r c f : live r c -> (forall g, cfg_fcr (f g) = cfg_fcr g) -> 0 < cfg_mtu (f (peer_cfg c)) < 65536 -> nego r c (c <| peer_cfg ::= f |>).
Proof.
  intros HL Hf Hm. constructor; [by live_upd HL|done|done|done|]. unfold theirs. cbn [peer_cfg set set_peer_cfg]. by rewrite Hf.
Qed.

Lemma fcr_peer_cfg_req_st r c s g Q : stands c s -> live r c -> (fcr_present g = true -> 0 <= fcr_mps (cfg_fcr g)) ->
  (fcr_present g = false -> fcr_mode (cfg_fcr g) = L2CAP_FCR_BASIC_MODE) ->
  (forall res g' c' s', stands c' s' -> nego r c c' -> (res = L2CAP_PEER_CFG_OK -> mode_taken r c') -> Q (res, g') s') ->
  runs (l2c_fcr_process_peer_cfg_req g) s Q.
Proof.
  intros H HL Hmps Hb HQ. pose proof HL as []. unfold l2c_fcr_process_peer_cfg_req. astep. apply (st_upd_lcb c s H); [done|by intros []|].
  clear s H. intros s H. astep. apply (st_get_rcb _ s H r); [done|]. astep. astep. cbv zeta.
  destruct (Z.eqb_spec (fcr_mode (cfg_fcr g)) (preferred_mode r)) as [Em|Nm]; cbn [negb].
  - astep. astep. rewrite Z.eqb_refl. astep. astep. astep. eapply HQ; [done|..].
    + constructor; [live_upd HL; by destruct (_ && fcs_present _)|done|done|done|]. unfold theirs. cbn [peer_cfg tx_mps set set_out_cfg_fcr_present set_peer_cfg].
      intros [_ Ht]. split; [|done]. by repeat case_match.
    + intros _. unfold mode_taken. cbn [peer_cfg set set_out_cfg_fcr_present set_peer_cfg]. split; [by repeat case_match|]. intros Ee.
      assert (Hp : fcr_present g = true) by (destruct (fcr_present g); [done|]; rewrite Hb, Ee in Em; done).
      specialize (Hmps Hp). rewrite Hp, Em, Ee. cbn [negb andb cfg_fcr set set_cfg_fcr]. change (BT_DEFAULT_BUFFER_SIZE - _ - _ - _ - _) with 4087.
      change (L2CAP_FCR_ERTM_MODE =? L2CAP_FCR_BASIC_MODE) with false. cbn [negb]. cbn [cfg_fcr fcr_mps set set_cfg_fcr set_fcr_mps].
      destruct (Z.eqb_spec (fcr_mps (cfg_fcr g)) 0), (Z.ltb_spec (cfg_mtu (peer_cfg c)) (fcr_mps (cfg_fcr g))); cbn [orb];
        match goal with |- context [4087 <? ?x] => destruct (Z.ltb_spec 4087 x) end; lia.
  - set (c1 := c <| our_cfg ::= fun g0 => g0 <| cfg_fcr ::= fun o => o <| rtrans_tout := 0 |> <| mon_tout := 0 |> <| fcr_mps := 0 |> |> |>).
    enough (Hk : forall g' c0 s0, c0 = c \/ c0 = c1 -> stands c0 s0 ->
      runs (if peer_cfg_already_rejected c then mret (L2CAP_PEER_CFG_DISCONNECT, g')
            else upd_ccb (fun c => c <| peer_cfg_already_rejected := true |>);; mret (L2CAP_PEER_CFG_UNACCEPTABLE, g')) s0 Q).
    { destruct (_ || _) eqn:E; [astep; astep; apply (Hk _ c); auto|]. apply orb_false_iff in E as [_ E]. apply Z.eqb_neq in E.
      destruct (rk_mode _ lv_rcb_ok) as [Eb|Ee]; [|done]. rewrite Eb, Z.eqb_refl. astep. astep. astep. astep. apply (Hk _ c1); auto. }
    clear s H. intros g' c0 s Hc0 H. destruct (peer_cfg_already_rejected c); [astep|astep; astep; astep]; (eapply HQ; [done|..|done]);
      (constructor; [destruct Hc0 as [-> | ->]; by live_upd HL|destruct Hc0 as [-> | ->]; done..]).
Qed.

Lemma whole_multiple m k : 0 < k -> k <= m -> 0 < m `div` k * k <= m.
Proof.
  intros Hk Hm. pose proof (Z.div_mod m k). pose proof (Z.mod_pos_bound m k Hk). assert (0 < m `div` k) by (apply Z.div_str_pos; lia). nia.
Qed.

Lemma adjust_out_mps_st r c s Q : stands c s -> live r c -> mode_taken r c ->
  (forall c' s', stands c' s' -> nego r c c' -> theirs r c' -> Q tt s') -> runs l2cu_adjust_out_mps s Q.
Proof.
  intros H HL [Hm Hmps] HQ. unfold l2cu_adjust_out_mps. astep. apply (st_get_lcb c s H); [apply HL|]. intros _. astep. astep.
  generalize (max_packet_size (outs s)). intros k. astep.
  match type of H with stands ?x _ => assert (Ht : theirs r x) end.
  - split; [done|]. intros Ee. specialize (Hmps Ee). cbn [tx_mps set set_tx_mps]. case_match; [done|].
    match goal with |- context [?k <=? ?m] => destruct (Z.leb_spec k m) as [Hk|Hk] end; [|done].
    match goal with E : (_ <=? _) = false |- _ => apply Z.leb_gt in E end. split; [apply whole_multiple; lia|]. etrans; [apply whole_multiple; lia|apply Hmps].
  - eapply HQ; [done| |done]. constructor; try done. by live_upd HL.
Qed.

Lemma peer_cfg_req_st r c s g Q : stands c s -> live r c -> cfg_wf g ->
  (forall res g' c' s', stands c' s' -> nego r c c' -> (res = L2CAP_PEER_CFG_OK -> theirs r c') -> Q (res, g') s') ->
  runs (l2cu_process_peer_cfg_req g) s Q.
Proof.
  intros H HL [Hmtu Hmps] HQ. unfold l2cu_process_peer_cfg_req. pose proof HL as []. astep. apply (st_get_rcb c s H r); [done|]. astep. astep. cbv zeta.
  match goal with |- context [if fcr_present g then g else ?x] => set (g1 := if fcr_present g then g else x) end.
  assert (Hg1 : (fcr_present g1 = true -> 0 <= fcr_mps (cfg_fcr g1)) /\ (mtu_present g1 = true -> 0 <= cfg_mtu g1 < 65536) /\
                (fcr_present g1 = false -> fcr_mode (cfg_fcr g1) = L2CAP_FCR_BASIC_MODE)).
  { unfold g1. destruct (fcr_present g) eqn:E; [by rewrite E; auto|]. cbn. by rewrite E. }
  destruct Hg1 as (Hmps1 & Hmtu1 & Hb1). clearbody g1. clear g Hmps Hmtu. rename g1 into g.
  assert (Hret : forall ok g' s', stands c s' -> cfg_fcr g' = cfg_fcr g -> fcr_present g' = fcr_present g -> option_done r c g (ok, g') s').
  { intros ok g' s' H' E1 E2. split; [done|]. split; [done|]. exists c. split; [done|by apply nego_refl]. }
  astep. apply (runs_mono _ _ (option_done r c g)).
  { case_match; [astep; by apply Hret|]. destruct (mtu_present g); [|case_match; astep; by apply Hret]. specialize (Hmtu1 eq_refl).
    destruct (Z.leb_spec (Z.max L2CAP_MIN_MTU (rcb_required_remote_mtu r)) (cfg_mtu g)); [|astep; by apply Hret].
    astep. astep. astep. split; [by case_match|]. split; [by case_match|]. eexists. split; [done|]. apply nego_peer; [done|done|].
    cbn [cfg_mtu set set_cfg_mtu set_mtu_present]. unfold L2CAP_MIN_MTU, L2CAP_MTU_SIZE in *. case_match; cbn [cfg_mtu set set_cfg_mtu]; lia. }
  clear s H Hret. intros [mtu_ok g1] s (Ef1 & Ep1 & c1 & H & N1). cbn [snd] in Ef1, Ep1. cbv beta iota zeta.
  pose proof (ng_live _ _ _ N1) as HL1.
  assert (Hret : forall ok g' s', stands c1 s' -> cfg_fcr g' = cfg_fcr g1 -> fcr_present g' = fcr_present g1 -> option_done r c1 g1 (ok, g') s').
  { intros ok g' s' H' E1 E2. split; [done|]. split; [done|]. exists c1. split; [done|by apply nego_refl]. }
  astep. apply (runs_mono _ _ (option_done r c1 g1)).
  { case_match; [|case_match; astep; by apply Hret]. case_match; [astep; by apply Hret|]. astep. astep. astep. split; [done|]. split; [done|].
    eexists. split; [done|]. apply nego_peer; [done|done|apply HL1]. }
  clear s H Hret. intros [flush_ok g2] s (Ef2 & Ep2 & c2 & H & N2). cbn [snd] in Ef2, Ep2. cbv beta iota zeta.
  pose proof (ng_live _ _ _ N2) as HL2.
  assert (Hret : forall ok g' s', stands c2 s' -> cfg_fcr g' = cfg_fcr g2 -> fcr_present g' = fcr_present g2 -> option_done r c2 g2 (ok, g') s').
  { intros ok g' s' H' E1 E2. split; [done|]. split; [done|]. exists c2. split; [done|by apply nego_refl]. }
  astep. apply (runs_mono _ _ (option_done r c2 g2)).
  { case_match; [|case_match; astep; by apply Hret]. case_match; [|astep; by apply Hret]. astep. astep. astep. split; [done|]. split; [done|].
    eexists. split; [done|]. apply nego_peer; [done|done|apply HL2]. }
  clear s H Hret. intros [qos_ok g3] s (Ef3 & Ep3 & c3 & H & N3). cbn [snd] in Ef3, Ep3. cbv beta iota zeta.
  assert (N : nego r c c3) by (eapply nego_trans; [done|]; by eapply nego_trans). pose proof (ng_live _ _ _ N3) as HL3.
  astep. apply (fcr_peer_cfg_req_st r c3); [done|done|rewrite Ef3, Ef2, Ef1, Ep3, Ep2, Ep1; done..|].
  clear s H. intros res g4 c4 s H N4 Hok. assert (N' : nego r c c4) by by eapply nego_trans. pose proof (ng_live _ _ _ N4) as HL4.
  case_match; [astep; by eapply HQ|]. destruct (Z.eqb_spec res L2CAP_PEER_CFG_OK) as [-> |]; [|rewrite andb_false_r; astep; by eapply HQ].
  case_match; [|astep; by eapply HQ]. astep. apply (adjust_out_mps_st r c4); [done|done|by apply Hok|]. clear s H. intros c5 s H N5 Ht. astep.
  eapply HQ; [done|by eapply nego_trans|done].
Qed.

(** What has been agreed on so far, on the way to the end of the configuration. *)
Lemma nego_agreed r c c' : agreed r c -> chnl_state c <> CST_OPEN -> chnl_state c <> CST_CONFIG \/ ours r c -> nego r c c' -> agreed r c'.
Proof.
  intros [H1 H2 H3] No Nc [_ Es Ed Ho Ht]. constructor; rewrite ?Es.
  - intros [E|E]; [|done]. apply Ho, H1. auto.
  - unfold ib_done. rewrite Ed. intros E. by apply Ht, H2.
  - done.
Qed.

(** ** The configuration that is offered *)

Lemma our_cfg_req_st r c s g Q : stands c s -> live r c -> our_cfg c = g -> fcr_mode (cfg_fcr g) = preferred_mode r ->
  (if fcr_present g then cfg_fcr g = kDefaultErtmOptions else preferred_mode r = L2CAP_FCR_BASIC_MODE) ->
  (forall g' c' s', stands c' s' -> nego r c c' -> ours r c' -> Q g' s') -> runs (l2cu_process_our_cfg_req g) s Q.
Proof.
  intros H HL Eg Em Hg HQ. pose proof HL as []. unfold l2cu_process_our_cfg_req.
  assert (Hk : forall g' c0 s0, stands c0 s0 -> live r c0 -> c0 = c <| fcrb := fcrb c0 |> <| our_cfg := our_cfg c0 |> -> cfg_fcr (our_cfg c0) = cfg_fcr g ->
    fcr_mode (cfg_fcr g') = fcr_mode (cfg_fcr g) ->
    runs (upd_ccb (fun c => c <| our_cfg ::= fun g => g <| cfg_fcr ::= fun o => o <| fcr_mode := fcr_mode (cfg_fcr g') |> |>
                                                <| fcr_present := fcr_present g' |> |>);; mret g') s0 Q).
  { clear s H. intros g' c0 s H HL0 Ec Ef Em'. astep. astep. astep.
    match type of H with stands ?x _ => assert (Ho : ours r x) end.
    - split; [by cbn; rewrite Em'|]. intros Ee. cbn. rewrite Ef. destruct (fcr_present g); [by rewrite Hg|]. by rewrite Ee in Hg.
    - eapply HQ; [done|..|done]. constructor; [by live_upd HL0|by rewrite Ec|by rewrite Ec|done|]. by rewrite Ec. }
  astep. apply (runs_mono _ _ (fun _ s' => exists c0, stands c0 s' /\ live r c0 /\ c0 = c <| fcrb := fcrb c0 |> <| our_cfg := our_cfg c0 |> /\ cfg_fcr (our_cfg c0) = cfg_fcr g)).
  { apply runs_when; intros _; [astep|]; eexists; (split; [done|]); (split; [by live_upd HL|]); split; try (by destruct c); by rewrite <- Eg. }
  clear s H. intros [] s (c0 & H & HL0 & Ec & Ef). astep.
  destruct (fcr_present g) eqn:Ep; [|astep; apply (Hk _ c0); [done|done|done|done|]; rewrite Em, Hg; done].
  astep. astep. astep. apply (st_get_lcb _ s H); [apply HL0|]. intros _. astep. eapply Hk; [done|by live_upd HL0; destruct lv_fcrb0; constructor| | |].
  - rewrite Ec at 1. done.
  - done.
  - rewrite Hg. by repeat case_match.
Qed.

Lemma execute_at d c s event st Q : stands c s -> in_use c = true -> chnl_state c = st ->
  runs (match st with
        | CST_CLOSED => l2c_csm_closed (csm_execute d) event;; mret None
        | CST_ORIG_W4_SEC_COMP => l2c_csm_orig_w4_sec_comp (csm_execute d) event;; mret None
        | CST_TERM_W4_SEC_COMP => l2c_csm_term_w4_sec_comp (csm_execute d) event;; mret None
        | CST_W4_L2CAP_CONNECT_RSP => l2c_csm_w4_l2cap_connect_rsp (csm_execute d) event;; mret None
        | CST_W4_L2CA_CONNECT_RSP => l2c_csm_w4_l2ca_connect_rsp (csm_execute d) event;; mret None
        | CST_CONFIG => l2c_csm_config (csm_execute d) event
        | CST_OPEN => l2c_csm_open (csm_execute d) event
        | CST_W4_L2CAP_DISCONNECT_RSP => l2c_csm_w4_l2cap_disconnect_rsp event;; mret None
        | CST_W4_L2CA_DISCONNECT_RSP => l2c_csm_w4_l2ca_disconnect_rsp event;; mret None
        end) s Q ->
  runs (csm_execute (S d) event) s Q.
Proof. intros H E <- HQ. cbn [csm_execute]. astep. astep. rewrite E. exact HQ. Qed.

Lemma send_config_req_st d r c s Q : stands c s -> live r c -> chnl_state c = CST_CONFIG ->
  (forall c' s', stands c' s' -> nego r c c' -> ours r c' -> Q tt s') -> runs (l2c_csm_send_config_req (csm_execute (S d))) s Q.
Proof.
  intros H HL Es HQ. unfold l2c_csm_send_config_req. astep. apply (st_get_rcb _ s H r); [apply HL|]. cbv zeta.
  match goal with |- context [L2CA_CONFIG_REQ ?x] => set (g := x) end.
  assert (Hg : fcr_mode (cfg_fcr g) = preferred_mode r /\ (if fcr_present g then cfg_fcr g = kDefaultErtmOptions else preferred_mode r = L2CAP_FCR_BASIC_MODE)).
  { unfold g. pose proof (rk_mode _ (lv_rcb_ok _ _ HL)) as [E|E]; rewrite E; done. }
  clearbody g. destruct Hg as [Hm Hd]. astep. astep. set (c1 := c <| max_rx_mtu := cfg_mtu g |> <| our_cfg := g |>) in *.
  assert (HL1 : live r c1) by by live_upd HL. astep. apply (execute_at d c1 s _ CST_CONFIG); [done|apply HL1|done|].
  unfold l2c_csm_config. astep. apply (st_get_rcb _ s H r); [apply HL1|]. astep.
  apply (our_cfg_req_st r c1); [done|done|done|done|done|]. clear s H. intros g' c2 s H N Ho. pose proof (ng_live _ _ _ N) as HL2.
  astep. apply (config_req_st c2); [done|apply HL2|by eapply live_nothing_held|]. clear s H. intros id s H. astep. astep; [apply HL2|]. astep. astep.
  eapply HQ; [done| |exact Ho]. destruct N as [_ E1 E2 _ Ht]. constructor; [by live_upd HL2|exact E1|exact E2|done|exact Ht].
Qed.

Lemma exec_connect_rsp d r c s Q : stands c s -> live r c -> chnl_state c = CST_W4_L2CA_CONNECT_RSP ->
  (forall fl s', stands (c <| ccb_flags := fl |> <| chnl_state := CST_CONFIG |> <| l2c_ccb_timer := Some (Some L2CAP_CHNL_CFG_TIMEOUT_MS) |>) s' -> Q tt s') ->
  runs (l2c_csm_send_connect_rsp (csm_execute (S d))) s Q.
Proof.
  intros H HL Es HQ. unfold l2c_csm_send_connect_rsp. astep. apply (execute_at d c s _ CST_W4_L2CA_CONNECT_RSP); [done|apply HL|done|]. unfold l2c_csm_w4_l2ca_connect_rsp.
  astep. astep. apply (st_get_rcb _ s H r); [apply HL|]. astep. apply (connect_rsp_st c); [done|apply HL|by eapply live_nothing_held|]. clear s H. intros fl s H.
  astep. astep. astep; [apply HL|]. astep. astep. by eapply HQ.
Qed.

Lemma accept_inv d r c s : stands c s -> live r c -> agreed r c -> chnl_state c = CST_W4_L2CA_CONNECT_RSP ->
  runs (accept_connection (csm_execute (S d))) s (fun _ s' => setup_inv s').
Proof.
  intros H HL HA Es. unfold accept_connection. astep. astep; [apply HL|]. astep.
  match type of H with stands ?x _ => apply (exec_connect_rsp d r x); [done|by live_upd HL|done|] end. clear s H. intros fl s H.
  match type of H with stands ?x _ => apply (send_config_req_st d r x); [done|by live_upd HL|done|] end. clear s H. intros c' s H [HL' Es' Ed _ Ht] Ho.
  apply (inv_live r c'); [done|done|]. constructor; [done| |by rewrite Es'].
  intros E. apply Ht. unfold ib_done in E. rewrite Ed in E. by apply (ag_theirs _ _ HA).
Qed.

(** ** The end of the configuration *)

Lemma adjust_allocation_st c s Q : stands c s -> xmit_hold_q c = Some [] -> cong_sent c = false ->
  (forall q s', stands (c <| buff_quota := q |>) s' -> 0 <= q -> Q tt s') -> (in_use c = true) -> runs l2c_link_adjust_chnl_allocation s Q.
Proof.
  intros H Hh Hc HQ Hu. unfold l2c_link_adjust_chnl_allocation. astep. astep. rewrite Hu. astep. astep. astep.
  unfold l2cu_check_channel_congestion. astep. astep. pose proof (u16_range (L2CAP_CBB_DEFAULT_DATA_RATE_BUFF_QUOTA * (tx_data_rate c + rx_data_rate c))) as Hq.
  unfold is_u16 in Hq. cbn [buff_quota xmit_hold_q cong_sent set set_buff_quota]. rewrite Hh, Hc.
  destruct (_ =? 0); [astep; eapply HQ; [done|lia]|]. destruct (Z.ltb_spec (u16 (L2CAP_CBB_DEFAULT_DATA_RATE_BUFF_QUOTA * (tx_data_rate c + rx_data_rate c))) (fixed_queue_length (Some ([] : list BT_HDR)))) as [Hlt|_].
  - cbn in Hlt. lia.
  - astep. astep. eapply HQ; [done|lia].
Qed.

Lemma open_channel_st r c s Q : stands c s -> live r c -> ours r c -> theirs r c ->
  (forall q s', stands (opened c q) s' -> 0 <= q -> Q true s') -> runs open_channel s Q.
Proof.
  intros H HL Ho Ht HQ. unfold open_channel. pose proof HL as []. astep. astep. destruct Ho as [-> _], Ht as [-> _]. rewrite Z.eqb_refl. cbn [negb].
  astep. astep. astep. eapply adjust_allocation_st; [done..| |done]. clear s H. intros q s H Hq. astep. astep. astep. by eapply HQ.
Qed.

(** A channel in a state in which data may come, with both sides agreed. *)
Lemma live_opened r c q : live r c -> 0 <= q -> live r (opened c q).
Proof. intros HL Hq. live_upd HL. by apply alarm_cancel_some. Qed.

Lemma nz_lor_r a b m : nz (b .& m) = true -> nz ((a .| b) .& m) = true.
Proof.
  unfold nz. rewrite !negb_true_iff, !Z.eqb_neq, Z.land_lor_distr_l. intros Hn E. apply Hn. by apply Z.lor_eq_0_iff in E as [_ ?].
Qed.

Lemma nz_lor_l a b m : nz (a .& m) = true -> nz ((a .| b) .& m) = true.
Proof. rewrite Z.lor_comm. apply nz_lor_r. Qed.

Lemma agreed_opened r c q : live r c -> ours r c -> theirs r c -> ib_done c = true -> ob_done c = true -> agreed r (opened c q).
Proof.
  intros HL Ho Ht Hi Hb. constructor; [done|done|]. intros _. split_and!; [by apply nz_lor_l..|]. cbn. pose proof (lv_timer _ _ HL). by destruct (l2c_ccb_timer c).
Qed.

Lemma adj_timeouts_st r c s Q : stands c s -> live r c -> (forall c' s', stands c' s' -> nego r c c' -> l2c_ccb_timer c' = l2c_ccb_timer c -> Q tt s') ->
  runs l2c_fcr_adj_monitor_retran_timeout s Q.
Proof.
  intros H HL HQ. unfold l2c_fcr_adj_monitor_retran_timeout. astep. eapply HQ; [done|..].
  - destruct (out_cfg_fcr_present c); [|by apply nego_refl]. constructor; [by live_upd HL|done|done|done|done].
  - by destruct (out_cfg_fcr_present c).
Qed.

Lemma our_cfg_rsp_st r c s g Q : stands c s -> live r c -> (forall g' c' s', stands c' s' -> nego r c c' -> Q g' s') ->
  runs (l2cu_process_our_cfg_rsp g) s Q.
Proof.
  intros H HL HQ. unfold l2cu_process_our_cfg_rsp, l2c_fcr_adj_our_rsp_options. astep. astep. astep.
  apply (runs_mono _ _ (fun _ s' => exists c', stands c' s' /\ nego r c c')).
  { case_match; [astep; astep; astep|astep]; eexists; (split; [done|]); [|by apply nego_refl]. apply nego_peer; [done|done|apply HL]. }
  clear s H g. intros g s (c1 & H & N1). astep. apply (adj_timeouts_st r c1); [done|by apply N1|]. clear s H. intros c2 s H N2 _. astep. astep.
  assert (N : nego r c c2) by by eapply nego_trans. pose proof (ng_live _ _ _ N) as HL2. case_match; [|astep; by eapply HQ]. astep. astep. astep.
  eapply HQ; [done|]. eapply nego_trans; [done|]. constructor; [by live_upd HL2|done|done|done|done].
Qed.

Lemma peer_cfg_rsp_st r c s g Q : stands c s -> live r c -> (forall c' s', stands c' s' -> nego r c c' -> Q tt s') ->
  runs (l2cu_process_peer_cfg_rsp g) s Q.
Proof.
  intros H HL HQ. unfold l2cu_process_peer_cfg_rsp. astep. astep. match type of H with stands ?x _ => set (c1 := x) in *; assert (N1 : nego r c c1) end.
  { unfold c1. case_match; [|by apply nego_refl]. constructor; [by live_upd HL|done|done|done|done]. }
  clearbody c1. pose proof (ng_live _ _ _ N1) as HL1. apply runs_when; intros _; [|by eapply HQ]. astep.
  apply (runs_mono _ _ (fun _ s' => exists c', stands c' s' /\ nego r c c')).
  { apply runs_when; intros _; [astep|]; eexists; (split; [done|]); [|done]. eapply nego_trans; [done|]. constructor; [by live_upd HL1|done|done|done|done]. }
  clear s H. intros [] s (c2 & H & N2). pose proof (ng_live _ _ _ N2) as HL2. astep. astep. astep. eapply HQ; [done|]. eapply nego_trans; [done|].
  constructor; [live_upd HL2; by destruct lv_fcrb|done|done|done|done].
Qed.

Lemma forward_held_st r c s Q : stands c s -> live r c -> Q tt s -> runs forward_held s Q.
Proof. intros H HL HQ. unfold forward_held. astep. astep. rewrite (lv_hold _ _ HL). cbn [fixed_queue_is_empty negb]. by astep. Qed.

Lemma restart_monitor_st r c s Q : stands c s -> live r c -> Q tt s -> runs restart_monitor s Q.
Proof. intros H HL HQ. unfold restart_monitor. astep. astep. destruct (lv_fcrb _ _ HL) as [_ _ _ _ [_ ->] _ _ _]. by astep. Qed.

Lemma note_open_st r c s Q : stands c s -> live r c -> Q tt s -> runs note_channel_open s Q.
Proof.
  intros H HL HQ. unfold note_channel_open. astep. astep. apply runs_when; intros _; [|done]. astep. apply (st_get_lcb _ s H); [apply HL|]. intros _.
  astep. apply (st_get_rcb _ s H r); [apply HL|]. by astep.
Qed.

Lemma indicate_open_st r c s Q : stands c s -> live r c -> (forall s', stands c s' -> Q tt s') -> runs l2c_csm_indicate_connection_open s Q.
Proof.
  intros H HL HQ. unfold l2c_csm_indicate_connection_open. pose proof HL as []. astep. astep. astep. apply (st_get_rcb _ s H r); [done|]. astep.
  apply (runs_mono _ _ (fun _ s' => stands c s')).
  { destruct (initiator_local c); [|astep; apply (st_get_lcb _ s H); [done|]; intros _]; apply (st_callback c s H _ _ r); auto; apply lv_rcb_ok. }
  clear s H. intros [] s H. case_match; try (astep; by apply HQ). astep. apply (st_get_lcb _ s H); [done|]. intros _. astep. by apply HQ.
Qed.

Lemma config_rsp_ok_st d r c s Q : stands c s -> live r c -> chnl_state c = CST_CONFIG -> ours r c -> theirs r c ->
  (forall c' s', stands c' s' -> live r c' -> agreed r c' -> Q tt s') -> runs (l2c_csm_send_config_rsp_ok (csm_execute (S d))) s Q.
Proof.
  intros H HL Es Ho Ht HQ. unfold l2c_csm_send_config_rsp_ok. astep. apply (execute_at d c s _ CST_CONFIG); [done|apply HL|done|].
  unfold l2c_csm_config, config_our_rsp. astep. apply (st_get_rcb _ s H r); [apply HL|]. astep. astep.
  apply (our_cfg_rsp_st r c); [done|done|]. clear s H. intros g c1 s H [HL1 Es1 _ Ho1 Ht1]. rewrite Es in Es1. specialize (Ho1 Ho). specialize (Ht1 Ht). astep. astep. astep. astep.
  match type of H with stands ?x _ => set (c2 := x) in *; assert (HL2 : live r c2) by by live_upd HL1 end.
  assert (Hi : ib_done c2 = true) by by apply nz_lor_r. astep.
  apply (runs_mono _ _ (fun ok s' => ok = true /\ exists c', stands c' s' /\ live r c' /\ agreed r c')).
  { fold (ob_done c2). destruct (ob_done c2) eqn:Eb.
    - apply (open_channel_st r c2); [done..|]. clear s H. intros q s H Hq. split; [done|]. eexists. split; [done|]. split; [by apply live_opened|by apply agreed_opened].
    - astep. split; [done|]. exists c2. split; [done|]. split; [done|]. constructor; [done|done|]. cbn. by rewrite Es1. }
  clear s H. intros ok s (-> & c3 & H & HL3 & HA). astep. astep. apply (config_rsp_st c3); [done|apply HL3|by eapply live_nothing_held|]. clear s H. intros s H.
  astep. apply (restart_monitor_st r c3); [done..|]. astep. apply (note_open_st r c3); [done..|]. astep. astep.
  apply runs_when; intros _; [apply (forward_held_st r c3); [done..|]|]; astep; astep; by eapply HQ.
Qed.

Lemma config_peer_req_inv d r c s g : stands c s -> live r c -> agreed r c -> chnl_state c = CST_CONFIG -> cfg_wf g ->
  runs (config_peer_req (csm_execute (S d)) g) s (fun _ s' => setup_inv s').
Proof.
  intros H HL HA Es Hg. assert (Ho : ours r c) by (apply HA; auto). unfold config_peer_req. astep. apply (peer_cfg_req_st r c); [done..|]. clear s H.
  intros res g' c1 s H N1 Hok. pose proof (ng_live _ _ _ N1) as HL1. assert (HA1 : agreed r c1) by (eapply nego_agreed; [done| |by right|done]; by rewrite Es).
  astep. apply (runs_mono _ _ (fun _ s' => setup_inv s')); [|intros _ s' Hi; by astep].
  destruct (Z.eqb_spec res L2CAP_PEER_CFG_OK) as [Er|_].
  - astep. apply (config_rsp_ok_st d r c1); [done|done|by rewrite (ng_state _ _ _ N1)|by apply N1|by apply Hok|]. clear s H. intros c2 s H HL2 HA2. astep. astep.
    apply runs_when; intros _; [|by eapply inv_live]. case_match; [apply (indicate_open_st r c2); [done..|]; intros s' H'; by eapply inv_live|].
    apply runs_when; intros _; [|by eapply inv_live]. apply (st_callback _ s H _ _ r); [apply HL2|apply HL2|]. intros s' H'. by eapply inv_live.
  - case_match.
    + eapply runs_mono; [by eapply disconnect_inv|]. cbv beta. intros _ s' [id H']. eapply inv_vacant; [done|]. eapply (vacant_freed r). by live_upd HL1.
    + apply (config_rsp_st c1); [done|apply HL1|by eapply live_nothing_held|]. clear s H. intros s H. by eapply inv_live.
Qed.

Lemma config_peer_rsp_inv r c s g : stands c s -> live r c -> agreed r c -> chnl_state c = CST_CONFIG ->
  runs (config_peer_rsp g) s (fun _ s' => setup_inv s').
Proof.
  intros H HL HA Es. assert (Ho : ours r c) by (apply HA; auto). unfold config_peer_rsp. astep. apply (peer_cfg_rsp_st r c); [done..|]. clear s H.
  intros c1 s H N1. pose proof (ng_live _ _ _ N1) as HL1. assert (HA1 : agreed r c1) by (eapply nego_agreed; [done| |by right|done]; by rewrite Es).
  pose proof (ng_state _ _ _ N1) as Es1. rewrite Es in Es1. assert (Ho1 : ours r c1) by by apply N1. astep. astep. astep. astep.
  match type of H with stands ?x _ => set (c2 := x) in *; assert (HL2 : live r c2) by by live_upd HL1 end.
  assert (Hb : ob_done c2 = true) by by apply nz_lor_r. assert (Ht : ib_done c2 = true -> theirs r c2).
  { intros E. apply (ag_theirs _ _ HA1). revert E. unfold ib_done, c2. cbn [config_done set set_config_done]. rewrite Z.land_lor_distr_l.
    change (OB_CFG_DONE .& IB_CFG_DONE) with 0. by rewrite Z.lor_0_r. }
  astep. apply (runs_mono _ _ (fun ok s' => ok = true /\ exists c', stands c' s' /\ live r c' /\ agreed r c')).
  { fold (ib_done c2). destruct (ib_done c2) eqn:Ei; [|astep; split; [done|]; exists c2; split; [done|]; split; [done|]; constructor; [done|by rewrite Ei|cbn; by rewrite Es1]].
    astep. apply (open_channel_st r c2); [done|done|done|by apply Ht|]. clear s H. intros q s H Hq.
    assert (HL3 : live r (opened c2 q)) by by apply live_opened. assert (HA3 : agreed r (opened c2 q)) by by apply agreed_opened; auto.
    astep. apply (restart_monitor_st r _ s _ H HL3). astep. astep. astep.
    apply (runs_mono _ _ (fun _ s' => exists c', stands c' s' /\ live r c' /\ agreed r c')).
    - apply runs_when; intros _; [|by eexists]. apply (adj_timeouts_st r _ s _ H HL3). intros c4 s' H' [HL4 E4 E4' Ho4 Ht4] E4''. exists c4. split; [done|]. split; [done|].
      destruct HA3 as [A1 A2 A3]. unfold ib_done, ob_done in *. constructor; unfold ib_done, ob_done; rewrite ?E4, ?E4', ?E4''; auto.
    - clear s H. intros [] s (c4 & H & HL4 & HA4). astep. apply (forward_held_st r c4); [done..|]. astep. split; [done|]. by exists c4. }
  clear s H. intros ok s (-> & c3 & H & HL3 & HA3). astep. astep. apply (note_open_st r c3); [done..|]. astep. astep. astep. astep.
  match type of H with stands ?x _ => assert (HL4 : live r x) by by live_upd HL3 end.
  match type of H with stands ?x _ => assert (HA4 : agreed r x) by by eapply agreed_same end.
  apply runs_when; intros _; [|by eapply inv_live]. apply (indicate_open_st r _ s _ H HL4). intros s' H'. by eapply inv_live.
Qed.

Lemma stays_inv r s : stays r s -> setup_inv s.
Proof. intros (c & H & _ & [[HL HA]|HV]); [by eapply inv_live|by eapply inv_vacant]. Qed.

Lemma disconnect_stays r c s : stands c s -> live r c -> runs l2cu_disconnect_chnl s (fun _ s' => stays r s').
Proof.
  intros H HL. eapply runs_mono; [by eapply disconnect_inv|]. cbv beta. intros _ s' [id H']. eexists. split; [done|]. split; [apply HL|]. right.
  eapply (vacant_freed r). by live_upd HL.
Qed.

Lemma renegotiate_stays r c s g : stands c s -> live r c -> agreed r c -> chnl_state c = CST_CONFIG ->
  runs (l2c_fcr_renegotiate_chan g) s (fun res s' => res.1 = false /\ stays r s').
Proof.
  intros H HL HA Es. assert (Hs : forall c s, stands c s -> live r c -> agreed r c -> stays r s) by (intros c' s' H' HL' HA'; exists c'; split; [done|]; split; [apply HL'|auto]).
  unfold l2c_fcr_renegotiate_chan. astep. astep. destruct (_ || _); [astep; split; [done|by eapply Hs]|]. cbv zeta.
  match goal with |- context [negb (?a =? ?b)] => set (differ := negb (a =? b)) end. clearbody differ. astep.
  apply (runs_mono _ _ (fun res s' => res.1 = false /\ exists c', stands c' s' /\ live r c' /\ agreed r c')).
  { case_match; [|astep; split; [done|by exists c]]. astep. astep.
    match type of H with stands ?x _ => assert (HL1 : live r x) by by live_upd HL end.
    match type of H with stands ?x _ => assert (HA1 : agreed r x) by by eapply agreed_same end.
    astep. case_match.
    - astep. apply (st_get_rcb _ s H r); [apply HL|]. astep. rewrite Z.land_0_r. cbn [nz Z.eqb negb]. astep. split; [done|by eexists].
    - astep. astep. split; [done|by eexists]. }
  clear s H. intros [sent g'] s [E (c1 & H & HL1 & HA1)]. cbn [fst] in E. subst sent. cbv beta iota. astep.
  apply (runs_mono _ _ (fun _ s' => stays r s')); [|intros _ s' H'; by astep]. apply runs_when; intros _; [by eapply disconnect_stays|by eapply Hs].
Qed.

Lemma config_peer_rsp_neg_inv r c s g : stands c s -> live r c -> agreed r c -> chnl_state c = CST_CONFIG ->
  runs (config_peer_rsp_neg g) s (fun _ s' => setup_inv s').
Proof.
  intros H HL HA Es. unfold config_peer_rsp_neg. astep. astep. astep.
  match type of H with stands ?x _ => assert (HL1 : live r x) by (live_upd HL; by apply alarm_cancel_some) end.
  match type of H with stands ?x _ => assert (HA1 : agreed r x) by (destruct HA; constructor; [done|done|]; cbn; by rewrite Es) end.
  eapply runs_mono; [by eapply renegotiate_stays|]. clear s H HL1 HA1. intros [b g'] s [_ (c1 & H & Hr & Hc)]. cbv beta iota. astep. astep. astep.
  assert (Hi : forall s', stands c1 s' -> setup_inv s') by (intros s' H'; eapply stays_inv; by exists c1).
  apply (runs_mono _ _ (fun _ s' => setup_inv s')); [|intros _ s' H'; by astep]. apply runs_when; intros _; [|by apply Hi].
  apply (st_callback _ s H _ _ r); [done|apply HL|by apply Hi].
Qed.

(** ** The configuration of an open channel *)

Lemma reconfig_inv d r c s g : stands c s -> live r c -> agreed r c -> chnl_state c = CST_OPEN -> cfg_wf g ->
  runs (reconfig_peer_req (csm_execute (S d)) g) s (fun _ s' => setup_inv s').
Proof.
  intros H HL HA Es Hg. assert (Ho : ours r c) by (apply HA; auto). destruct (ag_open _ _ HA Es) as (Hi & Hb & Ht). assert (Hth : theirs r c) by by apply HA.
  unfold reconfig_peer_req. astep. astep. cbv zeta. astep. astep. astep. astep; [apply HL|].
  match type of H with stands ?x _ => set (c1 := x) in *; assert (HL1 : live r c1) by by live_upd HL end. astep.
  apply (peer_cfg_req_st r c1); [done..|]. clear s H. intros res g' c2 s H [HL2 Es2 _ Ho2 Ht2] Hok. specialize (Ho2 Ho). specialize (Ht2 Hth).
  astep. apply (runs_mono _ _ (fun _ s' => setup_inv s')); [|intros _ s' H'; by astep]. destruct (Z.eqb_spec res L2CAP_PEER_CFG_OK) as [Er|_].
  - astep. apply (st_callback _ s H _ _ r); [apply HL2|apply HL2|]. clear s H. intros s H.
    apply (config_rsp_ok_st d r c2); [done|done|done|done|done|]. intros c3 s' H' HL3 HA3. by eapply inv_live.
  - case_match.
    + astep. astep. astep. astep. match type of H with stands ?x _ => set (c3 := x) in *; assert (HL3 : live r c3) end.
      { live_upd HL2. by apply alarm_cancel_some. }
      apply (config_rsp_st c3); [done|apply HL3|by eapply live_nothing_held|]. clear s H. intros s H. eapply inv_live; [done|done|].
      constructor; [done|done|]. intros _. split_and!; [done|done|]. cbn. pose proof (lv_timer _ _ HL2). by destruct (l2c_ccb_timer c2).
    + eapply runs_mono; [by eapply disconnect_stays|]. cbv beta. intros _ s'. apply stays_inv.
Qed.

(** ** The end of the channel *)

Lemma answer_disc_st c s Q : stands c s -> has_lcb c = true -> nothing_held c -> (forall s', stands c s' -> Q tt s') ->
  runs (c ← get_ccb; get_lcb;; l2cu_send_peer_disc_rsp (remote_id c) (local_cid c) (remote_cid c)) s Q.
Proof.
  intros H Hl Hn HQ. astep. astep. astep. apply (st_get_lcb _ s H); [done|]. intros _. by apply (disc_rsp_st c).
Qed.

Lemma send_disconnect_rsp_inv d r c s : stands c s -> live r c -> chnl_state c = CST_W4_L2CA_DISCONNECT_RSP ->
  runs (l2c_csm_send_disconnect_rsp (csm_execute (S d))) s (fun _ s' => setup_inv s').
Proof.
  intros H HL Es. unfold l2c_csm_send_disconnect_rsp. astep. apply (execute_at d c s _ CST_W4_L2CA_DISCONNECT_RSP); [done|apply HL|done|].
  unfold l2c_csm_w4_l2ca_disconnect_rsp. astep. astep. apply (st_get_rcb _ s H r); [apply HL|]. astep. astep. astep. apply (st_get_lcb _ s H); [apply HL|].
  intros _. astep. apply (disc_rsp_st c); [done|by eapply live_nothing_held|]. clear s H. intros s H.
  eapply runs_mono; [by eapply release_inv|]. cbv beta. intros _ s' Hi. astep. by astep.
Qed.

Lemma peer_disconnects_inv d r c s : stands c s -> live r c -> chnl_state c = CST_W4_L2CA_DISCONNECT_RSP ->
  runs (peer_disconnects (csm_execute (S d))) s (fun _ s' => setup_inv s').
Proof. intros H HL Es. unfold peer_disconnects. astep. astep. astep. astep. by eapply send_disconnect_rsp_inv. Qed.

(** The request goes out, and the answer is waited for. *)
Lemma ask_disconnect_inv r c s : stands c s -> live r c -> agreed r c ->
  runs (l2cu_send_peer_disc_req;; set_state CST_W4_L2CAP_DISCONNECT_RSP;; start_ccb_timer L2CAP_CHNL_DISCONNECT_TIMEOUT_MS) s (fun _ s' => setup_inv s').
Proof.
  intros H HL HA. astep. apply (disc_req_st r c); [done..|]. clear s H. intros id s H. astep. astep. astep; [apply HL|].
  eapply inv_live; [done|by live_upd HL|by eapply agreed_apart].
Qed.
End Link.
