(* ===== verification/L2cSetupMachine.v ===== *)
(** * L2cSetupMachine: every state and every event

    The invariant of L2cSetup.v through the whole state machine, with the answers that the manager of security gives at once. *)

From Stdlib Require Import ZArith Lia.
From stdpp Require Import base list.
From S2P Require Import Prelude Osi L2cDefs L2cFcr L2cSig L2cCsm L2cCmd L2cRun L2cInv L2cTx L2cLink L2cDrain L2cEvents L2cSetup L2cSetupCsm.

(** The events that come from outside the state machine, without data.  The timer of the channel is not for an open one. *)
Definition outer (c : tL2C_CCB) (event : tL2CEVT) : Prop :=
  match event with
  | L2CAP_CONFIG_REQ p_cfg => cfg_wf p_cfg
  | TIMEOUT => chnl_state c <> CST_OPEN
  | L2CA_CONFIG_REQ _ | L2CA_CONFIG_RSP _ | L2CA_CONNECT_RSP | L2CA_DISCONNECT_RSP | L2CAP_DATA _ | L2CA_DATA_WRITE _ | ACK_TIMEOUT => False
  | _ => True
  end.

(** The invariant still holds. *)
Definition kept {A} (_ : A) (s : l2c) : Prop := setup_inv s.

(** The events other than the answers of the manager of security. *)
Definition no_answer (event : tL2CEVT) : Prop := match event with SEC_COMP | SEC_COMP_NEG _ => False | _ => True end.

(** * Lemmas *)

Section Link.
Context `{LE : LinkEnv} `{SE : SigEnv}.

Lemma keeps_skip r c s : stands c s -> live r c -> agreed r c -> runs skip s kept.
Proof. intros H HL HA. astep. by eapply inv_live. Qed.

Lemma keeps_then {A B} (m : L A) (b : B) s : runs m s kept -> runs (m;; mret b) s kept.
Proof. intros Hm. astep. refine (runs_mono _ _ _ _ Hm _). intros ? s' Hi. by astep. Qed.

Lemma keeps_skipped {A} (m : L A) s : runs m s kept -> runs (m;; skip) s kept.
Proof. intros Hm. astep. refine (runs_mono _ _ _ _ Hm _). intros ? s' Hi. by astep. Qed.

Lemma runs_bind_inv {A B} (m : L A) (k : A -> L B) s Q : runs (m ≫= k) s Q -> runs m s (fun a s' => runs (k a) s' Q).
Proof. unfold runs, mbind, L_bind. by destruct (m s) as [[a s']|]. Qed.

Lemma keeps_assoc3 {A B} (m1 : L unit) (m2 : L A) (m3 : L B) s : runs (m1;; m2;; m3) s kept -> runs (m1;; m2;; m3;; mret (None : option tL2CAP_CFG_INFO)) s kept.
Proof.
  intros Hm. astep. apply runs_bind_inv in Hm. refine (runs_mono _ _ _ _ Hm _). cbv beta. intros [] s1 H1. astep. apply runs_bind_inv in H1.
  refine (runs_mono _ _ _ _ H1 _). cbv beta. intros ? s2 H2. by apply keeps_then.
Qed.

(** ** Steps *)

Lemma abort_inv r c s : stands c s -> live r c -> runs (get_lcb;; emit (OCsm OSecAbort);; l2cu_release_ccb) s kept.
Proof. intros H HL. astep. apply (st_get_lcb _ s H); [apply HL|]. intros _. astep. astep. by eapply release_inv. Qed.

Lemma chk_modes_st r c s (Q : bool -> l2c -> Prop) : stands c s -> live r c -> (forall s', stands c s' -> Q true s') ->
  (forall r' c' s', stands c' s' -> live r' c' -> Q false s') -> runs l2c_fcr_chk_chan_modes s Q.
Proof.
  intros H HL Ht Hf. unfold l2c_fcr_chk_chan_modes. astep. apply (st_get_lcb _ s H); [apply HL|]. intros _. destruct (negb _); [|astep; by apply Ht].
  astep. apply (st_get_rcb _ s H r); [apply HL|]. destruct (_ =? _); [|astep; by apply Ht]. astep. astep. astep.
  eapply (Hf (r <| preferred_mode := 0 |>)); [done|]. live_upd HL. destruct lv_rcb_ok. constructor; try done. by left.
Qed.

Lemma connect_inv r c s first : stands c s -> live r c -> agreed r c -> chnl_state c = CST_W4_L2CAP_CONNECT_RSP -> runs (connect_or_give_up first) s kept.
Proof.
  intros H HL HA Es. unfold connect_or_give_up. astep. apply (chk_modes_st r c); [done|done|clear s H; intros s H|intros r' c' s' H' HL'; by eapply error_inv].
  astep. apply (runs_mono _ _ (fun _ s' => exists t, t <> None /\ stands (c <| l2c_ccb_timer := t |>) s')).
  { apply runs_when; intros _.
    - astep; [apply HL|]. eexists; split; [|exact H]. done.
    - exists (l2c_ccb_timer c). split; [apply HL|]. by destruct H as [<- ? ?]; constructor; [destruct s as [[]]|..]. }
  clear s H. intros [] s (t & Ht & H). match type of H with stands ?x _ => set (c1 := x) in *; assert (HL1 : live r c1) by by live_upd HL end.
  astep. apply (connect_req_st r c1); [done|apply HL1|apply HL1|by eapply live_nothing_held|]. clear s H. intros id s H.
  apply runs_when; intros _; [astep|]; (eapply inv_live; [done|by live_upd HL1|]);
    (eapply agreed_apart; [done|cbn; by rewrite Es|cbn; by rewrite Es|done..]).
Qed.

(** ** The manager of security *)

(** The event is left aside. *)
Ltac aside := first [by eapply keeps_skip | apply keeps_then; by eapply keeps_skip | by (astep; eapply inv_live)].

(** Into a state in which nothing is configured. *)
Lemma enter_apart r c c' s : stands c' s -> live r c -> agreed r c -> live r c' -> chnl_state c' <> CST_CONFIG -> chnl_state c' <> CST_OPEN ->
  config_done c' = config_done c -> peer_cfg c' = peer_cfg c -> tx_mps c' = tx_mps c -> setup_inv s.
Proof. intros H HL HA HL' N1 N2 E1 E2 E3. eapply inv_live; [done|done|by eapply agreed_apart]. Qed.

Lemma connect_rsp_inv r c s result status : stands c s -> live r c -> agreed r c -> runs (l2cu_send_peer_connect_rsp result status) s kept.
Proof.
  intros H HL HA. apply (connect_rsp_st c); [done|apply HL|by eapply live_nothing_held|]. intros fl s' H'. eapply inv_live; [done|by live_upd HL|by eapply agreed_same].
Qed.

Lemma sec_term_inv d r c s : stands c s -> live r c -> agreed r c -> chnl_state c = CST_TERM_W4_SEC_COMP ->
  runs (l2c_csm_term_w4_sec_comp (csm_execute (S d)) SEC_COMP) s kept.
Proof.
  intros H HL HA Es. unfold l2c_csm_term_w4_sec_comp. astep. astep. astep. apply (st_get_lcb _ s H); [apply HL|]. intros _.
  match type of H with stands ?x _ => set (c1 := x) in *; assert (HL1 : live r c1) by (by live_upd HL); assert (HA1 : agreed r c1) by by eapply agreed_apart end.
  destruct (negb _); [by eapply accept_inv|]. astep. astep. eapply connect_rsp_inv; [done|..].
  - live_upd HL1. by apply alarm_cancel_some.
  - by eapply agreed_apart.
Qed.

Lemma sec_event_inv d r c s ok status : stands c s -> live r c -> agreed r c ->
  runs (csm_execute (S (S d)) (if ok : bool then SEC_COMP else SEC_COMP_NEG status)) s kept.
Proof.
  intros H HL HA. eapply execute_at; [done|apply HL|done|]. destruct (chnl_state c) eqn:Es.
  - apply keeps_then. unfold l2c_csm_closed. astep. astep. rewrite (lv_rcb _ _ HL). destruct ok; [|by eapply error_inv]. astep. astep.
    astep. apply (st_get_lcb _ s H); [apply HL|]. intros _. match type of H with stands ?x _ => set (c1 := x) in *; assert (HL1 : live r c1) by by live_upd HL end.
    assert (HA1 : agreed r c1) by by eapply agreed_apart. apply runs_when; intros _; [by eapply connect_inv|by eapply inv_live].
  - apply keeps_then. unfold l2c_csm_orig_w4_sec_comp. astep. apply (st_get_rcb _ s H r); [apply HL|]. destruct ok.
    + astep. astep. astep. apply (st_get_lcb _ s H); [apply HL|]. intros _. match type of H with stands ?x _ => set (c1 := x) in *; assert (HL1 : live r c1) by by live_upd HL end.
      assert (HA1 : agreed r c1) by by eapply agreed_apart. apply runs_when; intros _; [by eapply connect_inv|by eapply inv_live].
    + astep. apply (st_get_lcb _ s H); [apply HL|]. intros _. astep. astep. astep. apply (runs_mono _ _ (fun _ s' => stands c s')).
      { apply runs_when; intros _; [by astep|done]. }
      intros [] s' H'. by eapply error_inv.
  - apply keeps_then. destruct ok; [by eapply sec_term_inv|]. unfold l2c_csm_term_w4_sec_comp. case_match.
    + astep; [apply HL|]. eapply (enter_apart r c); [done|done|done|by live_upd HL|cbn; by rewrite Es|cbn; by rewrite Es|done..].
    + astep. apply (connect_rsp_st c); [done|apply HL|by eapply live_nothing_held|]. clear s H. intros fl s H. eapply (release_inv r); [done|by live_upd HL].
  - apply keeps_then. unfold l2c_csm_w4_l2cap_connect_rsp. astep. apply (st_get_rcb _ s H r); [apply HL|]. destruct ok; aside.
  - apply keeps_then. unfold l2c_csm_w4_l2ca_connect_rsp. astep. apply (st_get_rcb _ s H r); [apply HL|]. destruct ok; aside.
  - unfold l2c_csm_config. astep. apply (st_get_rcb _ s H r); [apply HL|]. destruct ok; aside.
  - unfold l2c_csm_open. destruct ok; aside.
  - apply keeps_then. unfold l2c_csm_w4_l2cap_disconnect_rsp. astep. apply (st_get_rcb _ s H r); [apply HL|]. destruct ok; aside.
  - apply keeps_then. unfold l2c_csm_w4_l2ca_disconnect_rsp. astep. apply (st_get_rcb _ s H r); [apply HL|]. destruct ok; aside.
Qed.

Lemma sec_comp_inv d r c s status : stands c s -> live r c -> agreed r c -> chnl_state c <> CST_OPEN ->
  runs (l2c_link_sec_comp (csm_execute (S (S d))) status) s kept.
Proof.
  intros H HL HA No. unfold l2c_link_sec_comp. astep. astep. rewrite (lv_in_use _ _ HL), (lv_lcb _ _ HL). cbn [negb andb].
  case_match; [apply keeps_skipped; by apply (sec_event_inv d r c s true status)|]. case_match; [|apply keeps_skipped; by apply (sec_event_inv d r c s false status)].
  astep; [apply HL|]. eapply inv_live; [done|by live_upd HL|]. destruct HA as [A1 A2 _]. constructor; [done|done|by intros E].
Qed.

Lemma access_req_st d r c s orig (Q : bool -> l2c -> Prop) : stands c s -> live r c -> agreed r c -> chnl_state c <> CST_OPEN ->
  (forall s', stands c s' -> Q true s') -> (forall s', setup_inv s' -> Q false s') -> runs (btm_sec_l2cap_access_req (csm_execute (S (S d))) orig) s Q.
Proof.
  intros H HL HA No Ht Hf. unfold btm_sec_l2cap_access_req. astep. apply (st_get_lcb _ s H); [apply HL|]. intros _. astep. apply (st_get_rcb _ s H r); [apply HL|].
  astep. astep. astep. apply runs_get. destruct (sec_access (outs s)) as [status|]; [|astep; by apply Ht]. astep.
  eapply runs_mono; [by eapply sec_comp_inv|]. intros [] s' Hi. astep. by apply Hf.
Qed.

Lemma access_inv d r c s orig : stands c s -> live r c -> agreed r c -> chnl_state c <> CST_OPEN ->
  runs (btm_sec_l2cap_access_req (csm_execute (S (S d))) orig;; skip) s kept.
Proof.
  intros H HL HA No. astep. eapply access_req_st; [done..| |]; intros s' H'; astep; [by eapply inv_live|done].
Qed.

(** ** States *)

Section State.
Context (d : nat) (r : tL2C_RCB) (c : tL2C_CCB) (s : l2c) (H : stands c s) (HL : live r c) (HA : agreed r c).
Context (event : tL2CEVT) (Ho : outer c event) (Hn : no_answer event).

Lemma closed_inv : chnl_state c = CST_CLOSED -> runs (l2c_csm_closed (csm_execute (S (S d))) event) s kept.
Proof using H HL HA Ho Hn.
  intros Es. unfold l2c_csm_closed. astep. astep. rewrite (lv_rcb _ _ HL). destruct event; try done; try aside.
  - astep. astep. eapply (access_inv d r); [done|by live_upd HL|by eapply agreed_apart|done].
  - case_match; [astep; apply (st_get_lcb _ s H); [apply HL|]; intros _; astep; by eapply inv_live|by eapply error_inv].
  - by eapply indicate_inv.
  - astep. apply (st_get_lcb _ s H); [apply HL|]. intros _. astep. astep. astep. astep. astep.
    match type of H with stands ?x _ => set (c1 := x) in *; assert (HL1 : live r c1) by (by live_upd HL); assert (HA1 : agreed r c1) by by eapply agreed_apart end.
    eapply (access_req_st d r c1); [done..| |done]. intros s' H'. astep. by eapply connect_rsp_inv.
  - astep. eapply (access_req_st d r c); [done|done|done|by rewrite Es| |done]. clear s H. intros s H. astep. astep.
    eapply (enter_apart r c); [done|done|done|by live_upd HL|done..].
  - by eapply release_inv.
  - by eapply error_inv.
Qed.

Lemma orig_sec_inv : chnl_state c = CST_ORIG_W4_SEC_COMP -> runs (l2c_csm_orig_w4_sec_comp (csm_execute (S (S d))) event) s kept.
Proof using H HL HA Ho Hn.
  intros Es. unfold l2c_csm_orig_w4_sec_comp. astep. apply (st_get_rcb _ s H r); [apply HL|]. destruct event; try done; try aside.
  - eapply (access_inv d r); [done|done|done|by rewrite Es].
  - by eapply indicate_inv.
  - eapply (access_inv d r); [done|done|done|by rewrite Es].
  - by eapply abort_inv.
Qed.

Lemma term_sec_inv : chnl_state c = CST_TERM_W4_SEC_COMP -> runs (l2c_csm_term_w4_sec_comp (csm_execute (S (S d))) event) s kept.
Proof using H HL HA Ho Hn.
  intros Es. unfold l2c_csm_term_w4_sec_comp. destruct event; try done; try aside.
  - by eapply abort_inv.
  - eapply (access_inv d r); [done|done|done|by rewrite Es].
  - astep. astep. astep. apply (st_get_lcb _ s H); [apply HL|]. intros _. astep. apply (disc_rsp_st c); [done|by eapply live_nothing_held|].
    intros s' H'. astep. eapply (st_emit c s' H'); [done|]. intros s'' H''. by eapply release_inv.
  - by eapply release_inv.
  - astep. apply (st_get_lcb _ s H); [apply HL|]. intros _. astep. by eapply inv_live.
Qed.

Lemma w4_rsp_inv : chnl_state c = CST_W4_L2CAP_CONNECT_RSP -> runs (l2c_csm_w4_l2cap_connect_rsp (csm_execute (S (S d))) event) s kept.
Proof using H HL HA Ho Hn.
  intros Es. unfold l2c_csm_w4_l2cap_connect_rsp. astep. apply (st_get_rcb _ s H r); [apply HL|]. destruct event; try done; try aside.
  - astep. astep. astep. astep. astep. match type of H with stands ?x _ => set (c1 := x) in *; assert (HL1 : live r c1) by by live_upd HL end.
    apply (runs_mono _ _ (fun _ s' => exists c', stands c' s' /\ (c' = c1 \/ c' = freed c1))).
    { apply runs_when; intros _; [|exists c1; auto]. eapply runs_mono; [by eapply indicate_st|]. cbv beta. intros _ s' H'. exists (freed c1). auto. }
    intros [] s' (c' & H' & Hc). clear H s. astep. destruct Hc as [-> | ->].
    + eapply (enter_apart r c); [done|done|done|by live_upd HL1|done..].
    + eapply inv_vacant; [done|]. exact (vacant_freed r c1 HL1).
  - astep. astep. astep. apply (st_get_lcb _ s H); [apply HL|]. intros _. astep. astep. astep. astep; [apply HL|].
    match type of H with stands ?x _ => set (c1 := x) in *; assert (HL1 : live r c1) by by live_upd HL end.
    apply (send_config_req_st _ r c1); [done|done|done|]. intros c2 s' H' [HL2 Es2 Ed2 _ Ht2] Ho2. eapply inv_live; [done|done|].
    constructor; [done| |by rewrite Es2]. unfold ib_done. rewrite Ed2. intros E. by apply Ht2, (ag_theirs _ _ HA).
  - astep. astep. astep; [apply HL|]. eapply (enter_apart r c); [done|done|done|by live_upd HL|cbn; by rewrite Es|cbn; by rewrite Es|done..].
  - by eapply error_inv.
  - by eapply connect_inv.
  - astep. astep. case_match; [by eapply ask_disconnect_inv|by eapply confirm_inv].
  - by eapply error_inv.
Qed.

Lemma w4_accept_inv : chnl_state c = CST_W4_L2CA_CONNECT_RSP -> runs (l2c_csm_w4_l2ca_connect_rsp (csm_execute (S (S d))) event) s kept.
Proof using H HL HA Ho Hn.
  intros Es. unfold l2c_csm_w4_l2ca_connect_rsp. astep. apply (st_get_rcb _ s H r); [apply HL|]. destruct event; try done; try aside.
  - by eapply indicate_inv.
  - by eapply accept_inv.
  - by eapply ask_disconnect_inv.
  - astep. apply (connect_rsp_st c); [done|apply HL|by eapply live_nothing_held|]. intros fl s' H'. eapply (indicate_inv r); [done|by live_upd HL].
Qed.

Lemma config_inv : chnl_state c = CST_CONFIG -> runs (l2c_csm_config (csm_execute (S (S d))) event) s kept.
Proof using H HL HA Ho Hn.
  intros Es. unfold l2c_csm_config. astep. apply (st_get_rcb _ s H r); [apply HL|]. destruct event; try done; try aside.
  - apply keeps_then. by eapply indicate_inv.
  - astep. eapply runs_mono; [by eapply (config_peer_req_inv _ r c)|]. cbv beta. intros ? s' Hi. by astep.
  - apply keeps_then. by eapply config_peer_rsp_inv.
  - astep. eapply runs_mono; [by eapply (config_peer_rsp_neg_inv r c)|]. cbv beta. intros ? s' Hi. by astep.
  - astep. astep; [apply HL|]. astep. astep. apply keeps_then. eapply (peer_disconnects_inv _ r); [done|by live_upd HL|done].
  - apply (keeps_assoc3 _ _ _ _ (ask_disconnect_inv r c s H HL HA)).
  - astep. apply (disc_req_st r c); [done..|]. intros id s' H'. apply keeps_then. eapply (indicate_inv r); [done|by live_upd HL].
Qed.

Lemma open_inv : chnl_state c = CST_OPEN -> runs (l2c_csm_open (csm_execute (S (S d))) event) s kept.
Proof using H HL HA Ho Hn.
  intros Es. unfold l2c_csm_open. destruct event; try done; try aside.
  - astep. astep. astep. apply (release_st r c); [done..|]. intros s' H'. rewrite (lv_rcb _ _ HL). astep.
    eapply (st_emit _ _ H'); [done|]. intros s'' H''. astep. eapply inv_vacant; [done|by eapply vacant_freed].
  - astep. eapply runs_mono; [by eapply (reconfig_inv _ r c)|]. cbv beta. intros ? s' Hi. by astep.
  - astep. apply (st_get_lcb _ s H); [apply HL|]. intros _. astep. astep. astep. astep; [apply HL|]. astep. apply (st_get_rcb _ s H r); [apply HL|].
    apply keeps_then. eapply (peer_disconnects_inv _ r); [done|by live_upd HL|done].
  - astep. apply (st_get_lcb _ s H); [apply HL|]. intros _. apply (keeps_assoc3 _ _ _ _ (ask_disconnect_inv r c s H HL HA)).
Qed.

Lemma w4_disc_inv : runs (l2c_csm_w4_l2cap_disconnect_rsp event) s kept.
Proof using H HL HA Ho Hn.
  unfold l2c_csm_w4_l2cap_disconnect_rsp. astep. apply (st_get_rcb _ s H r); [apply HL|]. destruct event; try aside; try by eapply confirm_inv.
  astep. astep. astep. apply (st_get_lcb _ s H); [apply HL|]. intros _. astep. apply (disc_rsp_st c); [done|by eapply live_nothing_held|].
  intros s' H'. by eapply confirm_inv.
Qed.

Lemma w4_answer_inv : runs (l2c_csm_w4_l2ca_disconnect_rsp event) s kept.
Proof using H HL HA Ho Hn.
  unfold l2c_csm_w4_l2ca_disconnect_rsp. astep. apply (st_get_rcb _ s H r); [apply HL|]. destruct event; try aside; try by eapply indicate_inv.
  all: astep; astep; astep; apply (st_get_lcb _ s H); [apply HL|]; intros _; astep; apply (disc_rsp_st c); [done|by eapply live_nothing_held|].
  all: intros s' H'; first [by eapply release_inv | by eapply indicate_inv].
Qed.

Lemma machine_inv : runs (csm_execute (S (S (S d))) event) s kept.
Proof using H HL HA Ho Hn.
  eapply execute_at; [done|apply HL|done|]. destruct (chnl_state c) eqn:Es; try apply keeps_then.
  - by apply closed_inv.
  - by apply orig_sec_inv.
  - by apply term_sec_inv.
  - by apply w4_rsp_inv.
  - by apply w4_accept_inv.
  - by apply config_inv.
  - by apply open_inv.
  - by apply w4_disc_inv.
  - by apply w4_answer_inv.
Qed.
End State.

Lemma vacant_inv c s event : stands c s -> vacant c -> runs (l2c_csm_execute event) s kept.
Proof.
  intros H HV. unfold l2c_csm_execute, CSM_DEPTH. cbn [csm_execute]. astep. astep. pose proof HV as (-> & _). cbn [negb]. astep. by eapply inv_vacant.
Qed.

(** Every event that comes from outside keeps the invariant. *)
Lemma execute_inv c s event : stands c s -> setup_inv s -> outer c event -> runs (l2c_csm_execute event) s kept.
Proof.
  intros H (c' & H' & Hc) Ho. assert (c' = c) as -> by by rewrite <- (sd_ccb _ _ H), <- (sd_ccb _ _ H'). clear H'.
  destruct Hc as [(r & HL & HA)|HV].
  - unfold l2c_csm_execute, CSM_DEPTH. destruct event; try by eapply machine_inv.
    + by apply (sec_event_inv 1 r c s true 0).
    + by apply (sec_event_inv 1 r c s false status).
  - by eapply vacant_inv.
Qed.
End Link.
