(* ===== verification/L2cSetupCmd.v ===== *)
(** * L2cSetupCmd: the commands of the peer keep the invariant

    Whatever bytes the peer sends on the signalling channel, [process_l2cap_cmd] reads inside the packet, writes inside the buffers
    of its answers, and keeps the invariant of L2cSetup.v. *)

From Stdlib Require Import ZArith Lia.
From stdpp Require Import base list.
From S2P Require Import Prelude Osi L2cDefs L2cFcr L2cSig L2cCsm L2cCmd L2cRun L2cInv L2cTx L2cLink L2cDrain L2cEvents L2cSetup L2cSetupCsm L2cSetupMachine.

(** The bytes from [lo] to [hi] are there. *)
Record region (b : BT_HDR) (lo hi : Z) : Prop := {
  rg_lo : 0 <= lo;
  rg_hi : hi <= Z.of_nat (length (bh_data b));
  rg_u8 : forall i x, lo <= i < hi -> bh_data b !! Z.to_nat i = Some x -> is_u8 x;
}.

(** What the model relies on: the packets of the controller have room for a signalling packet and its header, and the
    registrations have the callbacks that are called without a test. *)
Record env_ok `{LE : LinkEnv} `{SE : SigEnv} : Prop := {
  eo_acl : 27 <= acl_data_size < 65536;
  eo_packet : acl_packet_size = acl_data_size + HCI_DATA_PREAMBLE_SIZE;
  eo_rcb : forall o psm r, find_rcb_by_psm o psm = Some r -> rcb_ok r;
}.

(** The options of a request that are refused: neither understood nor hints.  The first option that is longer than the command ends them. *)
Fixpoint refused (n : nat) (cmd_len : Z) (opts : list Z) : list Z :=
  match n, opts with
  | S n, code :: len :: rest =>
      if known_option code then refused n cmd_len (drop (Z.to_nat len) rest)
      else if cmd_len <? len + L2CAP_CFG_OPTION_OVERHEAD then []
      else if nz (code .& 0x80) then refused n cmd_len (drop (Z.to_nat len) rest)
      else code :: len :: take (Z.to_nat len) rest ++ refused n cmd_len (drop (Z.to_nat len) rest)
  | _, _ => []
  end.

(** The options from [p] to [hi] can be walked over; [bs] are those that are refused. *)
Inductive walks (b : BT_HDR) (hi cmd_len : Z) : Z -> list Z -> Prop :=
| walks_end p : hi <= p -> walks b hi cmd_len p []
| walks_long p code len : p + 2 <= hi -> bh_read b p = Ok code -> bh_read b (p + 1) = Ok len -> known_option code = false ->
    cmd_len < len + L2CAP_CFG_OPTION_OVERHEAD -> walks b hi cmd_len p []
| walks_over p code len bs : 0 <= len -> p + 2 + len <= hi -> bh_read b p = Ok code -> bh_read b (p + 1) = Ok len ->
    known_option code = true \/ len + L2CAP_CFG_OPTION_OVERHEAD <= cmd_len /\ nz (code .& 0x80) = true ->
    walks b hi cmd_len (p + 2 + len) bs -> walks b hi cmd_len p bs
| walks_refuse p code len bs : 0 <= len -> p + 2 + len <= hi -> bh_read b p = Ok code -> bh_read b (p + 1) = Ok len ->
    known_option code = false -> len + L2CAP_CFG_OPTION_OVERHEAD <= cmd_len -> nz (code .& 0x80) = false ->
    walks b hi cmd_len (p + 2 + len) bs -> walks b hi cmd_len p (code :: len :: slice (bh_data b) (p + 2) len ++ bs).

(** The answer that refuses the options [bs]. *)
Definition rej_packet `{SE : SigEnv} (l : tL2C_LCB) (c : tL2C_CCB) (bs : list Z) : list Z :=
  le16 (lcb_handle l .| ((if supports_non_flushable_pb then L2CAP_PKT_START_NON_FLUSHABLE else L2CAP_PKT_START) .<< L2CAP_PKT_TYPE_SHIFT)) ++
  le16 (Z.of_nat (length bs) + 14) ++ le16 (Z.of_nat (length bs) + 10) ++ le16 L2CAP_SIGNALLING_CID ++ [L2CAP_CMD_CONFIG_RSP; u8 (remote_id c)] ++
  le16 (Z.of_nat (length bs) + 6) ++ le16 (remote_cid c) ++ le16 0 ++ le16 L2CAP_CFG_UNKNOWN_OPTIONS ++ bs.

(** A control block that has just been allocated: it lacks its registration. *)
Record new_ccb (c : tL2C_CCB) : Prop := {
  nc_use : in_use c = true /\ has_lcb c = true;
  nc_held : xmit_hold_q c = Some [] /\ cong_sent c = false /\ 0 <= buff_quota c;
  nc_fcrb : idle_fcrb (fcrb c);
  nc_timer : l2c_ccb_timer c <> None;
  nc_local : L2CAP_BASE_APPL_CID <= local_cid c < L2CAP_BASE_APPL_CID + MAX_L2CAP_CHANNELS;
  nc_mtu : 0 < cfg_mtu (peer_cfg c) < 65536;
  nc_state : chnl_state c = CST_CLOSED;
  nc_done : config_done c = 0;
}.

(** * Lemmas: reading *)

(** The fields of a new control block. *)
Definition init_fields (c c' : tL2C_CCB) : Prop :=
  (in_use c' = true /\ has_lcb c' = true /\ xmit_hold_q c' = Some [] /\ cong_sent c' = false) /\
  (idle_fcrb (fcrb c') /\ l2c_ccb_timer c' = Some None /\ local_cid c' = local_cid c) /\
  (0 < cfg_mtu (peer_cfg c') < 65536 /\ chnl_state c' = CST_CLOSED /\ config_done c' = 0).

Section Read.
Context (b : BT_HDR) (lo hi : Z) (HR : region b lo hi).

Lemma region_sub lo' hi' : lo <= lo' -> hi' <= hi -> region b lo' hi'.
Proof using HR. intros H1 H2. destruct HR as [R1 R2 R3]. constructor; [lia|lia|]. intros i x Hi. apply R3. lia. Qed.

Lemma rg_read p : lo <= p < hi -> returns (bh_read b p) is_u8.
Proof using HR.
  intros Hp. destruct HR as [R1 R2 R3]. unfold bh_read. destruct (rd_ok (bh_data b) p) as (x & -> & Hx); [lia|]. by apply (R3 p).
Qed.

Lemma rg_read16 p : lo <= p -> p + 2 <= hi -> returns (read16 b p) is_u16.
Proof using HR.
  intros H1 H2. unfold read16. eapply returns_bind; [apply rg_read; lia|]. intros x Hx. cbv beta. eapply returns_bind; [apply rg_read; lia|]. intros y Hy.
  cbn. rewrite Z.shiftl_mul_pow2 by lia. unfold is_u8, is_u16 in *. lia.
Qed.

Lemma rg_read32 p : lo <= p -> p + 4 <= hi -> returns (read32 b p) (fun x => 0 <= x).
Proof using HR.
  intros H1 H2. unfold read32. eapply returns_bind; [apply rg_read16; lia|]. intros x Hx. cbv beta. eapply returns_bind; [apply rg_read16; lia|]. intros y Hy.
  cbn. rewrite Z.shiftl_mul_pow2 by lia. unfold is_u16 in *. lia.
Qed.

Lemma rg_bytes p n : lo <= p -> 0 <= n -> p + n <= hi -> returns (bh_read_bytes b p n) (fun bs => length bs = Z.to_nat n).
Proof using HR.
  intros H1 H2 H3. destruct HR as [R1 R2 _]. rewrite bh_read_bytes_ok by lia. cbn. apply length_slice; lia.
Qed.

(** ** Options *)

Lemma read_option_wf p t g : cfg_wf g -> lo <= p -> p + default 0 (option_len t) <= hi -> returns (read_option b p t g) cfg_wf.
Proof using HR.
  intros Hg H1 H2. unfold read_option, option_len in *. unfold L2CAP_CFG_MTU_OPTION_LEN, L2CAP_CFG_FLUSH_OPTION_LEN, L2CAP_CFG_QOS_OPTION_LEN,
    L2CAP_CFG_FCR_OPTION_LEN, L2CAP_CFG_FCS_OPTION_LEN, L2CAP_CFG_EXT_FLOW_OPTION_LEN in H2.
  repeat (case_match; [cbn [default from_option id] in H2|]); [..|done].
  all: repeat (eapply returns_bind; [first [apply rg_read; lia | apply rg_read16; lia | apply rg_read32; lia]|]; cbv beta; intros ? ?).
  all: apply returns_ret; destruct Hg as [Hm Hf]; split; cbn; try done; unfold is_u16 in *; intros _; lia.
Qed.

Lemma option_len_pos t len : option_len t = Some len -> 1 <= len.
Proof. unfold option_len. repeat case_match; intros [= <-]; done. Qed.
End Read.

Lemma parse_rsp_wf b lo hi n : region b lo hi -> forall p g, cfg_wf g -> lo <= p -> 0 < Z.of_nat n -> hi - p < Z.of_nat n ->
  returns (parse_rsp_options n b p hi g) (fun r => match r with Some g' => cfg_wf g' | None => True end).
Proof.
  intros HR. induction n as [|n IH]; intros p g Hg Hp Hn0 Hn; [lia|]. cbn [parse_rsp_options].
  destruct (Z.ltb_spec p hi) as [Hlt|]; cbn [negb]; [|done]. destruct (Z.ltb_spec hi (p + 2)) as [|H2]; [done|].
  eapply returns_bind; [apply (rg_read _ _ _ HR); lia|]. intros code _. cbv beta zeta. destruct (option_len _) as [len|] eqn:El.
  - destruct (Z.ltb_spec hi (p + 2 + len)) as [|H3]; [done|]. pose proof (option_len_pos _ _ El).
    eapply returns_bind; [apply (read_option_wf _ _ _ HR); [done|lia|rewrite El; cbn; lia]|]. intros g' Hg'. apply IH; [done|lia..].
  - apply IH; [done|lia..].
Qed.

Lemma parse_req_wf b lo hi cmd_len n : region b lo hi -> forall p g rej rej_len, cfg_wf g -> lo <= p -> 0 < Z.of_nat n -> hi - p < Z.of_nat n ->
  returns (parse_req_options n b p hi cmd_len g rej rej_len) (fun r => match r with Some (g', _, _) => cfg_wf g' | None => True end).
Proof.
  intros HR. induction n as [|n IH]; intros p g rej rej_len Hg Hp Hn0 Hn; [lia|]. cbn [parse_req_options].
  destruct (Z.ltb_spec p hi) as [Hlt|]; cbn [negb]; [|done]. destruct (Z.ltb_spec hi (p + 2)) as [|H2]; [done|].
  eapply returns_bind; [apply (rg_read _ _ _ HR); lia|]. intros code _. cbv beta.
  eapply returns_bind; [apply (rg_read _ _ _ HR); lia|]. intros clen Hc. unfold is_u8 in Hc. cbv beta zeta. destruct (option_len _) as [len|] eqn:El.
  - destruct (Z.eqb_spec clen len) as [<-|]; cbn [negb]; [|done]. destruct (Z.ltb_spec hi (p + 2 + clen)) as [|H3]; [done|].
    eapply returns_bind; [apply (read_option_wf _ _ _ HR); [done|lia|rewrite El; cbn; lia]|]. intros g' Hg'. apply IH; [done|lia..].
  - destruct (clen + _ <=? cmd_len); [|done]. destruct (hi <? p + 2 + clen); [done|]. destruct (_ =? 0); apply IH; (done || lia).
Qed.

(** ** Options that are refused *)

Lemma known_option_len code : known_option code = match option_len (code .& 0x7F) with Some _ => true | None => false end.
Proof.
  unfold known_option, option_len. generalize (code .& 0x7F). intros t.
  repeat match goal with |- context [if t =? ?k then _ else _] => destruct (Z.eqb_spec t k) as [-> |]; [reflexivity|] end.
  apply bool_decide_eq_false. rewrite !elem_of_cons, elem_of_nil. tauto.
Qed.

Lemma slice_two {A} (d : list A) p hi x y : 0 <= p -> p + 2 <= hi -> d !! Z.to_nat p = Some x -> d !! Z.to_nat (p + 1) = Some y ->
  slice d p (hi - p) = x :: y :: slice d (p + 2) (hi - (p + 2)).
Proof.
  intros Hp Hh Hx Hy. unfold slice. replace (Z.to_nat (hi - p)) with (S (S (Z.to_nat (hi - (p + 2))))) by lia.
  rewrite (drop_S _ _ _ Hx). replace (Z.to_nat (p + 1)) with (S (Z.to_nat p)) in Hy by lia. rewrite (drop_S _ _ _ Hy).
  replace (Z.to_nat (p + 2)) with (S (S (Z.to_nat p))) by lia. done.
Qed.

Lemma slice_skip {A} (d : list A) p hi n : 0 <= p -> 0 <= n -> p + n <= hi -> drop (Z.to_nat n) (slice d p (hi - p)) = slice d (p + n) (hi - (p + n)).
Proof. intros Hp Hn Hh. rewrite slice_drop by lia. f_equal. lia. Qed.

(** The walk of the parser over the next option, if it goes on. *)
Lemma bh_read_inv b p x : bh_read b p = Ok x -> 0 <= p /\ bh_data b !! Z.to_nat p = Some x.
Proof.
  unfold bh_read, rd. destruct (Z.ltb_spec p 0); [done|]. destruct (bh_data b !! _) eqn:E; cbn; [|done]. intros [= ->]. by split; [lia|].
Qed.

Lemma parse_walks b lo hi cmd_len n : region b lo hi -> forall p g rej rl g' rej' rl', lo <= p ->
  parse_req_options n b p hi cmd_len g rej rl = Ok (Some (g', rej', rl')) ->
  exists bs, walks b hi cmd_len p bs /\ Z.of_nat (length bs) <= Z.max 0 (hi - p) /\ (0 <= rl -> rl + Z.max 0 (hi - p) < 65536 -> rl' = rl + Z.of_nat (length bs)).
Proof.
  intros HR. induction n as [|n IH]; intros p g rej rl g' rej' rl' Hp; [done|]. cbn [parse_req_options].
  destruct (Z.ltb_spec p hi) as [Hlt|Hge]; cbn [negb]; [|intros [= _ _ <-]; exists []; split; [by constructor|cbn; lia]]. destruct (Z.ltb_spec hi (p + 2)) as [|H2]; [done|].
  destruct (bh_read b p) as [code|] eqn:E1; cbn [mbind outcome_bind]; [|done]. pose proof (rg_read _ _ _ HR (p + 1)) as H3. specialize (H3 ltac:(lia)).
  destruct (bh_read b (p + 1)) as [clen|] eqn:E2; cbn [mbind outcome_bind]; [|done]. cbn in H3. unfold is_u8 in H3. pose proof (known_option_len code) as Ek.
  destruct (option_len _) as [len|] eqn:El.
  - destruct (Z.eqb_spec clen len) as [<-|]; cbn [negb]; [|done]. destruct (Z.ltb_spec hi (p + 2 + clen)) as [|H4]; [done|].
    destruct (read_option _ _ _ _) as [g1|]; cbn [mbind outcome_bind]; [|done]. intros (bs & Hw & Hl & Hr)%IH; [|lia]. exists bs.
    split; [eapply walks_over; [..|exact Hw]; [lia|lia|done|done|by left]|]. split; [lia|]. intros. apply Hr; lia.
  - destruct (Z.leb_spec (clen + L2CAP_CFG_OPTION_OVERHEAD) cmd_len) as [Hc|Hc].
    2: { intros [= _ _ <-]. exists []. split; [by eapply walks_long|cbn; lia]. }
    destruct (Z.ltb_spec hi (p + 2 + clen)) as [|H4]; [done|]. destruct (code .& 0x80 =? 0) eqn:Eh.
    + intros (bs & Hw & Hl & Hr)%IH; [|lia]. exists (code :: clen :: slice (bh_data b) (p + 2) clen ++ bs).
      assert (El' : Z.of_nat (length (code :: clen :: slice (bh_data b) (p + 2) clen ++ bs)) = clen + 2 + Z.of_nat (length bs)).
      { cbn [length]. destruct HR as [R1 R2 _]. rewrite length_app, length_slice by lia. lia. }
      split; [eapply walks_refuse; [..|exact Hw]; [lia|lia|done|done|done|done|by unfold nz; rewrite Eh]|]. rewrite El'. split; [lia|]. intros H5 H6. unfold L2CAP_CFG_OPTION_OVERHEAD in *.
      assert (Eu : u16 (rl + clen + 2) = rl + clen + 2) by (apply u16_id; unfold is_u16; lia). rewrite Hr; lia.
    + intros (bs & Hw & Hl & Hr)%IH; [|lia]. exists bs. split; [eapply walks_over; [..|exact Hw]; [lia|lia|done|done|right; split; [done|by unfold nz; rewrite Eh]]|]. split; [lia|]. intros. apply Hr; lia.
Qed.

Lemma walks_refused b hi cmd_len p bs : walks b hi cmd_len p bs -> forall n, hi - p <= Z.of_nat n -> bs = refused n cmd_len (slice (bh_data b) p (hi - p)).
Proof.
  induction 1 as [p Hp|p code len H2 E1 E2 Ek Hc|p code len bs Hl Hh E1 E2 Hk Hw IH|p code len bs Hl Hh E1 E2 Ek Hc Eh Hw IH]; intros n Hn.
  - unfold slice. replace (Z.to_nat (hi - p)) with O by lia. by destruct n.
  - apply bh_read_inv in E1 as [? E1], E2 as [_ E2]. rewrite (slice_two _ _ _ _ _ H H2 E1 E2). destruct n as [|n]; [lia|]. cbn [refused].
    rewrite Ek. by destruct (Z.ltb_spec cmd_len (len + L2CAP_CFG_OPTION_OVERHEAD)); [|lia].
  - apply bh_read_inv in E1 as [? E1], E2 as [_ E2]. rewrite (slice_two _ p hi code len) by (done || lia). destruct n as [|n]; [lia|]. cbn [refused].
    rewrite slice_skip by lia. rewrite (IH n) by lia. destruct Hk as [-> |[Hc Eh]]; [done|]. rewrite Eh. destruct (known_option code); [done|].
    destruct (Z.ltb_spec cmd_len (len + L2CAP_CFG_OPTION_OVERHEAD)); [lia|done].
  - apply bh_read_inv in E1 as [? E1], E2 as [_ E2]. rewrite (slice_two _ p hi code len) by (done || lia). destruct n as [|n]; [lia|]. cbn [refused].
    rewrite slice_skip, slice_take by lia. rewrite <- (IH n) by lia. rewrite Ek, Eh. by destruct (Z.ltb_spec cmd_len (len + L2CAP_CFG_OPTION_OVERHEAD)); [lia|].
Qed.

Lemma bh_same q d : bh_data q = d -> q <| bh_data := d |> = q.
Proof. intros <-. by destruct q. Qed.

Lemma bh_write_nil b b' pos : bh_write b pos [] = Ok b' -> b' = b.
Proof.
  unfold bh_write, wr_bytes. destruct (_ || _); [done|]. cbn. rewrite Nat.add_0_r, take_drop. intros [= <-]. by apply bh_same.
Qed.

Lemma read_whole_option b p code len : 0 <= len -> p + 2 + len <= Z.of_nat (length (bh_data b)) -> bh_read b p = Ok code -> bh_read b (p + 1) = Ok len ->
  bh_read_bytes b p (len + 2) = Ok (code :: len :: slice (bh_data b) (p + 2) len).
Proof.
  intros Hl Hb [Hp E1]%bh_read_inv [_ E2]%bh_read_inv. rewrite bh_read_bytes_ok by lia. f_equal. replace (len + 2) with (p + 2 + len - p) by lia.
  rewrite (slice_two _ p _ code len) by (done || lia). do 3 f_equal. lia.
Qed.

(** The copy: it is written behind [pre] in place of [old]. *)
Lemma walks_copy b hi cmd_len p bs : hi <= Z.of_nat (length (bh_data b)) -> walks b hi cmd_len p bs -> forall n p0 data_len q pre old post space,
  hi = p0 + data_len -> p0 <= p -> data_len <= cmd_len -> 0 < Z.of_nat n -> hi - p < Z.of_nat n -> bh_data q = pre ++ old ++ post -> length old = length bs ->
  Z.of_nat (length bs) <= space ->
  copy_rejected n b p hi data_len q (Z.of_nat (length pre)) space = Ok (q <| bh_data := pre ++ bs ++ post |>, Z.of_nat (length pre) + Z.of_nat (length bs)).
Proof.
  intros Hb. induction 1 as [p Hp|p code len H2 E1 E2 Ek Hc|p code len bs Hl Hh E1 E2 Hk Hw IH|p code len bs Hl Hh E1 E2 Ek Hc Eh Hw IH];
    intros [|n] p0 data_len q pre old post space Hd Hp0 Hdl Hn0 Hn Eq Eo Hs; try lia; cbn [copy_rejected]; unfold L2CAP_CFG_OPTION_OVERHEAD in *.
  - destruct (Z.ltb_spec p hi); [lia|]. destruct old; [|done]. cbn [negb length Z.of_nat]. by rewrite Z.add_0_r, bh_same.
  - destruct (Z.ltb_spec p hi); [|lia]. rewrite E1, E2. cbn [negb mbind outcome_bind]. rewrite Ek. destruct (Z.ltb_spec data_len (len + 2)); [|lia].
    destruct old; [|done]. cbn [length Z.of_nat]. by rewrite Z.add_0_r, bh_same.
  - destruct (Z.ltb_spec p hi); [|lia]. rewrite E1, E2. cbn [negb mbind outcome_bind]. replace (p + len + 2) with (p + 2 + len) by lia.
    assert (Hgo : copy_rejected n b (p + 2 + len) hi data_len q (Z.of_nat (length pre)) space =
                  Ok (q <| bh_data := pre ++ bs ++ post |>, Z.of_nat (length pre) + Z.of_nat (length bs))) by (by apply (IH n p0 data_len q pre old post space); lia || done).
    destruct Hk as [-> |[Hc Eh]]; [done|]. rewrite Eh. destruct (known_option code); [done|]. destruct (Z.ltb_spec data_len (len + 2)); [lia|done].
  - set (o := code :: len :: slice (bh_data b) (p + 2) len) in *. assert (El : length o = Z.to_nat (len + 2)).
    { apply bh_read_inv in E1 as [? _]. unfold o. cbn [length]. rewrite length_slice by lia. lia. }
    change (code :: len :: slice (bh_data b) (p + 2) len ++ bs) with (o ++ bs) in *. rewrite length_app in Eo, Hs.
    destruct (Z.ltb_spec p hi); [|lia]. rewrite E1, E2. cbn [negb mbind outcome_bind]. rewrite Ek, Eh. destruct (Z.ltb_spec data_len (len + 2)); [lia|].
    destruct (Z.ltb_spec space (len + 2)); [lia|]. rewrite (read_whole_option b p code len) by (done || lia). cbn [mbind outcome_bind]. fold o.
    rewrite <- (take_drop (length o) old) in Eq. rewrite <- app_assoc in Eq.
    rewrite (bh_write_mid q pre (take (length o) old) o _ _ Eq) by (rewrite ?length_take; lia). cbn [mbind outcome_bind].
    replace (p + len + 2) with (p + 2 + len) by lia. replace (Z.of_nat (length pre) + len + 2) with (Z.of_nat (length (pre ++ o))) by (rewrite length_app; lia).
    erewrite (IH n p0 data_len _ (pre ++ o) (drop (length o) old) post); [|lia|lia|lia|lia|lia|by bh_cbn; rewrite <- app_assoc|rewrite length_drop; lia|lia].
    rewrite !length_app, !Nat2Z.inj_add, <- !app_assoc. f_equal. f_equal. lia.
Qed.

(** * Lemmas: answers *)

Section Link.
Context `{LE : LinkEnv} `{SE : SigEnv}.

Lemma rej_packet_sig l c bs : sig_packet (rej_packet l c bs).
Proof. unfold rej_packet. rewrite app_assoc. eexists _, _, _. split; [|reflexivity]. done. Qed.

Lemma config_rej_sends c s p_msg p data_len hi cmd_len bs Q : stands c s -> has_lcb c = true -> hi = p + data_len -> 0 <= data_len <= cmd_len ->
  hi <= Z.of_nat (length (bh_data p_msg)) -> walks p_msg hi cmd_len p bs -> Z.of_nat (length bs) <= 1000 ->
  (forall b, bh_payload b = rej_packet (lcb s) c bs -> runs (ccb_check_send_pkts 0 (Some b)) s Q) ->
  runs (l2cu_send_peer_config_rej p_msg p data_len (Z.of_nat (length bs))) s Q.
Proof.
  intros H Hl Hhi Hd Hb Hw Hbs HQ. unfold l2cu_send_peer_config_rej. cbv zeta. set (n := length bs) in *.
  change (sizeof_BT_HDR + HCI_DATA_PREAMBLE_SIZE + L2CAP_PKT_OVERHEAD + L2CAP_CMD_OVERHEAD + L2CAP_CONFIG_RSP_LEN) with 26.
  destruct (Z.ltb_spec (0xFFFF - 26) (Z.of_nat n)); [lia|]. astep. astep. astep. apply (st_get_lcb _ s H); [done|]. intros _.
  match goal with |- context [le16 (lcb_handle (lcb s) .| ?x)] => set (word := lcb_handle (lcb s) .| x) end. unfold L2CAP_CMD_OVERHEAD, L2CAP_CONFIG_RSP_LEN, L2CAP_PKT_OVERHEAD, L2CAP_SEND_CMD_OFFSET.
  set (b0 := (osi_malloc (26 + Z.of_nat n)) <| bh_offset := 0 |>).
  assert (E0 : bh_data b0 = [] ++ replicate 2 0 ++ replicate 2 0 ++ replicate 14 0 ++ replicate n 0 ++ []).
  { unfold b0, osi_malloc. bh_cbn. unfold sizeof_BT_HDR. replace (Z.to_nat (26 + Z.of_nat n - 8)) with (2 + (2 + (14 + n)))%nat by lia. by rewrite !replicate_add, app_nil_r. }
  astep. apply runs_lift. rewrite (bh_write_mid b0 [] (replicate 2 0) (le16 word) _ 0 E0) by done. cbn [returns]. astep. apply runs_lift.
  match goal with |- context [bh_write _ _ ?h] => set (hdr := h) end.
  erewrite (bh_write_mid _ (le16 word ++ replicate 2 0) (replicate 14 0) hdr (replicate n 0 ++ [])); [|by bh_cbn; rewrite <- !app_assoc|done|done]. cbn [returns].
  astep. apply runs_lift. change (0 + 2 + 2 + 4 + 4 + 6) with (Z.of_nat (length ((le16 word ++ replicate 2 0) ++ hdr))). rewrite <- Hhi.
  erewrite (walks_copy p_msg hi cmd_len p bs Hb Hw _ p data_len _ _ (replicate n 0) []); [|done|lia|lia|lia|lia|by bh_cbn; rewrite <- !app_assoc|by rewrite length_replicate|done].
  cbn [returns]. cbv beta iota zeta. fold n. change (Z.of_nat (length ((le16 word ++ replicate 2 0) ++ hdr))) with 18.
  replace (18 + Z.of_nat n - (0 + 2) - 2) with (Z.of_nat n + 14) by lia. rewrite (u16_id (Z.of_nat n + 14)) by (unfold is_u16; lia).
  astep. apply runs_lift. erewrite (bh_write_mid _ (le16 word) (replicate 2 0) _ (hdr ++ bs ++ [])); [|by bh_cbn; rewrite <- !app_assoc|done|done]. cbn [returns].
  apply HQ. eapply (holds_payload _ [] _ []). constructor; bh_cbn; [|done|].
  - unfold rej_packet, hdr. fold n word. rewrite !app_nil_r, !app_nil_l, <- !app_assoc. by rewrite !(Z.add_comm (Z.of_nat n)).
  - rewrite u16_id by (unfold is_u16; lia). unfold rej_packet. rewrite !length_app. cbn [length le16]. fold n. lia.
Qed.

Lemma config_rej_st c s p_msg p data_len hi cmd_len bs Q : stands c s -> has_lcb c = true -> nothing_held c -> hi = p + data_len -> 0 <= data_len <= cmd_len ->
  hi <= Z.of_nat (length (bh_data p_msg)) -> walks p_msg hi cmd_len p bs -> Z.of_nat (length bs) <= 1000 -> (forall s', stands c s' -> Q tt s') ->
  runs (l2cu_send_peer_config_rej p_msg p data_len (Z.of_nat (length bs))) s Q.
Proof.
  intros H Hl Hn Hhi Hd Hb Hw Hbs HQ. eapply config_rej_sends; [done..|]. intros b Eb. apply (st_ccb_send c); [done..| |done]. rewrite Eb. apply rej_packet_sig.
Qed.

(** The echo: the data comes back if there is room for it. *)
Lemma echo_rsp_st c s id p_msg p data_len Q : env_ok -> stands c s -> nothing_held c -> 0 <= p -> 0 <= data_len -> p + data_len <= Z.of_nat (length (bh_data p_msg)) ->
  (forall s', stands c s' -> Q tt s') -> runs (l2cu_send_peer_echo_rsp id p_msg p data_len) s Q.
Proof.
  intros [Ha Hp' _] H Hn Hp Hd Hb HQ. unfold l2cu_send_peer_echo_rsp. astep. astep. case_match; [astep; by apply HQ|]. clear H0. astep.
  apply (st_upd_link c s H); [by intros []|]. clear s H. intros s H. cbv zeta.
  match goal with |- context [u16 ?x] => assert (Hm : 0 <= u16 x <= 640) end.
  { unfold HCI_DATA_PREAMBLE_SIZE, L2CAP_CMD_BUF_SIZE, sizeof_BT_HDR, L2CAP_PKT_OVERHEAD, L2CAP_CMD_OVERHEAD, L2CAP_ECHO_RSP_LEN in *.
    case_match; rewrite u16_id by (unfold is_u16; lia); lia. }
  match goal with |- context [u16 ?x] => set (m := u16 x) in * end. clearbody m.
  set (n := if m <? data_len then 0 else data_len). assert (Hn' : 0 <= n <= 640 /\ n <= data_len) by (unfold n; destruct (Z.ltb_spec m data_len); lia). clearbody n.
  astep. astep. assert (El : lcb_le (lcb s) = false) by apply H.
  set (params := if n =? 0 then [] else slice (bh_data p_msg) p n). assert (Elen : L2CAP_ECHO_RSP_LEN + n = Z.of_nat (length params)).
  { unfold params, L2CAP_ECHO_RSP_LEN. destruct (Z.eqb_spec n 0); [done|]. rewrite length_slice by lia. lia. }
  destruct (build_cmd_ok (lcb s) (L2CAP_ECHO_RSP_LEN + n) L2CAP_CMD_ECHO_RSP id params El Elen) as (b & E & Eb); [unfold L2CAP_ECHO_RSP_LEN; lia|].
  unfold build_cmd in E. destruct (l2cu_build_header _ _ _ _) as [b1|] eqn:E1; cbn [mbind outcome_bind] in E; [|done].
  astep. apply runs_lift. cbn [returns]. astep. apply runs_lift.
  apply (returns_mono _ (fun b' => sig_packet (bh_payload b'))).
  - unfold params in *. destruct (Z.eqb_spec n 0).
    + apply bh_write_nil in E as ->. cbn. rewrite Eb. apply cmd_packet_sig.
    + rewrite bh_read_bytes_ok by lia. cbn [mbind outcome_bind]. rewrite E. cbn. rewrite Eb. apply cmd_packet_sig.
  - intros b' Hs. by apply (st_send c).
Qed.

(** * Lemmas: commands *)

Lemma inv_stands s : setup_inv s -> exists c, stands c s /\ nothing_held c.
Proof. intros (c & H & [(r & HL & _)|HV]); exists c; (split; [done|]); [by eapply live_nothing_held|by apply vacant_nothing_held]. Qed.

Lemma inv_same c s s' : stands c s -> stands c s' -> setup_inv s -> setup_inv s'.
Proof. intros H H' (c0 & H0 & Hc). assert (c0 = c) as -> by by rewrite <- (sd_ccb _ _ H), <- (sd_ccb _ _ H0). by exists c. Qed.

Lemma inv_emit o s : delivered [o] = [] -> setup_inv s -> runs (emit o) s kept.
Proof. intros Ho Hi. destruct (inv_stands s Hi) as (c & H & _). apply (st_emit c s H); [done|]. intros s' H'. by apply (inv_same c s). Qed.

Lemma inv_link f s : (lcb_ok (lcb s) -> lcb_ok (f (lcb s))) -> setup_inv s -> runs (upd_link f) s kept.
Proof. intros Hf Hi. destruct (inv_stands s Hi) as (c & H & _). apply (st_upd_link c s H); [done|]. intros s' H'. by apply (inv_same c s). Qed.

Lemma for_channel_inv {A} cid code (other : A) m no s : setup_inv s ->
  (forall r c, stands c s -> live r c -> agreed r c -> runs m s kept) -> runs no s kept -> runs (for_channel cid code other m no) s kept.
Proof.
  intros Hi Hm Hno. unfold for_channel, l2cu_find_ccb_by_cid. pose proof Hi as (c & H & Hc). astep. astep. apply runs_get. astep. rewrite (sd_ccb _ _ H).
  destruct (_ || _); [exact Hno|]. destruct (cid =? local_cid c).
  - destruct (in_use c && has_lcb c) eqn:E; [|done]. destruct Hc as [(r & HL & HA)|HV]; [by eapply Hm|]. destruct HV as (E' & _). by rewrite E' in E.
  - destruct (other_ccb _ _); [|done]. astep. apply (runs_mono _ _ kept); [by apply inv_emit|]. intros [] s' Hi'. by astep.
Qed.

Lemma for_all_inv code event s : setup_inv s -> (forall c, outer c event) -> runs (for_all_channels code event) s kept.
Proof.
  intros Hi Ho. unfold for_all_channels. pose proof Hi as (c & H & _). astep. astep. astep. apply (runs_mono _ _ kept).
  - apply runs_when; intros _; [|done]. apply keeps_skipped. by eapply execute_inv.
  - intros [] s' Hi'. by apply inv_emit.
Qed.

Lemma cmd_reject_inv reason id p1 p2 s : setup_inv s -> runs (l2cu_send_peer_cmd_reject reason id p1 p2) s kept.
Proof. intros Hi. destruct (inv_stands s Hi) as (c & H & Hn). apply (cmd_reject_st c); [done..|]. intros s' H'. by apply (inv_same c s). Qed.

(** ** Control blocks *)

Lemma init_ccb_fields c : fcrb c = zero_FCRB -> init_fields c (init_ccb c).
Proof.
  intros Hf. split; [split_and!; by vm_compute|]. split; split_and!; try (by vm_compute).
  assert (E : fcrb (init_ccb c) = (fcrb c) <| ack_timer := alarm_new |> <| mon_retrans_timer := alarm_new |> <| srej_rcv_hold_q := fixed_queue_new |>
                <| retrans_q := fixed_queue_new |> <| waiting_for_ack_q := fixed_queue_new |>) by by vm_compute.
  rewrite E, Hf. by constructor.
Qed.

Lemma allocate_with f c s Q : stands c s -> vacant c -> init_fields c (f c) -> (forall c' s', stands c' s' -> new_ccb c' -> Q tt s') ->
  runs (upd_ccb f;; l2c_link_adjust_chnl_allocation) s Q.
Proof.
  intros H (Hu & Hf & Hx & _ & Hcid) ((F1 & F2 & F3 & F4) & (F5 & F6 & F7) & F8 & F9 & F10) HQ.
  astep. astep. apply (adjust_allocation_st (f c)); [done|done|done| |done]. intros q s' H' Hq.
  eapply HQ; [done|]. constructor; try done; cbn; by rewrite ?F6, ?F7.
Qed.

Lemma allocate_st c s Q : stands c s -> vacant c -> (forall c' s', stands c' s' -> new_ccb c' -> Q tt s') -> runs l2cu_allocate_ccb s Q.
Proof. intros H HV HQ. apply (allocate_with init_ccb c); [done|done| |done]. by apply init_ccb_fields, HV. Qed.

Lemma new_agreed r c c' : new_ccb c -> chnl_state c' = chnl_state c -> config_done c' = config_done c -> agreed r c'.
Proof.
  intros HN E1 E2. pose proof (nc_state _ HN) as Es. pose proof (nc_done _ HN) as Ed. constructor; unfold ib_done; rewrite ?E1, ?E2, ?Es, ?Ed; [by intros []|done|done].
Qed.

Lemma new_live r c c' : new_ccb c -> rcb_ok r -> p_rcb c' = Some r -> (initiator_local c' = false -> has_ConnectInd_Cb r = true) ->
  c' = c <| remote_id := remote_id c' |> <| p_rcb := p_rcb c' |> <| remote_cid := remote_cid c' |> <| initiator_local := initiator_local c' |> -> live r c'.
Proof.
  intros [[] (? & ? & ?)] Hr Ep Hi E. constructor; try done; rewrite E; done.
Qed.

Lemma free_ccb_st c s (Q : found -> l2c -> Prop) : stands c s -> setup_inv s -> (vacant c -> Q Mine s) -> Q Other s -> Q NoCcb s -> runs free_ccb s Q.
Proof.
  intros H (c' & H' & Hc) H1 H2 H3. assert (c' = c) as -> by by rewrite <- (sd_ccb _ _ H), <- (sd_ccb _ _ H').
  unfold free_ccb. astep. apply runs_get. astep. rewrite (sd_ccb _ _ H). destruct (first_free_ccb _) as [mine|]; [|done].
  destruct (mine && negb (in_use c)) eqn:E; [|done]. apply H1. destruct Hc as [(r & HL & _)|HV]; [|done]. by rewrite (lv_in_use _ _ HL), andb_false_r in E.
Qed.

(** ** Commands *)

(** Sixteen bits of the parameters. *)
Ltac word HR := astep; apply runs_lift; refine (returns_mono _ _ _ (rg_read16 _ _ _ HR _ _ _) _); [lia..|]; intros ? ?.

Lemma cancel_info_ok l : lcb_ok l -> lcb_ok (l <| info_resp_timer ::= alarm_cancel |> <| w4_info_rsp := false |>).
Proof. intros []. constructor; try done. by apply alarm_cancel_some. Qed.

(** The answer to a request for a connection that is refused. *)
Lemma conn_neg_st r c s result : stands c s -> live r c -> agreed r c ->
  runs (l2c_csm_execute (L2CAP_CONNECT_RSP_NEG result)) s (fun _ s' => setup_inv s' /\ exists c', stands c' s' /\ p_rcb c' = Some r).
Proof.
  intros H HL HA. assert (Hs : forall s', stands c s' -> setup_inv s' /\ exists c', stands c' s' /\ p_rcb c' = Some r).
  { intros s' H'. split; [by eapply inv_live|]. exists c. split; [done|apply HL]. }
  unfold l2c_csm_execute, CSM_DEPTH. eapply execute_at; [done|apply HL|done|]. destruct (chnl_state c).
  1: { unfold l2c_csm_closed. astep. astep. astep. rewrite (lv_rcb _ _ HL). astep. astep. by apply Hs. }
  6: { unfold l2c_csm_open. astep. by apply Hs. }
  all: unfold l2c_csm_orig_w4_sec_comp, l2c_csm_term_w4_sec_comp, l2c_csm_w4_l2cap_connect_rsp, l2c_csm_w4_l2ca_connect_rsp, l2c_csm_config,
    l2c_csm_w4_l2cap_disconnect_rsp, l2c_csm_w4_l2ca_disconnect_rsp; astep; try astep; try (apply (st_get_rcb _ s H r); [apply HL|]).
  all: try (astep; try astep; by apply Hs).
  unfold release_with_error. astep. astep. astep. apply (release_st r c); [done..|]. clear s H. intros s H.
  apply (st_callback _ s H _ _ r); [apply HL|apply HL|]. intros s' H'. astep. split; [eapply inv_vacant; [done|by eapply vacant_freed]|].
  exists (freed c). split; [done|apply HL].
Qed.

Lemma fixed_resp_kept s : setup_inv s -> runs l2cu_process_fixed_chnl_resp s kept.
Proof.
  intros Hi. unfold l2cu_process_fixed_chnl_resp. astep. apply (runs_mono _ _ kept).
  { apply inv_link; [|done]. intros []. constructor; try done. cbn. by destruct (peer_chnl_mask (lcb s)). }
  clear s Hi. intros [] s Hi. astep. apply runs_get_link. cbv zeta.
  assert (Hm : length (peer_chnl_mask (lcb s)) = 8%nat) by (destruct (inv_stands s Hi) as (c & H & _); apply H). set (mask := peer_chnl_mask (lcb s)) in *. clearbody mask.
  match goal with |- runs (foldr _ _ ?l) _ _ => assert (Hl : Forall (fun cid => 0 <= cid < 64) l); [|set (cids := l) in *; clearbody cids] end.
  { apply Forall_rev, Forall_map, Forall_seq. intros j Hj. unfold L2CAP_FIRST_FIXED_CHNL, L2CAP_NUM_FIXED_CHNLS in *. lia. }
  induction Hl as [|cid cids Hcid _ IH]; cbn [foldr]; [by astep|]. astep. refine (runs_mono _ _ _ _ IH _). intros [] s' Hi'. case_match; [by astep|].
  astep. apply runs_lift. destruct (rd_ok mask (cid `div` 8)) as (x & -> & _); [split; [apply Z.div_pos; lia|apply Z.div_lt_upper_bound; lia]|]. cbn [returns]. by apply inv_emit.
Qed.

Section Command.
Context (HE : env_ok) (b : BT_HDR) (p p_next cmd_len id : Z) (HR : region b p p_next) (Hlen : p_next = p + cmd_len) (Hcmd : 0 <= cmd_len <= 660).
Context (s : l2c) (Hi : setup_inv s) (g : tL2CAP_CFG_INFO).

Lemma cmd_reject_kept : runs (cmd_reject b p p_next g) s kept.
Proof using HR Hi.
  unfold cmd_reject. destruct (Z.ltb_spec p_next (p + 2)); [by astep|]. word HR. destruct (_ && _); [by astep|]. case_match.
  - destruct (Z.ltb_spec p_next (p + 6)); [by astep|]. word HR. word HR. apply keeps_then. apply for_channel_inv; [done| |by astep]. intros r c Hc HL HA.
    astep. astep. apply runs_when; intros _; [|done]. apply keeps_skipped. by eapply execute_inv.
  - astep. apply runs_get_link. apply keeps_then. apply runs_when; intros _; [|done]. astep.
    apply (runs_mono _ _ kept); [apply inv_link; [apply cancel_info_ok|done]|]. intros [] s' Hi'. by apply for_all_inv.
Qed.

Lemma cmd_conn_req_kept : runs (cmd_conn_req b p p_next id g) s kept.
Proof using HE HR Hi.
  unfold cmd_conn_req. destruct (Z.ltb_spec p_next (p + 4)); [by astep|]. word HR. word HR. astep. apply runs_get. apply keeps_then.
  destruct (inv_stands s Hi) as (c & Hc & Hn).
  assert (Hrej : forall rcid result, runs (l2cu_reject_connection rcid id result) s kept).
  { intros rcid result. apply (reject_connection_st c); [done..|]. intros s' H'. by apply (inv_same c s). }
  destruct (find_rcb_by_psm _ _) as [r|] eqn:Er; [|apply Hrej]. destruct (has_ConnectInd_Cb r) eqn:Eci; cbn [negb]; [|apply Hrej].
  pose proof (eo_rcb HE _ _ _ Er) as Hrk. astep. apply (free_ccb_st c); [done|done| |by apply inv_emit|by apply Hrej]. intros HV. astep. apply (allocate_st c); [done|done|].
  clear s Hi Hc Hrej Er. intros c1 s Hc HN. astep. astep. match type of Hc with stands ?x _ => set (c2 := x) in * end.
  assert (HL : live r c2).
  { by apply (new_live r c1). }
  apply keeps_skipped. eapply execute_inv; [done| |done]. eapply inv_live; [done|done|by apply (new_agreed r c1)].
Qed.

Lemma cmd_conn_rsp_kept : runs (cmd_conn_rsp b p p_next id g) s kept.
Proof using HR Hi.
  unfold cmd_conn_rsp. destruct (Z.ltb_spec p_next (p + 8)); [by astep|]. word HR. word HR. word HR. apply keeps_then.
  apply for_channel_inv; [done| |by astep]. intros r c Hc HL HA. astep. astep. case_match; [by astep|].
  case_match; [apply keeps_skipped; by eapply execute_inv|]. case_match; [apply keeps_skipped; by eapply execute_inv|].
  astep. eapply runs_mono; [by eapply conn_neg_st|]. cbv beta. intros _ s' (Hi' & c' & Hc' & Er). astep. apply (st_get_rcb _ s' Hc' r); [done|]. by astep.
Qed.

Lemma cmd_config_req_kept : runs (cmd_config_req b p p_next cmd_len id g) s kept.
Proof using HR Hi Hlen Hcmd.
  unfold cmd_config_req. destruct (Z.ltb_spec p_next (p + 4)) as [|H4]; [by astep|]. word HR. word HR. astep. apply runs_lift.
  assert (HR' : region b (p + 4) p_next) by (eapply region_sub; [done|lia|lia]). match goal with |- context [no_options ?x] => set (g0 := no_options x) end.
  pose proof (parse_req_wf b (p + 4) p_next cmd_len (S (Z.to_nat cmd_len)) HR' (p + 4) g0 false 0) as Hwf.
  specialize (Hwf ltac:(done) ltac:(lia) ltac:(lia) ltac:(lia)). destruct (parse_req_options _ _ _ _ _ _ _ _) as [r|] eqn:Ep; cbn [returns] in *; [|done].
  destruct r as [[[g1 rej] rl]|]; [|by astep]. destruct (parse_walks b (p + 4) p_next cmd_len _ HR' _ _ _ _ _ _ _ (Z.le_refl _) Ep) as (bs & Hw & Hbl & Hrl).
  specialize (Hrl ltac:(lia) ltac:(lia)). cbn in Hrl. subst rl. astep. apply (runs_mono _ _ kept); [|intros ? s' Hi'; by astep].
  apply for_channel_inv; [done| |].
  - clear Hi. intros r c Hc HL HA. astep. astep. match type of Hc with stands ?x _ => set (c1 := x) in *; assert (HL1 : live r c1) by by live_upd HL end.
    assert (HA1 : agreed r c1) by by eapply agreed_same. destruct rej; [|eapply execute_inv; [done|by eapply inv_live|exact Hwf]].
    apply keeps_then. rewrite u16_id by (unfold is_u16, L2CAP_CONFIG_REQ_LEN; lia). unfold L2CAP_CONFIG_REQ_LEN.
    apply (config_rej_st c1 s b (p + 4) (cmd_len - 4) p_next cmd_len bs); [done|apply HL1|by eapply live_nothing_held|lia|lia|apply HR|done|lia|].
    intros s' H'. by eapply inv_live.
  - apply keeps_then. by apply cmd_reject_inv.
Qed.

Lemma cmd_config_rsp_kept : runs (cmd_config_rsp b p p_next cmd_len id g) s kept.
Proof using HR Hi Hlen Hcmd.
  unfold cmd_config_rsp. destruct (Z.ltb_spec p_next (p + 6)) as [|H4]; [by astep|]. word HR. word HR. word HR. astep. apply runs_lift.
  assert (HR' : region b (p + 6) p_next) by (eapply region_sub; [done|lia|lia]).
  eapply returns_mono; [apply (parse_rsp_wf b (p + 6) p_next); [done|done|lia|lia|lia]|]. intros [g1|] _; [|by astep].
  astep. apply (runs_mono _ _ kept); [|intros ? s' Hi'; by astep]. apply for_channel_inv; [done| |by astep]. intros r c Hc HL HA.
  astep. astep. case_match; [by astep|]. case_match; by eapply execute_inv.
Qed.

Lemma cmd_disc_req_kept : runs (cmd_disc_req b p p_next id g) s kept.
Proof using HR Hi.
  unfold cmd_disc_req. destruct (Z.ltb_spec p_next (p + 4)); [by astep|]. word HR. word HR. apply keeps_then. apply for_channel_inv; [done| |].
  - intros r c Hc HL HA. astep. astep. apply runs_when; intros _; [|done]. clear Hi. astep. astep. apply keeps_skipped. eapply execute_inv; [done| |done].
    eapply inv_live; [done|by live_upd HL|by eapply agreed_same].
  - destruct (inv_stands s Hi) as (c & Hc & Hn). apply (disc_rsp_st c); [done..|]. intros s' H'. by apply (inv_same c s).
Qed.

Lemma cmd_disc_rsp_kept : runs (cmd_disc_rsp b p p_next id g) s kept.
Proof using HR Hi.
  unfold cmd_disc_rsp. destruct (Z.ltb_spec p_next (p + 4)); [by astep|]. word HR. word HR. apply keeps_then. apply for_channel_inv; [done| |by astep].
  intros r c Hc HL HA. astep. astep. apply runs_when; intros _; [|done]. apply keeps_skipped. by eapply execute_inv.
Qed.

Lemma info_to_channels s' : setup_inv s' -> runs (for_all_channels L2CAP_CMD_INFO_RSP L2CAP_INFO_RSP;; mret (Some g)) s' kept.
Proof. intros Hi'. apply keeps_then. by apply for_all_inv. Qed.

Lemma cmd_info_rsp_kept : runs (cmd_info_rsp b p p_next g) s kept.
Proof using HR Hi.
  unfold cmd_info_rsp. astep. apply runs_get_link. astep. apply (runs_mono _ _ kept).
  { apply runs_when; intros _; [|done]. by apply inv_link; [apply cancel_info_ok|]. }
  clear s Hi. intros [] s Hi. cbv beta. destruct (Z.ltb_spec p_next (p + 4)); [by astep|]. word HR. word HR. case_match.
  - destruct (Z.ltb_spec p_next (p + 8)); [by astep|]. astep. apply runs_lift. refine (returns_mono _ _ _ (rg_read32 _ _ _ HR _ _ _) _); [lia..|]. intros features _.
    astep. apply (runs_mono _ _ kept); [by apply inv_link; [intros []|]|]. clear s Hi. intros [] s Hi. apply keeps_then. case_match.
    + destruct (inv_stands s Hi) as (c & Hc & Hn). apply (info_req_st c); [done..|]. intros s' H'. by apply (inv_same c s).
    + astep. apply (runs_mono _ _ kept); [by apply fixed_resp_kept|]. intros [] s' Hi'. by apply for_all_inv.
  - case_match; [|by apply info_to_channels]. destruct (_ && (p_next <? _)) eqn:Eb; [by astep|]. astep. apply (runs_mono _ _ kept).
    + destruct (_ =? L2CAP_INFO_RESP_RESULT_SUCCESS) eqn:Es; [|by astep]. cbn [andb] in Eb. apply Z.ltb_ge in Eb. astep. apply runs_lift.
      refine (returns_mono _ _ _ (rg_bytes _ _ _ HR _ _ _ _ _) _); [lia|done|done|]. intros mask Hm. apply inv_link; [|done]. by intros [].
    + clear s Hi. intros [] s Hi. astep. apply (runs_mono _ _ kept); [by apply fixed_resp_kept|]. intros [] s' Hi'. by apply info_to_channels.
Qed.

Lemma process_cmd_kept code : runs (process_cmd b code id cmd_len p p_next g) s kept.
Proof using HE HR Hi Hlen Hcmd.
  unfold process_cmd. repeat (match goal with |- runs (if code =? ?k then _ else _) _ _ => destruct (code =? k) end; [first [by apply cmd_reject_kept | by apply cmd_conn_req_kept | by apply cmd_conn_rsp_kept | by apply cmd_config_req_kept |
    by apply cmd_config_rsp_kept | by apply cmd_disc_req_kept | by apply cmd_disc_rsp_kept | by apply cmd_info_rsp_kept | idtac]|]).
  - apply keeps_then. destruct (inv_stands s Hi) as (c & Hc & Hn). destruct HR as [R1 R2 _]. apply (echo_rsp_st c); [done|done|done|lia|lia|lia|]. intros s' H'. by apply (inv_same c s).
  - destruct (Z.ltb_spec p_next (p + 2)); [by astep|]. word HR. apply keeps_then. destruct (inv_stands s Hi) as (c & Hc & Hn). apply (info_rsp_st c); [done..|].
    intros s' H'. by apply (inv_same c s).
  - apply keeps_then. by apply cmd_reject_inv.
Qed.
End Command.

Lemma process_cmds_kept b hi rej n : env_ok -> forall p g s, region b p hi -> hi - p < Z.of_nat n -> 0 < Z.of_nat n -> setup_inv s ->
  runs (process_cmds n b p hi rej g) s kept.
Proof.
  intros HE. induction n as [|n IH]; intros p g s HR Hn Hn0 Hi; [lia|]. cbn [process_cmds]. destruct (Z.ltb_spec (hi - 4) p); [by astep|].
  astep. apply runs_lift. refine (returns_mono _ _ _ (rg_read _ _ _ HR _ _) _); [lia|]. intros code _.
  astep. apply runs_lift. refine (returns_mono _ _ _ (rg_read _ _ _ HR _ _) _); [lia|]. intros id _. word HR. rename a into cmd_len.
  match goal with Hl : is_u16 cmd_len |- _ => unfold is_u16 in Hl end. destruct (Z.ltb_spec BT_SMALL_BUFFER_SIZE cmd_len); [by apply cmd_reject_inv|].
  unfold BT_SMALL_BUFFER_SIZE in *. cbv zeta. destruct (Z.ltb_spec hi (p + 4 + cmd_len)); [by astep|].
  assert (HR' : region b (p + 4 + cmd_len) hi) by (eapply region_sub; [done|lia|lia]). destruct rej.
  - destruct (inv_stands s Hi) as (c & Hc & Hnh). astep. apply (is_cmd_rejected_st c); [done..|]. intros rejected s' H'.
    assert (Hi' : setup_inv s') by by apply (inv_same c s). destruct rejected; [by astep|]. apply IH; [done|lia|lia|done].
  - astep. apply (runs_mono _ _ kept).
    + apply process_cmd_kept; [done|apply (region_sub b p hi HR); lia|done|lia|done].
    + intros [g'|] s' Hi'; [|by astep]. apply IH; [done|lia|lia|done].
Qed.
End Link.
