(* ===== verification/L2cNet.v ===== *)
(** * L2cNet: two hosts with a channel in enhanced retransmission mode between them

    The packets of each host travel to the other in order; they may be lost or damaged on the way, and
    packets of other channels come in between.  The invariant relates what the one has sent to what the
    other has accepted. *)

From Stdlib Require Import ZArith Lia.
From stdpp Require Import base list relations.
From S2P Require Import Prelude Osi L2cDefs L2cFcr L2cCrc L2cRun L2cInv L2cTx L2cLink L2cDrain L2cAck L2cSar L2cRx L2cPdu L2cEvents.

(** ** The system *)

(** One end: its controller and the rest of its stack, its channel, and the SDUs taken from its application. *)
Record host : Type := mk_host {
  h_env : LinkEnv;
  h_st : l2c;
  h_taken : list (list Z);
}.

(** The packets on their way to the second and to the first host, oldest first. *)
Record net : Type := mk_net {
  n_a : host;
  n_b : host;
  n_ab : list (list Z);
  n_ba : list (list Z);
}.

Definition swap (n : net) : net := mk_net (n_b n) (n_a n) (n_ba n) (n_ab n).

(** The host handles an event and sends the packets [new]. *)
Inductive host_step (h : host) (e : event) (new : list (list Z)) : host -> Prop :=
| hs_handle s' D : valid_event (lcb_index (lcb (h_st h))) e -> handle (LE := h_env h) e (h_st h) = Ok (D, s') -> packets (outs s') = packets (outs (h_st h)) ++ new ->
    host_step h e new (mk_host (h_env h) s' (h_taken h ++ D)).

Definition is_rcv (e : event) : bool := match e with ERcv _ => true | _ => false end.

(** One or two bytes next to each other are changed. *)
Definition damaged (x y : list Z) : Prop :=
  exists l a b a' b' r, x = l ++ a :: b :: r /\ y = l ++ a' :: b' :: r /\ x <> y.

(** A step of the first host, or of the channel from it to the second; or the same the other way round. *)
Inductive net_step : net -> net -> Prop :=
| ns_event a a' b ab ba e new : is_rcv e = false -> host_step a e new a' -> net_step (mk_net a b ab ba) (mk_net a' b (ab ++ new) ba)
| ns_recv a a' b ab ba p new h h' x : host_step a (ERcv p) new a' -> length h = 4%nat -> length h' = 4%nat -> bh_payload p = h' ++ x ->
    net_step (mk_net a b ab ((h ++ x) :: ba)) (mk_net a' b (ab ++ new) ba)
| ns_damaged a a' b ab ba p new h h' x y : host_step a (ERcv p) new a' -> length h = 4%nat -> length h' = 4%nat -> bh_payload p = h' ++ y ->
    Forall is_u8 x -> damaged (with_fcs x) y -> net_step (mk_net a b ab ((h ++ with_fcs x) :: ba)) (mk_net a' b (ab ++ new) ba)
| ns_other a a' b ab ba p new : host_step a (ERcv p) new a' -> other_packet (local_cid (ccb (h_st a))) (bh_payload p) ->
    net_step (mk_net a b ab ba) (mk_net a' b (ab ++ new) ba)
| ns_lose a b ab1 m ab2 ba : net_step (mk_net a b (ab1 ++ m :: ab2) ba) (mk_net a b (ab1 ++ ab2) ba)
| ns_swap n n' : net_step (swap n) (swap n') -> net_step n n'.

(** ** What is known of each end *)

Record side : Type := mk_side {
  si_X : sender;
  si_U : list (list Z);
  si_G : list frame;
  si_H : list frame;
}.

(** What does not depend on the channel being open. *)
Record side_left (W rcid : Z) (E : side) (s : l2c) : Prop := {
  sl_tx : tx_left W (si_U E) (si_X E);
  sl_link : link_left rcid (si_X E) s;
  sl_seen : (sd_seen (si_X E) <= length (si_G E))%nat;
  sl_rx : exists G0 cur, G0 `prefix_of` si_G E /\ reassemble G0 = Some (delivered (outs s), cur);
}.

(** Its window is [W], its channel [lcid] here and [rcid] there. *)
Definition side_ok (W rcid lcid : Z) (E : side) (s : l2c) : Prop :=
  (chan (si_X E) (si_U E) (si_G E) (si_H E) s /\ peer_win s = W /\ remote_cid (ccb s) = rcid /\ local_cid (ccb s) = lcid) \/
  (released s /\ side_left W rcid E s).

(** A packet on its way: how many frames its sender had sent by then, and how many it had acknowledged. *)
Record msg : Type := mk_msg {
  m_body : list Z;
  m_n : nat;
  m_r : nat;
}.

Definition msg_ok (W rcid : Z) (F : list frame) (m : msg) : Prop :=
  link_packet rcid (m_r m) (m_body m) \/
  exists j fr, F !! j = Some fr /\ (j < m_n m)%nat /\ Z.of_nat (m_n m) <= Z.of_nat j + W /\ i_packet rcid j fr (m_r m) (m_body m).

(** How many frames the peer must have sent. *)
Definition reached (E : side) : nat := match si_H E with [] => length (si_G E) | H => S (length (si_G E) + length H) end.

(** The direction from [EA] to [EB], with the packets [AB] on their way, and [BA] on the way back. *)
Record dir (W rcid : Z) (EA EB : side) (AB BA : list msg) : Prop := {
  d_frames : si_G EB `prefix_of` sd_frames (si_X EA);
  d_held : forall i fr, si_H EB !! i = Some fr -> sd_frames (si_X EA) !! (S (length (si_G EB)) + i)%nat = Some fr;
  d_msgs : Forall (msg_ok W rcid (sd_frames (si_X EA))) AB;
  d_sent : chain (reached EB) (map m_n AB) (length (sd_frames (si_X EA)));
  d_acks : chain (sd_base (si_X EA)) (map m_r BA) (sd_ack (si_X EB));
}.

Record net_inv (Wa Wb ca cb : Z) (n : net) : Prop := {
  ni_sides : exists EA EB AB BA, n_ab n = map m_body AB /\ n_ba n = map m_body BA /\
    si_U EA = h_taken (n_a n) /\ si_U EB = h_taken (n_b n) /\
    side_ok Wa cb ca EA (h_st (n_a n)) /\ side_ok Wb ca cb EB (h_st (n_b n)) /\
    dir Wa cb EA EB AB BA /\ dir Wb ca EB EA BA AB;
}.

(** A channel that has just been opened; the packets on the queue of the link are those of others. *)
Record fresh (s : l2c) : Prop := {
  fs_open : open_ertm s;
  fs_held : xmit_hold_q (ccb s) = Some [];
  fs_sent : waiting_for_ack_q (fcrb (ccb s)) = Some [];
  fs_retr : retrans_q (fcrb (ccb s)) = Some [];
  fs_hold : srej_rcv_hold_q (fcrb (ccb s)) = Some [];
  fs_sdu : p_rx_sdu (fcrb (ccb s)) = None;
  fs_srej : srej_sent (fcrb (ccb s)) = false;
  fs_numbers : next_tx_seq (fcrb (ccb s)) = 0 /\ last_rx_ack (fcrb (ccb s)) = 0 /\ next_seq_expected (fcrb (ccb s)) = 0;
  fs_timers : timers_ok s;
  fs_link : Forall (fun b => other_packet (remote_cid (ccb s)) (bh_payload b)) (link_xmit_data_q (lcb s));
  fs_delivered : delivered (outs s) = [];
}.

(** Two hosts with such a channel, nothing on its way. *)
Record connected (n : net) : Prop := {
  cn_a : fresh (h_st (n_a n));
  cn_b : fresh (h_st (n_b n));
  cn_taken : h_taken (n_a n) = [] /\ h_taken (n_b n) = [];
  cn_packets : n_ab n = [] /\ n_ba n = [];
  cn_cids : remote_cid (ccb (h_st (n_a n))) = local_cid (ccb (h_st (n_b n))) /\ remote_cid (ccb (h_st (n_b n))) = local_cid (ccb (h_st (n_a n)));
  cn_windows : peer_win (h_st (n_a n)) < 63 /\ peer_win (h_st (n_b n)) < 63;
}.

(** ** The steps of one end *)

(** The end sends the packets [new]. *)
Record acts (W rcid : Z) (E E' : side) (new : list msg) : Prop := {
  ac_base : sd_base (si_X E') = sd_base (si_X E);
  ac_G : si_G E' = si_G E;
  ac_H : si_H E' = si_H E;
  ac_frames : sd_frames (si_X E) `prefix_of` sd_frames (si_X E');
  ac_msgs : Forall (msg_ok W rcid (sd_frames (si_X E'))) new;
  ac_sent : chain (length (sd_frames (si_X E))) (map m_n new) (length (sd_frames (si_X E')));
  ac_acks : chain (sd_ack (si_X E)) (map m_r new) (sd_ack (si_X E'));
}.

(** * Lemmas *)

Lemma side_ok_left W rcid lcid E s : side_ok W rcid lcid E s -> side_left W rcid E s.
Proof.
  intros [(C & HW & Hr & _)|[_ H]]; [|done]. destruct C as [Ho Ht [[_ (cur & HG & _)] _ _ _] Hs]. constructor; [| |lia|].
  - rewrite <- HW. by apply (tx_inv_left _ _ s).
  - rewrite <- Hr. apply Ht.
  - by exists (si_G E), cur.
Qed.

Lemma chain_app a l b l' c : chain a l b -> chain b l' c -> chain a (l ++ l') c.
Proof.
  revert a. induction l as [|x l IH]; intros a; cbn [chain app].
  - intros Hab Hl'. by eapply chain_weaken.
  - intros [Hx Hl] Hl'. split; [done|by apply IH].
Qed.

Lemma chain_remove a l1 x l2 b : chain a (l1 ++ x :: l2) b -> chain a (l1 ++ l2) b.
Proof.
  revert a. induction l1 as [|y l1 IH]; intros a; cbn [chain app].
  - intros [Hx Hl]. by eapply chain_weaken.
  - intros [Hy Hl]. split; [done|by apply IH].
Qed.

Lemma msg_ok_mono W c F F' m : F `prefix_of` F' -> msg_ok W c F m -> msg_ok W c F' m.
Proof. intros HF [H|(j & fr & Hj & Hr)]; [by left|]. right. exists j, fr. split; [by eapply prefix_lookup_Some|done]. Qed.

Lemma emits_msgs W c F r new F' r' : emits W c F r new F' r' ->
  exists ms, packets new = map m_body ms /\ Forall (msg_ok W c F') ms /\ chain (length F) (map m_n ms) (length F') /\ chain r (map m_r ms) r'.
Proof.
  induction 1 as [F r|F r new F1 r1 F2 r2 o _ (ms & Ep & Hm & Hn & Hr) HF Hle Ho]; [exists []; by split_and!; [|constructor|cbn|cbn]|].
  assert (Hm2 : Forall (msg_ok W c F2) ms) by (eapply Forall_impl; [intros m; by eapply msg_ok_mono|done]).
  assert (Hl : (length F1 <= length F2)%nat) by by apply prefix_length.
  destruct o as [p| | | | | | | | | | |]; try (exists ms; split_and!; [done|done|by eapply chain_weaken; [| |exact Hn]|by eapply chain_weaken; [| |exact Hr]]).
  exists (ms ++ [mk_msg (bh_payload p) (length F2) r2]). cbn [packets]. rewrite !map_app, Ep. split; [done|]. split; [|split].
  - apply Forall_app. split; [done|]. constructor; [|done]. destruct Ho as [Ho|(j & fr & Hj & Hw & Hp)]; [by left|]. right. exists j, fr.
    split_and!; try done. by apply lookup_lt_Some in Hj.
  - eapply chain_app; [done|]. cbn. lia.
  - eapply chain_app; [done|]. cbn. lia.
Qed.

(** What an end sends keeps both directions. *)
Lemma acts_dirs W c W' c' E E' EB new AB BA : acts W c E E' new -> dir W c E EB AB BA -> dir W' c' EB E BA AB ->
  dir W c E' EB (AB ++ new) BA /\ dir W' c' EB E' BA (AB ++ new).
Proof.
  intros [Hb HG HH HF Hm Hn Hr] [D1 D2 D3 D4 D5] [D1' D2' D3' D4' D5']. split; constructor.
  - by etrans.
  - intros i fr Hi. by eapply prefix_lookup_Some; [apply D2|].
  - apply Forall_app. split; [|done]. eapply Forall_impl; [intros m; by eapply msg_ok_mono|done].
  - rewrite map_app. by eapply chain_app.
  - by rewrite Hb.
  - by rewrite HG.
  - by rewrite HG, HH.
  - done.
  - unfold reached in *. by rewrite HG, HH.
  - rewrite map_app. by eapply chain_app.
Qed.

(** ** The steps of an end *)

Lemma outputs_acts X X' U U' G H s s' : outputs X X' s s' -> sd_base X' = sd_base X ->
  exists ms, packets (outs s') = packets (outs s) ++ map m_body ms /\
    acts (peer_win s) (remote_cid (ccb s)) (mk_side X U G H) (mk_side X' U' G H) ms.
Proof.
  intros (new & Eo & He) Hb. destruct (emits_msgs _ _ _ _ _ _ _ He) as (ms & Ep & Hm & Hn & Hr). destruct (emits_prefix _ _ _ _ _ _ _ He) as [HF _].
  exists ms. split; [by rewrite Eo, packets_app, Ep|]. by constructor.
Qed.

Lemma moves_side W rcid lcid X U U' G H s s' : peer_win s = W -> remote_cid (ccb s) = rcid -> local_cid (ccb s) = lcid -> moves X U' G H s s' ->
  exists X' ms, side_ok W rcid lcid (mk_side X' U' G H) s' /\ packets (outs s') = packets (outs s) ++ map m_body ms /\
    acts W rcid (mk_side X U G H) (mk_side X' U' G H) ms.
Proof.
  intros EW Er El (X' & C & Ef & B & O). destruct (outputs_acts X X' U U' G H s s' O B) as (ms & Ep & Ha). rewrite EW, Er in Ha.
  exists X', ms. split; [|done]. left. destruct (fixed_inv _ _ Ef) as (_&_&_&El'&Er'&_&_&Ep'&_). unfold peer_win in *. cbn. by rewrite El', Er', Ep'.
Qed.

Lemma closes_side W rcid lcid X U U' G H s s' : peer_win s = W -> remote_cid (ccb s) = rcid -> closes X U' G s s' ->
  exists X' ms, side_ok W rcid lcid (mk_side X' U' G H) s' /\ packets (outs s') = packets (outs s) ++ map m_body ms /\
    acts W rcid (mk_side X U G H) (mk_side X' U' G H) ms.
Proof.
  intros EW Er (X' & G0 & cur & [R _] & HG & D & O & B & Hs & Hl & Hq). destruct (outputs_acts X X' U U' G H s s' O B) as (ms & Ep & Ha). rewrite EW, Er in *.
  exists X', ms. split; [|done]. right. split; [done|]. constructor; [done|done|done|]. by exists G0, cur.
Qed.

Lemma ignored_same s s' : ignored s s' -> ccb s' = ccb s /\ link_xmit_data_q (lcb s') = link_xmit_data_q (lcb s) /\
  packets (outs s') = packets (outs s) /\ delivered (outs s') = delivered (outs s).
Proof. by intros [(E & Eq & _ & _ & _ & _ & [-> | ->])|(cid & p & ->)]. Qed.

Lemma ignored_link s s' : ignored s s' -> lcb_index (lcb s') = lcb_index (lcb s) /\ rr_bound (lcb s') = rr_bound (lcb s).
Proof. by intros [(_ & _ & _ & _ & Ei & Er & _)|(cid & p & ->)]. Qed.

Lemma acts_none W rcid E E' : si_X E' = si_X E -> si_G E' = si_G E -> si_H E' = si_H E -> acts W rcid E E' [].
Proof. intros EX EG EH. constructor; rewrite ?EX; try done; cbn; lia. Qed.

Lemma chan_ignored X U G H s s' : chan X U G H s -> ignored s s' -> chan X U G H s'.
Proof.
  intros C Hi. destruct C as [Ho Ht Hx Hs]. destruct Hi as [Hc|(cid & p & ->)].
  { pose proof (tx_moves_keeps _ _ _ _ (counts_moves X U s s' Hc Ht)) as K. pose proof Hc as (Ec & El & _).
    constructor; [by eapply keeps_open|by eapply tx_inv_ccb|by eapply keeps_rx_inv|done]. }
  constructor; [by apply (fixed_open s)|by apply tx_inv_outs|by apply (keeps_rx_inv _ _ s)|done].
Qed.

Lemma side_ignored W rcid lcid E s s' : side_ok W rcid lcid E s -> ignored s s' -> side_ok W rcid lcid E s'.
Proof.
  intros HE Hi. destruct (ignored_same _ _ Hi) as (Ec & Eq & _ & Ed). destruct HE as [(C & HW)|[R [H1 H2 H3 H4]]].
  - left. split; [by eapply chan_ignored|]. unfold peer_win in *. by rewrite Ec.
  - right. split; [unfold released in *; destruct (ignored_link _ _ Hi) as [_ ->]; by rewrite Ec|]. constructor; [done|unfold link_left in *; by rewrite Eq|done|]. by rewrite Ed.
Qed.

(** Packets of the queue of the link. *)
Lemma link_msgs W rcid F xs rs : Forall2 (fun x r => link_packet rcid r x) xs rs ->
  exists ms, map m_body ms = xs /\ map m_r ms = rs /\ Forall (msg_ok W rcid F) ms /\ chain (length F) (map m_n ms) (length F).
Proof.
  induction 1 as [|x r xs rs Hx _ (ms & <- & <- & Hm & Hc)]; [exists []; by split_and!; [| |constructor|cbn]|].
  exists (mk_msg x (length F) r :: ms). split_and!; [done|done| |done]. constructor; [by left|done].
Qed.

Lemma chain_split a l1 l2 b : chain a (l1 ++ l2) b -> exists c, chain a l1 c /\ chain c l2 b.
Proof.
  revert a. induction l1 as [|x l1 IH]; intros a; cbn [chain app]; [by exists a|]. intros [Hx (c & H1 & H2)%IH]. by exists c.
Qed.

(** The channel is gone, and the link sends what is left in its queue. *)
Lemma side_drains W rcid lcid E s s' : released s -> side_left W rcid E s -> drains [] s s' ->
  exists E' ms, side_ok W rcid lcid E' s' /\ packets (outs s') = packets (outs s) ++ map m_body ms /\ acts W rcid E E' ms /\ si_U E' = si_U E.
Proof.
  intros R [[H1 H2 H3] (rs & Hl & Hc) H5 H6] [Ec _ _ _ Err _ (new & Eo & Hn & Eq)]. destruct E as [[F base seen ack] U G H]. cbn in *.
  rewrite app_nil_r in Eq. rewrite Eq in Hl. apply Forall2_app_inv_l in Hl as (rs1 & rs2 & Hl1 & Hl2 & ->).
  apply chain_split in Hc as (c & Hc1 & Hc2). destruct (link_msgs W rcid F _ _ Hl1) as (ms & Eb & Er & Hm & Hms).
  exists (mk_side (mk_sender F base seen c) U G H), ms. split; [right; split; [unfold released in *; by rewrite Ec, Err|]|].
  - constructor; cbn; [constructor; cbn; [done|done|by apply chain_le in Hc2]|by exists rs2|done|]. by rewrite Eo, link_outputs_delivered.
  - split; [by rewrite Eo, packets_app, Eb|]. split; [|done]. constructor; try done. cbn. by rewrite Er.
Qed.

(** An event that is no packet. *)
Lemma side_event (LE : LinkEnv) W rcid lcid E s e D s' : side_ok W rcid lcid E s -> valid_event (lcb_index (lcb s)) e -> is_rcv e = false -> handle e s = Ok (D, s') ->
  exists E' ms, side_ok W rcid lcid E' s' /\ packets (outs s') = packets (outs s) ++ map m_body ms /\ acts W rcid E E' ms /\ si_U E' = si_U E ++ D.
Proof.
  intros [(C & HW & Hr & Hl)|[R Hleft]] He Hn Hh.
  - pose proof (handle_spec _ _ _ _ s e C He) as Hs. unfold runs in Hs. rewrite Hh in Hs. destruct E as [X U G H].
    assert (Hd : s_frame_done X (U ++ D) G H s s') by by destruct e. destruct Hd as [M|M].
    + destruct (moves_side W rcid lcid X U (U ++ D) G H s s' HW Hr Hl M) as (X' & ms & H1 & H2 & H3). by exists (mk_side X' (U ++ D) G H), ms.
    + destruct (closes_side W rcid lcid X U (U ++ D) G H s s' HW Hr M) as (X' & ms & H1 & H2 & H3). by exists (mk_side X' (U ++ D) G H), ms.
  - pose proof (handle_released s e R He) as Hs. unfold runs in Hs. rewrite Hh in Hs. destruct Hs as [-> Hs]. rewrite app_nil_r.
    assert (Hi : drains [] s s' \/ ignored s s') by (destruct e; auto). clear Hs. destruct Hi as [Hi|Hi]; [by eapply side_drains|].
    destruct (ignored_same _ _ Hi) as (_ & _ & Ep & _). exists E, []. split; [eapply side_ignored; [by right|done]|].
    split; [by rewrite Ep, app_nil_r|]. by split; [by apply acts_none|].
Qed.

(** ** A packet arrives *)

Lemma le16_inj w w' : is_u16 w -> is_u16 w' -> le16 w = le16 w' -> w = w'.
Proof. intros Hw Hw' [= E1 E2]. rewrite <- (u16_bytes w Hw), <- (u16_bytes w' Hw'). by rewrite E1, E2. Qed.

Lemma frame_inj h h' c w info w' info' : length h = length h' -> is_u16 w -> is_u16 w' ->
  h ++ with_fcs (iframe_body c w info) = h' ++ with_fcs (iframe_body c w' info') -> w = w' /\ info = info'.
Proof.
  intros Hh Hw Hw' E. apply app_inj_1 in E as [_ E]; [|done]. unfold with_fcs, iframe_body in E. rewrite <- !app_assoc in E.
  assert (El : length info = length info') by (apply (f_equal length) in E; rewrite !length_app in E; cbn [length le16] in E; lia).
  apply app_inj_1 in E as [_ E]; [|done]. apply app_inj_1 in E as [_ E]; [|done]. apply app_inj_1 in E as [E1 E]; [|done].
  apply app_inj_1 in E as [E2 _]; [|done]. split; [by apply le16_inj|done].
Qed.

(** A packet of another channel is none of this one. *)
Lemma other_frame_absurd c body h x w info : other_packet c body -> is_u16 c -> length h = 4%nat ->
  h ++ x = body -> x = with_fcs (iframe_body c w info) -> False.
Proof.
  intros (h' & l & cid & rest & Hh' & Eb & Hcid & Hne) Hc Hh <- ->. apply app_inj_1 in Eb as [_ Eb]; [|congruence].
  unfold with_fcs, iframe_body in Eb. rewrite <- !app_assoc in Eb. apply app_inj_1 in Eb as [_ Eb]; [|done].
  apply app_inj_1 in Eb as [Eb _]; [|done]. by apply Hne, eq_sym, le16_inj.
Qed.

(** ** Numbers *)

Lemma seq_of_eq a b : seq_of a = seq_of b -> (a < b + 64)%nat -> (b < a + 64)%nat -> a = b.
Proof.
  intros E Ha Hb. unfold seq_of in E. pose proof (Z.div_mod (Z.of_nat a) 64). pose proof (Z.div_mod (Z.of_nat b) 64).
  assert (Z.of_nat a / 64 = Z.of_nat b / 64) by lia. lia.
Qed.

(** What the two directions say about the numbers of the peer's frames. *)
Lemma dir_bounds W c EB EA BA AB : dir W c EB EA BA AB -> tx_left W (si_U EB) (si_X EB) -> (sd_ack (si_X EA) <= length (si_G EA))%nat ->
  (sd_base (si_X EB) <= length (si_G EA))%nat /\ Z.of_nat (length (sd_frames (si_X EB))) <= Z.of_nat (length (si_G EA)) + W.
Proof. intros [_ _ _ _ Hc%chain_le] [_ Hw _] Ha. lia. Qed.

Lemma dir_skip W c EB EA m BA AB : dir W c EB EA (m :: BA) AB -> dir W c EB EA BA AB.
Proof. intros [D1 D2 D3 D4 D5]. constructor; try done; [by inversion D3|]. by apply (chain_remove _ [] (m_n m)). Qed.

Lemma dir_skip_ack W c EA EB AB m BA : dir W c EA EB AB (m :: BA) -> dir W c EA EB AB BA.
Proof. intros [D1 D2 D3 D4 D5]. constructor; try done. by apply (chain_remove _ [] (m_r m)). Qed.

Lemma reached_ge E : (length (si_G E) <= reached E)%nat.
Proof. unfold reached. destruct (si_H E); lia. Qed.

Lemma prefix_by_lookup {A} (l l' : list A) : (forall i x, l !! i = Some x -> l' !! i = Some x) -> l `prefix_of` l'.
Proof.
  revert l'. induction l as [|y l IH]; intros l' Hl; [apply prefix_nil|]. destruct l' as [|z l']; [by specialize (Hl 0%nat y eq_refl)|].
  injection (Hl 0%nat y eq_refl) as ->. apply prefix_cons, IH. intros i x. exact (Hl (S i) x).
Qed.

(** The frame that was expected has come, and those held back, or some of them, are taken as well. *)
Lemma dir_take W c EB EA m BA AB j fr k EA' : dir W c EB EA (m :: BA) AB -> tx_left W (si_U EB) (si_X EB) -> (sd_ack (si_X EA) <= length (si_G EA))%nat ->
  W < 64 -> sd_frames (si_X EB) !! j = Some fr -> (j < m_n m)%nat -> Z.of_nat (m_n m) <= Z.of_nat j + W -> seq_of j = seq_of (length (si_G EA)) ->
  si_G EA' = si_G EA ++ fr :: take k (si_H EA) -> si_H EA' = [] -> sd_ack (si_X EA') = sd_ack (si_X EA) -> dir W c EB EA' BA AB.
Proof.
  intros D Hl Ha HW Hj Hjn Hjw Hq EG EH EX. destruct (dir_bounds _ _ _ _ _ _ D Hl Ha) as [_ Hf]. pose proof (reached_ge EA) as Hg.
  destruct D as [D1 D2 D3 [Hr D4] D5]. pose proof (chain_le _ _ _ D4) as Hn.
  assert (j = length (si_G EA)) as -> by (apply seq_of_eq; [done|lia..]).
  constructor; rewrite ?EH, ?EX; try done; [|by inversion D3|].
  - rewrite EG. apply prefix_by_lookup. intros i x [Hi|[Hi Hx]]%lookup_app_Some; [by eapply prefix_lookup_Some|].
    destruct (i - length (si_G EA))%nat as [|i'] eqn:Ei; [injection Hx as ->; by replace i with (length (si_G EA)) by lia|].
    cbn in Hx. apply lookup_take_Some in Hx as [Hx _]. apply D2 in Hx. by replace i with (S (length (si_G EA)) + i')%nat by lia.
  - refine (chain_weaken _ _ _ _ _ _ (le_n _) D4). unfold reached in *. rewrite EH, EG, length_app. cbn [length]. rewrite length_take. destruct (si_H EA); cbn [length] in *; lia.
Qed.

(** A frame is held back. *)
Lemma dir_hold W c EB EA m BA AB j fr EA' : dir W c EB EA (m :: BA) AB -> tx_left W (si_U EB) (si_X EB) -> (sd_ack (si_X EA) <= length (si_G EA))%nat ->
  W < 63 -> sd_frames (si_X EB) !! j = Some fr -> (j < m_n m)%nat -> Z.of_nat (m_n m) <= Z.of_nat j + W ->
  seq_of j = seq_of (S (length (si_G EA)) + length (si_H EA)) ->
  Z.of_nat (length (si_H EA)) < 64 ->
  si_G EA' = si_G EA -> si_H EA' = si_H EA ++ [fr] -> sd_ack (si_X EA') = sd_ack (si_X EA) -> dir W c EB EA' BA AB.
Proof.
  intros D Hl Ha HW Hj Hjn Hjw Hq HH EG EH EX. destruct (dir_bounds _ _ _ _ _ _ D Hl Ha) as [_ Hf].
  destruct D as [D1 D2 D3 [Hr D4] D5]. pose proof (chain_le _ _ _ D4) as Hn.
  assert (j = S (length (si_G EA)) + length (si_H EA))%nat as ->.
  { unfold reached in Hr. apply seq_of_eq; [done|lia|]. destruct (si_H EA); cbn [length] in *; lia. }
  constructor; rewrite ?EG, ?EX; try done; [|by inversion D3|].
  - rewrite EH. intros i x [Hi|[Hi Hx]]%lookup_app_Some; [by apply D2|]. apply list_lookup_singleton_Some in Hx as [Hi0 <-].
    by replace i with (length (si_H EA)) by lia.
  - refine (chain_weaken _ _ _ _ _ _ (le_n _) D4). unfold reached. rewrite EH, EG. destruct (si_H EA); cbn [app length] in *; rewrite ?length_app; cbn [length]; lia.
Qed.

(** The acknowledgement in a packet. *)
Lemma dir_acked W c EA EB m BA AB w b EA' : dir W c EA EB AB (m :: BA) -> tx_left W (si_U EA) (si_X EA) -> (sd_ack (si_X EB) <= length (si_G EB))%nat ->
  W < 64 -> ctrl_req w = seq_of (m_r m) -> acked_to (si_X EA) w b ->
  sd_frames (si_X EA') = sd_frames (si_X EA) -> sd_base (si_X EA') = b -> dir W c EA' EB AB BA.
Proof.
  intros D Hl Ha HW Hw Hb EF EB'. pose proof (prefix_length _ _ (d_frames _ _ _ _ _ _ D)) as Hp. destruct D as [D1 D2 D3 D4 [Hr D5]].
  pose proof (chain_le _ _ _ D5) as Hc. destruct Hl as [_ Hwin _]. constructor; rewrite ?EF, ?EB'; try done.
  refine (chain_weaken _ _ _ _ _ _ (le_n _) D5). destruct Hb as [-> |[Hb Hq]]; [lia|]. rewrite Hw in Hq. apply seq_of_eq in Hq; lia.
Qed.

(** ** Receiving *)

(** What one end reaches with both directions kept: its new state, and the packets it sends. *)
Definition reaches (Wa Wb ca cb : Z) (EB : side) (AB BA : list msg) (U' : list (list Z)) (s s' : l2c) : Prop :=
  exists E' ms, side_ok Wa cb ca E' s' /\ packets (outs s') = packets (outs s) ++ map m_body ms /\
    dir Wa cb E' EB (AB ++ ms) BA /\ dir Wb ca EB E' BA (AB ++ ms) /\ si_U E' = U'.

Lemma acts_reaches Wa Wb ca cb E E' EB AB BA s s' ms : side_ok Wa cb ca E' s' -> packets (outs s') = packets (outs s) ++ map m_body ms ->
  acts Wa cb E E' ms -> dir Wa cb E EB AB BA -> dir Wb ca EB E BA AB -> reaches Wa Wb ca cb EB AB BA (si_U E') s s'.
Proof. intros H1 H2 H3 D1 D2. destruct (acts_dirs _ _ _ _ _ _ _ _ _ _ H3 D1 D2). by exists E', ms. Qed.

Lemma ignored_reaches Wa Wb ca cb E EB AB BA s s' : side_ok Wa cb ca E s -> ignored s s' ->
  dir Wa cb E EB AB BA -> dir Wb ca EB E BA AB -> reaches Wa Wb ca cb EB AB BA (si_U E) s s'.
Proof.
  intros HE Hi. destruct (ignored_same _ _ Hi) as (_ & _ & Ep & _).
  apply (acts_reaches _ _ _ _ E E EB AB BA s s' []); [by eapply side_ignored|by rewrite Ep, app_nil_r|by apply acts_none].
Qed.

(** Once the directions are kept for what has come in, they are for what is sent. *)
Lemma done_reaches Wa Wb ca cb X U G H EB AB BA s s' : peer_win s = Wa -> remote_cid (ccb s) = cb -> local_cid (ccb s) = ca ->
  dir Wa cb (mk_side X U G H) EB AB BA -> dir Wb ca EB (mk_side X U G H) BA AB -> moves X U G H s s' \/ closes X U G s s' ->
  reaches Wa Wb ca cb EB AB BA U s s'.
Proof.
  intros HW Hr Hl D1 D2 [M|M].
  - destruct (moves_side Wa cb ca X U U G H s s' HW Hr Hl M) as (X' & ms & H1 & H2 & H3). by apply (acts_reaches _ _ _ _ (mk_side X U G H) (mk_side X' U G H) _ _ _ _ _ ms).
  - destruct (closes_side Wa cb ca X U U G H s s' HW Hr M) as (X' & ms & H1 & H2 & H3). by apply (acts_reaches _ _ _ _ (mk_side X U G H) (mk_side X' U G H) _ _ _ _ _ ms).
Qed.

(** The frame in a packet of the peer: supervisory, or one that it has sent. *)
Definition genuine (W : Z) (F : list frame) (m : msg) (w : Z) (info : list Z) : Prop :=
  ctrl_req w = seq_of (m_r m) /\
  (nz (w .& L2CAP_FCR_S_FRAME_BIT) = true \/
   exists j, F !! j = Some (mk_frame (ctrl_sar w) info) /\ (j < m_n m)%nat /\ Z.of_nat (m_n m) <= Z.of_nat j + W /\ ctrl_seq w = seq_of j).

Lemma msg_genuine W c F m h x w info : msg_ok W c F m -> is_u16 c -> is_u16 w -> length h = 4%nat -> m_body m = h ++ x ->
  x = with_fcs (iframe_body c w info) -> genuine W F m w info.
Proof.
  intros Hm Hc Hw Hh Eb ->. destruct Hm as [[Hs|Ho]|(j & fr & Hj & Hn & HW & h1 & w1 & Hh1 & E1 & [Hu Ht Hq Hsar _] & Hreq)].
  - destruct Hs as (h1 & w1 & Hh1 & E1 & Hu & Ht & Hreq). rewrite Eb in E1. apply frame_inj in E1 as [-> ->]; [|congruence|done|done]. split; [done|by left].
  - exfalso. by eapply other_frame_absurd.
  - rewrite Eb in E1. apply frame_inj in E1 as [-> ->]; [|congruence|done|done]. split; [done|]. right. exists j. split_and!; try done.
    rewrite Hj, Hsar. by destruct fr.
Qed.

Section Recv.
Context (Wa Wb ca cb : Z) (X : sender) (U : list (list Z)) (G H : list frame) (EB : side) (AB BA : list msg) (m : msg) (s : l2c).
Hypothesis C : chan X U G H s.
Hypothesis HWa : peer_win s = Wa.
Hypothesis Hcb : remote_cid (ccb s) = cb.
Hypothesis Hca : local_cid (ccb s) = ca.
Hypothesis Wa_small : Wa < 64.
Hypothesis Wb_small : Wb < 63.
Hypothesis HB : tx_left Wb (si_U EB) (si_X EB).
Hypothesis HBack : (sd_ack (si_X EB) <= length (si_G EB))%nat.
Hypothesis D1 : dir Wa cb (mk_side X U G H) EB AB (m :: BA).
Hypothesis D2 : dir Wb ca EB (mk_side X U G H) (m :: BA) AB.

Lemma own_ack : (sd_ack X <= length G)%nat.
Proof using C. destruct C as [_ Ht _ Hs]. destruct (tx_inv_left _ _ _ Ht) as [_ _ Ha]. by rewrite <- Hs. Qed.

(** The acknowledgement is processed, and the frame not. *)
Lemma drop_dirs w b : ctrl_req w = seq_of (m_r m) -> acked_to X w b ->
  dir Wa cb (mk_side (with_base X b) U G H) EB AB BA /\ dir Wb ca EB (mk_side (with_base X b) U G H) BA AB.
Proof using C HWa Wa_small HBack D1 D2.
  intros Hw Hb. split.
  - eapply (dir_acked _ _ (mk_side X U G H)); [exact D1| |done|done|done|exact Hb|done|done]. rewrite <- HWa. apply (tx_inv_left _ _ s), C.
  - apply (dir_skip _ _ _ _ m). by destruct D2.
Qed.

(** The dirs of another receiver. *)
Lemma ack_dir G' H' w b : ctrl_req w = seq_of (m_r m) -> acked_to X w b -> dir Wa cb (mk_side (with_base X b) U G' H') EB AB BA.
Proof using C HWa Wa_small HBack D1 D2. intros Hw Hb. destruct (drop_dirs w b Hw Hb) as [[] _]. by constructor. Qed.

Lemma frame_reaches w info s' : genuine Wb (sd_frames (si_X EB)) m w info -> frame_done X U G H w info s s' -> reaches Wa Wb ca cb EB AB BA U s s'.
Proof using All.
  intros [Hw Hg] (b & Hb & Hd). destruct (drop_dirs w b Hw Hb) as [E1 E2]. pose proof own_ack as Ha.
  assert (Hkeep : moves (with_base X b) U G H s s' \/ closes (with_base X b) U G s s' -> reaches Wa Wb ca cb EB AB BA U s s') by by apply done_reaches.
  unfold frame_done_at in Hd. destruct (nz _) eqn:Et; [by apply Hkeep|]. destruct Hg as [|(j & Hj & Hn & HW & Hq)]; [done|].
  assert (Htake : forall k, ctrl_seq w = seq_of (length G) ->
    dir Wb ca EB (mk_side (with_base X b) U (G ++ mk_frame (ctrl_sar w) info :: take k H) []) BA AB).
  { intros k Hk. rewrite Hq in Hk. by apply (dir_take Wb ca EB (mk_side X U G H) m BA AB j (mk_frame (ctrl_sar w) info) k); [..|lia| | | | | | |]. }
  destruct Hd as [(G' & H' & Hnext & M)|[M|(Hk & k & M)]]; [|by apply Hkeep; right|].
  - destruct Hnext as [|Hk|Hk]; [by apply Hkeep; left| |].
    + apply (done_reaches Wa Wb ca cb (with_base X b) U G (H ++ [mk_frame (ctrl_sar w) info])); [done|done|done|by eapply ack_dir| |by left].
      rewrite Hq in Hk. apply (dir_hold Wb ca EB (mk_side X U G H) m BA AB j (mk_frame (ctrl_sar w) info)); try done.
      destruct C as [[] _ [_ _ _ Hwin] _]. cbn. lia.
    + apply (done_reaches Wa Wb ca cb (with_base X b) U (G ++ mk_frame (ctrl_sar w) info :: H) []); [done|done|done|by eapply ack_dir| |by left].
      specialize (Htake (length H) Hk). by rewrite take_ge in Htake by lia.
  - eapply (done_reaches Wa Wb ca cb (with_base X b) U _ []); [done|done|done|by eapply ack_dir|by apply (Htake k)|by right].
Qed.
End Recv.

(** ** Damaged packets *)

Lemma with_fcs_residue x : Forall is_u8 x -> l2c_fcr_updcrc 0 (with_fcs x) = 0.
Proof.
  intros Hx. unfold with_fcs. rewrite updcrc_app, (updcrc_ref x 0) by done. pose proof (crc16_u16 x Hx) as Hc. unfold le16.
  apply updcrc_residue; [done|apply u8_range|apply u8_range|by apply u16_bytes].
Qed.

Lemma with_fcs_u8 x : Forall is_u8 x -> Forall is_u8 (with_fcs x).
Proof. intros Hx. apply Forall_app. split; [done|apply le16_u8]. Qed.

(** No packet with a good check sequence is a damaged one. *)
Lemma damaged_fcs x y z : Forall is_u8 x -> Forall is_u8 y -> damaged (with_fcs x) y -> y = with_fcs z -> False.
Proof.
  intros Hx Hy (l & a & b & a' & b' & r & Ex & Ey & Hne) Ez. pose proof (with_fcs_u8 x Hx) as Hu. rewrite Ex in Hu.
  assert (Hz : Forall is_u8 z) by (rewrite Ez in Hy; by apply Forall_app in Hy as [? _]).
  pose proof (with_fcs_residue x Hx) as R1. pose proof (with_fcs_residue z Hz) as R2. rewrite <- Ez, Ey in R2. rewrite Ex in R1.
  rewrite Ey in Hy. apply Forall_app in Hu as [Hl Hu], Hy as [_ Hy]. inv_Forall.
  rewrite updcrc_app, !updcrc_cons in R1, R2. pose proof (updcrc_u16 l 0 ltac:(done) Hl) as Hc. assert (R := eq_trans R1 (eq_sym R2)).
  apply updcrc_inj in R; [|by repeat apply crc_step_u16|by repeat apply crc_step_u16|done].
  apply crc_two_bytes in R as [-> ->]; [|done..]. apply Hne. by rewrite Ex, Ey.
Qed.

(** ** The network *)

Section Host.
Context {LE : LinkEnv} (Wa Wb ca cb : Z) (EA EB : side) (AB BA : list msg) (s : l2c).
Hypothesis Wa_small : Wa < 63.
Hypothesis Wb_small : Wb < 63.
Hypothesis ca_u16 : is_u16 ca.
Hypothesis HA : side_ok Wa cb ca EA s.
Hypothesis HB : exists sb, side_left Wb ca EB sb.

(** A packet that cannot be one for the channel. *)
Lemma recv_foreign p D s' : acl_buf p -> (forall h w info, length h = 4%nat -> bh_payload p <> h ++ with_fcs (iframe_body ca w info)) ->
  handle (ERcv p) s = Ok (D, s') -> dir Wa cb EA EB AB BA -> dir Wb ca EB EA BA AB -> reaches Wa Wb ca cb EB AB BA (si_U EA ++ D) s s'.
Proof using HA.
  intros Hp Hf Hh D1 D2. enough (D = [] /\ ignored s s') as [-> Hi] by (rewrite app_nil_r; by eapply ignored_reaches).
  destruct HA as [(C & HW & Hr & Hl)|[R _]].
  - pose proof (handle_spec _ _ _ _ s (ERcv p) C Hp) as Hs. unfold runs in Hs. rewrite Hh in Hs.
    destruct Hs as [-> [Hi|(h & w & info & Hh' & E & _)]]; [done|]. rewrite Hl in E. by apply Hf in E.
  - pose proof (handle_released s (ERcv p) R Hp) as Hs. unfold runs in Hs. by rewrite Hh in Hs.
Qed.

(** The first of the packets on their way arrives. *)
Lemma recv_reaches p D s' m h h' x : acl_buf p -> length h = 4%nat -> length h' = 4%nat -> m_body m = h ++ x -> bh_payload p = h' ++ x ->
  handle (ERcv p) s = Ok (D, s') -> dir Wa cb EA EB AB (m :: BA) -> dir Wb ca EB EA (m :: BA) AB ->
  reaches Wa Wb ca cb EB AB BA (si_U EA ++ D) s s'.
Proof using All.
  intros Hp Hh Hh' Em Ep Hd D1 D2. destruct HB as (sb & [HBt _ HBs _]). pose proof (dir_skip _ _ _ _ _ _ _ D2) as D2'.
  pose proof (dir_skip_ack _ _ _ _ _ _ _ D1) as D1'. destruct HA as [(C & HW & Hr & Hl)|[R _]].
  - pose proof (handle_spec _ _ _ _ s (ERcv p) C Hp) as Hs. unfold runs in Hs. rewrite Hd in Hs.
    destruct Hs as [-> [Hi|(h0 & w & info & Hh0 & E & Hw & Hu & Hdone)]]; rewrite app_nil_r; [by eapply ignored_reaches|].
    destruct EA as [X U G H]. apply (frame_reaches Wa Wb ca cb X U G H EB AB BA m s) with (w := w) (info := info); try done; [lia|destruct HBt; lia|].
    rewrite Ep, Hl in E. apply app_inj_1 in E as [_ ->]; [|congruence].
    eapply (msg_genuine _ ca _ m h _ w info); [|done|done|done|done|done]. destruct D2 as [_ _ Hm _ _]. by inversion Hm.
  - pose proof (handle_released s (ERcv p) R Hp) as Hs. unfold runs in Hs. rewrite Hd in Hs. destruct Hs as [-> Hi]. rewrite app_nil_r.
    by eapply ignored_reaches.
Qed.

Lemma event_reaches e D s' : valid_event (lcb_index (lcb s)) e -> is_rcv e = false -> handle e s = Ok (D, s') -> dir Wa cb EA EB AB BA -> dir Wb ca EB EA BA AB ->
  reaches Wa Wb ca cb EB AB BA (si_U EA ++ D) s s'.
Proof using HA.
  intros He Hn Hh D1 D2. destruct (side_event LE Wa cb ca EA s e D s' HA He Hn Hh) as (E' & ms & H1 & H2 & H3 & <-).
  by eapply acts_reaches.
Qed.
End Host.

Lemma net_inv_swap Wa Wb ca cb n : net_inv Wa Wb ca cb n <-> net_inv Wb Wa cb ca (swap n).
Proof.
  split; intros [(EA & EB & AB & BA & H1 & H2 & H3 & H4 & H5 & H6 & H7 & H8)]; constructor; by exists EB, EA, BA, AB.
Qed.

Lemma reaches_inv Wa Wb ca cb a b EB AB BA D s' new : reaches Wa Wb ca cb EB AB BA (h_taken a ++ D) (h_st a) s' ->
  packets (outs s') = packets (outs (h_st a)) ++ new -> si_U EB = h_taken b -> side_ok Wb ca cb EB (h_st b) ->
  net_inv Wa Wb ca cb (mk_net (mk_host (h_env a) s' (h_taken a ++ D)) b (map m_body AB ++ new) (map m_body BA)).
Proof.
  intros (E' & ms & H1 & H2 & H3 & H4 & H5) Ep HU HB. rewrite Ep in H2. apply app_inv_head in H2 as ->. constructor.
  exists E', EB, (AB ++ ms), BA. rewrite map_app. by split_and!.
Qed.

Lemma dir_lose W c EA EB l1 m l2 BA : dir W c EA EB (l1 ++ m :: l2) BA -> dir W c EA EB (l1 ++ l2) BA.
Proof.
  intros [D1 D2 D3 D4 D5]. constructor; try done.
  - rewrite Forall_app in *. destruct D3 as [? D3]. split; [done|]. by inversion D3.
  - rewrite map_app in *. by eapply chain_remove.
Qed.
Lemma dir_lose_ack W c EA EB AB l1 m l2 : dir W c EA EB AB (l1 ++ m :: l2) -> dir W c EA EB AB (l1 ++ l2).
Proof. intros [D1 D2 D3 D4 D5]. constructor; try done. rewrite map_app in *. by eapply chain_remove. Qed.

Lemma net_step_inv n n' : net_step n n' -> forall Wa Wb ca cb, Wa < 63 -> Wb < 63 -> is_u16 ca -> is_u16 cb ->
  net_inv Wa Wb ca cb n -> net_inv Wa Wb ca cb n'.
Proof.
  induction 1 as [a a' b ab ba e new Hn Hs|a a' b ab ba p new h h' x Hs Hh Hh' Ep|a a' b ab ba p new h h' x y Hs Hh Hh' Ep Hx Hd|
    a a' b ab ba p new Hs Ho|a b l1 m l2 ba|n n' _ IH]; intros Wa Wb ca cb HWa HWb Hca Hcb Hi; [..|apply net_inv_swap, IH; [done..|by apply -> net_inv_swap]];
    destruct Hi as [(EA & EB & AB & BA & E1 & E2 & E3 & E4 & HA & HB & D1 & D2)]; cbn in E1, E2, E3, E4, HA, HB;
    pose proof (ex_intro _ _ (side_ok_left _ _ _ _ _ HB)) as HBl.
  - destruct Hs as [s' D He Hh Hp]. rewrite E1, E2. eapply reaches_inv; [rewrite <- E3; by eapply event_reaches|done..].
  - destruct Hs as [s' D He Hd Hp]. destruct BA as [|m BA]; [done|]. injection E2 as Em ->. rewrite E1.
    eapply reaches_inv; [rewrite <- E3; by eapply (recv_reaches Wa Wb ca cb EA EB AB BA _ HWa HWb Hca HA HBl p D s' m h h' x)|done..].
  - destruct Hs as [s' D He Hd' Hp]. destruct BA as [|m BA]; [done|]. injection E2 as Em ->. rewrite E1.
    eapply reaches_inv; [rewrite <- E3; eapply (recv_foreign Wa Wb ca cb EA EB AB BA _ HA p)|done..]; [done| |done|by eapply dir_skip_ack|by eapply dir_skip].
    intros h0 w info Hh0 E. rewrite Ep in E. apply app_inj_1 in E as [_ E]; [|congruence]. destruct He as [_ _ _ _ Hu]. rewrite Ep in Hu.
    apply Forall_app in Hu as [_ Hu]. exact (damaged_fcs x y _ Hx Hu Hd E).
  - destruct Hs as [s' D He Hd Hp]. rewrite E1, E2. eapply reaches_inv; [rewrite <- E3|done..].
    destruct HA as [(C & HW & Hr & Hl)|[R Hleft]].
    + eapply (recv_foreign Wa Wb ca cb EA EB AB BA _ (or_introl (conj C (conj HW (conj Hr Hl)))) p); [done| |done|done|done].
      intros h0 w info Hh0 E. rewrite Hl in Ho. by eapply other_frame_absurd.
    + pose proof (handle_released (LE := h_env a) _ (ERcv p) R He) as Hs. unfold runs in Hs. rewrite Hd in Hs. destruct Hs as [-> Hi]. rewrite app_nil_r.
      eapply ignored_reaches; [by right|done..].
  - symmetry in E1. apply map_eq_app in E1 as (A1 & A2 & -> & <- & E1). destruct A2 as [|m' A2]; [done|]. injection E1 as Em <-.
    constructor. exists EA, EB, (A1 ++ A2), BA. rewrite map_app. split_and!; try done; [by eapply dir_lose|by eapply dir_lose_ack].
Qed.

(** ** From the start *)

Lemma fresh_chan s : fresh s -> chan (mk_sender [] 0 0 0) [] [] [] s.
Proof.
  intros [Ho Eh Es Er Eq Ed Ej (N1 & N2 & N3) Ht Hl Edl]. assert (Hw := oe_peer_win _ Ho). assert (Hw' := oe_our_win _ Ho). constructor; [done| |constructor|done].
  - constructor; cbn; try done.
    + exists [], [], None. by split_and!.
    + exists []. split_and!; try done. cbn. lia.
    + by exists [].
    + exists (replicate (length (link_xmit_data_q (lcb s))) 0%nat). split.
      * induction Hl as [|b l Hb Hl IH]; cbn; constructor; [by right|done].
      * induction (length (link_xmit_data_q (lcb s))); cbn; auto with arith.
  - constructor; [done|]. exists None. rewrite Edl, Ed. by split.
  - exists []. by split.
  - rewrite Ej. by rewrite bool_decide_eq_false_2 by auto.
  - cbn. lia.
Qed.

Lemma connected_inv n : connected n ->
  net_inv (peer_win (h_st (n_a n))) (peer_win (h_st (n_b n))) (local_cid (ccb (h_st (n_a n)))) (local_cid (ccb (h_st (n_b n)))) n.
Proof.
  intros [Fa Fb [Ta Tb] [Pa Pb] [Ca Cb] _]. set (E0 := mk_side (mk_sender [] 0 0 0) [] [] []). constructor. exists E0, E0, [], []. rewrite Ta, Tb, Pa, Pb.
  assert (D0 : forall W c, dir W c E0 E0 [] []) by (intros; constructor; cbn; try done; lia).
  split_and!; try done; left; (split; [by apply fresh_chan|done]).
Qed.

Lemma cid_u16 s : open_ertm s -> is_u16 (local_cid (ccb s)).
Proof. intros []. unfold is_u16, L2CAP_BASE_APPL_CID in *. lia. Qed.

Lemma net_reachable_inv n n' : connected n -> rtc net_step n n' ->
  net_inv (peer_win (h_st (n_a n))) (peer_win (h_st (n_b n))) (local_cid (ccb (h_st (n_a n)))) (local_cid (ccb (h_st (n_b n)))) n'.
Proof.
  intros Hc Hr. pose proof (connected_inv n Hc) as Hi. destruct Hc as [Fa Fb _ _ _ [Wa Wb]].
  pose proof (cid_u16 _ (fs_open _ Fa)) as Ua. pose proof (cid_u16 _ (fs_open _ Fb)) as Ub.
  generalize dependent (peer_win (h_st (n_a n))). generalize dependent (peer_win (h_st (n_b n))).
  generalize dependent (local_cid (ccb (h_st (n_a n)))). generalize dependent (local_cid (ccb (h_st (n_b n)))). clear Fa Fb.
  induction Hr as [n|n n1 n2 Hs _ IH]; intros cb Ub ca Ua Wb HWb Wa Hi HWa; [done|]. apply IH; try done. by eapply net_step_inv.
Qed.

(** ** What has been delivered *)

Lemma sar_step_prefix st fr st' : sar_step st fr = Some st' -> st.1 `prefix_of` st'.1.
Proof. destruct st as [sdus cur]. unfold sar_step. intros H. repeat case_match; simplify_eq; cbn; try done; by eexists. Qed.

Lemma reassemble_app F1 F2 : reassemble (F1 ++ F2) = foldl (fun o fr => st ← o; sar_step st fr) (reassemble F1) F2.
Proof. apply foldl_app. Qed.

Lemma reassemble_prefix F1 F2 st2 : F1 `prefix_of` F2 -> reassemble F2 = Some st2 -> exists st1, reassemble F1 = Some st1 /\ st1.1 `prefix_of` st2.1.
Proof.
  intros [F3 ->]. revert st2. induction F3 as [|fr F3 IH] using rev_ind; intros st2; [rewrite app_nil_r; by eauto|].
  rewrite app_assoc, reassemble_snoc. destruct (reassemble (F1 ++ F3)) as [st|] eqn:E; [|done]. intros Hs.
  destruct (IH st eq_refl) as (st1 & E1 & P1). exists st1. split; [done|]. etrans; [exact P1|]. by eapply sar_step_prefix.
Qed.

(** What one end has delivered is what the other was given. *)
Lemma dir_delivered W c EA EB AB BA sa sb : dir W c EA EB AB BA -> forall ca, side_left W ca EA sa -> forall W' cb, side_left W' cb EB sb ->
  delivered (outs sb) `prefix_of` si_U EA.
Proof.
  intros [D1 _ _ _ _] ca [[(sdus & cur & HF & HU) _ _] _ _ _] W' cb [_ _ _ (G0 & cur0 & HG & Hd)].
  destruct (reassemble_prefix G0 (sd_frames (si_X EA)) (sdus, cur)) as (st & E & P); [by etrans|done|]. rewrite Hd in E. simplify_eq. by etrans.
Qed.
