(* ===== verification/L2cSetupEvents.v ===== *)
(** * L2cSetupEvents: from the allocation of a channel to its opening

    The invariant of L2cSetup.v through every event of L2cCmd.v, and what it says of an open channel: it is what the
    delivery of data (L2cNet.v) starts from. *)

From Stdlib Require Import ZArith Lia.
From stdpp Require Import base list.
From S2P Require Import Prelude Osi L2cDefs L2cFcr L2cSig L2cCsm L2cCmd L2cRun L2cInv L2cTx L2cLink L2cDrain L2cEvents L2cSetup L2cSetupCsm L2cSetupMachine L2cSetupCmd L2cNet.

(** The packet is not one of a channel with an identifier of its own. *)
Definition not_data (p : BT_HDR) : bool :=
  match read16 p (bh_offset p + 6) with Ok cid => cid <? L2CAP_BASE_APPL_CID | Crash _ => true end.

(** The packets have the header of an ACL packet, and are not data; the link raises its own events only; it has a share
    of its own and no high priority, wherever its control block is; and no other channel of the registration changes the mode
    that the registration prefers. *)
Definition valid_setup (e : setup_event) : Prop :=
  match e with
  | SRcv p => acl_buf p /\ not_data p = true
  | SLink event => link_event event = true
  | SShare _ _ high quota => rr_ok 0 high quota = true
  | SModeOff => False
  | _ => True
  end.

Section Run.
Context `{LE : LinkEnv} `{SE : SigEnv}.

Fixpoint setup_run (es : list setup_event) : L unit :=
  match es with
  | [] => skip
  | e :: es => setup_handle e;; setup_run es
  end.
End Run.

(** What an open channel is: both sides have agreed on the mode, which is the one that is preferred. *)
Record opened_well (s : l2c) : Prop := {
  ow_modes : exists r, p_rcb (ccb s) = Some r /\ fcr_mode (cfg_fcr (our_cfg (ccb s))) = preferred_mode r /\
    fcr_mode (cfg_fcr (peer_cfg (ccb s))) = preferred_mode r /\
    (preferred_mode r = L2CAP_FCR_ERTM_MODE -> 0 < tx_mps (ccb s) <= 4087 /\ our_win s = tx_win_sz kDefaultErtmOptions);
  ow_done : nz (config_done (ccb s) .& IB_CFG_DONE) = true /\ nz (config_done (ccb s) .& OB_CFG_DONE) = true;
  ow_link : has_lcb (ccb s) = true;
  ow_timer : l2c_ccb_timer (ccb s) = Some None;
}.

(** What is left of a channel that is not in use: nothing is held, and no timer runs. *)
Definition given_back (s : l2c) : Prop :=
  fcrb (ccb s) = zero_FCRB /\ xmit_hold_q (ccb s) = None /\ has_lcb (ccb s) = false.

(** * Lemmas *)

Lemma inv_opened s : setup_inv s -> in_use (ccb s) = true -> chnl_state (ccb s) = CST_OPEN -> opened_well s.
Proof.
  intros (c & [<- _ _] & [(r & HL & HA)|HV]) Hu Eo; [|by destruct HV as [E _]; rewrite E in Hu]. destruct (ag_open _ _ HA Eo) as (Hi & Hb & Ht).
  destruct (ag_ours _ _ HA (or_intror Eo)) as [O1 O2], (ag_theirs _ _ HA Hi) as [T1 T2]. constructor; [|done|apply HL|done]. exists r. split; [apply HL|]. auto.
Qed.

Lemma inv_given_back s : setup_inv s -> in_use (ccb s) = false -> given_back s.
Proof. intros (c & [<- _ _] & [(r & HL & _)|HV]) Hu; [by rewrite (lv_in_use _ _ HL) in Hu|]. by destruct HV as (_ & ? & ? & ? & _). Qed.

Lemma acl_region p : acl_buf p -> region p (bh_offset p) (bh_offset p + bh_len p).
Proof.
  intros [H1 H2 H3 _ H5]. constructor; [done|lia|]. intros i x Hi Hx. apply (Forall_lookup_1 _ _ (Z.to_nat (i - bh_offset p)) x H5).
  unfold bh_payload, slice. rewrite lookup_take_lt by lia. rewrite lookup_drop. rewrite <- Hx. f_equal. lia.
Qed.

(** A value that is read again. *)
Lemma lift_known {A} (o : outcome A) a s Q : o = Ok a -> Q a s -> runs (lift o) s Q.
Proof. intros -> HQ. by apply runs_lift. Qed.

Ltac known E := astep; apply (lift_known _ _ _ _ E); cbv beta iota zeta.

Lemma returns_known {A} (o : outcome A) R : returns o R -> exists a, o = Ok a /\ R a.
Proof. destruct o; [by exists a|done]. Qed.

Section Link.
Context `{LE : LinkEnv} `{SE : SigEnv}.

Lemma rcv_packet_kept p s : env_ok -> setup_inv s -> acl_buf p -> not_data p = true -> runs (rcv_packet p) s kept.
Proof.
  intros HE Hi Hp Hn. pose proof (acl_region p Hp) as HR. pose proof (ab_len _ Hp) as Hlen. unfold rcv_packet.
  destruct (returns_known _ _ (rg_read16 _ _ _ HR (bh_offset p) ltac:(lia) ltac:(lia))) as (word & Ew & _).
  destruct (returns_known _ _ (rg_read16 _ _ _ HR (bh_offset p + 2) ltac:(lia) ltac:(lia))) as (hlen & Eh & _).
  known Ew. cbv zeta. case_match; [by astep|]. known Eh.
  destruct ((hlen <? L2CAP_PKT_OVERHEAD) || _) eqn:El; [by astep|]. pose proof El as El'. apply orb_false_iff in El' as [H1 H2]. apply Z.ltb_ge in H1. apply negb_false_iff, Z.eqb_eq in H2. unfold L2CAP_PKT_OVERHEAD in *.
  destruct (returns_known _ _ (rg_read16 _ _ _ HR (bh_offset p + 4) ltac:(lia) ltac:(lia))) as (len & E4 & Hl).
  destruct (returns_known _ _ (rg_read16 _ _ _ HR (bh_offset p + 6) ltac:(lia) ltac:(lia))) as (cid & E6 & _).
  unfold not_data in Hn. rewrite E6 in Hn. cbv iota in Hn. known E4. known E6. astep. apply runs_get_link. case_match.
  - unfold is_u16 in Hl. case_match; [by astep|]. rewrite negb_false_iff, Z.eqb_eq in H3. pose proof (ab_size _ Hp). pose proof (ab_offset _ Hp). rewrite u16_id in H3 by (unfold is_u16; lia).
    unfold process_l2cap_cmd. astep. apply runs_get_link. case_match; [by astep|].
    apply process_cmds_kept; [done|eapply region_sub; [done|lia|lia]|lia|lia|done].
  - unfold l2c_rcv_acl_data. known Ew. cbv zeta. rewrite H. known Eh. unfold L2CAP_PKT_OVERHEAD. rewrite El.
    known E4. known E6. astep. apply runs_get. case_match; [by apply inv_emit|].
    rewrite Hn. cbn [orb]. by apply inv_emit.
Qed.

Lemma connect_req_kept psm s : env_ok -> setup_inv s -> runs (L2CA_ConnectReq psm) s kept.
Proof.
  intros HE Hi. unfold L2CA_ConnectReq. astep. apply runs_get. destruct (find_rcb_by_psm _ _) as [r|] eqn:Er; [|by astep].
  destruct (inv_stands s Hi) as (c & Hc & _). pose proof (eo_rcb HE _ _ _ Er) as Hr. astep. apply (free_ccb_st c); [done|done| |apply keeps_then; by apply inv_emit|by astep].
  intros HV. astep. apply (allocate_st c); [done|done|]. clear s Hi Hc Er. intros c1 s Hc HN. astep. astep.
  match type of Hc with stands ?x _ => set (c2 := x) in *; assert (HL : live r c2) by by apply (new_live r c1) end.
  assert (Hi : setup_inv s) by (eapply inv_live; [done|done|by apply (new_agreed r c1)]). astep. apply runs_get_link. astep.
  apply (runs_mono _ _ kept).
  - apply runs_when; intros _; [|done]. apply keeps_skipped. by eapply execute_inv.
  - clear s Hi Hc. intros [] s Hi. destruct (inv_stands s Hi) as (c3 & Hc & _). astep. astep. by astep.
Qed.

Lemma disconnect_req_kept s : setup_inv s -> runs L2CA_DisconnectReq s kept.
Proof.
  intros Hi. unfold L2CA_DisconnectReq. pose proof Hi as (c & H & _). astep. astep. case_match; [|by astep]. apply keeps_then. by eapply execute_inv.
Qed.

Lemma security_kept status s : setup_inv s -> runs (security_answers status) s kept.
Proof.
  intros Hi. unfold security_answers. pose proof Hi as (c & H & Hc). astep. astep. apply runs_when; intros E; [|done]. apply bool_decide_eq_true in E.
  destruct Hc as [(r & HL & HA)|HV]; [|].
  - unfold l2c_csm_execute, CSM_DEPTH. eapply (sec_comp_inv 1 r c); [done|done|done|]. by destruct E as [-> | ->].
  - unfold l2c_link_sec_comp. astep. astep. destruct HV as (-> & _). cbn [andb negb]. by astep.
Qed.

Lemma channel_timer_kept s : setup_inv s -> runs ccb_timer_fires s kept.
Proof.
  intros Hi. unfold ccb_timer_fires. pose proof Hi as (c & H & Hc). astep. astep. apply runs_when; intros E; [|done]. clear Hi. astep. astep. apply keeps_skipped.
  destruct Hc as [(r & HL & HA)|HV].
  - assert (No : chnl_state c <> CST_OPEN) by (intros Eo; destruct (ag_open _ _ HA Eo) as (_ & _ & Et); by rewrite Et in E).
    eapply execute_inv; [done| |done]. eapply inv_live; [done|live_upd HL; by apply alarm_cancel_some|]. destruct HA as [A1 A2 _]. constructor; [done|done|by intros Eo].
  - eapply vacant_inv; [done|]. by destruct HV as (? & ? & ? & ? & ?).
Qed.

Lemma info_timer_kept s : setup_inv s -> runs info_timer_fires s kept.
Proof.
  intros Hi. unfold info_timer_fires. astep. apply runs_get_link. apply runs_when; intros _; [|done]. astep. apply (runs_mono _ _ kept).
  { apply inv_link; [|done]. intros []. constructor; try done. by apply alarm_cancel_some. }
  clear s Hi. intros [] s Hi. unfold l2c_info_resp_timer_timeout. astep. apply runs_get. apply runs_when; intros _; [|done].
  destruct (inv_stands s Hi) as (c & H & _). case_match.
  - astep. apply runs_lift. pose proof (lk_timer _ (sd_lcb _ _ H)) as Ht. destruct (info_resp_timer (lcb s)) as [t|]; [|done]. cbn [alarm_set_on_mloop returns].
    apply inv_link; [by intros []|done].
  - astep. apply (runs_mono _ _ kept); [apply inv_link; [by intros []|done]|]. clear s Hi H H0 c. intros [] s Hi. astep. apply runs_get.
    apply runs_when; intros _; [by apply for_all_inv|done].
Qed.

(** The timers of enhanced retransmission mode do not run. *)
Lemma idle_timers s : setup_inv s -> alarm_is_scheduled (mon_retrans_timer (fcrb (ccb s))) = false /\ alarm_is_scheduled (ack_timer (fcrb (ccb s))) = false.
Proof.
  intros (c & [<- _ _] & [(r & HL & _)|(_ & -> & _)]); [|done]. by destruct (lv_fcrb _ _ HL) as [_ _ _ _ _ _ -> ->].
Qed.

Lemma monitor_timer_kept s : setup_inv s -> runs mon_retrans_timer_fires s kept.
Proof. intros Hi. unfold mon_retrans_timer_fires. astep. apply runs_get_fcrb. destruct (idle_timers s Hi) as [-> _]. by astep. Qed.

Lemma ack_timer_kept s : setup_inv s -> runs ack_timer_fires s kept.
Proof. intros Hi. unfold ack_timer_fires. astep. apply runs_get_fcrb. destruct (idle_timers s Hi) as [_ ->]. by astep. Qed.

Lemma drains_kept s s' : setup_inv s -> drains [] s s' -> setup_inv s'.
Proof. intros Hi Hd. destruct (inv_stands s Hi) as (c & H & _). apply (inv_same c s); [done| |done]. by eapply drains_stands. Qed.

Lemma inv_unserved s : setup_inv s -> unserved s.
Proof. intros Hi. destruct (inv_stands s Hi) as (c & H & Hn). by eapply stands_unserved. Qed.

Lemma rr_ok_any i high quota : rr_ok 0 high quota = true -> rr_ok i high quota = true.
Proof. unfold rr_ok. by destruct high, (quota =? 0). Qed.

(** Every event. *)
Lemma handle_kept e s : env_ok -> setup_inv s -> valid_setup e -> runs (setup_handle e) s kept.
Proof.
  intros HE Hi Hv. destruct e as [p|psm| |status|event| | | | | |n|b connected high quota|]; cbn [setup_handle]; [..|done].
  - by apply rcv_packet_kept; [| |apply Hv|apply Hv].
  - apply keeps_skipped. by apply connect_req_kept.
  - apply keeps_skipped. by apply disconnect_req_kept.
  - by apply security_kept.
  - apply keeps_skipped. pose proof Hi as (c & H & _). eapply execute_inv; [done|done|]. by destruct event.
  - by apply channel_timer_kept.
  - by apply info_timer_kept.
  - by apply monitor_timer_kept.
  - by apply ack_timer_kept.
  - eapply runs_mono; [by apply check_send_drains, inv_unserved|]. cbv beta. intros ? s'. by apply drains_kept.
  - eapply runs_mono; [apply (packets_completed_drains n); by apply inv_unserved|]. cbv beta. intros ? s'. by apply drains_kept.
  - destruct Hi as (c & [<- Hl Hd] & Hc). exists (ccb s). split; [|done]. constructor; [done| |done].
    destruct Hl. constructor; try done. by apply rr_ok_any.
Qed.

Lemma run_kept es s : env_ok -> setup_inv s -> Forall valid_setup es -> runs (setup_run es) s kept.
Proof.
  intros HE Hi Hes. revert s Hi. induction Hes as [|e es He _ IH]; intros s Hi; cbn [setup_run]; [by astep|]. astep.
  eapply runs_mono; [by apply handle_kept|]. intros ? s' Hi'. by apply IH.
Qed.

(** An open channel is one on which data can be sent. *)
Lemma inv_fresh s : setup_inv s -> in_use (ccb s) = true -> chnl_state (ccb s) = CST_OPEN ->
  fcr_mode (cfg_fcr (peer_cfg (ccb s))) = L2CAP_FCR_ERTM_MODE -> 1 <= peer_win s <= 63 -> L2CAP_BASE_APPL_CID <= remote_cid (ccb s) < 65536 -> fresh s.
Proof.
  intros Hi Hu Eo Em Hw Hc. destruct (inv_opened s Hi Hu Eo) as [(r' & Er & Mo & Mp & Ht) _ Hl _]. destruct Hi as (c & [<- Hlk Hd] & [(r & HL & HA)|HV]); [|by destruct HV as [E _]; rewrite E in Hu].
  pose proof HL as []. rewrite lv_rcb in Er. injection Er as <-. destruct Ht as [Hmps How]; [congruence|]. destruct lv_fcrb, if_flags as [? ?]. constructor; try done.
  - constructor; try done; [unfold L2CAP_BASE_APPL_CID, MAX_L2CAP_CHANNELS in *; lia|exists r; split; [done|apply lv_rcb_ok]|rewrite How; done|apply Hlk|apply Hlk].
  - split; congruence.
  - pose proof (lk_queue _ Hlk) as Hq. rewrite Forall_map in Hq. revert Hq. apply Forall_impl. intros b (h & l & rest & Hh & ->).
    exists h, l, L2CAP_SIGNALLING_CID, rest. split_and!; try done. unfold L2CAP_BASE_APPL_CID, L2CAP_SIGNALLING_CID in *. lia.
Qed.

Lemma inv_cid s : setup_inv s -> L2CAP_BASE_APPL_CID <= local_cid (ccb s) < 65536.
Proof.
  intros (c & [<- _ _] & [(r & HL & _)|HV]); [pose proof (lv_local _ _ HL)|destruct HV as (_ & _ & _ & _ & HV)]; unfold L2CAP_BASE_APPL_CID, MAX_L2CAP_CHANNELS in *; lia.
Qed.

Lemma inv_live_in_use s : setup_inv s -> in_use (ccb s) = true -> exists r, stands (ccb s) s /\ live r (ccb s) /\ agreed r (ccb s).
Proof. intros (c & H & Hc) Hu. pose proof (sd_ccb _ _ H) as <-. destruct Hc as [(r & HL & HA)|HV]; [by exists r|]. destruct HV as [E _]. by rewrite E in Hu. Qed.

Lemma for_channel_mine {A} r c cid code (other : A) m no s Q : stands c s -> live r c -> cid = local_cid c -> runs m s Q -> runs (for_channel cid code other m no) s Q.
Proof.
  intros H HL -> Hm. unfold for_channel, l2cu_find_ccb_by_cid. astep. astep. apply runs_get. astep. rewrite (sd_ccb _ _ H), Z.eqb_refl, (lv_in_use _ _ HL), (lv_lcb _ _ HL).
  pose proof (lv_local _ _ HL). destruct (Z.ltb_spec (local_cid c) L2CAP_BASE_APPL_CID); [lia|]. destruct (Z.leb_spec MAX_L2CAP_CHANNELS (local_cid c - L2CAP_BASE_APPL_CID)); [lia|]. done.
Qed.
End Link.
