(* ===== verification/L2cFlow.v ===== *)
(** * L2cFlow: the shares of the controller's buffers

    A link hands packets to the controller only within the window of the controller and its own share,
    counts them, and goes on as long as it may. *)

From Stdlib Require Import ZArith Lia.
From stdpp Require Import base list relations.
From S2P Require Import Prelude Osi L2cDefs L2cFcr L2cCrc L2cRun L2cInv L2cTx L2cLink L2cAck L2cSar L2cRx L2cPdu L2cEvents L2cNet.

(** If the operation returns, its result and the state satisfy [Q]. *)
Definition ends {A} (m : L A) (s : l2c) (Q : A -> l2c -> Prop) : Prop :=
  match m s with Ok (a, s') => Q a s' | Crash _ => True end.

(** The packets handed to the controller. *)
Definition sent (s : l2c) : Z := Z.of_nat (length (packets (outs s))).

(** Nothing is sent, and link and controller stay as they are. *)
Definition aside {A} (m : L A) : Prop := forall s, ends m s (fun _ s' => lcb s' = lcb s /\ cb s' = cb s /\ sent s' = sent s).

(** The window of the controller, the packets outstanding and how many of them there may be, of the link
    or of all links that share in the round robin. *)
Definition window (s : l2c) : Z := if lcb_le (lcb s) then controller_le_xmit_window (cb s) else controller_xmit_window (cb s).
Definition outstanding (s : l2c) : Z :=
  if link_xmit_quota (lcb s) =? 0 then if lcb_le (lcb s) then ble_round_robin_unacked (cb s) else round_robin_unacked (cb s)
  else sent_not_acked (lcb s).
Definition share (s : l2c) : Z :=
  if link_xmit_quota (lcb s) =? 0 then if lcb_le (lcb s) then ble_round_robin_quota (cb s) else round_robin_quota (cb s)
  else link_xmit_quota (lcb s).

Record counters_ok (s : l2c) : Prop := {
  ck_window : is_u16 (window s);
  ck_outstanding : is_u16 (outstanding s);
  ck_share : is_u16 (share s);
}.

(** Packets are sent and counted, none beyond the share. *)
Record flow (s s' : l2c) : Prop := {
  fl_sent : sent s <= sent s';
  fl_window : window s' + sent s' = window s + sent s;
  fl_outstanding : outstanding s' + sent s = outstanding s + sent s';
  fl_share : share s' = share s;
  fl_le : lcb_le (lcb s') = lcb_le (lcb s);
  fl_quota : link_xmit_quota (lcb s') = link_xmit_quota (lcb s);
  fl_open : 0 <= window s';
  fl_within : sent s < sent s' -> outstanding s' <= share s';
}.

(** The window is shut or there is nothing to send. *)
Definition idle (s : l2c) : Prop := window_open s = false \/ link_xmit_data_q (lcb s) = [] /\ can_serve (ccb s) (lcb s) = false.

Definition flows {A} (m : L A) : Prop := forall s, counters_ok s -> ends m s (fun _ s' => flow s s').

(** * Lemmas *)

Lemma ends_mono {A} (m : L A) s (Q R : A -> l2c -> Prop) : ends m s Q -> (forall a s', Q a s' -> R a s') -> ends m s R.
Proof. unfold ends. destruct (m s) as [[a s']|]; [|done]. intros HQ HR. by apply HR. Qed.

Lemma ends_true {A} (m : L A) s : ends m s (fun _ _ => True).
Proof. unfold ends. by destruct (m s) as [[]|]. Qed.

Lemma ends_bind {A B} (m : L A) (k : A -> L B) s (Q : B -> l2c -> Prop) :
  ends m s (fun a s' => ends (k a) s' Q) -> ends (m ≫= k) s Q.
Proof. unfold ends, mbind, L_bind. by destruct (m s) as [[a s']|]. Qed.

Lemma runs_ends {A} (m : L A) s (Q R : A -> l2c -> Prop) : runs m s Q -> ends m s R -> runs m s (fun a s' => Q a s' /\ R a s').
Proof. unfold runs, ends. by destruct (m s) as [[a s']|]. Qed.

Lemma ends_get s (Q : l2c -> l2c -> Prop) : Q s s -> ends get s Q.
Proof. done. Qed.

Lemma ends_get_ccb s (Q : tL2C_CCB -> l2c -> Prop) : Q (ccb s) s -> ends get_ccb s Q.
Proof. done. Qed.

Lemma ends_upd_ccb f s (Q : unit -> l2c -> Prop) : Q tt (s <| ccb ::= f |>) -> ends (upd_ccb f) s Q.
Proof. done. Qed.

Lemma ends_when (b : bool) m s (Q : unit -> l2c -> Prop) : (b = true -> ends m s Q) -> (b = false -> Q tt s) -> ends (when b m) s Q.
Proof. destruct b; intros H1 H2; [by apply H1|by apply H2]. Qed.

Lemma ends_get_link s (Q : tL2C_LCB -> l2c -> Prop) : Q (lcb s) s -> ends get_link s Q.
Proof. done. Qed.

Lemma ends_upd_link f s (Q : unit -> l2c -> Prop) : Q tt (s <| lcb ::= f |>) -> ends (upd_link f) s Q.
Proof. done. Qed.

(** ** Operations that do not touch the link *)

Lemma aside_bind {A B} (m : L A) (k : A -> L B) : aside m -> (forall a, aside (k a)) -> aside (m ≫= k).
Proof.
  intros Hm Hk s. apply ends_bind. eapply ends_mono; [apply Hm|]. cbv beta. intros a s1 (E1 & E2 & E3).
  eapply ends_mono; [apply Hk|]. cbv beta. intros b s2 (F1 & F2 & F3). split_and!; congruence.
Qed.

Lemma aside_ret {A} (a : A) : aside (mret a).
Proof. by intros s. Qed.
Lemma aside_get : aside get.
Proof. by intros s. Qed.
Lemma aside_lift {A} (o : outcome A) : aside (lift o).
Proof. intros s. unfold ends, lift. by destruct o. Qed.
Lemma aside_crash {A} c : aside (crash_with (A := A) c).
Proof. by intros s. Qed.
Lemma aside_upd_ccb f : aside (upd_ccb f).
Proof. by intros s. Qed.
Lemma aside_upd_fcrb f : aside (upd_fcrb f).
Proof. by intros s. Qed.
Lemma aside_emit o : (forall p, o <> OAcl p) -> aside (emit o).
Proof. intros Ho s. split; [done|]. split; [done|]. destruct o as [p| | | | | | | | | | |]; try done. by destruct (Ho p). Qed.
Lemma aside_get_link : aside get_link.
Proof. intros s. by apply ends_get_link. Qed.
Lemma aside_when b m : aside m -> aside (when b m).
Proof. intros Hm. destruct b; [done|]. by intros s. Qed.

(** Goes through an operation step by step. *)
Ltac solve_aside :=
  repeat first
    [ progress cbv zeta
    | apply aside_bind; [|intros ?]
    | apply aside_ret | apply aside_get | apply aside_lift | apply aside_crash | apply aside_upd_ccb | apply aside_upd_fcrb
    | apply aside_get_link
    | apply aside_emit; congruence
    | apply aside_when
    | match goal with |- aside (match ?x with _ => _ end) => destruct x end ].

Section Link.
Context `{LE : LinkEnv}.

Lemma next_buffer_aside : aside next_buffer_of_channel.
Proof.
  unfold next_buffer_of_channel, l2c_lcc_get_next_xmit_sdu_seg, l2c_fcr_get_next_xmit_sdu_seg, finish_segment, prepare_I_frame,
    l2cu_check_channel_congestion, send_congestion_status_to_all_clients, l2cu_set_acl_hci_header, l2c_fcr_start_timer,
    set_mon_retrans_timer, cancel_ack_timer, l2c_fcr_stop_timer, get_ccb, get_fcrb, skip.
  solve_aside.
Qed.

(** ** Counting *)

Lemma flow_refl s : counters_ok s -> flow s s.
Proof. intros [Hw _ _]. unfold is_u16 in Hw. constructor; try done; lia. Qed.

Lemma flow_trans s1 s2 s3 : flow s1 s2 -> flow s2 s3 -> flow s1 s3.
Proof.
  intros [] []. constructor; try congruence; try lia.
Qed.

Lemma flow_counters s s' : flow s s' -> counters_ok s -> counters_ok s'.
Proof.
  intros [] [Hw Ho Hs]. unfold is_u16 in *. constructor; unfold is_u16; [lia| |congruence].
  destruct (decide (sent s < sent s')) as [Hl|]; [specialize (fl_within0 Hl)|]; lia.
Qed.

(** States that agree in what is counted. *)
Lemma flow_same s s' : counters_ok s -> lcb_le (lcb s') = lcb_le (lcb s) -> link_xmit_quota (lcb s') = link_xmit_quota (lcb s) ->
  window s' = window s -> outstanding s' = outstanding s -> share s' = share s -> sent s' = sent s -> flow s s'.
Proof. intros [Hw _ _] El Eq Ew Eo Es En. unfold is_u16 in Hw. constructor; try done; lia. Qed.

Lemma flow_from {A} (m : L A) s s1 : counters_ok s -> flow s s1 -> flows m -> ends m s1 (fun _ s2 => flow s s2).
Proof.
  intros Hc F Hm. eapply ends_mono; [apply Hm; by eapply flow_counters|]. cbv beta. intros _ s2 F2. by eapply flow_trans.
Qed.

Lemma flows_bind {A B} (m : L A) (k : A -> L B) : flows m -> (forall a, flows (k a)) -> flows (m ≫= k).
Proof. intros Hm Hk s Hc. apply ends_bind. eapply ends_mono; [by apply Hm|]. cbv beta. intros a s1 F. by apply flow_from. Qed.

Lemma flows_aside {A} (m : L A) : aside m -> flows m.
Proof.
  intros Hm s Hc. eapply ends_mono; [apply Hm|]. cbv beta. intros _ s' (El & Eb & Es).
  apply flow_same; unfold window, outstanding, share; by rewrite ?El, ?Eb.
Qed.

Lemma flows_when b m : flows m -> flows (when b m).
Proof. intros Hm. destruct b; [done|]. apply (flows_aside skip), aside_ret. Qed.

Lemma flows_skip : flows skip.
Proof. apply flows_aside, aside_ret. Qed.

(** A packet is sent when window and share allow it. *)
Lemma send_flow p s : counters_ok s -> 0 < window s -> outstanding s < share s -> ends (l2c_link_send_to_lower p) s (fun _ s' => flow s s' /\ window s' = window s - 1).
Proof.
  intros [Hw Ho Hs] Hpos Hlt. unfold is_u16 in *. unfold l2c_link_send_to_lower. apply ends_bind, ends_get_link. cbv zeta. apply ends_bind.
  assert (Hu : u16 (window s - 1) = window s - 1) by (apply u16_id; unfold is_u16; lia).
  assert (Hu' : u16 (outstanding s + 1) = outstanding s + 1) by (apply u16_id; unfold is_u16; lia).
  assert (Hsent : forall s', outs s' = OAcl (p <| bh_layer_specific := 0 |>) :: outs s -> sent s' = sent s + 1).
  { intros s' E. unfold sent. rewrite E. cbn [packets]. rewrite length_app. cbn. lia. }
  enough (Hk : forall s', outs s' = OAcl (p <| bh_layer_specific := 0 |>) :: outs s -> window s' = window s - 1 -> outstanding s' = outstanding s + 1 ->
    share s' = share s -> lcb_le (lcb s') = lcb_le (lcb s) -> link_xmit_quota (lcb s') = link_xmit_quota (lcb s) -> flow s s' /\ window s' = window s - 1).
  - destruct (lcb_le (lcb s)) eqn:El; apply ends_bind, ends_upd_link; (apply Hk; [done| | | |exact El|done]);
      unfold window, outstanding, share in *; cbn; rewrite El in *; destruct (link_xmit_quota (lcb s) =? 0); done.
  - intros s' E1 E2 E3 E4 E5 E6. split; [|done]. specialize (Hsent s' E1). constructor; try done; lia.
Qed.

Lemma window_open_flow s : counters_ok s -> link_xmit_quota (lcb s) <> 0 -> window_open s = true -> 0 < window s /\ outstanding s < share s.
Proof.
  intros [Hw _ _] Hq Ho. unfold window_open, window, outstanding, share, nz, is_u16 in *. apply Z.eqb_neq in Hq. rewrite Hq in *.
  apply andb_true_iff in Ho as [Hn Hl%Z.ltb_lt]. split; [|done]. destruct (lcb_le (lcb s)); apply negb_true_iff, Z.eqb_neq in Hn; lia.
Qed.

Lemma next_send_flow s : counters_ok s -> 0 < window s -> outstanding s < share s ->
  ends next_buffer_of_channel s (fun r s1 => match r with None => flow s s1 | Some b => ends (l2c_link_send_to_lower b) s1 (fun _ s2 => flow s s2 /\ window s2 = window s - 1) end).
Proof.
  intros Hc Hw Ho. eapply ends_mono; [apply next_buffer_aside|]. cbv beta. intros r s1 (El & Eb & En).
  assert (Ew : window s1 = window s) by (unfold window; by rewrite El, Eb). assert (Eo : outstanding s1 = outstanding s) by (unfold outstanding; by rewrite El, Eb).
  assert (Es : share s1 = share s) by (unfold share; by rewrite El, Eb).
  assert (F : flow s s1) by (apply flow_same; by rewrite ?El). destruct r as [b|]; [|done].
  eapply ends_mono; [apply send_flow; [by eapply flow_counters|by rewrite Ew|by rewrite Eo, Es]|]. cbv beta. intros _ s2 [F2 E2]. split; [by eapply flow_trans|by rewrite E2, Ew].
Qed.

Lemma front_send_flow s b q : counters_ok s -> 0 < window s -> outstanding s < share s ->
  ends (upd_link (fun l => l <| link_xmit_data_q := q |>);; l2c_link_send_to_lower b) s (fun _ s2 => flow s s2).
Proof.
  intros Hc Hw Ho. apply ends_bind, ends_upd_link. assert (F : flow s (s <| lcb ::= fun l => l <| link_xmit_data_q := q |> |>)) by by apply flow_same.
  eapply ends_mono; [apply send_flow; [by eapply flow_counters|done|done]|]. cbv beta. intros _ s2 [F2 _]. by eapply flow_trans.
Qed.

Lemma serve_channel_flow n s : counters_ok s -> link_xmit_quota (lcb s) <> 0 -> ends (serve_channel n) s (fun _ s' => flow s s').
Proof.
  revert s. induction n as [|n IH]; intros s Hc Hq; [by apply flow_refl|]. cbn [serve_channel]. apply ends_bind, ends_get.
  destruct (window_open s) eqn:Ho; cbn [negb]; [|by apply flow_refl]. destruct (window_open_flow s Hc Hq Ho) as [Hw Hs]. apply ends_bind.
  eapply ends_mono; [by apply next_send_flow|]. cbv beta. intros [b|] s1 H1; [|done]. apply ends_bind. eapply ends_mono; [exact H1|]. cbv beta.
  intros _ s2 [F2 _]. eapply ends_mono; [apply IH; [by eapply flow_counters|by rewrite (fl_quota _ _ F2)]|]. cbv beta. intros _ s3 F3. by eapply flow_trans.
Qed.

Lemma serve_link_flow n s : counters_ok s -> link_xmit_quota (lcb s) <> 0 -> ends (serve_link n) s (fun _ s' => flow s s').
Proof.
  revert s. induction n as [|n IH]; intros s Hc Hq; [by apply flow_refl|]. cbn [serve_link]. apply ends_bind, ends_get.
  destruct (window_open s) eqn:Ho; cbn [negb]; [|by apply flow_refl]. destruct (window_open_flow s Hc Hq Ho) as [Hw Hs].
  destruct (link_xmit_data_q (lcb s)) as [|b q]; [by apply flow_refl|].
  pose proof (front_send_flow s b q Hc Hw Hs) as Hf. unfold ends, mbind, L_bind in Hf |- *. destruct (upd_link _ s) as [[[] s1]|]; [|done].
  destruct (l2c_link_send_to_lower b s1) as [[[] s2]|]; [|done]. pose proof (IH s2 (flow_counters _ _ Hf Hc)) as Hi. rewrite (fl_quota _ _ Hf) in Hi.
  specialize (Hi Hq). unfold ends in Hi. destruct (serve_link n s2) as [[[] s3]|]; [|done]. by eapply flow_trans.
Qed.

Lemma round_robin_flows start single : flows (round_robin start single).
Proof.
  unfold round_robin. apply flows_bind.
  - intros s Hc. unfold round_robin_turn. apply ends_bind, ends_get. cbv zeta.
    match goal with |- context [if ?c then skip else _] => destruct c eqn:Hg end; [by apply flow_refl|].
    apply orb_false_iff in Hg as [[[Hfull _]%orb_false_iff Hq%negb_false_iff]%orb_false_iff _].
    assert (Hwo : 0 < window s /\ outstanding s < share s).
    { destruct Hc as [Hw _ _]. unfold window, outstanding, share, is_u16 in *. rewrite Hq.
      destruct (lcb_le (lcb s)); apply orb_false_iff in Hfull as [H1 H2]; lia. }
    destruct Hwo as [Hw Ho]. destruct (link_xmit_data_q (lcb s)) as [|b q]; [|by apply front_send_flow].
    destruct single; [by apply flow_refl|]. apply ends_bind. eapply ends_mono; [by apply next_send_flow|]. cbv beta. intros [b|] s1 H1; [|done].
    eapply ends_mono; [exact H1|]. by intros _ s2 [].
  - intros _. apply flows_bind; [apply flows_aside, aside_get|]. intros s. cbv zeta. apply flows_bind; [|intros _]; apply flows_when.
    all: apply flows_bind; [apply flows_aside, aside_lift|]; intros le; apply flows_when; intros s1 Hc; by apply flow_same.
Qed.

Lemma get_link_flows : flows get_link.
Proof. apply flows_aside, aside_get_link. Qed.

Lemma check_send_flows cid p : flows (l2c_link_check_send_pkts cid p).
Proof.
  unfold l2c_link_check_send_pkts. apply flows_bind.
  { destruct p as [b|]; [|apply flows_skip]. apply flows_bind; [intros s Hc; apply ends_upd_link; by apply flow_same|].
    intros _. apply flows_bind; [apply get_link_flows|]. intros l. apply flows_when. intros s Hc. destruct (lcb_le l); by apply flow_same. }
  intros _. cbv zeta. set (single := match p with Some _ => _ | None => _ end). intros s Hc. apply ends_bind, ends_get_link.
  destruct (link_xmit_quota (lcb s) =? 0) eqn:Eq; [by apply round_robin_flows|]. apply Z.eqb_neq in Eq. apply ends_bind, ends_get.
  destruct (_ || _); [by apply flow_refl|].
  apply ends_bind. eapply ends_mono; [by apply serve_link_flow|]. cbv beta. intros _ s1 F1. apply ends_bind, ends_get. apply ends_bind.
  assert (Hc1 := flow_counters _ _ F1 Hc). assert (Hq1 := fl_quota _ _ F1).
  eapply (ends_mono _ _ (fun _ s2 => flow s1 s2)); [apply ends_when; intros _; [apply serve_channel_flow; [done|by rewrite Hq1]|by apply flow_refl]|].
  cbv beta. intros _ s2 F2. apply (flow_from _ s s2 Hc (flow_trans _ _ _ F1 F2)). apply flows_bind; [apply get_link_flows|].
  intros l. apply flows_when, flows_aside. apply aside_emit. congruence.
Qed.

(** Packets are reported as sent: they may be replaced. *)
Lemma completed_flow n s : counters_ok s -> 0 <= n <= outstanding s -> window s + n < 65536 ->
  ends (l2c_packets_completed n) s (fun _ s' => exists s0, sent s0 = sent s /\ window s0 = window s + n /\ outstanding s0 = outstanding s - n /\
    share s0 = share s /\ flow s0 s').
Proof.
  intros [Hw Ho Hs] Hn Hwn. unfold is_u16 in *. unfold l2c_packets_completed. apply ends_bind, ends_upd_link. apply ends_bind, ends_get_link. cbv zeta. apply ends_bind.
  assert (Hu : u16 (window s + n) = window s + n) by (apply u16_id; unfold is_u16; lia).
  assert (Hc : update_outstanding_packets n (outstanding s) = outstanding s - n).
  { unfold update_outstanding_packets. destruct (Z.ltb_spec n (outstanding s)); lia. }
  match goal with |- ends _ _ ?Q => enough (Hk : forall s0, sent s0 = sent s -> window s0 = window s + n -> outstanding s0 = outstanding s - n -> share s0 = share s -> Q tt s0) end.
  - cbn [lcb link_xmit_quota lcb_le set set_lcb set_sent_not_acked]. destruct (lcb_le (lcb s)) eqn:El; apply Hk; try done;
      unfold window, outstanding, share in *; cbn; rewrite El in *; destruct (link_xmit_quota (lcb s) =? 0); done.
  - intros s0 E1 E2 E3 E4. cbv beta. assert (C0 : counters_ok s0) by (constructor; unfold is_u16; lia).
    eapply (ends_mono _ _ (fun _ s' => flow s0 s')); [|intros _ s' F; by exists s0].
    apply (flows_bind (l2c_link_check_send_pkts 0 None) (fun _ => l ← get_link; s ← get; when _ (round_robin 0 false))); [apply check_send_flows| |done]. intros _.
    apply flows_bind; [apply get_link_flows|]. intros l. apply flows_bind; [apply flows_aside, aside_get|]. intros s2. apply flows_when, round_robin_flows.
Qed.

(** ** The link goes on while it may *)

Lemma shut_window s : counters_ok s -> window s <= 0 -> window_open s = false.
Proof.
  intros [Hw _ _] Hle. unfold window_open, window, nz, is_u16 in *. destruct (lcb_le (lcb s)).
  - replace (controller_le_xmit_window (cb s)) with 0 by lia. done.
  - replace (controller_xmit_window (cb s)) with 0 by lia. done.
Qed.

Lemma serve_channel_idle n s X U : ready s -> tx_inv X U s -> counters_ok s -> link_xmit_quota (lcb s) <> 0 -> window s <= Z.of_nat n ->
  link_xmit_data_q (lcb s) = [] \/ window_open s = false -> runs (serve_channel n) s (fun _ s' => idle s').
Proof.
  revert s X. induction n as [|n IH]; intros s X Hr Ht Hc Hq Hn Hl; [left; by apply shut_window|]. cbn [serve_channel]. lstep. lstep.
  destruct (window_open s) eqn:Ho; cbn [negb]; [|by left]. destruct Hl as [Hl|]; [|done]. destruct (window_open_flow s Hc Hq Ho) as [Hw Hs].
  lstep. eapply runs_mono; [apply runs_ends; [by apply (next_sent s X U)|by apply next_send_flow]|]. cbv beta.
  intros [b|] s1 [H1 F1]; [|destruct H1 as [-> Hcan]; by right]. lstep. eapply runs_mono; [by apply runs_ends; [exact H1|exact F1]|]. cbv beta.
  intros _ s2 [[(X2 & T2 & _ & _ & K2 & _) Hl2] [F2 E2]].
  apply (IH s2 X2); [by eapply keeps_ready|done|by eapply flow_counters|by rewrite (fl_quota _ _ F2)|lia|by left].
Qed.

Lemma direct_send_idle s X U : ready s -> tx_inv X U s -> counters_ok s -> link_xmit_quota (lcb s) <> 0 -> link_connected (lcb s) = true ->
  l2c_link_check_power_mode s = false -> runs (l2c_link_check_send_pkts 0 None) s (fun _ s' => idle s').
Proof.
  intros Hr Ht Hc Hq Hcon Hpm. unfold l2c_link_check_send_pkts. lstep. lstep. cbv zeta. lstep. lstep. destruct (Z.eqb_spec (link_xmit_quota (lcb s)) 0) as [|_]; [done|]. lstep. lstep.
  rewrite Hcon, Hpm. cbn [negb orb]. lstep. eapply runs_mono; [apply runs_ends; [by apply (serve_link_spec _ s X U)|by apply serve_link_flow]|]. cbv beta.
  intros _ s1 [[M1 Hl1] F1]. pose proof M1 as (X1 & T1 & _ & _ & K1 & _). assert (Hr1 := keeps_ready _ _ K1 Hr). assert (Hc1 := flow_counters _ _ F1 Hc).
  lstep. lstep. lstep. lstep. set (n := Z.to_nat _). assert (Hn : window s1 <= Z.of_nat n).
  { unfold n. rewrite <- (fl_le _ _ F1). destruct Hc1 as [Hw1 _ _]. unfold window, is_u16 in *. destruct (lcb_le (lcb s1)); lia. }
  eapply runs_mono; [apply (serve_channel_idle n s1 X1 U); try done; by rewrite (fl_quota _ _ F1)|].
  cbv beta. intros _ s2 Hi. lstep. lstep. apply runs_when; intros _; [lstep|]; exact Hi.
Qed.
End Link.
