(* ===== verification/L2cThms.v ===== *)
(** * L2cThms: theorems on channels in enhanced retransmission mode

    The check sequence, the channel against any peer, and two hosts with a network between them. *)

From Stdlib Require Import ZArith Lia.
From stdpp Require Import base list relations.
From S2P Require Import Prelude Osi L2cDefs L2cFcr L2cSig L2cCrc L2cRun L2cInv L2cTx L2cLink L2cAck L2cSar L2cRx L2cPdu L2cEvents L2cNet L2cFlow.

(** The events of a channel, one after the other, with the SDUs taken from the application. *)
Fixpoint handle_all `{LE : LinkEnv} (l : list event) : L (list (list Z)) :=
  match l with
  | [] => mret []
  | e :: l => D ← handle e; D' ← handle_all l; mret (D ++ D')
  end.

(** ** A channel to compute with *)

Definition demo_opts : tL2CAP_FCR_OPTS := mk_FCR_OPTS L2CAP_FCR_ERTM_MODE 10 20 2000 12000 1000.
Definition demo_cfg : tL2CAP_CFG_INFO := zero_CFG_INFO <| mtu_present := true |> <| cfg_mtu := 672 |> <| fcr_present := true |> <| cfg_fcr := demo_opts |>.
Definition demo_fcrb : tL2C_FCRB :=
  zero_FCRB <| max_held_acks := 3 |> <| waiting_for_ack_q := fixed_queue_new |> <| srej_rcv_hold_q := fixed_queue_new |>
            <| retrans_q := fixed_queue_new |> <| ack_timer := alarm_new |> <| mon_retrans_timer := alarm_new |>.
Definition demo_ccb (local remote : Z) : tL2C_CCB :=
  mk_CCB true CST_OPEN (mk_LE_CFG 0 0 0) (mk_LE_CFG 0 0 0) true None 0 true local remote alarm_new
    (Some (mk_RCB true true true L2CAP_FCR_ERTM_MODE true true true true true 0x1001 0x1001 672 48)) 3 1 demo_cfg demo_cfg false 5 fixed_queue_new demo_fcrb 4 672 2 false true false 0 0 0 true 0 1 1.
Definition demo_st (local remote : Z) : l2c := mk_l2c (demo_ccb local remote) (mk_LCB 1 false true false 4 0 [] 1 L2CAP_EXTFEA_ENH_RETRANS false alarm_new 0 (replicate 8 0) 3) (mk_CB 8 0 0 false 8 0 0 false) [].
Definition demo_env : LinkEnv := Build_LinkEnv 0 1021 (fun _ => false) (fun _ => false) 1 10 (fun _ => false) (fun _ => None) (fun _ _ => false).
Definition demo_net : net := mk_net (mk_host demo_env (demo_st 0x40 0x41) []) (mk_host demo_env (demo_st 0x41 0x40) []) [] [].

(** A packet of the application, and the arrival of a packet from the controller. *)
Definition demo_sdu (data : list Z) : BT_HDR :=
  mkBT_HDR 0 (Z.of_nat (length data)) 13 0 (replicate 13 0 ++ data ++ [0; 0]).
Definition demo_acl (body : list Z) : BT_HDR := mkBT_HDR 0 (Z.of_nat (length body)) 0 0 body.

(** The host after an event, and the packets it sends. *)
Definition after (h : host) (e : event) : host * list (list Z) :=
  match handle (LE := h_env h) e (h_st h) with
  | Ok (D, s') => (mk_host (h_env h) s' (h_taken h ++ D), drop (length (packets (outs (h_st h)))) (packets (outs s')))
  | Crash _ => (h, [])
  end.

(** The run: the first host sends an SDU in two segments, the second acknowledges them when its timer runs out. *)
Definition demo_data : list Z := [1; 2; 3; 4; 5; 6].
Definition demo_write : event := EWrite (demo_sdu demo_data) 0.
(** What arrives when [x] was sent: the peer's controller writes its own header. *)
Definition arrives (x : list Z) : event := ERcv (demo_acl ([1; 0x20] ++ drop 2 x)).
Definition step_a (n : net) (e : event) (rest : list (list Z)) : net :=
  let r := after (n_a n) e in mk_net r.1 (n_b n) (n_ab n ++ r.2) rest.
Definition step_b (n : net) (e : event) (rest : list (list Z)) : net :=
  let r := after (n_b n) e in mk_net (n_a n) r.1 rest (n_ba n ++ r.2).

Definition arrive_a (n : net) : net := step_a n (arrives (hd [] (n_ba n))) (tl (n_ba n)).
Definition arrive_b (n : net) : net := step_b n (arrives (hd [] (n_ab n))) (tl (n_ab n)).

Definition demo_1 : net := step_a demo_net demo_write [].
Definition demo_3 : net := arrive_b (arrive_b demo_1).
Definition demo_5 : net := arrive_a (step_b demo_3 EAckTimeout (n_ab demo_3)).

Definition two_waiting (s : l2c) : bool :=
  in_use (ccb s) && match waiting_for_ack_q (fcrb (ccb s)) with Some [_; _] => true | _ => false end.

(** The controller is full when the application writes, and then has room again. *)
Definition held_events : list event :=
  [EShare (mk_CB 0 0 0 false 8 0 0 false) true false 4; demo_write; EShare (mk_CB 8 0 0 false 8 0 0 false) true false 4].
Definition held_up (s : l2c) : bool :=
  in_use (ccb s) && match packets (outs s) with [] => true | _ => false end && (link_xmit_quota (lcb s) =? 4) && link_connected (lcb s) &&
  (controller_xmit_window (cb s) =? 8) && (sent_not_acked (lcb s) =? 0) && negb (fixed_queue_is_empty (xmit_hold_q (ccb s))).

(** The step that was computed is one of the host. *)
Definition went_well (h : host) (e : event) : Prop :=
  match handle (LE := h_env h) e (h_st h) with
  | Ok (_, s') => take (length (packets (outs (h_st h)))) (packets (outs s')) = packets (outs (h_st h))
  | Crash _ => False
  end.

(** * Lemmas *)

Lemma demo_acl_buf body : 4 <= Z.of_nat (length body) < 65536 -> forallb is_byteb body = true -> acl_buf (demo_acl body).
Proof.
  intros Hl Hb. assert (E : bh_payload (demo_acl body) = body).
  { apply (holds_payload _ [] _ []). constructor; [by rewrite app_nil_r|done|done]. }
  constructor; cbn; try lia. rewrite E. by apply bytes_ok.
Qed.

Lemma demo_sdu_ok data flags : Z.of_nat (length data) < 65000 -> forallb is_byteb data = true -> flags .& L2CAP_FCR_SAR_BITS = 0 ->
  sdu_ok ((demo_sdu data) <| bh_layer_specific := flags |>).
Proof.
  intros Hl Hb Hf. set (b := (demo_sdu data) <| bh_layer_specific := flags |>).
  assert (Hh : holds b (replicate 13 0) data [0; 0]) by by constructor. assert (E := holds_payload _ _ _ _ Hh).
  constructor; rewrite ?E; [|by apply bytes_ok|done]. exists (replicate 13 0), [0; 0]. split; [done|]. cbn [length replicate]. lia.
Qed.

Lemma after_step h e : valid_event (lcb_index (lcb (h_st h))) e -> went_well h e -> host_step h e (after h e).2 (after h e).1.
Proof.
  intros He Hh. unfold went_well in Hh. unfold after. destruct (handle e (h_st h)) as [[D s']|] eqn:E; [|done]. apply hs_handle; [done|done|].
  cbn. etrans; [symmetry; apply (take_drop (length (packets (outs (h_st h)))))|]. by rewrite Hh.
Qed.

Lemma demo_fresh local remote : L2CAP_BASE_APPL_CID <= local < 65536 -> L2CAP_BASE_APPL_CID <= remote < 65536 -> fresh (demo_st local remote).
Proof. intros Hl Hr. constructor; try done. constructor; try done. by eexists. Qed.

Lemma demo_connected : connected demo_net.
Proof. constructor; try done; by apply demo_fresh. Qed.

Lemma arrived_a n : 4 <= Z.of_nat (length (hd [] (n_ba n))) < 65536 -> forallb is_byteb (hd [] (n_ba n)) = true ->
  went_well (n_a n) (arrives (hd [] (n_ba n))) -> net_step n (arrive_a n).
Proof.
  destruct n as [a b ab [|x ba]]; cbn [n_ba hd]; intros Hl Hb Hh; [done|].
  destruct x as [|b0 [|b1 [|b2 [|b3 x]]]]; try (cbn in Hl; lia). cbn [forallb] in Hb. rewrite !andb_true_iff in Hb. destruct Hb as (_ & _ & Hb2 & Hb3 & Hb).
  assert (Hv : forall i, valid_event i (arrives (b0 :: b1 :: b2 :: b3 :: x))).
  { intros i. apply demo_acl_buf; [cbn in *; lia|]. cbn. by rewrite Hb2, Hb3, Hb. }
  apply (ns_recv _ _ _ _ _ (demo_acl ([1; 0x20; b2; b3] ++ x)) _ [b0; b1; b2; b3] [1; 0x20; b2; b3]); [by apply after_step|done|done|].
  apply (holds_payload _ [] _ []). constructor; [by rewrite app_nil_r|done|done].
Qed.

Lemma arrived_b n : 4 <= Z.of_nat (length (hd [] (n_ab n))) < 65536 -> forallb is_byteb (hd [] (n_ab n)) = true ->
  went_well (n_b n) (arrives (hd [] (n_ab n))) -> net_step n (arrive_b n).
Proof. intros. apply ns_swap. by apply (arrived_a (swap n)). Qed.

Lemma event_a n e : is_rcv e = false -> valid_event (lcb_index (lcb (h_st (n_a n)))) e -> went_well (n_a n) e -> net_step n (step_a n e (n_ba n)).
Proof. destruct n as [a b ab ba]. intros Hr Hv Hw. apply (ns_event _ _ _ _ _ e); [done|by apply after_step]. Qed.

Lemma event_b n e : is_rcv e = false -> valid_event (lcb_index (lcb (h_st (n_b n)))) e -> went_well (n_b n) e -> net_step n (step_b n e (n_ab n)).
Proof. intros. apply ns_swap. by apply (event_a (swap n)). Qed.

Lemma demo_run_3 : rtc net_step demo_net demo_3.
Proof.
  apply (rtc_l _ _ demo_1); [|apply (rtc_l _ _ (arrive_b demo_1)); [|apply rtc_once]].
  - apply (event_a demo_net demo_write); [done|by apply demo_sdu_ok|by vm_compute].
  - apply arrived_b; by vm_compute.
  - apply arrived_b; by vm_compute.
Qed.

Lemma demo_run_5 : rtc net_step demo_net demo_5.
Proof.
  etrans; [apply demo_run_3|]. apply (rtc_l _ _ (step_b demo_3 EAckTimeout (n_ab demo_3))); [|apply rtc_once].
  - apply event_b; [done|done|by vm_compute].
  - apply arrived_a; by vm_compute.
Qed.

Lemma released_events `{LE : LinkEnv} l s : released s -> Forall (valid_event (lcb_index (lcb s))) l -> runs (handle_all l) s (fun _ s' => released s').
Proof.
  revert s. induction l as [|e l IH]; intros s R Hl; cbn [handle_all]; [by lstep|]. inversion Hl as [|e' l' He Hl']; subst. lstep.
  eapply runs_mono; [by apply handle_released|]. cbv beta. intros D s1 [_ Hi]. lstep.
  assert (Es : ccb s1 = ccb s /\ lcb_index (lcb s1) = lcb_index (lcb s) /\ rr_bound (lcb s1) = rr_bound (lcb s)).
  { destruct e; (destruct (ignored_same _ _ Hi) as [Ec _]; destruct (ignored_link _ _ Hi); tauto) || (destruct Hi; tauto). }
  destruct Es as (Ec & Ei & Er). eapply runs_mono; [apply IH|cbv beta; intros; by lstep]; [unfold released in *; by rewrite Ec, Er|by rewrite Ei].
Qed.

Lemma chan_events `{LE : LinkEnv} l X U G H s : chan X U G H s -> Forall (valid_event (lcb_index (lcb s))) l ->
  runs (handle_all l) s (fun D s' => released s' \/ exists X' G' H', chan X' (U ++ D) G' H' s').
Proof.
  revert X U G H s. induction l as [|e l IH]; intros X U G H s C Hl; cbn [handle_all].
  { lstep. right. exists X, G, H. by rewrite app_nil_r. }
  inversion Hl as [|e' l' He Hl']; subst. lstep. eapply runs_mono; [by apply handle_spec|]. cbv beta. intros D s1 Hs1. lstep.
  assert (HD : lcb_index (lcb s1) = lcb_index (lcb s) /\ (released s1 \/ exists X1 G1 H1, chan X1 (U ++ D) G1 H1 s1)).
  { destruct e; try (destruct Hs1 as [(X1 & C1 & [E1 _])|(X1 & G0 & cur & [R Ei] & _)]; [split; [by apply fixed_index|right; by eauto]|by auto]).
    destruct Hs1 as [-> Hs1]. rewrite app_nil_r. destruct Hs1 as [Hi|(h & w & info & _ & _ & _ & _ & Hd)]; [|by eapply frame_done_ok].
    split; [by apply ignored_link|]. right; exists X, G, H; by eapply chan_ignored. }
  destruct HD as [Ei [R|(X1 & G1 & H1 & C1)]]; rewrite <- Ei in Hl'.
  - eapply runs_mono; [by apply released_events|]. cbv beta. intros D' s2 R2. lstep. by left.
  - eapply runs_mono; [by eapply IH|]. cbv beta. intros D' s2 HD2. lstep. by rewrite app_assoc.
Qed.

Lemma connected_delivers n n' : connected n -> rtc net_step n n' ->
  delivered (outs (h_st (n_b n'))) `prefix_of` h_taken (n_a n') /\ delivered (outs (h_st (n_a n'))) `prefix_of` h_taken (n_b n').
Proof.
  intros Hc Hr. destruct (net_reachable_inv n n' Hc Hr) as [(EA & EB & AB & BA & _ & _ & EUa & EUb & Ha & Hb & D1 & D2)].
  apply side_ok_left in Ha, Hb. rewrite <- EUa, <- EUb. split; by eapply dir_delivered.
Qed.

(** ** The check sequence *)

(** C25: [l2c_fcr_tx_get_fcs] and [l2c_fcr_rx_get_fcs], which go through a table of 256 entries byte by byte, compute
    the cyclic redundancy check with the polynomial of the specification bit by bit, over the packet that is sent,
    and over the packet received together with the four bytes of the L2CAP header in front of it. *)
Theorem fcs_is_crc16 p pre hd body post : holds p (pre ++ hd) body post -> length hd = 4%nat -> Forall is_u8 (hd ++ body) ->
  l2c_fcr_tx_get_fcs p = Ok (crc16 body) /\ l2c_fcr_rx_get_fcs p = Ok (crc16 (hd ++ body)).
Proof.
  intros Hp Hh Hu. pose proof Hu as [_ Hb]%Forall_app. split; [by eapply tx_fcs_spec|]. destruct Hp as [Ed Eo El]. unfold l2c_fcr_rx_get_fcs.
  rewrite (bh_read_bytes_mid _ pre (hd ++ body) post); [|by rewrite Ed, <- !app_assoc|..].
  - cbn [mbind outcome_bind mret outcome_ret]. unfold crc16. by rewrite updcrc_ref.
  - rewrite Eo, length_app, Hh. unfold L2CAP_PKT_OVERHEAD. lia.
  - rewrite El, length_app, Hh. unfold L2CAP_PKT_OVERHEAD. lia.
Qed.

(** The supervisory frame of the run above. *)
Lemma fcs_is_crc16_witness :
  let p := mkBT_HDR 0 2 8 0 [1; 0x20; 8; 0; 4; 0; 64; 0; 1; 2] in
  l2c_fcr_tx_get_fcs p = Ok (crc16 [1; 2]) /\ l2c_fcr_rx_get_fcs p = Ok (crc16 [4; 0; 64; 0; 1; 2]).
Proof. intros p. apply (fcs_is_crc16 p [1; 0x20; 8; 0] [4; 0; 64; 0] [1; 2] []); [by constructor|done|by apply bytes_ok]. Defined.

(** C26: A packet that was damaged on its way, so that one byte or two bytes next to each other are not what was sent,
    in the header, the frame or the check sequence, is recognised by [l2c_fcr_proc_pdu]: it changes nothing, in
    whatever state the channel is. *)
Theorem damaged_packet_ignored `{LE : LinkEnv} p hd body x s : pdu_buf p hd body -> Forall is_u8 x -> damaged (with_fcs x) (hd ++ body) ->
  l2c_fcr_proc_pdu p s = Ok (tt, s).
Proof.
  intros Hp Hx Hd. apply (proc_pdu_bad p hd body s Hp). destruct (decide (length body < 4)%nat) as [|Hl]; [by left|]. right.
  pose proof Hp as [_ _ Hu]. pose proof Hu as [_ Hb]%Forall_app. destruct (byte_word_end body) as (y & f & Hf & -> & _); [lia|done|].
  exists y, f. split; [done|]. split; [done|]. intros ->. apply (damaged_fcs x _ (hd ++ y) Hx Hu Hd). unfold with_fcs. by rewrite app_assoc.
Qed.

(** Two bytes of the second segment of the run are changed. *)
Lemma damaged_packet_ignored_witness :
  let s := h_st (n_b demo_net) in
  l2c_fcr_proc_pdu (LE := demo_env) (mkBT_HDR 0 6 4 0 [6; 0; 65; 0; 2; 128; 7; 6; 12; 57]) s = Ok (tt, s).
Proof.
  intros s. apply (damaged_packet_ignored (LE := demo_env) _ [6; 0; 65; 0] [2; 128; 7; 6; 12; 57] [6; 0; 65; 0; 2; 128; 5; 6] s).
  - constructor; [|done|by apply bytes_ok]. exists [], []. split; [by constructor|done].
  - by apply bytes_ok.
  - exists [6; 0; 65; 0; 2; 128], 5, 6, 7, 6, [12; 57]. by split_and!.
Defined.

(** ** One channel, any peer *)





(** ** The link *)

(** C22: However it is asked to send, a link hands the controller no more packets than the window of the controller has room for, and
    none while its own share, or the share of all links in the round robin, is used up; each packet is taken off the window and added to the
    packets outstanding; and packets reported as sent are given back to both, before more are sent by the same rule. *)
Theorem link_within_share `{LE : LinkEnv} s : counters_ok s ->
  (forall cid p s', l2c_link_check_send_pkts cid p s = Ok (tt, s') -> flow s s') /\
  (forall n s', 0 <= n <= outstanding s -> window s + n < 65536 -> l2c_packets_completed n s = Ok (tt, s') ->
     exists s0, sent s0 = sent s /\ window s0 = window s + n /\ outstanding s0 = outstanding s - n /\ share s0 = share s /\ flow s0 s').
Proof.
  intros Hc. split.
  - intros cid p s' E. pose proof (check_send_flows cid p s Hc) as F. unfold ends in F. by rewrite E in F.
  - intros n s' Hn Hw E. pose proof (completed_flow n s Hc Hn Hw) as F. unfold ends in F. by rewrite E in F.
Qed.

(** The write of the run above takes two of the four packets the link may have outstanding. *)
Lemma link_within_share_witness : exists s, outstanding s = 2 /\ window s = 6 /\
  (forall cid p s', l2c_link_check_send_pkts (LE := demo_env) cid p s = Ok (tt, s') -> flow s s') /\
  (forall n s', 0 <= n <= outstanding s -> window s + n < 65536 -> l2c_packets_completed (LE := demo_env) n s = Ok (tt, s') ->
     exists s0, sent s0 = sent s /\ window s0 = window s + n /\ outstanding s0 = outstanding s - n /\ share s0 = share s /\ flow s0 s').
Proof.
  exists (h_st (n_a demo_1)). split; [by vm_compute|]. split; [by vm_compute|]. apply (link_within_share (LE := demo_env)).
  constructor; by vm_compute.
Defined.

(** C21: On a connected link that has a share of its own, and does not wait for a change of its power mode, with a channel in enhanced
    retransmission mode, the loops of [l2c_link_check_send_pkts], called to serve the link (with no packet of its own), end, and end only
    when the window or the share is used up, or the queue of the link is empty and the channel has nothing it may send: everything held is
    sent, or the window of the peer is full, or an answer of the peer is awaited. *)
Theorem link_serves `{LE : LinkEnv} X U G H s : chan X U G H s -> counters_ok s -> link_xmit_quota (lcb s) <> 0 ->
  link_connected (lcb s) = true -> l2c_link_check_power_mode s = false ->
  exists s', l2c_link_check_send_pkts 0 None s = Ok (tt, s') /\ idle s'.
Proof.
  intros C Hc Hq Hl Hp. pose proof (direct_send_idle s X U (chan_ready _ _ _ _ _ C) (ch_tx _ _ _ _ _ C) Hc Hq Hl Hp) as Hr.
  apply runs_inv in Hr as ([] & s' & E & Hi). by exists s'.
Qed.

(** The channel was written to while the controller was full; when it has room again, both segments are sent. *)
Lemma link_serves_witness : exists s s', packets (outs s) = [] /\ held_up s = true /\
  l2c_link_check_send_pkts (LE := demo_env) 0 None s = Ok (tt, s') /\ idle s' /\ length (packets (outs s')) = 2%nat.
Proof.
  assert (Hv : Forall (valid_event 3) held_events) by (repeat constructor; by apply demo_sdu_ok || done).
  assert (Hf : fresh (demo_st 0x40 0x41)) by by apply demo_fresh.
  pose proof (chan_events (LE := demo_env) held_events _ _ _ _ _ (fresh_chan _ Hf) Hv) as Hr. apply runs_inv in Hr as (D & s & E & Hr).
  assert (Et : match handle_all (LE := demo_env) held_events (demo_st 0x40 0x41) with
    | Ok (_, s) => held_up s && match l2c_link_check_send_pkts (LE := demo_env) 0 None s with Ok (_, s') => Nat.eqb (length (packets (outs s'))) 2 | Crash _ => false end
    | Crash _ => false end = true) by by vm_compute.
  rewrite E in Et. clear E Hv Hf. apply andb_true_iff in Et as [Eh Et]. pose proof Eh as Eh'. unfold held_up in Eh'. rewrite !andb_true_iff in Eh'.
  destruct Eh' as ((((((Hi & Hp) & Hq) & Hc) & Hw) & Ho) & Hh). apply Z.eqb_eq in Hq, Hw, Ho. apply negb_true_iff in Hh.
  destruct Hr as [(R & _)|(X & G & H & C)]; [congruence|].
  assert (Hb : lcb_le (lcb s) = false) by apply C.
  destruct (link_serves (LE := demo_env) X ([] ++ D) G H s) as (s' & E' & Hid); [done|..].
  - unfold window, outstanding, share. constructor; unfold window, outstanding, share, is_u16; rewrite ?Hb, ?Hq, ?Hw, ?Ho; done.
  - by rewrite Hq.
  - done.
  - unfold l2c_link_check_power_mode. by rewrite andb_false_r.
  - rewrite E' in Et. exists s, s'. split; [by destruct (packets (outs s))|]. split; [done|]. split; [done|]. split; [done|]. by apply Nat.eqb_eq.
Defined.

(** After the loop of the round robin the transport is read from the control block where it stopped.  A loop over all links that began at the
    first control block, as the one for a link of high priority does, or behind the last one stopped behind the last one, and when the controller
    has buffers left, it is read there: past the pool. *)
Theorem round_robin_reads_past_pool `{LE : LinkEnv} start s s1 : start = 0 \/ start = MAX_L2CAP_LINKS ->
  round_robin_turn false s = Ok (tt, s1) -> 0 <= lcb_index (lcb s1) < MAX_L2CAP_LINKS ->
  0 < controller_xmit_window (cb s1) -> round_robin_unacked (cb s1) < round_robin_quota (cb s1) ->
  round_robin start false s = Crash OutOfBounds.
Proof.
  intros Hs E Hi Hw Hq. unfold round_robin, mbind, L_bind. rewrite E. cbn [get].
  assert (Ee : round_robin_end start false s1 = MAX_L2CAP_LINKS).
  { unfold round_robin_end. replace ((start =? 0) || (start =? MAX_L2CAP_LINKS)) with true by lia. by destruct (rr_stop _). }
  assert (Ep : pool_le MAX_L2CAP_LINKS s1 = Crash OutOfBounds).
  { unfold pool_le. replace (MAX_L2CAP_LINKS =? lcb_index (lcb s1)) with false by lia. done. }
  cbv zeta. rewrite Ee, Ep. replace ((0 <? controller_xmit_window (cb s1)) && (round_robin_unacked (cb s1) <? round_robin_quota (cb s1))) with true by lia.
  done.
Qed.

(** ** Negotiation of the mode *)

(** [l2c_fcr_renegotiate_chan] is meant to offer basic mode to a peer that has refused enhanced retransmission mode.
    It never does: it tests the bits of the mode preferred against those of basic mode, which are none. *)
Theorem renegotiate_never_resends `{LE : LinkEnv} p_cfg s r s' : l2c_fcr_renegotiate_chan p_cfg s = Ok (r, s') -> r.1 = false.
Proof.
  intros E. assert (Hr : ends (l2c_fcr_renegotiate_chan p_cfg) s (fun r _ => r.1 = false)); [|unfold ends in Hr; by rewrite E in Hr].
  clear E. unfold l2c_fcr_renegotiate_chan. apply ends_bind, ends_get_ccb. destruct (_ || _); [done|]. cbv zeta.
  apply ends_bind. apply (ends_mono _ _ (fun r _ => r.1 = false)).
  - destruct (_ && _); [|done]. apply ends_bind, ends_upd_ccb. apply ends_bind. apply (ends_mono _ _ (fun r _ => r = false)).
    + destruct (_ =? _); [|done]. apply ends_bind. apply (ends_mono _ _ (fun _ _ => True)); [by apply ends_true|].
      intros rcb s1 _. unfold L2CAP_FCR_BASIC_MODE. by rewrite Z.land_0_r.
    + by intros ? s1 ->.
  - intros [sent p] s1 E. cbn in E. subst sent. apply ends_bind. apply (ends_mono _ _ (fun _ _ => True)); [by apply ends_true|]. done.
Qed.

(** ** Two hosts *)




