(* ===== verification/L2cSetupThms.v ===== *)
(** * L2cSetupThms: theorems on setting a channel up

    The commands of the peer and the state machine of the channel, and the way from there to the delivery of data. *)

From Stdlib Require Import ZArith Lia.
From stdpp Require Import base list relations.
From S2P Require Import Prelude Osi L2cDefs L2cFcr L2cSig L2cCsm L2cCmd L2cRun L2cOptions L2cInv L2cTx L2cLink L2cDrain L2cEvents L2cSetup L2cSetupCsm L2cSetupMachine L2cSetupCmd L2cNet L2cSetupEvents L2cThms.

(** A link without the channel: its control block is free, nothing waits to be sent and nothing has happened. *)
Record idle_link (s : l2c) : Prop := {
  il_use : in_use (ccb s) = false;
  il_empty : fcrb (ccb s) = zero_FCRB /\ xmit_hold_q (ccb s) = None /\ has_lcb (ccb s) = false;
  il_cid : L2CAP_BASE_APPL_CID <= local_cid (ccb s) < L2CAP_BASE_APPL_CID + MAX_L2CAP_CHANNELS;
  il_bredr : lcb_le (lcb s) = false;
  il_timer : info_resp_timer (lcb s) <> None;
  il_mask : length (peer_chnl_mask (lcb s)) = 8%nat;
  il_queue : link_xmit_data_q (lcb s) = [];
  il_rr : rr_bound (lcb s) = true;
  il_outs : outs s = [];
}.

(** ** Two hosts to compute with *)

Definition demo_rcb : tL2C_RCB := mk_RCB true true true L2CAP_FCR_ERTM_MODE true true true true true 0x1001 0x1001 672 48.
Definition demo_sig (r : tL2C_RCB) : SigEnv :=
  Build_SigEnv true 1025 (fun _ => false) (fun _ psm => if psm =? 0x1001 then Some r else None) (fun _ _ => false) (fun _ => Some true)
    (fun _ => 1021) (fun _ => true) (fun _ => Some BTM_SUCCESS) (fun _ => false) (fun _ => 0).
Definition demo_idle (cid : Z) : l2c :=
  (demo_st cid 0) <| ccb ::= fun c => c <| in_use := false |> <| has_lcb := false |> <| p_rcb := None |> <| fcrb := zero_FCRB |> <| xmit_hold_q := None |> |>.

(** The packets [xs] arrive; the controller has sent what it was given. *)
Definition arrive_all (xs : list (list Z)) : list setup_event := map (fun x => SRcv (demo_acl ([1; 0x20] ++ drop 2 x))) xs.
Definition feed (r : tL2C_RCB) (s : l2c) (es : list setup_event) : l2c :=
  match setup_run (LE := demo_env) (SE := demo_sig r) es s with Ok (_, s') => s' | Crash _ => s end.
Definition new_packets (s s' : l2c) : list (list Z) := drop (length (packets (outs s))) (packets (outs s')).

(** The hosts talk to each other in [n] turns, the first with the packets [xs] from the second; what happens to each. *)
Fixpoint talk (n : nat) (sa sb : l2c) (xs : list (list Z)) : list setup_event * list setup_event :=
  match n with
  | O => ([], [])
  | S n =>
      let ea := arrive_all xs in
      let sa' := feed demo_rcb sa ea in
      let ys := new_packets sa sa' in
      let eb := arrive_all ys ++ [SCompleted 2] in
      let sb' := feed demo_rcb sb eb in
      let r := talk n (feed demo_rcb sa' [SCompleted 2]) sb' (new_packets sb sb') in
      (ea ++ [SCompleted 2] ++ r.1, eb ++ r.2)
  end.
Definition connect_events : list setup_event * list setup_event :=
  let sa := feed demo_rcb (demo_idle 0x40) [SConnect 0x1001] in
  let eb := arrive_all (new_packets (demo_idle 0x40) sa) in
  let sb := feed demo_rcb (demo_idle 0x41) eb in
  let r := talk 4 sa sb (new_packets (demo_idle 0x41) sb) in
  (SConnect 0x1001 :: r.1, eb ++ r.2).
Definition open_a : l2c := feed demo_rcb (demo_idle 0x40) connect_events.1.
Definition open_b : l2c := feed demo_rcb (demo_idle 0x41) connect_events.2.

(** A request for a configuration of the channel [0x41], with the options [opts]. *)
Definition config_request (id : Z) (opts : list Z) : setup_event :=
  let n := Z.of_nat (length opts) in
  SRcv (demo_acl ([1; 0x20] ++ le16 (n + 12) ++ le16 (n + 8) ++ le16 L2CAP_SIGNALLING_CID ++ [L2CAP_CMD_CONFIG_REQ; id] ++ le16 (n + 4) ++ le16 0x41 ++ le16 0 ++ opts)).

(** A registration as that of BNEP: basic mode, and no function to call when an open channel is configured again. *)
Definition bnep_rcb : tL2C_RCB := mk_RCB true true true L2CAP_FCR_BASIC_MODE true true false true true 15 15 1691 1691.
Definition bnep_sig : SigEnv :=
  Build_SigEnv true 1025 (fun _ => false) (fun _ psm => if psm =? 15 then Some bnep_rcb else None) (fun _ _ => false) (fun _ => Some true)
    (fun _ => 1021) (fun _ => true) (fun _ => Some BTM_SUCCESS) (fun _ => false) (fun _ => 0).
Definition bnep_events : list setup_event :=
  [SRcv (demo_acl ([1; 0x20] ++ le16 12 ++ le16 8 ++ le16 L2CAP_SIGNALLING_CID ++ [L2CAP_CMD_CONN_REQ; 1] ++ le16 4 ++ le16 15 ++ le16 0x40));
   SRcv (demo_acl ([1; 0x20] ++ le16 14 ++ le16 10 ++ le16 L2CAP_SIGNALLING_CID ++ [L2CAP_CMD_CONFIG_RSP; 2] ++ le16 6 ++ le16 0x41 ++ le16 0 ++ le16 0));
   config_request 3 ([L2CAP_CFG_TYPE_MTU; L2CAP_CFG_MTU_OPTION_LEN] ++ le16 1691)].

(** A channel for which a configuration has been offered and accepted, and a request of the peer for basic mode. *)
Definition offered_events : list setup_event :=
  [SRcv (demo_acl ([1; 0x20] ++ le16 12 ++ le16 8 ++ le16 L2CAP_SIGNALLING_CID ++ [L2CAP_CMD_CONN_REQ; 2] ++ le16 4 ++ le16 0x1001 ++ le16 0x40));
   SRcv (demo_acl ([1; 0x20] ++ le16 14 ++ le16 10 ++ le16 L2CAP_SIGNALLING_CID ++ [L2CAP_CMD_CONFIG_RSP; 2] ++ le16 6 ++ le16 0x41 ++ le16 0 ++ le16 0))].
Definition basic_request : setup_event := config_request 3 ([L2CAP_CFG_TYPE_MTU; L2CAP_CFG_MTU_OPTION_LEN] ++ le16 1691).

(** Two options that are not known, the second of them a hint, and one that is. *)
Definition odd_options : list Z := [0x55; 2; 7; 8; 0xD5; 1; 9] ++ [L2CAP_CFG_TYPE_MTU; L2CAP_CFG_MTU_OPTION_LEN] ++ le16 100.
Definition odd_request : BT_HDR := demo_acl (le16 0x41 ++ le16 0 ++ odd_options).

(** ** Requests for the mode that the registration prefers *)

(** A request without the option asks for basic mode. *)
Definition asked_mode (g : tL2CAP_CFG_INFO) : Z := if fcr_present g then fcr_mode (cfg_fcr g) else L2CAP_FCR_BASIC_MODE.

(** What else it asks for is accepted: an MTU that is not too small, a flush timeout that is not zero, a known type of service. *)
Definition acceptable (r : tL2C_RCB) (g : tL2CAP_CFG_INFO) : bool :=
  let required := Z.max L2CAP_MIN_MTU (rcb_required_remote_mtu r) in
  (if mtu_present g then required <=? cfg_mtu g else required <=? L2CAP_DEFAULT_MTU) &&
  negb (flush_to_present g && (cfg_flush_to g =? 0)) &&
  (negb (qos_present g) || (service_type (cfg_qos g) <=? SVC_TYPE_GUARANTEED)).

(** Only options of the peer are stored in the channel. *)
Definition only_options (c c' : tL2C_CCB) : Prop :=
  c' = c <| peer_cfg := peer_cfg c' |> <| out_cfg_fcr_present := out_cfg_fcr_present c' |> <| tx_mps := tx_mps c' |>.

Definition keeps_link (s s' : l2c) : Prop :=
  (lcb s' = lcb s \/ lcb s' = (lcb s) <| w4_info_rsp := false |>) /\ outs s' = outs s.

(** One option of a request was looked at: whether it is accepted, the part of the request that is still as it was, and the channel. *)
Definition option_asked {T} (part : tL2CAP_CFG_INFO -> T) (ok : bool) (g : tL2CAP_CFG_INFO) (s : l2c) (x : bool * tL2CAP_CFG_INFO) (s' : l2c) : Prop :=
  x.1 = ok /\ part x.2 = part g /\ only_options (ccb s) (ccb s') /\ keeps_link s s'.

Definition but_mtu (g : tL2CAP_CFG_INFO) := (cfg_fcr g, flush_to_present g, cfg_flush_to g, qos_present g, cfg_qos g).
Definition but_flush_to (g : tL2CAP_CFG_INFO) := (cfg_fcr g, qos_present g, cfg_qos g).

(** A request of the peer for enhanced retransmission mode with a window of [w] frames and an MTU that is too small. *)
Definition narrow_request (w : Z) : tL2CAP_CFG_INFO :=
  zero_CFG_INFO <| mtu_present := true |> <| cfg_mtu := 10 |> <| fcr_present := true |> <| cfg_fcr := demo_opts <| tx_win_sz := w |> |>.

(** The packets of a list of events, checked by computation. *)
Definition valid_setupb (e : setup_event) : bool :=
  match e with
  | SRcv p => (0 <=? bh_offset p) && (4 <=? bh_len p) && (bh_offset p + bh_len p <=? Z.of_nat (length (bh_data p))) && (bh_offset p + bh_len p <? 65536) &&
              forallb is_byteb (bh_payload p) && not_data p
  | SLink event => link_event event
  | SShare _ _ high quota => rr_ok 0 high quota
  | SModeOff => false
  | _ => true
  end.

(** The channels that the two hosts have opened, and an SDU sent on them. *)
Definition opened_net : net := mk_net (mk_host demo_env open_a []) (mk_host demo_env open_b []) [] [].
Definition opened_sent : net := arrive_b (step_a opened_net demo_write []).

(** * Lemmas *)

Lemma idle_inv s : idle_link s -> setup_inv s.
Proof.
  intros [H1 (H2 & H3 & H4) H5 H6 H7 H8 H9 H11 H10]. exists (ccb s). split; [constructor; [done| |by rewrite H10]|by right].
  constructor; [done|done|done|done|by rewrite H9].
Qed.

Lemma demo_env_ok r : rcb_ok r -> env_ok (LE := demo_env) (SE := demo_sig r).
Proof. intros Hr. constructor; [done|done|]. intros o psm r'. cbn. case_match; [by intros [= <-]|done]. Qed.

Lemma demo_rcb_ok : rcb_ok demo_rcb.
Proof. constructor; try done. by right. Qed.

Lemma demo_idle_link cid : L2CAP_BASE_APPL_CID <= cid < L2CAP_BASE_APPL_CID + MAX_L2CAP_CHANNELS -> idle_link (demo_idle cid).
Proof. by constructor. Qed.

Lemma valid_setupb_ok es : forallb valid_setupb es = true -> Forall valid_setup es.
Proof.
  rewrite forallb_forall, List.Forall_forall. intros H e He. specialize (H e He). destruct e; try done. cbn in H. rewrite !andb_true_iff in H.
  destruct H as (((((H1 & H2) & H3) & H4) & H5) & H6). split; [|done]. apply Z.leb_le in H1, H2, H3. apply Z.ltb_lt in H4. constructor; [done..|by apply bytes_ok].
Qed.

Lemma setup_reached `{LE : LinkEnv} `{SE : SigEnv} s es s' : env_ok -> idle_link s -> Forall valid_setup es -> setup_run es s = Ok (tt, s') -> setup_inv s'.
Proof. intros HE Hs Hes E. pose proof (run_kept es s HE (idle_inv s Hs) Hes) as Hr. unfold runs in Hr. by rewrite E in Hr. Qed.

(** *** Requests for the preferred mode *)

Lemma only_options_refl c : only_options c c.
Proof. by destruct c. Qed.

Lemma only_options_trans c c1 c2 : only_options c c1 -> only_options c1 c2 -> only_options c c2.
Proof. unfold only_options. intros E1 E2. rewrite E2, E1. by destruct c. Qed.

Lemma keeps_link_stands c c' s s' : keeps_link s s' -> ccb s' = c' -> stands c s -> stands c' s'.
Proof.
  intros [El Eo] Ec [_ Hl Hd]. constructor; [done| |by rewrite Eo]. by destruct Hl, El as [-> | ->].
Qed.

Section Asked.
Context `{LE : LinkEnv} `{SE : SigEnv}.

Lemma keeps_link_refl s : keeps_link s s.
Proof. split; [by left|done]. Qed.

Lemma keeps_link_trans s s1 s2 : keeps_link s s1 -> keeps_link s1 s2 -> keeps_link s s2.
Proof. intros [[E1|E1] O1] [[E2|E2] O2]; (split; [|congruence]); rewrite E2, E1; auto. Qed.

(** The option of the mode, when it is the preferred one. *)
Lemma fcr_asked r g s : p_rcb (ccb s) = Some r -> has_lcb (ccb s) = true -> fcr_mode (cfg_fcr g) = preferred_mode r ->
  runs (l2c_fcr_process_peer_cfg_req g) s (fun x s' => x.1 = L2CAP_PEER_CFG_OK /\
    tx_win_sz (cfg_fcr (peer_cfg (ccb s'))) = tx_win_sz (cfg_fcr g) /\ fcr_mode (cfg_fcr (peer_cfg (ccb s'))) = fcr_mode (cfg_fcr g) /\
    only_options (ccb s) (ccb s') /\ keeps_link s s').
Proof.
  intros Hr Hl Em. unfold l2c_fcr_process_peer_cfg_req. lstep. apply runs_upd_lcb; [done|]. lstep. apply (runs_get_rcb r); [done|].
  lstep. lstep. cbv zeta. rewrite Em, Z.eqb_refl. cbn [negb]. lstep. lstep. rewrite Z.eqb_refl. lstep. lstep. lstep.
  split; [done|]. cbn [ccb lcb peer_cfg set set_ccb set_lcb set_out_cfg_fcr_present set_peer_cfg cfg_fcr set_cfg_fcr].
  split; [by repeat case_match|]. split; [by repeat case_match|]. split; [by destruct s as [[]]|]. split; [by right|done].
Qed.

Lemma asked_same {T} (part : tL2CAP_CFG_INFO -> T) (ok ok' : bool) g g' s : ok' = ok -> part g' = part g -> option_asked part ok g s (ok', g') s.
Proof. intros -> Ep. split; [done|]. split; [done|]. split; [apply only_options_refl|apply keeps_link_refl]. Qed.

Lemma asked_stored {T} (part : tL2CAP_CFG_INFO -> T) (ok ok' : bool) g g' f s : ok' = ok -> part g' = part g ->
  option_asked part ok g s (ok', g') (s <| ccb ::= fun c => c <| peer_cfg ::= f |> |>).
Proof. intros -> Ep. split; [done|]. split; [done|]. split; [by destruct s as [[]]|]. split; [by left|done]. Qed.

Lemma peer_cfg_req_asked r g s : p_rcb (ccb s) = Some r -> has_lcb (ccb s) = true -> asked_mode g = preferred_mode r ->
  runs (l2cu_process_peer_cfg_req g) s (fun x s' =>
    x.1 = (if acceptable r g then L2CAP_PEER_CFG_OK else L2CAP_PEER_CFG_UNACCEPTABLE) /\
    (acceptable r g = false -> cfg_result x.2 = L2CAP_CFG_UNACCEPTABLE_PARAMS) /\
    (fcr_present g = true -> tx_win_sz (cfg_fcr (peer_cfg (ccb s'))) = tx_win_sz (cfg_fcr g)) /\
    fcr_mode (cfg_fcr (peer_cfg (ccb s'))) = preferred_mode r /\ only_options (ccb s) (ccb s') /\ keeps_link s s').
Proof.
  intros Hr Hl Em. unfold l2cu_process_peer_cfg_req. lstep. apply (runs_get_rcb r); [done|]. lstep. lstep. cbv zeta.
  set (g1 := if fcr_present g then g else _). generalize (ccb s) at 1 2 3 4 5 6 7 8. intros c0.
  assert (E1 : fcr_mode (cfg_fcr g1) = preferred_mode r) by (rewrite <- Em; unfold asked_mode, g1; by destruct (fcr_present g)).
  assert (Ea : acceptable r g1 = acceptable r g) by (unfold g1; by destruct (fcr_present g)).
  assert (Ew : fcr_present g = true -> tx_win_sz (cfg_fcr g1) = tx_win_sz (cfg_fcr g)) by (unfold g1; by intros ->).
  rewrite <- Ea. clearbody g1. unfold acceptable. set (req := Z.max L2CAP_MIN_MTU (rcb_required_remote_mtu r)).
  lstep. apply (runs_mono _ _ (option_asked but_mtu (if mtu_present g1 then req <=? cfg_mtu g1 else req <=? L2CAP_DEFAULT_MTU) g1 s)).
  { rewrite Z.ltb_antisym. destruct (mtu_present g1); cbn [negb andb].
    - destruct (req <=? cfg_mtu g1); [lstep; lstep; lstep; apply asked_stored; [done|by case_match]|lstep; by apply asked_same].
    - destruct (req <=? L2CAP_DEFAULT_MTU); cbn [negb]; [case_match|]; lstep; by apply asked_same. }
  set (mtu_ok := if mtu_present g1 then _ else _). clearbody mtu_ok. intros [ok g2] s2 (Eo & P2 & O2 & K2). cbn [fst snd] in Eo, P2. subst ok. injection P2 as F2 T2 T2' Q2 Q2'.
  lstep. apply (runs_mono _ _ (option_asked but_flush_to (negb (flush_to_present g1 && (cfg_flush_to g1 =? 0))) g2 s2)).
  { rewrite <- T2, <- T2'. destruct (flush_to_present g2); cbn [andb]; [destruct (cfg_flush_to g2 =? 0); [|lstep; lstep; lstep; by apply asked_stored]|case_match];
      lstep; by apply asked_same. }
  set (flush_ok := negb _). clearbody flush_ok. intros [ok g3] s3 (Eo & P3 & O3 & K3). cbn [fst snd] in Eo, P3. subst ok. injection P3 as F3 Q3 Q3'.
  lstep. apply (runs_mono _ _ (option_asked cfg_fcr (negb (qos_present g1) || (service_type (cfg_qos g1) <=? SVC_TYPE_GUARANTEED)) g3 s3)).
  { rewrite <- Q2, <- Q2', <- Q3, <- Q3'. destruct (qos_present g3); cbn [negb orb]; [destruct (_ <=? _); [lstep; lstep; lstep; by apply asked_stored|]|case_match];
      lstep; by apply asked_same. }
  set (qos_ok := negb _ || _). clearbody qos_ok. intros [ok g4] s4 (Eo & P4 & O4 & K4). cbn [fst snd] in Eo, P4. subst ok.
  assert (O : only_options (ccb s) (ccb s4)) by (do 2 (eapply only_options_trans; [done|]); done).
  assert (K : keeps_link s s4) by (do 2 (eapply keeps_link_trans; [done|]); done).
  lstep. eapply runs_mono; [apply (fcr_asked r)|].
  - by rewrite O.
  - by rewrite O.
  - by rewrite P4, F3, F2.
  - intros [res g5] s5 (E5 & W5 & M5 & O5 & K5). cbn [fst] in E5. subst res.
    assert (O' : only_options (ccb s) (ccb s5)) by by eapply only_options_trans.
    assert (K' : keeps_link s s5) by by eapply keeps_link_trans. rewrite P4, F3, F2 in W5, M5.
    change (L2CAP_PEER_CFG_OK =? L2CAP_PEER_CFG_DISCONNECT) with false. rewrite Z.eqb_refl, andb_true_r. cbv iota zeta.
    destruct (mtu_ok && flush_ok && qos_ok) eqn:Eok.
    + lstep. unfold l2cu_adjust_out_mps. lstep. apply runs_get_lcb; [by rewrite O'|]. lstep. lstep. cbv zeta. lstep. lstep.
      split; [done|]. split; [done|]. split; [intros Hp; cbn; by rewrite W5, Ew|]. split; [cbn; by rewrite M5|].
      split; [eapply only_options_trans; [exact O'|]; by destruct s5 as [[]]|]. eapply keeps_link_trans; [exact K'|]. split; [by left|done].
    + lstep. split; [done|]. split; [done|]. split; [intros Hp; by rewrite W5, Ew|]. split; [by rewrite M5|]. by split.
Qed.
End Asked.

Lemma bind_runs {A B} (m : L A) (k : A -> L B) s a s1 : m s = Ok (a, s1) -> (m ≫= k) s = k a s1.
Proof. intros E. unfold mbind, L_bind. by rewrite E. Qed.

Lemma bind_crashes {A B} (m : L A) (k : A -> L B) s c : m s = Crash c -> (m ≫= k) s = Crash c.
Proof. intros E. unfold mbind, L_bind. by rewrite E. Qed.

Lemma start_timer_runs ms s t : l2c_ccb_timer (ccb s) = Some t ->
  start_ccb_timer ms s = Ok (tt, s <| ccb ::= fun c => c <| l2c_ccb_timer := Some (Some ms) |> |>).
Proof. intros Et. unfold start_ccb_timer. rewrite (bind_runs get_ccb _ s (ccb s) s), Et by done. done. Qed.

Lemma runs_returns {A} (m : L A) s : match m s with Ok _ => true | Crash _ => false end = true -> exists a s', m s = Ok (a, s').
Proof. destruct (m s) as [[a s']|]; [by exists a, s'|done]. Qed.

(** ** Theorems *)

(** C6: A channel from its allocation on, with a registration that has every callback the code calls without a test ([env_ok]; [rcb_ok]
    includes [pL2CA_ConfigInd_Cb], see [reconfiguration_without_callback]), on a BR/EDR link of normal priority with a share of its own, whose
    registration no other channel changes (see [shared_mode_crashes]): whatever packets, with whatever bytes, the peer sends on the signalling channel, and whatever
    the application, the link, the manager of security and the timers do in whatever order, [setup_run] handles it without an access out of
    bounds, a null pointer, a failed check or a loop; as long as there is no data on the channel.  A channel that is open then is one for which both
    sides have accepted the same mode, the one of the registration, with a segment size that the buffers have room for, and its timer
    does not run; a control block that is free has no queue, no timer and no link any more; and no data has been delivered. *)
Theorem setup_safe `{LE : LinkEnv} `{SE : SigEnv} s es : env_ok -> idle_link s -> Forall valid_setup es ->
  exists s', setup_run es s = Ok (tt, s') /\ (in_use (ccb s') = true -> chnl_state (ccb s') = CST_OPEN -> opened_well s') /\
    (in_use (ccb s') = false -> given_back s') /\ delivered (outs s') = [].
Proof.
  intros HE Hs Hes. pose proof (run_kept es s HE (idle_inv s Hs) Hes) as Hr. apply runs_inv in Hr as ([] & s' & E & Hi). exists s'. split; [done|].
  split; [by apply inv_opened|]. split; [by apply inv_given_back|]. destruct (inv_stands s' Hi) as (c & H & _). apply H.
Qed.

Lemma setup_safe_witness : exists s', setup_run (LE := demo_env) (SE := demo_sig demo_rcb) (connect_events.1 ++ [SDisconnect; SChannelTimer]) (demo_idle 0x40) = Ok (tt, s') /\
  (in_use (ccb s') = true -> chnl_state (ccb s') = CST_OPEN -> opened_well s') /\ (in_use (ccb s') = false -> given_back s') /\ delivered (outs s') = [].
Proof.
  apply (setup_safe (LE := demo_env) (SE := demo_sig demo_rcb)); [apply demo_env_ok, demo_rcb_ok|by apply demo_idle_link|]. apply valid_setupb_ok. by vm_compute.
Defined.


Lemma opened_run : rtc net_step opened_net opened_sent.
Proof.
  apply (rtc_l _ _ (step_a opened_net demo_write [])); [|apply rtc_once].
  - apply (event_a opened_net demo_write); [done|by apply demo_sdu_ok|by vm_compute].
  - apply arrived_b; by vm_compute.
Qed.


(** C23: What one end writes as the options of a request for a configuration is what the other end reads: from the bytes that
    [l2cu_send_peer_config_req] puts behind the flags, the loop of [process_l2cap_cmd] takes exactly the options that the sender's
    configuration has, with the same values, refuses none of them, and ends. *)
Theorem config_round_trip b pre g g0 post : cfg_ranged g -> ext_flow_spec_present g0 = false -> bh_data b = pre ++ cfg_options g (cfg_fcr g) true ++ post ->
  let cmd_len := L2CAP_CONFIG_REQ_LEN + cfg_len g true in
  exists g', parse_req_options (S (Z.to_nat cmd_len)) b (Z.of_nat (length pre)) (Z.of_nat (length pre) + cfg_len g true) cmd_len (no_options g0) false 0 =
    Ok (Some (g', false, 0)) /\ same_options g g'.
Proof.
  intros Hg He E cmd_len. rewrite opts_bytes in E. eexists. split; [|by apply (fold_same g g0)].
  assert (El : cfg_len g true = Z.of_nat (length (concat (map opt_bytes (opts_of g))))) by by rewrite <- opts_bytes, length_cfg_options.
  rewrite El, <- Nat2Z.inj_add, <- length_app. apply (parse_opts _ _ _ _ post); [by apply opts_ok|done|].
  pose proof (length_opts (opts_of g)). unfold cmd_len, L2CAP_CONFIG_REQ_LEN. lia.
Qed.

Lemma config_round_trip_witness : exists g', parse_req_options 20 (demo_acl (cfg_options demo_cfg (cfg_fcr demo_cfg) true)) 0 (0 + cfg_len demo_cfg true) 19 (no_options zero_CFG_INFO) false 0 =
  Ok (Some (g', false, 0)) /\ same_options demo_cfg g'.
Proof.
  assert (Hr : cfg_ranged demo_cfg) by (constructor; by vm_compute). exact (config_round_trip (demo_acl (cfg_options demo_cfg (cfg_fcr demo_cfg) true)) [] demo_cfg zero_CFG_INFO [] Hr eq_refl (eq_sym (app_nil_r _))).
Defined.

(** C24: A request for a configuration with options that are not known: they come back, all of them and nothing else, in
    the order and with the bytes of the request, but for those that are only hints; the answer is one packet of the signalling channel with the
    result for unknown options, it goes behind what the link has to send, and nothing of the channel changes but the identifier of
    the request. *)
Theorem unknown_options_refused `{LE : LinkEnv} `{SE : SigEnv} s b p cmd_len id flags g g' rl : setup_inv s -> in_use (ccb s) = true ->
  region b p (p + cmd_len) -> 4 <= cmd_len <= 660 -> read16 b p = Ok (local_cid (ccb s)) -> read16 b (p + 2) = Ok flags ->
  parse_req_options (S (Z.to_nat cmd_len)) b (p + 4) (p + cmd_len) cmd_len (no_options (g <| cfg_flags := flags |>)) false 0 = Ok (Some (g', true, rl)) ->
  let c := (ccb s) <| remote_id := id |> in
  runs (cmd_config_req b p (p + cmd_len) cmd_len id g) s (fun _ s' =>
    drains [rej_packet (lcb s) c (refused (Z.to_nat cmd_len) cmd_len (slice (bh_data b) (p + 4) (cmd_len - 4)))] (s <| ccb := c |>) s').
Proof.
  intros Hi Hu HR Hc E1 E2 Ep c. destruct (inv_live_in_use s Hi Hu) as (r & Hst & HL & _). unfold cmd_config_req. destruct (Z.ltb_spec (p + cmd_len) (p + 4)); [lia|].
  known E1. known E2. known Ep. assert (HR' : region b (p + 4) (p + cmd_len)) by (eapply region_sub; [done|lia|lia]).
  destruct (parse_walks b (p + 4) (p + cmd_len) cmd_len _ HR' _ _ _ _ _ _ _ (Z.le_refl _) Ep) as (bs & Hw & Hbl & Hrl). rewrite Hrl by lia. rewrite Z.add_0_l.
  assert (Ebs : bs = refused (Z.to_nat cmd_len) cmd_len (slice (bh_data b) (p + 4) (cmd_len - 4))).
  { replace (cmd_len - 4) with (p + cmd_len - (p + 4)) by lia. apply walks_refused; [done|lia]. }
  rewrite <- Ebs. astep. apply (for_channel_mine r (ccb s)); [done|done|done|]. astep. apply runs_upd_ccb. set (s1 := s <| ccb ::= _ |>).
  assert (Hst1 : stands c s1) by by destruct Hst. assert (HL1 : live r c) by by live_upd HL. change (s <| ccb := c |>) with s1. change (lcb s) with (lcb s1).
  rewrite u16_id by (unfold is_u16, L2CAP_CONFIG_REQ_LEN; lia). unfold L2CAP_CONFIG_REQ_LEN. astep.
  apply (config_rej_sends c s1 b (p + 4) (cmd_len - 4) (p + cmd_len) cmd_len bs); [done|apply HL1|lia|lia|apply HR|done|lia|].
  intros b' Eb. unfold ccb_check_send_pkts. astep. astep. rewrite (lv_lcb _ _ HL1).
  eapply runs_mono; [by apply check_send_drains; eapply stands_unserved; [done|eapply live_nothing_held]|]. cbv beta iota. rewrite Eb. intros [] s' Hd. by astep; astep.
Qed.

Lemma unknown_options_refused_witness : let c := (ccb open_b) <| remote_id := 9 |> in
  runs (cmd_config_req (LE := demo_env) (SE := demo_sig demo_rcb) odd_request 0 (0 + 15) 15 9 zero_CFG_INFO) open_b (fun _ s' =>
    drains [rej_packet (SE := demo_sig demo_rcb) (lcb open_b) c [0x55; 2; 7; 8]] (open_b <| ccb := c |>) s').
Proof.
  assert (Hi : setup_inv open_b).
  { apply (setup_reached (LE := demo_env) (SE := demo_sig demo_rcb) (demo_idle 0x41) connect_events.2); [apply demo_env_ok, demo_rcb_ok|by apply demo_idle_link| |by vm_compute].
    apply valid_setupb_ok. by vm_compute. }
  assert (HR : region odd_request 0 (0 + 15)).
  { constructor; [done|by vm_compute|]. intros i x Hx E. eapply (Forall_lookup_1 _ (bh_data odd_request)); [by apply bytes_ok|exact E]. }
  destruct (parse_req_options 16 odd_request 4 15 15 (no_options (zero_CFG_INFO <| cfg_flags := 0 |>)) false 0) as [[[[g' [|]] rl]|]|] eqn:Ep; try (vm_compute in Ep; discriminate Ep).
  assert (Eu : in_use (ccb open_b) = true) by by vm_compute. assert (E1 : read16 odd_request 0 = Ok (local_cid (ccb open_b))) by by vm_compute.
  assert (E2 : read16 odd_request (0 + 2) = Ok 0) by by vm_compute. assert (Hl : 4 <= 15 <= 660) by lia.
  assert (Er : refused (Z.to_nat 15) 15 (slice (bh_data odd_request) (0 + 4) (15 - 4)) = [0x55; 2; 7; 8]) by by vm_compute.
  pose proof (unknown_options_refused (LE := demo_env) (SE := demo_sig demo_rcb) open_b odd_request 0 15 9 0 zero_CFG_INFO g' rl Hi Eu HR Hl E1 E2 Ep) as Hr.
  rewrite Er in Hr. exact Hr.
Defined.

(** ** What the peer can bring about *)

(** C27: A request that is refused still changes the channel: [l2cu_process_peer_cfg_req] hands it to [l2c_fcr_process_peer_cfg_req], which stores
    the peer's options of enhanced retransmission mode, before it has found the other options acceptable.  For every channel that is open in that mode, in
    the invariant of [setup_safe], and every request for it with another option that is not acceptable (a small MTU, say): the peer is told that it is
    refused, the channel stays open, and its window is the one of the request, whatever it is. *)
Theorem refused_request_sets_window `{LE : LinkEnv} `{SE : SigEnv} s r g : setup_inv s -> in_use (ccb s) = true -> chnl_state (ccb s) = CST_OPEN ->
  p_rcb (ccb s) = Some r -> preferred_mode r = L2CAP_FCR_ERTM_MODE ->
  fcr_present g = true -> fcr_mode (cfg_fcr g) = L2CAP_FCR_ERTM_MODE -> acceptable r g = false ->
  exists g' s', l2c_csm_execute (L2CAP_CONFIG_REQ g) s = Ok (Some g', s') /\ cfg_result g' = L2CAP_CFG_UNACCEPTABLE_PARAMS /\
    in_use (ccb s') = true /\ chnl_state (ccb s') = CST_OPEN /\ fcr_mode (cfg_fcr (peer_cfg (ccb s'))) = L2CAP_FCR_ERTM_MODE /\
    peer_win s' = tx_win_sz (cfg_fcr g).
Proof.
  intros Hi Hu Ho Er Ep Hf Em Ha. destruct (inv_live_in_use s Hi Hu) as (r' & Hst & HL & _). assert (r' = r) as -> by (pose proof (lv_rcb _ _ HL); congruence).
  enough (Hr : runs (l2c_csm_execute (L2CAP_CONFIG_REQ g)) s (fun x s' => exists g', x = Some g' /\ cfg_result g' = L2CAP_CFG_UNACCEPTABLE_PARAMS /\
    in_use (ccb s') = true /\ chnl_state (ccb s') = CST_OPEN /\ fcr_mode (cfg_fcr (peer_cfg (ccb s'))) = L2CAP_FCR_ERTM_MODE /\ peer_win s' = tx_win_sz (cfg_fcr g))).
  { apply runs_inv in Hr as (x & s' & E & g' & -> & H). by exists g', s'. }
  unfold l2c_csm_execute, CSM_DEPTH. apply (execute_at _ (ccb s) s _ CST_OPEN); [done..|]. cbn [l2c_csm_open]. astep. unfold reconfig_peer_req.
  clear Hi. remember (ccb s) as c eqn:Ec. clear Ec. astep. astep. cbv zeta. astep. astep. astep. astep; [apply HL|]. astep. eapply runs_mono.
  { apply (peer_cfg_req_asked r); [by rewrite (sd_ccb _ _ Hst)|rewrite (sd_ccb _ _ Hst); apply HL|]. unfold asked_mode. by rewrite Hf, Em. }
  intros [res g1] s1 (E1 & R1 & W1 & M1 & O1 & K1). rewrite Ha in E1, R1. cbn [fst snd] in E1, R1. subst res. specialize (R1 eq_refl). specialize (W1 Hf).
  pose proof (keeps_link_stands _ _ _ _ K1 eq_refl Hst) as Hst1. rewrite (sd_ccb _ _ Hst) in O1. rewrite Ep in M1. clear Hst K1. set (c1 := ccb s1) in *. clearbody c1.
  change (L2CAP_PEER_CFG_UNACCEPTABLE =? L2CAP_PEER_CFG_OK) with false. rewrite Z.eqb_refl. cbv iota. astep. astep. astep. astep. astep.
  eapply config_rsp_st; [done|by rewrite O1; apply HL|rewrite O1; exact (live_nothing_held _ _ HL)|]. clear s1 Hst1. intros s2 H2. astep. astep.
  exists g1. unfold peer_win. rewrite (sd_ccb _ _ H2). split; [done|]. split; [done|]. split; [by rewrite O1; cbn; apply HL|]. split; [done|]. by split.
Qed.

(** The window of a channel that was opened with one of 10 becomes 200 frames wide, more than the 64 sequence numbers tell apart. *)
Lemma refused_request_sets_window_witness : peer_win open_b = 10 /\
  exists g' s', l2c_csm_execute (LE := demo_env) (SE := demo_sig demo_rcb) (L2CAP_CONFIG_REQ (narrow_request 200)) open_b = Ok (Some g', s') /\
    cfg_result g' = L2CAP_CFG_UNACCEPTABLE_PARAMS /\ in_use (ccb s') = true /\ chnl_state (ccb s') = CST_OPEN /\
    fcr_mode (cfg_fcr (peer_cfg (ccb s'))) = L2CAP_FCR_ERTM_MODE /\ peer_win s' = 200.
Proof.
  split; [by vm_compute|].
  apply (refused_request_sets_window (LE := demo_env) (SE := demo_sig demo_rcb) open_b demo_rcb (narrow_request 200)); [|by vm_compute..].
  apply (setup_reached (LE := demo_env) (SE := demo_sig demo_rcb) (demo_idle 0x41) connect_events.2); [apply demo_env_ok, demo_rcb_ok|by apply demo_idle_link| |by vm_compute].
  apply valid_setupb_ok. by vm_compute.
Defined.

(** C28: [L2CA_Register] accepts a registration without [pL2CA_ConfigInd_Cb], and BNEP makes such a one (bnep_main.cc sets it to [nullptr]), but the
    state machine calls it without a test when the peer asks for a new configuration of an open channel: for every open channel with such a
    registration, every request for the mode of the registration whose other options are acceptable calls the null pointer. *)
Theorem reconfiguration_without_callback `{LE : LinkEnv} `{SE : SigEnv} s r g : in_use (ccb s) = true -> chnl_state (ccb s) = CST_OPEN ->
  has_lcb (ccb s) = true -> l2c_ccb_timer (ccb s) <> None -> p_rcb (ccb s) = Some r -> has_ConfigInd_Cb r = false ->
  asked_mode g = preferred_mode r -> acceptable r g = true ->
  l2c_csm_execute (L2CAP_CONFIG_REQ g) s = Crash NullDeref.
Proof.
  intros Hu Ho Hl Ht Er Hc Em Ha. unfold l2c_csm_execute, CSM_DEPTH. cbn [csm_execute]. rewrite (bind_runs get_ccb _ s (ccb s) s), Hu, Ho by done.
  cbn [negb l2c_csm_open]. apply bind_crashes. unfold reconfig_peer_req. rewrite (bind_runs get_ccb _ s (ccb s) s) by done. cbv zeta.
  erewrite (bind_runs (upd_ccb _)) by done. destruct (l2c_ccb_timer (ccb s)) as [t|] eqn:Et; [|done].
  erewrite (bind_runs (start_ccb_timer _)) by (eapply start_timer_runs; exact Et).
  match goal with |- (_ ≫= _) ?x = _ => set (s2 := x) end.
  assert (Er2 : p_rcb (ccb s2) = Some r) by done. assert (Hl2 : has_lcb (ccb s2) = true) by done. clearbody s2. clear Hu Ho Hl Ht Er Et.
  pose proof (peer_cfg_req_asked r g s2 Er2 Hl2 Em) as Hr. apply runs_inv in Hr as ([res g3] & s3 & E3 & Hres & _ & _ & _ & O3 & _).
  cbn [fst] in Hres. rewrite Ha in Hres. subst res. rewrite (bind_runs _ _ _ _ _ E3), Z.eqb_refl. cbv iota. apply bind_crashes, bind_crashes. unfold callback.
  assert (Eg : get_rcb s3 = Ok (r, s3)).
  { unfold get_rcb. rewrite (bind_runs get_ccb _ s3 (ccb s3) s3) by done. rewrite O3. cbn [p_rcb set set_peer_cfg set_out_cfg_fcr_present set_tx_mps]. by rewrite Er2. }
  rewrite (bind_runs _ _ _ _ _ Eg), Hc. done.
Qed.

(** The last request of a session with BNEP, whose packets are all good ones. *)
Lemma reconfiguration_without_callback_witness : exists s', setup_run (LE := demo_env) (SE := bnep_sig) bnep_events (demo_idle 0x41) = Ok (tt, s') /\
  l2c_csm_execute (LE := demo_env) (SE := bnep_sig) (L2CAP_CONFIG_REQ (zero_CFG_INFO <| mtu_present := true |> <| cfg_mtu := 1691 |>)) s' = Crash NullDeref.
Proof.
  exists (match setup_run (LE := demo_env) (SE := bnep_sig) bnep_events (demo_idle 0x41) with Ok (_, s') => s' | Crash _ => demo_idle 0x41 end).
  split; [by vm_compute|]. apply (reconfiguration_without_callback (LE := demo_env) (SE := bnep_sig) _ bnep_rcb); by vm_compute.
Defined.

(** The channels of a registration share its preferred mode.  When another channel gives it up between the configuration that was offered
    and the one of the peer, the peer's is accepted in the other mode, the channel is released because the modes differ, and the
    state machine goes on with the released channel: the same packets, without the other channel, are handled. *)
Theorem shared_mode_crashes :
  setup_run (LE := demo_env) (SE := demo_sig demo_rcb) (offered_events ++ [SModeOff; basic_request]) (demo_idle 0x41) = Crash NullDeref /\
  exists s', setup_run (LE := demo_env) (SE := demo_sig demo_rcb) (offered_events ++ [basic_request]) (demo_idle 0x41) = Ok (tt, s').
Proof.
  split; [by vm_compute|].
  destruct (runs_returns (setup_run (LE := demo_env) (SE := demo_sig demo_rcb) (offered_events ++ [basic_request])) (demo_idle 0x41)) as ([] & s' & E); [by vm_compute|].
  by exists s'.
Qed.
